(* ===== verification/_CoqProject ===== *)
-Q . S2P
Prelude.v
Text.v
Paths.v
Errors.v
Types.v
Store.v
Features.v
World.v
Demo.v
Service.v
Config.v
Float64.v
Kube.v
KubeBackend.v
Ops.v
Files.v
Static.v
HostFiles.v
Cli.v
Create.v
Docker.v
SandboxApi.v
Tasks.v
KubeService.v
Lifecycle.v
Postgres.v
Activities.v
Ssh.v
SshStatistics.v
Auth.v
Gateway.v
Sockets.v
Server.v
Wire.v
Terminal.v
TerminalStreams.v
Commands.v
CommandDemo.v
CommandSpecs.v
CommandRoutes.v
CommandBodies.v
CommandStream.v
Migration.v
McpSettings.v
McpClient.v
McpWeb.v
McpTools.v
