(* ===== verification/Prelude.v ===== *)
(** * DSB (Distributed Sandboxes): verification library

    DSB is a server, written in Rust, that keeps sandboxes: containers with a
    record, an owner and a life cycle.  A request reaches an HTTP handler, which
    checks who calls ([src/api/]) and calls a service ([src/core/]); the service
    reads and writes records in a store ([src/core/state.rs] in memory,
    [src/db/store/] in PostgreSQL) and drives a container backend
    ([src/docker/], [src/k8s/]) behind a trait.  Background tasks sweep the
    records.  This library models the records, the stores, the services and the
    background passes, and proves what they promise.

    ** How the code is modelled

    Stateful code is a function in the state monad [M] below, over a [World]
    (file [World]) that holds the store, the backend, the activity log, the
    spawned tasks, the events sent to a client, and what the clocks and the UUID
    generator will answer.  [let*] is the [?] operator, [let?] the same on pure
    results, [for_each] a loop with effects.  Theorems about such code are
    stated with [wp]: running the code gives a value and a state with a
    property.  There is no partiality hidden in [wp]: every modelled function is
    total.  Loops that poll take fuel and return [None] when it is used up; the
    theorems on them say how much is enough (ten polls a second, as the interval
    of 100 ms gives, and two more).  Panics, where the code can panic, are [None]
    results too.  Integers are [Z] with their wrap-around written out
    ([u64_wrap] and the like); times are nanoseconds.

    External code is a parameter: a class per library ([UuidLib], [ChronoLib],
    [PgLib], [SerdeJson], [LabelParser], [BcryptLib], ..) with its documented
    laws in a class of its own ([ChronoLaws], [PgLaws], ..), and the backend as
    the class [SandboxManager], about which nothing is assumed.  Each property
    with hypotheses has a witness at a concrete world ([Demo]).

    ** The files

    - [Prelude]: this file; results, the state monad and its program logic,
      machine integers, hint databases and tactics.
    - [Text], [Paths], [Float64]: the standard library the code uses: strings
      (search, split, trim, numbers, [Debug] output), paths and their
      components, and doubles.
    - [Errors]: error codes, the error types of every layer and their
      conversions, the problem response ([core/mod.rs], [api/errors.rs],
      [core/manager.rs], [docker/docker_trait.rs], [docker/manager/]).
    - [Types]: the data model ([core/types.rs]).
    - [Store]: the store interface with its contract, and the in-memory store
      ([core/store_trait.rs], [core/state.rs]).
    - [Features]: image features, their selection and merging
      ([core/features.rs]).
    - [World], [Demo]: the world, the backend and activity interfaces
      ([core/manager.rs], [core/activities.rs]), and a concrete instance.
    - [Service]: settings, resource limits, ownership, activity records and the
      tool health check ([core/sandbox.rs], [core/sandbox/constructor.rs]), and
      the rules on which the proofs about the service rest.
    - [Config]: the configuration: sections and defaults, validator, sources and
      their order ([config/]), and the service made from it ([api/server/mod.rs]).
    - [Kube]: the custom resource, and the pod and service made from it
      ([k8s/types.rs], [crd.rs], [manager/builders.rs], [manager/helpers.rs]).
    - [KubeBackend]: the Kubernetes backend and its operator ([k8s/manager/],
      [k8s/operator.rs]), the documented behaviour of the API server ([KubeLaws])
      and a cluster that has it ([KubeDemo]).
    - [Ops]: start, stop, delete, restore, clean-up, activity, statistics,
      execution ([core/sandbox/lifecycle.rs], [cleanup.rs], [activity.rs],
      [exec.rs]).
    - [Files]: paths of clients, uploads and downloads, and their handlers
      ([core/sandbox/files.rs], [api/handlers/sandbox.rs]); [Static]: published
      files on a backend ([core/static_files.rs], [api/handlers/static_files.rs]);
      [HostFiles]: those on the host, and their archive.  The first two contain what they need of the shell and of the container's file
      system to say what their commands do.
    - [Cli]: the parsers of the command line ([cli/]).
    - [Create]: creation, plain and streamed, with the spawned health check
      ([core/sandbox/create.rs]).
    - [Docker]: the Docker backend ([docker/manager/]).
    - [SandboxApi]: the HTTP handlers of sandboxes ([api/handlers/sandbox.rs]).
    - [Tasks]: one pass of each background task ([core/sandbox/tasks.rs]).
    - [KubeService]: the service on the Kubernetes backend, with the
      reconciliation at startup ([api/server/mod.rs]).
    - [Lifecycle]: the operations as one transition system, and the abstract
      machine of a record that it refines.
    - [Postgres]: rows, statements and listings of the PostgreSQL store
      ([db/store/]), which meets the contract of [Store].
    - [Activities]: the activity log, its queries and its handlers
      ([db/activities.rs], [core/activities.rs], [api/handlers/activities.rs]).
    - [Ssh], [SshStatistics]: SSH session rows, store, service, clean-up pass,
      handlers and statistics ([db/ssh_sessions.rs], [core/ssh_service.rs],
      [api/handlers/ssh.rs]).
    - [Auth]: API keys, the authentication middleware and login, session tokens
      ([db/api_key_store.rs], [api/auth.rs], [session_token.rs],
      [db/session_token_store.rs], [api/session_tokens.rs]).
    - [Gateway]: the SSH gateway ([ssh-gateway/]): its handlers as steps of a
      transition system, with the tasks that forward output.
    - [Sockets]: the VNC proxy and the web terminal behind the middleware
      ([vnc_proxy.rs], [web_terminal.rs]), and what their connections carry.
    - [Server]: the routes and their layers, request logging, error pages, and
      the handlers of administration, images, health and settings
      ([api/server/mod.rs], [api/logging.rs], [api/error_handler.rs],
      [api/handlers/]).
    - [Wire]: what the handlers read of JSON bodies, and the JSON of events.
    - [Terminal]: the PTY of a container and the relay of [dsb ssh], tasks and
      channels in a transition system ([docker/exec_proxy.rs],
      [cli/commands/sandbox.rs]); [TerminalStreams]: the terminals of both
      backends, behind one interface ([docker/manager/terminal.rs],
      [k8s/manager/exec.rs]).
    - [Commands], [CommandDemo]: the commands of the command line
      ([cli/commands/], [cli/display.rs]), and a terminal to run them on;
      [CommandSpecs]: what a command asks, and how it ends; [CommandRoutes]: the
      handler it reaches; [CommandBodies]: what this handler reads;
      [CommandStream]: the events of a creation.
    - [Migration]: the schema of the database, its migrations, and the wait for
      the database at startup ([db/migration.rs], [db/pool.rs]).
    - [McpSettings], [McpClient], [McpWeb], [McpTools]: the MCP server
      ([dsb-mcp-server/]), a client of the API: its settings, its requests and
      its sessions; pages, searches and retrieval with the guard on URLs; and
      the tools of its services.

    ** What the theorems show

    - Interfaces and refinement.  [StoreContract] says what the service relies
      on; both stores meet it.  Every transition of the service refines the
      abstract machine of [Lifecycle] ([step_refines]), whence the invariants:
      a deleted record has no container, a running one has one, no record is
      dropped or changes owner.
    - Functional behaviour, on every branch of what the backend answers, of
      creation (both variants), start, stop, deletion, restoration, execution,
      SSH sessions, API keys and session tokens; exactly which records a
      background pass touches; what the HTTP handlers answer.
    - The backends: what is asked of the cluster or of the daemon for a
      requested sandbox; the operator creates what is wanted and nothing else,
      and a wait for a pod ends, rightly; how many requests are sent.
    - Safety: the ownership check and the handlers behind it, the
      owner-restricted queries, the SSH handlers, the authentication middleware,
      the paths of clients and the quoting of commands; who is connected to
      a screen or a terminal; the streams of the clients of the SSH gateway are
      apart in any run of it ([isolation]), and a tool of the MCP server acts on
      the sandbox of its session only ([tools_confined]).
    - The command line against the server: every command asks the handler it is
      about ([commands_routed_spec]), which reads what the arguments say
      ([bodies_read_spec]); which key goes where, and when a command ends with
      success ([exit_status_spec]); and a creation from the arguments of the
      command to the record and back to the exit status ([creation_agrees_spec]).
    - Interactive terminals: the relay of [dsb ssh] loses and reorders nothing
      ([relay_faithful]) and gives the terminal back ([relay_ends]); both
      backends hand on the output of a shell whole ([terminals_complete]).
    - Round trips of records, sessions, error codes, files and arguments; the
      page arithmetic of listings; termination of the health check; timeouts
      within bounds; validation against the conditions it stands for.
    - Defects: theorems that state what the code does where it differs from
      what it means to do, for example the lost command of a record that is
      read and written back ([Postgres]), the filtered listing that always
      fails, the deletion that a concurrent activity record undoes ([Ops]), the
      ended SSH session that becomes active again ([Ssh]), the stopped
      sandbox that can not be started, or that the operator starts again
      ([KubeBackend]), or the sandbox with an SSH session that can not be
      deleted for good ([Migration]).

    ** Bounds of the model

    Handlers are transitions of [Lifecycle] from their first to their last call;
    the one interleaving that loses an update is shown separately
    ([record_api_activity_undoes_delete]).  Between two steps of a wait for a
    pod anyone may change the cluster.  [wait_fuel] is the number of pauses of
    two seconds that fit in the timeout, and two; [wait_for_pod_ready_spec] shows
    it enough.  The theorems on the service suppose a store that answers ([ok]);
    the errors of a store that does not are in the definitions.  SQL is modelled
    by the meaning of the statements used, over a map of rows ([Postgres] without
    the keys between tables, which are those of [Migration]), with rounding of
    timestamps, normal form of JSON and pattern matching as parameters; the
    number of pages, which the code computes in floating point, is exact here (as
    it is there below [2 ^ 53] records).  Log output is left out.  Not modelled:
    the Docker and Kubernetes client libraries, the
    listener of the HTTP server and the files of the dashboard, the parsing
    of configuration files, the parsing of arguments by [clap], the
    transport, routing and prompts of the MCP server, [src/auth] (which no module
    declares) and the programs in other languages. *)

From stdpp Require Export base tactics option list gmap strings sorting fin_maps pretty.
From Stdlib Require Export ZArith Lia.

(** ** Scope of the development's notations *)

Declare Scope dsb_scope.
Delimit Scope dsb_scope with dsb.
#[global] Open Scope dsb_scope.
#[global] Open Scope Z_scope.

(** ** Results: [std::result::Result] *)

Inductive Result (A E : Type) : Type :=
  | Ok (a : A)
  | Err (e : E).
Arguments Ok {A E} a.
Arguments Err {A E} e.

Definition is_ok {A E} (r : Result A E) : bool :=
  match r with Ok _ => true | Err _ => false end.

Definition result_map_err {A E F} (f : E → F) (r : Result A E) : Result A F :=
  match r with Ok a => Ok a | Err e => Err (f e) end.

Definition result_unwrap_or {A E} (d : A) (r : Result A E) : A :=
  match r with Ok a => a | Err _ => d end.

(** [Vec::is_empty]. *)
Definition is_nil {X} (l : list X) : bool := match l with [] => true | _ => false end.

Definition option_ok_or {A E} (e : E) (o : option A) : Result A E :=
  match o with Some a => Ok a | None => Err e end.

Definition result_bind {A B E} (r : Result A E) (f : A → Result B E) : Result B E :=
  match r with Ok a => f a | Err e => Err e end.

(** [let? x := r in k] is the [?] operator on a pure result. *)
Notation "'let?' x ':=' r 'in' k" := (result_bind r (λ x, k))
  (at level 10, x pattern, r at level 100, k at level 200) : dsb_scope.

#[global] Instance result_eq_dec `{EqDecision A, EqDecision E} : EqDecision (Result A E).
Proof. solve_decision. Defined.

Lemma result_bind_Ok {A B E} (r : Result A E) (f : A → Result B E) b :
  result_bind r f = Ok b ↔ ∃ a, r = Ok a ∧ f a = Ok b.
Proof.
  destruct r as [a|e]; simpl; split; [eauto| |done|].
  - intros (a' & [= ->] & H). done.
  - by intros (a' & ? & _).
Qed.

Lemma result_bind_assoc {A B C E} (r : Result A E) (f : A → Result B E) (g : B → Result C E) :
  result_bind (result_bind r f) g = result_bind r (λ a, result_bind (f a) g).
Proof. by destruct r. Qed.

(** ** Stateful code: a state monad with explicit state passing *)

Definition M (W A : Type) : Type := W → A * W.

#[global] Instance M_ret W : MRet (M W) := λ A a w, (a, w).
#[global] Instance M_bind W : MBind (M W) := λ A B f m w,
  let '(a, w') := m w in f a w'.

(** Running a stateful computation: its value and its final state. *)
Definition run_val {W A} (m : M W A) (w : W) : A := (m w).1.
Definition run_st {W A} (m : M W A) (w : W) : W := (m w).2.

(** The [?] operator in stateful code: an error ends the function. *)
Definition try_ {W A B E} (m : M W (Result A E)) (k : A → M W (Result B E)) : M W (Result B E) :=
  r ← m;
  match r with
  | Ok a => k a
  | Err e => mret (Err e)
  end.

Notation "'let*' x ':=' m 'in' k" := (try_ m (λ x, k))
  (at level 10, x pattern, m at level 100, k at level 200) : dsb_scope.

(** [for x in l { body }]: a loop over a list whose body has effects. *)
Fixpoint for_each {W A} (l : list A) (body : A → M W ()) : M W () :=
  match l with
  | [] => mret ()
  | a :: l' => _ ← body a; for_each l' body
  end.

Lemma M_bind_unfold {W A B} (m : M W A) (f : A → M W B) w :
  (m ≫= f) w = f (m w).1 (m w).2.
Proof. unfold mbind, M_bind. by destruct (m w). Qed.

Lemma for_each_app {W A} (l1 l2 : list A) (body : A → M W ()) w :
  run_st (for_each (l1 ++ l2) body) w = run_st (for_each l2 body) (run_st (for_each l1 body) w).
Proof.
  revert w. induction l1 as [|a l1 IH]; intros w; [done|].
  unfold run_st in *. simpl. rewrite !M_bind_unfold. apply IH.
Qed.

(** A property kept by every iteration of a loop holds after it. *)
Lemma for_each_preserves {W A} (P : W → Prop) (l : list A) (body : A → M W ()) w :
  (∀ a w', a ∈ l → P w' → P (run_st (body a) w')) →
  P w → P (run_st (for_each l body) w).
Proof.
  revert w. induction l as [|a l IH]; intros w Hstep HP; [done|].
  unfold run_st. simpl. rewrite M_bind_unfold. apply IH.
  - intros b w' Hb. apply Hstep. by right.
  - apply Hstep; [by left|done].
Qed.

(** ** Weakest preconditions

    [wp m Q w]: running [m] from [w] gives a value and a state that meet [Q].
    The program logic in which the service's theorems are proved. *)

Definition wp {W A} (m : M W A) (Q : A → W → Prop) (w : W) : Prop :=
  Q (run_val m w) (run_st m w).

Lemma wp_ret {W A} (a : A) (Q : A → W → Prop) w : Q a w → wp (mret a) Q w.
Proof. done. Qed.

Lemma wp_bind {W A B} (m : M W A) (f : A → M W B) Q w :
  wp m (λ a w', wp (f a) Q w') w → wp (m ≫= f) Q w.
Proof. unfold wp, run_val, run_st. by rewrite M_bind_unfold. Qed.

Lemma wp_try {W A B E} (m : M W (Result A E)) (k : A → M W (Result B E)) Q w :
  wp m (λ r w', match r with Ok a => wp (k a) Q w' | Err e => Q (Err e) w' end) w →
  wp (try_ m k) Q w.
Proof.
  unfold try_, wp, run_val, run_st. rewrite M_bind_unfold. by destruct (m w).1.
Qed.

(** The same, naming the outcome of the first computation. *)
Lemma wp_try_run {W A B E} (m : M W (Result A E)) (k : A → M W (Result B E)) Q w :
  match m w with (Ok a, w') => wp (k a) Q w' | (Err e, w') => Q (Err e) w' end →
  wp (try_ m k) Q w.
Proof.
  intros HQ. apply wp_try. unfold wp at 1, run_val, run_st.
  by destruct (m w) as [[a|e] w'].
Qed.

Lemma wp_mono {W A} (m : M W A) (Q Q' : A → W → Prop) w :
  wp m Q w → (∀ a w', Q a w' → Q' a w') → wp m Q' w.
Proof. unfold wp. auto. Qed.

Lemma wp_and {W A} (m : M W A) (Q Q' : A → W → Prop) w :
  wp m Q w → wp m Q' w → wp m (λ a w', Q a w' ∧ Q' a w') w.
Proof. done. Qed.

(** The rule of a loop: an invariant over the iterations done so far. *)
Lemma wp_for_each {W A} (I : list A → W → Prop) (l : list A) (body : A → M W ()) (Q : () → W → Prop) w :
  I [] w →
  (∀ done a rest w', l = done ++ a :: rest → I done w' →
     wp (body a) (λ _ w'', I (done ++ [a]) w'') w') →
  (∀ w', I l w' → Q () w') →
  wp (for_each l body) Q w.
Proof.
  intros H0 Hstep HQ.
  assert (∀ rest done w', l = done ++ rest → I done w' →
            wp (for_each rest body) Q w') as Hgen; [|by apply (Hgen l [])].
  induction rest as [|a rest IH]; intros done w' Hl Hd.
  - apply wp_ret, HQ. by rewrite Hl, app_nil_r.
  - simpl. apply wp_bind. eapply wp_mono; [by eapply Hstep|].
    intros [] w'' Hw''. apply (IH (done ++ [a])); [by rewrite <-app_assoc|done].
Qed.

(** [for x in l { .. count += .. }]: a loop that adds up a counter. *)
Fixpoint for_count {W A} (l : list A) (body : A → M W Z) : M W Z :=
  match l with
  | [] => mret 0
  | a :: l' => n ← body a; m ← for_count l' body; mret (n + m)
  end.

Lemma wp_for_count {W A} (I : list A → Z → W → Prop) (l : list A) (body : A → M W Z)
    (Q : Z → W → Prop) w :
  I [] 0 w →
  (∀ done a rest n w', l = done ++ a :: rest → I done n w' →
     wp (body a) (λ m w'', I (done ++ [a]) (n + m) w'') w') →
  (∀ n w', I l n w' → Q n w') →
  wp (for_count l body) Q w.
Proof.
  intros H0 Hstep HQ.
  assert (∀ rest done n w', l = done ++ rest → I done n w' →
            wp (for_count rest body) (λ m w'', Q (n + m) w'') w') as Hgen.
  { induction rest as [|a rest IH]; intros done n w' Hl Hd.
    - apply wp_ret. rewrite Z.add_0_r. apply HQ. by rewrite Hl, app_nil_r.
    - simpl. apply wp_bind. eapply wp_mono; [by eapply Hstep|].
      intros m w'' Hw''. apply wp_bind.
      eapply wp_mono; [apply (IH (done ++ [a]) (n + m)); [by rewrite <-app_assoc|done]|].
      intros m' w3 HQ'. apply wp_ret. by rewrite Z.add_assoc. }
  apply (wp_mono _ _ _ _ (Hgen l [] 0 w eq_refl H0)). intros m w'. by rewrite Z.add_0_l.
Qed.

(** A predicate that a computation cannot falsify, with rules that follow its
    structure; [auto with preserves] applies them. *)
Definition preserves {W A} (P : W → Prop) (m : M W A) : Prop := ∀ w, P w → P (run_st m w).

Create HintDb preserves.

Lemma wp_preserves {W A} (P : W → Prop) (m : M W A) Q w :
  preserves P m → P w → wp m (λ a w', P w' → Q a w') w → wp m Q w.
Proof. intros Hm Hw HQ. by apply HQ, Hm. Qed.

Lemma preserves_ret {W A} (P : W → Prop) (a : A) : preserves P (mret a).
Proof. by intros w. Qed.

Lemma preserves_bind {W A B} (P : W → Prop) (m : M W A) (f : A → M W B) :
  preserves P m → (∀ a, preserves P (f a)) → preserves P (m ≫= f).
Proof. intros Hm Hf w Hw. unfold run_st. rewrite M_bind_unfold. apply Hf, Hm, Hw. Qed.

Lemma preserves_try {W A B E} (P : W → Prop) (m : M W (Result A E)) (k : A → M W (Result B E)) :
  preserves P m → (∀ a, preserves P (k a)) → preserves P (try_ m k).
Proof.
  intros Hm Hk. apply preserves_bind; [done|]. intros [a|e]; [apply Hk|apply preserves_ret].
Qed.

Lemma preserves_for_each {W A} (P : W → Prop) (l : list A) (body : A → M W ()) :
  (∀ a, preserves P (body a)) → preserves P (for_each l body).
Proof.
  intros Hb w Hw. apply for_each_preserves; [|done]. intros a w' _. apply Hb.
Qed.

#[export] Hint Resolve preserves_ret preserves_bind preserves_try preserves_for_each : preserves.

(** ** Machine integers *)

Definition i32_wrap (z : Z) : Z := (z + 2 ^ 31) mod 2 ^ 32 - 2 ^ 31.
Definition i64_wrap (z : Z) : Z := (z + 2 ^ 63) mod 2 ^ 64 - 2 ^ 63.
Definition u64_wrap (z : Z) : Z := z mod 2 ^ 64.

Definition is_u16 (z : Z) : Prop := 0 ≤ z < 2 ^ 16.
Definition is_i32 (z : Z) : Prop := - 2 ^ 31 ≤ z < 2 ^ 31.
Definition is_i64 (z : Z) : Prop := - 2 ^ 63 ≤ z < 2 ^ 63.
Definition is_u64 (z : Z) : Prop := 0 ≤ z < 2 ^ 64.

(** [x as i64] of a [u64], then [as u64] back, is the identity. *)
Lemma u64_i64_roundtrip z : is_u64 z → u64_wrap (i64_wrap z) = z.
Proof. unfold is_u64, u64_wrap, i64_wrap. intros H. Z.div_mod_to_equations. lia. Qed.

Lemma i64_wrap_range z : is_i64 (i64_wrap z).
Proof. unfold is_i64, i64_wrap. Z.div_mod_to_equations. lia. Qed.

Lemma i64_wrap_id z : is_i64 z → i64_wrap z = z.
Proof. unfold is_i64, i64_wrap. intros H. Z.div_mod_to_equations. lia. Qed.

Lemma i32_wrap_id z : is_i32 z → i32_wrap z = z.
Proof. unfold is_i32, i32_wrap. intros H. Z.div_mod_to_equations. lia. Qed.

Lemma i32_wrap_range z : is_i32 (i32_wrap z).
Proof. unfold is_i32, i32_wrap. Z.div_mod_to_equations. lia. Qed.

Lemma u64_wrap_id z : is_u64 z → u64_wrap z = z.
Proof. unfold is_u64, u64_wrap. intros H. by apply Z.mod_small. Qed.

(** A negative [i64] becomes a huge [u64]: two's complement. *)
Lemma u64_wrap_neg z : - 2 ^ 63 ≤ z < 0 → u64_wrap z = z + 2 ^ 64.
Proof. unfold u64_wrap. intros H. Z.div_mod_to_equations. lia. Qed.

(** ** Hint databases *)

Create HintDb dsb.
Create Rewrite HintDb dsb_rw.
#[export] Hint Resolve i64_wrap_range i32_wrap_range : dsb.
#[export] Hint Rewrite @M_bind_unfold : dsb_rw.

(** ** Tactics *)

(** Case analysis on every [match]/[if] of the goal, closing the
    contradictory branches. *)
Ltac split_cases := repeat (case_match; simplify_eq/=; try done).

(** Reduce a stateful program applied to a state. *)
Ltac run_m := unfold run_val, run_st, try_, mret, M_ret, mbind, M_bind in *; simpl in *.
