(* ===== verification/Text.v ===== *)
(** * Text: the string operations of the Rust standard library that the program uses

    A Rust [str] is a valid UTF-8 byte sequence; it is modelled by the list of
    its bytes (Rocq's [string]).  Searching and splitting on a UTF-8 pattern is
    the same on bytes as on characters, because no encoding is a proper
    infix of another; the Unicode white space of [trim] is given by the
    encodings of its code points. *)

From S2P Require Import Prelude.
From Stdlib Require Import Ascii.

#[global] Arguments String.append !_ _ / : simpl nomatch.

(** ** Characters *)

Definition is_ascii_digit (c : ascii) : bool :=
  let n := N_of_ascii c in (48 <=? n)%N && (n <=? 57)%N.

Definition digit_value (c : ascii) : Z := Z.of_N (N_of_ascii c) - 48.

Definition to_ascii_lowercase_char (c : ascii) : ascii :=
  let n := N_of_ascii c in
  if (65 <=? n)%N && (n <=? 90)%N then ascii_of_N (n + 32) else c.

Fixpoint to_ascii_lowercase (s : string) : string :=
  match s with
  | EmptyString => EmptyString
  | String c s' => String (to_ascii_lowercase_char c) (to_ascii_lowercase s')
  end.

(** ** Prefixes and infixes: [starts_with], [strip_prefix], [contains] *)

Fixpoint strip_prefix (p s : string) : option string :=
  match p, s with
  | EmptyString, _ => Some s
  | String a p', String b s' => if Ascii.eqb a b then strip_prefix p' s' else None
  | String _ _, EmptyString => None
  end.

Definition starts_with (p s : string) : bool :=
  match strip_prefix p s with Some _ => true | None => false end.

Fixpoint contains (p s : string) : bool :=
  starts_with p s ||
  match s with
  | EmptyString => false
  | String _ s' => contains p s'
  end.

Lemma strip_prefix_Some p s r : strip_prefix p s = Some r ↔ s = p +:+ r.
Proof.
  revert s. induction p as [|a p IH]; intros s; simpl.
  - split; congruence.
  - destruct s as [|b s]; [done|].
    destruct (Ascii.eqb_spec a b) as [->|Hne]; [rewrite IH|]; split; congruence.
Qed.

Lemma starts_with_spec p s : starts_with p s = true ↔ ∃ r, s = p +:+ r.
Proof.
  unfold starts_with. destruct (strip_prefix p s) as [r|] eqn:E.
  - apply strip_prefix_Some in E. split; eauto.
  - split; [done|]. intros [r Hr]. apply strip_prefix_Some in Hr. congruence.
Qed.

Lemma contains_spec p s : contains p s = true ↔ ∃ l r, s = l +:+ p +:+ r.
Proof.
  induction s as [|c s IH]; simpl; rewrite orb_true_iff, starts_with_spec.
  - split.
    + intros [[r Hr]|]; [|done]. by exists "", r.
    + intros ([|a l] & r & Hr); [|done]. left. by exists r.
  - rewrite IH. split.
    + intros [[r Hr]|(l & r & ->)]; [by exists "", r|by exists (String c l), r].
    + intros ([|a l] & r & Hr); [left; by exists r|].
      right. exists l, r. by injection Hr.
Qed.

(** ** [split(c)] and [splitn(2, c)] on a one-byte character *)

Fixpoint split_on (c : ascii) (s : string) : list string :=
  match s with
  | EmptyString => [EmptyString]
  | String a s' =>
      if Ascii.eqb a c then EmptyString :: split_on c s'
      else match split_on c s' with
           | [] => [String a EmptyString]
           | p :: ps => String a p :: ps
           end
  end.

Definition colon : ascii := ":".

Fixpoint split_once (c : ascii) (s : string) : option (string * string) :=
  match s with
  | EmptyString => None
  | String a s' =>
      if Ascii.eqb a c then Some (EmptyString, s')
      else match split_once c s' with
           | Some (l, r) => Some (String a l, r)
           | None => None
           end
  end.

(** [slice.join(sep)]. *)
Fixpoint join (sep : string) (ps : list string) : string :=
  match ps with
  | [] => EmptyString
  | [p] => p
  | p :: ps' => p +:+ sep +:+ join sep ps'
  end.

Fixpoint has_char (c : ascii) (s : string) : bool :=
  match s with
  | EmptyString => false
  | String a s' => Ascii.eqb a c || has_char c s'
  end.

Lemma has_char_app c s t : has_char c (s +:+ t) = has_char c s || has_char c t.
Proof. induction s as [|a s IH]; [done|]. cbn. by rewrite IH, orb_assoc. Qed.

Lemma split_on_nonempty c s : split_on c s ≠ [].
Proof. destruct s as [|a s]; simpl; [done|]. repeat case_match; done. Qed.

Lemma join_cons sep p ps : ps ≠ [] → join sep (p :: ps) = p +:+ sep +:+ join sep ps.
Proof. by destruct ps. Qed.

(** Splitting then joining gives the string back. *)
Lemma join_split_on c s : join (String c EmptyString) (split_on c s) = s.
Proof.
  induction s as [|a s IH]; simpl; [done|].
  pose proof (split_on_nonempty c s) as Hne.
  destruct (Ascii.eqb_spec a c) as [->|Hac].
  - rewrite join_cons by done. simpl. by rewrite IH.
  - destruct (split_on c s) as [|p ps]; [done|].
    destruct ps as [|q ps]; simpl in *; by rewrite <-IH.
Qed.

Lemma split_on_no_sep c s p : p ∈ split_on c s → has_char c p = false.
Proof.
  revert p. induction s as [|a s IH]; intros p; simpl.
  - rewrite list_elem_of_singleton. by intros ->.
  - destruct (Ascii.eqb_spec a c) as [->|Hac].
    + rewrite elem_of_cons. intros [->|?]; eauto.
    + pose proof (split_on_nonempty c s) as Hne.
      destruct (split_on c s) as [|q qs]; [done|].
      rewrite elem_of_cons. intros [->|Hp].
      * simpl. apply Ascii.eqb_neq in Hac as ->. simpl. apply IH. by left.
      * apply IH. by right.
Qed.

(** A string without the separator is its own single piece. *)
Lemma split_on_no_char c s : has_char c s = false → split_on c s = [s].
Proof.
  induction s as [|a s IH]; simpl; [done|].
  intros [Ha Hs]%orb_false_iff. rewrite Ha. by rewrite IH.
Qed.

Lemma split_on_app c l r :
  has_char c l = false → split_on c (l +:+ String c r) = l :: split_on c r.
Proof.
  induction l as [|a l IH]; simpl.
  - intros _. by rewrite Ascii.eqb_refl.
  - intros [Ha Hl]%orb_false_iff. rewrite Ha. by rewrite IH.
Qed.

Lemma split_on_two c s a b :
  split_on c s = [a; b] ↔ s = a +:+ String c b ∧ has_char c a = false ∧ has_char c b = false.
Proof.
  split.
  - intros Hs. split_and!; [|by apply (split_on_no_sep c s); rewrite Hs; set_solver..].
    by rewrite <-(join_split_on c s), Hs.
  - intros (-> & Ha & Hb). by rewrite split_on_app, (split_on_no_char c b).
Qed.

Lemma split_on_join c ps :
  ps ≠ [] → Forall (λ p, has_char c p = false) ps →
  split_on c (join (String c EmptyString) ps) = ps.
Proof.
  intros Hne Hps. induction Hps as [|p ps Hp Hps IH]; [done|].
  destruct ps as [|q ps]; [by apply split_on_no_char|].
  rewrite join_cons by done.
  etrans; [exact (split_on_app c p _ Hp)|]. by rewrite IH.
Qed.

Lemma split_once_Some c s l r :
  split_once c s = Some (l, r) ↔ s = l +:+ String c r ∧ has_char c l = false.
Proof.
  revert l. induction s as [|a s IH]; intros l; simpl.
  - split; [done|]. intros [H _]. by destruct l.
  - destruct (Ascii.eqb_spec a c) as [->|Hac].
    + split; [intros; by simplify_eq|]. intros [H Hl].
      destruct l as [|b l]; simpl in *; [by simplify_eq|]. simplify_eq.
      by rewrite Ascii.eqb_refl in Hl.
    + destruct (split_once c s) as [[l' r']|] eqn:E.
      * split.
        -- intros; simplify_eq. destruct (proj1 (IH l') eq_refl) as [-> Hl].
           simpl. apply Ascii.eqb_neq in Hac as ->. by rewrite Hl.
        -- intros [H Hl]. destruct l as [|b l]; simpl in *; [congruence|].
           apply orb_false_iff in Hl as [_ Hl]. simplify_eq.
           assert (Some (l', r') = Some (l, r)) as H by by apply IH. by simplify_eq.
      * split; [done|]. intros [H Hl]. destruct l as [|b l]; simpl in *; [congruence|].
        apply orb_false_iff in Hl as [_ Hl]. simplify_eq.
        assert (None = Some (l, r)) as H by by apply IH. done.
Qed.

(** ** [trim]: Unicode white space at both ends

    The UTF-8 encodings of the code points with the Unicode property
    [White_Space], which is what [char::is_whitespace] tests. *)

Definition bytes (l : list N) : string :=
  foldr (λ n s, String (ascii_of_N n) s) EmptyString l.

Definition whitespace : list string :=
  bytes <$> [[9]; [10]; [11]; [12]; [13]; [32]; [194; 133]; [194; 160]; [225; 154; 128];
   [226; 128; 128]; [226; 128; 129]; [226; 128; 130]; [226; 128; 131]; [226; 128; 132];
   [226; 128; 133]; [226; 128; 134]; [226; 128; 135]; [226; 128; 136]; [226; 128; 137];
   [226; 128; 138]; [226; 128; 168]; [226; 128; 169]; [226; 128; 175]; [226; 129; 159];
   [227; 128; 128]]%N.

Fixpoint strip_any (ws : list string) (s : string) : option string :=
  match ws with
  | [] => None
  | w :: ws' => match strip_prefix w s with Some r => Some r | None => strip_any ws' s end
  end.

(** The fuel is the length of the string: every step removes a byte. *)
Fixpoint trim_start_with (ws : list string) (fuel : nat) (s : string) : string :=
  match fuel with
  | O => s
  | S fuel' =>
      match strip_any ws s with
      | Some r => trim_start_with ws fuel' r
      | None => s
      end
  end.

Definition string_rev (s : string) : string :=
  String.string_of_list_ascii (rev (String.list_ascii_of_string s)).

Definition trim_start (s : string) : string :=
  trim_start_with whitespace (String.length s) s.

Definition trim_end (s : string) : string :=
  string_rev (trim_start_with (string_rev <$> whitespace) (String.length s) (string_rev s)).

Definition trim (s : string) : string := trim_end (trim_start s).

Definition is_empty (s : string) : bool :=
  match s with EmptyString => true | String _ _ => false end.

Example trim_example : trim "  a b	" = "a b".
Proof. vm_compute. reflexivity. Qed.

(** ** Integers: [str::parse] for unsigned types, and [to_string]

    [from_str_radix] accepts one leading plus sign and then at least one
    decimal digit; a value above the type's maximum is an error. *)

Fixpoint parse_digits (max : Z) (acc : Z) (s : string) : option Z :=
  match s with
  | EmptyString => Some acc
  | String c s' =>
      if is_ascii_digit c then
        let acc' := acc * 10 + digit_value c in
        if acc' <=? max then parse_digits max acc' s' else None
      else None
  end.

Definition parse_unsigned (max : Z) (s : string) : option Z :=
  match s with
  | EmptyString => None
  | String c s' =>
      if Ascii.eqb c "+" then
        match s' with EmptyString => None | _ => parse_digits max 0 s' end
      else parse_digits max 0 s
  end.

Definition parse_u16 : string → option Z := parse_unsigned (2 ^ 16 - 1).
Definition parse_u64 : string → option Z := parse_unsigned (2 ^ 64 - 1).

(** [n.to_string()] of an integer. *)
Definition Z_to_string (z : Z) : string := pretty z.

Lemma parse_digits_range max acc s n :
  0 ≤ acc → acc ≤ max → parse_digits max acc s = Some n → 0 ≤ n ≤ max.
Proof.
  revert acc. induction s as [|c s IH]; intros acc H0 H1; simpl.
  - intros; simplify_eq. lia.
  - destruct (is_ascii_digit c) eqn:Hd; [|done].
    destruct (Z.leb_spec (acc * 10 + digit_value c) max); [|done].
    apply IH; [|done].
    unfold is_ascii_digit, digit_value in *. apply andb_true_iff in Hd as [Hlo _].
    apply N.leb_le in Hlo. lia.
Qed.

Lemma parse_unsigned_range max s n :
  0 ≤ max → parse_unsigned max s = Some n → 0 ≤ n ≤ max.
Proof.
  unfold parse_unsigned. intros Hmax. destruct s as [|c s]; [done|].
  destruct (Ascii.eqb c "+"); [destruct s; [done|]|]; apply parse_digits_range; lia.
Qed.

Lemma parse_u16_range s n : parse_u16 s = Some n → is_u16 n.
Proof. intros H. apply parse_unsigned_range in H; [unfold is_u16|]; lia. Qed.

(** Printing an unsigned number and parsing it gives it back. *)
Lemma parse_digits_pretty_go max n s :
  Z.of_N n ≤ max → parse_digits max 0 (pretty_N_go n s) = parse_digits max (Z.of_N n) s.
Proof.
  revert s. induction (N.lt_wf_0 n) as [n _ IH]; intros s Hmax.
  assert (n = 0 ∨ 0 < n)%N as [->|Hpos] by lia; [by rewrite pretty_N_go_0|].
  rewrite pretty_N_go_step by done.
  pose proof (N.div_lt n 10 Hpos eq_refl) as Hlt.
  pose proof (N.div_mod n 10 ltac:(done)) as Hdm.
  pose proof (N.mod_lt n 10 ltac:(done)) as Hm.
  rewrite IH by (first [exact Hlt | clear -Hlt Hmax; lia]). simpl.
  assert (is_ascii_digit (pretty_N_char (n mod 10)) = true ∧
          digit_value (pretty_N_char (n mod 10)) = Z.of_N (n mod 10)) as [-> ->].
  { generalize dependent (n mod 10)%N. intros k _ Hk.
    assert (k = 0 ∨ k = 1 ∨ k = 2 ∨ k = 3 ∨ k = 4 ∨ k = 5 ∨ k = 6 ∨ k = 7 ∨ k = 8 ∨ k = 9)%N
      as Hc by lia. destruct_or! Hc; subst k; by vm_compute. }
  replace (Z.of_N (n / 10) * 10 + Z.of_N (n mod 10)) with (Z.of_N n) by lia.
  by apply Z.leb_le in Hmax as ->.
Qed.

Fixpoint string_forall (P : ascii → bool) (s : string) : bool :=
  match s with
  | EmptyString => true
  | String c s' => P c && string_forall P s'
  end.

Lemma pretty_go_digits n s :
  string_forall is_ascii_digit s = true →
  string_forall is_ascii_digit (pretty_N_go n s) = true ∧
  ((0 < n)%N → pretty_N_go n s ≠ EmptyString).
Proof.
  revert s. induction (N.lt_wf_0 n) as [n _ IH]; intros s Hs.
  assert (n = 0 ∨ 0 < n)%N as [->|Hpos] by lia; [rewrite pretty_N_go_0; split; [done|lia]|].
  rewrite pretty_N_go_step by done.
  pose proof (N.div_lt n 10 Hpos eq_refl) as Hlt.
  assert (string_forall is_ascii_digit (String (pretty_N_char (n mod 10)) s) = true) as Hs'.
  { simpl. rewrite Hs. unfold pretty_N_char. by repeat case_match. }
  destruct (IH _ Hlt _ Hs') as [H1 H2]. split; [done|]. intros _.
  destruct (N.eq_0_gt_0_cases (n / 10)) as [->|Hd]; [|by apply H2].
  by rewrite pretty_N_go_0.
Qed.

(** A printed unsigned number is a non-empty string of digits. *)
Lemma pretty_digits n :
  0 ≤ n → string_forall is_ascii_digit (Z_to_string n) = true ∧ Z_to_string n ≠ EmptyString.
Proof.
  intros Hn. unfold Z_to_string. destruct n as [|p|p]; [by vm_compute| |lia].
  change (pretty (Z.pos p)) with (pretty_N_go (N.pos p) "").
  destruct (pretty_go_digits (N.pos p) "" eq_refl) as [H1 H2]. split; [done|by apply H2].
Qed.

Lemma digits_no_char c s :
  is_ascii_digit c = false → string_forall is_ascii_digit s = true → has_char c s = false.
Proof.
  intros Hc. induction s as [|d s IH]; simpl; [done|]. intros [Hd Hs]%andb_true_iff.
  rewrite IH by done. destruct (Ascii.eqb_spec d c) as [->|]; [congruence|done].
Qed.

Lemma number_no_char c n : 0 ≤ n → is_ascii_digit c = false → has_char c (Z_to_string n) = false.
Proof. intros Hn Hc. by apply digits_no_char, pretty_digits. Qed.

Lemma parse_unsigned_to_string max n :
  0 ≤ n ≤ max → parse_unsigned max (Z_to_string n) = Some n.
Proof.
  intros Hn. destruct (pretty_digits n ltac:(lia)) as [Hd Hne].
  assert (parse_digits max 0 (Z_to_string n) = Some n) as Hp.
  { unfold Z_to_string. destruct n as [|p|p]; [|simpl|lia].
    - cbn. destruct max; [done|done|lia].
    - change (pretty (Z.pos p)) with (pretty_N_go (N.pos p) "").
      by rewrite parse_digits_pretty_go by (simpl; lia). }
  unfold parse_unsigned. destruct (Z_to_string n) as [|c s] eqn:E; [done|].
  destruct (Ascii.eqb_spec c "+") as [->|_]; [|done].
  simpl in Hd. discriminate.
Qed.

Example parse_u16_max : parse_u16 "65535" = Some 65535 ∧ parse_u16 "65536" = None
  ∧ parse_u16 "+80" = Some 80 ∧ parse_u16 "" = None ∧ parse_u16 "-1" = None.
Proof. vm_compute. done. Qed.

(** ** [str::replace] of a non-empty pattern: left to right, non-overlapping *)

Fixpoint replace_fuel (fuel : nat) (from to s : string) : string :=
  match fuel with
  | O => s
  | S fuel' =>
      match strip_prefix from s with
      | Some r => to +:+ replace_fuel fuel' from to r
      | None =>
          match s with
          | EmptyString => EmptyString
          | String c s' => String c (replace_fuel fuel' from to s')
          end
      end
  end.

(** The fuel is the length plus one: every step removes at least one byte. *)
Definition replace (from to s : string) : string :=
  replace_fuel (S (String.length s)) from to s.

Example replace_example :
  replace "{sandbox_id}" "42" "/data/{sandbox_id}/x" = "/data/42/x".
Proof. vm_compute. reflexivity. Qed.

(** ** [match] on string literals *)

(** ** Characters

    A byte that continues a character is between 128 and 191; [chars().take(n)]
    keeps the first [n] characters. *)

Definition is_continuation (c : ascii) : bool :=
  let n := N_of_ascii c in (128 <=? n)%N && (n <=? 191)%N.

Fixpoint take_chars (n : nat) (s : string) : string :=
  match s with
  | EmptyString => EmptyString
  | String c s' =>
      if is_continuation c then String c (take_chars n s')
      else match n with O => EmptyString | S n' => String c (take_chars n' s') end
  end.

Fixpoint char_count (s : string) : nat :=
  match s with
  | EmptyString => 0
  | String c s' => if is_continuation c then char_count s' else S (char_count s')
  end.

Lemma char_count_le s : (char_count s ≤ String.length s)%nat.
Proof. induction s as [|c s IH]; simpl; [done|]. destruct (is_continuation c); lia. Qed.

Lemma take_chars_count n s : (char_count (take_chars n s) ≤ n)%nat.
Proof.
  revert n. induction s as [|c s IH]; intros n; simpl; [lia|].
  destruct (is_continuation c) eqn:E; simpl.
  - by rewrite E.
  - destruct n as [|n]; simpl; [lia|]. rewrite E. specialize (IH n). lia.
Qed.

Lemma take_chars_all n s : (char_count s ≤ n)%nat → take_chars n s = s.
Proof.
  revert n. induction s as [|c s IH]; intros n Hn; simpl in *; [done|].
  destruct (is_continuation c).
  - by rewrite IH.
  - destruct n as [|n]; [lia|]. by rewrite IH by lia.
Qed.

(** The text that [Debug] gives for a string: between quotes, with the escapes
    of ASCII; other characters stand for themselves. *)
Definition quote : string := bytes [34]%N.

Definition hex_digit (n : N) : ascii :=
  ascii_of_N (if (n <? 10)%N then 48 + n else 87 + n)%N.

Definition debug_char (c : ascii) : string :=
  let n := N_of_ascii c in
  if (n =? 34)%N then "\" +:+ quote
  else if (n =? 92)%N then "\\"
  else if (n =? 0)%N then "\0"
  else if (n =? 9)%N then "\t"
  else if (n =? 10)%N then "\n"
  else if (n =? 13)%N then "\r"
  else if (n <? 16)%N then "\u{" +:+ String (hex_digit n) "}"
  else if (n <? 32)%N || (n =? 127)%N then
    "\u{" +:+ String (hex_digit (n / 16)) (String (hex_digit (n mod 16)) "}")
  else String c "".

Fixpoint debug_chars (s : string) : string :=
  match s with EmptyString => EmptyString | String c s' => debug_char c +:+ debug_chars s' end.

Definition debug_str (s : string) : string := quote +:+ debug_chars s +:+ quote.

Definition debug_opt (o : option string) : string :=
  match o with Some s => "Some(" +:+ debug_str s +:+ ")" | None => "None" end.

(** A [match] on string literals: the first arm whose literal is equal. *)
Fixpoint match_str {A} (arms : list (string * A)) (s : string) : option A :=
  match arms with
  | [] => None
  | (p, a) :: arms' => if String.eqb s p then Some a else match_str arms' s
  end.

Lemma match_str_Some {A} (arms : list (string * A)) s a :
  match_str arms s = Some a → (s, a) ∈ arms.
Proof.
  induction arms as [|[p b] arms IH]; simpl; [done|].
  destruct (String.eqb_spec s p) as [->|Hne]; intros H.
  - simplify_eq. by left.
  - right. auto.
Qed.
