(* ===== verification/Paths.v ===== *)
(** * Paths: trimming, lines, and [std::path::Path] on Unix

    More of the Rust standard library: [trim_start_matches],
    [trim_end_matches] and [lines], and the reading of a path into its
    components.  A path that has been normalised is one whose components are
    all plain names. *)

From S2P Require Import Prelude Text.
From Stdlib Require Import Ascii.

(** ** Characters *)

(** A visible ASCII character: never part of white space. *)
Definition is_graph (c : ascii) : bool :=
  let n := N_of_ascii c in (33 <=? n)%N && (n <=? 126)%N.

(** [char::is_control] on the UTF-8 bytes of a string: U+0000 to U+001F and
    U+007F are one byte, U+0080 to U+009F the byte 194 and one more. *)
Fixpoint has_control (s : string) : bool :=
  match s with
  | EmptyString => false
  | String c s' =>
      let n := N_of_ascii c in
      (n <? 32)%N || (n =? 127)%N ||
      match s' with
      | String d _ =>
          (n =? 194)%N && (128 <=? N_of_ascii d)%N && (N_of_ascii d <=? 159)%N
      | EmptyString => false
      end || has_control s'
  end.

(** ** [trim_start_matches], [trim_end_matches], [lines] *)

Fixpoint trim_start_matches (c : ascii) (s : string) : string :=
  match s with
  | EmptyString => EmptyString
  | String a s' => if Ascii.eqb a c then trim_start_matches c s' else s
  end.

Definition trim_end_matches (c : ascii) (s : string) : string :=
  string_rev (trim_start_matches c (string_rev s)).

Definition newline : ascii := "010".
Definition carriage_return : ascii := "013".
Definition nl : string := String newline EmptyString.

(** The pieces between newlines; a final empty piece and the carriage return
    before a newline are left out. *)
Definition strip_cr (s : string) : string :=
  match string_rev s with
  | String c r => if Ascii.eqb c carriage_return then string_rev r else s
  | EmptyString => s
  end.

Fixpoint strip_terminators (ps : list string) : list string :=
  match ps with
  | [] => []
  | [p] => if is_empty p then [] else [p]
  | p :: ps' => strip_cr p :: strip_terminators ps'
  end.

Definition lines (s : string) : list string := strip_terminators (split_on newline s).

Example lines_example : lines (bytes [97; 13; 10; 10; 98; 10]%N) = ["a"; ""; "b"].
Proof. vm_compute. reflexivity. Qed.

(** ** Components of a path *)

Inductive Component : Type :=
  | RootDir
  | CurDir
  | ParentDir
  | NormalName (name : string).

#[global] Instance Component_eq_dec : EqDecision Component.
Proof. solve_decision. Defined.

(** The component a piece between slashes stands for; empty pieces and dots are
    none. *)
Definition piece_component (p : string) : option Component :=
  if is_empty p || String.eqb p "." then None
  else if String.eqb p ".." then Some ParentDir
  else Some (NormalName p).

Definition slash : ascii := "/".

#[global] Instance NormalName_inj : Inj (=) (=) NormalName.
Proof. congruence. Qed.

(** The components but for the root and a leading dot. *)
Definition pieces (s : string) : list Component := omap piece_component (split_on slash s).

(** [Path::components]: a leading slash is the root, a leading dot of a relative
    path is kept. *)
Definition components (s : string) : list Component :=
  (if starts_with "/" s then [RootDir]
   else if String.eqb (default "" (head (split_on slash s))) "." then [CurDir] else [])
  ++ pieces s.

(** [Path::file_name]: the last component, when it is a name. *)
Definition file_name (s : string) : option string :=
  match last (components s) with
  | Some (NormalName n) => Some n
  | _ => None
  end.

(** [Path::extension]: what follows the last dot of the file name, unless the
    name begins with its only dot. *)
Definition extension (s : string) : option string :=
  match file_name s with
  | None => None
  | Some n =>
      match split_once "." (string_rev n) with
      | Some (_, EmptyString) | None => None
      | Some (ext, _) => Some (string_rev ext)
      end
  end.

Example components_example :
  components "/a/./b//../c" = [RootDir; NormalName "a"; NormalName "b"; ParentDir; NormalName "c"]
  ∧ components "./x" = [CurDir; NormalName "x"] ∧ components "" = []
  ∧ file_name "/app/data/" = Some "data" ∧ extension "a.tar.gz" = Some "gz"
  ∧ extension ".bashrc" = None.
Proof. vm_compute. done. Qed.

(** ** Lemmas on strings *)

Lemma string_app_nil s : s +:+ "" = s.
Proof. induction s as [|c s IH]; simpl; [done|by rewrite IH]. Qed.

Lemma string_app_assoc (a b c : string) : (a +:+ b) +:+ c = a +:+ b +:+ c.
Proof. induction a as [|x a IH]; simpl; [done|by rewrite IH]. Qed.

Lemma string_rev_cons c s : string_rev (String c s) = string_rev s +:+ String c "".
Proof.
  unfold string_rev. simpl. generalize (rev (String.list_ascii_of_string s)).
  intros l. induction l as [|a l IH]; simpl; [done|by rewrite IH].
Qed.

Lemma string_rev_app a b : string_rev (a +:+ b) = string_rev b +:+ string_rev a.
Proof.
  induction a as [|c a IH]; simpl.
  - by rewrite string_app_nil.
  - by rewrite !string_rev_cons, IH, string_app_assoc.
Qed.

Lemma string_rev_involutive s : string_rev (string_rev s) = s.
Proof.
  induction s as [|c s IH]; [done|]. by rewrite string_rev_cons, string_rev_app, IH.
Qed.

(** White space neither begins nor ends with a visible character. *)
Lemma strip_any_graph c s :
  is_graph c = true →
  strip_any whitespace (String c s) = None ∧
  strip_any (string_rev <$> whitespace) (String c s) = None.
Proof. destruct c as [[] [] [] [] [] [] [] []]; vm_compute; done. Qed.

Lemma string_forall_app P a b :
  string_forall P (a +:+ b) = string_forall P a && string_forall P b.
Proof. induction a as [|c a IH]; simpl; [done|]. by rewrite IH, andb_assoc. Qed.

Lemma string_forall_rev P s : string_forall P (string_rev s) = string_forall P s.
Proof.
  induction s as [|c s IH]; [done|]. rewrite string_rev_cons, string_forall_app, IH. simpl.
  by rewrite andb_true_r, andb_comm.
Qed.

(** A string of visible characters is its own trimmed form. *)
Lemma trim_graph s : string_forall is_graph s = true → trim s = s.
Proof.
  intros Hs. unfold trim.
  assert (trim_start s = s) as ->.
  { unfold trim_start. destruct s as [|c s]; [done|]. simpl in Hs.
    apply andb_true_iff in Hs as [Hc _]. cbn [trim_start_with String.length].
    by destruct (strip_any_graph c s Hc) as [-> _]. }
  unfold trim_end. rewrite <-string_forall_rev in Hs.
  rewrite <-(string_rev_involutive s) at 3.
  f_equal. destruct s as [|c0 s]; [done|]. cbn [String.length].
  destruct (string_rev (String c0 s)) as [|c r]; [done|].
  simpl in Hs. apply andb_true_iff in Hs as [Hc _].
  cbn [trim_start_with]. by destruct (strip_any_graph c r Hc) as [_ ->].
Qed.

(** A string without a visible character; trimming neither adds nor removes one. *)
Definition blank (s : string) : bool := string_forall (λ c, negb (is_graph c)) s.

Lemma strip_any_blank ws s r :
  Forall (λ w, blank w = true) ws → strip_any ws s = Some r → blank s = blank r.
Proof.
  intros Hws. induction Hws as [|w ws Hw Hws IH]; simpl; [done|].
  destruct (strip_prefix w s) as [r'|] eqn:E; [|done]. intros [= ->].
  apply strip_prefix_Some in E as ->. unfold blank in *. by rewrite string_forall_app, Hw.
Qed.

Lemma trim_start_with_blank ws fuel s :
  Forall (λ w, blank w = true) ws → blank (trim_start_with ws fuel s) = blank s.
Proof.
  intros Hws. revert s. induction fuel as [|fuel IH]; intros s; simpl; [done|].
  destruct (strip_any ws s) as [r|] eqn:E; [|done]. rewrite IH. by erewrite (strip_any_blank ws s).
Qed.

Lemma whitespace_blank :
  forallb blank whitespace && forallb blank (string_rev <$> whitespace) = true.
Proof. vm_compute. done. Qed.

Lemma trim_blank s : blank (trim s) = blank s.
Proof.
  assert (∀ ws, forallb blank ws = true → Forall (λ w, blank w = true) ws) as Hall.
  { intros ws Hws. apply Forall_forall. intros w Hw. rewrite forallb_forall in Hws.
    by apply Hws, list_elem_of_In. }
  destruct (andb_prop _ _ whitespace_blank) as [H1 H2].
  unfold trim, trim_end, trim_start. unfold blank at 1. rewrite string_forall_rev.
  change (string_forall _ ?x) with (blank x).
  rewrite trim_start_with_blank by auto. unfold blank at 1. rewrite string_forall_rev.
  change (string_forall _ ?x) with (blank x). by rewrite trim_start_with_blank by auto.
Qed.

Lemma digit_graph s : string_forall is_ascii_digit s = true → string_forall is_graph s = true.
Proof.
  induction s as [|c s IH]; simpl; [done|]. intros [Hc Hs]%andb_true_iff.
  rewrite IH by done. unfold is_graph, is_ascii_digit in *.
  apply andb_true_iff in Hc as [Hlo Hhi]. apply N.leb_le in Hlo, Hhi.
  by rewrite !(proj2 (N.leb_le _ _)) by lia.
Qed.

(** The output of a program that prints a number. *)
Lemma trim_number n : 0 ≤ n → trim (Z_to_string n) = Z_to_string n.
Proof. intros Hn. apply trim_graph, digit_graph. by apply pretty_digits. Qed.

Lemma trim_start_matches_head c s :
  ∀ r, trim_start_matches c s ≠ String c r.
Proof.
  induction s as [|a s IH]; intros r; simpl; [done|].
  destruct (Ascii.eqb_spec a c) as [->|Hne]; [apply IH|congruence].
Qed.

Lemma trim_start_matches_id c s :
  (∀ r, s ≠ String c r) → trim_start_matches c s = s.
Proof.
  destruct s as [|a s]; simpl; [done|]. intros Hs.
  destruct (Ascii.eqb_spec a c) as [->|Hne]; [by destruct (Hs s)|done].
Qed.

Lemma starts_with_slash s : starts_with "/" s = true ↔ ∃ r, s = String slash r.
Proof. rewrite starts_with_spec. done. Qed.

(** ** Lemmas on components *)

(** The components of a joined path: those of both parts. *)
Lemma split_on_app_sep c l r :
  split_on c (l +:+ String c r) = split_on c l ++ split_on c r.
Proof.
  induction l as [|a l IH]; simpl.
  - by rewrite Ascii.eqb_refl.
  - destruct (Ascii.eqb a c); [by rewrite IH|].
    pose proof (split_on_nonempty c l) as Hne. rewrite IH.
    by destruct (split_on c l) as [|p ps].
Qed.

(** A name: a piece that is neither empty nor made of one or two dots. *)
Definition is_name (p : string) : bool :=
  match piece_component p with Some (NormalName _) => negb (has_char slash p) | _ => false end.

Lemma piece_component_name p : is_name p = true → piece_component p = Some (NormalName p).
Proof. unfold is_name, piece_component. by repeat case_match. Qed.

Lemma piece_component_normal p n : piece_component p = Some (NormalName n) → p = n.
Proof. unfold piece_component. repeat case_match; congruence. Qed.

Lemma omap_names ps :
  Forall (λ p, is_name p = true) ps → omap piece_component ps = NormalName <$> ps.
Proof.
  induction 1 as [|p ps Hp _ IH]; [done|].
  cbn [omap list_omap]. rewrite piece_component_name by done.
  fold (omap piece_component ps). by rewrite IH.
Qed.

Lemma names_no_slash ps :
  Forall (λ p, is_name p = true) ps → Forall (λ p, has_char slash p = false) ps.
Proof.
  intros Hps. eapply Forall_impl; [exact Hps|]. intros p. unfold is_name. repeat case_match; try done.
  by intros ->%negb_true_iff.
Qed.

Lemma is_name_nonempty p : is_name p = true → p ≠ "" ∧ p ≠ ".".
Proof. intros Hp. by split; intros ->. Qed.

Lemma join_nonempty p ps : p ≠ "" → join "/" (p :: ps) ≠ "".
Proof. destruct p, ps; done. Qed.

Lemma pieces_join ps : Forall (λ p, is_name p = true) ps → pieces (join "/" ps) = NormalName <$> ps.
Proof.
  intros Hps. unfold pieces. destruct ps as [|p ps]; [by vm_compute|].
  assert (split_on slash (join "/" (p :: ps)) = p :: ps) as ->.
  { by apply split_on_join, names_no_slash. }
  by apply omap_names.
Qed.

(** Joining two paths with a slash joins their pieces. *)
Lemma pieces_app l r : pieces (l +:+ String slash r) = pieces l ++ pieces r.
Proof. unfold pieces. by rewrite split_on_app_sep, omap_app. Qed.

Lemma pieces_slash r : pieces (String slash r) = pieces r.
Proof. done. Qed.

Lemma pieces_trim_start s : pieces (trim_start_matches slash s) = pieces s.
Proof.
  induction s as [|a s IH]; [done|]. simpl. destruct (Ascii.eqb_spec a slash) as [->|_]; [|done].
  by rewrite pieces_slash.
Qed.

Lemma pieces_trim_end s : pieces (trim_end_matches slash s) = pieces s.
Proof.
  unfold trim_end_matches. rewrite <-(string_rev_involutive s) at 2.
  induction (string_rev s) as [|a t IH]; [done|]. simpl.
  destruct (Ascii.eqb_spec a slash) as [->|_]; [|done].
  by rewrite IH, string_rev_cons, (pieces_app _ ""), app_nil_r.
Qed.

Lemma components_root s : components (String slash s) = RootDir :: pieces s.
Proof. done. Qed.

(** The pieces of a path are names and parents. *)
Lemma pieces_names s :
  ParentDir ∉ pieces s → ∃ ps, Forall (λ p, is_name p = true) ps ∧ pieces s = NormalName <$> ps.
Proof.
  unfold pieces. pose proof (split_on_no_sep slash s) as Hsep.
  induction (split_on slash s) as [|q qs IH]; [by exists []|].
  cbn [omap list_omap]. fold (omap piece_component qs). intros Hn.
  assert (∀ p, p ∈ qs → has_char slash p = false) as Hqs by (intros p Hp; apply Hsep; by right).
  destruct (piece_component q) as [c|] eqn:E; [|by apply IH].
  apply not_elem_of_cons in Hn as [Hc Hn]. destruct (IH Hqs Hn) as (ps & Hps & ->).
  exists (q :: ps). assert (c = NormalName q) as ->.
  { unfold piece_component in E. repeat case_match; congruence. }
  split; [|done]. constructor; [|done]. unfold is_name. by rewrite E, Hsep by by left.
Qed.

(** The components of a relative path of names. *)
Lemma components_join_names ps :
  Forall (λ p, is_name p = true) ps → components (join "/" ps) = NormalName <$> ps.
Proof.
  intros Hps. unfold components. rewrite pieces_join by done.
  destruct ps as [|p ps]; [by vm_compute|].
  pose proof (names_no_slash _ Hps) as Hns.
  assert (split_on slash (join "/" (p :: ps)) = p :: ps) as Hsp by by apply split_on_join.
  rewrite Hsp. simpl head. simpl default.
  inversion_clear Hps as [|? ? Hp _]. destruct (is_name_nonempty p Hp) as [Hp1 Hp2].
  apply String.eqb_neq in Hp2 as ->.
  destruct (starts_with "/" _) eqn:Es; [|done].
  apply starts_with_slash in Es as [r Hr]. rewrite Hr in Hsp. simpl in Hsp. congruence.
Qed.

(** ** Texts that a property of characters forbids

    A property of texts that a slash separates: it holds of a joined path when
    it holds of a part. *)
Definition separable (bad : string → bool) : Prop :=
  bad "" = false ∧ ∀ l r, bad (l +:+ String slash r) = bad l || bad r.

Lemma separable_join bad ps : separable bad → bad (join "/" ps) = existsb bad ps.
Proof.
  intros [H0 Happ]. induction ps as [|p ps IH]; [done|].
  destruct ps as [|q ps]; [simpl; by rewrite orb_false_r|].
  rewrite join_cons by done. change ("/" +:+ ?x) with (String slash x).
  rewrite Happ, IH. done.
Qed.

Lemma separable_has_char c : c ≠ slash → separable (has_char c).
Proof.
  intros Hc. split; [done|]. intros l r. assert (Ascii.eqb slash c = false) as Hs.
  { apply Ascii.eqb_neq. congruence. }
  induction l as [|a l IH].
  - cbn [String.append has_char]. by rewrite Hs.
  - change (String a l +:+ String slash r) with (String a (l +:+ String slash r)).
    cbn [has_char]. by rewrite IH, orb_assoc.
Qed.

Lemma separable_has_control : separable has_control.
Proof.
  split; [done|]. intros l r. induction l as [|a l IH]; [by destruct r as [|b r]|].
  change (String a l +:+ String slash r) with (String a (l +:+ String slash r)).
  cbn [has_control]. rewrite IH, !orb_assoc. do 2 f_equal.
  destruct l as [|b l]; [|done]. change ("" +:+ String slash r) with (String slash r).
  change (N_of_ascii slash) with 47%N. cbn [N.leb N.compare]. by rewrite andb_false_r.
Qed.

(** What a text is free of, the names of its path are free of. *)
Lemma separable_pieces bad s ps :
  separable bad → bad s = false → pieces s = NormalName <$> ps → existsb bad ps = false.
Proof.
  intros Hbad Hs. rewrite <-(join_split_on slash s) in Hs.
  change (String slash "") with "/" in Hs. rewrite separable_join in Hs by done.
  unfold pieces. revert ps Hs. induction (split_on slash s) as [|q qs IH]; intros ps Hs.
  - by destruct ps.
  - simpl in Hs. apply orb_false_iff in Hs as [Hq Hqs].
    cbn [omap list_omap]. fold (omap piece_component qs).
    destruct (piece_component q) as [c|] eqn:E; [|by apply IH].
    destruct ps as [|p ps]; [done|]. simpl. intros [= -> Hrest].
    apply piece_component_normal in E as ->. rewrite Hq. by apply IH.
Qed.
