(* ===== verification/Errors.v ===== *)
(** * Errors: error codes, API errors and the conversions between error types

    Models [src/core/mod.rs] (module [errors]), [src/api/errors.rs],
    [src/core/manager.rs] (type [ManagerError]), [src/docker/docker_trait.rs]
    and [src/docker/manager/error.rs] (the Docker error types) and the
    [StoreError]/[SshServiceError] types.  An [std::io::Error] and an error of
    a third-party crate are represented by the text their [Display] prints.
    The [source] field of an [ApiError] (the boxed cause, which only the
    error chain of the log reads) is left out. *)

From S2P Require Import Prelude Text.

(** A UUID is a 128-bit value. *)
Definition Uuid : Type := N.
#[global] Instance Uuid_eq_dec : EqDecision Uuid := N.eq_dec.
#[global] Instance Uuid_countable : Countable Uuid := N_countable.

(** [uuid::Uuid]'s text format belongs to the uuid crate. *)
Class UuidLib := {
  uuid_to_string : Uuid → string;
  uuid_parse_str : string → option Uuid;
}.

Inductive ErrorCode : Type :=
  | SandboxNotFound | SandboxInvalidState | SandboxAlreadyExists
  | SandboxCreationFailed | SandboxExecutionFailed
  | ToolNotFound | ToolExecutionFailed | ToolValidationError | ToolTimeout
  | BackendImagePullFailed | BackendContainerCreateFailed
  | BackendContainerStartFailed | BackendVolumeError
  | BackendContainerNotFound | BackendExecFailed
  | SshSessionNotFound | SshAuthenticationFailed | SshConnectionFailed
  | TerminalOperationFailed
  | ValidationError | ValidationInvalidPort | ValidationMissingField
  | ValidationInvalidImageName | ValidationInvalidRequest
  | AuthenticationMissing | AuthenticationInvalidApiKey
  | AuthorizationInsufficientPermissions
  | DatabaseConnectionFailed | DatabaseQueryFailed
  | ServiceUnavailable | RateLimitExceeded | UpstreamError | RequestTimeout
  | InternalError | ConfigurationError.

#[global] Instance ErrorCode_eq_dec : EqDecision ErrorCode.
Proof. solve_decision. Defined.

Definition ErrorCode_as_str (c : ErrorCode) : string :=
  match c with
  | SandboxNotFound => "SANDBOX_NOT_FOUND"
  | SandboxInvalidState => "SANDBOX_INVALID_STATE"
  | SandboxAlreadyExists => "SANDBOX_ALREADY_EXISTS"
  | SandboxCreationFailed => "SANDBOX_CREATION_FAILED"
  | SandboxExecutionFailed => "SANDBOX_EXECUTION_FAILED"
  | ToolNotFound => "TOOL_NOT_FOUND"
  | ToolExecutionFailed => "TOOL_EXECUTION_FAILED"
  | ToolValidationError => "TOOL_VALIDATION_ERROR"
  | ToolTimeout => "TOOL_TIMEOUT"
  | BackendImagePullFailed => "BACKEND_IMAGE_PULL_FAILED"
  | BackendContainerCreateFailed => "BACKEND_CONTAINER_CREATE_FAILED"
  | BackendContainerStartFailed => "BACKEND_CONTAINER_START_FAILED"
  | BackendVolumeError => "BACKEND_VOLUME_ERROR"
  | BackendContainerNotFound => "BACKEND_CONTAINER_NOT_FOUND"
  | BackendExecFailed => "BACKEND_EXEC_FAILED"
  | SshSessionNotFound => "SSH_SESSION_NOT_FOUND"
  | SshAuthenticationFailed => "SSH_AUTHENTICATION_FAILED"
  | SshConnectionFailed => "SSH_CONNECTION_FAILED"
  | TerminalOperationFailed => "TERMINAL_OPERATION_FAILED"
  | ValidationError => "VALIDATION_ERROR"
  | ValidationInvalidPort => "VALIDATION_INVALID_PORT"
  | ValidationMissingField => "VALIDATION_MISSING_FIELD"
  | ValidationInvalidImageName => "VALIDATION_INVALID_IMAGE_NAME"
  | ValidationInvalidRequest => "VALIDATION_INVALID_REQUEST"
  | AuthenticationMissing => "AUTHENTICATION_MISSING"
  | AuthenticationInvalidApiKey => "AUTHENTICATION_INVALID_API_KEY"
  | AuthorizationInsufficientPermissions => "AUTHORIZATION_INSUFFICIENT_PERMISSIONS"
  | DatabaseConnectionFailed => "DATABASE_CONNECTION_FAILED"
  | DatabaseQueryFailed => "DATABASE_QUERY_FAILED"
  | ServiceUnavailable => "SERVICE_UNAVAILABLE"
  | RateLimitExceeded => "RATE_LIMIT_EXCEEDED"
  | UpstreamError => "UPSTREAM_ERROR"
  | RequestTimeout => "REQUEST_TIMEOUT"
  | InternalError => "INTERNAL_ERROR"
  | ConfigurationError => "CONFIGURATION_ERROR"
  end.

Definition ErrorCode_parse (s : string) : option ErrorCode :=
  match_str
    [("SANDBOX_NOT_FOUND", SandboxNotFound);
     ("SANDBOX_INVALID_STATE", SandboxInvalidState);
     ("SANDBOX_ALREADY_EXISTS", SandboxAlreadyExists);
     ("SANDBOX_CREATION_FAILED", SandboxCreationFailed);
     ("SANDBOX_EXECUTION_FAILED", SandboxExecutionFailed);
     ("TOOL_NOT_FOUND", ToolNotFound);
     ("TOOL_EXECUTION_FAILED", ToolExecutionFailed);
     ("TOOL_VALIDATION_ERROR", ToolValidationError);
     ("TOOL_TIMEOUT", ToolTimeout);
     ("BACKEND_IMAGE_PULL_FAILED", BackendImagePullFailed);
     ("BACKEND_CONTAINER_CREATE_FAILED", BackendContainerCreateFailed);
     ("BACKEND_CONTAINER_START_FAILED", BackendContainerStartFailed);
     ("BACKEND_VOLUME_ERROR", BackendVolumeError);
     ("BACKEND_CONTAINER_NOT_FOUND", BackendContainerNotFound);
     ("BACKEND_EXEC_FAILED", BackendExecFailed);
     ("DOCKER_IMAGE_PULL_FAILED", BackendImagePullFailed);
     ("DOCKER_CONTAINER_CREATE_FAILED", BackendContainerCreateFailed);
     ("DOCKER_CONTAINER_START_FAILED", BackendContainerStartFailed);
     ("DOCKER_VOLUME_ERROR", BackendVolumeError);
     ("DOCKER_CONTAINER_NOT_FOUND", BackendContainerNotFound);
     ("DOCKER_EXEC_FAILED", BackendExecFailed);
     ("SSH_SESSION_NOT_FOUND", SshSessionNotFound);
     ("SSH_AUTHENTICATION_FAILED", SshAuthenticationFailed);
     ("SSH_CONNECTION_FAILED", SshConnectionFailed);
     ("TERMINAL_OPERATION_FAILED", TerminalOperationFailed);
     ("VALIDATION_ERROR", ValidationError);
     ("VALIDATION_INVALID_PORT", ValidationInvalidPort);
     ("VALIDATION_MISSING_FIELD", ValidationMissingField);
     ("VALIDATION_INVALID_IMAGE_NAME", ValidationInvalidImageName);
     ("VALIDATION_INVALID_REQUEST", ValidationInvalidRequest);
     ("AUTHENTICATION_MISSING", AuthenticationMissing);
     ("AUTHENTICATION_INVALID_API_KEY", AuthenticationInvalidApiKey);
     ("AUTHORIZATION_INSUFFICIENT_PERMISSIONS", AuthorizationInsufficientPermissions);
     ("DATABASE_CONNECTION_FAILED", DatabaseConnectionFailed);
     ("DATABASE_QUERY_FAILED", DatabaseQueryFailed);
     ("SERVICE_UNAVAILABLE", ServiceUnavailable);
     ("RATE_LIMIT_EXCEEDED", RateLimitExceeded);
     ("UPSTREAM_ERROR", UpstreamError);
     ("REQUEST_TIMEOUT", RequestTimeout);
     ("INTERNAL_ERROR", InternalError);
     ("CONFIGURATION_ERROR", ConfigurationError)] s.

(** HTTP status codes by number. *)
Definition http_status (c : ErrorCode) : Z :=
  match c with
  | ValidationError | ValidationInvalidPort | ValidationMissingField
  | ValidationInvalidImageName | ValidationInvalidRequest | ToolValidationError => 400
  | AuthenticationMissing | AuthenticationInvalidApiKey => 401
  | AuthorizationInsufficientPermissions => 403
  | SandboxNotFound | ToolNotFound | BackendContainerNotFound | SshSessionNotFound => 404
  | ToolTimeout | RequestTimeout => 408
  | SandboxAlreadyExists | SandboxInvalidState => 409
  | RateLimitExceeded => 429
  | BackendImagePullFailed | BackendContainerCreateFailed | BackendContainerStartFailed
  | BackendVolumeError | BackendExecFailed | SshConnectionFailed | UpstreamError => 502
  | DatabaseConnectionFailed | DatabaseQueryFailed | ServiceUnavailable => 503
  | SandboxCreationFailed | SandboxExecutionFailed | ToolExecutionFailed
  | SshAuthenticationFailed | TerminalOperationFailed | InternalError
  | ConfigurationError => 500
  end.

Definition is_retryable (c : ErrorCode) : bool :=
  match c with
  | ServiceUnavailable | RateLimitExceeded | DatabaseConnectionFailed
  | BackendImagePullFailed | BackendContainerCreateFailed | BackendContainerStartFailed
  | BackendExecFailed | UpstreamError | RequestTimeout | ToolTimeout => true
  | _ => false
  end.

(** ** [ApiError] *)

Inductive ApiError : Type :=
  | ApiSandboxNotFound (id : string)
  | ApiValidation (message : string) (field : option string) (code : ErrorCode)
  | ApiBackend (message operation : string) (code : ErrorCode)
  | ApiDatabase (message : string) (code : ErrorCode)
  | ApiAuthentication (message : string)
  | ApiInternal (message : string).

Definition ApiError_to_string (e : ApiError) : string :=
  match e with
  | ApiSandboxNotFound id => "Sandbox not found: " +:+ id
  | ApiValidation m _ _ => "Validation error: " +:+ m
  | ApiBackend m _ _ => "Backend error: " +:+ m
  | ApiDatabase m _ => "Database error: " +:+ m
  | ApiAuthentication m => "Authentication failed: " +:+ m
  | ApiInternal m => "Internal server error: " +:+ m
  end.

Definition ApiError_error_code (e : ApiError) : ErrorCode :=
  match e with
  | ApiSandboxNotFound _ => SandboxNotFound
  | ApiValidation _ _ code => code
  | ApiBackend _ _ code => code
  | ApiDatabase _ code => code
  | ApiAuthentication _ => AuthenticationInvalidApiKey
  | ApiInternal _ => InternalError
  end.

Definition suggestions (e : ApiError) : list string :=
  match e with
  | ApiSandboxNotFound _ =>
      ["Verify the sandbox ID is correct";
       "List all sandboxes with GET /sandboxes";
       "Check if the sandbox has been deleted"]
  | ApiBackend _ operation _ =>
      ["Backend operation '" +:+ operation +:+ "' failed. Check backend service status.";
       "Verify image name is correct";
       "Check system resources (disk, memory)"]
  | ApiValidation _ field _ =>
      "Check the request body format" ::
      match field with
      | Some f => ["Verify the '" +:+ f +:+ "' field value"]
      | None => []
      end
  | ApiAuthentication _ =>
      ["Provide a valid API key via X-API-Key header";
       "Generate a new API key from the admin dashboard"]
  | ApiDatabase _ _ =>
      ["The database is temporarily unavailable";
       "Try again in a few moments";
       "Contact support if the problem persists"]
  | ApiInternal _ =>
      ["An unexpected error occurred";
       "Check the server logs for details";
       "Contact support if the problem persists"]
  end.

(** Every value of the metadata map is a JSON string. *)
Definition extract_metadata (e : ApiError) : gmap string string :=
  match e with
  | ApiSandboxNotFound id => {[ "sandbox_id" := id ]}
  | ApiValidation _ (Some f) _ => {[ "field" := f ]}
  | ApiBackend _ operation _ => {[ "operation" := operation ]}
  | _ => ∅
  end.

(** The RFC 9457 body of an error response. *)
Record ProblemDetails : Type := {
  pd_type : option string;
  pd_title : string;
  pd_status : Z;
  pd_detail : string;
  pd_instance : option string;
  pd_error_code : string;
  pd_timestamp : string;
  pd_request_id : option string;
  pd_retryable : bool;
  pd_metadata : gmap string string;
  pd_suggestions : list string;
}.

(** [IntoResponse for ApiError]: the status of the response and its body; the
    rendered time of the call is an argument. *)
Definition into_response (now_rfc3339 : string) (e : ApiError) : Z * ProblemDetails :=
  let code := ApiError_error_code e in
  let status := http_status code in
  (status,
   {| pd_type := Some ("https://docs.dsb.dev/errors/" +:+ ErrorCode_as_str code);
      pd_title := replace "_" " " (ErrorCode_as_str code);
      pd_status := status;
      pd_detail := ApiError_to_string e;
      pd_instance := None;
      pd_error_code := ErrorCode_as_str code;
      pd_timestamp := now_rfc3339;
      pd_request_id := None;
      pd_retryable := is_retryable code;
      pd_metadata := extract_metadata e;
      pd_suggestions := suggestions e |}).

(** ** The error types of the layers below *)

Inductive StoreError : Type :=
  | StorePostgres (text : string)
  | StoreSerialization (text : string)
  | StoreNotFound (id : Uuid)
  | StoreInvalidState (text : string)
  | StoreMessage (text : string).

Definition StoreError_error_code (e : StoreError) : ErrorCode :=
  match e with
  | StorePostgres _ => DatabaseQueryFailed
  | StoreSerialization _ => InternalError
  | StoreNotFound _ => SandboxNotFound
  | StoreInvalidState _ => SandboxInvalidState
  | StoreMessage _ => InternalError
  end.

Definition StoreError_to_string `{UuidLib} (e : StoreError) : string :=
  match e with
  | StorePostgres t => "PostgreSQL error: " +:+ t
  | StoreSerialization t => "Serialization error: " +:+ t
  | StoreNotFound id => "Sandbox " +:+ uuid_to_string id +:+ " not found"
  | StoreInvalidState t => "Invalid state: " +:+ t
  | StoreMessage t => t
  end.

Definition ApiError_from_StoreError `{UuidLib} (e : StoreError) : ApiError :=
  let code := StoreError_error_code e in
  match e with
  | StoreNotFound id => ApiSandboxNotFound (uuid_to_string id)
  | StorePostgres _ => ApiDatabase "Database operation failed" code
  | StoreSerialization _ => ApiDatabase "Data serialization failed" code
  | StoreInvalidState msg => ApiValidation msg None code
  | StoreMessage msg => ApiInternal msg
  end.

Inductive SshServiceError : Type :=
  | SshSandboxNotFound (id : Uuid)
  | SshSandboxNotRunning (id : Uuid)
  | SshAuthFailed (text : string)
  | SshSessionMissing (id : Uuid)
  | SshDatabaseError (text : string)
  | SshInvalidRequest (text : string).

#[global] Instance SshServiceError_eq_dec : EqDecision SshServiceError.
Proof. solve_decision. Defined.

Definition SshServiceError_error_code (e : SshServiceError) : ErrorCode :=
  match e with
  | SshSandboxNotFound _ => SandboxNotFound
  | SshSandboxNotRunning _ => SandboxInvalidState
  | SshAuthFailed _ => SshAuthenticationFailed
  | SshSessionMissing _ => SshSessionNotFound
  | SshDatabaseError _ => DatabaseQueryFailed
  | SshInvalidRequest _ => ValidationInvalidRequest
  end.

Definition ApiError_from_SshServiceError `{UuidLib} (e : SshServiceError) : ApiError :=
  let code := SshServiceError_error_code e in
  match e with
  | SshSandboxNotFound id => ApiSandboxNotFound (uuid_to_string id)
  | SshSandboxNotRunning id =>
      ApiValidation ("Sandbox is not running: " +:+ uuid_to_string id) None code
  | SshAuthFailed msg => ApiValidation msg None code
  | SshSessionMissing id =>
      ApiValidation ("SSH session not found: " +:+ uuid_to_string id) (Some "session_id") code
  | SshDatabaseError msg => ApiDatabase msg code
  | SshInvalidRequest msg => ApiValidation msg None code
  end.

Inductive ManagerError : Type :=
  | ManagerApi (text : string)
  | ManagerNotFound (text : string)
  | ManagerOperationFailed (text : string)
  | ManagerNotSupported (text : string)
  | ManagerTimeout (text : string)
  | ManagerConflict (text : string)
  | ManagerIo (text : string).

#[global] Instance ManagerError_eq_dec : EqDecision ManagerError.
Proof. solve_decision. Defined.

Definition ManagerError_to_string (e : ManagerError) : string :=
  match e with
  | ManagerApi t => "API error: " +:+ t
  | ManagerNotFound t => "Not found: " +:+ t
  | ManagerOperationFailed t => "Operation failed: " +:+ t
  | ManagerNotSupported t => "Not supported in this backend: " +:+ t
  | ManagerTimeout t => "Timeout: " +:+ t
  | ManagerConflict t => "Conflict: " +:+ t
  | ManagerIo t => "IO error: " +:+ t
  end.

Definition ApiError_from_ManagerError (e : ManagerError) : ApiError :=
  match e with
  | ManagerNotFound msg => ApiSandboxNotFound msg
  | ManagerApi msg => ApiBackend msg "manager_api" InternalError
  | ManagerOperationFailed msg => ApiBackend msg "manager_operation" InternalError
  | ManagerNotSupported msg =>
      ApiValidation ("Operation not supported: " +:+ msg) None InternalError
  | ManagerTimeout msg => ApiBackend msg "timeout" RequestTimeout
  | ManagerConflict msg => ApiBackend msg "conflict" SandboxAlreadyExists
  | ManagerIo msg => ApiBackend msg "io" InternalError
  end.

(** A boxed error keeps only its text. *)
Definition ApiError_from_box (text : string) : ApiError := ApiInternal text.

(** ** Docker's error types *)

Inductive DockerError : Type :=
  | DockerApi (text : string)
  | DockerToolProxy (message : string) (code : ErrorCode)
  | DockerContainerNotFound (text : string)
  | DockerImageNotFound (text : string)
  | DockerExecFailed (text : string)
  | DockerVolume (text : string)
  | DockerIo (text : string).

Definition DockerError_error_code (e : DockerError) : ErrorCode :=
  match e with
  | DockerApi _ => ServiceUnavailable
  | DockerToolProxy _ code => code
  | DockerContainerNotFound _ => BackendContainerNotFound
  | DockerImageNotFound _ => BackendImagePullFailed
  | DockerExecFailed _ => BackendExecFailed
  | DockerVolume _ => BackendVolumeError
  | DockerIo _ => InternalError
  end.

Definition ApiError_from_DockerError (e : DockerError) : ApiError :=
  let code := DockerError_error_code e in
  match e with
  | DockerImageNotFound img => ApiBackend ("Image not found: " +:+ img) "pull_image" code
  | DockerContainerNotFound id =>
      ApiBackend ("Container not found: " +:+ id) "container_operation" code
  | DockerToolProxy message _ => ApiBackend message "tool_proxy" code
  | DockerApi msg => ApiBackend msg "docker_api" code
  | DockerVolume msg => ApiBackend msg "volume" code
  | DockerExecFailed msg => ApiBackend msg "exec" code
  | DockerIo io_err => ApiBackend io_err "io" code
  end.

Inductive DockerManagerError : Type :=
  | DmApi (text : string)
  | DmContainerNotFound (text : string)
  | DmImageNotFound (text : string)
  | DmExecFailed (text : string)
  | DmVolume (text : string)
  | DmIo (text : string)
  | DmBollard (text : string)
  | DmToolProxy (message operation : string)
  | DmInvalidConfig (text : string)
  | DmHttp (text : string)
  | DmTimeout (text : string).

Definition DockerError_from_manager (e : DockerManagerError) : DockerError :=
  match e with
  | DmApi s => DockerApi s
  | DmContainerNotFound s => DockerContainerNotFound s
  | DmImageNotFound s => DockerImageNotFound s
  | DmExecFailed s => DockerExecFailed s
  | DmVolume s => DockerVolume s
  | DmIo e => DockerIo e
  | DmBollard e => DockerApi e
  | DmToolProxy message _ => DockerToolProxy message ServiceUnavailable
  | DmInvalidConfig s => DockerApi s
  | DmHttp s => DockerApi s
  | DmTimeout s => DockerApi s
  end.

Definition ManagerError_from_DockerManagerError (e : DockerManagerError) : ManagerError :=
  match e with
  | DmApi s => ManagerApi s
  | DmContainerNotFound s => ManagerNotFound ("Container: " +:+ s)
  | DmImageNotFound s => ManagerNotFound ("Image: " +:+ s)
  | DmExecFailed s => ManagerOperationFailed ("Exec: " +:+ s)
  | DmVolume s => ManagerOperationFailed ("Volume: " +:+ s)
  | DmIo e => ManagerIo e
  | DmBollard e => ManagerApi e
  | DmToolProxy message operation =>
      ManagerOperationFailed ("Tool proxy " +:+ operation +:+ ": " +:+ message)
  | DmInvalidConfig s => ManagerApi s
  | DmHttp s => ManagerApi s
  | DmTimeout s => ManagerOperationFailed s
  end.

Definition ManagerError_from_DockerError (e : DockerError) : ManagerError :=
  match e with
  | DockerApi s => ManagerApi s
  | DockerContainerNotFound s => ManagerNotFound ("Container: " +:+ s)
  | DockerImageNotFound s => ManagerNotFound ("Image: " +:+ s)
  | DockerExecFailed s => ManagerOperationFailed ("Exec: " +:+ s)
  | DockerVolume s => ManagerOperationFailed ("Volume: " +:+ s)
  | DockerIo e => ManagerIo e
  | DockerToolProxy message _ => ManagerOperationFailed ("Tool proxy: " +:+ message)
  end.

(** ** Theorems *)

(** The legacy names that [ErrorCode_parse] still accepts: the code's name with
    its [BACKEND_] prefix spelled [DOCKER_]. *)
Definition legacy_alias (s : string) (c : ErrorCode) : bool :=
  match strip_prefix "DOCKER_" s, strip_prefix "BACKEND_" (ErrorCode_as_str c) with
  | Some x, Some y => String.eqb x y
  | _, _ => false
  end.

Lemma ErrorCode_parse_inv s c :
  ErrorCode_parse s = Some c → s = ErrorCode_as_str c ∨ legacy_alias s c = true.
Proof.
  intros H. unfold ErrorCode_parse in H. apply match_str_Some in H.
  assert (∀ (l : list (string * ErrorCode)),
    forallb (λ '(p, d), String.eqb p (ErrorCode_as_str d) || legacy_alias p d) l = true →
    (s, c) ∈ l → s = ErrorCode_as_str c ∨ legacy_alias s c = true) as Hall.
  { intros l Hl Hin. rewrite forallb_forall in Hl.
    specialize (Hl (s, c) (proj1 (list_elem_of_In _ _) Hin)). simpl in Hl.
    apply orb_true_iff in Hl as [Hl|Hl]; [left; by apply String.eqb_eq|by right]. }
  refine (Hall _ _ H). vm_compute. reflexivity.
Qed.

Lemma ErrorCode_parse_as_str c : ErrorCode_parse (ErrorCode_as_str c) = Some c.
Proof. destruct c; vm_compute; reflexivity. Qed.

(** The textual form of an error code parses back to it, and every text that
    parses is that form or its legacy [DOCKER_] spelling. *)
Theorem error_code_roundtrip :
  (∀ c, ErrorCode_parse (ErrorCode_as_str c) = Some c) ∧
  (∀ s c, ErrorCode_parse s = Some c →
     s = ErrorCode_as_str c ∨ legacy_alias s c = true).
Proof.
  split; [exact ErrorCode_parse_as_str|exact ErrorCode_parse_inv].
Qed.

(** Converting a lower layer's error into an [ApiError] keeps its error code,
    for the store, the SSH service and Docker. *)
Theorem conversions_preserve_code `{UuidLib} :
  (∀ e, ApiError_error_code (ApiError_from_StoreError e) = StoreError_error_code e) ∧
  (∀ e, ApiError_error_code (ApiError_from_SshServiceError e) = SshServiceError_error_code e) ∧
  (∀ e, ApiError_error_code (ApiError_from_DockerError e) = DockerError_error_code e).
Proof. split_and!; by intros []. Qed.

(** An error response is consistent: the status line and the body agree, the
    status is a client or server error, and a response marked retryable is a
    timeout, a rate limit, a gateway error or an unavailable service. *)
Theorem into_response_consistent now e :
  let '(status, body) := into_response now e in
  status = pd_status body ∧
  400 ≤ status < 600 ∧
  ErrorCode_parse (pd_error_code body) = Some (ApiError_error_code e) ∧
  (pd_retryable body = true → status ∈ [408; 429; 502; 503]) ∧
  pd_suggestions body ≠ [].
Proof.
  unfold into_response; simpl. split_and!; [done| | | | |].
  1-2: destruct (ApiError_error_code e); simpl; lia.
  - apply ErrorCode_parse_as_str.
  - destruct (ApiError_error_code e); simpl; try done; set_solver.
  - by destruct e.
Qed.
