(* ===== verification/Types.v ===== *)
(** * Types: the core data types ([src/core/types.rs])

    Integers keep their Rust width through the [is_u16]/[is_u64]/... range
    predicates of the Prelude; a [DateTime<Utc>] is a number of nanoseconds
    since the epoch.  Record fields carry a prefix for their struct, since
    Rocq's projections share one name space. *)

From S2P Require Import Prelude Text Errors.

(** A [chrono::DateTime<Utc>]; a difference of two is a duration. *)
Definition DateTime : Type := Z.
Definition ns_per_sec : Z := 1000000000.

(** [chrono::Duration::num_seconds] and [num_minutes] belong to chrono. *)
Class ChronoLib := {
  num_seconds : Z → Z;
  num_minutes : Z → Z;
}.

(** Their documented meaning: the number of whole seconds and minutes,
    rounded towards zero. *)
Class ChronoLaws `{ChronoLib} : Prop := {
  num_seconds_spec d : num_seconds d = Z.quot d ns_per_sec;
  num_minutes_spec d : num_minutes d = Z.quot d (60 * ns_per_sec);
}.

(** ** Identity *)

Inductive ApiKeyType : Type := Privileged | Database.

#[global] Instance ApiKeyType_eq_dec : EqDecision ApiKeyType.
Proof. solve_decision. Defined.

Record ApiKeyIdentity : Type := mkIdentity {
  identity_id : option Uuid;
  identity_key_type : ApiKeyType;
}.

#[global] Instance ApiKeyIdentity_eq_dec : EqDecision ApiKeyIdentity.
Proof. solve_decision. Defined.

(** ** The states of a sandbox *)

Inductive SandboxState : Type :=
  | Creating | Created | Starting | Running | Stopped | Error | Destroying | Destroyed.

#[global] Instance SandboxState_eq_dec : EqDecision SandboxState.
Proof. solve_decision. Defined.

Definition SandboxState_as_str (s : SandboxState) : string :=
  match s with
  | Creating => "creating"
  | Created => "created"
  | Starting => "starting"
  | Running => "running"
  | Stopped => "stopped"
  | Error => "error"
  | Destroying => "destroying"
  | Destroyed => "destroyed"
  end.

Definition SandboxState_from_str (s : string) : Result SandboxState string :=
  match match_str
    [("creating", Creating); ("created", Created); ("starting", Starting);
     ("running", Running); ("stopped", Stopped); ("error", Error);
     ("destroying", Destroying); ("destroyed", Destroyed)] s
  with
  | Some st => Ok st
  | None => Err ("Invalid sandbox state: " +:+ s)
  end.

Inductive PullPolicy : Type := Always | Missing | Never.

#[global] Instance PullPolicy_eq_dec : EqDecision PullPolicy.
Proof. solve_decision. Defined.

Definition PullPolicy_as_str (p : PullPolicy) : string :=
  match p with
  | Always => "always"
  | Missing => "missing"
  | Never => "never"
  end.

(** ** Configuration *)

Inductive PortProtocol : Type := Tcp | Udp.

#[global] Instance PortProtocol_eq_dec : EqDecision PortProtocol.
Proof. solve_decision. Defined.

Record PortMapping : Type := mkPortMapping {
  host_port : Z;
  container_port : Z;
  protocol : PortProtocol;
}.

#[global] Instance PortMapping_eq_dec : EqDecision PortMapping.
Proof. solve_decision. Defined.

Inductive VolumeMount : Type :=
  | Bind (host_path container_path : string) (read_only : bool)
  | Named (name container_path : string) (read_only : bool).

#[global] Instance VolumeMount_eq_dec : EqDecision VolumeMount.
Proof. solve_decision. Defined.

Definition volume_container_path (v : VolumeMount) : string :=
  match v with Bind _ cp _ => cp | Named _ cp _ => cp end.

Record Ulimit : Type := mkUlimit {
  ulimit_name : string;
  ulimit_soft : Z;
  ulimit_hard : Z;
}.

#[global] Instance Ulimit_eq_dec : EqDecision Ulimit.
Proof. solve_decision. Defined.

Record ResourceLimits : Type := mkResourceLimits {
  memory_mb : option Z;
  cpu_quota : option Z;
  cpu_period : option Z;
  cpu_shares : option Z;
  pids_limit : option Z;
  ulimits : option (list Ulimit);
}.

#[global] Instance ResourceLimits_eq_dec : EqDecision ResourceLimits.
Proof. solve_decision. Defined.

Definition ResourceLimits_default : ResourceLimits :=
  {| memory_mb := None; cpu_quota := None; cpu_period := None;
     cpu_shares := None; pids_limit := None; ulimits := None |}.

Record SandboxConfig : Type := mkSandboxConfig {
  cfg_image : string;
  cfg_name : option string;
  cfg_environment : gmap string string;
  cfg_port_mappings : list PortMapping;
  cfg_exposed_ports : list Z;
  cfg_resource_limits : ResourceLimits;
  cfg_volumes : list VolumeMount;
  cfg_command : option (list string);
  cfg_inactivity_timeout_minutes : option Z;
  cfg_pull_policy : PullPolicy;
  cfg_features : list string;
  cfg_enable_all_features : bool;
  cfg_vnc_resolution : option string;
}.

#[global] Instance SandboxConfig_eq_dec : EqDecision SandboxConfig.
Proof. solve_decision. Defined.

Definition SandboxConfig_default : SandboxConfig :=
  {| cfg_image := "nginx:latest";
     cfg_name := None;
     cfg_environment := ∅;
     cfg_port_mappings := [];
     cfg_exposed_ports := [];
     cfg_resource_limits := ResourceLimits_default;
     cfg_volumes := [];
     cfg_command := None;
     cfg_inactivity_timeout_minutes := None;
     cfg_pull_policy := Missing;
     cfg_features := [];
     cfg_enable_all_features := false;
     cfg_vnc_resolution := None |}.

(** The in-place updates of a [SandboxConfig] that the program makes. *)

Definition cfg_set_name n c :=
  {| cfg_image := cfg_image c; cfg_name := n; cfg_environment := cfg_environment c;
     cfg_port_mappings := cfg_port_mappings c; cfg_exposed_ports := cfg_exposed_ports c;
     cfg_resource_limits := cfg_resource_limits c; cfg_volumes := cfg_volumes c;
     cfg_command := cfg_command c;
     cfg_inactivity_timeout_minutes := cfg_inactivity_timeout_minutes c;
     cfg_pull_policy := cfg_pull_policy c; cfg_features := cfg_features c;
     cfg_enable_all_features := cfg_enable_all_features c;
     cfg_vnc_resolution := cfg_vnc_resolution c |}.

Definition cfg_set_environment e c :=
  {| cfg_image := cfg_image c; cfg_name := cfg_name c; cfg_environment := e;
     cfg_port_mappings := cfg_port_mappings c; cfg_exposed_ports := cfg_exposed_ports c;
     cfg_resource_limits := cfg_resource_limits c; cfg_volumes := cfg_volumes c;
     cfg_command := cfg_command c;
     cfg_inactivity_timeout_minutes := cfg_inactivity_timeout_minutes c;
     cfg_pull_policy := cfg_pull_policy c; cfg_features := cfg_features c;
     cfg_enable_all_features := cfg_enable_all_features c;
     cfg_vnc_resolution := cfg_vnc_resolution c |}.

Definition cfg_set_exposed_ports p c :=
  {| cfg_image := cfg_image c; cfg_name := cfg_name c; cfg_environment := cfg_environment c;
     cfg_port_mappings := cfg_port_mappings c; cfg_exposed_ports := p;
     cfg_resource_limits := cfg_resource_limits c; cfg_volumes := cfg_volumes c;
     cfg_command := cfg_command c;
     cfg_inactivity_timeout_minutes := cfg_inactivity_timeout_minutes c;
     cfg_pull_policy := cfg_pull_policy c; cfg_features := cfg_features c;
     cfg_enable_all_features := cfg_enable_all_features c;
     cfg_vnc_resolution := cfg_vnc_resolution c |}.

Definition cfg_set_resource_limits r c :=
  {| cfg_image := cfg_image c; cfg_name := cfg_name c; cfg_environment := cfg_environment c;
     cfg_port_mappings := cfg_port_mappings c; cfg_exposed_ports := cfg_exposed_ports c;
     cfg_resource_limits := r; cfg_volumes := cfg_volumes c;
     cfg_command := cfg_command c;
     cfg_inactivity_timeout_minutes := cfg_inactivity_timeout_minutes c;
     cfg_pull_policy := cfg_pull_policy c; cfg_features := cfg_features c;
     cfg_enable_all_features := cfg_enable_all_features c;
     cfg_vnc_resolution := cfg_vnc_resolution c |}.

Definition cfg_set_volumes v c :=
  {| cfg_image := cfg_image c; cfg_name := cfg_name c; cfg_environment := cfg_environment c;
     cfg_port_mappings := cfg_port_mappings c; cfg_exposed_ports := cfg_exposed_ports c;
     cfg_resource_limits := cfg_resource_limits c; cfg_volumes := v;
     cfg_command := cfg_command c;
     cfg_inactivity_timeout_minutes := cfg_inactivity_timeout_minutes c;
     cfg_pull_policy := cfg_pull_policy c; cfg_features := cfg_features c;
     cfg_enable_all_features := cfg_enable_all_features c;
     cfg_vnc_resolution := cfg_vnc_resolution c |}.

Definition cfg_set_command k c :=
  {| cfg_image := cfg_image c; cfg_name := cfg_name c; cfg_environment := cfg_environment c;
     cfg_port_mappings := cfg_port_mappings c; cfg_exposed_ports := cfg_exposed_ports c;
     cfg_resource_limits := cfg_resource_limits c; cfg_volumes := cfg_volumes c;
     cfg_command := k;
     cfg_inactivity_timeout_minutes := cfg_inactivity_timeout_minutes c;
     cfg_pull_policy := cfg_pull_policy c; cfg_features := cfg_features c;
     cfg_enable_all_features := cfg_enable_all_features c;
     cfg_vnc_resolution := cfg_vnc_resolution c |}.

Definition cfg_set_features f c :=
  {| cfg_image := cfg_image c; cfg_name := cfg_name c; cfg_environment := cfg_environment c;
     cfg_port_mappings := cfg_port_mappings c; cfg_exposed_ports := cfg_exposed_ports c;
     cfg_resource_limits := cfg_resource_limits c; cfg_volumes := cfg_volumes c;
     cfg_command := cfg_command c;
     cfg_inactivity_timeout_minutes := cfg_inactivity_timeout_minutes c;
     cfg_pull_policy := cfg_pull_policy c; cfg_features := f;
     cfg_enable_all_features := cfg_enable_all_features c;
     cfg_vnc_resolution := cfg_vnc_resolution c |}.

(** ** Images and containers, as the backends describe them *)

Record ImageSummary : Type := mkImageSummary {
  ims_id : string;
  ims_repo_tags : list string;
  ims_size : Z;
  ims_created : Z;
  ims_labels : option (gmap string string);
}.

Record ImageDetails : Type := mkImageDetails {
  imd_id : string;
  imd_repo_tags : list string;
  imd_size : Z;
  imd_virtual_size : Z;
  imd_created : Z;
  imd_architecture : string;
  imd_os : string;
  imd_labels : option (gmap string string);
  imd_env : option (list string);
  imd_features : list string;
}.

Record SandboxInfo : Type := mkSandboxInfo {
  info_id : string;
  info_name : option string;
  info_image : option string;
  info_state : option string;
  info_status : option string;
  info_created : option Z;
  info_ports : list (Z * Z);
  info_labels : gmap string string;
  info_node_name : option string;
  info_pod_ip : option string;
}.

Inductive SandboxProgressEvent : Type :=
  | EvPulling (image status : string) (current total : option Z)
  | EvCreating (image : string)
  | EvStarting (container_id : string)
  | EvReady (sandbox_id : Uuid) (container_id : string)
  | EvError (message : string).

#[global] Instance SandboxProgressEvent_eq_dec : EqDecision SandboxProgressEvent.
Proof. solve_decision. Defined.

(** ** Sandboxes *)

Record ActivityTracking : Type := mkActivityTracking {
  last_api_activity : DateTime;
  last_container_activity : option DateTime;
  activity_count : Z;
}.

#[global] Instance ActivityTracking_eq_dec : EqDecision ActivityTracking.
Proof. solve_decision. Defined.

Record Sandbox : Type := mkSandbox {
  sb_id : Uuid;
  sb_config : SandboxConfig;
  sb_state : SandboxState;
  sb_container_id : option string;
  sb_created_at : DateTime;
  sb_updated_at : DateTime;
  sb_error_message : option string;
  sb_volume_mounts : list VolumeMount;
  sb_activity : ActivityTracking;
  sb_inactivity_timeout_minutes : option Z;
  sb_deleted_at : option DateTime;
  sb_deleted_by : option string;
  sb_api_key_id : option Uuid;
}.

#[global] Instance Sandbox_eq_dec : EqDecision Sandbox.
Proof. solve_decision. Defined.

(** The in-place updates of a [Sandbox] that the program makes. *)

Definition sb_set_config c s :=
  mkSandbox (sb_id s) c (sb_state s) (sb_container_id s) (sb_created_at s) (sb_updated_at s)
    (sb_error_message s) (sb_volume_mounts s) (sb_activity s)
    (sb_inactivity_timeout_minutes s) (sb_deleted_at s) (sb_deleted_by s) (sb_api_key_id s).

Definition sb_set_state st s :=
  mkSandbox (sb_id s) (sb_config s) st (sb_container_id s) (sb_created_at s) (sb_updated_at s)
    (sb_error_message s) (sb_volume_mounts s) (sb_activity s)
    (sb_inactivity_timeout_minutes s) (sb_deleted_at s) (sb_deleted_by s) (sb_api_key_id s).

Definition sb_set_container_id cid s :=
  mkSandbox (sb_id s) (sb_config s) (sb_state s) cid (sb_created_at s) (sb_updated_at s)
    (sb_error_message s) (sb_volume_mounts s) (sb_activity s)
    (sb_inactivity_timeout_minutes s) (sb_deleted_at s) (sb_deleted_by s) (sb_api_key_id s).

Definition sb_set_updated_at t s :=
  mkSandbox (sb_id s) (sb_config s) (sb_state s) (sb_container_id s) (sb_created_at s) t
    (sb_error_message s) (sb_volume_mounts s) (sb_activity s)
    (sb_inactivity_timeout_minutes s) (sb_deleted_at s) (sb_deleted_by s) (sb_api_key_id s).

Definition sb_set_error_message m s :=
  mkSandbox (sb_id s) (sb_config s) (sb_state s) (sb_container_id s) (sb_created_at s)
    (sb_updated_at s) m (sb_volume_mounts s) (sb_activity s)
    (sb_inactivity_timeout_minutes s) (sb_deleted_at s) (sb_deleted_by s) (sb_api_key_id s).

Definition sb_set_activity a s :=
  mkSandbox (sb_id s) (sb_config s) (sb_state s) (sb_container_id s) (sb_created_at s)
    (sb_updated_at s) (sb_error_message s) (sb_volume_mounts s) a
    (sb_inactivity_timeout_minutes s) (sb_deleted_at s) (sb_deleted_by s) (sb_api_key_id s).

Definition sb_set_deleted t who s :=
  mkSandbox (sb_id s) (sb_config s) (sb_state s) (sb_container_id s) (sb_created_at s)
    (sb_updated_at s) (sb_error_message s) (sb_volume_mounts s) (sb_activity s)
    (sb_inactivity_timeout_minutes s) t who (sb_api_key_id s).

Inductive ActivityType : Type :=
  | ActCreate | ActDelete | ActRestore | ActExec | ActStats | ActStop | ActStart
  | ActCleanup | ActInfo | ActContainerActivity | ActUpload | ActDownload.

#[global] Instance ActivityType_eq_dec : EqDecision ActivityType.
Proof. solve_decision. Defined.

(** ** Requests and responses *)

Record CreateSandboxRequest : Type := mkCreateSandboxRequest {
  req_image : string;
  req_name : option string;
  req_environment : option (gmap string string);
  req_port_mappings : option (list PortMapping);
  req_resource_limits : option ResourceLimits;
  req_volumes : option (list VolumeMount);
  req_command : option (list string);
  req_inactivity_timeout_minutes : option Z;
  req_pull_policy : PullPolicy;
  req_features : list string;
  req_enable_all_features : bool;
  req_vnc_resolution : option string;
}.

Definition CreateSandboxRequest_validate (r : CreateSandboxRequest) : Result () ApiError :=
  if is_empty (trim (req_image r)) then
    Err (ApiValidation "image cannot be empty" (Some "image") ValidationError)
  else Ok ().

Record KubernetesInfo : Type := mkKubernetesInfo {
  k8s_node_name : option string;
  k8s_pod_ip : option string;
  k8s_service_name : option string;
  k8s_message : option string;
}.

Record SandboxResponse : Type := mkSandboxResponse {
  resp_id : Uuid;
  resp_state : SandboxState;
  resp_config : SandboxConfig;
  resp_container_id : option string;
  resp_created_at : DateTime;
  resp_updated_at : DateTime;
  resp_deleted_at : option DateTime;
  resp_deleted_by : option string;
  resp_api_key_id : option Uuid;
  resp_kubernetes : option KubernetesInfo;
}.

Definition SandboxResponse_from (s : Sandbox) : SandboxResponse :=
  {| resp_id := sb_id s;
     resp_state := sb_state s;
     resp_config := sb_config s;
     resp_container_id := sb_container_id s;
     resp_created_at := sb_created_at s;
     resp_updated_at := sb_updated_at s;
     resp_deleted_at := sb_deleted_at s;
     resp_deleted_by := sb_deleted_by s;
     resp_api_key_id := sb_api_key_id s;
     resp_kubernetes := None |}.

(** ** SSH sessions *)

Inductive SshSessionState : Type :=
  | Connecting | Active | Disconnected | Terminated | SshError.

#[global] Instance SshSessionState_eq_dec : EqDecision SshSessionState.
Proof. solve_decision. Defined.

Definition SshSessionState_as_str (s : SshSessionState) : string :=
  match s with
  | Connecting => "connecting"
  | Active => "active"
  | Disconnected => "disconnected"
  | Terminated => "terminated"
  | SshError => "error"
  end.

Definition is_active (s : SshSessionState) : bool :=
  match s with Active => true | _ => false end.

Definition is_terminal (s : SshSessionState) : bool :=
  match s with Disconnected | Terminated | SshError => true | _ => false end.

Inductive SshAuthMethod : Type := AuthApiKey | AuthCertificate.

#[global] Instance SshAuthMethod_eq_dec : EqDecision SshAuthMethod.
Proof. solve_decision. Defined.

Definition SshAuthMethod_as_str (m : SshAuthMethod) : string :=
  match m with AuthApiKey => "api_key" | AuthCertificate => "certificate" end.

Record SshSession : Type := mkSshSession {
  ss_id : Uuid;
  ss_sandbox_id : Uuid;
  ss_client_ip : string;
  ss_ssh_version : option string;
  ss_auth_method : SshAuthMethod;
  ss_ssh_session_id : option string;
  ss_exec_id : option string;
  ss_pty_term : option string;
  ss_pty_rows : option Z;
  ss_pty_cols : option Z;
  ss_state : SshSessionState;
  ss_connected_at : DateTime;
  ss_disconnected_at : option DateTime;
  ss_last_activity_at : DateTime;
  ss_bytes_sent : Z;
  ss_bytes_received : Z;
  ss_duration_seconds : option Z;
  ss_termination_reason : option string;
  ss_created_at : DateTime;
  ss_updated_at : DateTime;
}.

#[global] Instance SshSession_eq_dec : EqDecision SshSession.
Proof. solve_decision. Defined.

Record CreateSshSessionRequest : Type := mkCreateSshSessionRequest {
  sreq_sandbox_id : Uuid;
  sreq_client_ip : string;
  sreq_ssh_version : option string;
  sreq_auth_method : SshAuthMethod;
  sreq_username : option string;
  sreq_public_key : option string;
}.

Definition valid_key_prefixes : list string :=
  ["ssh-rsa"; "ssh-ed25519"; "ecdsa-sha2-nistp256"; "ecdsa-sha2-nistp384";
   "ecdsa-sha2-nistp521"; "ssh-dss"].

Definition CreateSshSessionRequest_validate (r : CreateSshSessionRequest) : Result () ApiError :=
  let? _ :=
    match sreq_username r with
    | Some username =>
        if is_empty (trim username) then
          Err (ApiValidation "SSH username cannot be empty" (Some "username") ValidationError)
        else Ok ()
    | None => Ok ()
    end in
  match sreq_public_key r with
  | Some public_key =>
      let trimmed := trim public_key in
      if is_empty trimmed then
        Err (ApiValidation "SSH public key cannot be empty" (Some "public_key") ValidationError)
      else if negb (existsb (λ p, starts_with p trimmed) valid_key_prefixes) then
        Err (ApiValidation "Invalid SSH public key format. Must be a valid SSH public key (e.g., ssh-rsa, ssh-ed25519, ecdsa-sha2-nistp256)" (Some "public_key") ValidationError)
      else Ok ()
  | None => Ok ()
  end.

Record SshSessionFilters : Type := mkSshSessionFilters {
  filter_sandbox_id : option Uuid;
  filter_state : option SshSessionState;
  filter_limit : option Z;
  filter_offset : option Z;
}.

(** ** Round trips of the textual states *)

Lemma SandboxState_from_as_str s : SandboxState_from_str (SandboxState_as_str s) = Ok s.
Proof. destruct s; reflexivity. Qed.

Lemma SandboxState_from_str_inv t s :
  SandboxState_from_str t = Ok s → t = SandboxState_as_str s.
Proof.
  unfold SandboxState_from_str. case_match eqn:E; intros; simplify_eq.
  apply match_str_Some in E. set_solver.
Qed.

#[global] Instance SandboxState_as_str_inj : Inj (=) (=) SandboxState_as_str.
Proof. intros [] []; simpl; congruence. Qed.
#[global] Instance SshSessionState_as_str_inj : Inj (=) (=) SshSessionState_as_str.
Proof. intros [] []; simpl; congruence. Qed.
