(* ===== verification/Store.v ===== *)
(** * Store: the state-store interface and the in-memory store

    Models [src/core/store_trait.rs] (the class [StateStoreTrait]) and
    [src/core/state.rs] (the instance for [StateStore]).  Every method locks the
    map for its whole body, so a method is one atomic transition.  The class
    [StoreContract] is what the service relies on; the in-memory store meets
    it here, and the PostgreSQL store in [Postgres.v]. *)

From S2P Require Import Prelude Text Errors Types.

(** A boxed error is represented by its text. *)
Class StateStoreTrait (S : Type) := {
  create_sandbox : Sandbox → M S (Result () string);
  get_sandbox : Uuid → M S (option Sandbox);
  get_sandbox_with_deleted : Uuid → bool → M S (option Sandbox);
  list_sandboxes : M S (list Sandbox);
  update_sandbox : Sandbox → M S (Result () string);
  delete_sandbox : Uuid → M S (Result () string);
  list_sandboxes_owned_by : Uuid → bool → M S (list Sandbox);
  get_sandbox_if_owned_by : Uuid → Uuid → M S (option Sandbox);
  get_sandbox_with_deleted_if_owned_by : Uuid → Uuid → bool → M S (option Sandbox);
}.

(** A soft-deleted record is hidden unless [include_deleted]. *)
Definition visible (include_deleted : bool) (sb : Sandbox) : bool :=
  include_deleted || match sb_deleted_at sb with None => true | Some _ => false end.

Definition owned_by (key : Uuid) (sb : Sandbox) : bool :=
  bool_decide (sb_api_key_id sb = Some key).

(** Two readings of a record that may differ in the command alone. *)
Definition same_but_command (sb sb' : Sandbox) : Prop :=
  ∃ c, sb' = sb_set_config (cfg_set_command c (sb_config sb)) sb.

Definition option_filter {A} (p : A → bool) (o : option A) : option A :=
  match o with Some a => if p a then Some a else None | None => None end.

(** ** The in-memory store *)

Record StateStore : Type := mkStateStore { sandboxes : gmap Uuid Sandbox }.

Definition StateStore_new : StateStore := mkStateStore ∅.

(** [sandboxes.values()]: the order of a [HashMap]'s values is unspecified,
    so nothing below depends on the order of [map_to_list]. *)
Definition values (m : gmap Uuid Sandbox) : list Sandbox := (map_to_list m).*2.

Module StateStoreOps.

Definition create_sandbox (sb : Sandbox) : M StateStore (Result () string) :=
  λ s, (Ok (), mkStateStore (<[sb_id sb := sb]> (sandboxes s))).

Definition get_sandbox (id : Uuid) : M StateStore (option Sandbox) :=
  λ s, (sandboxes s !! id, s).

Definition get_sandbox_with_deleted (id : Uuid) (_include_deleted : bool)
    : M StateStore (option Sandbox) :=
  get_sandbox id.

Definition list_sandboxes : M StateStore (list Sandbox) :=
  λ s, (values (sandboxes s), s).

Definition update_sandbox (sb : Sandbox) : M StateStore (Result () string) :=
  λ s, (Ok (), mkStateStore (<[sb_id sb := sb]> (sandboxes s))).

Definition delete_sandbox (id : Uuid) : M StateStore (Result () string) :=
  λ s, (Ok (), mkStateStore (delete id (sandboxes s))).

Definition list_sandboxes_owned_by (api_key_id : Uuid) (include_deleted : bool)
    : M StateStore (list Sandbox) :=
  λ s, (List.filter (λ sb, owned_by api_key_id sb && visible include_deleted sb)
          (values (sandboxes s)), s).

Definition get_sandbox_if_owned_by (id api_key_id : Uuid) : M StateStore (option Sandbox) :=
  λ s, (option_filter (λ sb, owned_by api_key_id sb && visible false sb)
          (sandboxes s !! id), s).

Definition get_sandbox_with_deleted_if_owned_by (id api_key_id : Uuid) (include_deleted : bool)
    : M StateStore (option Sandbox) :=
  λ s, (option_filter (λ sb, owned_by api_key_id sb && visible include_deleted sb)
          (sandboxes s !! id), s).

End StateStoreOps.

#[global] Instance StateStore_trait : StateStoreTrait StateStore := {|
  create_sandbox := StateStoreOps.create_sandbox;
  get_sandbox := StateStoreOps.get_sandbox;
  get_sandbox_with_deleted := StateStoreOps.get_sandbox_with_deleted;
  list_sandboxes := StateStoreOps.list_sandboxes;
  update_sandbox := StateStoreOps.update_sandbox;
  delete_sandbox := StateStoreOps.delete_sandbox;
  list_sandboxes_owned_by := StateStoreOps.list_sandboxes_owned_by;
  get_sandbox_if_owned_by := StateStoreOps.get_sandbox_if_owned_by;
  get_sandbox_with_deleted_if_owned_by := StateStoreOps.get_sandbox_with_deleted_if_owned_by;
|}.

(** ** What the service relies on

    [contents] is every record of the store, soft-deleted ones included;
    [stored_as] is what a record reads back as (the identity in memory, lossy
    in the database); [available] says that the store answers.  An update must
    not change the time of creation, which [stored_time] rounds. *)
Class StoreContract (S : Type) `{StateStoreTrait S} := {
  contents : S → gmap Uuid Sandbox;
  stored_as : Sandbox → Sandbox;
  available : S → Prop;
  shows_deleted : bool;
  stored_time : DateTime → DateTime;

  contents_keyed s id sb :
    available s → contents s !! id = Some sb → sb_id sb = id;
  stored_as_id sb : sb_id (stored_as sb) = sb_id sb;
  stored_as_state sb : sb_state (stored_as sb) = sb_state sb;
  stored_as_container sb : sb_container_id (stored_as sb) = sb_container_id sb;
  stored_as_owner sb : sb_api_key_id (stored_as sb) = sb_api_key_id sb;
  stored_as_deleted sb :
    is_Some (sb_deleted_at (stored_as sb)) ↔ is_Some (sb_deleted_at sb);
  stored_as_created sb : sb_created_at (stored_as sb) = stored_time (sb_created_at sb);
  contents_created s id sb :
    available s → contents s !! id = Some sb →
    stored_time (sb_created_at sb) = sb_created_at sb;

  create_spec sb s :
    available s → contents s !! sb_id sb = None →
    ∃ s', create_sandbox sb s = (Ok (), s') ∧ available s' ∧
          contents s' = <[sb_id sb := stored_as sb]> (contents s);
  update_spec sb old s :
    available s → contents s !! sb_id sb = Some old →
    stored_time (sb_created_at sb) = sb_created_at old →
    ∃ s', update_sandbox sb s = (Ok (), s') ∧ available s' ∧
          contents s' = <[sb_id sb := stored_as sb]> (contents s);
  delete_spec id s :
    available s →
    ∃ s', delete_sandbox id s = (Ok (), s') ∧ available s' ∧
          contents s' = delete id (contents s);
  get_spec id s :
    available s →
    get_sandbox id s = (option_filter (visible shows_deleted) (contents s !! id), s);
  get_with_deleted_spec id s :
    available s → get_sandbox_with_deleted id true s = (contents s !! id, s);
  get_live_spec id s :
    available s →
    get_sandbox_with_deleted id false s
      = (option_filter (visible shows_deleted) (contents s !! id), s);
  list_spec s :
    available s →
    ∃ l, list_sandboxes s = (l, s) ∧
         ∀ sb, sb ∈ l → contents s !! sb_id sb = Some sb;
  owned_spec id key incl s :
    available s →
    ∃ o, get_sandbox_with_deleted_if_owned_by id key incl s = (o, s) ∧
         (is_Some o ↔ ∃ sb, contents s !! id = Some sb ∧
                            sb_api_key_id sb = Some key ∧ visible incl sb = true);
  owned_list_spec s key incl :
    available s →
    ∃ l, list_sandboxes_owned_by key incl s = (l, s) ∧ NoDup (sb_id <$> l) ∧
         (∀ sb, sb ∈ l → sb_api_key_id sb = Some key ∧ visible incl sb = true ∧
            ∃ sb', contents s !! sb_id sb = Some sb' ∧ same_but_command sb sb') ∧
         (∀ id sb, contents s !! id = Some sb → sb_api_key_id sb = Some key →
            visible incl sb = true → ∃ sb', sb' ∈ l ∧ sb_id sb' = id);
}.

#[global] Hint Mode StoreContract ! - : typeclass_instances.

Definition keyed (m : gmap Uuid Sandbox) : Prop := map_Forall (λ id sb, sb_id sb = id) m.

Lemma elem_of_values m sb : keyed m → sb ∈ values m ↔ m !! sb_id sb = Some sb.
Proof.
  intros Hk. unfold values. rewrite list_elem_of_fmap. split.
  - intros ([id sb'] & -> & Hin). apply elem_of_map_to_list in Hin. simpl.
    by rewrite (Hk _ _ Hin).
  - intros Hin. exists (sb_id sb, sb). split; [done|by apply elem_of_map_to_list].
Qed.

Lemma keyed_insert m sb : keyed m → keyed (<[sb_id sb := sb]> m).
Proof. intros Hk. by apply map_Forall_insert_2. Qed.

Lemma keyed_delete m id : keyed m → keyed (delete id m).
Proof. intros Hk. by apply map_Forall_delete. Qed.

#[export] Hint Resolve keyed_insert keyed_delete : dsb.

Lemma keyed_values_nodup m : keyed m → NoDup (sb_id <$> values m).
Proof.
  intros Hk. unfold values.
  assert (sb_id <$> (map_to_list m).*2 = (map_to_list m).*1) as ->; [|apply NoDup_fst_map_to_list].
  assert (∀ p, p ∈ map_to_list m → sb_id p.2 = p.1) as Hall.
  { intros [id sb] Hin%elem_of_map_to_list. by apply Hk in Hin. }
  induction (map_to_list m) as [|p l IH]; [done|]. simpl. rewrite Hall by left. f_equal.
  apply IH. intros q Hq. apply Hall. by right.
Qed.

Lemma nodup_fmap_filter {A B} (f : A → B) (p : A → bool) l :
  NoDup (f <$> l) → NoDup (f <$> List.filter p l).
Proof.
  induction l as [|a l IH]; simpl; [done|]. rewrite NoDup_cons. intros [Hn Hl].
  destruct (p a); [|by apply IH]. simpl. apply NoDup_cons. split; [|by apply IH].
  intros (b & Hab & Hb)%list_elem_of_fmap. apply Hn, list_elem_of_fmap_2' with b; [|done].
  rewrite list_elem_of_In in Hb |- *. exact (proj1 (proj1 (filter_In _ _ _) Hb)).
Qed.

Lemma same_but_command_refl sb : same_but_command sb sb.
Proof. exists (cfg_command (sb_config sb)). by destruct sb as [? []]. Qed.

Lemma option_filter_Some {A} (p : A → bool) o a :
  option_filter p o = Some a ↔ o = Some a ∧ p a = true.
Proof.
  destruct o as [b|]; simpl; [|split; [done|by intros [? _]]].
  destruct (p b) eqn:E; split; intros; destruct_and?; simplify_eq; auto; congruence.
Qed.

Lemma owned_by_spec key sb : owned_by key sb = true ↔ sb_api_key_id sb = Some key.
Proof. apply bool_decide_eq_true. Qed.

#[global, program] Instance StateStore_contract : StoreContract StateStore := {|
  contents := sandboxes;
  stored_as := λ sb, sb;
  available := λ s, keyed (sandboxes s);
  shows_deleted := true;
  stored_time := λ t, t;
|}.
Next Obligation. intros s id sb Hk Hl. exact (Hk _ _ Hl). Qed.
Next Obligation. done. Qed.
Next Obligation. done. Qed.
Next Obligation. done. Qed.
Next Obligation. done. Qed.
Next Obligation. done. Qed.
Next Obligation. done. Qed.
Next Obligation. done. Qed.
Next Obligation. intros sb s Hk _. eexists; split_and!; [done| |done]. simpl; auto with dsb. Qed.
Next Obligation. intros sb old s Hk _ _. eexists; split_and!; [done| |done]. simpl; auto with dsb. Qed.
Next Obligation. intros id s Hk. eexists; split_and!; [done| |done]. simpl; auto with dsb. Qed.
Next Obligation. intros id s _. simpl. unfold StateStoreOps.get_sandbox. by destruct (_ !! _). Qed.
Next Obligation. done. Qed.
Next Obligation.
  intros id s _. simpl. unfold StateStoreOps.get_sandbox_with_deleted, StateStoreOps.get_sandbox.
  by destruct (_ !! _).
Qed.
Next Obligation.
  intros s Hk. eexists; split; [done|]. intros sb Hsb. by apply elem_of_values in Hsb.
Qed.
Next Obligation.
  intros id key incl s _. eexists; split; [done|]. split.
  - intros [sb Hsb]. apply option_filter_Some in Hsb as [Hsb [Ho Hv]%andb_true_iff].
    exists sb. by rewrite <-owned_by_spec.
  - intros (sb & Hsb & Ho & Hv). exists sb. apply option_filter_Some.
    rewrite andb_true_iff, owned_by_spec. done.
Qed.
Next Obligation.
  intros s key incl Hk. eexists; split; [done|]. split.
  { apply nodup_fmap_filter, keyed_values_nodup, Hk. }
  split.
  - intros sb. rewrite list_elem_of_In, filter_In, <-list_elem_of_In.
    intros [Hsb [Ho Hv]%andb_true_iff]. split; [by apply owned_by_spec|]. split; [done|].
    exists sb. split; [by apply elem_of_values in Hsb|apply same_but_command_refl].
  - intros id sb Hsb Ho Hv. exists sb. pose proof (Hk _ _ Hsb) as Hid. simpl in Hid.
    split; [|done]. rewrite list_elem_of_In, filter_In, <-list_elem_of_In.
    rewrite (elem_of_values _ _ Hk), Hid, andb_true_iff, owned_by_spec. done.
Qed.

(** ** Theorems *)

(** owner isolation in the in-memory store.  The listing for a key holds
    exactly the records that the key owns, the soft-deleted ones on request
    only, and the two lookups for a key find exactly those of them that have
    the id. *)
Theorem memory_store_isolates_owners s key include_deleted :
  keyed (sandboxes s) →
  (∀ sb, sb ∈ run_val (list_sandboxes_owned_by key include_deleted) s ↔
     sandboxes s !! sb_id sb = Some sb ∧ sb_api_key_id sb = Some key ∧
     visible include_deleted sb = true) ∧
  (∀ id sb, run_val (get_sandbox_with_deleted_if_owned_by id key include_deleted) s = Some sb ↔
     sb_id sb = id ∧ sb ∈ run_val (list_sandboxes_owned_by key include_deleted) s) ∧
  (∀ id, run_val (get_sandbox_if_owned_by id key) s
         = run_val (get_sandbox_with_deleted_if_owned_by id key false) s).
Proof.
  intros Hk.
  assert (∀ sb, sb ∈ run_val (list_sandboxes_owned_by key include_deleted) s ↔
     sandboxes s !! sb_id sb = Some sb ∧ sb_api_key_id sb = Some key ∧
     visible include_deleted sb = true) as Hlist.
  { intros sb. unfold run_val. simpl. rewrite list_elem_of_In, filter_In, <-list_elem_of_In.
    rewrite (elem_of_values _ _ Hk), andb_true_iff, owned_by_spec. done. }
  split_and!; [done| |done]. intros id sb. rewrite Hlist. unfold run_val. simpl.
  rewrite option_filter_Some, andb_true_iff, owned_by_spec. split.
  - intros (Hid & Ho & Hv). assert (sb_id sb = id) as <- by exact (Hk _ _ Hid). done.
  - intros (<- & Hid & Ho & Hv). done.
Qed.

(** the in-memory store does not hide soft-deleted records: whatever
    [include_deleted] says, [get_sandbox_with_deleted] returns the record that
    was stored last under the id, as [get_sandbox] does. *)
Theorem memory_store_shows_deleted s sb include_deleted id :
  let s1 := run_st (create_sandbox sb) s in
  run_val (get_sandbox_with_deleted (sb_id sb) include_deleted) s1 = Some sb ∧
  run_val (get_sandbox (sb_id sb)) s1 = Some sb ∧
  (id ≠ sb_id sb →
     run_val (get_sandbox_with_deleted id include_deleted) s1 = sandboxes s !! id) ∧
  run_val (get_sandbox (sb_id sb)) (run_st (delete_sandbox (sb_id sb)) s1) = None.
Proof.
  unfold run_val, run_st. simpl. split_and!.
  - apply lookup_insert_eq.
  - apply lookup_insert_eq.
  - intros Hne. by apply lookup_insert_ne.
  - apply lookup_delete_eq.
Qed.

(** ** Witnesses *)

Module Witnesses.

Definition record : Sandbox :=
  mkSandbox 1%N SandboxConfig_default Stopped None 0 0 None []
    (mkActivityTracking 0 None 0) None None None (Some 7%N).

Definition one : StateStore := mkStateStore (<[1%N := record]> ∅).

Lemma memory_store_isolates_owners_witness :
  keyed (sandboxes one) ∧
  (record ∈ run_val (list_sandboxes_owned_by 7%N false) one ↔
     sandboxes one !! 1%N = Some record ∧ Some 7%N = Some 7%N ∧ visible false record = true).
Proof.
  assert (keyed (sandboxes one)) as Hk by (by apply map_Forall_insert_2; [|apply map_Forall_empty]).
  split; [exact Hk|]. exact (proj1 (memory_store_isolates_owners one 7%N false Hk) record).
Defined.

End Witnesses.
