(* ===== verification/Features.v ===== *)
(** * Features: configuration discovered from image labels

    Models [src/core/features.rs]: which features of an image a request turns
    on, and how the resulting profile is merged into the sandbox
    configuration.  A [HashMap] is a [gmap]; a loop over one visits the
    entries of [map_to_list] in an order the theorems do not depend on. *)

From S2P Require Import Prelude Text Errors Types.

Definition DSB_FEATURES_LABEL : string := "com.dsb.features".

Record FeaturePort : Type := mkFeaturePort {
  fp_host : Z;
  fp_container : Z;
  fp_protocol : string;
  fp_description : string;
}.

Record FeatureVolume : Type := mkFeatureVolume {
  fv_volume_type : string;
  fv_container_path : string;
  fv_host_path : option string;
  fv_read_only : bool;
  fv_description : string;
}.

Record FeatureStaticServer : Type := mkFeatureStaticServer {
  fs_container_path : string;
  fs_host_path_template : option string;
  fs_description : string;
}.

Record FeatureDefinition : Type := mkFeatureDefinition {
  fd_description : string;
  fd_ports : list FeaturePort;
  fd_env : gmap string string;
  fd_volumes : list FeatureVolume;
  fd_static_server : option FeatureStaticServer;
  fd_enabled_by_default : bool;
}.

Record ImageFeatureLabel : Type := mkImageFeatureLabel {
  lbl_version : string;
  lbl_features : gmap string FeatureDefinition;
  lbl_default_command : option (list string);
}.

Record FeatureProfile : Type := mkFeatureProfile {
  available_features : gmap string FeatureDefinition;
  enabled_features : list string;
  default_command : option (list string);
}.

Record FeatureSelection : Type := mkFeatureSelection {
  sel_enabled : list string;
  sel_disabled : list string;
  sel_enable_all : bool;
}.

Definition FeatureSelection_enable_all (s : FeatureSelection) : FeatureSelection :=
  mkFeatureSelection (sel_enabled s) (sel_disabled s) true.

Definition FeatureProfile_empty : FeatureProfile := mkFeatureProfile ∅ [] None.

(** [Vec::contains]. *)
Definition vec_contains (s : string) (l : list string) : bool := bool_decide (s ∈ l).

(** [Vec::dedup]: drop consecutive repeats. *)
Fixpoint dedup (l : list string) : list string :=
  match l with
  | a :: ((b :: _) as l') => if String.eqb a b then dedup l' else a :: dedup l'
  | _ => l
  end.

(** ** Selecting features *)

(** The body of the loop of [determine_enabled_features] on one entry. *)
Definition feature_chosen (selection : FeatureSelection) (name : string)
    (feature : FeatureDefinition) : bool :=
  let has_explicit_selection := match sel_enabled selection with [] => false | _ => true end in
  if vec_contains name (sel_disabled selection) then false
  else if vec_contains name (sel_enabled selection) then true
  else if has_explicit_selection then false
  else if sel_enable_all selection && fd_enabled_by_default feature then true
  else if negb (sel_enable_all selection) && fd_enabled_by_default feature then true
  else false.

Definition determine_enabled_features (available : gmap string FeatureDefinition)
    (selection : FeatureSelection) : list string :=
  let enabled :=
    fold_left (λ enabled '(name, feature),
      if feature_chosen selection name feature then enabled ++ [name] else enabled)
    (map_to_list available) [] in
  dedup (merge_sort String.le enabled).

Definition build_feature_profile (label : ImageFeatureLabel) (selection : FeatureSelection)
    : FeatureProfile :=
  {| available_features := lbl_features label;
     enabled_features := determine_enabled_features (lbl_features label) selection;
     default_command := lbl_default_command label |}.

(** ** Reading a profile *)

Definition is_feature_enabled (p : FeatureProfile) (name : string) : bool :=
  vec_contains name (enabled_features p).

(** The enabled features that the image defines, in order. *)
Definition active_features (p : FeatureProfile) : list (string * FeatureDefinition) :=
  omap (λ name, (λ f, (name, f)) <$> available_features p !! name) (enabled_features p).

(** [to_lowercase] is compared with an ASCII word only, and no other character
    has an ASCII [u], [d] or [p] as its lower case. *)
Definition feature_port (d : FeaturePort) : PortMapping :=
  {| host_port := fp_host d;
     container_port := fp_container d;
     protocol := if String.eqb (to_ascii_lowercase (fp_protocol d)) "udp" then Udp else Tcp |}.

Definition get_ports (p : FeatureProfile) : list PortMapping :=
  '(_, f) ← active_features p; feature_port <$> fd_ports f.

Definition feature_volume (sandbox_id feature_name : string) (d : FeatureVolume)
    : option VolumeMount :=
  if String.eqb (fv_volume_type d) "dynamic_bind" then
    let host_path :=
      match fv_host_path d with
      | Some template => replace "{sandbox_id}" sandbox_id template
      | None => "/var/lib/dsb/feature-data/" +:+ sandbox_id +:+ "/" +:+ feature_name
      end in
    Some (Bind host_path (fv_container_path d) (fv_read_only d))
  else if String.eqb (fv_volume_type d) "bind" then
    let host_path :=
      default ("/tmp/dsb/" +:+ sandbox_id +:+ "/" +:+ feature_name) (fv_host_path d) in
    Some (Bind host_path (fv_container_path d) (fv_read_only d))
  else if String.eqb (fv_volume_type d) "named" then
    let name := default ("dsb-" +:+ feature_name +:+ "-" +:+ sandbox_id) (fv_host_path d) in
    Some (Named name (fv_container_path d) (fv_read_only d))
  else None.

Definition get_volumes (p : FeatureProfile) (sandbox_id : string) : list VolumeMount :=
  '(name, f) ← active_features p; omap (feature_volume sandbox_id name) (fd_volumes f).

(** [HashMap::extend]: the entries of the later map win. *)
Definition get_env (p : FeatureProfile) : gmap string string :=
  fold_left (λ env '(_, f), fd_env f ∪ env) (active_features p) ∅.

Definition get_command (p : FeatureProfile) : option (list string) :=
  match enabled_features p with
  | [] => None
  | _ => default_command p
  end.

Definition get_static_server_config (p : FeatureProfile) : option FeatureStaticServer :=
  head (omap (λ '(_, f), fd_static_server f) (active_features p)).

Definition has_static_server (p : FeatureProfile) : bool :=
  existsb (λ '(_, f), match fd_static_server f with Some _ => true | None => false end)
    (active_features p).

(** ** Merging a profile into a configuration *)

Definition apply_port (exposed : list Z) (port : PortMapping) : list Z :=
  if bool_decide (container_port port ∈ exposed) then exposed
  else exposed ++ [container_port port].

Definition apply_volume (volumes : list VolumeMount) (v : VolumeMount) : list VolumeMount :=
  let user_has_volume :=
    existsb (λ u, String.eqb (volume_container_path u) (volume_container_path v)) volumes in
  if user_has_volume then volumes else volumes ++ [v].

(** [entry(key).or_insert(value)]. *)
Definition apply_env (env : gmap string string) (kv : string * string) : gmap string string :=
  match env !! kv.1 with
  | Some _ => env
  | None => <[kv.1 := kv.2]> env
  end.

Definition apply_feature_profile (config : SandboxConfig) (profile : FeatureProfile)
    (sandbox_id : string) : SandboxConfig * Result () string :=
  let config := cfg_set_exposed_ports
    (fold_left apply_port (get_ports profile) (cfg_exposed_ports config)) config in
  let config := cfg_set_volumes
    (fold_left apply_volume (get_volumes profile sandbox_id) (cfg_volumes config)) config in
  let config := cfg_set_environment
    (fold_left apply_env (map_to_list (get_env profile)) (cfg_environment config)) config in
  let config :=
    match cfg_vnc_resolution config with
    | Some resolution =>
        cfg_set_environment (<["VNC_RESOLUTION" := resolution]> (cfg_environment config)) config
    | None => config
    end in
  let config :=
    match cfg_command config with
    | None =>
        match get_command profile with
        | Some feature_command => cfg_set_command (Some feature_command) config
        | None => config
        end
    | Some _ => config
    end in
  let config :=
    match enabled_features profile with
    | [] => config
    | _ => cfg_set_features (enabled_features profile) config
    end in
  (config, Ok ()).

(** ** Lemmas *)

Lemma vec_contains_spec s l : vec_contains s l = true ↔ s ∈ l.
Proof. apply bool_decide_eq_true. Qed.

Lemma vec_contains_false s l : vec_contains s l = false ↔ s ∉ l.
Proof. apply bool_decide_eq_false. Qed.

Lemma elem_of_dedup x l : x ∈ dedup l ↔ x ∈ l.
Proof.
  induction l as [|a l IH]; [done|]. destruct l as [|b l]; [done|].
  change (dedup (a :: b :: l)) with
    (if String.eqb a b then dedup (b :: l) else a :: dedup (b :: l)).
  destruct (String.eqb_spec a b) as [->|Hne].
  - rewrite IH. rewrite !elem_of_cons. tauto.
  - rewrite elem_of_cons, IH. by rewrite (elem_of_cons (b :: l)).
Qed.

Lemma StronglySorted_dedup l :
  StronglySorted String.le l → StronglySorted String.le (dedup l) ∧ NoDup (dedup l).
Proof.
  induction l as [|a l IH]; intros Hs; [split; constructor|].
  destruct l as [|b l]; [split; [done|apply NoDup_singleton]|].
  inversion Hs as [|? ? Hs' Ha]; subst. destruct (IH Hs') as [IH1 IH2].
  change (dedup (a :: b :: l)) with
    (if String.eqb a b then dedup (b :: l) else a :: dedup (b :: l)).
  destruct (String.eqb_spec a b) as [->|Hne]; [done|]. split.
  - constructor; [done|]. rewrite Forall_forall in *. intros x Hx.
    apply Ha. by apply elem_of_dedup.
  - constructor; [|done]. rewrite elem_of_dedup, elem_of_cons. intros [->|Hin]; [done|].
    inversion Hs' as [|? ? _ Hb]; subst. rewrite Forall_forall in Ha, Hb.
    apply Hne. apply (anti_symm String.le); [apply Ha; by left|apply Hb; done].
Qed.

Lemma fold_left_chosen sel l acc :
  fold_left (λ enabled '(name, feature),
      if feature_chosen sel name feature then enabled ++ [name] else enabled) l acc
  = acc ++ omap (λ '(name, feature),
      if feature_chosen sel name feature then Some name else None) l.
Proof.
  revert acc. induction l as [|[name f] l IH]; intros acc; simpl.
  - by rewrite app_nil_r.
  - rewrite IH. destruct (feature_chosen sel name f); simpl; [|done].
    by rewrite <-app_assoc.
Qed.

Lemma feature_chosen_spec sel name f :
  feature_chosen sel name f = true ↔
  (¬ (name ∈ sel_disabled sel) ∧
   (name ∈ sel_enabled sel ∨ (sel_enabled sel = [] ∧ fd_enabled_by_default f = true))).
Proof.
  unfold feature_chosen.
  destruct (vec_contains name (sel_disabled sel)) eqn:Hd.
  { apply vec_contains_spec in Hd. split; [done|]. by intros [? _]. }
  apply vec_contains_false in Hd.
  destruct (vec_contains name (sel_enabled sel)) eqn:He.
  { apply vec_contains_spec in He. split; auto. }
  apply vec_contains_false in He.
  destruct (sel_enabled sel) as [|e es].
  - destruct (sel_enable_all sel), (fd_enabled_by_default f); simpl;
      split; try done; intros; destruct_and?; destruct_or?; destruct_and?; auto.
  - split; [done|]. by intros [_ [?|[? _]]].
Qed.

Lemma elem_of_determine avail sel name :
  name ∈ determine_enabled_features avail sel ↔
  ∃ f, avail !! name = Some f ∧ feature_chosen sel name f = true.
Proof.
  unfold determine_enabled_features.
  rewrite elem_of_dedup, merge_sort_Permutation, fold_left_chosen. simpl.
  rewrite list_elem_of_omap. split.
  - intros ([n f] & Hin & Hc). apply elem_of_map_to_list in Hin.
    case_match; simplify_eq. eauto.
  - intros (f & Hf & Hc). exists (name, f). rewrite elem_of_map_to_list, Hc. done.
Qed.

Lemma fold_apply_env l env k :
  NoDup l.*1 →
  fold_left apply_env l env !! k =
  match env !! k with Some v => Some v | None => (list_to_map l : gmap string string) !! k end.
Proof.
  revert env. induction l as [|[k' v'] l IH]; intros env Hnd; simpl.
  { by destruct (env !! k). }
  inversion Hnd as [|? ? Hk' Hnd']; subst. rewrite IH by done. unfold apply_env; simpl.
  destruct (decide (k = k')) as [->|Hne].
  - destruct (env !! k') eqn:E; [by rewrite E|]. by rewrite !lookup_insert_eq.
  - rewrite (lookup_insert_ne _ k' k) by done.
    destruct (env !! k'); [done|]. by rewrite lookup_insert_ne.
Qed.

(** The loop over the profile's environment is a left-biased union, in any
    order. *)
Lemma fold_apply_env_union (m env : gmap string string) :
  fold_left apply_env (map_to_list m) env = env ∪ m.
Proof.
  apply map_eq. intros k. rewrite fold_apply_env by apply NoDup_fst_map_to_list.
  rewrite list_to_map_to_list, lookup_union. by destruct (env !! k), (m !! k).
Qed.

Lemma fold_apply_port_prefix ports exposed :
  exposed `prefix_of` fold_left apply_port ports exposed.
Proof.
  revert exposed. induction ports as [|p ports IH]; intros exposed; simpl; [done|].
  etrans; [|apply IH]. unfold apply_port. case_match; [done|]. by apply prefix_app_r.
Qed.

Lemma fold_apply_port_elem ports exposed x :
  x ∈ fold_left apply_port ports exposed ↔ x ∈ exposed ∨ x ∈ (container_port <$> ports).
Proof.
  revert exposed. induction ports as [|p ports IH]; intros exposed; simpl.
  - set_solver.
  - rewrite IH. unfold apply_port. case_bool_decide; set_solver.
Qed.

Lemma fold_apply_port_id ports exposed :
  Forall (λ p, container_port p ∈ exposed) ports → fold_left apply_port ports exposed = exposed.
Proof.
  induction 1 as [|p ports Hp _ IH]; simpl; [done|].
  unfold apply_port at 2. by rewrite bool_decide_eq_true_2.
Qed.

Lemma existsb_path cp vs :
  existsb (λ u, String.eqb (volume_container_path u) cp) vs = true
  ↔ cp ∈ (volume_container_path <$> vs).
Proof.
  rewrite existsb_exists, list_elem_of_fmap. split.
  - intros (u & Hu & He). apply String.eqb_eq in He. exists u.
    by rewrite list_elem_of_In.
  - intros (u & -> & Hu). exists u. by rewrite String.eqb_eq, <-list_elem_of_In.
Qed.

Lemma fold_apply_volume_prefix vols volumes :
  volumes `prefix_of` fold_left apply_volume vols volumes.
Proof.
  revert volumes. induction vols as [|v vols IH]; intros volumes; simpl; [done|].
  etrans; [|apply IH]. unfold apply_volume. case_match; [done|]. by apply prefix_app_r.
Qed.

Lemma fold_apply_volume_paths vols volumes cp :
  cp ∈ (volume_container_path <$> fold_left apply_volume vols volumes) ↔
  cp ∈ (volume_container_path <$> volumes) ∨ cp ∈ (volume_container_path <$> vols).
Proof.
  revert volumes. induction vols as [|v vols IH]; intros volumes; simpl.
  - set_solver.
  - rewrite IH. unfold apply_volume.
    destruct (existsb _ volumes) eqn:E; [apply existsb_path in E; set_solver|].
    rewrite fmap_app. set_solver.
Qed.

Lemma fold_apply_volume_NoDup vols volumes :
  NoDup (volume_container_path <$> volumes) →
  NoDup (volume_container_path <$> fold_left apply_volume vols volumes).
Proof.
  revert volumes. induction vols as [|v vols IH]; intros volumes Hnd; simpl; [done|].
  apply IH. unfold apply_volume. destruct (existsb _ volumes) eqn:E; [done|].
  rewrite fmap_app. apply NoDup_app. split_and!; [done| |apply NoDup_singleton].
  intros cp Hcp. simpl. rewrite list_elem_of_singleton. intros ->.
  apply not_true_iff_false in E. by apply E, existsb_path.
Qed.

Lemma fold_apply_volume_id vols volumes :
  Forall (λ v, volume_container_path v ∈ (volume_container_path <$> volumes)) vols →
  fold_left apply_volume vols volumes = volumes.
Proof.
  induction 1 as [|v vols Hv _ IH]; simpl; [done|].
  unfold apply_volume at 2. by rewrite (proj2 (existsb_path _ _) Hv).
Qed.

(** [apply_feature_profile] in closed form, one field at a time. *)
Definition merged_environment (config : SandboxConfig) (profile : FeatureProfile) :=
  let env := cfg_environment config ∪ get_env profile in
  match cfg_vnc_resolution config with
  | Some resolution => <["VNC_RESOLUTION" := resolution]> env
  | None => env
  end.

Lemma apply_feature_profile_eq config profile sid :
  apply_feature_profile config profile sid =
  ({| cfg_image := cfg_image config; cfg_name := cfg_name config;
      cfg_environment := merged_environment config profile;
      cfg_port_mappings := cfg_port_mappings config;
      cfg_exposed_ports := fold_left apply_port (get_ports profile) (cfg_exposed_ports config);
      cfg_resource_limits := cfg_resource_limits config;
      cfg_volumes := fold_left apply_volume (get_volumes profile sid) (cfg_volumes config);
      cfg_command := match cfg_command config with
                     | Some c => Some c | None => get_command profile end;
      cfg_inactivity_timeout_minutes := cfg_inactivity_timeout_minutes config;
      cfg_pull_policy := cfg_pull_policy config;
      cfg_features := match enabled_features profile with
                      | [] => cfg_features config | l => l end;
      cfg_enable_all_features := cfg_enable_all_features config;
      cfg_vnc_resolution := cfg_vnc_resolution config |}, Ok ()).
Proof.
  unfold apply_feature_profile, merged_environment. rewrite fold_apply_env_union.
  destruct config as [img nm env pm ep rl vs cmd tmo pp fts all vnc].
  unfold cfg_set_exposed_ports, cfg_set_volumes, cfg_set_environment.
  cbn [cfg_exposed_ports cfg_volumes cfg_environment cfg_vnc_resolution cfg_command].
  generalize (env ∪ get_env profile) as env'.
  generalize (fold_left apply_port (get_ports profile) ep) as ports'.
  generalize (fold_left apply_volume (get_volumes profile sid) vs) as vols'.
  generalize (get_command profile) as cmd'. generalize (enabled_features profile) as feats'.
  intros feats' cmd' vols' ports' env'.
  by destruct vnc, cmd, feats', cmd'.
Qed.

(** ** Theorems *)

(** [determine_enabled_features] selects exactly the features of the image
    that are not disabled and are either requested by name or, when nothing
    is requested by name, enabled by default; the result is sorted and has
    no repeats. *)
Theorem determine_enabled_features_spec avail sel :
  (∀ name, name ∈ determine_enabled_features avail sel ↔
     ∃ f, avail !! name = Some f ∧ ¬ (name ∈ sel_disabled sel) ∧
          (name ∈ sel_enabled sel ∨ (sel_enabled sel = [] ∧ fd_enabled_by_default f = true))) ∧
  StronglySorted String.le (determine_enabled_features avail sel) ∧
  NoDup (determine_enabled_features avail sel).
Proof.
  split.
  - intros name. rewrite elem_of_determine. by setoid_rewrite feature_chosen_spec.
  - apply StronglySorted_dedup, StronglySorted_merge_sort; apply _.
Qed.

(** the [enable_all] flag of a selection has no effect on the features it
    selects: the two branches that test it choose the same entries. *)
Theorem enable_all_has_no_effect label sel :
  build_feature_profile label (FeatureSelection_enable_all sel) = build_feature_profile label sel.
Proof.
  assert (∀ n f, feature_chosen (FeatureSelection_enable_all sel) n f = feature_chosen sel n f)
    as Heq.
  { intros n f. apply eq_true_iff_eq. by rewrite !feature_chosen_spec. }
  unfold build_feature_profile, determine_enabled_features. do 3 f_equal.
  generalize (map_to_list (lbl_features label)). intros l. rewrite !fold_left_chosen. f_equal.
  apply list_omap_ext, Forall2_same_length_lookup_2; [done|].
  intros i [n f] [n' f'] H1 H2. simplify_eq. by rewrite Heq.
Qed.

(** merging a profile never overrides what the user configured: the
    published ports are untouched, the user's exposed ports and volumes come
    first, a user's environment entry keeps its value (the VNC resolution
    field of the same request excepted), a user's command is kept, and no
    container path becomes mounted twice. *)
Theorem apply_feature_profile_user_precedence config profile sid :
  let '(config', r) := apply_feature_profile config profile sid in
  r = Ok () ∧
  cfg_port_mappings config' = cfg_port_mappings config ∧
  cfg_exposed_ports config `prefix_of` cfg_exposed_ports config' ∧
  cfg_volumes config `prefix_of` cfg_volumes config' ∧
  (∀ k v, cfg_environment config !! k = Some v →
     cfg_environment config' !! k = Some v ∨
     (k = "VNC_RESOLUTION" ∧ cfg_environment config' !! k = cfg_vnc_resolution config)) ∧
  (∀ cmd, cfg_command config = Some cmd → cfg_command config' = Some cmd) ∧
  (NoDup (volume_container_path <$> cfg_volumes config) →
   NoDup (volume_container_path <$> cfg_volumes config')).
Proof.
  rewrite apply_feature_profile_eq. cbn [cfg_port_mappings cfg_exposed_ports cfg_volumes
    cfg_environment cfg_command cfg_vnc_resolution].
  split_and!; [done|done|apply fold_apply_port_prefix|apply fold_apply_volume_prefix| | |].
  - intros k v Hk. unfold merged_environment.
    assert ((cfg_environment config ∪ get_env profile) !! k = Some v) as Henv
      by by apply lookup_union_Some_l.
    destruct (cfg_vnc_resolution config) as [res|]; [|by left].
    destruct (decide (k = "VNC_RESOLUTION")) as [->|Hne]; [right|left].
    + by rewrite lookup_insert_eq.
    + by rewrite lookup_insert_ne.
  - by intros cmd ->.
  - apply fold_apply_volume_NoDup.
Qed.

Lemma merged_environment_idem config config' profile :
  cfg_vnc_resolution config' = cfg_vnc_resolution config →
  cfg_environment config' = merged_environment config profile →
  merged_environment config' profile = merged_environment config profile.
Proof.
  unfold merged_environment. intros -> ->.
  assert (∀ e : gmap string string, (e ∪ get_env profile) ∪ get_env profile = e ∪ get_env profile)
    as He by (intros e; by rewrite <-(assoc_L (∪)), map_union_idemp).
  destruct (cfg_vnc_resolution config); [|apply He].
  by rewrite <-insert_union_l, insert_insert_eq, He.
Qed.

(** merging the same profile a second time changes nothing. *)
Theorem apply_feature_profile_idempotent config profile sid :
  let config' := (apply_feature_profile config profile sid).1 in
  apply_feature_profile config' profile sid = (config', Ok ()).
Proof.
  cbv zeta. rewrite (apply_feature_profile_eq config). cbn [fst].
  rewrite apply_feature_profile_eq. cbn [cfg_image cfg_name cfg_environment cfg_port_mappings
    cfg_exposed_ports cfg_resource_limits cfg_volumes cfg_command
    cfg_inactivity_timeout_minutes cfg_pull_policy cfg_features cfg_enable_all_features
    cfg_vnc_resolution].
  erewrite (merged_environment_idem config) by done. do 2 f_equal.
  - apply fold_apply_port_id, Forall_forall. intros p Hp.
    apply fold_apply_port_elem. right. apply list_elem_of_fmap. eauto.
  - apply fold_apply_volume_id, Forall_forall. intros v Hv.
    apply fold_apply_volume_paths. right. apply list_elem_of_fmap. eauto.
  - destruct (cfg_command config); [done|]. by destruct (get_command profile).
  - by destruct (enabled_features profile).
Qed.
