(* ===== verification/World.v ===== *)
(** * World: what the sandbox service talks to

    The service holds a state store, a container backend (the trait
    [SandboxManager] of [src/core/manager.rs]) and an optional activity log
    (the [ActivityStore] behind [src/core/activities.rs]); it also reads the
    clocks and draws random UUIDs.  [World] is the state of all of them, and a
    service function is a computation in [M (World S B A)].  The backend and
    the activity log are arbitrary: a theorem about the service holds whatever
    they answer. *)

From S2P Require Import Prelude Text Errors Types Store.

(** ** JSON: [serde_json::Value]

    An object keeps its entries in order; a non-integer number is its text. *)

#[warnings="-automation"]
Inductive Json : Type :=
  | JNull
  | JBool (b : bool)
  | JNumber (n : Z)
  | JFloat (text : string)
  | JString (s : string)
  | JArray (l : list Json)
  | JObject (fields : list (string * Json)).

(** [Value::get] with a key. *)
Definition json_get (key : string) (v : Json) : option Json :=
  match v with
  | JObject fields => match_str fields key
  | _ => None
  end.

Definition json_as_str (v : Json) : option string :=
  match v with JString s => Some s | _ => None end.

Definition json_as_bool (v : Json) : option bool :=
  match v with JBool b => Some b | _ => None end.

Definition json_strings (l : list string) : Json := JArray (JString <$> l).

Definition json_opt_string (o : option string) : Json :=
  match o with Some s => JString s | None => JNull end.

Definition json_map (m : gmap string string) : Json := JObject (prod_map id JString <$> map_to_list m).
Definition json_opt_number (o : option Z) : Json := match o with Some z => JNumber z | None => JNull end.

Definition json_as_array (v : Json) : option (list Json) :=
  match v with JArray l => Some l | _ => None end.

(** [value[key]]: [Null] when there is nothing. *)
Definition json_index (key : string) (v : Json) : Json := default JNull (json_get key v).

(** [get(key).and_then(as_str)]. *)
Definition text_at (key : string) (v : Json) : option string := json_get key v ≫= json_as_str.

(** [if let Some(x) = .. { body[key] = json!(x) }]. *)
Definition field {X} (key : string) (enc : X → Json) (o : option X) : list (string * Json) :=
  match o with Some x => [(key, enc x)] | None => [] end.

(** ** The container backend *)

Record ExecCommandResult : Type := mkExecCommandResult {
  exec_output : string;
  exec_exit_code : Z;
}.

(** The percentages are [f64]s, carried as their bit patterns. *)
Record ContainerStats : Type := mkContainerStats {
  cpu_percent : Z;
  memory_usage_mb : Z;
  memory_limit_mb : Z;
  memory_percent : Z;
  network_rx_bytes : Z;
  network_tx_bytes : Z;
  block_read_bytes : Z;
  block_write_bytes : Z;
  stats_timestamp : DateTime;
}.

Abbreviation ManagerResult A := (Result A ManagerError).

(** The methods of the trait that the service calls.  The progress callback of
    [pull_image_with_progress] is the list of its calls; a byte vector is a
    string. *)
Class SandboxManager (B : Type) := {
  bk_create : option Uuid → SandboxConfig → M B (ManagerResult string);
  bk_start : string → M B (ManagerResult ());
  bk_stop : string → M B (ManagerResult ());
  bk_delete : string → M B (ManagerResult ());
  bk_stats : string → M B (ManagerResult ContainerStats);
  bk_is_running : string → M B (ManagerResult bool);
  bk_get_exit_info : string → M B (ManagerResult (Z * bool));
  bk_list : bool → M B (ManagerResult (list SandboxInfo));
  bk_remove_volume : string → M B (ManagerResult ());
  bk_get_image_features : string → M B (ManagerResult ImageDetails);
  bk_pull_image : string → M B (ManagerResult ());
  bk_pull_image_with_progress :
    string → M B (list (string * option Z * option Z) * ManagerResult ());
  bk_image_exists : string → M B (ManagerResult bool);
  bk_exec : string → list string → M B (ManagerResult string);
  bk_get_workdir : string → M B (ManagerResult string);
  bk_get_sandbox_k8s_status : Uuid → M B (ManagerResult (option KubernetesInfo));
  bk_upload_archive : string → string → string → M B (ManagerResult ());
  bk_exec_http :
    string → string → string → option Json → option Z → M B (ManagerResult Json);
  bk_exec_with_stdin_result :
    string → list string → option string → option Z → M B (ManagerResult ExecCommandResult);
}.

(** ** The activity log *)

Record SandboxActivity : Type := mkSandboxActivity {
  act_id : Uuid;
  act_sandbox_id : Uuid;
  act_type : ActivityType;
  act_timestamp : DateTime;
  act_details : Json;
  act_sandbox_is_deleted : bool;
}.

Class ActivityStoreTrait (A : Type) := {
  as_record_activity : SandboxActivity → M A (Result () string);
  as_mark_deleted : Uuid → M A (Result Z string);
}.

(** A task handed to [tokio::spawn]: the health check of a fresh sandbox, or
    the creation whose progress is streamed. *)
Inductive Task : Type :=
  | HealthCheck (sandbox_id : Uuid) (container_id : string)
  | StreamingCreate (sandbox_id : Uuid) (config : SandboxConfig)
      (identity : option ApiKeyIdentity).

(** ** The world

    [w_now] is what the wall clock will read at each future call of
    [Utc::now()], [w_instant] what the monotonic clock will read (in
    nanoseconds), [w_fresh] the UUIDs that [Uuid::new_v4()] will return;
    [w_tasks] are the tasks spawned and [w_events] the progress events sent. *)

Record World (S B A : Type) : Type := mkWorld {
  w_store : S;
  w_backend : B;
  w_activity : option A;
  w_now : nat → DateTime;
  w_instant : nat → Z;
  w_fresh : nat → Uuid;
  w_tasks : list Task;
  w_events : list SandboxProgressEvent;
}.

Arguments mkWorld {S B A} _ _ _ _ _ _ _ _.
Arguments w_store {S B A} _.
Arguments w_backend {S B A} _.
Arguments w_activity {S B A} _.
Arguments w_now {S B A} _ _.
Arguments w_instant {S B A} _ _.
Arguments w_fresh {S B A} _ _.
Arguments w_tasks {S B A} _.
Arguments w_events {S B A} _.

Section world.
Context {S B A : Type}.
#[local] Abbreviation W := (World S B A).

Definition set_store s (w : W) : W :=
  mkWorld s (w_backend w) (w_activity w) (w_now w) (w_instant w) (w_fresh w)
    (w_tasks w) (w_events w).
Definition set_backend b (w : W) : W :=
  mkWorld (w_store w) b (w_activity w) (w_now w) (w_instant w) (w_fresh w)
    (w_tasks w) (w_events w).
Definition set_activity a (w : W) : W :=
  mkWorld (w_store w) (w_backend w) a (w_now w) (w_instant w) (w_fresh w)
    (w_tasks w) (w_events w).

Definition on_store {X} (m : M S X) : M W X := λ w,
  let '(x, s) := m (w_store w) in (x, set_store s w).
Definition on_backend {X} (m : M B X) : M W X := λ w,
  let '(x, b) := m (w_backend w) in (x, set_backend b w).

Definition utc_now : M W DateTime := λ w,
  (w_now w 0%nat,
   mkWorld (w_store w) (w_backend w) (w_activity w) (λ n, w_now w (1 + n)%nat)
     (w_instant w) (w_fresh w) (w_tasks w) (w_events w)).

Definition instant_now : M W Z := λ w,
  (w_instant w 0%nat,
   mkWorld (w_store w) (w_backend w) (w_activity w) (w_now w)
     (λ n, w_instant w (1 + n)%nat) (w_fresh w) (w_tasks w) (w_events w)).

Definition new_v4 : M W Uuid := λ w,
  (w_fresh w 0%nat,
   mkWorld (w_store w) (w_backend w) (w_activity w) (w_now w) (w_instant w)
     (λ n, w_fresh w (1 + n)%nat) (w_tasks w) (w_events w)).

Definition spawn (t : Task) : M W () := λ w,
  ((), mkWorld (w_store w) (w_backend w) (w_activity w) (w_now w) (w_instant w)
         (w_fresh w) (w_tasks w ++ [t]) (w_events w)).

Definition send (e : SandboxProgressEvent) : M W () := λ w,
  ((), mkWorld (w_store w) (w_backend w) (w_activity w) (w_now w) (w_instant w)
         (w_fresh w) (w_tasks w) (w_events w ++ [e])).

(** ** Weakest preconditions of the primitives

    [same_core w w']: nothing but the clocks, the UUID supply and the
    activity log moved. *)
Record same_core (w w' : W) : Prop := {
  sc_store : w_store w' = w_store w;
  sc_backend : w_backend w' = w_backend w;
  sc_tasks : w_tasks w' = w_tasks w;
  sc_events : w_events w' = w_events w;
}.

Lemma same_core_refl w : same_core w w.
Proof. done. Qed.

Lemma wp_on_store {X} (m : M S X) Q (w : W) :
  wp m (λ x s, Q x (set_store s w)) (w_store w) → wp (on_store m) Q w.
Proof. unfold wp, run_val, run_st, on_store. by destruct (m (w_store w)). Qed.

Lemma wp_on_backend {X} (m : M B X) Q (w : W) :
  wp m (λ x b, Q x (set_backend b w)) (w_backend w) → wp (on_backend m) Q w.
Proof. unfold wp, run_val, run_st, on_backend. by destruct (m (w_backend w)). Qed.

Lemma wp_utc_now (Q : DateTime → W → Prop) (w : W) :
  (∀ w', same_core w w' → w_fresh w' = w_fresh w → w_activity w' = w_activity w →
     w_instant w' = w_instant w → Q (w_now w 0%nat) w') →
  wp utc_now Q w.
Proof. intros H. by apply H. Qed.

Lemma wp_spawn t Q (w : W) :
  (∀ w', w_store w' = w_store w → w_backend w' = w_backend w →
     w_tasks w' = w_tasks w ++ [t] → w_events w' = w_events w → Q () w') →
  wp (spawn t) Q w.
Proof. intros H. by apply H. Qed.

Lemma wp_send e Q (w : W) :
  (∀ w', w_store w' = w_store w → w_backend w' = w_backend w →
     w_tasks w' = w_tasks w → w_events w' = w_events w ++ [e] → Q () w') →
  wp (send e) Q w.
Proof. intros H. by apply H. Qed.

(** [clock_in T]: every future reading of the wall clock is in [T]. *)
Definition clock_in (T : DateTime → Prop) (w : W) : Prop := ∀ n, T (w_now w n).

Lemma clock_on_store {X} T (m : M S X) : preserves (clock_in T) (on_store m).
Proof. intros w Hw. unfold run_st, on_store. by destruct (m (w_store w)). Qed.

Lemma clock_on_backend {X} T (m : M B X) : preserves (clock_in T) (on_backend m).
Proof. intros w Hw. unfold run_st, on_backend. by destruct (m (w_backend w)). Qed.

Lemma clock_utc_now T : preserves (clock_in T) utc_now.
Proof. intros w Hw n. apply Hw. Qed.
End world.

#[export] Hint Resolve clock_on_store clock_on_backend clock_utc_now : preserves.
