(* ===== verification/Demo.v ===== *)
(** * Demo: a concrete world

    Instances small enough to compute with: a backend that keeps the list of its
    containers, an activity log kept in a list, and a world over the in-memory
    store with a live and a soft-deleted record.  The witnesses of the theorems
    run the program here. *)

From S2P Require Import Prelude Text Errors Types Store World.

Module Demo.

(** The containers that exist. *)
Definition Backend : Type := list string.

Definition known {X} (cid : string) (x : X) (missing : ManagerError)
    : M Backend (ManagerResult X) :=
  λ b, (if bool_decide (cid ∈ b) then Ok x else Err missing, b).

Definition stats0 : ContainerStats := mkContainerStats 0 1 2 0 0 0 0 0 0.

Definition image0 : ImageDetails :=
  {| imd_id := "sha"; imd_repo_tags := []; imd_size := 1; imd_virtual_size := 1;
     imd_created := 0; imd_architecture := "amd64"; imd_os := "linux";
     imd_labels := None; imd_env := None; imd_features := [] |}.

#[export] Instance backend : SandboxManager Backend := {|
  bk_create := λ _ _ b, (Ok ("c" +:+ pretty (length b)), b ++ ["c" +:+ pretty (length b)]);
  bk_start := λ cid, known cid () (ManagerNotFound cid);
  bk_stop := λ cid, known cid () (ManagerApi "404 no such container");
  bk_delete := λ cid b,
    (Ok (), List.filter (λ c, negb (String.eqb c cid)) b);
  bk_stats := λ cid, known cid stats0 (ManagerNotFound cid);
  bk_is_running := λ cid b, (Ok (bool_decide (cid ∈ b)), b);
  bk_get_exit_info := λ cid, known cid (0, false) (ManagerNotFound cid);
  bk_list := λ _ b,
    (Ok ((λ c, mkSandboxInfo c None None None None None [] ∅ None None) <$> b), b);
  bk_remove_volume := λ _ b, (Ok (), b);
  bk_get_image_features := λ _ b, (Ok image0, b);
  bk_pull_image := λ _ b, (Ok (), b);
  bk_pull_image_with_progress := λ _ b, (([("pulling", None, None)], Ok ()), b);
  bk_image_exists := λ image b,
    (if String.eqb image "broken" then Err (ManagerTimeout image) else Ok true, b);
  bk_exec := λ cid _, known cid "" (ManagerNotFound cid);
  bk_get_workdir := λ _ b, (Ok "/workspace", b);
  bk_get_sandbox_k8s_status := λ _ b, (Ok None, b);
  bk_upload_archive := λ cid _ _, known cid () (ManagerNotFound cid);
  bk_exec_http := λ cid _ _ _ _,
    known cid (JObject [("status", JString "healthy"); ("browser_connected", JBool true)])
      (ManagerNotFound cid);
  bk_exec_with_stdin_result := λ cid _ _ _,
    known cid (mkExecCommandResult "out" 0) (ManagerNotFound cid);
|}.

#[export] Instance activities : ActivityStoreTrait (list SandboxActivity) := {|
  as_record_activity := λ a l, (Ok (), a :: l);
  as_mark_deleted := λ _ l, (Ok 0, l);
|}.

#[export] Instance uuids : UuidLib := {|
  uuid_to_string := λ u, pretty u;
  uuid_parse_str := λ s, Z.to_N <$> parse_u64 s;
|}.

#[export] Instance chrono : ChronoLib := {|
  num_seconds := λ d, Z.quot d ns_per_sec;
  num_minutes := λ d, Z.quot d (60 * ns_per_sec);
|}.

#[export] Instance chrono_laws : ChronoLaws.
Proof. by split. Qed.

Definition tracking (t : DateTime) : ActivityTracking := mkActivityTracking t None 0.

(** A running sandbox of the key 7, and a destroyed one of the key 8. *)
Definition live : Sandbox :=
  mkSandbox 1%N SandboxConfig_default Running (Some "c0") 10 20 None []
    (tracking 20) None None None (Some 7%N).

Definition gone : Sandbox :=
  mkSandbox 2%N SandboxConfig_default Destroyed None 10 20 None []
    (tracking 20) None (Some 15) (Some "system") (Some 8%N).

Definition store : StateStore :=
  mkStateStore (<[1%N := live]> (<[2%N := gone]> ∅)).

Definition World : Type := World StateStore Backend (list SandboxActivity).

(** The monotonic clock moves 100 ms per reading. *)
Definition world : World :=
  mkWorld store ["c0"] (Some []) (λ n, 1000 + Z.of_nat n) (λ n, 100000000 * Z.of_nat n)
    (λ n, (100 + N.of_nat n)%N) [] [].

Lemma world_ok : available (w_store world).
Proof.
  simpl. do 2 (apply map_Forall_insert_2; [done|]). apply map_Forall_empty.
Qed.

End Demo.
