(* ===== verification/Service.v ===== *)
(** * Service: the sandbox service's configuration, helpers and rules

    Models [src/core/sandbox.rs] (the [SandboxService] struct),
    [src/core/sandbox/constructor.rs] (constructors, resource-limit merging,
    ownership checks, the tool-proxy health check) and the recording side of
    [src/core/activities.rs], and gives the weakest-precondition rules of the
    calls that every service operation is made of. *)

From S2P Require Import Prelude Text Errors Types Store World Demo.

(** ** Configuration *)

Record ToolTimeoutConfig : Type := mkToolTimeoutConfig {
  default_secs : Z;
  web_tools_secs : Z;
  browser_tools_secs : Z;
  databend_tools_secs : Z;
  http_buffer_secs : Z;
  max_allowed_secs : Z;
}.

Definition ToolTimeoutConfig_default : ToolTimeoutConfig :=
  {| default_secs := 60; web_tools_secs := 90; browser_tools_secs := 120;
     databend_tools_secs := 60; http_buffer_secs := 30; max_allowed_secs := 300 |}.

Record DefaultUlimit : Type := mkDefaultUlimit {
  du_name : string;
  du_soft : Z;
  du_hard : Z;
}.

Record DefaultResourceLimits : Type := mkDefaultResourceLimits {
  drl_memory_mb : option Z;
  drl_cpu_quota : option Z;
  drl_cpu_period : option Z;
  drl_cpu_shares : option Z;
  drl_pids_limit : option Z;
  drl_ulimits : option (list DefaultUlimit);
}.

Definition DefaultResourceLimits_default : DefaultResourceLimits :=
  mkDefaultResourceLimits None None None None None None.

(** The service's plain settings; its [backend], [state] and
    [activity_service] live in the [World]. *)
Record SandboxService : Type := mkSandboxService {
  default_inactivity_timeout : Z;
  cleanup_dry_run : bool;
  state_monitor_interval : Z;
  deleted_sandbox_retention_days : Z;
  default_sandbox_image : string;
  authentication_required : bool;
  max_file_size_bytes : Z;
  tool_timeouts : ToolTimeoutConfig;
  default_resource_limits : DefaultResourceLimits;
  max_browser_tabs : Z;
}.

Definition SandboxService_new : SandboxService :=
  {| default_inactivity_timeout := 30;
     cleanup_dry_run := false;
     state_monitor_interval := 60;
     deleted_sandbox_retention_days := 15;
     default_sandbox_image := "dsb/sandbox:latest";
     authentication_required := true;
     max_file_size_bytes := 10 * 1024 * 1024;
     tool_timeouts := ToolTimeoutConfig_default;
     default_resource_limits := DefaultResourceLimits_default;
     max_browser_tabs := 20 |}.

Definition with_cleanup_config (timeout : Z) (dry_run : bool) (interval days : Z)
    (s : SandboxService) : SandboxService :=
  mkSandboxService timeout dry_run interval days (default_sandbox_image s)
    (authentication_required s) (max_file_size_bytes s) (tool_timeouts s)
    (default_resource_limits s) (max_browser_tabs s).

Definition with_frontend_config (image : string) (auth : bool) (s : SandboxService)
    : SandboxService :=
  mkSandboxService (default_inactivity_timeout s) (cleanup_dry_run s)
    (state_monitor_interval s) (deleted_sandbox_retention_days s) image auth
    (max_file_size_bytes s) (tool_timeouts s) (default_resource_limits s)
    (max_browser_tabs s).

Definition with_file_upload_config (bytes : Z) (s : SandboxService) : SandboxService :=
  mkSandboxService (default_inactivity_timeout s) (cleanup_dry_run s)
    (state_monitor_interval s) (deleted_sandbox_retention_days s)
    (default_sandbox_image s) (authentication_required s) bytes (tool_timeouts s)
    (default_resource_limits s) (max_browser_tabs s).

Definition with_resource_limits (limits : DefaultResourceLimits) (s : SandboxService)
    : SandboxService :=
  mkSandboxService (default_inactivity_timeout s) (cleanup_dry_run s)
    (state_monitor_interval s) (deleted_sandbox_retention_days s)
    (default_sandbox_image s) (authentication_required s) (max_file_size_bytes s)
    (tool_timeouts s) limits (max_browser_tabs s).

Definition with_max_browser_tabs (tabs : Z) (s : SandboxService) : SandboxService :=
  mkSandboxService (default_inactivity_timeout s) (cleanup_dry_run s)
    (state_monitor_interval s) (deleted_sandbox_retention_days s)
    (default_sandbox_image s) (authentication_required s) (max_file_size_bytes s)
    (tool_timeouts s) (default_resource_limits s) tabs.

(** [Option::or]. *)
Definition option_or {A} (o d : option A) : option A :=
  match o with Some a => Some a | None => d end.

Definition merge_resource_limits (svc : SandboxService) (req : ResourceLimits)
    : ResourceLimits :=
  let d := default_resource_limits svc in
  let merged_ulimits :=
    match ulimits req with
    | Some u => Some u
    | None =>
        option_map (List.map (λ u, mkUlimit (du_name u) (du_soft u) (du_hard u)))
          (drl_ulimits d)
    end in
  {| memory_mb := option_or (memory_mb req) (drl_memory_mb d);
     cpu_quota := option_or (cpu_quota req) (drl_cpu_quota d);
     cpu_period := option_or (cpu_period req) (drl_cpu_period d);
     cpu_shares := option_or (cpu_shares req) (drl_cpu_shares d);
     pids_limit := option_or (pids_limit req) (drl_pids_limit d);
     ulimits := merged_ulimits |}.

(** The boxed errors of the service: a text or a backend error. *)
Inductive BoxError : Type :=
  | BoxMsg (text : string)
  | BoxManager (e : ManagerError).

#[global] Instance BoxError_eq_dec : EqDecision BoxError.
Proof. solve_decision. Defined.

Definition BoxError_to_string (e : BoxError) : string :=
  match e with BoxMsg t => t | BoxManager e => ManagerError_to_string e end.

Section service.
Context {S B A : Type}.
Context `{StateStoreTrait S} `{SandboxManager B} `{ActivityStoreTrait A} `{UuidLib}.
#[local] Abbreviation W := (World S B A).

(** ** Calls to the store and to the backend *)

Definition st_create (sb : Sandbox) : M W (Result () BoxError) :=
  r ← on_store (create_sandbox sb); mret (result_map_err BoxMsg r).

Definition st_update (sb : Sandbox) : M W (Result () BoxError) :=
  r ← on_store (update_sandbox sb); mret (result_map_err BoxMsg r).

Definition st_get (id : Uuid) : M W (option Sandbox) := on_store (get_sandbox id).

Definition st_get_with_deleted (id : Uuid) (include_deleted : bool) : M W (option Sandbox) :=
  on_store (get_sandbox_with_deleted id include_deleted).

(** [.ok_or(msg)?] *)
Definition ok_or {X} (msg : string) (m : M W (option X)) : M W (Result X BoxError) :=
  o ← m; mret (option_ok_or (BoxMsg msg) o).

(** A backend call whose error is boxed by [?]. *)
Definition bk {X} (m : M B (ManagerResult X)) : M W (Result X BoxError) :=
  r ← on_backend m; mret (result_map_err BoxManager r).

(** ** The activity service *)

Definition ActivityService_record_activity (sandbox_id : Uuid) (ty : ActivityType)
    (details : Json) (a : A) : M W (Result SandboxActivity string * A) :=
  id ← new_v4;
  now ← utc_now;
  let activity :=
    {| act_id := id; act_sandbox_id := sandbox_id; act_type := ty;
       act_timestamp := now; act_details := details; act_sandbox_is_deleted := false |} in
  let '(r, a') := as_record_activity activity a in
  mret (match r with Ok _ => Ok activity | Err e => Err e end, a').

(** [SandboxService::record_activity], and [record_activity_async], which
    drops the error. *)
Definition record_activity (sandbox_id : Uuid) (ty : ActivityType) (details : Json) : M W () :=
  λ w,
    match w_activity w with
    | Some a =>
        let '((_, a'), w') := ActivityService_record_activity sandbox_id ty details a w in
        ((), set_activity (Some a') w')
    | None => ((), w)
    end.

Definition mark_sandbox_activities_deleted (sandbox_id : Uuid) : M W () :=
  λ w,
    match w_activity w with
    | Some a => let '(_, a') := as_mark_deleted sandbox_id a in ((), set_activity (Some a') w)
    | None => ((), w)
    end.

(** ** Ownership *)

Definition is_privileged_key (identity : ApiKeyIdentity) : bool :=
  match identity_key_type identity with Privileged => true | Database => false end.

Definition check_sandbox_ownership_with_deleted (identity : ApiKeyIdentity)
    (sandbox_id : Uuid) (include_deleted : bool) : M W (Result () ApiError) :=
  if is_privileged_key identity then mret (Ok ())
  else
    match identity_id identity with
    | None => mret (Err (ApiSandboxNotFound (uuid_to_string sandbox_id)))
    | Some api_key_id =>
        o ← on_store (get_sandbox_with_deleted_if_owned_by sandbox_id api_key_id include_deleted);
        match o with
        | Some _ => mret (Ok ())
        | None =>
            (* read again, for the log message only *)
            _ ← st_get_with_deleted sandbox_id include_deleted;
            mret (Err (ApiSandboxNotFound (uuid_to_string sandbox_id)))
        end
    end.

Definition check_sandbox_ownership (identity : ApiKeyIdentity) (sandbox_id : Uuid)
    : M W (Result () ApiError) :=
  check_sandbox_ownership_with_deleted identity sandbox_id false.

(** ** The tool-proxy health check

    The loop polls until the monotonic clock passes the timeout; [fuel] bounds
    the number of polls ([wait_for_tool_health_terminates] says how much is
    enough) and [None] is "out of fuel". *)

Definition is_healthy (response : Json) : bool :=
  match json_get "status" response ≫= json_as_str with
  | Some status => String.eqb status "healthy"
  | None => false
  end.

Fixpoint health_loop (fuel : nat) (container_id : string) (timeout start : Z)
    : M W (option (Result () BoxError)) :=
  match fuel with
  | O => mret None
  | Datatypes.S fuel' =>
      t ← instant_now;
      if bool_decide (timeout * ns_per_sec ≤ t - start) then
        mret (Some (Err (BoxMsg ("Tool_proxy health check timed out after "
                                   +:+ Z_to_string timeout +:+ " seconds"))))
      else
        r ← on_backend (bk_exec_http container_id "/health" "GET" None (Some 2));
        match r with
        | Ok response =>
            if is_healthy response then mret (Some (Ok ()))
            else health_loop fuel' container_id timeout start
        | Err _ => health_loop fuel' container_id timeout start
        end
  end.

Definition wait_for_tool_health (fuel : nat) (container_id : string)
    (timeout_secs : option Z) : M W (option (Result () BoxError)) :=
  start ← instant_now;
  health_loop fuel container_id (default 30 timeout_secs) start.

End service.

(** ** Rules

    [db w] is every record of the store and [ok w] says that the store answers.
    [keeps w w']: the records, the backend, the spawned tasks and the events
    are as they were (the clocks, the UUID supply and the activity log may have
    moved). *)

Section rules.
Context {S B A : Type}.
Context `{!StateStoreTrait S} `{!StoreContract S}.
Context `{!SandboxManager B} `{!ActivityStoreTrait A}.
#[local] Abbreviation W := (World S B A).

Definition db (w : W) : gmap Uuid Sandbox := contents (w_store w).
Definition ok (w : W) : Prop := available (w_store w).

Record keeps (w w' : W) : Prop := {
  keeps_ok : ok w → ok w';
  keeps_db : db w' = db w;
  keeps_backend : w_backend w' = w_backend w;
  keeps_tasks : w_tasks w' = w_tasks w;
  keeps_events : w_events w' = w_events w;
}.

(** [writes w w' m]: the store was written, to the contents [m], and nothing
    else of what [keeps] fixes has changed. *)
Record writes (w w' : W) (m : gmap Uuid Sandbox) : Prop := {
  writes_ok : ok w';
  writes_db : db w' = m;
  writes_backend : w_backend w' = w_backend w;
  writes_tasks : w_tasks w' = w_tasks w;
  writes_events : w_events w' = w_events w;
}.

Lemma keeps_refl w : keeps w w.
Proof. done. Qed.

Lemma keeps_trans w1 w2 w3 : keeps w1 w2 → keeps w2 w3 → keeps w1 w3.
Proof. intros [] []. split; [tauto|congruence..]. Qed.

Lemma same_core_keeps w w' : same_core w w' → keeps w w'.
Proof. intros [Hs Hb Ht He]. split; unfold ok, db; rewrite ?Hs; done. Qed.

Lemma set_store_same (w : W) : set_store (w_store w) w = w.
Proof. by destruct w. Qed.

Lemma wp_get id Q w :
  ok w → Q (option_filter (visible shows_deleted) (db w !! id)) w →
  wp (st_get id) Q w.
Proof.
  intros Hok HQ. apply wp_on_store. unfold wp, run_val, run_st.
  rewrite get_spec by done. simpl. by rewrite set_store_same.
Qed.

Lemma wp_get_with_deleted id Q w :
  ok w → Q (db w !! id) w → wp (st_get_with_deleted id true) Q w.
Proof.
  intros Hok HQ. apply wp_on_store. unfold wp, run_val, run_st.
  rewrite get_with_deleted_spec by done. simpl. by rewrite set_store_same.
Qed.

Lemma wp_get_live id Q w :
  ok w → Q (option_filter (visible shows_deleted) (db w !! id)) w →
  wp (st_get_with_deleted id false) Q w.
Proof.
  intros Hok HQ. apply wp_on_store. unfold wp, run_val, run_st.
  rewrite get_live_spec by done. simpl. by rewrite set_store_same.
Qed.

Lemma wp_list (Q : list Sandbox → W → Prop) w :
  ok w → (∀ l, (∀ sb, sb ∈ l → db w !! sb_id sb = Some sb) → Q l w) →
  wp (on_store list_sandboxes) Q w.
Proof.
  intros Hok HQ. apply wp_on_store. unfold wp, run_val, run_st.
  destruct (list_spec (w_store w) Hok) as (l & -> & Hl). simpl.
  rewrite set_store_same. by apply HQ.
Qed.

(** The record that [sb] may overwrite: the one under its id, created when it
    was. *)
Definition updatable (w : W) (sb : Sandbox) : Prop :=
  ∃ old, db w !! sb_id sb = Some old ∧ stored_time (sb_created_at sb) = sb_created_at old.

Lemma updatable_db w sb id old :
  ok w → sb_id sb = id → db w !! id = Some old → sb_created_at sb = sb_created_at old →
  updatable w sb.
Proof.
  intros Hok <- Hdb Hc. exists old. split; [done|]. rewrite Hc. by eapply contents_created.
Qed.

Lemma updatable_stored w sb sb0 id m :
  sb_id sb = id → db w = <[id := stored_as sb0]> m → sb_created_at sb = sb_created_at sb0 →
  updatable w sb.
Proof.
  intros <- Hdb Hc. exists (stored_as sb0). rewrite Hdb, lookup_insert_eq. split; [done|].
  by rewrite Hc, stored_as_created.
Qed.

Lemma updatable_keep w w' sb sb' :
  db w' = db w → updatable w sb → sb_id sb' = sb_id sb → sb_created_at sb' = sb_created_at sb →
  updatable w' sb'.
Proof. intros Hdb (old & H1 & H2) Hid Hc. exists old. by rewrite Hdb, Hid, Hc. Qed.

Lemma wp_update sb Q w :
  ok w → updatable w sb →
  (∀ w', writes w w' (<[sb_id sb := stored_as sb]> (db w)) → Q (Ok ()) w') →
  wp (st_update sb) Q w.
Proof.
  intros Hok (old & Hin & Ht) HQ. unfold st_update. apply wp_bind, wp_on_store.
  unfold wp, run_val, run_st.
  destruct (update_spec sb old (w_store w) Hok Hin Ht) as (s' & -> & Hs & Hc). simpl.
  by apply HQ.
Qed.

Lemma wp_create sb Q w :
  ok w → db w !! sb_id sb = None →
  (∀ w', writes w w' (<[sb_id sb := stored_as sb]> (db w)) → Q (Ok ()) w') →
  wp (st_create sb) Q w.
Proof.
  intros Hok Hin HQ. unfold st_create. apply wp_bind, wp_on_store. unfold wp, run_val, run_st.
  destruct (create_spec sb (w_store w) Hok Hin) as (s' & -> & Hs & Hc). simpl.
  by apply HQ.
Qed.

(** A backend call answers what the backend answers; the records, the tasks
    and the events are untouched. *)
Lemma wp_backend {X} (m : M B X) Q w :
  (∀ w', (ok w → ok w') → db w' = db w → w_tasks w' = w_tasks w → w_events w' = w_events w →
     w_backend w' = run_st m (w_backend w) → Q (run_val m (w_backend w)) w') →
  wp (on_backend m) Q w.
Proof. intros HQ. apply wp_on_backend. by apply HQ. Qed.

Lemma wp_now Q w : (∀ t w', keeps w w' → Q t w') → wp utc_now Q w.
Proof. intros HQ. apply wp_utc_now. intros w' Hc _ _ _. by apply HQ, same_core_keeps. Qed.

Lemma wp_record_activity id ty details Q w :
  (∀ w', keeps w w' → Q () w') → wp (record_activity id ty details) Q w.
Proof.
  intros HQ. unfold wp, run_val, run_st, record_activity.
  destruct (w_activity w) as [a|]; simpl; [|by apply HQ].
  unfold ActivityService_record_activity. run_m.
  destruct (as_record_activity _ a) as [r a']. simpl. by apply HQ.
Qed.

Lemma wp_mark_deleted id Q w :
  (∀ w', keeps w w' → Q () w') → wp (mark_sandbox_activities_deleted id) Q w.
Proof.
  intros HQ. unfold wp, run_val, run_st, mark_sandbox_activities_deleted.
  destruct (w_activity w) as [a|]; simpl; [|by apply HQ].
  destruct (as_mark_deleted id a) as [r a']. simpl. by apply HQ.
Qed.

End rules.

(** A backend call the service boxes. *)
Ltac wp_bk := apply wp_bind, wp_backend; intros ? ? ? ? ? ?.

Section derived.
Context {S B A : Type}.
Context `{!StateStoreTrait S} `{!StoreContract S}.
Context `{!SandboxManager B} `{!ActivityStoreTrait A}.
#[local] Abbreviation W := (World S B A).

(** A record as the service reads it, hidden ones left out where the store
    hides them. *)
Definition shown (w : W) (id : Uuid) : option Sandbox :=
  option_filter (visible shows_deleted) (db w !! id).

Lemma db_keyed (w : W) id sb : ok w → db w !! id = Some sb → sb_id sb = id.
Proof. apply contents_keyed. Qed.

Lemma shown_Some (w : W) id sb :
  shown w id = Some sb → db w !! id = Some sb ∧ visible shows_deleted sb = true.
Proof. apply option_filter_Some. Qed.

Lemma wp_found_shown {X} msg id (k : Sandbox → M W (Result X BoxError)) Q (w : W) :
  ok w →
  (shown w id = None → Q (Err (BoxMsg msg)) w) →
  (∀ sb, shown w id = Some sb → db w !! id = Some sb → sb_id sb = id → wp (k sb) Q w) →
  wp (try_ (ok_or msg (st_get id)) k) Q w.
Proof.
  intros Hok Hn Hs. apply wp_try, wp_bind, wp_get; [done|]. apply wp_ret.
  fold (shown w id). destruct (shown w id) as [sb|] eqn:E; simpl; [|by apply Hn].
  destruct (shown_Some _ _ _ E) as [Hdb _]. eauto using db_keyed.
Qed.

Lemma wp_found_any {X} msg id (k : Sandbox → M W (Result X BoxError)) Q (w : W) :
  ok w →
  (db w !! id = None → Q (Err (BoxMsg msg)) w) →
  (∀ sb, db w !! id = Some sb → sb_id sb = id → wp (k sb) Q w) →
  wp (try_ (ok_or msg (st_get_with_deleted id true)) k) Q w.
Proof.
  intros Hok Hn Hs. apply wp_try, wp_bind, wp_get_with_deleted; [done|]. apply wp_ret.
  destruct (db w !! id) as [sb|] eqn:E; simpl; [|by apply Hn].
  eauto using db_keyed.
Qed.

(** A backend call boxed by [?]: its error ends the function. *)
Lemma wp_try_bk {X Y} (m : M B (ManagerResult X)) (k : X → M W (Result Y BoxError)) Q (w : W) :
  (∀ w', (ok w → ok w') → db w' = db w → w_tasks w' = w_tasks w → w_events w' = w_events w →
     w_backend w' = run_st m (w_backend w) →
     match run_val m (w_backend w) with
     | Ok x => wp (k x) Q w'
     | Err e => Q (Err (BoxManager e)) w'
     end) →
  wp (try_ (bk m) k) Q w.
Proof.
  intros HQ. apply wp_try, wp_bind, wp_backend. intros w'' ?????. apply wp_ret.
  specialize (HQ w''). revert HQ. generalize (run_val m (w_backend w)).
  intros [x|e] HQ; by apply HQ.
Qed.

(** The write that ends most operations: the record [id] becomes [sb]. *)
Lemma wp_try_update {Y} sb id (k : () → M W (Result Y BoxError)) Q (w : W) :
  ok w → updatable w sb → sb_id sb = id →
  (∀ w', writes w w' (<[id := stored_as sb]> (db w)) → wp (k ()) Q w') →
  wp (try_ (st_update sb) k) Q w.
Proof.
  intros Hok Hin <- HQ. by apply wp_try, wp_update.
Qed.

(** An unlogged write: [let _ = self.state.update_sandbox(..)]. *)
Lemma wp_do_update {Y} sb id (k : Result () BoxError → M W Y) Q (w : W) :
  ok w → updatable w sb → sb_id sb = id →
  (∀ w', writes w w' (<[id := stored_as sb]> (db w)) → wp (k (Ok ())) Q w') →
  wp (st_update sb ≫= k) Q w.
Proof. intros Hok Hin <- HQ. by apply wp_bind, wp_update. Qed.

Lemma wp_do_now {Y} (k : DateTime → M W Y) Q (w : W) :
  (∀ t w', keeps w w' → wp (k t) Q w') → wp (utc_now ≫= k) Q w.
Proof. intros HQ. apply wp_bind, wp_now, HQ. Qed.

Lemma wp_do_record {Y} id ty details (k : () → M W Y) Q (w : W) :
  (∀ w', keeps w w' → wp (k ()) Q w') → wp (record_activity id ty details ≫= k) Q w.
Proof. intros HQ. apply wp_bind, wp_record_activity, HQ. Qed.
End derived.

(** Bring what a step leaves fixed into the goal's own terms. *)
Ltac use_keeps H :=
  let Hok := fresh "Hok" in let Hdb := fresh "Hdb" in
  destruct H as [Hok Hdb ? ? ?].

Ltac wp_clock :=
  apply wp_do_now; let t := fresh "t" in let w := fresh "w" in let H := fresh "Hk" in
  intros t w H; use_keeps H.

Ltac wp_log :=
  apply wp_do_record; let w := fresh "w" in let H := fresh "Hk" in
  intros w H; use_keeps H.

(** Facts about the current world follow from those about the earlier ones. *)
Ltac world := repeat match goal with
  | H : ok _ → ok _ |- _ => specialize (H ltac:(assumption))
  | H : db ?w1 = _, H' : db _ = ?m |- _ =>
      match m with context [db w1] => rewrite H in H' end
  | H : db ?w1 = _ |- context [db ?w1] => rewrite H
  end.

(** The record written is a changed copy of the stored one. *)
Ltac can_update id :=
  first
    [ eapply (updatable_db _ _ id); [by world|done|world; eassumption|reflexivity]
    | eapply (updatable_stored _ _ _ id); [done|world; reflexivity|reflexivity]
    | match goal with H : updatable ?w0 ?sb0 |- _ =>
        apply (updatable_keep w0 _ sb0); [by world|exact H|reflexivity|reflexivity] end ].

(** Write the record [id] and take in the world after the write. *)
Ltac wp_write id :=
  first [apply wp_try_update with id | apply wp_do_update with id]; [by world|can_update id|done|];
  let w := fresh "w" in let Hok := fresh "Hok" in let Hdb := fresh "Hdb" in
  intros w [Hok Hdb ? ? ?]; world.

Ltac finish := world; split_and?; eauto.

(** ** Theorems *)

Section health.
Context {S B A : Type}.
Context `{!SandboxManager B}.
#[local] Abbreviation W := (World S B A).

(** A poll that answered "healthy". *)
Definition answered_healthy (container_id : string) : Prop :=
  ∃ (b : B) response,
    run_val (bk_exec_http container_id "/health" "GET" None (Some 2)) b = Ok response ∧
    is_healthy response = true.

(** When the [n]-th clock reading from now is past the deadline, [n + 1] polls
    are enough. *)
Lemma health_loop_ends cid timeout start fuel n (w : W) :
  (n < fuel)%nat → timeout * ns_per_sec ≤ w_instant w n - start →
  ∃ r, run_val (health_loop fuel cid timeout start) w = Some r ∧
       (r = Ok () → answered_healthy cid).
Proof.
  revert n w. induction fuel as [|fuel IH]; intros n w Hn Ht; [lia|].
  simpl. unfold run_val, instant_now. simpl. run_m. case_bool_decide as Hd; [by eexists|].
  destruct n as [|n]; [done|].
  unfold on_backend. simpl.
  destruct (bk_exec_http cid "/health" "GET" None (Some 2) (w_backend w)) as [[v|e] b] eqn:E;
    simpl; [destruct (is_healthy v) eqn:Hv; [|by apply (IH n); [lia|]]|by apply (IH n); [lia|]].
  eexists; split; [done|]. intros _. exists (w_backend w), v. unfold run_val. by rewrite E.
Qed.

Lemma wait_ends fuel cid timeout_secs (w : W) :
  0 ≤ default 30 timeout_secs →
  (∀ k, (Z.of_nat k - 1) * 100000000 ≤ w_instant w (1 + k) - w_instant w 0%nat) →
  10 * default 30 timeout_secs + 2 ≤ Z.of_nat fuel →
  ∃ r, run_val (wait_for_tool_health fuel cid timeout_secs) w = Some r ∧
       (r = Ok () → answered_healthy cid).
Proof.
  intros Ht Hclock Hfuel. unfold wait_for_tool_health, run_val, mbind, M_bind, instant_now.
  apply (health_loop_ends cid _ _ fuel (Z.to_nat (10 * default 30 timeout_secs + 1))); [lia|].
  specialize (Hclock (Z.to_nat (10 * default 30 timeout_secs + 1))).
  rewrite Z2Nat.id in Hclock by lia. unfold ns_per_sec. cbn [w_instant] in *. lia.
Qed.

(** waiting for a sandbox's tool proxy always ends.  The poll interval makes
    the [k]-th clock reading come at least [(k - 1) * 100] ms after the start;
    then ten polls a second and two more are enough for the loop to return, and
    it returns a success only when some poll was answered "healthy". *)
Theorem wait_for_tool_health_terminates fuel cid timeout_secs (w : W) :
  0 ≤ default 30 timeout_secs →
  (∀ k, (Z.of_nat k - 1) * 100000000 ≤ w_instant w (1 + k) - w_instant w 0%nat) →
  10 * default 30 timeout_secs + 2 ≤ Z.of_nat fuel →
  ∃ r, run_val (wait_for_tool_health fuel cid timeout_secs) w = Some r ∧
       (r = Ok () → answered_healthy cid).
Proof. apply wait_ends. Qed.
End health.

Section ownership.
Context {S B A : Type}.
Context `{!StateStoreTrait S} `{!StoreContract S} `{!UuidLib}.
#[local] Abbreviation W := (World S B A).

(** Who may touch a record. *)
Definition authorized (identity : ApiKeyIdentity) (include_deleted : bool)
    (o : option Sandbox) : bool :=
  match identity_key_type identity with
  | Privileged => true
  | Database =>
      match identity_id identity, o with
      | Some key, Some sb => owned_by key sb && visible include_deleted sb
      | _, _ => false
      end
  end.

Lemma wp_get_any id incl Q (w : W) :
  ok w → (∀ o, Q o w) → wp (st_get_with_deleted id incl) Q w.
Proof.
  intros Hok HQ. destruct incl; [by apply wp_get_with_deleted|by apply wp_get_live].
Qed.

Lemma wp_check_ownership identity id include_deleted (w : W) :
  ok w →
  wp (check_sandbox_ownership_with_deleted identity id include_deleted) (λ r w',
    w' = w ∧
    r = if authorized identity include_deleted (db w !! id) then Ok ()
        else Err (ApiSandboxNotFound (uuid_to_string id))) w.
Proof.
  intros Hok. unfold check_sandbox_ownership_with_deleted, authorized, is_privileged_key.
  destruct (identity_key_type identity); [by apply wp_ret|].
  destruct (identity_id identity) as [key|]; [|by apply wp_ret].
  apply wp_bind, wp_on_store. unfold wp at 1, run_val, run_st.
  destruct (owned_spec id key include_deleted (w_store w) Hok) as (o & -> & Ho). simpl.
  rewrite set_store_same. change (contents (w_store w)) with (db w) in Ho.
  assert (match db w !! id with
          | Some sb => owned_by key sb && visible include_deleted sb
          | None => false
          end = bool_decide (is_Some o)) as ->.
  { apply Bool.eq_iff_eq_true. rewrite bool_decide_eq_true, Ho. split.
    - destruct (db w !! id) as [sb|]; [|done]. intros [Hb Hv]%andb_true_iff.
      exists sb. by rewrite <-owned_by_spec.
    - intros (sb & -> & Hb & Hv). by rewrite andb_true_iff, owned_by_spec. }
  destruct o as [sb|]; [by apply wp_ret|].
  apply wp_bind, wp_get_any; [done|]. intros _. by apply wp_ret.
Qed.

(** C7: the ownership check lets a privileged key through, and a database key
    only to a record it owns (soft-deleted ones included on request only).
    Every refusal is the same "not found" error, whether the record is missing,
    hidden or someone else's, and the check changes nothing. *)
Theorem check_sandbox_ownership_spec identity id include_deleted (w : W) :
  ok w →
  wp (check_sandbox_ownership_with_deleted identity id include_deleted) (λ r w',
    w' = w ∧
    r = if authorized identity include_deleted (db w !! id) then Ok ()
        else Err (ApiSandboxNotFound (uuid_to_string id))) w.
Proof. apply wp_check_ownership. Qed.
End ownership.

(** ** Witnesses *)

Module Witnesses.
Import Demo.

Lemma wait_for_tool_health_terminates_witness :
  10 * default 30 (Some 1) + 2 ≤ Z.of_nat 12 ∧
  ∃ r, run_val (wait_for_tool_health 12 "c0" (Some 1)) Demo.world = Some r ∧
       (r = Ok () → answered_healthy (B := Demo.Backend) "c0").
Proof.
  split; [vm_compute; congruence|]. apply wait_for_tool_health_terminates.
  - simpl. lia.
  - intros k. cbn [w_instant Demo.world]. lia.
  - simpl. lia.
Defined.

Lemma check_sandbox_ownership_spec_witness :
  wp (check_sandbox_ownership_with_deleted (mkIdentity (Some 8%N) Database) 1%N false)
    (λ r w', w' = Demo.world ∧ r = Err (ApiSandboxNotFound "1")) Demo.world.
Proof.
  exact (check_sandbox_ownership_spec (mkIdentity (Some 8%N) Database) 1%N false
           Demo.world Demo.world_ok).
Defined.

End Witnesses.
