(* ===== verification/Config.v ===== *)
(** * Config: the configuration, its validation and its loading

    Models [src/config/types.rs] (the sections and their defaults),
    [src/config/error.rs], [src/config/validator.rs], the parts of
    [src/config/loader.rs] that are the code's own (searching for files, the
    fallback key, the proxy settings, the overrides of the command line, and
    the order of the sources), and how [src/api/server/mod.rs] sets the
    sandbox service up.  Reading YAML and the environment into the sections is
    the business of the [config] and [dotenvy] crates: parameters here. *)

From S2P Require Import Prelude Text Paths Errors Types Store World Demo Service.
From Stdlib Require Import Ascii.

(** ** The sections ([types.rs]) *)

Record ServerConfig : Type := mkServerConfig {
  server_port : Z;
  server_host : string;
  server_api_key : option string;
  web_terminal_api_key : option string;
  ssh_gateway_api_key : option string;
  vnc_api_key : option string;
  vnc_require_auth : bool;
  vnc_token_ttl_secs : Z;
  server_require_auth : bool;
  admin_api_key : option string;
  session_token_ttl_secs : Z;
  cookie_secret : option string;
}.

Definition ServerConfig_default : ServerConfig :=
  {| server_port := 8080; server_host := "0.0.0.0"; server_api_key := None;
     web_terminal_api_key := None; ssh_gateway_api_key := None; vnc_api_key := None;
     vnc_require_auth := false; vnc_token_ttl_secs := 3600; server_require_auth := false;
     admin_api_key := None; session_token_ttl_secs := 300; cookie_secret := None |}.

Record DatabaseConfig : Type := mkDatabaseConfig {
  db_url : option string;
  db_host : string;
  db_port : Z;
  db_name : string;
  db_user : string;
  db_password : option string;
  pool_max_size : option Z;
}.

Definition DatabaseConfig_default : DatabaseConfig :=
  {| db_url := None; db_host := "localhost"; db_port := 5432; db_name := "dsb";
     db_user := "postgres"; db_password := None; pool_max_size := Some 10 |}.

Definition get_url (c : DatabaseConfig) : option string :=
  match db_url c with
  | Some url => Some url
  | None =>
      match db_password c with
      | Some password =>
          Some ("postgresql://" +:+ db_user c +:+ ":" +:+ password +:+ "@" +:+ db_host c
                  +:+ ":" +:+ Z_to_string (db_port c) +:+ "/" +:+ db_name c)
      | None => None
      end
  end.

Record HttpClientTimeoutConfig : Type := mkHttpClientTimeoutConfig {
  connect_timeout_secs : Z;
  read_timeout_secs : Z;
  pool_idle_timeout_secs : Z;
}.

Definition HttpClientTimeoutConfig_default : HttpClientTimeoutConfig :=
  {| connect_timeout_secs := 10; read_timeout_secs := 300; pool_idle_timeout_secs := 90 |}.

Definition default_docker_registry : string := "docker.io".

Record DockerConfig : Type := mkDockerConfig {
  docker_registry : string;
  docker_host : option string;
  default_image : string;
  test_image : string;
  docker_network : option string;
  home_dir : option string;
  http_client : HttpClientTimeoutConfig;
  proxy_env : gmap string string;
}.

Definition DockerConfig_default : DockerConfig :=
  {| docker_registry := default_docker_registry; docker_host := None;
     default_image := "docker.io/dsb/sandbox:latest"; test_image := "python:3.12";
     docker_network := None; home_dir := None;
     http_client := HttpClientTimeoutConfig_default; proxy_env := ∅ |}.

Inductive BackendType : Type := Docker | Kubernetes.

Record KubernetesResourceDefaults : Type := mkKubernetesResourceDefaults {
  cpu_request : string;
  memory_request : string;
  cpu_limit : string;
  memory_limit : string;
}.

Definition KubernetesResourceDefaults_default : KubernetesResourceDefaults :=
  {| cpu_request := "500m"; memory_request := "1Gi"; cpu_limit := "2000m";
     memory_limit := "4Gi" |}.

Record GpuConfig : Type := mkGpuConfig {
  gpu_node_selector : gmap string string;
  gpu_node_tolerations : list Json;
  gpu_resource_request : string;
}.

Definition GpuConfig_default : GpuConfig := mkGpuConfig ∅ [] "1".

Record KubernetesConfig : Type := mkKubernetesConfig {
  k8s_namespace : string;
  image_pull_secrets : list string;
  tolerations : list Json;
  node_selector : gmap string string;
  resource_defaults : KubernetesResourceDefaults;
  pvc_storage_class : string;
  pvc_access_mode : string;
  pvc_name : string;
  pod_ready_timeout_secs : Z;
  gpu : GpuConfig;
}.

Definition KubernetesConfig_default : KubernetesConfig :=
  {| k8s_namespace := "dsb-sandboxes"; image_pull_secrets := []; tolerations := [];
     node_selector := ∅; resource_defaults := KubernetesResourceDefaults_default;
     pvc_storage_class := ""; pvc_access_mode := "ReadWriteMany";
     pvc_name := "dsb-static-files-shared"; pod_ready_timeout_secs := 120;
     gpu := GpuConfig_default |}.

(** The section [SandboxConfig] of the configuration file. *)
Record SandboxSection : Type := mkSandboxSection {
  backend : BackendType;
  sandbox_default_inactivity_timeout : Z;
  sandbox_cleanup_dry_run : bool;
  sandbox_state_monitor_interval : Z;
  sandbox_retention_days : Z;
  default_vnc_resolution : string;
  vnc_port : Z;
  sandbox_max_browser_tabs : Z;
  sandbox_tool_timeouts : ToolTimeoutConfig;
  sandbox_resource_limits : DefaultResourceLimits;
  kubernetes : KubernetesConfig;
}.

Definition SandboxSection_default : SandboxSection :=
  {| backend := Docker; sandbox_default_inactivity_timeout := 30;
     sandbox_cleanup_dry_run := false; sandbox_state_monitor_interval := 60;
     sandbox_retention_days := 15; default_vnc_resolution := "2560x1440"; vnc_port := 5901;
     sandbox_max_browser_tabs := 20; sandbox_tool_timeouts := ToolTimeoutConfig_default;
     sandbox_resource_limits := DefaultResourceLimits_default;
     kubernetes := KubernetesConfig_default |}.

Record SshConfig : Type := mkSshConfig {
  ssh_port : Z;
  ssh_api_url : string;
  ssh_api_key : option string;
  host_key_path : option string;
  cleanup_check_interval : Z;
  session_timeout : Z;
  termination_timeout : Z;
  ssh_backend : string;
  ssh_kubernetes_namespace : string;
}.

Definition SshConfig_default : SshConfig :=
  {| ssh_port := 2222; ssh_api_url := "http://localhost:8080"; ssh_api_key := None;
     host_key_path := None; cleanup_check_interval := 30; session_timeout := 300;
     termination_timeout := 60; ssh_backend := "docker";
     ssh_kubernetes_namespace := "dsb-sandboxes" |}.

Record LoggingConfig : Type := mkLoggingConfig {
  log_level : string;
  log_format : string;
  log_file : option string;
  log_max_file_size_mb : Z;
  log_max_files : Z;
  log_ansi : bool;
  log_filters : option string;
}.

Definition LoggingConfig_default : LoggingConfig :=
  {| log_level := "info"; log_format := "pretty"; log_file := None;
     log_max_file_size_mb := 100; log_max_files := 10; log_ansi := true; log_filters := None |}.

(** A map that the code walks is a list of entries, in the order of the walk. *)
Record StaticServerConfig : Type := mkStaticServerConfig {
  static_base_path : string;
  static_host_path : option string;
  static_api_key : option string;
  static_max_file_size_mb : Z;
  sandbox_upload_max_file_size_mb : Z;
  enable_directory_browsing : bool;
  cache_control : string;
  cache_control_by_type : list (string * string);
  static_require_auth : bool;
  enable_zip_download : bool;
  max_zip_size_mb : Z;
  zip_download_file_prefix : string;
}.

Definition StaticServerConfig_default : StaticServerConfig :=
  {| static_base_path := "/var/lib/dsb/static-files"; static_host_path := None;
     static_api_key := None; static_max_file_size_mb := 100;
     sandbox_upload_max_file_size_mb := 10; enable_directory_browsing := false;
     cache_control := "public, max-age=3600"; cache_control_by_type := [];
     static_require_auth := false; enable_zip_download := true; max_zip_size_mb := 500;
     zip_download_file_prefix := "sandbox-" |}.

Record Config : Type := mkConfig {
  server : ServerConfig;
  database : DatabaseConfig;
  docker : DockerConfig;
  sandbox : SandboxSection;
  ssh : SshConfig;
  logging : LoggingConfig;
  static_server : StaticServerConfig;
}.

Definition Config_default : Config :=
  {| server := ServerConfig_default; database := DatabaseConfig_default;
     docker := DockerConfig_default; sandbox := SandboxSection_default;
     ssh := SshConfig_default; logging := LoggingConfig_default;
     static_server := StaticServerConfig_default |}.

(** ** Errors ([error.rs]) *)

Inductive ConfigError : Type :=
  | FileLoadError (path source : string)
  | ConfigValidationError (message : string)
  | MissingValue (path : string)
  | InvalidValue (path value reason : string)
  | ParseError (source : string).

(** ** Validation ([validator.rs]) *)

Definition validate_server (config : Config) : Result () ConfigError :=
  let port := server_port (server config) in
  if bool_decide (port = 0) then
    Err (InvalidValue "server.port" (Z_to_string port) "port must be between 1 and 65535")
  else Ok ().

Definition has_db_config (config : Config) : bool :=
  bool_decide (is_Some (db_url (database config)))
  || bool_decide (is_Some (db_password (database config))).

Definition validate_database (config : Config) : Result () ConfigError :=
  let d := database config in
  if negb (has_db_config config) then Ok ()
  else
    match db_url d with
    | Some _ => Ok ()
    | None =>
        match db_password d with
        | None => Err (MissingValue "database.password")
        | Some _ =>
            if is_empty (db_host d) then
              Err (InvalidValue "database.host" (db_host d) "host cannot be empty")
            else if is_empty (db_name d) then
              Err (InvalidValue "database.name" (db_name d) "name cannot be empty")
            else if is_empty (db_user d) then
              Err (InvalidValue "database.user" (db_user d) "user cannot be empty")
            else Ok ()
        end
    end.

Definition validate_docker (config : Config) : Result () ConfigError :=
  if is_empty (docker_registry (docker config)) then
    Err (InvalidValue "docker.registry" (docker_registry (docker config))
           "registry cannot be empty")
  else Ok ().

Definition validate_ssh (config : Config) : Result () ConfigError :=
  let port := ssh_port (ssh config) in
  let api_url := ssh_api_url (ssh config) in
  if bool_decide (port = 0) then
    Err (InvalidValue "ssh.port" (Z_to_string port) "port must be between 1 and 65535")
  else if negb (starts_with "http://" api_url) && negb (starts_with "https://" api_url) then
    Err (InvalidValue "ssh.api_url" api_url "must start with http:// or https://")
  else Ok ().

Definition validate_sandbox (config : Config) : Result () ConfigError :=
  let s := sandbox config in
  if bool_decide (sandbox_default_inactivity_timeout s = 0) then
    Err (InvalidValue "sandbox.default_inactivity_timeout"
           (Z_to_string (sandbox_default_inactivity_timeout s)) "must be greater than 0")
  else if bool_decide (sandbox_state_monitor_interval s = 0) then
    Err (InvalidValue "sandbox.state_monitor_interval"
           (Z_to_string (sandbox_state_monitor_interval s)) "must be greater than 0")
  else Ok ().

Definition valid_levels : list string := ["trace"; "debug"; "info"; "warn"; "error"].

Definition validate_logging (config : Config) : Result () ConfigError :=
  let level := log_level (logging config) in
  if existsb (String.eqb level) valid_levels then Ok ()
  else Err (InvalidValue "logging.level" level
              ("must be one of: " +:+ join ", " valid_levels)).

Definition plain_directives : list string :=
  ["public"; "private"; "no-cache"; "no-store"; "no-transform"; "must-revalidate";
   "proxy-revalidate"].

(** One turn of the loop, on the trimmed directive. *)
Definition directive_ok (directive : string) : bool :=
  if existsb (String.eqb directive) plain_directives then true
  else
    match strip_prefix "max-age=" directive with
    | Some rest => bool_decide (is_Some (parse_u64 rest))
    | None =>
        match strip_prefix "s-maxage=" directive with
        | Some rest => bool_decide (is_Some (parse_u64 rest))
        | None => false
        end
    end.

Definition comma : ascii := ",".

Definition is_valid_cache_control (value : string) : bool :=
  if is_empty (trim value) then false
  else forallb (λ directive, directive_ok (trim directive)) (split_on comma value).

Fixpoint validate_entries (entries : list (string * string)) : Result () ConfigError :=
  match entries with
  | [] => Ok ()
  | (mime_type, cache_control) :: entries' =>
      if negb (has_char "/" mime_type) then
        Err (InvalidValue ("static_server.cache_control_by_type." +:+ mime_type) mime_type
               "invalid MIME type format (must contain '/')")
      else if negb (is_valid_cache_control cache_control) then
        Err (InvalidValue ("static_server.cache_control_by_type." +:+ mime_type) cache_control
               "invalid cache-control directives")
      else validate_entries entries'
  end.

Definition validate_static_server (config : Config) : Result () ConfigError :=
  let s := static_server config in
  if negb (is_valid_cache_control (cache_control s)) then
    Err (InvalidValue "static_server.cache_control" (cache_control s)
           "invalid cache-control directives")
  else validate_entries (cache_control_by_type s).

Definition validate (config : Config) : Result () ConfigError :=
  let? _ := validate_server config in
  let? _ := validate_database config in
  let? _ := validate_docker config in
  let? _ := validate_ssh config in
  let? _ := validate_sandbox config in
  let? _ := validate_logging config in
  let? _ := validate_static_server config in
  Ok ().

(** ** Loading ([loader.rs]) *)

(** *** The overrides of the command line *)

Definition set_server (s : ServerConfig) (c : Config) : Config :=
  mkConfig s (database c) (docker c) (sandbox c) (ssh c) (logging c) (static_server c).
Definition set_database (d : DatabaseConfig) (c : Config) : Config :=
  mkConfig (server c) d (docker c) (sandbox c) (ssh c) (logging c) (static_server c).
Definition set_docker (d : DockerConfig) (c : Config) : Config :=
  mkConfig (server c) (database c) d (sandbox c) (ssh c) (logging c) (static_server c).
Definition set_sandbox (s : SandboxSection) (c : Config) : Config :=
  mkConfig (server c) (database c) (docker c) s (ssh c) (logging c) (static_server c).
Definition set_ssh (s : SshConfig) (c : Config) : Config :=
  mkConfig (server c) (database c) (docker c) (sandbox c) s (logging c) (static_server c).
Definition set_logging (l : LoggingConfig) (c : Config) : Config :=
  mkConfig (server c) (database c) (docker c) (sandbox c) (ssh c) l (static_server c).

Definition set_server_fields (port : Z) (host : string) (api_key : option string)
    (s : ServerConfig) : ServerConfig :=
  mkServerConfig port host api_key (web_terminal_api_key s) (ssh_gateway_api_key s)
    (vnc_api_key s) (vnc_require_auth s) (vnc_token_ttl_secs s) (server_require_auth s)
    (admin_api_key s) (session_token_ttl_secs s) (cookie_secret s).

Definition set_db_url (url : option string) (d : DatabaseConfig) : DatabaseConfig :=
  mkDatabaseConfig url (db_host d) (db_port d) (db_name d) (db_user d) (db_password d)
    (pool_max_size d).

Definition set_docker_fields (registry : string) (host : option string)
    (env : gmap string string) (d : DockerConfig) : DockerConfig :=
  mkDockerConfig registry host (default_image d) (test_image d) (docker_network d) (home_dir d)
    (http_client d) env.

Definition set_sandbox_fields (timeout : Z) (dry_run : bool) (s : SandboxSection)
    : SandboxSection :=
  mkSandboxSection (backend s) timeout dry_run (sandbox_state_monitor_interval s)
    (sandbox_retention_days s) (default_vnc_resolution s) (vnc_port s)
    (sandbox_max_browser_tabs s) (sandbox_tool_timeouts s) (sandbox_resource_limits s)
    (kubernetes s).

Definition set_ssh_fields (port : Z) (api_url : string) (s : SshConfig) : SshConfig :=
  mkSshConfig port api_url (ssh_api_key s) (host_key_path s) (cleanup_check_interval s)
    (session_timeout s) (termination_timeout s) (ssh_backend s) (ssh_kubernetes_namespace s).

Definition set_log_level (level : string) (l : LoggingConfig) : LoggingConfig :=
  mkLoggingConfig level (log_format l) (log_file l) (log_max_file_size_mb l) (log_max_files l)
    (log_ansi l) (log_filters l).

(** The keys that the [match] knows; two of them mean the level. *)
Inductive CliKey : Type :=
  | CliServerPort | CliServerHost | CliServerApiKey | CliDatabaseUrl | CliDockerRegistry
  | CliDockerHost | CliLogLevel | CliSshPort | CliSshApiUrl | CliInactivityTimeout
  | CliCleanupDryRun.

Definition cli_keys : list (string * CliKey) :=
  [("server.port", CliServerPort); ("server.host", CliServerHost);
   ("server.api_key", CliServerApiKey); ("database.url", CliDatabaseUrl);
   ("docker.registry", CliDockerRegistry); ("docker.host", CliDockerHost);
   ("log.level", CliLogLevel); ("logging.level", CliLogLevel); ("ssh.port", CliSshPort);
   ("ssh.api_url", CliSshApiUrl); ("sandbox.default_inactivity_timeout", CliInactivityTimeout);
   ("sandbox.cleanup_dry_run", CliCleanupDryRun)].

Definition parse_bool (s : string) : option bool :=
  match_str [("true", true); ("false", false)] s.

(** A value that does not parse is ignored. *)
Definition apply_cli (k : CliKey) (value : string) (c : Config) : Config :=
  let sv := server c in
  let dk := docker c in
  let sx := sandbox c in
  let sh := ssh c in
  match k with
  | CliServerPort =>
      match parse_u16 value with
      | Some port =>
          set_server (set_server_fields port (server_host sv) (server_api_key sv) sv) c
      | None => c
      end
  | CliServerHost =>
      set_server (set_server_fields (server_port sv) value (server_api_key sv) sv) c
  | CliServerApiKey =>
      set_server (set_server_fields (server_port sv) (server_host sv) (Some value) sv) c
  | CliDatabaseUrl => set_database (set_db_url (Some value) (database c)) c
  | CliDockerRegistry =>
      set_docker (set_docker_fields value (docker_host dk) (proxy_env dk) dk) c
  | CliDockerHost =>
      set_docker (set_docker_fields (docker_registry dk) (Some value) (proxy_env dk) dk) c
  | CliLogLevel => set_logging (set_log_level value (logging c)) c
  | CliSshPort =>
      match parse_u16 value with
      | Some port => set_ssh (set_ssh_fields port (ssh_api_url sh) sh) c
      | None => c
      end
  | CliSshApiUrl => set_ssh (set_ssh_fields (ssh_port sh) value sh) c
  | CliInactivityTimeout =>
      match parse_u64 value with
      | Some timeout =>
          set_sandbox (set_sandbox_fields timeout (sandbox_cleanup_dry_run sx) sx) c
      | None => c
      end
  | CliCleanupDryRun =>
      match parse_bool value with
      | Some dry_run =>
          set_sandbox (set_sandbox_fields (sandbox_default_inactivity_timeout sx) dry_run sx) c
      | None => c
      end
  end.

Definition merge_cli_one (config : Config) (arg : string * string) : Config :=
  let '(key, value) := arg in
  match match_str cli_keys key with
  | Some k => apply_cli k value config
  | None => config
  end.

(** The map of arguments, in the order in which it is walked. *)
Definition merge_cli_args (config : Config) (cli_args : list (string * string)) : Config :=
  fold_left merge_cli_one cli_args config.

(** *** Searching for files *)

(** The file system as the loader sees it: the components of the current
    directory, if it can be told, and which paths exist. *)
Record FileSystem : Type := mkFileSystem {
  fs_current : option (list string);
  fs_exists : string → bool;
}.

Definition path_in (dir : list string) (filename : string) : string :=
  "/" +:+ join "/" (dir ++ [filename]).

(** [ancestors().nth(level)]: the directory itself is at level 0, the root is
    the last. *)
Definition ancestor (dir : list string) (level : nat) : option (list string) :=
  if bool_decide (level ≤ length dir)%nat then Some (take (length dir - level) dir) else None.

Fixpoint find_from (fs : FileSystem) (dir : list string) (filename : string)
    (levels : list nat) : option string :=
  match levels with
  | [] => None
  | level :: levels' =>
      match ancestor dir level with
      | None => None
      | Some parent =>
          let path := path_in parent filename in
          if fs_exists fs path then Some path else find_from fs dir filename levels'
      end
  end.

Definition find_file (fs : FileSystem) (filename : string) (max_levels : nat) : option string :=
  match fs_current fs with
  | Some current_dir => find_from fs current_dir filename (seq 0 (1 + max_levels))
  | None => None
  end.

Definition find_env_file (fs : FileSystem) : option string := find_file fs ".env" 3.

Definition find_config_file (fs : FileSystem) : option string :=
  option_or (find_file fs "dsb.yaml" 3) (find_file fs "dsb.yml" 3).

(** *** The proxy settings *)

Definition Env : Type := gmap string string.

Definition PROXY_ENV_VARS : list string :=
  ["HTTP_PROXY"; "HTTPS_PROXY"; "http_proxy"; "https_proxy"; "ALL_PROXY"; "all_proxy";
   "NO_PROXY"; "no_proxy"; "AWS_DEFAULT_REGION"].

(** One turn of the loop. *)
Definition read_proxy_var (env : Env) (acc : gmap string string) (name : string)
    : gmap string string :=
  match env !! name with
  | Some value => if is_empty value then acc else <[name := value]> acc
  | None => acc
  end.

Definition read_proxy_env (env : Env) : gmap string string :=
  fold_left (read_proxy_var env) PROXY_ENV_VARS ∅.

(** What the process has set wins. *)
Definition merge_docker_proxy_env (env : Env) (from_config : gmap string string)
    : gmap string string := read_proxy_env env ∪ from_config.

(** *** The order of the sources *)

(** [dotenvy] and [config]: reading a file of variables into the environment,
    collecting the sources (a YAML file, if any, and the environment), and
    filling in the sections with their defaults. *)
Class ConfigLib := {
  Settings : Type;
  dotenv_from_path : string → M Env (Result () string);
  canonicalize : string → Result string string;
  build_settings : option string → Env → Result Settings string;
  try_deserialize : Settings → Result Config string;
}.

(** The key's fallback, and the proxy settings. *)
Definition complete (env : Env) (config : Config) : Config :=
  let sv := server config in
  let config :=
    match server_api_key sv with
    | Some _ => config
    | None =>
        match env !! "DSB_API_KEY" with
        | Some key =>
            set_server (set_server_fields (server_port sv) (server_host sv) (Some key) sv) config
        | None => config
        end
    end in
  let dk := docker config in
  set_docker (set_docker_fields (docker_registry dk) (docker_host dk)
                (merge_docker_proxy_env env (proxy_env dk)) dk) config.

Section load.
Context `{ConfigLib}.

Definition load_dotenv (path shown : string) : M Env (Result () ConfigError) := λ env,
  let '(r, env') := dotenv_from_path path env in (result_map_err (FileLoadError shown) r, env').

(** What is common to the ways of loading, from the settings on. *)
Definition finish_load (cli_args : option (list (string * string))) (settings : Settings)
    : M Env (Result Config ConfigError) := λ env,
  (let? config := result_map_err ParseError (try_deserialize settings) in
   let config := complete env config in
   let config :=
     match cli_args with Some args => merge_cli_args config args | None => config end in
   let? _ := validate config in
   Ok config, env).

Definition load_with_cli_args_and_files (fs : FileSystem)
    (cli_args : option (list (string * string))) (env_file config_file : option string)
    : M Env (Result Config ConfigError) :=
  let* _ :=
    match env_file with
    | Some path =>
        if fs_exists fs path then
          match canonicalize path with
          | Ok absolute => load_dotenv absolute absolute
          | Err e => mret (Err (FileLoadError path e))
          end
        else mret (Ok ())
    | None =>
        match find_env_file fs with
        | Some path => load_dotenv path path
        | None => mret (Ok ())
        end
    end in
  let yaml :=
    match config_file with
    | Some path => if fs_exists fs path then Some path else None
    | None => find_config_file fs
    end in
  let* settings := λ env, (result_map_err ParseError (build_settings yaml env), env) in
  finish_load cli_args settings.

(** A YAML file that was found but cannot be used is dropped. *)
Definition build_or_drop (yaml : option string) (env : Env) : Result Settings ConfigError :=
  match build_settings yaml env with
  | Ok settings => Ok settings
  | Err e =>
      match yaml with
      | Some _ => result_map_err ParseError (build_settings None env)
      | None => Err (ParseError e)
      end
  end.

Definition load_with_cli_args (fs : FileSystem) (cli_args : option (list (string * string)))
    : M Env (Result Config ConfigError) :=
  let* _ :=
    match find_env_file fs with
    | Some path => load_dotenv path path
    | None => mret (Ok ())
    end in
  let* settings := λ env,
    (build_or_drop (find_config_file fs) env, env) in
  finish_load cli_args settings.

Definition load (fs : FileSystem) : M Env (Result Config ConfigError) :=
  load_with_cli_args fs None.

Definition load_with_files (fs : FileSystem) (env_file config_file : option string)
    : M Env (Result Config ConfigError) :=
  load_with_cli_args_and_files fs None env_file config_file.
End load.

(** ** The sandbox service of a configuration ([server/mod.rs])

    With or without a database, the same settings are made; the multiplication
    wraps in a release build. *)
Definition service_of_config (config : Config) : SandboxService :=
  let max_file_size_bytes :=
    u64_wrap (u64_wrap (sandbox_upload_max_file_size_mb (static_server config) * 1024) * 1024) in
  let sx := sandbox config in
  with_max_browser_tabs (sandbox_max_browser_tabs sx)
    (with_resource_limits (sandbox_resource_limits sx)
       (with_file_upload_config max_file_size_bytes
          (with_frontend_config (default_image (docker config))
             (server_require_auth (server config))
             (with_cleanup_config (sandbox_default_inactivity_timeout sx)
                (sandbox_cleanup_dry_run sx) (sandbox_state_monitor_interval sx)
                (sandbox_retention_days sx) SandboxService_new)))).

(** ** Theorems *)

(** *** What a valid configuration is *)

(** The directives of a [Cache-Control] header, by their grammar. *)
Inductive Directive : string → Prop :=
  | directive_plain d : d ∈ plain_directives → Directive d
  | directive_max_age d n : parse_u64 d = Some n → Directive ("max-age=" +:+ d)
  | directive_s_maxage d n : parse_u64 d = Some n → Directive ("s-maxage=" +:+ d).

(** A header: directives between commas, with white space around them. *)
Definition CacheControl (value : string) : Prop :=
  ∃ ds, ds ≠ [] ∧ value = join "," ds ∧
    Forall (λ d, has_char comma d = false ∧ Directive (trim d)) ds.

Record WellFormed (c : Config) : Prop := {
  wf_port : server_port (server c) ≠ 0;
  wf_database : ∀ password, db_url (database c) = None → db_password (database c) = Some password →
    db_host (database c) ≠ "" ∧ db_name (database c) ≠ "" ∧ db_user (database c) ≠ "";
  wf_registry : docker_registry (docker c) ≠ "";
  wf_ssh_port : ssh_port (ssh c) ≠ 0;
  wf_ssh_url : ∃ rest, ssh_api_url (ssh c) = "http://" +:+ rest
                       ∨ ssh_api_url (ssh c) = "https://" +:+ rest;
  wf_timeout : sandbox_default_inactivity_timeout (sandbox c) ≠ 0;
  wf_interval : sandbox_state_monitor_interval (sandbox c) ≠ 0;
  wf_level : log_level (logging c) ∈ valid_levels;
  wf_cache : CacheControl (cache_control (static_server c));
  wf_cache_by_type : Forall (λ '(mime, value), has_char "/" mime = true ∧ CacheControl value)
    (cache_control_by_type (static_server c));
}.

Lemma is_empty_spec s : is_empty s = true ↔ s = "".
Proof. by destruct s. Qed.

Lemma existsb_eqb_spec s l : existsb (String.eqb s) l = true ↔ s ∈ l.
Proof.
  rewrite existsb_exists. split.
  - intros (x & Hx & <-%String.eqb_eq). by apply list_elem_of_In.
  - intros Hs. exists s. split; [by apply list_elem_of_In|apply String.eqb_refl].
Qed.

Lemma directive_ok_spec d : directive_ok d = true ↔ Directive d.
Proof.
  unfold directive_ok. destruct (existsb _ _) eqn:E.
  { apply existsb_eqb_spec in E. split; [intros _; by constructor|done]. }
  assert (Hplain : d ∉ plain_directives).
  { intros Hd%existsb_eqb_spec. congruence. }
  split.
  - destruct (strip_prefix "max-age=" d) as [r|] eqn:E1.
    + apply strip_prefix_Some in E1 as ->. intros Hr%bool_decide_eq_true. destruct Hr as [n Hn].
      by eapply directive_max_age.
    + destruct (strip_prefix "s-maxage=" d) as [r|] eqn:E2; [|done].
      apply strip_prefix_Some in E2 as ->. intros Hr%bool_decide_eq_true. destruct Hr as [n Hn].
      by eapply directive_s_maxage.
  - intros Hd. destruct Hd as [d' Hd|d' n Hn|d' n Hn]; [by destruct (Hplain Hd)|..];
      simpl; apply bool_decide_eq_true; by exists n.
Qed.

Lemma directive_visible d : Directive d → blank d = false.
Proof.
  intros [d' Hd|d' n Hn|d' n Hn]; [|done..].
  assert (Forall (λ d, blank d = false) plain_directives) as Hall by repeat constructor.
  rewrite Forall_forall in Hall. by apply Hall.
Qed.

Lemma is_valid_cache_control_spec value : is_valid_cache_control value = true ↔ CacheControl value.
Proof.
  unfold is_valid_cache_control, CacheControl. split.
  - destruct (is_empty (trim value)); [done|]. intros Hall. rewrite forallb_forall in Hall.
    exists (split_on comma value). split_and!; [apply split_on_nonempty|by rewrite join_split_on|].
    apply Forall_forall. intros d Hd. split; [by eapply split_on_no_sep|].
    by apply directive_ok_spec, Hall, list_elem_of_In.
  - intros (ds & Hne & -> & Hds).
    assert (Hsplit : split_on comma (join "," ds) = ds).
    { apply split_on_join; [done|]. eapply Forall_impl; [exact Hds|]. by intros d [Hd _]. }
    destruct (is_empty _) eqn:E.
    + apply is_empty_spec in E. destruct ds as [|d ds]; [done|].
      apply Forall_cons_1 in Hds as [[_ Hd%directive_visible] _]. rewrite trim_blank in Hd.
      assert (blank (join "," (d :: ds)) = false) as Hb; [|by rewrite <-trim_blank, E in Hb].
      destruct ds as [|d' ds]; [done|]. rewrite join_cons by done. unfold blank in *.
      by rewrite string_forall_app, Hd.
    + rewrite Hsplit. apply forallb_forall. intros d Hd%list_elem_of_In.
      rewrite Forall_forall in Hds. by apply directive_ok_spec, Hds.
Qed.

(** A check of a condition: [Ok] when it holds, and else an invalid value. *)
Definition checks (r : Result () ConfigError) (P : Prop) : Prop :=
  (P ∧ r = Ok ()) ∨ (¬ P ∧ ∃ path value reason, r = Err (InvalidValue path value reason)).

Lemma checks_ok : checks (Ok ()) True.
Proof. by left. Qed.

Lemma checks_err path value reason : checks (Err (InvalidValue path value reason)) False.
Proof. right. split; [tauto|eauto]. Qed.

Lemma checks_iff r P Q : (P ↔ Q) → checks r P → checks r Q.
Proof. unfold checks. tauto. Qed.

Lemma checks_if (b : bool) path value reason k P :
  checks k P →
  checks (if b then Err (InvalidValue path value reason) else k) (b = false ∧ P).
Proof.
  intros Hk. destruct b; [|by eapply checks_iff; [|exact Hk]; tauto].
  eapply checks_iff; [|apply checks_err]. split; [done|]. by intros [? _].
Qed.

Lemma checks_then r k P Q : checks r P → checks k Q → checks (let? _ := r in k) (P ∧ Q).
Proof.
  intros [[HP ->]|[HP (p & v & e & ->)]] Hk; simpl.
  - eapply checks_iff; [|exact Hk]. tauto.
  - right. split; [tauto|eauto].
Qed.

Create HintDb checks.
#[export] Hint Resolve checks_ok checks_err checks_if checks_then : checks.

Lemma starts_with_false p s : starts_with p s = false ↔ ¬ ∃ r, s = p +:+ r.
Proof. rewrite <-not_true_iff_false, starts_with_spec. done. Qed.

Lemma validate_database_checks c :
  checks (validate_database c)
    (∀ password, db_url (database c) = None → db_password (database c) = Some password →
      db_host (database c) ≠ "" ∧ db_name (database c) ≠ "" ∧ db_user (database c) ≠ "").
Proof.
  unfold validate_database, has_db_config.
  destruct (db_url (database c)) as [url|]; simpl.
  { eapply checks_iff; [|apply checks_ok]. split; [done|tauto]. }
  destruct (db_password (database c)) as [password|]; simpl.
  - eapply checks_iff; [|eauto with checks]. rewrite <-!not_true_iff_false, !is_empty_spec.
    split; [naive_solver|]. intros Hd. destruct (Hd password); tauto.
  - eapply checks_iff; [|apply checks_ok]. split; [done|tauto].
Qed.

Lemma validate_entries_checks entries :
  checks (validate_entries entries)
    (Forall (λ '(mime, value), has_char "/" mime = true ∧ CacheControl value) entries).
Proof.
  induction entries as [|[mime value] entries IH]; simpl.
  - eapply checks_iff; [|apply checks_ok]. by rewrite Forall_nil.
  - eapply checks_iff; [|eauto with checks].
    rewrite Forall_cons, !negb_false_iff, is_valid_cache_control_spec. tauto.
Qed.

Lemma validate_logging_checks c :
  checks (validate_logging c) (log_level (logging c) ∈ valid_levels).
Proof.
  unfold validate_logging. destruct (existsb _ _) eqn:E.
  - apply existsb_eqb_spec in E. by left.
  - eapply checks_iff; [|apply checks_err]. split; [done|].
    intros Hin%existsb_eqb_spec. congruence.
Qed.

#[export] Hint Resolve validate_database_checks validate_entries_checks
  validate_logging_checks : checks.

Lemma validate_checks c : checks (validate c) (WellFormed c).
Proof.
  eapply checks_iff; cycle 1.
  - unfold validate, validate_server, validate_docker, validate_ssh, validate_sandbox,
      validate_static_server. cbv zeta. eauto 20 with checks.
  - rewrite !negb_false_iff, !andb_false_iff, !negb_false_iff, !bool_decide_eq_false,
      <-!not_true_iff_false, !is_empty_spec, is_valid_cache_control_spec, !starts_with_spec.
    split.
    + intros. destruct_and!. split; try done. naive_solver.
    + intros [? ? ? ? [rest Hrest] ? ? ? ? ?]. split_and!; try done. naive_solver.
Qed.


(** *** The command line *)

Lemma apply_cli_idem k v c : apply_cli k v (apply_cli k v c) = apply_cli k v c.
Proof. destruct c; destruct k; simpl; repeat case_match; reflexivity. Qed.

Lemma apply_cli_comm k k' v v' c :
  k ≠ k' → apply_cli k v (apply_cli k' v' c) = apply_cli k' v' (apply_cli k v c).
Proof.
  intros Hne. destruct c as [sv db dk sx sh lg st]. destruct sv, db, dk, sx, sh, lg.
  destruct k, k'; try congruence; unfold apply_cli; simpl;
    repeat (case_match; simpl); reflexivity.
Qed.

(** Only the two names of the level mean the same key. *)
Definition both_levels (args : list (string * string)) : Prop :=
  "log.level" ∈ args.*1 ∧ "logging.level" ∈ args.*1.

Lemma cli_keys_unique key key' k :
  match_str cli_keys key = Some k → match_str cli_keys key' = Some k →
  key = key' ∨ (key = "log.level" ∧ key' = "logging.level")
  ∨ (key = "logging.level" ∧ key' = "log.level").
Proof.
  intros H1%match_str_Some H2%match_str_Some.
  assert (Forall (λ '(a, k), Forall (λ '(b, k'), k = k' →
    a = b ∨ (a = "log.level" ∧ b = "logging.level") ∨ (a = "logging.level" ∧ b = "log.level"))
    cli_keys) cli_keys) as Hall.
  { unfold cli_keys. repeat first [apply Forall_nil_2 | apply Forall_cons_2];
      intros Hk; solve [discriminate Hk | auto]. }
  rewrite Forall_forall in Hall. specialize (Hall _ H1). rewrite Forall_forall in Hall.
  by apply (Hall _ H2).
Qed.

(** Two arguments that do not name the level twice can be applied in either
    order. *)
Lemma merge_cli_one_comm a b c :
  a.1 ≠ b.1 → ¬ both_levels [a; b] →
  merge_cli_one (merge_cli_one c a) b = merge_cli_one (merge_cli_one c b) a.
Proof.
  destruct a as [key v], b as [key' v']. intros Hne Hboth. unfold merge_cli_one. simpl in Hne.
  destruct (match_str cli_keys key) as [k|] eqn:E; [|done].
  destruct (match_str cli_keys key') as [k'|] eqn:E'; [|done].
  apply apply_cli_comm. intros ->. apply Hboth. unfold both_levels. simpl.
  destruct (cli_keys_unique _ _ _ E E') as [?|[[-> ->]|[-> ->]]]; set_solver.
Qed.

Lemma both_levels_sub args args' : args ⊆ args' → both_levels args → both_levels args'.
Proof.
  intros Hsub [H1 H2]. unfold both_levels in *.
  apply list_elem_of_fmap in H1 as (x & -> & Hx), H2 as (y & -> & Hy).
  split; apply list_elem_of_fmap; eauto.
Qed.

Lemma merge_cli_args_perm args args' c :
  args ≡ₚ args' → NoDup args.*1 → ¬ both_levels args →
  merge_cli_args c args = merge_cli_args c args'.
Proof.
  intros Hp. revert c. unfold merge_cli_args.
  induction Hp as [|a l l' Hp IH|a b l|l1 l2 l3 Hp1 IH1 Hp2 IH2]; intros c Hnd Hboth; simpl.
  - done.
  - apply NoDup_cons in Hnd as [_ Hnd]. apply IH; [done|].
    intros Hl. apply Hboth. eapply both_levels_sub; [|exact Hl]. set_solver.
  - f_equal. apply NoDup_cons in Hnd as [Hnd _]. apply merge_cli_one_comm; [set_solver|].
    intros Hl. apply Hboth. eapply both_levels_sub; [|exact Hl]. set_solver.
  - rewrite IH1 by done. apply IH2; [by rewrite <-Hp1|].
    intros Hl. apply Hboth. eapply both_levels_sub; [|exact Hl]. intros x. by rewrite Hp1.
Qed.

(** The overrides of the command line.  The map of arguments is walked in
    no order of its own; unless it names the log level twice, the outcome does
    not depend on the order; every override is then in force, and arguments
    that name nothing are passed over.  With both names of the level the last one
    walked wins. *)
Theorem merge_cli_args_spec args c (Hnd : NoDup args.*1) (Hlevels : ¬ both_levels args) :
  (∀ args', args ≡ₚ args' → merge_cli_args c args' = merge_cli_args c args) ∧
  (∀ key value k, (key, value) ∈ args → match_str cli_keys key = Some k →
     apply_cli k value (merge_cli_args c args) = merge_cli_args c args) ∧
  (Forall (λ '(key, _), key ∉ cli_keys.*1) args → merge_cli_args c args = c) ∧
  (∀ v v', merge_cli_args c [("log.level", v); ("logging.level", v')]
           = set_logging (set_log_level v' (logging c)) c).
Proof.
  split_and!.
  - intros args' Hp. symmetry. by apply merge_cli_args_perm.
  - intros key value k Hin Hk. apply list_elem_of_split in Hin as (l1 & l2 & ->).
    assert (l1 ++ (key, value) :: l2 ≡ₚ (l1 ++ l2) ++ [(key, value)]) as Hp by solve_Permutation.
    rewrite (merge_cli_args_perm _ _ _ Hp Hnd Hlevels). unfold merge_cli_args.
    rewrite fold_left_app. cbn [fold_left merge_cli_one]. rewrite Hk. apply apply_cli_idem.
  - intros Hall. clear Hnd Hlevels. revert c. induction Hall as [|[key v] l Hkey _ IH]; [done|].
    intros c. unfold merge_cli_args. cbn [fold_left merge_cli_one].
    destruct (match_str cli_keys key) as [k|] eqn:E; [|apply IH].
    apply match_str_Some in E. destruct Hkey. apply list_elem_of_fmap. by exists (key, k).
  - intros v v'. by destruct c as [? ? ? ? ? [] ?].
Qed.

(** *** Searching and loading *)

Lemma find_from_spec fs dir filename start n path :
  find_from fs dir filename (seq start n) = Some path ↔
  ∃ level parent, (start ≤ level < start + n)%nat ∧ ancestor dir level = Some parent ∧
    path = path_in parent filename ∧ fs_exists fs path = true ∧
    ∀ level' parent', (start ≤ level' < level)%nat → ancestor dir level' = Some parent' →
      fs_exists fs (path_in parent' filename) = false.
Proof.
  revert start. induction n as [|n IH]; intros start; simpl.
  { split; [done|]. intros (? & ? & ? & _). lia. }
  destruct (ancestor dir start) as [parent|] eqn:Ea.
  2:{ split; [done|]. intros (level & parent & Hl & Hp & _). unfold ancestor in *.
      repeat case_bool_decide; try done. lia. }
  destruct (fs_exists fs (path_in parent filename)) eqn:Ee.
  - split.
    + intros [= <-]. exists start, parent. split_and!; try done; lia.
    + intros (level & p & Hl & Hp & -> & Hex & Hmin).
      destruct (decide (level = start)) as [->|Hne]; [congruence|].
      rewrite (Hmin start parent) in Ee; [done|lia|done].
  - rewrite IH. split; intros (level & p & Hl & Hp & -> & Hex & Hmin).
    + exists level, p. split_and!; try done; try lia. intros level' p' Hl' Hp'.
      destruct (decide (level' = start)) as [->|Hne]; [congruence|]. apply (Hmin level'); [lia|done].
    + exists level, p. assert (level ≠ start) by congruence. split_and!; try done; try lia.
      intros level' p' Hl' Hp'. apply (Hmin level'); [lia|done].
Qed.

(** The file nearest to the current directory, going up no further than
    [max_levels]. *)
Lemma find_file_spec fs filename max_levels path :
  find_file fs filename max_levels = Some path ↔
  ∃ dir level parent, fs_current fs = Some dir ∧ (level ≤ max_levels)%nat ∧
    ancestor dir level = Some parent ∧ path = path_in parent filename ∧
    fs_exists fs path = true ∧
    ∀ level' parent', (level' < level)%nat → ancestor dir level' = Some parent' →
      fs_exists fs (path_in parent' filename) = false.
Proof.
  unfold find_file. destruct (fs_current fs) as [dir|]; [rewrite find_from_spec|naive_solver].
  split.
  - intros (level & parent & ? & ? & ? & ? & Hmin). exists dir, level, parent.
    split_and!; try done; try lia. intros. eapply Hmin; [|done]. lia.
  - intros (? & level & parent & [= <-] & ? & ? & ? & ? & Hmin). exists level, parent.
    split_and!; try done; try lia. intros. eapply Hmin; [|done]. lia.
Qed.

Lemma read_proxy_env_go env names acc name :
  fold_left (read_proxy_var env) names acc !! name =
  match env !! name with
  | Some value =>
      if bool_decide (name ∈ names) && negb (is_empty value) then Some value else acc !! name
  | None => acc !! name
  end.
Proof.
  revert acc. induction names as [|n names IH]; intros acc; cbn [fold_left].
  { by destruct (env !! name). }
  rewrite IH. unfold read_proxy_var. destruct (env !! name) as [value|] eqn:En.
  - destruct (decide (n = name)) as [->|Hne].
    + rewrite En, (bool_decide_eq_true_2 (name ∈ name :: names)) by set_solver.
      destruct (is_empty value); simpl.
      * by rewrite andb_false_r.
      * rewrite lookup_insert_eq. by destruct (bool_decide _).
    + rewrite (bool_decide_ext (name ∈ n :: names) (name ∈ names)) by set_solver.
      destruct (env !! n) as [v|]; [destruct (is_empty v)|];
        rewrite ?lookup_insert_ne by done; done.
  - destruct (env !! n) as [v|] eqn:Env; [destruct (is_empty v)|]; try done.
    rewrite lookup_insert_ne; [done|congruence].
Qed.

Lemma merge_docker_proxy_env_lookup env from_config name :
  merge_docker_proxy_env env from_config !! name =
  match env !! name with
  | Some value =>
      if bool_decide (name ∈ PROXY_ENV_VARS) && negb (is_empty value) then Some value
      else from_config !! name
  | None => from_config !! name
  end.
Proof.
  unfold merge_docker_proxy_env, read_proxy_env. rewrite lookup_union, read_proxy_env_go.
  rewrite lookup_empty. destruct (env !! name) as [value|]; [|by rewrite (left_id_L None _)].
  destruct (_ && _); [|by rewrite (left_id_L None _)]. by destruct (from_config !! name).
Qed.

(** What loading makes of the settings, before the command line: the API key
    falls back to [DSB_API_KEY], and the proxy variables of the process win. *)
Record Completed (env : Env) (c0 c1 : Config) : Prop := {
  completed_key : server_api_key (server c1)
                  = option_or (server_api_key (server c0)) (env !! "DSB_API_KEY");
  completed_proxy : ∀ name, proxy_env (docker c1) !! name =
    match env !! name with
    | Some value =>
        if bool_decide (name ∈ PROXY_ENV_VARS) && negb (is_empty value) then Some value
        else proxy_env (docker c0) !! name
    | None => proxy_env (docker c0) !! name
    end;
  completed_rest : database c1 = database c0 ∧ sandbox c1 = sandbox c0 ∧ ssh c1 = ssh c0
    ∧ logging c1 = logging c0 ∧ static_server c1 = static_server c0
    ∧ server_port (server c1) = server_port (server c0)
    ∧ docker_registry (docker c1) = docker_registry (docker c0);
}.

Lemma complete_spec env c : Completed env c (complete env c).
Proof.
  unfold complete. destruct (server_api_key (server c)) eqn:Ek;
    [|destruct (env !! "DSB_API_KEY") eqn:Ee];
    (split; [simpl; by rewrite Ek, ?Ee|intros name; apply merge_docker_proxy_env_lookup|done]).
Qed.

Section load_spec.
Context `{ConfigLib}.

(** A configuration that was loaded: from which sources, and what was added. *)
Definition LoadedFrom (cli_args : option (list (string * string))) (env : Env) (c : Config)
    : Prop :=
  WellFormed c ∧
  ∃ yaml settings c0 c1,
    build_settings yaml env = Ok settings ∧ try_deserialize settings = Ok c0 ∧
    Completed env c0 c1 ∧
    c = match cli_args with Some args => merge_cli_args c1 args | None => c1 end.

Lemma finish_load_spec cli_args yaml settings env :
  build_settings yaml env = Ok settings →
  wp (finish_load cli_args settings)
    (λ r env', env' = env ∧
       match r with
       | Ok c => LoadedFrom cli_args env c
       | Err e => (∃ s, e = ParseError s) ∨ ∃ path value reason, e = InvalidValue path value reason
       end) env.
Proof.
  intros Hs. unfold wp, finish_load, run_val. split; [done|]. simpl.
  destruct (try_deserialize settings) as [c0|e] eqn:Ed; simpl; [|eauto].
  match goal with |- context [validate ?c] => destruct (validate_checks c)
    as [[Hwf ->]|[_ (p & v & r & ->)]]; simpl; [|by eauto 6] end.
  split; [done|]. exists yaml, settings, c0, (complete env c0).
  split_and!; [done..|apply complete_spec|done].
Qed.

(** Which file of variables is read, if any. *)
Definition env_source (fs : FileSystem) (env_file : option string) : option string :=
  match env_file with
  | Some path =>
      if fs_exists fs path then
        match canonicalize path with Ok absolute => Some absolute | Err _ => None end
      else None
  | None => find_env_file fs
  end.

Definition LoadPost (cli_args : option (list (string * string))) (source : option string)
    (env : Env) (r : Result Config ConfigError) (env' : Env) : Prop :=
  env' = match source with Some path => run_st (dotenv_from_path path) env | None => env end ∧
  match r with
  | Ok c =>
      LoadedFrom cli_args env' c ∧
      (∀ path, source = Some path → run_val (dotenv_from_path path) env = Ok ())
  | Err e =>
      (∃ path s, e = FileLoadError path s) ∨ (∃ s, e = ParseError s)
      ∨ ∃ path value reason, e = InvalidValue path value reason
  end.

Lemma wp_load_dotenv path shown k cli_args source env :
  source = Some path →
  (∀ env', env' = run_st (dotenv_from_path path) env →
     wp k (λ r env'', env'' = env' ∧
       match r with
       | Ok c => LoadedFrom cli_args env' c
       | Err e => (∃ s, e = ParseError s) ∨ ∃ p v reason, e = InvalidValue p v reason
       end) env') →
  wp (let* _ := load_dotenv path shown in k) (LoadPost cli_args source env) env.
Proof.
  intros -> Hk. apply wp_try_run. unfold load_dotenv, LoadPost, run_st, run_val in *.
  destruct (dotenv_from_path path env) as [[[]|e] env1] eqn:E; simpl in *.
  - eapply wp_mono; [apply (Hk env1); done|]. intros r env2 [-> Hr]. simpl.
    split; [done|]. destruct r as [c|e]; [|by destruct Hr; auto].
    split; [done|]. intros ? [= <-]. by rewrite E.
  - split; [done|]. left. eauto.
Qed.

End load_spec.

Section load_theorems.
Context `{ConfigLib}.

Lemma wp_finish_built cli_args (build : Env → Result Settings ConfigError) env :
  (match build env with
   | Ok settings => ∃ yaml, build_settings yaml env = Ok settings
   | Err e => ∃ s, e = ParseError s
   end) →
  wp (let* settings := λ env, (build env, env) in finish_load cli_args settings)
    (λ r env', env' = env ∧
       match r with
       | Ok c => LoadedFrom cli_args env c
       | Err e => (∃ s, e = ParseError s) ∨ ∃ p v reason, e = InvalidValue p v reason
       end) env.
Proof.
  intros Hb. apply wp_try_run. destruct (build env) as [settings|e].
  - destruct Hb as [yaml Hb]. by eapply finish_load_spec.
  - auto.
Qed.

Lemma build_file_spec yaml env :
  match result_map_err ParseError (build_settings yaml env) with
  | Ok settings => ∃ yaml, build_settings yaml env = Ok settings
  | Err e => ∃ s, e = ParseError s
  end.
Proof. destruct (build_settings yaml env) eqn:E; simpl; eauto. Qed.

Lemma build_or_drop_spec yaml env :
  match build_or_drop yaml env with
  | Ok settings => ∃ yaml, build_settings yaml env = Ok settings
  | Err e => ∃ s, e = ParseError s
  end.
Proof.
  unfold build_or_drop. destruct (build_settings yaml env) eqn:E; [eauto|].
  destruct yaml; [apply build_file_spec|eauto].
Qed.

Lemma LoadPost_pure cli_args env (m : M Env (Result Config ConfigError)) :
  wp m (λ r env', env' = env ∧
       match r with
       | Ok c => LoadedFrom cli_args env c
       | Err e => (∃ s, e = ParseError s) ∨ ∃ p v reason, e = InvalidValue p v reason
       end) env →
  wp (let* _ := mret (Ok ()) in m) (LoadPost cli_args None env) env.
Proof.
  intros Hm. apply wp_try_run. simpl. eapply wp_mono; [exact Hm|].
  intros [c|e] env' [-> Hr]; split; try done. by right.
Qed.

(** Loading a configuration.  At most one file of variables is read: the
    given one when it exists, or else, none being given, the [.env] of the nearest
    directory within three levels.  A configuration that is returned is
    well-formed; it is what the sources gave, the API key falling back to
    [DSB_API_KEY], the process's proxy variables winning over the file's, and the
    command line applied last.  Errors are a file of variables that cannot be
    used, sources that cannot be parsed, or an invalid value.  The same holds of
    the loading the server does, except that a YAML file that was found and
    cannot be used is dropped: the settings are then those without one. *)
Theorem load_spec fs cli_args env_file config_file env :
  (LoadPost cli_args (env_source fs env_file) env
     (load_with_cli_args_and_files fs cli_args env_file config_file env).1
     (load_with_cli_args_and_files fs cli_args env_file config_file env).2 ∨
   (∃ path e, env_file = Some path ∧ canonicalize path = Err e ∧
      load_with_cli_args_and_files fs cli_args env_file config_file env
      = (Err (FileLoadError path e), env))) ∧
  LoadPost cli_args (find_env_file fs) env
    (load_with_cli_args fs cli_args env).1 (load_with_cli_args fs cli_args env).2 ∧
  (∀ yaml env', is_ok (build_settings yaml env') = false →
     build_or_drop yaml env' = build_or_drop None env').
Proof.
  unfold load_with_cli_args_and_files, env_source. split_and!.
  - destruct env_file as [path|]; [destruct (fs_exists fs path)|].
    + destruct (canonicalize path) as [absolute|e] eqn:Ec; [left|right; by exists path, e].
      apply wp_load_dotenv; [done|]. intros env' _. apply wp_finish_built, build_file_spec.
    + left. apply LoadPost_pure, wp_finish_built, build_file_spec.
    + left. destruct (find_env_file fs) as [path|].
      * apply wp_load_dotenv; [done|]. intros env' _. apply wp_finish_built, build_file_spec.
      * apply LoadPost_pure, wp_finish_built, build_file_spec.
  - unfold load_with_cli_args. destruct (find_env_file fs) as [path|].
    + apply wp_load_dotenv; [done|]. intros env' _. apply wp_finish_built, build_or_drop_spec.
    + apply LoadPost_pure, wp_finish_built, build_or_drop_spec.
  - intros yaml env' Hbad. unfold build_or_drop.
    destruct (build_settings yaml env') eqn:E; [done|]. destruct yaml as [f|]; [|by rewrite E].
    by destruct (build_settings None env').
Qed.

End load_theorems.

(** *** The service *)

(** Setting the service up.  The settings of the file reach the service, the
    largest upload in bytes; but not the timeouts of the tools: whatever the file
    says of them, the service keeps the defaults. *)
Theorem service_of_config_spec c
    (Hsize : 0 ≤ sandbox_upload_max_file_size_mb (static_server c) < 2 ^ 44) :
  let svc := service_of_config c in
  default_inactivity_timeout svc = sandbox_default_inactivity_timeout (sandbox c) ∧
  cleanup_dry_run svc = sandbox_cleanup_dry_run (sandbox c) ∧
  state_monitor_interval svc = sandbox_state_monitor_interval (sandbox c) ∧
  deleted_sandbox_retention_days svc = sandbox_retention_days (sandbox c) ∧
  default_sandbox_image svc = default_image (docker c) ∧
  authentication_required svc = server_require_auth (server c) ∧
  max_file_size_bytes svc = sandbox_upload_max_file_size_mb (static_server c) * 1048576 ∧
  default_resource_limits svc = sandbox_resource_limits (sandbox c) ∧
  max_browser_tabs svc = sandbox_max_browser_tabs (sandbox c) ∧
  tool_timeouts svc = ToolTimeoutConfig_default.
Proof.
  cbv zeta. split_and!; try reflexivity.
  change (max_file_size_bytes _)
    with (u64_wrap (u64_wrap (sandbox_upload_max_file_size_mb (static_server c) * 1024) * 1024)).
  generalize dependent (sandbox_upload_max_file_size_mb (static_server c)). intros size Hsize.
  unfold u64_wrap. rewrite (Z.mod_small (size * 1024)) by lia. rewrite Z.mod_small; lia.
Qed.

(** ** Witnesses *)

Module Witnesses.

Definition args0 : list (string * string) :=
  [("server.port", "9000"); ("log.level", "debug"); ("ssh.port", "many"); ("color", "on")].

Lemma merge_cli_args_spec_witness :
  merge_cli_args Config_default (rev args0) = merge_cli_args Config_default args0 ∧
  server_port (server (merge_cli_args Config_default args0)) = 9000 ∧
  log_level (logging (merge_cli_args Config_default args0)) = "debug".
Proof.
  split; [|by vm_compute].
  assert (NoDup args0.*1) as Hnd by (apply (bool_decide_unpack _); vm_compute; exact I).
  assert (¬ both_levels args0) as Hl.
  { intros [_ H]. cbn in H. repeat (apply elem_of_cons in H as [H|H]; [done|]).
    by apply elem_of_nil in H. }
  apply (merge_cli_args_spec args0 Config_default Hnd Hl), Permutation_rev.
Defined.

(** A small library: one file of variables, and no settings but the defaults. *)
Definition demo_config_lib : ConfigLib :=
  {| Settings := option string;
     dotenv_from_path path env := (Ok (), <["DSB_API_KEY" := "k"]> (<["HTTP_PROXY" := "p"]> env));
     canonicalize path := Ok path;
     build_settings yaml env :=
       match yaml with Some "bad.yaml" => Err "not YAML" | _ => Ok yaml end;
     try_deserialize _ := Ok Config_default |}.

Definition demo_fs : FileSystem :=
  mkFileSystem (Some ["home"; "dsb"]) (λ path, String.eqb path "/home/.env").

Lemma load_spec_witness :
  ∃ c, (load_with_cli_args (H := demo_config_lib) demo_fs (Some [("server.port", "9000")]) ∅).1
       = Ok c ∧ WellFormed c ∧ server_port (server c) = 9000 ∧
       server_api_key (server c) = Some "k" ∧ proxy_env (docker c) !! "HTTP_PROXY" = Some "p".
Proof.
  destruct (load_spec (H := demo_config_lib) demo_fs (Some [("server.port", "9000")])
              None None ∅) as (_ & [_ Hload] & _).
  destruct (load_with_cli_args (H := demo_config_lib) demo_fs _ ∅).1 as [c|e] eqn:E;
    [|vm_compute in E; discriminate E].
  destruct Hload as [[Hwf _] _]. exists c. split_and!; [done|done|..];
    vm_compute in E; injection E as <-; reflexivity.
Defined.

Lemma service_of_config_spec_witness :
  max_file_size_bytes (service_of_config Config_default) = 10485760.
Proof.
  assert (0 ≤ sandbox_upload_max_file_size_mb (static_server Config_default) < 2 ^ 44) as Hs
    by (vm_compute; done).
  by destruct (service_of_config_spec Config_default Hs) as (_ & _ & _ & _ & _ & _ & H & _).
Defined.

End Witnesses.
