(* ===== verification/Float64.v ===== *)
(** * Float64: the doubles of the statistics

    The type [f64]: the Standard Library's specification of IEEE 754 with 53
    bits of precision, rounding to nearest, and the bit pattern of a number. *)

From S2P Require Import Prelude.
From Stdlib Require Import SpecFloat.

Definition f64 : Type := spec_float.

(** [n as f64]. *)
Definition f64_of_Z (n : Z) : f64 := binary_normalize 53 1024 n 0 false.

Definition f64_mul : f64 → f64 → f64 := SFmul 53 1024.
Definition f64_div : f64 → f64 → f64 := SFdiv 53 1024.
Definition f64_add : f64 → f64 → f64 := SFadd 53 1024.
Definition f64_sub : f64 → f64 → f64 := SFsub 53 1024.
Definition f64_zero : f64 := S754_zero false.
Definition f64_ltb : f64 → f64 → bool := SFltb.

Definition sign_bit (s : bool) : Z := if s then 2 ^ 63 else 0.

(** [f64::to_bits]. *)
Definition f64_to_bits (x : f64) : Z :=
  match x with
  | S754_zero s => sign_bit s
  | S754_infinity s => sign_bit s + Z.shiftl 2047 52
  | S754_nan => Z.shiftl 2047 52 + 2 ^ 51
  | S754_finite s m e =>
      if Z.pos m <? 2 ^ 52 then sign_bit s + Z.pos m
      else sign_bit s + Z.shiftl (e + 1075) 52 + (Z.pos m - 2 ^ 52)
  end.

Example f64_half : f64_to_bits (f64_div (f64_of_Z 1) (f64_of_Z 2)) = 4602678819172646912.
Proof. vm_compute. done. Qed.

Example f64_percent :
  f64_to_bits (f64_mul (f64_div (f64_of_Z 1) (f64_of_Z 3)) (f64_of_Z 100)) = 4629888066921343658.
Proof. vm_compute. done. Qed.
