(* ===== verification/Kube.v ===== *)
(** * Kube: what a sandbox is on Kubernetes

    Models [src/k8s/types.rs], [src/k8s/crd.rs], [src/k8s/manager/helpers.rs]
    and the pure half of [src/k8s/manager/builders.rs]: names, the custom
    resource of a sandbox, and the pod and the service that are built from it.
    Of the Kubernetes objects there are the fields that the code sets or reads. *)

From S2P Require Import Prelude Text Paths Errors Types Store World Demo Service Config.
From Stdlib Require Import Ascii.

(** ** Names ([types.rs])

    An identifier is ASCII: lower case is that of ASCII. *)

Definition sandbox_resource_name (sandbox_id : string) : string :=
  to_ascii_lowercase (take_chars 63 ("dsb-sb-" +:+ sandbox_id)).

Definition sandbox_service_name (sandbox_id : string) : string :=
  to_ascii_lowercase (take_chars 63 ("dsb-svc-" +:+ sandbox_id)).

Definition TOOL_PROXY : Z := 8080.
Definition VNC : Z := 5901.
Definition NOVNC : Z := 6080.
Definition AGENT_BROWSER : Z := 3000.

Definition MANAGED_BY : string := "dsb.io/managed-by".
Definition SANDBOX_ID : string := "dsb.io/sandbox-id".
Definition COMPONENT : string := "dsb.io/component".

(** ** The custom resource ([crd.rs]) *)

Record PortSpec : Type := mkPortSpec {
  ps_container_port : Z;
  ps_protocol : string;
  ps_service_port : option Z;
}.

Record VolumeSpec : Type := mkVolumeSpec {
  vs_name : string;
  vs_mount_path : string;
  vs_volume_type : string;
  vs_source_name : option string;
  vs_read_only : bool;
}.

Record ResourceSpec : Type := mkResourceSpec {
  rs_cpu_request : option string;
  rs_memory_request : option string;
  rs_cpu_limit : option string;
  rs_memory_limit : option string;
}.

Record SandboxSpec : Type := mkSandboxSpec {
  spec_image : string;
  spec_env : gmap string string;
  spec_ports : list PortSpec;
  spec_volumes : list VolumeSpec;
  spec_resources : option ResourceSpec;
  spec_command : option (list string);
  spec_args : option (list string);
  spec_labels : gmap string string;
  spec_gpu : bool;
  spec_inactivity_timeout_minutes : option Z;
  spec_sandbox_id : string;
  spec_api_key_hash : option string;
  spec_has_dsb_features : bool;
}.

Record SandboxStatus : Type := mkSandboxStatus {
  st_phase : option string;
  st_pod_name : option string;
  st_service_name : option string;
  st_container_id : option string;
  st_node_name : option string;
  st_pod_ip : option string;
  st_message : option string;
}.

(** ** The Kubernetes objects *)

Record OwnerReference : Type := mkOwnerReference {
  or_api_version : string;
  or_kind : string;
  or_name : string;
  or_uid : string;
  or_controller : option bool;
  or_block_owner_deletion : option bool;
}.

Record ObjectMeta : Type := mkObjectMeta {
  om_name : option string;
  om_namespace : option string;
  om_labels : option (gmap string string);
  om_owner_references : option (list OwnerReference);
  om_uid : option string;
  om_creation_timestamp : option Z;
}.

Record SandboxCrd : Type := mkSandboxCrd {
  crd_metadata : ObjectMeta;
  crd_spec : SandboxSpec;
  crd_status : option SandboxStatus;
}.

Record ContainerPort : Type := mkContainerPort {
  cp_container_port : Z;
  cp_name : option string;
  cp_protocol : option string;
}.

Record EnvVar : Type := mkEnvVar { ev_name : string; ev_value : option string }.

Record ResourceRequirements : Type := mkResourceRequirements {
  rr_requests : option (gmap string string);
  rr_limits : option (gmap string string);
}.

(** A probe of an HTTP path. *)
Record Probe : Type := mkProbe {
  pr_path : string;
  pr_port : Z;
  pr_scheme : string;
  pr_initial_delay_seconds : Z;
  pr_period_seconds : Z;
  pr_timeout_seconds : Z;
  pr_failure_threshold : Z;
}.

Inductive VolumeSource : Type :=
  | PvcSource (claim_name : string) (read_only : bool)
  | ConfigMapSource (name : string)
  | SecretSource (name : string)
  | EmptyDirSource.

Record Volume : Type := mkVolume { vol_name : string; vol_source : VolumeSource }.

Record PodMount : Type := mkPodMount {
  pm_name : string;
  pm_path : string;
  pm_read_only : bool;
}.

Record Container : Type := mkContainer {
  ct_name : string;
  ct_image : option string;
  ct_image_pull_policy : option string;
  ct_command : option (list string);
  ct_args : option (list string);
  ct_ports : list ContainerPort;
  ct_env : list EnvVar;
  ct_resources : option ResourceRequirements;
  ct_readiness_probe : option Probe;
  ct_volume_mounts : option (list PodMount);
}.

Record Toleration : Type := mkToleration {
  tol_key : option string;
  tol_operator : option string;
  tol_value : option string;
  tol_effect : option string;
  tol_seconds : option Z;
}.

Record NodeSelectorRequirement : Type := mkNodeSelectorRequirement {
  nsr_key : string;
  nsr_operator : string;
  nsr_values : option (list string);
}.

Record PreferredSchedulingTerm : Type := mkPreferredSchedulingTerm {
  pst_weight : Z;
  pst_match_expressions : list NodeSelectorRequirement;
}.

(** [NodeAffinity], then [Affinity]: their fields are optional. *)
Definition NodeAffinity : Type := option (list PreferredSchedulingTerm).
Definition Affinity : Type := option NodeAffinity.

Record PodSpec : Type := mkPodSpec {
  p_containers : list Container;
  p_restart_policy : option string;
  p_fs_group : option Z;
  p_volumes : option (list Volume);
  p_node_selector : option (gmap string string);
  p_tolerations : option (list Toleration);
  p_affinity : option Affinity;
  p_node_name : option string;
}.

Record ContainerState : Type := mkContainerState {
  waiting : option (option string * option string);
  terminated : option (Z * option string);
}.

Record ContainerStatus : Type := mkContainerStatus {
  cs_name : string;
  cs_state : option ContainerState;
}.

Record PodCondition : Type := mkPodCondition {
  cond_type : string;
  cond_status : string;
  cond_reason : option string;
  cond_message : option string;
}.

Record PodStatus : Type := mkPodStatus {
  ps_phase : option string;
  ps_pod_ip : option string;
  ps_conditions : option (list PodCondition);
  ps_container_statuses : option (list ContainerStatus);
}.

Record Pod : Type := mkPod {
  pod_metadata : ObjectMeta;
  pod_spec : option PodSpec;
  pod_status : option PodStatus;
}.

Record ServicePort : Type := mkServicePort {
  sp_port : Z;
  sp_target_port : option Z;
  sp_protocol : option string;
  sp_name : option string;
}.

Record KService : Type := mkKService {
  svc_metadata : ObjectMeta;
  svc_selector : gmap string string;
  svc_ports : list ServicePort;
}.

(** ** Helpers ([helpers.rs]) *)

Definition merge_sandbox_environment (config : SandboxConfig) (proxy : gmap string string)
    : gmap string string := cfg_environment config ∪ proxy.

Definition proxy_vars : list string :=
  ["HTTP_PROXY"; "http_proxy"; "HTTPS_PROXY"; "https_proxy"; "ALL_PROXY"; "all_proxy"].

Definition CLUSTER_LOCAL_BYPASS : string :=
  "localhost,127.0.0.1,127.0.0.0/8,::1,.svc.cluster.local,.cluster.local".

(** One turn of the loop. *)
Definition bypass_key (env : gmap string string) (key : string) : gmap string string :=
  match env !! key with
  | Some existing =>
      if contains ".svc.cluster.local" existing then env
      else
        <[key := if is_empty (trim existing) then CLUSTER_LOCAL_BYPASS
                 else existing +:+ "," +:+ CLUSTER_LOCAL_BYPASS]> env
  | None => <[key := CLUSTER_LOCAL_BYPASS]> env
  end.

Definition using_proxy (env : gmap string string) : bool :=
  existsb (λ v, bool_decide (is_Some (env !! v))) proxy_vars.

Definition augment_no_proxy_for_kubernetes_cluster (env : gmap string string)
    : gmap string string :=
  if negb (using_proxy env) then env else fold_left bypass_key ["NO_PROXY"; "no_proxy"] env.

Definition make_service_port (name : string) (port : Z) : ServicePort :=
  mkServicePort port (Some port) (Some "TCP") (Some name).

Definition phase_to_state (phase : string) : string :=
  default "unknown"
    (match_str [("Pending", "created"); ("Running", "running"); ("Succeeded", "exited");
                ("Failed", "exited"); ("Unknown", "unknown")] phase).

(** ** Builders ([builders.rs]) *)

(** [serde_json::from_value] into a toleration. *)
Class TolerationLib := { toleration_from_value : Json → option Toleration }.

Section builders.
Context (config : Config).
#[local] Abbreviation k8s := (kubernetes (sandbox config)).

Definition port_spec (pm : PortMapping) : PortSpec :=
  mkPortSpec (Types.container_port pm)
    (match protocol pm with Tcp => "TCP" | Udp => "UDP" end) (Some (host_port pm)).

Definition resource_spec (rl : ResourceLimits) : option ResourceSpec :=
  if bool_decide (is_Some (memory_mb rl)) || bool_decide (is_Some (cpu_quota rl))
     || bool_decide (is_Some (cpu_shares rl)) then
    Some
      {| rs_cpu_request := option_map (λ _, "500m") (cpu_shares rl);
         rs_memory_request := option_map (λ m, Z_to_string m +:+ "Mi") (memory_mb rl);
         rs_cpu_limit := option_map (λ q, Z_to_string (Z.quot q 100) +:+ "m") (cpu_quota rl);
         rs_memory_limit := option_map (λ m, Z_to_string m +:+ "Mi") (memory_mb rl) |}
  else None.

Definition shared_volume : list VolumeSpec :=
  if is_empty (pvc_name k8s) then []
  else [mkVolumeSpec "static-files" "/public" "pvc" (Some (pvc_name k8s)) false].

Definition build_sandbox_spec (sandbox_id : string) (c : SandboxConfig) : SandboxSpec :=
  let merged_env :=
    augment_no_proxy_for_kubernetes_cluster
      (merge_sandbox_environment c (proxy_env (docker config))) in
  {| spec_image := cfg_image c;
     spec_env := merged_env;
     spec_ports := port_spec <$> cfg_port_mappings c;
     spec_volumes := shared_volume;
     spec_resources := resource_spec (cfg_resource_limits c);
     spec_command := cfg_command c;
     spec_args := None;
     spec_labels := ∅;
     spec_gpu := false;
     spec_inactivity_timeout_minutes := cfg_inactivity_timeout_minutes c;
     spec_sandbox_id := sandbox_id;
     spec_api_key_hash := None;
     spec_has_dsb_features :=
       cfg_enable_all_features c
       || existsb (λ f, existsb (String.eqb f) ["browser"; "web"; "databend"; "vnc"; "ssh"])
            (cfg_features c) |}.

Definition standard_ports : list ContainerPort :=
  [mkContainerPort TOOL_PROXY (Some "tool-proxy") None; mkContainerPort VNC (Some "vnc") None;
   mkContainerPort NOVNC (Some "novnc") None;
   mkContainerPort AGENT_BROWSER (Some "agent-browser") None].

Definition custom_port (p : PortSpec) : ContainerPort :=
  mkContainerPort (ps_container_port p) None (Some (ps_protocol p)).

Definition pod_env (spec : SandboxSpec) : list EnvVar :=
  (λ '(k, v), mkEnvVar k (Some v)) <$> map_to_list (spec_env spec).

Definition build_resource_requirements (spec : SandboxSpec) : ResourceRequirements :=
  let d := resource_defaults k8s in
  let get f dflt := default dflt (r ← spec_resources spec; f r) in
  {| rr_requests :=
       Some (<["memory" := get rs_memory_request (memory_request d)]>
               (<["cpu" := get rs_cpu_request (cpu_request d)]> ∅));
     rr_limits :=
       Some (<["memory" := get rs_memory_limit (memory_limit d)]>
               (<["cpu" := get rs_cpu_limit (cpu_limit d)]> ∅)) |}.

Definition selector_labels (sandbox_id : string) : gmap string string :=
  <[COMPONENT := "sandbox-pod"]> (<[SANDBOX_ID := sandbox_id]> (<[MANAGED_BY := "dsb"]> ∅)).

(** The labels of the specification are inserted last. *)
Definition pod_labels (spec : SandboxSpec) : gmap string string :=
  spec_labels spec ∪ selector_labels (spec_sandbox_id spec).

Definition owner_reference (crd_name crd_uid : string) : OwnerReference :=
  mkOwnerReference "dsb.io/v1" "Sandbox" crd_name crd_uid (Some true) (Some true).

Definition custom_entrypoint (spec : SandboxSpec) : bool :=
  match spec_command spec with Some (_ :: _) => true | _ => false end.

Definition is_dsb_image (spec : SandboxSpec) : bool :=
  spec_has_dsb_features spec || String.eqb (spec_image spec) (default_image (docker config)).

Definition readiness_probe (spec : SandboxSpec) : option Probe :=
  if negb (custom_entrypoint spec) && is_dsb_image spec
  then Some (mkProbe "/health" TOOL_PROXY "HTTP" 3 2 2 30) else None.

Definition pod_command (spec : SandboxSpec) : option (list string) :=
  if negb (custom_entrypoint spec) then
    if is_dsb_image spec then None else Some ["sleep"; "infinity"]
  else spec_command spec.

(** An unknown kind of volume is skipped. *)
Definition volume_source (vol : VolumeSpec) : option VolumeSource :=
  let source := default (vs_name vol) (vs_source_name vol) in
  match_str
    [("pvc", PvcSource source (vs_read_only vol)); ("configmap", ConfigMapSource source);
     ("secret", SecretSource source); ("emptydir", EmptyDirSource)] (vs_volume_type vol).

Definition pod_volume (vol : VolumeSpec) : option (Volume * PodMount) :=
  source ← volume_source vol;
  Some (mkVolume (vs_name vol) source,
        mkPodMount (vs_name vol) (vs_mount_path vol) (vs_read_only vol)).

Definition with_mounts (mounts : list PodMount) (c : Container) : Container :=
  mkContainer (ct_name c) (ct_image c) (ct_image_pull_policy c) (ct_command c) (ct_args c)
    (ct_ports c) (ct_env c) (ct_resources c) (ct_readiness_probe c) (Some mounts).

Definition with_resources (r : ResourceRequirements) (c : Container) : Container :=
  mkContainer (ct_name c) (ct_image c) (ct_image_pull_policy c) (ct_command c) (ct_args c)
    (ct_ports c) (ct_env c) (Some r) (ct_readiness_probe c) (ct_volume_mounts c).

(** [containers.first_mut()]. *)
Definition on_first (f : Container → Container) (p : PodSpec) : PodSpec :=
  mkPodSpec (match p_containers p with c :: cs => f c :: cs | [] => [] end)
    (p_restart_policy p) (p_fs_group p) (p_volumes p) (p_node_selector p) (p_tolerations p)
    (p_affinity p) (p_node_name p).

Definition mount_volumes (spec : SandboxSpec) (p : PodSpec) : PodSpec :=
  match omap pod_volume (spec_volumes spec) with
  | [] => p
  | vols =>
      on_first (with_mounts vols.*2)
        (mkPodSpec (p_containers p) (p_restart_policy p) (p_fs_group p) (Some vols.*1)
           (p_node_selector p) (p_tolerations p) (p_affinity p) (p_node_name p))
  end.

Definition set_node_selector (p : PodSpec) : PodSpec :=
  mkPodSpec (p_containers p) (p_restart_policy p) (p_fs_group p) (p_volumes p)
    (if bool_decide (node_selector k8s = ∅) then p_node_selector p else Some (node_selector k8s))
    (p_tolerations p) (p_affinity p) (p_node_name p).

Definition set_tolerations (t : option (list Toleration)) (p : PodSpec) : PodSpec :=
  mkPodSpec (p_containers p) (p_restart_policy p) (p_fs_group p) (p_volumes p)
    (p_node_selector p) t (p_affinity p) (p_node_name p).

Definition set_affinity (a : option Affinity) (p : PodSpec) : PodSpec :=
  mkPodSpec (p_containers p) (p_restart_policy p) (p_fs_group p) (p_volumes p)
    (p_node_selector p) (p_tolerations p) a (p_node_name p).

Context `{TolerationLib}.

(** A toleration that does not parse is skipped. *)
Definition config_tolerations (p : PodSpec) : PodSpec :=
  match tolerations k8s with
  | [] => p
  | l => set_tolerations (Some (omap toleration_from_value l)) p
  end.

Definition gpu_resources (r : ResourceRequirements) : ResourceRequirements :=
  let qty := gpu_resource_request (gpu k8s) in
  mkResourceRequirements
    (Some (<["nvidia.com/gpu" := qty]> (default ∅ (rr_requests r))))
    (Some (<["nvidia.com/gpu" := qty]> (default ∅ (rr_limits r)))).

Definition gpu_tolerations : list Toleration :=
  mkToleration (Some "nvidia.com/gpu") (Some "Exists") None (Some "NoSchedule") None
    :: omap toleration_from_value (gpu_node_tolerations (gpu k8s)).

Definition gpu_affinity : NodeAffinity :=
  Some [mkPreferredSchedulingTerm 100
          ((λ '(key, value), mkNodeSelectorRequirement key "In" (Some [value]))
             <$> map_to_list (gpu_node_selector (gpu k8s)))].

Definition merge_affinity (existing : option Affinity) : Affinity :=
  match existing with
  | Some (Some (Some pref)) => Some (Some (pref ++ default [] gpu_affinity))
  | Some (Some None) => Some None
  | Some None | None => Some gpu_affinity
  end.

Definition apply_gpu (spec : SandboxSpec) (p : PodSpec) : PodSpec :=
  if spec_gpu spec then
    let p := on_first (λ c, with_resources
      (gpu_resources (default (mkResourceRequirements None None) (ct_resources c))) c) p in
    let p := set_tolerations (Some (default [] (p_tolerations p) ++ gpu_tolerations)) p in
    if bool_decide (gpu_node_selector (gpu k8s) = ∅) then p
    else set_affinity (Some (merge_affinity (p_affinity p))) p
  else p.

Definition sandbox_container (spec : SandboxSpec) : Container :=
  {| ct_name := "sandbox";
     ct_image := Some (spec_image spec);
     ct_image_pull_policy := Some "Always";
     ct_command := pod_command spec;
     ct_args := spec_args spec;
     ct_ports := standard_ports ++ (custom_port <$> spec_ports spec);
     ct_env := pod_env spec;
     ct_resources := Some (build_resource_requirements spec);
     ct_readiness_probe := readiness_probe spec;
     ct_volume_mounts := None |}.

Definition build_pod (crd_name crd_uid : string) (spec : SandboxSpec) : Pod :=
  let p := mkPodSpec [sandbox_container spec] (Some "Never") (Some 1000) None None None None None in
  let p := apply_gpu spec (config_tolerations (set_node_selector (mount_volumes spec p))) in
  {| pod_metadata :=
       {| om_name := Some crd_name;
          om_namespace := Some (k8s_namespace k8s);
          om_labels := Some (pod_labels spec);
          om_owner_references := Some [owner_reference crd_name crd_uid];
          om_uid := None; om_creation_timestamp := None |};
     pod_spec := Some p;
     pod_status := None |}.

Definition build_service (crd_name crd_uid : string) (spec : SandboxSpec) : KService :=
  {| svc_metadata :=
       {| om_name := Some (sandbox_service_name (spec_sandbox_id spec));
          om_namespace := Some (k8s_namespace k8s);
          om_labels := None;
          om_owner_references := Some [owner_reference crd_name crd_uid];
          om_uid := None; om_creation_timestamp := None |};
     svc_selector := selector_labels (spec_sandbox_id spec);
     svc_ports := [make_service_port "tool-proxy" TOOL_PROXY; make_service_port "vnc" VNC;
                   make_service_port "novnc" NOVNC;
                   make_service_port "agent-browser" AGENT_BROWSER] |}.
End builders.

(** ** Theorems *)

(** *** Names *)

Lemma lowercase_continuation c : is_continuation (to_ascii_lowercase_char c) = is_continuation c.
Proof. destruct c as [[] [] [] [] [] [] [] []]; reflexivity. Qed.

Lemma lowercase_count s : char_count (to_ascii_lowercase s) = char_count s.
Proof. induction s as [|c s IH]; simpl; [done|]. by rewrite lowercase_continuation, IH. Qed.

Lemma lowercase_app a b :
  to_ascii_lowercase (a +:+ b) = to_ascii_lowercase a +:+ to_ascii_lowercase b.
Proof. induction a as [|c a IH]; simpl; congruence. Qed.

(** The text of an identifier: short, and in lower case already. *)
Definition plain_id (s : string) : Prop :=
  (char_count s ≤ 55)%nat ∧ to_ascii_lowercase s = s.

Lemma resource_name_plain s : plain_id s → sandbox_resource_name s = "dsb-sb-" +:+ s.
Proof.
  intros [Hlen Hlow]. unfold sandbox_resource_name.
  rewrite take_chars_all by (simpl; lia). by rewrite lowercase_app, Hlow.
Qed.

Lemma service_name_plain s : plain_id s → sandbox_service_name s = "dsb-svc-" +:+ s.
Proof.
  intros [Hlen Hlow]. unfold sandbox_service_name.
  rewrite take_chars_all by (simpl; lia). by rewrite lowercase_app, Hlow.
Qed.

(** *** The proxy's exceptions *)

Lemma bypass_key_other env key k : k ≠ key → bypass_key env key !! k = env !! k.
Proof.
  intros Hne. unfold bypass_key. repeat case_match; rewrite ?lookup_insert_ne by done; done.
Qed.

Lemma contains_app_r p l r : contains p r = true → contains p (l +:+ r) = true.
Proof.
  rewrite !contains_spec. intros (a & b & ->). exists (l +:+ a), b. by rewrite string_app_assoc.
Qed.

Lemma bypass_key_self env key :
  ∃ v, bypass_key env key !! key = Some v ∧ contains ".svc.cluster.local" v = true ∧
    (∀ old, env !! key = Some old → blank old = false → ∃ rest, v = old +:+ rest).
Proof.
  unfold bypass_key. destruct (env !! key) as [old|] eqn:E.
  - destruct (contains _ old) eqn:Ec.
    { exists old. split_and!; try done. intros ? [= <-] _. exists "". by rewrite string_app_nil. }
    rewrite lookup_insert_eq. eexists. split; [done|].
    destruct (is_empty (trim old)) eqn:Et.
    + split; [done|]. intros ? [= <-] Hb. destruct (trim old) eqn:Htrim; [|done].
      rewrite <-trim_blank, Htrim in Hb. done.
    + split; [by do 2 apply contains_app_r|]. intros ? [= <-] _. eauto.
  - exists CLUSTER_LOCAL_BYPASS. rewrite lookup_insert_eq. done.
Qed.

Lemma bypass_key_done env key v :
  env !! key = Some v → contains ".svc.cluster.local" v = true → bypass_key env key = env.
Proof. intros Hk Hv. unfold bypass_key. by rewrite Hk, Hv. Qed.

Lemma using_proxy_ext env env' :
  (∀ v, v ∈ proxy_vars → env !! v = env' !! v) → using_proxy env = using_proxy env'.
Proof.
  intros Heq. unfold using_proxy. unfold proxy_vars in *. simpl.
  do 6 (rewrite Heq by set_solver; f_equal).
Qed.

(** The proxy's exceptions.  Without a proxy the variables are untouched.
    With one, both spellings of the exceptions name the cluster's own domain,
    keeping whatever they said before; no other variable changes; and doing it
    again changes nothing. *)
Theorem augment_no_proxy_spec env :
  let env' := augment_no_proxy_for_kubernetes_cluster env in
  (using_proxy env = false → env' = env) ∧
  (∀ k, k ∉ ["NO_PROXY"; "no_proxy"] → env' !! k = env !! k) ∧
  (using_proxy env = true → ∀ key, key ∈ ["NO_PROXY"; "no_proxy"] →
     ∃ v, env' !! key = Some v ∧ contains ".svc.cluster.local" v = true ∧
       (∀ old, env !! key = Some old → blank old = false → ∃ rest, v = old +:+ rest)) ∧
  augment_no_proxy_for_kubernetes_cluster env' = env'.
Proof.
  cbv zeta. unfold augment_no_proxy_for_kubernetes_cluster at 1 2 3 5 6.
  destruct (using_proxy env) eqn:Eu; cbn [negb].
  2:{ split_and!; try done. unfold augment_no_proxy_for_kubernetes_cluster. by rewrite Eu. }
  cbn [fold_left]. set (e1 := bypass_key env "NO_PROXY"). set (e2 := bypass_key e1 "no_proxy").
  assert (∀ k, k ∉ ["NO_PROXY"; "no_proxy"] → e2 !! k = env !! k) as Hother.
  { intros k Hk. unfold e2, e1. rewrite !bypass_key_other by set_solver. done. }
  assert (e2 !! "NO_PROXY" = e1 !! "NO_PROXY") as H21 by (unfold e2; by rewrite bypass_key_other).
  destruct (bypass_key_self env "NO_PROXY") as (v1 & Hv1 & Hc1 & Hp1).
  destruct (bypass_key_self e1 "no_proxy") as (v2 & Hv2 & Hc2 & Hp2).
  split_and!; [done|done| |].
  - intros _ key [->|[->|[]%elem_of_nil]%elem_of_cons]%elem_of_cons.
    + exists v1. by rewrite H21.
    + exists v2. split_and!; [done|done|]. intros old Hold. apply Hp2. unfold e1.
      by rewrite bypass_key_other.
  - unfold augment_no_proxy_for_kubernetes_cluster.
    rewrite (using_proxy_ext e2 env), Eu; cbn [negb fold_left].
    + rewrite (bypass_key_done _ "NO_PROXY" v1), (bypass_key_done _ "no_proxy" v2); try done.
      by rewrite H21.
    + intros v Hv. apply Hother. unfold proxy_vars in Hv. clear -Hv. set_unfold. naive_solver.
Qed.

(** *** Pods and services *)

Section pods.
Context (config : Config) `{TolerationLib}.

(** A pod that the API server can take: one container, named as the code
    addresses it, that mounts declared volumes only, is probed on a port it
    declares, asks for what it is limited in, and is not restarted. *)
Record WellTyped (p : Pod) : Prop := {
  wt_name : is_Some (om_name (pod_metadata p));
  wt_container : ∃ spec c, pod_spec p = Some spec ∧ p_containers spec = [c] ∧
    ct_name c = "sandbox" ∧
    p_restart_policy spec = Some "Never" ∧
    (∀ m, m ∈ default [] (ct_volume_mounts c) →
       ∃ v, v ∈ default [] (p_volumes spec) ∧ vol_name v = pm_name m) ∧
    length (default [] (ct_volume_mounts c)) = length (default [] (p_volumes spec)) ∧
    (∀ pr, ct_readiness_probe c = Some pr → pr_port pr ∈ cp_container_port <$> ct_ports c) ∧
    (∃ req lim, ct_resources c = Some (mkResourceRequirements (Some req) (Some lim)) ∧
       dom req = dom lim ∧ is_Some (req !! "cpu") ∧ is_Some (req !! "memory")) ∧
    NoDup (ev_name <$> ct_env c);
}.

(** What building makes of the container and of the volumes. *)
Lemma build_pod_shape crd_name crd_uid spec :
  ∃ c p,
    pod_spec (build_pod config crd_name crd_uid spec) = Some p ∧ p_containers p = [c] ∧
    p_restart_policy p = Some "Never" ∧
    p_volumes p = match omap pod_volume (spec_volumes spec) with
                  | [] => None | vols => Some vols.*1 end ∧
    ct_volume_mounts c = match omap pod_volume (spec_volumes spec) with
                         | [] => None | vols => Some vols.*2 end ∧
    ct_name c = "sandbox" ∧ ct_image c = Some (spec_image spec) ∧
    ct_command c = pod_command config spec ∧ ct_args c = spec_args spec ∧
    ct_ports c = standard_ports ++ (custom_port <$> spec_ports spec) ∧
    ct_env c = pod_env spec ∧
    ct_readiness_probe c = readiness_probe config spec ∧
    ct_resources c = Some (if spec_gpu spec
      then gpu_resources config (build_resource_requirements config spec)
      else build_resource_requirements config spec).
Proof.
  unfold build_pod, apply_gpu, config_tolerations, set_node_selector, mount_volumes. cbn [pod_spec].
  destruct (omap pod_volume (spec_volumes spec)) as [|v vols];
    destruct (tolerations (kubernetes (sandbox config))); destruct (spec_gpu spec);
    try destruct (bool_decide (gpu_node_selector _ = ∅)); eexists _, _; split_and!; reflexivity.
Qed.

Lemma pod_volume_name vol v m : pod_volume vol = Some (v, m) → vol_name v = pm_name m.
Proof. unfold pod_volume. destruct (volume_source vol); simpl; [|done]. by intros [= <- <-]. Qed.

Lemma pod_volume_declared vols m :
  m ∈ (omap pod_volume vols).*2 →
  ∃ v, v ∈ (omap pod_volume vols).*1 ∧ vol_name v = pm_name m.
Proof.
  intros ([v m'] & -> & Hin)%list_elem_of_fmap. exists v. split.
  - apply list_elem_of_fmap. by exists (v, m').
  - apply list_elem_of_omap in Hin as (vol & _ & Hvol). by eapply pod_volume_name.
Qed.

Lemma pod_env_names spec : NoDup (ev_name <$> pod_env spec).
Proof.
  unfold pod_env. rewrite <-list_fmap_compose.
  rewrite (list_fmap_ext _ fst) by (by intros ? [k v]).
  apply NoDup_fst_map_to_list.
Qed.

Lemma build_pod_wt crd_name crd_uid spec : WellTyped (build_pod config crd_name crd_uid spec).
Proof.
  destruct (build_pod_shape crd_name crd_uid spec)
    as (c & p & Hp & Hcs & Hrestart & Hvols & Hmounts & Hname & Himage & Hcmd & Hargs & Hports
        & Henv & Hprobe & Hres).
  split; [done|]. exists p, c. split_and!; try done.
  - rewrite Hvols, Hmounts. intros m. destruct (omap pod_volume _) as [|v vols] eqn:E; [set_solver|].
    rewrite <-E. apply pod_volume_declared.
  - rewrite Hvols, Hmounts. destruct (omap pod_volume _); simpl; [done|]. by rewrite !length_fmap.
  - rewrite Hprobe, Hports. unfold readiness_probe. intros pr. destruct (negb _ && _); [|done].
    intros [= <-]. apply elem_of_cons. by left.
  - rewrite Hres. unfold gpu_resources, build_resource_requirements.
    destruct (spec_gpu spec); simpl; eexists _, _; split; try reflexivity;
      rewrite !dom_insert_L; (split; [done|]); rewrite ?lookup_insert_ne by done;
      rewrite ?lookup_insert_eq; rewrite ?lookup_insert_ne by done;
      rewrite ?lookup_insert_eq; by split; eexists.
  - rewrite Henv. apply pod_env_names.
Qed.


(** A service selects the pod of its sandbox: its selector is part of the
    pod's labels, unless the specification's own labels say otherwise; it routes
    the four standard ports to ports that the pod declares, under its own name. *)
Theorem service_selects_pod crd_name crd_uid spec
    (Hlabels : ∀ k, k ∈ [MANAGED_BY; SANDBOX_ID; COMPONENT] → spec_labels spec !! k = None) :
  let pod := build_pod config crd_name crd_uid spec in
  let svc := build_service config crd_name crd_uid spec in
  (∀ labels, om_labels (pod_metadata pod) = Some labels → svc_selector svc ⊆ labels) ∧
  om_namespace (svc_metadata svc) = om_namespace (pod_metadata pod) ∧
  om_owner_references (svc_metadata svc) = om_owner_references (pod_metadata pod) ∧
  (∀ sp, sp ∈ svc_ports svc → ∃ p c cp, pod_spec pod = Some p ∧ c ∈ p_containers p ∧
     cp ∈ ct_ports c ∧ sp_target_port sp = Some (cp_container_port cp) ∧
     sp_name sp = cp_name cp).
Proof.
  cbv zeta. split_and!; [|done|done|].
  - intros labels [= <-]. unfold pod_labels. cbn [svc_selector build_service].
    apply map_subseteq_spec. intros k v Hk.
    apply lookup_union_Some_raw. right. split; [|done]. apply Hlabels.
    unfold selector_labels in Hk. apply lookup_insert_Some in Hk as [[<- _]|[_ Hk]]; [set_solver|].
    apply lookup_insert_Some in Hk as [[<- _]|[_ Hk]]; [set_solver|].
    apply lookup_insert_Some in Hk as [[<- _]|[_ Hk]]; [set_solver|done].
  - intros sp Hsp. destruct (build_pod_shape crd_name crd_uid spec)
      as (c & p & Hp & Hcs & _ & _ & _ & _ & _ & _ & _ & Hports & _).
    cbn [svc_ports build_service] in Hsp.
    assert (∃ cp, cp ∈ standard_ports ∧ sp_target_port sp = Some (cp_container_port cp) ∧
      sp_name sp = cp_name cp) as (cp & Hcp & Ht & Hn).
    { set_unfold. destruct Hsp as [->|[->|[->|[->|[]]]]]; unfold standard_ports;
        [exists (mkContainerPort TOOL_PROXY (Some "tool-proxy") None)
        |exists (mkContainerPort VNC (Some "vnc") None)
        |exists (mkContainerPort NOVNC (Some "novnc") None)
        |exists (mkContainerPort AGENT_BROWSER (Some "agent-browser") None)];
        (split; [set_solver|done]). }
    exists p, c, cp. rewrite Hports, Hcs. set_solver.
Qed.

(** From a requested configuration to the container.  The request's
    variables win over the proxy settings; the command is the request's, or the
    image's own for an image of ours, or one that keeps a plain image alive; the
    probe is there exactly when the image's own command runs one; and the
    container mounts the shared volume, when there is one, and nothing else: the
    volumes of the request are not mounted. *)
Theorem requested_container id (c : SandboxConfig) crd_name crd_uid :
  let spec := build_sandbox_spec config id c in
  (∀ k v, cfg_environment c !! k = Some v → k ∉ ["NO_PROXY"; "no_proxy"] →
     spec_env spec !! k = Some v) ∧
  (∀ k, k ∈ [MANAGED_BY; SANDBOX_ID; COMPONENT] → spec_labels spec !! k = None) ∧
  ∃ p ct, pod_spec (build_pod config crd_name crd_uid spec) = Some p ∧ p_containers p = [ct] ∧
    ct_command ct =
      match cfg_command c with
      | Some (x :: l) => Some (x :: l)
      | _ => if spec_has_dsb_features spec || String.eqb (cfg_image c) (default_image (docker config))
             then None else Some ["sleep"; "infinity"]
      end ∧
    (is_Some (ct_readiness_probe ct) ↔
       (cfg_command c = None ∨ cfg_command c = Some []) ∧ ct_command ct = None) ∧
    pm_path <$> default [] (ct_volume_mounts ct)
    = (if is_empty (pvc_name (kubernetes (sandbox config))) then [] else ["/public"]).
Proof.
  cbv zeta. split_and!; [|done|].
  - intros k v Hk Hno. cbn [spec_env build_sandbox_spec].
    destruct (augment_no_proxy_spec (merge_sandbox_environment c (proxy_env (docker config))))
      as (_ & Hother & _).
    rewrite Hother by done. unfold merge_sandbox_environment. by apply lookup_union_Some_l.
  - destruct (build_pod_shape crd_name crd_uid (build_sandbox_spec config id c))
      as (ct & p & Hp & Hcs & _ & _ & Hmounts & _ & _ & Hcmd & _ & _ & _ & Hprobe & _).
    exists p, ct. split_and!; [done|done| | |].
    + rewrite Hcmd. unfold pod_command, custom_entrypoint, is_dsb_image.
      cbn [spec_command spec_image build_sandbox_spec]. by destruct (cfg_command c) as [[|x l]|].
    + rewrite Hprobe, Hcmd. unfold readiness_probe, pod_command, custom_entrypoint.
      cbn [spec_command build_sandbox_spec].
      destruct (cfg_command c) as [[|x l]|], (is_dsb_image config _); simpl; rewrite ?is_Some_alt;
        naive_solver.
    + rewrite Hmounts. cbn [spec_volumes build_sandbox_spec]. unfold shared_volume.
      by destruct (is_empty _).
Qed.
End pods.

(** Names of the resources.  Every name fits in 63 characters.  For the
    identifiers in use, which are short and in lower case, the name of the pod
    gives the identifier back, as the status updates rely on; two sandboxes never
    share a name; and a pod's name is never a service's. *)
Theorem resource_names_spec id :
  (char_count (sandbox_resource_name id) ≤ 63)%nat ∧
  (char_count (sandbox_service_name id) ≤ 63)%nat ∧
  (plain_id id → strip_prefix "dsb-sb-" (sandbox_resource_name id) = Some id) ∧
  (∀ id', plain_id id → plain_id id' →
     (sandbox_resource_name id = sandbox_resource_name id' → id = id') ∧
     (sandbox_service_name id = sandbox_service_name id' → id = id') ∧
     sandbox_resource_name id ≠ sandbox_service_name id').
Proof.
  unfold sandbox_resource_name at 1, sandbox_service_name at 1. rewrite !lowercase_count.
  split_and!; [apply take_chars_count|apply take_chars_count| |].
  - intros Hid. rewrite resource_name_plain by done. by apply strip_prefix_Some.
  - intros id' H1 H2. rewrite !resource_name_plain, !service_name_plain by done.
    split_and!; simpl; [by intros [=]|by intros [=]|done].
Qed.

(** ** Witnesses *)

Module Witnesses.

#[local] Instance tolerations_lib : TolerationLib := {| toleration_from_value _ := None |}.

Lemma service_selects_pod_witness :
  let spec := build_sandbox_spec Config_default "7" SandboxConfig_default in
  ∀ labels,
    om_labels (pod_metadata (build_pod Config_default "dsb-sb-7" "u" spec)) = Some labels →
    svc_selector (build_service Config_default "dsb-sb-7" "u" spec) ⊆ labels.
Proof.
  intros spec.
  assert (∀ k, k ∈ [MANAGED_BY; SANDBOX_ID; COMPONENT] → spec_labels spec !! k = None) as Hl
    by (intros k _; reflexivity).
  exact (proj1 (service_selects_pod Config_default "dsb-sb-7" "u" spec Hl)).
Defined.

End Witnesses.
