(* ===== verification/KubeBackend.v ===== *)
(** * KubeBackend: the Kubernetes backend and its operator

    Models [src/k8s/manager/mod.rs] (the methods of [SandboxManager]), the
    waiting loops, the status updates and the error mapping of
    [src/k8s/manager/builders.rs], [src/k8s/manager/exec.rs] but for the
    interactive terminal, and [src/k8s/operator.rs].  The API server, the HTTP
    client and the clocks are parameters. *)

From S2P Require Import Prelude Text Paths Errors Types Store World Demo Service Config Float64 Kube.
From Stdlib Require Import Ascii.

(** ** The clients *)

Inductive KubeError : Type :=
  | KubeApi (code : Z) (message : string)
  | KubeOther (text : string).

#[global] Instance KubeError_eq_dec : EqDecision KubeError.
Proof. solve_decision. Defined.

Definition is_not_found (e : KubeError) : bool :=
  match e with KubeApi code _ => code =? 404 | KubeOther _ => false end.

Definition is_conflict (e : KubeError) : bool :=
  match e with KubeApi code _ => code =? 409 | KubeOther _ => false end.

(** What an HTTP exchange gives once it gives something; the body may fail to
    arrive. *)
Record HttpResponse : Type := mkHttpResponse {
  hr_status : Z;
  hr_status_text : string;
  hr_body : Result string string;
}.

Inductive Joined : Type := JoinOk | JoinError | JoinTimeout.

Abbreviation KResult A := (Result A KubeError).

(** The API of one namespace ([kube::Api]), a process attached to a pod, the
    HTTP client ([reqwest]), the clocks and the random identifiers. *)
Class KubeClient (K : Type) := {
  kube_error_to_string : KubeError → string;
  pods_get : string → M K (KResult Pod);
  pods_create : Pod → M K (KResult ());
  pods_delete : string → M K (KResult ());
  pods_list : string → M K (KResult (list Pod));
  services_create : KService → M K (KResult ());
  services_delete : string → M K (KResult ());
  crds_get : string → M K (KResult SandboxCrd);
  crds_create : string → SandboxSpec → M K (KResult ());
  crds_delete : string → M K (KResult ());
  crds_patch_status : string → SandboxStatus → M K (KResult ());
  pvcs_delete : string → M K (KResult ());
  Attached : Type;
  pods_attach : string → list string → bool → M K (KResult Attached);
  stdin_write_all : Attached → string → M K (Result () string);
  stdin_flush : Attached → M K (Result () string);
  stdin_shutdown : Attached → M K (Result () string);
  read_stdout : Attached → M K string;
  read_stderr : Attached → M K string;
  join_process : Attached → option Z → M K Joined;
  http_client_build : Z → Result () string;
  http_request : string → string → option Json → Z → M K (Result HttpResponse string);
  json_from_str : string → Result Json string;
  k_sleep_ms : Z → M K ();
  k_instant : M K Z;
  k_utc_now : M K DateTime;
  k_new_v4 : M K Uuid;
}.

Section manager.
Context {K : Type} `{KubeClient K} `{UuidLib} `{TolerationLib}.
Context (config : Config).

(** ** Errors and status updates ([builders.rs]) *)

Definition map_kube_error (err : KubeError) (context : string) : ManagerError :=
  match err with
  | KubeApi code message =>
      if code =? 404 then
        ManagerNotFound (context +:+ ": resource not found - " +:+ message)
      else if code =? 409 then
        ManagerConflict (context +:+ ": resource already exists - " +:+ message)
      else if (code =? 408) || (code =? 429) then
        ManagerTimeout (context +:+ ": request timeout/rate limited - " +:+ message)
      else
        ManagerApi (context +:+ ": K8s API error (" +:+ Z_to_string code +:+ "): " +:+ message)
  | KubeOther _ => ManagerApi (context +:+ ": " +:+ kube_error_to_string err)
  end.

Definition mapped {A} (context : string) (m : M K (KResult A)) : M K (ManagerResult A) :=
  r ← m; mret (result_map_err (λ e, map_kube_error e context) r).

(** The identifier is read off the name of the resource. *)
Definition status_of (crd_name phase : string) (node_name pod_ip : option string)
    : SandboxStatus :=
  let sandbox_id := default crd_name (strip_prefix "dsb-sb-" crd_name) in
  {| st_phase := Some phase;
     st_pod_name := Some (sandbox_resource_name sandbox_id);
     st_service_name := Some (sandbox_service_name sandbox_id);
     st_container_id := None; st_node_name := node_name; st_pod_ip := pod_ip;
     st_message := None |}.

Definition update_status (crd_name phase : string) : M K (ManagerResult ()) :=
  r ← crds_patch_status crd_name (status_of crd_name phase None None);
  mret (result_map_err
          (λ e, ManagerApi ("Failed to update status: " +:+ kube_error_to_string e)) r).

Definition pod_phase (pod : Pod) : option string := st ← pod_status pod; ps_phase st.

Definition pod_running (pod : Pod) : bool :=
  match pod_phase pod with Some phase => String.eqb phase "Running" | None => false end.

(** ** Waiting for a pod ([builders.rs]) *)

Definition format_pod_scheduling_diagnostic (pod : Pod) : string :=
  let parts :=
    match pod_status pod with
    | Some st =>
        match ps_phase st with Some phase => ["phase=" +:+ phase] | None => [] end
        ++ ((λ c, "cond " +:+ cond_type c +:+ "=" +:+ cond_status c +:+ " reason="
                    +:+ debug_opt (cond_reason c) +:+ " msg=" +:+ debug_opt (cond_message c))
              <$> default [] (ps_conditions st))
        ++ omap (λ cs,
             state ← cs_state cs;
             '(reason, message) ← waiting state;
             Some ("container " +:+ debug_str (cs_name cs) +:+ " waiting " +:+ debug_opt reason +:+ ": "
                     +:+ debug_opt message)) (default [] (ps_container_statuses st))
    | None => []
    end in
  if is_nil parts then "(no pod.status yet)" else join "; " parts.

Definition failed_waits : list string := ["ImagePullBackOff"; "ErrImagePull"; "CrashLoopBackOff"].

(** What one look at the status decides, if anything. *)
Definition first_state (status : PodStatus) : option ContainerState :=
  css ← ps_container_statuses status;
  cs ← head css;
  cs_state cs.

Definition wait_verdict (pod_name : string) (status : PodStatus) : option (ManagerResult ()) :=
  let by_state :=
    state ← first_state status;
    match waiting state with
    | Some (reason, message) =>
        let reason := default "Unknown" reason in
        if existsb (String.eqb reason) failed_waits then
          Some (Err (ManagerOperationFailed
            ("Pod " +:+ pod_name +:+ " failed: " +:+ reason +:+ " - "
               +:+ default "no message" message)))
        else None
    | None => None
    end in
  let by_exit :=
    state ← first_state status;
    '(exit_code, _) ← terminated state;
    Some (if bool_decide (exit_code ≠ 0) then
            Err (ManagerOperationFailed
              ("Pod " +:+ pod_name +:+ " terminated with exit code " +:+ Z_to_string exit_code))
          else Ok ()) in
  let ready :=
    existsb (λ c, String.eqb (cond_type c) "Ready" && String.eqb (cond_status c) "True")
      (default [] (ps_conditions status)) in
  match by_state, by_exit with
  | Some r, _ => Some r
  | None, Some r => Some r
  | None, None => if ready then Some (Ok ()) else None
  end.

Definition pod_timeout_secs : Z := pod_ready_timeout_secs (kubernetes (sandbox config)).

(** The loop; [None] when the fuel runs out. *)
Fixpoint wait_loop (fuel : nat) (start : Z) (pod_name : string) : M K (option (ManagerResult ())) :=
  match fuel with
  | O => mret None
  | S fuel' =>
      now ← k_instant;
      if bool_decide (pod_timeout_secs * ns_per_sec < now - start) then
        r ← pods_get pod_name;
        let detail :=
          match r with
          | Ok pod => format_pod_scheduling_diagnostic pod
          | Err e => "(could not re-fetch pod: " +:+ kube_error_to_string e +:+ ")"
          end in
        mret (Some (Err (ManagerTimeout
          ("Pod " +:+ pod_name +:+ " not ready within " +:+ Z_to_string pod_timeout_secs
             +:+ " seconds. " +:+ detail))))
      else
        r ← pods_get pod_name;
        match r with
        | Err e =>
            if is_not_found e then (_ ← k_sleep_ms 2000; wait_loop fuel' start pod_name)
            else mret (Some (Err (ManagerApi
                   ("Failed to get pod status: " +:+ kube_error_to_string e))))
        | Ok pod =>
            match (st ← pod_status pod; wait_verdict pod_name st) with
            | Some verdict => mret (Some verdict)
            | None => _ ← k_sleep_ms 2000; wait_loop fuel' start pod_name
            end
        end
  end.

(** Every turn sleeps for two seconds, so there are at most as many turns as
    fit before the timeout, and two. *)
Definition wait_fuel : nat := (Z.to_nat (pod_timeout_secs / 2) + 2)%nat.

Definition wait_for_pod_ready (pod_name : string) : M K (ManagerResult ()) :=
  start ← k_instant;
  r ← wait_loop wait_fuel start pod_name;
  mret (default (Err (ManagerTimeout "")) r).

Definition success (status : Z) : bool := (200 <=? status) && (status <=? 299).

Definition sandbox_url (sandbox_id : string) (port : Z) (path : string) : string :=
  "http://" +:+ sandbox_service_name sandbox_id +:+ "."
    +:+ k8s_namespace (kubernetes (sandbox config)) +:+ ".svc.cluster.local:"
    +:+ Z_to_string port +:+ path.

Definition tool_proxy_healthy (r : Result HttpResponse string) : bool :=
  match r with
  | Ok resp =>
      success (hr_status resp) &&
      match hr_body resp with
      | Ok text =>
          match json_from_str text with
          | Ok body =>
              match v ← json_get "status" body; json_as_str v with
              | Some s => String.eqb s "healthy"
              | None => false
              end
          | Err _ => false
          end
      | Err _ => false
      end
  | Err _ => false
  end.

Fixpoint health_attempts (sandbox_id url : string) (left : nat) : M K (ManagerResult ()) :=
  r ← http_request "GET" url None 2;
  if tool_proxy_healthy r then mret (Ok ())
  else
    match left with
    | O => mret (Err (ManagerTimeout
             ("Sandbox " +:+ sandbox_id
                +:+ " tool_proxy did not respond healthy on GET /health within 30 attempts (~15000 ms)")))
    | S left' => _ ← k_sleep_ms 500; health_attempts sandbox_id url left'
    end.

(** Thirty attempts: one, and 29 more. *)
Definition wait_for_sandbox_tool_proxy (sandbox_id : string) : M K (ManagerResult ()) :=
  match http_client_build 2 with
  | Err e => mret (Err (ManagerApi ("Failed to create HTTP client: " +:+ e)))
  | Ok _ => health_attempts sandbox_id (sandbox_url sandbox_id TOOL_PROXY "/health") 29
  end.

(** ** Commands in a pod ([exec.rs]) *)

Definition op_failed {A} (text : string) : ManagerResult A := Err (ManagerOperationFailed text).

Definition get_pod (pod_name : string) : M K (ManagerResult Pod) :=
  r ← pods_get pod_name;
  mret (result_map_err (λ e,
    if is_not_found e then ManagerNotFound ("Pod: " +:+ pod_name)
    else ManagerApi ("Failed to get pod: " +:+ kube_error_to_string e)) r).

Definition write_stdin (attached : Attached) (data : string) : M K (ManagerResult ()) :=
  let op text m := r ← m; mret (result_map_err (λ e, ManagerOperationFailed (text +:+ e)) r) in
  let* _ := op "Failed to write stdin: " (stdin_write_all attached data) in
  let* _ := op "Failed to flush stdin: " (stdin_flush attached) in
  op "Failed to shutdown stdin: " (stdin_shutdown attached).

(** The outputs are read to their ends before the process is joined. *)
Definition exec_in_pod (pod_name : string) (cmd : list string) (stdin : option string)
    (timeout_secs : option Z) : M K (ManagerResult ExecCommandResult) :=
  let* pod := get_pod pod_name in
  if negb (pod_running pod) then mret (op_failed ("Pod " +:+ pod_name +:+ " is not running"))
  else
    let* attached :=
      r ← pods_attach pod_name cmd (bool_decide (is_Some stdin));
      mret (result_map_err (λ e,
        ManagerOperationFailed ("Exec failed: " +:+ kube_error_to_string e)) r) in
    let* _ :=
      match stdin with Some data => write_stdin attached data | None => mret (Ok ()) end in
    stdout_output ← read_stdout attached;
    stderr_output ← read_stderr attached;
    joined ← join_process attached timeout_secs;
    mret (match joined, timeout_secs with
          | JoinTimeout, Some secs =>
              Err (ManagerTimeout
                ("Command timed out after " +:+ Z_to_string secs +:+ " seconds"))
          | JoinOk, _ => Ok (mkExecCommandResult (stdout_output +:+ stderr_output) 0)
          | _, _ => Ok (mkExecCommandResult (stdout_output +:+ stderr_output) 1)
          end).

(** ** The methods of the trait ([mod.rs]) *)

Definition create (sandbox_id : option Uuid) (c : SandboxConfig) : M K (ManagerResult string) :=
  id ← match sandbox_id with
       | Some u => mret (uuid_to_string u)
       | None => u ← k_new_v4; mret (uuid_to_string u)
       end;
  let* _ := mapped "create_crd"
    (crds_create (sandbox_resource_name id) (build_sandbox_spec config id c)) in
  mret (Ok id).

Definition start (id : string) : M K (ManagerResult ()) :=
  let crd_name := sandbox_resource_name id in
  let* _ := wait_for_pod_ready crd_name in
  let* sb :=
    r ← crds_get crd_name;
    mret (result_map_err (λ e,
      ManagerApi ("Failed to get CRD " +:+ crd_name +:+ " for tool_proxy check: "
                    +:+ kube_error_to_string e)) r) in
  let* _ :=
    if negb (custom_entrypoint (crd_spec sb)) && is_dsb_image config (crd_spec sb)
    then wait_for_sandbox_tool_proxy id else mret (Ok ()) in
  update_status crd_name "Running".

(** The failures of the two deletions are only logged. *)
Definition remove_resources (id : string) : M K () :=
  _ ← pods_delete (sandbox_resource_name id);
  _ ← services_delete (sandbox_service_name id);
  mret ().

Definition stop (id : string) : M K (ManagerResult ()) :=
  let* _ := update_status (sandbox_resource_name id) "Stopped" in
  _ ← remove_resources id;
  mret (Ok ()).

Definition delete (id : string) : M K (ManagerResult ()) :=
  _ ← remove_resources id;
  mapped "delete_crd" (crds_delete (sandbox_resource_name id)).

Definition exec_with_stdin_result (id : string) (cmd : list string) (stdin : option string)
    (timeout_secs : option Z) : M K (ManagerResult ExecCommandResult) :=
  exec_in_pod (sandbox_resource_name id) cmd stdin timeout_secs.

Definition exec_with_stdin (id : string) (cmd : list string) (stdin : option string)
    (timeout_secs : option Z) : M K (ManagerResult string) :=
  let* result := exec_in_pod (sandbox_resource_name id) cmd stdin timeout_secs in
  mret (Ok (exec_output result)).

Definition exec (id : string) (cmd : list string) : M K (ManagerResult string) :=
  exec_with_stdin id cmd None None.

Definition MEM_USAGE_COMMAND : string :=
  "cat /sys/fs/cgroup/memory.current 2>/dev/null || cat /sys/fs/cgroup/memory/memory.usage_in_bytes 2>/dev/null || echo 0".
Definition MEM_LIMIT_COMMAND : string :=
  "cat /sys/fs/cgroup/memory.max 2>/dev/null || cat /sys/fs/cgroup/memory/memory.limit_in_bytes 2>/dev/null || echo 0".

Definition parse_bytes (output : string) : Z :=
  default 0 (parse_u64 (trim_end_matches newline (trim output))).

Definition read_stat (id command : string) : M K string :=
  r ← exec id ["sh"; "-c"; command];
  mret (result_unwrap_or "0" r).

Definition memory_stats (mem_usage_bytes mem_limit_bytes : Z) (now : DateTime) : ContainerStats :=
  let mib := 1024 * 1024 in
  {| cpu_percent := f64_to_bits f64_zero;
     memory_usage_mb := mem_usage_bytes / mib;
     memory_limit_mb := if 0 <? mem_limit_bytes then mem_limit_bytes / mib else 0;
     memory_percent :=
       f64_to_bits
         (if (0 <? mem_limit_bytes) && (0 <? mem_usage_bytes) then
            f64_mul (f64_div (f64_of_Z mem_usage_bytes) (f64_of_Z mem_limit_bytes)) (f64_of_Z 100)
          else f64_zero);
     network_rx_bytes := 0; network_tx_bytes := 0; block_read_bytes := 0;
     block_write_bytes := 0; stats_timestamp := now |}.

Definition stats (id : string) : M K (ManagerResult ContainerStats) :=
  mem_usage_output ← read_stat id MEM_USAGE_COMMAND;
  mem_limit_output ← read_stat id MEM_LIMIT_COMMAND;
  let mem_limit_bytes :=
    if String.eqb (trim mem_limit_output) "max" then 0 else parse_bytes mem_limit_output in
  now ← k_utc_now;
  mret (Ok (memory_stats (parse_bytes mem_usage_output) mem_limit_bytes now)).

Definition is_running (id : string) : M K (ManagerResult bool) :=
  let* pod := mapped "is_running" (pods_get (sandbox_resource_name id)) in
  mret (Ok (pod_running pod)).

Definition get_exit_info (id : string) : M K (ManagerResult (Z * bool)) :=
  let* pod := mapped "get_exit_info" (pods_get (sandbox_resource_name id)) in
  mret (Ok (default (0, false)
    (status ← pod_status pod;
     state ← first_state status;
     '(exit_code, reason) ← terminated state;
     Some (exit_code, bool_decide (reason = Some "OOMKilled"))))).

Definition get_workdir (id : string) : M K (ManagerResult string) := mret (Ok "/workspace").

Definition pod_info (pod : Pod) : SandboxInfo :=
  let phase := default "Unknown" (pod_phase pod) in
  let labels := default ∅ (om_labels (pod_metadata pod)) in
  {| info_id := default "" (labels !! SANDBOX_ID);
     info_name := om_name (pod_metadata pod);
     info_image := (s ← pod_spec pod; c ← head (p_containers s); ct_image c);
     info_state := Some (phase_to_state phase);
     info_status := Some phase;
     info_created := om_creation_timestamp (pod_metadata pod);
     info_ports := [];
     info_labels := labels;
     info_node_name := (s ← pod_spec pod; p_node_name s);
     info_pod_ip := (s ← pod_status pod; ps_pod_ip s) |}.

Definition list_all (all : bool) : M K (ManagerResult (list SandboxInfo)) :=
  let* pod_list := mapped "list" (pods_list (MANAGED_BY +:+ "=dsb")) in
  mret (Ok (pod_info <$> List.filter (λ pod,
    all || String.eqb (default "Unknown" (pod_phase pod)) "Running") pod_list)).

Definition remove_volume (name : string) : M K (ManagerResult ()) :=
  mapped "delete_pvc" (pvcs_delete name).

Definition not_supported {A} (text : string) : M K (ManagerResult A) :=
  mret (Err (ManagerNotSupported text)).

Definition get_image_features (image : string) : M K (ManagerResult ImageDetails) :=
  not_supported "Image feature detection is not supported on Kubernetes backend. Use Docker backend for feature detection.".

Definition list_images : M K (ManagerResult (list ImageSummary)) := mret (Ok []).

Definition pull_image (image : string) : M K (ManagerResult ()) :=
  not_supported ("Image pulling is not supported on Kubernetes. Images must be pre-pulled via DaemonSet. Image: " +:+ image).

(** The callback is never called. *)
Definition pull_image_with_progress (image : string)
    : M K (list (string * option Z * option Z) * ManagerResult ()) :=
  r ← pull_image image; mret ([], r).

Definition delete_image (id : string) : M K (ManagerResult ()) :=
  not_supported ("Image deletion is not supported on Kubernetes. Image lifecycle is managed by DaemonSet. Image: " +:+ id).

Definition image_exists (image : string) : M K (ManagerResult bool) := mret (Ok true).

(** *** HTTP *)

(** The text of an error is ASCII: lower case is that of ASCII. *)
Definition is_transient_sandbox_http_error (msg : string) : bool :=
  let m := to_ascii_lowercase msg in
  existsb (λ p, contains p m)
    ["error sending request"; "connection refused"; "connection reset"; "broken pipe"; "timed out";
     "timeout"; "dns"; "hyper::"].

Definition http_send (method url : string) (body : option Json) (timeout : Z)
    : M K (Result HttpResponse string) :=
  if existsb (String.eqb method) ["POST"; "PUT"; "PATCH"] then
    http_request method url (Some (default JNull body)) timeout
  else if String.eqb method "DELETE" then http_request "DELETE" url None timeout
  else http_request "GET" url None timeout.

Definition MAX_ATTEMPTS : nat := 12.

Definition backoff_ms (attempt : nat) : Z :=
  Z.min (100 * Z.shiftl 1 (Z.min (Z.of_nat attempt - 1) 5)) 2000.

Definition http_outcome (resp : HttpResponse) : ManagerResult Json :=
  let? body_text :=
    result_map_err (λ e, ManagerApi ("Failed to read sandbox HTTP body: " +:+ e)) (hr_body resp) in
  if negb (success (hr_status resp)) then
    Err (ManagerApi ("HTTP request to sandbox returned " +:+ hr_status_text resp +:+ ": "
                       +:+ take_chars 500 body_text))
  else
    result_map_err (λ e,
      ManagerApi ("Failed to parse sandbox HTTP response as JSON: " +:+ e +:+ " (body starts: "
                    +:+ take_chars 200 body_text +:+ ")")) (json_from_str body_text).

(** [left] attempts remain after this one. *)
Fixpoint http_attempts (method url : string) (body : option Json) (timeout : Z) (left : nat)
    : M K (ManagerResult Json) :=
  r ← http_send method url body timeout;
  match r with
  | Ok resp => mret (http_outcome resp)
  | Err msg =>
      match left with
      | S left' =>
          if is_transient_sandbox_http_error msg then
            _ ← k_sleep_ms (backoff_ms (MAX_ATTEMPTS - left));
            http_attempts method url body timeout left'
          else mret (Err (ManagerApi ("HTTP request to sandbox failed: " +:+ msg)))
      | O => mret (Err (ManagerApi ("HTTP request to sandbox failed: " +:+ msg)))
      end
  end.

Definition exec_http (id path method : string) (body : option Json) (timeout_secs : option Z)
    : M K (ManagerResult Json) :=
  let timeout := default 30 timeout_secs in
  match http_client_build timeout with
  | Err e => mret (Err (ManagerApi ("Failed to create HTTP client: " +:+ e)))
  | Ok _ =>
      http_attempts method (sandbox_url id TOOL_PROXY path) body timeout (MAX_ATTEMPTS - 1)
  end.

(** *** Files, addresses, status *)

Definition upload_archive (id path tar_data : string) : M K (ManagerResult ()) :=
  if existsb (λ p, contains p path) [".."; ";"; "&"; "|"] then
    mret (op_failed "Invalid path: contains forbidden characters")
  else
    let pod_name := sandbox_resource_name id in
    let* result :=
      exec_in_pod pod_name ["sh"; "-c"; "sudo tar -xf - -C '" +:+ path +:+ "'"] (Some tar_data)
        (Some 120) in
    if bool_decide (exec_exit_code result ≠ 0) then
      mret (op_failed
        ("Failed to extract tar archive in pod " +:+ pod_name +:+ ": exit code "
           +:+ Z_to_string (exec_exit_code result) +:+ ", output: " +:+ exec_output result))
    else mret (Ok ()).

Definition get_sandbox_address (id : string) (port : Z) : M K (ManagerResult string) :=
  mret (Ok (sandbox_service_name id +:+ "." +:+ k8s_namespace (kubernetes (sandbox config))
              +:+ ".svc.cluster.local:" +:+ Z_to_string port)).

Definition get_sandbox_k8s_status (sandbox_id : Uuid)
    : M K (ManagerResult (option KubernetesInfo)) :=
  r ← crds_get (sandbox_resource_name (uuid_to_string sandbox_id));
  mret (match r with
        | Err e =>
            if is_not_found e then Ok None else Err (map_kube_error e "get_sandbox_k8s_status")
        | Ok sb =>
            Ok (match crd_status sb with
                | None => None
                | Some st =>
                    match st_node_name st, st_pod_ip st, st_service_name st, st_message st with
                    | None, None, None, None => None
                    | n, ip, svc, msg => Some (mkKubernetesInfo n ip svc msg)
                    end
                end)
        end).

(** The backend that the service is given. *)
Definition KubernetesManager : SandboxManager K := {|
  bk_create := create;
  bk_start := start;
  bk_stop := stop;
  bk_delete := delete;
  bk_stats := stats;
  bk_is_running := is_running;
  bk_get_exit_info := get_exit_info;
  bk_list := list_all;
  bk_remove_volume := remove_volume;
  bk_get_image_features := get_image_features;
  bk_pull_image := pull_image;
  bk_pull_image_with_progress := pull_image_with_progress;
  bk_image_exists := image_exists;
  bk_exec := exec;
  bk_get_workdir := get_workdir;
  bk_get_sandbox_k8s_status := get_sandbox_k8s_status;
  bk_upload_archive := upload_archive;
  bk_exec_http := exec_http;
  bk_exec_with_stdin_result := exec_with_stdin_result;
|}.

(** ** The operator ([operator.rs])

    [reconcile] is called with the resource as the controller last saw it, and
    returns after how many seconds to look again. *)

Definition create_resources_from_crd (sb : SandboxCrd) : M K (KResult ()) :=
  let crd_name := default "" (om_name (crd_metadata sb)) in
  match om_uid (crd_metadata sb) with
  | None =>
      mret (Err (KubeApi 500
        ("Sandbox CRD '" +:+ crd_name +:+ "' is missing UID required for owner references")))
  | Some crd_uid =>
      let tolerate (m : M K (KResult ())) : M K (KResult ()) :=
        r ← m;
        mret (match r with Err e => if is_conflict e then Ok () else Err e | Ok _ => Ok () end) in
      let* _ := tolerate (pods_create (build_pod config crd_name crd_uid (crd_spec sb))) in
      tolerate (services_create (build_service config crd_name crd_uid (crd_spec sb)))
  end.

Definition crd_phase (sb : SandboxCrd) : option string := st ← crd_status sb; st_phase st.

Definition phase_in (phases : list string) (sb : SandboxCrd) : bool :=
  match crd_phase sb with Some p => existsb (String.eqb p) phases | None => false end.

Definition has_status (sb : SandboxCrd) : bool := bool_decide (is_Some (crd_status sb)).
Definition was_running (sb : SandboxCrd) : bool := phase_in ["Running"; "Pending"] sb.
Definition is_stopped (sb : SandboxCrd) : bool := phase_in ["Stopped"; "Succeeded"; "Failed"] sb.

Definition update_crd_status (crd_name phase : string) (node_name pod_ip : option string)
    : M K (KResult ()) :=
  crds_patch_status crd_name (status_of crd_name phase node_name pod_ip).

Definition reconcile (sb : SandboxCrd) : M K (KResult Z) :=
  let name := default "" (om_name (crd_metadata sb)) in
  r ← pods_get (sandbox_resource_name (spec_sandbox_id (crd_spec sb)));
  match r with
  | Ok pod =>
      let* _ := update_crd_status name (default "Unknown" (pod_phase pod))
                  (s ← pod_spec pod; p_node_name s) (s ← pod_status pod; ps_pod_ip s) in
      mret (Ok 30)
  | Err e =>
      if is_not_found e then
        let* _ :=
          if negb (has_status sb) then create_resources_from_crd sb
          else if was_running sb then create_resources_from_crd sb
          else if is_stopped sb then mret (Ok ())
          else create_resources_from_crd sb in
        mret (Ok 60)
      else mret (Err e)
  end.

Definition error_policy : Z := 5.
End manager.

(** ** The cluster

    What is known of the API server: the objects of the namespace, and what its
    calls do to them, as its documentation says.  A call may also fail for reasons
    of its own; [answers] says that it does not.  A deleted pod may stay for a
    while.  The clock of the waiting loops does not go back, and sleeping lets it
    pass; while the code sleeps, anyone may change the cluster. *)

Class Cluster (K : Type) := {
  cl_pods : K → gmap string Pod;
  cl_services : K → gmap string KService;
  cl_crds : K → gmap string SandboxCrd;
  cl_clock : K → Z;
  answers : K → Prop;
}.

Section views.
Context {K : Type} `{Cluster K}.

Record same_cluster (k k' : K) : Prop := {
  same_pods : cl_pods k' = cl_pods k;
  same_services : cl_services k' = cl_services k;
  same_crds : cl_crds k' = cl_crds k;
  same_answers : answers k → answers k';
}.

(** How the answer to a lookup is related to what is there. *)
Definition looked_up {R} (o : option R) (k : K) (r : KResult R) : Prop :=
  match r with
  | Ok x => o = Some x
  | Err e => (is_not_found e = true → o = None) ∧ (answers k → is_not_found e = true)
  end.

(** A creation: refused because of what is there, or for another reason. *)
Definition created {R} (o o' : option R) (k : K) (fine : Prop) (r : KResult ()) : Prop :=
  match r with
  | Ok _ => o = None ∧ is_Some o'
  | Err e => o' = o ∧ (is_conflict e = true → is_Some o) ∧ (answers k → fine → is_conflict e = true)
  end.

Definition only_at {R} (name : string) (m m' : gmap string R) : Prop :=
  ∀ n, n ≠ name → m' !! n = m !! n.

Lemma same_cluster_refl k : same_cluster k k.
Proof. done. Qed.

Lemma same_cluster_trans k1 k2 k3 :
  same_cluster k1 k2 → same_cluster k2 k3 → same_cluster k1 k3.
Proof. intros [] []. split; try congruence. auto. Qed.
End views.

Create HintDb kube.
#[export] Hint Resolve same_cluster_refl same_cluster_trans : kube.

Class KubeLaws (K : Type) `{KubeClient K} `{Cluster K} : Prop := {
  law_pods_get name k :
    wp (pods_get name) (λ r k', same_cluster k k' ∧ cl_clock k ≤ cl_clock k' ∧
      looked_up (cl_pods k !! name) k r) k;
  law_crds_get name k :
    wp (crds_get name) (λ r k', same_cluster k k' ∧ cl_clock k ≤ cl_clock k' ∧
      looked_up (cl_crds k !! name) k r) k;
  law_pods_create pod name k :
    om_name (pod_metadata pod) = Some name →
    wp (pods_create pod) (λ r k',
      cl_crds k' = cl_crds k ∧ cl_services k' = cl_services k ∧ (answers k → answers k') ∧
      only_at name (cl_pods k) (cl_pods k') ∧
      created (cl_pods k !! name) (cl_pods k' !! name) k (WellTyped pod) r) k;
  law_services_create svc name k :
    om_name (svc_metadata svc) = Some name →
    wp (services_create svc) (λ r k',
      cl_crds k' = cl_crds k ∧ cl_pods k' = cl_pods k ∧ (answers k → answers k') ∧
      only_at name (cl_services k) (cl_services k') ∧
      created (cl_services k !! name) (cl_services k' !! name) k True r) k;
  law_crds_create name spec k :
    wp (crds_create name spec) (λ r k',
      cl_pods k' = cl_pods k ∧ cl_services k' = cl_services k ∧ (answers k → answers k') ∧
      only_at name (cl_crds k) (cl_crds k') ∧
      created (cl_crds k !! name) (cl_crds k' !! name) k True r ∧
      (r = Ok () → ∃ meta uid, om_name meta = Some name ∧ om_uid meta = Some uid ∧
         cl_crds k' !! name = Some (mkSandboxCrd meta spec None))) k;
  law_pods_delete name k :
    wp (pods_delete name) (λ r k',
      cl_crds k' = cl_crds k ∧ cl_services k' = cl_services k ∧ (answers k → answers k') ∧
      only_at name (cl_pods k) (cl_pods k') ∧
      (cl_pods k' !! name = None ∨ cl_pods k' !! name = cl_pods k !! name)) k;
  law_services_delete name k :
    wp (services_delete name) (λ r k',
      cl_crds k' = cl_crds k ∧ cl_pods k' = cl_pods k ∧ (answers k → answers k') ∧
      only_at name (cl_services k) (cl_services k') ∧
      (answers k → cl_services k' !! name = None)) k;
  law_crds_delete name k :
    wp (crds_delete name) (λ r k',
      cl_pods k' = cl_pods k ∧ cl_services k' = cl_services k ∧ (answers k → answers k') ∧
      match r with
      | Ok _ => is_Some (cl_crds k !! name) ∧ cl_crds k' = base.delete name (cl_crds k)
      | Err e => cl_crds k' = cl_crds k ∧ (is_not_found e = true → cl_crds k !! name = None) ∧
                 (answers k → is_not_found e = true)
      end) k;
  law_crds_patch_status name st k :
    wp (crds_patch_status name st) (λ r k',
      cl_pods k' = cl_pods k ∧ cl_services k' = cl_services k ∧ (answers k → answers k') ∧
      match r with
      | Ok _ => ∃ sb, cl_crds k !! name = Some sb ∧
          cl_crds k' = <[name := mkSandboxCrd (crd_metadata sb) (crd_spec sb) (Some st)]> (cl_crds k)
      | Err e => cl_crds k' = cl_crds k ∧ (answers k → cl_crds k !! name = None)
      end) k;
  law_instant k :
    wp k_instant (λ now k', same_cluster k k' ∧ now = cl_clock k ∧ cl_clock k ≤ cl_clock k') k;
  law_sleep ms k :
    wp (k_sleep_ms ms) (λ _ k', cl_clock k + ms * 1000000 ≤ cl_clock k') k;
}.

(** ** Theorems *)

Section theorems.
Context {K : Type} `{KubeLaws K} `{UuidLib} `{TolerationLib}.
Context (config : Config).

(** A rule per call, from its law. *)
Ltac by_law L := eapply wp_mono; [apply L|]; cbv beta.

(** *** The operator *)

(** A resource as [create] makes it and the server keeps it. *)
Record Named (name : string) (sb : SandboxCrd) : Prop := {
  named_meta : om_name (crd_metadata sb) = Some name;
  named_id : sandbox_resource_name (spec_sandbox_id (crd_spec sb)) = name;
  named_uid : is_Some (om_uid (crd_metadata sb));
}.

(** The pod that the resource asks for, and that nothing but its absence makes
    the operator create. *)
Definition wants_pod (sb : SandboxCrd) : bool := negb (is_stopped sb).

Lemma only_at_same {R} name (m m' : gmap string R) :
  only_at name m m' → m' !! name = m !! name → m' = m.
Proof.
  intros Ho Hn. apply map_eq. intros n. destruct (decide (n = name)) as [->|Hne]; [done|].
  by apply Ho.
Qed.

(** A creation whose conflict is tolerated leaves the object there. *)
Lemma created_tolerated {R} name (m m' : gmap string R) k fine (r : KResult ()) :
  only_at name m m' → created (m !! name) (m' !! name) k fine r →
  let r' := match r with Err e => if is_conflict e then Ok () else Err e | Ok _ => Ok () end in
  (is_Some (m !! name) → m' = m) ∧ (r' = Ok () → is_Some (m' !! name)) ∧
  (answers k → fine → r' = Ok ()).
Proof.
  intros Ho Hc. destruct r as [[]|e]; simpl in *.
  - destruct Hc as [Hn Hs]. split_and!; [rewrite Hn; by intros []|done|done].
  - destruct Hc as (Heq & Hconf & Hans). rewrite Heq. split_and!.
    + intros _. by eapply only_at_same.
    + destruct (is_conflict e); [auto|done].
    + intros Ha Hf. by rewrite Hans.
Qed.

Lemma wp_create_resources name sb k :
  Named name sb →
  wp (create_resources_from_crd config sb) (λ r k',
    cl_crds k' = cl_crds k ∧ (answers k → answers k') ∧ only_at name (cl_pods k) (cl_pods k') ∧
    (is_Some (cl_pods k !! name) → cl_pods k' = cl_pods k) ∧
    (r = Ok () → is_Some (cl_pods k' !! name) ∧
       is_Some (cl_services k' !! sandbox_service_name (spec_sandbox_id (crd_spec sb)))) ∧
    (answers k → r = Ok ())) k.
Proof.
  intros [Hm Hid [uid Hu]]. unfold create_resources_from_crd. rewrite Hu, Hm. cbn [from_option id].
  assert (WellTyped (build_pod config name uid (crd_spec sb))) as Hwt.
  { exact (build_pod_wt config name uid (crd_spec sb)). }
  apply wp_try, wp_bind. by_law law_pods_create; [done|].
  intros r1 k1 (Hc1 & Hs1 & Ha1 & Ho1 & Hcr1). apply wp_ret.
  destruct (created_tolerated _ _ _ _ _ _ Ho1 Hcr1) as (Hk1 & Hp1 & Hok1).
  destruct (match r1 with Ok _ => _ | Err e => _ end) as [[]|e1].
  - apply wp_bind. by_law law_services_create; [done|].
    intros r2 k2 (Hc2 & Hp2 & Ha2 & Ho2 & Hcr2). apply wp_ret.
    destruct (created_tolerated _ _ _ _ _ _ Ho2 Hcr2) as (_ & Hs2 & Hok2).
    rewrite Hp2, Hc2. split_and!; auto.
  - split_and!; auto. by intros ?.
Qed.

(** A look at a resource by the operator.  With the pod there, the status is
    rewritten to what the pod says.  Without it, a resource that was stopped, or
    whose pod ended, is left alone; any other gets its pod and its service, and
    when the server answers both are there.  Nothing else of the cluster changes. *)
Lemma wp_reconcile name sb k :
  Named name sb →
  wp (reconcile config sb) (λ r k',
    (answers k → answers k') ∧ only_at name (cl_pods k) (cl_pods k') ∧
    only_at name (cl_crds k) (cl_crds k') ∧
    match cl_pods k !! name with
    | Some pod =>
        cl_pods k' = cl_pods k ∧
        (answers k → is_Some (cl_crds k !! name) → r = Ok 30 ∧
           ∃ st sb0, cl_crds k !! name = Some sb0 ∧
             st_phase st = Some (default "Unknown" (pod_phase pod)) ∧
             cl_crds k' = <[name := mkSandboxCrd (crd_metadata sb0) (crd_spec sb0) (Some st)]>
                            (cl_crds k))
    | None =>
        cl_crds k' = cl_crds k ∧
        (answers k → r = Ok 60) ∧
        if wants_pod sb then answers k → is_Some (cl_pods k' !! name) ∧
          is_Some (cl_services k' !! sandbox_service_name (spec_sandbox_id (crd_spec sb)))
        else cl_pods k' = cl_pods k
    end) k.
Proof.
  intros Hn. destruct (Hn) as [Hm Hid _]. unfold reconcile. rewrite Hid, Hm. cbn [from_option id].
  apply wp_bind. by_law law_pods_get. intros r k1 (Hsame & _ & Hl).
  destruct Hsame as [Hp1 Hs1 Hc1 Ha1].
  destruct r as [pod|e]; simpl in Hl.
  - rewrite Hl. apply wp_try. unfold update_crd_status. by_law law_crds_patch_status.
    intros r2 k2 (Hp2 & _ & Ha2 & Hr2). rewrite Hp1, Hc1 in *.
    destruct r2 as [[]|e2].
    + destruct Hr2 as (sb0 & Hsb0 & Hc2). apply wp_ret. rewrite Hp2, Hc2.
      split_and!; [auto|done|by intros n Hne; rewrite lookup_insert_ne by done|done|].
      intros _ _. split; [done|]. eexists _, sb0. split; [done|]. by split; [|reflexivity].
    + destruct Hr2 as [Hc2 Hr2]. rewrite Hp2, Hc2. split_and!; [auto|done|done|done|].
      intros Ha [sb0 Hsb0]. rewrite Hr2 in Hsb0 by auto. done.
  - destruct (is_not_found e) eqn:Enf.
    + destruct Hl as [Hnone _]. rewrite Hnone by done.
      assert (∀ r0, r0 = create_resources_from_crd config sb →
        wp (let* _ := r0 in mret (Ok 60)) (λ r k',
          (answers k → answers k') ∧ only_at name (cl_pods k) (cl_pods k') ∧
          cl_crds k' = cl_crds k ∧ (answers k → r = Ok 60) ∧
          (answers k → is_Some (cl_pods k' !! name) ∧
           is_Some (cl_services k' !! sandbox_service_name (spec_sandbox_id (crd_spec sb))))) k1)
        as Hcreate.
      { intros r0 ->. apply wp_try. eapply wp_mono; [by apply (wp_create_resources name)|].
        intros r2 k2 (Hc2 & Ha2 & Ho2 & _ & Hok2 & Hans2). rewrite Hp1, Hc1 in *.
        destruct r2 as [[]|e2]; [apply wp_ret|].
        - split_and!; auto.
        - split_and!; auto; intros Ha; specialize (Hans2 (Ha1 Ha)); done. }
      assert (wants_pod sb = true ∨ (has_status sb = true ∧ was_running sb = false ∧
        is_stopped sb = true)) as Hcases.
      { unfold wants_pod, has_status, was_running, is_stopped, phase_in, crd_phase.
        destruct (crd_status sb) as [st|]; [|by left]. simpl.
        destruct (st_phase st) as [p|]; [|by left]. simpl.
        destruct (String.eqb_spec p "Running") as [->|]; [by left|].
        destruct (String.eqb_spec p "Pending") as [->|]; [by left|]. simpl.
        destruct (_ || _); [right|left]; done. }
      destruct Hcases as [Hw|(Hs & Hr & Hst)].
      * rewrite Hw.
        eapply wp_mono; [apply Hcreate|].
        -- unfold wants_pod in Hw. apply negb_true_iff in Hw. rewrite Hw.
           by destruct (negb (has_status sb)), (was_running sb).
        -- intros r k' (? & ? & Hc & ? & ?). rewrite Hc. done.
      * unfold wants_pod. rewrite Hs, Hr, Hst. cbn [negb]. apply wp_try, wp_ret, wp_ret.
        rewrite Hp1, Hc1. split_and!; auto; by intros ??.
    + destruct Hl as [_ Hl]. apply wp_ret. rewrite Hp1, Hc1.
      assert (¬ answers k) as Hna by (by intros Ha%Hl).
      destruct (cl_pods k !! name), (wants_pod sb); split_and!; done || tauto.
Qed.


Lemma wp_operator_pass sbs k :
  answers k → NoDup (fst <$> sbs) → Forall (λ '(name, sb), Named name sb) sbs →
  wp (for_each sbs (λ '(_, sb), _ ← reconcile config sb; mret ()))
    (λ _ k', answers k' ∧
       (∀ n, n ∉ fst <$> sbs → cl_pods k' !! n = cl_pods k !! n) ∧
       Forall (λ '(name, sb), wants_pod sb = true → is_Some (cl_pods k' !! name)) sbs) k.
Proof.
  intros Ha Hnd Hn. apply (wp_for_each (λ done_ k', answers k' ∧
      (∀ n, n ∉ fst <$> done_ → cl_pods k' !! n = cl_pods k !! n) ∧
      Forall (λ '(name, sb), wants_pod sb = true → is_Some (cl_pods k' !! name)) done_)).
  - split_and!; [done|done|by apply Forall_nil].
  - intros prev [name sb] rest k1 -> (Ha1 & Ho1 & Hd1).
    rewrite Forall_app, Forall_cons in Hn. destruct Hn as (_ & Hn & _).
    rewrite fmap_app, fmap_cons in Hnd. apply NoDup_app in Hnd as (_ & Hdisj & _).
    apply wp_bind. eapply wp_mono; [by apply (wp_reconcile name)|].
    intros r k2 (Ha2 & Hop & _ & Hcase). apply wp_ret. split_and!; [auto| |].
    + intros n. rewrite fmap_app, not_elem_of_app. intros [Hn1 Hn2].
      rewrite Hop by set_solver. by apply Ho1.
    + apply Forall_app. split.
      * rewrite Forall_forall in Hd1 |- *. intros [n s] Hin Hw.
        rewrite Hop; [exact (Hd1 _ Hin Hw)|]. intros ->. apply (Hdisj name); [|set_solver].
        apply list_elem_of_fmap. by exists (name, s).
      * apply Forall_singleton. intros Hw. destruct (cl_pods k1 !! name) eqn:E.
        -- destruct Hcase as [-> _]. by rewrite E.
        -- rewrite Hw in Hcase. by apply Hcase.
  - intros k' Hk'. exact Hk'.
Qed.


(** *** Waiting *)

(** What one look decides. *)
Definition look_verdict (name : string) (r : KResult Pod) : option (ManagerResult ()) :=
  match r with
  | Ok pod => st ← pod_status pod; wait_verdict name st
  | Err e =>
      if is_not_found e then None
      else Some (Err (ManagerApi ("Failed to get pod status: " +:+ kube_error_to_string e)))
  end.

Definition timeout_ns : Z := pod_timeout_secs config * ns_per_sec.

(** The pod becomes ready in time: some look within the timeout finds it
    ready, and those before it decide nothing. *)
Inductive becomes_ready (start : Z) (name : string) : nat → K → Prop :=
  | ready_now k now k1 r k2 :
      k_instant k = (now, k1) → now - start ≤ timeout_ns →
      pods_get name k1 = (r, k2) → look_verdict name r = Some (Ok ()) →
      becomes_ready start name 0 k
  | ready_later n k now k1 r k2 :
      k_instant k = (now, k1) → now - start ≤ timeout_ns →
      pods_get name k1 = (r, k2) → look_verdict name r = None →
      becomes_ready start name n (run_st (k_sleep_ms 2000) k2) →
      becomes_ready start name (S n) k.

(** One turn of the loop, by the look it takes. *)
Lemma wait_loop_step fuel start name k now k1 r k2 :
  k_instant k = (now, k1) → pods_get name k1 = (r, k2) → now - start ≤ timeout_ns →
  wait_loop config (S fuel) start name k =
  match look_verdict name r with
  | Some v => (Some v, k2)
  | None => wait_loop config fuel start name (run_st (k_sleep_ms 2000) k2)
  end.
Proof.
  intros Hi Hg Ht. cbn [wait_loop]. rewrite M_bind_unfold, Hi. cbn [fst snd].
  rewrite bool_decide_false by (unfold timeout_ns in Ht; lia).
  rewrite M_bind_unfold, Hg. cbn [fst snd]. unfold look_verdict. destruct r as [pod|e].
  - destruct (pod_status pod) as [st|]; simpl; [destruct (wait_verdict name st)|]; try done;
      rewrite M_bind_unfold; unfold run_st; by destruct (k_sleep_ms 2000 k2).
  - destruct (is_not_found e); [|done]. rewrite M_bind_unfold. unfold run_st.
    by destruct (k_sleep_ms 2000 k2).
Qed.

Lemma becomes_ready_loop start name n k fuel :
  becomes_ready start name n k → (n < fuel)%nat →
  (wait_loop config fuel start name k).1 = Some (Ok ()).
Proof.
  intros Hr. revert fuel. induction Hr as [k now k1 r k2 Hi Ht Hg Hv|n k now k1 r k2 Hi Ht Hg Hv _ IH];
    intros [|fuel] Hf; [lia| |lia|]; erewrite wait_loop_step by done; rewrite Hv; [done|].
  apply IH. lia.
Qed.

(** The moments of [k_instant] and of the clock. *)
Lemma instant_clock k now k1 :
  k_instant k = (now, k1) → same_cluster k k1 ∧ now = cl_clock k ∧ cl_clock k ≤ cl_clock k1.
Proof.
  intros Hi. pose proof (law_instant k) as Hl. unfold wp, run_val, run_st in Hl. by rewrite Hi in Hl.
Qed.

Lemma pods_get_look name k r k' :
  pods_get name k = (r, k') →
  same_cluster k k' ∧ cl_clock k ≤ cl_clock k' ∧ looked_up (cl_pods k !! name) k r.
Proof.
  intros Hg. pose proof (law_pods_get name k) as Hl. unfold wp, run_val, run_st in Hl.
  by rewrite Hg in Hl.
Qed.

Lemma sleep_clock ms k : cl_clock k + ms * 1000000 ≤ cl_clock (run_st (k_sleep_ms ms) k).
Proof. exact (law_sleep ms k). Qed.

Lemma becomes_ready_bound start name n k :
  becomes_ready start name n k → cl_clock k + Z.of_nat n * (2 * ns_per_sec) - start ≤ timeout_ns.
Proof.
  intros Hr. induction Hr as [k now k1 r k2 Hi Ht Hg Hv|n k now k1 r k2 Hi Ht Hg Hv _ IH].
  - apply instant_clock in Hi as (_ & -> & _). unfold ns_per_sec. lia.
  - apply instant_clock in Hi as (_ & -> & Hc). apply pods_get_look in Hg as (_ & Hc2 & _).
    pose proof (sleep_clock 2000 k2). unfold ns_per_sec in *. lia.
Qed.

(** What is kept while waiting: a property that looking does not change, and
    that the others keep while the code sleeps. *)
Definition kept (I : K → Prop) : Prop :=
  (∀ k k', I k → same_cluster k k' → I k') ∧ (∀ k, I k → I (run_st (k_sleep_ms 2000) k)).

Lemma wait_loop_spec (I : K → Prop) fuel start name k :
  kept I → I k → (0 < fuel)%nat →
  timeout_ns < cl_clock k - start + (Z.of_nat fuel - 1) * (2 * ns_per_sec) →
  ∃ v k', wait_loop config fuel start name k = (Some v, k') ∧ I k' ∧
    match v with
    | Ok _ => ∃ pod, cl_pods k' !! name = Some pod ∧ look_verdict name (Ok pod) = Some (Ok ())
    | Err e => (∃ text, e = ManagerTimeout text) ∨ (∃ k0, I k0 ∧ ¬ answers k0) ∨ is_Some (cl_pods k' !! name)
    end.
Proof.
  intros [Hsame Hsleep]. revert k. induction fuel as [|fuel IH]; intros k Hk Hf Ht; [lia|].
  destruct (k_instant k) as [now k1] eqn:Hi. destruct (pods_get name k1) as [r k2] eqn:Hg.
  destruct (instant_clock _ _ _ Hi) as (Hs1 & -> & Hc1).
  destruct (pods_get_look _ _ _ _ Hg) as (Hs2 & Hc2 & Hl).
  assert (I k2) as HI2 by eauto.
  destruct (decide (cl_clock k - start ≤ timeout_ns)) as [Hle|Hgt].
  - erewrite wait_loop_step by done. destruct (look_verdict name r) as [v|] eqn:Hv.
    + exists v, k2. split_and!; [done|done|]. destruct Hs2 as [Hp2 _ _ Ha2]. rewrite Hp2.
      destruct r as [pod|e]; simpl in Hl.
      * rewrite Hl. destruct v as [[]|e]; [by exists pod|right; right; by eexists].
      * simpl in Hv. destruct (is_not_found e) eqn:Enf; [done|]. injection Hv as <-.
        right. left. exists k1. split; [by eauto|]. by intros Ha%Hl.
    + apply IH; [apply Hsleep, HI2| |].
      * destruct fuel; [|lia]. unfold ns_per_sec in Ht. lia.
      * pose proof (sleep_clock 2000 k2). unfold ns_per_sec in *. lia.
  - cbn [wait_loop]. rewrite M_bind_unfold, Hi. cbn [fst snd].
    rewrite bool_decide_true by (unfold timeout_ns in *; lia).
    rewrite M_bind_unfold, Hg. cbn [fst snd]. eexists _, k2. split_and!; [done|done|]. left. by eexists.
Qed.

Lemma wait_fuel_enough k k1 :
  cl_clock k ≤ cl_clock k1 →
  timeout_ns < cl_clock k1 - cl_clock k + (Z.of_nat (wait_fuel config) - 1) * (2 * ns_per_sec).
Proof.
  intros Hc. unfold timeout_ns, wait_fuel, ns_per_sec.
  pose proof (Z.div_mod (pod_timeout_secs config) 2 ltac:(lia)).
  pose proof (Z.mod_pos_bound (pod_timeout_secs config) 2 ltac:(lia)). lia.
Qed.

Lemma wait_for_pod_ready_run (I : K → Prop) name k :
  kept I → I k →
  ∃ v k', wait_loop config (wait_fuel config) (cl_clock k) name (run_st k_instant k) = (Some v, k') ∧
    wait_for_pod_ready config name k = (v, k') ∧ I k' ∧
    match v with
    | Ok _ => ∃ pod, cl_pods k' !! name = Some pod ∧ look_verdict name (Ok pod) = Some (Ok ())
    | Err e => (∃ text, e = ManagerTimeout text) ∨ (∃ k0, I k0 ∧ ¬ answers k0)
               ∨ is_Some (cl_pods k' !! name)
    end.
Proof.
  intros HI Hk. unfold run_st. destruct (k_instant k) as [now k1] eqn:Hi. cbn [snd].
  destruct (instant_clock _ _ _ Hi) as (Hs1 & -> & Hc1).
  destruct (wait_loop_spec I (wait_fuel config) (cl_clock k) name k1) as (v & k' & Hw & HI' & Hv);
    [done|by eapply (proj1 HI)|unfold wait_fuel; lia|by apply wait_fuel_enough|].
  exists v, k'. split_and!; [done| |done|done].
  unfold wait_for_pod_ready. rewrite M_bind_unfold, Hi. cbn [fst snd].
  rewrite M_bind_unfold, Hw. done.
Qed.

(** A pod whose containers are ready, or whose first container has ended
    well. *)
Definition up_or_done (pod : Pod) : Prop :=
  ∃ st, pod_status pod = Some st ∧
    ((∃ c, c ∈ default [] (ps_conditions st) ∧ cond_type c = "Ready" ∧ cond_status c = "True") ∨
     ∃ cs rest state reason, ps_container_statuses st = Some (cs :: rest) ∧
       cs_state cs = Some state ∧ terminated state = Some (0, reason)).

Lemma look_verdict_ok name pod : look_verdict name (Ok pod) = Some (Ok ()) → up_or_done pod.
Proof.
  simpl. destruct (pod_status pod) as [st|] eqn:Est; [|done]. cbn [mbind option_bind].
  intros Hv. exists st. split; [done|]. unfold wait_verdict in Hv.
  match type of Hv with match ?a with _ => _ end = _ => destruct a as [r|] eqn:Ew end.
  { destruct (first_state st) as [state|]; [|done]. cbn in Ew.
    destruct (waiting state) as [[reason message]|]; [|done].
    match type of Ew with (if ?b then _ else _) = _ => destruct b; [|done] end. congruence. }
  destruct (first_state st) as [state|] eqn:Ef; cbn [mbind option_bind] in Hv.
  destruct (terminated state) as [[code r]|] eqn:Et; cbn [mbind option_bind] in Hv.
  { right. unfold first_state in Ef. destruct (ps_container_statuses st) as [[|cs rest]|] eqn:Es;
      [done| |done]. cbn in Ef. case_bool_decide; [done|].
    exists cs, rest, state, r. split_and!; [done..|]. rewrite Et. by replace code with 0 by lia. }
  all: left; match type of Hv with (if ?b then _ else _) = _ => destruct b eqn:Er; [|done] end.
  all: apply existsb_exists in Er as (c & Hc & [Ht%String.eqb_eq Hs%String.eqb_eq]%andb_prop).
  all: exists c; split_and!; [by apply list_elem_of_In|done|done].
Qed.

(** Waiting for a pod ends, and rightly.  Whatever the others do to the
    cluster meanwhile, the loop gives a verdict within the turns that the timeout
    allows.  If some look within the timeout finds the pod ready, and none before
    decides otherwise, the verdict is success; and success means that the pod is
    there, ready or done. *)
Theorem wait_for_pod_ready_spec name k :
  (∃ v k', wait_loop config (wait_fuel config) (cl_clock k) name (run_st k_instant k) = (Some v, k')
     ∧ wait_for_pod_ready config name k = (v, k')) ∧
  (∀ n, becomes_ready (cl_clock k) name n (run_st k_instant k) →
     (wait_for_pod_ready config name k).1 = Ok ()) ∧
  (∀ k', wait_for_pod_ready config name k = (Ok (), k') →
     ∃ pod, cl_pods k' !! name = Some pod ∧ up_or_done pod).
Proof.
  destruct (wait_for_pod_ready_run (λ _, True) name k) as (v & k' & Hw & Hr & _ & Hv); [done|done|].
  split_and!.
  - eauto.
  - intros n Hn. rewrite Hr. cbn [fst].
    assert (n < wait_fuel config)%nat as Hf.
    { apply becomes_ready_bound in Hn. unfold wait_fuel, timeout_ns, ns_per_sec in *.
      pose proof (law_instant k) as (_ & _ & Hc). cbv beta in Hc.
      pose proof (Z.div_le_lower_bound (pod_timeout_secs config) 2 (Z.of_nat n) ltac:(lia)
        ltac:(lia)). lia. }
    pose proof (becomes_ready_loop _ _ _ _ _ Hn Hf) as Hok. rewrite Hw in Hok. simpl in Hok.
    congruence.
  - intros k'' Hk. rewrite Hr in Hk. injection Hk as -> ->. destruct Hv as (pod & Hp & Hv).
    exists pod. split; [done|]. by eapply look_verdict_ok.
Qed.

(** *** Stopping and starting *)

(** A sandbox that was stopped, and whose pod is gone. *)
Definition stopped (name : string) (k : K) : Prop :=
  answers k ∧ cl_pods k !! name = None ∧
  ∃ sb, cl_crds k !! name = Some sb ∧ Named name sb ∧ wants_pod sb = false.

Lemma stopped_reconcile name sb k :
  stopped name k → cl_crds k !! name = Some sb → stopped name (run_st (reconcile config sb) k).
Proof.
  intros (Ha & Hp & sb' & Hsb & Hn & Hw) Hcrd. rewrite Hsb in Hcrd. injection Hcrd as ->.
  destruct (wp_reconcile name sb k Hn) as (Ha' & _ & _ & Hcase). rewrite Hp, Hw in Hcase.
  destruct Hcase as (Hc & _ & Hp'). unfold stopped. rewrite Hc, Hp'.
  split_and!; [auto|done|]. by exists sb.
Qed.

(** A stopped sandbox stays stopped, and cannot be started.  The operator
    leaves it alone; so when nobody but the operator acts while the code sleeps,
    starting it waits for a pod that nobody makes, and times out. *)
Theorem stopped_cannot_start id k (Hst : stopped (sandbox_resource_name id) k)
    (Hsleep : ∀ k, stopped (sandbox_resource_name id) k →
       stopped (sandbox_resource_name id) (run_st (k_sleep_ms 2000) k)) :
  (∀ sb, cl_crds k !! sandbox_resource_name id = Some sb →
     stopped (sandbox_resource_name id) (run_st (reconcile config sb) k)) ∧
  (∃ text, (start config id k).1 = Err (ManagerTimeout text)).
Proof.
  split; [intros sb; by apply stopped_reconcile|].
  set (name := sandbox_resource_name id) in *.
  destruct (wait_for_pod_ready_run (stopped name) name k) as (v & k' & _ & Hr & Hst' & Hv).
  - split; [|done]. intros k0 k1 (Ha & Hp & Hsb) [Hp1 _ Hc1 Ha1].
    unfold stopped. rewrite Hp1, Hc1. auto.
  - done.
  - destruct Hst' as (_ & Hnone & _). unfold start, try_. fold name. rewrite M_bind_unfold, Hr.
    destruct v as [[]|e]; cbn [fst snd].
    + destruct Hv as (pod & Hpod & _). congruence.
    + destruct Hv as [[text ->]|[(k0 & (Ha & _) & Hna)|[pod Hpod]]]; [by exists text|done|congruence].
Qed.

Lemma wp_update_status name phase k :
  wp (update_status name phase) (λ r k',
    cl_pods k' = cl_pods k ∧ cl_services k' = cl_services k ∧ (answers k → answers k') ∧
    match r with
    | Ok _ => ∃ sb, cl_crds k !! name = Some sb ∧
        cl_crds k' = <[name := mkSandboxCrd (crd_metadata sb) (crd_spec sb)
                                 (Some (status_of name phase None None))]> (cl_crds k)
    | Err e => cl_crds k' = cl_crds k ∧ (∃ text, e = ManagerApi text) ∧
        (answers k → cl_crds k !! name = None)
    end) k.
Proof.
  unfold update_status. apply wp_bind. by_law law_crds_patch_status.
  intros r k' (? & ? & ? & Hr). apply wp_ret. destruct r as [[]|e]; simpl; [done|].
  destruct Hr. split_and!; eauto.
Qed.

Lemma wp_remove_resources id k :
  wp (remove_resources id) (λ _ k',
    cl_crds k' = cl_crds k ∧ (answers k → answers k') ∧
    only_at (sandbox_resource_name id) (cl_pods k) (cl_pods k') ∧
    only_at (sandbox_service_name id) (cl_services k) (cl_services k') ∧
    (cl_pods k' !! sandbox_resource_name id = None ∨
     cl_pods k' !! sandbox_resource_name id = cl_pods k !! sandbox_resource_name id) ∧
    (answers k → cl_services k' !! sandbox_service_name id = None)) k.
Proof.
  unfold remove_resources. apply wp_bind. by_law law_pods_delete.
  intros r1 k1 (Hc1 & Hs1 & Ha1 & Ho1 & Hg1). apply wp_bind. by_law law_services_delete.
  intros r2 k2 (Hc2 & Hp2 & Ha2 & Ho2 & Hg2). apply wp_ret.
  rewrite Hc2, Hp2. rewrite Hs1 in *. split_and!; auto.
Qed.

Lemma wp_stop_pod id k :
  wp (stop id) (λ r k',
    match r with
    | Ok _ =>
        ∃ sb, cl_crds k !! sandbox_resource_name id = Some sb ∧
          cl_crds k' = <[sandbox_resource_name id :=
            mkSandboxCrd (crd_metadata sb) (crd_spec sb)
              (Some (status_of (sandbox_resource_name id) "Stopped" None None))]> (cl_crds k) ∧
          only_at (sandbox_resource_name id) (cl_pods k) (cl_pods k') ∧
          (cl_pods k' !! sandbox_resource_name id = None ∨
           cl_pods k' !! sandbox_resource_name id = cl_pods k !! sandbox_resource_name id) ∧
          (answers k → cl_services k' !! sandbox_service_name id = None)
    | Err e => (∃ text, e = ManagerApi text) ∧ cl_crds k' = cl_crds k ∧ cl_pods k' = cl_pods k
               ∧ cl_services k' = cl_services k ∧
               (answers k → cl_crds k !! sandbox_resource_name id = None)
    end ∧ (answers k → answers k')) k.
Proof.
  unfold stop. apply wp_try. eapply wp_mono; [apply wp_update_status|].
  intros r k1 (Hp1 & Hs1 & Ha1 & Hr). destruct r as [[]|e].
  - destruct Hr as (sb & Hsb & Hc1). apply wp_bind.
    eapply wp_mono; [apply wp_remove_resources|].
    intros _ k2 (Hc2 & Ha2 & Hop & _ & Hg & Hsv). apply wp_ret. rewrite Hp1 in *.
    split; [|auto]. exists sb. rewrite Hc2. split_and!; auto.
  - destruct Hr as (Hc & He & Ha). split; [|done]. split_and!; auto.
Qed.

(** Stopping can be undone by the operator.  [stop] records that the sandbox
    is stopped and deletes the pod, which may stay for a while.  When the operator
    looks before the pod is gone, it overwrites the record with the pod's phase;
    and when it looks again once the pod is gone, it creates the pod anew: the
    sandbox that was stopped runs again. *)
Theorem stop_can_be_undone id sb pod k
    (Hcrd : cl_crds k !! sandbox_resource_name id = Some sb)
    (Hn : Named (sandbox_resource_name id) sb) (Ha : answers k)
    (Hstay : cl_pods (stop id k).2 !! sandbox_resource_name id = Some pod)
    (Hphase : pod_phase pod = Some "Running") :
  (stop id k).1 = Ok () ∧
  ∃ sb1, cl_crds (stop id k).2 !! sandbox_resource_name id = Some sb1 ∧ wants_pod sb1 = false ∧
  ∃ sb2, cl_crds (reconcile config sb1 (stop id k).2).2 !! sandbox_resource_name id = Some sb2 ∧
    wants_pod sb2 = true ∧
    ∀ k3, cl_crds k3 !! sandbox_resource_name id = Some sb2 →
      cl_pods k3 !! sandbox_resource_name id = None → answers k3 →
      is_Some (cl_pods (reconcile config sb2 k3).2 !! sandbox_resource_name id).
Proof.
  set (name := sandbox_resource_name id) in *.
  pose proof (wp_stop_pod id k) as Hs. unfold wp, run_val, run_st in Hs. fold name in Hs.
  destruct (stop id k) as [r k1]. cbn [fst snd] in *. destruct Hs as [Hr Ha1].
  destruct r as [[]|e]; [|destruct Hr as (_ & _ & _ & _ & Hno); by rewrite Hno in Hcrd].
  destruct Hr as (sb' & Hsb' & Hc1 & _). rewrite Hcrd in Hsb'. injection Hsb' as <-.
  split; [done|]. eexists. split; [by rewrite Hc1, lookup_insert_eq|]. split; [done|].
  set (sb1 := mkSandboxCrd _ _ _).
  assert (Named name sb1) as Hn1 by (by destruct Hn).
  destruct (wp_reconcile name sb1 k1 Hn1) as (_ & _ & _ & Hcase).
  unfold run_val, run_st in Hcase. rewrite Hstay in Hcase. destruct Hcase as [_ Hcase].
  destruct (Hcase (Ha1 Ha)) as (_ & st & sb0 & Hsb0 & Hst & Hc2).
  { by rewrite Hc1, lookup_insert_eq. }
  rewrite Hc1, lookup_insert_eq in Hsb0. injection Hsb0 as <-.
  eexists. split; [by rewrite Hc2, lookup_insert_eq|].
  set (sb2 := mkSandboxCrd _ _ (Some st)).
  assert (wants_pod sb2 = true) as Hw.
  { unfold wants_pod, is_stopped, phase_in, crd_phase, sb2. cbn [crd_status mbind option_bind].
    by rewrite Hst, Hphase. }
  split; [done|]. intros k3 _ Hgone Ha3.
  assert (Named name sb2) as Hn2 by (by destruct Hn).
  destruct (wp_reconcile name sb2 k3 Hn2) as (_ & _ & _ & Hcase3).
  unfold run_val, run_st in Hcase3. rewrite Hgone, Hw in Hcase3. by apply Hcase3.
Qed.

(** *** The calls of the service *)

Lemma wp_mapped {A} context (m : M K (KResult A)) (Q : ManagerResult A → K → Prop) k :
  wp m (λ r k', Q (result_map_err (λ e, map_kube_error e context) r) k') k →
  wp (mapped context m) Q k.
Proof. intros Hm. unfold mapped. apply wp_bind. eapply wp_mono; [exact Hm|]. by intros. Qed.

Definition is_manager_not_found (e : ManagerError) : Prop := ∃ text, e = ManagerNotFound text.

Lemma map_not_found e context :
  is_not_found e = true → is_manager_not_found (map_kube_error e context).
Proof. destruct e as [code m|]; simpl; [|done]. intros ->. by eexists. Qed.

(** What the calls of the service make of the cluster.  [create] makes the
    resource of the sandbox, named after it, which wants a pod, and no pod; a
    second one for the same sandbox is a conflict.  [stop] needs the resource: it
    records the stop and asks for the deletions, and otherwise does nothing.
    [delete] removes the resource, after asking for the deletions.  [is_running]
    tells the phase of the pod, and a missing pod is an error, not a no. *)
Theorem backend_calls_spec u c k
    (Hid : plain_id (uuid_to_string u)) :
  let id := uuid_to_string u in
  let name := sandbox_resource_name id in
  wp (create config (Some u) c) (λ r k',
    cl_pods k' = cl_pods k ∧ only_at name (cl_crds k) (cl_crds k') ∧
    match r with
    | Ok id' => id' = id ∧ cl_crds k !! name = None ∧
        ∃ sb, cl_crds k' !! name = Some sb ∧ Named name sb ∧ wants_pod sb = true ∧
          crd_spec sb = build_sandbox_spec config id c
    | Err e => cl_crds k' = cl_crds k ∧
        (answers k → is_Some (cl_crds k !! name) ∧ ∃ text, e = ManagerConflict text)
    end) k ∧
  wp (stop id) (λ r k',
    match r with
    | Ok _ => (∃ sb, cl_crds k' !! name = Some sb ∧ wants_pod sb = false) ∧
        (cl_pods k' !! name = None ∨ cl_pods k' !! name = cl_pods k !! name)
    | Err _ => cl_crds k' = cl_crds k ∧ cl_pods k' = cl_pods k ∧
        (answers k → cl_crds k !! name = None)
    end) k ∧
  wp (delete id) (λ r k',
    match r with
    | Ok _ => cl_crds k' = base.delete name (cl_crds k)
    | Err e => cl_crds k' = cl_crds k ∧
        (answers k → cl_crds k !! name = None ∧ is_manager_not_found e)
    end ∧ (cl_pods k' !! name = None ∨ cl_pods k' !! name = cl_pods k !! name)) k ∧
  wp (is_running id) (λ r k', same_cluster k k' ∧
    match r with
    | Ok b => ∃ pod, cl_pods k !! name = Some pod ∧ b = pod_running pod
    | Err e => answers k → cl_pods k !! name = None ∧ is_manager_not_found e
    end) k.
Proof.
  cbv zeta. set (id := uuid_to_string u) in *. set (name := sandbox_resource_name id).
  split_and!.
  - unfold create. apply wp_bind, wp_ret, wp_try, wp_mapped. fold id. fold name.
    by_law law_crds_create. intros r k' (Hp & _ & _ & Ho & Hcr & Hnew).
    destruct r as [[]|e]; simpl in *.
    + apply wp_ret. destruct Hcr as [Hnone _].
      destruct (Hnew eq_refl) as (meta & uid & Hm & Hu & Hc). split; [done|]. split; [done|].
      split; [done|]. split; [done|]. eexists. split; [done|]. split_and!; [by split|done..].
    + destruct Hcr as (Hsame & Hconf & Hans). split_and!; [done|done|by eapply only_at_same|].
      intros Ha. specialize (Hans Ha I). split; [auto|]. destruct e as [code m|]; [|done].
      simpl in *. apply Z.eqb_eq in Hans as ->. by eexists.
  - eapply wp_mono; [apply wp_stop_pod|]. fold name. intros r k' [Hr _]. destruct r as [[]|e].
    + destruct Hr as (sb & _ & Hc & _ & Hg & _). split; [|done].
      eexists. rewrite Hc, lookup_insert_eq. done.
    + destruct Hr as (_ & Hc & Hp & _ & Hno). done.
  - unfold delete. apply wp_bind. eapply wp_mono; [apply wp_remove_resources|]. fold name.
    intros _ k1 (Hc1 & Ha1 & _ & _ & Hg & _). apply wp_mapped. by_law law_crds_delete.
    intros r k2 (Hp2 & _ & _ & Hr). rewrite Hp2. split; [|done]. rewrite Hc1 in Hr.
    destruct r as [[]|e]; simpl; [by destruct Hr|]. destruct Hr as (Hc2 & Hnf & Hans).
    split; [done|]. intros Ha. specialize (Hans (Ha1 Ha)). split; [auto|by apply map_not_found].
  - unfold is_running. apply wp_try, wp_mapped. by_law law_pods_get.
    intros r k' (Hs & _ & Hl). destruct r as [pod|e]; simpl in *.
    + apply wp_ret. split; [done|]. by exists pod.
    + split; [done|]. destruct Hl as [Hnf Hans]. intros Ha. specialize (Hans Ha).
      split; [auto|by apply map_not_found].
Qed.
End theorems.

(** *** HTTP requests to a sandbox *)

Section http.
Context {K : Type} `{KubeClient K} (config : Config).

(** The requests that were sent, as far as the sandbox is concerned. *)
Context (sent : K → list (string * string * option Json * Z)).
Hypothesis request_sent : ∀ m u b t k,
  sent (run_st (http_request m u b t) k) = sent k ++ [(m, u, b, t)].
Hypothesis sleep_sends_nothing : ∀ ms k, sent (run_st (k_sleep_ms ms) k) = sent k.

(** The request as it goes out. *)
Definition request_of (method url : string) (body : option Json) (timeout : Z)
    : string * string * option Json * Z :=
  if existsb (String.eqb method) ["POST"; "PUT"; "PATCH"]
  then (method, url, Some (default JNull body), timeout)
  else if String.eqb method "DELETE" then ("DELETE", url, None, timeout)
  else ("GET", url, None, timeout).

Lemma http_send_sent method url body timeout k :
  sent (run_st (http_send method url body timeout) k)
  = sent k ++ [request_of method url body timeout].
Proof.
  unfold http_send, request_of. destruct (existsb _ _); [apply request_sent|].
  destruct (String.eqb method "DELETE"); apply request_sent.
Qed.

(** How the attempts ended: with an answer, or with an error that may not be
    tried again, or with the last attempt. *)
Definition http_end (method url : string) (body : option Json) (timeout : Z) (last : bool)
    (r : ManagerResult Json) : Prop :=
  ∃ k0,
    match run_val (http_send method url body timeout) k0 with
    | Ok resp => r = http_outcome resp
    | Err msg => r = Err (ManagerApi ("HTTP request to sandbox failed: " +:+ msg)) ∧
                 (is_transient_sandbox_http_error msg = true → last = true)
    end.

Lemma wp_http_attempts method url body timeout left k :
  wp (http_attempts method url body timeout left) (λ r k', ∃ n,
    (1 ≤ n ≤ 1 + left)%nat ∧
    sent k' = sent k ++ replicate n (request_of method url body timeout) ∧
    http_end method url body timeout (bool_decide (n = 1 + left)%nat) r ∧
    (is_ok (run_val (http_send method url body timeout) k) = true → n = 1%nat)) k.
Proof.
  revert k. induction left as [|left IH]; intros k; cbn [http_attempts]; apply wp_bind;
    pose proof (http_send_sent method url body timeout k) as Hs; unfold wp at 1;
    destruct (run_val (http_send method url body timeout) k) as [resp|msg] eqn:E.
  - apply wp_ret. exists 1%nat. split_and!; [lia..|done| |done]. exists k. by rewrite E.
  - apply wp_ret. exists 1%nat. split_and!; [lia..|done| |done]. exists k. by rewrite E.
  - apply wp_ret. exists 1%nat. split_and!; [lia..|done| |done]. exists k. by rewrite E.
  - destruct (is_transient_sandbox_http_error msg) eqn:Et.
    + apply wp_bind. unfold wp at 1. eapply wp_mono; [apply IH|].
      intros r k' (n & Hn & Hsent & Hend & _). exists (S n). split_and!; [lia..| | |done].
      * rewrite Hsent, sleep_sends_nothing, Hs, <-app_assoc. done.
      * by rewrite (bool_decide_ext (S n = 1 + S left)%nat (n = 1 + left)%nat) by lia.
    + apply wp_ret. exists 1%nat. split_and!; [lia..|done| |done]. exists k. rewrite E.
      split; [done|]. congruence.
Qed.

(** C40: HTTP requests to a sandbox.  At most twelve requests are sent, all the
    same; what is returned is made of the answer to the last one, whatever its
    status, or of an error that is not passing, or of the twelfth one's; an answer
    to the first is never followed by another request; the pauses between them are
    at most two seconds.  When every request fails with a passing error, such as a
    timeout, it is sent twelve times, a command among them. *)
Theorem exec_http_spec id path method body timeout_secs k :
  let timeout := default 30 timeout_secs in
  let url := sandbox_url config id TOOL_PROXY path in
  let request := request_of method url body timeout in
  wp (exec_http config id path method body timeout_secs) (λ r k',
    match http_client_build timeout with
    | Err e => r = Err (ManagerApi ("Failed to create HTTP client: " +:+ e)) ∧ k' = k
    | Ok _ => ∃ n, (1 ≤ n ≤ 12)%nat ∧ sent k' = sent k ++ replicate n request ∧
        http_end method url body timeout (bool_decide (n = 12)%nat) r ∧
        (is_ok (run_val (http_send method url body timeout) k) = true → n = 1%nat) ∧
        ((∀ k0, ∃ msg, run_val (http_send method url body timeout) k0 = Err msg ∧
            is_transient_sandbox_http_error msg = true) → n = 12%nat ∧ is_ok r = false)
    end) k ∧
  (∀ attempt, (1 ≤ attempt)%nat → 100 ≤ backoff_ms attempt ≤ 2000).
Proof.
  cbv zeta. split.
  - unfold exec_http. destruct (http_client_build _) as [[]|e]; [|done].
    eapply wp_mono; [apply wp_http_attempts|]. intros r k' (n & Hn & Hs & Hend & Hone).
    exists n. split_and!; [lia|unfold MAX_ATTEMPTS in *; lia|done|done|done|].
    intros Hall. destruct Hend as [k0 Hend]. destruct (Hall k0) as (msg & E & Ht).
    rewrite E in Hend. destruct Hend as [-> Hlast]. split; [|done].
    by apply Hlast, bool_decide_eq_true in Ht.
  - intros attempt Ha. unfold backoff_ms. rewrite Z.shiftl_1_l.
    assert (0 ≤ Z.min (Z.of_nat attempt - 1) 5) as Hm by lia.
    pose proof (Z.pow_le_mono_r 2 0 _ ltac:(lia) Hm). lia.
Qed.
End http.

(** *** Commands *)

Section commands.
Context {K : Type} `{KubeClient K}.

Lemma wp_exec_in_pod pod_name cmd stdin timeout_secs (Q : ManagerResult ExecCommandResult → K → Prop) k :
  (∀ e k', Q (Err e) k') →
  (∀ out code k', code = 0 ∨ code = 1 → Q (Ok (mkExecCommandResult out code)) k') →
  wp (exec_in_pod pod_name cmd stdin timeout_secs) Q k.
Proof.
  intros Herr Hok. unfold exec_in_pod, get_pod. apply wp_try, wp_bind. unfold wp at 1. apply wp_ret.
  destruct (run_val _ _) as [pod|e]; simpl; [|apply Herr].
  destruct (negb (pod_running pod)); [apply wp_ret, Herr|].
  apply wp_try, wp_bind. unfold wp at 1. apply wp_ret.
  destruct (run_val _ _) as [attached|e]; simpl; [|apply Herr].
  apply wp_try. unfold wp at 1. destruct (run_val _ _) as [[]|e]; [|apply Herr].
  do 3 (apply wp_bind; unfold wp at 1). apply wp_ret.
  destruct (run_val (join_process _ _) _), timeout_secs; auto.
Qed.

(** Commands in a pod.  Unless the pod is found and running, nothing is
    attached: the state is the one after the lookup, and the error says which it
    was.  The exit code that is reported is 0 or 1, whatever the process's was.
    An archive for a path with a forbidden sequence is refused before any call;
    one that is said to be uploaded was unpacked without an error. *)
Theorem exec_in_pod_spec pod_name cmd stdin timeout_secs k :
  (let '(r, k1) := pods_get pod_name k in
   match r with
   | Ok pod => pod_running pod = false →
       exec_in_pod pod_name cmd stdin timeout_secs k
       = (op_failed ("Pod " +:+ pod_name +:+ " is not running"), k1)
   | Err e =>
       exec_in_pod pod_name cmd stdin timeout_secs k
       = (Err (if is_not_found e then ManagerNotFound ("Pod: " +:+ pod_name)
               else ManagerApi ("Failed to get pod: " +:+ kube_error_to_string e)), k1)
   end) ∧
  wp (exec_in_pod pod_name cmd stdin timeout_secs) (λ r _,
    ∀ res, r = Ok res → exec_exit_code res = 0 ∨ exec_exit_code res = 1) k ∧
  (∀ id path data, existsb (λ p, contains p path) [".."; ";"; "&"; "|"] = true →
     upload_archive id path data k = (op_failed "Invalid path: contains forbidden characters", k)) ∧
  (∀ id path data k', upload_archive id path data k = (Ok (), k') →
     ∃ res, run_val (exec_in_pod (sandbox_resource_name id)
       ["sh"; "-c"; "sudo tar -xf - -C '" +:+ path +:+ "'"] (Some data) (Some 120)) k = Ok res ∧
       exec_exit_code res = 0).
Proof.
  split_and!.
  - destruct (pods_get pod_name k) as [r k1] eqn:E.
    assert (∀ X (f : ManagerResult Pod → M K X), (get_pod pod_name ≫= f) k =
      f (result_map_err (λ e, if is_not_found e then ManagerNotFound ("Pod: " +:+ pod_name)
         else ManagerApi ("Failed to get pod: " +:+ kube_error_to_string e)) r) k1) as Hg.
    { intros X f. unfold get_pod. rewrite !M_bind_unfold, E. done. }
    unfold exec_in_pod, try_. rewrite Hg. destruct r as [pod|e]; simpl; [|done].
    by intros ->.
  - by apply wp_exec_in_pod; [|intros out code k' Hc res [= <-]].
  - intros id path data Hbad. unfold upload_archive. by rewrite Hbad.
  - intros id path data k'. unfold upload_archive. destruct (existsb _ _); [done|].
    unfold try_, run_val. rewrite M_bind_unfold.
    destruct (exec_in_pod _ _ _ _ k) as [[res|e] k1]; simpl; [|done].
    case_bool_decide as Hc; simpl; [done|]. intros _. exists res. split; [done|].
    by destruct (decide (exec_exit_code res = 0)).
Qed.
End commands.

(** ** A concrete cluster

    The objects in maps; every call answers, and a deleted pod goes at once or,
    with [dc_grace], stays.  Nothing happens while the code sleeps. *)
Module KubeDemo.

Record DemoCluster : Type := mkDemo {
  dc_pods : gmap string Pod;
  dc_services : gmap string KService;
  dc_crds : gmap string SandboxCrd;
  dc_clock : Z;
  dc_grace : bool;
  dc_sent : list (string * string * option Json * Z);
}.

Definition set_pods (m : gmap string Pod) (d : DemoCluster) : DemoCluster :=
  mkDemo m (dc_services d) (dc_crds d) (dc_clock d) (dc_grace d) (dc_sent d).
Definition set_services (m : gmap string KService) (d : DemoCluster) : DemoCluster :=
  mkDemo (dc_pods d) m (dc_crds d) (dc_clock d) (dc_grace d) (dc_sent d).
Definition set_crds (m : gmap string SandboxCrd) (d : DemoCluster) : DemoCluster :=
  mkDemo (dc_pods d) (dc_services d) m (dc_clock d) (dc_grace d) (dc_sent d).
Definition tick (n : Z) (d : DemoCluster) : DemoCluster :=
  mkDemo (dc_pods d) (dc_services d) (dc_crds d) (dc_clock d + n) (dc_grace d) (dc_sent d).
Definition record_request r (d : DemoCluster) : DemoCluster :=
  mkDemo (dc_pods d) (dc_services d) (dc_crds d) (dc_clock d) (dc_grace d) (dc_sent d ++ [r]).

Definition lookup {R} (m : gmap string R) (name : string) : KResult R :=
  option_ok_or (KubeApi 404 name) (m !! name).

Definition insert_new {R} (name : string) (x : R) (m : gmap string R)
    (set : gmap string R → DemoCluster → DemoCluster) : M DemoCluster (KResult ()) := λ d,
  match m !! name with
  | Some _ => (Err (KubeApi 409 name), d)
  | None => (Ok (), set (<[name := x]> m) d)
  end.

#[export] Instance client : KubeClient DemoCluster := {|
  kube_error_to_string e := match e with KubeApi _ m => m | KubeOther m => m end;
  pods_get name := λ d, (lookup (dc_pods d) name, tick 1 d);
  pods_create pod := λ d,
    match om_name (pod_metadata pod) with
    | Some name => insert_new name pod (dc_pods d) set_pods d
    | None => (Err (KubeApi 422 "name"), d)
    end;
  pods_delete name := λ d,
    if dc_grace d then (Ok (), d) else (Ok (), set_pods (base.delete name (dc_pods d)) d);
  pods_list _ := λ d, (Ok (map_to_list (dc_pods d)).*2, d);
  services_create svc := λ d,
    match om_name (svc_metadata svc) with
    | Some name => insert_new name svc (dc_services d) set_services d
    | None => (Err (KubeApi 422 "name"), d)
    end;
  services_delete name := λ d, (Ok (), set_services (base.delete name (dc_services d)) d);
  crds_get name := λ d, (lookup (dc_crds d) name, d);
  crds_create name spec := λ d,
    insert_new name
      (mkSandboxCrd (mkObjectMeta (Some name) None None None (Some ("uid-" +:+ name)) None) spec None)
      (dc_crds d) set_crds d;
  crds_delete name := λ d,
    match dc_crds d !! name with
    | Some _ => (Ok (), set_crds (base.delete name (dc_crds d)) d)
    | None => (Err (KubeApi 404 name), d)
    end;
  crds_patch_status name st := λ d,
    match dc_crds d !! name with
    | Some sb =>
        (Ok (), set_crds (<[name := mkSandboxCrd (crd_metadata sb) (crd_spec sb) (Some st)]>
                            (dc_crds d)) d)
    | None => (Err (KubeApi 404 name), d)
    end;
  pvcs_delete _ := λ d, (Ok (), d);
  Attached := string;
  pods_attach pod cmd _ := λ d, (Ok pod, d);
  stdin_write_all _ _ := λ d, (Ok (), d);
  stdin_flush _ := λ d, (Ok (), d);
  stdin_shutdown _ := λ d, (Ok (), d);
  read_stdout pod := λ d, ("out", d);
  read_stderr pod := λ d, ("", d);
  join_process _ _ := λ d, (JoinOk, d);
  http_client_build _ := Ok ();
  http_request m url body timeout := λ d,
    (Err "operation timed out", record_request (m, url, body, timeout) d);
  json_from_str s := Err "no JSON";
  k_sleep_ms ms := λ d, ((), tick (Z.max 0 (ms * 1000000)) d);
  k_instant := λ d, (dc_clock d, tick 1 d);
  k_utc_now := λ d, (dc_clock d, d);
  k_new_v4 := λ d, (7%N, d);
|}.

#[export] Instance cluster : Cluster DemoCluster := {|
  cl_pods := dc_pods; cl_services := dc_services; cl_crds := dc_crds; cl_clock := dc_clock;
  answers _ := True;
|}.

#[export] Instance tolerations_lib : TolerationLib := {| toleration_from_value _ := None |}.

Lemma lookup_looked_up {R} (m : gmap string R) name (d : DemoCluster) :
  looked_up (m !! name) d (lookup m name).
Proof. unfold lookup. by destruct (m !! name). Qed.

Lemma insert_new_created {R} name (x : R) m set (get : DemoCluster → gmap string R) fine d :
  (∀ m' d', get (set m' d') = m') → get d = m →
  let '(r, d') := insert_new name x m set d in
  (d' = d ∨ d' = set (<[name := x]> m) d) ∧ only_at name m (get d') ∧
  created (m !! name) (get d' !! name) d fine r ∧ (r = Ok () → d' = set (<[name := x]> m) d).
Proof.
  intros Hset Hget. unfold insert_new. destruct (m !! name) eqn:E; simpl.
  - rewrite Hget, E. split_and!; try done. by left.
  - rewrite Hset, lookup_insert_eq. split_and!; try done; [by right|].
    intros n Hne. by rewrite lookup_insert_ne.
Qed.

#[export] Instance laws : KubeLaws DemoCluster.
Proof.
  split; intros; unfold wp, run_val, run_st; simpl.
  - split_and!; [done|simpl; lia|apply lookup_looked_up].
  - split_and!; [done|lia|apply lookup_looked_up].
  - rewrite H. pose proof (insert_new_created name pod (dc_pods k) set_pods dc_pods (WellTyped pod) k
      ltac:(done) eq_refl) as Hi.
    destruct (insert_new _ _ _ _ _) as [r d'] eqn:E. destruct Hi as (Hd & Ho & Hc & _). simpl.
    destruct Hd as [->| ->]; split_and!; done.
  - rewrite H. pose proof (insert_new_created name svc (dc_services k) set_services dc_services True k
      ltac:(done) eq_refl) as Hi.
    destruct (insert_new _ _ _ _ _) as [r d'] eqn:E. destruct Hi as (Hd & Ho & Hc & _). simpl.
    destruct Hd as [->| ->]; split_and!; done.
  - set (sb := mkSandboxCrd _ _ _).
    pose proof (insert_new_created name sb (dc_crds k) set_crds dc_crds True k
      ltac:(done) eq_refl) as Hi.
    destruct (insert_new _ _ _ _ _) as [r d'] eqn:E. destruct Hi as (Hd & Ho & Hc & Hok). simpl.
    split_and!; try done; try (by destruct Hd as [->| ->]).
    intros ->. rewrite Hok by done. eexists _, _. simpl. rewrite lookup_insert_eq.
    split_and!; [| |reflexivity]; done.
  - destruct (dc_grace k); simpl; split_and!; try done; [by right| |left; by rewrite lookup_delete_eq].
    intros n Hne. by rewrite lookup_delete_ne.
  - split_and!; try done; [|by rewrite lookup_delete_eq].
    intros n Hne. by rewrite lookup_delete_ne.
  - destruct (dc_crds k !! name) eqn:E; simpl; rewrite ?E; by split_and!.
  - destruct (dc_crds k !! name) eqn:E; simpl; split_and!; try done. by eexists.
  - split_and!; [done|done|lia].
  - lia.
Qed.

Definition config0 : Config := Config_default.
Definition spec0 : SandboxSpec := build_sandbox_spec config0 "7" SandboxConfig_default.
Definition meta0 : ObjectMeta := mkObjectMeta (Some "dsb-sb-7") None None None (Some "u") None.

Definition crd0 (phase : string) : SandboxCrd :=
  mkSandboxCrd meta0 spec0 (Some (status_of "dsb-sb-7" phase None None)).

Definition pod0 : Pod :=
  mkPod meta0 None
    (Some (mkPodStatus (Some "Running") (Some "10.0.0.7")
             (Some [mkPodCondition "Ready" "True" None None]) None)).

(** A running sandbox; one that was stopped. *)
Definition up : DemoCluster :=
  mkDemo {["dsb-sb-7" := pod0]} ∅ {["dsb-sb-7" := crd0 "Running"]} 0 true [].
Definition down : DemoCluster := mkDemo ∅ ∅ {["dsb-sb-7" := crd0 "Stopped"]} 0 false [].

Lemma crd0_named phase : Named "dsb-sb-7" (crd0 phase).
Proof. split; [done|vm_compute; done|by eexists]. Qed.

End KubeDemo.

(** ** Witnesses *)

Module Witnesses.
Import KubeDemo.
#[local] Existing Instance Demo.uuids.



Lemma wait_for_pod_ready_spec_witness :
  (wait_for_pod_ready config0 "dsb-sb-7" up).1 = Ok () ∧
  ∃ v k', wait_for_pod_ready config0 "dsb-sb-7" down = (v, k').
Proof.
  destruct (wait_for_pod_ready_spec config0 "dsb-sb-7" up) as (_ & Hready & _).
  destruct (wait_for_pod_ready_spec config0 "dsb-sb-7" down) as ((v & k' & _ & Hw) & _).
  split; [|eauto]. apply (Hready 0%nat). eapply ready_now; [reflexivity|done|reflexivity|done].
Defined.

Lemma stopped_cannot_start_witness :
  ∃ text, (start config0 "7" down).1 = Err (ManagerTimeout text).
Proof.
  apply (stopped_cannot_start config0 "7" down).
  - split_and!; [done|done|]. exists (crd0 "Stopped"). split_and!; [done|apply crd0_named|done].
  - by intros k Hk.
Defined.

Lemma stop_can_be_undone_witness :
  (stop "7" up).1 = Ok () ∧
  ∃ sb2, is_Some (dc_pods (reconcile config0 sb2
    (set_pods ∅ (reconcile config0 (crd0 "Stopped") (stop "7" up).2).2)).2 !! "dsb-sb-7").
Proof.
  assert (cl_crds up !! sandbox_resource_name "7" = Some (crd0 "Running")) as Hcrd
    by (vm_compute; reflexivity).
  assert (cl_pods (stop "7" up).2 !! sandbox_resource_name "7" = Some pod0) as Hstay
    by (vm_compute; reflexivity).
  destruct (stop_can_be_undone config0 "7" (crd0 "Running") pod0 up Hcrd (crd0_named "Running")
              I Hstay eq_refl) as (Hok & sb1 & Hsb1 & _ & sb2 & Hsb2 & _ & Hagain).
  split; [exact Hok|].
  assert (Some sb1 = Some (crd0 "Stopped")) as [= ->]
    by (rewrite <-Hsb1; vm_compute; reflexivity).
  exists sb2. apply Hagain; [exact Hsb2|done|done].
Defined.

Lemma backend_calls_spec_witness :
  (∃ sb, dc_crds (create config0 (Some 8%N) SandboxConfig_default up).2
           !! sandbox_resource_name (uuid_to_string 8%N) = Some sb ∧ wants_pod sb = true) ∧
  dc_pods up !! "dsb-sb-7" = Some pod0.
Proof.
  assert (plain_id (uuid_to_string 8%N)) as H8 by (split; [vm_compute; lia|done]).
  destruct (backend_calls_spec config0 8%N SandboxConfig_default up H8) as ((_ & _ & Hc) & _).
  match type of Hc with match ?x with _ => _ end =>
    assert (x = Ok (uuid_to_string 8%N)) as E by (vm_compute; reflexivity) end.
  split; [|reflexivity]. rewrite E in Hc. destruct Hc as (_ & _ & sb & Hsb & _ & Hw & _).
  exists sb. split; [exact Hsb|exact Hw].
Defined.

(** Every request times out: a command is sent twelve times. *)
Lemma exec_http_spec_witness :
  length (dc_sent (exec_http config0 "7" "/exec" "POST" (Some (JString "cmd")) None up).2) = 12%nat.
Proof.
  destruct (exec_http_spec config0 dc_sent ltac:(done) ltac:(done) "7" "/exec" "POST"
              (Some (JString "cmd")) None up) as [(n & _ & Hsent & _ & _ & Hall) _].
  destruct Hall as [Hn _]; [intros k0; by eexists|].
  unfold run_st in Hsent. rewrite Hsent, Hn. reflexivity.
Defined.

End Witnesses.
