(* ===== verification/Ops.v ===== *)
(** * Ops: the operations on an existing sandbox

    Models [src/core/sandbox/lifecycle.rs] (stop, start, delete),
    [src/core/sandbox/cleanup.rs] (cleanup, restore, shutdown cleanup),
    [src/core/sandbox/activity.rs], [src/core/sandbox/query.rs] and
    [src/core/sandbox/exec.rs], with the theorems that say what each one does
    to the records, on every branch. *)

From S2P Require Import Prelude Text Errors Types Store World Demo Service.

(** A stop that the service takes for a success: the backend stopped the
    container, or answered that there is none. *)
Definition stop_succeeded (r : ManagerResult ()) : bool :=
  match r with
  | Ok _ => true
  | Err (ManagerApi msg) => contains "404" msg
  | Err _ => false
  end.

Section ops.
Context {S B A : Type}.
Context `{!StateStoreTrait S} `{!SandboxManager B} `{!ActivityStoreTrait A}.
#[local] Abbreviation W := (World S B A).

(** ** [lifecycle.rs] *)

Definition stop_sandbox (id : Uuid) : M W (Result () BoxError) :=
  let* sandbox := ok_or "Sandbox not found" (st_get id) in
  let* _ :=
    match sb_container_id sandbox with
    | Some container_id =>
        r ← on_backend (bk_stop container_id);
        mret (if stop_succeeded r then Ok () else result_map_err BoxManager r)
    | None => mret (Ok ())
    end in
  now ← utc_now;
  let* _ := st_update (sb_set_updated_at now (sb_set_state Stopped sandbox)) in
  _ ← record_activity id ActStop (JObject []);
  mret (Ok ()).

Definition start_sandbox (id : Uuid) : M W (Result () BoxError) :=
  let* sandbox := ok_or "Sandbox not found" (st_get id) in
  let* _ :=
    match sb_container_id sandbox with
    | Some container_id => bk (bk_start container_id)
    | None => mret (Err (BoxMsg "Sandbox has no container assigned"))
    end in
  now ← utc_now;
  let* _ := st_update (sb_set_updated_at now (sb_set_state Running sandbox)) in
  _ ← record_activity id ActStart (JObject []);
  mret (Ok ()).

(** The container of a sandbox, removed if it has one. *)
Definition remove_container (sandbox : Sandbox) : M W (Result () BoxError) :=
  match sb_container_id sandbox with
  | Some container_id => bk (bk_delete container_id)
  | None => mret (Ok ())
  end.

(** The soft deletion: what [delete_sandbox] and [cleanup_sandbox] write. *)
Definition soft_deleted (deleted_at updated_at : DateTime) (who : string) (sandbox : Sandbox)
    : Sandbox :=
  sb_set_container_id None
    (sb_set_updated_at updated_at
       (sb_set_state Destroyed (sb_set_deleted (Some deleted_at) (Some who) sandbox))).

Definition delete_sandbox (id : Uuid) : M W (Result () BoxError) :=
  let* sandbox := ok_or "Sandbox not found" (st_get_with_deleted id true) in
  let* _ := remove_container sandbox in
  _ ← record_activity id ActDelete (JObject []);
  deleted_at ← utc_now;
  updated_at ← utc_now;
  let* _ := st_update (soft_deleted deleted_at updated_at "system" sandbox) in
  _ ← mark_sandbox_activities_deleted id;
  mret (Ok ()).

(** ** [cleanup.rs] *)

(** The loop over the volumes: named volumes are removed, errors only
    logged, bind mounts skipped. *)
Definition remove_named_volumes (volumes : list VolumeMount) : M W () :=
  for_each volumes (λ v,
    match v with
    | Named name _ _ => _ ← on_backend (bk_remove_volume name); mret ()
    | Bind _ _ _ => mret ()
    end).

Definition cleanup_sandbox (id : Uuid) : M W (Result () BoxError) :=
  let* sandbox := ok_or "Sandbox not found" (st_get_with_deleted id true) in
  let* _ := remove_container sandbox in
  _ ← remove_named_volumes (sb_volume_mounts sandbox);
  o ← st_get_with_deleted id true;
  match o with
  | Some sandbox' =>
      deleted_at ← utc_now;
      updated_at ← utc_now;
      let* _ := st_update (soft_deleted deleted_at updated_at "auto-cleanup" sandbox') in
      mret (Ok ())
  | None => mret (Ok ())
  end.

Definition create_container_for_sandbox (sandbox : Sandbox) : M W (Result string BoxError) :=
  let* _ :=
    match cfg_pull_policy (sb_config sandbox) with
    | Always => bk (bk_pull_image (cfg_image (sb_config sandbox)))
    | Missing => _ ← on_backend (bk_pull_image (cfg_image (sb_config sandbox))); mret (Ok ())
    | Never => mret (Ok ())
    end in
  bk (bk_create (Some (sb_id sandbox)) (sb_config sandbox)).

(** One more API call: the counter is a [u64] whose addition wraps in a
    release build. *)
Definition bump_activity (now : DateTime) (a : ActivityTracking) : ActivityTracking :=
  {| last_api_activity := now;
     last_container_activity := last_container_activity a;
     activity_count := u64_wrap (activity_count a + 1) |}.

(** The three writes of [restore_sandbox]: created, running, and the rollback. *)
Definition restored (cid : string) (now : DateTime) (sandbox : Sandbox) : Sandbox :=
  sb_set_updated_at now (sb_set_state Created
    (sb_set_deleted None None (sb_set_container_id (Some cid) sandbox))).

Definition restored_running (updated_at api : DateTime) (sandbox : Sandbox) : Sandbox :=
  sb_set_activity (bump_activity api (sb_activity sandbox))
    (sb_set_updated_at updated_at (sb_set_state Running sandbox)).

Definition restore_rolled_back (now : DateTime) (sandbox : Sandbox) : Sandbox :=
  sb_set_state Error (sb_set_deleted (Some now) (Some "system")
    (sb_set_container_id None sandbox)).

Definition restore_sandbox (id : Uuid) : M W (Result () BoxError) :=
  let* sandbox := ok_or "Sandbox not found" (st_get_with_deleted id true) in
  if bool_decide (sb_deleted_at sandbox = None) then
    mret (Err (BoxMsg "Sandbox is not deleted and cannot be restored"))
  else
    let* container_id := create_container_for_sandbox sandbox in
    now ← utc_now;
    let sandbox1 := restored container_id now sandbox in
    let* _ := st_update sandbox1 in
    r ← on_backend (bk_start container_id);
    match r with
    | Ok _ =>
        updated_at ← utc_now;
        api ← utc_now;
        let* _ := st_update (restored_running updated_at api sandbox1) in
        _ ← record_activity id ActRestore (JObject []);
        mret (Ok ())
    | Err e =>
        now' ← utc_now;
        _ ← st_update (restore_rolled_back now' sandbox1);
        mret (Err (BoxManager e))
    end.

Definition shutdown_cleanup_sandbox (id : Uuid) : M W (Result () BoxError) :=
  let* sandbox := ok_or "Sandbox not found" (st_get id) in
  let* _ := remove_container sandbox in
  now ← utc_now;
  let* _ := st_update (sb_set_updated_at now (sb_set_state Stopped sandbox)) in
  _ ← record_activity id ActStop (JObject []);
  mret (Ok ()).

(** ** [activity.rs]

    The read and the write of [record_api_activity] are two atomic steps of
    the store, between which another request may run. *)

Definition record_api_activity_write (o : option Sandbox) : M W () :=
  match o with
  | Some sandbox =>
      api ← utc_now;
      updated_at ← utc_now;
      _ ← st_update (sb_set_updated_at updated_at
                       (sb_set_activity (bump_activity api (sb_activity sandbox)) sandbox));
      mret ()
  | None => mret ()
  end.

Definition record_api_activity (id : Uuid) : M W () :=
  o ← st_get id; record_api_activity_write o.

Definition update_container_activity (id : Uuid) : M W () :=
  o ← st_get id;
  match o with
  | Some sandbox =>
      t ← utc_now;
      updated_at ← utc_now;
      let a := sb_activity sandbox in
      _ ← st_update (sb_set_updated_at updated_at (sb_set_activity
            {| last_api_activity := last_api_activity a;
               last_container_activity := Some t;
               activity_count := activity_count a |} sandbox));
      mret ()
  | None => mret ()
  end.

Definition get_sandbox_stats (id : Uuid) : M W (Result ContainerStats BoxError) :=
  let* sandbox := ok_or "Sandbox not found" (st_get id) in
  match sb_container_id sandbox with
  | Some container_id => bk (bk_stats container_id)
  | None => mret (Err (BoxMsg "Container not created"))
  end.

(** The checks of [stream_sandbox_stats] before its task is spawned: the
    container that the task will poll. *)
Definition stream_sandbox_stats (id : Uuid) : M W (Result string BoxError) :=
  let* sandbox := ok_or "Sandbox not found" (st_get id) in
  if negb (bool_decide (sb_state sandbox = Running)) then
    mret (Err (BoxMsg "Sandbox is not running"))
  else mret (option_ok_or (BoxMsg "Container not created") (sb_container_id sandbox)).

End ops.

(** ** [exec.rs] *)

Record ExecToolHttpRequest : Type := mkExecToolHttpRequest {
  ex_interpreter : string;
  ex_script_path : string;
  ex_action : string;
  ex_args : Json;
  ex_timeout : option Z;
  ex_environment : option (gmap string string);
}.

Definition infer_default_timeout (svc : SandboxService) (script_path : string) : Z :=
  if contains "browser" script_path then browser_tools_secs (tool_timeouts svc)
  else if contains "web" script_path then web_tools_secs (tool_timeouts svc)
  else if contains "databend" script_path then databend_tools_secs (tool_timeouts svc)
  else default_secs (tool_timeouts svc).

Definition get_tool_timeout (svc : SandboxService) (script_path : string)
    (requested : option Z) : Z :=
  match requested with
  | Some t => Z.min t (max_allowed_secs (tool_timeouts svc))
  | None => infer_default_timeout svc script_path
  end.

Definition exec_body (tool_timeout : Z) (r : ExecToolHttpRequest) : Json :=
  JObject
    [("interpreter", JString (ex_interpreter r));
     ("script_path", JString (ex_script_path r));
     ("action", JString (ex_action r));
     ("args", ex_args r);
     ("timeout", JNumber tool_timeout);
     ("environment",
        match ex_environment r with
        | Some env => JObject (prod_map id JString <$> map_to_list env)
        | None => JNull
        end)].

Section exec.
Context {S B A : Type}.
Context `{!StateStoreTrait S} `{!SandboxManager B} `{!ActivityStoreTrait A}.
#[local] Abbreviation W := (World S B A).

Definition exec_sandbox_result_with_stdin (id : Uuid) (command : list string)
    (stdin : option string) (timeout : option Z) : M W (Result ExecCommandResult BoxError) :=
  let* sandbox := ok_or "Sandbox not found" (st_get id) in
  if negb (bool_decide (sb_state sandbox = Running)) then
    mret (Err (BoxMsg ("Sandbox is not running (current state: "
                         +:+ SandboxState_as_str (sb_state sandbox) +:+ ")")))
  else
    match sb_container_id sandbox with
    | None => mret (Err (BoxMsg "Container not running or not started"))
    | Some container_id =>
        let* result := bk (bk_exec_with_stdin_result container_id command stdin timeout) in
        _ ← record_activity id ActExec (JObject [("command", json_strings command)]);
        mret (Ok result)
    end.

Definition exec_sandbox_with_stdin (id : Uuid) (command : list string)
    (stdin : option string) (timeout : option Z) : M W (Result string BoxError) :=
  r ← exec_sandbox_result_with_stdin id command stdin timeout;
  mret (match r with Ok result => Ok (exec_output result) | Err e => Err e end).

Definition exec_sandbox (id : Uuid) (command : list string) : M W (Result string BoxError) :=
  exec_sandbox_with_stdin id command None None.

Definition exec_tool_http (svc : SandboxService) (id : Uuid) (request : ExecToolHttpRequest)
    : M W (Result Json BoxError) :=
  let* sandbox := ok_or "Sandbox not found" (st_get id) in
  if negb (bool_decide (sb_state sandbox = Running)) then
    mret (Err (BoxMsg "Sandbox is not running"))
  else
    match sb_container_id sandbox with
    | None => mret (Err (BoxMsg "Container not running or not started"))
    | Some container_id =>
        let tool_timeout := get_tool_timeout svc (ex_script_path request) (ex_timeout request) in
        let http_timeout := u64_wrap (tool_timeout + http_buffer_secs (tool_timeouts svc)) in
        result ← on_backend (bk_exec_http container_id "/exec" "POST"
                   (Some (exec_body tool_timeout request)) (Some http_timeout));
        _ ← record_activity id ActExec
              (JObject [("script", JString (ex_script_path request));
                        ("action", JString (ex_action request));
                        ("method", JString "http")]);
        mret (result_map_err BoxManager result)
    end.

End exec.

(** ** Theorems *)

Section theorems.
Context {S B A : Type}.
Context `{!StateStoreTrait S} `{!StoreContract S}.
Context `{!SandboxManager B} `{!ActivityStoreTrait A}.
#[local] Abbreviation W := (World S B A).

(** What the backend answers when the service asks it to stop, start or
    remove the container of a sandbox, as the service takes it. *)
Definition stop_outcome (w : W) (sb : Sandbox) : Result () BoxError :=
  match sb_container_id sb with
  | Some cid =>
      let r := run_val (bk_stop cid) (w_backend w) in
      if stop_succeeded r then Ok () else result_map_err BoxManager r
  | None => Ok ()
  end.

Definition start_outcome (w : W) (sb : Sandbox) : Result () BoxError :=
  match sb_container_id sb with
  | Some cid => result_map_err BoxManager (run_val (bk_start cid) (w_backend w))
  | None => Err (BoxMsg "Sandbox has no container assigned")
  end.

Definition remove_outcome (w : W) (sb : Sandbox) : Result () BoxError :=
  match sb_container_id sb with
  | Some cid => result_map_err BoxManager (run_val (bk_delete cid) (w_backend w))
  | None => Ok ()
  end.

(** [becomes w w' id f]: the record [id] was rewritten by [f], applied to some
    two readings of the clock, and every other record is as it was. *)
Definition becomes (w w' : W) (id : Uuid) (f : DateTime → DateTime → Sandbox) : Prop :=
  ∃ t1 t2, db w' = <[id := stored_as (f t1 t2)]> (db w).

Definition moved (st : SandboxState) (sb : Sandbox) (_ t : DateTime) : Sandbox :=
  sb_set_updated_at t (sb_set_state st sb).

(** The common shape of an operation on the record [o] that was found under
    [id]: nothing found is an error; else the answer [outcome] of the backend
    is passed on, and only a success rewrites the record, by [f]. *)
Definition effect (w w' : W) (id : Uuid) (o : option Sandbox)
    (outcome : Sandbox → Result () BoxError) (f : Sandbox → DateTime → DateTime → Sandbox)
    (r : Result () BoxError) : Prop :=
  ok w' ∧
  match o with
  | None => r = Err (BoxMsg "Sandbox not found") ∧ db w' = db w
  | Some sb =>
      r = outcome sb ∧ if is_ok r then becomes w w' id (f sb) else db w' = db w
  end.

Lemma wp_try_remove {Y} sb (k : () → M W (Result Y BoxError)) Q (w : W) :
  ok w →
  (∀ w', ok w' → db w' = db w → w_tasks w' = w_tasks w → w_events w' = w_events w →
     match remove_outcome w sb with
     | Ok x => wp (k x) Q w'
     | Err e => Q (Err e) w'
     end) →
  wp (try_ (remove_container sb) k) Q w.
Proof.
  intros Hok HQ. unfold remove_container, remove_outcome in *.
  destruct (sb_container_id sb) as [cid|].
  - apply wp_try_bk. intros w' H1 H2 H3 H4 _. specialize (HQ w' (H1 Hok) H2 H3 H4).
    by destruct (run_val (bk_delete cid) (w_backend w)).
  - apply wp_try, wp_ret. by apply HQ.
Qed.

Lemma wp_do_volumes {Y} vs (k : () → M W Y) Q (w : W) :
  ok w →
  (∀ w', ok w' → db w' = db w → w_tasks w' = w_tasks w → w_events w' = w_events w →
     wp (k ()) Q w') →
  wp (remove_named_volumes vs ≫= k) Q w.
Proof.
  intros Hok HQ. apply wp_bind.
  eapply (wp_for_each (λ _ (w' : W), ok w' ∧ db w' = db w ∧ w_tasks w' = w_tasks w ∧
                                w_events w' = w_events w)); [done| |naive_solver].
  intros done v rest w' _ (H1 & H2 & H3 & H4). destruct v as [|name cp ro].
  - by apply wp_ret.
  - apply wp_bind, wp_backend. intros w'' K1 K2 K3 K4 _. apply wp_ret.
    split_and!; [auto|congruence..].
Qed.

(** The operation's end that stop, start and shutdown share: the record is
    written and the activity logged. *)
Lemma wp_move_and_log st sb id ty (Q : Result () BoxError → W → Prop) (w0 w : W) :
  ok w → db w = db w0 → db w0 !! id = Some sb → sb_id sb = id →
  (∀ w', ok w' → becomes w0 w' id (moved st sb) → Q (Ok ()) w') →
  wp (now ← utc_now;
      let* _ := st_update (sb_set_updated_at now (sb_set_state st sb)) in
      _ ← record_activity id ty (JObject []);
      mret (Ok ())) Q w.
Proof.
  intros Hok Hw Hsb Hid HQ. wp_clock. wp_write id. wp_log. apply wp_ret, HQ; world; [done|].
  exists t, t. by world.
Qed.

Lemma wp_stop id Q (w : W) :
  ok w →
  (∀ r w', effect w w' id (shown w id) (stop_outcome w) (moved Stopped) r → Q r w') →
  wp (stop_sandbox id) Q w.
Proof.
  intros Hok HQ. eapply wp_mono; [|exact HQ].
  unfold effect.
  apply wp_found_shown; [done|by intros ->|]. intros sb -> Hdb Hid.
  unfold stop_outcome. apply wp_try. destruct (sb_container_id sb) as [cid|].
  - apply wp_bind, wp_backend. intros w1 H1 H2 _ _ _. apply wp_ret.
    generalize (run_val (bk_stop cid) (w_backend w)); intros r.
    destruct (stop_succeeded r) eqn:E; [|destruct r as [|e]; [done|by finish]].
    by eapply wp_move_and_log; eauto.
  - apply wp_ret. by eapply wp_move_and_log; eauto.
Qed.

Lemma wp_start id Q (w : W) :
  ok w →
  (∀ r w', effect w w' id (shown w id) (start_outcome w) (moved Running) r → Q r w') →
  wp (start_sandbox id) Q w.
Proof.
  intros Hok HQ. eapply wp_mono; [|exact HQ].
  unfold effect.
  apply wp_found_shown; [done|by intros ->|]. intros sb -> Hdb Hid.
  unfold start_outcome. destruct (sb_container_id sb) as [cid|].
  - apply wp_try_bk. intros w1 H1 H2 _ _ _.
    destruct (run_val (bk_start cid) (w_backend w)) as [[]|e]; simpl; [|by finish].
    by eapply wp_move_and_log; eauto.
  - by apply wp_try, wp_ret.
Qed.

Lemma wp_delete id Q (w : W) :
  ok w →
  (∀ r w', effect w w' id (db w !! id) (remove_outcome w) (λ sb t1 t2, soft_deleted t1 t2 "system" sb) r → Q r w') →
  wp (delete_sandbox id) Q w.
Proof.
  intros Hok HQ. eapply wp_mono; [|exact HQ].
  unfold effect.
  apply wp_found_any; [done|by intros ->|]. intros sb Hdb Hid. rewrite Hdb.
  apply wp_try_remove; [done|]. intros w1 H1 H2 _ _.
  destruct (remove_outcome w sb) as [[]|e]; [|by finish].
  wp_log. do 2 wp_clock. wp_write id.
  apply wp_bind, wp_mark_deleted. intros w6 K. use_keeps K. apply wp_ret.
  split_and!; [by world|done|]. exists t, t0. by world.
Qed.

Lemma wp_cleanup id Q (w : W) :
  ok w →
  (∀ r w', effect w w' id (db w !! id) (remove_outcome w) (λ sb t1 t2, soft_deleted t1 t2 "auto-cleanup" sb) r → Q r w') →
  wp (cleanup_sandbox id) Q w.
Proof.
  intros Hok HQ. eapply wp_mono; [|exact HQ].
  unfold effect.
  apply wp_found_any; [done|by intros ->|]. intros sb Hdb Hid.
  rewrite Hdb. apply wp_try_remove; [done|]. intros w1 H1 H2 _ _.
  destruct (remove_outcome w sb) as [[]|e]; [|by finish].
  apply wp_do_volumes; [done|]. intros w2 K1 K2 _ _. world.
  apply wp_bind, wp_get_with_deleted; [done|]. world. rewrite Hdb.
  do 2 wp_clock. wp_write id. apply wp_ret.
  split_and!; [done..|]. exists t, t0. by world.
Qed.

Lemma wp_shutdown id Q (w : W) :
  ok w →
  (∀ r w', effect w w' id (shown w id) (remove_outcome w) (moved Stopped) r → Q r w') →
  wp (shutdown_cleanup_sandbox id) Q w.
Proof.
  intros Hok HQ. eapply wp_mono; [|exact HQ].
  unfold effect.
  apply wp_found_shown; [done|by intros ->|]. intros sb -> Hdb Hid.
  apply wp_try_remove; [done|]. intros w1 H1 H2 _ _.
  destruct (remove_outcome w sb) as [[]|e]; [|by finish].
  by eapply wp_move_and_log; eauto.
Qed.


(** The record of a deleted sandbox: destroyed, soft-deleted, without
    container, still its owner's. *)
Definition buried (w w' : W) (id : Uuid) : Prop :=
  ∃ sb sb', db w !! id = Some sb ∧ db w' !! id = Some sb' ∧
    sb_state sb' = Destroyed ∧ sb_container_id sb' = None ∧ is_Some (sb_deleted_at sb') ∧
    sb_api_key_id sb' = sb_api_key_id sb ∧ ∀ id', id' ≠ id → db w' !! id' = db w !! id'.

Lemma effect_buried who (w w' : W) id r :
  effect w w' id (db w !! id) (remove_outcome w) (λ sb t1 t2, soft_deleted t1 t2 who sb) r →
  r = Ok () → buried w w' id.
Proof.
  intros [_ He] ->. destruct (db w !! id) as [sb|] eqn:Hs; [|by destruct He].
  destruct He as [_ (t1 & t2 & Hdb)]. exists sb, (stored_as (soft_deleted t1 t2 who sb)).
  rewrite Hdb, lookup_insert_eq, stored_as_state, stored_as_container, stored_as_owner,
    stored_as_deleted. split_and!; try done. intros id' Hne. by rewrite lookup_insert_ne.
Qed.


(** Creating the container of a record changes no record. *)
Lemma create_container_keeps sb (w : W) :
  ok w →
  let w' : W := run_st (create_container_for_sandbox sb) w in
  ok w' ∧ db w' = db w ∧ w_tasks w' = w_tasks w ∧ w_events w' = w_events w.
Proof.
  intros Hok.
  enough (wp (create_container_for_sandbox sb)
            (λ _ (w' : W), ok w' ∧ db w' = db w ∧ w_tasks w' = w_tasks w ∧ w_events w' = w_events w) w)
    as H by exact H.
  assert (∀ w1 : W, ok w1 → db w1 = db w → w_tasks w1 = w_tasks w → w_events w1 = w_events w →
    wp (bk (bk_create (Some (sb_id sb)) (sb_config sb)))
      (λ _ (w' : W), ok w' ∧ db w' = db w ∧ w_tasks w' = w_tasks w ∧ w_events w' = w_events w) w1)
    as Hcreate.
  { intros w1 H1 H2 H3 H4. apply wp_bind, wp_backend. intros w2 K1 K2 K3 K4 _. apply wp_ret.
    split_and!; [auto|congruence..]. }
  unfold create_container_for_sandbox. destruct (cfg_pull_policy (sb_config sb)).
  - apply wp_try_bk. intros w1 H1 H2 H3 H4 _. case_match; [by apply Hcreate; auto|auto].
  - apply wp_try, wp_bind, wp_backend. intros w1 H1 H2 H3 H4 _. apply wp_ret.
    by apply Hcreate; auto.
  - by apply wp_try, wp_ret, Hcreate.
Qed.

(** What [restore_sandbox] does. *)
Definition restore_effect (w w' : W) (id : Uuid) (r : Result () BoxError) : Prop :=
  ok w' ∧
    match db w !! id with
    | None => r = Err (BoxMsg "Sandbox not found") ∧ db w' = db w
    | Some sb =>
        if bool_decide (sb_deleted_at sb = None) then
          r = Err (BoxMsg "Sandbox is not deleted and cannot be restored") ∧ db w' = db w
        else
          match create_container_for_sandbox sb w with
          | (Err e, _) => r = Err e ∧ db w' = db w
          | (Ok cid, w1) =>
              r = result_map_err BoxManager (run_val (bk_start cid) (w_backend w1)) ∧
              ∃ t, becomes w w' id (λ t1 t2,
                let sb1 := restored cid t sb in
                if is_ok r then restored_running t1 t2 sb1 else restore_rolled_back t1 sb1)
          end
    end.

Lemma wp_restore id Q (w : W) :
  ok w → (∀ r w', restore_effect w w' id r → Q r w') → wp (restore_sandbox id) Q w.
Proof.
  intros Hok HQ. eapply wp_mono; [|exact HQ].
  unfold restore_effect. apply wp_found_any; [done|by intros ->|]. intros sb Hdb Hid. rewrite Hdb.
  case_bool_decide as Hdel; [by apply wp_ret|].
  apply wp_try_run. destruct (create_container_keeps sb w Hok) as (K1 & K2 & _ & _).
  unfold run_st in K1, K2.
  destruct (create_container_for_sandbox sb w) as [[cid|e] w1]; simpl in *; [|done].
  wp_clock. wp_write id.
  apply wp_bind, wp_backend. intros w4 J1 J2 _ _ _.
  replace (w_backend w2) with (w_backend w1) by congruence.
  destruct (run_val (bk_start cid) (w_backend w1)) as [[]|e].
  - do 2 wp_clock. wp_write id. wp_log. apply wp_ret. split_and!; [by world|done|].
    exists t, t0, t1. world. by rewrite insert_insert_eq.
  - wp_clock. wp_write id. apply wp_ret. split_and!; [by world|done|].
    exists t, t0, t0. world. by rewrite insert_insert_eq.
Qed.

(** C4: restoring a sandbox.  Only a soft-deleted record can be restored; when
    the image or the container cannot be made, nothing changes; when the new
    container does not start, the record goes back to soft-deleted, in error
    and without container; otherwise it is live and running in the new
    container, with one more activity on its count. *)
Theorem restore_sandbox_spec id (w : W) :
  ok w → wp (restore_sandbox id) (λ r w', restore_effect w w' id r) w.
Proof. intros Hok. by apply wp_restore. Qed.

(** What one recorded API call makes of a record. *)
Definition touched (sb : Sandbox) (api updated_at : DateTime) : Sandbox :=
  sb_set_updated_at updated_at (sb_set_activity (bump_activity api (sb_activity sb)) sb).

(** The write of [record_api_activity], from whatever record was read. *)
Lemma wp_record_api_activity_write id sb Q (w : W) :
  ok w → updatable w sb → sb_id sb = id →
  (∀ w', ok w' → becomes w w' id (touched sb) → Q () w') →
  wp (record_api_activity_write (Some sb)) Q w.
Proof.
  intros Hok Hup Hid HQ. do 2 wp_clock. wp_write id. apply wp_ret, HQ; [done|].
  exists t, t0. by world.
Qed.

(** The effect of rewriting the record shown under [id], if there is one. *)
Definition touch_effect (w w' : W) (id : Uuid)
    (f : Sandbox → DateTime → DateTime → Sandbox) : Prop :=
  ok w' ∧
  match shown w id with
  | None => db w' = db w
  | Some sb => becomes w w' id (f sb)
  end.

Lemma wp_record_api id (Q : () → W → Prop) (w : W) :
  ok w → (∀ w', touch_effect w w' id touched → Q () w') →
  wp (record_api_activity id) Q w.
Proof.
  intros Hok HQ. apply wp_bind, wp_get; [done|]. fold (shown w id). unfold touch_effect in HQ.
  destruct (shown w id) as [sb|] eqn:E; [|by apply wp_ret, HQ].
  destruct (shown_Some _ _ _ E) as [Hdb _].
  apply wp_record_api_activity_write with id; eauto using db_keyed, updatable_db.
Qed.

Lemma record_api_keeps_backend b id :
  preserves (λ w : W, w_backend w = b) (record_api_activity id).
Proof.
  assert (∀ X (m : M S X), preserves (λ w : W, w_backend w = b) (on_store m)) as Hst.
  { intros X m w Hw. unfold run_st, on_store. by destruct (m (w_store w)). }
  apply preserves_bind; [apply Hst|]. intros [sb|]; [|apply preserves_ret].
  do 2 (apply preserves_bind; [by intros ?|intros ?]).
  apply preserves_bind; [|intros ?; apply preserves_ret].
  apply preserves_bind; [apply Hst|intros ?; apply preserves_ret].
Qed.

(** The same, with what a caller needs to go on with. *)
Lemma wp_touch id (Q : () → W → Prop) (w : W) :
  ok w →
  (∀ w', touch_effect w w' id touched → w_backend w' = w_backend w → Q () w') →
  wp (record_api_activity id) Q w.
Proof.
  intros Hok HQ.
  apply (wp_preserves (λ w1, w_backend w1 = w_backend w)); [apply record_api_keeps_backend|done|].
  by apply wp_record_api.
Qed.

Lemma touch_effect_keep (w w1 w2 : W) id f :
  touch_effect w w1 id f → ok w2 → db w2 = db w1 → touch_effect w w2 id f.
Proof.
  intros [_ Ht] Hok2 Hdb. split; [done|]. destruct (shown w id).
  - destruct Ht as (t1 & t2 & Ht). exists t1, t2. congruence.
  - congruence.
Qed.

(** A record rewritten without a change of its deletion is shown as before. *)
Lemma becomes_shown (w w' : W) id sb f :
  shown w id = Some sb → becomes w w' id f →
  (∀ t1 t2, sb_deleted_at (f t1 t2) = sb_deleted_at sb) →
  ∃ t1 t2, shown w' id = Some (stored_as (f t1 t2)).
Proof.
  intros Hs (t1 & t2 & Hdb) Hf. exists t1, t2. destruct (shown_Some _ _ _ Hs) as [_ Hv].
  unfold shown. rewrite Hdb, lookup_insert_eq. unfold option_filter.
  assert (visible shows_deleted (stored_as (f t1 t2)) = true) as ->; [|done].
  unfold visible in *. destruct shows_deleted; [done|]. simpl in *.
  pose proof (stored_as_deleted (f t1 t2)) as [Hd _]. rewrite Hf in Hd.
  destruct (sb_deleted_at (stored_as (f t1 t2))) as [t|]; [|done].
  destruct (Hd ltac:(eauto)) as [x Hx]. by rewrite Hx in Hv.
Qed.

Lemma touched_shown (w w' : W) id :
  touch_effect w w' id touched →
  (shown w id = None ∧ shown w' id = None) ∨
  ∃ sb t1 t2, shown w id = Some sb ∧ shown w' id = Some (stored_as (touched sb t1 t2)).
Proof.
  intros [_ Ht]. destruct (shown w id) as [sb|] eqn:E.
  - right. destruct (becomes_shown w w' id sb (touched sb) E Ht) as (t1 & t2 & Hs); [done|].
    by exists sb, t1, t2.
  - left. split; [done|]. unfold shown in *. by rewrite Ht, E.
Qed.

(** What one sign of life from the container makes of a record. *)
Definition container_touched (sb : Sandbox) (t updated_at : DateTime) : Sandbox :=
  sb_set_updated_at updated_at (sb_set_activity
    {| last_api_activity := last_api_activity (sb_activity sb);
       last_container_activity := Some t;
       activity_count := activity_count (sb_activity sb) |} sb).

Lemma wp_update_container id (Q : () → W → Prop) (w : W) :
  ok w → (∀ w', touch_effect w w' id container_touched → Q () w') →
  wp (update_container_activity id) Q w.
Proof.
  intros Hok HQ. apply wp_bind, wp_get; [done|]. fold (shown w id). unfold touch_effect in HQ.
  destruct (shown w id) as [sb|] eqn:E; [|by apply wp_ret, HQ].
  destruct (shown_Some _ _ _ E) as [Hdb _]. assert (Hid := db_keyed _ _ _ Hok Hdb).
  do 2 wp_clock. wp_write id. apply wp_ret, HQ. split; [done|]. exists t, t0. by world.
Qed.

(** recording an API call on a record the store shows adds one to its
    activity count, moves its last activity to the present and changes
    nothing else; on any other id it does nothing. *)
Theorem record_api_activity_spec id (w : W) :
  ok w →
  wp (record_api_activity id) (λ _ w', touch_effect w w' id touched) w.
Proof. intros Hok. by apply wp_record_api. Qed.

(** recording an API call is not atomic.  When a deletion runs to its end
    between the read and the write, the write brings the deleted record back:
    it is as live as it was when it was read, in its old state, and names a
    container that the backend has removed. *)
Theorem record_api_activity_undoes_delete id sb (w : W) :
  ok w → shown w id = Some sb → remove_outcome w sb = Ok () →
  wp (o ← st_get id;
      r ← delete_sandbox id;
      _ ← record_api_activity_write o;
      mret r) (λ r w',
    r = Ok () ∧
    ∃ sb', db w' !! id = Some sb' ∧
      sb_state sb' = sb_state sb ∧ sb_container_id sb' = sb_container_id sb ∧
      (is_Some (sb_deleted_at sb') ↔ is_Some (sb_deleted_at sb))) w.
Proof.
  intros Hok Hsb Hrm. apply wp_bind, wp_get; [done|]. fold (shown w id). rewrite Hsb.
  destruct (shown_Some _ _ _ Hsb) as [Hdb _]. assert (Hid := db_keyed _ _ _ Hok Hdb).
  apply wp_bind. apply wp_found_any; [done|congruence|]. intros sb0 Hsb0 _. simplify_eq.
  apply wp_try_remove; [done|]. intros w1 H1 H2 _ _. rewrite Hrm.
  wp_log. do 2 wp_clock. wp_write (sb_id sb).
  apply wp_bind, wp_mark_deleted. intros w6 K. use_keeps K. apply wp_ret.
  apply wp_bind. apply wp_record_api_activity_write with (sb_id sb);
    [by world|can_update (sb_id sb)|done|].
  intros w7 Hok7 (t1 & t2 & Hdb7). apply wp_ret. split; [done|].
  eexists. rewrite Hdb7, lookup_insert_eq. split; [done|].
  rewrite stored_as_state, stored_as_container. split_and!; [done..|].
  by rewrite stored_as_deleted.
Qed.

(** Why an execution is refused: the messages of the two callers differ. *)
Definition exec_target (not_running : SandboxState → string) (sb : Sandbox)
    : Result string BoxError :=
  if negb (bool_decide (sb_state sb = Running)) then Err (BoxMsg (not_running (sb_state sb)))
  else option_ok_or (BoxMsg "Container not running or not started") (sb_container_id sb).

Lemma wp_exec id command stdin timeout (w : W) :
  ok w →
  wp (exec_sandbox_result_with_stdin id command stdin timeout) (λ r w',
    ok w' ∧ db w' = db w ∧
    match shown w id with
    | None => r = Err (BoxMsg "Sandbox not found")
    | Some sb =>
        r = (let? cid := exec_target (λ st, "Sandbox is not running (current state: "
                                       +:+ SandboxState_as_str st +:+ ")") sb in
             result_map_err BoxManager
               (run_val (bk_exec_with_stdin_result cid command stdin timeout) (w_backend w)))
    end) w.
Proof.
  intros Hok. apply wp_found_shown; [done|by intros ->|]. intros sb -> Hdb Hid.
  unfold exec_target. case_bool_decide; simpl; [|by apply wp_ret].
  destruct (sb_container_id sb) as [cid|]; simpl; [|by apply wp_ret].
  apply wp_try_bk. intros w1 H1 H2 _ _ _.
  destruct (run_val _ (w_backend w)) as [x|e]; [|by finish].
  wp_log. apply wp_ret. by finish.
Qed.

(** executing a command changes no record; it reaches the backend only for
    a running sandbox with a container, with the caller's command, input and
    timeout, and passes the backend's answer on. *)
Theorem exec_sandbox_spec id command stdin timeout (w : W) :
  ok w →
  wp (exec_sandbox_result_with_stdin id command stdin timeout) (λ r w',
    ok w' ∧ db w' = db w ∧
    match shown w id with
    | None => r = Err (BoxMsg "Sandbox not found")
    | Some sb =>
        r = (let? cid := exec_target (λ st, "Sandbox is not running (current state: "
                                       +:+ SandboxState_as_str st +:+ ")") sb in
             result_map_err BoxManager
               (run_val (bk_exec_with_stdin_result cid command stdin timeout) (w_backend w)))
    end) w.
Proof. apply wp_exec. Qed.

Lemma wp_exec_tool svc id request (w : W) :
  ok w →
  wp (exec_tool_http svc id request) (λ r w',
    ok w' ∧ db w' = db w ∧
    match shown w id with
    | None => r = Err (BoxMsg "Sandbox not found")
    | Some sb =>
        r = (let? cid := exec_target (λ _, "Sandbox is not running") sb in
             let t := get_tool_timeout svc (ex_script_path request) (ex_timeout request) in
             result_map_err BoxManager
               (run_val (bk_exec_http cid "/exec" "POST" (Some (exec_body t request))
                  (Some (u64_wrap (t + http_buffer_secs (tool_timeouts svc)))))
                  (w_backend w)))
    end) w.
Proof.
  intros Hok. apply wp_found_shown; [done|by intros ->|]. intros sb -> Hdb Hid.
  unfold exec_target. case_bool_decide; simpl; [|by apply wp_ret].
  destruct (sb_container_id sb) as [cid|]; simpl; [|by apply wp_ret].
  apply wp_bind, wp_backend. intros w1 H1 H2 _ _ _. wp_log. apply wp_ret. by finish.
Qed.

(** a tool call over HTTP changes no record; it reaches the backend only for
    a running sandbox with a container, as a [POST] of the request to
    [/exec], whose timeout is the tool's plus the network buffer. *)
Theorem exec_tool_http_spec svc id request (w : W) :
  ok w →
  wp (exec_tool_http svc id request) (λ r w',
    ok w' ∧ db w' = db w ∧
    match shown w id with
    | None => r = Err (BoxMsg "Sandbox not found")
    | Some sb =>
        r = (let? cid := exec_target (λ _, "Sandbox is not running") sb in
             let t := get_tool_timeout svc (ex_script_path request) (ex_timeout request) in
             result_map_err BoxManager
               (run_val (bk_exec_http cid "/exec" "POST" (Some (exec_body t request))
                  (Some (u64_wrap (t + http_buffer_secs (tool_timeouts svc)))))
                  (w_backend w)))
    end) w.
Proof. apply wp_exec_tool. Qed.
End theorems.

(** the timeout of a tool.  A requested one is capped at the configured
    maximum; and when no configured timeout exceeds that maximum, no tool
    timeout does, and the HTTP timeout above it does not overflow as long as
    maximum and buffer fit a [u64] together. *)
Theorem tool_timeout_bounds svc script_path requested :
  let c := tool_timeouts svc in
  let t := get_tool_timeout svc script_path requested in
  default_secs c ≤ max_allowed_secs c → web_tools_secs c ≤ max_allowed_secs c →
  browser_tools_secs c ≤ max_allowed_secs c → databend_tools_secs c ≤ max_allowed_secs c →
  Forall (λ z, 0 ≤ z) [default_secs c; web_tools_secs c; browser_tools_secs c;
                       databend_tools_secs c; http_buffer_secs c] →
  (∀ r, requested = Some r → 0 ≤ r) →
  max_allowed_secs c + http_buffer_secs c < 2 ^ 64 →
  t ≤ max_allowed_secs c ∧
  (∀ r, requested = Some r → t ≤ r) ∧
  u64_wrap (t + http_buffer_secs c) = t + http_buffer_secs c.
Proof.
  intros c t H1 H2 H3 H4 H5 Hr H6. decompose_Forall_hyps.
  assert (0 ≤ t ≤ max_allowed_secs c) as Ht.
  { unfold t, get_tool_timeout, infer_default_timeout. destruct requested as [r|].
    - specialize (Hr r eq_refl). fold c. lia.
    - repeat case_match; fold c; lia. }
  split_and!; [lia| |apply u64_wrap_id; unfold is_u64; lia].
  intros r ->. unfold t. simpl. lia.
Qed.

(** ** Witnesses *)

Module Witnesses.
Import Demo.



Lemma restore_sandbox_spec_witness :
  run_val (restore_sandbox 2%N) Demo.world = Ok () ∧
  restore_effect Demo.world (run_st (restore_sandbox 2%N) Demo.world) 2%N
    (run_val (restore_sandbox 2%N) Demo.world).
Proof.
  split; [vm_compute; reflexivity|]. exact (restore_sandbox_spec 2%N Demo.world Demo.world_ok).
Defined.

Lemma record_api_activity_spec_witness :
  (sb_activity <$> db (run_st (record_api_activity 1%N) Demo.world) !! 1%N)
    = Some (mkActivityTracking 1000 None 1) ∧
  touch_effect Demo.world (run_st (record_api_activity 1%N) Demo.world) 1%N touched.
Proof.
  split; [vm_compute; reflexivity|]. exact (record_api_activity_spec 1%N Demo.world Demo.world_ok).
Defined.

Lemma record_api_activity_undoes_delete_witness :
  shown Demo.world 1%N = Some Demo.live ∧
  wp (o ← st_get 1%N;
      r ← delete_sandbox 1%N;
      _ ← record_api_activity_write o;
      mret r) (λ r w', r = Ok () ∧
    ∃ sb', db w' !! 1%N = Some sb' ∧ sb_state sb' = Running ∧
      sb_container_id sb' = Some "c0" ∧
      (is_Some (sb_deleted_at sb') ↔ is_Some (sb_deleted_at Demo.live))) Demo.world.
Proof.
  split; [reflexivity|].
  exact (record_api_activity_undoes_delete 1%N Demo.live Demo.world Demo.world_ok eq_refl eq_refl).
Defined.

Lemma exec_sandbox_spec_witness :
  wp (exec_sandbox_result_with_stdin 1%N ["ls"] None None)
    (λ r w', ok w' ∧ db w' = db Demo.world ∧ r = Ok (mkExecCommandResult "out" 0)) Demo.world.
Proof.
  exact (exec_sandbox_spec 1%N ["ls"] None None Demo.world Demo.world_ok).
Defined.

Definition request : ExecToolHttpRequest :=
  mkExecToolHttpRequest "python" "browser.py" "open" JNull (Some 1000) None.

Lemma exec_tool_http_spec_witness :
  wp (exec_tool_http SandboxService_new 2%N request)
    (λ r w', ok w' ∧ db w' = db Demo.world ∧ r = Err (BoxMsg "Sandbox is not running"))
    Demo.world.
Proof.
  exact (exec_tool_http_spec SandboxService_new 2%N request Demo.world Demo.world_ok).
Defined.

Lemma tool_timeout_bounds_witness :
  get_tool_timeout SandboxService_new "browser.py" (Some 1000) ≤ 300 ∧
  (∀ r, Some 1000 = Some r → get_tool_timeout SandboxService_new "browser.py" (Some 1000) ≤ r) ∧
  u64_wrap (get_tool_timeout SandboxService_new "browser.py" (Some 1000) + 30)
    = get_tool_timeout SandboxService_new "browser.py" (Some 1000) + 30.
Proof.
  apply (tool_timeout_bounds SandboxService_new "browser.py" (Some 1000)); simpl; try lia.
  - repeat constructor; lia.
  - intros r [= <-]. lia.
Defined.

End Witnesses.
