(* ===== verification/Files.v ===== *)
(** * Files: moving files into and out of a sandbox

    Models [src/core/sandbox/files.rs] (upload and download), [shell_quote] of
    [src/core/static_files.rs], [src/utils/mime.rs], and the upload and download
    handlers of [src/api/handlers/sandbox.rs] with the path check they share.
    The tar, base64 and HTTP header libraries are parameters.

    The theorems: the shell reads every path the commands are built from as one
    word; a checked path cannot leave its directory; a download gives what the
    file holds, and what was uploaded before; the handlers do nothing for a
    caller who does not own the sandbox. *)

From S2P Require Import Prelude Text Paths Errors Types Store World Demo Service Ops.
From Stdlib Require Import Ascii.

(** ** Quoting for the shell *)

Definition shell_quote (path : string) : string :=
  "'" +:+ replace "'" "'\''" path +:+ "'".

Definition sh_c (line : string) : list string := ["sh"; "-c"; line].

Definition check_line (quoted : string) : string :=
  "test -f " +:+ quoted +:+ " && echo 'exists' || echo 'notfound'".
Definition size_line (quoted : string) : string :=
  "wc -c < " +:+ quoted +:+ " 2>/dev/null || echo '0'".
Definition read_line (quoted : string) : string := "base64 -w0 " +:+ quoted.

Definition build_download_cmds (src_path : string)
    : list string * list string * list string :=
  let quoted := shell_quote src_path in
  (sh_c (check_line quoted), sh_c (size_line quoted), sh_c (read_line quoted)).

(** ** MIME types *)

Definition mime_types : list (string * string) :=
  [("html", "text/html"); ("htm", "text/html"); ("css", "text/css");
   ("js", "application/javascript"); ("mjs", "application/javascript");
   ("cjs", "application/javascript"); ("json", "application/json");
   ("xml", "application/xml"); ("xsl", "application/xml"); ("xsd", "application/xml");
   ("png", "image/png"); ("jpg", "image/jpeg"); ("jpeg", "image/jpeg"); ("jpe", "image/jpeg");
   ("gif", "image/gif"); ("svg", "image/svg+xml"); ("svgz", "image/svg+xml");
   ("ico", "image/x-icon"); ("webp", "image/webp"); ("bmp", "image/bmp");
   ("tiff", "image/tiff"); ("tif", "image/tiff"); ("woff", "font/woff");
   ("woff2", "font/woff2"); ("ttf", "font/ttf"); ("otf", "font/otf");
   ("eot", "application/vnd.ms-fontobject"); ("txt", "text/plain"); ("md", "text/markdown");
   ("markdown", "text/markdown"); ("csv", "text/csv"); ("pdf", "application/pdf");
   ("zip", "application/zip"); ("tar", "application/x-tar"); ("gz", "application/gzip");
   ("gzip", "application/gzip"); ("rar", "application/vnd.rar");
   ("7z", "application/x-7z-compressed"); ("wasm", "application/wasm");
   ("webmanifest", "application/manifest+json"); ("mp3", "audio/mpeg"); ("wav", "audio/wav");
   ("ogg", "audio/ogg"); ("mp4", "video/mp4"); ("webm", "video/webm"); ("avi", "video/x-msvideo")].

Definition detect_mime_type (file_path : string) : string :=
  default "application/octet-stream" (extension file_path ≫= match_str mime_types).

(** ** The check of a path given by a client *)

Definition path_error (message : string) : ApiError :=
  ApiValidation message (Some "path") ValidationError.

(** The loop over the components: whether the path is absolute, and its names. *)
Fixpoint collect_components (cs : list Component) (is_absolute : bool) (names : list string)
    : Result (bool * list string) ApiError :=
  match cs with
  | [] => Ok (is_absolute, names)
  | NormalName s :: cs' => collect_components cs' is_absolute (names ++ [s])
  | ParentDir :: _ => Err (path_error "Invalid path: contains directory traversal")
  | RootDir :: cs' => collect_components cs' true names
  | CurDir :: cs' => collect_components cs' is_absolute names
  end.

Definition null_byte : ascii := "000".
Definition backslash : ascii := "\".

Definition sanitize_path (path : string) : Result string ApiError :=
  if has_char null_byte path then Err (path_error "Invalid path: contains null bytes")
  else if has_control path then Err (path_error "Invalid path: contains control characters")
  else if has_char backslash path then Err (path_error "Invalid path: contains backslashes")
  else
    let? (is_absolute, names) := collect_components (components path) false [] in
    let normalized :=
      if (is_absolute : bool) then "/" +:+ join "/" names else join "/" names in
    if is_empty normalized then Err (path_error "Invalid path: path is empty")
    else Ok normalized.

Definition extract_filename (path : string) : string :=
  default "uploaded_file" (file_name path).

(** ** Libraries *)

(** The [tar] crate.  [tar_set_path] gives the path as the header keeps it;
    [tar_append] and [tar_into_inner] make the archive. *)
Record TarHeader : Type := mkTarHeader {
  th_path : string;
  th_size : Z;
  th_mode : Z;
  th_mtime : Z;
}.

Class TarLib := {
  tar_set_path : string → Result string string;
  tar_append : TarHeader → string → Result string string;
  tar_into_inner : string → Result string string;
}.

(** The [base64] crate, and the encoding that the program of that name prints. *)
Class Base64Lib := {
  b64_encode : string → string;
  b64_decode : string → Result string string;
}.

(** The values that [HeaderValue::from_str] takes. *)
Class HttpLib := { header_value_ok : string → bool }.

(** ** The service *)

Section files.
Context {S B A : Type}.
Context `{!StateStoreTrait S} `{!SandboxManager B} `{!ActivityStoreTrait A}.
Context `{!TarLib} `{!Base64Lib}.
#[local] Abbreviation W := (World S B A).

(** The running sandbox of both operations and its container. *)
Definition file_target (sandbox : Sandbox) : Result string BoxError :=
  if negb (bool_decide (sb_state sandbox = Running)) then Err (BoxMsg "Sandbox is not running")
  else option_ok_or (BoxMsg "Container not created") (sb_container_id sandbox).

(** A relative path is taken in the container's working directory. *)
Definition resolve_path (container_id path : string) : M W string :=
  if negb (starts_with "/" path) then
    r ← on_backend (bk_get_workdir container_id);
    mret (match r with
          | Ok workdir => trim_end_matches slash workdir +:+ "/" +:+ trim_start_matches slash path
          | Err _ => "/" +:+ trim_start_matches slash path
          end)
  else mret path.

(** An archive with one entry, the file of the given contents. *)
Definition build_archive (tar_entry_path data : string) (now : DateTime) : Result string string :=
  let? p := tar_set_path tar_entry_path in
  let header :=
    {| th_path := p; th_size := Z.of_nat (String.length data); th_mode := 420;
       th_mtime := Z.max 0 (now / ns_per_sec) |} in
  let? archive := tar_append header data in
  tar_into_inner archive.

Definition upload_file (id : Uuid) (dest_path data : string) : M W (Result () BoxError) :=
  let* sandbox := ok_or "Sandbox not found" (st_get id) in
  let* container_id := mret (file_target sandbox) in
  dest_path' ← resolve_path container_id dest_path;
  let tar_entry_path := trim_start_matches slash dest_path' in
  if is_empty tar_entry_path then mret (Err (BoxMsg "Invalid destination path"))
  else
    now ← utc_now;
    let* tar_data := mret (result_map_err BoxMsg (build_archive tar_entry_path data now)) in
    r ← on_backend (bk_upload_archive container_id "/" tar_data);
    match r with
    | Err e => mret (Err (BoxMsg ("Failed to upload file: " +:+ ManagerError_to_string e)))
    | Ok _ =>
        _ ← record_activity id ActUpload
              (JObject [("path", JString dest_path');
                        ("size", JNumber (Z.of_nat (String.length data)))]);
        mret (Ok ())
    end.

Definition download_file (svc : SandboxService) (id : Uuid) (src_path : string)
    : M W (Result string BoxError) :=
  let max_file_size := max_file_size_bytes svc in
  let* sandbox := ok_or "Sandbox not found" (st_get id) in
  let* container_id := mret (file_target sandbox) in
  src_path' ← resolve_path container_id src_path;
  let '(check_cmd, size_cmd, read_cmd) := build_download_cmds src_path' in
  let* check_result := bk (bk_exec container_id check_cmd) in
  if negb (contains "exists" check_result) then mret (Err (BoxMsg "File not found"))
  else
    let* size_result := bk (bk_exec container_id size_cmd) in
    let file_size := default 0 (parse_u64 (trim size_result)) in
    if bool_decide (max_file_size < file_size) then
      mret (Err (BoxMsg ("File size " +:+ Z_to_string file_size +:+ " exceeds limit "
                           +:+ Z_to_string max_file_size)))
    else
      let* encoded := bk (bk_exec container_id read_cmd) in
      let* decoded := mret (result_map_err (λ _, BoxMsg "Failed to decode file content")
                              (b64_decode (trim encoded))) in
      _ ← record_activity id ActDownload
            (JObject [("path", JString src_path');
                      ("size", JNumber (Z.of_nat (String.length decoded)))]);
      mret (Ok decoded).
End files.

(** ** The handlers *)

Record FileInfo : Type := mkFileInfo {
  fi_name : string;
  fi_path : string;
  fi_size : Z;
  fi_uploaded_at : DateTime;
}.

(** What a file handler answers: an error of the API, a status with a JSON body,
    the record of an upload, or a file with its headers. *)
Inductive FileReply : Type :=
  | ReplyError (e : ApiError)
  | ReplyJson (status : Z) (body : Json)
  | ReplyUploaded (file : FileInfo)
  | ReplyFile (headers : list (string * string)) (body : string).

(** One field of a multipart body; reading it can fail. *)
Record Field : Type := mkField {
  fd_name : option string;
  fd_file_name : option string;
  fd_text : Result string string;
  fd_bytes : Result string string;
}.

(** The body of an upload request, as its fields arrive; the loop ends with what
    it has collected or with a reply. *)
Record UploadForm : Type := mkUploadForm {
  uf_path : option string;
  uf_data : option string;
  uf_file_name : option string;
}.

Definition error_json (message : string) : Json := JObject [("error", JString message)].

Fixpoint read_form (max_file_size : Z) (fields : list (Result Field string)) (form : UploadForm)
    : Result UploadForm FileReply :=
  match fields with
  | [] => Ok form
  | Err e :: _ => Err (ReplyJson 400 (error_json ("Failed to read multipart field: " +:+ e)))
  | Ok field :: fields' =>
      match fd_name field with
      | None => read_form max_file_size fields' form
      | Some name =>
          if String.eqb name "path" then
            match fd_text field with
            | Ok text =>
                read_form max_file_size fields'
                  (mkUploadForm (Some text) (uf_data form) (uf_file_name form))
            | Err e => Err (ReplyJson 400 (error_json ("Failed to read path field: " +:+ e)))
            end
          else if String.eqb name "file" then
            match fd_bytes field with
            | Ok data =>
                if bool_decide (max_file_size < Z.of_nat (String.length data)) then
                  Err (ReplyJson 400 (JObject
                    [("error", JString ("File size exceeds limit of "
                                          +:+ Z_to_string max_file_size +:+ " bytes"));
                     ("max_size", JNumber max_file_size)]))
                else
                  read_form max_file_size fields'
                    (mkUploadForm (uf_path form) (Some data) (fd_file_name field))
            | Err e => Err (ReplyJson 400 (error_json ("Failed to read file field: " +:+ e)))
            end
          else read_form max_file_size fields' form
      end
  end.

Definition upload_failure (error_msg : string) : FileReply :=
  if contains "not found" error_msg then ReplyJson 404 (error_json "Sandbox not found")
  else if contains "not running" error_msg then
    ReplyJson 409 (error_json "Sandbox is not running")
  else ReplyJson 500 (error_json ("Upload failed: " +:+ error_msg)).

Definition download_failure (error_msg : string) : FileReply :=
  if contains "File not found" error_msg then
    ReplyJson 404 (error_json "File not found in sandbox")
  else if contains "Sandbox not found" error_msg then
    ReplyJson 404 (error_json "Sandbox not found")
  else if contains "not running" error_msg then
    ReplyJson 409 (error_json "Sandbox is not running")
  else if contains "exceeds limit" error_msg then
    ReplyJson 413 (JObject [("error", JString error_msg); ("max_size", JString "10MB")])
  else ReplyJson 500 (error_json ("Download failed: " +:+ error_msg)).

Module Handlers.
Section handlers.
Context {S B A : Type}.
Context `{!StateStoreTrait S} `{!SandboxManager B} `{!ActivityStoreTrait A}.
Context `{!UuidLib} `{!TarLib} `{!Base64Lib} `{!HttpLib}.
#[local] Abbreviation W := (World S B A).

Definition safe_header_value (value fallback : string) : string :=
  if header_value_ok value then value
  else if header_value_ok fallback then fallback else "download".

Definition upload_file (svc : SandboxService) (identity : ApiKeyIdentity) (id : Uuid)
    (multipart : list (Result Field string)) : M W FileReply :=
  allowed ← check_sandbox_ownership identity id;
  match allowed with
  | Err e => mret (ReplyError e)
  | Ok _ =>
      _ ← record_api_activity id;
      match read_form (max_file_size_bytes svc) multipart (mkUploadForm None None None) with
      | Err reply => mret reply
      | Ok form =>
          match uf_path form, uf_data form with
          | None, _ => mret (ReplyJson 400 (error_json "Missing 'path' field"))
          | Some _, None => mret (ReplyJson 400 (error_json "Missing 'file' field"))
          | Some dest_path, Some file_data =>
              match sanitize_path dest_path with
              | Err e => mret (ReplyError e)
              | Ok sanitized_path =>
                  let filename := default (extract_filename sanitized_path) (uf_file_name form) in
                  r ← Files.upload_file id sanitized_path file_data;
                  match r with
                  | Ok _ =>
                      now ← utc_now;
                      mret (ReplyUploaded
                        {| fi_name := filename; fi_path := sanitized_path;
                           fi_size := Z.of_nat (String.length file_data);
                           fi_uploaded_at := now |})
                  | Err e => mret (upload_failure (BoxError_to_string e))
                  end
              end
          end
      end
  end.

Definition download_headers (sanitized_path : string) (disposition : option string)
    (data : string) : list (string * string) :=
  let filename := extract_filename sanitized_path in
  let disposition_value :=
    match disposition with
    | Some d => if String.eqb d "inline" then "inline" else "attachment"
    | None => "attachment"
    end in
  [("content-type",
      safe_header_value (detect_mime_type sanitized_path) "application/octet-stream");
   ("content-disposition",
      safe_header_value (disposition_value +:+ "; filename=" +:+ String "034" EmptyString
                           +:+ filename +:+ String "034" EmptyString) "attachment");
   ("x-file-name", safe_header_value filename "download");
   ("x-file-path", safe_header_value sanitized_path "/");
   ("x-file-size", safe_header_value (Z_to_string (Z.of_nat (String.length data))) "0")].

Definition download_file (svc : SandboxService) (identity : ApiKeyIdentity) (id : Uuid)
    (path disposition : option string) : M W FileReply :=
  allowed ← check_sandbox_ownership identity id;
  match allowed with
  | Err e => mret (ReplyError e)
  | Ok _ =>
      _ ← record_api_activity id;
      match path with
      | None => mret (ReplyJson 400 (error_json "Missing 'path' query parameter"))
      | Some src_path =>
          match sanitize_path src_path with
          | Err e => mret (ReplyError e)
          | Ok sanitized_path =>
              r ← Files.download_file svc id sanitized_path;
              match r with
              | Ok data => mret (ReplyFile (download_headers sanitized_path disposition data) data)
              | Err e => mret (download_failure (BoxError_to_string e))
              end
          end
      end
  end.
End handlers.
End Handlers.

(** ** What a shell makes of a command line

    The token recognition of the POSIX shell (XCU 2.2 and 2.3) on the part of
    the language without expansions: words, single quotes, backslashes, and the
    operators.  Everything outside this part is [None]; the specification of
    [shell_quote] is that a quoted path is always inside, and one word. *)

Inductive Token : Type :=
  | Word (s : string)
  | IoNumber (s : string)
  | Op (s : string).

#[global] Instance Token_eq_dec : EqDecision Token.
Proof. solve_decision. Defined.

(** A word under construction, and whether part of it was quoted. *)
Definition Pending : Type := option (bool * string).

Definition push (c : ascii) (w : Pending) : Pending :=
  Some (match w with
        | Some (q, s) => (q, s +:+ String c EmptyString)
        | None => (false, String c EmptyString)
        end).

Definition quoted (w : Pending) : Pending :=
  Some (match w with Some (_, s) => (true, s) | None => (true, EmptyString) end).

Definition finish_word (w : Pending) : list Token :=
  match w with Some (_, s) => [Word s] | None => [] end.

(** An unquoted number right before a redirection names a descriptor. *)
Definition finish_io (w : Pending) : list Token :=
  match w with
  | Some (false, s) => if string_forall is_ascii_digit s then [IoNumber s] else [Word s]
  | _ => finish_word w
  end.

Definition in_chars (l : string) (c : ascii) : bool := has_char c l.

(** Characters that begin an expansion, a comment, a pattern or a group. *)
Definition special_chars : string := "$`*?[]#~=%!{}()" +:+ bytes [34; 10; 13]%N.

Definition pre {X} (l : list X) (o : option (list X)) : option (list X) := app l <$> o.

Fixpoint sh_lex_from (in_quotes : bool) (w : Pending) (s : string) : option (list Token) :=
  match s with
  | EmptyString => if in_quotes then None else Some (finish_word w)
  | String c s' =>
      if in_quotes then
        if Ascii.eqb c "'" then sh_lex_from false w s' else sh_lex_from true (push c w) s'
      else if Ascii.eqb c "'" then sh_lex_from true (quoted w) s'
      else if Ascii.eqb c "\" then
        match s' with
        | String d s'' =>
            if Ascii.eqb d newline then None else sh_lex_from false (push d (quoted w)) s''
        | EmptyString => None
        end
      else if in_chars " 	" c then pre (finish_word w) (sh_lex_from false None s')
      else if in_chars "&|" c then
        match s' with
        | String d s'' =>
            if Ascii.eqb d c then
              pre (finish_word w ++ [Op (String c (String c EmptyString))])
                (sh_lex_from false None s'')
            else pre (finish_word w ++ [Op (String c EmptyString)]) (sh_lex_from false None s')
        | EmptyString => pre (finish_word w ++ [Op (String c EmptyString)]) (Some [])
        end
      else if Ascii.eqb c ";" then pre (finish_word w ++ [Op ";"]) (sh_lex_from false None s')
      else if in_chars "<>" c then
        match s' with
        | String d _ =>
            if in_chars "<>&|" d then None
            else pre (finish_io w ++ [Op (String c EmptyString)]) (sh_lex_from false None s')
        | EmptyString => None
        end
      else if in_chars special_chars c then None
      else sh_lex_from false (push c w) s'
  end.

Definition sh_lex : string → option (list Token) := sh_lex_from false None.

Example sh_lex_example :
  sh_lex "wc -c < 'a b'\''c' 2>/dev/null || echo '0'" =
    Some [Word "wc"; Word "-c"; Op "<"; Word "a b'c"; IoNumber "2"; Op ">"; Word "/dev/null";
          Op "||"; Word "echo"; Word "0"].
Proof. vm_compute. reflexivity. Qed.

(** What the shell is to see of the lines that ask for a path's existence, its
    size and its contents. *)
Definition check_tokens (path : string) : list Token :=
  [Word "test"; Word "-f"; Word path; Op "&&"; Word "echo"; Word "exists"; Op "||";
   Word "echo"; Word "notfound"].
Definition size_tokens (path : string) : list Token :=
  [Word "wc"; Word "-c"; Op "<"; Word path; IoNumber "2"; Op ">"; Word "/dev/null"; Op "||";
   Word "echo"; Word "0"].
Definition read_tokens (path : string) : list Token := [Word "base64"; Word "-w0"; Word path].

(** Replacing a one-byte pattern works byte by byte. *)
Fixpoint replace_char (c : ascii) (to s : string) : string :=
  match s with
  | EmptyString => EmptyString
  | String a s' => if Ascii.eqb a c then to +:+ replace_char c to s' else String a (replace_char c to s')
  end.

Lemma replace_fuel_char c to s fuel :
  (String.length s < fuel)%nat →
  replace_fuel fuel (String c EmptyString) to s = replace_char c to s.
Proof.
  revert fuel. induction s as [|a s IH]; intros fuel Hf; (destruct fuel as [|fuel]; [simpl in Hf; lia|]).
  - done.
  - simpl in Hf. simpl. rewrite (Ascii.eqb_sym c a).
    destruct (Ascii.eqb a c); rewrite IH by lia; done.
Qed.

Lemma replace_char_spec c to s :
  replace (String c EmptyString) to s = replace_char c to s.
Proof. unfold replace. apply replace_fuel_char. lia. Qed.

(** Inside quotes, an escaped text is read as the text itself. *)
Lemma sh_lex_escaped acc p rest :
  sh_lex_from true (Some (true, acc)) (replace_char "'" "'\''" p +:+ String "'" rest) =
  sh_lex_from false (Some (true, acc +:+ p)) rest.
Proof.
  revert acc. induction p as [|c p IH]; intros acc; [by rewrite string_app_nil|].
  rewrite <-(string_app_assoc acc (String c "") p : _ = acc +:+ String c p), <-IH.
  simpl. destruct (Ascii.eqb_spec c "'") as [->|Hne]; [done|].
  simpl. by apply Ascii.eqb_neq in Hne as ->.
Qed.

(** A quoted path is one word of the line it stands in. *)
Lemma sh_lex_quote path rest :
  sh_lex_from false None (shell_quote path +:+ rest) =
  sh_lex_from false (Some (true, path)) rest.
Proof.
  unfold shell_quote. rewrite replace_char_spec. rewrite !string_app_assoc.
  exact (sh_lex_escaped "" path rest).
Qed.

(** A line that is read up to a quoted path and after it. *)
Lemma sh_lex_around before path after ts ts' :
  (∀ rest, sh_lex_from false None (before +:+ rest) =
           pre ts (sh_lex_from false None rest)) →
  sh_lex_from false (Some (true, path)) after = Some (Word path :: ts') →
  sh_lex (before +:+ shell_quote path +:+ after) = Some (ts ++ Word path :: ts').
Proof. intros Hb Ha. unfold sh_lex. by rewrite Hb, sh_lex_quote, Ha. Qed.

Lemma pre_pre {X} (a b : list X) o : pre a (pre b o) = pre (a ++ b) o.
Proof. destruct o; simpl; [by rewrite app_assoc|done]. Qed.

(** Read a line up to a quoted path, by computation. *)
Ltac lex_around before path after ts :=
  apply (sh_lex_around before path after ts);
  [let rest := fresh in intros rest; simpl; by rewrite ?pre_pre | try done].

Lemma sh_lex_lines path :
  sh_lex (check_line (shell_quote path)) = Some (check_tokens path) ∧
  sh_lex (size_line (shell_quote path)) = Some (size_tokens path) ∧
  sh_lex (read_line (shell_quote path)) = Some (read_tokens path).
Proof.
  split_and!; unfold check_line, size_line, read_line.
  - lex_around "test -f " path " && echo 'exists' || echo 'notfound'" [Word "test"; Word "-f"].
  - lex_around "wc -c < " path " 2>/dev/null || echo '0'" [Word "wc"; Word "-c"; Op "<"].
  - rewrite <-(string_app_nil (shell_quote path)).
    lex_around "base64 -w0 " path "" [Word "base64"; Word "-w0"].
Qed.

(** ** Checked paths *)

Definition component_name (c : Component) : option string :=
  match c with NormalName s => Some s | _ => None end.

Lemma omap_component_name (ps : list string) : omap component_name (NormalName <$> ps) = ps.
Proof.
  induction ps as [|p ps IH]; [done|].
  change (p :: omap component_name (NormalName <$> ps) = p :: ps). by rewrite IH.
Qed.

Lemma collect_components_spec cs a ns :
  collect_components cs a ns =
    if bool_decide (ParentDir ∈ cs) then
      Err (path_error "Invalid path: contains directory traversal")
    else
      Ok (a || bool_decide (RootDir ∈ cs),
          ns ++ omap component_name cs).
Proof.
  revert a ns. induction cs as [|c cs IH]; intros a ns.
  - rewrite !bool_decide_eq_false_2 by (by intros ?%elem_of_nil).
    cbn [collect_components omap list_omap]. by rewrite orb_false_r, app_nil_r.
  - assert (∀ x, bool_decide (x ∈ c :: cs) = bool_decide (x = c) || bool_decide (x ∈ cs)) as Hc.
    { intros x. rewrite <-bool_decide_or. apply bool_decide_ext, elem_of_cons. }
    rewrite !Hc. destruct c as [| | |s]; simpl; rewrite ?IH; simpl; try done.
    + by rewrite orb_true_r.
    + by rewrite <-app_assoc.
Qed.

(** The names that a path goes through, when it never goes up. *)
Lemma collect_names path ps :
  pieces path = NormalName <$> ps →
  collect_components (components path) false [] = Ok (starts_with "/" path, ps).
Proof.
  intros Hps. rewrite collect_components_spec.
  assert ((ParentDir ∉ (NormalName <$> ps)) ∧ (RootDir ∉ (NormalName <$> ps))) as [Hp Hr].
  { split; rewrite list_elem_of_fmap; by intros (? & ? & _). }
  unfold components. rewrite Hps.
  destruct (starts_with "/" path); [|destruct (String.eqb _ ".")]; cbn [app].
  - rewrite bool_decide_eq_false_2, bool_decide_eq_true_2;
      [|by left|by rewrite elem_of_cons; intros [?|?]].
    change (omap component_name (RootDir :: ?l)) with (omap component_name l).
    by rewrite omap_component_name.
  - rewrite !bool_decide_eq_false_2; [|by rewrite elem_of_cons; intros [?|?]..].
    change (omap component_name (CurDir :: ?l)) with (omap component_name l).
    by rewrite omap_component_name.
  - rewrite !bool_decide_eq_false_2 by done. by rewrite omap_component_name.
Qed.

Definition rebuilt (is_absolute : bool) (ps : list string) : string :=
  if is_absolute then "/" +:+ join "/" ps else join "/" ps.

(** The check as one condition. *)
Definition bad_chars (path : string) : bool := has_control path || has_char backslash path.

Lemma null_control path : has_char null_byte path = true → has_control path = true.
Proof.
  induction path as [|c s IH]; [done|]. intros H. cbn [has_control]. simpl in H.
  apply orb_true_iff in H as [->%Ascii.eqb_eq|H]; [done|]. by rewrite IH, orb_true_r.
Qed.

Lemma sanitize_ok path p :
  sanitize_path path = Ok p ↔
  bad_chars path = false ∧ p ≠ "" ∧
  ∃ ps, Forall (λ p, is_name p = true) ps ∧ pieces path = NormalName <$> ps ∧
        p = rebuilt (starts_with "/" path) ps.
Proof.
  unfold sanitize_path, bad_chars. destruct (has_char null_byte path) eqn:En.
  { split; [done|]. rewrite null_control by done. by intros [? _]. }
  destruct (has_control path); [split; [done|by intros [? _]]|].
  destruct (has_char backslash path); [split; [done|by intros [? _]]|]. simpl.
  destruct (decide (ParentDir ∈ pieces path)) as [Hp|Hp].
  - rewrite collect_components_spec, bool_decide_eq_true_2.
    2: { unfold components. apply elem_of_app. by right. }
    split; [done|]. intros (_ & _ & ps & _ & Hps & _). rewrite Hps in Hp.
    apply list_elem_of_fmap in Hp as (? & ? & _). done.
  - destruct (pieces_names path Hp) as (ps & Hn & Hps).
    rewrite (collect_names path ps Hps). cbn [result_bind].
    change (if starts_with "/" path then String "/" (join "/" ps) else join "/" ps)
      with (rebuilt (starts_with "/" path) ps).
    split.
    + destruct (rebuilt (starts_with "/" path) ps) as [|c s] eqn:E; simpl; [done|].
      intros [= <-]. split_and!; [done..|]. exists ps. by rewrite E.
    + intros (_ & Hne & ps' & _ & Hps' & ->). rewrite Hps in Hps'.
      apply (inj (fmap NormalName)) in Hps' as ->. by destruct (rebuilt (starts_with "/" path) ps').
Qed.

Lemma pieces_rebuilt a ps :
  Forall (λ p, is_name p = true) ps → pieces (rebuilt a ps) = NormalName <$> ps.
Proof. intros Hps. destruct a; simpl; [rewrite <-(pieces_join ps Hps); done|by apply pieces_join]. Qed.

Lemma components_rebuilt a ps :
  Forall (λ p, is_name p = true) ps →
  components (rebuilt a ps) = (if a then [RootDir] else []) ++ (NormalName <$> ps).
Proof.
  intros Hps. destruct a; [|by apply components_join_names].
  simpl. by rewrite <-(pieces_join ps Hps).
Qed.

Lemma starts_with_rebuilt a ps :
  Forall (λ p, is_name p = true) ps → starts_with "/" (rebuilt a ps) = a.
Proof.
  intros Hps. destruct a; [done|]. destruct (starts_with "/" (rebuilt false ps)) eqn:E; [|done].
  apply starts_with_slash in E as [r Hr]. pose proof (components_rebuilt false ps Hps) as Hc.
  rewrite Hr, components_root in Hc. by destruct ps.
Qed.

Lemma bad_chars_rebuilt a path ps :
  bad_chars path = false → pieces path = NormalName <$> ps → bad_chars (rebuilt a ps) = false.
Proof.
  intros Hbad Hps.
  assert (separable bad_chars) as Hsep.
  { unfold bad_chars. destruct separable_has_control as [C0 C1].
    destruct (separable_has_char backslash ltac:(done)) as [D0 D1].
    split; [done|]. intros l r. rewrite C1, D1. by destruct (has_control l), (has_control r),
      (has_char backslash l), (has_char backslash r). }
  assert (bad_chars (join "/" ps) = false) as Hj.
  { rewrite separable_join by done. by eapply separable_pieces. }
  destruct a; [|done].
  change (rebuilt true ps) with ("" +:+ String slash (join "/" ps)).
  destruct Hsep as [H0 Happ]. by rewrite Happ, H0.
Qed.

(** C18: the check on a client's path.  A path that passes comes back as an
    absolute or relative sequence of plain names, the names of the given path:
    it has no empty, dot or parent component, no control character and no
    backslash, and below any directory it stays below it; checking it again
    changes nothing.  A path is refused only for such a character, for a parent
    component, or for naming nothing. *)
Theorem sanitize_path_spec path :
  match sanitize_path path with
  | Ok p =>
      bad_chars path = false ∧ bad_chars p = false ∧ sanitize_path p = Ok p ∧
      ∃ names, Forall (λ n, is_name n = true) names ∧ pieces path = NormalName <$> names ∧
        components p = (if starts_with "/" path then [RootDir] else []) ++ (NormalName <$> names) ∧
        ∀ dir, pieces (dir +:+ "/" +:+ p) = pieces dir ++ (NormalName <$> names)
  | Err e =>
      (∃ m, e = path_error m) ∧
      (bad_chars path = true ∨ ParentDir ∈ components path ∨
       starts_with "/" path = false ∧ pieces path = [])
  end.
Proof.
  destruct (sanitize_path path) as [p|e] eqn:E.
  - apply sanitize_ok in E as (Hbad & Hne & ps & Hn & Hps & ->). split_and!.
    + done.
    + by eapply bad_chars_rebuilt.
    + apply sanitize_ok. split; [by eapply bad_chars_rebuilt|]. split; [done|].
      exists ps. rewrite pieces_rebuilt, starts_with_rebuilt by done. done.
    + exists ps. split_and!; [done|done|by apply components_rebuilt|].
      intros dir. change ("/" +:+ ?x) with (String slash x).
      by rewrite pieces_app, pieces_rebuilt.
  - split.
    + unfold sanitize_path in E. rewrite collect_components_spec in E.
      destruct (has_char null_byte path), (has_control path), (has_char backslash path);
        try (simplify_eq/=; by eexists).
      case_bool_decide; simpl in E; [simplify_eq; by eexists|].
      case_match; simplify_eq; by eexists.
    + destruct (bad_chars path) eqn:Hb; [by left|right].
      destruct (decide (ParentDir ∈ pieces path)) as [Hp|Hp].
      { left. unfold components. apply elem_of_app. by right. }
      right. destruct (pieces_names path Hp) as (ps & Hn & Hps).
      destruct (decide (rebuilt (starts_with "/" path) ps = "")) as [H0|H0].
      * destruct (starts_with "/" path); [done|]. split; [done|]. rewrite Hps.
        destruct ps as [|p ps]; [done|]. inversion_clear Hn as [|? ? Hn1 _].
        exfalso. by apply (join_nonempty p ps (proj1 (is_name_nonempty p Hn1))).
      * assert (sanitize_path path = Ok (rebuilt (starts_with "/" path) ps)) as Hs.
        { apply sanitize_ok. split_and!; [done|done|]. by exists ps. }
        congruence.
Qed.

(** ** Containers with files

    What the service relies on: an archive of one entry, base64 that decodes
    what it encoded, and a container whose shell runs the three lines as POSIX
    says, and into which an archive is unpacked at the root. *)

Class TarLaws `{TarLib} := {
  tar_files : string → list (string * string);
  tar_set_path_pieces p n : tar_set_path p = Ok n → ParentDir ∉ pieces p → pieces n = pieces p;
  tar_one_file h d a a' :
    tar_append h d = Ok a → th_size h = Z.of_nat (String.length d) → tar_into_inner a = Ok a' →
    tar_files a' = [(th_path h, d)];
}.

Class Base64Laws `{Base64Lib} := {
  b64_decode_encode d : b64_decode (trim (b64_encode d)) = Ok d;
}.

(** [runs b cid]: the container takes commands.  [file_at b cid p] is the
    contents of the regular file at an absolute path. *)
Class ContainerLaws (B : Type) `{SandboxManager B, TarLib, !TarLaws, Base64Lib} := {
  runs : B → string → Prop;
  file_at : B → string → string → option string;
  workdir_pure cid b : run_st (bk_get_workdir cid) b = b;
  workdir_absolute cid b wd :
    run_val (bk_get_workdir cid) b = Ok wd →
    starts_with "/" wd = true ∧ ParentDir ∉ pieces wd;
  run_check cid line p b :
    runs b cid → sh_lex line = Some (check_tokens p) → starts_with "/" p = true →
    bk_exec cid (sh_c line) b =
      (Ok (match file_at b cid p with
           | Some _ => "exists" +:+ String newline ""
           | None => "notfound" +:+ String newline ""
           end), b);
  run_size cid line p b d :
    runs b cid → sh_lex line = Some (size_tokens p) → starts_with "/" p = true →
    file_at b cid p = Some d →
    ∃ out, bk_exec cid (sh_c line) b = (Ok out, b) ∧
      trim out = Z_to_string (Z.of_nat (String.length d));
  run_read cid line p b d :
    runs b cid → sh_lex line = Some (read_tokens p) → starts_with "/" p = true →
    file_at b cid p = Some d →
    bk_exec cid (sh_c line) b = (Ok (b64_encode d), b);
  file_small b cid p d : file_at b cid p = Some d → is_u64 (Z.of_nat (String.length d));
  unpack cid archive b b' n d :
    runs b cid → bk_upload_archive cid "/" archive b = (Ok (), b') →
    tar_files archive = [(n, d)] → ParentDir ∉ pieces n →
    runs b' cid ∧
    run_val (bk_get_workdir cid) b' = run_val (bk_get_workdir cid) b ∧
    ∀ p, starts_with "/" p = true → pieces p = pieces n → file_at b' cid p = Some d;
}.

Section container.
Context {S B A : Type}.
Context `{!StateStoreTrait S} `{!StoreContract S}.
Context `{!SandboxManager B} `{!ActivityStoreTrait A}.
Context `{!TarLib} `{!TarLaws} `{!Base64Lib} `{!Base64Laws} `{!ContainerLaws B}.
#[local] Abbreviation W := (World S B A).

(** Where a path leads, given the container's working directory. *)
Definition located (b : B) (cid path : string) : string :=
  if negb (starts_with "/" path) then
    match run_val (bk_get_workdir cid) b with
    | Ok workdir => trim_end_matches slash workdir +:+ "/" +:+ trim_start_matches slash path
    | Err _ => "/" +:+ trim_start_matches slash path
    end
  else path.

Lemma wp_resolve {X} cid path (k : string → M W X) Q (w : W) :
  (∀ w', (ok w → ok w') → db w' = db w → w_backend w' = w_backend w →
     wp (k (located (w_backend w) cid path)) Q w') →
  wp (resolve_path cid path ≫= k) Q w.
Proof.
  intros HQ. unfold resolve_path, located in *. apply wp_bind.
  destruct (starts_with "/" path); simpl; [by apply wp_ret, HQ|].
  apply wp_bind, wp_backend. intros w' K1 K2 _ _ Hb. apply wp_ret.
  apply HQ; [done..|]. by rewrite Hb, workdir_pure.
Qed.

(** A located path is absolute; a path without parents stays where it leads. *)
Lemma located_absolute b cid path : starts_with "/" (located b cid path) = true.
Proof.
  unfold located. destruct (starts_with "/" path) eqn:E; [done|]. cbn [negb].
  destruct (run_val (bk_get_workdir cid) b) as [wd|e] eqn:Ew; [|done].
  apply workdir_absolute in Ew as [(r & ->)%starts_with_slash _].
  unfold trim_end_matches. rewrite string_rev_cons.
  assert (∀ t, trim_start_matches slash (t +:+ String slash "") = "" ∨
    ∃ t', trim_start_matches slash (t +:+ String slash "") = t' +:+ String slash "") as Ht.
  { induction t as [|a t IH]; simpl; [by left|].
    destruct (Ascii.eqb a slash); [done|]. right. by exists (String a t). }
  destruct (Ht (string_rev r)) as [->|[t' ->]]; [done|]. by rewrite string_rev_app.
Qed.

Lemma located_pieces b cid path :
  ParentDir ∉ pieces path → ParentDir ∉ pieces (located b cid path).
Proof.
  intros Hp. unfold located. destruct (starts_with "/" path); [done|]. cbn [negb].
  destruct (run_val (bk_get_workdir cid) b) as [wd|e] eqn:Ew;
    change ("/" +:+ ?x) with (String slash x).
  - apply workdir_absolute in Ew as [_ Hw].
    rewrite pieces_app, pieces_trim_end, pieces_trim_start, elem_of_app. tauto.
  - by rewrite pieces_slash, pieces_trim_start.
Qed.

(** What a download gives for the file it finds. *)
Definition downloaded (svc : SandboxService) (o : option string) : Result string BoxError :=
  match o with
  | None => Err (BoxMsg "File not found")
  | Some d =>
      let n := Z.of_nat (String.length d) in
      if bool_decide (max_file_size_bytes svc < n) then
        Err (BoxMsg ("File size " +:+ Z_to_string n +:+ " exceeds limit "
                       +:+ Z_to_string (max_file_size_bytes svc)))
      else Ok d
  end.

(** A backend call whose answer is known. *)
Lemma wp_try_bk_run {X Y} (m : M B (ManagerResult X)) x b' (k : X → M W (Result Y BoxError)) Q (w : W) :
  m (w_backend w) = (Ok x, b') →
  (∀ w', (ok w → ok w') → db w' = db w → w_backend w' = b' → wp (k x) Q w') →
  wp (try_ (bk m) k) Q w.
Proof.
  intros Hm HQ. apply wp_try_bk. intros w' K1 K2 _ _ Hb.
  unfold run_val, run_st in *. rewrite Hm in *. by apply HQ.
Qed.

Lemma wp_download svc id path Q (w : W) :
  ok w →
  (shown w id = None → Q (Err (BoxMsg "Sandbox not found")) w) →
  (∀ sb, shown w id = Some sb →
     match file_target sb with
     | Err e => Q (Err e) w
     | Ok cid =>
         runs (w_backend w) cid ∧
         ∀ w', ok w' → db w' = db w → w_backend w' = w_backend w →
           Q (downloaded svc (file_at (w_backend w) cid (located (w_backend w) cid path))) w'
     end) →
  wp (download_file svc id path) Q w.
Proof.
  intros Hok Hnone Hsome. apply wp_found_shown; [done|done|]. intros sb Hsb _ _.
  specialize (Hsome sb Hsb). apply wp_try, wp_ret.
  destruct (file_target sb) as [cid|e]; [|done]. destruct Hsome as [Hrun HQ].
  apply wp_resolve. intros w1 Hok1 Hdb1 Hb1. specialize (Hok1 Hok).
  set (p := located (w_backend w) cid path) in *.
  pose proof (located_absolute (w_backend w) cid path) as Habs. fold p in Habs.
  destruct (sh_lex_lines p) as (Lc & Ls & Lr). rewrite <-Hb1 in HQ, Hrun.
  unfold build_download_cmds. cbn iota beta.
  eapply wp_try_bk_run; [exact (run_check cid _ p _ Hrun Lc Habs)|].
  intros w2 Hok2 Hdb2 Hb2. specialize (Hok2 Hok1). rewrite <-Hb2 in HQ, Hrun.
  destruct (file_at (w_backend w1) cid p) as [d|] eqn:Hf; rewrite <-Hb2 in Hf; rewrite Hf in HQ.
  2: { apply wp_ret, HQ; [done|congruence|congruence]. }
  change (contains "exists" ("exists" +:+ String newline "")) with true. cbn [negb].
  destruct (run_size cid _ p _ d Hrun Ls Habs Hf) as (out & Hsize & Hout).
  eapply wp_try_bk_run; [exact Hsize|]. intros w3 Hok3 Hdb3 Hb3.
  rewrite Hout. unfold parse_u64.
  rewrite parse_unsigned_to_string by (pose proof (file_small _ _ _ _ Hf); unfold is_u64 in *; lia).
  cbn [from_option Datatypes.id]. unfold downloaded in HQ.
  case_bool_decide; [apply wp_ret, HQ; [by auto|congruence|congruence]|].
  rewrite <-Hb3 in Hf, Hrun.
  eapply wp_try_bk_run; [exact (run_read cid _ p _ d Hrun Lr Habs Hf)|].
  intros w4 Hok4 Hdb4 Hb4. rewrite b64_decode_encode. cbn [result_map_err].
  apply wp_try, wp_ret. wp_log. apply wp_ret, HQ; [by auto|congruence|congruence].
Qed.

(** what a download gives.  For a running sandbox whose container takes
    commands it is the contents of the file the path leads to (a relative path
    from the working directory), byte for byte and whatever characters the
    path has; a missing file and a file above the size limit are errors of
    their own, a sandbox that is not running is refused; and neither the records
    nor the container change. *)
Theorem download_file_spec svc id path sb (w : W) :
  ok w → shown w id = Some sb →
  (∀ cid, sb_container_id sb = Some cid → runs (w_backend w) cid) →
  wp (download_file svc id path) (λ r w',
    ok w' ∧ db w' = db w ∧ w_backend w' = w_backend w ∧
    r = (let? cid := file_target sb in
         downloaded svc (file_at (w_backend w) cid (located (w_backend w) cid path)))) w.
Proof.
  intros Hok Hsb Hrun. apply wp_download; [done|congruence|]. intros sb' Hsb'.
  assert (sb' = sb) as -> by congruence. destruct (file_target sb) as [cid|e] eqn:Ht; [|done]. simpl. split; [|done].
  apply Hrun. unfold file_target in Ht. case_bool_decide; simpl in Ht; [|done].
  by destruct (sb_container_id sb); simplify_eq/=.
Qed.

Lemma build_archive_files entry data now a :
  build_archive entry data now = Ok a → ParentDir ∉ pieces entry →
  ∃ n, tar_files a = [(n, data)] ∧ pieces n = pieces entry.
Proof.
  unfold build_archive. rewrite result_bind_Ok. intros (n & Hn & Ha) Hp.
  apply result_bind_Ok in Ha as (a0 & Ha0 & Ha). exists n.
  split; [by eapply (tar_one_file _ _ _ _ Ha0)|by apply tar_set_path_pieces].
Qed.

Lemma wp_upload id path data Q (w : W) :
  ok w →
  (shown w id = None → Q (Err (BoxMsg "Sandbox not found")) w) →
  (∀ sb, shown w id = Some sb →
     match file_target sb with
     | Err e => Q (Err e) w
     | Ok cid =>
         let p := located (w_backend w) cid path in
         ∀ r w', ok w' → db w' = db w →
           (trim_start_matches slash p = "" → r = Err (BoxMsg "Invalid destination path")) →
           (r = Ok () → ParentDir ∉ pieces path → runs (w_backend w) cid →
              runs (w_backend w') cid ∧
              run_val (bk_get_workdir cid) (w_backend w') =
                run_val (bk_get_workdir cid) (w_backend w) ∧
              ∀ q, starts_with "/" q = true → pieces q = pieces p →
                file_at (w_backend w') cid q = Some data) →
           Q r w'
     end) →
  wp (upload_file id path data) Q w.
Proof.
  intros Hok Hnone Hsome. apply wp_found_shown; [done|done|]. intros sb Hsb _ _.
  specialize (Hsome sb Hsb). apply wp_try, wp_ret.
  destruct (file_target sb) as [cid|e]; [|done]. cbv zeta in Hsome.
  apply wp_resolve. intros w1 Hok1 Hdb1 Hb1. specialize (Hok1 Hok).
  set (p := located (w_backend w) cid path) in *. cbv zeta.
  destruct (is_empty (trim_start_matches slash p)) eqn:Hempty.
  { apply wp_ret, Hsome; done. }
  assert (trim_start_matches slash p ≠ "") as Hne
    by (intros He; by rewrite He in Hempty).
  wp_clock. apply wp_try, wp_ret.
  destruct (build_archive _ data t) as [a|e] eqn:Ha; cbn [result_map_err].
  2: { apply Hsome; [by auto|congruence|done..]. }
  apply wp_bind, wp_backend. intros w3 Hok3 Hdb3 _ _ Hb3.
  destruct (bk_upload_archive cid "/" a (w_backend w0)) as [r b'] eqn:Hup.
  unfold run_val, run_st in *. rewrite Hup in *. cbn [fst snd] in *.
  destruct r as [[]|e]; [|apply wp_ret, Hsome; [by auto|congruence|done|done]].
  wp_log. apply wp_ret, Hsome; [by auto|congruence|done|].
  intros _ Hpar Hrun.
  assert (ParentDir ∉ pieces (trim_start_matches slash p)) as Hpp.
  { rewrite pieces_trim_start. by apply located_pieces. }
  destruct (build_archive_files _ _ _ _ Ha Hpp) as (n & Hn & Hpn).
  rewrite pieces_trim_start in Hpn, Hpp. rewrite keeps_backend, Hb1 in Hup.
  destruct (unpack cid a (w_backend w) b' n data Hrun Hup Hn) as (U1 & U2 & U3); [by rewrite Hpn|].
  rewrite keeps_backend0, Hb3. split_and!; [done|done|]. intros q Hq Hqp. apply U3; [done|congruence].
Qed.

(** Two spellings of the same path: both absolute or both relative, with the
    same names. *)
Definition same_path (p q : string) : Prop :=
  starts_with "/" p = starts_with "/" q ∧ pieces p = pieces q.

Lemma located_same b b' cid p q :
  same_path p q → run_val (bk_get_workdir cid) b' = run_val (bk_get_workdir cid) b →
  pieces (located b' cid q) = pieces (located b cid p).
Proof.
  intros [Hs Hp] Hw. unfold located. rewrite Hw, Hs. destruct (starts_with "/" q); [done|].
  cbn [negb]. destruct (run_val (bk_get_workdir cid) b); change ("/" +:+ ?x) with (String slash x).
  - by rewrite !pieces_app, !pieces_trim_start, Hp.
  - by rewrite !pieces_slash, !pieces_trim_start, Hp.
Qed.

(** C17: what is uploaded is what is downloaded.  After an upload that was
    accepted, a download from the same path, in any spelling of it, gives the
    uploaded bytes, when they are within the size limit; neither call changes
    a record. *)
Theorem upload_download_roundtrip svc id path path' data sb (w : W) :
  ok w → shown w id = Some sb → ParentDir ∉ pieces path → same_path path path' →
  (∀ cid, sb_container_id sb = Some cid → runs (w_backend w) cid) →
  Z.of_nat (String.length data) ≤ max_file_size_bytes svc →
  wp (r ← upload_file id path data;
      match r with
      | Ok _ => download_file svc id path'
      | Err e => mret (Err e)
      end) (λ r w',
    ok w' ∧ db w' = db w ∧
    (r = Ok data ∨ ∃ e, r = Err e ∧ run_val (upload_file id path data) w = Err e)) w.
Proof.
  intros Hok Hsb Hpar Hsame Hrun Hlen. apply wp_bind.
  assert (∀ Q, wp (upload_file id path data) (λ r w', r = run_val (upload_file id path data) w → Q r w') w →
               wp (upload_file id path data) Q w) as Hname by (intros Q HQ; by apply HQ).
  apply Hname, wp_upload; [done|congruence|]. intros sb' Hsb'.
  assert (sb' = sb) as -> by congruence.
  destruct (file_target sb) as [cid|e] eqn:Ht; [|intros He; apply wp_ret; eauto 6].
  assert (sb_container_id sb = Some cid) as Hcid.
  { unfold file_target in Ht. case_bool_decide; simpl in Ht; [|done].
    by destruct (sb_container_id sb); simplify_eq/=. }
  intros p [[]|e] w1 Hok1 Hdb1 _ Hup Hname'; [|apply wp_ret; eauto 6].
  destruct (Hup eq_refl Hpar (Hrun _ Hcid)) as (Hrun1 & Hwd & Hfile).
  assert (shown w1 id = Some sb) as Hsb1 by by unfold shown in *; rewrite Hdb1.
  apply wp_download; [done|congruence|]. intros sb1 Hsb1'. assert (sb1 = sb) as -> by congruence.
  rewrite Ht. split; [done|]. intros w2 Hok2 Hdb2 _.
  split; [done|]. split; [congruence|]. left.
  rewrite Hfile by (by apply located_absolute || by apply located_same).
  unfold downloaded. by rewrite bool_decide_eq_false_2 by lia.
Qed.

(** ** The handlers' theorem *)

(** After the record of an API call, the same sandbox is shown in the same
    state, with the same container. *)
Definition same_target (o o' : option Sandbox) : Prop := file_target <$> o = file_target <$> o'.

Lemma touched_target (w w' : W) id :
  ok w → touch_effect w w' id touched → same_target (shown w id) (shown w' id).
Proof.
  intros Hok Ht. unfold same_target.
  destruct (touched_shown w w' id Ht) as [[-> ->]|(sb & t1 & t2 & -> & ->)]; [done|].
  simpl. f_equal. unfold file_target. by rewrite stored_as_state, stored_as_container.
Qed.

Context `{!UuidLib} `{!HttpLib}.

(** What the download handler answers a caller who may read the sandbox. *)
Definition download_reply (svc : SandboxService) (o : option Sandbox) (b : B)
    (path disposition : option string) : FileReply :=
  match path with
  | None => ReplyJson 400 (error_json "Missing 'path' query parameter")
  | Some p =>
      match sanitize_path p with
      | Err e => ReplyError e
      | Ok p' =>
          match
            (let? sb := option_ok_or (BoxMsg "Sandbox not found") o in
             let? cid := file_target sb in
             downloaded svc (file_at b cid (located b cid p')))
          with
          | Ok data => ReplyFile (Handlers.download_headers p' disposition data) data
          | Err e => download_failure (BoxError_to_string e)
          end
      end
  end.

(** The file that an accepted upload leaves in the container. *)
Definition upload_stored (b b' : B) (o : option Sandbox) (fields : list (Result Field string))
    (svc : SandboxService) (file : FileInfo) : Prop :=
  ∃ form path data sb cid,
    read_form (max_file_size_bytes svc) fields (mkUploadForm None None None) = Ok form ∧
    uf_path form = Some path ∧ uf_data form = Some data ∧
    sanitize_path path = Ok (fi_path file) ∧
    fi_size file = Z.of_nat (String.length data) ∧ fi_size file ≤ max_file_size_bytes svc ∧
    o = Some sb ∧ file_target sb = Ok cid ∧
    ∀ q, starts_with "/" q = true → pieces q = pieces (located b cid (fi_path file)) →
      file_at b' cid q = Some data.

Definition form_fits (max : Z) (form : UploadForm) : Prop :=
  ∀ data, uf_data form = Some data → Z.of_nat (String.length data) ≤ max.

Lemma read_form_fits max fields form form' :
  form_fits max form → read_form max fields form = Ok form' → form_fits max form'.
Proof.
  revert form. induction fields as [|[field|e] fields IH]; intros form Hfit; simpl;
    [by intros [= <-]| |done].
  destruct (fd_name field) as [name|]; [|by apply IH].
  destruct (String.eqb name "path").
  { destruct (fd_text field); [|done]. by apply IH. }
  destruct (String.eqb name "file"); [|by apply IH].
  destruct (fd_bytes field) as [data|e]; [|done]. case_bool_decide; [done|].
  apply IH. intros d Hd. simpl in Hd. simplify_eq. lia.
Qed.

Lemma read_form_reply max fields form file :
  read_form max fields form ≠ Err (ReplyUploaded file).
Proof.
  revert form. induction fields as [|[field|e] fields IH]; intros form; simpl; [done| |done].
  destruct (fd_name field) as [name|]; [|by apply IH].
  destruct (String.eqb name "path"); [by destruct (fd_text field)|].
  destruct (String.eqb name "file"); [|by apply IH].
  destruct (fd_bytes field); [|done]. by case_bool_decide.
Qed.

Lemma sanitized_no_parent p p' : sanitize_path p = Ok p' → ParentDir ∉ pieces p'.
Proof.
  intros (_ & _ & ps & Hn & _ & ->)%sanitize_ok. rewrite pieces_rebuilt by done.
  rewrite list_elem_of_fmap. by intros (? & ? & _).
Qed.

(** The containers of the record take commands. *)
Definition target_runs (b : B) (o : option Sandbox) : Prop :=
  ∀ sb cid, o = Some sb → file_target sb = Ok cid → runs b cid.

Lemma wp_download_reply svc id path disposition o (w : W) :
  ok w → target_runs (w_backend w) o → same_target o (shown w id) →
  wp (match path with
      | None => mret (ReplyJson 400 (error_json "Missing 'path' query parameter"))
      | Some src_path =>
          match sanitize_path src_path with
          | Err e => mret (ReplyError e)
          | Ok p =>
              r ← download_file svc id p;
              match r with
              | Ok data => mret (ReplyFile (Handlers.download_headers p disposition data) data)
              | Err e => mret (download_failure (BoxError_to_string e))
              end
          end
      end) (λ reply w',
    ok w' ∧ db w' = db w ∧ w_backend w' = w_backend w ∧
    reply = download_reply svc o (w_backend w) path disposition) w.
Proof.
  intros Hok Hrun Hsame. unfold download_reply.
  destruct path as [p|]; [|by apply wp_ret].
  destruct (sanitize_path p) as [p'|e]; [|by apply wp_ret].
  apply wp_bind. unfold same_target in Hsame. apply wp_download; [done| |].
  - intros E. rewrite E in Hsame. destruct o; [done|]. by apply wp_ret.
  - intros sb E. rewrite E in Hsame. destruct o as [sb0|]; [|done]. simpl in Hsame.
    injection Hsame as Hsame. cbn [option_ok_or result_bind]. rewrite Hsame.
    destruct (file_target sb) as [cid|e] eqn:Ht; [|by apply wp_ret].
    split; [by eapply Hrun|]. intros w' Hok' Hdb' Hb'.
    cbn [result_bind]. destruct (downloaded _ _); by apply wp_ret.
Qed.

(** An acknowledged upload, from the world after the touch. *)
Lemma wp_upload_reply id path data filename (Q : FileReply → W → Prop) (w : W) :
  ok w →
  (∀ reply w', ok w' → db w' = db w →
     (∀ file, reply = ReplyUploaded file →
        fi_path file = path ∧ fi_size file = Z.of_nat (String.length data) ∧
        ∃ sb cid, shown w id = Some sb ∧ file_target sb = Ok cid ∧
          (ParentDir ∉ pieces path → runs (w_backend w) cid →
           ∀ q, starts_with "/" q = true → pieces q = pieces (located (w_backend w) cid path) →
             file_at (w_backend w') cid q = Some data)) →
     Q reply w') →
  wp (r ← upload_file id path data;
      match r with
      | Ok _ =>
          now ← utc_now;
          mret (ReplyUploaded
            {| fi_name := filename; fi_path := path;
               fi_size := Z.of_nat (String.length data); fi_uploaded_at := now |})
      | Err e => mret (upload_failure (BoxError_to_string e))
      end) Q w.
Proof.
  intros Hok HQ.
  assert (∀ m file, upload_failure m ≠ ReplyUploaded file) as Hfail.
  { intros m file. unfold upload_failure. by repeat case_match. }
  apply wp_bind, wp_upload; [done|intros _; apply wp_ret, HQ; naive_solver|].
  intros sb Hsb. destruct (file_target sb) as [cid|e] eqn:Ht; [|apply wp_ret, HQ; naive_solver].
  intros p r w1 Hok1 Hdb1 _ Hup. destruct r as [[]|e]; [|apply wp_ret, HQ; naive_solver].
  wp_clock. apply wp_ret, HQ; [by auto|congruence|]. intros file [= <-].
  split_and!; [done..|]. exists sb, cid. split_and!; [done..|]. intros Hpar Hrun.
  rewrite keeps_backend. by apply Hup.
Qed.

End container.

(** ** Witnesses

    A container that keeps its files by the names of their paths and runs the
    three lines by reading them as the shell does. *)

Module Witnesses.

Definition Box : Type := list (list Component * string).

Definition fits (d : string) : bool := Z.of_nat (String.length d) <? 2 ^ 64.

Fixpoint find_file (k : list Component) (b : Box) : option string :=
  match b with
  | [] => None
  | (k', d) :: b' => if bool_decide (k = k') then (if fits d then Some d else None) else find_file k b'
  end.

Definition box_file (b : Box) (cid p : string) : option string := find_file (pieces p) b.

Definition hex_digit (n : N) : ascii :=
  match String.get (N.to_nat n) "0123456789abcdef" with Some c => c | None => "0"%char end.

Definition hex_value (c : ascii) : N :=
  let n := N_of_ascii c in if (97 <=? n)%N then (n - 87)%N else (n - 48)%N.

Fixpoint hex (s : string) : string :=
  match s with
  | EmptyString => EmptyString
  | String c s' =>
      String (hex_digit (N_of_ascii c / 16)) (String (hex_digit (N_of_ascii c mod 16)) (hex s'))
  end.

Fixpoint unhex (s : string) : option string :=
  match s with
  | EmptyString => Some EmptyString
  | String a (String b s') => String (ascii_of_N (16 * hex_value a + hex_value b)) <$> unhex s'
  | String _ EmptyString => None
  end.

#[export] Instance tar : TarLib := {|
  tar_set_path := Ok;
  tar_append := λ h d,
    if has_char null_byte (th_path h) then Err "nul byte in path"
    else Ok (th_path h +:+ String null_byte d);
  tar_into_inner := Ok;
|}.

Definition tar_read (a : string) : list (string * string) :=
  match split_once null_byte a with Some (p, d) => [(p, d)] | None => [] end.

#[export] Instance base16 : Base64Lib := {| b64_encode := hex; b64_decode := λ s, option_ok_or "invalid" (unhex s) |}.

#[export] Instance http : HttpLib := {| header_value_ok := string_forall is_graph |}.

Definition answer (b : Box) (cid : string) (cmd : list string) : ManagerResult string :=
  match cmd with
  | [_; _; line] =>
      match sh_lex line with
      | Some ts =>
          match ts !! 2%nat, ts !! 3%nat with
          | Some (Word p), _ =>
              if bool_decide (ts = check_tokens p) then
                Ok (match box_file b cid p with
                    | Some _ => "exists" +:+ String newline ""
                    | None => "notfound" +:+ String newline ""
                    end)
              else if bool_decide (ts = read_tokens p) then
                Ok (hex (default "" (box_file b cid p)))
              else Err (ManagerNotFound line)
          | _, Some (Word p) =>
              if bool_decide (ts = size_tokens p) then
                Ok (Z_to_string (Z.of_nat (String.length (default "" (box_file b cid p)))))
              else Err (ManagerNotFound line)
          | _, _ => Err (ManagerNotFound line)
          end
      | None => Err (ManagerNotFound line)
      end
  | _ => Err (ManagerNotFound cid)
  end.

Definition unpacked (archive : string) (b : Box) : ManagerResult () * Box :=
  match tar_read archive with
  | [(n, d)] => if fits d then (Ok (), (pieces n, d) :: b) else (Err (ManagerTimeout n), b)
  | _ => (Err (ManagerTimeout archive), b)
  end.

#[export] Instance box : SandboxManager Box := {|
  bk_create := λ _ _ b, (Ok "c0", b);
  bk_start := λ _ b, (Ok (), b);
  bk_stop := λ _ b, (Ok (), b);
  bk_delete := λ _ b, (Ok (), []);
  bk_stats := λ _ b, (Ok Demo.stats0, b);
  bk_is_running := λ _ b, (Ok true, b);
  bk_get_exit_info := λ _ b, (Ok (0, false), b);
  bk_list := λ _ b, (Ok [], b);
  bk_remove_volume := λ _ b, (Ok (), b);
  bk_get_image_features := λ _ b, (Ok Demo.image0, b);
  bk_pull_image := λ _ b, (Ok (), b);
  bk_pull_image_with_progress := λ _ b, (([], Ok ()), b);
  bk_image_exists := λ _ b, (Ok true, b);
  bk_exec := λ cid cmd b, (answer b cid cmd, b);
  bk_get_workdir := λ _ b, (Ok "/work dir/", b);
  bk_get_sandbox_k8s_status := λ _ b, (Ok None, b);
  bk_upload_archive := λ _ _ archive, unpacked archive;
  bk_exec_http := λ cid _ _ _ _ b, (Err (ManagerNotFound cid), b);
  bk_exec_with_stdin_result := λ cid _ _ _ b, (Err (ManagerNotFound cid), b);
|}.

Lemma hex_byte c :
  ascii_of_N (16 * hex_value (hex_digit (N_of_ascii c / 16))
                 + hex_value (hex_digit (N_of_ascii c mod 16))) = c ∧
  is_graph (hex_digit (N_of_ascii c / 16)) = true ∧
  is_graph (hex_digit (N_of_ascii c mod 16)) = true.
Proof. destruct c as [[] [] [] [] [] [] [] []]; vm_compute; done. Qed.

#[export] Instance base16_laws : Base64Laws.
Proof.
  split. intros d. simpl. rewrite trim_graph.
  - assert (unhex (hex d) = Some d) as ->; [|done].
    induction d as [|c d IH]; [done|]. cbn [hex unhex].
    rewrite IH. by destruct (hex_byte c) as [-> _].
  - induction d as [|c d IH]; [done|]. cbn [hex string_forall].
    destruct (hex_byte c) as (_ & -> & ->). done.
Qed.

#[export] Instance tar_laws : TarLaws.
Proof.
  apply Build_TarLaws with (tar_files := tar_read).
  - intros p n [= <-]. done.
  - intros h d a a' Ha _ [= <-]. simpl in Ha.
    destruct (has_char null_byte (th_path h)) eqn:E; [done|]. simplify_eq.
    unfold tar_read.
    by rewrite (proj2 (split_once_Some null_byte (th_path h +:+ String null_byte d) (th_path h) d)).
Defined.

Lemma find_file_fits k b d : find_file k b = Some d → fits d = true.
Proof.
  induction b as [|[k' d'] b IH]; simpl; [done|]. case_bool_decide; [|done].
  destruct (fits d') eqn:E; [congruence|done].
Qed.

Lemma answer_check cid line p b :
  sh_lex line = Some (check_tokens p) →
  answer b cid (sh_c line) =
    Ok (match box_file b cid p with
        | Some _ => "exists" +:+ String newline ""
        | None => "notfound" +:+ String newline ""
        end).
Proof.
  intros Hl. unfold answer, sh_c. rewrite Hl. cbn [lookup list_lookup check_tokens].
  by rewrite bool_decide_eq_true_2.
Qed.

Lemma answer_read cid line p b :
  sh_lex line = Some (read_tokens p) →
  answer b cid (sh_c line) = Ok (hex (default "" (box_file b cid p))).
Proof.
  intros Hl. unfold answer, sh_c. rewrite Hl. cbn [lookup list_lookup read_tokens].
  by rewrite bool_decide_eq_false_2, bool_decide_eq_true_2.
Qed.

Lemma answer_size cid line p b :
  sh_lex line = Some (size_tokens p) →
  answer b cid (sh_c line) =
    Ok (Z_to_string (Z.of_nat (String.length (default "" (box_file b cid p))))).
Proof.
  intros Hl. unfold answer, sh_c. rewrite Hl. cbn [lookup list_lookup size_tokens].
  by rewrite bool_decide_eq_true_2.
Qed.

#[export] Instance box_laws : ContainerLaws Box.
Proof.
  apply Build_ContainerLaws with (runs := λ _ _, True) (file_at := box_file).
  - done.
  - intros cid b wd [= <-]. split; [done|].
    change (pieces "/work dir/") with [NormalName "work dir"]. by intros ?%list_elem_of_singleton.
  - intros cid line p b _ Hl _. unfold bk_exec, box. by rewrite (answer_check _ _ p).
  - intros cid line p b d _ Hl _ Hf. unfold bk_exec, box. rewrite (answer_size _ _ p), Hf by done.
    eexists. split; [done|]. apply trim_number. lia.
  - intros cid line p b d _ Hl _ Hf. unfold bk_exec, box. by rewrite (answer_read _ _ p), Hf.
  - intros b cid p d Hf%find_file_fits. unfold fits in Hf. apply Z.ltb_lt in Hf.
    unfold is_u64. lia.
  - intros cid archive b b' n d _ Hup Hfiles _. simpl in *. unfold unpacked in Hup.
    rewrite Hfiles in Hup. destruct (fits d) eqn:E; [|done]. simplify_eq.
    split_and!; [done..|]. intros p _ Hp. unfold box_file. simpl.
    by rewrite bool_decide_eq_true_2, E.
Defined.

Import Demo.

Definition world0 : World.World StateStore Box (list SandboxActivity) :=
  mkWorld Demo.store [([NormalName "etc"; NormalName "it's"], "secret")] (Some [])
    (λ n, 1000 + Z.of_nat n) (λ n, Z.of_nat n) (λ n, N.of_nat n) [] [].

Definition owner : ApiKeyIdentity := mkIdentity (Some 7%N) Database.

Lemma download_file_spec_witness :
  run_val (download_file SandboxService_new 1%N "/etc/it's") world0 = Ok "secret" ∧
  wp (download_file SandboxService_new 1%N "/etc/it's") (λ r w',
    ok w' ∧ db w' = db world0 ∧ w_backend w' = w_backend world0 ∧ r = Ok "secret") world0.
Proof.
  split; [vm_compute; reflexivity|].
  exact (download_file_spec SandboxService_new 1%N "/etc/it's" Demo.live world0
           Demo.world_ok eq_refl (λ _ _, I)).
Defined.

(** A relative path, in two spellings. *)
Lemma upload_download_roundtrip_witness :
  run_val (upload_file 1%N "a b/c$(x)" "hello") world0 = Ok () ∧
  wp (r ← upload_file 1%N "a b/c$(x)" "hello";
      match r with
      | Ok _ => download_file SandboxService_new 1%N "./a b//c$(x)"
      | Err e => mret (Err e)
      end) (λ r w',
    ok w' ∧ db w' = db world0 ∧
    (r = Ok "hello" ∨
     ∃ e, r = Err e ∧ run_val (upload_file 1%N "a b/c$(x)" "hello") world0 = Err e)) world0.
Proof.
  split; [vm_compute; reflexivity|].
  apply (upload_download_roundtrip SandboxService_new 1%N "a b/c$(x)" "./a b//c$(x)" "hello"
           Demo.live world0 Demo.world_ok eq_refl).
  - change (pieces "a b/c$(x)") with [NormalName "a b"; NormalName "c$(x)"].
    by intros [?|?%list_elem_of_singleton]%elem_of_cons.
  - split; reflexivity.
  - exact (λ _ _, I).
  - vm_compute. congruence.
Defined.

End Witnesses.
