(* ===== verification/Static.v ===== *)
(** * Static: the published files of a sandbox

    Models [src/core/static_files.rs] in the mode in which the server uses it
    ([new_with_backend], where every operation is a command run in the sandbox)
    and the handlers of [src/api/handlers/static_files.rs] over it.  The other
    mode, which reads the host's file system, and the zip download, which always
    does, are in [HostFiles].

    The theorems: the shell reads a client's path as one word in every command;
    what a request for a file answers, by what is in the container; a path that
    passes the check stays below the published directory; the directory tree has
    exactly the listed files as its leaves. *)

From S2P Require Import Prelude Text Paths Errors Types Store World Demo Service Config Ops Files.
From Stdlib Require Import Ascii.

(** ** The commands *)

Definition public_path (file_path : string) : string := "/public/" +:+ file_path.

Definition symlink_line (q : string) : string :=
  "if sudo test -L " +:+ q +:+ "; then echo 'SYMLINK'; fi".
Definition public_size_line (q : string) : string :=
  "sudo wc -c < " +:+ q +:+ " 2>/dev/null || echo '0'".
Definition exists_line (q : string) : string :=
  "sudo test -f " +:+ q +:+ " && echo 'yes' || echo 'no'".
Definition public_read_line (q : string) : string := "sudo base64 -w0 " +:+ q.
Definition delete_line (q : string) : string :=
  "sudo test -f " +:+ q +:+ " && sudo rm -f " +:+ q +:+ " && echo 'deleted' || echo 'notfound'".

Definition count_and_delete_line : string :=
  "count=$(sudo find /public -type f 2>/dev/null | wc -l); sudo find /public -mindepth 1 -delete 2>/dev/null; echo "
    +:+ String "034" "$count" +:+ String "034" "".
Definition find_line : string :=
  "sudo find /public -type f | sed 's|^/public/||' | sort".
Definition total_line : string :=
  "sudo find /public -type f -exec stat -c '%s' {} + 2>/dev/null | awk '{s+=$1} END {print s+0}'".

Definition symlink_error : BoxError :=
  BoxMsg (ApiError_to_string (ApiValidation "Symlinks are not allowed" None ValidationError)).

(** ** The directory tree *)

#[warnings="-automation"]
Inductive FileNode : Type :=
  | mkFileNode (fn_name fn_path : string) (fn_is_dir : bool) (fn_size : option Z)
      (fn_children : option (list FileNode)).

Definition fn_name (n : FileNode) : string := let '(mkFileNode x _ _ _ _) := n in x.
Definition fn_path (n : FileNode) : string := let '(mkFileNode _ x _ _ _) := n in x.
Definition fn_is_dir (n : FileNode) : bool := let '(mkFileNode _ _ x _ _) := n in x.

(** A [BTreeMap] is the list of its entries in the order of the keys. *)
#[warnings="-automation"]
Inductive TreeNode : Type :=
  | mkTreeNode (is_dir : bool) (children : list (string * TreeNode)).

Definition tn_is_dir (n : TreeNode) : bool := let '(mkTreeNode d _) := n in d.
Definition tn_children (n : TreeNode) : list (string * TreeNode) := let '(mkTreeNode _ l) := n in l.
Definition TreeNode_default : TreeNode := mkTreeNode false [].

(** [*map.entry(k).or_default() = f(..)]. *)
Fixpoint update_entry (k : string) (f : TreeNode → TreeNode) (l : list (string * TreeNode))
    : list (string * TreeNode) :=
  match l with
  | [] => [(k, f TreeNode_default)]
  | (k', n) :: l' =>
      if String.eqb k k' then (k', f n) :: l'
      else if String.ltb k k' then (k, f TreeNode_default) :: l
      else (k', n) :: update_entry k f l'
  end.

(** The inner loop: from the root, one child per part; each child visited is a
    directory unless it is the last. *)
Fixpoint add_path (parts : list string) (current : TreeNode) : TreeNode :=
  match parts with
  | [] => current
  | part :: rest =>
      mkTreeNode (tn_is_dir current)
        (update_entry part
           (λ child, add_path rest (mkTreeNode (negb (is_nil rest)) (tn_children child)))
           (tn_children current))
  end.

(** Directories first, then by name. *)
Definition node_leb (a b : FileNode) : bool :=
  match fn_is_dir a, fn_is_dir b with
  | true, false => true
  | false, true => false
  | _, _ => String.leb (fn_name a) (fn_name b)
  end.

(** A stable sort. *)
Fixpoint insert_node (n : FileNode) (l : list FileNode) : list FileNode :=
  match l with
  | [] => [n]
  | m :: l' => if node_leb n m then n :: l else m :: insert_node n l'
  end.
Definition sort_nodes (l : list FileNode) : list FileNode := foldr insert_node [] l.

Fixpoint convert (path : string) (node : TreeNode) : list FileNode :=
  match node with
  | mkTreeNode _ children =>
      sort_nodes
        (List.map (λ '(name, child),
           let child_path := if is_empty path then name else path +:+ "/" +:+ name in
           if tn_is_dir child then
             let cs := convert child_path child in
             mkFileNode name child_path true None (if is_nil cs then None else Some cs)
           else mkFileNode name child_path false None None) children)
  end.

Definition build_tree (files : list string) : TreeNode :=
  fold_left (λ root file, add_path (split_on slash file) root) files TreeNode_default.

Definition build_tree_from_paths (files : list string) : list FileNode :=
  convert "" (build_tree files).

Example tree_example :
  build_tree_from_paths ["b.txt"; "a/y"; "a/x"] =
    [mkFileNode "a" "a" true None
       (Some [mkFileNode "x" "a/x" false None None; mkFileNode "y" "a/y" false None None]);
     mkFileNode "b.txt" "b.txt" false None None].
Proof. vm_compute. reflexivity. Qed.

(** ** The service *)

Section static.
Context {S B A : Type}.
Context `{!StateStoreTrait S} `{!SandboxManager B} `{!ActivityStoreTrait A}.
Context `{!UuidLib} `{!Base64Lib}.
#[local] Abbreviation W := (World S B A).

Definition k8s_exec (sandbox_id : Uuid) (cmd : list string) : M W (Result string BoxError) :=
  let id := uuid_to_string sandbox_id in
  let* sandbox := ok_or ("Sandbox " +:+ id +:+ " not found") (st_get sandbox_id) in
  match sb_container_id sandbox with
  | None => mret (Err (BoxMsg ("Sandbox " +:+ id +:+ " has no container")))
  | Some container_id => bk (bk_exec container_id cmd)
  end.

Definition k8s_check_not_symlink (sandbox_id : Uuid) (file_path : string)
    : M W (Result () BoxError) :=
  let quoted := shell_quote (public_path file_path) in
  let* output := k8s_exec sandbox_id (sh_c (symlink_line quoted)) in
  mret (if String.eqb (trim output) "SYMLINK" then Err symlink_error else Ok ()).

Definition get_file_size (sandbox_id : Uuid) (file_path : string)
    : M W (Result (option Z) BoxError) :=
  let* _ := k8s_check_not_symlink sandbox_id file_path in
  let quoted := shell_quote (public_path file_path) in
  let* output := k8s_exec sandbox_id (sh_c (public_size_line quoted)) in
  let size := default 0 (parse_u64 (trim output)) in
  mret (Ok (if bool_decide (0 < size) then Some size else None)).

Definition file_exists (sandbox_id : Uuid) (file_path : string) : M W (Result bool BoxError) :=
  let* _ := k8s_check_not_symlink sandbox_id file_path in
  let quoted := shell_quote (public_path file_path) in
  let* output := k8s_exec sandbox_id (sh_c (exists_line quoted)) in
  mret (Ok (String.eqb (trim output) "yes")).

Definition read_file (sandbox_id : Uuid) (file_path : string) : M W (Result string BoxError) :=
  let* _ := k8s_check_not_symlink sandbox_id file_path in
  let quoted := shell_quote (public_path file_path) in
  let* encoded := k8s_exec sandbox_id (sh_c (public_read_line quoted)) in
  mret (result_map_err (λ e, BoxMsg ("Failed to decode base64: " +:+ e))
          (b64_decode (trim encoded))).

Definition delete_file (sandbox_id : Uuid) (file_path : string) : M W (Result bool BoxError) :=
  let* _ := k8s_check_not_symlink sandbox_id file_path in
  let quoted := shell_quote (public_path file_path) in
  let* output := k8s_exec sandbox_id (sh_c (delete_line quoted)) in
  mret (Ok (String.eqb (trim output) "deleted")).

Definition delete_sandbox_files (sandbox_id : Uuid) : M W (Result Z BoxError) :=
  let* output := k8s_exec sandbox_id (sh_c count_and_delete_line) in
  mret (Ok (default 0 (parse_u64 (trim output)))).

Definition list_files (sandbox_id : Uuid) : M W (Result (list string) BoxError) :=
  let* output := k8s_exec sandbox_id (sh_c find_line) in
  mret (Ok (List.filter (λ s, negb (is_empty s)) (lines output))).

Definition get_total_size (sandbox_id : Uuid) : M W (Result Z BoxError) :=
  let* output := k8s_exec sandbox_id (sh_c total_line) in
  mret (Ok (default 0 (parse_u64 (trim output)))).

Definition build_directory_tree (sandbox_id : Uuid) : M W (Result (list FileNode) BoxError) :=
  let* files := list_files sandbox_id in
  mret (Ok (if is_nil files then [] else build_tree_from_paths files)).
End static.

(** ** The handlers *)

Definition ends_with (p s : string) : bool := starts_with (string_rev p) (string_rev s).

(** The map is walked in the order of the list. *)
Definition get_cache_control_for_file (config : StaticServerConfig) (content_type : string)
    : string :=
  match match_str (cache_control_by_type config) content_type with
  | Some c => c
  | None =>
      let wildcard_pattern := default "" (head (split_on slash content_type)) +:+ "/" in
      match List.find (λ '(pattern, _), starts_with wildcard_pattern pattern
                                          && ends_with "/*" pattern)
              (cache_control_by_type config) with
      | Some (_, c) => c
      | None => cache_control config
      end
  end.

(** The body of an error: its status, text and hint. *)
Record StaticError : Type := mkStaticError {
  se_status : Z;
  se_error : string;
  se_hint : option string;
}.

Definition traversal : StaticError :=
  mkStaticError 400 "Invalid file path" (Some "Path cannot contain '..'").

Record ServedFile : Type := mkServedFile {
  sf_content_type : string;
  sf_cache_control : string;
  sf_body : string;
}.

Record ListedFile : Type := mkListedFile {
  lf_file_name : string;
  lf_file_path : string;
  lf_file_size_bytes : Z;
  lf_content_type : string;
}.

Record ListFilesResponse : Type := mkListFilesResponse {
  lr_files : list ListedFile;
  lr_total_count : Z;
  lr_total_size_bytes : Z;
}.

Module Handlers.
Section handlers.
Context {S B A : Type}.
Context `{!StateStoreTrait S} `{!SandboxManager B} `{!ActivityStoreTrait A}.
Context `{!UuidLib} `{!Base64Lib} `{!HttpLib}.
#[local] Abbreviation W := (World S B A).

Definition header_or (value fallback : string) : string :=
  if header_value_ok value then value else fallback.

Definition serve_static_file (config : StaticServerConfig) (sandbox_id : Uuid) (path : string)
    : M W (Result ServedFile StaticError) :=
  let file_path := trim_start_matches slash path in
  if contains ".." file_path then mret (Err traversal)
  else
    r ← file_exists sandbox_id file_path;
    match r with
    | Err _ => mret (Err (mkStaticError 500 "Failed to access file" None))
    | Ok false =>
        mret (Err (mkStaticError 404 "File not found"
                     (Some "Check the sandbox_id and file_path")))
    | Ok true =>
        r' ← read_file sandbox_id file_path;
        match r' with
        | Err _ => mret (Err (mkStaticError 500 "Failed to read file" None))
        | Ok content =>
            let content_type := detect_mime_type file_path in
            mret (Ok
              {| sf_content_type := header_or content_type "application/octet-stream";
                 sf_cache_control :=
                   header_or (get_cache_control_for_file config content_type)
                     "public, max-age=3600";
                 sf_body := content |})
        end
    end.

(** An error that says the container is not running is the client's. *)
Definition list_failure (what : string) (e : BoxError) : StaticError :=
  mkStaticError (if contains "not running" (BoxError_to_string e) then 409 else 500) what None.

(** Files whose size cannot be told are left out. *)
Fixpoint list_sizes (sandbox_id : Uuid) (names : list string) (files : list ListedFile)
    (total_size : Z) : M W (list ListedFile * Z) :=
  match names with
  | [] => mret (files, total_size)
  | name :: names' =>
      r ← get_file_size sandbox_id name;
      match r with
      | Ok (Some size) =>
          list_sizes sandbox_id names'
            (files ++ [mkListedFile name name size (detect_mime_type name)])
            (u64_wrap (total_size + size))
      | Ok None | Err _ => list_sizes sandbox_id names' files total_size
      end
  end.

Definition list_static_files (sandbox_id : Uuid) : M W (Result ListFilesResponse StaticError) :=
  r ← list_files sandbox_id;
  match r with
  | Err e => mret (Err (list_failure "Failed to list files" e))
  | Ok file_names =>
      '(files, total_size) ← list_sizes sandbox_id file_names [] 0;
      mret (Ok (mkListFilesResponse files (Z.of_nat (length files)) total_size))
  end.

Definition delete_static_file (sandbox_id : Uuid) (path : string)
    : M W (Result string StaticError) :=
  let file_path := trim_start_matches slash path in
  if contains ".." file_path then mret (Err traversal)
  else
    r ← delete_file sandbox_id file_path;
    match r with
    | Err _ => mret (Err (mkStaticError 500 "Failed to delete file" None))
    | Ok false => mret (Err (mkStaticError 404 "File not found" None))
    | Ok true =>
        _ ← record_api_activity sandbox_id;
        mret (Ok file_path)
    end.

Definition delete_sandbox_static_files (sandbox_id : Uuid) : M W (Result Z StaticError) :=
  r ← delete_sandbox_files sandbox_id;
  match r with
  | Err _ => mret (Err (mkStaticError 500 "Failed to delete files" None))
  | Ok count =>
      _ ← record_api_activity sandbox_id;
      mret (Ok count)
  end.

Definition list_sandbox_directory_tree (sandbox_id : Uuid)
    : M W (Result (list FileNode) StaticError) :=
  r ← build_directory_tree sandbox_id;
  match r with
  | Err e => mret (Err (list_failure "Failed to list directory" e))
  | Ok tree => mret (Ok tree)
  end.
End handlers.
End Handlers.

(** ** The commands as the shell reads them *)

Definition sudo (ts : list Token) : list Token := Word "sudo" :: ts.
Definition say (yes no : string) : list Token :=
  [Op "&&"; Word "echo"; Word yes; Op "||"; Word "echo"; Word no].

Definition symlink_tokens (p : string) : list Token :=
  Word "if" :: sudo [Word "test"; Word "-L"; Word p; Op ";"; Word "then"; Word "echo";
                     Word "SYMLINK"; Op ";"; Word "fi"].
Definition public_size_tokens (p : string) : list Token :=
  sudo [Word "wc"; Word "-c"; Op "<"; Word p; IoNumber "2"; Op ">"; Word "/dev/null"; Op "||";
        Word "echo"; Word "0"].
Definition exists_tokens (p : string) : list Token :=
  sudo ([Word "test"; Word "-f"; Word p] ++ say "yes" "no").
Definition public_read_tokens (p : string) : list Token :=
  sudo [Word "base64"; Word "-w0"; Word p].
Definition delete_tokens (p : string) : list Token :=
  sudo [Word "test"; Word "-f"; Word p; Op "&&"] ++
  sudo ([Word "rm"; Word "-f"; Word p] ++ say "deleted" "notfound").

Lemma sh_lex_static path :
  sh_lex (symlink_line (shell_quote path)) = Some (symlink_tokens path) ∧
  sh_lex (public_size_line (shell_quote path)) = Some (public_size_tokens path) ∧
  sh_lex (exists_line (shell_quote path)) = Some (exists_tokens path) ∧
  sh_lex (public_read_line (shell_quote path)) = Some (public_read_tokens path) ∧
  sh_lex (delete_line (shell_quote path)) = Some (delete_tokens path).
Proof.
  split_and!.
  - lex_around "if sudo test -L " path "; then echo 'SYMLINK'; fi"
      [Word "if"; Word "sudo"; Word "test"; Word "-L"].
  - lex_around "sudo wc -c < " path " 2>/dev/null || echo '0'"
      [Word "sudo"; Word "wc"; Word "-c"; Op "<"].
  - lex_around "sudo test -f " path " && echo 'yes' || echo 'no'"
      [Word "sudo"; Word "test"; Word "-f"].
  - unfold public_read_line. rewrite <-(string_app_nil (shell_quote path)).
    lex_around "sudo base64 -w0 " path "" [Word "sudo"; Word "base64"; Word "-w0"].
  - lex_around "sudo test -f " path
      (" && sudo rm -f " +:+ shell_quote path +:+ " && echo 'deleted' || echo 'notfound'")
      [Word "sudo"; Word "test"; Word "-f"].
    assert (∀ rest, sh_lex_from false (Some (true, path)) (" && sudo rm -f " +:+ rest) =
      pre [Word path; Op "&&"; Word "sudo"; Word "rm"; Word "-f"] (sh_lex_from false None rest))
      as -> by (intros rest; simpl; by rewrite ?pre_pre).
    by rewrite sh_lex_quote.
Qed.

(** no path can break out of a command.  For every path, whatever
    characters it has, the shell reads each of the eight command lines built
    from it as the words that are meant, the path being one of them, as it
    is. *)
Theorem commands_quoted path :
  (let '(check_cmd, size_cmd, read_cmd) := build_download_cmds path in
   ∃ l1 l2 l3,
     check_cmd = sh_c l1 ∧ sh_lex l1 = Some (check_tokens path) ∧
     size_cmd = sh_c l2 ∧ sh_lex l2 = Some (size_tokens path) ∧
     read_cmd = sh_c l3 ∧ sh_lex l3 = Some (read_tokens path)) ∧
  sh_lex (symlink_line (shell_quote path)) = Some (symlink_tokens path) ∧
  sh_lex (public_size_line (shell_quote path)) = Some (public_size_tokens path) ∧
  sh_lex (exists_line (shell_quote path)) = Some (exists_tokens path) ∧
  sh_lex (public_read_line (shell_quote path)) = Some (public_read_tokens path) ∧
  sh_lex (delete_line (shell_quote path)) = Some (delete_tokens path).
Proof.
  split; [|apply sh_lex_static]. simpl.
  destruct (sh_lex_lines path) as (L1 & L2 & L3). eauto 10.
Qed.

(** ** The tree and its leaves *)

(** The leaves below a node, as the names on the way to them. *)
Fixpoint leaves (n : TreeNode) : list (list string) :=
  match n with
  | mkTreeNode _ children =>
      flat_map (λ '(k, c), if tn_is_dir c then cons k <$> leaves c else [[k]]) children
  end.

Definition entry_leaves (e : string * TreeNode) : list (list string) :=
  if tn_is_dir e.2 then cons e.1 <$> leaves e.2 else [[e.1]].

Lemma leaves_unfold n : leaves n = flat_map entry_leaves (tn_children n).
Proof.
  destruct n as [d l]. simpl. induction l as [|[k c] l IH]; [done|]. simpl. by rewrite IH.
Qed.

(** Two paths of which neither leads through the other. *)
Definition apart (p q : list string) : Prop := ¬ p `prefix_of` q ∧ ¬ q `prefix_of` p.

Lemma apart_cons k p q : apart (k :: p) (k :: q) → apart p q.
Proof. intros [H1 H2]. by split; intros H; [apply H1|apply H2]; apply prefix_cons. Qed.

(** An entry is updated where it is, or made from a fresh node. *)
Lemma update_entry_cases k f l :
  (∃ l1 c l2, l = l1 ++ (k, c) :: l2 ∧ update_entry k f l = l1 ++ (k, f c) :: l2) ∨
  (∃ l1 l2, l = l1 ++ l2 ∧ update_entry k f l = l1 ++ (k, f TreeNode_default) :: l2).
Proof.
  induction l as [|[k' n] l IH]; simpl; [right; by exists [], []|].
  destruct (String.eqb_spec k k') as [->|Hne]; [left; by exists [], n, l|].
  destruct (String.ltb k k'); [right; by exists [], ((k', n) :: l)|].
  destruct IH as [(l1 & c & l2 & -> & ->)|(l1 & l2 & -> & ->)];
    [left; by exists ((k', n) :: l1), c, l2|right; by exists ((k', n) :: l1), l2].
Qed.

Lemma tn_is_dir_add parts n : tn_is_dir (add_path parts n) = tn_is_dir n.
Proof. by destruct parts. Qed.

Lemma leaves_add parts n :
  parts ≠ [] → Forall (apart parts) (leaves n) → leaves (add_path parts n) ≡ₚ parts :: leaves n.
Proof.
  revert n. induction parts as [|k rest IH]; [done|]. intros n _. cbn [add_path].
  rewrite !leaves_unfold. cbn [tn_children].
  assert (∀ ch, (rest ≠ [] → Forall (apart rest) (flat_map entry_leaves ch)) →
    entry_leaves (k, add_path rest (mkTreeNode (negb (is_nil rest)) ch)) ≡ₚ
    (k :: rest) :: match rest with [] => [] | _ => cons k <$> flat_map entry_leaves ch end) as Hnew.
  { intros ch Hch. unfold entry_leaves at 1. cbn [fst snd]. rewrite tn_is_dir_add. cbn [tn_is_dir].
    destruct rest as [|r rest]; [done|]. cbn [is_nil negb].
    rewrite IH; [|done|]; rewrite leaves_unfold; cbn [tn_children]; [done|by apply Hch]. }
  set (f := λ child, add_path rest (mkTreeNode (negb (is_nil rest)) (tn_children child))).
  destruct (update_entry_cases k f (tn_children n)) as [(l1 & c & l2 & -> & ->)|(l1 & l2 & -> & ->)];
    rewrite !flat_map_app; cbn [flat_map]; intros Hap; rewrite !Forall_app in Hap.
  - destruct Hap as (_ & Hc & _). unfold f. rewrite Hnew.
    + assert (match rest with [] => [] | _ => cons k <$> flat_map entry_leaves (tn_children c) end
              = entry_leaves (k, c)) as ->; [|solve_Permutation].
      unfold entry_leaves in Hc |- *. cbn [fst snd] in *. rewrite leaves_unfold in *.
      destruct (tn_is_dir c).
      * destruct rest as [|r rest]; [|done].
        destruct (flat_map entry_leaves (tn_children c)) as [|q qs]; [done|].
        inversion_clear Hc as [|? ? [Hbad _] _]. destruct Hbad. by exists q.
      * inversion_clear Hc as [|? ? [_ Hbad] _]. destruct Hbad. by exists rest.
    + intros Hr. unfold entry_leaves in Hc. cbn [fst snd] in Hc.
      destruct (tn_is_dir c).
      * rewrite leaves_unfold, Forall_fmap in Hc. eapply Forall_impl; [exact Hc|].
        intros q. apply apart_cons.
      * inversion_clear Hc as [|? ? [_ Hbad] _]. destruct Hbad. by exists rest.
  - unfold f. cbn [tn_children TreeNode_default]. rewrite Hnew by (intros _; constructor).
    destruct rest; simpl; solve_Permutation.
Qed.

(** Paths that can be the files of one directory: none is inside another. *)
Definition compatible (files : list string) : Prop :=
  NoDup files ∧
  ∀ f g, f ∈ files → g ∈ files → f ≠ g → ¬ split_on slash f `prefix_of` split_on slash g.

Lemma split_slash_inj f g : split_on slash f = split_on slash g → f = g.
Proof.
  intros H. rewrite <-(join_split_on slash f), <-(join_split_on slash g). by rewrite H.
Qed.

Lemma leaves_fold files n :
  NoDup files →
  (∀ f g, f ∈ files → g ∈ files → f ≠ g → ¬ split_on slash f `prefix_of` split_on slash g) →
  (∀ f, f ∈ files → Forall (apart (split_on slash f)) (leaves n)) →
  leaves (fold_left (λ root file, add_path (split_on slash file) root) files n) ≡ₚ
  (split_on slash <$> files) ++ leaves n.
Proof.
  revert n. induction files as [|f files IH]; intros n Hnd Hpre Hap; [done|]. simpl.
  apply NoDup_cons in Hnd as [Hf Hnd].
  pose proof (split_on_nonempty slash f) as Hne.
  assert (leaves (add_path (split_on slash f) n) ≡ₚ split_on slash f :: leaves n) as Hadd.
  { apply leaves_add; [done|]. apply Hap. by left. }
  rewrite IH; [rewrite Hadd; solve_Permutation|done| |].
  - intros g h Hg Hh. apply Hpre; by right.
  - intros g Hg. rewrite Hadd. constructor; [|apply Hap; by right].
    assert (f ≠ g) as Hfg by (by intros ->).
    split; apply Hpre; (by left) || (by right) || done.
Qed.

Lemma leaves_build files :
  compatible files → leaves (build_tree files) ≡ₚ split_on slash <$> files.
Proof.
  intros [Hnd Hpre]. unfold build_tree. rewrite leaves_fold by (done || constructor).
  by rewrite app_nil_r.
Qed.

(** ** The order of the nodes *)

Lemma string_compare_trans a b c :
  String.compare a b = Lt → String.compare b c = Lt → String.compare a c = Lt.
Proof.
  revert b c. induction a as [|x a IH]; intros [|y b] [|z c]; simpl; try done.
  unfold Ascii.compare.
  destruct (N.compare_spec (N_of_ascii x) (N_of_ascii y)),
    (N.compare_spec (N_of_ascii y) (N_of_ascii z)),
    (N.compare_spec (N_of_ascii x) (N_of_ascii z)); try done; try lia; apply IH.
Qed.

Definition key_lt (a b : string) : Prop := String.compare a b = Lt.

#[global] Instance key_lt_trans : Transitive key_lt.
Proof. intros a b c. apply string_compare_trans. Qed.

Lemma key_lt_irrefl a : ¬ key_lt a a.
Proof. unfold key_lt. induction a as [|x a IH]; simpl; [done|]. unfold Ascii.compare. by rewrite N.compare_refl. Qed.

Lemma ltb_key_lt a b : String.ltb a b = true ↔ key_lt a b.
Proof. unfold String.ltb, key_lt. by destruct (String.compare a b). Qed.

(** Of two different keys, one is smaller. *)
Lemma key_lt_total a b : a ≠ b → String.ltb a b = false → key_lt b a.
Proof.
  unfold String.ltb, key_lt. rewrite (String.compare_antisym b a).
  destruct (String.compare a b) eqn:E; [|done|done]. by apply String.compare_eq_iff in E.
Qed.

Lemma sorted_keys_NoDup l : StronglySorted key_lt l → NoDup l.
Proof.
  induction 1 as [|k l _ IH Hk]; constructor; [|done].
  intros Hin. rewrite Forall_forall in Hk. by apply (key_lt_irrefl k), Hk.
Qed.

(** A tree whose entries are in the order of their keys, at every level. *)
Inductive ordered : TreeNode → Prop :=
  | ordered_node d l :
      StronglySorted key_lt l.*1 → (∀ k c, (k, c) ∈ l → ordered c) → ordered (mkTreeNode d l).

Lemma update_entry_keys k f l x :
  x ∈ (update_entry k f l).*1 → x = k ∨ x ∈ l.*1.
Proof.
  induction l as [|[k' n] l IH]; simpl; rewrite ?elem_of_cons; [tauto|].
  destruct (String.eqb k k'); [simpl; rewrite elem_of_cons; tauto|].
  destruct (String.ltb k k'); simpl; rewrite ?elem_of_cons; tauto.
Qed.

Lemma update_entry_sorted k f l :
  StronglySorted key_lt l.*1 → StronglySorted key_lt (update_entry k f l).*1.
Proof.
  induction l as [|[k' n] l IH]; simpl; [by repeat constructor|].
  intros Hs. apply StronglySorted_inv in Hs as [Hs Hk].
  destruct (String.eqb_spec k k') as [->|Hne]; [by constructor|].
  destruct (String.ltb k k') eqn:Hlt.
  - apply ltb_key_lt in Hlt. simpl. constructor; [by constructor|].
    constructor; [done|]. eapply Forall_impl; [exact Hk|]. intros x Hx. by etrans.
  - simpl. constructor; [by apply IH|]. apply Forall_forall. intros x Hx.
    destruct (update_entry_keys _ _ _ _ Hx) as [->|Hin]; [by apply key_lt_total|].
    by eapply Forall_forall in Hk.
Qed.

Lemma ordered_add parts n : ordered n → ordered (add_path parts n).
Proof.
  revert n. induction parts as [|k rest IH]; intros n Hn; [done|]. cbn [add_path].
  inversion_clear Hn as [d l Hs Hc]. cbn [tn_is_dir tn_children].
  constructor; [by apply update_entry_sorted|].
  set (f := λ child, add_path rest (mkTreeNode (negb (is_nil rest)) (tn_children child))).
  assert (∀ c, ordered c → ordered (f c)) as Hf.
  { intros c Hoc. apply IH. inversion_clear Hoc. by constructor. }
  assert (ordered TreeNode_default) as Hdef by (constructor; [constructor|by intros ?? ?%elem_of_nil]).
  intros k' c'. destruct (update_entry_cases k f l) as [(l1 & c & l2 & -> & ->)|(l1 & l2 & -> & ->)];
    rewrite elem_of_app, elem_of_cons.
  - intros [Hin|[[= -> ->]|Hin]]; [eapply Hc|apply Hf, (Hc k)|eapply Hc];
      rewrite elem_of_app, elem_of_cons; eauto.
  - intros [Hin|[[= -> ->]|Hin]]; [eapply Hc|by apply Hf|eapply Hc]; rewrite elem_of_app; eauto.
Qed.

Lemma ordered_build files : ordered (build_tree files).
Proof.
  unfold build_tree. assert (ordered TreeNode_default) as Hdef
    by (constructor; [constructor|by intros ?? ?%elem_of_nil]).
  revert Hdef. generalize TreeNode_default.
  induction files as [|f files IH]; intros n Hn; simpl; [done|]. by apply IH, ordered_add.
Qed.

(** ** The tree as it is answered *)

(** The files of a list of nodes. *)
Fixpoint node_files (n : FileNode) : list string :=
  match n with
  | mkFileNode _ p d _ cs =>
      if d then match cs with Some l => flat_map node_files l | None => [] end else [p]
  end.

(** Every level is sorted, directories first, and has no name twice. *)
Inductive tidy : list FileNode → Prop :=
  | tidy_nodes l :
      Sorted (λ a b, node_leb a b = true) l → NoDup (fn_name <$> l) →
      (∀ x p sz cs, mkFileNode x p true sz (Some cs) ∈ l → tidy cs) → tidy l.

Lemma node_leb_total a b : node_leb a b = false → node_leb b a = true.
Proof.
  unfold node_leb. destruct (fn_is_dir a), (fn_is_dir b); try done;
    destruct (String.leb_total (fn_name a) (fn_name b)); congruence.
Qed.

Lemma insert_node_perm n l : insert_node n l ≡ₚ n :: l.
Proof.
  induction l as [|m l IH]; simpl; [done|]. destruct (node_leb n m); [done|].
  rewrite IH. solve_Permutation.
Qed.

Lemma sort_nodes_perm l : sort_nodes l ≡ₚ l.
Proof. induction l as [|n l IH]; simpl; [done|]. by rewrite insert_node_perm, IH. Qed.

Lemma insert_node_sorted n l :
  Sorted (λ a b, node_leb a b = true) l → Sorted (λ a b, node_leb a b = true) (insert_node n l).
Proof.
  induction 1 as [|m l Hl IH Hm]; simpl; [by repeat constructor|].
  destruct (node_leb n m) eqn:E; [by repeat constructor|].
  constructor; [done|]. apply node_leb_total in E.
  destruct l as [|m' l]; simpl; [by constructor|].
  inversion_clear Hm. by destruct (node_leb n m'); constructor.
Qed.

Lemma sort_nodes_sorted l : Sorted (λ a b, node_leb a b = true) (sort_nodes l).
Proof. induction l as [|n l IH]; simpl; [constructor|by apply insert_node_sorted]. Qed.

(** The path of a child. *)
Definition child_path (path name : string) : string :=
  if is_empty path then name else path +:+ "/" +:+ name.

Definition entry_node (path : string) (e : string * TreeNode) : FileNode :=
  let p := child_path path e.1 in
  if tn_is_dir e.2 then
    mkFileNode e.1 p true None
      (if is_nil (convert p e.2) then None else Some (convert p e.2))
  else mkFileNode e.1 p false None None.

Lemma convert_unfold path n :
  convert path n = sort_nodes (entry_node path <$> tn_children n).
Proof.
  destruct n as [d l]. simpl. f_equal. induction l as [|[k c] l IH]; [done|].
  simpl. by rewrite IH.
Qed.

Lemma entry_node_files path k c :
  node_files (entry_node path (k, c)) =
  if tn_is_dir c then flat_map node_files (convert (child_path path k) c)
  else [child_path path k].
Proof.
  unfold entry_node. cbn [fst snd]. destruct (tn_is_dir c); [|done].
  simpl. by destruct (convert (child_path path k) c).
Qed.

Lemma convert_files n path :
  ordered n → flat_map node_files (convert path n) ≡ₚ foldl child_path path <$> leaves n.
Proof.
  intros Hn. revert path. induction Hn as [d l _ _ IH]. intros path.
  rewrite convert_unfold, leaves_unfold, sort_nodes_perm. cbn [tn_children].
  induction l as [|[k c] l IHl]; [done|].
  rewrite fmap_cons. cbn [flat_map]. rewrite fmap_app. f_equiv.
  2: { apply IHl. intros k' c' Hin. apply (IH k'). by right. }
  rewrite entry_node_files. unfold entry_leaves. cbn [fst snd].
  destruct (tn_is_dir c); [|done].
  rewrite (IH k c ltac:(by left)), <-list_fmap_compose. done.
Qed.

Lemma convert_tidy n path : ordered n → tidy (convert path n).
Proof.
  intros Hn. revert path. induction Hn as [d l Hs _ IH]. intros path.
  rewrite convert_unfold. cbn [tn_children]. constructor.
  - apply sort_nodes_sorted.
  - rewrite sort_nodes_perm, <-list_fmap_compose.
    assert (fn_name ∘ entry_node path <$> l = l.*1) as ->; [|by apply sorted_keys_NoDup].
    apply list_fmap_ext. intros i [k c] _. unfold compose, entry_node. simpl.
    by destruct (tn_is_dir c).
  - intros x p sz cs Hin. rewrite sort_nodes_perm in Hin.
    apply list_elem_of_fmap in Hin as ([k c] & Heq & Hin). unfold entry_node in Heq.
    cbn [fst snd] in Heq. destruct (tn_is_dir c); [|done].
    destruct (is_nil (convert (child_path path k) c)); [done|]. simplify_eq. by eapply IH.
Qed.

Lemma foldl_child_path path ps :
  path ≠ "" → foldl child_path path ps = join "/" (path :: ps).
Proof.
  revert path. induction ps as [|p ps IH]; intros path Hp; [done|].
  assert (child_path path p = path +:+ "/" +:+ p) as Hc by by destruct path.
  change (foldl child_path (child_path path p) ps = join "/" (path :: p :: ps)).
  rewrite Hc, IH by by destruct path. rewrite (join_cons "/" path) by done.
  destruct ps as [|q ps]; [done|]. rewrite !join_cons by done.
  by rewrite !string_app_assoc.
Qed.

Lemma path_of_parts f :
  starts_with "/" f = false → foldl child_path "" (split_on slash f) = f.
Proof.
  intros Hf. pose proof (join_split_on slash f) as Hj.
  pose proof (split_on_nonempty slash f) as Hne.
  destruct (split_on slash f) as [|p ps]; [done|]. change (foldl child_path p ps = f).
  destruct (decide (p = "")) as [->|Hp]; [|by rewrite foldl_child_path].
  destruct ps as [|q ps]; [done|]. rewrite join_cons in Hj by done.
  rewrite <-Hj in Hf. done.
Qed.

(** the directory tree has exactly the listed files.  For a listing in
    which no path is absolute or goes through another file, the paths at the
    leaves of the tree are the listed paths, each once; and at every level the
    directories come before the files, both by name, without a name twice. *)
Theorem directory_tree_spec files :
  compatible files → (∀ f, f ∈ files → starts_with "/" f = false) →
  flat_map node_files (build_tree_from_paths files) ≡ₚ files ∧
  tidy (build_tree_from_paths files).
Proof.
  intros Hcomp Hrel. unfold build_tree_from_paths.
  split; [|by apply convert_tidy, ordered_build].
  rewrite convert_files by apply ordered_build. rewrite leaves_build by done.
  rewrite <-list_fmap_compose. apply Permutation_refl'. etrans; [|apply list_fmap_id].
  apply list_fmap_ext. intros i f Hf. apply path_of_parts, Hrel. by eapply list_elem_of_lookup_2.
Qed.

(** ** What a request finds in the container

    [takes b cid]: the container takes commands.  [public_file] is the contents
    of the regular file at a path, [is_symlink] says whether the path itself is
    a symbolic link, [readable] whether the sandbox's own user may read it:
    [sudo] does not reach the redirection of the size command. *)

Class PublicLaws (B : Type) `{SandboxManager B, Base64Lib} := {
  takes : B → string → Prop;
  public_file : B → string → string → option string;
  is_symlink : B → string → string → bool;
  readable : B → string → string → bool;
  run_symlink cid line p b :
    takes b cid → sh_lex line = Some (symlink_tokens p) →
    bk_exec cid (sh_c line) b =
      (Ok (if is_symlink b cid p then "SYMLINK" +:+ String newline "" else ""), b);
  run_exists cid line p b :
    takes b cid → sh_lex line = Some (exists_tokens p) →
    bk_exec cid (sh_c line) b =
      (Ok (match public_file b cid p with
           | Some _ => "yes" +:+ String newline ""
           | None => "no" +:+ String newline ""
           end), b);
  run_public_read cid line p b d :
    takes b cid → sh_lex line = Some (public_read_tokens p) →
    public_file b cid p = Some d → bk_exec cid (sh_c line) b = (Ok (b64_encode d), b);
  run_public_size cid line p b :
    takes b cid → sh_lex line = Some (public_size_tokens p) →
    ∃ out, bk_exec cid (sh_c line) b = (Ok out, b) ∧
      trim out = Z_to_string (match public_file b cid p with
                              | Some d => if readable b cid p
                                          then Z.of_nat (String.length d) else 0
                              | None => 0
                              end);
  run_delete cid line p b :
    takes b cid → sh_lex line = Some (delete_tokens p) →
    match public_file b cid p with
    | None => bk_exec cid (sh_c line) b = (Ok ("notfound" +:+ String newline ""), b)
    | Some _ =>
        ∃ b', bk_exec cid (sh_c line) b = (Ok ("deleted" +:+ String newline ""), b') ∧
          public_file b' cid p = None ∧
          ∀ q, pieces q ≠ pieces p → public_file b' cid q = public_file b cid q
    end;
  public_small b cid p d :
    public_file b cid p = Some d → is_u64 (Z.of_nat (String.length d));
}.

(** A path without two dots in a row has no parent component. *)
Lemma split_on_infix c s q : q ∈ split_on c s → ∃ l r, s = l +:+ q +:+ r.
Proof.
  revert q. induction s as [|a s IH]; intros q; simpl.
  - intros ->%list_elem_of_singleton. by exists "", "".
  - destruct (Ascii.eqb_spec a c) as [->|_].
    + intros [->|Hq]%elem_of_cons; [by exists "", (String c s)|].
      destruct (IH _ Hq) as (l & r & ->). by exists (String c l), r.
    + pose proof (split_on_nonempty c s) as Hne.
      destruct (split_on c s) as [|p ps] eqn:E; [done|].
      intros [->|Hq]%elem_of_cons.
      * pose proof (join_split_on c s) as Hj. rewrite E in Hj.
        destruct ps as [|p' ps]; [exists "", ""; rewrite <-Hj; by rewrite string_app_nil|].
        rewrite join_cons in Hj by done. rewrite <-Hj. by eexists "", _.
      * destruct (IH q) as (l & r & ->); [by right|]. by exists (String a l), r.
Qed.

Lemma no_dots_no_parent s : contains ".." s = false → ParentDir ∉ pieces s.
Proof.
  intros Hs Hp. unfold pieces in Hp. apply list_elem_of_omap in Hp as (q & Hq & Hc).
  assert (q = "..") as ->.
  { unfold piece_component in Hc. repeat case_match; try done.
    match goal with H : String.eqb q ".." = true |- _ => by apply String.eqb_eq in H end. }
  apply split_on_infix, contains_spec in Hq. congruence.
Qed.

Lemma public_confined p :
  ParentDir ∉ pieces p →
  components (public_path p) = [RootDir; NormalName "public"] ++ pieces p ∧
  ParentDir ∉ pieces p.
Proof.
  intros Hp. split; [|done]. unfold public_path.
  change ("/public/" +:+ p) with ("/public" +:+ String slash p).
  unfold components. by rewrite pieces_app.
Qed.

Section served.
Context {S B A : Type}.
Context `{!StateStoreTrait S} `{!StoreContract S}.
Context `{!SandboxManager B} `{!ActivityStoreTrait A}.
Context `{!UuidLib} `{!Base64Lib} `{!Base64Laws} `{!HttpLib} `{!PublicLaws B}.
#[local] Abbreviation W := (World S B A).

(** The sandbox of a request has a container that takes commands. *)
Definition reachable_container (w : W) (id : Uuid) (cid : string) : Prop :=
  ok w ∧ (∃ sb, shown w id = Some sb ∧ sb_container_id sb = Some cid) ∧ takes (w_backend w) cid.

Definition same_world (w w' : W) : Prop :=
  ok w' ∧ db w' = db w ∧ w_backend w' = w_backend w.

Lemma reachable_same w w' id cid :
  reachable_container w id cid → same_world w w' → reachable_container w' id cid.
Proof.
  intros (_ & Hsb & Ht) (Hok & Hdb & Hb). unfold reachable_container, shown in *.
  by rewrite Hdb, Hb.
Qed.

Lemma same_world_trans w1 w2 w3 : same_world w1 w2 → same_world w2 w3 → same_world w1 w3.
Proof. intros (? & ? & ?) (? & ? & ?). split_and!; congruence. Qed.

(** A command whose answer is known. *)
Lemma wp_k8s_exec {X} id cid cmd out b' (k : string → M W (Result X BoxError)) Q (w : W) :
  reachable_container w id cid →
  bk_exec cid cmd (w_backend w) = (Ok out, b') →
  (∀ w', ok w' → db w' = db w → w_backend w' = b' → wp (k out) Q w') →
  wp (try_ (k8s_exec id cmd) k) Q w.
Proof.
  intros (Hok & (sb & Hsb & Hcid) & _) Hex HQ. apply wp_try.
  apply wp_found_shown; [done|congruence|]. intros sb' Hsb' _ _.
  assert (sb' = sb) as -> by congruence. rewrite Hcid.
  apply wp_bind, wp_backend. intros w' K1 K2 _ _ Hb. unfold run_val, run_st in *.
  rewrite Hex in *. apply wp_ret. by apply HQ; [apply K1| |].
Qed.

(** The check that starts every operation on a file. *)
Lemma wp_not_symlink {X} id cid p (k : () → M W (Result X BoxError)) Q (w : W) :
  reachable_container w id cid →
  (is_symlink (w_backend w) cid (public_path p) = true →
   ∀ w', same_world w w' → Q (Err symlink_error) w') →
  (is_symlink (w_backend w) cid (public_path p) = false →
   ∀ w', same_world w w' → reachable_container w' id cid → wp (k ()) Q w') →
  wp (try_ (k8s_check_not_symlink id p) k) Q w.
Proof.
  intros Hr Hbad HQ. apply wp_try. destruct (sh_lex_static (public_path p)) as [L _].
  eapply wp_k8s_exec; [exact Hr|exact (run_symlink cid _ _ _ (proj2 (proj2 Hr)) L)|].
  intros w' Hok Hdb Hb. assert (same_world w w') as Hs by done. apply wp_ret.
  destruct (is_symlink (w_backend w) cid (public_path p)).
  - by apply Hbad.
  - apply HQ; [done..|]. by eapply reachable_same.
Qed.

(** What an operation on a file sees: an error for a symbolic link, and what the
    container has otherwise. *)
Definition unless_symlink {X} (b : B) (cid p : string) (x : X) : Result X BoxError :=
  if is_symlink b cid (public_path p) then Err symlink_error else Ok x.

(** The contents that a read of the file gives. *)
Definition published (b : B) (cid p : string) : option string := public_file b cid (public_path p).

Lemma wp_file_exists id cid p Q (w : W) :
  reachable_container w id cid →
  (∀ w', same_world w w' → reachable_container w' id cid →
     Q (unless_symlink (w_backend w) cid p (bool_decide (is_Some (published (w_backend w) cid p)))) w') →
  wp (file_exists id p) Q w.
Proof.
  intros Hr HQ. unfold unless_symlink, published in HQ.
  apply (wp_not_symlink id cid); [done| |].
  { intros E w' Hs. rewrite E in HQ. apply HQ; [done|by eapply reachable_same]. }
  intros E w1 Hs1 Hr1. rewrite E in HQ. destruct (sh_lex_static (public_path p)) as (_ & _ & L & _).
  eapply wp_k8s_exec; [exact Hr1|exact (run_exists cid _ _ _ (proj2 (proj2 Hr1)) L)|].
  intros w2 Hok2 Hdb2 Hb2. assert (same_world w1 w2) as Hs2 by done. apply wp_ret.
  pose proof (proj2 (proj2 Hs1)) as Hb1. rewrite Hb1.
  assert (same_world w w2) as Hs by by eapply same_world_trans.
  specialize (HQ w2 Hs (reachable_same _ _ _ _ Hr Hs)).
  destruct (public_file (w_backend w) cid (public_path p)); exact HQ.
Qed.

Lemma wp_read_file id cid p d Q (w : W) :
  reachable_container w id cid → is_symlink (w_backend w) cid (public_path p) = false →
  published (w_backend w) cid p = Some d →
  (∀ w', same_world w w' → Q (Ok d) w') →
  wp (read_file id p) Q w.
Proof.
  intros Hr E Hf HQ. unfold published in Hf.
  apply (wp_not_symlink id cid); [done|congruence|].
  intros _ w1 Hs1 Hr1. destruct (sh_lex_static (public_path p)) as (_ & _ & _ & L & _).
  pose proof (proj2 (proj2 Hs1)) as Hb1. rewrite <-Hb1 in Hf.
  eapply wp_k8s_exec; [exact Hr1|exact (run_public_read cid _ _ _ _ (proj2 (proj2 Hr1)) L Hf)|].
  intros w2 Hok2 Hdb2 Hb2. apply wp_ret. rewrite b64_decode_encode.
  apply HQ. by apply (same_world_trans _ w1).
Qed.

(** The reply to a request for a file. *)
Definition served (config : StaticServerConfig) (b : B) (cid path : string)
    : Result ServedFile StaticError :=
  let p := trim_start_matches slash path in
  if contains ".." p then Err traversal
  else if is_symlink b cid (public_path p) then
    Err (mkStaticError 500 "Failed to access file" None)
  else
    match published b cid p with
    | None => Err (mkStaticError 404 "File not found" (Some "Check the sandbox_id and file_path"))
    | Some content =>
        Ok {| sf_content_type :=
                Handlers.header_or (detect_mime_type p) "application/octet-stream";
              sf_cache_control :=
                Handlers.header_or (get_cache_control_for_file config (detect_mime_type p))
                  "public, max-age=3600";
              sf_body := content |}
    end.

(** what a request for a published file answers.  Two dots in the path
    are refused; otherwise the path leads below the published directory, and
    the reply is the file's contents with the type and the caching of its name,
    "not found", or, for a symbolic link at that path, an error.  Neither the
    records nor the container change. *)
Theorem serve_static_file_spec config id cid path (w : W) :
  reachable_container w id cid →
  wp (Handlers.serve_static_file config id path) (λ r w',
    same_world w w' ∧ r = served config (w_backend w) cid path ∧
    (r ≠ Err traversal →
     let p := trim_start_matches slash path in
     components (public_path p) = [RootDir; NormalName "public"] ++ pieces p ∧
     ParentDir ∉ pieces p)) w.
Proof.
  intros Hr. unfold Handlers.serve_static_file, served. set (p := trim_start_matches slash path).
  destruct (contains ".." p) eqn:Hd; [apply wp_ret; split; [by destruct Hr|done]|].
  assert (Hc := public_confined _ (no_dots_no_parent _ Hd)).
  apply wp_bind, (wp_file_exists id cid); [done|]. intros w1 Hs1 Hr1. unfold unless_symlink.
  pose proof (proj2 (proj2 Hs1)) as Hb1.
  destruct (is_symlink (w_backend w) cid (public_path p)) eqn:El; [by apply wp_ret|].
  destruct (published (w_backend w) cid p) as [d|] eqn:Ef; [|by apply wp_ret].
  rewrite bool_decide_eq_true_2 by done. apply wp_bind, (wp_read_file id cid p d);
    [done|by rewrite Hb1|by rewrite Hb1|].
  intros w2 Hs2. apply wp_ret. split; [by eapply same_world_trans|done].
Qed.

(** What the removal of a file leaves. *)
Definition removed (w w' : W) (id : Uuid) (cid p : string) : Prop :=
  touch_effect w w' id touched ∧
  published (w_backend w') cid p = None ∧
  ∀ q, pieces q ≠ pieces (public_path p) →
    public_file (w_backend w') cid q = public_file (w_backend w) cid q.

Lemma wp_delete_file id cid p Q (w : W) :
  reachable_container w id cid →
  (is_symlink (w_backend w) cid (public_path p) = true →
   ∀ w', same_world w w' → Q (Err symlink_error) w') →
  (is_symlink (w_backend w) cid (public_path p) = false →
   published (w_backend w) cid p = None → ∀ w', same_world w w' → Q (Ok false) w') →
  (is_symlink (w_backend w) cid (public_path p) = false →
   is_Some (published (w_backend w) cid p) →
   ∀ w', ok w' → db w' = db w → published (w_backend w') cid p = None →
     (∀ q, pieces q ≠ pieces (public_path p) →
        public_file (w_backend w') cid q = public_file (w_backend w) cid q) →
     Q (Ok true) w') →
  wp (delete_file id p) Q w.
Proof.
  intros Hr Hlink Hnone Hsome. apply (wp_not_symlink id cid); [done|done|].
  intros E w1 Hs1 Hr1. destruct (sh_lex_static (public_path p)) as (_ & _ & _ & _ & L).
  pose proof Hs1 as (Hok1 & Hdb1 & Hb1). rewrite <-Hb1 in Hnone, Hsome, E.
  pose proof (run_delete cid _ _ (w_backend w1) (proj2 (proj2 Hr1)) L) as Hdel.
  unfold published in *.
  destruct (public_file (w_backend w1) cid (public_path p)) as [d|] eqn:Ef.
  - destruct Hdel as (b' & Hex & Hgone & Hrest). eapply wp_k8s_exec; [exact Hr1|exact Hex|].
    intros w2 Hok2 Hdb2 Hb2. apply wp_ret, Hsome; [done|by eexists|done|congruence|congruence|].
    intros q Hq. rewrite Hb2. by apply Hrest.
  - eapply wp_k8s_exec; [exact Hr1|exact Hdel|].
    intros w2 Hok2 Hdb2 Hb2. apply wp_ret, Hnone; [done..|]. by apply (same_world_trans _ w1).
Qed.

(** what a request to delete a published file does.  It removes the file
    the path leads to, and no other, and records the API call; a path with two
    dots, a symbolic link and a missing file are refused and change nothing.
    Who asks makes no difference: the handler takes no identity. *)
Theorem delete_static_file_spec id cid path (w : W) :
  reachable_container w id cid →
  wp (Handlers.delete_static_file id path) (λ r w',
    let p := trim_start_matches slash path in
    if contains ".." p then r = Err traversal ∧ same_world w w'
    else if is_symlink (w_backend w) cid (public_path p) then
      r = Err (mkStaticError 500 "Failed to delete file" None) ∧ same_world w w'
    else
      match published (w_backend w) cid p with
      | None => r = Err (mkStaticError 404 "File not found" None) ∧ same_world w w'
      | Some _ => r = Ok p ∧ removed w w' id cid p
      end) w.
Proof.
  intros Hr. unfold Handlers.delete_static_file. cbv zeta. set (p := trim_start_matches slash path).
  destruct (contains ".." p); [apply wp_ret; split; [done|by destruct Hr]|].
  apply wp_bind, (wp_delete_file id cid); [done|..].
  - intros E w1 Hs1. rewrite E. by apply wp_ret.
  - intros E Ef w1 Hs1. rewrite E, Ef. by apply wp_ret.
  - intros E [d Ef] w1 Hok1 Hdb1 Hgone Hrest. rewrite E, Ef.
    apply wp_bind, wp_touch; [done|]. intros w2 Ht Hb2. apply wp_ret. split; [done|].
    split; [|by rewrite Hb2]. unfold touch_effect, becomes, shown in *. by rewrite Hdb1 in Ht.
Qed.

(** The entry of a listing: none for a symbolic link, a missing file, a file
    the user may not read, or an empty one. *)
Definition listed (b : B) (cid name : string) : option ListedFile :=
  if is_symlink b cid (public_path name) then None
  else
    d ← published b cid name;
    if readable b cid (public_path name) && negb (is_empty d) then
      Some (mkListedFile name name (Z.of_nat (String.length d)) (detect_mime_type name))
    else None.

Definition total_size (files : list ListedFile) : Z :=
  foldr Z.add 0 (lf_file_size_bytes <$> files).

Lemma wp_get_file_size id cid name Q (w : W) :
  reachable_container w id cid →
  (∀ r w', same_world w w' →
     match r with Ok (Some n) => Some n | _ => None end =
       lf_file_size_bytes <$> listed (w_backend w) cid name → Q r w') →
  wp (get_file_size id name) Q w.
Proof.
  intros Hr HQ. unfold listed in HQ.
  apply (wp_not_symlink id cid); [done|intros E w1 Hs; apply HQ; [done|by rewrite E]|].
  intros E w1 Hs1 Hr1. rewrite E in HQ.
  destruct (sh_lex_static (public_path name)) as (_ & L & _).
  pose proof (proj2 (proj2 Hs1)) as Hb1.
  destruct (run_public_size cid _ _ (w_backend w1) (proj2 (proj2 Hr1)) L) as (out & Hex & Hout).
  eapply wp_k8s_exec; [exact Hr1|exact Hex|]. intros w2 Hok2 Hdb2 Hb2. apply wp_ret.
  apply HQ; [by apply (same_world_trans _ w1)|]. rewrite Hout, Hb1. clear Hout.
  unfold published. destruct (public_file (w_backend w) cid (public_path name)) as [d|] eqn:Ef;
    simpl; [|by vm_compute].
  destruct (readable (w_backend w) cid (public_path name)); [|by vm_compute]. unfold parse_u64.
  rewrite parse_unsigned_to_string by (pose proof (public_small _ _ _ _ Ef); unfold is_u64 in *; lia).
  cbn [from_option Datatypes.id andb]. destruct d as [|c d]; [done|].
  rewrite bool_decide_eq_true_2 by (simpl; lia). done.
Qed.

Lemma listed_shape b cid name f :
  listed b cid name = Some f →
  f = mkListedFile name name (lf_file_size_bytes f) (detect_mime_type name).
Proof.
  unfold listed. destruct (is_symlink _ _ _); [done|]. destruct (published b cid name); simpl; [|done].
  case_match; [|done]. by intros [= <-].
Qed.

Lemma wp_list_sizes id cid names files x total (Q : list ListedFile * Z → W → Prop) (w : W) :
  reachable_container w id cid → total = u64_wrap x →
  (∀ w', same_world w w' →
     Q (files ++ omap (listed (w_backend w) cid) names,
        u64_wrap (x + total_size (omap (listed (w_backend w) cid) names))) w') →
  wp (Handlers.list_sizes id names files total) Q w.
Proof.
  revert files x total w. induction names as [|name names IH]; intros files x total w Hr -> HQ.
  - apply wp_ret. simpl in HQ. rewrite app_nil_r in HQ. unfold total_size in HQ. simpl in HQ.
    rewrite Z.add_0_r in HQ. apply HQ. split_and!; [apply Hr|done|done].
  - cbn [Handlers.list_sizes]. apply wp_bind, (wp_get_file_size id cid); [done|].
    intros r w1 Hs1 Hsize. pose proof (reachable_same _ _ _ _ Hr Hs1) as Hr1.
    pose proof (proj2 (proj2 Hs1)) as Hb1.
    assert (∀ w2, same_world w1 w2 → same_world w w2) as Htr
      by (intros w2; by apply same_world_trans).
    cbn [omap list_omap] in HQ.
    change (list_omap _ _ (listed (w_backend w) cid) names)
      with (omap (listed (w_backend w) cid) names) in HQ.
    destruct (listed (w_backend w) cid name) as [f|] eqn:El.
    + assert (r = Ok (Some (lf_file_size_bytes f))) as -> by (destruct r as [[n|]|e]; naive_solver).
      rewrite <-(listed_shape _ _ _ _ El).
      apply (IH _ (x + lf_file_size_bytes f)); [done| |].
      { unfold u64_wrap. by rewrite Zplus_mod_idemp_l. }
      intros w2 Hs2. rewrite Hb1, <-app_assoc, <-Z.add_assoc. by apply HQ, Htr.
    + assert (r = Ok None ∨ ∃ e, r = Err e) as Hnone.
      { destruct r as [[n|]|e]; [done|by left|right; by eexists]. }
      destruct Hnone as [->|[e ->]]; apply (IH _ x); try done;
        intros w2 Hs2; rewrite Hb1; by apply HQ, Htr.
Qed.

(** what a listing of published files answers.  Of the paths that the
    container lists, the entries are those whose size can be told, in that
    order, with their sizes and types, and with their number and total size; a
    file without contents is not among them.  Nothing changes. *)
Theorem list_static_files_spec id cid output (w : W) :
  reachable_container w id cid →
  bk_exec cid (sh_c find_line) (w_backend w) = (Ok output, w_backend w) →
  wp (Handlers.list_static_files id) (λ r w',
    same_world w w' ∧
    let names := List.filter (λ s, negb (is_empty s)) (lines output) in
    let files := omap (listed (w_backend w) cid) names in
    r = Ok (mkListFilesResponse files (Z.of_nat (length files)) (u64_wrap (total_size files)))) w.
Proof.
  intros Hr Hex. unfold Handlers.list_static_files. apply wp_bind. unfold list_files.
  eapply wp_k8s_exec; [exact Hr|exact Hex|]. intros w1 Hok1 Hdb1 Hb1. apply wp_ret.
  assert (same_world w w1) as Hs1 by done. pose proof (reachable_same _ _ _ _ Hr Hs1) as Hr1.
  apply wp_bind, (wp_list_sizes id cid _ _ 0); [done|done|]. intros w2 Hs2. apply wp_ret.
  split; [by eapply same_world_trans|]. by rewrite Hb1.
Qed.
End served.

(** ** Witnesses

    A container whose files, some of them symbolic links (without contents),
    are kept by the names of their paths. *)

Module Witnesses.
Import Demo.
Import Files.Witnesses(base16, base16_laws, http, fits, hex).
#[local] Existing Instances base16 base16_laws http.

Definition Site : Type := list (list Component * option string).

Fixpoint find_entry (k : list Component) (b : Site) : option (option string) :=
  match b with
  | [] => None
  | (k', d) :: b' => if bool_decide (k = k') then Some d else find_entry k b'
  end.

Definition site_file (b : Site) (cid p : string) : option string :=
  match find_entry (pieces p) b with
  | Some (Some d) => if fits d then Some d else None
  | _ => None
  end.

Definition site_link (b : Site) (cid p : string) : bool :=
  match find_entry (pieces p) b with Some None => true | _ => false end.

Definition without (k : list Component) (b : Site) : Site :=
  List.filter (λ e, negb (bool_decide (k = e.1))) b.

Definition line_end : string := String newline "".

Definition run_tokens (ts : list Token) (b : Site) : option (string * Site) :=
  match ts !! 3%nat, ts !! 4%nat with
  | Some (Word p), Some (Word q) =>
      if bool_decide (ts = symlink_tokens q) then
        Some (if site_link b "" q then "SYMLINK" +:+ line_end else "", b)
      else None
  | Some (Op _), Some (Word p) =>
      if bool_decide (ts = public_size_tokens p) then
        Some (Z_to_string (match site_file b "" p with
                           | Some d => Z.of_nat (String.length d)
                           | None => 0
                           end), b)
      else None
  | Some (Word p), _ =>
      if bool_decide (ts = exists_tokens p) then
        Some (match site_file b "" p with
              | Some _ => "yes" +:+ line_end
              | None => "no" +:+ line_end
              end, b)
      else if bool_decide (ts = delete_tokens p) then
        match site_file b "" p with
        | Some _ => Some ("deleted" +:+ line_end, without (pieces p) b)
        | None => Some ("notfound" +:+ line_end, b)
        end
      else if bool_decide (ts = public_read_tokens p) then
        Some (hex (default "" (site_file b "" p)), b)
      else None
  | _, _ => None
  end.

Definition site_exec (cid : string) (cmd : list string) (b : Site) : ManagerResult string * Site :=
  match cmd with
  | [_; _; line] =>
      if String.eqb line find_line then (Ok ("a/b.html" +:+ line_end +:+ "empty" +:+ line_end), b)
      else
        match sh_lex line ≫= λ ts, run_tokens ts b with
        | Some (out, b') => (Ok out, b')
        | None => (Err (ManagerNotFound line), b)
        end
  | _ => (Err (ManagerNotFound cid), b)
  end.

#[export] Instance site : SandboxManager Site := {|
  bk_create := λ _ _ b, (Ok "c0", b);
  bk_start := λ _ b, (Ok (), b);
  bk_stop := λ _ b, (Ok (), b);
  bk_delete := λ _ b, (Ok (), []);
  bk_stats := λ _ b, (Ok Demo.stats0, b);
  bk_is_running := λ _ b, (Ok true, b);
  bk_get_exit_info := λ _ b, (Ok (0, false), b);
  bk_list := λ _ b, (Ok [], b);
  bk_remove_volume := λ _ b, (Ok (), b);
  bk_get_image_features := λ _ b, (Ok Demo.image0, b);
  bk_pull_image := λ _ b, (Ok (), b);
  bk_pull_image_with_progress := λ _ b, (([], Ok ()), b);
  bk_image_exists := λ _ b, (Ok true, b);
  bk_exec := site_exec;
  bk_get_workdir := λ _ b, (Ok "/", b);
  bk_get_sandbox_k8s_status := λ _ b, (Ok None, b);
  bk_upload_archive := λ _ _ _ b, (Ok (), b);
  bk_exec_http := λ cid _ _ _ _ b, (Err (ManagerNotFound cid), b);
  bk_exec_with_stdin_result := λ cid _ _ _ b, (Err (ManagerNotFound cid), b);
|}.

(** The line for all files is read as other words than the rest. *)
Lemma site_exec_tokens cid line ts b out b' :
  sh_lex line = Some ts → ts !! 1%nat ≠ Some (Word "find") → run_tokens ts b = Some (out, b') →
  site_exec cid (sh_c line) b = (Ok out, b').
Proof.
  intros Hl Hfind Hrun. unfold site_exec, sh_c.
  destruct (String.eqb_spec line find_line) as [->|_].
  { exfalso. apply Hfind.
    vm_compute in Hl. by injection Hl as <-. }
  by rewrite Hl; simpl; rewrite Hrun.
Qed.

Lemma find_without k k' b : find_entry k' (without k b) =
  if bool_decide (k' = k) then None else find_entry k' b.
Proof.
  induction b as [|[k2 d] b IH]; simpl; [by case_bool_decide|].
  destruct (decide (k = k2)) as [->|Hne].
  - rewrite (bool_decide_eq_true_2 (k2 = k2)) by done. simpl. rewrite IH.
    by repeat case_bool_decide; simplify_eq.
  - rewrite (bool_decide_eq_false_2 (k = k2)) by done. simpl. rewrite IH.
    by repeat case_bool_decide; simplify_eq.
Qed.

#[export] Instance site_laws : PublicLaws Site.
Proof.
  apply Build_PublicLaws with (takes := λ _ _, True) (public_file := site_file)
    (is_symlink := site_link) (readable := λ _ _ _, true).
  - intros cid line p b _ Hl. apply (site_exec_tokens _ _ _ _ _ _ Hl); [done|].
    unfold run_tokens. cbn [lookup list_lookup symlink_tokens sudo].
    by rewrite bool_decide_eq_true_2.
  - intros cid line p b _ Hl. apply (site_exec_tokens _ _ _ _ _ _ Hl); [done|].
    unfold run_tokens. cbn [lookup list_lookup exists_tokens sudo app say].
    by rewrite bool_decide_eq_true_2.
  - intros cid line p b d _ Hl Hf. apply (site_exec_tokens _ _ _ _ _ _ Hl); [done|].
    unfold run_tokens. cbn [lookup list_lookup public_read_tokens sudo].
    rewrite !bool_decide_eq_false_2, bool_decide_eq_true_2 by done.
    change (site_file b "" p) with (site_file b cid p). by rewrite Hf.
  - intros cid line p b _ Hl. eexists. split.
    + apply (site_exec_tokens _ _ _ _ _ _ Hl); [done|].
      unfold run_tokens. cbn [lookup list_lookup public_size_tokens sudo].
      by rewrite bool_decide_eq_true_2.
    + rewrite trim_number; [done|]. destruct (site_file b "" p); lia.
  - intros cid line p b _ Hl.
    assert (run_tokens (delete_tokens p) b = match site_file b cid p with
        | Some _ => Some ("deleted" +:+ line_end, without (pieces p) b)
        | None => Some ("notfound" +:+ line_end, b)
        end) as Hrun.
    { unfold run_tokens. cbn [lookup list_lookup delete_tokens sudo app].
      by rewrite bool_decide_eq_false_2, bool_decide_eq_true_2. }
    destruct (site_file b cid p).
    + eexists. split; [by apply (site_exec_tokens _ _ _ _ _ _ Hl)|]. unfold site_file. split.
      * rewrite find_without. by rewrite bool_decide_eq_true_2.
      * intros q Hq. rewrite find_without. by rewrite bool_decide_eq_false_2.
    + by apply (site_exec_tokens _ _ _ _ _ _ Hl).
  - intros b cid p d. unfold site_file. repeat case_match; try done. intros [= <-].
    match goal with H : fits _ = true |- _ => apply Z.ltb_lt in H end. unfold is_u64. lia.
Defined.

Definition at_public (ps : list string) : list Component := NormalName <$> "public" :: ps.

Definition world0 : World.World StateStore Site (list SandboxActivity) :=
  mkWorld Demo.store
    [(at_public ["a"; "b.html"], Some "<p>"); (at_public ["empty"], Some "");
     (at_public ["link"], None)] (Some [])
    (λ n, 1000 + Z.of_nat n) (λ n, Z.of_nat n) (λ n, N.of_nat n) [] [].

Lemma world0_reachable : reachable_container world0 1%N "c0".
Proof. split; [apply Demo.world_ok|]. split; [by exists Demo.live|done]. Qed.

Definition config0 : StaticServerConfig :=
  mkStaticServerConfig "/files" None None 100 10 false "public"
    [("image/*", "max-age=60"); ("text/html", "no-cache")] false true 500 "sandbox-".

Lemma serve_static_file_spec_witness :
  served config0 (w_backend world0) "c0" "/a/b.html" = Ok (mkServedFile "text/html" "no-cache" "<p>") ∧
  served config0 (w_backend world0) "c0" "link" = Err (mkStaticError 500 "Failed to access file" None) ∧
  wp (Handlers.serve_static_file config0 1%N "/a/b.html") (λ r w',
    same_world world0 w' ∧ r = served config0 (w_backend world0) "c0" "/a/b.html" ∧
    (r ≠ Err traversal →
     let p := trim_start_matches slash "/a/b.html" in
     components (public_path p) = [RootDir; NormalName "public"] ++ pieces p ∧
     ParentDir ∉ pieces p)) world0.
Proof.
  split; [vm_compute; reflexivity|]. split; [vm_compute; reflexivity|].
  exact (serve_static_file_spec config0 1%N "c0" "/a/b.html" world0 world0_reachable).
Defined.

Lemma delete_static_file_spec_witness :
  wp (Handlers.delete_static_file 1%N "a/b.html") (λ r w',
    r = Ok "a/b.html" ∧ removed world0 w' 1%N "c0" "a/b.html") world0.
Proof. exact (delete_static_file_spec 1%N "c0" "a/b.html" world0 world0_reachable). Defined.

Lemma list_static_files_spec_witness :
  wp (Handlers.list_static_files 1%N) (λ r w',
    same_world world0 w' ∧
    r = Ok (mkListFilesResponse [mkListedFile "a/b.html" "a/b.html" 3 "text/html"] 1 3)) world0.
Proof.
  exact (list_static_files_spec 1%N "c0" _ world0 world0_reachable eq_refl).
Defined.

Lemma directory_tree_spec_witness :
  compatible ["b.txt"; "a/y"; "a/x"] ∧
  flat_map node_files (build_tree_from_paths ["b.txt"; "a/y"; "a/x"]) ≡ₚ ["b.txt"; "a/y"; "a/x"].
Proof.
  assert (compatible ["b.txt"; "a/y"; "a/x"]) as Hc.
  { split; [by apply (bool_decide_unpack _); vm_compute|].
    intros f g Hf Hg Hne. rewrite !elem_of_cons in Hf, Hg.
    destruct Hf as [->|[->|[->|[]%elem_of_nil]]], Hg as [->|[->|[->|[]%elem_of_nil]]]; try done;
      intros [r Hr]; vm_compute in Hr; congruence. }
  split; [exact Hc|]. apply (directory_tree_spec ["b.txt"; "a/y"; "a/x"] Hc).
  intros f Hf. rewrite !elem_of_cons in Hf.
  by destruct Hf as [->|[->|[->|[]%elem_of_nil]]].
Defined.
End Witnesses.
