(* ===== verification/HostFiles.v ===== *)
(** * HostFiles: published files on the file system of the host

    Models the other mode of [src/core/static_files.rs], in which the service
    reads the directory of a sandbox on the host, and the download of all files
    as an archive ([src/api/handlers/static_files.rs]), which always does.  The
    file system is a tree with symbolic links, read by the server as the
    operating system resolves paths: a link is followed wherever it is met, but
    not at the end of a path for [lstat] and [unlink], and not more than forty
    times.  Names are text; the server may read everything, and nothing else
    changes the tree during a call. *)

From S2P Require Import Prelude Text Paths Errors Types World Demo Config Files Static.

(** ** The file system *)

#[warnings="-automation"]
Inductive Node : Type :=
  | File (content : string)
  | Dir (entries : list (string * Node))
  | Link (target : string).

Inductive IoError : Type := NotFound | NotADirectory | IsADirectory | TooManyLinks.

Record HostFs : Type := mkHostFs {
  hf_root : Node;
  hf_cwd : list string;
  hf_dir_len : Z;
}.

Definition set_root (root : Node) (fs : HostFs) : HostFs := mkHostFs root (hf_cwd fs) (hf_dir_len fs).

(** What is at the end of real names from the root. *)
Fixpoint node_at (n : Node) (names : list string) : option Node :=
  match names with
  | [] => Some n
  | name :: names =>
      match n with
      | Dir entries => match_str entries name ≫= λ child, node_at child names
      | _ => None
      end
  end.

(** A path as the system reads it: a slash or a dot at the end asks for a
    directory. *)
Definition steps (path : string) : list Component :=
  components path ++ (if ends_with "/" path || ends_with "/." path then [CurDir] else []).

Section resolution.
Context (fs : HostFs).
#[local] Abbreviation root := (hf_root fs).

Definition enter (here : list string) (name : string) : Result Node IoError :=
  match node_at root here with
  | Some (Dir entries) => option_ok_or NotFound (match_str entries name)
  | Some _ => Err NotADirectory
  | None => Err NotFound
  end.

(** The way from a real directory; the links that may still be followed. *)
Fixpoint walk (links : nat) : list string → list Component → Result (list string) IoError :=
  fix go (here : list string) (todo : list Component) :=
    match todo with
    | [] => Ok here
    | RootDir :: todo => go [] todo
    | CurDir :: todo =>
        match node_at root here with Some (Dir _) => go here todo | _ => Err NotADirectory end
    | ParentDir :: todo =>
        match node_at root here with
        | Some (Dir _) => go (removelast here) todo
        | _ => Err NotADirectory
        end
    | NormalName name :: todo =>
        let? node := enter here name in
        match node with
        | Link target =>
            match links with
            | O => Err TooManyLinks
            | S links => walk links here (steps target ++ todo)
            end
        | _ => go (here ++ [name]) todo
        end
    end.

Definition max_links : nat := 40.

Definition resolve (path : string) : Result (list string) IoError :=
  walk max_links (hf_cwd fs) (steps path).

(** [stat]. *)
Definition metadata (path : string) : Result Node IoError :=
  let? real := resolve path in option_ok_or NotFound (node_at root real).

(** Where the last name of a path is, itself not followed. *)
Definition locate (path : string) : Result (list string) IoError :=
  match last (steps path) with
  | Some (NormalName name) =>
      let? here := walk max_links (hf_cwd fs) (removelast (steps path)) in
      let? _ := enter here name in
      Ok (here ++ [name])
  | _ => resolve path
  end.

(** [lstat]. *)
Definition symlink_metadata (path : string) : Result Node IoError :=
  let? real := locate path in option_ok_or NotFound (node_at root real).

Definition exists_ (path : string) : bool := is_ok (metadata path).

Definition is_file (path : string) : bool :=
  match metadata path with Ok (File _) => true | _ => false end.

Definition is_dir (path : string) : bool :=
  match metadata path with Ok (Dir _) => true | _ => false end.

Definition is_symlink (n : Node) : bool := match n with Link _ => true | _ => false end.

Definition read (path : string) : Result string IoError :=
  let? node := metadata path in
  match node with
  | File content => Ok content
  | _ => Err IsADirectory
  end.

Definition read_dir (path : string) : Result (list string) IoError :=
  let? node := metadata path in
  match node with
  | Dir entries => Ok (List.map fst entries)
  | _ => Err NotADirectory
  end.

(** [Metadata::len]. *)
Definition len (n : Node) : Z :=
  match n with
  | File content => Z.of_nat (String.length content)
  | Link target => Z.of_nat (String.length target)
  | Dir _ => hf_dir_len fs
  end.
End resolution.

(** [Path::join]. *)
Definition path_join (dir path : string) : string :=
  if starts_with "/" path then path
  else if is_empty dir || ends_with "/" dir then dir +:+ path
  else dir +:+ "/" +:+ path.

(** The tree without what is at the end of real names. *)
Fixpoint remove_at (n : Node) (names : list string) : Node :=
  match names, n with
  | [name], Dir entries => Dir (List.filter (λ e, negb (String.eqb e.1 name)) entries)
  | name :: names, Dir entries =>
      Dir (List.map (λ '(k, child), (k, if String.eqb k name then remove_at child names else child)) entries)
  | _, _ => n
  end.

(** ** The service ([src/core/static_files.rs]) *)

Inductive HostError : Type :=
  | HostIo (e : IoError)
  | SymlinksNotAllowed.

Definition io {X} (r : Result X IoError) : Result X HostError := result_map_err HostIo r.

Definition base_path (config : StaticServerConfig) : string := static_base_path config.

Definition text_le (a b : string) : Prop := String.leb a b = true.

#[local] Instance text_le_dec a b : Decision (text_le a b).
Proof. unfold text_le. apply _. Defined.

(** A relative path below another one. *)
Definition below (relative name : string) : string :=
  if is_empty relative then name else relative +:+ "/" +:+ name.

Section service.
Context `{!UuidLib} (config : StaticServerConfig).

Definition sandbox_dir (sandbox_id : Uuid) : string :=
  path_join (base_path config) (uuid_to_string sandbox_id).

Section reading.
Context (fs : HostFs).

(** The check that four operations begin with: [None] when there is no such file. *)
Definition not_symlink (full_path : string) : Result (option ()) HostError :=
  match symlink_metadata fs full_path with
  | Ok node => if is_symlink node then Err SymlinksNotAllowed else Ok (Some ())
  | Err NotFound => Ok None
  | Err e => Err (HostIo e)
  end.

Definition get_file_size (sandbox_id : Uuid) (file_path : string) : Result (option Z) HostError :=
  let full_path := path_join (sandbox_dir sandbox_id) file_path in
  let? there := not_symlink full_path in
  match there with
  | None => Ok None
  | Some _ =>
      match metadata fs full_path with
      | Ok node => Ok (Some (len fs node))
      | Err NotFound => Ok None
      | Err e => Err (HostIo e)
      end
  end.

Definition file_exists (sandbox_id : Uuid) (file_path : string) : Result bool HostError :=
  let full_path := path_join (sandbox_dir sandbox_id) file_path in
  let? there := not_symlink full_path in
  match there with
  | None => Ok false
  | Some _ => Ok (exists_ fs full_path)
  end.

(** Here a missing file is an error. *)
Definition read_file (sandbox_id : Uuid) (file_path : string) : Result string HostError :=
  let full_path := path_join (sandbox_dir sandbox_id) file_path in
  let? node := io (symlink_metadata fs full_path) in
  if is_symlink node then Err SymlinksNotAllowed else io (read fs full_path).

(** The entries of a directory, to files and to directories still to visit. *)
Fixpoint scan (dir relative_path : string) (names : list string) (files : list string)
    (dirs_to_visit : list (string * string)) : list string * list (string * string) :=
  match names with
  | [] => (files, dirs_to_visit)
  | name :: names =>
      let path := path_join dir name in
      if is_file fs path then
        scan dir relative_path names (files ++ [below relative_path name]) dirs_to_visit
      else if is_dir fs path then
        scan dir relative_path names files ((path, below relative_path name) :: dirs_to_visit)
      else scan dir relative_path names files dirs_to_visit
  end.

(** The last directory found is the next; [None] when the fuel is used up. *)
Fixpoint visit (fuel : nat) (dirs_to_visit : list (string * string)) (files : list string)
    : option (Result (list string) HostError) :=
  match fuel with
  | O => None
  | S fuel =>
      match dirs_to_visit with
      | [] => Some (Ok files)
      | (dir, relative_path) :: dirs_to_visit =>
          match read_dir fs dir with
          | Err e => Some (Err (HostIo e))
          | Ok names =>
              let '(files, dirs_to_visit) := scan dir relative_path names files dirs_to_visit in
              visit fuel dirs_to_visit files
          end
      end
  end.

Definition list_files (fuel : nat) (sandbox_id : Uuid) : option (Result (list string) HostError) :=
  let dir := sandbox_dir sandbox_id in
  if negb (exists_ fs dir) then Some (Ok [])
  else
    (λ r, let? files := r in Ok (merge_sort text_le files))
      <$> visit fuel [(dir, "")] [].

(** The sizes of the entries themselves, at the top only. *)
Definition get_total_size (sandbox_id : Uuid) : Result Z HostError :=
  let dir := sandbox_dir sandbox_id in
  if negb (exists_ fs dir) then Ok 0
  else
    let? names := io (read_dir fs dir) in
    Ok (foldl (λ total name,
          let path := path_join dir name in
          if is_file fs path then
            match symlink_metadata fs path with
            | Ok node => u64_wrap (total + len fs node)
            | Err _ => total
            end
          else total) 0 names).

(** The files of a directory as nodes, and its directories. *)
Definition tree_files (dir relative_path : string) (names : list string) : list FileNode :=
  omap (λ name,
    let path := path_join dir name in
    if negb (is_dir fs path) && is_file fs path then
      Some (mkFileNode name (below relative_path name) false
              (match symlink_metadata fs path with Ok node => Some (len fs node) | Err _ => None end) None)
    else None) names.

Fixpoint build_tree_helper (fuel : nat) (dir relative_path : string) : option (list FileNode) :=
  match fuel with
  | O => None
  | S fuel =>
      match read_dir fs dir with
      | Err _ => Some []
      | Ok names =>
          dirs ← mapM (λ name,
                   children ← build_tree_helper fuel (path_join dir name) (below relative_path name);
                   Some (mkFileNode name (below relative_path name) true None
                           (if is_nil children then None else Some children)))
                 (List.filter (λ name, is_dir fs (path_join dir name)) names);
          Some (sort_nodes (tree_files dir relative_path names ++ dirs))
      end
  end.

Definition build_directory_tree (fuel : nat) (sandbox_id : Uuid) : option (list FileNode) :=
  let dir := sandbox_dir sandbox_id in
  if negb (exists_ fs dir) then Some [] else build_tree_helper fuel dir "".
End reading.

(** [unlink]. *)
Definition remove_file (path : string) : M HostFs (Result () IoError) := λ fs,
  match locate fs path with
  | Err e => (Err e, fs)
  | Ok real =>
      match node_at (hf_root fs) real with
      | Some (Dir _) => (Err IsADirectory, fs)
      | Some _ => (Ok (), set_root (remove_at (hf_root fs) real) fs)
      | None => (Err NotFound, fs)
      end
  end.

(** Of a link, the link itself goes. *)
Definition remove_dir_all (path : string) : M HostFs (Result () IoError) := λ fs,
  match locate fs path with
  | Err e => (Err e, fs)
  | Ok real =>
      match node_at (hf_root fs) real with
      | Some (File _) => (Err NotADirectory, fs)
      | Some _ => (Ok (), set_root (remove_at (hf_root fs) real) fs)
      | None => (Err NotFound, fs)
      end
  end.

Definition delete_file (sandbox_id : Uuid) (file_path : string) : M HostFs (Result bool HostError) := λ fs,
  let full_path := path_join (sandbox_dir sandbox_id) file_path in
  match not_symlink fs full_path with
  | Err e => (Err e, fs)
  | Ok None => (Ok false, fs)
  | Ok (Some _) =>
      if negb (exists_ fs full_path) then (Ok false, fs)
      else
        let '(r, fs) := remove_file full_path fs in
        (io (let? _ := r in Ok true), fs)
  end.

(** The files at the top are counted; everything goes. *)
Definition delete_sandbox_files (sandbox_id : Uuid) : M HostFs (Result Z HostError) := λ fs,
  let dir := sandbox_dir sandbox_id in
  if negb (exists_ fs dir) then (Ok 0, fs)
  else
    match read_dir fs dir with
    | Err e => (Err (HostIo e), fs)
    | Ok names =>
        let count := Z.of_nat (length (List.filter (λ name, is_file fs (path_join dir name)) names)) in
        let '(r, fs) := remove_dir_all dir fs in
        (io (let? _ := r in Ok count), fs)
    end.
End service.

(** ** The archive of all files ([src/api/handlers/static_files.rs]) *)

Section archive.
Context (fs : HostFs).

(** The entries of one directory, in the order in which the system gives them;
    [None] when the fuel is used up. *)
Fixpoint add_entries (add_dir : string → string → option (Result (list (string * string)) IoError))
    (dir_path base_path : string) (names : list string) : option (Result (list (string * string)) IoError) :=
  match names with
  | [] => Some (Ok [])
  | name :: names =>
      let path := path_join dir_path name in
      let relative_path := below base_path name in
      added ← (if is_file fs path then Some (let? content := read fs path in Ok [(relative_path, content)])
               else if is_dir fs path then add_dir path relative_path
               else Some (Ok []));
      match added with
      | Err e => Some (Err e)
      | Ok files =>
          rest ← add_entries add_dir dir_path base_path names;
          Some (let? others := rest in Ok (files ++ others))
      end
  end.

Fixpoint add_dir_to_zip (fuel : nat) (dir_path base_path : string)
    : option (Result (list (string * string)) IoError) :=
  match fuel with
  | O => None
  | S fuel =>
      match read_dir fs dir_path with
      | Err e => Some (Err e)
      | Ok names => add_entries (add_dir_to_zip fuel) dir_path base_path names
      end
  end.

(** How deep a tree is. *)
Fixpoint depth (n : Node) : nat :=
  match n with
  | Dir entries => S (foldr (λ e d, Nat.max (depth e.2) d) 0%nat entries)
  | _ => 0
  end.

(** Deeper than any directory that can be reached. *)
Definition archive_fuel : nat := S (S max_links * depth (hf_root fs)).

Record Archive : Type := mkArchive {
  ar_content_type : string;
  ar_content_disposition : string;
  ar_body : string;
}.

Context `{!UuidLib} `{!HttpLib} (make_zip : list (string * string) → Result string string).

(** [None] is the panic of a header value that can not be one. *)
Definition download_sandbox_files_as_zip (config : StaticServerConfig) (sandbox_id : Uuid)
    : option (Result Archive StaticError) :=
  if negb (enable_zip_download config) then
    Some (Err (mkStaticError 403 "ZIP download is disabled"
                 (Some "Enable zip_download in configuration to use this feature")))
  else
    let dir := sandbox_dir config sandbox_id in
    if negb (exists_ fs dir) then
      Some (Err (mkStaticError 404 "Sandbox directory not found"
                   (Some "No files have been published for this sandbox")))
    else
      let max_size_bytes := u64_wrap (max_zip_size_mb config * 1024 * 1024) in
      added ← add_dir_to_zip archive_fuel dir "";
      match (let? files := result_map_err (λ _, "") added in make_zip files) with
      | Err _ => Some (Err (mkStaticError 500 "Failed to create zip archive" None))
      | Ok buffer =>
          let n := Z.of_nat (String.length buffer) in
          if max_size_bytes <? n then
            Some (Err (mkStaticError 413 "ZIP archive too large"
                         (Some ("Total size " +:+ Z_to_string n +:+ " bytes exceeds maximum allowed size of "
                                +:+ Z_to_string (max_zip_size_mb config)
                                +:+ " MB. Configure static_server.max_zip_size_mb to increase the limit."))))
          else
            let filename := zip_download_file_prefix config +:+ uuid_to_string sandbox_id +:+ ".zip" in
            let disposition := "attachment; filename=" +:+ quote +:+ filename +:+ quote in
            if header_value_ok disposition then Some (Ok (mkArchive "application/zip" disposition buffer))
            else None
      end.
End archive.

(** ** Resolution *)

(** A name of an entry: a whole piece of a path. *)
Definition valid_name (n : string) : Prop :=
  has_char slash n = false ∧ n ≠ "" ∧ n ≠ "." ∧ n ≠ "..".

Fixpoint valid_tree (n : Node) : Prop :=
  match n with
  | Dir entries => foldr (λ e P, valid_name e.1 ∧ valid_tree e.2 ∧ P) True entries
  | _ => True
  end.

Section walks.
Context (fs : HostFs).
#[local] Abbreviation root := (hf_root fs).
#[local] Abbreviation walk := (walk fs).

Lemma walk_names_cons links here name todo :
  walk links here (NormalName name :: todo) =
    let? node := enter fs here name in
    match node with
    | Link target =>
        match links with
        | O => Err TooManyLinks
        | S links => walk links here (steps target ++ todo)
        end
    | _ => walk links (here ++ [name]) todo
    end.
Proof. by destruct links. Qed.

Lemma node_at_app n p q : node_at n (p ++ q) = node_at n p ≫= λ m, node_at m q.
Proof.
  revert n. induction p as [|name p IH]; intros n; simpl; [done|].
  destruct n; try done. destruct (match_str entries name); simpl; [apply IH|done].
Qed.

Lemma enter_node here name node :
  enter fs here name = Ok node ↔ node_at root (here ++ [name]) = Some node.
Proof.
  unfold enter. rewrite node_at_app. destruct (node_at root here) as [[]|]; try done. simpl.
  destruct (match_str entries name); simpl; naive_solver.
Qed.

Lemma depth_entry entries name child :
  match_str entries name = Some child → (depth child < depth (Dir entries))%nat.
Proof.
  simpl. induction entries as [|[k m] entries IH]; simpl; [done|].
  destruct (String.eqb name k); [intros [= ->]; lia|]. intros Hm. specialize (IH Hm). lia.
Qed.

Lemma node_at_depth n p m : node_at n p = Some m → (length p + depth m ≤ depth n)%nat.
Proof.
  revert n. induction p as [|name p IH]; intros n; [intros [= ->]; simpl; lia|]. cbn [node_at].
  destruct n; try done. destruct (match_str entries name) as [child|] eqn:Hc; [|done]. simpl.
  intros Hm. apply IH in Hm. apply depth_entry in Hc. simpl in *. lia.
Qed.

Lemma walk_cons links here c todo :
  walk links here (c :: todo) =
    match c with
    | RootDir => walk links [] todo
    | CurDir => match node_at root here with Some (Dir _) => walk links here todo | _ => Err NotADirectory end
    | ParentDir =>
        match node_at root here with
        | Some (Dir _) => walk links (removelast here) todo
        | _ => Err NotADirectory
        end
    | NormalName name =>
        let? node := enter fs here name in
        match node with
        | Link target =>
            match links with O => Err TooManyLinks | S links => walk links here (steps target ++ todo) end
        | _ => walk links (here ++ [name]) todo
        end
    end.
Proof. by destruct links, c. Qed.

Lemma names_bound links here names real :
  (∀ l here todo names real, links = S l →
     walk l here (todo ++ (NormalName <$> names)) = Ok real → (length names ≤ S l * depth root)%nat) →
  walk links here (NormalName <$> names) = Ok real →
  names = [] ∨ (length here + length names ≤ S links * depth root)%nat.
Proof.
  intros IHl. revert here. induction names as [|name names IH]; intros here; [by left|].
  cbn [fmap list_fmap]. rewrite walk_cons. destruct (enter fs here name) as [node|] eqn:He; [|done].
  assert (Hd := proj1 (enter_node _ _ _) He). apply node_at_depth in Hd. rewrite length_app in Hd.
  simpl in Hd. intros Hw. right. simpl result_bind in Hw.
  assert (walk links (here ++ [name]) (NormalName <$> names) = Ok real →
            (length here + length (name :: names) ≤ S links * depth root)%nat) as Hgo.
  { intros [->|Hlen]%IH; [simpl; lia|]. rewrite length_app in Hlen. simpl in *. lia. }
  destruct node as [| |target]; [by apply Hgo..|]. destruct links as [|links]; [done|].
  apply (IHl links _ _ names _ eq_refl) in Hw. simpl in *. lia.
Qed.

(** A path that leads somewhere is not longer than the links allow. *)
Lemma walk_bound links here todo names real :
  walk links here (todo ++ (NormalName <$> names)) = Ok real →
  (length names ≤ S links * depth root)%nat.
Proof.
  revert here todo names real. induction links as [|links IHl]; intros here todo; revert here.
  all: induction todo as [|c todo IH]; intros here names real.
  1,3: intros Hw; apply names_bound in Hw; [destruct Hw as [->|]; simpl in *; lia|].
  1: done. 1: intros l ? ? ? ? [= <-]; apply IHl.
  all: cbn [app]; rewrite walk_cons; destruct c as [| | |name];
    [apply IH|by destruct (node_at root here) as [[]|]; try apply IH
    |by destruct (node_at root here) as [[]|]; try apply IH|].
  all: destruct (enter fs here name) as [[| |target]|]; try done; try apply IH.
  cbn [result_bind]. rewrite app_assoc. intros Hw%IHl. simpl in *. lia.
Qed.

(** The way is made piece by piece. *)
Lemma walk_split links here todo rest :
  match walk links here todo with
  | Ok mid => ∃ links', walk links here (todo ++ rest) = walk links' mid rest
  | Err e => walk links here (todo ++ rest) = Err e
  end.
Proof.
  revert here todo. induction links as [|links IHl]; intros here todo; revert here.
  all: induction todo as [|c todo IH]; intros here; [by eexists|].
  all: cbn [app]; rewrite !walk_cons; destruct c as [| | |name];
    [apply IH|by destruct (node_at root here) as [[]|]; try apply IH
    |by destruct (node_at root here) as [[]|]; try apply IH|].
  all: destruct (enter fs here name) as [[| |target]|]; try done; try apply IH.
  cbn [result_bind]. rewrite app_assoc. apply IHl.
Qed.

Lemma walk_app links here todo rest real :
  walk links here (todo ++ rest) = Ok real →
  ∃ links' mid, walk links here todo = Ok mid ∧ walk links' mid rest = Ok real.
Proof.
  assert (Hs := walk_split links here todo rest).
  destruct (walk links here todo) as [mid|]; [|congruence]. destruct Hs as [links' Hs].
  rewrite Hs. eauto.
Qed.

(** A part of the tree without links is read as it is. *)
Fixpoint no_links (n : Node) : Prop :=
  match n with
  | Dir entries => foldr (λ e P, no_links e.2 ∧ P) True entries
  | File _ => True
  | Link _ => False
  end.

Lemma no_links_entry entries name child :
  no_links (Dir entries) → match_str entries name = Some child → no_links child.
Proof.
  simpl. induction entries as [|[k m] entries IH]; simpl; [done|]. intros [Hm He].
  destruct (String.eqb name k); [by intros [= <-]|auto].
Qed.

Lemma walk_no_links links here n names :
  node_at root here = Some n → no_links n →
  match node_at n names with
  | Some _ => walk links here (NormalName <$> names) = Ok (here ++ names)
  | None => ∃ e, walk links here (NormalName <$> names) = Err e
  end.
Proof.
  revert here n. induction names as [|name names IH]; intros here n Hn Hl.
  { simpl. destruct links; simpl; by rewrite app_nil_r. }
  cbn [fmap list_fmap node_at]. rewrite walk_cons. unfold enter. rewrite Hn.
  destruct n as [|entries|]; [by eexists| |done].
  destruct (match_str entries name) as [child|] eqn:Hc; [|by eexists]. cbn [result_bind option_ok_or mbind option_bind].
  assert (Hl' := no_links_entry _ _ _ Hl Hc).
  assert (node_at root (here ++ [name]) = Some child) as Hn'.
  { rewrite node_at_app, Hn. simpl. by rewrite Hc. }
  specialize (IH _ _ Hn' Hl').
  assert (walk links (here ++ [name]) (NormalName <$> names) =
          match child with
          | Link target => match links with O => Err TooManyLinks | S links => walk links here (steps target ++ (NormalName <$> names)) end
          | _ => walk links (here ++ [name]) (NormalName <$> names)
          end) as Heq by (by destruct child).
  rewrite <-Heq. destruct (node_at child names); [by rewrite IH, <-app_assoc|done].
Qed.

Lemma walk_one links here name real :
  walk links here [NormalName name] = Ok real → ∃ node, enter fs here name = Ok node.
Proof. rewrite walk_cons. destruct (enter fs here name) as [node|]; [by eexists|done]. Qed.
End walks.

(** ** Joined paths *)

(** A path to a directory, without a slash or a dot at its end. *)
Definition plain_path (d : string) : Prop :=
  d ≠ "" ∧ ends_with "/" d = false ∧ ends_with "/." d = false.

Lemma ends_with_spec p s : ends_with p s = true ↔ ∃ l, s = l +:+ p.
Proof.
  unfold ends_with. rewrite starts_with_spec. split; intros [r Hr].
  - exists (string_rev r). rewrite <-(string_rev_involutive s), Hr, string_rev_app.
    by rewrite string_rev_involutive.
  - exists (string_rev r). by rewrite Hr, string_rev_app.
Qed.

(** The last piece of a joined path. *)
Lemma joined_last d n l m :
  has_char slash n = false → has_char slash m = false →
  d +:+ String slash n = l +:+ String slash m → n = m.
Proof.
  intros Hn Hm Heq. apply (f_equal (split_on slash)) in Heq. rewrite !split_on_app_sep in Heq.
  rewrite (split_on_no_char slash n), (split_on_no_char slash m) in Heq by done. by apply app_inj_tail in Heq as [_ [= ->]].
Qed.

Lemma plain_join d n :
  plain_path d → valid_name n →
  plain_path (path_join d n) ∧ steps (path_join d n) = steps d ++ [NormalName n].
Proof.
  intros (Hd & He & He') (Hs & Hn & Hdot & Hdots).
  assert (path_join d n = d +:+ String slash n) as ->.
  { unfold path_join. rewrite He. destruct (starts_with "/" n) eqn:Hst.
    - apply starts_with_slash in Hst as [r ->]. done.
    - by destruct d. }
  assert (ends_with "/" (d +:+ String slash n) = false) as H1.
  { apply not_true_iff_false. intros [l Hl]%ends_with_spec. by apply joined_last in Hl. }
  assert (ends_with "/." (d +:+ String slash n) = false) as H2.
  { apply not_true_iff_false. intros [l Hl]%ends_with_spec. by apply joined_last in Hl. }
  split; [split_and!; [by destruct d|done..]|].
  unfold steps. rewrite H1, H2, He, He', !app_nil_r. cbn [orb].
  unfold components, pieces. rewrite split_on_app_sep, omap_app, (split_on_no_char slash n) by done.
  assert (piece_component n = Some (NormalName n)) as Hp.
  { unfold piece_component. destruct n; [done|]. cbn [is_empty orb].
    by rewrite !(proj2 (String.eqb_neq _ _)). }
  cbn [omap list_omap]. rewrite Hp, app_assoc. f_equal. f_equal.
  destruct d as [|c d]; [done|]. change (String c d +:+ ?x) with (String c (d +:+ x)).
  unfold starts_with. cbn [strip_prefix]. fold slash. destruct (Ascii.eqb slash c) eqn:Hc; [done|].
  pose proof (split_on_nonempty slash (String c d)). by destruct (split_on slash (String c d)).
Qed.

(** A path followed by names. *)
Definition path_of (dir : string) (names : list string) : string := foldl path_join dir names.

Lemma plain_path_of dir names :
  plain_path dir → Forall valid_name names →
  plain_path (path_of dir names) ∧ steps (path_of dir names) = steps dir ++ (NormalName <$> names).
Proof.
  intros Hd Hn. revert dir Hd. induction Hn as [|n names Hn _ IH]; intros dir Hd; [by rewrite app_nil_r|].
  destruct (plain_join dir n Hd Hn) as [Hp Hs]. destruct (IH _ Hp) as [Hp' Hs']. cbn [path_of foldl].
  split; [done|]. unfold path_of in Hs'. rewrite Hs', Hs. by rewrite <-app_assoc.
Qed.

Section archived.
Context (fs : HostFs).

Lemma valid_entries n p entries :
  valid_tree n → node_at n p = Some (Dir entries) → Forall (λ e, valid_name e.1) entries.
Proof.
  revert n. induction p as [|name p IH]; intros n Hv; cbn [node_at].
  - intros [= ->]. simpl in Hv. induction entries as [|e entries IHe]; [done|].
    destruct Hv as (? & ? & ?). constructor; auto.
  - destruct n as [|es|]; try done. destruct (match_str es name) as [child|] eqn:Hc; [|done]. simpl.
    apply IH. simpl in Hv. induction es as [|[k m] es IHe]; [done|]. destruct Hv as (_ & Hm & Hv).
    simpl in Hc. destruct (String.eqb name k); [by injection Hc as ->|auto].
Qed.

Lemma metadata_Dir path entries :
  metadata fs path = Ok (Dir entries) → read_dir fs path = Ok (List.map fst entries).
Proof. unfold read_dir. by intros ->. Qed.

Lemma metadata_names path entries :
  valid_tree (hf_root fs) → metadata fs path = Ok (Dir entries) →
  Forall valid_name (List.map fst entries).
Proof.
  unfold metadata. intros Hv. destruct (resolve fs path) as [real|]; [|done]. simpl.
  destruct (node_at (hf_root fs) real) as [n|] eqn:Hn; [|done]. intros [= ->].
  apply Forall_fmap. eapply valid_entries; eauto.
Qed.

Lemma resolve_metadata path node : metadata fs path = Ok node → ∃ real, resolve fs path = Ok real.
Proof. unfold metadata. destruct (resolve fs path); [by eexists|done]. Qed.

(** What is there under a name is an entry. *)
Lemma joined_entry dir n node :
  plain_path dir → valid_name n → metadata fs (path_join dir n) = Ok node →
  ∃ entries, metadata fs dir = Ok (Dir entries) ∧ n ∈ List.map fst entries.
Proof.
  intros Hd Hn [real Hr]%resolve_metadata. unfold resolve in Hr.
  rewrite (proj2 (plain_join dir n Hd Hn)) in Hr. apply walk_app in Hr as (l & mid & Hmid & Hone).
  apply walk_one in Hone as [m He]. unfold enter in He.
  destruct (node_at (hf_root fs) mid) as [[|entries|]|] eqn:Hnode; try done.
  exists entries. unfold metadata, resolve. rewrite Hmid. cbn. rewrite Hnode. split; [done|].
  destruct (match_str entries n) as [child|] eqn:Hc; [|done]. apply match_str_Some in Hc.
  apply list_elem_of_In. apply (List.in_map fst) with (x := (n, child)). by apply list_elem_of_In.
Qed.

Lemma below_dir dir names node :
  plain_path dir → Forall valid_name names → names ≠ [] →
  metadata fs (path_of dir names) = Ok node → is_dir fs dir = true.
Proof.
  intros Hd Hn. revert dir Hd node. induction Hn as [|n names Hn Hns IH]; [done|].
  intros dir Hd node _ Hm. destruct (plain_join dir n Hd Hn) as [Hp _].
  assert (∃ m, metadata fs (path_join dir n) = Ok m) as [m Hm'].
  { destruct names as [|n' names]; [by exists node|].
    assert (is_dir fs (path_join dir n) = true) as Hdir by (by apply (IH _ Hp node)).
    unfold is_dir in Hdir. destruct (metadata fs (path_join dir n)); [by eexists|done]. }
  destruct (joined_entry dir n m Hd Hn Hm') as (entries & He & _). unfold is_dir. by rewrite He.
Qed.

(** A file that names lead to, with its path relative to where the names begin. *)
Definition file_at (dir base : string) (p : string * string) : Prop :=
  ∃ names, Forall valid_name names ∧ p.1 = foldl below base names ∧
           metadata fs (path_of dir names) = Ok (File p.2).

Definition file_below (dir base : string) (p : string * string) : Prop :=
  ∃ names, names ≠ [] ∧ Forall valid_name names ∧ p.1 = foldl below base names ∧
           metadata fs (path_of dir names) = Ok (File p.2).

Lemma file_at_cases dir n base p :
  plain_path (path_join dir n) → file_at (path_join dir n) (below base n) p →
  metadata fs (path_join dir n) = Ok (File p.2) ∧ p.1 = below base n ∨
  is_dir fs (path_join dir n) = true ∧ file_below (path_join dir n) (below base n) p.
Proof.
  intros Hp (names & Hnames & Hrel & Hm). destruct names as [|n' names]; [by left|]. right.
  split; [by eapply below_dir|]. by exists (n' :: names).
Qed.

(** One entry: a file is added with its name, a directory with all below it,
    and nothing else. *)
Lemma add_entry_spec add_dir dir base n :
  plain_path (path_join dir n) →
  (is_dir fs (path_join dir n) = true →
     ∃ l, add_dir (path_join dir n) (below base n) = Some (Ok l) ∧
       ∀ p, p ∈ l ↔ file_below (path_join dir n) (below base n) p) →
  ∃ l, (if is_file fs (path_join dir n)
        then Some (let? content := read fs (path_join dir n) in Ok [(below base n, content)])
        else if is_dir fs (path_join dir n) then add_dir (path_join dir n) (below base n)
        else Some (Ok [])) = Some (Ok l) ∧
    ∀ p, p ∈ l ↔ file_at (path_join dir n) (below base n) p.
Proof.
  intros Hp Hdirs. assert (Hcases := λ p, file_at_cases dir n base p Hp).
  unfold is_dir, is_file, read in *.
  destruct (metadata fs (path_join dir n)) as [[content|entries|target]|e] eqn:Hm.
  - eexists. split; [reflexivity|]. intros [rel c]. rewrite list_elem_of_singleton. split.
    + intros [= -> ->]. by exists [].
    + intros [[[= ->] Hrel]|[Hdir _]]%Hcases; [simpl in Hrel; by subst|done].
  - destruct (Hdirs eq_refl) as (l & -> & Hl). exists l. split; [done|].
    intros p. rewrite Hl. split; [by intros (names & _ & Hn'); exists names|].
    intros [[? _]|[_ ?]]%Hcases; done.
  - exists []. split; [done|]. intros p. split; [by intros ?%elem_of_nil|].
    by intros [[? _]|[? _]]%Hcases.
  - exists []. split; [done|]. intros p. split; [by intros ?%elem_of_nil|].
    by intros [[? _]|[? _]]%Hcases.
Qed.

Lemma add_entries_spec add_dir dir base ns :
  plain_path dir → Forall valid_name ns →
  (∀ n, n ∈ ns → is_dir fs (path_join dir n) = true →
     ∃ l, add_dir (path_join dir n) (below base n) = Some (Ok l) ∧
       ∀ p, p ∈ l ↔ file_below (path_join dir n) (below base n) p) →
  ∃ l, add_entries fs add_dir dir base ns = Some (Ok l) ∧
    ∀ p, p ∈ l ↔ ∃ n, n ∈ ns ∧ file_at (path_join dir n) (below base n) p.
Proof.
  intros Hd Hns Hdirs. induction Hns as [|n ns Hn Hns IH].
  { exists []. split; [done|]. intros p. split; [by intros ?%elem_of_nil|]. by intros (n & ?%elem_of_nil & _). }
  destruct IH as (rest & Hrest & Hin); [intros; apply Hdirs; [by right|done]|].
  destruct (plain_join dir n Hd Hn) as [Hp _].
  destruct (add_entry_spec add_dir dir base n Hp) as (l & Hl & Hlin); [apply Hdirs; by left|].
  exists (l ++ rest). cbn [add_entries]. rewrite Hl, Hrest. split; [done|].
  intros p. rewrite elem_of_app, Hlin, Hin. split.
  - intros [Hp'|(n' & Hn' & Hp')]; [exists n; split; [by left|done]|exists n'; split; [by right|done]].
  - intros (n' & [->|Hn']%elem_of_cons & Hp'); [by left|right; by exists n'].
Qed.

(** Directories no deeper than the fuel. *)
Lemma add_dir_spec fuel dir base :
  valid_tree (hf_root fs) → plain_path dir → is_dir fs dir = true →
  (∀ names, Forall valid_name names → (fuel ≤ length names)%nat → is_dir fs (path_of dir names) = false) →
  ∃ l, add_dir_to_zip fs fuel dir base = Some (Ok l) ∧ ∀ p, p ∈ l ↔ file_below dir base p.
Proof.
  intros Hv. revert dir base. induction fuel as [|fuel IH]; intros dir base Hd Hdir Hdeep.
  { specialize (Hdeep [] ltac:(constructor) ltac:(simpl; lia)). simpl in Hdeep. congruence. }
  unfold is_dir in Hdir. destruct (metadata fs dir) as [[|entries|]|] eqn:Hm; try done.
  cbn [add_dir_to_zip]. rewrite (metadata_Dir _ _ Hm).
  assert (Hnames := metadata_names _ _ Hv Hm).
  destruct (add_entries_spec (add_dir_to_zip fs fuel) dir base (List.map fst entries) Hd Hnames)
    as (l & Hl & Hin).
  { intros n Hn Hdn. rewrite Forall_forall in Hnames.
    apply IH; [by apply plain_join; auto|done|]. intros names Hvn Hlen.
    apply (Hdeep (n :: names)); [by constructor; auto|simpl; lia]. }
  exists l. split; [done|]. intros p. rewrite Hin. split.
  - intros (n & Hn & names & Hvn & Hrel & Hf). rewrite Forall_forall in Hnames.
    exists (n :: names). split_and!; [done|constructor; auto|done|done].
  - intros ([|n names] & Hne & Hvn & Hrel & Hf); [done|]. inversion_clear Hvn as [|? ? Hn Hvn'].
    exists n. split; [|by exists names]. destruct (plain_join dir n Hd Hn) as [Hp _].
    assert (∃ m, metadata fs (path_join dir n) = Ok m) as [m Hm'].
    { destruct names as [|n' names]; [by exists (File p.2)|].
      assert (is_dir fs (path_join dir n) = true) as Hdn by (by eapply below_dir).
      unfold is_dir in Hdn. destruct (metadata fs (path_join dir n)); [by eexists|done]. }
    destruct (joined_entry dir n m Hd Hn Hm') as (es & He & Hin'). rewrite Hm in He. by injection He as <-.
Qed.

Lemma archive_fuel_enough dir names :
  plain_path dir → Forall valid_name names → (archive_fuel fs ≤ length names)%nat →
  is_dir fs (path_of dir names) = false.
Proof.
  intros Hd Hn Hlen. unfold is_dir. destruct (metadata fs (path_of dir names)) as [m|] eqn:Hm; [|done].
  apply resolve_metadata in Hm as [real Hr]. unfold resolve in Hr.
  rewrite (proj2 (plain_path_of dir names Hd Hn)) in Hr. apply walk_bound in Hr.
  unfold archive_fuel in Hlen. lia.
Qed.

Lemma metadata_no_links dir entries names :
  plain_path dir → Forall valid_name names → metadata fs dir = Ok (Dir entries) → no_links (Dir entries) →
  ∀ m, metadata fs (path_of dir names) = Ok m ↔ node_at (Dir entries) names = Some m.
Proof.
  intros Hd Hn Hm Hl m. unfold metadata, resolve in *. rewrite (proj2 (plain_path_of dir names Hd Hn)).
  assert (Hs := walk_split fs max_links (hf_cwd fs) (steps dir) (NormalName <$> names)).
  destruct (walk fs max_links (hf_cwd fs) (steps dir)) as [mid|]; [|done]. destruct Hs as [links' ->].
  cbn in Hm. destruct (node_at (hf_root fs) mid) as [n|] eqn:Hmid; [|done]. injection Hm as ->.
  assert (Hw := walk_no_links fs links' mid _ names Hmid Hl).
  destruct (node_at (Dir entries) names) as [m'|] eqn:Hnode.
  - rewrite Hw. cbn [result_bind]. rewrite node_at_app, Hmid. change (Some ?x ≫= ?f) with (f x).
    cbv beta. rewrite Hnode. simpl. naive_solver.
  - destruct Hw as [e ->]. done.
Qed.
End archived.

(** ** Removal *)

Lemma match_str_filter {A} (entries : list (string * A)) name k :
  match_str (List.filter (λ e, negb (String.eqb e.1 name)) entries) k =
    if String.eqb k name then None else match_str entries k.
Proof.
  induction entries as [|[k' m] entries IH]; simpl; [by destruct (String.eqb k name)|].
  destruct (String.eqb_spec k' name) as [->|Hk']; simpl; rewrite IH.
  - by destruct (String.eqb k name).
  - destruct (String.eqb_spec k k') as [->|]; [|done]. by destruct (String.eqb_spec k' name).
Qed.

Lemma match_str_map {A} (f : A → A) (entries : list (string * A)) name k :
  match_str (List.map (λ '(k, child), (k, if String.eqb k name then f child else child)) entries) k =
    (λ child, if String.eqb k name then f child else child) <$> match_str entries k.
Proof.
  induction entries as [|[k' m] entries IH]; simpl; [done|].
  destruct (String.eqb_spec k k') as [->|]; [done|exact IH].
Qed.

Lemma remove_at_cons entries name p :
  p ≠ [] → remove_at (Dir entries) (name :: p) =
    Dir (List.map (λ '(k, child), (k, if String.eqb k name then remove_at child p else child)) entries).
Proof. by destruct p. Qed.

Lemma node_at_removed n p : p ≠ [] → node_at (remove_at n p) p = None.
Proof.
  revert n. induction p as [|name p IH]; intros n Hp; [done|].
  destruct n as [c|entries|t]; [by destruct p|..|by destruct p].
  destruct (decide (p = [])) as [->|Hp'].
  - cbn [remove_at node_at]. by rewrite match_str_filter, String.eqb_refl.
  - rewrite remove_at_cons by done. cbn [node_at]. rewrite match_str_map, String.eqb_refl.
    destruct (match_str entries name); simpl; [by apply IH|done].
Qed.

Lemma node_at_kept n p q c :
  ¬ p `prefix_of` q → node_at n q = Some (File c) → node_at (remove_at n p) q = Some (File c).
Proof.
  revert n q. induction p as [|name p IH]; intros n q Hp; [by destruct n|].
  destruct q as [|k q]; [by intros [= ->]; destruct p|].
  destruct n as [c'|entries|t]; [done..|by destruct p| |done].
  assert (k = name → ¬ p `prefix_of` q) as Hrest.
  { intros -> [r ->]. apply Hp. by exists r. }
  destruct (decide (p = [])) as [->|Hp'].
  - cbn [remove_at node_at]. rewrite match_str_filter. destruct (String.eqb_spec k name) as [->|]; [|done].
    destruct (Hrest eq_refl). by exists q.
  - rewrite remove_at_cons by done. cbn [node_at]. rewrite match_str_map.
    destruct (match_str entries k); [|done]. simpl. destruct (String.eqb_spec k name) as [->|]; [|done].
    apply IH, Hrest, eq_refl.
Qed.

(** ** What the service answers *)

Section answers.
Context `{!UuidLib} (config : StaticServerConfig).

(** C19: the archive of a sandbox.  Where there is a directory of the sandbox, the
    walk over it ends, however its links lead, and the archive has exactly the
    files to which names lead from the directory, under those names.  Links are
    followed, wherever they lead: only where there are none are the files those
    of the directory.  The answer is the archive unless it is over the limit. *)
Theorem zip_archive_spec `{!HttpLib} fs make_zip sandbox_id entries :
  valid_tree (hf_root fs) → plain_path (sandbox_dir config sandbox_id) →
  metadata fs (sandbox_dir config sandbox_id) = Ok (Dir entries) → enable_zip_download config = true →
  ∃ l, add_dir_to_zip fs (archive_fuel fs) (sandbox_dir config sandbox_id) "" = Some (Ok l) ∧
    (∀ rel content, (rel, content) ∈ l ↔
       ∃ names, names ≠ [] ∧ Forall valid_name names ∧ rel = foldl below "" names ∧
         metadata fs (path_of (sandbox_dir config sandbox_id) names) = Ok (File content)) ∧
    (no_links (Dir entries) → ∀ rel content, (rel, content) ∈ l ↔
       ∃ names, names ≠ [] ∧ Forall valid_name names ∧ rel = foldl below "" names ∧
         node_at (Dir entries) names = Some (File content)) ∧
    match download_sandbox_files_as_zip fs make_zip config sandbox_id with
    | Some (Ok archive) =>
        make_zip l = Ok (ar_body archive) ∧
        Z.of_nat (String.length (ar_body archive)) ≤ u64_wrap (max_zip_size_mb config * 1024 * 1024)
    | Some (Err e) => se_status e ∈ [500; 413]
    | None => True
    end.
Proof.
  intros Hv Hd Hm Hen.
  destruct (add_dir_spec fs (archive_fuel fs) (sandbox_dir config sandbox_id) "" Hv Hd) as (l & Hl & Hin).
  { unfold is_dir. by rewrite Hm. }
  { intros names Hn Hlen. by apply archive_fuel_enough. }
  exists l. split_and!; [done|..].
  - intros rel content. apply (Hin (rel, content)).
  - intros Hno rel content. rewrite (Hin (rel, content)).
    split; intros (names & Hne & Hvn & Hrel & Hf); exists names; split_and!; try done;
      by apply (metadata_no_links fs _ _ _ Hd Hvn Hm Hno).
  - unfold download_sandbox_files_as_zip. rewrite Hen, Hl. unfold exists_. rewrite Hm.
    cbn [negb is_ok result_map_err result_bind mbind option_bind].
    destruct (make_zip l) as [buffer|e]; cbn [result_bind result_map_err]; [|by left].
    destruct (Z.ltb_spec (u64_wrap (max_zip_size_mb config * 1024 * 1024)) (Z.of_nat (String.length buffer)));
      [by right; left|]. by destruct (header_value_ok _).
Qed.

(** the files of the other mode.  Where the last name of a path is a link, no
    operation on it does anything; a file that is read is what the path leads
    to; and after a deletion that says so, that file is gone, and no other. *)
Theorem host_operations_spec fs sandbox_id file_path :
  let full_path := path_join (sandbox_dir config sandbox_id) file_path in
  (∀ target, symlink_metadata fs full_path = Ok (Link target) →
     get_file_size config fs sandbox_id file_path = Err SymlinksNotAllowed ∧
     file_exists config fs sandbox_id file_path = Err SymlinksNotAllowed ∧
     read_file config fs sandbox_id file_path = Err SymlinksNotAllowed ∧
     delete_file config sandbox_id file_path fs = (Err SymlinksNotAllowed, fs)) ∧
  (∀ content, read_file config fs sandbox_id file_path = Ok content →
     metadata fs full_path = Ok (File content) ∧ file_exists config fs sandbox_id file_path = Ok true ∧
     get_file_size config fs sandbox_id file_path = Ok (Some (Z.of_nat (String.length content)))) ∧
  (∀ fs', delete_file config sandbox_id file_path fs = (Ok true, fs') →
     ∃ real content, locate fs full_path = Ok real ∧ node_at (hf_root fs) real = Some (File content) ∧
       (real ≠ [] → node_at (hf_root fs') real = None) ∧
       ∀ q c, node_at (hf_root fs) q = Some (File c) → q ≠ real → node_at (hf_root fs') q = Some (File c)) ∧
  (∀ fs', delete_file config sandbox_id file_path fs = (Ok false, fs') → fs' = fs).
Proof.
  intros full_path. unfold get_file_size, file_exists, read_file, delete_file, not_symlink. fold full_path.
  split_and!.
  - intros target ->. done.
  - intros content. destruct (symlink_metadata fs full_path) as [node|]; [|done]. cbn [result_map_err result_bind io].
    destruct (is_symlink node); [done|]. unfold read, exists_.
    destruct (metadata fs full_path) as [[c| |]|]; try done. by intros [= <-].
  - intros fs'. unfold symlink_metadata. destruct (locate fs full_path) as [real|[]] eqn:Hloc; try done.
    cbn [result_bind]. destruct (node_at (hf_root fs) real) as [node|] eqn:Hnode; [|done]. cbn [option_ok_or].
    destruct (is_symlink node) eqn:Hlink; [done|]. destruct (exists_ fs full_path); [|done]. cbn [negb].
    unfold remove_file. rewrite Hloc, Hnode. destruct node as [content|es|t]; [|done..].
    intros [= <-]. exists real, content. split_and!; try done; [by apply node_at_removed|].
    intros q c Hq Hne. apply node_at_kept; [|done]. intros [r ->]. rewrite node_at_app, Hnode in Hq.
    destruct r; [by rewrite app_nil_r in Hne|done].
  - intros fs'. destruct (symlink_metadata fs full_path) as [node|[]]; try done; [|by intros [= ->]].
    destruct (is_symlink node); [done|]. destruct (negb (exists_ fs full_path)); [by intros [= ->]|].
    destruct (remove_file full_path fs) as [[]]; done.
Qed.
End answers.

(** ** A host with two sandboxes *)

Module Witnesses.

Import Demo.

#[local] Instance headers : HttpLib := {| header_value_ok := λ _, true |}.

(** The directory of sandbox 7 has a file, a directory, and two links: one to the
    passwords of the host, and one to itself. *)
Definition site : list (string * Node) :=
  [("index.html", File "hello"); ("secret", Link "/etc/shadow"); ("css", Dir [("a.css", File "a")]);
   ("loop", Link "."); ("etc", Link "../../../../../etc")].

Definition host : HostFs :=
  mkHostFs (Dir [("etc", Dir [("shadow", File "root:x")]);
                 ("var", Dir [("lib", Dir [("dsb", Dir [("static-files", Dir [("7", Dir site)])])])])])
    [] 4096.

(** The archive of the sandbox gives the file of the host away, by two ways. *)
Example secrets :
  (λ r, match r with Ok l => map (λ p, bool_decide (p ∈ l)) [("secret", "root:x"); ("etc/shadow", "root:x")]
                   | Err _ => [] end)
    <$> add_entries host (λ dir base, match read_dir host dir with
                                      | Ok names => add_entries host (λ _ _, Some (Ok [])) dir base names
                                      | Err e => Some (Err e)
                                      end)
          "/var/lib/dsb/static-files/7" "" (map fst site)
  = Some [true; true].
Proof. vm_compute. done. Qed.

Lemma zip_archive_spec_witness :
  metadata host (sandbox_dir StaticServerConfig_default 7%N) = Ok (Dir site) ∧
  ∃ l, add_dir_to_zip host (archive_fuel host) (sandbox_dir StaticServerConfig_default 7%N) "" = Some (Ok l) ∧
    ("secret", "root:x") ∈ l ∧ ("css/a.css", "a") ∈ l.
Proof.
  split; [vm_compute; reflexivity|].
  destruct (zip_archive_spec StaticServerConfig_default host (λ _, Ok "zip") 7%N site) as (l & Hl & Hin & _).
  - vm_compute. intuition discriminate.
  - vm_compute. split_and!; [discriminate|done..].
  - vm_compute. reflexivity.
  - reflexivity.
  - exists l. split; [exact Hl|]. split; apply Hin; [exists ["secret"]|exists ["css"; "a.css"]].
    all: split_and!; [done| |vm_compute; reflexivity..].
    all: repeat constructor; done.
Defined.

(** A link at the end is refused; one on the way is not. *)
Lemma host_operations_spec_witness :
  read_file StaticServerConfig_default host 7%N "secret" = Err SymlinksNotAllowed ∧
  read_file StaticServerConfig_default host 7%N "etc/shadow" = Ok "root:x" ∧
  file_exists StaticServerConfig_default host 7%N "etc/shadow" = Ok true.
Proof.
  destruct (host_operations_spec StaticServerConfig_default host 7%N "secret") as (Hlink & _).
  destruct (Hlink "/etc/shadow" ltac:(vm_compute; reflexivity)) as (_ & _ & Hread & _).
  split; [exact Hread|]. split; [vm_compute; reflexivity|].
  destruct (host_operations_spec StaticServerConfig_default host 7%N "etc/shadow") as (_ & Hok & _).
  apply (Hok "root:x"). vm_compute. reflexivity.
Defined.
End Witnesses.
