(* ===== verification/Cli.v ===== *)
(** * Cli: what the command line's arguments mean

    Models the parsers of [src/cli/commands/parsers.rs] (ports, volumes, pull
    policies, environment variables, the cut of search results), the command
    arguments of [src/cli/utils.rs], and, as the other end of a volume argument,
    the bind string that [src/docker/manager/container.rs] gives to Docker. *)

From S2P Require Import Prelude Text Paths Errors Types Store World.
From Stdlib Require Import Ascii.

(** ** Ports *)

Definition parse_port_mapping (s : string) : Result (Z * Z) string :=
  match split_on colon s with
  | [p0; p1] =>
      let? host_port := option_ok_or "Invalid host port" (parse_u16 p0) in
      let? container_port := option_ok_or "Invalid container port" (parse_u16 p1) in
      Ok (host_port, container_port)
  | _ => Err "Invalid port mapping format. Use HOST:CONTAINER"
  end.

(** ** Volumes *)

Definition part (i : nat) (parts : list string) : string := default "" (parts !! i).

Definition parse_volume_string (s : string) : Result VolumeMount string :=
  let parts := split_on colon s in
  let n := length parts in
  if (n <? 2)%nat then
    Err "Invalid volume format. Use /host/path:/container/path or vol_name:/container/path[:ro]"
  else
    let is_named_volume :=
      negb (starts_with "/" (part 0 parts)) && negb (starts_with "." (part 0 parts)) in
    let read_only := String.eqb (part (n - 1) parts) "ro" in
    let container_path :=
      if read_only && (2 <? n)%nat then part (n - 2) parts else part 1 parts in
    if is_named_volume then Ok (Named (part 0 parts) container_path read_only)
    else
      let host_path :=
        if read_only && (2 <? n)%nat then join ":" (take (n - 2) parts)
        else join ":" (take (n - 1) parts) in
      Ok (Bind host_path container_path read_only).

(** The bind that the Docker backend asks for. *)
Definition bind_string (volume : VolumeMount) : string :=
  match volume with
  | Bind host_path container_path read_only =>
      host_path +:+ ":" +:+ container_path +:+ (if read_only then ":ro" else "")
  | Named name container_path read_only =>
      name +:+ ":" +:+ container_path +:+ (if read_only then ":ro" else "")
  end.

(** ** Pull policies, environment variables *)

(** No character outside ASCII becomes a letter of the three words, and nothing
    else, in lower case: ASCII lower case decides as [to_lowercase] does. *)
Definition parse_pull_policy (s : string) : Result PullPolicy string :=
  option_ok_or ("Invalid pull policy '" +:+ s +:+ "'. Valid options: always, missing, never")
    (match_str [("always", Always); ("missing", Missing); ("never", Never)]
       (to_ascii_lowercase s)).

Definition parse_env_var (s : string) : Result (string * string) string :=
  match split_once "=" s with
  | None => Err "Invalid env format. Use KEY=VALUE"
  | Some (k, v) =>
      if is_empty k then Err "Environment variable key cannot be empty" else Ok (k, v)
  end.

(** ** Search results *)

Definition set_field (key : string) (v : Json) (fields : list (string * Json))
    : list (string * Json) :=
  (λ '(k, x), (k, if String.eqb k key then v else x)) <$> fields.

(** The document is changed in place: the result is the new document. *)
Definition truncate_search_results (json_response : Json) (result_limit : Z)
    : Result Json string :=
  if bool_decide (result_limit = 0) then Err "num-results must be at least 1"
  else
    match json_response, json_get "results" json_response with
    | JObject fields, Some (JArray results) =>
        Ok (JObject (set_field "results" (JArray (take (Z.to_nat result_limit) results)) fields))
    | _, _ => Err "SearXNG response missing results array"
    end.

(** ** Commands

    The word splitting of the [shell_words] crate is a parameter. *)
Class ShellWordsLib := { shell_words_split : string → option (list string) }.

Definition parse_command_args `{ShellWordsLib} (command : list string) : list string :=
  match command with
  | [c] => default command (shell_words_split c)
  | _ => command
  end.

(** ** Theorems *)

(** The pieces of a text of two or three parts. *)
Lemma split_two a b :
  has_char colon a = false → has_char colon b = false →
  split_on colon (a +:+ ":" +:+ b) = [a; b].
Proof.
  intros Ha Hb. by apply split_on_two.
Qed.

Lemma split_three a b c :
  has_char colon a = false → has_char colon b = false → has_char colon c = false →
  split_on colon (a +:+ ":" +:+ b +:+ ":" +:+ c) = [a; b; c].
Proof.
  intros Ha Hb Hc. etrans; [exact (split_on_app colon a (b +:+ ":" +:+ c) Ha)|].
  by rewrite split_two.
Qed.

(** port mappings and environment variables.  A mapping of two ports is
    read back as printed, and whatever is accepted are two ports; a variable is
    accepted exactly when it is a name without an equals sign, not empty, the
    sign, and any value. *)
Theorem arguments_roundtrip s :
  (∀ h c, is_u16 h → is_u16 c →
     parse_port_mapping (Z_to_string h +:+ ":" +:+ Z_to_string c) = Ok (h, c)) ∧
  (∀ h c, parse_port_mapping s = Ok (h, c) → is_u16 h ∧ is_u16 c) ∧
  (∀ k v, parse_env_var s = Ok (k, v) ↔
     s = k +:+ "=" +:+ v ∧ has_char "=" k = false ∧ k ≠ "").
Proof.
  split_and!.
  - intros h c Hh Hc. unfold parse_port_mapping, is_u16 in *.
    rewrite split_two by (apply number_no_char; [lia|done]).
    unfold parse_u16. by rewrite !parse_unsigned_to_string by lia.
  - intros h c. unfold parse_port_mapping. do 3 (case_match; try done). simpl.
    destruct (parse_u16 _) as [h'|] eqn:Eh; [|done]. simpl.
    destruct (parse_u16 s1) as [c'|] eqn:Ec; [|done]. intros [= <- <-].
    by split; eapply parse_u16_range.
  - intros k v. unfold parse_env_var. destruct (split_once "=" s) as [[k' v']|] eqn:E.
    + apply split_once_Some in E as [-> Hk]. split.
      * destruct k' as [|c k']; simpl; [done|]. by intros [= <- <-].
      * intros (Heq & Hk2 & Hne).
        assert (Some (k', v') = Some (k, v)) as [= -> ->].
        { etrans; [symmetry|]; apply split_once_Some; [by split|by split]. }
        by destruct k.
    + split; [done|]. intros (Heq & Hk & _).
      by rewrite (proj2 (split_once_Some "=" s k v)) in E.
Qed.

(** A volume that can be written as an argument: its parts have no colon, the
    path in the container is not the read-only mark, and the first part tells
    the kind. *)
Definition writable_volume (v : VolumeMount) : Prop :=
  match v with
  | Bind p cp _ =>
      (starts_with "/" p || starts_with "." p) = true ∧
      has_char colon p = false ∧ has_char colon cp = false ∧ cp ≠ "ro"
  | Named p cp _ =>
      (starts_with "/" p || starts_with "." p) = false ∧
      has_char colon p = false ∧ has_char colon cp = false ∧ cp ≠ "ro"
  end.

Lemma parse_two p cp :
  has_char colon p = false → has_char colon cp = false → cp ≠ "ro" →
  parse_volume_string (p +:+ ":" +:+ cp) =
  Ok (if starts_with "/" p || starts_with "." p then Bind p cp false else Named p cp false).
Proof.
  intros Hp Hcp Hro. unfold parse_volume_string. rewrite split_two by done. cbn [length Nat.ltb Nat.leb].
  unfold part. cbn [lookup list_lookup default from_option Nat.sub].
  apply String.eqb_neq in Hro. unfold Datatypes.id. rewrite Hro, <-negb_orb.
  by destruct (starts_with "/" p || starts_with "." p).
Qed.

Lemma parse_three p cp :
  has_char colon p = false → has_char colon cp = false →
  parse_volume_string (p +:+ ":" +:+ cp +:+ ":ro") =
  Ok (if starts_with "/" p || starts_with "." p then Bind p cp true else Named p cp true).
Proof.
  intros Hp Hcp. unfold parse_volume_string.
  change (cp +:+ ":ro") with (cp +:+ ":" +:+ "ro").
  rewrite (split_three p cp "ro") by done. cbn [length Nat.ltb Nat.leb].
  unfold part. cbn [lookup list_lookup default from_option Nat.sub]. unfold Datatypes.id.
  rewrite <-negb_orb. by destruct (starts_with "/" p || starts_with "." p).
Qed.

(** a volume argument and the bind it becomes.  A volume whose parts can
    be written with colons between them is read back from the bind string of
    the Docker backend; so a text with one colon, or two and the read-only
    mark, becomes the very bind it says.  With more colons, and no mark at the
    end, the path in the container is the second part, and the path on the host
    everything but the last: a text that is not what the backend then binds. *)
Theorem volume_argument :
  (∀ v, writable_volume v → parse_volume_string (bind_string v) = Ok v) ∧
  (∀ p cp, has_char colon p = false → has_char colon cp = false → cp ≠ "ro" →
     bind_string <$> (match parse_volume_string (p +:+ ":" +:+ cp) with
                      | Ok v => Some v | Err _ => None end) = Some (p +:+ ":" +:+ cp)) ∧
  (∀ p q r, has_char colon p = false → has_char colon q = false → has_char colon r = false →
     starts_with "/" p = true → r ≠ "ro" →
     parse_volume_string (p +:+ ":" +:+ q +:+ ":" +:+ r) = Ok (Bind (p +:+ ":" +:+ q) q false)).
Proof.
  split_and!.
  - intros [p cp ro|p cp ro] (Hk & Hp & Hcp & Hro); unfold bind_string; destruct ro;
      [rewrite parse_three by done|rewrite string_app_nil, parse_two by done|
       rewrite parse_three by done|rewrite string_app_nil, parse_two by done]; by rewrite Hk.
  - intros p cp Hp Hcp Hro. rewrite parse_two by done.
    destruct (starts_with "/" p || starts_with "." p); simpl; by rewrite string_app_nil.
  - intros p q r Hp Hq Hr Hs Hro. unfold parse_volume_string. rewrite split_three by done.
    cbn [length Nat.ltb Nat.leb]. unfold part.
    cbn [lookup list_lookup default from_option Nat.sub]. unfold Datatypes.id.
    apply String.eqb_neq in Hro. by rewrite Hro, Hs.
Qed.
