(* ===== verification/Create.v ===== *)
(** * Create: creating a sandbox

    Models [src/core/sandbox/create.rs]: [create_sandbox] with the health-check
    task it spawns, and the streaming variant [create_sandbox_with_progress]
    with its background task.  The stages are separate definitions in the order
    of the code: the record, the image pull, the image's feature profile, the
    container, its start. *)

From S2P Require Import Prelude Text Errors Types Store Features World Demo Service Ops.

(** [serde_json::from_str::<ImageFeatureLabel>] is derived code. *)
Class LabelParser := {
  parse_label : string → Result ImageFeatureLabel string;
}.

(** Does a started container run a tool proxy to wait for? *)
Definition is_supervisord_command (c : SandboxConfig) : bool :=
  match cfg_command c with
  | Some cmd => existsb (λ arg, contains "supervisord" arg) cmd
  | None => false
  end.

Definition has_custom_command (c : SandboxConfig) : bool :=
  match cfg_command c with Some _ => negb (is_supervisord_command c) | None => false end.

Definition needs_tool_proxy (c : SandboxConfig) : bool :=
  negb (has_custom_command c)
  && (cfg_enable_all_features c
      || existsb (λ f, existsb (String.eqb f) ["browser"; "web"; "databend"; "vnc"; "ssh"])
           (cfg_features c)).

Definition selection_of (c : SandboxConfig) : FeatureSelection :=
  {| sel_enabled := cfg_features c; sel_disabled := [];
     sel_enable_all := cfg_enable_all_features c |}.

Definition identity_owner (identity : option ApiKeyIdentity) : option Uuid :=
  identity ≫= identity_id.

(** The record that both variants store first. *)
Definition initial_sandbox (id : Uuid) (config : SandboxConfig) (now : DateTime)
    (identity : option ApiKeyIdentity) : Sandbox :=
  {| sb_id := id;
     sb_config := config;
     sb_state := Creating;
     sb_container_id := None;
     sb_created_at := now;
     sb_updated_at := now;
     sb_error_message := None;
     sb_volume_mounts := cfg_volumes config;
     sb_activity := {| last_api_activity := now; last_container_activity := None;
                       activity_count := 0 |};
     sb_inactivity_timeout_minutes := cfg_inactivity_timeout_minutes config;
     sb_deleted_at := None;
     sb_deleted_by := None;
     sb_api_key_id := identity_owner identity |}.

(** A failed stage: the record in error, with the stage's message. *)
Definition failed (msg : string) (now : DateTime) (sandbox : Sandbox) : Sandbox :=
  sb_set_updated_at now (sb_set_error_message (Some msg) (sb_set_state Error sandbox)).

(** [config] with the limits of the service and a name. *)
Definition named_config `{UuidLib} (svc : SandboxService) (id : Uuid) (config : SandboxConfig)
    : SandboxConfig :=
  let config := cfg_set_resource_limits
    (merge_resource_limits svc (cfg_resource_limits config)) config in
  match cfg_name config with
  | None => cfg_set_name (Some ("sandbox-" +:+ uuid_to_string id)) config
  | Some _ => config
  end.

Definition inject_browser_tabs (svc : SandboxService) (config : SandboxConfig)
    : SandboxConfig :=
  if vec_contains "browser" (cfg_features config) then
    cfg_set_environment
      (<["MAX_BROWSER_TABS" := Z_to_string (max_browser_tabs svc)]> (cfg_environment config))
      config
  else config.

(** The configuration that the image's details make of a request's. *)
Definition profiled `{UuidLib, LabelParser} (id : Uuid) (selection : FeatureSelection)
    (details : ManagerResult ImageDetails) (config : SandboxConfig) : SandboxConfig :=
  match details with
  | Ok image_details =>
      match imd_labels image_details ≫= λ labels, labels !! DSB_FEATURES_LABEL with
      | Some features_json =>
          match parse_label features_json with
          | Ok label =>
              (apply_feature_profile config (build_feature_profile label selection)
                 (uuid_to_string id)).1
          | Err _ => config
          end
      | None => config
      end
  | Err _ => config
  end.

Section create.
Context {S B A : Type}.
Context `{!StateStoreTrait S} `{!SandboxManager B} `{!ActivityStoreTrait A}.
Context `{!UuidLib} `{!LabelParser}.
#[local] Abbreviation W := (World S B A).

(** ** [create_sandbox] *)

(** Record the failure, then return the error of the stage. *)
Definition fail_create {X} (sandbox : Sandbox) (msg : string) (e : ManagerError)
    : M W (Result X BoxError) :=
  now ← utc_now;
  let* _ := st_update (failed msg now sandbox) in
  mret (Err (BoxManager e)).

Definition pull_or_fail (sandbox : Sandbox) (image : string) : M W (Result () BoxError) :=
  r ← on_backend (bk_pull_image image);
  match r with
  | Ok _ => mret (Ok ())
  | Err e => fail_create sandbox ("Failed to pull image: " +:+ ManagerError_to_string e) e
  end.

Definition pull_stage (sandbox : Sandbox) (config : SandboxConfig) : M W (Result () BoxError) :=
  match cfg_pull_policy config with
  | Always => pull_or_fail sandbox (cfg_image config)
  | Missing =>
      r ← on_backend (bk_image_exists (cfg_image config));
      match r with
      | Ok true => mret (Ok ())
      | Ok false => pull_or_fail sandbox (cfg_image config)
      | Err e =>
          fail_create sandbox
            ("Failed to check image existence: " +:+ ManagerError_to_string e) e
      end
  | Never => mret (Ok ())
  end.

Definition apply_image_feature_profile (id : Uuid) (config : SandboxConfig)
    (selection : FeatureSelection) : M W SandboxConfig :=
  r ← on_backend (bk_get_image_features (cfg_image config));
  mret (profiled id selection r config).

Definition creation_details (config : SandboxConfig) (state : string) : Json :=
  JObject [("image", JString (cfg_image config));
           ("name", json_opt_string (cfg_name config));
           ("state", JString state)].

(** From the started container to the end of the function. *)
Definition started_stage (sandbox : Sandbox) (config : SandboxConfig) (container_id : string)
    : M W (Result Sandbox BoxError) :=
  let proxied := needs_tool_proxy (sb_config sandbox) in
  now ← utc_now;
  let sandbox :=
    sb_set_updated_at now (sb_set_state (if proxied then Starting else Running) sandbox) in
  let* _ := st_update sandbox in
  _ ← record_activity (sb_id sandbox) ActCreate
        (creation_details config (if proxied then "starting" else "running"));
  _ ← (if proxied then spawn (HealthCheck (sb_id sandbox) container_id) else mret ());
  mret (Ok sandbox).

Definition container_stage (sandbox : Sandbox) (config : SandboxConfig)
    : M W (Result Sandbox BoxError) :=
  r ← on_backend (bk_create (Some (sb_id sandbox)) config);
  match r with
  | Ok container_id =>
      let sandbox := sb_set_state Created (sb_set_container_id (Some container_id) sandbox) in
      r' ← on_backend (bk_start container_id);
      match r' with
      | Ok _ => started_stage sandbox config container_id
      | Err e => fail_create sandbox ("Failed to start: " +:+ ManagerError_to_string e) e
      end
  | Err e => fail_create sandbox ("Failed to create: " +:+ ManagerError_to_string e) e
  end.

Definition create_sandbox (svc : SandboxService) (config : SandboxConfig)
    (identity : option ApiKeyIdentity) : M W (Result Sandbox BoxError) :=
  id ← new_v4;
  let config := named_config svc id config in
  let feature_selection := selection_of config in
  now ← utc_now;
  let sandbox := initial_sandbox id config now identity in
  let* _ := st_create sandbox in
  let* _ := pull_stage sandbox config in
  config ← apply_image_feature_profile id config feature_selection;
  let config := inject_browser_tabs svc config in
  let sandbox := sb_set_config config sandbox in
  let* _ := st_update sandbox in
  container_stage sandbox config.

(** The task that [create_sandbox] spawns; [None] is "out of fuel". *)
Definition run_health_check (fuel : nat) (sandbox_id : Uuid) (container_id : string)
    : M W (option ()) :=
  r ← wait_for_tool_health fuel container_id (Some 30);
  match r with
  | None => mret None
  | Some _ =>
      o ← st_get sandbox_id;
      match o with
      | Some sb =>
          if bool_decide (sb_state sb = Starting) then
            now ← utc_now;
            _ ← st_update (sb_set_updated_at now (sb_set_state Running sb));
            mret (Some ())
          else mret (Some ())
      | None => mret (Some ())
      end
  end.

(** ** [create_sandbox_with_progress] *)

(** The caller's part: the rest runs in a task. *)
Definition create_sandbox_with_progress (svc : SandboxService) (config : SandboxConfig)
    (identity : option ApiKeyIdentity) : M W (Result () BoxError) :=
  id ← new_v4;
  let config := cfg_set_resource_limits
    (merge_resource_limits svc (cfg_resource_limits config)) config in
  _ ← spawn (StreamingCreate id config identity);
  mret (Ok ()).

(** The task's error exits: record the failure (an error of the store is
    dropped), tell the client and stop. *)
Definition fail_stream (sandbox : Sandbox) (msg event : string) : M W (option Sandbox) :=
  now ← utc_now;
  _ ← st_update (failed msg now sandbox);
  _ ← send (EvError event);
  mret None.

Definition streaming_pull (sandbox : Sandbox) (image : string) : M W (option Sandbox) :=
  _ ← send (EvPulling image "Starting pull..." None None);
  out ← on_backend (bk_pull_image_with_progress image);
  let '(calls, r) := out in
  _ ← for_each calls (λ '(status, current, total), send (EvPulling image status current total));
  match r with
  | Ok _ => mret (Some sandbox)
  | Err e =>
      fail_stream sandbox ("Failed to pull image: " +:+ ManagerError_to_string e)
        ("Failed to pull: " +:+ ManagerError_to_string e)
  end.

(** [None]: the task has ended. *)
Definition streaming_pull_stage (sandbox : Sandbox) (config : SandboxConfig)
    : M W (option Sandbox) :=
  let image := cfg_image config in
  match cfg_pull_policy config with
  | Always => streaming_pull sandbox image
  | Missing =>
      r ← on_backend (bk_image_exists image);
      match r with
      | Ok true =>
          _ ← send (EvPulling image "Image exists locally" (Some 0) (Some 0));
          mret (Some sandbox)
      | Ok false => streaming_pull sandbox image
      | Err e =>
          _ ← send (EvError ("Failed to check image: " +:+ ManagerError_to_string e));
          mret None
      end
  | Never =>
      _ ← send (EvPulling image "Using local image" (Some 0) (Some 0));
      mret (Some sandbox)
  end.

(** This variant also waits for the browser. *)
Definition is_healthy_with_browser (response : Json) : bool :=
  is_healthy response
  && match json_get "browser_connected" response ≫= json_as_bool with
     | Some true => true
     | _ => false
     end.

Fixpoint streaming_health_loop (fuel : nat) (container_id : string) (start : Z)
    : M W (option ()) :=
  match fuel with
  | O => mret None
  | Datatypes.S fuel' =>
      t ← instant_now;
      if bool_decide (30 * ns_per_sec ≤ t - start) then mret (Some ())
      else
        r ← on_backend (bk_exec_http container_id "/health" "GET" None (Some 2));
        match r with
        | Ok response =>
            if is_healthy_with_browser response then mret (Some ())
            else streaming_health_loop fuel' container_id start
        | Err _ => streaming_health_loop fuel' container_id start
        end
  end.

Definition streaming_started (fuel : nat) (sandbox : Sandbox) (container_id : string)
    : M W (option ()) :=
  health ←
    (if needs_tool_proxy (sb_config sandbox) then
       start ← instant_now; streaming_health_loop fuel container_id start
     else mret (Some ()));
  match health with
  | None => mret None
  | Some _ =>
      now ← utc_now;
      _ ← st_update (sb_set_updated_at now (sb_set_state Running sandbox));
      _ ← send (EvReady (sb_id sandbox) container_id);
      mret (Some ())
  end.

Definition streaming_container_stage (fuel : nat) (sandbox : Sandbox) (config : SandboxConfig)
    : M W (option ()) :=
  _ ← send (EvCreating (cfg_image config));
  r ← on_backend (bk_create (Some (sb_id sandbox)) config);
  match r with
  | Err e =>
      _ ← fail_stream sandbox ("Failed to create: " +:+ ManagerError_to_string e)
            ("Failed to create container: " +:+ ManagerError_to_string e);
      mret (Some ())
  | Ok container_id =>
      let sandbox := sb_set_state Created (sb_set_container_id (Some container_id) sandbox) in
      _ ← st_update sandbox;
      _ ← send (EvStarting container_id);
      r' ← on_backend (bk_start container_id);
      match r' with
      | Ok _ => streaming_started fuel sandbox container_id
      | Err e =>
          _ ← fail_stream sandbox ("Failed to start: " +:+ ManagerError_to_string e)
                ("Failed to start: " +:+ ManagerError_to_string e);
          mret (Some ())
      end
  end.

(** The body of the spawned task; [None] is "out of fuel". *)
Definition run_streaming_create (fuel : nat) (id : Uuid) (config : SandboxConfig)
    (identity : option ApiKeyIdentity) : M W (option ()) :=
  now ← utc_now;
  let sandbox := initial_sandbox id config now identity in
  r ← st_create sandbox;
  match r with
  | Err e =>
      _ ← send (EvError ("Failed to create sandbox record: " +:+ BoxError_to_string e));
      mret (Some ())
  | Ok _ =>
      pulled ← streaming_pull_stage sandbox config;
      match pulled with
      | None => mret (Some ())
      | Some sandbox =>
          config' ← apply_image_feature_profile id config (selection_of config);
          let sandbox := sb_set_config config' sandbox in
          _ ← st_update sandbox;
          streaming_container_stage fuel sandbox config'
      end
  end.
End create.

(** ** Theorems *)

Section theorems.
Context {S B A : Type}.
Context `{!StateStoreTrait S} `{!StoreContract S}.
Context `{!SandboxManager B} `{!ActivityStoreTrait A}.
Context `{!UuidLib} `{!LabelParser}.
#[local] Abbreviation W := (World S B A).

(** What a creation fixes of its record, whatever happens later in it. *)
Record created_from (svc : SandboxService) (id : Uuid) (config : SandboxConfig)
    (identity : option ApiKeyIdentity) (sb : Sandbox) : Prop := {
  cf_id : sb_id sb = id;
  cf_owner : sb_api_key_id sb = identity_owner identity;
  cf_live : sb_deleted_at sb = None;
  cf_image : cfg_image (sb_config sb) = cfg_image config;
  cf_name : cfg_name (sb_config sb) =
              Some (default ("sandbox-" +:+ uuid_to_string id) (cfg_name config));
  cf_limits : cfg_resource_limits (sb_config sb) =
                merge_resource_limits svc (cfg_resource_limits config);
}.

(** The record [sb] is all that the creation has written so far. *)
Record stored (w0 w : W) (sb : Sandbox) : Prop := {
  stored_ok : ok w;
  stored_db : db w = <[sb_id sb := stored_as sb]> (db w0);
  stored_tasks : w_tasks w = w_tasks w0;
}.

(** The messages of the stages that can fail. *)
Definition stage_prefixes : list string :=
  ["Failed to pull image: "; "Failed to check image existence: "; "Failed to create: ";
   "Failed to start: "].

(** [sb'] is [sb] after the failure of a stage with the error [e]. *)
Definition failed_with (e : ManagerError) (sb sb' : Sandbox) : Prop :=
  ∃ now prefix, prefix ∈ stage_prefixes ∧
    sb' = failed (prefix +:+ ManagerError_to_string e) now sb.

Lemma stored_keeps w0 w w' sb :
  stored w0 w sb → (ok w → ok w') → db w' = db w → w_tasks w' = w_tasks w → stored w0 w' sb.
Proof. intros [H1 H2 H3] K1 K2 K3. split; [auto|congruence..]. Qed.

Lemma wp_st_update_stored sb sb' w0 (Q : Result () BoxError → W → Prop) (w : W) :
  stored w0 w sb → sb_id sb' = sb_id sb → sb_created_at sb' = sb_created_at sb →
  (∀ w', stored w0 w' sb' → Q (Ok ()) w') →
  wp (st_update sb') Q w.
Proof.
  intros [H1 H2 H3] Hid Hcr HQ. apply wp_update; [done| |].
  - by eapply updatable_stored.
  - intros w' [K1 K2 K3 K4 K5]. apply HQ. split; [done| |congruence].
    by rewrite K2, H2, Hid, insert_insert_eq.
Qed.

Lemma wp_fail_create {X} sb0 sb prefix e w0 (Q : Result X BoxError → W → Prop) (w : W) :
  prefix ∈ stage_prefixes → stored w0 w sb0 →
  sb_id sb = sb_id sb0 → sb_created_at sb = sb_created_at sb0 →
  (∀ w' sb', stored w0 w' sb' → failed_with e sb sb' → Q (Err (BoxManager e)) w') →
  wp (fail_create sb (prefix +:+ ManagerError_to_string e) e) Q w.
Proof.
  intros Hp Hst Hid Hcr HQ. apply wp_do_now. intros t w1 []. apply wp_try.
  eapply (wp_st_update_stored sb0); [by eapply stored_keeps|done|done|].
  intros w2 Hst2. apply wp_ret, (HQ _ _ Hst2). by exists t, prefix.
Qed.

Lemma wp_pull_stage sb config w0 (Q : Result () BoxError → W → Prop) (w : W) :
  stored w0 w sb →
  (∀ w', stored w0 w' sb → Q (Ok ()) w') →
  (∀ w' e sb', stored w0 w' sb' → failed_with e sb sb' → Q (Err (BoxManager e)) w') →
  wp (pull_stage sb config) Q w.
Proof.
  intros Hst HQ HE.
  assert (∀ w1, stored w0 w1 sb → wp (pull_or_fail sb (cfg_image config)) Q w1) as Hpull.
  { intros w1 H1. apply wp_bind, wp_backend. intros w2 K1 K2 K3 _ _.
    assert (stored w0 w2 sb) by by eapply stored_keeps.
    destruct (run_val _ _) as [[]|e]; [by apply wp_ret, HQ|].
    eapply (wp_fail_create sb); [set_solver|done|done|done|eauto]. }
  unfold pull_stage. destruct (cfg_pull_policy config); [by apply Hpull| |by apply wp_ret, HQ].
  apply wp_bind, wp_backend. intros w2 K1 K2 K3 _ _.
  assert (stored w0 w2 sb) by by eapply stored_keeps.
  destruct (run_val _ _) as [[]|e]; [by apply wp_ret, HQ|by apply Hpull|].
  eapply (wp_fail_create sb); [set_solver|done|done|done|eauto].
Qed.

(** What the last stages return and leave. *)
Definition creation_outcome (w0 : W) (sb : Sandbox) (r : Result Sandbox BoxError) (w' : W) : Prop :=
  match r with
  | Ok sb' =>
      ∃ cid now, sb' = sb_set_updated_at now
        (sb_set_state (if needs_tool_proxy (sb_config sb) then Starting else Running)
           (sb_set_state Created (sb_set_container_id (Some cid) sb))) ∧
        ok w' ∧ db w' = <[sb_id sb := stored_as sb']> (db w0) ∧
        w_tasks w' = w_tasks w0 ++
          (if needs_tool_proxy (sb_config sb) then [HealthCheck (sb_id sb) cid] else [])
  | Err e => ∃ me sb1 sb2, e = BoxManager me ∧ stored w0 w' sb2 ∧ failed_with me sb1 sb2 ∧
               (sb1 = sb ∨ ∃ cid, sb1 = sb_set_state Created (sb_set_container_id (Some cid) sb))
  end.

Lemma wp_started_stage sb config cid w0 (w : W) :
  stored w0 w sb →
  let sb1 := sb_set_state Created (sb_set_container_id (Some cid) sb) in
  wp (started_stage sb1 config cid) (creation_outcome w0 sb) w.
Proof.
  intros Hst sb1. apply wp_do_now. intros t w1 []. apply wp_try.
  eapply wp_st_update_stored; [by eapply stored_keeps|done|done|]. intros w2 Hst2.
  apply wp_do_record. intros w3 []. apply wp_bind.
  assert (stored w0 w3 (sb_set_updated_at t (sb_set_state
    (if needs_tool_proxy (sb_config sb1) then Starting else Running) sb1))) as [G1 G2 G3]
    by by eapply stored_keeps.
  change (sb_config sb1) with (sb_config sb) in *. destruct (needs_tool_proxy (sb_config sb)) eqn:Ep.
  - apply wp_spawn. intros w4 J1 J2 J3 J4. apply wp_ret. simpl. rewrite Ep.
    exists cid, t. split_and!; [done|unfold ok; by rewrite J1|unfold db; by rewrite J1|].
    by rewrite J3, G3.
  - apply wp_ret, wp_ret. simpl. rewrite Ep. exists cid, t. by rewrite app_nil_r.
Qed.

Lemma wp_container_stage sb config w0 (w : W) :
  stored w0 w sb → wp (container_stage sb config) (creation_outcome w0 sb) w.
Proof.
  intros Hst. apply wp_bind, wp_backend. intros w1 K1 K2 K3 _ _.
  assert (stored w0 w1 sb) by by eapply stored_keeps.
  destruct (run_val _ _) as [cid|e].
  - apply wp_bind, wp_backend. intros w2 J1 J2 J3 _ _.
    assert (stored w0 w2 sb) as Hst2 by by eapply stored_keeps.
    destruct (run_val _ _) as [[]|e]; [by apply wp_started_stage|].
    eapply (wp_fail_create sb); [set_solver|done|done|done|].
    intros w3 sb' H3 Hf. exists e, (sb_set_state Created (sb_set_container_id (Some cid) sb)), sb'.
    split_and!; [done..|]. right. by exists cid.
  - eapply (wp_fail_create sb); [set_solver|done|done|done|]. intros w3 sb' H3 Hf. exists e, sb, sb'. split_and!; [done..|by left].
Qed.

Lemma apply_feature_profile_fixes config profile sid :
  let c := (apply_feature_profile config profile sid).1 in
  cfg_image c = cfg_image config ∧ cfg_name c = cfg_name config ∧
  cfg_resource_limits c = cfg_resource_limits config ∧
  cfg_pull_policy c = cfg_pull_policy config.
Proof.
  unfold apply_feature_profile. cbv zeta. repeat case_match; done.
Qed.

Lemma profiled_fixes id sel details config :
  let c := profiled id sel details config in
  cfg_image c = cfg_image config ∧ cfg_name c = cfg_name config ∧
  cfg_resource_limits c = cfg_resource_limits config.
Proof.
  unfold profiled. destruct details as [d|]; [|done].
  destruct (_ ≫= _) as [features_json|]; [|done].
  destruct (parse_label features_json) as [label|]; [|done].
  by destruct (apply_feature_profile_fixes config (build_feature_profile label sel)
                 (uuid_to_string id)) as (? & ? & ? & _).
Qed.

Lemma inject_fixes svc config :
  let c := inject_browser_tabs svc config in
  cfg_image c = cfg_image config ∧ cfg_name c = cfg_name config ∧
  cfg_resource_limits c = cfg_resource_limits config.
Proof. unfold inject_browser_tabs. by destruct (vec_contains _ _). Qed.

Lemma created_from_initial svc id config identity now :
  created_from svc id config identity
    (initial_sandbox id (named_config svc id config) now identity).
Proof.
  split; unfold named_config; simpl; try done; destruct (cfg_name config) eqn:E; simpl;
    rewrite ?E; done.
Qed.

Lemma created_from_config svc id config identity sb c :
  created_from svc id config identity sb →
  cfg_image c = cfg_image (sb_config sb) → cfg_name c = cfg_name (sb_config sb) →
  cfg_resource_limits c = cfg_resource_limits (sb_config sb) →
  created_from svc id config identity (sb_set_config c sb).
Proof. intros [] ???. split; (done || by etrans). Qed.

Lemma created_from_failed svc id config identity e sb sb' :
  failed_with e sb sb' → created_from svc id config identity sb →
  created_from svc id config identity sb'.
Proof. intros (now & prefix & _ & ->) []. by split. Qed.

Lemma created_from_profiled svc id config identity sel details sb :
  created_from svc id config identity sb → sb_config sb = named_config svc id config →
  created_from svc id config identity
    (sb_set_config (inject_browser_tabs svc
       (profiled id sel details (named_config svc id config))) sb).
Proof.
  intros Hc <-. destruct (profiled_fixes id sel details (sb_config sb)) as (H1 & H2 & H3).
  destruct (inject_fixes svc (profiled id sel details (sb_config sb))) as (K1 & K2 & K3).
  apply created_from_config; [done|..]; by etrans.
Qed.

Lemma creation_outcome_Err w0 sb me w' :
  creation_outcome w0 sb (Err (BoxManager me)) w' →
  ∃ sb', stored w0 w' sb' ∧ sb_id sb' = sb_id sb ∧ sb_state sb' = Error ∧
    (∀ svc id config identity, created_from svc id config identity sb →
       created_from svc id config identity sb') ∧
    ∃ prefix, prefix ∈ stage_prefixes ∧
      sb_error_message sb' = Some (prefix +:+ ManagerError_to_string me).
Proof.
  intros (me' & sb1 & sb2 & [= <-] & Hst & Hf & Hsb1). exists sb2. split; [done|].
  assert (Hf' := Hf). destruct Hf' as (now & prefix & Hp & ->). split_and!; [|done| |by eauto].
  - destruct Hsb1 as [->|[cid ->]]; done.
  - intros svc id config identity Hc. eapply created_from_failed; [done|].
    destruct Hsb1 as [->|[cid ->]]; [done|]. destruct Hc. by split.
Qed.

(** What [create_sandbox] returns and leaves behind. *)
Definition create_result (svc : SandboxService) (config : SandboxConfig)
    (identity : option ApiKeyIdentity) (w : W) (r : Result Sandbox BoxError) (w' : W) : Prop :=
  let id := w_fresh w 0%nat in
  ok w' ∧
  ∃ sb, created_from svc id config identity sb ∧
    db w' = <[id := stored_as sb]> (db w) ∧
    match r with
    | Ok sb' =>
        sb' = sb ∧
        ∃ cid, sb_container_id sb = Some cid ∧
          if needs_tool_proxy (sb_config sb)
          then sb_state sb = Starting ∧ w_tasks w' = w_tasks w ++ [HealthCheck id cid]
          else sb_state sb = Running ∧ w_tasks w' = w_tasks w
    | Err e =>
        sb_state sb = Error ∧ w_tasks w' = w_tasks w ∧
        ∃ me prefix, e = BoxManager me ∧ prefix ∈ stage_prefixes ∧
          sb_error_message sb = Some (prefix +:+ ManagerError_to_string me)
    end.

Lemma wp_create_sandbox svc config identity (Q : Result Sandbox BoxError → W → Prop) (w : W) :
  ok w → db w !! w_fresh w 0%nat = None →
  (∀ r w', create_result svc config identity w r w' → Q r w') →
  wp (create_sandbox svc config identity) Q w.
Proof.
  intros Hok Hfresh HQ. eapply wp_mono; [|exact HQ]. clear HQ Q.
  unfold create_result. set (id := w_fresh w 0%nat) in *. unfold create_sandbox. apply wp_bind. unfold wp at 1, run_val, run_st.
  simpl. fold id. set (w1 := mkWorld _ _ _ _ _ _ _ _).
  assert (ok w1) as Hok1 by done. assert (db w1 = db w) as Hdb1 by done.
  assert (w_tasks w1 = w_tasks w) as Ht1 by done. clearbody w1.
  wp_clock. set (sb0 := initial_sandbox id (named_config svc id config) t identity).
  assert (created_from svc id config identity sb0) as Hc by apply created_from_initial.
  assert (sb_config sb0 = named_config svc id config) as Hcfg by done.
  assert (Hid := cf_id _ _ _ _ _ Hc). clearbody sb0.
  apply wp_try, wp_create; [by world|world; by rewrite Hid|]. intros w2 [J1 J2 _ J3 _].
  assert (stored w w2 sb0) as Hst by (split; [done|world; done|congruence]).
  apply wp_try. apply wp_pull_stage with w; [done| |].
  2: { intros w3 e sb' [H1 H2 H3] Hf. assert (Hf' := Hf).
    destruct Hf' as (now & prefix & Hp & Heq).
    split; [done|]. exists sb'. split; [by eapply created_from_failed|].
    rewrite H2, Heq in *. simpl in *. rewrite Hid. split_and!; [done..|].
    by exists e, prefix. }
  intros w3 Hst3. apply wp_bind, wp_bind, wp_backend. intros w4 K1 K2 K3 _ _. apply wp_ret.
  assert (Hc' := created_from_profiled svc id config identity (selection_of (named_config svc id config))
    (run_val (bk_get_image_features (cfg_image (named_config svc id config))) (w_backend w3)) sb0 Hc Hcfg).
  revert Hc'. generalize (inject_browser_tabs svc (profiled id (selection_of (named_config svc id config))
    (run_val (bk_get_image_features (cfg_image (named_config svc id config))) (w_backend w3))
    (named_config svc id config))).
  intros cfg Hc'. cbv zeta.
  apply wp_try. eapply (wp_st_update_stored sb0); [by eapply stored_keeps|done|done|]. intros w5 Hst5.
  eapply wp_mono; [by apply wp_container_stage|]. intros [sb'|e] w6 Hout.
  - destruct Hout as (cid & now & -> & H1 & H2 & H3). split; [done|]. eexists. split; [|split; [|split; [reflexivity|]]].
    + destruct Hc'. by split.
    + rewrite H2. simpl. by rewrite Hid.
    + exists cid. split; [done|]. rewrite H3. simpl in *. rewrite Hid.
      destruct (needs_tool_proxy cfg); by rewrite ?app_nil_r.
  - assert (∃ me, e = BoxManager me) as [me ->] by (destruct Hout as (me & ? & ? & -> & _); eauto).
    apply creation_outcome_Err in Hout as (sb' & [H1 H2 H3] & H4 & H5 & H6 & prefix & Hp & Hm).
    split; [done|]. exists sb'. split; [by apply H6|].
    rewrite H2, H4. simpl. rewrite Hid. split_and!; [done..|]. by exists me, prefix.
Qed.

(** C3: creating a sandbox.  When the fresh id is new, the call leaves exactly
    one more record, live, owned by the caller, under the caller's image, with
    the caller's name or a default one and the caller's limits over the
    service's; whatever the backend answers, no other record changes.  On
    success the returned sandbox is the record stored: it has a container, and
    it is starting, with a health check spawned for that container, exactly when
    a tool proxy is expected in it, else running.  On failure the record is in
    error with a message that names the failed stage, the error is the
    backend's, and nothing is spawned. *)
Theorem create_sandbox_spec svc config identity (w : W) :
  ok w → db w !! w_fresh w 0%nat = None →
  wp (create_sandbox svc config identity) (create_result svc config identity w) w.
Proof. intros Hok Hfresh. by apply wp_create_sandbox. Qed.

(** ** The health-check task *)

Lemma wp_health_loop fuel cid timeout start (Q : option (Result () BoxError) → W → Prop) (w : W) :
  (∀ r w', (ok w → ok w') → db w' = db w → Q r w') →
  wp (health_loop fuel cid timeout start) Q w.
Proof.
  revert w. induction fuel as [|fuel IH]; intros w HQ; [by apply wp_ret, HQ|].
  simpl. apply wp_bind. unfold wp at 1, run_val, run_st, instant_now. simpl.
  set (w1 := mkWorld _ _ _ _ _ _ _ _).
  case_bool_decide; [by apply wp_ret, HQ|].
  apply wp_bind, wp_backend. intros w2 K1 K2 _ _ _.
  assert (ok w → ok w2) as Hok2 by exact K1. assert (db w2 = db w) as Hdb2 by exact K2.
  destruct (run_val _ _) as [v|e]; [destruct (is_healthy v); [by apply wp_ret, HQ|]|];
    apply IH; intros r w3 J1 J2; (apply HQ; [by eauto|congruence]).
Qed.

Lemma wp_wait fuel cid timeout_secs (Q : option (Result () BoxError) → W → Prop) (w : W) :
  (∀ r w', (ok w → ok w') → db w' = db w → Q r w') →
  wp (wait_for_tool_health fuel cid timeout_secs) Q w.
Proof. intros HQ. by apply wp_bind, wp_health_loop. Qed.

(** What the task does to the records once the wait is over. *)
Definition promoted (w w' : W) (id : Uuid) : Prop :=
  match shown w id with
  | Some sb =>
      if bool_decide (sb_state sb = Starting) then becomes w w' id (moved Running sb)
      else db w' = db w
  | None => db w' = db w
  end.

Lemma wp_run_health_check fuel id cid (Q : option () → W → Prop) (w : W) :
  ok w →
  (∀ r w', ok w' → match r with None => db w' = db w | Some _ => promoted w w' id end → Q r w') →
  wp (run_health_check fuel id cid) Q w.
Proof.
  intros Hok HQ. apply wp_bind, wp_wait. intros [r|] w1 H1 H2; [|by apply wp_ret; auto].
  apply wp_bind, wp_get; [auto|]. fold (shown w1 id). unfold promoted in HQ.
  replace (shown w1 id) with (shown w id) by (unfold shown; by rewrite H2).
  destruct (shown w id) as [sb|] eqn:E; [|by apply wp_ret; auto].
  destruct (shown_Some _ _ _ E) as [Hdb _]. assert (Hid := db_keyed _ _ _ Hok Hdb).
  case_bool_decide; [|by apply wp_ret; auto].
  wp_clock. wp_write id. apply wp_ret, HQ; [done|]. exists t, t. by world.
Qed.

(** the background health check of a new sandbox.  However the polls go, it
    moves the record from starting to running and does nothing to a record that
    has left the starting state or is gone; and with a poll interval of 100 ms,
    302 polls are enough for it to end. *)
Theorem run_health_check_spec fuel id cid (w : W) :
  ok w →
  wp (run_health_check fuel id cid) (λ r w',
    ok w' ∧ match r with None => db w' = db w | Some _ => promoted w w' id end) w ∧
  ((∀ k, (Z.of_nat k - 1) * 100000000 ≤ w_instant w (1 + k) - w_instant w 0%nat) →
   (302 ≤ fuel)%nat → is_Some (run_val (run_health_check fuel id cid) w)).
Proof.
  intros Hok. split; [by apply wp_run_health_check|]. intros Hclock Hfuel.
  destruct (wait_ends fuel cid (Some 30) w) as (r & Hr & _); [done|done|simpl; lia|].
  unfold run_health_check, run_val in *. rewrite M_bind_unfold, Hr.
  run_m. repeat case_match; simplify_eq/=; eauto.
Qed.
End theorems.

(** ** The streaming variant *)

Section streaming.
Context {S B A : Type}.
Context `{!StateStoreTrait S} `{!StoreContract S}.
Context `{!SandboxManager B}.
Context `{!UuidLib} `{!LabelParser}.
#[local] Abbreviation W := (World S B A).

(** An event after which the client hears nothing more. *)
Definition terminal (e : SandboxProgressEvent) : bool :=
  match e with EvReady _ _ | EvError _ => true | _ => false end.

(** The task has written the record [sb] and sent the events [evs]. *)
Record streamed (w0 w : W) (evs : list SandboxProgressEvent) (sb : Sandbox) : Prop := {
  streamed_ok : ok w;
  streamed_db : db w = <[sb_id sb := stored_as sb]> (db w0);
  streamed_tasks : w_tasks w = w_tasks w0;
  streamed_events : w_events w = w_events w0 ++ evs;
}.

(** The same record, as far as its identity goes. *)
Definition same_record (sb0 sb : Sandbox) : Prop :=
  sb_id sb = sb_id sb0 ∧ sb_api_key_id sb = sb_api_key_id sb0 ∧
  sb_deleted_at sb = sb_deleted_at sb0.

(** The last event tells the client what the record says.  When the check for
    the image fails, the record is left in the creating state. *)
Definition agrees (e : SandboxProgressEvent) (sb : Sandbox) : Prop :=
  match e with
  | EvReady id cid => id = sb_id sb ∧ sb_state sb = Running ∧ sb_container_id sb = Some cid
  | EvError m =>
      (sb_state sb = Error ∧ is_Some (sb_error_message sb)) ∨
      (sb_state sb = Creating ∧ sb_container_id sb = None ∧
       starts_with "Failed to check image: " m = true)
  | _ => False
  end.

(** The task has ended as it should. *)
Definition stream_ended (w0 : W) (sb0 : Sandbox) (w' : W) : Prop :=
  ∃ sb evs e, same_record sb0 sb ∧ streamed w0 w' (evs ++ [e]) sb ∧
    Forall (λ e, terminal e = false) evs ∧ agrees e sb.

Lemma streamed_step w0 w w' evs sb :
  streamed w0 w evs sb → (ok w → ok w') → db w' = db w → w_tasks w' = w_tasks w →
  w_events w' = w_events w → streamed w0 w' evs sb.
Proof. intros [] ????. split; [auto|congruence..]. Qed.

Lemma streamed_send w0 w w' evs e sb :
  streamed w0 w evs sb → w_store w' = w_store w → w_tasks w' = w_tasks w →
  w_events w' = w_events w ++ [e] → streamed w0 w' (evs ++ [e]) sb.
Proof.
  intros [H1 H2 H3 H4] K1 K2 K3. split; [unfold ok; by rewrite K1|unfold db; by rewrite K1|congruence|].
  by rewrite K3, H4, app_assoc.
Qed.

Lemma wp_do_send {X} e (k : () → M W X) evs sb w0 Q (w : W) :
  streamed w0 w evs sb →
  (∀ w', streamed w0 w' (evs ++ [e]) sb → wp (k ()) Q w') → wp (send e ≫= k) Q w.
Proof.
  intros Hst HQ. apply wp_bind, wp_send. intros w' H1 H2 H3 H4. by eapply HQ, streamed_send.
Qed.

Lemma wp_do_streamed {X} sb' (k : Result () BoxError → M W X) evs sb w0 Q (w : W) :
  streamed w0 w evs sb → sb_id sb' = sb_id sb → sb_created_at sb' = sb_created_at sb →
  (∀ w', streamed w0 w' evs sb' → wp (k (Ok ())) Q w') → wp (st_update sb' ≫= k) Q w.
Proof.
  intros [H1 H2 H3 H4] Hid Hcr HQ. apply wp_bind, wp_update; [done| |].
  - by eapply updatable_stored.
  - intros w' [K1 K2 K3 K4 K5]. apply HQ. split; [done| |congruence..].
    by rewrite K2, H2, Hid, insert_insert_eq.
Qed.

Lemma wp_do_backend {X Y} (m : M B X) (k : X → M W Y) evs sb w0 Q (w : W) :
  streamed w0 w evs sb →
  (∀ x w', streamed w0 w' evs sb → wp (k x) Q w') → wp (on_backend m ≫= k) Q w.
Proof.
  intros Hst HQ. apply wp_bind, wp_backend. intros w' H1 H2 H3 H4 _.
  by eapply HQ, streamed_step.
Qed.

Lemma wp_fail_stream msg event evs sb0 sb sb1 w0 (Q : option Sandbox → W → Prop) (w : W) :
  streamed w0 w evs sb1 → sb_id sb = sb_id sb1 → sb_created_at sb = sb_created_at sb1 →
  same_record sb0 sb →
  Forall (λ e, terminal e = false) evs →
  (∀ w', stream_ended w0 sb0 w' → Q None w') →
  wp (fail_stream sb msg event) Q w.
Proof.
  intros Hst Hid Hcr Hsame Hevs HQ. apply wp_do_now. intros t w1 [].
  eapply wp_do_streamed; [by eapply streamed_step|done|done|]. intros w2 Hst2.
  eapply wp_do_send; [done|]. intros w3 Hst3. apply wp_ret, HQ.
  exists (failed msg t sb), evs, (EvError event). split_and!; [done..|].
  left. simpl. eauto.
Qed.

Lemma wp_progress_calls calls image evs sb w0 Q (w : W) :
  streamed w0 w evs sb → Forall (λ e, terminal e = false) evs →
  (∀ w' evs', streamed w0 w' evs' sb → Forall (λ e, terminal e = false) evs' → Q () w') →
  wp (for_each calls (λ '(status, current, total), send (EvPulling image status current total)))
    Q w.
Proof.
  intros Hst Hevs HQ.
  eapply (wp_for_each (λ _ w', ∃ evs', streamed w0 w' evs' sb ∧
            Forall (λ e, terminal e = false) evs')); [by eauto| |].
  - intros done [[status cur] tot] rest w' _ (evs' & H1 & H2).
    apply wp_send. intros w'' K1 K2 K3 K4. eexists. split; [by eapply streamed_send|].
    apply Forall_app. auto.
  - intros w' (evs' & H1 & H2). eauto.
Qed.

Lemma Forall_snoc_quiet evs e :
  Forall (λ e, terminal e = false) evs → terminal e = false →
  Forall (λ e, terminal e = false) (evs ++ [e]).
Proof. intros. apply Forall_app. auto. Qed.

Lemma wp_streaming_pull sb image w0 evs (Q : option Sandbox → W → Prop) (w : W) :
  streamed w0 w evs sb → Forall (λ e, terminal e = false) evs →
  (∀ w' evs', streamed w0 w' evs' sb → Forall (λ e, terminal e = false) evs' →
     Q (Some sb) w') →
  (∀ w', stream_ended w0 sb w' → Q None w') →
  wp (streaming_pull sb image) Q w.
Proof.
  intros Hst Hevs HQ HE. eapply wp_do_send; [done|]. intros w1 G1.
  eapply wp_do_backend; [done|]. intros [calls r] w2 G2.
  apply wp_bind. eapply wp_progress_calls; [done|by apply Forall_snoc_quiet|].
  intros w3 evs3 G3 Hevs3. destruct r as [[]|e]; [by apply wp_ret; eauto|].
  by eapply wp_fail_stream.
Qed.

Lemma wp_streaming_pull_stage sb config w0 evs (Q : option Sandbox → W → Prop) (w : W) :
  streamed w0 w evs sb → Forall (λ e, terminal e = false) evs → sb_state sb = Creating →
  sb_container_id sb = None →
  (∀ w' evs', streamed w0 w' evs' sb → Forall (λ e, terminal e = false) evs' →
     Q (Some sb) w') →
  (∀ w', stream_ended w0 sb w' → Q None w') →
  wp (streaming_pull_stage sb config) Q w.
Proof.
  intros Hst Hevs Hsb Hcid HQ HE. unfold streaming_pull_stage.
  destruct (cfg_pull_policy config).
  - by eapply wp_streaming_pull.
  - eapply wp_do_backend; [done|]. intros [[]|e] w1 G1.
    + eapply wp_do_send; [done|]. intros w2 G2.
      by eapply wp_ret, HQ, Forall_snoc_quiet.
    + by eapply wp_streaming_pull.
    + eapply wp_do_send; [done|]. intros w2 G2. apply wp_ret, HE.
      exists sb, evs. eexists. split_and!; [done..|]. right. split_and!; [done|done|].
      apply starts_with_spec. by eexists.
  - eapply wp_do_send; [done|]. intros w2 G2. by eapply wp_ret, HQ, Forall_snoc_quiet.
Qed.

Lemma wp_streaming_health_loop fuel cid start sb evs w0 (Q : option () → W → Prop) (w : W) :
  streamed w0 w evs sb → (∀ r w', streamed w0 w' evs sb → Q r w') →
  wp (streaming_health_loop fuel cid start) Q w.
Proof.
  revert w. induction fuel as [|fuel IH]; intros w Hst HQ; [by apply wp_ret, HQ|].
  simpl. apply wp_bind. unfold wp at 1, run_val, run_st, instant_now. simpl.
  set (w1 := mkWorld _ _ _ _ _ _ _ _).
  assert (streamed w0 w1 evs sb) as G1 by (destruct Hst; by split).
  clearbody w1. case_bool_decide; [by apply wp_ret, HQ|].
  eapply wp_do_backend; [done|]. intros [v|e] w2 G2; [|by apply IH].
  destruct (is_healthy_with_browser v); [by apply wp_ret, HQ|by apply IH].
Qed.

(** What the last two stages leave; [None] is "out of fuel". *)
Definition stream_result (w0 : W) (sb0 : Sandbox) (r : option ()) (w' : W) : Prop :=
  match r with Some _ => stream_ended w0 sb0 w' | None => ok w' end.

Lemma wp_streaming_started fuel sb0 sb cid evs w0 (w : W) :
  streamed w0 w evs sb → same_record sb0 sb → sb_container_id sb = Some cid →
  Forall (λ e, terminal e = false) evs →
  wp (streaming_started fuel sb cid) (stream_result w0 sb0) w.
Proof.
  intros Hst Hsame Hcid Hevs. apply wp_bind.
  assert (∀ (h : option ()) w1, streamed w0 w1 evs sb →
    wp (match h with
        | None => mret None
        | Some _ => now ← utc_now;
            _ ← st_update (sb_set_updated_at now (sb_set_state Running sb));
            _ ← send (EvReady (sb_id sb) cid); mret (Some ())
        end) (stream_result w0 sb0) w1) as Hend.
  { intros [[]|] w1 G1; [|apply wp_ret; by destruct G1].
    apply wp_do_now. intros t w2 [].
    eapply wp_do_streamed; [by eapply streamed_step|done|done|]. intros w3 G3.
    eapply wp_do_send; [done|]. intros w4 G4. apply wp_ret.
    by exists (sb_set_updated_at t (sb_set_state Running sb)), evs, (EvReady (sb_id sb) cid). }
  destruct (needs_tool_proxy (sb_config sb)); [|by apply wp_ret, (Hend (Some ()))].
  apply wp_bind. unfold wp at 1, run_val, run_st, instant_now. simpl.
  eapply wp_streaming_health_loop; [destruct Hst; by split|]. intros r w1 G1. by apply Hend.
Qed.

Lemma wp_streaming_container fuel sb0 sb config evs w0 (w : W) :
  streamed w0 w evs sb → same_record sb0 sb →
  Forall (λ e, terminal e = false) evs →
  wp (streaming_container_stage fuel sb config) (stream_result w0 sb0) w.
Proof.
  intros Hst Hsame Hevs. eapply wp_do_send; [done|]. intros w1 G1.
  eapply wp_do_backend; [done|]. intros [cid|e] w2 G2.
  - eapply wp_do_streamed; [done|done|done|]. intros w3 G3.
    eapply wp_do_send; [done|]. intros w4 G4.
    eapply wp_do_backend; [done|]. intros [[]|e] w5 G5.
    + eapply wp_streaming_started; [done|done|done|by repeat apply Forall_snoc_quiet].
    + apply wp_bind. eapply wp_fail_stream;
        [done|done|done|done|by repeat apply Forall_snoc_quiet|]. intros w6 G6. by apply wp_ret.
  - apply wp_bind. eapply wp_fail_stream; [done|done|done|done|by apply Forall_snoc_quiet|].
    intros w3 G3. by apply wp_ret.
Qed.

(** What the streaming task leaves behind; [None] is "out of fuel". *)
Definition streaming_result (id : Uuid) (identity : option ApiKeyIdentity) (w : W)
    (r : option ()) (w' : W) : Prop :=
  ok w' ∧
  (r = Some () → ∃ sb evs e,
     (sb_id sb = id ∧ sb_api_key_id sb = identity_owner identity ∧
      sb_deleted_at sb = None) ∧
     db w' = <[id := stored_as sb]> (db w) ∧ w_tasks w' = w_tasks w ∧
     w_events w' = w_events w ++ evs ++ [e] ∧
     Forall (λ e, terminal e = false) evs ∧ agrees e sb).

Lemma wp_run_streaming_create fuel id config identity (Q : option () → W → Prop) (w : W) :
  ok w → db w !! id = None →
  (∀ r w', streaming_result id identity w r w' → Q r w') →
  wp (run_streaming_create fuel id config identity) Q w.
Proof.
  intros Hok Hfresh HQ. eapply wp_mono; [|exact HQ]. apply wp_do_now. intros t w1 [Hok1 Hdb1 _ Ht1 He1].
  set (sb0 := initial_sandbox id config t identity).
  apply wp_bind, wp_create; [auto|by rewrite Hdb1|]. intros w2 [K1 K2 _ K3 K4].
  assert (streamed w w2 [] sb0) as G2.
  { split; [done|by rewrite K2, Hdb1|congruence|]. by rewrite app_nil_r, K4, He1. }
  assert (∀ w', stream_ended w sb0 w' → streaming_result id identity w (Some ()) w') as Hend.
  { intros w' (sb & evs & e & (Hid & Ho & Hd) & [J1 J2 J3 J4] & Hevs & Hag).
    split; [done|]. intros _. exists sb, evs, e. rewrite Hid in J2.
    by split_and!. }
  apply wp_bind. eapply wp_streaming_pull_stage; [done|done|done|done| |].
  - intros w3 evs3 G3 Hevs3. apply wp_bind. eapply wp_do_backend; [done|].
    intros details w4 G4. apply wp_ret.
    eapply wp_do_streamed; [done|done|done|]. intros w5 G5.
    eapply wp_mono; [by eapply wp_streaming_container|].
    intros [[]|] w6 G6; [by apply Hend|by split].
  - intros w3 G3. by apply wp_ret, Hend.
Qed.

End streaming.

(** ** Witnesses *)

Module Witnesses.
Import Demo.

#[local] Instance parser : LabelParser := {| parse_label := λ _, Err "no label" |}.

Definition web : SandboxConfig := cfg_set_features ["web"] SandboxConfig_default.

Lemma create_sandbox_spec_witness :
  is_ok (run_val (create_sandbox SandboxService_new web None) Demo.world) = true ∧
  w_tasks (run_st (create_sandbox SandboxService_new web None) Demo.world)
    = [HealthCheck 100%N "c1"] ∧
  wp (create_sandbox SandboxService_new web None)
    (create_result SandboxService_new web None Demo.world) Demo.world.
Proof.
  split; [vm_compute; reflexivity|]. split; [vm_compute; reflexivity|].
  exact (create_sandbox_spec SandboxService_new web None Demo.world Demo.world_ok eq_refl).
Defined.

Lemma run_health_check_spec_witness :
  is_Some (run_val (run_health_check 302 1%N "c0") Demo.world) ∧
  wp (run_health_check 302 1%N "c0") (λ r w',
    ok w' ∧ match r with None => db w' = db Demo.world | Some _ => promoted Demo.world w' 1%N end)
    Demo.world.
Proof.
  destruct (run_health_check_spec 302 1%N "c0" Demo.world Demo.world_ok) as [Hwp Hend].
  split; [|exact Hwp]. apply Hend; [|lia]. intros k. cbn [w_instant Demo.world]. lia.
Defined.


End Witnesses.
