(* ===== verification/Docker.v ===== *)
(** * Docker: the Docker backend

    Models [src/docker/manager.rs] and [src/docker/manager/]: the container that
    is asked for, its life, the commands and the HTTP requests in it with the
    cache of addresses, the statistics, the images, and the choice of the
    connection.  The daemon ([bollard]), the HTTP client, the host's file system
    and the timers are parameters; an error of the daemon is its text. *)

From S2P Require Import Prelude Text Paths Errors Types Store Features World Demo Service Config.
From S2P Require Import Float64 Kube KubeBackend Ops Cli Create.
From Stdlib Require Import Ascii.

(** ** The daemon *)

Record PortBinding : Type := mkPortBinding { pb_host_ip : string; pb_host_port : string }.

Record HostConfig : Type := mkHostConfig {
  hc_port_bindings : gmap string (list PortBinding);
  hc_memory : option Z;
  hc_cpu_quota : option Z;
  hc_cpu_period : option Z;
  hc_cpu_shares : option Z;
  hc_pids_limit : option Z;
  hc_binds : option (list string);
  hc_ulimits : option (list (string * Z * Z));
}.

Record ContainerCreateBody : Type := mkContainerCreateBody {
  cc_image : string;
  cc_env : option (list string);
  cc_cmd : option (list string);
  cc_entrypoint : option (list string);
  cc_host_config : HostConfig;
  cc_exposed_ports : option (gset string);
}.

(** What an inspection tells: the state, the configuration, and the networks in
    the order in which they are walked. *)
Record DockerState : Type := mkDockerState {
  ds_running : option bool;
  ds_exit_code : option Z;
  ds_oom_killed : option bool;
}.

Record Inspect : Type := mkInspect {
  in_state : option DockerState;
  in_working_dir : option (option string);
  in_networks : option (list (string * option string));
}.

Record ContainerSummary : Type := mkContainerSummary {
  cs_id : option string;
  cs_names : option (list string);
  cs_image : option string;
  cs_state_text : option string;
  cs_status : option string;
  cs_created : option Z;
  cs_ports : option (list (option Z * Z));
  cs_labels : option (gmap string string);
}.

Record CpuStats : Type := mkCpuStats {
  cpu_total_usage : option (option Z);
  system_cpu_usage : option Z;
  online_cpus : option Z;
}.

Record MemoryStats : Type := mkMemoryStats { mem_usage : option Z; mem_limit : option Z }.

Record BlkioEntry : Type := mkBlkioEntry { blk_op : option string; blk_value : option Z }.

Record StatsResponse : Type := mkStatsResponse {
  sr_cpu_stats : option CpuStats;
  sr_precpu_stats : option CpuStats;
  sr_memory_stats : option MemoryStats;
  sr_networks : option (list (option Z * option Z));
  sr_blkio : option (option (list BlkioEntry));
}.

(** One step of a pull. *)
Record PullInfo : Type := mkPullInfo {
  pi_status : option string;
  pi_current : option (option Z);
  pi_total : option (option Z);
  pi_error : option string;
}.

Record ImageInspect : Type := mkImageInspect {
  ii_id : option string;
  ii_repo_tags : option (list string);
  ii_size : option Z;
  ii_virtual_size : option Z;
  ii_created : option string;
  ii_architecture : option string;
  ii_os : option string;
  ii_labels : option (gmap string string);
  ii_env : option (list string);
}.

Inductive LogOutput : Type :=
  | StdOut (message : string)
  | StdErr (message : string)
  | Console (message : string)
  | StdIn (message : string).

Inductive StartExec (P : Type) : Type :=
  | ExecAttached (process : P)
  | ExecDetached.
Arguments ExecAttached {P} _.
Arguments ExecDetached {P}.

(** The calls of [bollard], those of the HTTP client with the timeouts it was
    built with (none for the default one), and what else the code uses of its
    surroundings.  A stream is the list of what it gives; [d_stats] gives its
    first element, [d_timeout] what a computation gives unless the time is over
    first. *)
Class DockerClient (D : Type) := {
  d_create_container : option string → ContainerCreateBody → M D (Result string string);
  d_connect_network : string → string → string → M D (Result () string);
  d_start_container : string → M D (Result () string);
  d_stop_container : string → Z → M D (Result () string);
  d_remove_container : string → M D (Result () string);
  d_inspect_container : string → M D (Result Inspect string);
  d_list_containers : bool → M D (Result (list ContainerSummary) string);
  d_stats : string → M D (option (Result StatsResponse string));
  d_remove_volume : string → M D (Result () string);
  d_inspect_image : string → M D (Result ImageInspect string);
  d_create_image : string → M D (list (Result PullInfo string));
  d_list_images : M D (Result (list ImageSummary) string);
  d_remove_image : string → M D (Result () string);
  DProcess : Type;
  d_create_exec : string → list string → bool → M D (Result string string);
  d_start_exec : string → M D (Result (StartExec DProcess) string);
  d_write_all : DProcess → string → M D (Result () string);
  d_shutdown : DProcess → M D (Result () string);
  d_output : DProcess → M D (list (Result LogOutput string));
  d_inspect_exec : string → M D (Result (option Z) string);
  d_upload : string → string → string → M D (Result () string);
  d_http_request : option HttpClientTimeoutConfig → string → string → option Json →
    M D (Result HttpResponse string);
  d_response_json : HttpResponse → Result Json string;
  d_timeout : ∀ {X}, Z → M D X → M D (option X);
  d_json_from_str : string → Result Json string;
  from_utf8_lossy : string → string;
  fs_create_dir_all : string → M D (Result () string);
  fs_set_permissions : string → Z → M D (Result () string);
  fs_chown : string → Z → Z → M D Z;
  d_sleep_ms : Z → M D ();
  d_utc_now : M D DateTime;
  env_var : string → option string;
  rfc3339_timestamp : string → option Z;
}.

(** The manager: the daemon, the HTTP client and the cache of addresses, whose
    lock nobody holds while panicking. *)
Record DockerManager (D : Type) : Type := mkDockerManager {
  daemon : D;
  dm_http_client : option HttpClientTimeoutConfig;
  ip_cache : gmap string string;
}.
Arguments mkDockerManager {D} _ _ _.
Arguments daemon {D} _.
Arguments dm_http_client {D} _.
Arguments ip_cache {D} _.

Abbreviation DResult A := (Result A DockerManagerError).

(** ** What is asked for ([container.rs]) *)

Definition SandboxInfo_from (cs : ContainerSummary) : SandboxInfo :=
  {| info_id := default "" (cs_id cs);
     info_name := n ← cs_names cs; trim_start_matches slash <$> head n;
     info_image := cs_image cs;
     info_state := cs_state_text cs;
     info_status := cs_status cs;
     info_created := cs_created cs;
     info_ports :=
       omap (λ '(public_port, private_port), option_map (λ hp, (hp, private_port)) public_port)
         (default [] (cs_ports cs));
     info_labels := default ∅ (cs_labels cs);
     info_node_name := None; info_pod_ip := None |}.

Definition protocol_str (p : PortProtocol) : string := match p with Tcp => "tcp" | Udp => "udp" end.

Definition port_key (mapping : PortMapping) : string :=
  Z_to_string (Types.container_port mapping) +:+ "/" +:+ protocol_str (protocol mapping).

Definition add_binding (acc : gmap string (list PortBinding)) (mapping : PortMapping)
    : gmap string (list PortBinding) :=
  <[port_key mapping := [mkPortBinding "0.0.0.0" (Z_to_string (host_port mapping))]]> acc.

Definition port_bindings (mappings : list PortMapping) : gmap string (list PortBinding) :=
  fold_left add_binding mappings ∅.

Definition exposed_ports_map (ports : list Z) : gset string :=
  list_to_set (port ← ports; [Z_to_string port +:+ "/tcp"; Z_to_string port +:+ "/udp"]).

(** The product wraps in a release build; the cast reinterprets. *)
Definition memory_bytes (m : Z) : Z := i64_wrap (u64_wrap (u64_wrap (m * 1024) * 1024)).

Definition none_if_empty {X} (l : list X) : option (list X) := if is_nil l then None else Some l.

Definition host_config (config : SandboxConfig) (binds : list string) : HostConfig :=
  let rl := cfg_resource_limits config in
  {| hc_port_bindings := port_bindings (cfg_port_mappings config);
     hc_memory := option_map memory_bytes (memory_mb rl);
     hc_cpu_quota := cpu_quota rl;
     hc_cpu_period := cpu_period rl;
     hc_cpu_shares := option_map i64_wrap (cpu_shares rl);
     hc_pids_limit := pids_limit rl;
     hc_binds := none_if_empty binds;
     hc_ulimits :=
       none_if_empty ((λ u, (ulimit_name u, ulimit_soft u, ulimit_hard u))
                        <$> default [] (ulimits rl)) |}.

Definition env_list (env_map : gmap string string) : list string :=
  (λ '(k, v), k +:+ "=" +:+ v) <$> map_to_list env_map.

Definition has_features (config : SandboxConfig) : bool :=
  cfg_enable_all_features config || negb (is_nil (cfg_features config)).

Definition container_cmd (config : SandboxConfig) : option (list string) :=
  match cfg_command config with
  | Some command => Some command
  | None => if has_features config then None else Some ["tail"; "-f"; "/dev/null"]
  end.

Definition container_body (proxy : gmap string string) (config : SandboxConfig)
    (binds : list string) : ContainerCreateBody :=
  let exposed := exposed_ports_map (cfg_exposed_ports config) in
  {| cc_image := cfg_image config;
     cc_env := none_if_empty (env_list (merge_sandbox_environment config proxy));
     cc_cmd := container_cmd config;
     cc_entrypoint := if has_features config then None else Some [];
     cc_host_config := host_config config binds;
     cc_exposed_ports := if bool_decide (exposed = ∅) then None else Some exposed |}.

Definition null_char : ascii := "000"%char.

Section manager.
Context {D : Type} `{DockerClient D} `{UuidLib} `{LabelParser}.
Context (config : Config).
#[local] Abbreviation W := (DockerManager D).

Definition on_daemon {A} (m : M D A) : M W A := λ w,
  let '(a, d) := m (daemon w) in (a, mkDockerManager d (dm_http_client w) (ip_cache w)).

(** [?] on a call of the daemon. *)
Definition bollard {A} (m : M D (Result A string)) : M W (DResult A) :=
  r ← on_daemon m; mret (result_map_err DmBollard r).

(** Nothing of the three texts looked for is the lower case of anything outside
    ASCII, in its place: lower case is that of ASCII. *)
Definition error_is (texts : list string) (e : string) : bool :=
  existsb (λ p, contains p (to_ascii_lowercase e)) texts.

Definition is_gone (e : string) : bool := error_is ["no such container"; "not found"; "404"] e.

(** ** The life of a container ([container.rs]) *)

Definition expand_tilde (path : string) (home_dir : option string) : string :=
  if starts_with "~/" path then
    match option_or home_dir (option_or (env_var "HOME") (env_var "USERPROFILE")) with
    | Some home => home +:+ default "" (strip_prefix "~" path)
    | None => path
    end
  else path.

Definition static_files_dir (sid : Uuid) : string :=
  let ss := static_server config in
  expand_tilde (default (static_base_path ss) (static_host_path ss)) (home_dir (docker config))
    +:+ "/" +:+ uuid_to_string sid.

(** The bind of the published files: left out when the directory cannot be
    made; the failures to change its mode and its owner are only logged. *)
Definition static_bind (sandbox_id : option Uuid) : M W (DResult (list string)) :=
  match sandbox_id with
  | None => mret (Ok [])
  | Some sid =>
      let dir := static_files_dir sid in
      r ← on_daemon (fs_create_dir_all dir);
      match r with
      | Err _ => mret (Ok [])
      | Ok _ =>
          _ ← on_daemon (fs_set_permissions dir 511);
          if has_char null_char dir then
            mret (Err (DmApi "Static files directory path contains null byte"))
          else
            _ ← on_daemon (fs_chown dir 1000 1000);
            mret (Ok [dir +:+ ":/public:rw,z"])
      end
  end.

(** The failure to connect is only logged. *)
Definition join_network (c : SandboxConfig) (container_id : string) : M W () :=
  match docker_network (docker config) with
  | Some network =>
      _ ← on_daemon (d_connect_network network container_id (default "sandbox" (cfg_name c)));
      mret ()
  | None => mret ()
  end.

Definition create_container (c : SandboxConfig) (sandbox_id : option Uuid)
    : M W (DResult string) :=
  let* static := static_bind sandbox_id in
  let* container_id :=
    bollard (d_create_container (cfg_name c)
               (container_body (proxy_env (docker config)) c
                  ((bind_string <$> cfg_volumes c) ++ static))) in
  _ ← join_network c container_id;
  mret (Ok container_id).

Definition start_container (id : string) : M W (DResult ()) := bollard (d_start_container id).

Definition stop_container (id : string) : M W (DResult ()) := bollard (d_stop_container id 10).

Definition evict (id : string) : M W () := λ w,
  ((), mkDockerManager (daemon w) (dm_http_client w) (base.delete id (ip_cache w))).

Definition verify_container_removed (id : string) : M W (DResult bool) :=
  r ← on_daemon (d_inspect_container id);
  mret (match r with
        | Ok _ => Ok false
        | Err e => if error_is ["not found"; "no such container"] e then Ok true else Err (DmBollard e)
        end).

Definition max_retries : Z := 3.

Fixpoint remove_attempts (id : string) (attempts : list Z) (last_error : option DockerManagerError)
    : M W (DResult ()) :=
  match attempts with
  | [] =>
      mret (Err (default (DmApi ("Failed to remove container after " +:+ Z_to_string max_retries
                                   +:+ " attempts")) last_error))
  | attempt :: rest =>
      r ← on_daemon (d_remove_container id);
      match r with
      | Ok _ =>
          v ← verify_container_removed id;
          match v with
          | Ok true => _ ← evict id; mret (Ok ())
          | Ok false =>
              remove_attempts id rest
                (Some (DmApi ("Container removal reported success but container still exists (attempt "
                                +:+ Z_to_string attempt +:+ ")")))
          | Err _ => _ ← evict id; mret (Ok ())
          end
      | Err e =>
          if is_gone e then _ ← evict id; mret (Ok ())
          else
            _ ← (if bool_decide (attempt < max_retries) then on_daemon (d_sleep_ms (500 * attempt))
                 else mret ());
            remove_attempts id rest (Some (DmBollard e))
      end
  end.

Definition remove_container (id : string) : M W (DResult ()) := remove_attempts id [1; 2; 3] None.

Definition list_containers (all : bool) : M W (DResult (list ContainerSummary)) :=
  bollard (d_list_containers all).

(** ** Inspections ([inspect.rs]) *)

Definition is_container_running (id : string) : M W (DResult bool) :=
  r ← on_daemon (d_inspect_container id);
  mret (match r with
        | Ok inspect =>
            Ok (match in_state inspect with
                | Some state => default false (ds_running state)
                | None => false
                end)
        | Err e => if is_gone e then Ok false else Err (DmBollard e)
        end).

Definition inspected {A} (id : string) (f : Inspect → A) : M W (DResult A) :=
  r ← on_daemon (d_inspect_container id);
  mret (match r with
        | Ok inspect => Ok (f inspect)
        | Err e =>
            Err (if is_gone e then DmContainerNotFound ("Container " +:+ id +:+ " not found")
                 else DmBollard e)
        end).

Definition get_container_workdir (id : string) : M W (DResult string) :=
  inspected id (λ inspect,
    match in_working_dir inspect with
    | Some (Some workdir) => if is_empty workdir then "/" else workdir
    | _ => "/"
    end).

Definition get_container_exit_info (id : string) : M W (DResult (Z * bool)) :=
  inspected id (λ inspect,
    match in_state inspect with
    | Some state => (default (-1) (ds_exit_code state), default false (ds_oom_killed state))
    | None => (-1, false)
    end).

Definition get_container_logs (id : string) (tail : option Z) : M W (DResult string) :=
  mret (Ok "").

Definition remove_volume (name : string) : M W (DResult ()) := bollard (d_remove_volume name).

(** *** Statistics: sums of [u64]s wrap in a release build *)

Definition sum_u64 (l : list Z) : Z := u64_wrap (foldr Z.add 0 l).

Definition cpu_total (s : option CpuStats) : Z := default 0 (s ← s; u ← cpu_total_usage s; u).

Definition cpu_percentage (cpu : CpuStats) (precpu : option CpuStats) : f64 :=
  let cpu_delta := f64_sub (f64_of_Z (cpu_total (Some cpu))) (f64_of_Z (cpu_total precpu)) in
  let system_delta :=
    f64_sub (f64_of_Z (default 0 (system_cpu_usage cpu)))
      (f64_of_Z (default 0 (s ← precpu; system_cpu_usage s))) in
  let cpus := f64_of_Z (default 1 (online_cpus cpu)) in
  if f64_ltb f64_zero system_delta && f64_ltb f64_zero cpus then
    f64_mul (f64_mul (f64_div cpu_delta system_delta) cpus) (f64_of_Z 100)
  else f64_zero.

Definition blk_bytes (op : string) (stats : StatsResponse) : Z :=
  match (b ← sr_blkio stats; b) with
  | Some ios =>
      sum_u64 ((λ i, default 0 (blk_value i))
                 <$> List.filter (λ i, bool_decide (blk_op i = Some op)) ios)
  | None => 0
  end.

Definition net_bytes (side : option Z * option Z → option Z) (stats : StatsResponse) : Z :=
  match sr_networks stats with
  | Some nets => sum_u64 ((λ n, default 0 (side n)) <$> nets)
  | None => 0
  end.

Definition container_stats (stats : StatsResponse) : DResult (DateTime → ContainerStats) :=
  let? cpu := option_ok_or (DmApi "No CPU stats available") (sr_cpu_stats stats) in
  let? mem := option_ok_or (DmApi "No memory stats available") (sr_memory_stats stats) in
  let mib := 1024 * 1024 in
  let memory_usage := default 0 (mem_usage mem) / mib in
  let memory_limit := default 0 (mem_limit mem) / mib in
  Ok (λ now,
     {| cpu_percent := f64_to_bits (cpu_percentage cpu (sr_precpu_stats stats));
        memory_usage_mb := memory_usage;
        memory_limit_mb := memory_limit;
        memory_percent :=
          f64_to_bits
            (if 0 <? memory_limit then
               f64_mul (f64_div (f64_of_Z memory_usage) (f64_of_Z memory_limit)) (f64_of_Z 100)
             else f64_zero);
        network_rx_bytes := net_bytes fst stats;
        network_tx_bytes := net_bytes snd stats;
        block_read_bytes := blk_bytes "Read" stats;
        block_write_bytes := blk_bytes "Write" stats;
        stats_timestamp := now |}).

Definition get_container_stats (id : string) : M W (DResult ContainerStats) :=
  next ← on_daemon (d_stats id);
  match next with
  | None => mret (Err (DmApi "No stats available"))
  | Some (Err e) => mret (Err (DmApi ("Failed to get stats: " +:+ e)))
  | Some (Ok stats) =>
      match container_stats stats with
      | Ok at_time => now ← on_daemon d_utc_now; mret (Ok (at_time now))
      | Err e => mret (Err e)
      end
  end.

(** ** Commands ([exec.rs]) *)

Definition log_text (l : LogOutput) : string :=
  match l with
  | StdOut message | StdErr message | Console message => from_utf8_lossy message
  | StdIn _ => ""
  end.

Fixpoint collect_output (acc : string) (output : list (Result LogOutput string))
    : DResult string :=
  match output with
  | [] => Ok acc
  | Ok l :: rest => collect_output (acc +:+ log_text l) rest
  | Err e :: _ => Err (DmBollard e)
  end.

(** [i32::try_from(code).ok()], and 0 without one. *)
Definition exit_code_of (code : option Z) : Z :=
  match code with
  | Some c => if bool_decide (- 2 ^ 31 ≤ c < 2 ^ 31) then c else 0
  | None => 0
  end.

Definition feed_stdin (process : DProcess) (stdin : option string) : M D (DResult ()) :=
  match stdin with
  | Some data =>
      let* _ := r ← d_write_all process data; mret (result_map_err DmIo r) in
      r ← d_shutdown process; mret (result_map_err DmIo r)
  | None => mret (Ok ())
  end.

(** What the timeout is on. *)
Definition exec_operation (exec_id : string) (stdin : option string)
    (started : StartExec DProcess) : M D (DResult ExecCommandResult) :=
  match started with
  | ExecAttached process =>
      let* _ := feed_stdin process stdin in
      output ← d_output process;
      match collect_output "" output with
      | Err e => mret (Err e)
      | Ok full_output =>
          let* code := r ← d_inspect_exec exec_id; mret (result_map_err DmBollard r) in
          mret (Ok (mkExecCommandResult full_output (exit_code_of code)))
      end
  | ExecDetached => mret (Ok (mkExecCommandResult "Command started in detached mode" 0))
  end.

Definition exec_container_with_stdin_result (id : string) (command : list string)
    (stdin : option string) (timeout_secs : option Z) : M W (DResult ExecCommandResult) :=
  let* exec_id := bollard (d_create_exec id command (bool_decide (is_Some stdin))) in
  let* started := bollard (d_start_exec exec_id) in
  let operation := exec_operation exec_id stdin started in
  match timeout_secs with
  | Some secs =>
      r ← on_daemon (d_timeout secs operation);
      mret (default (Err (DmTimeout ("Command timed out after " +:+ Z_to_string secs
                                       +:+ " seconds"))) r)
  | None => on_daemon operation
  end.

Definition exec_container_with_stdin (id : string) (command : list string)
    (stdin : option string) (timeout_secs : option Z) : M W (DResult string) :=
  let* result := exec_container_with_stdin_result id command stdin timeout_secs in
  mret (Ok (exec_output result)).

Definition exec_container (id : string) (command : list string) (timeout_secs : option Z)
    : M W (DResult string) := exec_container_with_stdin id command None timeout_secs.

(** *** HTTP *)

Definition non_empty (ip : option string) : option string :=
  match ip with Some s => if is_empty s then None else Some s | None => None end.

Definition network_ip (networks : list (string * option string)) : option string :=
  let configured :=
    network ← docker_network (docker config);
    snd <$> list_find (λ net, net.1 = network) networks in
  match configured with
  | Some (_, ip) => non_empty ip
  | None => '(_, ip) ← head networks; non_empty ip
  end.

Definition cache_ip (id ip : string) : M W () := λ w,
  ((), mkDockerManager (daemon w) (dm_http_client w) (<[id := ip]> (ip_cache w))).

Definition cached_ip (id : string) : M W (option string) := λ w, (ip_cache w !! id, w).

Definition container_ip (container_id : string) : M W (DResult string) :=
  cached ← cached_ip container_id;
  match cached with
  | Some ip => mret (Ok ip)
  | None =>
      let* inspect :=
        r ← on_daemon (d_inspect_container container_id);
        mret (result_map_err (λ e, DmApi ("Failed to inspect container: " +:+ e)) r) in
      match networks ← in_networks inspect; network_ip networks with
      | Some ip => _ ← cache_ip container_id ip; mret (Ok ip)
      | None => mret (Err (DmApi "Container has no IP address"))
      end
  end.

Definition to_ascii_uppercase_char (c : ascii) : ascii :=
  let n := nat_of_ascii c in
  if bool_decide (97 ≤ n ≤ 122)%nat then ascii_of_nat (n - 32) else c.

Fixpoint to_ascii_uppercase (s : string) : string :=
  match s with
  | "" => ""
  | String c s' => String (to_ascii_uppercase_char c) (to_ascii_uppercase s')
  end.

(** [to_uppercase], as far as a comparison with one of the methods tells: three
    characters outside ASCII have capitals of those letters. *)
Definition method_upper (method : string) : string :=
  to_ascii_uppercase (replace "ſ" "S" (replace "ﬅ" "ST" (replace "ﬆ" "ST" method))).

Definition http_methods : list string := ["GET"; "POST"; "PUT"; "DELETE"].

Definition tool_proxy_error (path : string) (resp : HttpResponse) : DockerManagerError :=
  let error_text := result_unwrap_or "Unknown error" (hr_body resp) in
  let plain := DmApi ("HTTP error " +:+ hr_status_text resp +:+ ": " +:+ error_text) in
  match d_json_from_str error_text with
  | Ok error_json =>
      match v ← json_get "error_code" error_json; json_as_str v with
      | Some _ =>
          let error_msg :=
            default error_text
              (v ← option_or (json_get "detail" error_json) (json_get "message" error_json);
               json_as_str v) in
          DmToolProxy error_msg path
      | None => plain
      end
  | Err _ => plain
  end.

Definition http_answer (path : string) (resp : HttpResponse) : DResult Json :=
  if negb (success (hr_status resp)) then Err (tool_proxy_error path resp)
  else
    result_map_err (λ e, DmApi ("Failed to parse JSON response: " +:+ e)) (d_response_json resp).

Definition the_client : M W (option HttpClientTimeoutConfig) := λ w, (dm_http_client w, w).

Definition send_request (method url : string) (body : option Json) (timeout_secs : option Z)
    : M W (DResult HttpResponse) :=
  let failed r := result_map_err (λ e, DmHttp ("HTTP request failed: " +:+ e)) r in
  client ← the_client;
  let request := d_http_request client method url body in
  match timeout_secs with
  | Some secs =>
      r ← on_daemon (d_timeout secs request);
      mret (match r with
            | Some r => failed r
            | None =>
                Err (DmTimeout ("HTTP request timed out after " +:+ Z_to_string secs
                                  +:+ " seconds"))
            end)
  | None => r ← on_daemon request; mret (failed r)
  end.

(** The request, once there is an address. *)
Definition exec_at (ip path method : string) (body : option Json) (timeout_secs : option Z)
    : M W (DResult Json) :=
  let url := "http://" +:+ ip +:+ ":8080" +:+ path in
  let m := method_upper method in
  if existsb (String.eqb m) http_methods then
    let* resp := send_request m url body timeout_secs in
    mret (http_answer path resp)
  else mret (Err (DmApi ("Unsupported HTTP method: " +:+ method))).

Definition exec_container_http (container_id path method : string) (body : option Json)
    (timeout_secs : option Z) : M W (DResult Json) :=
  let* ip := container_ip container_id in
  exec_at ip path method body timeout_secs.

(** ** Images ([image.rs], [traits.rs]) *)

Definition pull_failed {A} (error : string) : DResult A :=
  Err (DmImageNotFound ("Failed to pull image: " +:+ error)).

Fixpoint pull_loop (stream : list (Result PullInfo string)) : DResult () :=
  match stream with
  | [] => Ok ()
  | Ok progress :: rest =>
      match pi_error progress with Some error => pull_failed error | None => pull_loop rest end
  | Err e :: _ => Err (DmBollard e)
  end.

Definition pull_image (image : string) : M W (DResult ()) :=
  stream ← on_daemon (d_create_image image); mret (pull_loop stream).

(** What the callback is called with: the casts reinterpret. *)
Definition progress_call (progress : PullInfo) : string * option Z * option Z :=
  (default "Pulling..." (pi_status progress),
   option_map u64_wrap (c ← pi_current progress; c),
   option_map u64_wrap (t ← pi_total progress; t)).

Fixpoint pull_progress_loop (stream : list (Result PullInfo string))
    : list (string * option Z * option Z) * DResult () :=
  match stream with
  | [] => ([], Ok ())
  | Ok progress :: rest =>
      match pi_error progress with
      | Some error => ([progress_call progress], pull_failed error)
      | None =>
          let '(calls, r) := pull_progress_loop rest in (progress_call progress :: calls, r)
      end
  | Err e :: _ => ([], Err (DmBollard e))
  end.

Definition pull_image_with_progress (image : string)
    : M W (list (string * option Z * option Z) * DResult ()) :=
  stream ← on_daemon (d_create_image image); mret (pull_progress_loop stream).

Definition image_exists (image : string) : M W (DResult bool) :=
  r ← on_daemon (d_inspect_image image);
  mret (match r with
        | Ok _ => Ok true
        | Err e => if error_is ["no such image"; "not found"] e then Ok false else Err (DmBollard e)
        end).

(** The names in the label, in the order of a hash map, and the older labels. *)
Definition label_features (labels : gmap string string) : list string :=
  match labels !! DSB_FEATURES_LABEL with
  | Some feature_label =>
      match parse_label feature_label with
      | Ok feature_data => (map_to_list (lbl_features feature_data)).*1
      | Err _ => []
      end
  | None => []
  end.

Definition legacy_feature (labels : gmap string string) (name : string) : list string :=
  let has key := bool_decide (is_Some (labels !! key)) in
  if has ("dsb.feature." +:+ name) || has ("com.dsb.feature." +:+ name) then [name] else [].

Definition detect_features_from_labels (labels : option (gmap string string)) : list string :=
  match labels with
  | Some labels =>
      label_features labels ++ legacy_feature labels "vnc" ++ legacy_feature labels "browser"
        ++ legacy_feature labels "desktop"
  | None => []
  end.

Definition image_error {A} (id e : string) : Result A DockerError :=
  Err (if contains "not found" e || contains "No such image" e then DockerImageNotFound id
       else DockerApi e).

(** The time of creation is a text: a time that does not parse is 0. *)
Definition image_details (image : ImageInspect) : ImageDetails :=
  {| imd_id := default "" (ii_id image);
     imd_repo_tags := default [] (ii_repo_tags image);
     imd_size := default 0 (ii_size image);
     imd_virtual_size := default 0 (ii_virtual_size image);
     imd_created := default 0 (c ← ii_created image; rfc3339_timestamp c);
     imd_architecture := default "unknown" (ii_architecture image);
     imd_os := default "unknown" (ii_os image);
     imd_labels := ii_labels image;
     imd_env := ii_env image;
     imd_features := detect_features_from_labels (ii_labels image) |}.

Definition inspect_image (id : string) : M W (Result ImageDetails DockerError) :=
  r ← on_daemon (d_inspect_image id);
  mret (match r with Ok image => Ok (image_details image) | Err e => image_error id e end).

Definition list_images : M W (Result (list ImageSummary) DockerError) :=
  r ← on_daemon d_list_images; mret (result_map_err DockerApi r).

Definition remove_image (id : string) : M W (Result () DockerError) :=
  r ← on_daemon (d_remove_image id);
  mret (match r with Ok _ => Ok () | Err e => image_error id e end).

Definition create_volume (volume_mount : VolumeMount) : Result string DockerError :=
  Ok (match volume_mount with Types.Named name _ _ => name | Types.Bind _ _ _ => "" end).

(** [?] on an error of the manager, in a method of the trait. *)
Definition as_docker {A} (m : M W (DResult A)) : M W (Result A DockerError) :=
  r ← m; mret (result_map_err DockerError_from_manager r).

Fixpoint remove_volumes (volume_mounts : list VolumeMount) : M W (Result () DockerError) :=
  match volume_mounts with
  | [] => mret (Ok ())
  | Types.Named name _ _ :: rest =>
      let* _ := as_docker (remove_volume name) in remove_volumes rest
  | Types.Bind _ _ _ :: rest => remove_volumes rest
  end.

(** ** The backend ([sandbox.rs])

    Some methods go through the trait of the Docker client, and so through its
    error type; the others do not. *)

Definition via_trait {A} (m : M W (Result A DockerError)) : M W (ManagerResult A) :=
  r ← m; mret (result_map_err ManagerError_from_DockerError r).

Definition directly {A} (m : M W (DResult A)) : M W (ManagerResult A) :=
  r ← m; mret (result_map_err ManagerError_from_DockerManagerError r).

Definition list_infos (all : bool) : M W (ManagerResult (list SandboxInfo)) :=
  let* containers := directly (list_containers all) in
  mret (Ok (SandboxInfo_from <$> containers)).

Definition upload_archive (id path tar_data : string) : M W (ManagerResult ()) :=
  r ← on_daemon (d_upload id path tar_data);
  mret (result_map_err (λ e, ManagerOperationFailed ("Upload archive failed: " +:+ e)) r).

(** [None] is the panic of a cut inside a character. *)
Definition get_sandbox_address (id : string) (port : Z) : option (ManagerResult string) :=
  let address short := Some (Ok (short +:+ ":" +:+ Z_to_string port)) in
  if bool_decide (12 < String.length id)%nat then
    match String.get 12 id with
    | Some c => if is_continuation c then None else address (String.substring 0 12 id)
    | None => address id
    end
  else address id.

Definition DockerBackend : SandboxManager W := {|
  bk_create := λ sandbox_id c, via_trait (as_docker (create_container c sandbox_id));
  bk_start := λ id, via_trait (as_docker (start_container id));
  bk_stop := λ id, via_trait (as_docker (stop_container id));
  bk_delete := λ id, via_trait (as_docker (remove_container id));
  bk_stats := λ id, directly (get_container_stats id);
  bk_is_running := λ id, directly (is_container_running id);
  bk_get_exit_info := λ id, directly (get_container_exit_info id);
  bk_list := list_infos;
  bk_remove_volume := λ name, directly (remove_volume name);
  bk_get_image_features := λ image, via_trait (inspect_image image);
  bk_pull_image := λ image, via_trait (as_docker (pull_image image));
  bk_pull_image_with_progress := λ image,
    '(calls, r) ← pull_image_with_progress image;
    mret (calls, result_map_err ManagerError_from_DockerError
                   (result_map_err DockerError_from_manager r));
  bk_image_exists := λ image, via_trait (as_docker (image_exists image));
  bk_exec := λ id cmd, directly (exec_container id cmd None);
  bk_get_workdir := λ id, directly (get_container_workdir id);
  bk_get_sandbox_k8s_status := λ _, mret (Ok None);
  bk_upload_archive := upload_archive;
  bk_exec_http := λ id path method body timeout_secs,
    directly (exec_container_http id path method body timeout_secs);
  bk_exec_with_stdin_result := λ id cmd stdin timeout_secs,
    directly (exec_container_with_stdin_result id cmd stdin timeout_secs);
|}.
End manager.

(** ** The connection ([constructor.rs])

    A build for Linux; what exists in the file system, and the ways to
    connect, are parameters. *)

Class DockerConnect (D : Type) := {
  path_exists : string → bool;
  docker_env : string → option string;
  connect_with_unix : string → Result D string;
  connect_with_http : string → Result D string;
  connect_with_local_defaults : Result D string;
  client_build : HttpClientTimeoutConfig → Result () string;
}.

(** [trim_start_matches] of a text: as often as it is there. *)
Fixpoint trim_prefixes (fuel : nat) (p s : string) : string :=
  match fuel with
  | O => s
  | S fuel' => match strip_prefix p s with Some s' => trim_prefixes fuel' p s' | None => s end
  end.

Definition trim_start_matches_str (p s : string) : string := trim_prefixes (String.length s) p s.

Definition container_socket : string := "/var/run/docker.sock".

Section connect.
Context {D : Type} `{DockerConnect D}.
Context (config : Config).

Definition build_http_client : DResult HttpClientTimeoutConfig :=
  let timeouts := http_client (docker config) in
  let? _ := result_map_err (λ e, DmHttp ("Failed to create HTTP client: " +:+ e))
              (client_build timeouts) in
  Ok timeouts.

Definition connected (docker : Result D string) : DResult (DockerManager D) :=
  let? d := result_map_err DmBollard docker in
  let? client := build_http_client in
  Ok (mkDockerManager d (Some client) ∅).

(** The client of the default connection is built without the timeouts. *)
Definition default_connection : DResult (DockerManager D) :=
  let? d := result_map_err DmBollard connect_with_local_defaults in
  Ok (mkDockerManager d None ∅).

Definition connect_to (host : string) : DResult (DockerManager D) :=
  if starts_with "unix://" host then
    let socket_path := trim_start_matches_str "unix://" host in
    if path_exists socket_path then connected (connect_with_unix socket_path)
    else default_connection
  else if starts_with "tcp://" host then
    connected (connect_with_http (trim_start_matches_str "tcp://" host))
  else if starts_with "http://" host || starts_with "https://" host then
    connected (connect_with_http (String.substring 7 (String.length host - 7) host))
  else if path_exists host then connected (connect_with_unix host)
  else default_connection.

Definition new_with_config : DResult (DockerManager D) :=
  if path_exists container_socket then connected (connect_with_unix container_socket)
  else
    match option_or (docker_host (docker config)) (docker_env "DOCKER_HOST") with
    | Some host => connect_to host
    | None => default_connection
    end.
End connect.

(** ** Theorems *)

(** *** What is asked for *)

Lemma bindings_kept ms acc key :
  Forall (λ m, port_key m ≠ key) ms → fold_left add_binding ms acc !! key = acc !! key.
Proof.
  intros Hms. revert acc. induction Hms as [|m ms Hm _ IH]; intros acc; [done|]. cbn [fold_left].
  rewrite IH. unfold add_binding. by rewrite lookup_insert_ne.
Qed.

Lemma bindings_asked ms acc key :
  is_Some (fold_left add_binding ms acc !! key) →
  is_Some (acc !! key) ∨ ∃ m, m ∈ ms ∧ port_key m = key.
Proof.
  revert acc. induction ms as [|m ms IH]; intros acc Hk; [by left|]. cbn [fold_left] in Hk.
  destruct (IH _ Hk) as [Ha|(m' & Hin & Hm')]; [|right; exists m'; split; [by right|done]].
  unfold add_binding in Ha. destruct (decide (port_key m = key)) as [Hm|Hne].
  - right. exists m. split; [by left|done].
  - left. by rewrite lookup_insert_ne in Ha.
Qed.

Lemma memory_bytes_exact m : 0 ≤ m < 2 ^ 43 → memory_bytes m = m * 1024 * 1024.
Proof.
  intros Hm. unfold memory_bytes.
  rewrite (u64_wrap_id (m * 1024)) by (unfold is_u64; lia).
  rewrite u64_wrap_id by (unfold is_u64; lia). apply i64_wrap_id. unfold is_i64. lia.
Qed.

(** The container that is asked for.  The request's variables win over the proxy
    settings, and the container gets exactly those; of two mappings of a port of
    the container, the later one is bound; memory is in bytes below 2^43 MB, past
    which it wraps, 2^44 MB being no memory limit at all; without features the
    image's entry point is cleared, so that the requested command is run, or one
    that keeps the container alive, and with features both are left to the image
    unless a command is requested; all requested volumes are bound, first. *)
Theorem container_body_spec proxy (c : SandboxConfig) binds :
  let body := container_body proxy c binds in
  let host := cc_host_config body in
  (∀ s, s ∈ default [] (cc_env body) ↔
     ∃ k v, s = k +:+ "=" +:+ v ∧
       (cfg_environment c !! k = Some v ∨ cfg_environment c !! k = None ∧ proxy !! k = Some v)) ∧
  (∀ before m after, cfg_port_mappings c = before ++ m :: after →
     Forall (λ m', port_key m' ≠ port_key m) after →
     hc_port_bindings host !! port_key m
     = Some [mkPortBinding "0.0.0.0" (Z_to_string (host_port m))]) ∧
  (∀ key, is_Some (hc_port_bindings host !! key) → ∃ m, m ∈ cfg_port_mappings c ∧ port_key m = key) ∧
  (∀ m, memory_mb (cfg_resource_limits c) = Some m → 0 ≤ m < 2 ^ 43 →
     hc_memory host = Some (m * 1024 * 1024)) ∧
  (memory_mb (cfg_resource_limits c) = Some (2 ^ 44) → hc_memory host = Some 0) ∧
  (has_features c = false → cc_entrypoint body = Some [] ∧
     cc_cmd body = Some (default ["tail"; "-f"; "/dev/null"] (cfg_command c))) ∧
  (has_features c = true → cc_entrypoint body = None ∧ cc_cmd body = cfg_command c) ∧
  default [] (hc_binds host) = binds.
Proof.
  cbv zeta. cbn [container_body cc_env cc_host_config cc_entrypoint cc_cmd host_config
    hc_port_bindings hc_memory hc_binds]. split_and!.
  - intros s. transitivity (s ∈ env_list (merge_sandbox_environment c proxy)).
    { unfold none_if_empty. by destruct (env_list _). }
    unfold env_list, merge_sandbox_environment. rewrite list_elem_of_fmap. split.
    + intros ([k v] & -> & Hin%elem_of_map_to_list). exists k, v. split; [done|].
      by apply lookup_union_Some_raw.
    + intros (k & v & -> & Hin). exists (k, v). split; [done|]. apply elem_of_map_to_list.
      by apply lookup_union_Some_raw.
  - intros before m after -> Hafter. unfold port_bindings. rewrite fold_left_app. cbn [fold_left].
    rewrite bindings_kept by done. unfold add_binding. by rewrite lookup_insert_eq.
  - intros key [[? ?]|?]%bindings_asked; [by rewrite lookup_empty in *|done].
  - intros m Hm Hr. rewrite Hm. simpl. by rewrite memory_bytes_exact.
  - intros ->. vm_compute. done.
  - intros Hf. unfold container_cmd. rewrite Hf. by destruct (cfg_command c).
  - intros Hf. unfold container_cmd. rewrite Hf. by destruct (cfg_command c).
  - unfold none_if_empty. by destruct binds.
Qed.

Section manager_spec.
Context {D : Type} `{DockerClient D} `{UuidLib} `{LabelParser}.
Context (config : Config).
#[local] Abbreviation W := (DockerManager D).

(** *** Removal *)

Lemma wp_on_daemon {A} (m : M D A) (Q : A → W → Prop) w :
  Q (run_val m (daemon w))
    (mkDockerManager (run_st m (daemon w)) (dm_http_client w) (ip_cache w)) →
  wp (on_daemon m) Q w.
Proof.
  unfold wp, on_daemon, run_val, run_st. by destruct (m (daemon w)).
Qed.

(** What a removal leaves: the cache without the address when it says so, and
    something that the daemon's errors vouch for; [calls] counts requests. *)
Section removal.
Context (id : string) (gone : D → Prop) (calls : D → Z).

Record Vouched : Prop := {
  inspect_vouches d : is_ok (run_val (d_inspect_container id) d) = false →
    gone (run_st (d_inspect_container id) d);
  remove_vouches d e : run_val (d_remove_container id) d = Err e → is_gone e = true →
    gone (run_st (d_remove_container id) d);
  remove_counts d : calls (run_st (d_remove_container id) d) = calls d + 1;
  inspect_counts d : calls (run_st (d_inspect_container id) d) = calls d;
  sleep_counts ms d : calls (run_st (d_sleep_ms ms) d) = calls d;
}.

Definition removal_post (n : Z) (w : W) (r : DResult ()) (w' : W) : Prop :=
  dm_http_client w' = dm_http_client w ∧ calls (daemon w') ≤ calls (daemon w) + n ∧
  match r with
  | Ok _ => gone (daemon w') ∧ ip_cache w' = base.delete id (ip_cache w)
  | Err _ => ip_cache w' = ip_cache w
  end.

Lemma wp_evict n (w w1 : W) :
  dm_http_client w1 = dm_http_client w → ip_cache w1 = ip_cache w →
  calls (daemon w1) ≤ calls (daemon w) + n → gone (daemon w1) →
  wp (_ ← evict id; mret (Ok ())) (removal_post n w) w1.
Proof. intros Hh Hi Hc Hg. apply wp_bind. by split_and!; simpl; [..|rewrite Hi]. Qed.

Lemma wp_remove_attempts (HV : Vouched) attempts last (w : W) :
  wp (remove_attempts id attempts last) (removal_post (Z.of_nat (length attempts)) w) w.
Proof.
  revert last w. induction attempts as [|attempt rest IH]; intros last w; cbn [remove_attempts].
  { apply wp_ret. split_and!; simpl; [done|lia|done]. }
  assert (∀ last w1, calls (daemon w1) = calls (daemon w) + 1 → dm_http_client w1 = dm_http_client w →
    ip_cache w1 = ip_cache w →
    wp (remove_attempts id rest last) (removal_post (Z.of_nat (length (attempt :: rest))) w) w1) as Hrest.
  { intros last' w1 Hc Hh Hi. eapply wp_mono; [apply IH|]. intros r w2 (Hh2 & Hc2 & Hr).
    split_and!; [congruence|simpl length; lia|]. destruct r; [|congruence].
    destruct Hr as [? ->]. split; [done|congruence]. }
  apply wp_bind, wp_on_daemon.
  pose proof (remove_counts HV (daemon w)) as Hc1.
  destruct (run_val (d_remove_container id) (daemon w)) as [[]|e] eqn:Hr.
  - apply wp_bind, wp_bind, wp_on_daemon. cbn [daemon ip_cache dm_http_client].
    pose proof (inspect_counts HV (run_st (d_remove_container id) (daemon w))) as Hc2.
    pose proof (inspect_vouches HV (run_st (d_remove_container id) (daemon w))) as Hv.
    apply wp_ret. destruct (run_val (d_inspect_container id) _) as [i|e] eqn:Hi.
    + apply Hrest; [simpl; lia|done|done].
    + destruct (error_is _ e); apply wp_evict; simpl; [done|done|lia|by apply Hv|done|done|lia|by apply Hv].
  - destruct (is_gone e) eqn:Hg.
    + apply wp_evict; simpl; [done|done|lia|by eapply remove_vouches].
    + apply wp_bind. case_bool_decide.
      * apply wp_on_daemon. apply Hrest; simpl; [rewrite sleep_counts by done; lia|done|done].
      * apply wp_ret. apply Hrest; simpl; [lia|done|done].
Qed.
End removal.

Lemma is_gone_404 id e : contains "404" id = true → contains id e = true → is_gone e = true.
Proof.
  intros (a & b & ->)%contains_spec (x & y & ->)%contains_spec. unfold is_gone, error_is.
  apply existsb_exists. exists "404". split; [by do 2 right; left|]. apply contains_spec.
  exists (to_ascii_lowercase (x +:+ a)), (to_ascii_lowercase (b +:+ y)).
  rewrite !lowercase_app. change (to_ascii_lowercase "404") with "404".
  by rewrite <-!string_app_assoc.
Qed.

(** Removing a container.  A success means what the daemon's errors vouch for:
    that it has no such container, or that an inspection after a removal failed;
    then the address is forgotten, and otherwise it is kept.  There are at most
    three requests.  An error is taken to mean that the container is gone
    whenever the number 404 is anywhere in it, so that about one
    container in sixty, the digits being in its identifier, is taken to be removed whatever the
    error, as soon as the error names it. *)
Theorem remove_container_spec id gone calls (HV : Vouched id gone calls) (w : W) :
  wp (remove_container id) (removal_post id gone calls 3 w) w ∧
  (∀ e, contains "404" id = true → contains id e = true →
     run_val (d_remove_container id) (daemon w) = Err e →
     run_val (remove_container id) w = Ok () ∧
     calls (daemon (run_st (remove_container id) w)) = calls (daemon w) + 1 ∧
     run_val (is_container_running id) w
     = match run_val (d_inspect_container id) (daemon w) with
       | Ok i => Ok (default false (s ← in_state i; ds_running s))
       | Err e' => if contains id e' then Ok false else run_val (is_container_running id) w
       end).
Proof.
  split; [by apply wp_remove_attempts|]. intros e Hid He Hr.
  pose proof (is_gone_404 _ _ Hid He) as Hg.
  pose proof (remove_counts _ _ _ HV (daemon w)) as Hc.
  assert (remove_container id w = (Ok (), mkDockerManager (run_st (d_remove_container id) (daemon w))
    (dm_http_client w) (base.delete id (ip_cache w)))) as Hrun.
  { unfold remove_container. cbn [remove_attempts]. unfold run_val, run_st in *.
    rewrite M_bind_unfold. unfold on_daemon. destruct (d_remove_container id (daemon w)) as [r d].
    simpl in Hr |- *. rewrite Hr, Hg. done. }
  unfold run_val at 1, run_st at 1. rewrite Hrun. simpl. split_and!; [done|done|].
  destruct (run_val (d_inspect_container id) (daemon w)) as [i|e'] eqn:Hi.
  - unfold is_container_running, on_daemon, run_val in *. rewrite M_bind_unfold.
    destruct (d_inspect_container id (daemon w)) as [r d]. simpl in *. rewrite Hi.
    by destruct (in_state i).
  - destruct (contains id e') eqn:He'; [|done]. pose proof (is_gone_404 _ _ Hid He') as Hg'.
    unfold is_container_running, on_daemon, run_val in *. rewrite M_bind_unfold.
    destruct (d_inspect_container id (daemon w)) as [r d]. simpl in *. by rewrite Hi, Hg'.
Qed.

(** *** The cache of addresses *)

Lemma wp_exec_at ip path method body t (w : W) :
  wp (exec_at ip path method body t) (λ _ w', ip_cache w' = ip_cache w) w.
Proof.
  unfold exec_at. destruct (existsb _ _); [|by apply wp_ret]. apply wp_try. unfold send_request.
  apply wp_bind. unfold wp at 1. cbn [the_client run_val run_st fst snd].
  destruct t; apply wp_bind, wp_on_daemon, wp_ret; [destruct (run_val _ _) as [[]|]|destruct (run_val _ _)];
    done.
Qed.

Lemma network_ip_found nets ip :
  network_ip config nets = Some ip → ip ≠ "" ∧ ∃ name, (name, Some ip) ∈ nets.
Proof.
  assert (∀ o, non_empty o = Some ip → ip ≠ "" ∧ o = Some ip) as Hne.
  { intros [[|c s]|]; simpl; try done. by intros [= <-]. }
  unfold network_ip.
  destruct (network ← docker_network (docker config); _) as [[name o]|] eqn:Hn; cbn.
  - intros [? ->]%Hne. split; [done|]. exists name.
    destruct (docker_network (docker config)) as [network|]; [|done]. cbn in Hn.
    destruct (list_find _ nets) as [[i net]|] eqn:Hf; [|done]. cbn in Hn. injection Hn as ->.
    apply list_find_Some in Hf as (Hl & _). by eapply list_elem_of_lookup_2.
  - destruct nets as [|[name o] nets]; [done|]. cbn. intros [? ->]%Hne. split; [done|].
    exists name. by left.
Qed.

(** An address that an inspection gives. *)
Definition inspected_ip (id ip : string) (d : D) : Prop :=
  ip ≠ "" ∧ ∃ i nets name, run_val (d_inspect_container id) d = Ok i ∧
    in_networks i = Some nets ∧ (name, Some ip) ∈ nets.

Lemma wp_container_ip id (w : W) :
  ip_cache w !! id = None →
  wp (container_ip config id) (λ r w',
    match r with
    | Ok ip => ip_cache w' = <[id := ip]> (ip_cache w) ∧ inspected_ip id ip (daemon w)
    | Err _ => ip_cache w' = ip_cache w
    end) w.
Proof.
  intros Hnone. apply wp_bind. unfold wp at 1, cached_ip, run_val at 1, run_st at 1. simpl.
  rewrite Hnone. apply wp_try, wp_bind, wp_on_daemon, wp_ret.
  destruct (run_val (d_inspect_container id) (daemon w)) as [i|e] eqn:Hi; [|done].
  cbn [result_map_err]. destruct (in_networks i) as [nets|] eqn:Hn; cbn; [|done].
  destruct (network_ip config nets) as [ip|] eqn:Hip; [|done].
  apply network_ip_found in Hip as (Hne & name & Hin). cbn. split; [done|].
  split; [done|]. by exists i, nets, name.
Qed.

(** The address of a container is looked up once.  As long as it is in the cache
    the daemon is not asked: requests after a stop and a start still go to the
    address of before, which the daemon may have given to another container.  An
    address that is learned is not empty, and is one of those of an inspection;
    the addresses of other containers stay. *)
Theorem address_cache_spec id path method body t (w : W) :
  let request := exec_container_http config id path method body t in
  (∀ ip, ip_cache w !! id = Some ip →
     request w = exec_at ip path method body t w ∧
     let w2 := run_st (start_container id) (run_st (stop_container id) w) in
     request w2 = exec_at ip path method body t w2) ∧
  (ip_cache w !! id = None →
     match ip_cache (run_st request w) !! id with
     | Some ip => inspected_ip id ip (daemon w)
     | None => is_ok (run_val request w) = false
     end) ∧
  (∀ id', id' ≠ id → ip_cache (run_st request w) !! id' = ip_cache w !! id').
Proof.
  cbv zeta.
  assert (∀ ip (w : W), ip_cache w !! id = Some ip →
    exec_container_http config id path method body t w = exec_at ip path method body t w) as Hhit.
  { intros ip w0 Hip. unfold exec_container_http, try_, container_ip. rewrite !M_bind_unfold.
    unfold cached_ip. simpl. by rewrite Hip. }
  split_and!.
  - intros ip Hip. split; [by apply Hhit|]. apply Hhit. rewrite <-Hip.
    unfold start_container, stop_container, bollard, on_daemon, run_st. rewrite !M_bind_unfold.
    destruct (d_stop_container id 10 (daemon w)). simpl.
    by destruct (d_start_container id _).
  - intros Hnone.
    assert (wp (exec_container_http config id path method body t) (λ r w',
      match ip_cache w' !! id with
      | Some ip => inspected_ip id ip (daemon w) | None => is_ok r = false end) w) as Hwp; [|exact Hwp].
    apply wp_try. eapply wp_mono; [by apply wp_container_ip|]. intros [ip|e] w1; cbv beta iota.
    + intros [Hc Hi]. eapply wp_mono; [apply wp_exec_at|]. intros r w2 ->.
      by rewrite Hc, lookup_insert_eq.
    + intros ->. by rewrite Hnone.
  - intros id' Hne.
    assert (wp (exec_container_http config id path method body t) (λ _ w',
      ip_cache w' !! id' = ip_cache w !! id') w) as Hwp; [|exact Hwp].
    destruct (ip_cache w !! id) as [ip|] eqn:Hip.
    + unfold wp, run_st. rewrite (Hhit _ _ Hip).
      pose proof (wp_exec_at ip path method body t w) as Hc. unfold wp, run_st in Hc. by rewrite Hc.
    + apply wp_try. eapply wp_mono; [by apply wp_container_ip|]. intros [ip|e] w1; cbv beta iota.
      * intros [Hc _]. eapply wp_mono; [apply wp_exec_at|]. intros r w2 ->.
        by rewrite Hc, lookup_insert_ne.
      * by intros ->.
Qed.

(** *** Pulling images *)

(** What the two ways of pulling do with a stream. *)
Lemma pull_loops stream :
  (pull_progress_loop stream).2 = pull_loop stream ∧
  ∃ seen rest, stream = (Ok <$> seen) ++ rest ∧
    (pull_progress_loop stream).1 = progress_call <$> seen ∧
    match pull_loop stream with
    | Ok _ => rest = [] ∧ Forall (λ p, pi_error p = None) seen
    | Err e =>
        (∃ text rest', rest = Err text :: rest' ∧ e = DmBollard text ∧
           Forall (λ p, pi_error p = None) seen) ∨
        (∃ before p text, seen = before ++ [p] ∧ Forall (λ p, pi_error p = None) before ∧
           pi_error p = Some text ∧ e = DmImageNotFound ("Failed to pull image: " +:+ text))
    end.
Proof.
  induction stream as [|[p|text] stream (IH & seen & rest & -> & Hcalls & Hr)]; simpl.
  - split; [done|]. by exists [], [].
  - destruct (pi_error p) as [text|] eqn:Hp.
    + split; [done|]. exists [p], ((Ok <$> seen) ++ rest). split_and!; [done|done|]. right.
      by exists [], p, text.
    + destruct (pull_progress_loop _) as [calls r]. simpl in *. split; [done|].
      exists (p :: seen), rest. split_and!; [done|by rewrite Hcalls|].
      destruct (pull_loop _) as [?|e]; [destruct Hr; split; [done|by constructor]|].
      destruct Hr as [(text & rest' & ? & ? & ?)|(before & p' & text & -> & ? & ? & ?)].
      * left. exists text, rest'. split_and!; [done..|by constructor].
      * right. exists (p :: before), p', text. split_and!; [done|by constructor|done|done].
  - split; [done|]. exists [], (Err text :: (Ok <$> seen) ++ rest). split_and!; [done|done|]. left.
    by exists text, ((Ok <$> seen) ++ rest).
Qed.

(** Pulling an image, with and without a callback, ends the same way and asks
    the same of the daemon.  The callback is called for every step up to the one
    that tells of an error, with the statuses and the byte counts of the steps,
    a negative count being read as a huge one; the pull succeeds exactly when the
    stream ends without an error. *)
Theorem pulls_agree image (w : W) :
  let '((calls, r), w') := pull_image_with_progress image w in
  pull_image image w = (r, w') ∧
  ∃ seen rest, run_val (d_create_image image) (daemon w) = (Ok <$> seen) ++ rest ∧
    calls = progress_call <$> seen ∧
    (r = Ok () ↔ rest = [] ∧ Forall (λ p, pi_error p = None) seen).
Proof.
  unfold pull_image_with_progress, pull_image. rewrite !M_bind_unfold.
  unfold on_daemon, run_val. destruct (d_create_image image (daemon w)) as [stream d]. simpl.
  destruct (pull_loops stream) as (Heq & seen & rest & Hs & Hcalls & Hr).
  destruct (pull_progress_loop stream) as [calls r]. simpl in *. subst r calls.
  split; [done|]. exists seen, rest. split_and!; [done|done|].
  destruct (pull_loop stream) as [[]|e]; [by split|]. split; [done|]. intros [-> Hall].
  destruct Hr as [(? & ? & ? & _)|(before & p & text & -> & _ & Hp & _)]; [done|].
  apply Forall_app in Hall as [_ Hall%Forall_inv]. congruence.
Qed.
End manager_spec.

(** *** The connection *)

Section connect_spec.
Context {D : Type} `{DockerConnect D}.
Context (config : Config).

Lemma trim_prefixes_none fuel p s : strip_prefix p s = None → trim_prefixes fuel p s = s.
Proof. intros Hp. destruct fuel; [done|]. cbn [trim_prefixes]. by rewrite Hp. Qed.

(** How the daemon is reached.  The socket of a container comes before the
    configuration, and that before the environment.  The address of an [http://]
    host is what follows; that of an [https://] host is cut at the same place, so
    that it begins with a slash, and the connection is not encrypted.  Whenever a
    connection is made otherwise than by default, the HTTP client has the
    timeouts of the configuration; by default it has none. *)
Theorem connection_spec rest :
  (path_exists container_socket = true →
     new_with_config config = connected config (connect_with_unix container_socket)) ∧
  (∀ host, path_exists container_socket = false → docker_host (docker config) = Some host →
     new_with_config config = connect_to config host) ∧
  connect_to config ("http://" +:+ rest) = connected config (connect_with_http rest) ∧
  connect_to config ("https://" +:+ rest) = connected config (connect_with_http ("/" +:+ rest)) ∧
  (strip_prefix "tcp://" rest = None →
     connect_to config ("tcp://" +:+ rest) = connected config (connect_with_http rest)) ∧
  (∀ host m, connect_to config host = Ok m →
     ip_cache m = ∅ ∧
     (dm_http_client m = Some (http_client (docker config)) ∨
      dm_http_client m = None ∧ connect_with_local_defaults = Ok (daemon m))).
Proof.
  assert (∀ s, String.substring 0 (String.length s) s = s) as Hsub.
  { induction s as [|a s IH]; [done|]. simpl. by rewrite IH. }
  assert (∀ o m, connected config o = Ok m →
    ip_cache m = ∅ ∧ dm_http_client m = Some (http_client (docker config))) as Hconn.
  { intros o m. unfold connected, build_http_client. destruct o as [d|]; [|done]. simpl.
    destruct (client_build _); simpl; [|done]. by intros [= <-]. }
  assert (∀ m, default_connection = Ok m →
    ip_cache m = ∅ ∧ dm_http_client m = None ∧ connect_with_local_defaults = Ok (daemon m)) as Hdef.
  { intros m. unfold default_connection. destruct connect_with_local_defaults; [|done].
    by intros [= <-]. }
  split_and!.
  - intros Hs. unfold new_with_config. by rewrite Hs.
  - intros host Hs Hh. unfold new_with_config. by rewrite Hs, Hh.
  - unfold connect_to. cbn. by rewrite Nat.sub_0_r, Hsub.
  - unfold connect_to. cbn. by rewrite Hsub.
  - intros Hr.
    assert (trim_start_matches_str "tcp://" ("tcp://" +:+ rest) = rest) as Ht.
    { exact (trim_prefixes_none (5 + String.length rest) _ _ Hr). }
    unfold connect_to. rewrite Ht. done.
  - intros host m. unfold connect_to.
    repeat match goal with |- context [if ?b then _ else _] => destruct b end;
      (intros [? ?]%Hconn || intros (? & ? & ?)%Hdef); auto.
Qed.
End connect_spec.

(** ** Witnesses: a daemon with one container *)

Module DockerDemo.
Record DemoDaemon : Type := mkDemo {
  there : option string;
  demo_ip : string;
  removals : Z;
  refuses : option string;
}.

Definition inspect0 (d : DemoDaemon) : Inspect :=
  mkInspect (Some (mkDockerState (Some true) None None)) None
    (Some [("bridge", Some (demo_ip d))]).

Definition refuse {X} : M DemoDaemon (Result X string) := mret (Err "not supported").

#[export] Instance client : DockerClient DemoDaemon := {|
  d_create_container := λ _ _, refuse;
  d_connect_network := λ _ _ _, refuse;
  d_start_container := λ _ d, (Ok (), mkDemo (there d) "172.17.0.9" (removals d) (refuses d));
  d_stop_container := λ _ _, mret (Ok ());
  d_remove_container := λ id d,
    match refuses d with
    | Some e => (Err e, mkDemo (there d) (demo_ip d) (removals d + 1) (refuses d))
    | None =>
        (if bool_decide (there d = Some id) then Ok () else Err ("No such container: " +:+ id),
         mkDemo (if bool_decide (there d = Some id) then None else there d) (demo_ip d)
           (removals d + 1) None)
    end;
  d_inspect_container := λ id d,
    (if bool_decide (there d = Some id) then Ok (inspect0 d) else Err ("No such container: " +:+ id), d);
  d_list_containers := λ _, refuse;
  d_stats := λ _, mret None;
  d_remove_volume := λ _, refuse;
  d_inspect_image := λ _, refuse;
  d_create_image := λ _, mret [];
  d_list_images := refuse;
  d_remove_image := λ _, refuse;
  DProcess := ();
  d_create_exec := λ _ _ _, refuse;
  d_start_exec := λ _, refuse;
  d_write_all := λ _ _, refuse;
  d_shutdown := λ _, refuse;
  d_output := λ _, mret [];
  d_inspect_exec := λ _, refuse;
  d_upload := λ _ _ _, refuse;
  d_http_request := λ _ _ url _, mret (Ok (mkHttpResponse 200 url (Ok "")));
  d_response_json := λ resp, Ok (JString (hr_status_text resp));
  d_timeout := λ X _ m, r ← m; mret (Some r);
  d_json_from_str := λ _, Err "not JSON";
  from_utf8_lossy := λ s, s;
  fs_create_dir_all := λ _, refuse;
  fs_set_permissions := λ _ _, refuse;
  fs_chown := λ _ _ _, mret 0;
  d_sleep_ms := λ _, mret ();
  d_utc_now := mret 0;
  env_var := λ _, None;
  rfc3339_timestamp := λ _, None;
|}.

#[export] Instance connect : DockerConnect DemoDaemon := {|
  path_exists := λ _, false;
  docker_env := λ _, None;
  connect_with_unix := λ _, Err "no socket";
  connect_with_http := λ host, Ok (mkDemo None host 0 None);
  connect_with_local_defaults := Err "no daemon";
  client_build := λ _, Ok ();
|}.

Definition manager (d : DemoDaemon) (cache : gmap string string) : DockerManager DemoDaemon :=
  mkDockerManager d None cache.

Definition idle : DemoDaemon := mkDemo (Some "c1") "172.17.0.2" 0 None.
Definition busy : DemoDaemon :=
  mkDemo (Some "c404") "172.17.0.2" 0 (Some "Conflict: removal of container c404 is in progress").

Lemma vouched id : Vouched id (λ d, there d ≠ Some id ∨ is_Some (refuses d)) removals.
Proof.
  split; [intros d|intros d e|intros d|done|done]; unfold run_val, run_st; simpl.
  - case_bool_decide; [done|by left].
  - destruct (refuses d); simpl; [by right|]. case_bool_decide; [done|by left].
  - by destruct (refuses d).
Qed.
End DockerDemo.

Module Witnesses.
Import DockerDemo.

Lemma remove_container_spec_witness :
  removal_post "c1" (λ d, there d ≠ Some "c1" ∨ is_Some (refuses d)) removals 3
    (manager idle {["c1" := "172.17.0.2"]})
    (run_val (remove_container "c1") (manager idle {["c1" := "172.17.0.2"]}))
    (run_st (remove_container "c1") (manager idle {["c1" := "172.17.0.2"]})) ∧
  run_val (remove_container "c404") (manager busy ∅) = Ok () ∧
  there (daemon (run_st (remove_container "c404") (manager busy ∅))) = Some "c404".
Proof.
  split.
  - apply (remove_container_spec "c1" _ _ (vouched "c1") (manager idle {["c1" := "172.17.0.2"]})).
  - destruct (remove_container_spec "c404" _ _ (vouched "c404") (manager busy ∅)) as [_ H404].
    split; [|reflexivity].
    apply (H404 "Conflict: removal of container c404 is in progress"); reflexivity.
Defined.

(** The container is given another address when it is started again, and is
    still asked at the one before. *)
Lemma address_cache_spec_witness :
  let w := manager idle {["c1" := "172.17.0.2"]} in
  let w2 := run_st (start_container "c1") (run_st (stop_container "c1") w) in
  demo_ip (daemon w2) = "172.17.0.9" ∧
  run_val (exec_container_http Config_default "c1" "/health" "get" None None) w2
  = Ok (JString "http://172.17.0.2:8080/health").
Proof.
  split; [reflexivity|].
  destruct (address_cache_spec Config_default "c1" "/health" "get" None None
              (manager idle {["c1" := "172.17.0.2"]})) as (Hhit & _ & _).
  destruct (Hhit "172.17.0.2" ltac:(reflexivity)) as [_ H2]. unfold run_val. rewrite H2.
  reflexivity.
Defined.
End Witnesses.
