(* ===== verification/SandboxApi.v ===== *)
(** * SandboxApi: the HTTP handlers of sandboxes

    Models [src/api/handlers/sandbox.rs] but for the file transfer (see
    [Files]): what each handler checks, which operations of the service it runs
    and what it answers.  Routing, the extraction of parameters and the
    rendering of a reply belong to the web framework; a [Reply] is what the
    handler hands over to it. *)

From S2P Require Import Prelude Text Errors Types Store Features World Demo Service Ops Create.

(** ** Requests *)

Record ExecSandboxRequest : Type := mkExecSandboxRequest {
  es_command : list string;
  es_stdin : option string;
  es_working_dir : option string;
  es_environment : option (gmap string string);
  es_timeout : option Z;
}.

Record ToolExecutionRequest : Type := mkToolExecutionRequest {
  te_interpreter : string;
  te_script_path : string;
  te_action : string;
  te_args : option Json;
  te_timeout : option Z;
  te_environment : option (gmap string string);
}.

Record ListSandboxesQuery : Type := mkListSandboxesQuery {
  ls_include_deleted : bool;
  ls_state : option string;
  ls_image : option string;
  ls_created_after : option DateTime;
  ls_created_before : option DateTime;
  ls_page : option Z;
  ls_per_page : option Z;
}.

(** The ["pagination"] object of a listing. *)
Record Pagination : Type := mkPagination {
  pg_page : Z;
  pg_per_page : Z;
  pg_total : Z;
  pg_total_pages : Z;
  pg_has_next : bool;
  pg_has_prev : bool;
}.

Inductive Reply : Type :=
  | ReplyText (status : Z) (text : string)
  | ReplyJson (status : Z) (body : Json)
  | ReplyApiError (e : ApiError)
  | ReplyNoContent
  | ReplySandbox (status : Z) (body : SandboxResponse)
  | ReplyExec (body : ExecCommandResult)
  | ReplyStats (body : ContainerStats)
  | ReplyListing (data : list SandboxResponse) (pagination : Pagination)
  | ReplyEvents.

Definition reply_status (r : Reply) : Z :=
  match r with
  | ReplyText status _ | ReplyJson status _ | ReplySandbox status _ => status
  | ReplyApiError e => http_status (ApiError_error_code e)
  | ReplyNoContent => 204
  | ReplyExec _ | ReplyStats _ | ReplyListing _ _ | ReplyEvents => 200
  end.

(** ** Pure parts *)

(** The configuration that a creation request asks for. *)
Definition request_config (req : CreateSandboxRequest) : SandboxConfig :=
  {| cfg_image := req_image req;
     cfg_name := req_name req;
     cfg_environment := default ∅ (req_environment req);
     cfg_port_mappings := default [] (req_port_mappings req);
     cfg_exposed_ports := [];
     cfg_resource_limits := default ResourceLimits_default (req_resource_limits req);
     cfg_volumes := default [] (req_volumes req);
     cfg_command := req_command req;
     cfg_inactivity_timeout_minutes := req_inactivity_timeout_minutes req;
     cfg_pull_policy := req_pull_policy req;
     cfg_features := req_features req;
     cfg_enable_all_features := req_enable_all_features req;
     cfg_vnc_resolution := req_vnc_resolution req |}.

Definition sandbox_reply (status : Z) (kubernetes : option KubernetesInfo) (sandbox : Sandbox)
    : Reply :=
  let r := SandboxResponse_from sandbox in
  ReplySandbox status
    {| resp_id := resp_id r; resp_state := resp_state r; resp_config := resp_config r;
       resp_container_id := resp_container_id r; resp_created_at := resp_created_at r;
       resp_updated_at := resp_updated_at r; resp_deleted_at := resp_deleted_at r;
       resp_deleted_by := resp_deleted_by r; resp_api_key_id := resp_api_key_id r;
       resp_kubernetes := kubernetes |}.

Definition wrap_shell_command (command : list string) : list string :=
  match command with
  | a :: b :: _ =>
      if String.eqb a "sh" && String.eqb b "-c" then command
      else ["sh"; "-c"; join " " command]
  | _ => ["sh"; "-c"; join " " command]
  end.

Definition not_found : Reply := ReplyText 404 "Sandbox not found".

Definition error_body (message : string) : Json := JObject [("error", JString message)].

Definition delete_failure (e : BoxError) : Reply :=
  if contains "not found" (BoxError_to_string e) then not_found
  else ReplyText 500 "Failed to delete sandbox".

(** The lower-casing is [to_lowercase]; none of the letters that the two
    phrases are made of is the lower case of a character outside ASCII, so
    that of ASCII finds the same. *)
Definition restore_failure (e : BoxError) : Reply :=
  let error_msg := BoxError_to_string e in
  let error_msg_lower := to_ascii_lowercase error_msg in
  if contains "not found" error_msg_lower then
    ReplyJson 404 (error_body "Sandbox not found or cannot be restored")
  else if contains "not deleted" error_msg_lower then
    ReplyJson 400 (error_body "Sandbox is not deleted and cannot be restored")
  else ReplyJson 500 (error_body ("Failed to restore sandbox: " +:+ error_msg)).

(** The error of a tool call: the service boxes texts and [ManagerError]s, so
    that the downcast to a [DockerError] finds none, and the text decides. *)
Definition tool_failure (e : BoxError) : Reply :=
  let error_str := BoxError_to_string e in
  match split_once colon error_str with
  | Some (error_code, error_msg) =>
      ReplyApiError
        (if String.eqb error_code "VALIDATION_ERROR" then
           ApiValidation error_msg None ValidationError
         else if String.eqb error_code "NOT_FOUND" then ApiSandboxNotFound error_msg
         else if String.eqb error_code "INVALID_STATE" then
           ApiValidation error_msg None SandboxInvalidState
         else ApiInternal error_msg)
  | None => ReplyJson 500 (JObject [("error_message", JString error_str)])
  end.

(** *** Listings *)

(** [if let Some(x) = o { sandboxes.retain(|s| p(x, s)) }]. *)
Definition retain_if {X} (o : option X) (p : X → Sandbox → bool) (sandboxes : list Sandbox)
    : list Sandbox :=
  match o with Some x => List.filter (p x) sandboxes | None => sandboxes end.

(** The state is a filter only when it parses. *)
Definition state_filter (query : ListSandboxesQuery) : option SandboxState :=
  match ls_state query with
  | Some state_str =>
      match SandboxState_from_str state_str with Ok state => Some state | Err _ => None end
  | None => None
  end.

Definition retained (query : ListSandboxesQuery) (sandboxes : list Sandbox) : list Sandbox :=
  let l0 := if ls_include_deleted query then sandboxes
            else List.filter (λ s, bool_decide (sb_deleted_at s = None)) sandboxes in
  let l1 := retain_if (state_filter query) (λ state s, bool_decide (sb_state s = state)) l0 in
  let l2 := retain_if (ls_image query)
              (λ pattern s, contains pattern (cfg_image (sb_config s))) l1 in
  let l3 := retain_if (ls_created_after query)
              (λ after s, bool_decide (after ≤ sb_created_at s)) l2 in
  retain_if (ls_created_before query)
    (λ before s, bool_decide (sb_created_at s ≤ before)) l3.

Definition page_of (query : ListSandboxesQuery) : Z := Z.max (default 1 (ls_page query)) 1.

Definition per_page_of (query : ListSandboxesQuery) : Z :=
  Z.min (Z.max (default 50 (ls_per_page query)) 1) 200.

(** The multiplication wraps in a release build; the number of pages, which
    the code rounds up from a quotient of doubles, is exact here. *)
Definition paginate (query : ListSandboxesQuery) (sandboxes : list Sandbox) : Reply :=
  let total := Z.of_nat (length sandboxes) in
  let page := page_of query in
  let per_page := per_page_of query in
  let offset := u64_wrap ((page - 1) * per_page) in
  let total_pages := (total + per_page - 1) / per_page in
  ReplyListing
    (SandboxResponse_from <$> take (Z.to_nat per_page) (drop (Z.to_nat offset) sandboxes))
    {| pg_page := page; pg_per_page := per_page; pg_total := total;
       pg_total_pages := total_pages;
       pg_has_next := bool_decide (page < total_pages);
       pg_has_prev := bool_decide (1 < page) |}.

(** ** The handlers *)

Section handlers.
Context {S B A : Type}.
Context `{!StateStoreTrait S} `{!SandboxManager B} `{!ActivityStoreTrait A}.
Context `{!UuidLib} `{!LabelParser}.
#[local] Abbreviation W := (World S B A).

(** A check whose refusal is the reply. *)
Definition guard (check : M W (Result () ApiError)) (k : M W Reply) : M W Reply :=
  r ← check;
  match r with
  | Ok _ => k
  | Err e => mret (ReplyApiError e)
  end.

(** [get_sandbox_k8s_status(..).ok().flatten()]. *)
Definition k8s_status (id : Uuid) : M W (option KubernetesInfo) :=
  r ← on_backend (bk_get_sandbox_k8s_status id);
  mret (match r with Ok o => o | Err _ => None end).

(** The reply with a record read again. *)
Definition found_reply (missing : Reply) (id : Uuid) (o : option Sandbox) : M W Reply :=
  match o with
  | Some sandbox =>
      kubernetes ← k8s_status id;
      mret (sandbox_reply 200 kubernetes sandbox)
  | None => mret missing
  end.

(** A missing id is answered before the owner is checked. *)
Definition if_exists (id : Uuid) (k : M W Reply) : M W Reply :=
  o ← st_get_with_deleted id true;
  match o with
  | Some _ => k
  | None => mret not_found
  end.

Definition create_sandbox (svc : SandboxService) (identity : ApiKeyIdentity)
    (req : CreateSandboxRequest) : M W Reply :=
  guard (mret (CreateSandboxRequest_validate req))
    (result ← Create.create_sandbox svc (request_config req) (Some identity);
     mret (match result with
           | Ok sandbox => ReplySandbox 201 (SandboxResponse_from sandbox)
           | Err e => ReplyApiError (ApiError_from_box (BoxError_to_string e))
           end)).

Definition create_sandbox_stream (svc : SandboxService) (identity : ApiKeyIdentity)
    (req : CreateSandboxRequest) : M W Reply :=
  guard (mret (CreateSandboxRequest_validate req))
    (result ← create_sandbox_with_progress svc (request_config req) (Some identity);
     mret (match result with
           | Ok _ => ReplyEvents
           | Err e =>
               ReplyJson 500 (error_body ("Failed to start streaming: "
                                            +:+ BoxError_to_string e))
           end)).

Definition get_sandbox (identity : ApiKeyIdentity) (id : Uuid) (include_deleted : bool)
    : M W Reply :=
  if_exists id
    (guard (check_sandbox_ownership_with_deleted identity id include_deleted)
       (o ← st_get_with_deleted id include_deleted;
        found_reply not_found id o)).

Definition list_sandboxes (identity : ApiKeyIdentity) (query : ListSandboxesQuery)
    : M W Reply :=
  sandboxes ←
    match identity_key_type identity with
    | Database =>
        match identity_id identity with
        | Some api_key_id =>
            on_store (list_sandboxes_owned_by api_key_id (ls_include_deleted query))
        | None => mret []
        end
    | Privileged => on_store Store.list_sandboxes
    end;
  mret (paginate query (retained query sandboxes)).

Definition delete_sandbox (identity : ApiKeyIdentity) (id : Uuid) : M W Reply :=
  if_exists id
    (guard (check_sandbox_ownership_with_deleted identity id true)
       (r ← Ops.delete_sandbox id;
        mret (match r with Ok _ => ReplyNoContent | Err e => delete_failure e end))).

Definition restore_sandbox (identity : ApiKeyIdentity) (id : Uuid) : M W Reply :=
  guard (check_sandbox_ownership_with_deleted identity id true)
    (r ← Ops.restore_sandbox id;
     match r with
     | Ok _ =>
         o ← st_get_with_deleted id true;
         found_reply (ReplyText 404 "Sandbox not found after restore") id o
     | Err e => mret (restore_failure e)
     end).

Definition stop_sandbox (identity : ApiKeyIdentity) (id : Uuid) : M W Reply :=
  guard (check_sandbox_ownership identity id)
    (_ ← record_api_activity id;
     r ← Ops.stop_sandbox id;
     match r with
     | Ok _ => o ← st_get id; found_reply not_found id o
     | Err _ => mret (ReplyText 500 "Failed to stop sandbox")
     end).

(** The working directory and the environment of the request are not used. *)
Definition exec_sandbox (identity : ApiKeyIdentity) (id : Uuid) (req : ExecSandboxRequest)
    : M W Reply :=
  guard (check_sandbox_ownership identity id)
    (_ ← record_api_activity id;
     r ← exec_sandbox_result_with_stdin id (wrap_shell_command (es_command req))
           (es_stdin req) (es_timeout req);
     mret (match r with
           | Ok result => ReplyExec result
           | Err e =>
               ReplyJson 500 (JObject [("message", JString ("Failed to exec: "
                                                  +:+ BoxError_to_string e))])
           end)).

Definition tool_request (req : ToolExecutionRequest) : ExecToolHttpRequest :=
  {| ex_interpreter := te_interpreter req; ex_script_path := te_script_path req;
     ex_action := te_action req; ex_args := default (JObject []) (te_args req);
     ex_timeout := te_timeout req; ex_environment := te_environment req |}.

Definition execute_tool (svc : SandboxService) (identity : ApiKeyIdentity) (id : Uuid)
    (req : ToolExecutionRequest) : M W Reply :=
  guard (check_sandbox_ownership identity id)
    (_ ← record_api_activity id;
     r ← exec_tool_http svc id (tool_request req);
     mret (match r with Ok result => ReplyJson 200 result | Err e => tool_failure e end)).

Definition get_sandbox_stats (identity : ApiKeyIdentity) (id : Uuid) : M W Reply :=
  guard (check_sandbox_ownership identity id)
    (r ← Ops.get_sandbox_stats id;
     mret (match r with
           | Ok stats => ReplyStats stats
           | Err e =>
               ReplyJson 500 (error_body ("Failed to get stats: " +:+ BoxError_to_string e))
           end)).

Definition stream_sandbox_stats (identity : ApiKeyIdentity) (id : Uuid) : M W Reply :=
  guard (check_sandbox_ownership identity id)
    (r ← Ops.stream_sandbox_stats id;
     mret (match r with
           | Ok _ => ReplyEvents
           | Err e =>
               ReplyJson 500 (error_body ("Failed to stream stats: " +:+ BoxError_to_string e))
           end)).

Definition cleanup_sandbox (identity : ApiKeyIdentity) (id : Uuid) : M W Reply :=
  guard (check_sandbox_ownership identity id)
    (r ← Ops.cleanup_sandbox id;
     mret (match r with
           | Ok _ => ReplyNoContent
           | Err e =>
               ReplyJson 500 (error_body ("Failed to cleanup: " +:+ BoxError_to_string e))
           end)).
End handlers.

(** ** Theorems *)

Section theorems.
Context {S B A : Type}.
Context `{!StateStoreTrait S} `{!StoreContract S}.
Context `{!SandboxManager B} `{!ActivityStoreTrait A}.
Context `{!UuidLib} `{!LabelParser}.
#[local] Abbreviation W := (World S B A).

(** What a caller without access is told. *)
Definition refusal (id : Uuid) : Reply := ReplyApiError (ApiSandboxNotFound (uuid_to_string id)).

Lemma wp_guard identity id incl (k : M W Reply) Q (w : W) :
  ok w →
  (if authorized identity incl (db w !! id) then wp k Q w else Q (refusal id) w) →
  wp (guard (check_sandbox_ownership_with_deleted identity id incl) k) Q w.
Proof.
  intros Hok HQ. apply wp_bind. eapply wp_mono; [by apply wp_check_ownership|].
  intros r w0 [-> ->]. destruct (authorized identity incl (db w !! id)); [done|by apply wp_ret].
Qed.

Lemma wp_if_exists id (k : M W Reply) Q (w : W) :
  ok w → (match db w !! id with Some _ => wp k Q w | None => Q not_found w end) →
  wp (if_exists id k) Q w.
Proof.
  intros Hok HQ. apply wp_bind, wp_get_with_deleted; [done|].
  destruct (db w !! id); [done|by apply wp_ret].
Qed.

(** The same, where a missing id is answered first. *)
Definition denial (w : W) (id : Uuid) : Reply :=
  match db w !! id with Some _ => refusal id | None => not_found end.

(** A caller without access learns nothing and changes nothing. *)
Definition turned_away (w : W) (reply : Reply) (h : M W Reply) : Prop :=
  wp h (λ reply' w', w' = w ∧ reply' = reply) w.

Lemma guard_turns_away identity id incl (k : M W Reply) (w : W) :
  ok w → authorized identity incl (db w !! id) = false →
  turned_away w (refusal id) (guard (check_sandbox_ownership_with_deleted identity id incl) k).
Proof. intros Hok Ha. apply wp_guard; [done|]. by rewrite Ha. Qed.

Lemma exists_turns_away identity id incl (k : M W Reply) (w : W) :
  ok w → authorized identity incl (db w !! id) = false →
  turned_away w (denial w id)
    (if_exists id (guard (check_sandbox_ownership_with_deleted identity id incl) k)).
Proof.
  intros Hok Ha. apply wp_if_exists; [done|]. unfold denial. destruct (db w !! id) as [sb|] eqn:E; [|done].
  apply guard_turns_away; [done|]. by rewrite E.
Qed.

(** C8: every handler of a sandbox is guarded.  A caller who may not use the
    sandbox is answered by the "not found" of the ownership check, and the whole
    world is as it was, whatever the request.  Looking a sandbox up and deleting
    it answer an id that nobody has differently, with a plain text: there, a
    caller can tell a sandbox of another key from none. *)
Theorem sandbox_handlers_guarded svc identity id exec_req tool_req incl (w : W) :
  ok w →
  (authorized identity false (db w !! id) = false →
     Forall (turned_away w (refusal id))
       [stop_sandbox identity id; exec_sandbox identity id exec_req;
        execute_tool svc identity id tool_req; get_sandbox_stats identity id;
        stream_sandbox_stats identity id; cleanup_sandbox identity id]) ∧
  (authorized identity true (db w !! id) = false →
     turned_away w (refusal id) (restore_sandbox identity id) ∧
     turned_away w (denial w id) (delete_sandbox identity id)) ∧
  (authorized identity incl (db w !! id) = false →
     turned_away w (denial w id) (get_sandbox identity id incl)).
Proof.
  intros Hok. split_and!; intros Ha.
  - do 6 (constructor; [exact (guard_turns_away identity id false _ w Hok Ha)|]). constructor.
  - split; [by apply guard_turns_away|by apply exists_turns_away].
  - by apply exists_turns_away.
Qed.

(** ** Creation *)

(** creating a sandbox over HTTP.  A request without an image is refused
    with 400 before anything happens, by both handlers.  Otherwise the record is
    the one that [Create.create_sandbox] makes for the requested configuration
    and the caller, and the reply is 201 with that record, or 500 with the text
    of the error; the streaming handler only spawns its task, for the same
    configuration (with the limits merged in) and caller. *)
Theorem creation_handlers_spec svc identity req (w : W) :
  ok w → db w !! w_fresh w 0%nat = None →
  (is_empty (trim (req_image req)) = true →
     Forall (turned_away w (ReplyApiError (ApiValidation "image cannot be empty"
                                             (Some "image") ValidationError)))
       [create_sandbox svc identity req; create_sandbox_stream svc identity req]) ∧
  (is_empty (trim (req_image req)) = false →
     wp (create_sandbox svc identity req) (λ reply w',
       ∃ r, create_result svc (request_config req) (Some identity) w r w' ∧
         match r with
         | Ok sb => reply = ReplySandbox 201 (SandboxResponse_from sb)
         | Err e => reply = ReplyApiError (ApiInternal (BoxError_to_string e)) ∧
                    reply_status reply = 500
         end) w ∧
     wp (create_sandbox_stream svc identity req) (λ reply w',
       reply = ReplyEvents ∧ db w' = db w ∧ w_backend w' = w_backend w ∧
       ∃ config, w_tasks w' = w_tasks w ++ [StreamingCreate (w_fresh w 0%nat) config (Some identity)] ∧
         config = cfg_set_resource_limits
                    (merge_resource_limits svc (cfg_resource_limits (request_config req)))
                    (request_config req)) w).
Proof.
  intros Hok Hfresh. split; intros Hv.
  - assert (CreateSandboxRequest_validate req = Err (ApiValidation "image cannot be empty"
      (Some "image") ValidationError)) as Hval by (unfold CreateSandboxRequest_validate; by rewrite Hv).
    do 2 (constructor; [unfold turned_away, create_sandbox, create_sandbox_stream, guard;
                        rewrite Hval; by apply wp_bind, wp_ret, wp_ret|]). constructor.
  - assert (CreateSandboxRequest_validate req = Ok ()) as Hval
      by (unfold CreateSandboxRequest_validate; by rewrite Hv).
    split; unfold create_sandbox, create_sandbox_stream, guard; rewrite Hval; apply wp_bind, wp_ret.
    + apply wp_bind. apply wp_create_sandbox; [done|done|]. intros r w' Hr. apply wp_ret.
      exists r. split; [done|]. by destruct r.
    + unfold wp, run_val, run_st. simpl. split_and!; [done..|]. by eexists.
Qed.

(** ** Listing *)

(** What the query asks of a record. *)
Record wanted (query : ListSandboxesQuery) (sb : Sandbox) : Prop := {
  wt_visible : visible (ls_include_deleted query) sb = true;
  wt_state st : state_filter query = Some st → sb_state sb = st;
  wt_image p : ls_image query = Some p → contains p (cfg_image (sb_config sb)) = true;
  wt_after t : ls_created_after query = Some t → t ≤ sb_created_at sb;
  wt_before t : ls_created_before query = Some t → sb_created_at sb ≤ t;
}.

Lemma elem_of_filter_bool {X} (p : X → bool) (l : list X) x :
  x ∈ List.filter p l ↔ x ∈ l ∧ p x = true.
Proof. rewrite !list_elem_of_In. apply filter_In. Qed.

Lemma elem_of_retain_if {X} (o : option X) p l sb :
  sb ∈ retain_if o p l ↔ sb ∈ l ∧ ∀ x, o = Some x → p x sb = true.
Proof.
  destruct o as [x|]; simpl; [rewrite elem_of_filter_bool|]; naive_solver.
Qed.

Lemma elem_of_retained query l sb : sb ∈ retained query l ↔ sb ∈ l ∧ wanted query sb.
Proof.
  unfold retained. rewrite !elem_of_retain_if.
  assert (sb ∈ (if ls_include_deleted query then l
                else List.filter (λ s, bool_decide (sb_deleted_at s = None)) l)
          ↔ sb ∈ l ∧ visible (ls_include_deleted query) sb = true) as ->.
  { unfold visible. destruct (ls_include_deleted query); simpl; [naive_solver|].
    rewrite elem_of_filter_bool, bool_decide_eq_true. destruct (sb_deleted_at sb); naive_solver. }
  setoid_rewrite bool_decide_eq_true. split; [intros; destruct_and?; by repeat split|].
  by intros [? []].
Qed.

Lemma wanted_same query sb sb' : same_but_command sb sb' → wanted query sb' → wanted query sb.
Proof. intros [c ->] [H1 H2 H3 H4 H5]. by split. Qed.

(** The records that a page holds; the pages together hold them all, in
    order. *)
Definition window {X} (page per_page : Z) (l : list X) : list X :=
  take (Z.to_nat per_page) (drop (Z.to_nat ((page - 1) * per_page)) l).

Lemma windows_cover {X} n per_page (l : list X) :
  1 ≤ per_page → 0 ≤ n → Z.of_nat (length l) ≤ n * per_page →
  concat ((λ p, window p per_page l) <$> seqZ 1 n) = l.
Proof.
  intros Hp Hn. revert l. pattern n. apply natlike_ind; [| |done].
  - intros l Hl. by destruct l.
  - intros m Hm IH l Hl. replace (Z.succ m) with (m + 1) by lia.
    rewrite seqZ_app by lia. rewrite fmap_app, concat_app.
    assert (seqZ (1 + m) 1 = [m + 1]) as -> by (unfold seqZ; simpl; f_equal; lia).
    simpl. rewrite app_nil_r.
    assert (concat ((λ p, window p per_page l) <$> seqZ 1 m)
            = take (Z.to_nat (m * per_page)) l) as ->.
    { rewrite <-(IH (take (Z.to_nat (m * per_page)) l)) by (rewrite length_take; lia).
      f_equal. apply list_fmap_ext. intros k p [-> Hk]%lookup_seqZ. unfold window.
      rewrite !take_drop_commute, take_take. f_equal. f_equal. nia. }
    unfold window. replace (m + 1 - 1) with m by lia.
    assert (take (Z.to_nat per_page) (drop (Z.to_nat (m * per_page)) l)
            = drop (Z.to_nat (m * per_page)) l) as -> by (apply take_ge; rewrite length_drop; lia).
    apply take_drop.
Qed.

(** The records that a listing draws from. *)
Definition listed_for (identity : ApiKeyIdentity) (query : ListSandboxesQuery) (w : W)
    (l : list Sandbox) : Prop :=
  match identity_key_type identity, identity_id identity with
  | Privileged, _ => ∀ sb, sb ∈ l → db w !! sb_id sb = Some sb
  | Database, None => l = []
  | Database, Some key =>
      (∀ sb, sb ∈ l → sb_api_key_id sb = Some key ∧
         ∃ sb', db w !! sb_id sb = Some sb' ∧ same_but_command sb sb') ∧
      (∀ id sb, db w !! id = Some sb → sb_api_key_id sb = Some key → wanted query sb →
         ∃ sb', sb' ∈ l ∧ sb_id sb' = id)
  end.

(** The page of [l] that a query asks for. *)
Definition page_reply (query : ListSandboxesQuery) (l : list Sandbox) (reply : Reply) : Prop :=
  ∃ data p, reply = ReplyListing data p ∧
    pg_page p = page_of query ∧ 1 ≤ pg_page p ∧
    pg_per_page p = per_page_of query ∧ 1 ≤ pg_per_page p ≤ 200 ∧
    ((pg_page p - 1) * pg_per_page p < 2 ^ 64 →
       data = SandboxResponse_from <$> window (pg_page p) (pg_per_page p) l) ∧
    pg_total p = Z.of_nat (length l) ∧
    concat ((λ n, window n (pg_per_page p) l) <$> seqZ 1 (pg_total_pages p)) = l ∧
    (pg_has_next p = true ↔ pg_page p < pg_total_pages p) ∧
    (pg_has_prev p = true ↔ 1 < pg_page p).

Lemma paginate_spec query l : page_reply query l (paginate query l).
Proof.
  unfold paginate. do 2 eexists. split; [reflexivity|].
  cbn [pg_page pg_per_page pg_total pg_total_pages pg_has_next pg_has_prev].
  assert (1 ≤ per_page_of query ≤ 200) as Hsize by (unfold per_page_of; lia).
  assert (1 ≤ page_of query) as Hpg by (unfold page_of; lia).
  rewrite !bool_decide_eq_true. split_and!; try done; try lia.
  - intros Hoff. unfold window. rewrite u64_wrap_id; [done|]. unfold is_u64. nia.
  - apply windows_cover; Z.div_mod_to_equations; nia.
Qed.

(** listing sandboxes.  The reply is a page of the records that the query
    wants and the caller may list: for a database key its own, all of them; for a
    privileged key what the store lists (of a database store, the newest fifty).
    A page has at most 200 entries; the pages from the first to the last hold
    every record once and in order; the counts and the two flags agree with
    them.  The offset of the page must fit 64 bits: past that it wraps, and an
    absurd page number shows an earlier page. *)
Theorem list_sandboxes_spec identity query (w : W) :
  ok w →
  wp (list_sandboxes identity query) (λ reply w', w' = w ∧
    ∃ l, listed_for identity query w l ∧ (∀ sb, sb ∈ l → wanted query sb) ∧
         page_reply query l reply) w.
Proof.
  intros Hok.
  assert (∀ l, listed_for identity query w (retained query l) →
    ∃ l', listed_for identity query w l' ∧ (∀ sb, sb ∈ l' → wanted query sb) ∧
          page_reply query l' (paginate query (retained query l))) as Hpage.
  { intros l Hl. exists (retained query l). split; [done|]. split; [|apply paginate_spec].
    by intros sb [_ Hsb]%elem_of_retained. }
  unfold list_sandboxes, listed_for in *. apply wp_bind.
  destruct (identity_key_type identity).
  - apply wp_list; [done|]. intros l Hl. apply wp_ret. split; [done|]. apply Hpage.
    intros sb [Hsb _]%elem_of_retained. by apply Hl.
  - destruct (identity_id identity) as [key|].
    + apply wp_on_store. unfold wp at 1, run_val, run_st.
      destruct (owned_list_spec (w_store w) key (ls_include_deleted query) Hok)
        as (l & -> & _ & Hl1 & Hl2). cbn [fst snd]. rewrite set_store_same. apply wp_ret.
      split; [done|]. apply Hpage. split.
      * intros sb [Hsb _]%elem_of_retained. by destruct (Hl1 sb Hsb) as (? & _ & ?).
      * intros id sb Hdb Ho Hw. destruct (Hl2 id sb Hdb Ho (wt_visible _ _ Hw)) as (sb' & Hin & Hid).
        exists sb'. split; [|done]. apply elem_of_retained. split; [done|].
        destruct (Hl1 sb' Hin) as (_ & _ & sb2 & Hdb2 & Hsame). rewrite Hid in Hdb2.
        assert (sb2 = sb) as -> by (change (contents (w_store w)) with (db w) in Hdb2; congruence).
        by eapply wanted_same.
    + apply wp_ret, wp_ret. split; [done|]. apply Hpage. unfold retained, retain_if.
      by repeat case_match.
Qed.

(** ** The operations *)

(** What the backend says of the pod of a sandbox. *)
Definition pod_of (w : W) (id : Uuid) : option KubernetesInfo :=
  match run_val (bk_get_sandbox_k8s_status id) (w_backend w) with Ok o => o | Err _ => None end.

Lemma wp_found_reply missing id o Q (w : W) :
  ok w →
  (∀ w', ok w' → db w' = db w →
     Q (match o with Some sb => sandbox_reply 200 (pod_of w id) sb | None => missing end) w') →
  wp (found_reply missing id o) Q w.
Proof.
  intros Hok HQ. destruct o as [sb|]; [|by apply wp_ret, HQ].
  apply wp_bind, wp_bind, wp_backend. intros w' H1 H2 _ _ _. apply wp_ret, wp_ret, HQ; auto.
Qed.

Lemma stop_outcome_touched (w w1 : W) sb t1 t2 :
  w_backend w1 = w_backend w →
  stop_outcome w1 (stored_as (touched sb t1 t2)) = stop_outcome w sb.
Proof. intros Hb. unfold stop_outcome. by rewrite stored_as_container, Hb. Qed.

(** What a stop request leaves and answers. *)
Definition stop_result (w w' : W) (id : Uuid) (reply : Reply) : Prop :=
  match shown w id with
  | None => db w' = db w ∧ reply = ReplyText 500 "Failed to stop sandbox"
  | Some sb =>
      match stop_outcome w sb with
      | Err _ => becomes w w' id (touched sb) ∧ reply = ReplyText 500 "Failed to stop sandbox"
      | Ok _ =>
          ∃ t1 t2 t3 pod,
            let sb' := stored_as (moved Stopped (stored_as (touched sb t1 t2)) t3 t3) in
            db w' = <[id := sb']> (db w) ∧ reply = sandbox_reply 200 pod sb'
      end
  end.

Lemma wp_stop_request identity id (w : W) :
  ok w → authorized identity false (db w !! id) = true →
  wp (stop_sandbox identity id) (λ reply w', ok w' ∧ stop_result w w' id reply) w.
Proof.
  intros Hok Ha. apply wp_guard; [done|]. rewrite Ha.
  apply wp_bind, wp_touch; [done|]. intros w1 Ht Hb1. pose proof (proj1 Ht) as Hok1.
  apply wp_bind, wp_stop; [done|]. intros r w2 [Hok2 He]. unfold stop_result.
  destruct (touched_shown w w1 id Ht) as [[E1 E2]|(sb & t1 & t2 & E1 & E2)];
    rewrite E1; rewrite E2 in He; unfold touch_effect in Ht; rewrite E1 in Ht; destruct Ht as [_ Ht].
  - destruct He as [-> He]. apply wp_ret. split; [done|]. split; [congruence|done].
  - destruct He as [Hr He]. rewrite (stop_outcome_touched w w1 sb t1 t2 Hb1) in Hr.
    destruct (stop_outcome w sb) as [[]|e]; subst r; simpl in He.
    2: { apply wp_ret. split; [done|]. split; [|done]. destruct Ht as (u1 & u2 & Ht).
         exists u1, u2. congruence. }
    destruct (becomes_shown w1 w2 id _ _ E2 He) as (u1 & u2 & Hs); [done|].
    apply wp_bind, wp_get; [done|]. fold (shown w2 id). rewrite Hs.
    apply wp_found_reply; [done|]. intros w3 Hok3 Hdb3. split; [done|].
    exists t1, t2, u2, (pod_of w2 id). split; [|done].
    assert (db w2 = <[id := stored_as (moved Stopped (stored_as (touched sb t1 t2)) u1 u2)]> (db w1))
      as Hdb2.
    { destruct He as (v1 & v2 & He). apply shown_Some in Hs as [Hs _].
      rewrite He, lookup_insert_eq in Hs. congruence. }
    destruct Ht as (v1 & v2 & Ht). by rewrite Hdb3, Hdb2, Ht, insert_insert_eq.
Qed.

Definition no_content_or (failure : BoxError → Reply) (r : Result () BoxError) : Reply :=
  match r with Ok _ => ReplyNoContent | Err e => failure e end.

Definition cleanup_failure (e : BoxError) : Reply :=
  ReplyJson 500 (error_body ("Failed to cleanup: " +:+ BoxError_to_string e)).

Lemma wp_delete_request identity id (w : W) :
  ok w → authorized identity true (db w !! id) = true →
  wp (delete_sandbox identity id) (λ reply w', ∃ r,
    effect w w' id (db w !! id) (remove_outcome w)
      (λ sb t1 t2, soft_deleted t1 t2 "system" sb) r ∧
    reply = no_content_or delete_failure r) w.
Proof.
  intros Hok Ha. apply wp_if_exists; [done|]. destruct (db w !! id) as [sb|] eqn:E.
  - apply wp_guard; [done|]. rewrite E, Ha. apply wp_bind, wp_delete; [done|].
    intros r w' He. apply wp_ret. exists r. by rewrite <-E.
  - by exists (Err (BoxMsg "Sandbox not found")).
Qed.

Lemma wp_cleanup_request identity id (w : W) :
  ok w → authorized identity false (db w !! id) = true →
  wp (cleanup_sandbox identity id) (λ reply w', ∃ r,
    effect w w' id (db w !! id) (remove_outcome w)
      (λ sb t1 t2, soft_deleted t1 t2 "auto-cleanup" sb) r ∧
    reply = no_content_or cleanup_failure r) w.
Proof.
  intros Hok Ha. apply wp_guard; [done|]. rewrite Ha. apply wp_bind, wp_cleanup; [done|].
  intros r w' He. apply wp_ret. by exists r.
Qed.

(** What a restoration leaves and answers. *)
Definition restore_result (w w' : W) (id : Uuid) (reply : Reply) : Prop :=
  ∃ r w1, restore_effect w w1 id r ∧ db w' = db w1 ∧
    match r with
    | Ok _ => ∃ sb' pod, db w' !! id = Some sb' ∧ sb_state sb' = Running ∧
                         sb_deleted_at sb' = None ∧ reply = sandbox_reply 200 pod sb'
    | Err e => reply = restore_failure e
    end.

(** A restoration that succeeds leaves a live, running record. *)
Lemma restored_live (w w1 : W) id :
  restore_effect w w1 id (Ok ()) →
  ∃ sb', db w1 !! id = Some sb' ∧ sb_state sb' = Running ∧ sb_deleted_at sb' = None.
Proof.
  intros [_ He]. destruct (db w !! id) as [sb|]; [|by destruct He].
  case_bool_decide; [by destruct He|].
  destruct (create_container_for_sandbox sb w) as [[cid|e] w2]; [|by destruct He].
  destruct He as (_ & t & t1 & t2 & He). simpl in He. eexists. rewrite He, lookup_insert_eq.
  split; [done|]. rewrite stored_as_state. split; [done|].
  match goal with |- sb_deleted_at ?s = None => destruct (sb_deleted_at s) as [d|] eqn:E; [|done] end.
  destruct (proj1 (stored_as_deleted _) (mk_is_Some _ _ E)) as [d' Hd]. by simpl in Hd.
Qed.

Lemma wp_restore_request identity id (w : W) :
  ok w → authorized identity true (db w !! id) = true →
  wp (restore_sandbox identity id) (λ reply w', restore_result w w' id reply) w.
Proof.
  intros Hok Ha. apply wp_guard; [done|]. rewrite Ha. apply wp_bind, wp_restore; [done|].
  intros r w1 He. destruct r as [[]|e]; [|by apply wp_ret; exists (Err e), w1].
  destruct (restored_live w w1 id He) as (sb' & Hs & Hst & Hd).
  pose proof (proj1 He) as Hok1.
  apply wp_bind, wp_get_with_deleted; [done|]. rewrite Hs.
  apply wp_found_reply; [done|]. intros w2 Hok2 Hdb2. exists (Ok ()), w1. split; [done|].
  split; [done|]. exists sb', (pod_of w1 id). by rewrite Hdb2.
Qed.

(** the handlers that change a sandbox, for a caller who may use it.
    Stopping first counts the call as activity, then answers with the stopped
    record, or 500 when the backend fails or the record is missing.  Deleting
    and cleaning up bury the record (see [Ops]) and answer 204, or 404/500 by
    the error.  Restoring does what [Ops] says of it and answers with the
    record read back, which is live and running; the handler's branch for a
    record lost after the restoration is never taken. *)
Theorem sandbox_changes_spec identity id (w : W) :
  ok w →
  (authorized identity false (db w !! id) = true →
     wp (stop_sandbox identity id) (λ reply w', stop_result w w' id reply) w ∧
     wp (cleanup_sandbox identity id) (λ reply w', ∃ r,
       effect w w' id (db w !! id) (remove_outcome w)
         (λ sb t1 t2, soft_deleted t1 t2 "auto-cleanup" sb) r ∧
       (reply = ReplyNoContent ↔ r = Ok ()) ∧ (reply = ReplyNoContent → buried w w' id) ∧
       reply = no_content_or cleanup_failure r) w) ∧
  (authorized identity true (db w !! id) = true →
     wp (delete_sandbox identity id) (λ reply w', ∃ r,
       effect w w' id (db w !! id) (remove_outcome w)
         (λ sb t1 t2, soft_deleted t1 t2 "system" sb) r ∧
       (reply = ReplyNoContent ↔ r = Ok ()) ∧ (reply = ReplyNoContent → buried w w' id) ∧
       reply = no_content_or delete_failure r) w ∧
     wp (restore_sandbox identity id) (λ reply w', restore_result w w' id reply) w).
Proof.
  intros Hok.
  assert (∀ failure who w' r, (∀ e, failure e ≠ ReplyNoContent) →
    effect w w' id (db w !! id) (remove_outcome w) (λ sb t1 t2, soft_deleted t1 t2 who sb) r →
    (no_content_or failure r = ReplyNoContent ↔ r = Ok ()) ∧
    (no_content_or failure r = ReplyNoContent → buried w w' id)) as Hburied.
  { intros failure who w' r Hf He. assert (no_content_or failure r = ReplyNoContent ↔ r = Ok ()) as Hr.
    { destruct r as [[]|e]; simpl; [done|]. split; [by intros ?%Hf|done]. }
    split; [done|]. intros Hr'%Hr. by eapply effect_buried. }
  split; intros Ha; (split; [eapply wp_mono|eapply wp_mono]).
  - by apply wp_stop_request.
  - by intros reply w' [_ Hr].
  - by apply wp_cleanup_request.
  - intros reply w' (r & He & ->). exists r. split; [done|].
    by destruct (Hburied cleanup_failure "auto-cleanup" w' r ltac:(done) He).
  - by apply wp_delete_request.
  - intros reply w' (r & He & ->). exists r. split; [done|].
    destruct (Hburied delete_failure "system" w' r) as [K1 K2]; [|done|done].
    intros e. unfold delete_failure. by case_match.
  - by apply wp_restore_request.
  - done.
Qed.

(** ** Requests that leave the life cycle alone *)

Definition record_of (incl : bool) (w : W) (id : Uuid) : option Sandbox :=
  if incl then db w !! id else shown w id.

Lemma wp_get_by incl id Q (w : W) :
  ok w → Q (record_of incl w id) w → wp (st_get_with_deleted id incl) Q w.
Proof. intros Hok HQ. destruct incl; [by apply wp_get_with_deleted|by apply wp_get_live]. Qed.

Lemma wp_get_request identity id incl (w : W) :
  ok w → authorized identity incl (db w !! id) = true →
  wp (get_sandbox identity id incl) (λ reply w', ok w' ∧ db w' = db w ∧
    reply = match record_of incl w id with
            | Some sb => sandbox_reply 200 (pod_of w id) sb
            | None => not_found
            end) w.
Proof.
  intros Hok Ha. apply wp_if_exists; [done|]. destruct (db w !! id) as [sb|] eqn:E.
  - apply wp_guard; [done|]. rewrite E, Ha. apply wp_bind, wp_get_by; [done|].
    apply wp_found_reply; [done|]. by intros w' Hok' Hdb'.
  - unfold record_of, shown. rewrite E. by destruct incl.
Qed.

(** The call that a command or a tool becomes, on the sandbox [o]. *)
Definition exec_answer (w : W) (o : option Sandbox) (req : ExecSandboxRequest)
    : Result ExecCommandResult BoxError :=
  let? sb := option_ok_or (BoxMsg "Sandbox not found") o in
  let? cid := exec_target (λ st, "Sandbox is not running (current state: "
                             +:+ SandboxState_as_str st +:+ ")") sb in
  result_map_err BoxManager
    (run_val (bk_exec_with_stdin_result cid (wrap_shell_command (es_command req))
                (es_stdin req) (es_timeout req)) (w_backend w)).

Definition tool_answer (svc : SandboxService) (w : W) (o : option Sandbox)
    (req : ToolExecutionRequest) : Result Json BoxError :=
  let? sb := option_ok_or (BoxMsg "Sandbox not found") o in
  let? cid := exec_target (λ _, "Sandbox is not running") sb in
  let t := get_tool_timeout svc (te_script_path req) (te_timeout req) in
  result_map_err BoxManager
    (run_val (bk_exec_http cid "/exec" "POST" (Some (exec_body t (tool_request req)))
                (Some (u64_wrap (t + http_buffer_secs (tool_timeouts svc)))))
       (w_backend w)).

Lemma exec_target_touched msg sb t1 t2 :
  exec_target msg (stored_as (touched sb t1 t2)) = exec_target msg sb.
Proof. unfold exec_target. by rewrite stored_as_state, stored_as_container. Qed.

(** A call that goes by the state and the container of the record answers after
    the touch what it would have answered before. *)
Lemma exec_answer_touched (w w1 : W) id req :
  touch_effect w w1 id touched → w_backend w1 = w_backend w →
  exec_answer w1 (shown w1 id) req = exec_answer w (shown w id) req.
Proof.
  intros Ht Hb. unfold exec_answer.
  destruct (touched_shown w w1 id Ht) as [[-> ->]|(sb & t1 & t2 & -> & ->)]; [done|].
  cbn [option_ok_or result_bind]. by rewrite exec_target_touched, Hb.
Qed.

Lemma tool_answer_touched svc (w w1 : W) id req :
  touch_effect w w1 id touched → w_backend w1 = w_backend w →
  tool_answer svc w1 (shown w1 id) req = tool_answer svc w (shown w id) req.
Proof.
  intros Ht Hb. unfold tool_answer.
  destruct (touched_shown w w1 id Ht) as [[-> ->]|(sb & t1 & t2 & -> & ->)]; [done|].
  cbn [option_ok_or result_bind]. by rewrite exec_target_touched, Hb.
Qed.

(** The texts of the backend's errors start with a phrase that is none of the
    codes, and those of the service hold no colon. *)
Lemma tool_failure_manager e : reply_status (tool_failure (BoxManager e)) = 500.
Proof. by destruct e. Qed.

Lemma tool_answer_failure svc (w : W) o req e :
  tool_answer svc w o req = Err e → reply_status (tool_failure e) = 500.
Proof.
  unfold tool_answer. destruct o as [sb|]; simpl; [|by intros [= <-]].
  unfold exec_target. case_bool_decide; simpl; [|by intros [= <-]].
  destruct (sb_container_id sb) as [cid|]; simpl; [|by intros [= <-]].
  destruct (run_val _ _) as [x|me]; simpl; intros [= <-]. apply tool_failure_manager.
Qed.

(** the handlers that read a sandbox or run something in it, for a caller
    who may use it; none moves a record along its life cycle.  A lookup answers
    with the record, deleted ones on request.  A command is handed to a shell
    and a tool call to the proxy in the container of the running sandbox, after
    the call is counted as activity, and the answer is passed on.  Every failure
    of a tool call, whatever its kind, is answered with 500: the boxed error is
    never a [DockerError] and its text never starts with one of the codes that
    the handler looks for. *)
Theorem sandbox_calls_spec svc identity id incl exec_req tool_req (w : W) :
  ok w →
  (authorized identity incl (db w !! id) = true →
     wp (get_sandbox identity id incl) (λ reply w', ok w' ∧ db w' = db w ∧
       reply = match record_of incl w id with
               | Some sb => sandbox_reply 200 (pod_of w id) sb
               | None => not_found
               end) w) ∧
  (authorized identity false (db w !! id) = true →
     wp (exec_sandbox identity id exec_req) (λ reply w', touch_effect w w' id touched ∧
       match exec_answer w (shown w id) exec_req with
       | Ok result => reply = ReplyExec result
       | Err _ => reply_status reply = 500
       end) w ∧
     wp (execute_tool svc identity id tool_req) (λ reply w', touch_effect w w' id touched ∧
       match tool_answer svc w (shown w id) tool_req with
       | Ok result => reply = ReplyJson 200 result
       | Err e => reply = tool_failure e ∧ reply_status reply = 500
       end) w).
Proof.
  intros Hok. split; intros Ha; [by apply wp_get_request|].
  split; (apply wp_guard; [done|]; rewrite Ha; apply wp_bind, wp_touch; [done|];
          intros w1 Ht Hb1; pose proof (proj1 Ht) as Hok1; apply wp_bind).
  - eapply wp_mono; [by apply wp_exec|]. intros r w2 (Hok2 & Hdb2 & Hr). apply wp_ret.
    split; [by eapply touch_effect_keep|].
    assert (r = exec_answer w (shown w id) exec_req) as <-; [|by destruct r].
    rewrite <-(exec_answer_touched w w1 id exec_req Ht Hb1). unfold exec_answer.
    by destruct (shown w1 id).
  - eapply wp_mono; [by apply wp_exec_tool|]. intros r w2 (Hok2 & Hdb2 & Hr). apply wp_ret.
    split; [by eapply touch_effect_keep|].
    assert (tool_answer svc w (shown w id) tool_req = r) as Hans.
    { rewrite <-(tool_answer_touched svc w w1 id tool_req Ht Hb1). unfold tool_answer.
      by destruct (shown w1 id). }
    rewrite Hans. destruct r as [x|e]; [done|]. split; [done|]. by eapply tool_answer_failure.
Qed.
End theorems.

(** ** Witnesses *)

Module Witnesses.
Import Demo.

#[local] Instance parser : LabelParser := {| parse_label := λ _, Err "no label" |}.

Definition owner : ApiKeyIdentity := mkIdentity (Some 7%N) Database.
Definition stranger : ApiKeyIdentity := mkIdentity (Some 8%N) Database.
Definition exec_req : ExecSandboxRequest := mkExecSandboxRequest ["ls"; "-l"] None None None None.
Definition tool_req : ToolExecutionRequest :=
  mkToolExecutionRequest "python" "/opt/tools/web_tools.py" "web_search" None None None.
Definition create_req (image : string) : CreateSandboxRequest :=
  mkCreateSandboxRequest image None None None None None None None Missing [] false None.
Definition query : ListSandboxesQuery :=
  mkListSandboxesQuery false (Some "running") None None None None (Some 500).

Lemma sandbox_handlers_guarded_witness :
  turned_away world (ReplyApiError (ApiSandboxNotFound "1")) (stop_sandbox stranger 1%N) ∧
  turned_away world (ReplyApiError (ApiSandboxNotFound "1")) (get_sandbox stranger 1%N true) ∧
  turned_away world not_found (get_sandbox stranger 3%N true).
Proof.
  split; [|split].
  - exact (Forall_inv (proj1 (sandbox_handlers_guarded SandboxService_new stranger 1%N exec_req
             tool_req true world world_ok) eq_refl)).
  - exact (proj2 (proj2 (sandbox_handlers_guarded SandboxService_new stranger 1%N exec_req
             tool_req true world world_ok)) eq_refl).
  - exact (proj2 (proj2 (sandbox_handlers_guarded SandboxService_new stranger 3%N exec_req
             tool_req true world world_ok)) eq_refl).
Defined.

Lemma creation_handlers_spec_witness :
  turned_away world (ReplyApiError (ApiValidation "image cannot be empty" (Some "image")
    ValidationError)) (create_sandbox SandboxService_new owner (create_req "  ")) ∧
  wp (create_sandbox SandboxService_new owner (create_req "nginx")) (λ reply w',
    ∃ r, create_result SandboxService_new (request_config (create_req "nginx")) (Some owner)
           world r w' ∧
      match r with
      | Ok sb => reply = ReplySandbox 201 (SandboxResponse_from sb)
      | Err e => reply = ReplyApiError (ApiInternal (BoxError_to_string e)) ∧
                 reply_status reply = 500
      end) world.
Proof.
  split.
  - exact (Forall_inv (proj1 (creation_handlers_spec SandboxService_new owner (create_req "  ")
             world world_ok eq_refl) eq_refl)).
  - exact (proj1 (proj2 (creation_handlers_spec SandboxService_new owner (create_req "nginx")
             world world_ok eq_refl) eq_refl)).
Defined.

Lemma list_sandboxes_spec_witness :
  run_val (list_sandboxes owner query) world
    = ReplyListing [SandboxResponse_from live] (mkPagination 1 200 1 1 false false) ∧
  wp (list_sandboxes owner query) (λ reply w', w' = world ∧
    ∃ l, listed_for owner query world l ∧ (∀ sb, sb ∈ l → wanted query sb) ∧
         page_reply query l reply) world.
Proof.
  split; [vm_compute; reflexivity|]. exact (list_sandboxes_spec owner query world world_ok).
Defined.

Lemma sandbox_changes_spec_witness :
  run_val (delete_sandbox owner 1%N) world = ReplyNoContent ∧
  wp (stop_sandbox owner 1%N) (λ reply w', stop_result world w' 1%N reply) world ∧
  wp (restore_sandbox stranger 2%N) (λ reply w', restore_result world w' 2%N reply) world.
Proof.
  split; [vm_compute; reflexivity|]. split.
  - exact (proj1 (proj1 (sandbox_changes_spec owner 1%N world world_ok) eq_refl)).
  - exact (proj2 (proj2 (sandbox_changes_spec stranger 2%N world world_ok) eq_refl)).
Defined.

Lemma sandbox_calls_spec_witness :
  exec_answer world (shown world 1%N) exec_req = Ok (mkExecCommandResult "out" 0) ∧
  wp (exec_sandbox owner 1%N exec_req) (λ reply w', touch_effect world w' 1%N touched ∧
    reply = ReplyExec (mkExecCommandResult "out" 0)) world.
Proof.
  split; [vm_compute; reflexivity|].
  exact (proj1 (proj2 (sandbox_calls_spec SandboxService_new owner 1%N false exec_req tool_req
           world world_ok) eq_refl)).
Defined.
End Witnesses.
