(* ===== verification/Tasks.v ===== *)
(** * Tasks: the background passes over all sandboxes

    Models [src/core/sandbox/tasks.rs].  Each task is an endless loop of ticks;
    the definitions below are one tick of it: the auto-cleanup of inactive
    sandboxes, the removal of inactive and of orphaned containers, and the
    state monitor.  Log messages are left out, with what is computed only for
    them. *)

From S2P Require Import Prelude Text Errors Types Store World Demo Service Ops.

(** The more recent of the API and the container activity. *)
Definition last_activity (a : ActivityTracking) : DateTime :=
  match last_container_activity a with
  | Some container_time =>
      if bool_decide (last_api_activity a < container_time) then container_time
      else last_api_activity a
  | None => last_api_activity a
  end.

(** The same as the orphan clean-up writes it. *)
Definition latest_activity (a : ActivityTracking) : DateTime :=
  match last_container_activity a with
  | Some container_time => Z.max (last_api_activity a) container_time
  | None => last_api_activity a
  end.

Section tasks.
Context {S B A : Type}.
Context `{!StateStoreTrait S} `{!SandboxManager B} `{!ActivityStoreTrait A}.
Context `{!ChronoLib}.
#[local] Abbreviation W := (World S B A).

(** ** Auto-cleanup *)

(** [elapsed.num_minutes() as u64] against the sandbox's timeout or the
    default. *)
Definition expired (svc : SandboxService) (sb : Sandbox) (now : DateTime) : bool :=
  let timeout_minutes :=
    default (default_inactivity_timeout svc) (sb_inactivity_timeout_minutes sb) in
  let elapsed_minutes := u64_wrap (num_minutes (now - last_activity (sb_activity sb))) in
  bool_decide (timeout_minutes ≤ elapsed_minutes).

Definition cleanup_skips (sb : Sandbox) : bool :=
  match sb_state sb with Destroyed | Destroying => true | _ => false end.

Definition auto_cleanup_one (svc : SandboxService) (sandbox : Sandbox) : M W () :=
  if cleanup_skips sandbox then mret ()
  else
    now ← utc_now;
    if expired svc sandbox now then
      if cleanup_dry_run svc then mret ()
      else _ ← cleanup_sandbox (sb_id sandbox); mret ()
    else mret ().

Definition auto_cleanup_pass (svc : SandboxService) : M W () :=
  sandboxes ← on_store list_sandboxes;
  for_each sandboxes (auto_cleanup_one svc).

(** ** Inactive containers *)

Definition set_stopped (id : Uuid) : M W () :=
  o ← st_get id;
  match o with
  | Some updated_sandbox =>
      now ← utc_now;
      _ ← st_update (sb_set_updated_at now (sb_set_state Stopped updated_sandbox));
      mret ()
  | None => mret ()
  end.

Definition cleanup_orphaned_one (sandbox : Sandbox) : M W Z :=
  if negb (bool_decide (sb_state sandbox = Running)) then mret 0
  else
    match sb_container_id sandbox with
    | None => mret 0
    | Some container_id =>
        now ← utc_now;
        if bool_decide (30 < num_minutes (now - latest_activity (sb_activity sandbox))) then
          r ← on_backend (bk_delete container_id);
          match r with
          | Ok _ => _ ← set_stopped (sb_id sandbox); mret 1
          | Err _ => mret 0
          end
        else mret 0
    end.

Definition cleanup_orphaned_containers : M W (Result Z BoxError) :=
  sandboxes ← on_store list_sandboxes;
  removed_count ← for_count sandboxes cleanup_orphaned_one;
  mret (Ok removed_count).

(** ** Containers of destroyed sandboxes *)

Definition cleanup_destroyed_one (sandbox : Sandbox) : M W Z :=
  if negb (bool_decide (sb_state sandbox = Destroyed)) then mret 0
  else
    match sb_container_id sandbox with
    | None => mret 0
    | Some container_id =>
        r ← on_backend (bk_list true);
        match r with
        | Err _ => mret 0
        | Ok containers =>
            if existsb (λ c, starts_with container_id (info_id c)) containers then
              r' ← on_backend (bk_delete container_id);
              mret (match r' with Ok _ => 1 | Err _ => 0 end)
            else mret 0
        end
    end.

Definition cleanup_destroyed_containers : M W (Result Z BoxError) :=
  sandboxes ← on_store list_sandboxes;
  removed_count ← for_count sandboxes cleanup_destroyed_one;
  mret (Ok removed_count).

(** ** The state monitor *)

Definition monitor_stopped (sandbox : Sandbox) (container_id : string) : M W () :=
  _ ← on_backend (bk_get_exit_info container_id);
  o ← st_get (sb_id sandbox);
  match o with
  | Some updated_sandbox =>
      now ← utc_now;
      r ← st_update (sb_set_updated_at now (sb_set_state Stopped updated_sandbox));
      match r with
      | Ok _ =>
          record_activity (sb_id sandbox) ActStop
            (JObject [("reason", JString "container_stopped"); ("auto_detected", JBool true)])
      | Err _ => mret ()
      end
  | None => mret ()
  end.

Definition state_monitor_one (sandbox : Sandbox) : M W () :=
  if negb (bool_decide (sb_state sandbox = Running)) then mret ()
  else
    match sb_container_id sandbox with
    | None => mret ()
    | Some container_id =>
        r ← on_backend (bk_is_running container_id);
        match r with
        | Ok false => monitor_stopped sandbox container_id
        | _ => mret ()
        end
    end.

Definition state_monitor_pass : M W () :=
  sandboxes ← on_store list_sandboxes;
  for_each sandboxes state_monitor_one.
End tasks.

(** ** Theorems *)

(** when the auto-cleanup takes a sandbox for inactive.  A last activity in
    the past counts by its age in whole minutes; one in the future by a minute
    or more wraps around to a huge age, so that the sandbox is taken for
    inactive whatever its timeout. *)
Theorem expired_spec `{ChronoLib, !ChronoLaws} svc sb now :
  let timeout := default (default_inactivity_timeout svc) (sb_inactivity_timeout_minutes sb) in
  let age := now - last_activity (sb_activity sb) in
  is_i64 age → 0 ≤ timeout < 2 ^ 63 →
  (0 ≤ age → expired svc sb now = true ↔ timeout * 60 * ns_per_sec ≤ age) ∧
  (- (60 * ns_per_sec) < age < 0 → expired svc sb now = bool_decide (timeout = 0)) ∧
  (age ≤ - (60 * ns_per_sec) → expired svc sb now = true).
Proof.
  intros timeout age Hage Ht. unfold expired. fold timeout age. rewrite num_minutes_spec.
  unfold is_i64, ns_per_sec in *. split_and!.
  - intros Hpos. rewrite bool_decide_eq_true, Z.quot_div_nonneg by lia.
    rewrite u64_wrap_id by (unfold is_u64; Z.div_mod_to_equations; lia).
    Z.div_mod_to_equations. lia.
  - intros Hneg. assert (age ÷ (60 * 1000000000) = 0) as ->.
    { apply Z.quot_small_iff; lia. }
    apply bool_decide_ext. unfold u64_wrap. rewrite Z.mod_0_l by lia. lia.
  - intros Hneg. apply bool_decide_eq_true.
    replace age with (- - age) by lia. rewrite Z.quot_opp_l by lia.
    rewrite Z.quot_div_nonneg by lia.
    assert (1 ≤ - age / (60 * 1000000000) ≤ 2 ^ 62) by (Z.div_mod_to_equations; lia).
    rewrite u64_wrap_neg by lia. lia.
Qed.

Section passes.
Context {S B A : Type}.
Context `{!StateStoreTrait S} `{!StoreContract S}.
Context `{!SandboxManager B} `{!ActivityStoreTrait A}.
Context `{!ChronoLib}.
#[local] Abbreviation W := (World S B A).

Lemma preserves_on_remove T sb : preserves (clock_in (S := S) (B := B) (A := A) T) (remove_container sb).
Proof. unfold remove_container, bk. destruct (sb_container_id sb); eauto with preserves. Qed.

Lemma preserves_cleanup T id : preserves (clock_in (S := S) (B := B) (A := A) T) (cleanup_sandbox id).
Proof.
  unfold cleanup_sandbox, ok_or, st_get_with_deleted, remove_named_volumes, st_update.
  apply preserves_try; [eauto with preserves|]. intros sb.
  apply preserves_try; [apply preserves_on_remove|]. intros _.
  apply preserves_bind; [apply preserves_for_each; intros []; eauto with preserves|].
  intros _. apply preserves_bind; [eauto with preserves|]. intros [sb'|]; [|eauto with preserves].
  eauto 10 with preserves.
Qed.

Lemma wp_now_clock T (Q : DateTime → W → Prop) (w : W) :
  clock_in T w → (∀ t w', T t → clock_in T w' → keeps w w' → Q t w') → wp utc_now Q w.
Proof. intros Hw HQ. apply HQ; [apply Hw|by apply clock_utc_now|done]. Qed.

(** What each pass may make of a record. *)
Definition swept (sb sb' : Sandbox) : Prop :=
  sb_state sb' = Destroyed ∧ sb_container_id sb' = None ∧ is_Some (sb_deleted_at sb') ∧
  sb_api_key_id sb' = sb_api_key_id sb.

Definition only_stopped (sb sb' : Sandbox) : Prop :=
  sb_state sb' = Stopped ∧ sb_container_id sb' = sb_container_id sb ∧
  (is_Some (sb_deleted_at sb') ↔ is_Some (sb_deleted_at sb)) ∧
  sb_api_key_id sb' = sb_api_key_id sb.

(** Every record is as it was, or [may] be changed and is then [R] to what it
    was. *)
Definition changes (may : Sandbox → Prop) (R : Sandbox → Sandbox → Prop) (w w' : W) : Prop :=
  ok w' ∧ ∀ id, db w' !! id = db w !! id ∨
    ∃ sb sb', db w !! id = Some sb ∧ db w' !! id = Some sb' ∧ may sb ∧ R sb sb'.

Lemma changes_refl may R w : ok w → changes may R w w.
Proof. intros Hok. split; [done|by left]. Qed.

Lemma changes_same may R w w1 w2 : changes may R w w1 → ok w2 → db w2 = db w1 → changes may R w w2.
Proof. intros [H1 H2] K1 K2. split; [done|]. by rewrite K2. Qed.

(** One record more is rewritten: [R] must hold again when it was changed
    before. *)
Lemma changes_insert (may : Sandbox → Prop) R w w1 w2 id sb0 sb :
  changes may R w w1 → db w !! id = Some sb0 → may sb0 →
  (db w1 !! id = Some sb0 ∨ (∃ sb1, db w1 !! id = Some sb1 ∧ R sb0 sb1) → R sb0 sb) →
  ok w2 → db w2 = <[id := sb]> (db w1) → changes may R w w2.
Proof.
  intros [H1 H2] Hid Hmay HR K1 K2. split; [done|]. intros id'. rewrite K2.
  destruct (decide (id' = id)) as [->|Hne].
  - rewrite lookup_insert_eq. right. exists sb0, sb. split_and!; [done..|]. apply HR.
    destruct (H2 id) as [->|(sb1 & sb2 & E1 & E2 & _ & HR')]; [by left|].
    simplify_eq. eauto.
  - rewrite lookup_insert_ne by done. apply H2.
Qed.

Lemma changes_lookup may R w w1 id sb0 :
  changes may R w w1 → db w !! id = Some sb0 →
  ∃ sb1, db w1 !! id = Some sb1 ∧ (sb1 = sb0 ∨ R sb0 sb1).
Proof.
  intros [_ Hch] Hid. destruct (Hch id) as [->|(sb & sb' & E1 & E2 & _ & HR)]; [eauto|].
  simplify_eq. eauto.
Qed.

(** What an auto-cleanup pass that starts at [w] may touch. *)
Definition may_sweep (svc : SandboxService) (w : W) (sb : Sandbox) : Prop :=
  cleanup_skips sb = false ∧ cleanup_dry_run svc = false ∧
  ∃ k, expired svc sb (w_now w k) = true.

Lemma wp_auto_cleanup svc (w : W) :
  ok w →
  wp (auto_cleanup_pass svc) (λ _ w', changes (may_sweep svc w) swept w w') w.
Proof.
  intros Hok. set (may := may_sweep svc w). set (T := λ t, ∃ k, t = w_now w k).
  apply wp_bind, wp_list; [done|]. intros l Hl.
  eapply (wp_for_each (λ _ w', changes may swept w w' ∧ clock_in T w'));
    [split; [by apply changes_refl|by intros n; exists n]| |by intros w' []].
  intros done sb rest w1 -> [Hch Hcl].
  assert (db w !! sb_id sb = Some sb) as Hsb by (apply Hl; set_solver).
  unfold auto_cleanup_one. destruct (cleanup_skips sb) eqn:Esk; [by apply wp_ret|].
  apply wp_bind. eapply wp_now_clock; [done|]. intros t w2 [k ->] Hcl2 [K1 K2 _ _ _].
  assert (changes may swept w w2) as Hch2 by (eapply changes_same; eauto; apply K1, Hch).
  destruct (expired svc sb (w_now w k)) eqn:Ex; [|by apply wp_ret].
  destruct (cleanup_dry_run svc) eqn:Edry; [by apply wp_ret|].
  apply wp_bind, (wp_preserves (clock_in T)); [apply preserves_cleanup|done|].
  apply wp_cleanup; [apply Hch2|]. intros r w3 [Hok3 He] Hcl3. apply wp_ret. split; [|done].
  destruct (changes_lookup _ _ _ _ _ _ Hch2 Hsb) as (sb1 & Hsb1 & Hcase).
  rewrite Hsb1 in He. destruct He as [_ He].
  destruct (is_ok r); [|by eapply changes_same].
  destruct He as (t1 & t2 & Hdb). eapply changes_insert; [done|done|by split_and!; eauto| |done|done].
  intros _. unfold swept. rewrite stored_as_state, stored_as_container, stored_as_owner.
  split_and!; [done|done|by rewrite stored_as_deleted|]. simpl.
  by destruct Hcase as [->|(_ & _ & _ & ?)].
Qed.


(** The write that the two passes below share: the shown record becomes
    stopped. *)
Lemma wp_do_stopped {Y} (may : Sandbox → Prop) id sb0 sb w0 (k : Result () BoxError → M W Y) Q (w : W) :
  changes may only_stopped w0 w → db w0 !! id = Some sb0 → may sb0 →
  shown w id = Some sb →
  (∀ w', changes may only_stopped w0 w' → wp (k (Ok ())) Q w') →
  wp (now ← utc_now;
      r ← st_update (sb_set_updated_at now (sb_set_state Stopped sb)); k r) Q w.
Proof.
  intros Hch Hid Hmay Hsb HQ. assert (Hok := proj1 Hch).
  destruct (shown_Some _ _ _ Hsb) as [Hdb _]. assert (Hid' := db_keyed _ _ _ Hok Hdb).
  wp_clock. wp_write id. apply HQ. eapply changes_insert; [done|done|done| |done|by world].
  intros Hcase. unfold only_stopped.
  rewrite stored_as_state, stored_as_container, stored_as_owner, stored_as_deleted. simpl.
  destruct Hcase as [Hc|(sb1 & Hc & _ & H1 & H2 & H3)]; simplify_eq; done.
Qed.

Lemma wp_set_stopped (may : Sandbox → Prop) id sb0 w0 (Q : () → W → Prop) (w : W) :
  changes may only_stopped w0 w → db w0 !! id = Some sb0 → may sb0 →
  (∀ w', changes may only_stopped w0 w' → Q () w') →
  wp (set_stopped id) Q w.
Proof.
  intros Hch Hid Hmay HQ. apply wp_bind, wp_get; [apply Hch|]. fold (shown w id).
  destruct (shown w id) as [sb|] eqn:E; [|by apply wp_ret, HQ].
  eapply wp_do_stopped; [done..|]. intros w1 H1. by apply wp_ret, HQ.
Qed.

Lemma changes_backend may R w w1 w2 :
  changes may R w w1 → (ok w1 → ok w2) → db w2 = db w1 → changes may R w w2.
Proof. intros H1 K1 K2. eapply changes_same; eauto. apply K1, H1. Qed.

(** Which records the clean-up of inactive containers may touch. *)
Definition may_orphan (w : W) (sb : Sandbox) : Prop :=
  sb_state sb = Running ∧ is_Some (sb_container_id sb) ∧
  ∃ k, 30 < num_minutes (w_now w k - latest_activity (sb_activity sb)).

Lemma preserves_set_stopped T id : preserves (clock_in (S := S) (B := B) (A := A) T) (set_stopped id).
Proof.
  unfold set_stopped, st_get, st_update. apply preserves_bind; [eauto with preserves|].
  intros []; eauto 10 with preserves.
Qed.

Lemma wp_orphaned (w : W) :
  ok w →
  wp cleanup_orphaned_containers (λ r w',
    changes (may_orphan w) only_stopped w w' ∧
    ∃ n, r = Ok n ∧ 0 ≤ n ≤ Z.of_nat (length (run_val list_sandboxes (w_store w)))) w.
Proof.
  intros Hok. set (T := λ t, ∃ k, t = w_now w k).
  unfold cleanup_orphaned_containers. apply wp_bind.
  destruct (list_spec (w_store w) Hok) as (l & Hlist & Hl).
  unfold wp at 1, run_val, run_st, on_store. rewrite !Hlist. simpl. rewrite set_store_same.
  apply wp_bind.
  eapply (wp_for_count (λ done n w', changes (may_orphan w) only_stopped w w' ∧
            clock_in T w' ∧ 0 ≤ n ≤ Z.of_nat (length done)));
    [split_and!; [by apply changes_refl|by intros n; exists n|done|done]| |].
  2: { intros n w' (H1 & _ & H2). apply wp_ret. split; [done|]. by exists n. }
  intros done sb rest n w1 -> (Hch & Hcl & Hn). rewrite length_app. simpl.
  assert (contents (w_store w) !! sb_id sb = Some sb) as Hsb by (apply Hl; set_solver).
  unfold cleanup_orphaned_one.
  assert (∀ m w', changes (may_orphan w) only_stopped w w' → clock_in T w' → 0 ≤ m ≤ 1 →
    changes (may_orphan w) only_stopped w w' ∧ clock_in T w' ∧
    0 ≤ n + m ≤ Z.of_nat (length done + 1)) as Hend by (intros; split_and!; [done|done|lia|lia]).
  case_bool_decide as Hst; simpl; [|by apply wp_ret, Hend].
  destruct (sb_container_id sb) as [cid|] eqn:Ec; [|by apply wp_ret, Hend].
  apply wp_bind. eapply wp_now_clock; [done|]. intros t w2 [k ->] Hcl2 [K1 K2 _ _ _].
  assert (changes (may_orphan w) only_stopped w w2) as Hch2 by by eapply changes_backend.
  case_bool_decide as Hin; [|by apply wp_ret, Hend].
  apply wp_bind, (wp_preserves (clock_in T)); [apply clock_on_backend|done|].
  apply wp_backend. intros w3 J1 J2 _ _ _ Hcl3.
  assert (changes (may_orphan w) only_stopped w w3) as Hch3 by by eapply changes_backend.
  destruct (run_val _ _) as [[]|e]; [|by apply wp_ret, Hend].
  apply wp_bind, (wp_preserves (clock_in T)); [apply preserves_set_stopped|done|].
  eapply wp_set_stopped; [done|done|split_and!; [done|by rewrite Ec|by exists k]|].
  intros w4 H4 Hcl4. by apply wp_ret, Hend.
Qed.

(** one pass of the clean-up of inactive containers.  It touches only
    running sandboxes with a container that have been inactive for more than
    thirty minutes at some moment the clock shows during the pass; these end up
    stopped, with everything else that identifies them as it was, the id of the
    removed container included.  The count returned is at most that of the
    sandboxes listed. *)
Theorem cleanup_orphaned_spec (w : W) :
  ok w →
  wp cleanup_orphaned_containers (λ r w',
    changes (may_orphan w) only_stopped w w' ∧
    ∃ n, r = Ok n ∧ 0 ≤ n ≤ Z.of_nat (length (run_val list_sandboxes (w_store w)))) w.
Proof. apply wp_orphaned. Qed.

Lemma wp_monitor (w : W) :
  ok w →
  wp state_monitor_pass (λ _ w',
    changes (λ sb, sb_state sb = Running ∧ is_Some (sb_container_id sb)) only_stopped w w') w.
Proof.
  intros Hok. set (may := λ sb, sb_state sb = Running ∧ is_Some (sb_container_id sb)).
  apply wp_bind, wp_list; [done|]. intros l Hl.
  eapply (wp_for_each (λ _ w', changes may only_stopped w w')); [by apply changes_refl| |done].
  intros done sb rest w1 -> Hch.
  assert (db w !! sb_id sb = Some sb) as Hsb by (apply Hl; set_solver).
  unfold state_monitor_one. case_bool_decide; simpl; [|by apply wp_ret].
  destruct (sb_container_id sb) as [cid|] eqn:Ec; [|by apply wp_ret].
  apply wp_bind, wp_backend. intros w2 K1 K2 _ _ _.
  assert (changes may only_stopped w w2) as Hch2 by by eapply changes_backend.
  destruct (run_val _ _) as [[]|e]; [by apply wp_ret| |by apply wp_ret].
  apply wp_bind, wp_backend. intros w3 J1 J2 _ _ _.
  assert (changes may only_stopped w w3) as Hch3 by by eapply changes_backend.
  apply wp_bind, wp_get; [apply Hch3|]. fold (shown w3 (sb_id sb)).
  destruct (shown w3 (sb_id sb)) as [sb1|] eqn:E; [|by apply wp_ret].
  eapply wp_do_stopped; [done|done|by split; [|rewrite Ec]|done|].
  intros w4 H4. apply wp_record_activity. intros w5 [L1 L2 _ _ _]. by eapply changes_backend.
Qed.

(** one pass of the state monitor.  It touches only running sandboxes with a
    container; those it touches end up stopped, with everything else that
    identifies them as it was. *)
Theorem state_monitor_pass_spec (w : W) :
  ok w →
  wp state_monitor_pass (λ _ w',
    changes (λ sb, sb_state sb = Running ∧ is_Some (sb_container_id sb)) only_stopped w w') w.
Proof. apply wp_monitor. Qed.

Lemma wp_destroyed (w : W) :
  ok w →
  wp cleanup_destroyed_containers (λ r w',
    ok w' ∧ db w' = db w ∧
    ∃ n, r = Ok n ∧ 0 ≤ n ≤ Z.of_nat (length (run_val list_sandboxes (w_store w)))) w.
Proof.
  intros Hok. unfold cleanup_destroyed_containers. apply wp_bind.
  destruct (list_spec (w_store w) Hok) as (l & Hlist & Hl).
  unfold wp at 1, run_val, run_st, on_store. rewrite !Hlist. simpl. rewrite set_store_same.
  apply wp_bind.
  eapply (wp_for_count (λ done n w', (ok w' ∧ db w' = db w) ∧ 0 ≤ n ≤ Z.of_nat (length done))); [done| |].
  2: { intros n w' [[H1 H2] H3]. apply wp_ret. split_and!; [done|done|]. by exists n. }
  intros done sb rest n w1 -> [[H1 H2] Hn]. rewrite length_app. simpl.
  assert (∀ m (w' : W), ok w' ∧ db w' = db w → 0 ≤ m ≤ 1 →
    (ok w' ∧ db w' = db w) ∧ 0 ≤ n + m ≤ Z.of_nat (length done + 1)) as Hend
    by (intros; split; [done|lia]).
  unfold cleanup_destroyed_one. case_bool_decide; simpl; [|by apply wp_ret, Hend].
  destruct (sb_container_id sb) as [cid|]; [|by apply wp_ret, Hend].
  apply wp_bind, wp_backend. intros w2 K1 K2 _ _ _.
  assert (ok w2 ∧ db w2 = db w) as Hw2 by (split; [auto|congruence]).
  destruct (run_val _ _) as [cs|e]; [|by apply wp_ret, Hend].
  destruct (existsb _ _); [|by apply wp_ret, Hend].
  apply wp_bind, wp_backend. intros w3 J1 J2 _ _ _.
  assert (ok w3 ∧ db w3 = db w) as Hw3 by (destruct Hw2; split; [auto|congruence]).
  apply wp_ret. destruct (run_val _ _); by apply Hend.
Qed.

(** one pass over the containers of destroyed sandboxes changes no record;
    it removes at most one container per sandbox listed. *)
Theorem cleanup_destroyed_spec (w : W) :
  ok w →
  wp cleanup_destroyed_containers (λ r w',
    ok w' ∧ db w' = db w ∧
    ∃ n, r = Ok n ∧ 0 ≤ n ≤ Z.of_nat (length (run_val list_sandboxes (w_store w)))) w.
Proof. apply wp_destroyed. Qed.
End passes.

(** ** Witnesses *)

Module Witnesses.
Import Demo.

Lemma expired_spec_witness :
  (0 ≤ 100 - 20 →
     expired SandboxService_new Demo.live 100 = true ↔ 30 * 60 * ns_per_sec ≤ 100 - 20) ∧
  (- (60 * ns_per_sec) < 100 - 20 < 0 →
     expired SandboxService_new Demo.live 100 = bool_decide (30 = 0)) ∧
  (100 - 20 ≤ - (60 * ns_per_sec) → expired SandboxService_new Demo.live 100 = true).
Proof.
  apply (expired_spec SandboxService_new Demo.live 100); simpl; [split; vm_compute; congruence|lia].
Defined.


Lemma cleanup_orphaned_spec_witness :
  run_val cleanup_orphaned_containers Demo.world = Ok 0 ∧
  wp cleanup_orphaned_containers (λ r w',
    changes (may_orphan Demo.world) only_stopped Demo.world w' ∧
    ∃ n, r = Ok n ∧ 0 ≤ n ≤ Z.of_nat (length (run_val list_sandboxes Demo.store))) Demo.world.
Proof.
  split; [vm_compute; reflexivity|]. exact (cleanup_orphaned_spec Demo.world Demo.world_ok).
Defined.

Lemma state_monitor_pass_spec_witness :
  wp state_monitor_pass (λ _ w',
    changes (λ sb, sb_state sb = Running ∧ is_Some (sb_container_id sb)) only_stopped
      Demo.world w') Demo.world.
Proof. exact (state_monitor_pass_spec Demo.world Demo.world_ok). Defined.

Lemma cleanup_destroyed_spec_witness :
  run_val cleanup_destroyed_containers Demo.world = Ok 0 ∧
  wp cleanup_destroyed_containers (λ r w',
    ok w' ∧ db w' = db Demo.world ∧
    ∃ n, r = Ok n ∧ 0 ≤ n ≤ Z.of_nat (length (run_val list_sandboxes Demo.store))) Demo.world.
Proof.
  split; [vm_compute; reflexivity|]. exact (cleanup_destroyed_spec Demo.world Demo.world_ok).
Defined.

End Witnesses.
