(* ===== verification/KubeService.v ===== *)
(** * KubeService: the service on the Kubernetes backend

    Models [reconcile_k8s_state] of [src/api/server/mod.rs], and shows what the
    periodic tasks make of a cluster when the backend is the one of
    [KubeBackend]. *)

From S2P Require Import Prelude Text Errors Types Store World Demo Service Config Ops Tasks Kube KubeBackend.

(** What the end of the reconciliation logs. *)
Record Counts : Type := mkCounts {
  reconciled : Z;
  stopped_orphans : Z;
  errors : Z;
}.

Definition RECONCILE_MESSAGE : string := "Pod not found during startup reconciliation".

Section reconcile.
Context {S B A : Type} `{StateStoreTrait S} `{SandboxManager B} `{UuidLib}.
#[local] Abbreviation W := (World S B A).

Definition mark_stopped (sandbox : Sandbox) : Sandbox :=
  sb_set_error_message (Some RECONCILE_MESSAGE) (sb_set_state Stopped sandbox).

Definition reconcile_one (c : Counts) (sandbox : Sandbox) : M W Counts :=
  if negb (bool_decide (sb_state sandbox = Running)) then mret c
  else
    r ← on_backend (bk_is_running (uuid_to_string (sb_id sandbox)));
    match r with
    | Ok true => mret (mkCounts (reconciled c + 1) (stopped_orphans c) (errors c))
    | Ok false =>
        r ← on_store (update_sandbox (mark_stopped sandbox));
        mret (match r with
              | Err _ => mkCounts (reconciled c) (stopped_orphans c) (errors c + 1)
              | Ok _ => mkCounts (reconciled c) (stopped_orphans c + 1) (errors c)
              end)
    | Err _ => mret (mkCounts (reconciled c) (stopped_orphans c) (errors c + 1))
    end.

Fixpoint reconcile_loop (c : Counts) (db_sandboxes : list Sandbox) : M W Counts :=
  match db_sandboxes with
  | [] => mret c
  | sandbox :: rest => c' ← reconcile_one c sandbox; reconcile_loop c' rest
  end.

Definition reconcile_k8s_state : M W Counts :=
  db_sandboxes ← on_store list_sandboxes;
  reconcile_loop (mkCounts 0 0 0) db_sandboxes.
End reconcile.

(** ** Theorems *)

(** What the reconciliation makes of a record. *)
Definition marked (sb sb' : Sandbox) : Prop :=
  only_stopped sb sb' ∧ sb_created_at sb' = sb_created_at sb.

Definition running (sb : Sandbox) : bool := bool_decide (sb_state sb = Running).

Definition count_running (l : list Sandbox) : Z := Z.of_nat (length (List.filter running l)).

Lemma count_running_cons sb l :
  count_running (sb :: l) = (if running sb then 1 else 0) + count_running l.
Proof. unfold count_running. simpl. destruct (running sb); simpl; lia. Qed.

Section reconcile_spec.
Context {S B A : Type} `{!StateStoreTrait S} `{!StoreContract S} `{!SandboxManager B} `{!UuidLib}.
#[local] Abbreviation W := (World S B A).

Definition total (c : Counts) : Z := reconciled c + stopped_orphans c + errors c.

Lemma wp_reconcile_one c sandbox (w0 w : W) :
  ok w0 → changes (λ sb, sb_state sb = Running) marked w0 w →
  db w0 !! sb_id sandbox = Some sandbox →
  wp (reconcile_one c sandbox) (λ c' w',
    changes (λ sb, sb_state sb = Running) marked w0 w' ∧
    total c' = total c + (if running sandbox then 1 else 0)) w.
Proof.
  intros Hok0 Hch Hid. unfold reconcile_one, running. case_bool_decide as Hrun; simpl.
  2:{ apply wp_ret. split; [done|]. lia. }
  apply wp_bind, wp_backend. intros w1 K1 K2 _ _ _.
  assert (changes (λ sb, sb_state sb = Running) marked w0 w1) as Hch1 by by eapply changes_backend.
  destruct (run_val _ _) as [[]|e];
    [apply wp_ret; split; [done|]; unfold total; simpl; lia| |
     apply wp_ret; split; [done|]; unfold total; simpl; lia].
  destruct (changes_lookup _ _ _ _ _ _ Hch1 Hid) as (sb1 & Hsb1 & Hcase).
  assert (sb_created_at sb1 = sb_created_at sandbox) as Hcr by (by destruct Hcase as [->|[_ ->]]).
  apply wp_bind, wp_on_store.
  destruct (update_spec (mark_stopped sandbox) sb1 (w_store w1)) as (s' & Hu & Hs & Hc).
  { apply Hch1. }
  { done. }
  { rewrite Hcr. exact (contents_created _ _ _ Hok0 Hid). }
  unfold wp at 1, run_val, run_st. rewrite Hu. simpl. apply wp_ret. split.
  - eapply changes_insert; [exact Hch1|exact Hid|done| |done|exact Hc].
    intros _. unfold marked, only_stopped.
    rewrite stored_as_state, stored_as_container, stored_as_owner, stored_as_deleted,
      stored_as_created. split_and!; try done.
    exact (contents_created _ _ _ Hok0 Hid).
  - unfold total. simpl. lia.
Qed.

Lemma wp_reconcile_loop l c (w0 w : W) :
  ok w0 → changes (λ sb, sb_state sb = Running) marked w0 w →
  (∀ sb, sb ∈ l → db w0 !! sb_id sb = Some sb) →
  wp (reconcile_loop c l) (λ c' w',
    changes (λ sb, sb_state sb = Running) marked w0 w' ∧ total c' = total c + count_running l) w.
Proof.
  intros Hok0. revert c w. induction l as [|sb l IH]; intros c w Hch Hl; cbn [reconcile_loop].
  - apply wp_ret. split; [done|]. unfold count_running. simpl. lia.
  - apply wp_bind. eapply wp_mono; [apply wp_reconcile_one; [done..|apply Hl; by left]|].
    intros c1 w1 [Hch1 Ht1]. eapply wp_mono; [apply IH; [done|]|].
    { intros sb' Hin. apply Hl. by right. }
    intros c2 w2 [Hch2 Ht2]. split; [done|]. rewrite Ht2, Ht1, count_running_cons. lia.
Qed.

(** The reconciliation at startup, over any backend.  It touches only records
    of running sandboxes; those it touches become stopped, and keep their
    container, their owner and their time of creation.  Every running sandbox
    listed is counted exactly once: as verified, as stopped, or as an error. *)
Theorem reconcile_k8s_state_spec (w : W) (Hok : ok w) :
  wp reconcile_k8s_state (λ c w',
    changes (λ sb, sb_state sb = Running) marked w w' ∧
    total c = count_running (run_val list_sandboxes (w_store w))) w.
Proof.
  unfold reconcile_k8s_state. apply wp_bind.
  destruct (list_spec (w_store w) Hok) as (l & Hlist & Hl).
  unfold wp at 1, run_val, run_st, on_store. rewrite !Hlist. simpl. rewrite set_store_same.
  eapply wp_mono; [apply (wp_reconcile_loop l _ w); [done|by apply changes_refl|done]|].
  intros c w' [? Ht]. split; [done|]. rewrite Ht. unfold total. simpl. lia.
Qed.
End reconcile_spec.

(** *** A pod that is missing *)

Section missing.
Context {S K A : Type} `{!StateStoreTrait S} `{!StoreContract S} `{!ActivityStoreTrait A}.
Context `{KubeLaws K} `{!UuidLib} `{!TolerationLib} `{!ChronoLib}.
Context (config : Config).
#[local] Abbreviation W := (World S K A).

(** The service runs on this backend. *)
#[local] Instance kube_backend : SandboxManager K := KubernetesManager config.

(** No pod is left in the namespace, and the server says so. *)
Definition no_pods (w : W) : Prop := cl_pods (w_backend w) = ∅ ∧ answers (w_backend w).

Lemma is_running_missing id (k : K) :
  cl_pods k = ∅ → answers k →
  ∃ e k', is_running (K := K) id k = (Err e, k') ∧ cl_pods k' = ∅ ∧ answers k'.
Proof.
  intros Hnone Ha. pose proof (law_pods_get (sandbox_resource_name id) k) as Hl.
  unfold wp, run_val, run_st in Hl. unfold is_running, mapped, try_.
  rewrite !M_bind_unfold. destruct (pods_get _ k) as [r k'] eqn:E. cbn [fst snd] in *.
  destruct Hl as ([Hp _ _ Ha'] & _ & Hl). rewrite Hnone, lookup_empty in Hl.
  destruct r as [pod|e]; simpl in *; [done|]. eexists _, k'.
  split_and!; [reflexivity|congruence|auto].
Qed.

Lemma wp_is_running_missing {X} id (k : ManagerResult bool → M W X) Q (w : W) :
  no_pods w →
  (∀ e w', w_store w' = w_store w → no_pods w' → wp (k (Err e)) Q w') →
  wp (on_backend (is_running (K := K) id) ≫= k) Q w.
Proof.
  intros [Hn Ha] HQ. apply wp_bind, wp_on_backend.
  destruct (is_running_missing id (w_backend w) Hn Ha) as (e & k' & Hr & Hn' & Ha').
  unfold wp at 1, run_val, run_st. rewrite Hr. simpl. by apply HQ.
Qed.

(** A pod that is missing is not noticed.  When the cluster was reset, so that
    no pod is left, neither the reconciliation at startup nor a pass of the state
    monitor changes any record: a missing pod is an error of [is_running], and
    both let errors be.  Every running sandbox stays running in the store, and is
    counted as an error. *)
Theorem missing_pods_unnoticed (w : W) (Hok : ok w) (Hno : no_pods w) :
  wp reconcile_k8s_state (λ c w',
    w_store w' = w_store w ∧ reconciled c = 0 ∧ stopped_orphans c = 0 ∧
    errors c = count_running (run_val list_sandboxes (w_store w))) w ∧
  wp state_monitor_pass (λ _ w', w_store w' = w_store w) w.
Proof.
  destruct (list_spec (w_store w) Hok) as (l & Hlist & _). split.
  - unfold reconcile_k8s_state. apply wp_bind.
    unfold wp at 1, run_val, run_st, on_store. rewrite !Hlist. simpl. rewrite set_store_same.
    clear Hlist Hok.
    assert (∀ c (w0 : W), no_pods w0 → wp (reconcile_loop c l) (λ c' w',
      w_store w' = w_store w0 ∧ reconciled c' = reconciled c ∧
      stopped_orphans c' = stopped_orphans c ∧ errors c' = errors c + count_running l) w0) as Hloop.
    { induction l as [|sb l IH]; intros c w0 Hn0; cbn [reconcile_loop].
      - apply wp_ret. split_and!; try done. unfold count_running. simpl. lia.
      - apply wp_bind. rewrite count_running_cons. unfold reconcile_one, running.
        case_bool_decide; cbn [negb].
        + apply wp_is_running_missing; [done|]. intros e w1 Hs1 Hn1. apply wp_ret.
          eapply wp_mono; [by apply IH|]. intros c' w' (-> & -> & -> & ->). simpl.
          split_and!; try done. lia.
        + apply wp_ret. eapply wp_mono; [by apply IH|]. by intros c' w' (-> & -> & -> & ->). }
    eapply wp_mono; [by apply Hloop|]. intros c w' (-> & -> & -> & ->). simpl. done.
  - unfold state_monitor_pass. apply wp_bind.
    unfold wp at 1, run_val, run_st, on_store. rewrite !Hlist. simpl. rewrite set_store_same.
    eapply (wp_for_each (λ _ w', w_store w' = w_store w ∧ no_pods w')); [done| |by intros w' []].
    intros done_ sb rest w1 _ [Hs1 Hn1]. unfold state_monitor_one.
    case_bool_decide; simpl; [|by apply wp_ret].
    destruct (sb_container_id sb) as [cid|]; [|by apply wp_ret].
    apply wp_is_running_missing; [done|]. intros e w2 Hs2 Hn2. apply wp_ret.
    split; [congruence|done].
Qed.
End missing.

(** ** Witnesses *)

Module Witnesses.
Import KubeDemo.
#[local] Existing Instance Demo.uuids.
#[local] Existing Instances Demo.backend Demo.activities Demo.chrono.

Lemma reconcile_k8s_state_spec_witness :
  wp reconcile_k8s_state (λ c (w' : Demo.World),
    changes (λ sb, sb_state sb = Running) marked Demo.world w' ∧
    total c = count_running (run_val list_sandboxes Demo.store)) Demo.world.
Proof. exact (reconcile_k8s_state_spec Demo.world Demo.world_ok). Defined.

(** The store of [Demo], on a cluster without pods. *)
Definition reset : World StateStore DemoCluster (list SandboxActivity) :=
  mkWorld Demo.store (mkDemo ∅ ∅ ∅ 0 false []) None (λ n, 1000 + Z.of_nat n)
    (λ n, Z.of_nat n) (λ n, N.of_nat n) [] [].

Lemma missing_pods_unnoticed_witness :
  ∃ w', (reconcile_k8s_state (H0 := KubernetesManager config0) reset).2 = w' ∧
    w_store w' = Demo.store.
Proof.
  assert (no_pods reset) as Hno by (split; [reflexivity|exact I]).
  destruct (missing_pods_unnoticed config0 reset Demo.world_ok Hno) as [[Hs _] _].
  eexists. split; [reflexivity|exact Hs].
Defined.

End Witnesses.
