(* ===== verification/Lifecycle.v ===== *)
(** * Lifecycle: the sandbox service as a state machine

    [step] puts the handlers, the spawned tasks and the background passes
    together: a transition runs one of them to its end, in any order, with the
    backend, the clocks and the activity log free to change in between.  Its
    abstract specification is a small state machine per record ([move]); the
    refinement theorem says that every transition of the service moves every
    record along it, and the invariants are proved on the abstract machine by
    rule induction. *)

From stdpp Require Import relations.
From S2P Require Import Prelude Text Errors Types Store Features World Demo Service Ops Create Tasks.

(** ** The abstract machine of one record *)

Record AbsSandbox : Type := Abs {
  a_state : SandboxState;
  a_container : bool;
  a_deleted : bool;
  a_owner : option Uuid;
}.

Definition is_some {X} (o : option X) : bool :=
  match o with Some _ => true | None => false end.

Definition abs (sb : Sandbox) : AbsSandbox :=
  Abs (sb_state sb) (is_some (sb_container_id sb)) (is_some (sb_deleted_at sb))
    (sb_api_key_id sb).

Inductive initial : AbsSandbox → Prop :=
  | init_creating o : initial (Abs Creating false false o)
  | init_starting o : initial (Abs Starting true false o)
  | init_running o : initial (Abs Running true false o)
  | init_error c o : initial (Abs Error c false o).

Inductive move : AbsSandbox → AbsSandbox → Prop :=
  | move_stop s c d o : move (Abs s c d o) (Abs Stopped c d o)
  | move_start s d o : move (Abs s true d o) (Abs Running true d o)
  | move_destroy s c d o : move (Abs s c d o) (Abs Destroyed false true o)
  | move_restore s c o : move (Abs s c true o) (Abs Running true false o)
  | move_restore_failed s c o : move (Abs s c true o) (Abs Error false true o)
  | move_promote c d o : move (Abs Starting c d o) (Abs Running c d o).

(** A deleted record has no container, a running or starting one has one, and
    a destroyed one is deleted. *)
Definition wf (a : AbsSandbox) : Prop :=
  (a_deleted a = true → a_container a = false) ∧
  (a_state a = Running ∨ a_state a = Starting → a_container a = true) ∧
  (a_state a = Destroyed → a_deleted a = true) ∧
  a_state a ≠ Created ∧ a_state a ≠ Destroying.

Lemma wf_initial a : initial a → wf a.
Proof. unfold wf. intros []; simpl; intuition (try congruence). Qed.

Lemma wf_move a a' : move a a' → wf a → wf a'.
Proof. unfold wf. intros []; simpl; intuition (try congruence). Qed.

Lemma move_owner a a' : move a a' → a_owner a' = a_owner a.
Proof. by intros []. Qed.

(** ** The transitions of the service *)

Section lifecycle.
Context {S B A : Type}.
Context `{!StateStoreTrait S} `{!StoreContract S}.
Context `{!SandboxManager B} `{!ActivityStoreTrait A}.
Context `{!UuidLib} `{!LabelParser} `{!ChronoLib}.
#[local] Abbreviation W := (World S B A).

Definition set_tasks (ts : list Task) (w : W) : W :=
  mkWorld (w_store w) (w_backend w) (w_activity w) (w_now w) (w_instant w) (w_fresh w)
    ts (w_events w).

Inductive step (svc : SandboxService) : W → W → Prop :=
  (* requests; a fresh UUID is not the id of a record *)
  | step_create config identity w :
      db w !! w_fresh w 0%nat = None →
      step svc w (run_st (create_sandbox svc config identity) w)
  | step_create_streaming config identity w :
      step svc w (run_st (create_sandbox_with_progress svc config identity) w)
  | step_stop id w : step svc w (run_st (stop_sandbox id) w)
  | step_start id w : step svc w (run_st (start_sandbox id) w)
  | step_delete id w : step svc w (run_st (delete_sandbox id) w)
  | step_cleanup id w : step svc w (run_st (cleanup_sandbox id) w)
  | step_restore id w : step svc w (run_st (restore_sandbox id) w)
  | step_shutdown id w : step svc w (run_st (shutdown_cleanup_sandbox id) w)
  | step_record_api id w : step svc w (run_st (record_api_activity id) w)
  | step_container_activity id w : step svc w (run_st (update_container_activity id) w)
  (* spawned tasks, removed from the list when they run *)
  | step_health fuel id cid ts1 ts2 w :
      w_tasks w = ts1 ++ HealthCheck id cid :: ts2 →
      let w1 := set_tasks (ts1 ++ ts2) w in
      run_val (run_health_check fuel id cid) w1 = Some () →
      step svc w (run_st (run_health_check fuel id cid) w1)
  | step_streaming fuel id config identity ts1 ts2 w :
      w_tasks w = ts1 ++ StreamingCreate id config identity :: ts2 →
      db w !! id = None →
      let w1 := set_tasks (ts1 ++ ts2) w in
      run_val (run_streaming_create fuel id config identity) w1 = Some () →
      step svc w (run_st (run_streaming_create fuel id config identity) w1)
  (* ticks of the background tasks *)
  | step_auto_cleanup w : step svc w (run_st (auto_cleanup_pass svc) w)
  | step_orphaned w : step svc w (run_st cleanup_orphaned_containers w)
  | step_destroyed w : step svc w (run_st cleanup_destroyed_containers w)
  | step_monitor w : step svc w (run_st state_monitor_pass w)
  (* the environment *)
  | step_env w w' :
      w_store w' = w_store w → w_tasks w' = w_tasks w → step svc w w'.

(** ** The simulation relation *)

(** Every record has moved along the machine, and new ones are initial. *)
Definition simulates (w w' : W) : Prop :=
  ok w' ∧ ∀ id,
    match db w !! id, db w' !! id with
    | Some sb, Some sb' => rtc move (abs sb) (abs sb')
    | None, Some sb' => initial (abs sb')
    | None, None => True
    | Some _, None => False
    end.

Lemma simulates_same w w' : ok w' → db w' = db w → simulates w w'.
Proof. intros Hok Hdb. split; [done|]. intros id. rewrite Hdb. by destruct (db w !! id). Qed.

Lemma abs_stored_as sb : abs (stored_as sb) = abs sb.
Proof.
  unfold abs. rewrite stored_as_state, stored_as_container, stored_as_owner. f_equal.
  assert (Hd := stored_as_deleted sb).
  destruct (sb_deleted_at (stored_as sb)), (sb_deleted_at sb); simpl; try done;
    destruct Hd as [Hl Hr]; [by destruct Hl|by destruct Hr].
Qed.

(** One record rewritten by a move. *)
Lemma simulates_becomes w w' id sb f :
  ok w' → db w !! id = Some sb → becomes w w' id f →
  (∀ t1 t2, rtc move (abs sb) (abs (f t1 t2))) → simulates w w'.
Proof.
  intros Hok Hsb (t1 & t2 & Hdb) Hf. split; [done|]. intros id'. rewrite Hdb.
  destruct (decide (id' = id)) as [->|Hne].
  - rewrite Hsb, lookup_insert_eq, abs_stored_as. apply Hf.
  - rewrite lookup_insert_ne by done. by destruct (db w !! id').
Qed.

Lemma simulates_new w w' id sb :
  ok w' → db w !! id = None → db w' = <[id := stored_as sb]> (db w) →
  initial (abs sb) → simulates w w'.
Proof.
  intros Hok Hid Hdb Hin. split; [done|]. intros id'. rewrite Hdb.
  destruct (decide (id' = id)) as [->|Hne].
  - by rewrite Hid, lookup_insert_eq, abs_stored_as.
  - rewrite lookup_insert_ne by done. by destruct (db w !! id').
Qed.

Lemma simulates_changes may R w w' :
  changes may R w w' → (∀ sb sb', may sb → R sb sb' → rtc move (abs sb) (abs sb')) →
  simulates w w'.
Proof.
  intros [Hok Hch] HR. split; [done|]. intros id.
  destruct (Hch id) as [->|(sb & sb' & -> & -> & Hmay & H')]; [by destruct (db w !! id)|].
  by apply HR.
Qed.

Lemma simulates_effect w w' id o outcome f r :
  effect w w' id o outcome f r → (∀ sb, o = Some sb → db w !! id = Some sb) →
  (∀ sb t1 t2, outcome sb = Ok () → rtc move (abs sb) (abs (f sb t1 t2))) →
  simulates w w'.
Proof.
  intros [Hok He] Ho Hf. destruct o as [sb|]; [|by apply simulates_same; [|apply He]].
  destruct He as [-> He]. destruct (outcome sb) as [[]|e] eqn:Eo; [|by apply simulates_same].
  simpl in He. eapply simulates_becomes; eauto.
Qed.

Lemma simulates_touch w w' id f :
  touch_effect w w' id f → (∀ sb t1 t2, abs (f sb t1 t2) = abs sb) → simulates w w'.
Proof.
  intros [Hok He] Hf. destruct (shown w id) as [sb|] eqn:E; [|by apply simulates_same].
  destruct (shown_Some _ _ _ E) as [Hdb _].
  eapply simulates_becomes; eauto. intros. by rewrite Hf.
Qed.

(** A single run that meets a postcondition implying the simulation. *)
Lemma simulates_wp {X} (m : M W X) (w : W) :
  wp m (λ _ w', simulates w w') w → simulates w (run_st m w).
Proof. done. Qed.

Lemma abs_moved st sb t1 t2 :
  abs (moved st sb t1 t2) = Abs st (is_some (sb_container_id sb)) (is_some (sb_deleted_at sb))
                              (sb_api_key_id sb).
Proof. done. Qed.

Lemma simulates_restore w w' id r : ok w → restore_effect w w' id r → simulates w w'.
Proof.
  intros Hok [Hok' He]. destruct (db w !! id) as [sb|] eqn:Hsb;
    [|by apply simulates_same; [|apply He]].
  case_bool_decide as Hdel; [by apply simulates_same; [|apply He]|].
  destruct (create_container_for_sandbox sb w) as [[cid|e] w1];
    [|by apply simulates_same; [|apply He]].
  destruct He as (_ & t & He). eapply simulates_becomes; [done|done|done|].
  intros t1 t2. apply rtc_once. unfold abs. destruct (sb_deleted_at sb); [|done].
  destruct (is_ok r); simpl; constructor.
Qed.

Lemma simulates_create svc config identity w r w' :
  create_result svc config identity w r w' → db w !! w_fresh w 0%nat = None → simulates w w'.
Proof.
  intros (Hok & sb & [Hid Ho Hl _ _ _] & Hdb & Hr) Hfresh.
  eapply simulates_new; [done|done|done|]. unfold abs. rewrite Hl. simpl.
  destruct r as [sb'|e].
  - destruct Hr as (_ & cid & -> & Hr). simpl.
    destruct (needs_tool_proxy _); destruct Hr as [-> _]; constructor.
  - destruct Hr as (-> & _). constructor.
Qed.

Lemma simulates_streaming id identity w w' :
  streaming_result id identity w (Some ()) w' → db w !! id = None → simulates w w'.
Proof.
  intros [Hok He] Hfresh. destruct (He eq_refl) as (sb & evs & e & (Hid & Ho & Hl) & Hdb & _ & _ & _ & Hag).
  eapply simulates_new; [done|done|done|]. unfold abs. rewrite Hl. simpl.
  destruct e as [| | |id' cid|m]; try done.
  - destruct Hag as (_ & -> & ->). constructor.
  - destruct Hag as [[-> _]|(-> & -> & _)]; constructor.
Qed.

Lemma set_tasks_ok ts (w : W) : ok (set_tasks ts w) ↔ ok w.
Proof. done. Qed.

Lemma simulates_promoted w w' id :
  ok w' → promoted w w' id → simulates w w'.
Proof.
  intros Hok Hp. unfold promoted in Hp. destruct (shown w id) as [sb|] eqn:E;
    [|by apply simulates_same].
  destruct (shown_Some _ _ _ E) as [Hdb _].
  case_bool_decide as Hst; [|by apply simulates_same].
  eapply simulates_becomes; [done|done|done|]. intros t1 t2. rewrite abs_moved.
  apply rtc_once. unfold abs. rewrite Hst. constructor.
Qed.

Lemma abs_soft_deleted t1 t2 who sb :
  abs (soft_deleted t1 t2 who sb) = Abs Destroyed false true (sb_api_key_id sb).
Proof. done. Qed.

(** Stop and the other operations that share its shape. *)
Lemma simulates_stop w w' id o outcome r :
  effect w w' id o outcome (moved Stopped) r → (∀ sb, o = Some sb → db w !! id = Some sb) →
  simulates w w'.
Proof.
  intros He Ho. eapply simulates_effect; [done|done|]. intros sb t1 t2 _.
  apply rtc_once. constructor.
Qed.

Lemma simulates_start w w' id r :
  effect w w' id (shown w id) (start_outcome w) (moved Running) r → simulates w w'.
Proof.
  intros He. eapply simulates_effect; [done|intros sb Hsb; apply shown_Some in Hsb; tauto|].
  intros sb t1 t2 Hs. rewrite abs_moved. unfold abs. unfold start_outcome in Hs.
  destruct (sb_container_id sb); [|done]. apply rtc_once. constructor.
Qed.

Lemma simulates_destroy w w' id outcome who r :
  effect w w' id (db w !! id) outcome (λ sb t1 t2, soft_deleted t1 t2 who sb) r →
  simulates w w'.
Proof.
  intros He. eapply simulates_effect; [done|done|]. intros sb t1 t2 _.
  apply rtc_once. rewrite abs_soft_deleted. constructor.
Qed.

Lemma simulates_only_stopped may w w' : changes may only_stopped w w' → simulates w w'.
Proof.
  intros Hch. eapply simulates_changes; [done|]. intros sb sb' _ (Hs & Hc & Hd & Ho).
  apply rtc_once. unfold abs. rewrite Hs, Hc, Ho.
  replace (is_some (sb_deleted_at sb')) with (is_some (sb_deleted_at sb)); [constructor|].
  destruct (sb_deleted_at sb), (sb_deleted_at sb'); try done;
    destruct Hd as [Hl Hr]; [by destruct Hr|by destruct Hl].
Qed.

Lemma simulates_swept may w w' : changes may swept w w' → simulates w w'.
Proof.
  intros Hch. eapply simulates_changes; [done|]. intros sb sb' _ (Hs & Hc & [d Hd] & Ho).
  apply rtc_once. unfold abs. rewrite Hs, Hc, Hd, Ho. constructor.
Qed.

Lemma step_simulates svc w w' : step svc w w' → ok w → simulates w w'.
Proof.
  intros Hstep Hok.
  assert (∀ id sb, shown w id = Some sb → db w !! id = Some sb) as Hshown.
  { intros id sb Hsb. by destruct (shown_Some _ _ _ Hsb). }
  destruct Hstep as [config identity w Hf|config identity w|id w|id w|id w|id w|id w|id w|id w
    |id w|fuel id cid ts1 ts2 w _ w1 Hr|fuel id config identity ts1 ts2 w _ Hf w1 Hr
    |w|w|w|w|w w' Hs _].
  - apply simulates_wp, wp_create_sandbox; [done..|]. intros. by eapply simulates_create.
  - by apply simulates_same.
  - apply simulates_wp, wp_stop; [done|]. intros. eapply simulates_stop; eauto.
  - apply simulates_wp, wp_start; [done|]. intros. by eapply simulates_start.
  - apply simulates_wp, wp_delete; [done|]. intros. by eapply simulates_destroy.
  - apply simulates_wp, wp_cleanup; [done|]. intros. by eapply simulates_destroy.
  - apply simulates_wp, wp_restore; [done|]. intros. by eapply simulates_restore.
  - apply simulates_wp, wp_shutdown; [done|]. intros. eapply simulates_stop; eauto.
  - apply simulates_wp, wp_record_api; [done|]. intros. by eapply simulates_touch.
  - apply simulates_wp, wp_update_container; [done|]. intros. by eapply simulates_touch.
  - assert (wp (run_health_check fuel id cid) (λ r w', r = Some () → simulates w1 w') w1) as H'.
    { apply wp_run_health_check; [done|]. intros [] w' Hok' Hp; [|done].
      intros _. by eapply simulates_promoted. }
    by apply H'.
  - assert (wp (run_streaming_create fuel id config identity)
              (λ r w', r = Some () → simulates w1 w') w1) as H'.
    { apply wp_run_streaming_create; [done..|]. intros r w' Hres ->.
      by eapply simulates_streaming. }
    by apply H'.
  - apply simulates_wp. eapply wp_mono; [by apply wp_auto_cleanup|].
    intros ? w' Hch. eapply simulates_swept. exact Hch.
  - apply simulates_wp. eapply wp_mono; [by apply wp_orphaned|].
    intros _ w' [Hc _]. by eapply simulates_only_stopped.
  - apply simulates_wp. eapply wp_mono; [by apply wp_destroyed|].
    intros _ w' (H1' & H2' & _). by apply simulates_same.
  - apply simulates_wp. eapply wp_mono; [by apply wp_monitor|].
    intros ? w' Hch. eapply simulates_only_stopped. exact Hch.
  - apply simulates_same; unfold ok, db; by rewrite Hs.
Qed.


Lemma steps_simulate svc w w' :
  rtc (step svc) w w' → ok w →
  ok w' ∧ ∀ id,
    match db w !! id, db w' !! id with
    | Some sb, Some sb' => rtc move (abs sb) (abs sb')
    | None, Some sb' => ∃ a0, initial a0 ∧ rtc move a0 (abs sb')
    | None, None => True
    | Some _, None => False
    end.
Proof.
  intros Hsteps Hok. induction Hsteps as [w|w w1 w' Hstep _ IH].
  - split; [done|]. intros id. by destruct (db w !! id).
  - destruct (step_simulates _ _ _ Hstep Hok) as [Hok1 Hs1].
    destruct (IH Hok1) as [Hok' Hs2]. split; [done|]. intros id.
    specialize (Hs1 id). specialize (Hs2 id).
    destruct (db w !! id), (db w1 !! id), (db w' !! id); try done; eauto using rtc_trans.
Qed.

Lemma wf_moves a a' : rtc move a a' → wf a → wf a'.
Proof. induction 1; eauto using wf_move. Qed.

Lemma owner_moves a a' : rtc move a a' → a_owner a' = a_owner a.
Proof. induction 1 as [|a b c Hm _ IH]; [done|]. by rewrite IH, (move_owner _ _ Hm). Qed.

(** C2: safety.  In every world reachable from an empty store, a soft-deleted
    record has no container, a running or starting one has a container, hence
    is not deleted, a destroyed one is soft-deleted, and no record is in the
    created or destroying state. *)
Theorem reachable_records svc w w' id sb :
  ok w → db w = ∅ → rtc (step svc) w w' → db w' !! id = Some sb →
  (is_Some (sb_deleted_at sb) → sb_container_id sb = None) ∧
  (sb_state sb = Running ∨ sb_state sb = Starting →
     is_Some (sb_container_id sb) ∧ sb_deleted_at sb = None) ∧
  (sb_state sb = Destroyed → is_Some (sb_deleted_at sb)) ∧
  sb_state sb ≠ Created ∧ sb_state sb ≠ Destroying.
Proof.
  intros Hok He Hsteps Hsb. destruct (steps_simulate _ _ _ Hsteps Hok) as [_ Hs].
  specialize (Hs id). rewrite Hsb, He, lookup_empty in Hs. destruct Hs as (a0 & Ha0 & Hm).
  destruct (wf_moves _ _ Hm (wf_initial _ Ha0)) as (W1 & W2 & W3 & W4 & W5). simpl in *.
  destruct (sb_deleted_at sb), (sb_container_id sb); simpl in *;
    split_and!; intros; try done; eauto; try (by destruct W1); try (by destruct W2); try (by destruct W3).
  all: try (by specialize (W1 eq_refl)). all: try (by specialize (W2 ltac:(assumption))).
  all: try (by specialize (W3 ltac:(assumption))). all: try by inversion select (is_Some None).
  all: split; [eauto|done].
Qed.

(** records outlive every history of the service: from any world, a record
    is never dropped and never changes owner. *)
Theorem records_persist svc w w' id sb :
  ok w → rtc (step svc) w w' → db w !! id = Some sb →
  ∃ sb', db w' !! id = Some sb' ∧ sb_api_key_id sb' = sb_api_key_id sb.
Proof.
  intros Hok Hsteps Hsb. destruct (steps_simulate _ _ _ Hsteps Hok) as [_ Hs].
  specialize (Hs id). rewrite Hsb in Hs. destruct (db w' !! id) as [sb'|]; [|done].
  exists sb'. split; [done|]. by apply owner_moves in Hs.
Qed.
End lifecycle.

(** ** Witnesses *)

Module Witnesses.
Import Demo.

#[local] Instance parser : LabelParser := {| parse_label := λ _, Err "no label" |}.

(** An empty store, a sandbox created in it, and that sandbox stopped. *)
Definition w0 : Demo.World := set_store StateStore_new Demo.world.
Definition w1 : Demo.World :=
  run_st (create_sandbox SandboxService_new SandboxConfig_default None) w0.
Definition w2 : Demo.World := run_st (stop_sandbox 100%N) w1.

Lemma w0_ok : ok w0.
Proof. apply map_Forall_empty. Qed.

Lemma history : rtc (step SandboxService_new) w0 w2.
Proof.
  eapply rtc_l; [apply step_create; reflexivity|]. apply rtc_once, step_stop.
Qed.


Lemma reachable_records_witness :
  ∃ sb, db w2 !! 100%N = Some sb ∧ sb_state sb = Stopped ∧
    (is_Some (sb_deleted_at sb) → sb_container_id sb = None).
Proof.
  destruct (db w2 !! 100%N) as [sb|] eqn:E; [|vm_compute in E; congruence].
  exists sb. split; [reflexivity|]. split.
  - vm_compute in E. injection E as <-. reflexivity.
  - exact (proj1 (reachable_records SandboxService_new w0 w2 100%N sb w0_ok eq_refl history E)).
Defined.

Lemma records_persist_witness :
  db Demo.world !! 1%N = Some Demo.live ∧
  ∃ sb', db (run_st (delete_sandbox 1%N) Demo.world) !! 1%N = Some sb' ∧
    sb_api_key_id sb' = Some 7%N.
Proof.
  split; [reflexivity|].
  apply (records_persist SandboxService_new Demo.world _ 1%N Demo.live Demo.world_ok);
    [apply rtc_once, step_delete|reflexivity].
Defined.

End Witnesses.
