(* ===== verification/Postgres.v ===== *)
(** * Postgres: the production store

    Models [src/db/store/helpers.rs], [src/db/store/sandbox.rs] and
    [src/db/store/sandbox_ops.rs]: how a sandbox becomes a row of the
    [sandboxes] table and back, every query of the store with its [SELECT]
    list, its [WHERE] clause and its parameters, and the maintenance
    statements.  A row is a list of columns with SQL values; a statement reads
    or writes the table in one step.  PostgreSQL's own conversions (rounding a
    timestamp to microseconds, normalising JSON) and the derived JSON code are
    parameters.  Text is assumed free of NUL characters, which PostgreSQL
    refuses. *)

From S2P Require Import Prelude Text Errors Types Store World Demo.

Inductive SqlValue : Type :=
  | SqlNull
  | SqlUuid (u : Uuid)
  | SqlText (s : string)
  | SqlJson (j : Json)
  | SqlInt (z : Z)
  | SqlBool (b : bool)
  | SqlTime (t : DateTime).

Definition Row : Type := list (string * SqlValue).

(** What belongs to PostgreSQL and to tokio_postgres: the rounding of
    timestamps, the normal form of JSON, [LIKE], and texts of errors. *)
Class PgLib := {
  pg_timestamp : DateTime → DateTime;
  pg_jsonb : Json → Json;
  pg_like : string → string → bool;
  column_error : string → string;
  pg_error : string → string;
}.

Class PgLaws `{PgLib} : Prop := {
  pg_timestamp_idem t : pg_timestamp (pg_timestamp t) = pg_timestamp t;
  pg_jsonb_null j : pg_jsonb j = JNull ↔ j = JNull;
}.

(** The derived [Serialize]/[Deserialize] of a type, and that a value survives
    the way through a JSONB column. *)
Class SerdeJson (T : Type) := {
  to_value : T → Json;
  from_value : Json → Result T string;
}.

Class SerdeLaws (T : Type) `{PgLib, SerdeJson T} : Prop := {
  from_to_value (x : T) : from_value (pg_jsonb (to_value x)) = Ok x;
  to_value_not_null (x : T) : to_value x ≠ JNull;
}.

(** An [Option] is written as its value or [null]. *)
Definition option_to_value `{SerdeJson T} (o : option T) : Json :=
  match o with Some x => to_value x | None => JNull end.

Definition is_null (j : Json) : bool := match j with JNull => true | _ => false end.

(** ** Reading columns: [Row::try_get] *)

Definition as_uuid (v : SqlValue) : option Uuid := match v with SqlUuid u => Some u | _ => None end.
Definition as_text (v : SqlValue) : option string := match v with SqlText s => Some s | _ => None end.
Definition as_json (v : SqlValue) : option Json := match v with SqlJson j => Some j | _ => None end.
Definition as_int (v : SqlValue) : option Z := match v with SqlInt z => Some z | _ => None end.
Definition as_bool (v : SqlValue) : option bool := match v with SqlBool b => Some b | _ => None end.
Definition as_time (v : SqlValue) : option DateTime := match v with SqlTime t => Some t | _ => None end.

(** Reading into an [Option]: [NULL] is [None]. *)
Definition nullable {T} (dec : SqlValue → option T) (v : SqlValue) : option (option T) :=
  match v with SqlNull => Some None | _ => Some <$> dec v end.

(** Writing an [Option]. *)
Definition sql_opt {T} (enc : T → SqlValue) (o : option T) : SqlValue :=
  match o with Some x => enc x | None => SqlNull end.

(** The value of a column; [None] when the row has no such column. *)
Definition column (c : string) (r : Row) : option SqlValue := match_str r c.

Definition try_get `{PgLib} {T} (dec : SqlValue → option T) (c : string) (r : Row)
    : Result T string :=
  match column c r ≫= dec with
  | Some x => Ok x
  | None => Err (column_error c)
  end.

Section rows.
Context `{PgLib}.
Context `{!SerdeJson (gmap string string)} `{!SerdeJson (list PortMapping)}.
Context `{!SerdeJson ResourceLimits} `{!SerdeJson (list VolumeMount)} `{!SerdeJson (list string)}.

(** ** Writing a sandbox *)

Record SerializedSandboxFields : Type := mkSerialized {
  ser_environment : Json;
  ser_port_mappings : Json;
  ser_resource_limits : Json;
  ser_volumes : Json;
  ser_volume_mounts : Json;
  ser_command : Json;
  ser_features : Json;
}.

Definition serialize_sandbox_fields (sb : Sandbox) : SerializedSandboxFields :=
  {| ser_environment := to_value (cfg_environment (sb_config sb));
     ser_port_mappings := to_value (cfg_port_mappings (sb_config sb));
     ser_resource_limits := to_value (cfg_resource_limits (sb_config sb));
     ser_volumes := to_value (cfg_volumes (sb_config sb));
     ser_volume_mounts := to_value (sb_volume_mounts sb);
     ser_command := option_to_value (cfg_command (sb_config sb));
     ser_features := to_value (cfg_features (sb_config sb)) |}.

(** A parameter as the column stores it. *)
Definition sql_json (j : Json) : SqlValue := SqlJson (pg_jsonb j).
Definition sql_time (t : DateTime) : SqlValue := SqlTime (pg_timestamp t).

(** The assignments that the [INSERT] and the [UPDATE] share: columns of [$2]
    to [$20] and the last ones. *)
Definition assignments (sb : Sandbox) : Row :=
  let fields := serialize_sandbox_fields sb in
  let c := sb_config sb in
  let a := sb_activity sb in
  [("image", SqlText (cfg_image c));
   ("name", sql_opt SqlText (cfg_name c));
   ("environment", sql_json (ser_environment fields));
   ("port_mappings", sql_json (ser_port_mappings fields));
   ("resource_limits", sql_json (ser_resource_limits fields));
   ("volumes", sql_json (ser_volumes fields));
   ("command", sql_json (ser_command fields));
   ("inactivity_timeout_minutes",
      sql_opt SqlInt (i64_wrap <$> cfg_inactivity_timeout_minutes c));
   ("pull_policy", SqlText (PullPolicy_as_str (cfg_pull_policy c)));
   ("features", sql_json (ser_features fields));
   ("enable_all_features", SqlBool (cfg_enable_all_features c));
   ("vnc_resolution", sql_opt SqlText (cfg_vnc_resolution c));
   ("state", SqlText (SandboxState_as_str (sb_state sb)));
   ("container_id", sql_opt SqlText (sb_container_id sb));
   ("error_message", sql_opt SqlText (sb_error_message sb));
   ("volume_mounts", sql_json (ser_volume_mounts fields));
   ("last_api_activity", sql_time (last_api_activity a));
   ("last_container_activity", sql_opt sql_time (last_container_activity a));
   ("activity_count", SqlInt (i64_wrap (activity_count a)));
   ("updated_at", sql_time (sb_updated_at sb));
   ("deleted_at", sql_opt sql_time (sb_deleted_at sb));
   ("deleted_by", sql_opt SqlText (sb_deleted_by sb));
   ("api_key_id", sql_opt SqlUuid (sb_api_key_id sb))].

(** The row that [INSERT] makes. *)
Definition row_of (sb : Sandbox) : Row :=
  ("id", SqlUuid (sb_id sb)) :: ("created_at", sql_time (sb_created_at sb)) :: assignments sb.

(** [UPDATE .. SET]: the assigned columns change, the others stay. *)
Definition update_row (assigned : Row) (r : Row) : Row :=
  List.map (λ '(c, v), (c, default v (column c assigned))) r.

(** ** Reading a sandbox *)

Definition parse_pull_policy (r : Row) : Result PullPolicy string :=
  let? s := try_get as_text "pull_policy" r in
  match match_str [("always", Always); ("missing", Missing); ("never", Never)] s with
  | Some p => Ok p
  | None => Err ("Invalid pull_policy: " +:+ s)
  end.

Definition parse_sandbox_state (r : Row) : Result SandboxState string :=
  let? s := try_get as_text "state" r in
  match match_str
    [("creating", Creating); ("created", Created); ("starting", Starting);
     ("running", Running); ("stopped", Stopped); ("error", Error);
     ("destroying", Destroying); ("destroyed", Destroyed)] s
  with
  | Some st => Ok st
  | None => Err ("Invalid state: " +:+ s)
  end.

Record DeserializedSandboxFields : Type := mkDeserialized {
  de_environment : gmap string string;
  de_port_mappings : list PortMapping;
  de_resource_limits : ResourceLimits;
  de_volumes : list VolumeMount;
  de_volume_mounts : list VolumeMount;
  de_command : option (list string);
  de_features : list string;
}.

(** One mandatory JSONB column. *)
Definition json_column {T} `{SerdeJson T} (c : string) (r : Row) : Result T string :=
  let? j := try_get as_json c r in
  result_map_err (λ e, "Failed to deserialize " +:+ c +:+ ": " +:+ e) (from_value j).

(** A column that is taken for [null] when it cannot be read. *)
Definition lenient_column (c : string) (r : Row) : Json :=
  result_unwrap_or JNull (try_get as_json c r).

Definition deserialize_jsonb_fields (r : Row) : Result DeserializedSandboxFields string :=
  let? environment := json_column "environment" r in
  let? port_mappings := json_column "port_mappings" r in
  let? resource_limits := json_column "resource_limits" r in
  let? volumes := json_column "volumes" r in
  let? volume_mounts := json_column "volume_mounts" r in
  let command := lenient_column "command" r in
  let? command :=
    (if is_null command then Ok None
     else
       let? v := result_map_err (λ e, "Failed to deserialize command: " +:+ e)
                   (from_value command) in
       Ok (Some v)) in
  let features := lenient_column "features" r in
  let? features :=
    (if is_null features then Ok []
     else result_map_err (λ e, "Failed to deserialize features: " +:+ e)
            (from_value features)) in
  Ok (mkDeserialized environment port_mappings resource_limits volumes volume_mounts
        command features).

Definition parse_activity_tracking (r : Row) : Result ActivityTracking string :=
  let? count := try_get as_int "activity_count" r in
  let? api := try_get as_time "last_api_activity" r in
  let? container := try_get (nullable as_time) "last_container_activity" r in
  Ok (mkActivityTracking api container (u64_wrap count)).

Definition row_to_sandbox (r : Row) : Result Sandbox string :=
  let? pull_policy := parse_pull_policy r in
  let? state := parse_sandbox_state r in
  let? jsonb := deserialize_jsonb_fields r in
  let? activity := parse_activity_tracking r in
  let? container_id := try_get (nullable as_text) "container_id" r in
  let? error_message := try_get (nullable as_text) "error_message" r in
  let enable_all_features := result_unwrap_or false (try_get as_bool "enable_all_features" r) in
  let? vnc_resolution := try_get (nullable as_text) "vnc_resolution" r in
  let? timeout := try_get (nullable as_int) "inactivity_timeout_minutes" r in
  let timeout := u64_wrap <$> timeout in
  let? id := try_get as_uuid "id" r in
  let? image := try_get as_text "image" r in
  let? name := try_get (nullable as_text) "name" r in
  let? created_at := try_get as_time "created_at" r in
  let? updated_at := try_get as_time "updated_at" r in
  let? deleted_at := try_get (nullable as_time) "deleted_at" r in
  let? deleted_by := try_get (nullable as_text) "deleted_by" r in
  let? api_key_id := try_get (nullable as_uuid) "api_key_id" r in
  Ok {| sb_id := id;
        sb_config :=
          {| cfg_image := image; cfg_name := name;
             cfg_environment := de_environment jsonb;
             cfg_port_mappings := de_port_mappings jsonb;
             cfg_exposed_ports := [];
             cfg_resource_limits := de_resource_limits jsonb;
             cfg_volumes := de_volumes jsonb;
             cfg_command := de_command jsonb;
             cfg_inactivity_timeout_minutes := timeout;
             cfg_pull_policy := pull_policy;
             cfg_features := de_features jsonb;
             cfg_enable_all_features := enable_all_features;
             cfg_vnc_resolution := vnc_resolution |};
        sb_state := state; sb_container_id := container_id;
        sb_created_at := created_at; sb_updated_at := updated_at;
        sb_error_message := error_message;
        sb_volume_mounts := de_volume_mounts jsonb;
        sb_activity := activity;
        sb_inactivity_timeout_minutes := timeout;
        sb_deleted_at := deleted_at; sb_deleted_by := deleted_by;
        sb_api_key_id := api_key_id |}.
End rows.

(** ** [SELECT] lists

    The queries of [sandbox.rs] read no [command]; those of [sandbox_ops.rs]
    do. *)

Definition sandbox_columns : list string :=
  ["id"; "image"; "name"; "environment"; "port_mappings"; "resource_limits"; "volumes";
   "inactivity_timeout_minutes"; "pull_policy"; "features"; "enable_all_features";
   "vnc_resolution"; "state"; "container_id"; "error_message"; "volume_mounts";
   "last_api_activity"; "last_container_activity"; "activity_count"; "created_at";
   "updated_at"; "deleted_at"; "deleted_by"; "api_key_id"].

Definition owned_columns : list string :=
  ["id"; "image"; "name"; "environment"; "port_mappings"; "resource_limits"; "volumes";
   "command"; "inactivity_timeout_minutes"; "pull_policy"; "features";
   "enable_all_features"; "vnc_resolution"; "state"; "container_id"; "error_message";
   "volume_mounts"; "last_api_activity"; "last_container_activity"; "activity_count";
   "created_at"; "updated_at"; "deleted_at"; "deleted_by"; "api_key_id"].

Definition select (columns : list string) (r : Row) : Row :=
  List.filter (λ '(c, _), existsb (String.eqb c) columns) r.

(** [WHERE] conditions on a row. *)
Definition is_live (r : Row) : bool :=
  match column "deleted_at" r with Some SqlNull => true | _ => false end.

Definition has_owner (key : Uuid) (r : Row) : bool :=
  match column "api_key_id" r with Some (SqlUuid u) => N.eqb u key | _ => false end.

(** [ORDER BY created_at DESC]; rows of the same time come in some order. *)
Definition created_time (r : Row) : DateTime :=
  match column "created_at" r with Some (SqlTime t) => t | _ => 0 end.

Definition newer (r1 r2 : Row) : Prop := created_time r2 ≤ created_time r1.

#[global] Instance newer_dec : RelDecision newer.
Proof. intros r1 r2. unfold newer. apply _. Defined.

(** ** The store *)

(** The table, by primary key, and whether the pool hands out connections. *)
Record PgStore : Type := mkPgStore {
  pg_rows : gmap Uuid Row;
  pg_connects : bool;
}.

Definition set_rows (m : gmap Uuid Row) (s : PgStore) : PgStore := mkPgStore m (pg_connects s).

Definition table (s : PgStore) : list Row := (map_to_list (pg_rows s)).*2.

Definition in_order (s : PgStore) : list Row := merge_sort newer (table s).

Section store.
Context `{PgLib} `{!UuidLib}.
Context `{!SerdeJson (gmap string string)} `{!SerdeJson (list PortMapping)}.
Context `{!SerdeJson ResourceLimits} `{!SerdeJson (list VolumeMount)} `{!SerdeJson (list string)}.

(** Rows that do not convert are logged and dropped. *)
Definition convert_one (columns : list string) (r : Row) : option Sandbox :=
  match row_to_sandbox (select columns r) with Ok sb => Some sb | Err _ => None end.

Definition convert (columns : list string) (rows : list Row) : list Sandbox :=
  omap (convert_one columns) rows.

Definition pool_error : string := pg_error "pool".

Definition pg_create_sandbox (sb : Sandbox) : M PgStore (Result () string) := λ s,
  if negb (pg_connects s) then (Err pool_error, s)
  else
    match pg_rows s !! sb_id sb with
    | Some _ => (Err (pg_error "duplicate key"), s)
    | None => (Ok (), set_rows (<[sb_id sb := row_of sb]> (pg_rows s)) s)
    end.

Definition pg_get_sandbox_with_deleted (id : Uuid) (include_deleted : bool)
    : M PgStore (option Sandbox) := λ s,
  if negb (pg_connects s) then (None, s)
  else
    (option_filter (λ r, include_deleted || is_live r) (pg_rows s !! id)
       ≫= convert_one sandbox_columns, s).

Definition pg_get_sandbox (id : Uuid) : M PgStore (option Sandbox) :=
  pg_get_sandbox_with_deleted id false.

Definition pg_update_sandbox (sb : Sandbox) : M PgStore (Result () string) := λ s,
  if negb (pg_connects s) then (Err pool_error, s)
  else
    match pg_rows s !! sb_id sb with
    | Some r => (Ok (), set_rows (<[sb_id sb := update_row (assignments sb) r]> (pg_rows s)) s)
    | None => (Err ("Sandbox " +:+ uuid_to_string (sb_id sb) +:+ " not found"), s)
    end.

Definition pg_delete_sandbox (id : Uuid) : M PgStore (Result () string) := λ s,
  if negb (pg_connects s) then (Err pool_error, s)
  else (Ok (), set_rows (delete id (pg_rows s)) s).

Definition fetch_sandboxes_owned_by (key : Uuid) (include_deleted : bool)
    : M PgStore (list Sandbox) := λ s,
  if negb (pg_connects s) then ([], s)
  else
    (convert owned_columns
       (List.filter (λ r, has_owner key r && (include_deleted || is_live r)) (in_order s)), s).

Definition fetch_sandbox_with_deleted_if_owned_by (id key : Uuid) (include_deleted : bool)
    : M PgStore (option Sandbox) := λ s,
  if negb (pg_connects s) then (None, s)
  else
    (option_filter (λ r, has_owner key r && (include_deleted || is_live r)) (pg_rows s !! id)
       ≫= convert_one owned_columns, s).

Definition fetch_sandbox_if_owned_by (id key : Uuid) : M PgStore (option Sandbox) := λ s,
  if negb (pg_connects s) then (None, s)
  else
    (option_filter (λ r, has_owner key r && is_live r) (pg_rows s !! id)
       ≫= convert_one owned_columns, s).

(** ** [list_sandboxes_filtered] *)

Record SandboxListFilters : Type := mkSandboxListFilters {
  flt_include_deleted : bool;
  flt_state : option SandboxState;
  flt_image : option string;
  flt_created_after : option DateTime;
  flt_created_before : option DateTime;
  flt_page : option Z;
  flt_per_page : option Z;
}.

Record PaginationMeta : Type := mkPaginationMeta {
  page : Z;
  per_page : Z;
  total : Z;
  total_pages : Z;
  has_next : bool;
  has_prev : bool;
}.

(** The conditions, with the number of the placeholder each one uses. *)
Inductive Condition : Type :=
  | LiveOnly
  | StateIs (n : Z)
  | ImageLike (n : Z)
  | CreatedAfter (n : Z)
  | CreatedBefore (n : Z).

Inductive Param : Type :=
  | ParText (s : string)
  | ParTime (t : DateTime)
  | ParInt (z : Z).

Definition placeholder (c : Condition) : list Z :=
  match c with
  | LiveOnly => []
  | StateIs n | ImageLike n | CreatedAfter n | CreatedBefore n => [n]
  end.

Definition one_if {X} (o : option X) : Z := match o with Some _ => 1 | None => 0 end.

Definition state_str (f : SandboxListFilters) : option string :=
  SandboxState_as_str <$> flt_state f.
Definition image_pattern (f : SandboxListFilters) : option string :=
  (λ image, "%" +:+ image +:+ "%") <$> flt_image f.

Definition where_conditions (f : SandboxListFilters) : list Condition :=
  (if flt_include_deleted f then [] else [LiveOnly]) ++
  match flt_state f with Some _ => [StateIs 2] | None => [] end ++
  match flt_image f with
  | Some _ => [ImageLike (match state_str f with None => 2 | Some _ => 3 end)]
  | None => []
  end ++
  match flt_created_after f with
  | Some _ => [CreatedAfter (2 + one_if (state_str f) + one_if (image_pattern f))]
  | None => []
  end ++
  match flt_created_before f with
  | Some _ => [CreatedBefore (2 + one_if (state_str f) + one_if (image_pattern f)
                                + one_if (flt_created_after f))]
  | None => []
  end.

(** The parameters of the count query, case by case as the code has them. *)
Definition count_params (f : SandboxListFilters) : list Param :=
  match state_str f, image_pattern f, flt_created_after f, flt_created_before f with
  | Some state, Some image, Some after, Some before =>
      [ParText state; ParText image; ParTime after; ParTime before]
  | Some state, Some image, Some after, None => [ParText state; ParText image; ParTime after]
  | Some state, Some image, None, Some before => [ParText state; ParTime before]
  | Some state, Some image, None, None => [ParText state]
  | Some state, None, Some after, _ => [ParText state; ParTime after]
  | Some state, None, None, Some before => [ParText state; ParTime before]
  | Some state, None, None, None => [ParText state]
  | None, Some image, Some after, Some before =>
      [ParText image; ParTime after; ParTime before]
  | None, Some image, Some after, None => [ParText image; ParTime after]
  | None, Some image, None, Some before => [ParText image; ParTime before]
  | None, Some image, None, None => [ParText image]
  | None, None, Some after, Some before => [ParTime after; ParTime before]
  | None, None, Some after, None => [ParTime after]
  | None, None, None, Some before => [ParTime before]
  | None, None, None, None => []
  end.

(** The filter parameters of the select query. *)
Definition select_params (f : SandboxListFilters) : list Param :=
  match state_str f, image_pattern f, flt_created_after f, flt_created_before f with
  | Some state, Some image, Some after, Some before =>
      [ParText state; ParText image; ParTime after; ParTime before]
  | Some state, Some image, Some after, None => [ParText state; ParText image; ParTime after]
  | Some state, Some image, None, Some before => [ParText state; ParText image; ParTime before]
  | Some state, Some image, None, None => [ParText state; ParText image]
  | Some state, None, Some after, _ => [ParText state; ParTime after]
  | Some state, None, None, Some before => [ParText state; ParTime before]
  | Some state, None, None, None => [ParText state]
  | None, Some image, Some after, Some before =>
      [ParText image; ParTime after; ParTime before]
  | None, Some image, Some after, None => [ParText image; ParTime after]
  | None, Some image, None, Some before => [ParText image; ParTime before]
  | None, Some image, None, None => [ParText image]
  | None, None, Some after, Some before => [ParTime after; ParTime before]
  | None, None, Some after, None => [ParTime after]
  | None, None, None, Some before => [ParTime before]
  | None, None, None, None => []
  end.

(** A statement runs when its placeholders are [$1] .. [$k], each used once,
    and [k] parameters are given. *)
Definition bindable (used : list Z) (params : nat) : bool :=
  bool_decide (NoDup used)
  && bool_decide (used ≡ₚ Z.of_nat <$> seq 1 params).

Definition param (params : list Param) (n : Z) : option Param := params !! Z.to_nat (n - 1).

Definition holds (params : list Param) (r : Row) (c : Condition) : bool :=
  match c with
  | LiveOnly => is_live r
  | StateIs n =>
      match column "state" r, param params n with
      | Some (SqlText s), Some (ParText p) => String.eqb s p
      | _, _ => false
      end
  | ImageLike n =>
      match column "image" r, param params n with
      | Some (SqlText s), Some (ParText p) => pg_like s p
      | _, _ => false
      end
  | CreatedAfter n =>
      match param params n with Some (ParTime t) => bool_decide (t ≤ created_time r) | _ => false end
  | CreatedBefore n =>
      match param params n with Some (ParTime t) => bool_decide (created_time r ≤ t) | _ => false end
  end.

Definition matches (params : list Param) (conds : list Condition) (r : Row) : bool :=
  forallb (holds params r) conds.

Definition where_param_count (f : SandboxListFilters) : Z :=
  one_if (state_str f) + one_if (image_pattern f) + one_if (flt_created_after f)
  + one_if (flt_created_before f).

Definition list_sandboxes_filtered (f : SandboxListFilters)
    : M PgStore (Result (list Sandbox * PaginationMeta) StoreError) := λ s,
  if negb (pg_connects s) then (Err (StoreMessage pool_error), s)
  else
    let conds := where_conditions f in
    let used := conds ≫= placeholder in
    if negb (bindable used (length (count_params f))) then
      (Err (StorePostgres (pg_error "parameters")), s)
    else
      let total := Z.of_nat (length (List.filter (matches (count_params f) conds) (table s))) in
      let page := Z.max (default 1 (flt_page f)) 1 in
      let per_page := Z.min (Z.max (default 50 (flt_per_page f)) 1) 200 in
      let offset := u64_wrap ((page - 1) * per_page) in
      let total_pages := if bool_decide (total = 0) then 1 else (total + per_page - 1) / per_page in
      let param_offset := where_param_count f + 1 in
      if negb (bindable (used ++ [param_offset; param_offset + 1])
                 (length (select_params f) + 2)) then
        (Err (StorePostgres (pg_error "parameters")), s)
      else if bool_decide (i64_wrap offset < 0) then
        (Err (StorePostgres (pg_error "negative offset")), s)
      else
        let rows := List.filter (matches (select_params f) conds) (in_order s) in
        (Ok (convert sandbox_columns
               (take (Z.to_nat per_page) (drop (Z.to_nat (i64_wrap offset)) rows)),
             {| page := page; per_page := per_page; total := total;
                total_pages := total_pages;
                has_next := bool_decide (page < total_pages);
                has_prev := bool_decide (1 < page) |}), s).

Definition all_filters : SandboxListFilters :=
  mkSandboxListFilters true None None None None None None.

Definition pg_list_sandboxes : M PgStore (list Sandbox) := λ s,
  match list_sandboxes_filtered all_filters s with
  | (Ok (data, _), s') => (data, s')
  | (Err _, s') => ([], s')
  end.

#[export] Instance PgStore_trait : StateStoreTrait PgStore := {|
  create_sandbox := pg_create_sandbox;
  get_sandbox := pg_get_sandbox;
  get_sandbox_with_deleted := pg_get_sandbox_with_deleted;
  list_sandboxes := pg_list_sandboxes;
  update_sandbox := pg_update_sandbox;
  delete_sandbox := pg_delete_sandbox;
  list_sandboxes_owned_by := fetch_sandboxes_owned_by;
  get_sandbox_if_owned_by := fetch_sandbox_if_owned_by;
  get_sandbox_with_deleted_if_owned_by := fetch_sandbox_with_deleted_if_owned_by;
|}.

(** ** Maintenance ([sandbox_ops.rs])

    [now] is what [NOW()] returns in the statement. *)

(** The constraint [check_state] of the table ([src/db/migration.rs]). *)
Definition check_state (r : Row) : bool :=
  match column "state" r with
  | Some (SqlText s) =>
      existsb (String.eqb s)
        ["creating"; "created"; "starting"; "running"; "stopped"; "error"; "destroying";
         "destroyed"]
  | _ => false
  end.

Definition soft_delete_sandbox (id : Uuid) (deleted_by : option string) (now : DateTime)
    : M PgStore (Result () StoreError) := λ s,
  if negb (pg_connects s) then (Err (StoreMessage pool_error), s)
  else
    match option_filter is_live (pg_rows s !! id) with
    | Some r =>
        let r' := update_row [("deleted_at", sql_time now);
                              ("deleted_by", sql_opt SqlText deleted_by);
                              ("state", SqlText "destroying");
                              ("updated_at", sql_time now)] r in
        (Ok (), set_rows (<[id := r']> (pg_rows s)) s)
    | None => (Err (StoreNotFound id), s)
    end.

Definition restore_sandbox (id : Uuid) (now : DateTime) : M PgStore (Result () StoreError) := λ s,
  if negb (pg_connects s) then (Err (StoreMessage pool_error), s)
  else
    match option_filter (λ r, negb (is_live r)) (pg_rows s !! id) with
    | Some r =>
        let r' := update_row [("deleted_at", SqlNull); ("deleted_by", SqlNull);
                              ("state", SqlText "stopped");
                              ("updated_at", sql_time now)] r in
        (Ok (), set_rows (<[id := r']> (pg_rows s)) s)
    | None => (Err (StoreNotFound id), s)
    end.

Definition permanently_delete_sandbox (id : Uuid) : M PgStore (Result () string) :=
  pg_delete_sandbox id.

(** [deleted_at IS NOT NULL AND deleted_at < NOW() - (MAKE_INTERVAL(secs => $1))]. *)
Definition deleted_before (limit : DateTime) (r : Row) : bool :=
  match column "deleted_at" r with
  | Some (SqlTime t) => bool_decide (t < limit)
  | _ => false
  end.

Definition cleanup_expired_sandboxes (retention_days : Z) (now : DateTime)
    : M PgStore (Result Z string) := λ s,
  if negb (pg_connects s) then (Err pool_error, s)
  else
    let limit := now - i64_wrap (retention_days * 86400) * ns_per_sec in
    let expired := filter (λ p, deleted_before limit p.2 = true) (pg_rows s) in
    (Ok (Z.of_nat (size expired)), set_rows (pg_rows s ∖ expired) s).

(** One row of the recovery; an [UPDATE] that breaks [check_state] fails. *)
Definition recover_one (now : DateTime) (r : Row) : M PgStore (Result (Z * Z) string) := λ s,
  match column "id" r with
  | Some (SqlUuid id) =>
      let assigned :=
        match column "container_id" r with
        | Some (SqlText _) => [("state", SqlText "Running"); ("updated_at", sql_time now)]
        | _ => [("state", SqlText "Failed");
                ("error_message", SqlText "Sandbox creation timed out during server restart");
                ("updated_at", sql_time now)]
        end in
      let counts :=
        match column "container_id" r with Some (SqlText _) => (1, 0) | _ => (0, 1) end in
      match pg_rows s !! id with
      | Some r0 =>
          let r' := update_row assigned r0 in
          if check_state r' then (Ok counts, set_rows (<[id := r']> (pg_rows s)) s)
          else (Err (pg_error "check_state"), s)
      | None => (Ok counts, s)
      end
  | _ => (Err (pg_error "id"), s)
  end.

Fixpoint recover_all (now : DateTime) (rows : list Row) : M PgStore (Result (Z * Z) string) :=
  match rows with
  | [] => mret (Ok (0, 0))
  | r :: rows' =>
      let* n := recover_one now r in
      let* m := recover_all now rows' in
      mret (Ok (n.1 + m.1, n.2 + m.2))
  end.

(** [state = 'Creating' AND created_at < NOW() - timeout]. *)
Definition stuck (limit : DateTime) (r : Row) : bool :=
  match column "state" r with
  | Some (SqlText s) => String.eqb s "Creating" && bool_decide (created_time r < limit)
  | _ => false
  end.

Definition recover_stuck_sandboxes (timeout_secs : Z) (now : DateTime)
    : M PgStore (Result (Z * Z) string) := λ s,
  if negb (pg_connects s) then (Err pool_error, s)
  else
    recover_all now
      (List.filter (stuck (now - timeout_secs * ns_per_sec)) (rev (in_order s))) s.
End store.

(** ** Lemmas *)

Lemma nullable_sql_opt {T U} (dec : SqlValue → option U) (enc : T → SqlValue) (f : T → U) o :
  (∀ x, dec (enc x) = Some (f x)) → (∀ x, enc x ≠ SqlNull) →
  nullable dec (sql_opt enc o) = Some (f <$> o).
Proof.
  intros Hdec Hnull. destruct o as [x|]; [|done]. simpl. specialize (Hdec x). specialize (Hnull x).
  unfold nullable. destruct (enc x); try done; by rewrite Hdec.
Qed.

Lemma try_get_eq `{PgLib} {T} (dec : SqlValue → option T) c r v x :
  column c r = Some v → dec v = Some x → try_get dec c r = Ok x.
Proof. intros Hc Hd. unfold try_get. by rewrite Hc; simpl; rewrite Hd. Qed.

Lemma try_get_nullable `{PgLib} {T U} (dec : SqlValue → option U) (enc : T → SqlValue)
    (f : T → U) c r o :
  column c r = Some (sql_opt enc o) → (∀ x, dec (enc x) = Some (f x)) →
  (∀ x, enc x ≠ SqlNull) → try_get (nullable dec) c r = Ok (f <$> o).
Proof. intros Hc Hd Hn. eapply try_get_eq; [done|]. by apply nullable_sql_opt. Qed.

(** Reading one column of a row whose columns are written out. *)
Ltac read_column :=
  match goal with
  | |- context [try_get (nullable ?dec) ?c ?r] =>
      first
        [ rewrite (try_get_nullable dec SqlText id c r _ eq_refl) by done
        | rewrite (try_get_nullable dec sql_time pg_timestamp c r _ eq_refl) by done
        | rewrite (try_get_nullable dec SqlInt id c r _ eq_refl) by done
        | rewrite (try_get_nullable dec SqlUuid id c r _ eq_refl) by done ]
  | |- context [try_get ?dec ?c ?r] => rewrite (try_get_eq dec c r _ _ eq_refl eq_refl)
  end; cbn [result_bind result_unwrap_or].

Section roundtrip.
Context `{PgLib, !PgLaws} `{!UuidLib}.
Context `{!SerdeJson (gmap string string)} `{!SerdeJson (list PortMapping)}.
Context `{!SerdeJson ResourceLimits} `{!SerdeJson (list VolumeMount)} `{!SerdeJson (list string)}.
Context `{!SerdeLaws (gmap string string)} `{!SerdeLaws (list PortMapping)}.
Context `{!SerdeLaws ResourceLimits} `{!SerdeLaws (list VolumeMount)} `{!SerdeLaws (list string)}.

(** What a row reads back as: times are rounded to PostgreSQL's precision,
    the exposed ports are not stored, and the timeout of the record is that of
    its configuration. [command] is what the [SELECT] list gives. *)
Definition read_back (command : option (list string)) (sb : Sandbox) : Sandbox :=
  let c := sb_config sb in
  let a := sb_activity sb in
  let timeout := (λ v, u64_wrap (i64_wrap v)) <$> cfg_inactivity_timeout_minutes c in
  {| sb_id := sb_id sb;
     sb_config :=
       {| cfg_image := cfg_image c; cfg_name := cfg_name c;
          cfg_environment := cfg_environment c; cfg_port_mappings := cfg_port_mappings c;
          cfg_exposed_ports := [];
          cfg_resource_limits := cfg_resource_limits c; cfg_volumes := cfg_volumes c;
          cfg_command := command;
          cfg_inactivity_timeout_minutes := timeout; cfg_pull_policy := cfg_pull_policy c;
          cfg_features := cfg_features c; cfg_enable_all_features := cfg_enable_all_features c;
          cfg_vnc_resolution := cfg_vnc_resolution c |};
     sb_state := sb_state sb; sb_container_id := sb_container_id sb;
     sb_created_at := pg_timestamp (sb_created_at sb);
     sb_updated_at := pg_timestamp (sb_updated_at sb);
     sb_error_message := sb_error_message sb;
     sb_volume_mounts := sb_volume_mounts sb;
     sb_activity :=
       {| last_api_activity := pg_timestamp (last_api_activity a);
          last_container_activity := pg_timestamp <$> last_container_activity a;
          activity_count := u64_wrap (i64_wrap (activity_count a)) |};
     sb_inactivity_timeout_minutes := timeout;
     sb_deleted_at := pg_timestamp <$> sb_deleted_at sb; sb_deleted_by := sb_deleted_by sb;
     sb_api_key_id := sb_api_key_id sb |}.

Lemma json_column_ok {T} `{!SerdeJson T, !SerdeLaws T} c r (x : T) :
  column c r = Some (sql_json (to_value x)) → json_column c r = Ok x.
Proof.
  intros Hc. unfold json_column. rewrite (try_get_eq as_json c r _ _ Hc eq_refl). simpl.
  by rewrite from_to_value.
Qed.

Lemma is_null_jsonb j : is_null (pg_jsonb j) = is_null j.
Proof.
  destruct (is_null j) eqn:E.
  - destruct j; try done. by rewrite (proj2 (pg_jsonb_null JNull) eq_refl).
  - destruct (is_null (pg_jsonb j)) eqn:E'; [|done].
    destruct (pg_jsonb j) eqn:E''; try done. apply (proj1 (pg_jsonb_null j)) in E''. by rewrite E'' in E.
Qed.

Lemma is_null_to_value {T} `{!SerdeJson T, !SerdeLaws T} (x : T) : is_null (to_value x) = false.
Proof. destruct (to_value x) eqn:E; try done. by apply to_value_not_null in E. Qed.

Lemma deserialize_ok sb r command :
  column "environment" r = Some (sql_json (to_value (cfg_environment (sb_config sb)))) →
  column "port_mappings" r = Some (sql_json (to_value (cfg_port_mappings (sb_config sb)))) →
  column "resource_limits" r = Some (sql_json (to_value (cfg_resource_limits (sb_config sb)))) →
  column "volumes" r = Some (sql_json (to_value (cfg_volumes (sb_config sb)))) →
  column "volume_mounts" r = Some (sql_json (to_value (sb_volume_mounts sb))) →
  column "features" r = Some (sql_json (to_value (cfg_features (sb_config sb)))) →
  (column "command" r = None ∧ command = None ∨
   column "command" r = Some (sql_json (option_to_value command))) →
  deserialize_jsonb_fields r = Ok
    (mkDeserialized (cfg_environment (sb_config sb)) (cfg_port_mappings (sb_config sb))
       (cfg_resource_limits (sb_config sb)) (cfg_volumes (sb_config sb)) (sb_volume_mounts sb)
       command (cfg_features (sb_config sb))).
Proof.
  intros K1 K2 K3 K4 K5 K6 Hcmd. unfold deserialize_jsonb_fields.
  rewrite (json_column_ok _ _ _ K1), (json_column_ok _ _ _ K2), (json_column_ok _ _ _ K3),
    (json_column_ok _ _ _ K4), (json_column_ok _ _ _ K5). simpl.
  assert (lenient_column "features" r = pg_jsonb (to_value (cfg_features (sb_config sb)))) as ->.
  { unfold lenient_column. by rewrite (try_get_eq as_json _ r _ _ K6 eq_refl). }
  rewrite is_null_jsonb, is_null_to_value, from_to_value. simpl.
  assert (lenient_column "command" r = match command with
            Some v => pg_jsonb (to_value v) | None => JNull end) as ->.
  { unfold lenient_column. destruct Hcmd as [[Hc ->]|Hc].
    - unfold try_get. by rewrite Hc.
    - rewrite (try_get_eq as_json _ r _ _ Hc eq_refl). destruct command; [done|].
      by apply pg_jsonb_null. }
  destruct command as [v|]; [|done].
  by rewrite is_null_jsonb, is_null_to_value, from_to_value.
Qed.

Lemma parse_state_ok r st :
  column "state" r = Some (SqlText (SandboxState_as_str st)) → parse_sandbox_state r = Ok st.
Proof.
  intros Hc. unfold parse_sandbox_state. rewrite (try_get_eq as_text _ r _ _ Hc eq_refl).
  by destruct st.
Qed.

Lemma parse_policy_ok r p :
  column "pull_policy" r = Some (SqlText (PullPolicy_as_str p)) → parse_pull_policy r = Ok p.
Proof.
  intros Hc. unfold parse_pull_policy. rewrite (try_get_eq as_text _ r _ _ Hc eq_refl).
  by destruct p.
Qed.

(** Reading a row through either [SELECT] list. *)
Lemma row_to_sandbox_ok cols command sb :
  cols = sandbox_columns ∧ command = None ∨
  cols = owned_columns ∧ command = cfg_command (sb_config sb) →
  row_to_sandbox (select cols (row_of sb)) = Ok (read_back command sb).
Proof.
  intros Hcols.
  assert (deserialize_jsonb_fields (select cols (row_of sb)) = Ok
      (mkDeserialized (cfg_environment (sb_config sb)) (cfg_port_mappings (sb_config sb))
         (cfg_resource_limits (sb_config sb)) (cfg_volumes (sb_config sb)) (sb_volume_mounts sb)
         command (cfg_features (sb_config sb)))) as Hde.
  { destruct Hcols as [[-> ->]|[-> ->]]; apply deserialize_ok; try reflexivity; auto. }
  unfold row_to_sandbox, parse_activity_tracking.
  rewrite (parse_policy_ok _ (cfg_pull_policy (sb_config sb)))
    by (by destruct Hcols as [[-> _]|[-> _]]).
  rewrite (parse_state_ok _ (sb_state sb)) by (by destruct Hcols as [[-> _]|[-> _]]).
  rewrite Hde. cbn [result_bind].
  destruct Hcols as [[-> ->]|[-> ->]]; repeat read_column;
    by rewrite !option_fmap_id, <-!option_fmap_compose.
Qed.

(** ** The table as the service sees it *)

(** The store answers, and every row was written for its key. *)
Definition pg_available (s : PgStore) : Prop :=
  pg_connects s = true ∧
  ∀ id r, pg_rows s !! id = Some r → ∃ sb, sb_id sb = id ∧ r = row_of sb.

Definition pg_contents (s : PgStore) : gmap Uuid Sandbox :=
  omap (convert_one sandbox_columns) (pg_rows s).

Lemma convert_one_row sb : convert_one sandbox_columns (row_of sb) = Some (read_back None sb).
Proof. unfold convert_one. rewrite (row_to_sandbox_ok _ None); auto. Qed.

Lemma convert_one_owned sb :
  convert_one owned_columns (row_of sb) = Some (read_back (cfg_command (sb_config sb)) sb).
Proof. unfold convert_one. rewrite (row_to_sandbox_ok _ (cfg_command (sb_config sb))); auto. Qed.

Lemma pg_lookup s id :
  pg_available s →
  pg_contents s !! id = None ∧ pg_rows s !! id = None ∨
  ∃ sb, sb_id sb = id ∧ pg_rows s !! id = Some (row_of sb) ∧
        pg_contents s !! id = Some (read_back None sb).
Proof.
  intros [_ Hrows]. unfold pg_contents. rewrite lookup_omap.
  destruct (pg_rows s !! id) as [r|] eqn:E; [|by left].
  destruct (Hrows _ _ E) as (sb & Hid & ->). right. exists sb.
  simpl. by rewrite convert_one_row.
Qed.

Lemma is_live_row sb : is_live (row_of sb) = visible false (read_back None sb).
Proof.
  unfold visible. simpl. unfold is_live.
  replace (column "deleted_at" (row_of sb)) with (Some (sql_opt sql_time (sb_deleted_at sb)))
    by reflexivity.
  by destruct (sb_deleted_at sb).
Qed.

Lemma has_owner_row key sb : has_owner key (row_of sb) = owned_by key sb.
Proof.
  unfold has_owner.
  replace (column "api_key_id" (row_of sb)) with (Some (sql_opt SqlUuid (sb_api_key_id sb)))
    by reflexivity.
  apply Bool.eq_iff_eq_true. rewrite owned_by_spec.
  destruct (sb_api_key_id sb) as [u|]; cbn; [|done].
  rewrite N.eqb_eq. split; congruence.
Qed.

(** An update writes the row of the new record, when ids and times of creation
    agree. *)
Lemma update_row_of sb old :
  sb_id sb = sb_id old → pg_timestamp (sb_created_at sb) = pg_timestamp (sb_created_at old) →
  update_row (assignments sb) (row_of old) = row_of sb.
Proof.
  intros Hid Hc. unfold row_of, sql_time. rewrite Hid, Hc. reflexivity.
Qed.

Lemma pg_available_insert s sb :
  pg_available s → pg_available (set_rows (<[sb_id sb := row_of sb]> (pg_rows s)) s).
Proof.
  intros [Hc Hrows]. split; [done|]. intros id r. simpl.
  rewrite lookup_insert_Some. intros [[<- <-]|[_ Hr]]; eauto.
Qed.

Lemma pg_contents_insert s sb :
  pg_contents (set_rows (<[sb_id sb := row_of sb]> (pg_rows s)) s)
  = <[sb_id sb := read_back None sb]> (pg_contents s).
Proof.
  unfold pg_contents. simpl. apply map_eq. intros id. rewrite lookup_omap.
  destruct (decide (id = sb_id sb)) as [->|Hne].
  - rewrite !lookup_insert_eq. simpl. apply convert_one_row.
  - rewrite !lookup_insert_ne by done. by rewrite lookup_omap.
Qed.

Lemma elem_of_table s r : r ∈ table s ↔ ∃ id, pg_rows s !! id = Some r.
Proof.
  unfold table. rewrite list_elem_of_fmap. split.
  - intros ([id r'] & -> & Hin). exists id. by apply elem_of_map_to_list.
  - intros [id Hr]. exists (id, r). split; [done|]. by apply elem_of_map_to_list.
Qed.

Lemma elem_of_in_order s r : r ∈ in_order s ↔ r ∈ table s.
Proof. unfold in_order. by rewrite merge_sort_Permutation. Qed.

Lemma pg_get_ok id incl s :
  pg_available s →
  pg_get_sandbox_with_deleted id incl s = (option_filter (visible incl) (pg_contents s !! id), s).
Proof.
  intros Hav. unfold pg_get_sandbox_with_deleted. rewrite (proj1 Hav). simpl. f_equal.
  destruct (pg_lookup s id Hav) as [[-> ->]|(sb & _ & -> & ->)]; [done|]. simpl.
  assert (incl || is_live (row_of sb) = visible incl (read_back None sb)) as ->.
  { rewrite is_live_row. by destruct incl. }
  destruct (visible incl (read_back None sb)); [|done]. simpl. by rewrite convert_one_row.
Qed.

Lemma option_filter_true (o : option Sandbox) : option_filter (visible true) o = o.
Proof. by destruct o. Qed.

(** Without filters, the statement of the list runs. *)
Lemma list_all_ok s :
  pg_available s →
  pg_list_sandboxes s = (convert sandbox_columns (take 50 (in_order s)), s).
Proof.
  intros Hav. unfold pg_list_sandboxes, list_sandboxes_filtered. rewrite (proj1 Hav).
  change (bindable (where_conditions all_filters ≫= placeholder)
            (length (count_params all_filters))) with true.
  change (bindable ((where_conditions all_filters ≫= placeholder) ++
            [where_param_count all_filters + 1; where_param_count all_filters + 1 + 1])
            (length (select_params all_filters) + 2)) with true.
  assert (∀ l, List.filter (matches (select_params all_filters) (where_conditions all_filters)) l
               = l) as Hf by (induction l as [|r l IH]; [done|]; simpl; by f_equal).
  rewrite Hf. reflexivity.
Qed.

Lemma elem_of_convert_taken n s sb :
  pg_available s → sb ∈ convert sandbox_columns (take n (in_order s)) →
  pg_contents s !! sb_id sb = Some sb.
Proof.
  intros Hav (r & Hr & Hc)%list_elem_of_omap.
  apply elem_of_take in Hr as (i & Hr & _). apply list_elem_of_lookup_2 in Hr.
  apply elem_of_in_order, elem_of_table in Hr as [id Hr].
  destruct (pg_lookup s id Hav) as [[_ Hn]|(sb0 & Hid & Hrow & Hcon)]; [congruence|].
  rewrite Hr in Hrow. injection Hrow as ->.
  assert (convert_one sandbox_columns (row_of sb0) = Some sb) as Hcv by exact Hc.
  rewrite convert_one_row in Hcv. injection Hcv as <-. simpl. by rewrite Hid.
Qed.

(** A row of the table is the row of a record. *)
Lemma elem_of_rows s r :
  pg_available s → r ∈ in_order s →
  ∃ sb, r = row_of sb ∧ pg_contents s !! sb_id sb = Some (read_back None sb).
Proof.
  intros Hav Hin. apply elem_of_in_order, elem_of_table in Hin as [id Hr].
  destruct (pg_lookup s id Hav) as [[_ Hn]|(sb & <- & Hrow & Hc)]; [congruence|].
  exists sb. split; [congruence|done].
Qed.

(** The ids of the records read from a part of the table differ. *)
Lemma omap_nodup_filter {X Y} (f : X → option Y) (p : X → bool) l :
  NoDup (omap f l) → NoDup (omap f (List.filter p l)).
Proof.
  induction l as [|a l IH]; simpl; [done|].
  destruct (f a) as [b|] eqn:E; [rewrite NoDup_cons; intros [Hn Hl]|intros Hl];
    (destruct (p a); simpl; [rewrite E|by apply IH]).
  - apply NoDup_cons. split; [|by apply IH]. intros (x & Hx & Hb)%list_elem_of_omap.
    apply Hn, list_elem_of_omap. exists x. split; [|done].
    rewrite list_elem_of_In in Hx |- *. exact (proj1 (proj1 (filter_In _ _ _) Hx)).
  - by apply IH.
Qed.

Lemma owned_ids_nodup s (p : Row → bool) :
  pg_available s → NoDup (sb_id <$> convert owned_columns (List.filter p (in_order s))).
Proof.
  intros Hav. unfold convert.
  assert (∀ l, sb_id <$> omap (convert_one owned_columns) l
               = omap (λ r, sb_id <$> convert_one owned_columns r) l) as ->.
  { induction l as [|r l IH]; [done|]. simpl.
    destruct (convert_one owned_columns r); simpl; [f_equal|]; exact IH. }
  apply omap_nodup_filter.
  assert (in_order s ≡ₚ table s) as -> by (unfold in_order; by rewrite merge_sort_Permutation).
  assert (omap (λ r, sb_id <$> convert_one owned_columns r) (table s)
          = (map_to_list (pg_rows s)).*1) as ->; [|apply NoDup_fst_map_to_list].
  unfold table.
  assert (∀ id r, (id, r) ∈ map_to_list (pg_rows s) →
    sb_id <$> convert_one owned_columns r = Some id) as Hall.
  { intros id r Hr%elem_of_map_to_list.
    destruct (pg_lookup s id Hav) as [[_ Hn]|(sb & <- & Hrow & _)]; [congruence|].
    assert (r = row_of sb) as -> by congruence. by rewrite convert_one_owned. }
  induction (map_to_list (pg_rows s)) as [|[id r] l IH]; [done|]. simpl.
  rewrite (Hall id r) by left. simpl. f_equal. apply IH. intros id' r' Hin. apply Hall. by right.
Qed.

(** The production store keeps the contract that the service relies on. *)
#[export, program] Instance PgStore_contract : StoreContract PgStore := {|
  contents := pg_contents;
  stored_as := read_back None;
  available := pg_available;
  shows_deleted := false;
  stored_time := pg_timestamp;
|}.
Next Obligation.
  intros s id sb Hav Hl.
  destruct (pg_lookup s id Hav) as [[Hn _]|(sb0 & Hid & _ & Hc)]; [congruence|].
  rewrite Hc in Hl. by injection Hl as <-.
Qed.
Next Obligation. done. Qed.
Next Obligation. done. Qed.
Next Obligation. done. Qed.
Next Obligation. done. Qed.
Next Obligation. intros sb. simpl. by rewrite fmap_is_Some. Qed.
Next Obligation. done. Qed.
Next Obligation.
  intros s id sb Hav Hl.
  destruct (pg_lookup s id Hav) as [[Hn _]|(sb0 & Hid & _ & Hc)]; [congruence|].
  rewrite Hc in Hl. injection Hl as <-. apply pg_timestamp_idem.
Qed.
Next Obligation.
  intros sb s Hav Hn. simpl. unfold pg_create_sandbox. rewrite (proj1 Hav). simpl.
  destruct (pg_lookup s (sb_id sb) Hav) as [[_ ->]|(sb0 & _ & _ & Hc)]; [|congruence].
  eexists. split_and!; [done|by apply pg_available_insert|apply pg_contents_insert].
Qed.
Next Obligation.
  intros sb old s Hav Hl Ht. simpl. unfold pg_update_sandbox. rewrite (proj1 Hav). simpl.
  destruct (pg_lookup s (sb_id sb) Hav) as [[Hn _]|(sb0 & Hid & -> & Hc)]; [congruence|].
  rewrite Hc in Hl. injection Hl as <-. simpl in Ht. rewrite update_row_of by done.
  eexists. split_and!; [done|by apply pg_available_insert|apply pg_contents_insert].
Qed.
Next Obligation.
  intros id s Hav. simpl. unfold pg_delete_sandbox. rewrite (proj1 Hav). simpl.
  eexists. split_and!; [done| |].
  - split; [apply Hav|]. intros id' r. simpl. rewrite lookup_delete_Some.
    intros [_ Hr]. by apply Hav in Hr.
  - unfold pg_contents. simpl. apply map_eq. intros id'. rewrite lookup_omap.
    destruct (decide (id' = id)) as [->|Hne]; [by rewrite !lookup_delete_eq|].
    rewrite !lookup_delete_ne by done. by rewrite lookup_omap.
Qed.
Next Obligation. intros id s Hav. simpl. by apply pg_get_ok. Qed.
Next Obligation.
  intros id s Hav. simpl. rewrite pg_get_ok by done. by rewrite option_filter_true.
Qed.
Next Obligation. intros id s Hav. simpl. by apply pg_get_ok. Qed.
Next Obligation.
  intros s Hav. simpl. rewrite list_all_ok by done. eexists. split; [done|].
  intros sb. by apply elem_of_convert_taken.
Qed.
Next Obligation.
  intros id key incl s Hav. simpl. unfold fetch_sandbox_with_deleted_if_owned_by.
  rewrite (proj1 Hav). simpl. eexists. split; [done|].
  destruct (pg_lookup s id Hav) as [[-> ->]|(sb & Hid & -> & ->)].
  { split; [by intros []|]. by intros (? & ? & _). }
  simpl. rewrite has_owner_row, is_live_row.
  replace (incl || visible false (read_back None sb)) with (visible incl (read_back None sb))
    by (by destruct incl).
  destruct (owned_by key sb && visible incl (read_back None sb)) eqn:E; simpl.
  - rewrite convert_one_owned. split; [|by eauto]. intros _.
    apply andb_true_iff in E as [Ho Hv]. exists (read_back None sb).
    by apply owned_by_spec in Ho.
  - split; [by intros []|]. intros (sb' & [= <-] & Ho & Hv).
    assert (owned_by key sb = true) as Ho' by (by apply owned_by_spec).
    by rewrite Ho', Hv in E.
Qed.
Next Obligation.
  intros s key incl Hav. simpl. unfold fetch_sandboxes_owned_by. rewrite (proj1 Hav). simpl.
  eexists. split; [done|]. split; [by apply owned_ids_nodup|]. split.
  - intros sb (r & Hr & Hc)%list_elem_of_omap.
    rewrite list_elem_of_In, filter_In, <-list_elem_of_In in Hr. destruct Hr as [Hr Hp].
    apply (elem_of_rows s r Hav) in Hr as (sb0 & -> & Hcon).
    rewrite has_owner_row, is_live_row in Hp. apply andb_true_iff in Hp as [Ho Hv].
    rewrite convert_one_owned in Hc. injection Hc as <-.
    split; [by apply owned_by_spec in Ho|]. split; [by destruct incl|].
    exists (read_back None sb0). split; [done|]. by exists None.
  - intros id sb Hsb Ho Hv.
    destruct (pg_lookup s id Hav) as [[Hn _]|(sb0 & Hid & Hrow & Hc)]; [congruence|].
    rewrite Hsb in Hc. injection Hc as ->.
    exists (read_back (cfg_command (sb_config sb0)) sb0). split; [|done].
    apply list_elem_of_omap. exists (row_of sb0). split; [|apply convert_one_owned].
    rewrite list_elem_of_In, filter_In, <-list_elem_of_In, elem_of_in_order, elem_of_table.
    split; [by exists id|]. rewrite has_owner_row, is_live_row.
    assert (owned_by key sb0 = true) as -> by (by apply owned_by_spec). by destruct incl.
Qed.

(** ** Theorems *)

(** A record that a row can hold without loss. *)
Record representable (sb : Sandbox) : Prop := {
  rep_timeout v : cfg_inactivity_timeout_minutes (sb_config sb) = Some v → is_u64 v;
  rep_count : is_u64 (activity_count (sb_activity sb));
  rep_ports : cfg_exposed_ports (sb_config sb) = [];
  rep_same : sb_inactivity_timeout_minutes sb = cfg_inactivity_timeout_minutes (sb_config sb);
  rep_times t :
    t ∈ [sb_created_at sb; sb_updated_at sb; last_api_activity (sb_activity sb)] ∨
    last_container_activity (sb_activity sb) = Some t ∨ sb_deleted_at sb = Some t →
    pg_timestamp t = t;
}.

Lemma option_fmap_exact {T} (f : T → T) (o : option T) :
  (∀ x, o = Some x → f x = x) → f <$> o = o.
Proof. destruct o; [|done]. intros Hf. simpl. by rewrite Hf. Qed.

Lemma read_back_representable command sb :
  representable sb →
  read_back command sb = sb_set_config (cfg_set_command command (sb_config sb)) sb.
Proof.
  intros [Ht Hc Hp Hs Htimes]. unfold read_back, sb_set_config, cfg_set_command.
  rewrite !(option_fmap_exact pg_timestamp) by eauto.
  rewrite !Htimes by set_solver.
  rewrite option_fmap_exact by (intros v Hv; by apply u64_i64_roundtrip, Ht).
  rewrite u64_i64_roundtrip by done. rewrite Hp, Hs.
  by destruct (sb_activity sb).
Qed.


Lemma fetch_owned_row s sb key :
  pg_connects s = true → pg_rows s !! sb_id sb = Some (row_of sb) →
  sb_api_key_id sb = Some key → sb_deleted_at sb = None →
  fetch_sandbox_if_owned_by (sb_id sb) key s
    = (Some (read_back (cfg_command (sb_config sb)) sb), s).
Proof.
  intros Hcon Hrow Ho Hd. unfold fetch_sandbox_if_owned_by. rewrite Hcon, Hrow. simpl.
  rewrite has_owner_row, is_live_row, (proj2 (owned_by_spec key sb) Ho).
  unfold visible. simpl. rewrite Hd. simpl. by rewrite convert_one_owned.
Qed.

(** reading a record and writing it back erases its command.  Every
    operation of the service that changes a record starts from [get_sandbox] or
    [get_sandbox_with_deleted], which read no command, and writes the whole row;
    after the first of them the stored command is gone. *)
Theorem read_modify_write_erases_command s sb key :
  pg_available s → pg_rows s !! sb_id sb = None →
  sb_api_key_id sb = Some key → sb_deleted_at sb = None →
  let s1 := run_st (pg_create_sandbox sb) s in
  (cfg_command ∘ sb_config <$> run_val (fetch_sandbox_if_owned_by (sb_id sb) key) s1)
    = Some (cfg_command (sb_config sb)) ∧
  ∃ sb1, run_val (pg_get_sandbox (sb_id sb)) s1 = Some sb1 ∧
    let s2 := run_st (pg_update_sandbox sb1) s1 in
    (cfg_command ∘ sb_config <$> run_val (fetch_sandbox_if_owned_by (sb_id sb) key) s2)
      = Some None.
Proof.
  intros Hav Hn Ho Hd s1. unfold s1, run_st, run_val, pg_create_sandbox.
  assert (Hcon := proj1 Hav). rewrite Hcon, Hn. simpl. clear s1.
  set (s1 := set_rows _ s). assert (pg_available s1) as Hav1 by by apply pg_available_insert.
  assert (pg_rows s1 !! sb_id sb = Some (row_of sb)) as Hrow1 by apply lookup_insert_eq.
  rewrite (fetch_owned_row s1 sb key) by done. split; [done|].
  exists (read_back None sb). unfold pg_get_sandbox. rewrite pg_get_ok by done. simpl.
  destruct (pg_lookup s1 (sb_id sb) Hav1) as [[_ Hn1]|(sb0 & Hid0 & Hrow & Hc)]; [congruence|].
  assert (pg_contents s1 !! sb_id sb = Some (read_back None sb)) as ->.
  { unfold pg_contents. rewrite lookup_omap, Hrow1. apply convert_one_row. }
  unfold visible. simpl. rewrite Hd. simpl. split; [done|].
  unfold pg_update_sandbox. rewrite (proj1 Hav1). cbn [negb sb_id read_back].
  rewrite Hrow1, update_row_of by (simpl; auto using pg_timestamp_idem).
  change (sb_id sb) with (sb_id (read_back None sb)).
  rewrite fetch_owned_row; [done|done| |done|simpl; by rewrite Hd].
  apply lookup_insert_eq.
Qed.

Lemma not_bindable_without_1 used n :
  (∀ k, k ∈ used → 2 ≤ k) → (1 ≤ n)%nat → bindable used n = false.
Proof.
  intros Hused Hn. unfold bindable. apply andb_false_iff. right.
  apply bool_decide_eq_false. intros Hp.
  assert (1 ∈ used) as H1'; [|specialize (Hused 1 H1'); lia].
  rewrite Hp. apply list_elem_of_fmap. exists 1%nat. split; [done|].
  apply elem_of_seq. lia.
Qed.

Lemma one_if_nonneg {T} (o : option T) : 0 ≤ one_if o.
Proof. by destruct o. Qed.

Lemma placeholders_from_2 f k : k ∈ where_conditions f ≫= placeholder → 2 ≤ k.
Proof.
  intros (c & Hk & Hc)%list_elem_of_bind. unfold where_conditions in Hc.
  assert (H2 := one_if_nonneg (state_str f)). assert (H3 := one_if_nonneg (image_pattern f)).
  assert (H4 := one_if_nonneg (flt_created_after f)).
  rewrite !elem_of_app in Hc.
  destruct Hc as [Hc|[Hc|[Hc|[Hc|Hc]]]]; repeat case_match; try (by apply elem_of_nil in Hc);
    apply list_elem_of_singleton in Hc; subst c; simpl in Hk;
    first [by apply elem_of_nil in Hk|apply list_elem_of_singleton in Hk; lia].
Qed.

(** a filtered listing never works.  Its placeholders start at [$2] while its
    parameters start at [$1], so that with a state, image or date filter the
    statement is refused by the database, whatever the table holds. *)
Theorem filtered_listing_fails f s :
  pg_connects s = true →
  is_Some (flt_state f) ∨ is_Some (flt_image f) ∨
  is_Some (flt_created_after f) ∨ is_Some (flt_created_before f) →
  list_sandboxes_filtered f s = (Err (StorePostgres (pg_error "parameters")), s).
Proof.
  intros Hcon Hf. unfold list_sandboxes_filtered. rewrite Hcon. cbn [negb].
  rewrite not_bindable_without_1; [done|apply placeholders_from_2|].
  unfold count_params, state_str, image_pattern.
  destruct f as [incl [] [] [] [] p pp]; simpl in *; try lia.
  destruct Hf as [[? [=]]|[[? [=]]|[[? [=]]|[? [=]]]]].
Qed.

Lemma unfiltered_conditions f :
  flt_state f = None → flt_image f = None → flt_created_after f = None →
  flt_created_before f = None →
  where_conditions f = (if flt_include_deleted f then [] else [LiveOnly]) ∧
  count_params f = [] ∧ select_params f = [] ∧ where_param_count f = 0.
Proof.
  intros E1 E2 E3 E4. unfold where_conditions, count_params, select_params, where_param_count,
    state_str, image_pattern. rewrite E1, E2, E3, E4. simpl. by rewrite app_nil_r.
Qed.

(** The rows a listing without further filters is about. *)
Definition listed (f : SandboxListFilters) (r : Row) : bool :=
  flt_include_deleted f || is_live r.

Lemma matches_unfiltered f r :
  matches [] (if flt_include_deleted f then [] else [LiveOnly]) r = listed f r.
Proof. unfold listed. destruct (flt_include_deleted f); simpl; by rewrite ?andb_true_r. Qed.

(** a page of the listing.  Without state, image and date filters, and as
    long as the offset fits, the call returns the page of the visible rows,
    newest first, that starts at [(page - 1) * per_page]; the page size is
    between 1 and 200, the total counts the visible rows, the number of pages is
    the least that holds them (one when there are none), and there is a next
    page exactly before the last. *)
Theorem list_sandboxes_page f s :
  pg_connects s = true →
  flt_state f = None → flt_image f = None → flt_created_after f = None →
  flt_created_before f = None →
  let page_no := Z.max (default 1 (flt_page f)) 1 in
  let size := Z.min (Z.max (default 50 (flt_per_page f)) 1) 200 in
  (page_no - 1) * size < 2 ^ 63 →
  ∃ data meta, list_sandboxes_filtered f s = (Ok (data, meta), s) ∧
    data = convert sandbox_columns
      (take (Z.to_nat size) (drop (Z.to_nat ((page_no - 1) * size))
         (List.filter (listed f) (in_order s)))) ∧
    page meta = page_no ∧ per_page meta = size ∧ 1 ≤ size ≤ 200 ∧
    total meta = Z.of_nat (length (List.filter (listed f) (table s))) ∧
    1 ≤ total_pages meta ∧ total meta ≤ total_pages meta * size ∧
    (0 < total meta → (total_pages meta - 1) * size < total meta) ∧
    (has_next meta = true ↔ page_no < total_pages meta).
Proof.
  intros Hcon E1 E2 E3 E4 page_no size Hoff.
  destruct (unfiltered_conditions f E1 E2 E3 E4) as (Hc & Hp & Hs & Hw).
  assert (1 ≤ size ≤ 200) as Hsize by (unfold size; lia).
  assert (1 ≤ page_no) as Hpage by (unfold page_no; lia).
  assert (0 ≤ (page_no - 1) * size) as Hpos by nia.
  assert (i64_wrap (u64_wrap ((page_no - 1) * size)) = (page_no - 1) * size) as Hwrap.
  { rewrite u64_wrap_id by (unfold is_u64; lia). apply i64_wrap_id. unfold is_i64. lia. }
  assert (∀ l, List.filter (matches [] (if flt_include_deleted f then [] else [LiveOnly])) l
               = List.filter (listed f) l) as Hm.
  { intros l. apply filter_ext. intros r. apply matches_unfiltered. }
  unfold list_sandboxes_filtered. rewrite Hcon, Hc, Hp, Hs, Hw. cbn [negb].
  replace (bindable ((if flt_include_deleted f then [] else [LiveOnly]) ≫= placeholder)
             (length (@nil Param))) with true by (by destruct (flt_include_deleted f)).
  replace (bindable (((if flt_include_deleted f then [] else [LiveOnly]) ≫= placeholder)
             ++ [0 + 1; 0 + 1 + 1]) (length (@nil Param) + 2)) with true
    by (by destruct (flt_include_deleted f)).
  fold page_no size. rewrite Hwrap, !Hm. cbn [negb].
  rewrite bool_decide_false by lia. do 2 eexists. split; [reflexivity|].
  cbn [page per_page total total_pages has_next].
  set (n := Z.of_nat (length (List.filter (listed f) (table s)))).
  assert (0 ≤ n) by (unfold n; lia).
  split_and!; try done; try lia; [| | |by rewrite bool_decide_eq_true];
    case_bool_decide; try lia; Z.div_mod_to_equations; nia.
Qed.

Lemma convert_length s n :
  pg_available s → length (convert sandbox_columns (take n (in_order s)))
                   = Nat.min n (length (in_order s)).
Proof.
  intros Hav. rewrite <-length_take.
  assert (∀ r, r ∈ take n (in_order s) → ∃ sb, r = row_of sb) as Hrows.
  { intros r (i & Hr & _)%elem_of_take. apply list_elem_of_lookup_2 in Hr.
    apply elem_of_in_order, elem_of_table in Hr as [id Hr].
    destruct (proj2 Hav _ _ Hr) as (sb & _ & ->). eauto. }
  induction (take n (in_order s)) as [|r l IH]; [done|].
  destruct (Hrows r ltac:(by left)) as [sb ->]. unfold convert in *.
  cbn [omap list_omap]. rewrite convert_one_row. cbn [length]. f_equal. apply IH.
  intros r Hr. apply Hrows. by right.
Qed.

(** the list of "all" sandboxes holds at most fifty.  [list_sandboxes] asks
    for the first page of the default size; the background passes, which walk
    over its result, do not see the records after it. *)
Theorem list_sandboxes_truncates s :
  pg_available s →
  length (run_val pg_list_sandboxes s) = Nat.min 50 (size (pg_rows s)).
Proof.
  intros Hav. unfold run_val. rewrite list_all_ok by done. cbn [fst].
  rewrite convert_length by done. f_equal.
  unfold in_order. rewrite (Permutation_length (merge_sort_Permutation newer (table s))).
  unfold table. rewrite length_fmap. apply length_map_to_list.
Qed.

Lemma filter_none {T} (p : T → bool) l : (∀ x, x ∈ l → p x = false) → List.filter p l = [].
Proof.
  induction l as [|x l IH]; intros Hp; [done|]. simpl. rewrite Hp by by left.
  apply IH. intros y Hy. apply Hp. by right.
Qed.

Lemma stuck_row limit sb : stuck limit (row_of sb) = false.
Proof.
  unfold stuck.
  replace (column "state" (row_of sb)) with (Some (SqlText (SandboxState_as_str (sb_state sb))))
    by reflexivity.
  by destruct (sb_state sb).
Qed.

(** the recovery of stuck sandboxes recovers none.  It looks for the state
    ['Creating'], but states are stored in lower case, so that on every table
    the store has written it finds nothing, reports nothing and changes
    nothing, however long a sandbox has been in the creating state. *)
Theorem recover_stuck_never_matches timeout_secs now s :
  pg_available s → recover_stuck_sandboxes timeout_secs now s = (Ok (0, 0), s).
Proof.
  intros Hav. unfold recover_stuck_sandboxes. rewrite (proj1 Hav). cbn [negb].
  rewrite filter_none; [done|]. intros r Hr.
  apply list_elem_of_In, in_rev, list_elem_of_In, elem_of_in_order, elem_of_table in Hr as [id Hr].
  destruct (proj2 Hav _ _ Hr) as (sb & _ & ->). apply stuck_row.
Qed.

(** the final deletion of soft-deleted records removes exactly the rows
    whose deletion is older than the retention period, and returns their
    number. *)
Theorem cleanup_expired_spec retention_days now s :
  pg_connects s = true → is_i64 (retention_days * 86400) →
  let limit := now - retention_days * 86400 * ns_per_sec in
  ∃ n s', cleanup_expired_sandboxes retention_days now s = (Ok n, s') ∧
    (∀ id, pg_rows s' !! id = match pg_rows s !! id with
                              | Some r => if deleted_before limit r then None else Some r
                              | None => None
                              end) ∧
    n = Z.of_nat (size (filter (λ p, deleted_before limit p.2 = true) (pg_rows s))).
Proof.
  intros Hcon Hr limit. unfold cleanup_expired_sandboxes. rewrite Hcon. cbn [negb].
  rewrite i64_wrap_id by done. fold limit. do 2 eexists. split; [reflexivity|]. split; [|done].
  intros id. cbn. apply option_eq. intros r.
  rewrite lookup_difference_Some, map_lookup_filter_None. simpl.
  destruct (pg_rows s !! id) as [r0|]; [|split; [by intros []|done]].
  destruct (deleted_before limit r0) eqn:E.
  - split; [|done]. intros [[= ->] [?|Hd]]; [done|]. by apply Hd in E.
  - split; [by intros [? _]|]. intros [= ->]. split; [done|]. right. congruence.
Qed.

(** The row after a soft deletion, and after a restoration. *)
Lemma soft_delete_row sb now who :
  update_row [("deleted_at", sql_time now); ("deleted_by", sql_opt SqlText who);
              ("state", SqlText "destroying"); ("updated_at", sql_time now)] (row_of sb)
  = row_of (sb_set_updated_at now (sb_set_state Destroying (sb_set_deleted (Some now) who sb))).
Proof. reflexivity. Qed.

Lemma restore_row sb now :
  update_row [("deleted_at", SqlNull); ("deleted_by", SqlNull); ("state", SqlText "stopped");
              ("updated_at", sql_time now)] (row_of sb)
  = row_of (sb_set_updated_at now (sb_set_state Stopped (sb_set_deleted None None sb))).
Proof. reflexivity. Qed.

(** soft deletion and restoration in the store are inverse to each other up
    to the state and the time of the update.  A live record that is
    soft-deleted cannot be read any more, except with the deleted ones, where it
    is being destroyed; a second deletion does not find it; and a restoration
    brings it back stopped, with everything else as it was. *)
Theorem soft_delete_then_restore s sb who t1 t2 :
  pg_available s → pg_rows s !! sb_id sb = Some (row_of sb) → sb_deleted_at sb = None →
  sb_deleted_by sb = None →
  ∃ s1 s2,
    soft_delete_sandbox (sb_id sb) who t1 s = (Ok (), s1) ∧
    run_val (pg_get_sandbox (sb_id sb)) s1 = None ∧
    (sb_state <$> run_val (pg_get_sandbox_with_deleted (sb_id sb) true) s1) = Some Destroying ∧
    soft_delete_sandbox (sb_id sb) who t2 s1 = (Err (StoreNotFound (sb_id sb)), s1) ∧
    restore_sandbox (sb_id sb) t2 s1 = (Ok (), s2) ∧
    run_val (pg_get_sandbox (sb_id sb)) s2
      = Some (read_back None (sb_set_updated_at t2 (sb_set_state Stopped sb))) ∧
    pg_available s2.
Proof.
  intros Hav Hrow Hd Hw. assert (Hcon := proj1 Hav).
  set (sb1 := sb_set_updated_at t1 (sb_set_state Destroying (sb_set_deleted (Some t1) who sb))).
  set (sb2 := sb_set_updated_at t2 (sb_set_state Stopped (sb_set_deleted None None sb1))).
  set (s1 := set_rows (<[sb_id sb1 := row_of sb1]> (pg_rows s)) s).
  set (s2 := set_rows (<[sb_id sb2 := row_of sb2]> (pg_rows s1)) s1).
  assert (pg_available s1) as Hav1 by by apply pg_available_insert.
  assert (pg_available s2) as Hav2 by by apply pg_available_insert.
  assert (pg_rows s1 !! sb_id sb = Some (row_of sb1)) as Hrow1 by apply lookup_insert_eq.
  assert (pg_contents s1 !! sb_id sb = Some (read_back None sb1)) as Hc1
    by (unfold s1; rewrite pg_contents_insert; apply lookup_insert_eq).
  assert (pg_contents s2 !! sb_id sb = Some (read_back None sb2)) as Hc2
    by (unfold s2; rewrite pg_contents_insert; apply lookup_insert_eq).
  assert (sb2 = sb_set_updated_at t2 (sb_set_state Stopped sb)) as Hsb2.
  { unfold sb2, sb1. destruct sb. simpl in Hd, Hw. by subst. }
  assert (is_live (row_of sb) = true) as Hl by (rewrite is_live_row; cbn; by rewrite Hd).
  assert (is_live (row_of sb1) = false) as Hl1 by by rewrite is_live_row.
  exists s1, s2. unfold run_val, pg_get_sandbox. rewrite !pg_get_ok by done. rewrite Hc1, Hc2.
  split_and!; try done.
  - unfold soft_delete_sandbox. rewrite Hcon, Hrow. cbn [negb option_filter].
    by rewrite Hl, soft_delete_row.
  - unfold soft_delete_sandbox. rewrite (proj1 Hav1), Hrow1. cbn [negb option_filter].
    by rewrite Hl1.
  - unfold restore_sandbox. rewrite (proj1 Hav1), Hrow1. cbn [negb option_filter].
    rewrite Hl1. cbn [negb]. by rewrite restore_row.
  - by rewrite <-Hsb2.
Qed.
End roundtrip.

(** ** Witnesses *)

Module Witnesses.
Import Demo.

(** A database that rounds times to microseconds and keeps JSON as it is, and
    JSON codes for the stored types. *)
#[local] Instance pg : PgLib := {|
  pg_timestamp := λ t, t / 1000 * 1000;
  pg_jsonb := λ j, j;
  pg_like := λ _ _, true;
  column_error := λ c, "no column " +:+ c;
  pg_error := λ c, c;
|}.

#[local] Instance pg_laws : PgLaws.
Proof.
  split; [|done]. intros t. simpl. by rewrite Z.div_mul.
Qed.

#[local, program] Instance port_countable : Countable PortMapping :=
  inj_countable' (λ p, (host_port p, container_port p, bool_decide (protocol p = Udp)))
    (λ '(h, c, u), mkPortMapping h c (if u : bool then Udp else Tcp)) _.
Next Obligation. by intros [? ? []]. Qed.

#[local, program] Instance volume_countable : Countable VolumeMount :=
  inj_countable' (λ v, match v with Bind h c r => (true, h, c, r) | Named n c r => (false, n, c, r) end)
    (λ '(b, h, c, r), if b : bool then Bind h c r else Named h c r) _.
Next Obligation. by intros []. Qed.

#[local, program] Instance ulimit_countable : Countable Ulimit :=
  inj_countable' (λ u, (ulimit_name u, ulimit_soft u, ulimit_hard u))
    (λ '(n, s, h), mkUlimit n s h) _.
Next Obligation. by intros []. Qed.

#[local, program] Instance limits_countable : Countable ResourceLimits :=
  inj_countable' (λ r, (memory_mb r, cpu_quota r, cpu_period r, cpu_shares r, pids_limit r, ulimits r))
    (λ '(m, q, p, s, l, u), mkResourceLimits m q p s l u) _.
Next Obligation. by intros []. Qed.

#[local] Instance serde `{Countable T} : SerdeJson T := {|
  to_value := λ x, JNumber (Zpos (encode x));
  from_value := λ j, match j with
                     | JNumber (Zpos p) => option_ok_or "code" (decode p)
                     | _ => Err "number"
                     end;
|}.

#[local] Instance serde_laws `{Countable T} : SerdeLaws T.
Proof. split; [|done]. intros x. simpl. by rewrite decode_encode. Qed.

(** A record with a command, owned by the key 7. *)
Definition sleeper : Sandbox :=
  mkSandbox 5%N (cfg_set_command (Some ["sleep"; "3600"]) SandboxConfig_default) Running
    (Some "c0") 3000 4000 None [] (mkActivityTracking 4000 None 2) None None None (Some 7%N).

Definition empty : PgStore := mkPgStore ∅ true.

Lemma empty_available : pg_available empty.
Proof. split; [done|]. intros id r Hr. exfalso. exact (lookup_empty_Some _ _ Hr). Qed.

Definition holding : PgStore := mkPgStore (<[5%N := row_of sleeper]> ∅) true.

Lemma holding_available : pg_available holding.
Proof. exact (pg_available_insert empty sleeper empty_available). Qed.


Lemma read_modify_write_erases_command_witness :
  let s1 := run_st (pg_create_sandbox sleeper) empty in
  (cfg_command ∘ sb_config <$> run_val (fetch_sandbox_if_owned_by 5%N 7%N) s1)
    = Some (Some ["sleep"; "3600"]) ∧
  ∃ sb1, run_val (pg_get_sandbox 5%N) s1 = Some sb1 ∧
    (cfg_command ∘ sb_config <$>
       run_val (fetch_sandbox_if_owned_by 5%N 7%N) (run_st (pg_update_sandbox sb1) s1))
      = Some None.
Proof.
  exact (read_modify_write_erases_command empty sleeper 7%N empty_available eq_refl eq_refl eq_refl).
Defined.

Lemma filtered_listing_fails_witness :
  let f := mkSandboxListFilters false (Some Running) None None None None None in
  list_sandboxes_filtered f holding = (Err (StorePostgres "parameters"), holding).
Proof.
  intros f.
  exact (filtered_listing_fails f holding eq_refl (or_introl (ex_intro _ Running eq_refl))).
Defined.

Lemma list_sandboxes_page_witness :
  let f := mkSandboxListFilters true None None None None (Some 1) (Some 500) in
  ∃ data meta, list_sandboxes_filtered f holding = (Ok (data, meta), holding) ∧
    per_page meta = 200.
Proof.
  intros f.
  destruct (list_sandboxes_page f holding eq_refl eq_refl eq_refl eq_refl eq_refl)
    as (data & meta & Hl & _ & _ & Hp & _); [reflexivity|].
  exists data, meta. split; [exact Hl|exact Hp].
Defined.

Lemma list_sandboxes_truncates_witness :
  length (run_val pg_list_sandboxes holding) = 1%nat.
Proof. exact (list_sandboxes_truncates holding holding_available). Defined.

Lemma recover_stuck_never_matches_witness :
  let stuck := sb_set_state Creating sleeper in
  let s := mkPgStore (<[5%N := row_of stuck]> ∅) true in
  recover_stuck_sandboxes 600 (1000000 * ns_per_sec) s = (Ok (0, 0), s).
Proof.
  intros stuck s. apply recover_stuck_never_matches.
  exact (pg_available_insert empty stuck empty_available).
Defined.

Lemma cleanup_expired_spec_witness :
  ∃ n s', cleanup_expired_sandboxes 15 5000 holding = (Ok n, s') ∧
    pg_rows s' !! 5%N = Some (row_of sleeper).
Proof.
  destruct (cleanup_expired_spec 15 5000 holding eq_refl) as (n & s' & Hc & Hrows & _).
  { unfold is_i64. lia. }
  exists n, s'. split; [exact Hc|].
  etrans; [exact (Hrows 5%N)|reflexivity].
Defined.

Lemma soft_delete_then_restore_witness :
  ∃ s1 s2, soft_delete_sandbox 5%N (Some "me") 6000 holding = (Ok (), s1) ∧
    run_val (pg_get_sandbox 5%N) s1 = None ∧
    restore_sandbox 5%N 7000 s1 = (Ok (), s2).
Proof.
  destruct (soft_delete_then_restore holding sleeper (Some "me") 6000 7000 holding_available
              eq_refl eq_refl eq_refl) as (s1 & s2 & H1 & H2 & _ & _ & H3 & _).
  exists s1, s2. split; [exact H1|]. split; [exact H2|exact H3].
Defined.
End Witnesses.
