(* ===== verification/Activities.v ===== *)
(** * Activities: the activity log

    Models [src/db/activities.rs] (the log table), the queries of
    [src/core/activities.rs] (the recording side is in [Service]) and
    [src/api/handlers/activities.rs] (the handlers, with the clean-up of
    inactive sandboxes on request).  Rows are those of [Postgres]; the log is
    an instance of the interface [ActivityStoreTrait] that the sandbox service
    records through. *)

From S2P Require Import Prelude Text Errors Types Store World Demo Service Ops Tasks Postgres.

(** ** The table *)

Record ActivityStore : Type := mkActivityStore {
  al_rows : gmap Uuid Row;
  al_connects : bool;
}.

Definition set_al_rows (m : gmap Uuid Row) (s : ActivityStore) : ActivityStore :=
  mkActivityStore m (al_connects s).

Inductive ActivityError : Type :=
  | ActivityPostgres (text : string)
  | ActivityPool (text : string)
  | ActivitySerialization (text : string).

Definition ActivityError_to_string (e : ActivityError) : string :=
  match e with
  | ActivityPostgres t => "PostgreSQL error: " +:+ t
  | ActivityPool t => "Pool error: " +:+ t
  | ActivitySerialization t => "Serialization error: " +:+ t
  end.

(** The names of the activity types. *)
Definition activity_types : list (string * ActivityType) :=
  [("create", ActCreate); ("delete", ActDelete); ("restore", ActRestore); ("exec", ActExec);
   ("stats", ActStats); ("stop", ActStop); ("start", ActStart); ("cleanup", ActCleanup);
   ("info", ActInfo); ("container_activity", ActContainerActivity); ("upload", ActUpload);
   ("download", ActDownload)].

Definition activity_type_to_string (t : ActivityType) : string :=
  match t with
  | ActCreate => "create"
  | ActDelete => "delete"
  | ActRestore => "restore"
  | ActExec => "exec"
  | ActStats => "stats"
  | ActStop => "stop"
  | ActStart => "start"
  | ActCleanup => "cleanup"
  | ActInfo => "info"
  | ActContainerActivity => "container_activity"
  | ActUpload => "upload"
  | ActDownload => "download"
  end.

Definition activity_type_from_string (s : string) : Result ActivityType ActivityError :=
  option_ok_or (ActivityPool ("Invalid activity type: " +:+ s)) (match_str activity_types s).

(** [ORDER BY timestamp DESC]. *)
Definition activity_time (r : Row) : Z :=
  match column "timestamp" r with Some (SqlTime t) => t | _ => 0 end.

Definition later (r1 r2 : Row) : Prop := activity_time r2 ≤ activity_time r1.

#[global] Instance later_dec : RelDecision later.
Proof. intros r1 r2. unfold later. apply _. Defined.

Definition al_table (s : ActivityStore) : list Row := (map_to_list (al_rows s)).*2.

Definition of_sandbox (sandbox_id : Uuid) (r : Row) : bool :=
  match column "sandbox_id" r with Some (SqlUuid u) => bool_decide (u = sandbox_id) | _ => false end.

Section store.
Context `{PgLib}.

Definition activity_row (a : SandboxActivity) : Row :=
  [("id", SqlUuid (act_id a));
   ("sandbox_id", SqlUuid (act_sandbox_id a));
   ("activity_type", SqlText (activity_type_to_string (act_type a)));
   ("timestamp", sql_time (act_timestamp a));
   ("details", sql_json (act_details a));
   ("sandbox_is_deleted", SqlBool (act_sandbox_is_deleted a))].

Definition al_col {T} (dec : SqlValue → option T) (c : string) (r : Row)
    : Result T ActivityError :=
  result_map_err ActivityPostgres (try_get dec c r).

Definition row_to_activity (r : Row) : Result SandboxActivity ActivityError :=
  let? activity_type_str := al_col as_text "activity_type" r in
  let? activity_type := activity_type_from_string activity_type_str in
  let? id := al_col as_uuid "id" r in
  let? sandbox_id := al_col as_uuid "sandbox_id" r in
  let? timestamp := al_col as_time "timestamp" r in
  let? details := al_col as_json "details" r in
  let? sandbox_is_deleted := al_col as_bool "sandbox_is_deleted" r in
  Ok {| act_id := id; act_sandbox_id := sandbox_id; act_type := activity_type;
        act_timestamp := timestamp; act_details := details;
        act_sandbox_is_deleted := sandbox_is_deleted |}.

(** A statement needs a connection of the pool. *)
Definition with_client {X} (k : M ActivityStore (Result X ActivityError))
    : M ActivityStore (Result X ActivityError) := λ s,
  if al_connects s then k s else (Err (ActivityPool (pg_error "pool")), s).

Definition record_activity (a : SandboxActivity) : M ActivityStore (Result () ActivityError) :=
  with_client (λ s,
    match al_rows s !! act_id a with
    | Some _ => (Err (ActivityPostgres (pg_error "duplicate key")), s)
    | None => (Ok (), set_al_rows (<[act_id a := activity_row a]> (al_rows s)) s)
    end).

(** Rows that do not convert are logged and dropped. *)
Definition activities_of_rows (rows : list Row) : list SandboxActivity :=
  omap (λ r, match row_to_activity r with Ok a => Some a | Err _ => None end) rows.

(** [SELECT .. WHERE p ORDER BY timestamp DESC LIMIT $n]; [limit as i64]. *)
Definition select_activities (p : Row → bool) (limit : Z)
    : M ActivityStore (Result (list SandboxActivity) ActivityError) :=
  with_client (λ s,
    if bool_decide (i64_wrap limit < 0) then
      (Err (ActivityPostgres (pg_error "negative limit")), s)
    else
      (Ok (activities_of_rows
             (take (Z.to_nat (i64_wrap limit)) (merge_sort later (List.filter p (al_table s))))),
       s)).

Definition list_sandbox_activities (sandbox_id : Uuid) (limit : Z)
    : M ActivityStore (Result (list SandboxActivity) ActivityError) :=
  select_activities (of_sandbox sandbox_id) limit.

Definition list_recent_activities (limit : Z)
    : M ActivityStore (Result (list SandboxActivity) ActivityError) :=
  select_activities (λ _, true) limit.

Definition get_activity (activity_id : Uuid)
    : M ActivityStore (Result (option SandboxActivity) ActivityError) :=
  with_client (λ s,
    match al_rows s !! activity_id with
    | Some r => (let? a := row_to_activity r in Ok (Some a), s)
    | None => (Ok None, s)
    end).

Definition mark_row (r : Row) : Row :=
  (λ '(c, v), (c, if String.eqb c "sandbox_is_deleted" then SqlBool true else v)) <$> r.

(** [UPDATE .. SET sandbox_is_deleted = TRUE WHERE sandbox_id = $1]. *)
Definition mark_sandbox_activities_deleted (sandbox_id : Uuid)
    : M ActivityStore (Result Z ActivityError) :=
  with_client (λ s,
    (Ok (Z.of_nat (length (List.filter (of_sandbox sandbox_id) (al_table s)))),
     set_al_rows ((λ r, if of_sandbox sandbox_id r then mark_row r else r) <$> al_rows s) s)).

(** What the service records through: its errors wrapped as those of
    [core/activities.rs] and boxed. *)
Definition activity_error_text (e : ActivityError) : string :=
  "Database error: " +:+ ActivityError_to_string e.

#[export] Instance ActivityStore_trait : ActivityStoreTrait ActivityStore := {|
  as_record_activity := λ a s,
    let '(r, s') := record_activity a s in (result_map_err activity_error_text r, s');
  as_mark_deleted := λ id s,
    let '(r, s') := mark_sandbox_activities_deleted id s in
    (result_map_err activity_error_text r, s');
|}.
End store.

(** ** The service's queries *)

Record ActivityResponse : Type := mkActivityResponse {
  ar_id : Uuid;
  ar_sandbox_id : Uuid;
  ar_type : ActivityType;
  ar_timestamp : DateTime;
  ar_details : Json;
}.

Definition ActivityResponse_from (a : SandboxActivity) : ActivityResponse :=
  {| ar_id := act_id a; ar_sandbox_id := act_sandbox_id a; ar_type := act_type a;
     ar_timestamp := act_timestamp a; ar_details := act_details a |}.

Module Queries.
Section queries.
Context `{PgLib}.

Definition list_sandbox_activities (sandbox_id : Uuid) (limit : Z)
    : M ActivityStore (Result (list ActivityResponse) string) :=
  r ← Activities.list_sandbox_activities sandbox_id limit;
  mret (match r with
        | Ok l => Ok (ActivityResponse_from <$> l)
        | Err e => Err (activity_error_text e)
        end).

Definition list_recent_activities (limit : Z)
    : M ActivityStore (Result (list ActivityResponse) string) :=
  r ← Activities.list_recent_activities limit;
  mret (match r with
        | Ok l => Ok (ActivityResponse_from <$> l)
        | Err e => Err (activity_error_text e)
        end).

Definition get_activity (activity_id : Uuid)
    : M ActivityStore (Result (option ActivityResponse) string) :=
  r ← Activities.get_activity activity_id;
  mret (match r with
        | Ok o => Ok (ActivityResponse_from <$> o)
        | Err e => Err (activity_error_text e)
        end).
End queries.
End Queries.

(** ** The handlers *)

Inductive Reply : Type :=
  | ReplyText (status : Z) (text : string)
  | ReplyJson (status : Z) (body : Json)
  | ReplyApiError (e : ApiError)
  | ReplyActivities (l : list ActivityResponse)
  | ReplyActivity (a : ActivityResponse)
  | ReplyCleanup (message : string) (cleaned : Z) (dry_run : bool).

Definition privileged_only_response (message : string) : Reply :=
  ReplyApiError (ApiValidation message None AuthorizationInsufficientPermissions).

Definition no_activity_service : Reply :=
  ReplyText 503 "Activity tracking requires PostgreSQL backend".

Definition failed_reply (what text : string) : Reply :=
  ReplyJson 500 (JObject [("error", JString (what +:+ text))]).

(** The type given in the query is accepted and not used. *)
Record ListActivitiesQuery : Type := mkListActivitiesQuery {
  la_sandbox_id : option Uuid;
  la_activity_type : option string;
  la_limit : option Z;
}.

Record CleanupQuery : Type := mkCleanupQuery {
  cq_dry_run : option bool;
  cq_timeout : option Z;
}.

Module Handlers.
Section handlers.
Context `{PgLib} {S B : Type}.
Context `{!StateStoreTrait S} `{!SandboxManager B} `{!UuidLib} `{!ChronoLib}.
#[local] Abbreviation W := (World S B ActivityStore).

(** [get_activity_service()], and a query through it. *)
Definition with_service {X} (m : M ActivityStore X) (k : X → M W Reply) : M W Reply := λ w,
  match w_activity w with
  | Some a => let '(x, a') := m a in k x (set_activity (Some a') w)
  | None => (no_activity_service, w)
  end.

(** The ownership check, which privileged keys skip. *)
Definition owner_only (identity : ApiKeyIdentity) (sandbox_id : Uuid) (k : M W Reply) : M W Reply :=
  if is_privileged_key identity then k
  else
    r ← check_sandbox_ownership identity sandbox_id;
    match r with
    | Ok _ => k
    | Err e => mret (ReplyApiError e)
    end.

Definition list_reply (what : string) (r : Result (list ActivityResponse) string) : Reply :=
  match r with
  | Ok activities => ReplyActivities activities
  | Err e => failed_reply what e
  end.

Definition list_activities (identity : ApiKeyIdentity) (params : ListActivitiesQuery)
    : M W Reply :=
  let limit := default 100 (la_limit params) in
  match la_sandbox_id params with
  | Some sandbox_id =>
      owner_only identity sandbox_id
        (with_service (Queries.list_sandbox_activities sandbox_id limit)
           (λ r, mret (list_reply "Failed to list activities: " r)))
  | None =>
      if is_privileged_key identity then
        with_service (Queries.list_recent_activities limit)
          (λ r, mret (list_reply "Failed to list activities: " r))
      else
        mret (privileged_only_response "Listing all activities requires a privileged API key")
  end.

Definition get_activity (identity : ApiKeyIdentity) (id : Uuid) : M W Reply :=
  with_service (Queries.get_activity id)
    (λ r, match r with
          | Ok (Some activity) =>
              owner_only identity (ar_sandbox_id activity) (mret (ReplyActivity activity))
          | Ok None => mret (ReplyText 404 "Activity not found")
          | Err e => mret (failed_reply "Failed to get activity: " e)
          end).

Definition list_sandbox_activities (identity : ApiKeyIdentity) (id : Uuid)
    (params : ListActivitiesQuery) : M W Reply :=
  owner_only identity id
    (with_service (Queries.list_sandbox_activities id (default 100 (la_limit params)))
       (λ r, mret (list_reply "Failed to list sandbox activities: " r))).

(** One sandbox of the clean-up on request: 1 when it was cleaned. *)
Definition cleanup_one (dry_run : bool) (timeout_minutes : Z) (now : DateTime)
    (sandbox : Sandbox) : M W Z :=
  let elapsed_minutes := u64_wrap (num_minutes (now - last_activity (sb_activity sandbox))) in
  if bool_decide (timeout_minutes ≤ elapsed_minutes) then
    if dry_run then mret 0
    else
      r ← cleanup_sandbox (sb_id sandbox);
      mret (match r with Ok _ => 1 | Err _ => 0 end)
  else mret 0.

Definition cleanup_inactive_sandboxes (identity : ApiKeyIdentity) (params : CleanupQuery)
    : M W Reply :=
  if negb (is_privileged_key identity) then
    mret (privileged_only_response "Cleaning up all sandboxes requires a privileged API key")
  else
    let dry_run := default false (cq_dry_run params) in
    let timeout_minutes := default 30 (cq_timeout params) in
    sandboxes ← on_store list_sandboxes;
    now ← utc_now;
    cleaned_count ← for_count sandboxes (cleanup_one dry_run timeout_minutes now);
    mret (ReplyCleanup
      (if dry_run then
         "Dry run complete: " +:+ Z_to_string cleaned_count
           +:+ " sandboxes would be cleaned up"
       else "Cleanup complete: " +:+ Z_to_string cleaned_count +:+ " sandboxes cleaned")
      cleaned_count dry_run).
End handlers.
End Handlers.

(** ** Theorems *)

Section log.
Context `{PgLib} `{!PgLaws}.

(** An activity as its row gives it back. *)
Definition read_activity (a : SandboxActivity) : SandboxActivity :=
  {| act_id := act_id a; act_sandbox_id := act_sandbox_id a; act_type := act_type a;
     act_timestamp := pg_timestamp (act_timestamp a); act_details := pg_jsonb (act_details a);
     act_sandbox_is_deleted := act_sandbox_is_deleted a |}.

(** A log that the code has written: every row is the row of an activity. *)
Definition log_ok (s : ActivityStore) : Prop :=
  al_connects s = true ∧
  map_Forall (λ id r, ∃ a, act_id a = id ∧ r = activity_row a) (al_rows s).

(** What the log holds. *)
Definition log (s : ActivityStore) : list SandboxActivity := activities_of_rows (al_table s).

Lemma activity_type_roundtrip t : activity_type_from_string (activity_type_to_string t) = Ok t.
Proof. by destruct t. Qed.

Lemma row_to_activity_row a : row_to_activity (activity_row a) = Ok (read_activity a).
Proof.
  unfold row_to_activity, activity_row. cbn. fold activity_type_from_string.
  destruct a as [id sid ty ts dt del]. by destruct ty.
Qed.

Lemma of_sandbox_row id a : of_sandbox id (activity_row a) = bool_decide (act_sandbox_id a = id).
Proof. done. Qed.

Lemma activities_cons a rows :
  activities_of_rows (activity_row a :: rows) = read_activity a :: activities_of_rows rows.
Proof. unfold activities_of_rows. simpl. by rewrite row_to_activity_row. Qed.

#[local] Instance activities_of_rows_proper : Proper ((≡ₚ) ==> (≡ₚ)) activities_of_rows.
Proof. intros l1 l2 Hl. unfold activities_of_rows. by rewrite Hl. Qed.

Lemma filter_all {X} (l : list X) : List.filter (λ _, true) l = l.
Proof. induction l as [|x l IH]; [done|]. simpl. by f_equal. Qed.

(** The rows of a log as activities. *)
Lemma log_rows s r :
  log_ok s → r ∈ al_table s → ∃ a, r = activity_row a.
Proof.
  intros [_ Hrows] (p & -> & Hp)%list_elem_of_fmap. destruct p as [id r].
  apply elem_of_map_to_list in Hp. destruct (Hrows _ _ Hp) as (a & _ & Hr). by exists a.
Qed.

Lemma activities_filter rows id :
  (∀ r, r ∈ rows → ∃ a, r = activity_row a) →
  activities_of_rows (List.filter (of_sandbox id) rows)
  = List.filter (λ a, bool_decide (act_sandbox_id a = id)) (activities_of_rows rows).
Proof.
  induction rows as [|r rows IH]; intros Hrows; [done|].
  destruct (Hrows r) as [a ->]; [by left|].
  assert (∀ r, r ∈ rows → ∃ a, r = activity_row a) as Hrows' by (intros; apply Hrows; by right).
  rewrite activities_cons. cbn [List.filter]. rewrite of_sandbox_row.
  change (act_sandbox_id (read_activity a)) with (act_sandbox_id a).
  destruct (bool_decide (act_sandbox_id a = id)); [rewrite activities_cons; f_equal|]; by apply IH.
Qed.

Lemma activities_take n rows :
  (∀ r, r ∈ rows → ∃ a, r = activity_row a) →
  activities_of_rows (take n rows) = take n (activities_of_rows rows).
Proof.
  revert n. induction rows as [|r rows IH]; intros n Hrows; [by destruct n|].
  destruct n as [|n]; [done|]. destruct (Hrows r) as [a ->]; [by left|].
  cbn [take]. rewrite !activities_cons. cbn [take]. f_equal.
  apply IH. intros r' Hr'. apply Hrows. by right.
Qed.

Lemma activities_sorted rows :
  (∀ r, r ∈ rows → ∃ a, r = activity_row a) → Sorted later rows →
  Sorted (λ a b, act_timestamp b ≤ act_timestamp a) (activities_of_rows rows).
Proof.
  intros Hrows Hs. induction Hs as [|r rows Hs IH Hhd]; [constructor|].
  destruct (Hrows r) as [a ->]; [by left|].
  assert (∀ r, r ∈ rows → ∃ a, r = activity_row a) as Hrows' by (intros; apply Hrows; by right).
  rewrite activities_cons. constructor; [by apply IH|].
  destruct rows as [|r' rows]; [constructor|]. destruct (Hrows' r') as [a' ->]; [by left|].
  rewrite activities_cons. constructor. by inversion Hhd.
Qed.

#[local] Instance later_total : Total later.
Proof. intros r1 r2. unfold later. lia. Qed.

(** The query behind both listings. *)
Lemma select_activities_ok s limit (p : Row → bool) (q : SandboxActivity → bool) :
  log_ok s → 0 ≤ limit < 2 ^ 63 →
  activities_of_rows (List.filter p (al_table s)) = List.filter q (log s) →
  ∃ all, select_activities p limit s = (Ok (take (Z.to_nat limit) all), s) ∧
    all ≡ₚ List.filter q (log s) ∧
    Sorted (λ a b, act_timestamp b ≤ act_timestamp a) all.
Proof.
  intros Hok Hlim Hpq. unfold select_activities, with_client. rewrite (proj1 Hok).
  rewrite i64_wrap_id by (unfold is_i64; lia). rewrite bool_decide_false by lia.
  assert (∀ r, r ∈ merge_sort later (List.filter p (al_table s)) → ∃ a, r = activity_row a) as Hrows.
  { intros r. rewrite merge_sort_Permutation, list_elem_of_In, filter_In, <-list_elem_of_In.
    intros [Hr _]. by eapply log_rows. }
  eexists. rewrite activities_take by done. split; [reflexivity|]. split.
  - rewrite <-Hpq. unfold activities_of_rows. by rewrite merge_sort_Permutation.
  - apply activities_sorted; [done|]. apply Sorted_merge_sort, _.
Qed.

Lemma log_elem s a :
  log_ok s → a ∈ log s ↔ ∃ a0, al_rows s !! act_id a = Some (activity_row a0) ∧ a = read_activity a0.
Proof.
  intros [_ Hrows]. unfold log, activities_of_rows. rewrite list_elem_of_omap. split.
  - intros (r & (p & -> & Hp)%list_elem_of_fmap & Hr). destruct p as [id r].
    apply elem_of_map_to_list in Hp. destruct (Hrows _ _ Hp) as (a0 & Hid & Hr').
    simpl in *. subst r. rewrite row_to_activity_row in Hr. injection Hr as <-.
    exists a0. simpl. by subst id.
  - intros (a0 & Hr & ->). exists (activity_row a0). rewrite row_to_activity_row. split; [|done].
    apply list_elem_of_fmap. eexists (_, _). split; [|by apply elem_of_map_to_list]. done.
Qed.

Lemma log_insert s a :
  log_ok s → al_rows s !! act_id a = None →
  let s' := set_al_rows (<[act_id a := activity_row a]> (al_rows s)) s in
  log_ok s' ∧ log s' ≡ₚ read_activity a :: log s.
Proof.
  intros [Hc Hrows] Hnew s'. split.
  - split; [done|]. apply map_Forall_insert_2; [by exists a|done].
  - unfold log, al_table, s'. simpl. rewrite map_to_list_insert by done. simpl.
    by rewrite <-activities_cons.
Qed.

Definition flagged (id : Uuid) (a : SandboxActivity) : SandboxActivity :=
  if bool_decide (act_sandbox_id a = id) then
    {| act_id := act_id a; act_sandbox_id := act_sandbox_id a; act_type := act_type a;
       act_timestamp := act_timestamp a; act_details := act_details a;
       act_sandbox_is_deleted := true |}
  else a.

Lemma mark_flagged id a :
  (if of_sandbox id (activity_row a) then mark_row (activity_row a) else activity_row a)
  = activity_row (flagged id a).
Proof.
  rewrite of_sandbox_row. unfold flagged. by case_bool_decide.
Qed.

Lemma read_flagged id a : read_activity (flagged id a) = flagged id (read_activity a).
Proof.
  unfold flagged. change (act_sandbox_id (read_activity a)) with (act_sandbox_id a).
  by destruct (bool_decide (act_sandbox_id a = id)).
Qed.

Lemma log_mark s id :
  log_ok s →
  let s' := set_al_rows
    ((λ r, if of_sandbox id r then mark_row r else r) <$> al_rows s) s in
  log_ok s' ∧ log s' = flagged id <$> log s.
Proof.
  intros [Hc Hrows] s'. split.
  - split; [done|]. intros i r. simpl. rewrite lookup_fmap_Some. intros (r0 & <- & Hr0).
    destruct (Hrows _ _ Hr0) as (a & Hid & ->). exists (flagged id a). rewrite mark_flagged.
    split; [|done]. unfold flagged. by case_bool_decide.
  - unfold log, al_table, s'. simpl. rewrite map_to_list_fmap.
    assert (∀ p, p ∈ map_to_list (al_rows s) → ∃ a, p.2 = activity_row a) as Hall.
    { intros [i r] Hp%elem_of_map_to_list. destruct (Hrows _ _ Hp) as (a & _ & ->). by exists a. }
    induction (map_to_list (al_rows s)) as [|[i r] l IH]; [done|].
    destruct (Hall (i, r)) as [a Ha]; [by left|]. simpl in Ha. subst r.
    cbn [fmap list_fmap prod_map snd]. rewrite mark_flagged, !activities_cons.
    cbn [fmap list_fmap]. rewrite read_flagged. f_equal. apply IH.
    intros p Hp. apply Hall. by right.
Qed.

(** the activity log.  Recording an activity under a new id adds exactly
    it, as the table keeps it, and it can be looked up; an id that is taken is
    refused.  Both listings return the newest entries first, those of the
    sandbox or all, as many as asked for; a limit past the range of the database
    is refused.  Marking a sandbox's activities sets their flag, counts them
    and leaves the others. *)
Theorem activity_log_spec s a id limit :
  log_ok s → al_rows s !! act_id a = None → 0 ≤ limit < 2 ^ 64 →
  (∃ s', record_activity a s = (Ok (), s') ∧ log_ok s' ∧
     log s' ≡ₚ read_activity a :: log s ∧
     get_activity (act_id a) s' = (Ok (Some (read_activity a)), s') ∧
     record_activity a s' = (Err (ActivityPostgres (pg_error "duplicate key")), s')) ∧
  (limit < 2 ^ 63 →
     (∃ all, list_sandbox_activities id limit s = (Ok (take (Z.to_nat limit) all), s) ∧
        all ≡ₚ List.filter (λ a, bool_decide (act_sandbox_id a = id)) (log s) ∧
        Sorted (λ a b, act_timestamp b ≤ act_timestamp a) all) ∧
     (∃ all, list_recent_activities limit s = (Ok (take (Z.to_nat limit) all), s) ∧
        all ≡ₚ log s ∧ Sorted (λ a b, act_timestamp b ≤ act_timestamp a) all)) ∧
  (2 ^ 63 ≤ limit →
     list_recent_activities limit s = (Err (ActivityPostgres (pg_error "negative limit")), s)) ∧
  (∃ s', mark_sandbox_activities_deleted id s
           = (Ok (Z.of_nat (length (List.filter (λ a, bool_decide (act_sandbox_id a = id)) (log s)))), s') ∧
     log_ok s' ∧ log s' = flagged id <$> log s).
Proof.
  intros Hok Hnew Hlim.
  assert (∀ r, r ∈ al_table s → ∃ a, r = activity_row a) as Hrows by (intros; by eapply log_rows).
  pose proof (activities_filter (al_table s) id Hrows) as Hf. split_and!.
  - destruct (log_insert s a Hok Hnew) as [H1 H2]. eexists.
    unfold record_activity, get_activity, with_client. simpl. rewrite (proj1 Hok), Hnew.
    split; [reflexivity|]. split; [done|]. split; [done|]. simpl. rewrite (proj1 Hok).
    rewrite !lookup_insert_eq. by rewrite row_to_activity_row.
  - intros Hl. split; [apply select_activities_ok; [done|lia|done]|].
    destruct (select_activities_ok s limit (λ _, true) (λ _, true)) as (all & K1 & K2 & K3);
      [done|lia| |exists all].
    + by rewrite !filter_all.
    + by rewrite filter_all in K2.
  - intros Hl. unfold list_recent_activities, select_activities, with_client.
    rewrite (proj1 Hok). rewrite bool_decide_true; [done|].
    unfold i64_wrap. Z.div_mod_to_equations. lia.
  - destruct (log_mark s id Hok) as [H1 H2]. eexists.
    unfold mark_sandbox_activities_deleted, with_client. rewrite (proj1 Hok).
    split; [|by split]. f_equal. f_equal. f_equal.
    unfold log. rewrite <-Hf. unfold activities_of_rows.
    assert (∀ l, (∀ r, r ∈ l → ∃ a, r = activity_row a) →
      length l = length (activities_of_rows l)) as Hlen.
    { induction l as [|r l IH]; intros Hl; [done|]. destruct (Hl r) as [b ->]; [by left|].
      rewrite activities_cons. simpl. f_equal. apply IH. intros; apply Hl; by right. }
    apply Hlen. intros r. rewrite list_elem_of_In, filter_In, <-list_elem_of_In.
    intros [Hr _]. by apply Hrows.
Qed.
End log.

Section handlers.
Context `{PgLib} `{!PgLaws}.
Context {S B : Type}.
Context `{!StateStoreTrait S} `{!StoreContract S} `{!SandboxManager B} `{!UuidLib} `{!ChronoLib}.
#[local] Abbreviation W := (World S B ActivityStore).

(** The records and the backend as they were. *)
Definition unmoved (w w' : W) : Prop := w_store w' = w_store w ∧ w_backend w' = w_backend w.

Lemma wp_owner_only identity sandbox_id (k : M W Reply) Q (w : W) :
  ok w →
  (if authorized identity false (db w !! sandbox_id) then wp k Q w
   else Q (ReplyApiError (ApiSandboxNotFound (uuid_to_string sandbox_id))) w) →
  wp (Handlers.owner_only identity sandbox_id k) Q w.
Proof.
  intros Hok HQ. unfold Handlers.owner_only. destruct (is_privileged_key identity) eqn:E.
  - unfold authorized, is_privileged_key in *. by destruct (identity_key_type identity).
  - apply wp_bind. eapply wp_mono; [by apply wp_check_ownership|]. intros r w' [-> ->].
    destruct (authorized identity false (db w !! sandbox_id)); [done|by apply wp_ret].
Qed.

Lemma wp_with_service {X} (m : M ActivityStore X) (k : X → M W Reply) Q (w : W) :
  (w_activity w = None → Q no_activity_service w) →
  (∀ a w', w_activity w = Some a → unmoved w w' → wp (k (run_val m a)) Q w') →
  wp (Handlers.with_service m k) Q w.
Proof.
  intros Hn Hs. unfold wp, run_val, run_st, Handlers.with_service in *.
  destruct (w_activity w) as [a|] eqn:E; [|by apply Hn].
  specialize (Hs a (set_activity (Some (run_st m a)) w) eq_refl ltac:(done)).
  unfold run_st in Hs. by destruct (m a).
Qed.

(** The sandboxes of the activities that a reply shows. *)
Definition shown_sandboxes (reply : Reply) : list Uuid :=
  match reply with
  | ReplyActivities l => ar_sandbox_id <$> l
  | ReplyActivity a => [ar_sandbox_id a]
  | _ => []
  end.

Lemma select_of_sandbox p limit s l a :
  run_val (select_activities p limit) s = Ok l → a ∈ l →
  ∃ r, p r = true ∧ row_to_activity r = Ok a.
Proof.
  unfold run_val, select_activities, with_client.
  destruct (al_connects s); [|done]. case_bool_decide; [done|]. intros [= <-].
  unfold activities_of_rows. intros (r & Hr & Ha)%list_elem_of_omap.
  apply elem_of_take in Hr as (i & Hr & _). apply list_elem_of_lookup_2 in Hr.
  rewrite merge_sort_Permutation, list_elem_of_In, filter_In in Hr.
  exists r. split; [apply Hr|]. by destruct (row_to_activity r); simplify_eq.
Qed.

Lemma row_sandbox r a id :
  row_to_activity r = Ok a → of_sandbox id r = true → act_sandbox_id a = id.
Proof.
  unfold row_to_activity, of_sandbox, al_col, try_get.
  destruct (column "activity_type" r ≫= as_text) as [t|]; [|done]. simpl.
  destruct (activity_type_from_string t); [|done]. simpl.
  destruct (column "id" r ≫= as_uuid); [|done]. simpl.
  destruct (column "sandbox_id" r) as [[]|]; simpl; try done.
  destruct (column "timestamp" r ≫= as_time); [|done]. simpl.
  destruct (column "details" r ≫= as_json); [|done]. simpl.
  destruct (column "sandbox_is_deleted" r ≫= as_bool); [|done]. simpl.
  intros [= <-]. by rewrite bool_decide_eq_true.
Qed.

(** What a listing of one sandbox shows. *)
Lemma list_reply_confined what sandbox_id limit (a : ActivityStore) id :
  id ∈ shown_sandboxes (Handlers.list_reply what
         (run_val (Queries.list_sandbox_activities sandbox_id limit) a)) → id = sandbox_id.
Proof.
  unfold Queries.list_sandbox_activities, run_val. rewrite M_bind_unfold. simpl.
  destruct (list_sandbox_activities sandbox_id limit a).1 as [l|e] eqn:E; [|by intros []%not_elem_of_nil].
  cbn [Handlers.list_reply shown_sandboxes]. rewrite <-list_fmap_compose.
  intros (x & -> & Hx)%list_elem_of_fmap.
  destruct (select_of_sandbox _ _ _ _ _ E Hx) as (r & Hr & Hrow). by eapply row_sandbox.
Qed.

(** the activity handlers show a caller only activities of sandboxes it
    may access, and move no record: the listing of all activities is for
    privileged keys, the others go by the owner of the sandbox.  A listing of
    one sandbox shows only activities of that sandbox. *)
Theorem activity_handlers_confined identity params id (w : W) :
  ok w →
  let confined (h : M W Reply) := wp h (λ reply w', unmoved w w' ∧
    ∀ i, i ∈ shown_sandboxes reply → authorized identity false (db w !! i) = true) w in
  confined (Handlers.list_activities identity params) ∧
  confined (Handlers.get_activity identity id) ∧
  confined (Handlers.list_sandbox_activities identity id params) ∧
  wp (Handlers.list_sandbox_activities identity id params) (λ reply _,
    ∀ i, i ∈ shown_sandboxes reply → i = id) w.
Proof.
  intros Hok confined.
  assert (∀ i, is_privileged_key identity = true → authorized identity false (db w !! i) = true) as Hpriv.
  { intros i. unfold is_privileged_key, authorized. by destruct (identity_key_type identity). }
  assert (∀ what sid limit, wp (Handlers.owner_only identity sid
      (Handlers.with_service (Queries.list_sandbox_activities sid limit)
         (λ r, mret (Handlers.list_reply what r)))) (λ reply w', unmoved w w' ∧
      ∀ i, i ∈ shown_sandboxes reply → i = sid ∧ authorized identity false (db w !! i) = true) w) as Hlist.
  { intros what sid limit. apply wp_owner_only; [done|].
    destruct (authorized identity false (db w !! sid)) eqn:Ea;
      [|split; [done|by intros i []%not_elem_of_nil]].
    apply wp_with_service; [split; [done|by intros i []%not_elem_of_nil]|].
    intros a w' _ Hun. apply wp_ret. split; [done|]. by intros i ->%list_reply_confined. }
  unfold confined. split_and!.
  - unfold Handlers.list_activities. destruct (la_sandbox_id params) as [sid|].
    + eapply wp_mono; [apply Hlist|]. intros reply w' [K1 K2]. split; [done|].
      intros i Hi. by apply K2.
    + destruct (is_privileged_key identity) eqn:E; [|split; [done|by intros i []%not_elem_of_nil]].
      apply wp_with_service; [split; [done|by intros i []%not_elem_of_nil]|].
      intros a w' _ Hun. apply wp_ret. split; [done|]. intros i _. by apply Hpriv.
  - unfold Handlers.get_activity.
    apply wp_with_service; [split; [done|by intros i []%not_elem_of_nil]|].
    intros a w' _ [Hs Hb].
    destruct (run_val (Queries.get_activity id) a) as [[act|]|e];
      [|apply wp_ret; split; [done|by intros i []%not_elem_of_nil]..].
    assert (ok w' ∧ db w' = db w) as [Hok' Hdb'] by (unfold ok, db; by rewrite Hs).
    apply wp_owner_only; [done|]. rewrite Hdb'.
    destruct (authorized identity false (db w !! ar_sandbox_id act)) eqn:Ea.
    + apply wp_ret. split; [done|]. by intros i ->%list_elem_of_singleton.
    + split; [done|by intros i []%not_elem_of_nil].
  - eapply wp_mono; [apply Hlist|]. intros reply w' [K1 K2]. split; [done|].
    intros i Hi. by apply K2.
  - eapply wp_mono; [apply Hlist|]. intros reply w' [_ K2] i Hi. by apply K2.
Qed.

(** ** The clean-up on request *)

(** Which records the request may clean up: those that some reading of the
    clock during it finds inactive. *)
Definition may_clean (dry_run : bool) (timeout : Z) (w : W) (sb : Sandbox) : Prop :=
  dry_run = false ∧
  ∃ k, timeout ≤ u64_wrap (num_minutes (w_now w k - last_activity (sb_activity sb))).

Lemma wp_cleanup_one dry_run timeout k sb (w0 w : W) :
  changes (may_clean dry_run timeout w0) swept w0 w → db w0 !! sb_id sb = Some sb →
  wp (Handlers.cleanup_one dry_run timeout (w_now w0 k) sb) (λ m w',
    changes (may_clean dry_run timeout w0) swept w0 w' ∧ 0 ≤ m ≤ 1 ∧
    (dry_run = true → m = 0 ∧ db w' = db w)) w.
Proof.
  intros Hch Hsb. unfold Handlers.cleanup_one. case_bool_decide as Ht.
  2: { by apply wp_ret. }
  destruct dry_run eqn:Edry; [by apply wp_ret|].
  apply wp_bind, wp_cleanup; [apply Hch|]. intros r w' [Hok' He]. apply wp_ret.
  destruct (changes_lookup _ _ _ _ _ _ Hch Hsb) as (sb1 & Hsb1 & Hcase).
  rewrite Hsb1 in He. destruct He as [_ He].
  split; [|split; [by destruct r|done]]. destruct (is_ok r); [|by eapply changes_same].
  destruct He as (t1 & t2 & Hdb).
  eapply changes_insert; [done|done|by split; [|exists k]| |done|done].
  intros _. unfold swept. rewrite stored_as_state, stored_as_container, stored_as_owner.
  split_and!; [done|done|by rewrite stored_as_deleted|]. simpl.
  by destruct Hcase as [->|(_ & _ & _ & ?)].
Qed.

(** the clean-up of inactive sandboxes on request.  Without a privileged
    key nothing happens.  A dry run changes nothing and always reports zero
    sandboxes.  Otherwise only records that are inactive when the request reads
    the clock are touched, whatever their state, and those end up destroyed,
    soft-deleted and without container, still their owner's; the count is at
    most the number of records listed. *)
Theorem cleanup_inactive_spec identity params (w : W) :
  ok w →
  let dry_run := default false (cq_dry_run params) in
  let timeout := default 30 (cq_timeout params) in
  wp (Handlers.cleanup_inactive_sandboxes identity params) (λ reply w',
    if is_privileged_key identity then
      changes (may_clean dry_run timeout w) swept w w' ∧
      ∃ text n, reply = ReplyCleanup text n dry_run ∧ 0 ≤ n ∧
        (dry_run = true → n = 0 ∧ db w' = db w)
    else w' = w ∧ reply = privileged_only_response
                            "Cleaning up all sandboxes requires a privileged API key") w.
Proof.
  intros Hok dry_run timeout. unfold Handlers.cleanup_inactive_sandboxes.
  destruct (is_privileged_key identity); [|by apply wp_ret]. cbn [negb]. fold dry_run timeout.
  apply wp_bind, wp_list; [done|]. intros l Hl.
  apply wp_bind, wp_utc_now. intros w1 [Hs1 Hb1 _ _] _ _ _.
  assert (ok w1 ∧ db w1 = db w) as [Hok1 Hdb1] by (unfold ok, db; by rewrite Hs1).
  apply wp_bind.
  eapply (wp_for_count (λ _ n w', changes (may_clean dry_run timeout w) swept w w' ∧ 0 ≤ n ∧
                                  (dry_run = true → n = 0 ∧ db w' = db w))).
  - split; [|done]. eapply changes_same; [by apply changes_refl|done|done].
  - intros done sb rest n w2 -> (Hch & Hn & Hdry).
    assert (db w !! sb_id sb = Some sb) as Hsb by (apply Hl; set_solver).
    eapply wp_mono; [by apply wp_cleanup_one|]. intros m w3 (Hch3 & Hm & Hd).
    split; [done|]. split; [lia|].
    intros E. destruct (Hdry E) as [-> Hdb2]. destruct (Hd E) as [-> Hdb3]. split; [lia|congruence].
  - intros n w2 (Hch & Hn & Hdry). apply wp_ret. split; [done|]. by do 2 eexists.
Qed.
End handlers.

(** ** Witnesses *)

Module Witnesses.
Import Demo.

#[local] Instance pg : PgLib := {|
  pg_timestamp := λ t, t; pg_jsonb := λ j, j; pg_like := λ _ _, true;
  column_error := λ c, c; pg_error := λ e, e |}.

#[local] Instance pg_laws : PgLaws.
Proof. by split. Qed.

Definition act (id : Uuid) (t : DateTime) : SandboxActivity :=
  mkSandboxActivity id 1%N ActExec t (JObject []) false.

Definition log0 : ActivityStore :=
  mkActivityStore (<[10%N := activity_row (act 10%N 5)]> (<[11%N := activity_row (act 11%N 9)]> ∅)) true.

Lemma log0_ok : log_ok log0.
Proof.
  split; [done|].
  apply map_Forall_insert_2; [by exists (act 10%N 5)|].
  apply map_Forall_insert_2; [by exists (act 11%N 9)|]. apply map_Forall_empty.
Qed.

Definition world1 : World.World StateStore Backend ActivityStore :=
  mkWorld Demo.store ["c0"] (Some log0) (λ n, 3600 * ns_per_sec + Z.of_nat n) (λ n, Z.of_nat n)
    (λ n, (100 + N.of_nat n)%N) [] [].

Definition admin : ApiKeyIdentity := mkIdentity None Privileged.
Definition owner : ApiKeyIdentity := mkIdentity (Some 7%N) Database.

Lemma activity_log_spec_witness :
  run_val (list_recent_activities 1) log0 = Ok [read_activity (act 11%N 9)] ∧
  ∃ s', record_activity (act 12%N 7) log0 = (Ok (), s') ∧
    get_activity 12%N s' = (Ok (Some (read_activity (act 12%N 7))), s').
Proof.
  split; [vm_compute; reflexivity|].
  destruct (activity_log_spec log0 (act 12%N 7) 1%N 1 log0_ok eq_refl ltac:(lia))
    as ((s' & Hr & _ & _ & Hg & _) & _).
  exists s'. split; [exact Hr|exact Hg].
Defined.

Lemma activity_handlers_confined_witness :
  run_val (Handlers.get_activity owner 11%N) world1
    = ReplyActivity (ActivityResponse_from (act 11%N 9)) ∧
  wp (Handlers.get_activity owner 11%N) (λ reply w', unmoved world1 w' ∧
    ∀ i, i ∈ shown_sandboxes reply → authorized owner false (db world1 !! i) = true) world1.
Proof.
  split; [vm_compute; reflexivity|].
  exact (proj1 (proj2 (activity_handlers_confined owner
    (mkListActivitiesQuery None None None) 11%N world1 world_ok))).
Defined.

Lemma cleanup_inactive_spec_witness :
  run_val (Handlers.cleanup_inactive_sandboxes admin (mkCleanupQuery None (Some 60))) world1
    = ReplyCleanup "Cleanup complete: 0 sandboxes cleaned" 0 false ∧
  wp (Handlers.cleanup_inactive_sandboxes admin (mkCleanupQuery (Some true) None)) (λ reply w',
    changes (may_clean true 30 world1) swept world1 w' ∧
    ∃ text n, reply = ReplyCleanup text n true ∧ 0 ≤ n ∧
      (true = true → n = 0 ∧ db w' = db world1)) world1.
Proof.
  split; [vm_compute; reflexivity|].
  exact (cleanup_inactive_spec admin (mkCleanupQuery (Some true) None) world1 world_ok).
Defined.
End Witnesses.
