(* ===== verification/Ssh.v ===== *)
(** * Ssh: SSH sessions

    The session store over PostgreSQL ([db/ssh_sessions.rs]) with its no-op
    replacement, the session service ([core/ssh_service.rs]), the pass of its
    clean-up task, and the handlers that put the ownership check before it
    ([api/handlers/ssh.rs]).  Rows are those of [Postgres]. *)

From S2P Require Import Prelude Text Errors Types Store World Demo Service Postgres.

(** ** The store interface *)

Class SshSessionStoreTrait (H : Type) := {
  create_ssh_session : SshSession → M H (Result () StoreError);
  get_ssh_session : Uuid → M H (option SshSession);
  list_ssh_sessions : SshSessionFilters → M H (list SshSession);
  update_ssh_session : SshSession → M H (Result () StoreError);
  delete_ssh_session : Uuid → M H (Result () StoreError);
  st_terminate_sessions_by_sandbox : Uuid → M H (Result () StoreError);
  st_get_stale_sessions : Z → M H (Result (list SshSession) StoreError);
  st_get_stuck_connecting_sessions : Z → M H (Result (list SshSession) StoreError);
  st_get_orphaned_sessions : M H (Result (list SshSession) StoreError);
}.

(** The store used when SSH is disabled. *)
Definition NoopSshSessionStore : Type := ().

Definition noop_error {X} : M NoopSshSessionStore (Result X StoreError) :=
  mret (Err (StoreMessage "SSH session management requires PostgreSQL")).

#[export] Instance NoopSshSessionStore_trait : SshSessionStoreTrait NoopSshSessionStore := {|
  create_ssh_session := λ _, noop_error;
  get_ssh_session := λ _, mret None;
  list_ssh_sessions := λ _, mret [];
  update_ssh_session := λ _, noop_error;
  delete_ssh_session := λ _, noop_error;
  st_terminate_sessions_by_sandbox := λ _, noop_error;
  st_get_stale_sessions := λ _, noop_error;
  st_get_stuck_connecting_sessions := λ _, noop_error;
  st_get_orphaned_sessions := noop_error;
|}.

(** ** The PostgreSQL store

    The sessions table; of the sandboxes table, the state column; what [NOW()]
    will return to each future statement; and whether the pool connects. *)
Record PostgresSshSessionStore : Type := mkSshStore {
  ssh_rows : gmap Uuid Row;
  ssh_sandboxes : gmap Uuid string;
  ssh_now : nat → DateTime;
  ssh_connects : bool;
}.

Definition set_ssh_rows (m : gmap Uuid Row) (h : PostgresSshSessionStore)
    : PostgresSshSessionStore :=
  mkSshStore m (ssh_sandboxes h) (ssh_now h) (ssh_connects h).

Section store.
Context `{PgLib}.
#[local] Abbreviation St := PostgresSshSessionStore.

(** The columns that [UPDATE] assigns, and [INSERT] too. *)
Definition session_assignments (s : SshSession) : Row :=
  [("sandbox_id", SqlUuid (ss_sandbox_id s));
   ("client_ip", SqlText (ss_client_ip s));
   ("ssh_version", sql_opt SqlText (ss_ssh_version s));
   ("auth_method", SqlText (SshAuthMethod_as_str (ss_auth_method s)));
   ("ssh_session_id", sql_opt SqlText (ss_ssh_session_id s));
   ("exec_id", sql_opt SqlText (ss_exec_id s));
   ("pty_term", sql_opt SqlText (ss_pty_term s));
   ("pty_rows", sql_opt SqlInt (ss_pty_rows s));
   ("pty_cols", sql_opt SqlInt (ss_pty_cols s));
   ("state", SqlText (SshSessionState_as_str (ss_state s)));
   ("connected_at", sql_time (ss_connected_at s));
   ("disconnected_at", sql_opt sql_time (ss_disconnected_at s));
   ("last_activity_at", sql_time (ss_last_activity_at s));
   ("bytes_sent", SqlInt (ss_bytes_sent s));
   ("bytes_received", SqlInt (ss_bytes_received s));
   ("duration_seconds", sql_opt SqlInt (ss_duration_seconds s));
   ("termination_reason", sql_opt SqlText (ss_termination_reason s))].

Definition session_row (s : SshSession) : Row :=
  ("id", SqlUuid (ss_id s)) :: ("created_at", sql_time (ss_created_at s)) ::
  ("updated_at", sql_time (ss_updated_at s)) :: session_assignments s.

(** A column that cannot be read is a PostgreSQL error. *)
Definition col {T} (dec : SqlValue → option T) (c : string) (r : Row) : Result T StoreError :=
  result_map_err StorePostgres (try_get dec c r).

Definition parse_auth_method (s : string) : Result SshAuthMethod StoreError :=
  option_ok_or (StoreInvalidState "Invalid auth_method")
    (match_str [("api_key", AuthApiKey); ("certificate", AuthCertificate)] s).

Definition parse_session_state (s : string) : Result SshSessionState StoreError :=
  option_ok_or (StoreInvalidState ("Invalid state: " +:+ s))
    (match_str [("connecting", Connecting); ("active", Active); ("disconnected", Disconnected);
                ("terminated", Terminated); ("error", SshError)] s).

Definition row_to_session (r : Row) : Result SshSession StoreError :=
  let? id := col as_uuid "id" r in
  let? sandbox_id := col as_uuid "sandbox_id" r in
  let? client_ip := col as_text "client_ip" r in
  let? ssh_version := col (nullable as_text) "ssh_version" r in
  let? auth_text := col as_text "auth_method" r in
  let? auth_method := parse_auth_method auth_text in
  let? ssh_session_id := col (nullable as_text) "ssh_session_id" r in
  let? exec_id := col (nullable as_text) "exec_id" r in
  let? pty_term := col (nullable as_text) "pty_term" r in
  let? pty_rows := col (nullable as_int) "pty_rows" r in
  let? pty_cols := col (nullable as_int) "pty_cols" r in
  let? state_text := col as_text "state" r in
  let? state := parse_session_state state_text in
  let? connected_at := col as_time "connected_at" r in
  let? disconnected_at := col (nullable as_time) "disconnected_at" r in
  let? last_activity_at := col as_time "last_activity_at" r in
  let? bytes_sent := col as_int "bytes_sent" r in
  let? bytes_received := col as_int "bytes_received" r in
  let? duration_seconds := col (nullable as_int) "duration_seconds" r in
  let? termination_reason := col (nullable as_text) "termination_reason" r in
  let? created_at := col as_time "created_at" r in
  let? updated_at := col as_time "updated_at" r in
  Ok {| ss_id := id; ss_sandbox_id := sandbox_id; ss_client_ip := client_ip;
        ss_ssh_version := ssh_version; ss_auth_method := auth_method;
        ss_ssh_session_id := ssh_session_id; ss_exec_id := exec_id;
        ss_pty_term := pty_term; ss_pty_rows := pty_rows; ss_pty_cols := pty_cols;
        ss_state := state; ss_connected_at := connected_at;
        ss_disconnected_at := disconnected_at; ss_last_activity_at := last_activity_at;
        ss_bytes_sent := bytes_sent; ss_bytes_received := bytes_received;
        ss_duration_seconds := duration_seconds; ss_termination_reason := termination_reason;
        ss_created_at := created_at; ss_updated_at := updated_at |}.

(** [rows.iter().map(row_to_session).collect()]: the first error wins. *)
Fixpoint collect_sessions (rows : list Row) : Result (list SshSession) StoreError :=
  match rows with
  | [] => Ok []
  | r :: rows =>
      let? s := row_to_session r in
      let? ss := collect_sessions rows in
      Ok (s :: ss)
  end.

(** Rows that do not convert are logged and dropped. *)
Definition sessions_of (rows : list Row) : list SshSession :=
  omap (λ r, match row_to_session r with Ok s => Some s | Err _ => None end) rows.

(** *** Statements *)

(** A statement: [NOW()] is read, once, when it runs. *)
Definition statement {X} (body : DateTime → gmap Uuid Row → gmap Uuid string →
    Result X StoreError * gmap Uuid Row) : M St (Result X StoreError) := λ h,
  if negb (ssh_connects h) then (Err (StoreMessage pool_error), h)
  else
    let '(r, rows) := body (ssh_now h 0%nat) (ssh_rows h) (ssh_sandboxes h) in
    (r, mkSshStore rows (ssh_sandboxes h) (λ n, ssh_now h (S n)) (ssh_connects h)).

Definition text_is (c : string) (ts : list string) (r : Row) : bool :=
  match column c r with Some (SqlText s) => existsb (String.eqb s) ts | _ => false end.

Definition time_before (c : string) (limit : DateTime) (r : Row) : bool :=
  match column c r with Some (SqlTime t) => bool_decide (t < limit) | _ => false end.

Definition uuid_is (c : string) (u : Uuid) (r : Row) : bool :=
  match column c r with Some (SqlUuid v) => N.eqb v u | _ => false end.

(** [ORDER BY c], ascending; rows of the same time come in some order. *)
Definition time_of (c : string) (r : Row) : DateTime :=
  match column c r with Some (SqlTime t) => t | _ => 0 end.

Definition earlier (c : string) (r1 r2 : Row) : Prop := time_of c r1 ≤ time_of c r2.
Definition later (c : string) (r1 r2 : Row) : Prop := time_of c r2 ≤ time_of c r1.

#[global] Instance earlier_dec c : RelDecision (earlier c).
Proof. intros r1 r2. unfold earlier. apply _. Defined.
#[global] Instance later_dec c : RelDecision (later c).
Proof. intros r1 r2. unfold later. apply _. Defined.

Definition session_table (rows : gmap Uuid Row) : list Row := (map_to_list rows).*2.

(** The states of [state IN ('connecting', 'active')]. *)
Definition is_open (r : Row) : bool := text_is "state" ["connecting"; "active"] r.

Definition pg_create_ssh_session (s : SshSession) : M St (Result () StoreError) :=
  statement (λ _ rows sandboxes,
    match rows !! ss_id s, sandboxes !! ss_sandbox_id s with
    | Some _, _ => (Err (StorePostgres (pg_error "duplicate key")), rows)
    | None, None => (Err (StorePostgres (pg_error "foreign key")), rows)
    | None, Some _ => (Ok (), <[ss_id s := session_row s]> rows)
    end).

(** [query_one] fails when there is no row. *)
Definition pg_get_ssh_session (id : Uuid) : M St (option SshSession) := λ h,
  let '(r, h') :=
    statement (λ _ rows _,
      (match rows !! id with
       | Some r => row_to_session r
       | None => Err (StorePostgres (pg_error "no row"))
       end, rows)) h in
  (match r with Ok s => Some s | Err _ => None end, h').

Definition session_matches (f : SshSessionFilters) (r : Row) : bool :=
  match filter_sandbox_id f with Some u => uuid_is "sandbox_id" u r | None => true end
  && match filter_state f with
     | Some st => text_is "state" [SshSessionState_as_str st] r
     | None => true
     end.

Definition pg_list_ssh_sessions (f : SshSessionFilters) : M St (list SshSession) := λ h,
  let '(r, h') :=
    statement (λ _ rows _,
      (Ok (sessions_of (merge_sort (later "connected_at")
             (List.filter (session_matches f) (session_table rows)))), rows)) h in
  (match r with Ok ss => ss | Err _ => [] end, h').

(** The number of rows changed is not looked at. *)
Definition pg_update_ssh_session (s : SshSession) : M St (Result () StoreError) :=
  statement (λ now rows _,
    (Ok (), alter (update_row (("updated_at", sql_time now) :: session_assignments s))
              (ss_id s) rows)).

Definition pg_delete_ssh_session (id : Uuid) : M St (Result () StoreError) :=
  statement (λ _ rows _, (Ok (), delete id rows)).

Definition pg_terminate_sessions_by_sandbox (sandbox_id : Uuid) : M St (Result () StoreError) :=
  statement (λ now rows _,
    (Ok (),
     (λ r, if uuid_is "sandbox_id" sandbox_id r && is_open r then
             update_row [("state", SqlText "terminated"); ("disconnected_at", sql_time now);
                         ("termination_reason", SqlText "Sandbox deleted");
                         ("updated_at", sql_time now)] r
           else r) <$> rows)).

(** [SELECT * .. WHERE p ORDER BY c ASC]. *)
Definition select_sessions (c : string) (p : DateTime → gmap Uuid string → Row → bool)
    : M St (Result (list SshSession) StoreError) :=
  statement (λ now rows sandboxes,
    (collect_sessions (merge_sort (earlier c)
       (List.filter (p now sandboxes) (session_table rows))), rows)).

(** [NOW() - make_interval(secs => $1)]; the timeout passes through an [f64],
    exact up to [2 ^ 53] seconds. *)
Definition seconds_ago (now : DateTime) (secs : Z) : DateTime := now - secs * ns_per_sec.

Definition stale (timeout_secs : Z) (now : DateTime) (r : Row) : bool :=
  is_open r && time_before "last_activity_at" (seconds_ago now timeout_secs) r.

Definition stuck_connecting (timeout_secs : Z) (now : DateTime) (r : Row) : bool :=
  text_is "state" ["connecting"] r
  && time_before "connected_at" (seconds_ago now timeout_secs) r.

(** The [LEFT JOIN]: no sandbox, or one that is not running. *)
Definition orphaned (sandboxes : gmap Uuid string) (r : Row) : bool :=
  is_open r
  && match column "sandbox_id" r with
     | Some (SqlUuid u) =>
         match sandboxes !! u with Some st => negb (String.eqb st "running") | None => true end
     | _ => true
     end.

Definition pg_get_stale_sessions (timeout_secs : Z) : M St (Result (list SshSession) StoreError) :=
  select_sessions "last_activity_at" (λ now _, stale timeout_secs now).

Definition pg_get_stuck_connecting_sessions (timeout_secs : Z)
    : M St (Result (list SshSession) StoreError) :=
  select_sessions "connected_at" (λ now _, stuck_connecting timeout_secs now).

Definition pg_get_orphaned_sessions : M St (Result (list SshSession) StoreError) :=
  select_sessions "connected_at" (λ _ sandboxes, orphaned sandboxes).

#[export] Instance PostgresSshSessionStore_trait : SshSessionStoreTrait St := {|
  create_ssh_session := pg_create_ssh_session;
  get_ssh_session := pg_get_ssh_session;
  list_ssh_sessions := pg_list_ssh_sessions;
  update_ssh_session := pg_update_ssh_session;
  delete_ssh_session := pg_delete_ssh_session;
  st_terminate_sessions_by_sandbox := pg_terminate_sessions_by_sandbox;
  st_get_stale_sessions := pg_get_stale_sessions;
  st_get_stuck_connecting_sessions := pg_get_stuck_connecting_sessions;
  st_get_orphaned_sessions := pg_get_orphaned_sessions;
|}.
End store.

(** ** The session service *)

(** The sandbox service's world, beside the session store. *)
Record SshWorld (S B A H : Type) : Type := mkSshWorld {
  sx_world : World S B A;
  sx_ssh : H;
}.
Arguments mkSshWorld {S B A H} _ _.
Arguments sx_world {S B A H} _.
Arguments sx_ssh {S B A H} _.

(** The service: whether it was built [new_with_sandbox_service]. *)
Record SshSessionService : Type := mkSshSessionService { has_sandbox_service : bool }.

(** The writes of the operations, as functions on a session. *)
Definition new_session (id : Uuid) (now : DateTime) (r : CreateSshSessionRequest) : SshSession :=
  {| ss_id := id; ss_sandbox_id := sreq_sandbox_id r; ss_client_ip := sreq_client_ip r;
     ss_ssh_version := sreq_ssh_version r; ss_auth_method := sreq_auth_method r;
     ss_ssh_session_id := None; ss_exec_id := None;
     ss_pty_term := None; ss_pty_rows := None; ss_pty_cols := None;
     ss_state := Connecting; ss_connected_at := now; ss_disconnected_at := None;
     ss_last_activity_at := now; ss_bytes_sent := 0; ss_bytes_received := 0;
     ss_duration_seconds := None; ss_termination_reason := None;
     ss_created_at := now; ss_updated_at := now |}.

Definition activated (ssh_session_id exec_id pty_term : option string)
    (pty_rows pty_cols : option Z) (now : DateTime) (s : SshSession) : SshSession :=
  {| ss_id := ss_id s; ss_sandbox_id := ss_sandbox_id s; ss_client_ip := ss_client_ip s;
     ss_ssh_version := ss_ssh_version s; ss_auth_method := ss_auth_method s;
     ss_ssh_session_id := ssh_session_id; ss_exec_id := exec_id;
     ss_pty_term := pty_term; ss_pty_rows := pty_rows; ss_pty_cols := pty_cols;
     ss_state := Active; ss_connected_at := ss_connected_at s;
     ss_disconnected_at := ss_disconnected_at s; ss_last_activity_at := ss_last_activity_at s;
     ss_bytes_sent := ss_bytes_sent s; ss_bytes_received := ss_bytes_received s;
     ss_duration_seconds := ss_duration_seconds s;
     ss_termination_reason := ss_termination_reason s;
     ss_created_at := ss_created_at s; ss_updated_at := now |}.

Definition beaten (sent received : Z) (activity updated : DateTime) (s : SshSession)
    : SshSession :=
  {| ss_id := ss_id s; ss_sandbox_id := ss_sandbox_id s; ss_client_ip := ss_client_ip s;
     ss_ssh_version := ss_ssh_version s; ss_auth_method := ss_auth_method s;
     ss_ssh_session_id := ss_ssh_session_id s; ss_exec_id := ss_exec_id s;
     ss_pty_term := ss_pty_term s; ss_pty_rows := ss_pty_rows s; ss_pty_cols := ss_pty_cols s;
     ss_state := ss_state s; ss_connected_at := ss_connected_at s;
     ss_disconnected_at := ss_disconnected_at s; ss_last_activity_at := activity;
     ss_bytes_sent := sent; ss_bytes_received := received;
     ss_duration_seconds := ss_duration_seconds s;
     ss_termination_reason := ss_termination_reason s;
     ss_created_at := ss_created_at s; ss_updated_at := updated |}.

(** The end of a session: its duration is [num_seconds() as i32]. *)
Definition ended `{ChronoLib} (st : SshSessionState) (reason : option string)
    (at_ updated : DateTime) (s : SshSession) : SshSession :=
  {| ss_id := ss_id s; ss_sandbox_id := ss_sandbox_id s; ss_client_ip := ss_client_ip s;
     ss_ssh_version := ss_ssh_version s; ss_auth_method := ss_auth_method s;
     ss_ssh_session_id := ss_ssh_session_id s; ss_exec_id := ss_exec_id s;
     ss_pty_term := ss_pty_term s; ss_pty_rows := ss_pty_rows s; ss_pty_cols := ss_pty_cols s;
     ss_state := st; ss_connected_at := ss_connected_at s;
     ss_disconnected_at := Some at_; ss_last_activity_at := ss_last_activity_at s;
     ss_bytes_sent := ss_bytes_sent s; ss_bytes_received := ss_bytes_received s;
     ss_duration_seconds := Some (i32_wrap (num_seconds (at_ - ss_connected_at s)));
     ss_termination_reason := reason;
     ss_created_at := ss_created_at s; ss_updated_at := updated |}.

Section service.
Context {S B A H : Type}.
Context `{!StateStoreTrait S} `{!SandboxManager B} `{!ActivityStoreTrait A}.
Context `{!SshSessionStoreTrait H} `{!UuidLib} `{!ChronoLib}.
#[local] Abbreviation X := (SshWorld S B A H).

Definition in_world {T} (m : M (World S B A) T) : M X T := λ x,
  let '(t, w) := m (sx_world x) in (t, mkSshWorld w (sx_ssh x)).
Definition in_ssh {T} (m : M H T) : M X T := λ x,
  let '(t, h) := m (sx_ssh x) in (t, mkSshWorld (sx_world x) h).

(** [.map_err(|e| DatabaseError(e.to_string()))] *)
Definition db_call {T} (m : M H (Result T StoreError)) : M X (Result T SshServiceError) :=
  r ← in_ssh m; mret (result_map_err (λ e, SshDatabaseError (StoreError_to_string e)) r).

Definition authorize_sandbox_access (svc : SshSessionService) (identity : ApiKeyIdentity)
    (sandbox_id : Uuid) : M X (Result () ApiError) :=
  if has_sandbox_service svc then in_world (check_sandbox_ownership identity sandbox_id)
  else if is_privileged_key identity then mret (Ok ())
  else mret (Err (ApiValidation "SSH session authorization requires a privileged API key"
                    None AuthorizationInsufficientPermissions)).

Definition create_session (svc : SshSessionService) (request : CreateSshSessionRequest)
    : M X (Result SshSession SshServiceError) :=
  let* _ :=
    (if has_sandbox_service svc then
       o ← in_world (st_get (sreq_sandbox_id request));
       match o with
       | None => mret (Err (SshSandboxNotFound (sreq_sandbox_id request)))
       | Some sandbox =>
           if bool_decide (sb_state sandbox = Running) then mret (Ok ())
           else mret (Err (SshSandboxNotRunning (sreq_sandbox_id request)))
       end
     else mret (Ok ())) in
  now ← in_world utc_now;
  id ← in_world new_v4;
  let session := new_session id now request in
  let* _ := db_call (create_ssh_session session) in
  mret (Ok session).

Definition get_session (id : Uuid) : M X (Result SshSession SshServiceError) :=
  o ← in_ssh (get_ssh_session id); mret (option_ok_or (SshSessionMissing id) o).

Definition list_sessions (filters : SshSessionFilters) : M X (list SshSession) :=
  in_ssh (list_ssh_sessions filters).

Definition mark_session_active (id : Uuid) (ssh_session_id exec_id pty_term : option string)
    (pty_rows pty_cols : option Z) : M X (Result () SshServiceError) :=
  let* session := get_session id in
  now ← in_world utc_now;
  db_call (update_ssh_session
    (activated ssh_session_id exec_id pty_term pty_rows pty_cols now session)).

Definition update_activity (id : Uuid) (bytes_sent bytes_received : Z)
    : M X (Result () SshServiceError) :=
  let* session := get_session id in
  last_activity_at ← in_world utc_now;
  updated_at ← in_world utc_now;
  db_call (update_ssh_session
    (beaten bytes_sent bytes_received last_activity_at updated_at session)).

(** [unwrap_or(Utc::now())] reads the clock a third time, for nothing. *)
Definition disconnect_session (id : Uuid) : M X (Result () SshServiceError) :=
  let* session := get_session id in
  if is_terminal (ss_state session) then mret (Ok ())
  else
    disconnected_at ← in_world utc_now;
    updated_at ← in_world utc_now;
    _ ← in_world utc_now;
    db_call (update_ssh_session
      (ended Disconnected (ss_termination_reason session) disconnected_at updated_at session)).

Definition terminate_session (id : Uuid) (reason : string) : M X (Result () SshServiceError) :=
  let* session := get_session id in
  disconnected_at ← in_world utc_now;
  updated_at ← in_world utc_now;
  _ ← in_world utc_now;
  db_call (update_ssh_session
    (ended Terminated (Some reason) disconnected_at updated_at session)).

Definition terminate_sessions_by_sandbox (sandbox_id : Uuid) : M X (Result () SshServiceError) :=
  db_call (st_terminate_sessions_by_sandbox sandbox_id).

Definition get_stale_sessions (timeout_secs : Z) : M X (Result (list SshSession) SshServiceError) :=
  db_call (st_get_stale_sessions timeout_secs).

Definition get_stuck_connecting_sessions (timeout_secs : Z)
    : M X (Result (list SshSession) SshServiceError) :=
  db_call (st_get_stuck_connecting_sessions timeout_secs).

Definition get_orphaned_sessions : M X (Result (list SshSession) SshServiceError) :=
  db_call st_get_orphaned_sessions.

(** One tick of [start_cleanup_task]; errors are only logged. *)
Definition terminate_all (found : M X (Result (list SshSession) SshServiceError))
    (reason : string) : M X () :=
  r ← found;
  match r with
  | Ok sessions =>
      for_each sessions (λ s, _ ← terminate_session (ss_id s) reason; mret ())
  | Err _ => mret ()
  end.

Definition ssh_cleanup_pass (idle_timeout connecting_timeout : Z) : M X () :=
  _ ← terminate_all (get_stale_sessions idle_timeout) "Idle timeout";
  _ ← terminate_all (get_stuck_connecting_sessions connecting_timeout)
        "Connection timeout - stuck in connecting state";
  terminate_all get_orphaned_sessions "Sandbox no longer running".
End service.

(** ** The handlers *)

Module Handlers.
Section handlers.
Context {S B A H : Type}.
Context `{!StateStoreTrait S} `{!SandboxManager B} `{!ActivityStoreTrait A}.
Context `{!SshSessionStoreTrait H} `{!UuidLib} `{!ChronoLib}.
#[local] Abbreviation X := (SshWorld S B A H).

(** A service call in a handler: [?] converts its error. *)
Definition api {T} (m : M X (Result T SshServiceError)) : M X (Result T ApiError) :=
  r ← m; mret (result_map_err ApiError_from_SshServiceError r).

Definition create_ssh_session (svc : SshSessionService) (identity : ApiKeyIdentity)
    (req : CreateSshSessionRequest) : M X (Result SshSession ApiError) :=
  let* _ := authorize_sandbox_access svc identity (sreq_sandbox_id req) in
  let* _ := mret (CreateSshSessionRequest_validate req) in
  api (create_session svc req).

(** An unknown state in the query is no filter. *)
Definition parse_state_filter (s : string) : option SshSessionState :=
  match_str [("connecting", Connecting); ("active", Active); ("disconnected", Disconnected);
             ("terminated", Terminated); ("error", SshError)] s.

Definition list_ssh_sessions (svc : SshSessionService) (identity : ApiKeyIdentity)
    (sandbox_id : option Uuid) (state : option string) (limit offset : option Z)
    : M X (Result (list SshSession) ApiError) :=
  let* _ :=
    (if is_privileged_key identity then mret (Ok ())
     else
       match sandbox_id with
       | None =>
           mret (Err (ApiValidation
             "sandbox_id is required for non-privileged SSH session queries"
             (Some "sandbox_id") AuthorizationInsufficientPermissions))
       | Some id => authorize_sandbox_access svc identity id
       end) in
  let filters :=
    {| filter_sandbox_id := sandbox_id; filter_state := state ≫= parse_state_filter;
       filter_limit := limit; filter_offset := offset |} in
  sessions ← list_sessions filters;
  mret (Ok sessions).

Definition get_ssh_session (svc : SshSessionService) (identity : ApiKeyIdentity) (id : Uuid)
    : M X (Result SshSession ApiError) :=
  let* session := api (get_session id) in
  let* _ := authorize_sandbox_access svc identity (ss_sandbox_id session) in
  mret (Ok session).

Definition terminate_ssh_session (svc : SshSessionService) (identity : ApiKeyIdentity)
    (id : Uuid) (reason : option string) : M X (Result () ApiError) :=
  let* session := api (get_session id) in
  let* _ := authorize_sandbox_access svc identity (ss_sandbox_id session) in
  api (terminate_session id (default "API request" reason)).

Definition update_session_activity (svc : SshSessionService) (identity : ApiKeyIdentity)
    (id : Uuid) (bytes_sent bytes_received : Z) : M X (Result () ApiError) :=
  let* session := api (get_session id) in
  let* _ := authorize_sandbox_access svc identity (ss_sandbox_id session) in
  api (update_activity id bytes_sent bytes_received).

(** The gateway's own check, by its key, of whom it may connect. *)
Definition authorize_ssh_access (gateway_key provided : option string) (sandbox_id : Uuid)
    : M X (Result (Uuid * string * option string) ApiError) :=
  let* _ :=
    match gateway_key, provided with
    | Some expected, Some key =>
        if String.eqb key expected then mret (Ok ())
        else mret (Err (ApiAuthentication "Invalid API key for SSH gateway access"))
    | Some _, None =>
        mret (Err (ApiAuthentication "Missing X-API-Key header for SSH gateway access"))
    | None, _ => mret (Ok ())
    end in
  o ← in_world (st_get sandbox_id);
  match o with
  | None => mret (Err (ApiSandboxNotFound (uuid_to_string sandbox_id)))
  | Some sandbox =>
      let state_str := SandboxState_as_str (sb_state sandbox) in
      if bool_decide (sb_state sandbox = Running) then
        mret (Ok (sandbox_id, state_str, sb_container_id sandbox))
      else
        mret (Err (ApiValidation ("Sandbox is not running (current state: " +:+ state_str +:+ ")")
                     None SandboxInvalidState))
  end.
End handlers.
End Handlers.

(** ** Rows *)

(** Evaluate the columns of a written row. *)
Ltac eval_columns :=
  unfold text_is, time_before, session_row, session_assignments, column; simpl.

Section rows.
Context `{PgLib, !PgLaws}.
#[local] Abbreviation St := PostgresSshSessionStore.

(** What a session reads back as: its times in the database's precision. *)
Definition session_read (s : SshSession) : SshSession :=
  {| ss_id := ss_id s; ss_sandbox_id := ss_sandbox_id s; ss_client_ip := ss_client_ip s;
     ss_ssh_version := ss_ssh_version s; ss_auth_method := ss_auth_method s;
     ss_ssh_session_id := ss_ssh_session_id s; ss_exec_id := ss_exec_id s;
     ss_pty_term := ss_pty_term s; ss_pty_rows := ss_pty_rows s; ss_pty_cols := ss_pty_cols s;
     ss_state := ss_state s; ss_connected_at := pg_timestamp (ss_connected_at s);
     ss_disconnected_at := pg_timestamp <$> ss_disconnected_at s;
     ss_last_activity_at := pg_timestamp (ss_last_activity_at s);
     ss_bytes_sent := ss_bytes_sent s; ss_bytes_received := ss_bytes_received s;
     ss_duration_seconds := ss_duration_seconds s;
     ss_termination_reason := ss_termination_reason s;
     ss_created_at := pg_timestamp (ss_created_at s);
     ss_updated_at := pg_timestamp (ss_updated_at s) |}.

Lemma parse_state_as_str st : parse_session_state (SshSessionState_as_str st) = Ok st.
Proof. by destruct st. Qed.

Lemma parse_auth_as_str m : parse_auth_method (SshAuthMethod_as_str m) = Ok m.
Proof. by destruct m. Qed.

Lemma row_to_session_ok s : row_to_session (session_row s) = Ok (session_read s).
Proof.
  unfold row_to_session, col.
  repeat (first [read_column | rewrite parse_auth_as_str | rewrite parse_state_as_str];
          cbn [result_map_err result_bind]).
  by rewrite !option_fmap_id.
Qed.

Lemma session_row_inj s1 s2 : session_row s1 = session_row s2 → session_read s1 = session_read s2.
Proof.
  intros Heq. assert (Hr := row_to_session_ok s1). rewrite Heq, row_to_session_ok in Hr. congruence.
Qed.

Lemma session_read_idem s : session_read (session_read s) = session_read s.
Proof.
  unfold session_read. simpl. f_equal; try apply pg_timestamp_idem.
  destruct (ss_disconnected_at s); simpl; [by rewrite pg_timestamp_idem|done].
Qed.

Lemma sql_time_read t : sql_time (pg_timestamp t) = sql_time t.
Proof. unfold sql_time. by rewrite pg_timestamp_idem. Qed.

Lemma session_row_read s : session_row (session_read s) = session_row s.
Proof.
  unfold session_row, session_assignments, session_read. simpl. rewrite !sql_time_read.
  assert (sql_opt sql_time (pg_timestamp <$> ss_disconnected_at s)
          = sql_opt sql_time (ss_disconnected_at s)) as -> by
    (destruct (ss_disconnected_at s); simpl; by rewrite ?sql_time_read).
  done.
Qed.
End rows.

(** ** The store as the service sees it *)

Section view.
Context `{PgLib, !PgLaws} `{!UuidLib}.
#[local] Abbreviation St := PostgresSshSessionStore.

(** The store answers, and every row was written for its key. *)
Definition ssh_ok (h : St) : Prop :=
  ssh_connects h = true ∧
  map_Forall (λ id r, ∃ s, ss_id s = id ∧ r = session_row s) (ssh_rows h).

Definition read_row (r : Row) : option SshSession :=
  match row_to_session r with Ok s => Some s | Err _ => None end.

(** The sessions of the table, as they read back. *)
Definition ssh_db (h : St) : gmap Uuid SshSession := omap read_row (ssh_rows h).

Definition ss_set_updated (now : DateTime) (s : SshSession) : SshSession :=
  beaten (ss_bytes_sent s) (ss_bytes_received s) (ss_last_activity_at s) now s.

Lemma read_row_ok s : read_row (session_row s) = Some (session_read s).
Proof. unfold read_row. by rewrite row_to_session_ok. Qed.

Lemma ssh_db_Some h id s :
  ssh_ok h → ssh_db h !! id = Some s →
  ss_id s = id ∧ ssh_rows h !! id = Some (session_row s) ∧ session_read s = s.
Proof.
  intros [_ Hrows] Hs. unfold ssh_db in Hs. rewrite lookup_omap in Hs.
  destruct (ssh_rows h !! id) as [r|] eqn:Hr; [|done]. simpl in Hs.
  destruct (Hrows id r Hr) as (s0 & <- & ->). rewrite read_row_ok in Hs. simplify_eq.
  split_and!; [done|by rewrite session_row_read|apply session_read_idem].
Qed.

Lemma ssh_db_None h id : ssh_ok h → ssh_db h !! id = None → ssh_rows h !! id = None.
Proof.
  intros [_ Hrows] Hs. unfold ssh_db in Hs. rewrite lookup_omap in Hs.
  destruct (ssh_rows h !! id) as [r|] eqn:Hr; [|done]. simpl in Hs.
  destruct (Hrows id r Hr) as (s0 & <- & ->). by rewrite read_row_ok in Hs.
Qed.

Lemma update_session_row now s s0 :
  ss_id s = ss_id s0 → ss_created_at s = ss_created_at s0 →
  update_row (("updated_at", sql_time now) :: session_assignments s) (session_row s0)
    = session_row (ss_set_updated now s).
Proof. intros Hid Hc. unfold session_row. simpl. by rewrite Hid, Hc. Qed.

(** The clock of the database has moved on by some readings. *)
Definition advances (h h' : St) : Prop := ∃ k, ∀ n, ssh_now h' n = ssh_now h (k + n)%nat.

Lemma advances_refl h : advances h h.
Proof. by exists 0%nat. Qed.

Lemma advances_trans h1 h2 h3 : advances h1 h2 → advances h2 h3 → advances h1 h3.
Proof.
  intros [k Hk] [l Hl]. exists (k + l)%nat. intros n. rewrite Hl, Hk. f_equal. lia.
Qed.

(** After one statement that left the table as [rows]. *)
Definition after (rows : gmap Uuid Row) (h : St) : St :=
  mkSshStore rows (ssh_sandboxes h) (λ n, ssh_now h (S n)) (ssh_connects h).

Lemma advances_after rows h : advances h (after rows h).
Proof. by exists 1%nat. Qed.

Lemma get_ssh_session_spec id h :
  ssh_ok h → pg_get_ssh_session id h = (ssh_db h !! id, after (ssh_rows h) h).
Proof.
  intros [Hc Hrows]. unfold pg_get_ssh_session, statement. rewrite Hc. simpl.
  unfold ssh_db. rewrite lookup_omap, <-Hc. destruct (ssh_rows h !! id); reflexivity.
Qed.

Lemma update_ssh_session_spec s s0 h :
  ssh_ok h → ssh_db h !! ss_id s = Some s0 → ss_created_at s = ss_created_at s0 →
  ∃ h', pg_update_ssh_session s h = (Ok (), h') ∧ ssh_ok h' ∧ advances h h' ∧
    ssh_sandboxes h' = ssh_sandboxes h ∧
    ssh_db h' = <[ss_id s := session_read (ss_set_updated (ssh_now h 0%nat) s)]> (ssh_db h).
Proof.
  intros Hok Hs Hcr. assert (Hok' := Hok). destruct Hok' as [Hc Hrows].
  destruct (ssh_db_Some _ _ _ Hok Hs) as (Hid & Hr & _).
  unfold pg_update_ssh_session, statement. rewrite Hc. simpl. eexists. split; [done|].
  rewrite (alter_alt_Some _ _ _ _ Hr), update_session_row by done.
  split_and!; [split; [done|]|by exists 1%nat|done|].
  - simpl. apply map_Forall_insert_2; [|done].
    by exists (ss_set_updated (ssh_now h 0%nat) s).
  - unfold ssh_db. simpl. apply omap_insert_Some, read_row_ok.
Qed.
End view.

(** ** Rules for the service *)

Section rules.
Context {S B A : Type}.
Context `{!StateStoreTrait S} `{!StoreContract S}.
Context `{!SandboxManager B} `{!ActivityStoreTrait A}.
Context `{PgLib, !PgLaws} `{!UuidLib} `{!ChronoLib}.
#[local] Abbreviation X := (SshWorld S B A PostgresSshSessionStore).

Definition xok (x : X) : Prop := ssh_ok (sx_ssh x).
Definition xdb (x : X) : gmap Uuid SshSession := ssh_db (sx_ssh x).

(** Nothing but the clocks, the UUID supply and the sessions has changed. *)
Record beside (x x' : X) : Prop := {
  beside_ok : xok x';
  beside_keeps : keeps (sx_world x) (sx_world x');
  beside_clock : advances (sx_ssh x) (sx_ssh x');
  beside_sandboxes : ssh_sandboxes (sx_ssh x') = ssh_sandboxes (sx_ssh x);
}.

Lemma beside_refl x : xok x → beside x x.
Proof. intros Hx. split; [done|apply keeps_refl|apply advances_refl|done]. Qed.

Lemma beside_trans x1 x2 x3 : beside x1 x2 → beside x2 x3 → beside x1 x3.
Proof.
  intros [] []. split; [done|by eapply keeps_trans|by eapply advances_trans|congruence].
Qed.

Lemma wp_in_world {T} (m : M (World S B A) T) Q (x : X) :
  wp m (λ t w, Q t (mkSshWorld w (sx_ssh x))) (sx_world x) → wp (in_world m) Q x.
Proof. unfold wp, run_val, run_st, in_world. by destruct (m (sx_world x)). Qed.

Lemma wp_in_ssh {T} (m : M PostgresSshSessionStore T) Q (x : X) t h :
  m (sx_ssh x) = (t, h) → Q t (mkSshWorld (sx_world x) h) → wp (in_ssh m) Q x.
Proof. unfold wp, run_val, run_st, in_ssh. by intros ->. Qed.

Lemma wp_clock Q (x : X) :
  xok x → (∀ t x', beside x x' → xdb x' = xdb x → Q t x') → wp (in_world utc_now) Q x.
Proof.
  intros Hx HQ. apply wp_in_world, wp_now. intros t w' Hk. apply HQ; [|done].
  split; [done|done|apply advances_refl|done].
Qed.

Lemma wp_get_session id Q (x : X) :
  xok x →
  (∀ x', beside x x' → xdb x' = xdb x →
     Q (option_ok_or (SshSessionMissing id) (xdb x !! id)) x') →
  wp (get_session id) Q x.
Proof.
  intros Hx HQ. apply wp_bind. eapply wp_in_ssh; [by apply get_ssh_session_spec|].
  apply wp_ret, HQ; [|done].
  split; [by destruct Hx|apply keeps_refl|apply advances_after|done].
Qed.

Lemma wp_update_session s s0 Q (x : X) :
  xok x → xdb x !! ss_id s = Some s0 → ss_created_at s = ss_created_at s0 →
  (∀ t x', beside x x' →
     xdb x' = <[ss_id s := session_read (ss_set_updated t s)]> (xdb x) → Q (Ok ()) x') →
  wp (db_call (update_ssh_session s)) Q x.
Proof.
  intros Hx Hs Hc HQ.
  destruct (update_ssh_session_spec s s0 (sx_ssh x) Hx Hs Hc) as (h' & Hu & K1 & K2 & K3 & K4).
  apply wp_bind. eapply wp_in_ssh; [exact Hu|]. apply wp_ret. simpl.
  eapply HQ; [|exact K4]. split; [done|apply keeps_refl|done|done].
Qed.

(** What no operation changes of a session. *)
Record same_session (s s' : SshSession) : Prop := {
  same_id : ss_id s' = ss_id s;
  same_sandbox : ss_sandbox_id s' = ss_sandbox_id s;
  same_client : ss_client_ip s' = ss_client_ip s;
  same_version : ss_ssh_version s' = ss_ssh_version s;
  same_auth : ss_auth_method s' = ss_auth_method s;
  same_connected : ss_connected_at s' = ss_connected_at s;
  same_created : ss_created_at s' = ss_created_at s;
}.

(** The outcome of an operation on the session [id]: it is missing, or it is
    rewritten as [φ] says; no other session changes. *)
Definition revised (x x' : X) (id : Uuid) (φ : SshSession → SshSession → Prop)
    (r : Result () SshServiceError) : Prop :=
  beside x x' ∧
  match xdb x !! id with
  | None => r = Err (SshSessionMissing id) ∧ xdb x' = xdb x
  | Some s => r = Ok () ∧ ∃ s', xdb x' = <[id := s']> (xdb x) ∧ same_session s s' ∧ φ s s'
  end.

Lemma wp_try_session {Y} id (k : SshSession → M X (Result Y SshServiceError)) Q (x : X) :
  xok x →
  (∀ x', beside x x' → xdb x' = xdb x →
     match xdb x !! id with
     | Some s => wp (k s) Q x'
     | None => Q (Err (SshSessionMissing id)) x'
     end) →
  wp (try_ (get_session id) k) Q x.
Proof.
  intros Hx HQ. apply wp_try, wp_get_session; [done|]. intros x' Hb Hd.
  specialize (HQ x' Hb Hd). by destruct (xdb x !! id).
Qed.

Lemma same_session_read s s1 t :
  session_read s = s → same_session s s1 → same_session s (session_read (ss_set_updated t s1)).
Proof.
  intros Hr []. rewrite <-Hr. split; simpl; congruence.
Qed.

Lemma wp_revise (x x1 : X) id s s1 φ :
  xok x → beside x x1 → xdb x1 = xdb x → xdb x !! id = Some s → same_session s s1 →
  (∀ t, φ s (session_read (ss_set_updated t s1))) →
  wp (db_call (update_ssh_session s1)) (λ r x', revised x x' id φ r) x1.
Proof.
  intros Hx Hb Hd Hs Hsame Hφ. destruct (ssh_db_Some _ _ _ Hx Hs) as (Hid & _ & Hr).
  apply (wp_update_session s1 s); [by destruct Hb| |by destruct Hsame|].
  { rewrite Hd, (same_id _ _ Hsame), Hid. done. }
  intros t x' Hb' Hd'. split; [by eapply beside_trans|]. rewrite Hs. split; [done|].
  rewrite Hd, (same_id _ _ Hsame), Hid in Hd'. eexists. split; [exact Hd'|].
  split; [by apply same_session_read|done].
Qed.

(** Reading the clock on the way. *)
Lemma wp_bind_clock {Y} (k : DateTime → M X Y) Q (x0 x : X) :
  xok x0 → beside x0 x → xdb x = xdb x0 →
  (∀ t x', beside x0 x' → xdb x' = xdb x0 → wp (k t) Q x') →
  wp (in_world utc_now ≫= k) Q x.
Proof.
  intros Hx Hb Hd HQ. apply wp_bind, wp_clock; [by destruct Hb|]. intros t x' Hb' Hd'.
  apply HQ; [by eapply beside_trans|congruence].
Qed.

Lemma wp_mark_session_active id ssh_id exec term rows cols (x : X) :
  xok x →
  wp (mark_session_active id ssh_id exec term rows cols) (λ r x',
    revised x x' id (λ s s',
      ss_state s' = Active ∧ ss_ssh_session_id s' = ssh_id ∧ ss_exec_id s' = exec ∧
      ss_pty_term s' = term ∧ ss_pty_rows s' = rows ∧ ss_pty_cols s' = cols ∧
      ss_disconnected_at s' = ss_disconnected_at s ∧
      ss_termination_reason s' = ss_termination_reason s) r) x.
Proof.
  intros Hx. apply wp_try_session; [done|]. intros x1 Hb1 Hd1.
  destruct (xdb x !! id) as [s|] eqn:Hs; [|unfold revised; by rewrite Hs].
  destruct (ssh_db_Some _ _ _ Hx Hs) as (_ & _ & Hr).
  apply (wp_bind_clock _ _ x); [done..|]. intros t x2 Hb2 Hd2.
  apply (wp_revise x x2 id s); try done. intros t'. split_and!; try done. by rewrite <-Hr at 2.
Qed.

Lemma wp_update_activity id sent received (x : X) :
  xok x →
  wp (update_activity id sent received) (λ r x',
    revised x x' id (λ s s',
      ss_state s' = ss_state s ∧ ss_bytes_sent s' = sent ∧ ss_bytes_received s' = received ∧
      ss_disconnected_at s' = ss_disconnected_at s ∧
      ss_termination_reason s' = ss_termination_reason s) r) x.
Proof.
  intros Hx. apply wp_try_session; [done|]. intros x1 Hb1 Hd1.
  destruct (xdb x !! id) as [s|] eqn:Hs; [|unfold revised; by rewrite Hs].
  destruct (ssh_db_Some _ _ _ Hx Hs) as (_ & _ & Hr).
  apply (wp_bind_clock _ _ x); [done..|]. intros t x2 Hb2 Hd2.
  apply (wp_bind_clock _ _ x); [done..|]. intros t' x3 Hb3 Hd3.
  apply (wp_revise x x3 id s); try done. intros t''. split_and!; try done. by rewrite <-Hr at 2.
Qed.

(** What ending a session at the time [t] makes of it. *)
Definition ended_at (st : SshSessionState) (reason : option string) (s s' : SshSession) : Prop :=
  ss_state s' = st ∧ ss_termination_reason s' = reason ∧
  ss_bytes_sent s' = ss_bytes_sent s ∧ ss_bytes_received s' = ss_bytes_received s ∧
  ∃ t, ss_disconnected_at s' = Some (pg_timestamp t) ∧
       ss_duration_seconds s' = Some (i32_wrap (num_seconds (t - ss_connected_at s))).

(** The three readings of the clock and the write that end a session. *)
Lemma wp_end_session (x x1 : X) id s st reason :
  xok x → beside x x1 → xdb x1 = xdb x → xdb x !! id = Some s →
  wp (disconnected_at ← in_world utc_now;
      updated_at ← in_world utc_now;
      _ ← in_world utc_now;
      db_call (update_ssh_session (ended st reason disconnected_at updated_at s)))
    (λ r x', revised x x' id (ended_at st reason) r) x1.
Proof.
  intros Hx Hb1 Hd1 Hs.
  apply (wp_bind_clock _ _ x); [done..|]. intros t x2 Hb2 Hd2.
  apply (wp_bind_clock _ _ x); [done..|]. intros t' x3 Hb3 Hd3.
  apply (wp_bind_clock _ _ x); [done..|]. intros t'' x4 Hb4 Hd4.
  apply (wp_revise x x4 id s); try done. intros u. split_and!; try done. by exists t.
Qed.

Lemma wp_terminate_session id reason (x : X) :
  xok x →
  wp (terminate_session id reason) (λ r x',
    revised x x' id (ended_at Terminated (Some reason)) r) x.
Proof.
  intros Hx. apply wp_try_session; [done|]. intros x1 Hb1 Hd1.
  destruct (xdb x !! id) as [s|] eqn:Hs; [|unfold revised; by rewrite Hs].
  by apply wp_end_session.
Qed.

Lemma wp_disconnect_session id (x : X) :
  xok x →
  wp (disconnect_session id) (λ r x',
    revised x x' id (λ s s',
      if is_terminal (ss_state s) then s' = s
      else ended_at Disconnected (ss_termination_reason s) s s') r) x.
Proof.
  intros Hx. apply wp_try_session; [done|]. intros x1 Hb1 Hd1.
  destruct (xdb x !! id) as [s|] eqn:Hs; [|unfold revised; by rewrite Hs].
  destruct (is_terminal (ss_state s)) eqn:Ht.
  - apply wp_ret. split; [done|]. rewrite Hs. split; [done|]. exists s. rewrite Ht, Hd1.
    split_and!; [by rewrite insert_id|done|done].
  - eapply wp_mono; [by apply (wp_end_session x)|]. intros r x' [Hb Hr]. split; [done|].
    rewrite Hs in *. destruct Hr as [-> (s' & ? & ? & ?)]. split; [done|]. exists s'. by rewrite Ht.
Qed.

(** the operations on a session.  Each reports a session that does not exist
    and otherwise rewrites exactly that session, keeping who it belongs to and
    when it began.  A disconnection leaves an ended session as it is; a
    termination ends any session, again if need be; the marking as active does
    so whatever the state, so that an ended session comes back, still with the
    time and reason of its end. *)
Theorem session_operations_spec id (x : X) :
  xok x →
  (∀ ssh_id exec term rows cols,
     wp (mark_session_active id ssh_id exec term rows cols) (λ r x',
       revised x x' id (λ s s',
         ss_state s' = Active ∧ ss_ssh_session_id s' = ssh_id ∧ ss_exec_id s' = exec ∧
         ss_pty_term s' = term ∧ ss_pty_rows s' = rows ∧ ss_pty_cols s' = cols ∧
         ss_disconnected_at s' = ss_disconnected_at s ∧
         ss_termination_reason s' = ss_termination_reason s) r) x) ∧
  (∀ sent received,
     wp (update_activity id sent received) (λ r x',
       revised x x' id (λ s s',
         ss_state s' = ss_state s ∧ ss_bytes_sent s' = sent ∧ ss_bytes_received s' = received ∧
         ss_disconnected_at s' = ss_disconnected_at s ∧
         ss_termination_reason s' = ss_termination_reason s) r) x) ∧
  wp (disconnect_session id) (λ r x',
    revised x x' id (λ s s',
      if is_terminal (ss_state s) then s' = s
      else ended_at Disconnected (ss_termination_reason s) s s') r) x ∧
  (∀ reason,
     wp (terminate_session id reason) (λ r x',
       revised x x' id (ended_at Terminated (Some reason)) r) x).
Proof.
  intros Hx. split_and!; intros.
  - by apply wp_mark_session_active.
  - by apply wp_update_activity.
  - by apply wp_disconnect_session.
  - by apply wp_terminate_session.
Qed.
End rules.

(** ** The clean-up pass *)

Section cleanup.
Context {S B A : Type}.
Context `{!StateStoreTrait S} `{!StoreContract S}.
Context `{!SandboxManager B} `{!ActivityStoreTrait A}.
Context `{PgLib, !PgLaws} `{!UuidLib} `{!ChronoLib}.
#[local] Abbreviation X := (SshWorld S B A PostgresSshSessionStore).

(** The conditions of the three queries, on a session. *)
Definition idle_session (secs : Z) (now : DateTime) (s : SshSession) : bool :=
  negb (is_terminal (ss_state s))
  && bool_decide (ss_last_activity_at s < seconds_ago now secs).

Definition stuck_session (secs : Z) (now : DateTime) (s : SshSession) : bool :=
  bool_decide (ss_state s = Connecting)
  && bool_decide (ss_connected_at s < seconds_ago now secs).

Definition orphan_session (sandboxes : gmap Uuid string) (s : SshSession) : bool :=
  negb (is_terminal (ss_state s))
  && bool_decide (sandboxes !! ss_sandbox_id s ≠ Some "running").

Lemma stale_row secs now s :
  stale secs now (session_row s) = idle_session secs now (session_read s).
Proof. unfold stale, idle_session, is_open. eval_columns. destruct (ss_state s); reflexivity. Qed.

Lemma stuck_session_row secs now s :
  stuck_connecting secs now (session_row s) = stuck_session secs now (session_read s).
Proof. unfold stuck_connecting, stuck_session. eval_columns. destruct (ss_state s); reflexivity. Qed.

Lemma orphaned_row sandboxes s :
  orphaned sandboxes (session_row s) = orphan_session sandboxes (session_read s).
Proof.
  unfold orphaned, orphan_session, is_open. eval_columns. f_equal; [by destruct (ss_state s)|].
  destruct (sandboxes !! ss_sandbox_id s) as [st|].
  - destruct (String.eqb_spec st "running"); case_bool_decide; simpl; congruence.
  - by rewrite bool_decide_true.
Qed.

Lemma collect_sessions_ok rows :
  Forall (λ r, ∃ s, r = session_row s) rows →
  ∃ l, collect_sessions rows = Ok l ∧
       ∀ s, s ∈ l ↔ ∃ s0, session_row s0 ∈ rows ∧ s = session_read s0.
Proof.
  induction 1 as [|r rows [s0 ->] _ (l & Hl & IH)].
  { exists []. split; [done|]. set_solver. }
  exists (session_read s0 :: l). simpl. rewrite row_to_session_ok. simpl. rewrite Hl.
  split; [done|]. intros s. rewrite elem_of_cons, IH. split.
  - intros [->|(s1 & ? & ->)]; [exists s0|exists s1]; (split; [|done]); set_solver.
  - intros (s1 & Hin & ->). apply elem_of_cons in Hin as [Heq|Hin]; [|by eauto].
    left. by apply session_row_inj.
Qed.

(** What a [SELECT] of sessions finds. *)
Lemma select_sessions_spec c (p : DateTime → gmap Uuid string → Row → bool) h :
  ssh_ok h →
  ∃ l, select_sessions c p h = (Ok l, after (ssh_rows h) h) ∧
       ∀ s, s ∈ l ↔ ssh_db h !! ss_id s = Some s ∧
                    p (ssh_now h 0%nat) (ssh_sandboxes h) (session_row s) = true.
Proof.
  intros Hok. assert (Hok' := Hok). destruct Hok' as [Hc Hrows].
  assert (∀ r, r ∈ merge_sort (earlier c) (List.filter (p (ssh_now h 0%nat) (ssh_sandboxes h))
                     (session_table (ssh_rows h))) ↔
            p (ssh_now h 0%nat) (ssh_sandboxes h) r = true ∧ ∃ id, ssh_rows h !! id = Some r)
    as Hin.
  { intros r. rewrite merge_sort_Permutation, list_elem_of_In, filter_In, <-list_elem_of_In.
    unfold session_table. rewrite list_elem_of_fmap. split.
    - intros [([id r'] & -> & Hm) Hp]. apply elem_of_map_to_list in Hm. eauto.
    - intros [Hp [id Hm]]. split; [|done]. exists (id, r). split; [done|].
      by apply elem_of_map_to_list. }
  edestruct collect_sessions_ok as (l & Hl & Hs).
  { apply Forall_forall. intros r [_ [id Hr]]%Hin. destruct (Hrows id r Hr) as (s & _ & ->). eauto. }
  exists l. split.
  { unfold select_sessions, statement, after. rewrite Hc, Hl. reflexivity. }
  intros s. rewrite Hs. split.
  - intros (s0 & [Hp [id Hr]]%Hin & ->). destruct (Hrows id _ Hr) as (s1 & <- & Heq).
    apply session_row_inj in Heq as E.
    rewrite session_row_read. split; [|done]. unfold ssh_db. rewrite lookup_omap.
    replace (ss_id (session_read s0)) with (ss_id s1) by (by rewrite E).
    rewrite Hr. simpl. apply read_row_ok.
  - intros [Hdb Hp]. destruct (ssh_db_Some _ _ _ Hok Hdb) as (_ & Hr & Hread).
    exists s. split; [|done]. apply Hin. eauto.
Qed.

(** After one round: exactly the sessions that meet [p] have been terminated. *)
Definition closed (p : SshSession → bool) (reason : string) (s s' : SshSession) : Prop :=
  if p s then same_session s s' ∧ ended_at Terminated (Some reason) s s' else s' = s.

Definition round (x x' : X) (φ : SshSession → SshSession → Prop) : Prop :=
  beside x x' ∧
  ∀ id, match xdb x !! id, xdb x' !! id with
        | Some s, Some s' => φ s s'
        | None, None => True
        | _, _ => False
        end.

Lemma ended_again st reason s s1 s2 :
  same_session s s1 → ended_at st reason s s1 → same_session s1 s2 → ended_at st reason s1 s2 →
  same_session s s2 ∧ ended_at st reason s s2.
Proof.
  intros [] (? & ? & ? & ? & _) [] (? & ? & ? & ? & t & ? & ?).
  split; [split; congruence|]. split_and!; try congruence. exists t. split; congruence.
Qed.

Lemma wp_terminate_loop l reason (p : SshSession → bool) (x0 x : X) :
  xok x0 → beside x0 x → xdb x = xdb x0 →
  (∀ s, s ∈ l ↔ xdb x0 !! ss_id s = Some s ∧ p s = true) →
  wp (for_each l (λ s, _ ← terminate_session (ss_id s) reason; mret ()))
    (λ _ x', round x0 x' (closed p reason)) x.
Proof.
  intros Hx0 Hb Hd Hl.
  eapply (wp_for_each (λ done x', round x0 x' (closed (λ s, bool_decide (s ∈ done)) reason))).
  - split; [done|]. intros id. rewrite Hd. by destruct (xdb x0 !! id).
  - intros done a rest x' -> [Hb' Hd']. apply wp_bind.
    assert (Ha : xdb x0 !! ss_id a = Some a) by (apply Hl; set_solver).
    eapply wp_mono; [apply wp_terminate_session; by destruct Hb'|].
    intros r x'' [Hb'' Hr]. apply wp_ret. split; [by eapply beside_trans|].
    assert (Hda := Hd' (ss_id a)). rewrite Ha in Hda.
    destruct (xdb x' !! ss_id a) as [a1|] eqn:Ha1; [|done].
    destruct Hr as [_ (a2 & Hdb & Hsame & Hend)]. intros id. rewrite Hdb.
    destruct (decide (id = ss_id a)) as [->|Hne].
    + rewrite Ha, lookup_insert_eq. unfold closed in *. rewrite bool_decide_true by set_solver.
      case_bool_decide; [|by subst].
      destruct Hda. by eapply ended_again.
    + rewrite lookup_insert_ne by done. specialize (Hd' id).
      destruct (xdb x0 !! id) as [s|] eqn:Hs; [|done].
      destruct (xdb x' !! id) as [s'|]; [|done]. unfold closed in *.
      assert (s ≠ a). { intros ->. apply (ssh_db_Some _ _ _ Hx0) in Hs as [Heq _]. done. }
      rewrite (bool_decide_ext (s ∈ done ++ [a]) (s ∈ done)) by set_solver. done.
  - intros x' [Hb' Hd']. split; [done|]. intros id. specialize (Hd' id).
    destruct (xdb x0 !! id) as [s|] eqn:Hs; [|done]. destruct (xdb x' !! id) as [s'|]; [|done].
    unfold closed in *. destruct (ssh_db_Some _ _ _ Hx0 Hs) as [Hid _].
    assert (bool_decide (s ∈ l) = p s) as E; [|by rewrite <-E].
    apply Bool.eq_iff_eq_true. rewrite bool_decide_eq_true, Hl, Hid.
    split; [by intros []|done].
Qed.

Lemma wp_terminate_all c q p reason (x : X) :
  xok x →
  (∀ s, q (ssh_now (sx_ssh x) 0%nat) (ssh_sandboxes (sx_ssh x)) (session_row s)
        = p (session_read s)) →
  wp (terminate_all (db_call (select_sessions c q)) reason)
    (λ _ x', round x x' (closed p reason)) x.
Proof.
  intros Hx Hq. apply wp_bind, wp_bind.
  destruct (select_sessions_spec c q (sx_ssh x) Hx) as (l & Hsel & Hl).
  eapply wp_in_ssh; [exact Hsel|]. apply wp_ret. simpl.
  apply wp_terminate_loop; [done| |done|].
  - split; [by destruct Hx|apply keeps_refl|apply advances_after|done].
  - intros s. rewrite Hl, Hq. split; intros [Hs Hp]; (split; [done|]).
    + destruct (ssh_db_Some _ _ _ Hx Hs) as (_ & _ & Hr). by rewrite <-Hr.
    + destruct (ssh_db_Some _ _ _ Hx Hs) as (_ & _ & Hr). by rewrite Hr.
Qed.

(** Why a pass ends a session, if it does: [now1] and [now2] are the times of
    the first two queries. *)
Definition end_reason (idle connecting : Z) (now1 now2 : DateTime)
    (sandboxes : gmap Uuid string) (s : SshSession) : option string :=
  if idle_session idle now1 s then Some "Idle timeout"
  else if stuck_session connecting now2 s then
    Some "Connection timeout - stuck in connecting state"
  else if orphan_session sandboxes s then Some "Sandbox no longer running"
  else None.

(** Only open sessions meet one of the conditions. *)
Lemma open_idle secs now s : idle_session secs now s = true → is_terminal (ss_state s) = false.
Proof. unfold idle_session. by destruct (is_terminal _). Qed.

Lemma open_stuck secs now s : stuck_session secs now s = true → is_terminal (ss_state s) = false.
Proof. unfold stuck_session. by destruct (ss_state s). Qed.

Lemma open_orphan sandboxes s :
  orphan_session sandboxes s = true → is_terminal (ss_state s) = false.
Proof. unfold orphan_session. by destruct (is_terminal _). Qed.

(** A round whose condition needs an open session, after one that has ended
    some: what the two have done together. *)
Definition outcome (why : SshSession → option string) (s s' : SshSession) : Prop :=
  match why s with
  | Some reason => same_session s s' ∧ ended_at Terminated (Some reason) s s'
  | None => s' = s
  end.

Lemma closed_after why p reason s s1 s2 :
  (∀ s, p s = true → is_terminal (ss_state s) = false) →
  outcome why s s1 → closed p reason s1 s2 →
  outcome (λ s, match why s with
                | Some r => Some r
                | None => if p s then Some reason else None
                end) s s2.
Proof.
  unfold outcome, closed. intros Hp K1 K2. destruct (why s) as [r|].
  - destruct K1 as [Hs (Hst & He)]. destruct (p s1) eqn:E; [|by subst s2].
    apply Hp in E. by rewrite Hst in E.
  - subst s1. by destruct (p s).
Qed.

Lemma closed_outcome p reason s s' :
  closed p reason s s' → outcome (λ s, if p s then Some reason else None) s s'.
Proof. unfold closed, outcome. by destruct (p s). Qed.

Lemma outcome_ext why why' s s' : why s = why' s → outcome why s s' → outcome why' s s'.
Proof. unfold outcome. by intros ->. Qed.

Lemma round_after (x x1 x2 : X) φ ψ χ :
  (∀ s s1 s2, φ s s1 → ψ s1 s2 → χ s s2) → round x x1 φ → round x1 x2 ψ → round x x2 χ.
Proof.
  intros Hc [Hb K1] [Hb' K2]. split; [by eapply beside_trans|]. intros id.
  specialize (K1 id). specialize (K2 id).
  destruct (xdb x !! id), (xdb x1 !! id), (xdb x2 !! id); eauto; done.
Qed.

(** One pass: which sessions it ends, and that it leaves the others alone. *)
Lemma wp_ssh_cleanup_pass idle connecting (x : X) :
  xok x →
  wp (ssh_cleanup_pass idle connecting) (λ _ x', ∃ k,
    round x x' (outcome (end_reason idle connecting (ssh_now (sx_ssh x) 0%nat)
                           (ssh_now (sx_ssh x) k) (ssh_sandboxes (sx_ssh x))))) x.
Proof.
  intros Hx. apply wp_bind. eapply wp_mono.
  { apply (wp_terminate_all _ _ (idle_session idle (ssh_now (sx_ssh x) 0%nat))); [done|].
    intros s. apply stale_row. }
  intros [] x1 R1. assert (Hb1 := proj1 R1). destruct (beside_clock _ _ Hb1) as [k Hk].
  apply wp_bind. eapply wp_mono.
  { apply (wp_terminate_all _ _ (stuck_session connecting (ssh_now (sx_ssh x) k))); [by destruct Hb1|].
    intros s. rewrite Hk, Nat.add_0_r. apply stuck_session_row. }
  intros [] x2 R2. assert (Hb2 := proj1 R2).
  eapply wp_mono.
  { apply (wp_terminate_all _ _ (orphan_session (ssh_sandboxes (sx_ssh x)))); [by destruct Hb2|].
    intros s. rewrite (beside_sandboxes _ _ Hb2), (beside_sandboxes _ _ Hb1). apply orphaned_row. }
  intros [] x3 R3. exists k.
  eapply (round_after x x2 x3); [|eapply (round_after x x1 x2); [|exact R1|exact R2]|exact R3].
  2: { intros s s1 s2 H1' H2'. eapply closed_after; [|exact (closed_outcome _ _ _ _ H1')|exact H2'].
       intros s'. apply open_stuck. }
  simpl. intros s s1 s2 Ho Hc. eapply outcome_ext, closed_after; [| |exact Ho|exact Hc].
  - unfold end_reason. simpl. destruct (idle_session idle (ssh_now (sx_ssh x) 0%nat) s); [done|].
    by destruct (stuck_session connecting (ssh_now (sx_ssh x) k) s).
  - intros s'. apply open_orphan.
Qed.

(** one pass of the session clean-up.  It ends exactly the sessions that
    are open and either idle since before the first query's limit, or still
    connecting since before the second's, or on a sandbox that is not running,
    each with the first of the three reasons that holds; an ended session is
    never touched; and after the pass every open session is on a running
    sandbox. *)
Theorem ssh_cleanup_pass_spec idle connecting (x : X) :
  xok x →
  wp (ssh_cleanup_pass idle connecting) (λ _ x',
    (∃ k, round x x' (outcome (end_reason idle connecting (ssh_now (sx_ssh x) 0%nat)
                                (ssh_now (sx_ssh x) k) (ssh_sandboxes (sx_ssh x))))) ∧
    (∀ id s, xdb x !! id = Some s → is_terminal (ss_state s) = true → xdb x' !! id = Some s) ∧
    (∀ id s, xdb x' !! id = Some s → is_terminal (ss_state s) = false →
       ssh_sandboxes (sx_ssh x') !! ss_sandbox_id s = Some "running")) x.
Proof.
  intros Hx. eapply wp_mono; [by apply wp_ssh_cleanup_pass|]. intros [] x' [k [Hb Hr]].
  split; [by exists k|]. split; intros id s Hs Ht; specialize (Hr id); rewrite Hs in Hr.
  - destruct (xdb x' !! id) as [s'|]; [|done]. f_equal. unfold outcome, end_reason in Hr.
    destruct (idle_session _ _ s) eqn:E; [apply open_idle in E; congruence|].
    clear E. destruct (stuck_session _ _ s) eqn:E; [apply open_stuck in E; congruence|].
    clear E. destruct (orphan_session _ s) eqn:E; [apply open_orphan in E; congruence|done].
  - destruct (xdb x !! id) as [s0|]; [|done]. unfold outcome in Hr.
    destruct (end_reason _ _ _ _ _ s0) as [r|] eqn:E.
    { destruct Hr as [_ (Hst & _)]. by rewrite Hst in Ht. }
    subst s0. rewrite (beside_sandboxes _ _ Hb). unfold end_reason in E. repeat case_match; try done.
    match goal with H : orphan_session _ s = false |- _ => rename H into Ho end.
    unfold orphan_session in Ho. rewrite Ht in Ho. simpl in Ho.
    apply bool_decide_eq_false in Ho. by apply dec_stable.
Qed.
End cleanup.

(** ** Who reaches a session *)

Section guarded.
Context {S B A : Type}.
Context `{!StateStoreTrait S} `{!StoreContract S}.
Context `{!SandboxManager B} `{!ActivityStoreTrait A}.
Context `{PgLib, !PgLaws} `{!UuidLib} `{!ChronoLib}.
#[local] Abbreviation X := (SshWorld S B A PostgresSshSessionStore).

(** Whether the caller may touch the sessions of a sandbox. *)
Definition may_access (svc : SshSessionService) (identity : ApiKeyIdentity) (x : X)
    (sandbox_id : Uuid) : bool :=
  if has_sandbox_service svc then
    authorized identity false (db (sx_world x) !! sandbox_id)
  else is_privileged_key identity.

(** Both halves of the world answer. *)
Definition both_ok (x : X) : Prop := xok x ∧ ok (sx_world x).

Lemma both_ok_beside x x' : both_ok x → beside x x' → both_ok x'.
Proof. intros [_ Hw] [Hx' Hk _ _]. split; [done|by apply (keeps_ok _ _ Hk)]. Qed.

Lemma may_access_beside svc identity x x' id :
  beside x x' → may_access svc identity x' id = may_access svc identity x id.
Proof. intros [_ Hk _ _]. unfold may_access. by rewrite (keeps_db _ _ Hk). Qed.

Lemma wp_authorize svc identity sandbox_id Q (x : X) :
  both_ok x →
  (may_access svc identity x sandbox_id = true → Q (Ok ()) x) →
  (∀ e, may_access svc identity x sandbox_id = false → Q (Err e) x) →
  wp (authorize_sandbox_access svc identity sandbox_id) Q x.
Proof.
  intros [Hx Hw] Hyes Hno. unfold may_access, authorize_sandbox_access in *.
  destruct (has_sandbox_service svc).
  - apply wp_in_world. eapply wp_mono; [by apply wp_check_ownership|]. intros r w' [-> ->].
    destruct x as [w h]. simpl in *. destruct (authorized identity false (db w !! sandbox_id)); auto.
  - destruct (is_privileged_key identity); apply wp_ret; auto.
Qed.

Lemma wp_try_authorize {Y} svc identity sandbox_id (k : () → M X (Result Y ApiError)) Q (x : X) :
  both_ok x →
  (may_access svc identity x sandbox_id = true → wp (k ()) Q x) →
  (∀ e, may_access svc identity x sandbox_id = false → Q (Err e) x) →
  wp (try_ (authorize_sandbox_access svc identity sandbox_id) k) Q x.
Proof. intros Hx Hyes Hno. by apply wp_try, wp_authorize. Qed.

Lemma wp_api {T} (m : M X (Result T SshServiceError)) Q (x : X) :
  wp m (λ r x', Q (result_map_err ApiError_from_SshServiceError r) x') x →
  wp (Handlers.api m) Q x.
Proof. intros HQ. by apply wp_bind. Qed.

Lemma wp_try_api_session {Y} id (k : SshSession → M X (Result Y ApiError)) Q (x : X) :
  xok x →
  (∀ x', beside x x' → xdb x' = xdb x →
     match xdb x !! id with
     | Some s => wp (k s) Q x'
     | None => ∀ e, Q (Err e) x'
     end) →
  wp (try_ (Handlers.api (get_session id)) k) Q x.
Proof.
  intros Hx HQ. apply wp_try, wp_api, wp_get_session; [done|]. intros x' Hb Hd.
  specialize (HQ x' Hb Hd). destruct (xdb x !! id); simpl; auto.
Qed.

(** A change of a session that only its sandbox's users can make. *)
Definition guarded_change (svc : SshSessionService) (identity : ApiKeyIdentity) (id : Uuid)
    (x x' : X) (r : Result () ApiError) : Prop :=
  match r with
  | Ok _ => ∃ s s', xdb x !! id = Some s ∧ may_access svc identity x (ss_sandbox_id s) = true ∧
                    xdb x' = <[id := s']> (xdb x) ∧ same_session s s'
  | Err _ => xdb x' = xdb x
  end.

Lemma wp_guarded svc identity id φ (m : M X (Result () SshServiceError)) (x : X) :
  both_ok x →
  (∀ x1, xok x1 → wp m (λ r x', revised x1 x' id φ r) x1) →
  wp (let* session := Handlers.api (get_session id) in
      let* _ := authorize_sandbox_access svc identity (ss_sandbox_id session) in
      Handlers.api m) (λ r x', guarded_change svc identity id x x' r) x.
Proof.
  intros Hx Hm. apply wp_try_api_session; [by destruct Hx|]. intros x1 Hb1 Hd1.
  destruct (xdb x !! id) as [s|] eqn:Hs; [|done].
  assert (Hx1 := both_ok_beside _ _ Hx Hb1).
  apply wp_try_authorize; [done| |by intros e _].
  intros Hmay. apply wp_api. eapply wp_mono; [by apply Hm, Hx1|]. intros r x' [Hb Hr].
  rewrite Hd1, Hs in Hr. destruct Hr as [-> (s' & Hd & Hsame & _)]. simpl.
  rewrite (may_access_beside _ _ _ _ _ Hb1) in Hmay. by exists s, s'.
Qed.

Lemma create_ssh_session_spec s h :
  ssh_ok h →
  ∃ r h', pg_create_ssh_session s h = (r, h') ∧ ssh_ok h' ∧ advances h h' ∧
    ssh_sandboxes h' = ssh_sandboxes h ∧
    match r with
    | Ok _ => ssh_db h !! ss_id s = None ∧ is_Some (ssh_sandboxes h !! ss_sandbox_id s) ∧
              ssh_db h' = <[ss_id s := session_read s]> (ssh_db h)
    | Err _ => ssh_db h' = ssh_db h
    end.
Proof.
  intros [Hc Hrows]. unfold pg_create_ssh_session, statement. rewrite Hc. simpl.
  destruct (ssh_rows h !! ss_id s) as [r|] eqn:Hr;
    [|destruct (ssh_sandboxes h !! ss_sandbox_id s) eqn:Hsb];
    (do 2 eexists; split; [reflexivity|]; split_and!; try done; try by exists 1%nat).
  - split; [done|]. apply map_Forall_insert_2; [|done]. by exists s.
  - unfold ssh_db. by rewrite lookup_omap, Hr.
  - unfold ssh_db. simpl. apply omap_insert_Some, read_row_ok.
Qed.

Lemma list_ssh_sessions_spec f h :
  ssh_ok h →
  ∃ l, pg_list_ssh_sessions f h = (l, after (ssh_rows h) h) ∧
       ∀ s, s ∈ l ↔ ssh_db h !! ss_id s = Some s ∧
         (∀ u, filter_sandbox_id f = Some u → ss_sandbox_id s = u) ∧
         (∀ st, filter_state f = Some st → ss_state s = st).
Proof.
  intros Hok. assert (Hok' := Hok). destruct Hok' as [Hc Hrows].
  eexists. split.
  { unfold pg_list_ssh_sessions, statement, after. rewrite Hc. reflexivity. }
  assert (∀ s, session_matches f (session_row s) = true ↔
            (∀ u, filter_sandbox_id f = Some u → ss_sandbox_id s = u) ∧
            (∀ st, filter_state f = Some st → ss_state s = st)) as Hm.
  { intros s. unfold session_matches. rewrite andb_true_iff. apply Morphisms_Prop.and_iff_morphism.
    - destruct (filter_sandbox_id f); [|done]. unfold uuid_is. eval_columns.
      rewrite N.eqb_eq. naive_solver.
    - destruct (filter_state f) as [st|]; [|done]. eval_columns.
      rewrite orb_false_r, String.eqb_eq. split.
      + intros Heq%SshSessionState_as_str_inj. naive_solver.
      + intros Hst. by rewrite (Hst st). }
  intros s. unfold sessions_of. rewrite list_elem_of_omap. split.
  - intros (r & Hr & Hs). rewrite merge_sort_Permutation, list_elem_of_In, filter_In,
      <-list_elem_of_In in Hr. destruct Hr as [Hr Hf]. unfold session_table in Hr.
    apply list_elem_of_fmap in Hr as ([id r'] & -> & Hr). apply elem_of_map_to_list in Hr.
    destruct (Hrows id r' Hr) as (s0 & <- & ->). simpl in *. rewrite row_to_session_ok in Hs.
    simplify_eq. apply Hm in Hf. split; [|done]. unfold ssh_db. rewrite lookup_omap. simpl.
    rewrite Hr. apply read_row_ok.
  - intros [Hdb Hf]. destruct (ssh_db_Some _ _ _ Hok Hdb) as (_ & Hr & Hread).
    exists (session_row s). rewrite merge_sort_Permutation, list_elem_of_In, filter_In,
      <-list_elem_of_In. split; [split; [|by apply Hm]|by rewrite row_to_session_ok, Hread].
    apply list_elem_of_fmap. exists (ss_id s, session_row s). split; [done|].
    by apply elem_of_map_to_list.
Qed.

Lemma wp_create_session svc request Q (x : X) :
  both_ok x →
  (∀ e x', xdb x' = xdb x → Q (Err e) x') →
  (∀ s x', ss_state s = Connecting → ss_sandbox_id s = sreq_sandbox_id request →
     xdb x !! ss_id s = None → xdb x' = <[ss_id s := session_read s]> (xdb x) →
     (has_sandbox_service svc = true →
        ∃ sb, shown (sx_world x) (sreq_sandbox_id request) = Some sb ∧ sb_state sb = Running) →
     Q (Ok s) x') →
  wp (create_session svc request) Q x.
Proof.
  intros [Hx Hw] Herr Hok. unfold create_session. apply wp_try.
  eapply (wp_mono _ (λ r x', x' = x ∧ (r = Ok () → has_sandbox_service svc = true →
      ∃ sb, shown (sx_world x) (sreq_sandbox_id request) = Some sb ∧ sb_state sb = Running))).
  { destruct (has_sandbox_service svc); [|by apply wp_ret].
    apply wp_bind, wp_in_world, wp_get; [done|]. destruct x as [w h]. simpl.
    change (option_filter (visible shows_deleted) (db w !! sreq_sandbox_id request))
      with (shown w (sreq_sandbox_id request)).
    destruct (shown w (sreq_sandbox_id request)) as [sb|]; [|by apply wp_ret].
    case_bool_decide; apply wp_ret; (split; [done|]); [eauto|done]. }
  intros [[]|e] x' [-> Hrun]; [|by apply Herr].
  apply (wp_bind_clock _ _ x); [done|by apply beside_refl|done|]. intros now x1 Hb1 Hd1.
  apply wp_bind, wp_in_world. unfold wp at 1, run_val, run_st, new_v4. simpl.
  apply wp_try, wp_bind.
  match goal with |- context [pg_create_ssh_session ?n] => set (s := n) end.
  destruct (create_ssh_session_spec s (sx_ssh x1)) as (r & h' & Hc & _ & _ & _ & Hr);
    [by destruct Hb1|].
  eapply wp_in_ssh; [exact Hc|]. apply wp_ret.
  change (ssh_db (sx_ssh x1)) with (xdb x1) in Hr. rewrite Hd1 in Hr.
  destruct r as [[]|e]; simpl; [|by apply Herr]. apply wp_ret.
  destruct Hr as (Hn & _ & Hd). apply Hok; try done. intros Hsvc. by apply Hrun.
Qed.

(** who reaches an SSH session.  A database key opens, reads, lists,
    heartbeats and ends only the sessions of a sandbox it owns (any caller but
    a privileged one when the service has no sandbox service is refused); a
    new session is connecting, under a new id, on a sandbox that is running;
    and a refused or failed request changes no session. *)
Theorem ssh_handlers_guarded svc identity (x : X) :
  both_ok x →
  (∀ req, wp (Handlers.create_ssh_session svc identity req) (λ r x',
     match r with
     | Ok s =>
         may_access svc identity x (sreq_sandbox_id req) = true ∧
         ss_state s = Connecting ∧ ss_sandbox_id s = sreq_sandbox_id req ∧
         xdb x !! ss_id s = None ∧ xdb x' = <[ss_id s := session_read s]> (xdb x) ∧
         (has_sandbox_service svc = true →
            ∃ sb, shown (sx_world x) (sreq_sandbox_id req) = Some sb ∧ sb_state sb = Running)
     | Err _ => xdb x' = xdb x
     end) x) ∧
  (∀ sandbox_id state limit offset,
     wp (Handlers.list_ssh_sessions svc identity sandbox_id state limit offset) (λ r x',
       xdb x' = xdb x ∧
       (∀ l, r = Ok l →
          (is_privileged_key identity = true ∨
           ∃ sid, sandbox_id = Some sid ∧ may_access svc identity x sid = true) ∧
          ∀ s, s ∈ l ↔ xdb x !! ss_id s = Some s ∧
            (∀ u, sandbox_id = Some u → ss_sandbox_id s = u) ∧
            (∀ st, state ≫= Handlers.parse_state_filter = Some st → ss_state s = st))) x) ∧
  (∀ id, wp (Handlers.get_ssh_session svc identity id) (λ r x',
     xdb x' = xdb x ∧
     (∀ s, r = Ok s → xdb x !! id = Some s ∧
                      may_access svc identity x (ss_sandbox_id s) = true)) x) ∧
  (∀ id reason, wp (Handlers.terminate_ssh_session svc identity id reason) (λ r x',
     guarded_change svc identity id x x' r) x) ∧
  (∀ id sent received, wp (Handlers.update_session_activity svc identity id sent received)
     (λ r x', guarded_change svc identity id x x' r) x).
Proof.
  intros Hx. split_and!.
  - intros req. apply wp_try_authorize; [done| |by intros e _]. intros Hmay.
    apply wp_try, wp_ret. destruct (CreateSshSessionRequest_validate req); [|done].
    apply wp_api, wp_create_session; [done|done|]. intros s x' ? ? ? ? ?. done.
  - intros sandbox_id state limit offset. unfold Handlers.list_ssh_sessions. apply wp_try.
    eapply (wp_mono _ (λ r x', x' = x ∧ (r = Ok () → is_privileged_key identity = true ∨
        ∃ sid, sandbox_id = Some sid ∧ may_access svc identity x sid = true))).
    { destruct (is_privileged_key identity); [apply wp_ret; by auto|].
      destruct sandbox_id as [sid|]; [|by apply wp_ret].
      apply wp_authorize; [done|..]; intros; split; eauto; done. }
    intros [[]|e] x' [-> Hauth]; [|split; [done|by intros l]].
    apply wp_bind. destruct (list_ssh_sessions_spec
      (mkSshSessionFilters sandbox_id (state ≫= Handlers.parse_state_filter) limit offset)
      (sx_ssh x) (proj1 Hx)) as (l & Hl & Hin).
    eapply wp_in_ssh; [exact Hl|]. apply wp_ret. split; [done|]. intros l' [= <-]. auto.
  - intros id. apply wp_try_api_session; [by destruct Hx|]. intros x1 Hb1 Hd1.
    destruct (xdb x !! id) as [s|] eqn:Hs; [|by intros e].
    apply wp_try_authorize; [by eapply both_ok_beside| |by intros e _].
    rewrite (may_access_beside _ _ _ _ _ Hb1). intros Hmay. apply wp_ret.
    split; [done|]. by intros s' [= <-].
  - intros id reason. eapply wp_guarded; [done|]. intros x1 Hx1. by apply wp_terminate_session.
  - intros id sent received. eapply wp_guarded; [done|]. intros x1 Hx1.
    by apply wp_update_activity.
Qed.
End guarded.

(** ** Witnesses *)

Module Witnesses.
Import Demo.

#[local] Existing Instance Postgres.Witnesses.pg.
#[local] Existing Instance Postgres.Witnesses.pg_laws.

(** Session 3, connecting since time 0, on the running sandbox 1 of the key 7;
    the database's clock shows ten minutes. *)
Definition waiting : SshSession :=
  new_session 3%N 0 (mkCreateSshSessionRequest 1%N "10.0.0.1" None AuthApiKey None None).

Definition ssh_store : PostgresSshSessionStore :=
  mkSshStore (<[3%N := session_row waiting]> ∅) (<[1%N := "running"]> ∅)
    (λ _, 600 * ns_per_sec) true.

Definition x0 : SshWorld StateStore Backend (list SandboxActivity) PostgresSshSessionStore :=
  mkSshWorld Demo.world ssh_store.

Lemma x0_ok : both_ok x0.
Proof.
  split; [|apply Demo.world_ok]. split; [done|].
  apply map_Forall_insert_2; [by exists waiting|]. apply map_Forall_empty.
Qed.

Lemma session_operations_spec_witness :
  xdb x0 !! 3%N = Some waiting ∧
  wp (terminate_session 3%N "done") (λ r x',
    revised x0 x' 3%N (ended_at Terminated (Some "done")) r) x0.
Proof.
  split; [vm_compute; reflexivity|].
  destruct (session_operations_spec 3%N x0 (proj1 x0_ok)) as (_ & _ & _ & Ht). apply Ht.
Defined.

Lemma ssh_cleanup_pass_spec_witness :
  end_reason 300 30 (600 * ns_per_sec) (600 * ns_per_sec) (<[1%N := "running"]> ∅) waiting
    = Some "Idle timeout" ∧
  wp (ssh_cleanup_pass 300 30) (λ _ x',
    ∀ id s, xdb x' !! id = Some s → is_terminal (ss_state s) = false →
      ssh_sandboxes (sx_ssh x') !! ss_sandbox_id s = Some "running") x0.
Proof.
  split; [vm_compute; reflexivity|].
  exact (proj2 (proj2 (ssh_cleanup_pass_spec 300 30 x0 (proj1 x0_ok)))).
Defined.

(** The key 8 does not own the sandbox 1, the key 7 does. *)
Lemma ssh_handlers_guarded_witness :
  may_access (mkSshSessionService true) (mkIdentity (Some 8%N) Database) x0 1%N = false ∧
  may_access (mkSshSessionService true) (mkIdentity (Some 7%N) Database) x0 1%N = true ∧
  wp (Handlers.terminate_ssh_session (mkSshSessionService true) (mkIdentity (Some 7%N) Database)
        3%N None)
    (λ r x', guarded_change (mkSshSessionService true) (mkIdentity (Some 7%N) Database)
               3%N x0 x' r) x0.
Proof.
  split; [vm_compute; reflexivity|]. split; [vm_compute; reflexivity|].
  destruct (ssh_handlers_guarded (mkSshSessionService true) (mkIdentity (Some 7%N) Database) x0
              x0_ok) as (_ & _ & _ & Ht & _). apply Ht.
Defined.
End Witnesses.
