(* ===== verification/SshStatistics.v ===== *)
(** * SshStatistics: the statistics of SSH sessions

    The aggregating query of the session store ([db/ssh_sessions.rs]), the call
    of the service ([core/ssh_service.rs]) and the handler
    ([api/handlers/ssh.rs]).  The average of PostgreSQL, whose digits depend on
    its version, is a parameter. *)

From S2P Require Import Prelude Text Errors Types Store World Demo Service Float64 Postgres Ssh.

(** [SessionStatistics]. *)
Record SessionStatistics : Type := mkSessionStatistics {
  total_sessions : Z;
  active_sessions : Z;
  connecting_sessions : Z;
  disconnected_sessions : Z;
  terminated_sessions : Z;
  error_sessions : Z;
  total_bytes_sent : Z;
  total_bytes_received : Z;
  avg_duration_seconds : option f64;
}.

(** The method of [SshSessionStoreTrait] that aggregates. *)
Class SshStatisticsStore (H : Type) := {
  st_get_session_statistics : M H (Result SessionStatistics StoreError);
}.

#[export] Instance NoopSshSessionStore_statistics : SshStatisticsStore NoopSshSessionStore := {|
  st_get_session_statistics := noop_error;
|}.

(** [AVG] of whole seconds, as a double; of no seconds it is [NULL]. *)
Class PgAverage := { pg_average : Z → list Z → f64 }.

(** ** The query *)

Section store.
Context `{PgLib} `{PgAverage}.
#[local] Abbreviation St := PostgresSshSessionStore.

(** [SUM(CASE WHEN state = st THEN 1 ELSE 0 END)]. *)
Definition count_state (st : string) (rows : list Row) : Z :=
  Z.of_nat (length (List.filter (text_is "state" [st]) rows)).

(** The values of an integer column that are not [NULL]. *)
Definition ints (c : string) (rows : list Row) : list Z :=
  omap (λ r, match column c r with Some (SqlInt z) => Some z | _ => None end) rows.

Definition sum (l : list Z) : Z := foldr Z.add 0 l.

Definition fits (z : Z) : bool := bool_decide (- 2 ^ 63 ≤ z < 2 ^ 63).

(** [COALESCE(SUM(c), 0)::BIGINT]: the sum is exact, the cast may fail. *)
Definition as_bigint (z : Z) : Result Z StoreError :=
  if fits z then Ok z else Err (StorePostgres (pg_error "bigint out of range")).

Definition average (l : list Z) : option f64 :=
  match l with [] => None | z :: zs => Some (pg_average z zs) end.

Definition statistics_row (rows : list Row) : Result SessionStatistics StoreError :=
  let? bytes_sent := as_bigint (sum (ints "bytes_sent" rows)) in
  let? bytes_received := as_bigint (sum (ints "bytes_received" rows)) in
  Ok (mkSessionStatistics (Z.of_nat (length rows)) (count_state "active" rows)
        (count_state "connecting" rows) (count_state "disconnected" rows)
        (count_state "terminated" rows) (count_state "error" rows)
        bytes_sent bytes_received (average (ints "duration_seconds" rows))).

Definition pg_get_session_statistics : M St (Result SessionStatistics StoreError) :=
  statement (λ _ rows _, (statistics_row (session_table rows), rows)).

#[export] Instance PostgresSshSessionStore_statistics : SshStatisticsStore St := {|
  st_get_session_statistics := pg_get_session_statistics;
|}.
End store.

(** ** The service and the handler *)

Section service.
Context {S B A H : Type} `{!SshStatisticsStore H} `{!UuidLib}.
#[local] Abbreviation X := (SshWorld S B A H).

Definition get_statistics : M X (Result SessionStatistics SshServiceError) :=
  db_call st_get_session_statistics.

Definition get_ssh_session_statistics (identity : ApiKeyIdentity)
    : M X (Result SessionStatistics ApiError) :=
  if negb (is_privileged_key identity) then
    mret (Err (ApiValidation "SSH session statistics require a privileged API key" None
                 AuthorizationInsufficientPermissions))
  else r ← get_statistics; mret (result_map_err ApiError_from_SshServiceError r).
End service.

(** ** The statistics of the sessions *)

Section spec.
Context `{PgLib, !PgLaws} `{PgAverage} `{!UuidLib}.
#[local] Abbreviation St := PostgresSshSessionStore.

Definition in_state (st : SshSessionState) (l : list SshSession) : Z :=
  Z.of_nat (length (List.filter (λ s, bool_decide (ss_state s = st)) l)).

(** What the statistics are to be, of a list of sessions. *)
Definition statistics (l : list SshSession) : SessionStatistics :=
  mkSessionStatistics (Z.of_nat (length l)) (in_state Active l) (in_state Connecting l)
    (in_state Disconnected l) (in_state Terminated l) (in_state SshError l)
    (sum (ss_bytes_sent <$> l)) (sum (ss_bytes_received <$> l))
    (average (omap ss_duration_seconds l)).

Lemma written_rows (rows : list Row) :
  Forall (λ r, ∃ s, r = session_row s) rows → ∃ l, rows = session_row <$> l.
Proof.
  induction 1 as [|r rows [s ->] _ [l ->]]; [by exists []|by exists (s :: l)].
Qed.

Lemma count_written st l :
  count_state (SshSessionState_as_str st) (session_row <$> l) = in_state st (session_read <$> l).
Proof.
  unfold count_state, in_state. f_equal. induction l as [|s l IH]; [done|].
  cbn [fmap list_fmap List.filter].
  assert (text_is "state" [SshSessionState_as_str st] (session_row s) = bool_decide (ss_state s = st)) as ->.
  { eval_columns. by destruct (ss_state s), st. }
  change (ss_state (session_read s)) with (ss_state s).
  case_bool_decide; cbn [length]; auto.
Qed.

Lemma ints_sent l : ints "bytes_sent" (session_row <$> l) = ss_bytes_sent <$> (session_read <$> l).
Proof. induction l as [|s l IH]; [done|]. cbn. by f_equal. Qed.

Lemma ints_received l :
  ints "bytes_received" (session_row <$> l) = ss_bytes_received <$> (session_read <$> l).
Proof. induction l as [|s l IH]; [done|]. cbn. by f_equal. Qed.

Lemma ints_durations l :
  ints "duration_seconds" (session_row <$> l) = omap ss_duration_seconds (session_read <$> l).
Proof.
  induction l as [|s l IH]; [done|]. cbn. destruct (ss_duration_seconds s); cbn; by rewrite <- IH.
Qed.

Lemma statistics_row_spec l :
  let sessions := session_read <$> l in
  statistics_row (session_row <$> l)
  = if fits (sum (ss_bytes_sent <$> sessions)) && fits (sum (ss_bytes_received <$> sessions))
    then Ok (statistics sessions)
    else Err (StorePostgres (pg_error "bigint out of range")).
Proof.
  intros sessions. unfold statistics_row, as_bigint. rewrite ints_sent, ints_received, ints_durations.
  fold sessions.
  destruct (fits (sum (ss_bytes_sent <$> sessions))); [cbn|done].
  destruct (fits (sum (ss_bytes_received <$> sessions))); [cbn|done].
  unfold statistics. do 2 f_equal; [|apply (count_written Active)|apply (count_written Connecting)
    |apply (count_written Disconnected)|apply (count_written Terminated)|apply (count_written SshError)].
  unfold sessions. by rewrite !length_fmap.
Qed.

Lemma states_partition l :
  Z.of_nat (length l) = in_state Active l + in_state Connecting l + in_state Disconnected l
    + in_state Terminated l + in_state SshError l.
Proof.
  unfold in_state. induction l as [|s l IH]; [done|]. cbn [length List.filter].
  destruct (ss_state s).
  all: repeat (first [rewrite bool_decide_eq_true_2 by done|rewrite bool_decide_eq_false_2 by done]).
  all: cbn [length]; lia.
Qed.

Lemma omap_table (rows : gmap Uuid Row) :
  omap read_row (session_table rows) ≡ₚ (map_to_list (omap read_row rows)).*2.
Proof.
  unfold session_table. induction rows as [|i r rows Hi IH] using map_ind.
  { by rewrite omap_empty, !map_to_list_empty. }
  rewrite (map_to_list_insert rows) by done. cbn. destruct (read_row r) as [s|] eqn:E.
  - rewrite (omap_insert_Some _ _ _ _ _ E), map_to_list_insert by (by rewrite lookup_omap, Hi).
    cbn. by f_equiv.
  - rewrite (omap_insert_None _ _ _ _ E), delete_id by (by rewrite lookup_omap, Hi). done.
Qed.

(** The statistics are those of the sessions of the table, each session in one of
    the five states; the query fails when a total of bytes does not fit in 64
    bits.  Only a privileged key is told, and nothing is asked for another. *)
Theorem session_statistics_spec {S B A} (identity : ApiKeyIdentity) (x : SshWorld S B A St) :
  ssh_ok (sx_ssh x) →
  ∃ l, l ≡ₚ (map_to_list (ssh_db (sx_ssh x))).*2 ∧
    let st := statistics l in
    total_sessions st = active_sessions st + connecting_sessions st + disconnected_sessions st
                        + terminated_sessions st + error_sessions st ∧
    if is_privileged_key identity then
      run_st (get_ssh_session_statistics identity) x
        = mkSshWorld (sx_world x) (after (ssh_rows (sx_ssh x)) (sx_ssh x)) ∧
      (run_val (get_ssh_session_statistics identity) x = Ok st ↔
       fits (total_bytes_sent st) && fits (total_bytes_received st) = true) ∧
      (fits (total_bytes_sent st) && fits (total_bytes_received st) = false →
       is_ok (run_val (get_ssh_session_statistics identity) x) = false)
    else
      get_ssh_session_statistics identity x
      = (Err (ApiValidation "SSH session statistics require a privileged API key" None
                AuthorizationInsufficientPermissions), x).
Proof.
  intros [Hc Hrows].
  destruct (written_rows (session_table (ssh_rows (sx_ssh x)))) as [l Hl].
  { apply Forall_fmap, Forall_forall. intros [id r] Hr%elem_of_map_to_list. cbn.
    destruct (Hrows id r Hr) as (s & _ & ->). by exists s. }
  exists (session_read <$> l). split.
  { unfold ssh_db. rewrite <- omap_table, Hl. clear. induction l as [|s l IH]; [done|].
    cbn. rewrite read_row_ok. by f_equiv. }
  cbn zeta. split; [apply states_partition|]. unfold get_ssh_session_statistics.
  destruct (is_privileged_key identity); cbn [negb]; [|done].
  pose proof (statistics_row_spec l) as Hrow. cbn zeta in Hrow. rewrite <- Hl in Hrow.
  assert (pg_get_session_statistics (sx_ssh x)
          = (statistics_row (session_table (ssh_rows (sx_ssh x))), after (ssh_rows (sx_ssh x)) (sx_ssh x)))
    as Hq by (unfold pg_get_session_statistics, statement, after; by rewrite Hc).
  rewrite Hrow in Hq.
  unfold run_st, run_val, get_statistics, db_call. rewrite !M_bind_unfold. unfold in_ssh.
  cbn [st_get_session_statistics PostgresSshSessionStore_statistics]. rewrite Hq.
  change (total_bytes_sent (statistics ?l)) with (sum (ss_bytes_sent <$> l)).
  change (total_bytes_received (statistics ?l)) with (sum (ss_bytes_received <$> l)).
  destruct (fits (sum (ss_bytes_sent <$> (session_read <$> l))) && _); cbn.
  - split; [done|]. split; [done|]. intros Hf. discriminate Hf.
  - split; [done|]. split; [done|]. done.
Qed.
End spec.

Module Witnesses.
Import Demo.

#[local] Existing Instance Postgres.Witnesses.pg.
#[local] Existing Instance Postgres.Witnesses.pg_laws.
#[local] Instance average_of_first : PgAverage := {| pg_average := λ z _, f64_of_Z z |}.

(** One session, which is connecting, has no duration. *)
Lemma session_statistics_spec_witness :
  ssh_ok (sx_ssh Ssh.Witnesses.x0) ∧
  run_val (get_ssh_session_statistics (mkIdentity None Privileged)) Ssh.Witnesses.x0
  = Ok (mkSessionStatistics 1 0 1 0 0 0 0 0 None) ∧
  ∃ l, l ≡ₚ (map_to_list (ssh_db (sx_ssh Ssh.Witnesses.x0))).*2 ∧
    total_sessions (statistics l) = 1.
Proof.
  assert (ssh_ok (sx_ssh Ssh.Witnesses.x0)) as Hok by apply Ssh.Witnesses.x0_ok.
  split; [exact Hok|]. split; [vm_compute; reflexivity|].
  destruct (session_statistics_spec (mkIdentity None Privileged) Ssh.Witnesses.x0 Hok) as (l & Hl & _).
  exists l. split; [exact Hl|]. unfold statistics. cbn [total_sessions]. rewrite Hl. vm_compute. reflexivity.
Defined.
End Witnesses.
