(* ===== verification/Auth.v ===== *)
(** * Auth: who calls, and the tokens that speak for a caller

    The API-key table ([db/api_key_store.rs]), the authentication middleware
    and the login handler over it ([api/auth.rs]), and the session tokens that
    a caller makes for a sandbox ([session_token.rs],
    [db/session_token_store.rs], [api/session_tokens.rs]).

    A function that can panic returns an [option] around its result: [None] is
    the panic. *)

From Stdlib Require Import Ascii.
From S2P Require Import Prelude Text Errors Types Store World Demo Service Postgres.

(** ** External code *)

(** bcrypt: hashing draws a salt. *)
Class BcryptLib := {
  bcrypt_hash : nat → string → Result string string;
  bcrypt_verify : string → string → Result bool string;
}.

Class BcryptLaws `{BcryptLib} : Prop := {
  bcrypt_verify_hash salt key hash :
    bcrypt_hash salt key = Ok hash → bcrypt_verify key hash = Ok true;
}.

(** chrono: adding a span of days or seconds to a time; [None] is the panic of
    a span or a time out of range. *)
Class ChronoAdd := {
  add_days : DateTime → Z → option DateTime;
  add_seconds : DateTime → Z → option DateTime;
}.

Class ChronoAddLaws `{ChronoAdd} : Prop := {
  add_days_spec t d t' : add_days t d = Some t' → t' = t + d * 86400 * ns_per_sec;
  add_seconds_spec t s t' : add_seconds t s = Some t' → t' = t + s * ns_per_sec;
}.

(** The JSON of an identity, in the session cookie. *)
Class IdentityCodec := {
  identity_to_string : ApiKeyIdentity → string;
  identity_from_str : string → option ApiKeyIdentity;
}.

Class IdentityCodecLaws `{IdentityCodec} : Prop := {
  identity_round i : identity_from_str (identity_to_string i) = Some i;
}.

(** ** The table of API keys *)

Record ApiKey : Type := mkApiKey {
  ak_id : Uuid;
  ak_key_hash : string;
  ak_key_prefix : string;
  ak_name : string;
  ak_description : option string;
  ak_scopes : list string;
  ak_is_active : bool;
  ak_created_at : DateTime;
  ak_expires_at : option DateTime;
  ak_last_used_at : option DateTime;
  ak_created_by : option string;
}.

Record CreateApiKeyRequest : Type := mkCreateApiKeyRequest {
  ckr_name : string;
  ckr_description : option string;
  ckr_scopes : option (list string);
  ckr_expires_in_days : option Z;
  ckr_created_by : option string;
}.

(** The key itself, shown once, and its record. *)
Record ApiKeyResponse : Type := mkApiKeyResponse {
  akr_api_key : string;
  akr_key : ApiKey;
}.

(** The rows, in the order the database returns them; whether the pool
    connects; and what the clocks, the random generator and
    [uuid_generate_v4()] will give. *)
Record PostgresApiKeyStore : Type := mkApiKeyStore {
  ak_rows : list ApiKey;
  ak_connects : bool;
  ak_utc : nat → DateTime;
  ak_db_now : DateTime;
  ak_random : nat → string;
  ak_salt : nat → nat;
  ak_fresh : nat → Uuid;
}.

Definition set_ak_rows (rows : list ApiKey) (k : PostgresApiKeyStore) : PostgresApiKeyStore :=
  mkApiKeyStore rows (ak_connects k) (ak_utc k) (ak_db_now k) (ak_random k) (ak_salt k) (ak_fresh k).

Section keys.
Context `{BcryptLib, ChronoAdd} `{PgLib} `{!UuidLib}.
#[local] Abbreviation K := PostgresApiKeyStore.

Definition ak_utc_now : M K DateTime := λ k,
  (ak_utc k 0%nat,
   mkApiKeyStore (ak_rows k) (ak_connects k) (λ n, ak_utc k (1 + n)%nat) (ak_db_now k)
     (ak_random k) (ak_salt k) (ak_fresh k)).

(** The 32 characters drawn from the character set, after the prefix. *)
Definition generate_api_key : M K string := λ k,
  ("dsb_pk_" +:+ ak_random k 0%nat,
   mkApiKeyStore (ak_rows k) (ak_connects k) (ak_utc k) (ak_db_now k)
     (λ n, ak_random k (1 + n)%nat) (ak_salt k) (ak_fresh k)).

Definition hash_api_key (key : string) : M K (Result string string) := λ k,
  (bcrypt_hash (ak_salt k 0%nat) key,
   mkApiKeyStore (ak_rows k) (ak_connects k) (ak_utc k) (ak_db_now k)
     (ak_random k) (λ n, ak_salt k (1 + n)%nat) (ak_fresh k)).

(** [&key[..8.min(key.len())]] counts bytes, and panics inside a character. *)
Definition is_continuation (c : ascii) : bool :=
  let n := Z.of_nat (nat_of_ascii c) in (128 <=? n) && (n <? 192).

Definition key_prefix (key : string) : option string :=
  match String.get 8 key with
  | Some c => if is_continuation c then None else Some (String.substring 0 8 key)
  | None => Some key
  end.

Definition set_last_used (t : DateTime) (row : ApiKey) : ApiKey :=
  mkApiKey (ak_id row) (ak_key_hash row) (ak_key_prefix row) (ak_name row) (ak_description row)
    (ak_scopes row) (ak_is_active row) (ak_created_at row) (ak_expires_at row) (Some t)
    (ak_created_by row).

(** [UPDATE api_keys SET .. WHERE id = $]. *)
Definition update_key (id : Uuid) (f : ApiKey → ApiKey) (rows : list ApiKey) : list ApiKey :=
  List.map (λ row, if N.eqb (ak_id row) id then f row else row) rows.

(** The loop over the rows of the query. *)
Fixpoint check_rows (key : string) (rows : list ApiKey) : M K (Result (option Uuid) string) :=
  match rows with
  | [] => mret (Ok None)
  | row :: rows =>
      expired ←
        match ak_expires_at row with
        | Some expiry => now ← ak_utc_now; mret (bool_decide (expiry < now))
        | None => mret false
        end;
      if (expired : bool) then check_rows key rows
      else
        match bcrypt_verify key (ak_key_hash row) with
        | Err e => mret (Err e)
        | Ok true => λ k,
            (Ok (Some (ak_id row)),
             set_ak_rows (update_key (ak_id row) (set_last_used (ak_db_now k)) (ak_rows k)) k)
        | Ok false => check_rows key rows
        end
  end.

Definition validate_api_key (key : string) : M K (option (Result (option Uuid) string)) := λ k,
  if negb (ak_connects k) then (Some (Err pool_error), k)
  else
    match key_prefix key with
    | None => (None, k)
    | Some prefix =>
        let found := List.filter (λ row, String.eqb (ak_key_prefix row) prefix && ak_is_active row)
                       (ak_rows k) in
        let '(r, k') := check_rows key found k in (Some r, k')
    end.

(** A fresh key and its hash. *)
Definition fresh_key : M K (Result (string * string) string) :=
  api_key ← generate_api_key;
  let* key_hash := hash_api_key api_key in
  mret (Ok (api_key, key_hash)).

(** The constraints of the table: unique hashes and ids, unique names of active
    keys, an expiry after the creation. *)
Definition insertable (row : ApiKey) (rows : list ApiKey) : bool :=
  forallb (λ r, negb (String.eqb (ak_key_hash r) (ak_key_hash row)) && negb (N.eqb (ak_id r) (ak_id row))
                && negb (ak_is_active r && ak_is_active row && String.eqb (ak_name r) (ak_name row)))
    rows
  && match ak_expires_at row with
     | Some e => bool_decide (ak_created_at row < e)
     | None => true
     end.

(** The row keeps the expiry in the database's precision. *)
Definition stored_key (key : ApiKey) : ApiKey :=
  mkApiKey (ak_id key) (ak_key_hash key) (ak_key_prefix key) (ak_name key) (ak_description key)
    (ak_scopes key) (ak_is_active key) (ak_created_at key) (pg_timestamp <$> ak_expires_at key)
    (ak_last_used_at key) (ak_created_by key).

Definition insert_key (row : ApiKey) : M K (Result () string) := λ k,
  if negb (ak_connects k) then (Err pool_error, k)
  else if insertable row (ak_rows k) then
    (Ok (), mkApiKeyStore (ak_rows k ++ [row]) (ak_connects k) (ak_utc k) (ak_db_now k)
              (ak_random k) (ak_salt k) (λ n, ak_fresh k (1 + n)%nat))
  else (Err (pg_error "constraint"), k).

(** The record of a new key, inserted. *)
Definition store_key (req : CreateApiKeyRequest) (api_key key_hash : string)
    (expires_at : option DateTime) : M K (option (Result ApiKeyResponse string)) := λ k,
  let key :=
    {| ak_id := ak_fresh k 0%nat; ak_key_hash := key_hash;
       ak_key_prefix := String.substring 0 8 api_key; ak_name := ckr_name req;
       ak_description := ckr_description req;
       ak_scopes := default [] (ckr_scopes req); ak_is_active := true;
       ak_created_at := ak_db_now k; ak_expires_at := expires_at;
       ak_last_used_at := None; ak_created_by := ckr_created_by req |} in
  let '(r, k') := insert_key (stored_key key) k in
  (Some (match r with Ok _ => Ok (mkApiKeyResponse api_key key) | Err e => Err e end), k').

Definition create_api_key (req : CreateApiKeyRequest)
    : M K (option (Result ApiKeyResponse string)) :=
  r ← fresh_key;
  match r with
  | Err e => mret (Some (Err e))
  | Ok (api_key, key_hash) =>
      expires_at ←
        match ckr_expires_in_days req with
        | Some days => now ← ak_utc_now; mret (Some <$> add_days now days)
        | None => mret (Some None)
        end;
      match expires_at with
      | None => mret None
      | Some expires_at => store_key req api_key key_hash expires_at
      end
  end.

(** The hash is not read. *)
Definition redacted_key (row : ApiKey) : ApiKey :=
  mkApiKey (ak_id row) "[REDACTED]" (ak_key_prefix row) (ak_name row) (ak_description row)
    (ak_scopes row) (ak_is_active row) (ak_created_at row) (ak_expires_at row)
    (ak_last_used_at row) (ak_created_by row).

Definition newer_key (a b : ApiKey) : Prop := ak_created_at b ≤ ak_created_at a.

#[export] Instance newer_key_dec : RelDecision newer_key.
Proof. intros a b. unfold newer_key. apply _. Defined.

Definition list_api_keys : M K (Result (list ApiKey) string) := λ k,
  (if negb (ak_connects k) then Err pool_error
   else Ok (redacted_key <$> merge_sort newer_key (ak_rows k)), k).

Definition get_api_key (id : Uuid) : M K (Result (option ApiKey) string) := λ k,
  (if negb (ak_connects k) then Err pool_error
   else Ok (redacted_key <$> List.find (λ row, N.eqb (ak_id row) id) (ak_rows k)), k).

Definition delete_api_key (id : Uuid) : M K (Result bool string) := λ k,
  if negb (ak_connects k) then (Err pool_error, k)
  else
    (Ok (existsb (λ row, N.eqb (ak_id row) id) (ak_rows k)),
     set_ak_rows (List.filter (λ row, negb (N.eqb (ak_id row) id)) (ak_rows k)) k).

Definition set_key_hash (key_hash prefix : string) (row : ApiKey) : ApiKey :=
  mkApiKey (ak_id row) key_hash prefix (ak_name row) (ak_description row)
    (ak_scopes row) (ak_is_active row) (ak_created_at row) (ak_expires_at row)
    (ak_last_used_at row) (ak_created_by row).

Definition clear_last_used (row : ApiKey) : ApiKey :=
  mkApiKey (ak_id row) (ak_key_hash row) (ak_key_prefix row) (ak_name row) (ak_description row)
    (ak_scopes row) (ak_is_active row) (ak_created_at row) (ak_expires_at row) None
    (ak_created_by row).

(** The answer says "never used", the row keeps its last use. *)
Definition rotate_api_key (id : Uuid) : M K (Result ApiKeyResponse string) :=
  let* fresh := fresh_key in
  λ k,
    let '(api_key, key_hash) := fresh in
    if negb (ak_connects k) then (Err pool_error, k)
    else
      match List.find (λ row, N.eqb (ak_id row) id) (ak_rows k) with
      | None => (Err ("API key not found: " +:+ uuid_to_string id), k)
      | Some row =>
          let prefix := String.substring 0 8 api_key in
          if existsb (λ r, String.eqb (ak_key_hash r) key_hash) (ak_rows k) then (Err (pg_error "constraint"), k)
          else
            (Ok (mkApiKeyResponse api_key (clear_last_used (set_key_hash key_hash prefix row))),
             set_ak_rows (update_key id (set_key_hash key_hash prefix) (ak_rows k)) k)
      end.
End keys.

(** ** The middleware *)

(** [dyn ApiKeyStore], as the middleware and the login use it. *)
Class ApiKeyStore (K : Type) := {
  validate_key : string → M K (option (Result (option Uuid) string));
}.

#[export] Instance PostgresApiKeyStore_trait `{BcryptLib, PgLib} :
    ApiKeyStore PostgresApiKeyStore := {|
  validate_key := validate_api_key;
|}.

(** The settings; the store, if there is one, is the state. *)
Record AuthState : Type := mkAuthState {
  config_api_key : option string;
  admin_api_key : option string;
  require_auth : bool;
  static_server_require_auth : bool;
  has_api_key_store : bool;
}.

(** What the middleware looks at: the session cookie as the private jar
    decrypts it; a header that is not text is [Some None]. *)
Record AuthRequest : Type := mkAuthRequest {
  rq_path : string;
  rq_query : option string;
  rq_session : option string;
  rq_upgrade : option (option string);
  rq_api_key : option (option string);
}.

(** The inner handler runs, perhaps with an identity; or an answer. *)
Inductive AuthOutcome : Type :=
  | Next (identity : option ApiKeyIdentity)
  | VncNotice
  | Unauthorized.

Definition privileged : ApiKeyIdentity := mkIdentity None Privileged.

Definition is_exempt (path : string) : bool :=
  String.eqb path "/health" || starts_with "/ssh/authorize/" path
  || String.eqb path "/api/auth/login" || starts_with "/dashboard/" path.

Definition is_websocket (req : AuthRequest) : bool :=
  match rq_upgrade req with
  | Some (Some v) => String.eqb (to_ascii_lowercase v) "websocket"
  | _ => false
  end.

(** [q.split('&').find_map(..)] *)
Fixpoint query_key (pairs : list string) : option string :=
  match pairs with
  | [] => None
  | p :: pairs =>
      match split_on "="%char p with
      | name :: v :: _ => if String.eqb name "api_key" then Some v else query_key pairs
      | _ => query_key pairs
      end
  end.

Definition provided_key (req : AuthRequest) : option string :=
  match rq_api_key req with
  | Some (Some key) => Some key
  | _ => rq_query req ≫= λ q, query_key (split_on "&"%char q)
  end.

Definition is_key (configured : option string) (key : string) : bool :=
  match configured with Some k => String.eqb key k | None => false end.

Section middleware.
Context {K : Type} `{!ApiKeyStore K} `{!IdentityCodec}.

(** The database's answer; an error is no match. *)
Definition database_identity (st : AuthState) (key : string)
    : M K (option (option ApiKeyIdentity)) :=
  if has_api_key_store st then
    r ← validate_key key;
    mret (match r return option (option ApiKeyIdentity) with
          | None => None
          | Some (Ok (Some id)) => Some (Some (mkIdentity (Some id) Database))
          | Some _ => Some None
          end)
  else mret (Some None).

(** Admin key, then the database, then the configured key. *)
Definition authenticate_key (st : AuthState) (key : string)
    : M K (option (option ApiKeyIdentity)) :=
  if is_key (admin_api_key st) key then mret (Some (Some privileged))
  else
    found ← database_identity st key;
    mret (match found with
          | Some None =>
              Some (if is_key (config_api_key st) key then Some privileged else None)
          | _ => found
          end).

Definition session_identity (req : AuthRequest) : option ApiKeyIdentity :=
  rq_session req ≫= identity_from_str.

(** Without an identity. *)
Definition unauthenticated (st : AuthState) (path : string) : AuthOutcome :=
  if negb (require_auth st) then Next (Some privileged)
  else if starts_with "/vnc/" path then Next None
  else if starts_with "/static/" path && negb (static_server_require_auth st) then Next None
  else Unauthorized.

Definition api_key_auth (st : AuthState) (req : AuthRequest) : M K (option AuthOutcome) :=
  let path := rq_path req in
  if is_exempt path then mret (Some (Next None))
  else if starts_with "/vnc/" path && negb (is_websocket req) then mret (Some VncNotice)
  else
    match session_identity req with
    | Some i => mret (Some (Next (Some i)))
    | None =>
        match rq_api_key req with
        | Some None => mret (Some Unauthorized)
        | _ =>
            r ← match provided_key req with
                | Some key => authenticate_key st key
                | None => mret (Some None)
                end;
            mret (match r with
                  | None => None
                  | Some (Some i) => Some (Next (Some i))
                  | Some None => Some (unauthenticated st path)
                  end)
        end
    end.

(** ** Login, and who am I

    The cookie is built from the identity; an error of the store ends the login
    with a server error. *)

Inductive LoginOutcome : Type :=
  | LoggedIn (cookie : string) (identity : ApiKeyIdentity)
  | LoginServerError
  | LoginUnauthorized.

Definition login (st : AuthState) (key : string) : M K (option LoginOutcome) :=
  let logged_in i := LoggedIn (identity_to_string i) i in
  let last := if is_key (config_api_key st) key then logged_in privileged else LoginUnauthorized in
  if is_key (admin_api_key st) key then mret (Some (logged_in privileged))
  else if has_api_key_store st then
    r ← validate_key key;
    mret (match r with
          | None => None
          | Some (Ok (Some id)) => Some (logged_in (mkIdentity (Some id) Database))
          | Some (Ok None) => Some last
          | Some (Err _) => Some LoginServerError
          end)
  else mret (Some last).

Definition me (req : AuthRequest) : option ApiKeyIdentity := session_identity req.

Definition is_api_key_valid (provided expected : option string) : bool :=
  match expected, provided with
  | None, _ => true
  | Some e, Some p => String.eqb p e
  | Some _, None => false
  end.
End middleware.

(** ** Session tokens *)

Record SessionToken : Type := mkSessionToken {
  tok_token : string;
  tok_sandbox_id : string;
  tok_service : string;
  tok_created_at : DateTime;
  tok_expires_at : DateTime;
}.

Definition is_expired (now : DateTime) (t : SessionToken) : bool :=
  bool_decide (tok_expires_at t < now).

Definition token_validate (now : DateTime) (sandbox_id service : string) (t : SessionToken) : bool :=
  negb (is_expired now t) && String.eqb (tok_sandbox_id t) sandbox_id
  && String.eqb (tok_service t) service.

(** The table by token; [tok_now] is [NOW()] and [tok_zone] how far east of
    UTC the time zone of the database session is. *)
Record PostgresSessionTokenStore : Type := mkTokenStore {
  tok_rows : gmap string SessionToken;
  tok_connects : bool;
  tok_now : DateTime;
  tok_zone : Z;
}.

Definition set_tok_rows (m : gmap string SessionToken) (s : PostgresSessionTokenStore)
    : PostgresSessionTokenStore :=
  mkTokenStore m (tok_connects s) (tok_now s) (tok_zone s).

Section tokens.
Context {S B A : Type}.
Context `{!StateStoreTrait S} `{!SandboxManager B} `{!ActivityStoreTrait A}.
Context `{PgLib} `{!UuidLib} `{!ChronoAdd}.
#[local] Abbreviation T := PostgresSessionTokenStore.

(** The service's world, beside the tokens. *)
Record TokenWorld : Type := mkTokenWorld {
  tw_world : World S B A;
  tw_tokens : T;
}.

Definition tw_service {X} (m : M (World S B A) X) : M TokenWorld X := λ x,
  let '(r, w) := m (tw_world x) in (r, mkTokenWorld w (tw_tokens x)).
Definition tw_store {X} (m : M T X) : M TokenWorld X := λ x,
  let '(r, t) := m (tw_tokens x) in (r, mkTokenWorld (tw_world x) t).

(** Unique tokens that expire after their creation. *)
Definition create_token_row (t : SessionToken) : M T (Result () string) := λ s,
  if negb (tok_connects s) then (Err pool_error, s)
  else
    let row := mkSessionToken (tok_token t) (tok_sandbox_id t) (tok_service t)
                 (pg_timestamp (tok_created_at t)) (pg_timestamp (tok_expires_at t)) in
    match tok_rows s !! tok_token t with
    | Some _ => (Err (pg_error "duplicate key"), s)
    | None =>
        if bool_decide (tok_created_at row < tok_expires_at row) then
          (Ok (), set_tok_rows (<[tok_token t := row]> (tok_rows s)) s)
        else (Err (pg_error "check"), s)
    end.

Definition get_session_token (token : string) : M T (Result (option SessionToken) string) := λ s,
  if negb (tok_connects s) then (Err pool_error, s) else (Ok (tok_rows s !! token), s).

(** [expires_at < (NOW() AT TIME ZONE 'UTC')]: the right-hand side has no time
    zone; compared with a [TIMESTAMPTZ] it is taken in that of the session. *)
Definition delete_expired_tokens : M T (Result Z string) := λ s,
  if negb (tok_connects s) then (Err pool_error, s)
  else
    let limit := tok_now s - tok_zone s in
    let kept := filter (λ p, ¬ (tok_expires_at p.2 < limit)) (tok_rows s) in
    (Ok (Z.of_nat (size (tok_rows s)) - Z.of_nat (size kept)), set_tok_rows kept s).

(** [SessionToken::new]; [None] is the panic of a span out of range. *)
Definition SessionToken_new (sandbox_id service : string) (ttl_secs : Z)
    : M (World S B A) (option SessionToken) :=
  token ← new_v4;
  now ← utc_now;
  mret ((λ e, mkSessionToken (uuid_to_string token) sandbox_id service now e)
          <$> add_seconds now ttl_secs).

Definition authorize_session_token_creation (identity : ApiKeyIdentity) (sandbox_id : string)
    : M TokenWorld (Result Uuid ApiError) :=
  match uuid_parse_str sandbox_id with
  | None =>
      mret (Err (ApiValidation "sandbox_id must be a valid UUID" (Some "sandbox_id")
                   ValidationInvalidRequest))
  | Some id =>
      let* _ := tw_service (check_sandbox_ownership identity id) in
      mret (Ok id)
  end.

(** The answer: the token and when it expires. The [u64] lifetime is cast to
    [i64]. *)
Definition create_session_token (identity : ApiKeyIdentity) (sandbox_id service : string)
    (ttl_secs : Z) : M TokenWorld (option (Result (string * DateTime) ApiError)) :=
  r ← authorize_session_token_creation identity sandbox_id;
  match r with
  | Err e => mret (Some (Err e))
  | Ok id =>
      o ← tw_service (SessionToken_new (uuid_to_string id) service (i64_wrap ttl_secs));
      match o with
      | None => mret None
      | Some t =>
          r ← tw_store (create_token_row t);
          mret (Some (match r with
                      | Ok _ => Ok (tok_token t, tok_expires_at t)
                      | Err _ => Err (ApiDatabase "Failed to create session token" DatabaseQueryFailed)
                      end))
      end
  end.

(** Whether a token is valid, and if so for what; [Err] is status 500. *)
Definition validate_session_token (token : string)
    : M TokenWorld (Result (bool * option string * option string) ()) :=
  r ← tw_store (get_session_token token);
  match r with
  | Err _ => mret (Err ())
  | Ok None => mret (Ok (false, None, None))
  | Ok (Some t) =>
      now ← tw_service utc_now;
      let valid := token_validate now (tok_sandbox_id t) (tok_service t) t in
      mret (Ok (valid, if valid then Some (tok_sandbox_id t) else None,
                if valid then Some (tok_service t) else None))
  end.
End tokens.
Arguments TokenWorld : clear implicits.
Arguments mkTokenWorld {S B A} _ _.

(** ** Theorems: the middleware *)

Section middleware_facts.
Context {K : Type} `{!ApiKeyStore K} `{!IdentityCodec}.

Lemma is_key_true configured key : is_key configured key = true ↔ configured = Some key.
Proof.
  unfold is_key. destruct configured as [k|]; [|done]. rewrite String.eqb_eq. naive_solver.
Qed.

(** What a key proves. *)
Definition key_proves (st : AuthState) (k : K) (key : string) (i : ApiKeyIdentity) : Prop :=
  i = privileged ∧ (admin_api_key st = Some key ∨ config_api_key st = Some key) ∨
  ∃ id, i = mkIdentity (Some id) Database ∧ has_api_key_store st = true ∧
        run_val (validate_key key) k = Some (Ok (Some id)).

(** [authenticate_key], case by case. *)
Lemma run_authenticate_key st key k :
  run_val (authenticate_key st key) k =
    if is_key (admin_api_key st) key then Some (Some privileged)
    else
      let last := Some (if is_key (config_api_key st) key then Some privileged else None) in
      if has_api_key_store st then
        match run_val (validate_key key) k with
        | None => None
        | Some (Ok (Some id)) => Some (Some (mkIdentity (Some id) Database))
        | Some _ => last
        end
      else last.
Proof.
  unfold authenticate_key, database_identity. destruct (is_key (admin_api_key st) key); [done|].
  unfold run_val. rewrite M_bind_unfold. destruct (has_api_key_store st); [|done].
  rewrite M_bind_unfold. simpl. by destruct (validate_key key k).1 as [[[id|]|e]|].
Qed.

Lemma authenticate_key_proves st key k i :
  run_val (authenticate_key st key) k = Some (Some i) → key_proves st k key i.
Proof.
  rewrite run_authenticate_key. unfold key_proves. intros Hi.
  destruct (is_key (admin_api_key st) key) eqn:Ea; [apply is_key_true in Ea; naive_solver|].
  destruct (is_key (config_api_key st) key) eqn:Ec; [apply is_key_true in Ec|];
    repeat case_match; naive_solver.
Qed.

Lemma authenticate_key_panics st key k :
  run_val (authenticate_key st key) k = None → run_val (validate_key key) k = None.
Proof. rewrite run_authenticate_key. intros Hi. repeat case_match; naive_solver. Qed.

(** Whether an unauthenticated request may pass. *)
Definition open_path (st : AuthState) (req : AuthRequest) : Prop :=
  is_exempt (rq_path req) = true ∨
  require_auth st = true ∧
    (starts_with "/vnc/" (rq_path req) = true ∧ is_websocket req = true ∨
     starts_with "/static/" (rq_path req) = true ∧ static_server_require_auth st = false).

#[export] Instance open_path_dec st req : Decision (open_path st req).
Proof. unfold open_path. apply _. Defined.

Lemma unauthenticated_spec st req :
  starts_with "/vnc/" (rq_path req) && negb (is_websocket req) = false →
  match unauthenticated st (rq_path req) with
  | Next (Some i) => require_auth st = false
  | Next None => open_path st req
  | VncNotice => False
  | Unauthorized => True
  end.
Proof.
  intros Hv. unfold unauthenticated, open_path. destruct (require_auth st); simpl; [|done].
  destruct (starts_with "/vnc/" (rq_path req)); simpl in *.
  { right. split; [done|]. left. by destruct (is_websocket req). }
  destruct (starts_with "/static/" (rq_path req)); simpl; [|done].
  destruct (static_server_require_auth st); simpl; [done|]. auto.
Qed.

(** The last part of the middleware. *)
Definition key_stage (st : AuthState) (req : AuthRequest) (k : K) : option AuthOutcome :=
  match provided_key req with
  | Some key =>
      match run_val (authenticate_key st key) k with
      | None => None
      | Some (Some i) => Some (Next (Some i))
      | Some None => Some (unauthenticated st (rq_path req))
      end
  | None => Some (unauthenticated st (rq_path req))
  end.

Lemma run_api_key_auth st req k :
  run_val (api_key_auth st req) k =
    if is_exempt (rq_path req) then Some (Next None)
    else if starts_with "/vnc/" (rq_path req) && negb (is_websocket req) then Some VncNotice
    else match session_identity req, rq_api_key req with
         | Some i, _ => Some (Next (Some i))
         | None, Some None => Some Unauthorized
         | None, _ => key_stage st req k
         end.
Proof.
  unfold api_key_auth, key_stage. destruct (is_exempt _); [done|]. destruct (_ && _); [done|].
  destruct (session_identity req); [done|].
  destruct (rq_api_key req) as [[h|]|]; [|done|]; unfold run_val; rewrite M_bind_unfold;
    by destruct (provided_key req).
Qed.

Lemma vnc_not_static path : starts_with "/vnc/" path = true → starts_with "/static/" path = false.
Proof. rewrite starts_with_spec. by intros [r ->]. Qed.

(** A request that carries nothing. *)
Lemma run_api_key_auth_bare st req k :
  require_auth st = true → rq_session req = None → rq_api_key req = None → rq_query req = None →
  run_val (api_key_auth st req) k =
    if bool_decide (open_path st req) then Some (Next None)
    else if starts_with "/vnc/" (rq_path req) then Some VncNotice else Some Unauthorized.
Proof.
  intros Ha Hs Hk Hq. rewrite run_api_key_auth.
  unfold session_identity, key_stage, provided_key, unauthenticated. rewrite Hs, Hk, Hq, Ha. simpl.
  case_bool_decide as Ho; unfold open_path in Ho;
    destruct (is_exempt (rq_path req)); try done; [|by destruct Ho; left|];
    destruct (starts_with "/vnc/" (rq_path req)) eqn:Hv, (is_websocket req); simpl; try done;
    try rewrite (vnc_not_static _ Hv) in Ho;
    destruct (starts_with "/static/" (rq_path req)), (static_server_require_auth st); simpl;
    try done; first [by destruct Ho as [|(_ & [[? ?]|[? ?]])] | by destruct Ho; auto 10].
Qed.

(** What the last part proves of its answer. *)
Lemma key_stage_guards st req k :
  starts_with "/vnc/" (rq_path req) && negb (is_websocket req) = false →
  match key_stage st req k with
  | Some (Next (Some i)) => require_auth st = true →
      ∃ key, provided_key req = Some key ∧ key_proves st k key i
  | Some (Next None) => open_path st req
  | Some VncNotice => False
  | Some Unauthorized => True
  | None => ∃ key, provided_key req = Some key ∧ run_val (validate_key key) k = None
  end.
Proof.
  intros Hv. assert (Hun := unauthenticated_spec st req Hv). unfold key_stage.
  destruct (provided_key req) as [key|].
  - destruct (run_val (authenticate_key st key) k) as [[i|]|] eqn:Ha.
    + intros _. exists key. split; [done|]. by apply authenticate_key_proves.
    + destruct (unauthenticated st (rq_path req)) as [[i|]| |]; try done. congruence.
    + exists key. split; [done|]. by apply (authenticate_key_panics st).
  - destruct (unauthenticated st (rq_path req)) as [[i|]| |]; try done. congruence.
Qed.

(** C20: the middleware guards the interface.  When authentication is required, an
    identity comes from the session cookie or from a key that the request
    carries: a privileged one from the admin or the configured key only, a
    database one from the store's answer for that key.  Without an identity
    only the exempt paths, a VNC WebSocket, and static files where the
    settings open them get through; a panic can only come from the store. *)
Theorem api_key_auth_guards st req (k : K) :
  match run_val (api_key_auth st req) k with
  | Some (Next (Some i)) =>
      require_auth st = true →
      session_identity req = Some i ∨
      ∃ key, provided_key req = Some key ∧ key_proves st k key i
  | Some (Next None) => open_path st req
  | Some VncNotice => starts_with "/vnc/" (rq_path req) = true ∧ is_websocket req = false
  | Some Unauthorized => session_identity req = None
  | None => ∃ key, provided_key req = Some key ∧ run_val (validate_key key) k = None
  end.
Proof.
  rewrite run_api_key_auth. destruct (is_exempt (rq_path req)) eqn:Hex; [by left|].
  destruct (starts_with "/vnc/" (rq_path req) && negb (is_websocket req)) eqn:Hv.
  { apply andb_true_iff in Hv as [Hp Hw]. by apply negb_true_iff in Hw. }
  assert (Hstage := key_stage_guards st req k Hv).
  destruct (session_identity req) as [i|]; [by left|].
  destruct (rq_api_key req) as [[h|]|]; [|done|];
    destruct (key_stage st req k) as [[[i|]| |]|]; naive_solver.
Qed.

(** login and middleware agree on a key, except when the store fails.  A
    login succeeds with an identity exactly when the middleware takes the key
    for it, and its cookie speaks for that identity from then on; but an error
    of the store, which the middleware takes for "no match" before it tries
    the configured key, ends the login with a server error, even for the
    configured key. *)
Theorem login_agrees `{!IdentityCodecLaws} st key (k : K) :
  let taken := run_val (authenticate_key st key) k in
  match run_val (login st key) k with
  | Some (LoggedIn cookie i) =>
      taken = Some (Some i) ∧
      ∀ req, rq_session req = Some cookie →
        me req = Some i ∧
        (is_exempt (rq_path req) = false → starts_with "/vnc/" (rq_path req) = false →
         run_val (api_key_auth st req) k = Some (Next (Some i)))
  | Some LoginUnauthorized => taken = Some None
  | Some LoginServerError =>
      (∃ e, run_val (validate_key key) k = Some (Err e)) ∧
      (config_api_key st = Some key → taken = Some (Some privileged))
  | None => taken = None ∧ run_val (validate_key key) k = None
  end.
Proof.
  simpl. rewrite run_authenticate_key.
  assert (∀ i req, rq_session req = Some (identity_to_string i) →
            me req = Some i ∧
            (is_exempt (rq_path req) = false → starts_with "/vnc/" (rq_path req) = false →
             run_val (api_key_auth st req) k = Some (Next (Some i)))) as Hcookie.
  { intros i req Hreq.
    assert (session_identity req = Some i) as Hs.
    { unfold session_identity. rewrite Hreq. simpl. apply identity_round. }
    split; [done|]. intros H1 H2. by rewrite run_api_key_auth, H1, H2, Hs. }
  unfold login. destruct (is_key (admin_api_key st) key); [by split; [|apply Hcookie]|].
  assert (Hc := is_key_true (config_api_key st) key).
  destruct (has_api_key_store st).
  - unfold run_val at 1 3. rewrite M_bind_unfold. simpl. unfold run_val.
    destruct (validate_key key k).1 as [[[id|]|e]|] eqn:Hv; simpl.
    + by split; [|apply Hcookie].
    + destruct (is_key (config_api_key st) key); simpl; [by split; [|apply Hcookie]|done].
    + split; [by exists e|]. intros Hk. by rewrite (proj2 Hc Hk).
    + done.
  - unfold run_val at 1. simpl.
    destruct (is_key (config_api_key st) key); simpl; [by split; [|apply Hcookie]|done].
Qed.
End middleware_facts.

(** ** Theorems: the API keys *)

Section key_facts.
Context `{BcryptLib, !BcryptLaws, ChronoAdd} `{PgLib} `{!UuidLib}.
#[local] Abbreviation K := PostgresApiKeyStore.

(** The row may be used for the key: found by its prefix, and active. *)
Definition found_by (prefix : string) (row : ApiKey) : bool :=
  String.eqb (ak_key_prefix row) prefix && ak_is_active row.

(** A row whose expiry, if any, some reading of the clock does not exceed, or
    none does. *)
Definition unexpired_once (k : K) (row : ApiKey) : Prop :=
  ∀ e, ak_expires_at row = Some e → ∃ n, ak_utc k n ≤ e.
Definition unexpired_throughout (k : K) (row : ApiKey) : Prop :=
  ∀ e, ak_expires_at row = Some e → ∀ n, ak_utc k n ≤ e.

(** Only the service's clock has moved. *)
Record later_key_store (k k' : K) : Prop := {
  lks_rows : ak_rows k' = ak_rows k;
  lks_connects : ak_connects k' = ak_connects k;
  lks_now : ak_db_now k' = ak_db_now k;
  lks_utc : ∃ j, ∀ n, ak_utc k' n = ak_utc k (j + n)%nat;
}.

Lemma later_refl k : later_key_store k k.
Proof. split; try done. by exists 0%nat. Qed.

Lemma later_trans k1 k2 k3 : later_key_store k1 k2 → later_key_store k2 k3 → later_key_store k1 k3.
Proof.
  intros [? ? ? [i Hi]] [? ? ? [j Hj]]. split; try congruence.
  exists (i + j)%nat. intros n. rewrite Hj, Hi. f_equal. lia.
Qed.

(** What the loop answers for the rows it walks over. *)
Definition checked (key : string) (rows : list ApiKey) (k k' : K)
    (r : Result (option Uuid) string) : Prop :=
  match r with
  | Ok (Some id) => ∃ row, row ∈ rows ∧ ak_id row = id ∧ unexpired_once k row ∧
      bcrypt_verify key (ak_key_hash row) = Ok true ∧
      ak_rows k' = update_key id (set_last_used (ak_db_now k)) (ak_rows k)
  | Ok None => ak_rows k' = ak_rows k ∧
      ∀ row, row ∈ rows → unexpired_throughout k row →
        bcrypt_verify key (ak_key_hash row) = Ok false
  | Err e => ak_rows k' = ak_rows k ∧
      ∃ row, row ∈ rows ∧ bcrypt_verify key (ak_key_hash row) = Err e
  end.

Lemma checked_later key row rows k k1 k' r :
  later_key_store k k1 → checked key rows k1 k' r →
  (unexpired_throughout k row → bcrypt_verify key (ak_key_hash row) = Ok false) →
  checked key (row :: rows) k k' r.
Proof.
  intros [Hr _ Hn [j Hj]] Hc Hrow. unfold checked in *.
  destruct r as [[id|]|e].
  - destruct Hc as (row' & Hin & Hid & Hex & Hv & Hk). exists row'. rewrite <-Hr, <-Hn.
    split_and!; try done; [by right|]. intros e He. destruct (Hex e He) as [n Hle].
    exists (j + n)%nat. by rewrite <-Hj.
  - destruct Hc as [Hk Hall]. split; [congruence|]. intros row' Hin Hun.
    apply elem_of_cons in Hin as [->|Hin]; [by apply Hrow|]. apply Hall; [done|].
    intros e He n. rewrite Hj. by apply Hun.
  - destruct Hc as [Hk (row' & Hin & Hv)]. split; [congruence|]. exists row'. split; [by right|done].
Qed.

Lemma wp_check_rows key rows (k : K) :
  wp (check_rows key rows) (λ r k', checked key rows k k' r) k.
Proof.
  revert k. induction rows as [|row rows IH]; intros k.
  { apply wp_ret. split; [done|]. intros row Hin. by apply elem_of_nil in Hin. }
  simpl. apply wp_bind.
  eapply (wp_mono _ (λ expired k', later_key_store k k' ∧
    (expired = true → ¬ unexpired_throughout k row) ∧ (expired = false → unexpired_once k row))).
  { destruct (ak_expires_at row) as [e|] eqn:He.
    - unfold wp, run_val, run_st. simpl. split; [split; try done; by exists 1%nat|]. split.
      + intros Hex%bool_decide_eq_true Hun. specialize (Hun e He 0%nat). lia.
      + intros Hex%bool_decide_eq_false e' He'. rewrite He in He'. simplify_eq.
        exists 0%nat. lia.
    - apply wp_ret. split; [apply later_refl|]. split; [done|]. intros _ e' He'. by rewrite He in He'. }
  intros [] k1 (Hlater & Hyes & Hno).
  - eapply wp_mono; [apply IH|]. intros r k' Hc. eapply checked_later; [done..|].
    intros Hun. by destruct (Hyes eq_refl).
  - destruct (bcrypt_verify key (ak_key_hash row)) as [[]|e] eqn:Hv.
    + unfold wp, run_val, run_st. simpl. exists row. rewrite (lks_rows _ _ Hlater), (lks_now _ _ Hlater).
      split_and!; try done; [by left|]. by apply Hno.
    + eapply wp_mono; [apply IH|]. intros r k' Hc. by eapply checked_later.
    + apply wp_ret. split; [by apply lks_rows|]. exists row. split; [by left|done].
Qed.

(** The answer for a key, against the table. *)
Lemma wp_validate key (k : K) :
  ak_connects k = true →
  wp (validate_api_key key) (λ o k',
    match key_prefix key with
    | None => o = None ∧ k' = k
    | Some prefix => ∃ r, o = Some r ∧ checked key (List.filter (found_by prefix) (ak_rows k)) k k' r
    end) k.
Proof.
  intros Hc. unfold wp, run_val, run_st, validate_api_key. rewrite Hc. simpl.
  destruct (key_prefix key) as [prefix|]; [|done].
  assert (Hw := wp_check_rows key (List.filter (found_by prefix) (ak_rows k)) k).
  unfold wp, run_val, run_st in Hw. unfold found_by in *.
  destruct (check_rows key _ k) as [r k']. by exists r.
Qed.

(** A row that is found, unexpired and matches gets its key accepted, when no
    stored hash is broken. *)
Definition hashes_readable (key : string) (k : K) : Prop :=
  ∀ row e, row ∈ ak_rows k → bcrypt_verify key (ak_key_hash row) ≠ Err e.

Lemma validate_accepts key prefix row (k : K) :
  ak_connects k = true → key_prefix key = Some prefix → hashes_readable key k →
  row ∈ ak_rows k → found_by prefix row = true → unexpired_throughout k row →
  bcrypt_verify key (ak_key_hash row) = Ok true →
  ∃ id row', run_val (validate_api_key key) k = Some (Ok (Some id)) ∧
    row' ∈ ak_rows k ∧ ak_id row' = id ∧ bcrypt_verify key (ak_key_hash row') = Ok true.
Proof.
  intros Hc Hp Hread Hin Hf Hun Hv. assert (Hw := wp_validate key k Hc). unfold wp in Hw.
  rewrite Hp in Hw. destruct Hw as (r & -> & Hr).
  assert (∀ row', row' ∈ List.filter (found_by prefix) (ak_rows k) ↔
            row' ∈ ak_rows k ∧ found_by prefix row' = true) as Hfilter.
  { intros row'. by rewrite list_elem_of_In, filter_In, <-list_elem_of_In. }
  destruct r as [[id|]|e]; simpl in Hr.
  - destruct Hr as (row' & [Hin' _]%Hfilter & ? & _ & ? & _). eauto 10.
  - destruct Hr as [_ Hall]. specialize (Hall row). rewrite Hv in Hall.
    by discriminate Hall; [apply Hfilter|].
  - destruct Hr as [_ (row' & [Hin' _]%Hfilter & Hv')]. by destruct (Hread row' e Hin').
Qed.

Lemma validate_sound key id (k : K) :
  run_val (validate_api_key key) k = Some (Ok (Some id)) →
  ∃ row, row ∈ ak_rows k ∧ ak_id row = id ∧ ak_is_active row = true ∧ unexpired_once k row ∧
         key_prefix key = Some (ak_key_prefix row) ∧
         bcrypt_verify key (ak_key_hash row) = Ok true.
Proof.
  intros Hv. destruct (ak_connects k) eqn:Hc.
  - assert (Hw := wp_validate key k Hc). unfold wp in Hw. rewrite Hv in Hw.
    destruct (key_prefix key) as [prefix|]; [|by destruct Hw].
    destruct Hw as (r & [= <-] & (row & Hin & Hid & Hex & Hver & _)).
    rewrite list_elem_of_In, filter_In, <-list_elem_of_In in Hin. destruct Hin as [Hin Hf].
    unfold found_by in Hf. apply andb_true_iff in Hf as [Hp%String.eqb_eq Ha].
    exists row. by rewrite Hp.
  - unfold run_val, validate_api_key in Hv. by rewrite Hc in Hv.
Qed.

(** The characters the generator draws from. *)
Definition drawn (s : string) : Prop :=
  String.length s = 32%nat ∧ ∀ n c, String.get n s = Some c → is_continuation c = false.

Lemma generated_prefix s :
  drawn s → key_prefix ("dsb_pk_" +:+ s) = Some (String.substring 0 8 ("dsb_pk_" +:+ s)).
Proof.
  intros [Hl Hc]. unfold key_prefix.
  change (String.get 8 ("dsb_pk_" +:+ s)) with (String.get 1 s).
  destruct (String.get 1 s) as [c|] eqn:Hg; [by rewrite (Hc _ _ Hg)|].
  destruct s as [|a [|b s]]; done.
Qed.

Lemma elem_of_update_key id f rows row :
  row ∈ update_key id f rows ↔
  ∃ row0, row0 ∈ rows ∧ row = if N.eqb (ak_id row0) id then f row0 else row0.
Proof.
  unfold update_key. rewrite list_elem_of_In, in_map_iff. setoid_rewrite <-list_elem_of_In.
  naive_solver.
Qed.

(** A fresh key: what [create_api_key] and [rotate_api_key] start with. *)
Lemma wp_fresh_key (k : K) :
  wp fresh_key (λ r k', ak_rows k' = ak_rows k ∧ ak_connects k' = ak_connects k ∧
    ∀ key hash, r = Ok (key, hash) →
      key = "dsb_pk_" +:+ ak_random k 0%nat ∧ bcrypt_verify key hash = Ok true) k.
Proof.
  unfold wp, run_val, run_st, fresh_key, try_, hash_api_key, generate_api_key.
  rewrite !M_bind_unfold. simpl.
  destruct (bcrypt_hash (ak_salt k 0%nat) _) as [h|e] eqn:Hh; simpl.
  - split_and!; [done..|]. intros key hash [= <- <-]. split; [done|]. by eapply bcrypt_verify_hash.
  - by split_and!.
Qed.

Lemma wp_create_api_key req (k : K) :
  wp (create_api_key req) (λ o k',
    match o with
    | Some (Ok resp) =>
        akr_api_key resp = "dsb_pk_" +:+ ak_random k 0%nat ∧
        bcrypt_verify (akr_api_key resp) (ak_key_hash (akr_key resp)) = Ok true ∧
        ak_key_prefix (akr_key resp) = String.substring 0 8 (akr_api_key resp) ∧
        ak_is_active (akr_key resp) = true ∧
        ak_rows k' = ak_rows k ++ [stored_key (akr_key resp)]
    | _ => ak_rows k' = ak_rows k
    end) k.
Proof.
  apply wp_bind. eapply wp_mono; [apply wp_fresh_key|]. intros r k1 (Hr & _ & Hfresh).
  destruct r as [[key hash]|e]; [|by apply wp_ret].
  destruct (Hfresh key hash eq_refl) as [Hkey Hver]. apply wp_bind.
  eapply (wp_mono _ (λ _ k2, ak_rows k2 = ak_rows k)).
  { destruct (ckr_expires_in_days req); [|by apply wp_ret]. by unfold wp, run_val, run_st. }
  intros [e|] k2 Hr2; [|by apply wp_ret].
  unfold wp, run_val, run_st, store_key, insert_key. destruct (ak_connects k2); [|done]. simpl.
  destruct (insertable _ (ak_rows k2)); [|done]. simpl. by rewrite Hr2.
Qed.

Lemma wp_rotate_api_key id (k : K) :
  wp (rotate_api_key id) (λ r k', ∀ resp, r = Ok resp →
    akr_api_key resp = "dsb_pk_" +:+ ak_random k 0%nat ∧
    bcrypt_verify (akr_api_key resp) (ak_key_hash (akr_key resp)) = Ok true ∧
    ak_key_prefix (akr_key resp) = String.substring 0 8 (akr_api_key resp) ∧
    ∃ row, row ∈ ak_rows k ∧ ak_id row = id ∧
      akr_key resp = clear_last_used (set_key_hash (ak_key_hash (akr_key resp))
                       (ak_key_prefix (akr_key resp)) row) ∧
      ak_rows k' = update_key id (set_key_hash (ak_key_hash (akr_key resp))
                                    (ak_key_prefix (akr_key resp))) (ak_rows k)) k.
Proof.
  apply wp_try. eapply wp_mono; [apply wp_fresh_key|]. intros r k1 (Hr & _ & Hfresh).
  destruct r as [[key hash]|e]; [|done]. destruct (Hfresh key hash eq_refl) as [Hkey Hver].
  clear Hfresh. unfold wp, run_val, run_st. destruct (negb (ak_connects k1)); [done|].
  destruct (List.find _ (ak_rows k1)) as [row|] eqn:Hfind; [|done].
  destruct (existsb _ (ak_rows k1)); [done|]. cbn [fst snd]. intros resp [= <-].
  apply List.find_some in Hfind as [Hin Hid%N.eqb_eq].
  split_and!; [done..|]. exists row. rewrite <-Hr. split_and!; try done. by apply list_elem_of_In.
Qed.

(** The row of a new key, found by it. *)
Lemma new_key_accepted resp (k k2 : K) s :
  akr_api_key resp = "dsb_pk_" +:+ s → drawn s →
  bcrypt_verify (akr_api_key resp) (ak_key_hash (akr_key resp)) = Ok true →
  ak_connects k2 = true → hashes_readable (akr_api_key resp) k2 →
  (∃ row, row ∈ ak_rows k2 ∧ ak_key_hash row = ak_key_hash (akr_key resp) ∧
          ak_key_prefix row = String.substring 0 8 (akr_api_key resp) ∧
          ak_is_active row = true ∧ unexpired_throughout k2 row) →
  ∃ id row, run_val (validate_api_key (akr_api_key resp)) k2 = Some (Ok (Some id)) ∧
    row ∈ ak_rows k2 ∧ ak_id row = id ∧
    bcrypt_verify (akr_api_key resp) (ak_key_hash row) = Ok true.
Proof.
  intros Hkey Hs Hv Hc Hread (row & Hin & Hh & Hp & Ha & Hun).
  apply (validate_accepts _ (String.substring 0 8 (akr_api_key resp)) row); try done.
  - rewrite Hkey. by apply generated_prefix.
  - unfold found_by. by rewrite Hp, String.eqb_refl, Ha.
  - by rewrite Hh.
Qed.

(** C37: the life of an API key.  A key is only accepted for an active row that has
    not expired when it is looked at and whose hash it matches.  A created key
    is accepted from then until it expires, for its own row unless it matches
    an older one; a deleted row is never answered again; and after a rotation
    the row answers to the new key and to no key that does not match the new
    hash. *)
Theorem api_key_lifecycle (k : K) :
  drawn (ak_random k 0%nat) →
  (∀ key id, run_val (validate_api_key key) k = Some (Ok (Some id)) →
     ∃ row, row ∈ ak_rows k ∧ ak_id row = id ∧ ak_is_active row = true ∧ unexpired_once k row ∧
            bcrypt_verify key (ak_key_hash row) = Ok true) ∧
  (∀ req resp k2,
     run_val (create_api_key req) k = Some (Ok resp) →
     ak_rows k2 = ak_rows (run_st (create_api_key req) k) → ak_connects k2 = true →
     hashes_readable (akr_api_key resp) k2 →
     unexpired_throughout k2 (stored_key (akr_key resp)) →
     ∃ id, run_val (validate_api_key (akr_api_key resp)) k2 = Some (Ok (Some id)) ∧
       (id = ak_id (akr_key resp) ∨
        ∃ row, row ∈ ak_rows k ∧ ak_id row = id ∧
               bcrypt_verify (akr_api_key resp) (ak_key_hash row) = Ok true)) ∧
  (∀ id key, ak_connects k = true →
     run_val (validate_api_key key) (run_st (delete_api_key id) k) ≠ Some (Ok (Some id))) ∧
  (∀ id resp, run_val (rotate_api_key id) k = Ok resp →
     let k' := run_st (rotate_api_key id) k in
     (∀ k2, ak_rows k2 = ak_rows k' → ak_connects k2 = true →
        hashes_readable (akr_api_key resp) k2 →
        ak_is_active (akr_key resp) = true → unexpired_throughout k2 (akr_key resp) →
        ∃ id', run_val (validate_api_key (akr_api_key resp)) k2 = Some (Ok (Some id'))) ∧
     (∀ key, run_val (validate_api_key key) k' = Some (Ok (Some id)) →
        bcrypt_verify key (ak_key_hash (akr_key resp)) = Ok true)).
Proof.
  intros Hdrawn. split_and!.
  - intros key id Hv. destruct (validate_sound _ _ _ Hv) as (row & ? & ? & ? & ? & _ & ?). eauto 10.
  - intros req resp k2 Hcr Hrows Hc Hread Hun. assert (Hw := wp_create_api_key req k).
    unfold wp in Hw. rewrite Hcr in Hw. destruct Hw as (Hkey & Hv & Hp & Ha & Hk). rewrite Hk in Hrows.
    destruct (new_key_accepted resp k k2 _ Hkey Hdrawn Hv Hc Hread) as (id & row & Hval & Hin & Hid & Hver).
    { exists (stored_key (akr_key resp)). rewrite Hrows. split_and!; try done. set_solver. }
    exists id. split; [done|]. rewrite Hrows, elem_of_app, list_elem_of_singleton in Hin.
    destruct Hin as [Hin| ->]; [right; eauto|by left].
  - intros id key Hc Hv. apply validate_sound in Hv as (row & Hin & Hid & _).
    unfold run_st, delete_api_key in Hin. rewrite Hc in Hin. simpl in Hin.
    rewrite list_elem_of_In, filter_In in Hin. destruct Hin as [_ Hne].
    by rewrite Hid, N.eqb_refl in Hne.
  - intros id resp Hrot. assert (Hw := wp_rotate_api_key id k). unfold wp in Hw.
    destruct (Hw resp Hrot) as (Hkey & Hver & Hp & row & Hin & Hid & Hkr & Hrows'). split.
    + intros k2 Hrows Hc Hread Ha Hun.
      destruct (new_key_accepted resp k k2 _ Hkey Hdrawn Hver Hc Hread) as (id' & _ & Hval & _);
        [|by exists id'].
      exists (set_key_hash (ak_key_hash (akr_key resp)) (ak_key_prefix (akr_key resp)) row).
      rewrite Hrows, Hrows'. rewrite Hkr in Ha, Hun. split_and!; try done.
      apply elem_of_update_key. exists row. split; [done|]. by rewrite Hid, N.eqb_refl.
    + intros key' Hv. apply validate_sound in Hv as (row' & Hin' & Hid'' & _ & _ & _ & Hver').
      rewrite Hrows' in Hin'. apply elem_of_update_key in Hin' as (row0 & Hin0 & ->).
      destruct (N.eqb_spec (ak_id row0) id) as [E|E]; [done|]. by simpl in Hid''.
Qed.
End key_facts.

(** ** Theorems: the session tokens *)

Section token_facts.
Context {S B A : Type}.
Context `{!StateStoreTrait S} `{!StoreContract S}.
Context `{!SandboxManager B} `{!ActivityStoreTrait A}.
Context `{PgLib} `{!UuidLib} `{!ChronoAdd}.
#[local] Abbreviation X := (TokenWorld S B A).
#[local] Abbreviation rows x := (tok_rows (tw_tokens x)).

Lemma wp_tw_service {T} (m : M (World S B A) T) Q (x : X) :
  wp m (λ r w, Q r (mkTokenWorld w (tw_tokens x))) (tw_world x) → wp (tw_service m) Q x.
Proof. unfold wp, run_val, run_st, tw_service. by destruct (m (tw_world x)). Qed.

Lemma wp_tw_store {T} (m : M PostgresSessionTokenStore T) Q (x : X) :
  wp m (λ r t, Q r (mkTokenWorld (tw_world x) t)) (tw_tokens x) → wp (tw_store m) Q x.
Proof. unfold wp, run_val, run_st, tw_store. by destruct (m (tw_tokens x)). Qed.

(** The row of a token: its times in the database's precision. *)
Definition token_row (token sandbox_id service : string) (created expires : DateTime)
    : SessionToken :=
  mkSessionToken token sandbox_id service (pg_timestamp created) (pg_timestamp expires).

Lemma wp_authorize_token identity sandbox_id Q (x : X) :
  ok (tw_world x) →
  (∀ e, Q (Err e) x) →
  (∀ id, uuid_parse_str sandbox_id = Some id →
     authorized identity false (db (tw_world x) !! id) = true → Q (Ok id) x) →
  wp (authorize_session_token_creation identity sandbox_id) Q x.
Proof.
  intros Hok Herr HQ. unfold authorize_session_token_creation.
  destruct (uuid_parse_str sandbox_id) as [id|] eqn:Hid; [|by apply wp_ret].
  apply wp_try, wp_tw_service. eapply wp_mono; [by apply wp_check_ownership|]. intros r w [-> ->].
  destruct x as [w t]. simpl in *.
  destruct (authorized identity false (db w !! id)) eqn:Ha; [|by apply Herr].
  apply wp_ret. by apply HQ.
Qed.

(** the life of a session token.  A token is made only by a caller who may
    access its sandbox, under a fresh name, for the requested span, and it is
    stored only if it expires after its creation (a span of [2 ^ 63] seconds
    or more wraps to a negative one); every other outcome stores nothing.  A
    token is answered as valid, with its sandbox and service, exactly when it
    is stored and the clock has not passed its expiry. *)
Theorem session_token_lifecycle identity sandbox_id service ttl_secs token (x : X) :
  ok (tw_world x) → tok_connects (tw_tokens x) = true →
  wp (create_session_token identity sandbox_id service ttl_secs) (λ o x',
    match o with
    | Some (Ok (token, expires)) => ∃ id now,
        uuid_parse_str sandbox_id = Some id ∧
        authorized identity false (db (tw_world x) !! id) = true ∧
        add_seconds now (i64_wrap ttl_secs) = Some expires ∧
        rows x !! token = None ∧
        rows x' = <[token := token_row token (uuid_to_string id) service now expires]> (rows x) ∧
        pg_timestamp now < pg_timestamp expires
    | _ => rows x' = rows x
    end) x ∧
  wp (validate_session_token token) (λ r x',
    rows x' = rows x ∧
    r = Ok match rows x !! token with
           | Some t =>
               if bool_decide (w_now (tw_world x) 0%nat ≤ tok_expires_at t) then
                 (true, Some (tok_sandbox_id t), Some (tok_service t))
               else (false, None, None)
           | None => (false, None, None)
           end) x.
Proof.
  intros Hok Hc. split.
  - apply wp_bind, wp_authorize_token; [done|by intros e; apply wp_ret|]. intros id Hid Ha.
    apply wp_bind, wp_tw_service. unfold SessionToken_new.
    unfold wp at 1, run_val, run_st. rewrite !M_bind_unfold. simpl.
    destruct (add_seconds _ (i64_wrap ttl_secs)) as [expires|] eqn:He; [|by apply wp_ret].
    simpl. apply wp_bind, wp_tw_store. unfold wp at 1, run_val, run_st, create_token_row.
    simpl. rewrite Hc. simpl.
    destruct (rows x !! _) as [t|] eqn:Ht; [by apply wp_ret|].
    case_bool_decide as Hlt; [|by apply wp_ret]. apply wp_ret. by do 2 eexists.
  - apply wp_bind, wp_tw_store. unfold wp at 1, run_val, run_st, get_session_token. rewrite Hc. simpl.
    destruct (rows x !! token) as [t|]; [|by apply wp_ret].
    apply wp_bind, wp_tw_service. unfold wp at 1, run_val, run_st. simpl. apply wp_ret.
    split; [done|]. unfold token_validate, is_expired. rewrite !String.eqb_refl, !andb_true_r.
    assert (bool_decide (w_now (tw_world x) 0%nat ≤ tok_expires_at t)
            = negb (bool_decide (tok_expires_at t < w_now (tw_world x) 0%nat))) as ->.
    { rewrite <-bool_decide_not. apply bool_decide_ext. lia. }
    by destruct (bool_decide _).
Qed.

(** the clean-up of session tokens depends on the time zone of the database
    session.  It compares the expiry with the UTC wall clock read in that zone:
    in UTC it removes exactly the expired tokens, and returns their number;
    west of UTC it also removes tokens that are still valid, and east of it
    keeps expired ones. *)
Theorem delete_expired_tokens_spec (s : PostgresSessionTokenStore) :
  tok_connects s = true →
  ∃ n s', delete_expired_tokens s = (Ok n, s') ∧
    n = Z.of_nat (size (tok_rows s)) - Z.of_nat (size (tok_rows s')) ∧
    (∀ token, tok_rows s' !! token = match tok_rows s !! token with
       | Some t => if bool_decide (tok_expires_at t < tok_now s - tok_zone s) then None else Some t
       | None => None
       end) ∧
    (tok_zone s = 0 → ∀ token t, tok_rows s' !! token = Some t ↔
       tok_rows s !! token = Some t ∧ is_expired (tok_now s) t = false) ∧
    (tok_zone s < 0 → ∀ token t, tok_rows s !! token = Some t →
       tok_expires_at t = tok_now s → tok_rows s' !! token = None).
Proof.
  intros Hc. unfold delete_expired_tokens. rewrite Hc. simpl. do 2 eexists. split; [done|].
  split; [done|]. simpl.
  assert (∀ token,
    filter (λ p : string * SessionToken, ¬ (tok_expires_at p.2 < tok_now s - tok_zone s)) (tok_rows s)
      !! token = match tok_rows s !! token with
                 | Some t => if bool_decide (tok_expires_at t < tok_now s - tok_zone s) then None
                             else Some t
                 | None => None
                 end) as Hl.
  { intros token. destruct (tok_rows s !! token) as [t|] eqn:Ht.
    - case_bool_decide as Hlt.
      + apply map_lookup_filter_None. right. intros t' Ht' Hn. rewrite Ht in Ht'. by simplify_eq.
      + by apply map_lookup_filter_Some.
    - apply map_lookup_filter_None. by left. }
  split; [done|]. split.
  - intros Hz token t. rewrite Hl, Hz. unfold is_expired.
    destruct (tok_rows s !! token) as [t'|]; [|naive_solver].
    case_bool_decide as Hlt; split; intros Heq; simplify_eq.
    + destruct Heq as [[= ->] Hf%bool_decide_eq_false]. lia.
    + split; [done|]. apply bool_decide_eq_false. lia.
    + by destruct Heq as [[= ->] _].
  - intros Hz token t Ht He. rewrite Hl, Ht, bool_decide_true; [done|]. lia.
Qed.
End token_facts.

(** ** Witnesses *)

Module Witnesses.
Import Demo.

#[local] Existing Instance Postgres.Witnesses.pg.

(** A hash that is the key itself, spans that are always in range, and
    identities written in binary. *)
#[local] Instance bcrypt : BcryptLib := {|
  bcrypt_hash := λ _ key, Ok key;
  bcrypt_verify := λ key hash, Ok (String.eqb key hash);
|}.

#[local] Instance bcrypt_laws : BcryptLaws.
Proof. split. intros salt key hash [= <-]. simpl. by rewrite String.eqb_refl. Qed.

#[local] Instance chrono_add : ChronoAdd := {|
  add_days := λ t d, Some (t + d * 86400 * ns_per_sec);
  add_seconds := λ t s, Some (t + s * ns_per_sec);
|}.

#[local] Instance chrono_add_laws : ChronoAddLaws.
Proof. by split; intros ??? [= <-]. Qed.

Fixpoint pos_to_bits (p : positive) : string :=
  match p with
  | xH => ""
  | xO p => String "0" (pos_to_bits p)
  | xI p => String "1" (pos_to_bits p)
  end.

Fixpoint bits_to_pos (s : string) : positive :=
  match s with
  | "" => xH
  | String c s => if Ascii.eqb c "0" then xO (bits_to_pos s) else xI (bits_to_pos s)
  end.

Lemma bits_round p : bits_to_pos (pos_to_bits p) = p.
Proof. induction p; simpl; by f_equal. Qed.

#[local] Instance codec : IdentityCodec := {|
  identity_to_string := λ i,
    pos_to_bits (encode (identity_id i, bool_decide (identity_key_type i = Privileged)));
  identity_from_str := λ s,
    (λ '(id, p), mkIdentity id (if p : bool then Privileged else Database))
      <$> decode (A := option Uuid * bool) (bits_to_pos s);
|}.

#[local] Instance codec_laws : IdentityCodecLaws.
Proof. split. intros [id []]; simpl; by rewrite bits_round, decode_encode. Qed.

(** An empty table; the generator draws 32 times the letter x. *)
Definition keys : PostgresApiKeyStore :=
  mkApiKeyStore [] true (λ n, Z.of_nat n) 0 (λ _, "xxxxxxxxxxxxxxxxxxxxxxxxxxxxxxxx")
    (λ n, n) (λ n, N.of_nat n).

Definition settings : AuthState := mkAuthState (Some "legacy") (Some "admin") true true true.

Lemma login_agrees_witness :
  run_val (login settings "admin") keys
    = Some (LoggedIn (identity_to_string privileged) privileged) ∧
  run_val (authenticate_key settings "admin") keys = Some (Some privileged).
Proof.
  split; [vm_compute; reflexivity|].
  assert (Ha := login_agrees settings "admin" keys). vm_compute in Ha. vm_compute. apply Ha.
Defined.

Lemma keys_drawn : drawn (ak_random keys 0%nat).
Proof.
  split; [reflexivity|]. intros n c. simpl.
  do 32 (destruct n as [|n]; [by intros [= <-]|]). by destruct n.
Qed.

Lemma api_key_lifecycle_witness :
  drawn (ak_random keys 0%nat) ∧
  run_val (validate_api_key "dsb_pk_xxxxxxxxxxxxxxxxxxxxxxxxxxxxxxxx") (run_st (delete_api_key 0%N)
    keys) ≠ Some (Ok (Some 0%N)).
Proof.
  split; [exact keys_drawn|].
  destruct (api_key_lifecycle keys keys_drawn) as (_ & _ & Hd & _). by apply Hd.
Defined.

Definition tokens0 : PostgresSessionTokenStore :=
  mkTokenStore (<["t" := mkSessionToken "t" "1" "vnc" 0 2000]> ∅) true 2000 (-1000).

Lemma session_token_lifecycle_witness :
  wp (validate_session_token "t") (λ r x',
    tok_rows (tw_tokens x') = tok_rows tokens0 ∧ r = Ok (true, Some "1", Some "vnc"))
    (mkTokenWorld Demo.world tokens0).
Proof.
  exact (proj2 (session_token_lifecycle privileged "1" "vnc" 300 "t"
                  (mkTokenWorld Demo.world tokens0) Demo.world_ok eq_refl)).
Defined.

Lemma delete_expired_tokens_spec_witness :
  is_expired (tok_now tokens0) (mkSessionToken "t" "1" "vnc" 0 2000) = false ∧
  ∃ n s', delete_expired_tokens tokens0 = (Ok n, s') ∧ tok_rows s' !! "t" = None.
Proof.
  split; [reflexivity|].
  destruct (delete_expired_tokens_spec tokens0 eq_refl) as (n & s' & Heq & _ & _ & _ & Hw).
  exists n, s'. split; [exact Heq|]. by eapply Hw.
Defined.
End Witnesses.
