(* ===== verification/Gateway.v ===== *)
(** * Gateway: the SSH gateway

    Models [src/ssh-gateway/]: the calls of the session manager to the API
    ([session.rs]), the shells in a container or a pod ([docker.rs], [k8s.rs]),
    the handlers of the SSH server with its connections and background tasks
    ([ssh.rs]), its host key, and the settings of the command line ([main.rs]).
    The SSH library, the HTTP client, the clients of Docker and Kubernetes and
    the file system are parameters; errors are the texts that are shown. *)

From S2P Require Import Prelude Text Paths Errors Types Store World Demo Service Config Kube KubeBackend Docker.
From Stdlib Require Import Ascii.

(** ** What the API answers ([session.rs]) *)

Record AuthSandbox : Type := mkAuthSandbox {
  as_id : Uuid;
  as_state : string;
  as_container_id : string;
}.

Record AuthContext : Type := mkAuthContext {
  ac_authorized : bool;
  ac_sandbox : option AuthSandbox;
  ac_permissions : list string;
}.

Record GwSession : Type := mkGwSession {
  gs_id : Uuid;
  gs_sandbox_id : Uuid;
  gs_state : string;
  gs_client_ip : string;
  gs_connected_at : string;
  gs_last_activity_at : string;
  gs_bytes_sent : Z;
  gs_bytes_received : Z;
}.

(** ** What the gateway uses

    [g_handle_ok]: does a connection still take output?  [gd_start_exec] gives
    the two streams, or none when the process is detached; [gk_exec] gives what
    streams there are, and whether the terminal can be resized.  An empty read
    is the end of an output. *)
Class GatewayEnv (E : Type) := {
  g_http : string → string → option string → option Json → M E (Result HttpResponse string);
  parse_auth_context : string → Result AuthContext string;
  parse_gw_session : string → Result GwSession string;
  GInput : Type;
  GDocker : Type;
  DOutput : Type;
  g_connect :: DockerConnect GDocker;
  gd_create_exec : GDocker → string → list string → M E (Result string string);
  gd_start_exec : GDocker → string → M E (Result (option (DOutput * GInput)) string);
  gd_next : DOutput → M E (option (Result LogOutput string));
  GKube : Type;
  KOutput : Type;
  gk_connect : M E (Result GKube string);
  gk_get_pod : GKube → string → string → M E (Result Pod string);
  gk_exec : GKube → string → string → list string →
    M E (Result (option GInput * option KOutput * bool) string);
  gk_read : KOutput → M E (Result string string);
  g_write_all : GInput → string → M E (Result () string);
  g_flush : GInput → M E (Result () string);
  g_handle_ok : Z → M E bool;
  HostKey : Type;
  g_home : option string;
  g_key_exists : string → M E bool;
  g_load_key : string → M E (Result HostKey string);
  g_create_dir_all : string → M E (Result () string);
  g_keygen : string → M E (Result bool string);
}.

Section gateway.
Context {E : Type} `{GatewayEnv E} `{UuidLib}.

(** ** The state *)

Record DockerExecProxy : Type := mkDockerExecProxy {
  px_docker : GDocker;
  px_container_id : string;
  px_exec_id : option string;
  px_exec_output : option DOutput;
  px_exec_input : option GInput;
  px_exec_config : option (list string);
}.

Record K8sExecProxy : Type := mkK8sExecProxy {
  kx_client : GKube;
  kx_namespace : string;
  kx_pod_name : string;
  kx_exec_output : option KOutput;
  kx_exec_input : option GInput;
  kx_terminal_size : bool;
  kx_exec_config : option (list string);
}.

Record ConnectionState : Type := mkConnectionState {
  cn_sandbox_id : option Uuid;
  cn_session_id : option Uuid;
  cn_client_ip : string;
  cn_channel_id : option Z;
  cn_exec_proxy : option DockerExecProxy;
  cn_exec_input : option GInput;
  cn_exec_output : option DOutput;
  cn_handle : option Z;
  cn_handle_channel_id : option Z;
  cn_bytes_sent : Z;
  cn_bytes_received : Z;
}.

Definition ConnectionState_new (client_ip : string) : ConnectionState :=
  {| cn_sandbox_id := None; cn_session_id := None; cn_client_ip := client_ip;
     cn_channel_id := None; cn_exec_proxy := None; cn_exec_input := None;
     cn_exec_output := None; cn_handle := None; cn_handle_channel_id := None;
     cn_bytes_sent := 0; cn_bytes_received := 0 |}.

Definition set_sandbox_id (sandbox_id : Uuid) (c : ConnectionState) : ConnectionState :=
  mkConnectionState (Some sandbox_id) (cn_session_id c) (cn_client_ip c) (cn_channel_id c)
    (cn_exec_proxy c) (cn_exec_input c) (cn_exec_output c) (cn_handle c)
    (cn_handle_channel_id c) (cn_bytes_sent c) (cn_bytes_received c).

Definition set_channel_id (channel : Z) (c : ConnectionState) : ConnectionState :=
  mkConnectionState (cn_sandbox_id c) (cn_session_id c) (cn_client_ip c) (Some channel)
    (cn_exec_proxy c) (cn_exec_input c) (cn_exec_output c) (cn_handle c)
    (cn_handle_channel_id c) (cn_bytes_sent c) (cn_bytes_received c).

Definition set_exec_input (input : option GInput) (c : ConnectionState) : ConnectionState :=
  mkConnectionState (cn_sandbox_id c) (cn_session_id c) (cn_client_ip c) (cn_channel_id c)
    (cn_exec_proxy c) input (cn_exec_output c) (cn_handle c)
    (cn_handle_channel_id c) (cn_bytes_sent c) (cn_bytes_received c).

Definition set_exec_output (output : option DOutput) (c : ConnectionState) : ConnectionState :=
  mkConnectionState (cn_sandbox_id c) (cn_session_id c) (cn_client_ip c) (cn_channel_id c)
    (cn_exec_proxy c) (cn_exec_input c) output (cn_handle c)
    (cn_handle_channel_id c) (cn_bytes_sent c) (cn_bytes_received c).

Definition set_exec_proxy (proxy : DockerExecProxy) (c : ConnectionState) : ConnectionState :=
  mkConnectionState (cn_sandbox_id c) (cn_session_id c) (cn_client_ip c) (cn_channel_id c)
    (Some proxy) (cn_exec_input c) (cn_exec_output c) (cn_handle c)
    (cn_handle_channel_id c) (cn_bytes_sent c) (cn_bytes_received c).

(** The handle is that of a connection. *)
Definition set_handle (handle channel : Z) (c : ConnectionState) : ConnectionState :=
  mkConnectionState (cn_sandbox_id c) (cn_session_id c) (cn_client_ip c) (cn_channel_id c)
    (cn_exec_proxy c) (cn_exec_input c) (cn_exec_output c) (Some handle) (Some channel)
    (cn_bytes_sent c) (cn_bytes_received c).

(** A spawned task: the reader of a shell's output, before it has looked at its
    connection and after, or the end of a session. *)
Inductive GwTask : Type :=
  | DockerReader (connection_id : Z)
  | DockerReading (connection_id : Z) (output : DOutput) (handle channel : Z)
  | K8sReader (connection_id : Z) (output : KOutput)
  | K8sReading (connection_id : Z) (output : KOutput) (handle channel : Z)
  | TerminateTask (session_id : Uuid).

(** What the gateway does, in order: [Shown], [Forwarded] and [Closed] go to a
    client; the others are kept for the theorems, and nothing reads them. *)
Inductive GwEvent : Type :=
  | Shown (connection channel : Z) (text : string)
  | Closed (connection channel : Z)
  | Forwarded (connection channel : Z) (output : DOutput + KOutput) (text : string)
  | Wrote (connection : Z) (input : GInput) (text : string)
  | Answered (sandbox_id : Uuid) (auth : AuthContext)
  | Started (connection : Z) (target : string) (input : GInput) (output : DOutput + KOutput).

Record Gateway : Type := mkGateway {
  gw_env : E;
  gw_connections : gmap Z ConnectionState;
  gw_next_id : Z;
  gw_tasks : list GwTask;
  gw_trace : list GwEvent;
}.

#[local] Abbreviation G := Gateway.

Definition on_env {A} (m : M E A) : M G A := λ g,
  let '(a, e) := m (gw_env g) in
  (a, mkGateway e (gw_connections g) (gw_next_id g) (gw_tasks g) (gw_trace g)).

Definition emit (ev : GwEvent) : M G () := λ g,
  ((), mkGateway (gw_env g) (gw_connections g) (gw_next_id g) (gw_tasks g) (gw_trace g ++ [ev])).

Definition spawn (t : GwTask) : M G () := λ g,
  ((), mkGateway (gw_env g) (gw_connections g) (gw_next_id g) (gw_tasks g ++ [t]) (gw_trace g)).

Definition rmap {A B} (f : A → B) (m : M G A) : M G B := a ← m; mret (f a).

Definition get_conn (id : Z) : M G (option ConnectionState) := λ g, (gw_connections g !! id, g).

(** [if let Some(conn) = connections.get(..)]. *)
Definition with_conn (id : Z) (f : ConnectionState → ConnectionState) : M G () := λ g,
  ((), mkGateway (gw_env g) (alter f id (gw_connections g)) (gw_next_id g) (gw_tasks g) (gw_trace g)).

(** ** The session manager ([session.rs])

    An error is its outermost context, which is what is shown of it. *)

Context (config : Config).

Definition gw_api_url : string := ssh_api_url (ssh config).
Definition gw_api_key : option string :=
  option_or (ssh_api_key (ssh config)) (ssh_gateway_api_key (server config)).

Definition read_body (resp : HttpResponse) : Result string string :=
  result_map_err (λ _, "Failed to read response body") (hr_body resp).

(** A request, whose answer must be a success. *)
Definition api_request (method url : string) (body : option Json) (sending failing : string)
    : M G (Result HttpResponse string) :=
  r ← on_env (g_http method url gw_api_key body);
  mret (let? resp := result_map_err (λ _, sending) r in
        if success (hr_status resp) then Ok resp
        else
          let? text := read_body resp in
          Err (failing +:+ " (" +:+ Z_to_string (hr_status resp) +:+ "): " +:+ text)).

Definition authorize_sandbox (sandbox_id : Uuid) : M G (Result AuthContext string) :=
  let* resp :=
    api_request "GET" (gw_api_url +:+ "/ssh/authorize/" +:+ uuid_to_string sandbox_id) None
      "Failed to send authorize request" "Authorization failed" in
  let auth :=
    let? body := read_body resp in
    result_map_err (λ _, "Failed to parse authorization response") (parse_auth_context body) in
  match auth with
  | Ok a => _ ← emit (Answered sandbox_id a); mret (Ok a)
  | Err e => mret (Err e)
  end.

Definition create_session (sandbox_id : Uuid) (client_ip : string) : M G (Result GwSession string) :=
  let* resp :=
    api_request "POST" (gw_api_url +:+ "/ssh-sessions")
      (Some (JObject [("sandbox_id", JString (uuid_to_string sandbox_id));
                      ("client_ip", JString client_ip);
                      ("ssh_version", JString "SSH-2.0-Russh_0.45");
                      ("auth_method", JString "api_key")]))
      "Failed to send create session request" "Failed to create session" in
  mret (let? body := read_body resp in
        result_map_err (λ _, "Failed to parse session response") (parse_gw_session body)).

Definition send_heartbeat (session_id : Uuid) (bytes_sent bytes_received : Z)
    : M G (Result () string) :=
  let* _ :=
    api_request "POST"
      (gw_api_url +:+ "/ssh-sessions/" +:+ uuid_to_string session_id +:+ "/heartbeat")
      (Some (JObject [("bytes_sent", JNumber bytes_sent); ("bytes_received", JNumber bytes_received)]))
      "Failed to send heartbeat request" "Failed to send heartbeat" in
  mret (Ok ()).

Definition terminate_session (session_id : Uuid) (reason : string) : M G (Result () string) :=
  let* _ :=
    api_request "POST"
      (gw_api_url +:+ "/ssh-sessions/" +:+ uuid_to_string session_id +:+ "/terminate")
      (Some (JObject [("reason", JString reason)]))
      "Failed to send terminate request" "Failed to terminate session" in
  mret (Ok ()).


(** ** A shell in a container ([docker.rs]) *)

Definition DockerManagerError_to_string (e : DockerManagerError) : string :=
  match e with
  | DmApi s => "Docker API error: " +:+ s
  | DmContainerNotFound s => "Container not found: " +:+ s
  | DmImageNotFound s => "Image not found: " +:+ s
  | DmExecFailed s => "Exec failed: " +:+ s
  | DmVolume s => "Volume error: " +:+ s
  | DmIo s => "IO error: " +:+ s
  | DmBollard s => "Bollard error: " +:+ s
  | DmToolProxy message _ => "Tool proxy error: " +:+ message
  | DmInvalidConfig s => "Invalid configuration: " +:+ s
  | DmHttp s => "HTTP error: " +:+ s
  | DmTimeout s => "Timeout: " +:+ s
  end.

Definition new_with_config_and_id (container_id : string) : Result DockerExecProxy string :=
  let? manager :=
    result_map_err
      (λ e, "Failed to connect to Docker daemon: " +:+ DockerManagerError_to_string e)
      (new_with_config (H := g_connect) config) in
  Ok (mkDockerExecProxy (daemon manager) container_id None None None None).

Definition docker_create_exec (p : DockerExecProxy) : M G (Result DockerExecProxy string) :=
  r ← on_env (gd_create_exec (px_docker p) (px_container_id p)
                (default ["/bin/bash"] (px_exec_config p)));
  mret (let? exec_id := result_map_err (λ _, "Failed to create exec instance") r in
        Ok (mkDockerExecProxy (px_docker p) (px_container_id p) (Some exec_id)
              (px_exec_output p) (px_exec_input p) (px_exec_config p))).

Definition docker_start_exec (p : DockerExecProxy) : M G (Result DockerExecProxy string) :=
  match px_exec_id p with
  | None => mret (Err "Cannot start exec: no exec instance")
  | Some exec_id =>
      r ← on_env (gd_start_exec (px_docker p) exec_id);
      mret (let? result := result_map_err (λ _, "Failed to start exec instance") r in
            match result with
            | Some (output, input) =>
                Ok (mkDockerExecProxy (px_docker p) (px_container_id p) (Some exec_id)
                      (Some output) (Some input) (px_exec_config p))
            | None => Err "Exec instance was detached, expected attached mode"
            end)
  end.

(** ** A shell in a pod ([k8s.rs]) *)

Definition k8s_new (pod_name namespace : string) : M G (Result K8sExecProxy string) :=
  r ← on_env gk_connect;
  mret (let? client :=
          result_map_err
            (λ _, "Failed to create Kubernetes client. Ensure running in-cluster or kubeconfig is valid")
            r in
        Ok (mkK8sExecProxy client namespace pod_name None None false None)).

(** Nothing is created: the pod is looked up. *)
Definition k8s_create_exec (p : K8sExecProxy) : M G (Result string string) :=
  r ← on_env (gk_get_pod (kx_client p) (kx_namespace p) (kx_pod_name p));
  mret (let? pod :=
          result_map_err
            (λ _, "Failed to get pod " +:+ kx_pod_name p +:+ " in namespace " +:+ kx_namespace p) r in
        match pod_phase pod with
        | Some phase =>
            if String.eqb phase "Running" then Ok (kx_pod_name p)
            else Err ("Pod " +:+ kx_pod_name p +:+ " is not running")
        | None => Err ("Pod " +:+ kx_pod_name p +:+ " is not running")
        end).

Definition shell_cmd (p : K8sExecProxy) : string :=
  match kx_exec_config p with Some cmd => join " " cmd | None => "/bin/bash" end.

Definition k8s_start_exec (p : K8sExecProxy) : M G (Result K8sExecProxy string) :=
  r ← on_env (gk_exec (kx_client p) (kx_namespace p) (kx_pod_name p) [shell_cmd p]);
  mret (let? (stdin, stdout, terminal_size) :=
          result_map_err
            (λ _, "Failed to exec into pod " +:+ kx_pod_name p +:+ " in namespace "
                  +:+ kx_namespace p) r in
        let? input := option_ok_or "Failed to get stdin stream from pod exec" stdin in
        let? output := option_ok_or "Failed to get stdout stream from pod exec" stdout in
        if negb terminal_size then Err "Failed to get terminal resize channel"
        else
          Ok (mkK8sExecProxy (kx_client p) (kx_namespace p) (kx_pod_name p)
                (Some output) (Some input) true (kx_exec_config p))).

(** ** The handlers of the SSH server ([ssh.rs]) *)

(** A client connects; the address it comes from is not kept. *)
Definition new_client : M G Z := λ g,
  let id := gw_next_id g in
  (id, mkGateway (gw_env g) (<[id := ConnectionState_new "unknown"]> (gw_connections g))
         (id + 1) (gw_tasks g) (gw_trace g)).

(** [true] is [Auth::Accept], [false] is [Auth::Reject]. *)
Definition auth_publickey {PublicKey} (id : Z) (user : string) (_key : PublicKey) : M G bool :=
  match uuid_parse_str user with
  | Some sandbox_id =>
      r ← authorize_sandbox sandbox_id;
      match r with
      | Ok auth =>
          if negb (ac_authorized auth) then mret false
          else _ ← with_conn id (set_sandbox_id sandbox_id); mret true
      | Err _ => mret false
      end
  | None => mret false
  end.

Definition channel_open_session (id channel : Z) : M G bool :=
  _ ← with_conn id (set_channel_id channel); mret true.

Definition pty_request (id channel : Z) (term : string) (col_width row_height : Z) : M G () :=
  mret ().

Definition env_request (id channel : Z) (variable_name variable_value : string) : M G () :=
  mret ().

Definition crlf : string := String carriage_return (String newline "").

(** A text to the client and the end of its channel. *)
Definition refuse (id channel : Z) (msg : string) : M G () :=
  _ ← emit (Shown id channel (msg +:+ crlf));
  emit (Closed id channel).

Definition create_failed (e : string) : string := "Error: Failed to create shell: " +:+ e.
Definition start_failed (e : string) : string := "Error: Failed to start shell: " +:+ e.
Definition streams_failed : string := "Error: Failed to initialize shell streams".

(** The two shells; an error is the text for the client. *)
Definition k8s_shell (id channel : Z) (container_id : string) : M G (Result () string) :=
  let pod_name := "dsb-sb-" +:+ container_id in
  let* p := rmap (result_map_err create_failed)
              (k8s_new pod_name (ssh_kubernetes_namespace (ssh config))) in
  let* _ := rmap (result_map_err create_failed) (k8s_create_exec p) in
  let* p := rmap (result_map_err start_failed) (k8s_start_exec p) in
  match kx_exec_input p, kx_exec_output p with
  | Some input, Some output =>
      _ ← emit (Started id pod_name input (inr output));
      _ ← with_conn id (λ c, set_handle id channel (set_exec_input (Some input) c));
      _ ← spawn (K8sReader id output);
      mret (Ok ())
  | _, _ => mret (Err streams_failed)
  end.

Definition docker_shell (id channel : Z) (container_id : string) : M G (Result () string) :=
  let* p := mret (result_map_err create_failed (new_with_config_and_id container_id)) in
  let* p := rmap (result_map_err create_failed) (docker_create_exec p) in
  let* p := rmap (result_map_err start_failed) (docker_start_exec p) in
  match px_exec_input p, px_exec_output p with
  | Some input, Some output =>
      _ ← emit (Started id container_id input (inl output));
      _ ← with_conn id (λ c,
            set_handle id channel
              (set_exec_output (Some output) (set_exec_input (Some input)
                 (set_exec_proxy
                    (mkDockerExecProxy (px_docker p) (px_container_id p) (px_exec_id p) None None
                       (px_exec_config p)) c))));
      _ ← spawn (DockerReader id);
      mret (Ok ())
  | _, _ => mret (Err streams_failed)
  end.

(** The shell runs in the container that the API names now; whether it says that
    the access is allowed is not looked at. *)
Definition shell_request (id channel : Z) : M G (Result () string) :=
  conn ← get_conn id;
  match conn ≫= cn_sandbox_id with
  | None => mret (Err "Disconnect")
  | Some sandbox_id =>
      auth ← authorize_sandbox sandbox_id;
      match auth with
      | Err e =>
          _ ← refuse id channel ("Error: Failed to authorize sandbox: " +:+ e);
          mret (Ok ())
      | Ok auth =>
          match ac_sandbox auth with
          | None =>
              _ ← refuse id channel "Error: Sandbox not found or not running";
              mret (Ok ())
          | Some sb =>
              let container_id := as_container_id sb in
              r ← (if String.eqb (ssh_backend (ssh config)) "kubernetes"
                   then k8s_shell id channel container_id
                   else docker_shell id channel container_id);
              match r with
              | Err msg => _ ← refuse id channel msg; mret (Ok ())
              | Ok _ =>
                  _ ← emit (Shown id channel
                              ("Connected to sandbox " +:+ uuid_to_string sandbox_id
                               +:+ " (container: " +:+ container_id +:+ ")" +:+ crlf +:+ crlf));
                  mret (Ok ())
              end
          end
      end
  end.

(** The input of the connection is taken, written to and put back, whatever
    channel the data came on and whether or not the writing failed. *)
Definition data (id channel : Z) (bytes : string) : M G () :=
  conn ← get_conn id;
  match conn with
  | None => mret ()
  | Some c =>
      _ ← with_conn id (set_exec_input None);
      match cn_exec_input c with
      | None => mret ()
      | Some input =>
          w ← on_env (g_write_all input bytes);
          _ ← match w with
              | Ok () => _ ← emit (Wrote id input bytes); _ ← on_env (g_flush input); mret ()
              | Err _ => mret ()
              end;
          with_conn id (set_exec_input (Some input))
      end
  end.

Definition channel_close (id channel : Z) : M G () :=
  conn ← get_conn id;
  match conn ≫= cn_session_id with
  | Some session_id => spawn (TerminateTask session_id)
  | None => mret ()
  end.

(** ** The spawned tasks *)

Definition message_of (l : LogOutput) : string :=
  match l with StdOut m => m | StdErr m => m | StdIn m => m | Console m => m end.

(** What was read goes to the client; nothing, or a client that is gone, ends
    the task. *)
Definition forward (handle channel : Z) (output : DOutput + KOutput) (bytes : string)
    (again : GwTask) : M G (option GwTask) :=
  if is_empty bytes then mret None
  else
    ok ← on_env (g_handle_ok handle);
    if (ok : bool) then _ ← emit (Forwarded handle channel output bytes); mret (Some again) else mret None.

(** A task up to its next pause; [None] is its end. *)
Definition task_step (t : GwTask) : M G (option GwTask) :=
  match t with
  | DockerReader id =>
      conn ← get_conn id;
      match conn with
      | None => mret None
      | Some c =>
          _ ← with_conn id (set_exec_output None);
          match cn_exec_output c, cn_handle c, cn_handle_channel_id c with
          | Some output, Some handle, Some channel =>
              mret (Some (DockerReading id output handle channel))
          | _, _, _ => mret None
          end
      end
  | DockerReading id output handle channel =>
      next ← on_env (gd_next output);
      match next with
      | Some (Ok log_output) => forward handle channel (inl output) (message_of log_output) t
      | Some (Err _) | None => mret None
      end
  | K8sReader id output =>
      conn ← get_conn id;
      match conn ≫= (λ c, h ← cn_handle c; ch ← cn_handle_channel_id c; Some (h, ch)) with
      | Some (handle, channel) => mret (Some (K8sReading id output handle channel))
      | None => mret None
      end
  | K8sReading id output handle channel =>
      next ← on_env (gk_read output);
      match next with
      | Ok bytes => forward handle channel (inr output) bytes t
      | Err _ => mret None
      end
  | TerminateTask session_id => _ ← terminate_session session_id "Channel closed"; mret None
  end.

(** The scheduler goes on with one of the tasks. *)
Definition run_task (i : nat) : M G () := λ g,
  match gw_tasks g !! i with
  | None => ((), g)
  | Some t =>
      let rest := take i (gw_tasks g) ++ drop (S i) (gw_tasks g) in
      let '(next, g') :=
        task_step t (mkGateway (gw_env g) (gw_connections g) (gw_next_id g) rest (gw_trace g)) in
      ((), mkGateway (gw_env g') (gw_connections g') (gw_next_id g')
             (gw_tasks g' ++ option_list next) (gw_trace g'))
  end.

(** ** The host key ([ssh.rs]) *)

(** [Path::join] with a relative path, and [Path::parent]. *)
Definition path_join (a b : string) : string :=
  if is_empty a then b else if starts_with "/" (string_rev a) then a +:+ b else a +:+ "/" +:+ b.

Definition component_text (c : Component) : string :=
  match c with RootDir => "" | CurDir => "." | ParentDir => ".." | NormalName n => n end.

Definition path_parent (s : string) : option string :=
  match rev (components s) with
  | [] | [RootDir] => None
  | [_; RootDir] => Some "/"
  | _ :: cs => Some (join "/" (map component_text (rev cs)))
  end.

Definition load_or_generate_host_key_blocking (key_path : string) : M G (Result HostKey string) :=
  exists_ ← on_env (g_key_exists key_path);
  if (exists_ : bool) then
    r ← on_env (g_load_key key_path); mret (result_map_err (λ _, "Failed to parse host key") r)
  else
    let* _ :=
      match path_parent key_path with
      | Some parent =>
          rmap (result_map_err (λ _, "Failed to create key directory"))
            (on_env (g_create_dir_all parent))
      | None => mret (Ok ())
      end in
    let* status :=
      rmap (result_map_err (λ _, "Failed to run ssh-keygen. Is ssh-keygen installed?"))
        (on_env (g_keygen key_path)) in
    if negb status then mret (Err "ssh-keygen failed to generate key")
    else
      rmap (result_map_err (λ _, "Failed to load newly generated key"))
        (on_env (g_load_key key_path)).

Definition host_key_file : Result string string :=
  match host_key_path (ssh config) with
  | Some path => Ok path
  | None =>
      let? home_dir := option_ok_or "HOME environment variable not set" g_home in
      Ok (path_join (path_join home_dir ".dsb") "ssh_host_key")
  end.

Definition get_host_key : M G (Result HostKey string) :=
  let* key_path := mret host_key_file in load_or_generate_host_key_blocking key_path.
End gateway.

(** ** The command line ([main.rs]) *)

Record Args : Type := mkArgs {
  arg_port : option Z;
  arg_api_url : option string;
  arg_api_key : option string;
  arg_host_key_path : option string;
  arg_log_level : option string;
  arg_backend : option string;
  arg_kubernetes_namespace : option string;
}.

(** The overrides that go through the configuration's own. *)
Definition overrides (a : Args) : list (string * string) :=
  option_list ((λ p, ("ssh.port", Z_to_string p)) <$> arg_port a)
  ++ option_list ((λ u, ("ssh.api_url", u)) <$> arg_api_url a)
  ++ option_list ((λ l, ("logging.level", l)) <$> arg_log_level a).

(** The others, which are set directly. *)
Definition set_directly (a : Args) (c : Config) : Config :=
  let s := ssh c in
  set_ssh
    (mkSshConfig (ssh_port s) (ssh_api_url s) (option_or (arg_api_key a) (ssh_api_key s))
       (option_or (arg_host_key_path a) (host_key_path s)) (cleanup_check_interval s)
       (session_timeout s) (termination_timeout s) (default (ssh_backend s) (arg_backend a))
       (default (ssh_kubernetes_namespace s) (arg_kubernetes_namespace a))) c.

Definition merge_overrides (merged c : Config) : Config :=
  let s := ssh c in
  set_logging (set_log_level (log_level (logging merged)) (logging c))
    (set_ssh
       (mkSshConfig (ssh_port (ssh merged)) (ssh_api_url (ssh merged))
          (option_or (ssh_api_key s) (ssh_api_key (ssh merged)))
          (option_or (host_key_path s) (host_key_path (ssh merged))) (cleanup_check_interval s)
          (session_timeout s) (termination_timeout s) (ssh_backend s)
          (ssh_kubernetes_namespace s)) c).

(** The configuration is loaded a second time for the overrides; when that
    fails they are dropped with a warning. *)
Definition apply_cli_overrides `{ConfigLib} (fs : FileSystem) (config : Config) (cli_args : Args)
    : M Env Config :=
  let config := set_directly cli_args config in
  if is_nil (overrides cli_args) then mret config
  else
    r ← load_with_cli_args fs (Some (overrides cli_args));
    mret (match r with Ok merged => merge_overrides merged config | Err _ => config end).

(** ** Theorems *)

Section theorems.
Context {E : Type} `{GatewayEnv E} `{UuidLib}.
Context (config : Config).

#[local] Abbreviation G := (Gateway (E := E)).

(** *** What holds at any time *)

(** A step of the gateway; between two steps anything happens around it. *)
Inductive gw_step {PublicKey : Type} : G → G → Prop :=
  | StepAround g e :
      gw_step g (mkGateway e (gw_connections g) (gw_next_id g) (gw_tasks g) (gw_trace g))
  | StepClient g : gw_step g (run_st new_client g)
  | StepAuth g id user (key : PublicKey) : gw_step g (run_st (auth_publickey config id user key) g)
  | StepOpen g id channel : gw_step g (run_st (channel_open_session id channel) g)
  | StepShell g id channel : gw_step g (run_st (shell_request config id channel) g)
  | StepData g id channel bytes : gw_step g (run_st (data id channel bytes) g)
  | StepClose g id channel : gw_step g (run_st (channel_close id channel) g)
  | StepTask g i : gw_step g (run_st (run_task config i) g).

Definition gateway_new (e : E) : G := mkGateway e ∅ 0 [] [].

(** The shells that were started for a connection. *)
Definition started_in (tr : list GwEvent) (id : Z) (input : GInput) : Prop :=
  ∃ target output, Started id target input output ∈ tr.
Definition started_out (tr : list GwEvent) (id : Z) (output : DOutput + KOutput) : Prop :=
  ∃ target input, Started id target input output ∈ tr.

Definition allowed (tr : list GwEvent) (sandbox_id : Uuid) : Prop :=
  ∃ auth, Answered sandbox_id auth ∈ tr ∧ ac_authorized auth = true.

(** The container or the pod that an answer names. *)
Definition target_of (auth : AuthContext) (target : string) : Prop :=
  ∃ sb, ac_sandbox auth = Some sb ∧
    (target = as_container_id sb ∨ target = "dsb-sb-" +:+ as_container_id sb).

Definition event_ok (tr : list GwEvent) (ev : GwEvent) : Prop :=
  match ev with
  | Wrote id input _ => started_in tr id input
  | Forwarded id _ output _ => started_out tr id output
  | Started _ target _ _ =>
      ∃ sandbox_id auth,
        allowed tr sandbox_id ∧ Answered sandbox_id auth ∈ tr ∧ target_of auth target
  | Shown _ _ _ | Closed _ _ | Answered _ _ => True
  end.

Definition task_ok (tr : list GwEvent) (t : GwTask) : Prop :=
  match t with
  | DockerReader _ => True
  | DockerReading id output handle _ => handle = id ∧ started_out tr id (inl output)
  | K8sReader id output => started_out tr id (inr output)
  | K8sReading id output handle _ => handle = id ∧ started_out tr id (inr output)
  | TerminateTask _ => False
  end.

Record conn_ok (tr : list GwEvent) (id : Z) (c : ConnectionState) : Prop := {
  ok_sandbox s : cn_sandbox_id c = Some s → allowed tr s;
  ok_handle h : cn_handle c = Some h → h = id;
  ok_input i : cn_exec_input c = Some i → started_in tr id i;
  ok_output o : cn_exec_output c = Some o → started_out tr id (inl o);
  ok_unrecorded : cn_session_id c = None ∧ cn_bytes_sent c = 0 ∧ cn_bytes_received c = 0;
}.

Record gateway_ok (g : G) : Prop := {
  ok_ids id : is_Some (gw_connections g !! id) ↔ 0 ≤ id < gw_next_id g;
  ok_next : 0 ≤ gw_next_id g;
  ok_conns id c : gw_connections g !! id = Some c → conn_ok (gw_trace g) id c;
  ok_tasks : Forall (task_ok (gw_trace g)) (gw_tasks g);
  ok_trace : Forall (event_ok (gw_trace g)) (gw_trace g);
}.

Create HintDb gateway.

Lemma started_in_mono tr tr' id i : tr ⊆ tr' → started_in tr id i → started_in tr' id i.
Proof. intros Hs (t & o & Hin). exists t, o. by apply Hs. Qed.

Lemma started_out_mono tr tr' id o : tr ⊆ tr' → started_out tr id o → started_out tr' id o.
Proof. intros Hs (t & i & Hin). exists t, i. by apply Hs. Qed.

Lemma allowed_mono tr tr' s : tr ⊆ tr' → allowed tr s → allowed tr' s.
Proof. intros Hs (a & Hin & Ha). exists a. split; [by apply Hs|done]. Qed.

#[local] Hint Resolve started_in_mono started_out_mono allowed_mono : gateway.

Lemma event_ok_mono tr tr' ev : tr ⊆ tr' → event_ok tr ev → event_ok tr' ev.
Proof.
  intros Hs. destruct ev; simpl; eauto with gateway.
  intros (s & a & Hall & Hin & Ht). exists s, a. split_and!; [eauto with gateway|by apply Hs|done].
Qed.

Lemma task_ok_mono tr tr' t : tr ⊆ tr' → task_ok tr t → task_ok tr' t.
Proof. intros Hs. destruct t; simpl; naive_solver eauto with gateway. Qed.

Lemma conn_ok_mono tr tr' id c : tr ⊆ tr' → conn_ok tr id c → conn_ok tr' id c.
Proof. intros Hs [H1 H2 H3 H4 H5]. split; eauto with gateway. Qed.

(** The rules of the primitives: they keep [gateway_ok], and the trace grows. *)
Definition since (g g' : G) : Prop := gw_trace g ⊆ gw_trace g'.

Lemma wp_on_env {A} (m : M E A) (Q : A → G → Prop) g :
  gateway_ok g →
  (∀ a g', gateway_ok g' → gw_trace g' = gw_trace g →
     gw_connections g' = gw_connections g → Q a g') →
  wp (on_env m) Q g.
Proof.
  intros [H1 H2 H3 H4 H5] HQ. unfold wp, run_val, run_st, on_env. destruct (m (gw_env g)) as [a e].
  by apply HQ.
Qed.

Lemma wp_emit ev (Q : () → G → Prop) g :
  gateway_ok g → event_ok (gw_trace g) ev →
  (∀ g', gateway_ok g' → gw_trace g' = gw_trace g ++ [ev] →
     gw_connections g' = gw_connections g → Q () g') →
  wp (emit ev) Q g.
Proof.
  intros [H1 H2 H3 H4 H5] Hev HQ. apply HQ; [|done|done].
  assert (gw_trace g ⊆ gw_trace g ++ [ev]) as Hs by set_solver.
  split; simpl; try done.
  - intros id c Hc. eapply conn_ok_mono; [done|by apply H3].
  - eapply Forall_impl; [done|]. intros t. by apply task_ok_mono.
  - apply Forall_app. split; [|apply Forall_singleton; by eapply event_ok_mono].
    eapply Forall_impl; [done|]. intros ev'. by apply event_ok_mono.
Qed.

Lemma wp_gw_spawn t (Q : () → G → Prop) g :
  gateway_ok g → task_ok (gw_trace g) t →
  (∀ g', gateway_ok g' → gw_trace g' = gw_trace g →
     gw_connections g' = gw_connections g → Q () g') →
  wp (spawn t) Q g.
Proof.
  intros [H1 H2 H3 H4 H5] Ht HQ. apply HQ; [|done|done].
  split; simpl; try done. apply Forall_app. by rewrite Forall_singleton.
Qed.

Lemma wp_with_conn id f (Q : () → G → Prop) g :
  gateway_ok g →
  (∀ c, conn_ok (gw_trace g) id c → conn_ok (gw_trace g) id (f c)) →
  (∀ g', gateway_ok g' → gw_trace g' = gw_trace g →
     gw_connections g' = alter f id (gw_connections g) → Q () g') →
  wp (with_conn id f) Q g.
Proof.
  intros [H1 H2 H3 H4 H5] Hf HQ. apply HQ; [|done|done].
  split; simpl; try done.
  - intros id'. rewrite <-H1. destruct (decide (id = id')) as [<-|Hne].
    + by rewrite lookup_alter_eq, fmap_is_Some.
    + by rewrite lookup_alter_ne.
  - intros id' c. destruct (decide (id = id')) as [<-|Hne].
    + rewrite lookup_alter_eq, fmap_Some. intros (c' & Hc' & ->). by apply Hf, H3.
    + rewrite lookup_alter_ne by done. apply H3.
Qed.

Lemma wp_get_conn id (Q : option ConnectionState → G → Prop) g :
  Q (gw_connections g !! id) g → wp (get_conn id) Q g.
Proof. done. Qed.

Lemma wp_api_request method url body sending failing Q g :
  gateway_ok g →
  (∀ r g', gateway_ok g' → gw_trace g' = gw_trace g →
     gw_connections g' = gw_connections g → Q r g') →
  wp (api_request config method url body sending failing) Q g.
Proof. intros Hg HQ. apply wp_bind, wp_on_env; [done|]. intros r g' Hg' Ht Hc. by apply HQ. Qed.

Lemma wp_authorize_sandbox s (Q : Result AuthContext string → G → Prop) g :
  gateway_ok g →
  (∀ e g', gateway_ok g' → gw_trace g' = gw_trace g →
     gw_connections g' = gw_connections g → Q (Err e) g') →
  (∀ a g', gateway_ok g' → gw_trace g' = gw_trace g ++ [Answered s a] →
     gw_connections g' = gw_connections g → Q (Ok a) g') →
  wp (authorize_sandbox config s) Q g.
Proof.
  intros Hg HE HO. apply wp_try, wp_api_request; [done|].
  intros [resp|e] g' Hg' Ht Hc; [|by apply HE].
  cbv zeta. case_match; [|by apply wp_ret, HE].
  apply wp_bind, wp_emit; [done|done|]. intros g2 Hg2 Ht2 Hc2.
  apply wp_ret, HO; [done|congruence|congruence].
Qed.

Lemma wp_refuse id channel msg (Q : () → G → Prop) g :
  gateway_ok g →
  (∀ g', gateway_ok g' → gw_connections g' = gw_connections g →
     gw_trace g' = gw_trace g ++ [Shown id channel (msg +:+ crlf); Closed id channel] → Q () g') →
  wp (refuse id channel msg) Q g.
Proof.
  intros Hg HQ. apply wp_bind, wp_emit; [done|done|]. intros g1 Hg1 Ht1 Hc1.
  apply wp_emit; [done|done|]. intros g2 Hg2 Ht2 Hc2.
  apply HQ; [done|congruence|]. by rewrite Ht2, Ht1, <-app_assoc.
Qed.

(** A shell that starts for a connection, in either backend, is recorded with
    both of its streams; the connection then writes to it. *)
Definition shell_ends (id : Z) (container_id : string) (g : G) (r : Result () string) (g' : G)
    : Prop :=
  gateway_ok g' ∧
  match r with
  | Err _ => gw_trace g' = gw_trace g ∧ gw_connections g' = gw_connections g
  | Ok _ =>
      ∃ target input output,
        (target = container_id ∨ target = "dsb-sb-" +:+ container_id) ∧
        gw_trace g' = gw_trace g ++ [Started id target input output] ∧
        (∀ c, gw_connections g !! id = Some c →
           ∃ c', gw_connections g' !! id = Some c' ∧ cn_exec_input c' = Some input ∧
             cn_sandbox_id c' = cn_sandbox_id c)
  end.

Lemma wp_rmap {A B} (f : A → B) (m : M G A) (Q : B → G → Prop) g :
  wp m (λ a, Q (f a)) g → wp (rmap f m) Q g.
Proof. intros Hm. by apply wp_bind. Qed.

(** A call that asks the outside and makes nothing of it but a result. *)
Lemma wp_ask {A B} (m : M E A) (k : A → B) (Q : B → G → Prop) g :
  gateway_ok g →
  (∀ b g', gateway_ok g' → gw_trace g' = gw_trace g →
     gw_connections g' = gw_connections g → Q b g') →
  wp (a ← on_env m; mret (k a)) Q g.
Proof. intros Hg HQ. apply wp_bind, wp_on_env; [done|]. intros a g' ???. by apply HQ. Qed.

(** The last part of both: the record of the shell, its streams in the
    connection, and the reader. *)
Lemma wp_launch id target container_id input output f t (r : Result () string) g g0 :
  gateway_ok g → gw_trace g = gw_trace g0 → gw_connections g = gw_connections g0 →
  (∃ s a, allowed (gw_trace g) s ∧ Answered s a ∈ gw_trace g ∧ target_of a target) →
  (target = container_id ∨ target = "dsb-sb-" +:+ container_id) →
  (∀ tr c, started_in tr id input → started_out tr id output → conn_ok tr id c →
     conn_ok tr id (f c)) →
  (∀ c, cn_exec_input (f c) = Some input ∧ cn_sandbox_id (f c) = cn_sandbox_id c) →
  (∀ tr, started_out tr id output → task_ok tr t) → r = Ok () →
  wp (_ ← emit (Started id target input output); _ ← with_conn id f; _ ← spawn t; mret r)
    (shell_ends id container_id g0) g.
Proof.
  intros Hg Ht0 Hc0 Hmay Htarget Hf Hkept Htask ->.
  apply wp_bind, wp_emit; [done|done|]. intros g1 Hg1 Ht1 Hc1.
  assert (Started id target input output ∈ gw_trace g1) as Hin by (rewrite Ht1; set_solver).
  apply wp_bind, wp_with_conn; [done|intros c; apply Hf; by eexists _, _|].
  intros g2 Hg2 Ht2 Hc2.
  apply wp_bind, wp_gw_spawn; [done|apply Htask; rewrite Ht2; by eexists _, _|].
  intros g3 Hg3 Ht3 Hc3. apply wp_ret. split; [done|].
  exists target, input, output. split_and!; [done|congruence|].
  intros c Hc. exists (f c). rewrite Hc3, Hc2, Hc1, Hc0, lookup_alter_eq, Hc.
  by destruct (Hkept c).
Qed.

Lemma set_handle_ok tr id channel c : conn_ok tr id c → conn_ok tr id (set_handle id channel c).
Proof. intros [H1 H2 H3 H4 H5]. split; try done. by intros h [= <-]. Qed.

Lemma set_exec_input_ok tr id i c :
  (∀ input, i = Some input → started_in tr id input) →
  conn_ok tr id c → conn_ok tr id (set_exec_input i c).
Proof. intros Hi [H1 H2 H3 H4 H5]. by split. Qed.

Lemma set_exec_output_ok tr id o c :
  (∀ output, o = Some output → started_out tr id (inl output)) →
  conn_ok tr id c → conn_ok tr id (set_exec_output o c).
Proof. intros Ho [H1 H2 H3 H4 H5]. by split. Qed.

Lemma set_exec_proxy_ok tr id p c : conn_ok tr id c → conn_ok tr id (set_exec_proxy p c).
Proof. intros [H1 H2 H3 H4 H5]. by split. Qed.

#[local] Hint Resolve set_handle_ok set_exec_input_ok set_exec_output_ok set_exec_proxy_ok : gateway.

Definition may_start (tr : list GwEvent) (container_id : string) : Prop :=
  ∃ s a sb, allowed tr s ∧ Answered s a ∈ tr ∧ ac_sandbox a = Some sb
    ∧ as_container_id sb = container_id.

Lemma may_start_target tr container_id target :
  may_start tr container_id → target = container_id ∨ target = "dsb-sb-" +:+ container_id →
  ∃ s a, allowed tr s ∧ Answered s a ∈ tr ∧ target_of a target.
Proof. intros (s & a & sb & Ha & Hin & Hsb & <-) Ht. exists s, a. split_and!; [done..|by exists sb]. Qed.

Lemma shell_failed id container_id g e g' :
  gateway_ok g' → gw_trace g' = gw_trace g → gw_connections g' = gw_connections g →
  shell_ends id container_id g (Err e) g'.
Proof. done. Qed.

#[local] Ltac shell_fails :=
  cbn [result_map_err]; try (by apply shell_failed; congruence);
  apply wp_ret; by apply shell_failed; congruence.

Lemma wp_k8s_shell id channel container_id g :
  gateway_ok g → may_start (gw_trace g) container_id →
  wp (k8s_shell config id channel container_id) (shell_ends id container_id g) g.
Proof.
  intros Hg Hmay. apply wp_try, wp_rmap, wp_ask; [done|].
  intros [p|e] g1 Hg1 Ht1 Hc1; [|done].
  apply wp_try, wp_rmap, wp_ask; [done|].
  intros [n|e] g2 Hg2 Ht2 Hc2; [|shell_fails].
  apply wp_try, wp_rmap, wp_ask; [done|].
  intros [q|e] g3 Hg3 Ht3 Hc3; [|shell_fails]. simpl.
  destruct (kx_exec_input q) as [input|]; [|shell_fails].
  destruct (kx_exec_output q) as [output|]; [|shell_fails].
  apply wp_launch; try done; [congruence|congruence| |by right|].
  - apply (may_start_target _ container_id); [|by right]. by rewrite Ht3, Ht2, Ht1.
  - intros tr c Hi Ho Hc. apply set_handle_ok, set_exec_input_ok; [by intros ? [= <-]|done].
Qed.

Lemma wp_docker_shell id channel container_id g :
  gateway_ok g → may_start (gw_trace g) container_id →
  wp (docker_shell config id channel container_id) (shell_ends id container_id g) g.
Proof.
  intros Hg Hmay. apply wp_try, wp_ret.
  destruct (new_with_config_and_id config container_id) as [p0|e]; [|done]. simpl.
  apply wp_try, wp_rmap, wp_ask; [done|].
  intros [p|e] g1 Hg1 Ht1 Hc1; [|done]. apply wp_try, wp_rmap.
  unfold docker_start_exec. destruct (px_exec_id p) as [exec_id|]; [|done].
  apply wp_ask; [done|]. intros [q|e] g2 Hg2 Ht2 Hc2; [|shell_fails]. simpl.
  destruct (px_exec_input q) as [input|]; [|shell_fails].
  destruct (px_exec_output q) as [output|]; [|shell_fails].
  apply wp_launch; try done; [congruence|congruence| |by left|].
  - apply (may_start_target _ container_id); [|by left]. by rewrite Ht2, Ht1.
  - intros tr c Hi Ho Hc.
    apply set_handle_ok, set_exec_output_ok; [by intros ? [= <-]|].
    apply set_exec_input_ok; [by intros ? [= <-]|]. by apply set_exec_proxy_ok.
Qed.

Lemma wp_shell_request id channel g :
  gateway_ok g → wp (shell_request config id channel) (λ _ g', gateway_ok g') g.
Proof.
  intros Hg. apply wp_bind, wp_get_conn.
  destruct (gw_connections g !! id) as [c|] eqn:Hc; [|done]. simpl.
  destruct (cn_sandbox_id c) as [s|] eqn:Hs; [|done].
  assert (allowed (gw_trace g) s) as Hall by by eapply ok_sandbox; [by eapply ok_conns|].
  apply wp_bind, wp_authorize_sandbox; [done|..].
  { intros e g1 Hg1 _ _. by apply wp_bind, wp_refuse. }
  intros a g1 Hg1 Ht1 _. destruct (ac_sandbox a) as [sb|] eqn:Hsb; [|by apply wp_bind, wp_refuse].
  assert (may_start (gw_trace g1) (as_container_id sb)) as Hmay.
  { exists s, a, sb. rewrite Ht1. split_and!; [|set_solver|done|done].
    eapply allowed_mono; [|done]. set_solver. }
  apply wp_bind. eapply wp_mono.
  { case_match; [by apply (wp_k8s_shell _ _ _ _ Hg1)|by apply (wp_docker_shell _ _ _ _ Hg1)]. }
  intros [[]|e] g2 [Hg2 _]; [|by apply wp_bind, wp_refuse].
  by apply wp_bind, wp_emit.
Qed.

Lemma wp_auth_publickey {K} id user (key : K) g :
  gateway_ok g → wp (auth_publickey config id user key) (λ _ g', gateway_ok g') g.
Proof.
  intros Hg. unfold auth_publickey. destruct (uuid_parse_str user) as [s|]; [|done].
  apply wp_bind, wp_authorize_sandbox; [done|done|]. intros a g1 Hg1 Ht1 _.
  destruct (ac_authorized a) eqn:Ha; [|done]. simpl.
  apply wp_bind, wp_with_conn; [done| |done].
  intros c [H1 H2 H3 H4 H5]. split; try done. intros s' [= <-].
  exists a. split; [rewrite Ht1; set_solver|done].
Qed.

Lemma wp_data id channel bytes g :
  gateway_ok g → wp (data id channel bytes) (λ _ g', gateway_ok g') g.
Proof.
  intros Hg. apply wp_bind, wp_get_conn. destruct (gw_connections g !! id) as [c|] eqn:Hc; [|done].
  apply wp_bind, wp_with_conn; [done|intros ?; by apply set_exec_input_ok|]. intros g1 Hg1 Ht1 Hc1.
  destruct (cn_exec_input c) as [input|] eqn:Hi; [|done].
  assert (started_in (gw_trace g1) id input) as Hin.
  { rewrite Ht1. by eapply ok_input; [by eapply ok_conns|]. }
  apply wp_bind, wp_on_env; [done|]. intros w g2 Hg2 Ht2 _. rewrite <-Ht2 in Hin.
  assert (∀ g3 : G, gateway_ok g3 → gw_trace g2 ⊆ gw_trace g3 →
            wp (with_conn id (set_exec_input (Some input))) (λ _ g', gateway_ok g') g3) as Hback.
  { intros g3 Hg3 Hs. apply wp_with_conn; [done| |done]. intros c'.
    apply set_exec_input_ok. intros ? [= <-]. by eapply started_in_mono. }
  apply wp_bind. destruct w as [[]|e]; [|by apply wp_ret, Hback].
  apply wp_bind, wp_emit; [done|done|]. intros g3 Hg3 Ht3 _.
  apply wp_bind, wp_on_env; [done|]. intros r g4 Hg4 Ht4 _.
  apply wp_ret, Hback; [done|]. rewrite Ht4, Ht3. set_solver.
Qed.

Lemma wp_forward handle channel output bytes t g :
  gateway_ok g → started_out (gw_trace g) handle output → task_ok (gw_trace g) t →
  wp (forward handle channel output bytes t)
    (λ next g', gateway_ok g' ∧ Forall (task_ok (gw_trace g')) (option_list next)) g.
Proof.
  intros Hg Ho Ht. unfold forward. case_match; [by split|].
  apply wp_bind, wp_on_env; [done|]. intros [] g1 Hg1 Ht1 _; [|by split].
  rewrite <-Ht1 in Ho, Ht.
  apply wp_bind, wp_emit; [done|done|]. intros g2 Hg2 Ht2 _. split; [done|].
  apply Forall_singleton. apply (task_ok_mono (gw_trace g1)); [|done].
  change (gw_trace g1 ⊆ gw_trace g2). rewrite Ht2. set_solver.
Qed.

Lemma wp_task_step t g :
  gateway_ok g → task_ok (gw_trace g) t →
  wp (task_step config t)
    (λ next g', gateway_ok g' ∧ Forall (task_ok (gw_trace g')) (option_list next)) g.
Proof.
  intros Hg Ht. destruct t as [id|id output handle channel|id output|id output handle channel|s];
    simpl in Ht; [| | | |done].
  - apply wp_bind, wp_get_conn. destruct (gw_connections g !! id) as [c|] eqn:Hc; [|by split].
    destruct (ok_conns _ Hg id c Hc) as [_ Hh _ Ho _].
    apply wp_bind, wp_with_conn; [done|intros ?; by apply set_exec_output_ok|]. intros g1 Hg1 Ht1 _.
    destruct (cn_exec_output c) as [output|]; [|by split].
    destruct (cn_handle c) as [handle|]; [|by split].
    destruct (cn_handle_channel_id c) as [channel|]; [|by split].
    split; [done|]. apply Forall_singleton. split; [by apply Hh|].
    change (started_out (gw_trace g1) id (inl output)). rewrite Ht1. by apply Ho.
  - apply wp_bind, wp_on_env; [done|]. intros next g1 Hg1 Ht1 _. rewrite <-Ht1 in Ht.
    destruct next as [[log|e]|]; [|by split|by split].
    destruct Ht as [-> Ho]. by apply wp_forward.
  - apply wp_bind, wp_get_conn. destruct (gw_connections g !! id) as [c|] eqn:Hc; [|by split].
    destruct (ok_conns _ Hg id c Hc) as [_ Hh _ _ _]. simpl.
    destruct (cn_handle c) as [handle|]; [|by split]. simpl.
    destruct (cn_handle_channel_id c) as [channel|]; [|by split].
    split; [done|]. apply Forall_singleton. split; [by apply Hh|done].
  - apply wp_bind, wp_on_env; [done|]. intros next g1 Hg1 Ht1 _. rewrite <-Ht1 in Ht.
    destruct next as [bytes|e]; [|by split].
    destruct Ht as [-> Ho]. by apply wp_forward.
Qed.

Lemma run_task_ok i g : gateway_ok g → gateway_ok (run_st (run_task config i) g).
Proof.
  intros Hg. unfold run_st, run_task. destruct (gw_tasks g !! i) as [t|] eqn:Hi; [|done].
  destruct Hg as [H1 H2 H3 H4 H5]. pose proof (Forall_lookup_1 _ _ _ _ H4 Hi) as Ht.
  set (g0 := mkGateway _ _ _ _ _).
  assert (gateway_ok g0) as Hg0.
  { split; try done. simpl. apply Forall_app. split; [by apply Forall_take|by apply Forall_drop]. }
  destruct (wp_task_step t g0 Hg0 Ht) as [[K1 K2 K3 K4 K5] Hnext]. unfold run_st, run_val in *.
  destruct (task_step config t g0) as [next g']. split; simpl; try done. by apply Forall_app.
Qed.

Lemma new_client_ok g : gateway_ok g → gateway_ok (run_st new_client g).
Proof.
  intros [H1 H2 H3 H4 H5]. split; simpl; try done; [|lia|].
  - intros id. destruct (decide (gw_next_id g = id)) as [<-|Hne].
    + rewrite lookup_insert_eq. split; [lia|eauto].
    + rewrite lookup_insert_ne, H1 by done. lia.
  - intros id c. destruct (decide (gw_next_id g = id)) as [<-|Hne].
    + rewrite lookup_insert_eq. by intros [= <-].
    + rewrite lookup_insert_ne by done. apply H3.
Qed.

Lemma gw_step_ok {K} g g' : gw_step (PublicKey := K) g g' → gateway_ok g → gateway_ok g'.
Proof.
  intros Hstep Hg. destruct Hstep as [g e|g|g id user key|g id channel|g id channel
    |g id channel bytes|g id channel|g i].
  - by destruct Hg.
  - by apply new_client_ok.
  - by apply wp_auth_publickey.
  - apply (wp_bind _ _ (λ _ g', gateway_ok g')), wp_with_conn; [done| |done].
    intros c [H1 H2 H3 H4 H5]. by split.
  - by apply wp_shell_request.
  - by apply wp_data.
  - apply (wp_bind _ _ (λ _ g', gateway_ok g')), wp_get_conn.
    destruct (gw_connections g !! id) as [c|] eqn:Hc; [|done]. simpl.
    by destruct (ok_unrecorded _ _ _ (ok_conns _ Hg id c Hc)) as [-> _].
  - by apply run_task_ok.
Qed.

Lemma gateway_new_ok e : gateway_ok (gateway_new e).
Proof.
  split; simpl; try done. intros id. rewrite lookup_empty, is_Some_alt. lia.
Qed.

Lemma reachable_ok {K} e g : rtc (gw_step (PublicKey := K)) (gateway_new e) g → gateway_ok g.
Proof.
  intros Hg. assert (gateway_ok (gateway_new e)) as H0' by apply gateway_new_ok.
  revert H0'. induction Hg as [|g1 g2 g3 H12 _ IH]; [done|]. intros H1. by eapply IH, gw_step_ok.
Qed.

(** C13: In any run of the gateway, whatever happens around it: what a client types
    reaches only a shell that was started for its own connection, and what it is
    sent comes only from such a shell; a shell is only started in the container
    (or the pod) that the API names for a sandbox to which it allowed access; a
    connection is never dropped, and its number never used twice; no connection
    ever has an SSH session, nothing is ever counted for one, and so none is
    ever ended. *)
Theorem isolation {K} e g (Hrun : rtc (gw_step (PublicKey := K)) (gateway_new e) g) :
  (∀ id input text, Wrote id input text ∈ gw_trace g →
     ∃ target output, Started id target input output ∈ gw_trace g) ∧
  (∀ id channel output text, Forwarded id channel output text ∈ gw_trace g →
     ∃ target input, Started id target input output ∈ gw_trace g) ∧
  (∀ id target input output, Started id target input output ∈ gw_trace g →
     ∃ sandbox_id auth auth',
       Answered sandbox_id auth ∈ gw_trace g ∧ ac_authorized auth = true ∧
       Answered sandbox_id auth' ∈ gw_trace g ∧ target_of auth' target) ∧
  (∀ id, is_Some (gw_connections g !! id) ↔ 0 ≤ id < gw_next_id g) ∧
  (∀ id c, gw_connections g !! id = Some c →
     cn_session_id c = None ∧ cn_bytes_sent c = 0 ∧ cn_bytes_received c = 0) ∧
  (∀ session_id, TerminateTask session_id ∉ gw_tasks g).
Proof.
  apply reachable_ok in Hrun as [H1 H2 H3 H4 H5]. rewrite Forall_forall in H4. rewrite Forall_forall in H5. split_and!.
  - intros id input text Hin. by apply (H5 _ Hin).
  - intros id channel output text Hin. by apply (H5 _ Hin).
  - intros id target input output Hin.
    destruct (H5 _ Hin) as (s & a & (a0 & Hin0 & Ha0) & Hin1 & Ht). by exists s, a0, a.
  - done.
  - intros id c Hc. apply (ok_unrecorded _ _ _ (H3 id c Hc)).
  - intros s Hin. by apply (H4 _ Hin).
Qed.

(** How a run of the shell handler ends, the API having answered [auth]. *)
Definition shell_answer (id channel : Z) (sandbox_id : Uuid) (g : G) (g' : G) : Prop :=
  (∃ e, gw_trace g' = gw_trace g
          ++ [Shown id channel ("Error: Failed to authorize sandbox: " +:+ e +:+ crlf);
              Closed id channel] ∧ gw_connections g' = gw_connections g) ∨
  (∃ auth msg, gw_trace g' = gw_trace g
          ++ [Answered sandbox_id auth; Shown id channel (msg +:+ crlf); Closed id channel] ∧
      gw_connections g' = gw_connections g) ∨
  (∃ auth sb target input output c',
      ac_sandbox auth = Some sb ∧
      (target = as_container_id sb ∨ target = "dsb-sb-" +:+ as_container_id sb) ∧
      gw_trace g' = gw_trace g
        ++ [Answered sandbox_id auth; Started id target input output;
            Shown id channel
              ("Connected to sandbox " +:+ uuid_to_string sandbox_id +:+ " (container: "
               +:+ as_container_id sb +:+ ")" +:+ crlf +:+ crlf)] ∧
      gw_connections g' !! id = Some c' ∧ cn_exec_input c' = Some input).

Lemma wp_shell_answer id channel c s g :
  gateway_ok g → gw_connections g !! id = Some c → cn_sandbox_id c = Some s →
  wp (shell_request config id channel) (λ r g', r = Ok () ∧ shell_answer id channel s g g') g.
Proof.
  intros Hg Hc Hs. apply wp_bind, wp_get_conn. rewrite Hc. simpl. rewrite Hs.
  assert (allowed (gw_trace g) s) as Hall by by eapply ok_sandbox; [by eapply ok_conns|].
  apply wp_bind, wp_authorize_sandbox; [done|..].
  { intros e g1 Hg1 Ht1 Hc1. apply wp_bind, wp_refuse; [done|]. intros g2 Hg2 Hc2 Ht2.
    apply wp_ret. split; [done|]. left. exists e. split; [by rewrite <-Ht1|congruence]. }
  intros a g1 Hg1 Ht1 Hc1. destruct (ac_sandbox a) as [sb|] eqn:Hsb.
  2:{ apply wp_bind, wp_refuse; [done|]. intros g2 Hg2 Hc2 Ht2. apply wp_ret. split; [done|]. right. left.
      exists a, "Error: Sandbox not found or not running".
      split; [by rewrite Ht2, Ht1, <-app_assoc|congruence]. }
  assert (may_start (gw_trace g1) (as_container_id sb)) as Hmay.
  { exists s, a, sb. rewrite Ht1. split_and!; [|set_solver|done|done].
    eapply allowed_mono; [|done]. set_solver. }
  apply wp_bind. eapply wp_mono.
  { case_match; [by apply (wp_k8s_shell _ _ _ _ Hg1)|by apply (wp_docker_shell _ _ _ _ Hg1)]. }
  intros [[]|e] g2 [Hg2 Hshell]; simpl in Hshell.
  - destruct Hshell as (target & input & output & Htarget & Ht2 & Hconn).
    apply wp_bind, wp_emit; [done|done|]. intros g3 Hg3 Ht3 Hc3. apply wp_ret. split; [done|]. right. right.
    destruct (Hconn c) as (c' & Hc' & Hi & _); [by rewrite Hc1|].
    exists a, sb, target, input, output, c'. split_and!; [done|done| |by rewrite <-Hc'; f_equal|done].
    by rewrite Ht3, Ht2, Ht1, <-!app_assoc.
  - destruct Hshell as [Ht2 Hc2]. apply wp_bind, wp_refuse; [done|]. intros g3 Hg3 Hc3 Ht3.
    apply wp_ret. split; [done|]. right. left. exists a, e.
    split; [by rewrite Ht3, Ht2, Ht1, <-app_assoc|congruence].
Qed.

Lemma wp_data_written id channel bytes c input g :
  gateway_ok g → gw_connections g !! id = Some c → cn_exec_input c = Some input →
  wp (data id channel bytes)
    (λ _ g', gw_connections g' = gw_connections g ∧
       gw_trace g' = gw_trace g
         ++ (if is_ok (g_write_all input bytes (gw_env g)).1 then [Wrote id input bytes] else []))
    g.
Proof.
  intros _ Hc Hi.
  assert (alter (set_exec_input (Some input)) id (alter (set_exec_input None) id (gw_connections g))
          = gw_connections g) as Hback.
  { apply map_eq. intros id'.
    destruct (decide (id = id')) as [<-|Hne]; [|by rewrite !lookup_alter_ne].
    rewrite !lookup_alter_eq, Hc. simpl. destruct c. simpl in *. by subst. }
  unfold wp, run_st, data, get_conn, with_conn, emit, on_env, mbind, M_bind, mret, M_ret.
  simpl. rewrite Hc, Hi. simpl.
  destruct (g_write_all input bytes (gw_env g)) as [[[]|e] env']; simpl.
  - destruct (g_flush input env') as [r env'']. simpl. by rewrite Hback.
  - by rewrite Hback, app_nil_r.
Qed.

(** C14: What the handlers do in a run of the gateway.  A key is accepted, whichever
    it is, when the user's name is the identifier of a sandbox to which the API
    allows access.  A client that asks for a shell without having been accepted
    is disconnected; one that has been accepted gets a text and the end of its
    channel, or a shell in the container that the API names at that time (even
    when the API then says that access is not allowed), the connection's input
    being that of the new shell, which it may take over from an earlier one.
    What the client sends is written to that input whatever channel it came on,
    and the connection is as before. *)
Theorem session_spec {K} e g id (Hrun : rtc (gw_step (PublicKey := K)) (gateway_new e) g) :
  (∀ user (key : K), run_val (auth_publickey config id user key) g = true ↔
     ∃ s a, uuid_parse_str user = Some s ∧
       run_val (authorize_sandbox config s) g = Ok a ∧ ac_authorized a = true) ∧
  (∀ channel, gw_connections g !! id ≫= cn_sandbox_id = None →
     shell_request config id channel g = (Err "Disconnect", g)) ∧
  (∀ channel c s, gw_connections g !! id = Some c → cn_sandbox_id c = Some s →
     run_val (shell_request config id channel) g = Ok () ∧
     shell_answer id channel s g (run_st (shell_request config id channel) g)) ∧
  (∀ channel bytes c input, gw_connections g !! id = Some c → cn_exec_input c = Some input →
     gw_connections (run_st (data id channel bytes) g) = gw_connections g ∧
     gw_trace (run_st (data id channel bytes) g) = gw_trace g
       ++ (if is_ok (g_write_all input bytes (gw_env g)).1 then [Wrote id input bytes] else [])).
Proof.
  apply reachable_ok in Hrun as Hg. split_and!.
  - intros user key. unfold auth_publickey.
    destruct (uuid_parse_str user) as [s|]; [|by split; [|intros (? & ? & ? & _)]].
    unfold run_val. rewrite M_bind_unfold.
    assert (∀ s' : Uuid, Some s = Some s' → s = s') as Hinj by congruence.
    destruct (authorize_sandbox config s g) as [[a|err] g1] eqn:Hrs; simpl.
    + destruct (ac_authorized a) eqn:Ha; simpl.
      * split; [intros _|done]. exists s, a. by rewrite Hrs.
      * split; [done|]. intros (s' & a' & Hs & Hr & Ha'). apply Hinj in Hs as <-.
        rewrite Hrs in Hr. simpl in Hr. congruence.
    + split; [done|]. intros (s' & a' & Hs & Hr & _). apply Hinj in Hs as <-. by rewrite Hrs in Hr.
  - intros channel Hnone. unfold shell_request. rewrite M_bind_unfold. simpl. by rewrite Hnone.
  - intros channel c s Hc Hs. by apply (wp_shell_answer id channel c).
  - intros channel bytes c input Hc Hi. by apply (wp_data_written id channel bytes c input).
Qed.
End theorems.

(** Of the command line, the key, its file, the backend and the namespace are
    always in force; the port, the address and the level are those of a
    configuration loaded with them, and are all dropped when it does not load. *)
Theorem apply_cli_overrides_spec `{ConfigLib} fs c a env :
  let c' := run_val (apply_cli_overrides fs c a) env in
  (∀ k, arg_api_key a = Some k → ssh_api_key (ssh c') = Some k) ∧
  (∀ p, arg_host_key_path a = Some p → host_key_path (ssh c') = Some p) ∧
  ssh_backend (ssh c') = default (ssh_backend (ssh c)) (arg_backend a) ∧
  ssh_kubernetes_namespace (ssh c')
    = default (ssh_kubernetes_namespace (ssh c)) (arg_kubernetes_namespace a) ∧
  (overrides a ≠ [] → ∀ merged,
     run_val (load_with_cli_args fs (Some (overrides a))) env = Ok merged →
     ssh_port (ssh c') = ssh_port (ssh merged) ∧ ssh_api_url (ssh c') = ssh_api_url (ssh merged) ∧
     log_level (logging c') = log_level (logging merged)) ∧
  (∀ e, run_val (load_with_cli_args fs (Some (overrides a))) env = Err e → c' = set_directly a c).
Proof.
  cbv zeta. unfold apply_cli_overrides. cbv zeta.
  destruct (overrides a) as [|o os] eqn:Ho; cbn [is_nil].
  - unfold run_val. simpl. split_and!; try done; by intros ? ->.
  - unfold run_val. rewrite M_bind_unfold.
    destruct (load_with_cli_args fs (Some (o :: os)) env) as [[merged|e] env']; simpl.
    + split_and!; try done; [by intros ? ->|by intros ? ->|by intros _ ? [= <-]].
    + split_and!; try done; by intros ? ->.
Qed.

(** ** A gateway whose API names one container *)

Module GatewayDemo.
Import Demo.

(** The outside: how many outputs are still to be read. *)
#[export] Instance outside : GatewayEnv nat := {|
  g_http := λ _ _ _ _, mret (Ok (mkHttpResponse 200 "OK" (Ok "{}")));
  parse_auth_context := λ _, Ok (mkAuthContext true (Some (mkAuthSandbox 7%N "running" "c7")) []);
  parse_gw_session := λ _, Err "no session";
  GInput := string;
  GDocker := ();
  DOutput := string;
  g_connect := {| path_exists := λ _, false; docker_env := λ _, None;
                  connect_with_unix := λ _, Err "no socket"; connect_with_http := λ _, Err "no host";
                  connect_with_local_defaults := Ok (); client_build := λ _, Ok () |};
  gd_create_exec := λ _ container_id _, mret (Ok ("exec in " +:+ container_id));
  gd_start_exec := λ _ exec_id, mret (Ok (Some ("output of " +:+ exec_id, "input of " +:+ exec_id)));
  gd_next := λ _ n, match n with O => (None, O) | S n' => (Some (Ok (StdOut "hello")), n') end;
  GKube := ();
  KOutput := string;
  gk_connect := mret (Err "no cluster");
  gk_get_pod := λ _ _ _, mret (Err "no pod");
  gk_exec := λ _ _ _ _, mret (Err "no pod");
  gk_read := λ _, mret (Ok "");
  g_write_all := λ _ _, mret (Ok ());
  g_flush := λ _, mret (Ok ());
  g_handle_ok := λ _, mret true;
  HostKey := ();
  g_home := Some "/root";
  g_key_exists := λ _, mret true;
  g_load_key := λ _, mret (Ok ());
  g_create_dir_all := λ _, mret (Ok ());
  g_keygen := λ _, mret (Ok true);
|}.

(** A client connects, is accepted, asks for a shell and types; then its output
    is read. *)
Definition session : list (Gateway (E := nat) → Gateway (E := nat)) :=
  [run_st new_client;
   run_st (auth_publickey Config_default 0 "7" ());
   run_st (channel_open_session 0 3);
   run_st (shell_request Config_default 0 3);
   run_st (data 0 3 "ls");
   run_st (run_task Config_default 0);
   run_st (run_task Config_default 0)].

Definition after_session : Gateway := fold_left (λ g f, f g) session (gateway_new 1%nat).

Example session_trace :
  map (λ ev : GwEvent (E := nat),
         match ev with
         | Shown id channel text => ("shown", id, text)
         | Closed id _ => ("closed", id, "")
         | Forwarded id _ _ text => ("forwarded", id, text)
         | Wrote id input text => (input, id, text)
         | Answered s _ => ("answered", 0, "")
         | Started id target _ _ => ("started", id, target)
         end) (gw_trace after_session)
  = [("answered", 0, ""); ("answered", 0, ""); ("started", 0, "c7");
     ("shown", 0, "Connected to sandbox 7 (container: c7)" +:+ crlf +:+ crlf);
     ("input of exec in c7", 0, "ls"); ("forwarded", 0, "hello")].
Proof. vm_compute. done. Qed.

Lemma session_run : rtc (gw_step Config_default (PublicKey := ())) (gateway_new 1%nat) after_session.
Proof.
  unfold after_session, session. cbn [fold_left].
  eapply rtc_l; [apply StepClient|]. eapply rtc_l; [apply (StepAuth _ _ 0 "7" ())|].
  eapply rtc_l; [apply (StepOpen _ _ 0 3)|]. eapply rtc_l; [apply (StepShell _ _ 0 3)|].
  eapply rtc_l; [apply (StepData _ _ 0 3 "ls")|]. eapply rtc_l; [apply (StepTask _ _ 0)|].
  eapply rtc_l; [apply (StepTask _ _ 0)|]. apply rtc_refl.
Qed.

End GatewayDemo.

(** ** Witnesses *)

Module Witnesses.
Import Demo GatewayDemo.

Lemma isolation_witness :
  rtc (gw_step Config_default (PublicKey := ())) (gateway_new 1%nat) after_session ∧
  (∃ target output, Started 0 target "input of exec in c7" output ∈ gw_trace after_session) ∧
  is_Some (gw_connections after_session !! 0).
Proof.
  split; [apply session_run|].
  destruct (isolation Config_default 1%nat after_session session_run) as (Hw & _ & _ & Hids & _).
  split; [|by apply Hids; vm_compute].
  apply (Hw 0 _ "ls"). assert (gw_trace after_session !! 4%nat = Some (Wrote 0 "input of exec in c7" "ls"))
    as Hin by (vm_compute; reflexivity).
  by eapply list_elem_of_lookup_2.
Defined.

Lemma session_spec_witness :
  run_val (shell_request Config_default 0 5) after_session = Ok () ∧
  shell_answer 0 5 7%N after_session (run_st (shell_request Config_default 0 5) after_session) ∧
  gw_connections (run_st (data 0 9 "exit") after_session) = gw_connections after_session.
Proof.
  destruct (session_spec Config_default 1%nat after_session 0 session_run) as (_ & _ & Hshell & Hdata).
  destruct (gw_connections after_session !! 0) as [c|] eqn:Hc; [|by vm_compute in Hc].
  assert (cn_sandbox_id c = Some 7%N ∧ cn_exec_input c = Some "input of exec in c7") as [Hs Hi]
    by (vm_compute in Hc; injection Hc as <-; done).
  destruct (Hshell 5 c 7%N eq_refl Hs) as [Hr Ha]. split; [done|split; [done|]].
  by apply (Hdata 9 "exit" c "input of exec in c7").
Defined.
End Witnesses.
