(* ===== verification/Sockets.v ===== *)
(** * Sockets: the VNC proxy and the web terminal

    Models [src/vnc_proxy.rs] and [src/web_terminal.rs] with the routes that
    [src/api/server/mod.rs] makes of them: who gets a connection to a sandbox,
    and what is carried over it in both directions.  The WebSockets, the TCP
    connection, the terminals of the backends and the encoding of messages are
    parameters. *)

From S2P Require Import Prelude Text Paths Errors Types Store World Demo Service Config Postgres Auth.
From Stdlib Require Import Ascii.

(** ** What is given with a request

    A header that is not text is [Some None]. *)

Fixpoint query_param (name : string) (pairs : list string) : option string :=
  match pairs with
  | [] => None
  | p :: pairs' =>
      match split_once "=" p with
      | Some (n, value) => if String.eqb n name then Some value else query_param name pairs'
      | None => query_param name pairs'
      end
  end.

Definition from_query (name : string) (query : option string) : option string :=
  query ≫= λ q, query_param name (split_on "&" q).

Definition invalid_header : Z * string := (401, "Invalid header encoding").

(** [OptionalApiKey], the same in both files, and [OptionalSessionToken]. *)
Definition OptionalApiKey (header : option (option string)) (query : option string)
    : Result (option string) (Z * string) :=
  match header with
  | Some (Some key) => Ok (Some key)
  | Some None => Err invalid_header
  | None => Ok (from_query "api_key" query)
  end.

Definition OptionalSessionToken (header : option (option string)) (query : option string)
    : Result (option string) (Z * string) :=
  match header with
  | Some None => Err invalid_header
  | _ =>
      match mjoin header ≫= strip_prefix "Bearer " with
      | Some token => Ok (Some token)
      | None => Ok (from_query "token" query)
      end
  end.

(** ** Errors *)

Inductive VncProxyError : Type :=
  | VncSandboxNotFound (text : string)
  | VncDatabaseConnectionFailed (text : string)
  | VncUnauthorized (text : string).

Inductive WebTerminalError : Type :=
  | WtContainerNotFound (text : string)
  | WtBackendConnectionFailed (text : string)
  | WtUnauthorized (text : string).

Definition VncProxyError_to_string (e : VncProxyError) : string :=
  match e with
  | VncSandboxNotFound s => "Sandbox not found: " +:+ s
  | VncDatabaseConnectionFailed s => "Database connection failed: " +:+ s
  | VncUnauthorized s => "Unauthorized: " +:+ s
  end.

Definition WebTerminalError_to_string (e : WebTerminalError) : string :=
  match e with
  | WtContainerNotFound s => "Container not found: " +:+ s
  | WtBackendConnectionFailed s => "Backend connection failed: " +:+ s
  | WtUnauthorized s => "Unauthorized: " +:+ s
  end.

(** ** The keys *)

Definition same_key (api_key expected : option string) : bool :=
  match expected, api_key with Some e, Some provided => String.eqb provided e | _, _ => false end.

(** The check of both files, up to the type of its error. *)
Definition check_api_key {X} (unauthorized : string → X) (api_key expected_key admin_key : option string)
    : Result () X :=
  if same_key api_key expected_key then Ok ()
  else if same_key api_key admin_key then Ok ()
  else
    match expected_key, admin_key, api_key with
    | None, None, _ => Ok ()
    | _, _, Some _ => Err (unauthorized "Invalid API key")
    | _, _, None => Err (unauthorized "Missing API key")
    end.

Definition vnc_validate_api_key := check_api_key VncUnauthorized.
Definition terminal_validate_api_key := check_api_key WtUnauthorized.

(** ** The container of a sandbox *)

Section access.
Context `{PgLib} `{!UuidLib}.

(** What a request reads: the table of sandboxes, that of session tokens, and
    the clock.  A statement that fails when there is a connection is left out. *)
Record Access : Type := mkAccess {
  ax_store : PgStore;
  ax_tokens : PostgresSessionTokenStore;
  ax_now : DateTime;
}.

(** The lookup of both files, up to the errors for a sandbox and a database that
    are not found.  Only a key of the database is held to its own sandboxes. *)
Definition lookup_container {X} (not_found no_database : string → X) (ax : Access)
    (config : Config) (identity : option ApiKeyIdentity) (sandbox_id : string) : Result string X :=
  let? uuid := option_ok_or (not_found "Invalid sandbox ID format") (uuid_parse_str sandbox_id) in
  let? _ := option_ok_or (no_database "Database URL not configured") (get_url (database config)) in
  let? _ := if pg_connects (ax_store ax) then Ok ()
            else Err (no_database ("Failed to connect to database: " +:+ pg_error "connect")) in
  let live := option_filter is_live (pg_rows (ax_store ax) !! uuid) in
  let? row :=
    match identity with
    | Some (mkIdentity id Database) =>
        let? api_key_id := option_ok_or (not_found "Database API key missing identity") id in
        option_ok_or (not_found "Sandbox not found") (option_filter (has_owner api_key_id) live)
    | _ => option_ok_or (not_found "Sandbox not found") live
    end in
  let? container_id :=
    result_map_err (λ e, not_found ("Failed to get container_id: " +:+ e))
      (try_get as_text "container_id" row) in
  if is_empty container_id then Err (not_found "Sandbox has no container ID") else Ok container_id.

Definition vnc_container_id := lookup_container VncSandboxNotFound VncDatabaseConnectionFailed.
Definition terminal_container_id := lookup_container WtContainerNotFound WtBackendConnectionFailed.

(** ** The handlers *)

(** An answer, or a WebSocket to the container. *)
Inductive WsOutcome : Type :=
  | WsAnswer (status : Z) (body : string)
  | WsUpgrade (container_id : string).

(** The settings of a handler: its key, and for VNC whether it has a pool for
    the session tokens. *)
Record VncProxyState : Type := mkVncProxyState {
  vnc_key : option string;
  vnc_config : Config;
  vnc_has_pool : bool;
}.

Record WebTerminalState : Type := mkWebTerminalState {
  wt_key : option string;
  wt_config : Config;
}.

Definition valid_vnc_token (ax : Access) (token sandbox_id : string) : bool :=
  match run_val (get_session_token token) (ax_tokens ax) with
  | Ok (Some st) =>
      token_validate (ax_now ax) (tok_sandbox_id st) "vnc" st
      && String.eqb (tok_sandbox_id st) sandbox_id
  | _ => false
  end.

(** A session token, once given, decides; without one, a request that has no
    identity is asked for a key where the settings say so. *)
Definition vnc_authorized (ax : Access) (state : VncProxyState) (sandbox_id : string)
    (identity : option ApiKeyIdentity) (api_key session_token : option string) : Result () WsOutcome :=
  match session_token with
  | Some token =>
      if vnc_has_pool state then
        if valid_vnc_token ax token sandbox_id then Ok ()
        else Err (WsAnswer 401 "Unauthorized: Invalid session token")
      else Err (WsAnswer 500 "Database not configured")
  | None =>
      if vnc_require_auth (server (vnc_config state)) && bool_decide (identity = None) then
        result_map_err
          (λ e, WsAnswer 401 ("Unauthorized: " +:+ VncProxyError_to_string e))
          (vnc_validate_api_key api_key (vnc_key state) (Config.admin_api_key (server (vnc_config state))))
      else Ok ()
  end.

Definition vnc_websocket (ax : Access) (state : VncProxyState) (sandbox_id : string)
    (identity : option ApiKeyIdentity) (api_key session_token : option string) : WsOutcome :=
  match vnc_authorized ax state sandbox_id identity api_key session_token with
  | Err answer => answer
  | Ok _ =>
      match vnc_container_id ax (vnc_config state) identity sandbox_id with
      | Ok container_id => WsUpgrade container_id
      | Err e => WsAnswer 404 ("Not found: " +:+ VncProxyError_to_string e)
      end
  end.

Definition terminal_authorized (state : WebTerminalState) (identity : option ApiKeyIdentity)
    (api_key : option string) : Result () WsOutcome :=
  match identity with
  | Some _ => Ok ()
  | None =>
      result_map_err
        (λ e, WsAnswer 401 ("Unauthorized: " +:+ WebTerminalError_to_string e))
        (terminal_validate_api_key api_key (wt_key state) (Config.admin_api_key (server (wt_config state))))
  end.

Definition terminal_websocket (ax : Access) (state : WebTerminalState) (sandbox_id : string)
    (identity : option ApiKeyIdentity) (api_key : option string) : WsOutcome :=
  match terminal_authorized state identity api_key with
  | Err answer => answer
  | Ok _ =>
      match terminal_container_id ax (wt_config state) identity sandbox_id with
      | Ok container_id => WsUpgrade container_id
      | Err e => WsAnswer 404 ("Not found: " +:+ WebTerminalError_to_string e)
      end
  end.

(** The page is the same for every sandbox. *)
Definition terminal_page (page : string) (state : WebTerminalState)
    (identity : option ApiKeyIdentity) (api_key : option string) : WsOutcome :=
  match terminal_authorized state identity api_key with
  | Err answer => answer
  | Ok _ => WsAnswer 200 page
  end.

(** ** The routes ([server/mod.rs]) *)

Definition terminal_state (config : Config) : WebTerminalState :=
  mkWebTerminalState
    (option_or (web_terminal_api_key (server config)) (server_api_key (server config))) config.

(** There is a pool when a database is configured and the pool can be made. *)
Definition vnc_state (config : Config) (pool : bool) : VncProxyState :=
  mkVncProxyState
    (option_or (vnc_api_key (server config))
       (option_or (web_terminal_api_key (server config)) (server_api_key (server config))))
    config pool.

Definition auth_state (config : Config) (has_store : bool) : AuthState :=
  {| config_api_key := server_api_key (server config);
     Auth.admin_api_key := Config.admin_api_key (server config);
     require_auth := server_require_auth (server config);
     static_server_require_auth := static_require_auth (static_server config);
     has_api_key_store := has_store |}.

Context {K : Type} `{!ApiKeyStore K} `{!IdentityCodec}.

(** A request through the middleware to a handler: the answer of the one or the
    outcome of the other; [None] is a panic. *)
Definition behind_auth (st : AuthState) (req : AuthRequest) (k : K)
    (handler : option ApiKeyIdentity → WsOutcome) : option (AuthOutcome + WsOutcome) :=
  match run_val (api_key_auth st req) k with
  | Some (Next identity) => Some (inr (handler identity))
  | Some answer => Some (inl answer)
  | None => None
  end.

Definition extracted {X} (r : Result X (Z * string)) (handler : X → WsOutcome) : WsOutcome :=
  match r with Ok x => handler x | Err (status, body) => WsAnswer status body end.

Definition terminal_endpoint (ax : Access) (has_store : bool) (state : WebTerminalState)
    (sandbox_id : string) (req : AuthRequest) (k : K) : option (AuthOutcome + WsOutcome) :=
  behind_auth (auth_state (wt_config state) has_store) req k (λ identity,
    extracted (OptionalApiKey (rq_api_key req) (rq_query req)) (λ api_key,
      terminal_websocket ax state sandbox_id identity api_key)).

Definition vnc_endpoint (ax : Access) (has_store : bool) (state : VncProxyState)
    (sandbox_id : string) (req : AuthRequest) (authorization : option (option string)) (k : K)
    : option (AuthOutcome + WsOutcome) :=
  behind_auth (auth_state (vnc_config state) has_store) req k (λ identity,
    extracted (OptionalApiKey (rq_api_key req) (rq_query req)) (λ api_key,
      extracted (OptionalSessionToken authorization (rq_query req)) (λ session_token,
        vnc_websocket ax state sandbox_id identity api_key session_token))).
End access.

(** ** What is carried over a connection *)

Inductive TerminalFrame : Type :=
  | FrameData (bytes : string)
  | FrameClosed.

Inductive ClientMessage : Type :=
  | Input (text : string)
  | Resize (rows cols : Z).

Inductive ServerMessage : Type :=
  | Output (text : string)
  | ErrorMessage (text : string)
  | End_.

(** [MessageOther]: a ping or a pong. *)
Inductive Message : Type :=
  | MessageText (text : string)
  | MessageBinary (bytes : string)
  | MessageClose
  | MessageOther.

Class SocketEnv (E : Type) := {
  Terminal : Type;
  Stream : Type;
  e_exec_terminal : string → option string → M E (Result Terminal string);
  e_write : Terminal → string → M E (Result () string);
  e_resize : Terminal → Z → Z → M E (Result () string);
  e_ws_send : Message → M E bool;
  e_ws_close : M E ();
  e_address : string → Z → M E (Result string string);
  e_tcp_connect : string → M E (Result Stream string);
  e_tcp_write : Stream → string → M E bool;
  utf8_lossy : string → string;
  server_json : ServerMessage → option string;
  client_json : string → option ClientMessage;
}.

Section sockets.
Context {E : Type} `{SocketEnv E}.

(** What is tried on either side, in order, kept for the theorems. *)
Inductive Attempt : Type :=
  | Sent (m : ServerMessage)
  | Typed (text : string)
  | Resized (rows cols : Z)
  | Relayed (bytes : string)
  | Forwarded (bytes : string).

Record Socket : Type := mkSocket {
  so_env : E;
  so_log : list Attempt;
}.

Definition so_on_env {A} (m : M E A) : M Socket A := λ s,
  let '(a, e) := m (so_env s) in (a, mkSocket e (so_log s)).

Definition attempt {A} (what : Attempt) (m : M E A) : M Socket A := λ s,
  let '(a, e) := m (so_env s) in (a, mkSocket e (so_log s ++ [what])).

(** *** The terminal ([web_terminal.rs])

    What [select!] gives next, from the terminal or from the client. *)
Inductive TerminalEvent : Type :=
  | FromTerminal (frame : Result (option TerminalFrame) string)
  | FromClient (message : option (Result Message string)).

Definition send_message (m : ServerMessage) : M Socket bool :=
  match server_json m with
  | Some json => attempt (Sent m) (e_ws_send (MessageText json))
  | None => mret true
  end.

(** One turn of the loop: whether it goes on. *)
Definition terminal_turn (t : Terminal) (ev : TerminalEvent) : M Socket bool :=
  match ev with
  | FromTerminal (Ok (Some (FrameData bytes))) =>
      let data_str := utf8_lossy bytes in
      if is_empty data_str then mret true else send_message (Output data_str)
  | FromTerminal (Ok (Some FrameClosed)) | FromTerminal (Ok None) =>
      _ ← send_message End_; mret false
  | FromTerminal (Err _) => mret false
  | FromClient (Some (Ok (MessageText text))) =>
      match client_json text with
      | Some (Input data) => r ← attempt (Typed data) (e_write t data); mret (is_ok r)
      | Some (Resize rows cols) => _ ← attempt (Resized rows cols) (e_resize t rows cols); mret true
      | None => mret true
      end
  | FromClient (Some (Ok MessageClose)) => mret false
  | FromClient (Some (Ok _)) => mret true
  | FromClient (Some (Err _)) | FromClient None => mret false
  end.

(** The loop over what there is so far: whether it has ended. *)
Fixpoint terminal_loop (t : Terminal) (evs : list TerminalEvent) : M Socket bool :=
  match evs with
  | [] => mret false
  | ev :: evs' =>
      goes_on ← terminal_turn t ev;
      match goes_on with true => terminal_loop t evs' | false => mret true end
  end.

Definition handle_terminal_socket (container_id : string) (evs : list TerminalEvent)
    : M Socket bool :=
  first ← so_on_env (e_exec_terminal container_id None);
  match first with
  | Ok t => terminal_loop t evs
  | Err _ =>
      second ← so_on_env (e_exec_terminal container_id (Some "sh"));
      match second with
      | Ok t => terminal_loop t evs
      | Err e => _ ← send_message (ErrorMessage ("Failed to create terminal: " +:+ e)); mret true
      end
  end.

(** *** VNC ([vnc_proxy.rs])

    The two tasks, each over what it reads; an empty read is the end of the
    stream. *)
Fixpoint tcp_to_ws (reads : list (Result string string)) : M Socket bool :=
  match reads with
  | [] => mret false
  | Ok bytes :: reads' =>
      if is_empty bytes then mret true
      else
        sent ← attempt (Relayed bytes) (e_ws_send (MessageBinary bytes));
        match sent with true => tcp_to_ws reads' | false => mret true end
  | Err _ :: _ => mret true
  end.

Fixpoint ws_to_tcp (stream : Stream) (messages : list (Result Message string)) : M Socket bool :=
  match messages with
  | [] => mret false
  | Ok (MessageBinary bytes) :: messages' =>
      written ← attempt (Forwarded bytes) (e_tcp_write stream bytes);
      match written with true => ws_to_tcp stream messages' | false => mret true end
  | Ok MessageClose :: _ => mret true
  | Ok _ :: messages' => ws_to_tcp stream messages'
  | Err _ :: _ => mret true
  end.

Definition abandon (msg : string) : M Socket bool :=
  _ ← so_on_env (e_ws_send (MessageText msg)); _ ← so_on_env e_ws_close; mret true.

(** [join!] waits for both tasks. *)
Definition handle_vnc_socket (sandbox_id container_id : string) (vnc_port : Z)
    (reads : list (Result string string)) (messages : list (Result Message string)) : M Socket bool :=
  addr ← so_on_env (e_address container_id vnc_port);
  match addr with
  | Err e => abandon ("Failed to resolve VNC address for sandbox " +:+ sandbox_id +:+ ": " +:+ e)
  | Ok vnc_addr =>
      tcp ← so_on_env (e_tcp_connect vnc_addr);
      match tcp with
      | Err e =>
          abandon ("Failed to connect to VNC server at " +:+ vnc_addr +:+ ": " +:+ e
                   +:+ ". Make sure the sandbox is running and VNC is enabled.")
      | Ok stream =>
          read_done ← tcp_to_ws reads;
          write_done ← ws_to_tcp stream messages;
          mret (read_done && write_done)
      end
  end.
End sockets.

(** ** Theorems: who gets a connection *)

Section access_facts.
Context `{PgLib} `{!UuidLib}.

Definition key_fits (api_key expected_key admin_key : option string) : Prop :=
  (expected_key = None ∧ admin_key = None) ∨
  ∃ key, api_key = Some key ∧ (expected_key = Some key ∨ admin_key = Some key).

Lemma same_key_true api_key expected :
  same_key api_key expected = true ↔ ∃ key, api_key = Some key ∧ expected = Some key.
Proof.
  unfold same_key. destruct expected as [e|], api_key as [k|];
    try (split; [done|by intros (? & ? & ?)]).
  rewrite String.eqb_eq. split; [intros ->; by exists e|]. intros (key & [= ->] & [= ->]). done.
Qed.

Lemma check_api_key_Ok {X} (f : string → X) api_key expected_key admin_key :
  check_api_key f api_key expected_key admin_key = Ok () ↔
  key_fits api_key expected_key admin_key.
Proof.
  unfold check_api_key, key_fits.
  assert (He := same_key_true api_key expected_key). assert (Ha := same_key_true api_key admin_key).
  destruct (same_key api_key expected_key).
  { split; [intros _|done]. right. destruct (proj1 He eq_refl) as (key & ? & ?). eauto. }
  destruct (same_key api_key admin_key).
  { split; [intros _|done]. right. destruct (proj1 Ha eq_refl) as (key & ? & ?). eauto. }
  assert (¬ ∃ key, api_key = Some key ∧ (expected_key = Some key ∨ admin_key = Some key)) as Hno.
  { intros (key & Hk & [Hx|Hx]); [cut (false = true); [done|]; apply He; eauto|].
    cut (false = true); [done|]. apply Ha; eauto. }
  split; [intros Hok|intros [[-> ->]|Hk]; [done|by destruct Hno]].
  left. by destruct expected_key, admin_key, api_key.
Qed.

(** The live sandbox of this identifier has this container, and for a key of
    the database it is its own. *)
Definition container_of (ax : Access) (config : Config) (identity : option ApiKeyIdentity)
    (sandbox_id container_id : string) : Prop :=
  is_Some (get_url (database config)) ∧ pg_connects (ax_store ax) = true ∧
  ∃ id row, uuid_parse_str sandbox_id = Some id ∧ pg_rows (ax_store ax) !! id = Some row ∧
    is_live row = true ∧
    column "container_id" row = Some (SqlText container_id) ∧ container_id ≠ "" ∧
    ∀ key, identity = Some (mkIdentity key Database) → ∃ u, key = Some u ∧ has_owner u row = true.

Lemma option_ok_or_Ok {A X} (e : X) (o : option A) a : option_ok_or e o = Ok a ↔ o = Some a.
Proof. destruct o; simpl; split; congruence. Qed.

Lemma container_column_Ok {X} (f : string → X) (e : X) row container_id :
  (let? c := result_map_err f (try_get as_text "container_id" row) in
   if is_empty c then Err e else Ok c) = Ok container_id ↔
  column "container_id" row = Some (SqlText container_id) ∧ container_id ≠ "".
Proof.
  unfold try_get. destruct (column "container_id" row) as [v|]; simpl; [|by split; [|intros [? _]]].
  destruct v as [| |t| | | |]; simpl; try by split; [|intros [? _]].
  destruct t as [|c t]; simpl; split; try done.
  - by intros [[= <-] ?].
  - by intros [= <-].
  - by intros [[= ->] _].
Qed.

Lemma lookup_container_Ok {X} (nf nd : string → X) ax config identity sandbox_id container_id :
  lookup_container nf nd ax config identity sandbox_id = Ok container_id ↔
  container_of ax config identity sandbox_id container_id.
Proof.
  unfold lookup_container, container_of. rewrite result_bind_Ok.
  setoid_rewrite option_ok_or_Ok. split.
  - intros (id & Hid & Hrest). apply result_bind_Ok in Hrest as (url & Hurl & Hrest).
    apply option_ok_or_Ok in Hurl. apply result_bind_Ok in Hrest as ([] & Hconn & Hrest).
    destruct (pg_connects (ax_store ax)); [|done]. clear Hconn.
    split; [eauto|]. split; [done|]. apply result_bind_Ok in Hrest as (row & Hrow & Hrest).
    apply container_column_Ok in Hrest as [Hcol Hne].
    assert (option_filter is_live (pg_rows (ax_store ax) !! id) = Some row ∧
            ∀ key, identity = Some (mkIdentity key Database) →
              ∃ u, key = Some u ∧ has_owner u row = true) as [Hlive Hown].
    { destruct identity as [[key []]|].
      - apply option_ok_or_Ok in Hrow. split; [done|]. by intros ? [=].
      - apply result_bind_Ok in Hrow as (u & Hu & Hrow).
        apply option_ok_or_Ok in Hu, Hrow. apply option_filter_Some in Hrow as [Hl Ho].
        split; [done|]. intros key' [= <-]. eauto.
      - apply option_ok_or_Ok in Hrow. by split. }
    apply option_filter_Some in Hlive as [Hl Hlv]. exists id, row. by split_and!.
  - intros ([url Hurl] & Hconn & id & row & Hid & Hrow & Hlive & Hcol & Hne & Hown).
    exists id. split; [done|]. rewrite Hurl, Hconn. simpl.
    assert (option_filter is_live (pg_rows (ax_store ax) !! id) = Some row) as Hl
      by by apply option_filter_Some.
    rewrite Hl. apply result_bind_Ok. exists row. split.
    + destruct identity as [[key []]|]; [done| |done].
      destruct (Hown key eq_refl) as (u & -> & Ho). simpl. by rewrite Ho.
    + by apply container_column_Ok.
Qed.

(** A session token of the table that is for the VNC of this sandbox and has
    not expired. *)
Definition token_opens (ax : Access) (token sandbox_id : string) : Prop :=
  tok_connects (ax_tokens ax) = true ∧
  ∃ st, tok_rows (ax_tokens ax) !! token = Some st ∧ tok_service st = "vnc" ∧
    tok_sandbox_id st = sandbox_id ∧ ax_now ax ≤ tok_expires_at st.

Lemma valid_vnc_token_true ax token sandbox_id :
  valid_vnc_token ax token sandbox_id = true ↔ token_opens ax token sandbox_id.
Proof.
  unfold valid_vnc_token, token_opens, run_val, get_session_token.
  destruct (tok_connects (ax_tokens ax)); simpl; [|by split; [|intros [? _]]].
  destruct (tok_rows (ax_tokens ax) !! token) as [st|]; [|by split; [|intros (_ & ? & ? & _)]].
  unfold token_validate, is_expired.
  rewrite !andb_true_iff, negb_true_iff, bool_decide_eq_false, !String.eqb_eq. split.
  - intros (((? & _) & ?) & ?). split; [done|]. exists st. split_and!; [done..|lia].
  - intros (_ & st' & [= <-] & ? & ? & ?). split_and!; [lia|done..].
Qed.

Lemma vnc_websocket_upgrade ax state sandbox_id identity api_key session_token container_id :
  vnc_websocket ax state sandbox_id identity api_key session_token = WsUpgrade container_id ↔
  container_of ax (vnc_config state) identity sandbox_id container_id ∧
  match session_token with
  | Some token => vnc_has_pool state = true ∧ token_opens ax token sandbox_id
  | None =>
      vnc_require_auth (server (vnc_config state)) = true → identity = None →
      key_fits api_key (vnc_key state) (Config.admin_api_key (server (vnc_config state)))
  end.
Proof.
  unfold vnc_websocket.
  assert (Hcont := lookup_container_Ok VncSandboxNotFound VncDatabaseConnectionFailed ax
                     (vnc_config state) identity sandbox_id container_id).
  assert (vnc_authorized ax state sandbox_id identity api_key session_token = Ok () ↔
          match session_token with
          | Some token => vnc_has_pool state = true ∧ token_opens ax token sandbox_id
          | None =>
              vnc_require_auth (server (vnc_config state)) = true → identity = None →
              key_fits api_key (vnc_key state) (Config.admin_api_key (server (vnc_config state)))
          end) as Hauth.
  { unfold vnc_authorized. destruct session_token as [token|].
    - destruct (vnc_has_pool state); [|by split; [|intros [? _]]].
      assert (Ht := valid_vnc_token_true ax token sandbox_id).
      destruct (valid_vnc_token ax token sandbox_id); [by rewrite <-Ht|].
      split; [done|]. intros [_ Ho]. by apply Ht in Ho.
    - rewrite <-(check_api_key_Ok VncUnauthorized). unfold vnc_validate_api_key.
      destruct (vnc_require_auth _); simpl; [|done].
      case_bool_decide as Hi; [|by split].
      destruct (check_api_key _ _ _ _) as [[]|e]; simpl; [done|].
      split; [done|]. intros Hk. by specialize (Hk eq_refl Hi). }
  assert (∀ e, vnc_authorized ax state sandbox_id identity api_key session_token = Err e →
            ∃ status body, e = WsAnswer status body) as Herr.
  { intros e. unfold vnc_authorized. destruct session_token.
    - repeat case_match; intros [= <-]; eauto.
    - case_match; [|done]. destruct (vnc_validate_api_key _ _ _); intros [= <-]; eauto. }
  destruct (vnc_authorized _ _ _ _ _ _) as [[]|e].
  - unfold vnc_container_id. rewrite <-Hauth, <-Hcont.
    destruct (lookup_container _ _ _ _ _ _); split; try done; [by intros [= <-]|by intros [[= <-] _]|].
    by intros [? _].
  - destruct (Herr e eq_refl) as (? & ? & ->). rewrite <-Hauth. by split; [|intros [_ ?]].
Qed.

Lemma terminal_websocket_upgrade ax state sandbox_id identity api_key container_id :
  terminal_websocket ax state sandbox_id identity api_key = WsUpgrade container_id ↔
  container_of ax (wt_config state) identity sandbox_id container_id ∧
  (identity = None →
     key_fits api_key (wt_key state) (Config.admin_api_key (server (wt_config state)))).
Proof.
  unfold terminal_websocket, terminal_authorized.
  assert (Hcont := lookup_container_Ok WtContainerNotFound WtBackendConnectionFailed ax
                     (wt_config state) identity sandbox_id container_id).
  unfold terminal_container_id. rewrite <-(check_api_key_Ok WtUnauthorized), <-Hcont.
  unfold terminal_validate_api_key. destruct identity as [i|]; simpl.
  - destruct (lookup_container _ _ _ _ _ _); split; try done; [by intros [= <-]|by intros [[= <-] _]|].
    by intros [? _].
  - destruct (check_api_key _ _ _ _) as [[]|e]; simpl.
    + destruct (lookup_container _ _ _ _ _ _); split; try done; [by intros [= <-]|by intros [[= <-] _]|].
      by intros [? _].
    + split; [done|]. intros [_ Hk]. by specialize (Hk eq_refl).
Qed.

Context {K : Type} `{!ApiKeyStore K} `{!IdentityCodec}.

Lemma not_exempt path id :
  path = "/terminal/" +:+ id ∨ path = "/vnc/" +:+ id → is_exempt path = false.
Proof. by intros [-> | ->]. Qed.

Lemma vnc_path id : starts_with "/vnc/" ("/vnc/" +:+ id) = true.
Proof. done. Qed.

(** The identity was proved by the request. *)
Definition proved (st : AuthState) (req : AuthRequest) (k : K) (i : ApiKeyIdentity) : Prop :=
  session_identity req = Some i ∨
  ∃ key, provided_key req = Some key ∧ key_proves st k key i.

(** What the middleware lets through. *)
Lemma next_spec st req k identity :
  run_val (api_key_auth st req) k = Some (Next identity) →
  match identity with
  | Some i => require_auth st = true → proved st req k i
  | None => open_path st req
  end.
Proof.
  rewrite run_api_key_auth. destruct (is_exempt (rq_path req)) eqn:Hex; [intros [= <-]; by left|].
  destruct (starts_with "/vnc/" (rq_path req) && negb (is_websocket req)) eqn:Hv; [done|].
  assert (Hstage := key_stage_guards st req k Hv).
  destruct (session_identity req) as [i|] eqn:Hs; [intros [= <-]; by left|].
  destruct (rq_api_key req) as [[h|]|]; [|done|]; intros Hr; rewrite Hr in Hstage;
    (destruct identity; [intros Ha; right; by apply Hstage|done]).
Qed.

(** On the paths of the two handlers. *)
Lemma behind_auth_inr st req k handler outcome :
  is_exempt (rq_path req) = false →
  behind_auth st req k handler = Some (inr outcome) →
  ∃ identity, outcome = handler identity ∧
    match identity with
    | Some i => require_auth st = true → proved st req k i
    | None => require_auth st = true ∧
        (starts_with "/vnc/" (rq_path req) = true ∨ starts_with "/static/" (rq_path req) = true)
    end.
Proof.
  intros Hex. unfold behind_auth.
  destruct (run_val (api_key_auth st req) k) as [[identity| |]|] eqn:Hr; try done.
  intros [= <-]. exists identity. split; [done|]. apply next_spec in Hr.
  destruct identity; [done|]. destruct Hr as [Hx|(Ha & [[Hp _]|[Hp _]])]; [congruence|auto..].
Qed.

Lemma extracted_upgrade {X} (r : Result X (Z * string)) handler container_id :
  extracted r handler = WsUpgrade container_id → ∃ x, r = Ok x ∧ handler x = WsUpgrade container_id.
Proof. destruct r as [x|[status body]]; [|done]. by exists x. Qed.

(** C29: Where authentication is required, a terminal in a container is given only to
    a session or a key that the middleware took, for a live sandbox that has this
    container and, if the key is one of the database, belongs to it.  Where it
    is not required, it is given to anyone for any live sandbox.  The key that
    is configured for the terminal has no effect on the outcome: what the
    middleware does not take never reaches the handler. *)
Theorem terminal_access_spec ax has_store state sandbox_id req (k : K)
    (Hpath : rq_path req = "/terminal/" +:+ sandbox_id) :
  let st := auth_state (wt_config state) has_store in
  (∀ container_id,
     terminal_endpoint ax has_store state sandbox_id req k = Some (inr (WsUpgrade container_id)) →
     require_auth st = true →
     ∃ i, proved st req k i ∧ container_of ax (wt_config state) (Some i) sandbox_id container_id) ∧
  (∀ container_id, require_auth st = false → rq_session req = None → rq_api_key req = None →
     rq_query req = None → container_of ax (wt_config state) None sandbox_id container_id →
     terminal_endpoint ax has_store state sandbox_id req k = Some (inr (WsUpgrade container_id))) ∧
  (∀ key, terminal_endpoint ax has_store (mkWebTerminalState key (wt_config state)) sandbox_id req k
          = terminal_endpoint ax has_store state sandbox_id req k).
Proof.
  intros st. assert (is_exempt (rq_path req) = false) as Hex.
  { apply (not_exempt _ sandbox_id). by left. }
  assert (starts_with "/vnc/" (rq_path req) = false) as Hv by by rewrite Hpath.
  assert (starts_with "/static/" (rq_path req) = false) as Hst by by rewrite Hpath.
  split_and!.
  - intros container_id Hup Hreq. apply behind_auth_inr in Hup as (identity & Hh & Hi); [|done].
    symmetry in Hh. apply extracted_upgrade in Hh as (api_key & _ & Hh).
    apply terminal_websocket_upgrade in Hh as [Hc _].
    destruct identity as [i|]; [exists i; split; [by apply Hi|done]|].
    destruct Hi as [_ [Hx|Hx]]; congruence.
  - intros container_id Hreq Hs Hk Hq Hc.
    unfold terminal_endpoint, behind_auth. rewrite run_api_key_auth, Hex, Hv. simpl.
    unfold session_identity. rewrite Hs, Hk. simpl.
    unfold key_stage, provided_key. rewrite Hk, Hq. simpl.
    unfold unauthenticated. unfold st in Hreq. rewrite Hreq. simpl.
    assert (terminal_websocket ax state sandbox_id (Some privileged) None = WsUpgrade container_id)
      as ->; [|done].
    apply terminal_websocket_upgrade. split; [|done].
    destruct Hc as (? & ? & id & row & ? & ? & ? & ? & ? & _). split_and!; [done..|].
    exists id, row. by split_and!.
  - intros key. unfold terminal_endpoint, behind_auth. simpl.
    destruct (run_val _ k) as [[identity| |]|] eqn:Hrun; [|done..]. do 2 f_equal.
    destruct identity as [i|]; [done|]. exfalso.
    assert (∃ identity : option ApiKeyIdentity, identity = None ∧ behind_auth st req k (λ i, match i with Some _ => WsAnswer 0 "" | None => WsAnswer 1 "" end)
              = Some (inr (WsAnswer 1 ""))) as (_ & _ & Hb).
    { exists None. split; [done|]. unfold behind_auth, st. by rewrite Hrun. }
    apply behind_auth_inr in Hb as ([i|] & Hh & Hi); [done| |done].
    destruct Hi as [_ [Hx|Hx]]; congruence.
Qed.

(** C28: A VNC connection to a container is given only for a live sandbox that has
    it: with a session token for the VNC of this sandbox that has not expired;
    without a token, with an identity that the middleware took (which a key of
    the database has for its own sandboxes only) or with the configured or the
    admin key.  But unless [vnc_require_auth] is set, which by default it is not,
    nothing is asked for: anyone who knows the identifier of a live sandbox is
    connected, whatever keys are configured and even where authentication is
    required. *)
Theorem vnc_access_spec ax has_store state sandbox_id req authorization (k : K)
    (Hpath : rq_path req = "/vnc/" +:+ sandbox_id) :
  let st := auth_state (vnc_config state) has_store in
  (∀ container_id,
     vnc_endpoint ax has_store state sandbox_id req authorization k
       = Some (inr (WsUpgrade container_id)) →
     ∃ identity, container_of ax (vnc_config state) identity sandbox_id container_id ∧
       (∀ i, identity = Some i → require_auth st = true → proved st req k i) ∧
       ((∃ token, OptionalSessionToken authorization (rq_query req) = Ok (Some token) ∧
           token_opens ax token sandbox_id) ∨
        vnc_require_auth (server (vnc_config state)) = false ∨
        identity ≠ None ∨
        ∃ key, OptionalApiKey (rq_api_key req) (rq_query req) = Ok key ∧
          key_fits key (vnc_key state) (Config.admin_api_key (server (vnc_config state))))) ∧
  (∀ container_id, is_websocket req = true → rq_session req = None → rq_api_key req = None →
     rq_query req = None → authorization = None →
     vnc_require_auth (server (vnc_config state)) = false →
     container_of ax (vnc_config state) None sandbox_id container_id →
     vnc_endpoint ax has_store state sandbox_id req authorization k
       = Some (inr (WsUpgrade container_id))).
Proof.
  intros st. assert (is_exempt (rq_path req) = false) as Hex.
  { apply (not_exempt _ sandbox_id). by right. }
  assert (starts_with "/vnc/" (rq_path req) = true) as Hv by (rewrite Hpath; apply vnc_path).
  split.
  - intros container_id Hup. apply behind_auth_inr in Hup as (identity & Hh & Hi); [|done].
    symmetry in Hh. apply extracted_upgrade in Hh as (api_key & Hkey & Hh).
    apply extracted_upgrade in Hh as (token & Htoken & Hh).
    apply vnc_websocket_upgrade in Hh as [Hc Hauth]. exists identity.
    split; [done|]. split; [by intros i ->|].
    destruct token as [token|]; [left; exists token; by destruct Hauth|]. right.
    destruct (vnc_require_auth _); [|by left]. right.
    destruct identity as [i|]; [by left|]. right. exists api_key. by split; [|apply Hauth].
  - intros container_id Hws Hs Hk Hq -> Hvnc Hc.
    unfold vnc_endpoint, behind_auth. rewrite run_api_key_auth, Hex, Hv, Hws. simpl.
    unfold session_identity. rewrite Hs, Hk. simpl.
    unfold key_stage, provided_key. rewrite Hk, Hq. simpl.
    assert (∀ i, i = None ∨ i = Some privileged →
              vnc_websocket ax state sandbox_id i None None = WsUpgrade container_id) as Hup.
    { intros i Hi. apply vnc_websocket_upgrade. split; [|by rewrite Hvnc].
      destruct Hc as (? & ? & id & row & ? & ? & ? & ? & ? & _). split_and!; [done..|].
      exists id, row. split_and!; [done..|]. by destruct Hi as [-> | ->]. }
    unfold unauthenticated. rewrite Hv. destruct (require_auth _); simpl; rewrite Hup; auto.
Qed.
End access_facts.

(** ** Theorems: what is carried *)

Section relay.
Context {E : Type} `{SocketEnv E}.

Lemma run_attempt {A} what (m : M E A) (s : Socket (E := E)) :
  attempt what m s = ((m (so_env s)).1, mkSocket (m (so_env s)).2 (so_log s ++ [what])).
Proof. unfold attempt. by destruct (m (so_env s)). Qed.

(** The binary messages up to the end of the connection. *)
Fixpoint payload (messages : list (Result Message string)) : list string :=
  match messages with
  | Ok (MessageBinary bytes) :: messages' => bytes :: payload messages'
  | Ok MessageClose :: _ | Err _ :: _ | [] => []
  | Ok _ :: messages' => payload messages'
  end.

Fixpoint read_before_end (reads : list (Result string string)) : list string :=
  match reads with
  | Ok bytes :: reads' => if is_empty bytes then [] else bytes :: read_before_end reads'
  | Err _ :: _ | [] => []
  end.

(** What the client sends reaches the VNC server in order, nothing else does,
    and all of it when the writes succeed; the other way round the same. *)
Theorem vnc_relay stream messages reads (s : Socket (E := E)) :
  (∃ n, so_log (run_st (ws_to_tcp stream messages) s)
        = so_log s ++ map Forwarded (take n (payload messages)) ∧
     ((∀ bytes e, (e_tcp_write stream bytes e).1 = true) → (length (payload messages) ≤ n)%nat)) ∧
  (∃ n, so_log (run_st (tcp_to_ws reads) s)
        = so_log s ++ map Relayed (take n (read_before_end reads)) ∧
     ((∀ m e, (e_ws_send m e).1 = true) → (length (read_before_end reads) ≤ n)%nat)).
Proof.
  split.
  - revert s. induction messages as [|[[text|bytes| |]|e] messages IH]; intros s;
      cbn [ws_to_tcp payload]; try apply IH;
      try (exists 0%nat; split; [by rewrite app_nil_r|simpl; lia]).
    unfold run_st. rewrite M_bind_unfold, run_attempt. cbn [fst snd].
    destruct (e_tcp_write stream bytes (so_env s)) as [[] e'] eqn:Hw; cbn [fst snd].
    + destruct (IH (mkSocket e' (so_log s ++ [Forwarded bytes]))) as (n & Hn & Hall).
      exists (S n). split; [|simpl; intros Hok; specialize (Hall Hok); lia].
      unfold run_st in Hn. rewrite Hn. simpl. by rewrite <-app_assoc.
    + exists 1%nat. split; [done|]. intros Hok. specialize (Hok bytes (so_env s)). by rewrite Hw in Hok.
  - revert s. induction reads as [|[bytes|e] reads IH]; intros s;
      cbn [tcp_to_ws read_before_end];
      try (exists 0%nat; split; [by rewrite app_nil_r|simpl; lia]).
    destruct (is_empty bytes); [exists 0%nat; split; [by rewrite app_nil_r|simpl; lia]|].
    unfold run_st. rewrite M_bind_unfold, run_attempt. cbn [fst snd].
    destruct (e_ws_send (MessageBinary bytes) (so_env s)) as [[] e'] eqn:Hw; cbn [fst snd].
    + destruct (IH (mkSocket e' (so_log s ++ [Relayed bytes]))) as (n & Hn & Hall).
      exists (S n). split; [|simpl; intros Hok; specialize (Hall Hok); lia].
      unfold run_st in Hn. rewrite Hn. simpl. by rewrite <-app_assoc.
    + exists 1%nat. split; [done|]. intros Hok.
      specialize (Hok (MessageBinary bytes) (so_env s)). by rewrite Hw in Hok.
Qed.

(** What one event of a terminal makes the loop try, and whether it ends it. *)
Definition tried (ev : TerminalEvent) : list Attempt :=
  match ev with
  | FromTerminal (Ok (Some (FrameData bytes))) =>
      if is_empty (utf8_lossy bytes) then []
      else match server_json (Output (utf8_lossy bytes)) with
           | Some _ => [Sent (Output (utf8_lossy bytes))] | None => [] end
  | FromTerminal (Ok _) => match server_json End_ with Some _ => [Sent End_] | None => [] end
  | FromClient (Some (Ok (MessageText text))) =>
      match client_json text with
      | Some (Input data) => [Typed data]
      | Some (Resize rows cols) => [Resized rows cols]
      | None => []
      end
  | _ => []
  end.

Definition ends (ev : TerminalEvent) : bool :=
  match ev with
  | FromTerminal (Ok (Some (FrameData _))) => false
  | FromTerminal _ => true
  | FromClient (Some (Ok MessageClose)) | FromClient (Some (Err _)) | FromClient None => true
  | FromClient _ => false
  end.

Lemma terminal_turn_spec t ev (s : Socket (E := E)) :
  so_log (run_st (terminal_turn t ev) s) = so_log s ++ tried ev ∧
  (ends ev = true → run_val (terminal_turn t ev) s = false) ∧
  ((∀ m e, (e_ws_send m e).1 = true) → (∀ text e, is_ok (e_write t text e).1 = true) →
   run_val (terminal_turn t ev) s = negb (ends ev)).
Proof.
  destruct ev as [[[[bytes|]|]|e]|[[[text|bytes| |]|e]|]]; cbn [terminal_turn tried ends];
    unfold run_st, run_val;
    try (by rewrite app_nil_r).
  - destruct (is_empty (utf8_lossy bytes)); [by rewrite app_nil_r|].
    unfold send_message. destruct (server_json _) as [json|]; [|by rewrite app_nil_r].
    rewrite run_attempt. simpl. split_and!; [done|done|]. intros Hs _. apply Hs.
  - rewrite M_bind_unfold. unfold send_message.
    destruct (server_json End_) as [json|]; [|by rewrite app_nil_r]. by rewrite run_attempt.
  - rewrite M_bind_unfold. unfold send_message.
    destruct (server_json End_) as [json|]; [|by rewrite app_nil_r]. by rewrite run_attempt.
  - destruct (client_json text) as [[data|rows cols]|]; [| |by rewrite app_nil_r].
    + rewrite M_bind_unfold, run_attempt. simpl. split_and!; [done|done|]. intros _ Hw. apply Hw.
    + rewrite M_bind_unfold, run_attempt. done.
Qed.

(** The loop handles the events one by one, in order, up to one that ends it or
    whose attempt fails; when nothing fails, up to the first that ends it. *)
Theorem terminal_loop_spec t evs (s : Socket (E := E)) :
  ∃ n, so_log (run_st (terminal_loop t evs) s) = so_log s ++ flat_map tried (take n evs) ∧
    (∀ m ev, (S m < n)%nat → evs !! m = Some ev → ends ev = false) ∧
    (run_val (terminal_loop t evs) s = false → (length evs ≤ n)%nat) ∧
    ((∀ m e, (e_ws_send m e).1 = true) → (∀ text e, is_ok (e_write t text e).1 = true) →
     run_val (terminal_loop t evs) s = existsb ends evs).
Proof.
  revert s. induction evs as [|ev evs IH]; intros s.
  { exists 0%nat. simpl. rewrite app_nil_r. split_and!; [done|done|done|done]. }
  cbn [terminal_loop]. unfold run_st, run_val. rewrite M_bind_unfold.
  destruct (terminal_turn_spec t ev s) as (Hlog & Hend & Hok). unfold run_st, run_val in *.
  destruct (terminal_turn t ev s) as [goes_on s1]. simpl in *. destruct goes_on.
  - destruct (IH s1) as (n & Hn & Hm & Hlen & Hall). exists (S n). unfold run_st, run_val in *.
    assert (ends ev = false) as Hev by (destruct (ends ev); [by specialize (Hend eq_refl)|done]).
    split_and!.
    + rewrite Hn, Hlog. simpl. by rewrite <-app_assoc.
    + intros [|m] ev' Hlt; simpl; [by intros [= <-]|]. apply Hm. lia.
    + intros Hf. specialize (Hlen Hf). lia.
    + intros H1 H2. rewrite Hev. simpl. by apply Hall.
  - exists 1%nat. split_and!; [simpl; by rewrite app_nil_r| |done|].
    + intros m ev' Hlt. lia.
    + intros H1 H2. specialize (Hok H1 H2). destruct (ends ev); done.
Qed.
End relay.

(** ** Witnesses *)

Module Witnesses.
Import Demo.

#[local] Existing Instances Postgres.Witnesses.pg Auth.Witnesses.codec.

(** The key "mine" is that of the identity 5, to which the sandbox 7 belongs. *)
#[local] Instance store : ApiKeyStore () := {|
  validate_key := λ key, mret (Some (Ok (if String.eqb key "mine" then Some 5%N else None)));
|}.

Definition secured : Config :=
  set_database (set_db_url (Some "postgresql://db/dsb") DatabaseConfig_default)
    (set_server (mkServerConfig 8080 "0.0.0.0" (Some "key") (Some "terminal") None None false 3600
                   true (Some "admin") 300 None) Config_default).

Definition tables : Access :=
  {| ax_store := mkPgStore {[ 7%N := [("container_id", SqlText "c7"); ("deleted_at", SqlNull);
                                      ("api_key_id", SqlUuid 5%N)] ]} true;
     ax_tokens := mkTokenStore {[ "t" := mkSessionToken "t" "7" "vnc" 0 2000 ]} true 0 0;
     ax_now := 1000 |}.

Definition terminal_request (key : option (option string)) : AuthRequest :=
  mkAuthRequest "/terminal/7" None None None key.
Definition vnc_request (query : option string) : AuthRequest :=
  mkAuthRequest "/vnc/7" query None (Some (Some "websocket")) None.

Example terminals :
  map (λ key, terminal_endpoint tables true (terminal_state secured) "7" (terminal_request key) ())
    [Some (Some "mine"); Some (Some "key"); Some (Some "terminal"); None; Some None]
  = [Some (inr (WsUpgrade "c7")); Some (inr (WsUpgrade "c7")); Some (inl Unauthorized);
     Some (inl Unauthorized); Some (inl Unauthorized)].
Proof. vm_compute. done. Qed.

Example screens :
  map (λ query, vnc_endpoint tables true (vnc_state secured true) "7" (vnc_request query) None ())
    [Some "token=t"; Some "a=b&token=u"; Some "api_key=terminal"; None]
  = [Some (inr (WsUpgrade "c7"));
     Some (inr (WsAnswer 401 "Unauthorized: Invalid session token"));
     Some (inr (WsUpgrade "c7")); Some (inr (WsUpgrade "c7"))].
Proof. vm_compute. done. Qed.

Lemma terminal_access_spec_witness :
  rq_path (terminal_request (Some (Some "mine"))) = "/terminal/" +:+ "7" ∧
  ∃ i, proved (auth_state secured true) (terminal_request (Some (Some "mine"))) () i ∧
    container_of tables secured (Some i) "7" "c7".
Proof.
  split; [reflexivity|].
  destruct (terminal_access_spec tables true (terminal_state secured) "7"
              (terminal_request (Some (Some "mine"))) () eq_refl) as (Hup & _ & _).
  apply (Hup "c7"); vm_compute; reflexivity.
Defined.

Lemma vnc_access_spec_witness :
  rq_path (vnc_request None) = "/vnc/" +:+ "7" ∧ server_require_auth (server secured) = true ∧
  vnc_endpoint tables true (vnc_state secured true) "7" (vnc_request None) None ()
    = Some (inr (WsUpgrade "c7")).
Proof.
  split; [reflexivity|]. split; [reflexivity|].
  destruct (vnc_access_spec tables true (vnc_state secured true) "7" (vnc_request None) None ()
              eq_refl) as [_ Hopen].
  apply Hopen; [reflexivity..|]. split; [by eexists|]. split; [reflexivity|].
  exists 7%N, [("container_id", SqlText "c7"); ("deleted_at", SqlNull); ("api_key_id", SqlUuid 5%N)].
  by split_and!.
Defined.
End Witnesses.
