(* ===== verification/Server.v ===== *)
(** * Server: the routes, their middleware, and the small handlers

    Models the router that [src/api/server/mod.rs] builds, the logging and error
    layers around it ([api/logging.rs], [api/middleware.rs],
    [api/error_handler.rs], [api/error_pages.rs]), and the handlers of
    administration, images, health and settings ([api/handlers/]).  The router
    of [axum] is a parameter, of which its documented reading of path patterns
    is supposed. *)

From S2P Require Import Prelude Text Paths Errors Types Store World Service Config Postgres Auth Sockets Float64.
From Stdlib Require Import Ascii SpecFloat.

(** ** Logging ([api/logging.rs]) *)

Section logging.
(** A header is there or not, and is a text or not. *)
Context (header : string → option (option string)) (new_v4 : string).

Definition extract_or_generate_request_id : string :=
  default new_v4 (mjoin (header "X-Request-ID")).

(** The second header is looked at only when the first is missing. *)
Definition extract_client_ip : string :=
  default "unknown"
    (mjoin (match header "X-Forwarded-For" with Some v => Some v | None => header "X-Real-IP" end)).

Inductive LogLevel : Type := LogDebug | LogInfo | LogWarn | LogError.

(** The level and the text at the end of a request. *)
Definition completion_record (path : string) (status : Z) : LogLevel * string :=
  if String.eqb path "/health" || String.eqb path "/healthz" then (LogDebug, "Health check completed")
  else if (200 <=? status) && (status <? 300) then (LogInfo, "Request completed")
  else if (400 <=? status) && (status <? 500) then (LogWarn, "Client error")
  else if (500 <=? status) && (status <? 600) then (LogError, "Server error")
  else (LogInfo, "Request completed").

(** The identifier of the request goes back in a header if it may be one. *)
Definition request_logging_middleware {R} (header_ok : string → bool) (with_id : string → R → R)
    (path : string) (status : R → Z) (response : R) : (LogLevel * string) * R :=
  let request_id := extract_or_generate_request_id in
  (completion_record path (status response),
   if header_ok request_id then with_id request_id response else response).

(** The other middleware, which nothing applies: the handler sees the identifier,
    and the answer carries it. *)
Definition request_id_middleware {R} (with_id : string → R → R) (next : string → R) : R :=
  with_id new_v4 (next new_v4).
End logging.

(** ** Error pages ([api/error_pages.rs], [api/error_handler.rs]) *)

Record ErrorPageData : Type := mkErrorPageData {
  ep_status_code : Z;
  ep_title : string;
  ep_message : string;
  ep_suggestion : string;
}.

Definition get_error_page_data (status : Z) : ErrorPageData :=
  if status =? 401 then
    mkErrorPageData 401 "401 - Unauthorized" "Authentication is required to access this resource."
      "Please provide a valid API key using the X-API-Key header."
  else if status =? 403 then
    mkErrorPageData 403 "403 - Forbidden" "You don't have permission to access this resource."
      "Check your API key permissions or contact an administrator."
  else if status =? 404 then
    mkErrorPageData 404 "404 - Not Found" "The requested resource could not be found."
      "Verify the URL is correct and the resource exists."
  else if status =? 500 then
    mkErrorPageData 500 "500 - Internal Server Error" "An unexpected error occurred on the server."
      "Please try again later or contact support if the problem persists."
  else if status =? 503 then
    mkErrorPageData 503 "503 - Service Unavailable" "The service is temporarily unavailable."
      "Please try again later. The server may be undergoing maintenance."
  else
    mkErrorPageData status (Z_to_string status +:+ " - Error")
      "An error occurred while processing your request." "Please try again later.".

Definition escape_html (s : string) : string :=
  replace "'" "&#x27;"
    (replace quote "&quot;" (replace ">" "&gt;" (replace "<" "&lt;" (replace "&" "&amp;" s)))).

(** An answer, as far as the layers look at it. *)
Record Answer : Type := mkAnswer {
  an_status : Z;
  an_content_type : option string;
  an_body : string;
  an_headers : list (string * string);
  an_error_info : option (string * option string);
}.

Definition should_return_html (path : string) : bool :=
  starts_with "/dashboard/" path || starts_with "/static/" path || String.eqb path "/"
  || is_empty path.

Definition extract_error_details (r : Answer) : string * option string :=
  match an_error_info r with
  | Some info => info
  | None =>
      let s := an_status r in
      if s =? 401 then ("Unauthorized", Some "Authentication required. Provide a valid API key.")
      else if s =? 403 then ("Forbidden", Some "You don't have permission to access this resource.")
      else if s =? 404 then ("Not Found", Some "The requested resource was not found.")
      else if s =? 400 then ("Bad Request", Some "The request was invalid.")
      else if s =? 500 then ("Internal Server Error", Some "An unexpected error occurred.")
      else if s =? 503 then ("Service Unavailable", Some "The service is temporarily unavailable.")
      else ("Error " +:+ Z_to_string s, None)
  end.

Section pages.
(** The page around a title, a status, a message and a suggestion; and the
    printer of JSON. *)
Context (page : string → string → string → string → string).
Context (json_to_string : Json → string).

Definition render_error_page (status : Z) (message : option string) : string :=
  let data := get_error_page_data status in
  page (escape_html (ep_title data)) (Z_to_string status)
    (escape_html (default (ep_message data) message)) (escape_html (ep_suggestion data)).

Definition render_api_error_response (status : Z) (error : string) (hint : option string) : string :=
  json_to_string
    (JObject ([("error", JString error); ("status", JNumber status)]
              ++ match hint with Some h => [("hint", JString h)] | None => [] end)).

(** A new answer: nothing of the old one is kept but its status. *)
Definition create_error_response (status : Z) (error : string) (hint : option string)
    (return_html : bool) : Answer :=
  if return_html
  then mkAnswer status (Some "text/html; charset=utf-8") (render_error_page status (Some error)) [] None
  else mkAnswer status (Some "application/json; charset=utf-8")
         (render_api_error_response status error hint) [] None.

Definition handle_response (r : Answer) (should_html : bool) : Answer :=
  if (200 <=? an_status r) && (an_status r <? 300) then r
  else
    let '(error_msg, hint) := extract_error_details r in
    if should_html then create_error_response (an_status r) error_msg hint true else r.

(** The layer: the service inside answers or fails. *)
Definition error_handler (path : string) (inner : option Answer) : Answer :=
  match inner with
  | Some r => handle_response r (should_return_html path)
  | None => create_error_response 500 "Internal server error" None (should_return_html path)
  end.
End pages.

(** ** Administration ([api/handlers/admin.rs]) *)

(** A status without a body, or with one. *)
Inductive Reply (X : Type) : Type :=
  | StatusOnly (status : Z)
  | WithBody (status : Z) (body : X).
Arguments StatusOnly {X} status.
Arguments WithBody {X} status body.

Section admin.
Context `{BcryptLib, ChronoAdd} `{PgLib} `{!UuidLib}.
#[local] Abbreviation K := PostgresApiKeyStore.

(** [None] is the panic of an expiry out of range. *)
Definition admin_create_api_key (req : CreateApiKeyRequest) : M K (option (Reply ApiKeyResponse)) :=
  r ← create_api_key req;
  mret ((λ r, match r with
              | Ok response => WithBody 201 response
              | Err _ => StatusOnly 500
              end) <$> r).

Definition admin_list_api_keys : M K (Reply (list ApiKey)) :=
  r ← list_api_keys;
  mret (match r with Ok keys => WithBody 200 keys | Err _ => StatusOnly 500 end).

Definition admin_get_api_key (id : Uuid) : M K (Reply ApiKey) :=
  r ← get_api_key id;
  mret (match r with
        | Ok (Some key) => WithBody 200 key
        | Ok None => StatusOnly 404
        | Err _ => StatusOnly 500
        end).

Definition admin_delete_api_key (id : Uuid) : M K (Reply ()) :=
  r ← delete_api_key id;
  mret (match r with
        | Ok true => StatusOnly 204
        | Ok false => StatusOnly 404
        | Err _ => StatusOnly 500
        end).

(** Every error, also that there is no such key, is the server's. *)
Definition admin_rotate_api_key (id : Uuid) : M K (Reply ApiKeyResponse) :=
  r ← rotate_api_key id;
  mret (match r with Ok response => WithBody 200 response | Err _ => StatusOnly 500 end).
End admin.

Definition admin_auth_middleware (configured : option string) (req : AuthRequest) : Result () Z :=
  match rq_api_key req with
  | Some (Some provided) =>
      match configured with
      | Some admin_key => if String.eqb provided admin_key then Ok () else Err 401
      | None => Err 401
      end
  | _ => Err 401
  end.

(** ** Images ([api/handlers/images.rs]) *)

(** The methods of the backend that only these handlers use. *)
Class ImageStore (B : Type) := {
  bk_list_images : M B (ManagerResult (list ImageSummary));
  bk_delete_image : string → M B (ManagerResult ());
}.

Record PullImageRequest : Type := mkPullImageRequest {
  pir_image : string;
  pir_tag : option string;
}.

Record PullProgressEvent : Type := mkPullProgressEvent {
  pp_status : string;
  pp_id : option string;
  pp_progress : option string;
  pp_detail : option (Z * Z);
}.

Definition full_image (req : PullImageRequest) : string :=
  match pir_tag req with Some tag => pir_image req +:+ ":" +:+ tag | None => pir_image req end.

(** [f64::floor]. *)
Definition f64_floor (x : f64) : f64 :=
  match x with
  | S754_finite s m e =>
      if 0 <=? e then x
      else let n := Z.shiftr (if s then - Z.pos m else Z.pos m) (- e) in
           if (n =? 0) && s then S754_zero true else f64_of_Z n
  | _ => x
  end.

Section images.
Context {B : Type} `{SandboxManager B, ImageStore B}.
Context (f64_display : f64 → string).

Definition of_manager {A} (r : ManagerResult A) : Result A ApiError :=
  result_map_err ApiError_from_ManagerError r.

Definition list_images : M B (Result (list ImageSummary) ApiError) :=
  r ← bk_list_images; mret (of_manager r).

Definition inspect_image (id : string) : M B (Result ImageDetails ApiError) :=
  r ← bk_get_image_features id; mret (of_manager r).

(** The answer comes when the image is there. *)
Definition pull_image (req : PullImageRequest) : M B (Result Z ApiError) :=
  r ← bk_pull_image (full_image req);
  mret (let? _ := of_manager r in Ok 202).

Definition percentage (current total : Z) : string :=
  f64_display (f64_floor (f64_mul (f64_div (f64_of_Z current) (f64_of_Z total)) (f64_of_Z 100)))
  +:+ "%".

Definition progress_event (call : string * option Z * option Z) : PullProgressEvent :=
  let '(status, current, total) := call in
  match current, total with
  | Some c, Some t => mkPullProgressEvent status None (Some (percentage c t)) (Some (c, t))
  | _, _ => mkPullProgressEvent status None None None
  end.

(** The events of the stream; the last one says how it ended. *)
Definition pull_image_stream (req : PullImageRequest) : M B (list PullProgressEvent) :=
  '(calls, r) ← bk_pull_image_with_progress (full_image req);
  mret ((progress_event <$> calls)
        ++ [mkPullProgressEvent (if is_ok r then "Pull complete" else "Pull failed") None None None]).

Definition delete_image (id : string) : M B (Result Z ApiError) :=
  r ← bk_delete_image id;
  mret (let? _ := of_manager r in Ok 204).
End images.

(** ** Health and settings *)

Record FrontendConfig : Type := mkFrontendConfig {
  fc_default_sandbox_image : string;
  fc_default_inactivity_timeout : Z;
  fc_authentication_required : bool;
}.

Definition FrontendConfig_from (svc : SandboxService) : FrontendConfig :=
  mkFrontendConfig (default_sandbox_image svc) (default_inactivity_timeout svc)
    (authentication_required svc).

Definition get_config (svc : SandboxService) : FrontendConfig := FrontendConfig_from svc.

Record HealthResponse : Type := mkHealthResponse {
  hl_status : string;
  hl_version : option string;
  hl_uptime_seconds : option Z;
  hl_timestamp : option DateTime;
}.

Definition health_check (version : string) (now : DateTime) : Z * HealthResponse :=
  (200, mkHealthResponse "ok" (Some version) None (Some now)).

(** ** The routes ([api/server/mod.rs]) *)

Inductive Method : Type := GET | POST | DELETE.

#[export] Instance Method_eq_dec : EqDecision Method.
Proof. solve_decision. Defined.

(** A handler. *)
Inductive Endpoint : Type :=
  | HealthCheck | GetConfig
  | ListSandboxes | CreateSandbox | CreateSandboxStream | GetSandbox | DeleteSandbox
  | RestoreSandbox | StopSandbox | ExecSandbox | ExecuteTool | UploadFile | DownloadFile
  | GetSandboxStats | StreamSandboxStats | CleanupSandbox
  | ListActivities | CleanupInactiveSandboxes | GetActivity | ListSandboxActivities
  | CreateSshSession | ListSshSessions | GetSshSession | TerminateSshSession
  | UpdateSessionActivity | GetSshSessionStatistics | AuthorizeSshAccess
  | TerminalPage | TerminalWebsocket | VncWebsocket
  | ServeStaticFile | ListStaticFiles | ListSandboxDirectoryTree | DeleteStaticFile
  | DeleteSandboxStaticFiles | DownloadSandboxFilesAsZip
  | ListImages | PullImage | PullImageStream | InspectImage | DeleteImage
  | CreateSessionToken | ValidateSessionToken
  | CreateApiKeyEndpoint | ListApiKeys | GetApiKey | DeleteApiKey | RotateApiKey
  | Login | Logout | Me.

#[export] Instance Endpoint_eq_dec : EqDecision Endpoint.
Proof. solve_decision. Defined.

(** A piece of a pattern: a literal, [{name}], or [{*name}]. *)
Inductive Segment : Type := Lit (s : string) | Param (name : string) | Rest (name : string).

(** Which layers a route has. *)
Inductive Group : Type := AppRoutes | AdminRoutes | AuthRoutes.

#[export] Instance Group_eq_dec : EqDecision Group.
Proof. solve_decision. Defined.

Record Route : Type := mkRoute {
  rt_group : Group;
  rt_path : list Segment;
  rt_handlers : list (Method * Endpoint);
}.

Definition route (path : list Segment) (handlers : list (Method * Endpoint)) : Route :=
  mkRoute AppRoutes path handlers.

Definition app_routes : list Route :=
  [ route [Lit "health"] [(GET, HealthCheck)];
    route [Lit "config"] [(GET, GetConfig)];
    route [Lit "sandboxes"] [(GET, ListSandboxes); (POST, CreateSandbox)];
    route [Lit "sandboxes"; Lit "create-stream"] [(POST, CreateSandboxStream)];
    route [Lit "sandboxes"; Param "id"] [(GET, GetSandbox); (DELETE, DeleteSandbox)];
    route [Lit "sandboxes"; Param "id"; Lit "restore"] [(POST, RestoreSandbox)];
    route [Lit "sandboxes"; Param "id"; Lit "stop"] [(POST, StopSandbox)];
    route [Lit "sandboxes"; Param "id"; Lit "exec"] [(POST, ExecSandbox)];
    route [Lit "sandboxes"; Param "id"; Lit "tools"] [(POST, ExecuteTool)];
    route [Lit "sandboxes"; Param "id"; Lit "upload"] [(POST, UploadFile)];
    route [Lit "sandboxes"; Param "id"; Lit "download"] [(GET, DownloadFile)];
    route [Lit "sandboxes"; Param "id"; Lit "stats"] [(GET, GetSandboxStats)];
    route [Lit "sandboxes"; Param "id"; Lit "stats-stream"] [(GET, StreamSandboxStats)];
    route [Lit "sandboxes"; Param "id"; Lit "cleanup"] [(POST, CleanupSandbox)];
    route [Lit "activities"] [(GET, ListActivities)];
    route [Lit "activities"; Lit "cleanup-all"] [(POST, CleanupInactiveSandboxes)];
    route [Lit "activities"; Param "id"] [(GET, GetActivity)];
    route [Lit "sandboxes"; Param "id"; Lit "activities"] [(GET, ListSandboxActivities)] ].

Definition ssh_session_routes : list Route :=
  [ route [Lit "ssh-sessions"] [(POST, CreateSshSession); (GET, ListSshSessions)];
    route [Lit "ssh-sessions"; Param "id"] [(GET, GetSshSession)];
    route [Lit "ssh-sessions"; Param "id"; Lit "terminate"] [(POST, TerminateSshSession)];
    route [Lit "ssh-sessions"; Param "id"; Lit "heartbeat"] [(POST, UpdateSessionActivity)];
    route [Lit "ssh-sessions"; Lit "statistics"] [(GET, GetSshSessionStatistics)] ].

Definition ssh_auth_routes : list Route :=
  [ route [Lit "ssh"; Lit "authorize"; Param "sandbox_id"] [(GET, AuthorizeSshAccess)] ].

Definition terminal_routes : list Route :=
  [ route [Lit "terminal"] [(GET, TerminalPage)];
    route [Lit "terminal"; Param "sandbox_id"] [(GET, TerminalWebsocket)] ].

Definition vnc_routes : list Route :=
  [ route [Lit "vnc"; Param "sandbox_id"] [(GET, VncWebsocket)] ].

Definition static_routes : list Route :=
  [ route [Lit "static"; Param "sandbox_id"; Rest "file_path"] [(GET, ServeStaticFile)];
    route [Lit "static"; Lit "files"; Param "sandbox_id"] [(GET, ListStaticFiles)];
    route [Lit "static"; Lit "tree"; Param "sandbox_id"] [(GET, ListSandboxDirectoryTree)];
    route [Lit "static"; Lit "file"; Param "sandbox_id"; Param "file_path"] [(DELETE, DeleteStaticFile)];
    route [Lit "static"; Lit "sandbox"; Param "sandbox_id"] [(DELETE, DeleteSandboxStaticFiles)];
    route [Lit "static"; Lit "download"; Param "sandbox_id"] [(GET, DownloadSandboxFilesAsZip)] ].

Definition image_routes : list Route :=
  [ route [Lit "images"] [(GET, ListImages)];
    route [Lit "images"; Lit "pull"] [(POST, PullImage)];
    route [Lit "images"; Lit "pull-stream"] [(POST, PullImageStream)];
    route [Lit "images"; Param "id"] [(GET, InspectImage); (DELETE, DeleteImage)] ].

Definition session_token_routes : list Route :=
  [ route [Lit "session-tokens"] [(POST, CreateSessionToken)];
    route [Lit "session-tokens"; Param "token"; Lit "validate"] [(GET, ValidateSessionToken)] ].

Definition admin_routes : list Route :=
  [ mkRoute AdminRoutes [Lit "admin"; Lit "api-keys"] [(POST, CreateApiKeyEndpoint); (GET, ListApiKeys)];
    mkRoute AdminRoutes [Lit "admin"; Lit "api-keys"; Param "id"] [(GET, GetApiKey); (DELETE, DeleteApiKey)];
    mkRoute AdminRoutes [Lit "admin"; Lit "api-keys"; Param "id"; Lit "rotate"] [(POST, RotateApiKey)] ].

Definition auth_routes : list Route :=
  [ mkRoute AuthRoutes [Lit "api"; Lit "auth"; Lit "login"] [(POST, Login)];
    mkRoute AuthRoutes [Lit "api"; Lit "auth"; Lit "logout"] [(POST, Logout)];
    mkRoute AuthRoutes [Lit "api"; Lit "auth"; Lit "me"] [(GET, Me)] ].

(** The session-token and administration routes need the database; those of SSH
    are there without it, too.  A [GET] handler also answers [HEAD]. *)
Definition routes (config : Config) : list Route :=
  app_routes ++ (ssh_session_routes ++ ssh_auth_routes) ++ terminal_routes ++ vnc_routes
  ++ static_routes ++ image_routes
  ++ (if has_db_config config then session_token_routes else [])
  ++ (if has_db_config config then admin_routes else [])
  ++ auth_routes.

(** The router of [axum]. *)
Class Router := {
  matches : list Segment → string → bool;
}.

(** As documented: a literal stands for itself, a parameter for one piece that
    is not empty, and the last one with a star for what is left. *)
Fixpoint fits (pattern : list Segment) (parts : list string) : bool :=
  match pattern, parts with
  | [], [] => true
  | Lit s :: pattern, p :: parts => String.eqb s p && fits pattern parts
  | Param _ :: pattern, p :: parts => negb (is_empty p) && fits pattern parts
  | [Rest _], _ :: _ => negb (is_empty (join "/" parts))
  | _, _ => false
  end.

Definition fits_path (pattern : list Segment) (path : string) : bool :=
  match strip_prefix "/" path with
  | Some rest => fits pattern (split_on "/" rest)
  | None => false
  end.

Class RouterLaws `{Router} : Prop := {
  matches_fits : ∀ pattern path, matches pattern path = true → fits_path pattern path = true;
}.

(** A handler that may get a request; of two patterns that match, the router
    takes the more specific one. *)
Definition handles `{Router} (config : Config) (method : Method) (path : string)
    (g : Group) (e : Endpoint) : Prop :=
  ∃ r, r ∈ routes config ∧ rt_group r = g ∧ matches (rt_path r) path = true ∧
       (method, e) ∈ rt_handlers r.

(** ** The layers of a route *)

Inductive Served : Type :=
  | Reached (who : option ApiKeyIdentity)
  | Refused (status : Z)
  | Notice.

Section layers.
Context {K : Type} `{!ApiKeyStore K} `{!IdentityCodec}.

(** Authentication, but for the routes of the login, and then that of the
    administration; [None] is a panic. *)
Definition through_layers (st : AuthState) (g : Group) (req : AuthRequest) (k : K) : option Served :=
  match g with
  | AuthRoutes => Some (Reached None)
  | _ =>
      match run_val (api_key_auth st req) k with
      | None => None
      | Some VncNotice => Some Notice
      | Some Unauthorized => Some (Refused 401)
      | Some (Next who) =>
          match g with
          | AdminRoutes =>
              Some (match admin_auth_middleware (Auth.admin_api_key st) req with
                    | Ok _ => Reached who
                    | Err status => Refused status
                    end)
          | _ => Some (Reached who)
          end
      end
  end.
End layers.

(** ** Starting the server *)

(** The first occurrence is replaced. *)
Fixpoint replace_first (from to s : string) : string :=
  match strip_prefix from s with
  | Some rest => to +:+ rest
  | None => match s with EmptyString => EmptyString | String c s' => String c (replace_first from to s') end
  end.

Definition database_url (d : DatabaseConfig) : Result string string :=
  match db_url d with
  | Some url => Ok url
  | None =>
      let? password := option_ok_or "Database password is required (set database.password or database.url)"
                                    (db_password d) in
      Ok ("postgresql://" +:+ db_user d +:+ ":" +:+ password +:+ "@" +:+ db_host d +:+ ":"
          +:+ Z_to_string (db_port d) +:+ "/" +:+ db_name d)
  end.

(** What the log shows of it. *)
Definition masked_url (d : DatabaseConfig) (url : string) : string :=
  replace_first (":" +:+ default "" (db_password d) +:+ "@") ":****@" url.

(** The key that the gateway's questions carry. *)
Definition ssh_api_key (config : Config) : option string :=
  match ssh_gateway_api_key (server config) with
  | Some key => Some key
  | None => server_api_key (server config)
  end.

(** What runs in the background. *)
Inductive Background : Type :=
  | SshCleanup (idle connecting every : Z)
  | AutoCleanup | StateMonitor | OrphanCleanup
  | ExpiredDeletions (every retention_days : Z)
  | StuckRecovery (timeout : Z)
  | KubernetesReconciliation (namespace : string)
  | DestroyedContainers (every : Z)
  | SessionTokenCleanup (every : Z).

Definition is_kubernetes (b : BackendType) : bool :=
  match b with Kubernetes => true | Docker => false end.

Definition background_tasks (config : Config) : list Background :=
  let db := has_db_config config in
  let retention := sandbox_retention_days (sandbox config) in
  (if db then [SshCleanup 300 30 60] else [])
  ++ [AutoCleanup; StateMonitor; OrphanCleanup]
  ++ (if db then [ExpiredDeletions 3600 retention; StuckRecovery 300] else [])
  ++ (if db && is_kubernetes (backend (sandbox config))
      then [KubernetesReconciliation (k8s_namespace (kubernetes (sandbox config)))] else [])
  ++ (if db then [DestroyedContainers 300; SessionTokenCleanup (session_token_ttl_secs (server config))]
      else []).

(** ** Which handlers are open *)

Definition static_endpoints : list Endpoint :=
  [ServeStaticFile; ListStaticFiles; ListSandboxDirectoryTree; DeleteStaticFile;
   DeleteSandboxStaticFiles; DownloadSandboxFilesAsZip].

(** What the middleware looks for in a path, told from the handler. *)
Definition classified (path : string) (e : Endpoint) : Prop :=
  is_exempt path = bool_decide (e ∈ [HealthCheck; AuthorizeSshAccess]) ∧
  starts_with "/vnc/" path = bool_decide (e = VncWebsocket) ∧
  starts_with "/static/" path = bool_decide (e ∈ static_endpoints).

Definition classifies (r : Route) : Prop :=
  ∀ path method e, fits_path (rt_path r) path = true → (method, e) ∈ rt_handlers r → classified path e.

Lemma fits_path_inv pattern path :
  fits_path pattern path = true → ∃ parts, fits pattern parts = true ∧ path = String "/" (join "/" parts).
Proof.
  unfold fits_path. destruct (strip_prefix "/" path) as [rest|] eqn:Hp; [|done]. intros Hf.
  apply strip_prefix_Some in Hp as ->. exists (split_on "/" rest). split; [done|].
  by rewrite join_split_on.
Qed.

(** A route is decided by the literals it begins with. *)
Ltac open_parts :=
  repeat match goal with
  | H : _ && _ = true |- _ => apply andb_true_iff in H as [? ?]
  | H : String.eqb _ _ = true |- _ => apply String.eqb_eq in H as <-
  | H : fits _ ?parts = true |- _ => is_var parts; destruct parts; cbn [fits] in H; try discriminate H
  | H : match ?parts with [] => _ | _ :: _ => _ end = true |- _ =>
      is_var parts; destruct parts; try discriminate H
  end.

Ltac classify :=
  intros path method e Hfit Hm; cbn [route rt_handlers rt_path] in Hfit, Hm;
  apply fits_path_inv in Hfit as (parts & Hfit & ->); cbn [fits] in Hfit; open_parts;
  repeat (apply elem_of_cons in Hm as [Hm|Hm];
          [injection Hm as -> ->; unfold classified; split_and!; reflexivity|]);
  by apply elem_of_nil in Hm.

Ltac classify_all := repeat apply Forall_cons_2; [classify..|apply Forall_nil_2].

Lemma app_classified : Forall classifies app_routes.
Proof. classify_all. Qed.

Lemma ssh_classified : Forall classifies (ssh_session_routes ++ ssh_auth_routes).
Proof. classify_all. Qed.

Lemma socket_classified : Forall classifies (terminal_routes ++ vnc_routes).
Proof. classify_all. Qed.

Lemma static_classified : Forall classifies static_routes.
Proof. classify_all. Qed.

Lemma image_classified : Forall classifies image_routes.
Proof. classify_all. Qed.

Lemma db_classified : Forall classifies (session_token_routes ++ admin_routes).
Proof. classify_all. Qed.

(** A handler has one group. *)
Definition endpoint_group (e : Endpoint) : Group :=
  match e with
  | Login | Logout | Me => AuthRoutes
  | CreateApiKeyEndpoint | ListApiKeys | GetApiKey | DeleteApiKey | RotateApiKey => AdminRoutes
  | _ => AppRoutes
  end.

Lemma grouped config :
  Forall (λ r, Forall (λ h, endpoint_group h.2 = rt_group r) (rt_handlers r)) (routes config).
Proof. unfold routes. destruct (has_db_config config); repeat constructor. Qed.

Section routing.
Context `{Router, !RouterLaws}.

Lemma handles_group config method path g e :
  handles config method path g e → g = endpoint_group e.
Proof.
  intros (r & Hr & <- & _ & Hm). assert (Hg := grouped config). rewrite Forall_forall in Hg.
  specialize (Hg r Hr). rewrite Forall_forall in Hg. symmetry. exact (Hg _ Hm).
Qed.

Lemma handles_classified config method path g e :
  handles config method path g e → endpoint_group e ≠ AuthRoutes → classified path e.
Proof.
  intros (r & Hr & <- & Hf%matches_fits & Hm) Hauth. unfold routes in Hr. rewrite !elem_of_app in Hr.
  assert (∀ l, Forall classifies l → r ∈ l → classified path e) as Hin.
  { intros l HF Hl. rewrite Forall_forall in HF. exact (HF r Hl path method e Hf Hm). }
  destruct_or! Hr.
  - by apply (Hin _ app_classified).
  - apply (Hin _ ssh_classified), elem_of_app. by left.
  - apply (Hin _ ssh_classified), elem_of_app. by right.
  - apply (Hin _ socket_classified), elem_of_app. by left.
  - apply (Hin _ socket_classified), elem_of_app. by right.
  - by apply (Hin _ static_classified).
  - by apply (Hin _ image_classified).
  - destruct (has_db_config config); [|by apply elem_of_nil in Hr].
    apply (Hin _ db_classified), elem_of_app. by left.
  - destruct (has_db_config config); [|by apply elem_of_nil in Hr].
    apply (Hin _ db_classified), elem_of_app. by right.
  - assert (Forall (λ r, Forall (λ h, endpoint_group h.2 = AuthRoutes) (rt_handlers r)) auth_routes)
      as HF by repeat constructor.
    rewrite Forall_forall in HF. specialize (HF r Hr). rewrite Forall_forall in HF.
    destruct Hauth. exact (HF _ Hm).
Qed.

End routing.

(** Which handlers a request without an identity may reach. *)
Definition open_endpoint (config : Config) (req : AuthRequest) (e : Endpoint) : Prop :=
  e ∈ [HealthCheck; AuthorizeSshAccess; Login; Logout; Me] ∨
  server_require_auth (server config) = true ∧
  (e = VncWebsocket ∧ is_websocket req = true ∨
   e ∈ static_endpoints ∧ static_require_auth (static_server config) = false).

#[export] Instance open_endpoint_dec config req e : Decision (open_endpoint config req e).
Proof. unfold open_endpoint. apply _. Defined.

(** The paths that the middleware leaves open are those of the open handlers. *)
Lemma open_path_endpoint `{Router, !RouterLaws} config has_store method g e req :
  handles config method (rq_path req) g e →
  open_endpoint config req e ↔
  g = AuthRoutes ∨ g ≠ AuthRoutes ∧ open_path (auth_state config has_store) req.
Proof.
  intros Hh. assert (Hg := handles_group _ _ _ _ _ Hh). unfold open_endpoint, open_path. cbn.
  destruct (decide (endpoint_group e = AuthRoutes)) as [Ha|Ha].
  { assert (e ∈ [HealthCheck; AuthorizeSshAccess; Login; Logout; Me]) by (destruct e; try done; set_solver).
    split; [left; congruence|auto]. }
  destruct (handles_classified _ _ _ _ _ Hh Ha) as (-> & -> & ->).
  rewrite !bool_decide_eq_true.
  assert (e ∈ [HealthCheck; AuthorizeSshAccess; Login; Logout; Me] ↔ e ∈ [HealthCheck; AuthorizeSshAccess])
    as -> by (rewrite !elem_of_cons; destruct e; naive_solver).
  subst g. tauto.
Qed.

Section served.
Context `{Router, !RouterLaws} {K : Type} `{!ApiKeyStore K} `{!IdentityCodec}.

Lemma through_layers_reached st g req (k : K) who :
  through_layers st g req k = Some (Reached who) →
  g = AuthRoutes ∧ who = None ∨
  g ≠ AuthRoutes ∧ run_val (api_key_auth st req) k = Some (Next who) ∧
  (g = AdminRoutes → ∃ key, rq_api_key req = Some (Some key) ∧ Auth.admin_api_key st = Some key).
Proof.
  unfold through_layers. destruct (run_val (api_key_auth st req) k) as [[i| |]|].
  all: destruct g; intros Hr; try discriminate Hr.
  all: try (left; split; congruence).
  - right. by simplify_eq.
  - right. unfold admin_auth_middleware in Hr.
    destruct (rq_api_key req) as [[key|]|]; [|done..].
    destruct (Auth.admin_api_key st) as [admin|]; [|done].
    destruct (String.eqb key admin) eqn:He; [|done]. apply String.eqb_eq in He as ->.
    split; [done|]. split; [congruence|]. intros _. by exists admin.
Qed.


Lemma always_open config method path g e :
  handles config method path g e → e ∈ [HealthCheck; AuthorizeSshAccess; Login; Logout; Me] →
  g = AuthRoutes ∨ g ≠ AdminRoutes ∧ is_exempt path = true.
Proof.
  intros Hh He. rewrite (handles_group _ _ _ _ _ Hh).
  destruct (decide (endpoint_group e = AuthRoutes)) as [|Hg]; [by left|]. right.
  destruct (handles_classified _ _ _ _ _ Hh Hg) as (-> & _ & _).
  rewrite bool_decide_eq_true, !elem_of_cons. rewrite !elem_of_cons in He.
  destruct_or! He; subst; first [by apply elem_of_nil in He | split; [done|tauto] | by destruct Hg].
Qed.

(** The handlers that are always open do not turn a request away. *)
Lemma through_layers_closed config method g e st req (k : K) r :
  handles config method (rq_path req) g e → through_layers st g req k = r →
  (match r with Some (Reached _) => False | _ => True end) →
  ¬ e ∈ [HealthCheck; AuthorizeSshAccess; Login; Logout; Me].
Proof.
  intros Hh <- Hr He. destruct (always_open _ _ _ _ _ Hh He) as [-> |[Hg Hx]]; [done|].
  unfold through_layers in Hr. rewrite run_api_key_auth, Hx in Hr. by destruct g.
Qed.

Lemma open_group config req e :
  open_endpoint config req e → endpoint_group e ≠ AuthRoutes → endpoint_group e = AppRoutes.
Proof.
  intros [Ho|(_ & [[-> _]|[Ho _]])] Hg; [|done|];
    apply (bool_decide_eq_true_2 _) in Ho; by destruct e.
Qed.

(** A request that carries nothing. *)
Lemma bare_request config method has_store g e req (k : K) :
  handles config method (rq_path req) g e → server_require_auth (server config) = true →
  rq_session req = None → rq_api_key req = None → rq_query req = None →
  through_layers (auth_state config has_store) g req k =
    if bool_decide (open_endpoint config req e) then Some (Reached None)
    else if bool_decide (e = VncWebsocket) then Some Notice else Some (Refused 401).
Proof.
  intros Hh Ha Hs Hk Hq. assert (Hopen := open_path_endpoint config has_store method g e req Hh).
  destruct (decide (g = AuthRoutes)) as [-> |Hg].
  { rewrite bool_decide_eq_true_2; [done|]. apply Hopen. by left. }
  assert (open_endpoint config req e ↔ open_path (auth_state config has_store) req) as Hop by tauto.
  assert (He := handles_group _ _ _ _ _ Hh). rewrite He in Hg.
  destruct (handles_classified _ _ _ _ _ Hh Hg) as (Hx & Hv & Hst).
  rewrite (bool_decide_ext _ _ Hop). 
  unfold through_layers. rewrite run_api_key_auth_bare by done.
  rewrite Hv. destruct (bool_decide (open_path _ req)) eqn:Ho.
  - apply bool_decide_eq_true in Ho. apply Hop in Ho.
    assert (g = AppRoutes) as -> by (rewrite He; by apply (open_group _ _ _ Ho)). done.
  - destruct (bool_decide (e = VncWebsocket)); by destruct g.
Qed.

End served.

(** ** Requests, routed *)

Module Witnesses.

#[local] Existing Instances Auth.Witnesses.codec Sockets.Witnesses.store.

#[local] Instance router : Router := {| matches := fits_path |}.

#[local] Instance router_laws : RouterLaws.
Proof. by split. Qed.

Definition request (path : string) (key : option string) : AuthRequest :=
  mkAuthRequest path None None None (Some <$> key).

(** "admin" is the administrator's key, "mine" one of the database. *)
Definition ask (g : Group) (path : string) (key : option string) : option Served :=
  through_layers (auth_state Sockets.Witnesses.secured true) g (request path key) ().

Example asked :
  [ask AppRoutes "/health" None; ask AppRoutes "/sandboxes" None;
   ask AppRoutes "/sandboxes" (Some "mine"); ask AdminRoutes "/admin/api-keys" (Some "mine");
   ask AdminRoutes "/admin/api-keys" (Some "admin"); ask AppRoutes "/vnc/7" None;
   ask AuthRoutes "/api/auth/login" None]
  = [Some (Reached None); Some (Refused 401);
     Some (Reached (Some (mkIdentity (Some 5%N) Database))); Some (Refused 401);
     Some (Reached (Some privileged)); Some Notice; Some (Reached None)].
Proof. vm_compute. done. Qed.

(** The password of a URL that is given whole goes to the log. *)
Example password_in_the_log :
  let d := set_db_url (Some "postgresql://dsb:secret@db/dsb") DatabaseConfig_default in
  masked_url d <$> (match database_url d with Ok url => Some url | Err _ => None end)
  = Some (default "" (db_url d)).
Proof. vm_compute. done. Qed.

(** A redirect to a page of the dashboard becomes an error page. *)
Example redirect_page :
  let moved := mkAnswer 307 None "" [("Location", "/dashboard/")] None in
  let page := λ title status message suggestion, title in
  error_handler page (λ _, "") "/dashboard/x" (Some moved)
  = mkAnswer 307 (Some "text/html; charset=utf-8") "307 - Error" [] None.
Proof. reflexivity. Qed.

End Witnesses.
