(* ===== verification/Wire.v ===== *)
(** * Wire: the bodies of requests and events, as JSON

    Models the [Serialize] and [Deserialize] that the types of requests and
    events derive: which fields an object must have, which it may have, what
    stands for those that are missing, and the names of variants
    ([core/types.rs], [api/handlers/], [api/session_tokens.rs],
    [db/api_key_store.rs]).  An object has each key once, and fields that a type
    does not know are passed over.  A structure that is written as an array is
    not read here; no client writes one. *)

From S2P Require Import Prelude Text Errors Types Store World Service Ops Create SandboxApi Ssh Auth Server.

(** ** Reading values *)

Definition read_int (low high : Z) (v : Json) : option Z :=
  match v with
  | JNumber n => if bool_decide (low ≤ n ≤ high) then Some n else None
  | _ => None
  end.

Definition read_u16 : Json → option Z := read_int 0 (2 ^ 16 - 1).
Definition read_u64 : Json → option Z := read_int 0 (2 ^ 64 - 1).
Definition read_i64 : Json → option Z := read_int (- 2 ^ 63) (2 ^ 63 - 1).

(** [Option<T>]. *)
Definition read_option {T} (read : Json → option T) (v : Json) : option (option T) :=
  match v with JNull => Some None | _ => Some <$> read v end.

(** [Vec<T>]. *)
Definition read_list {T} (read : Json → option T) (v : Json) : option (list T) :=
  json_as_array v ≫= mapM read.

(** [HashMap<String, String>]: of two values for a key the later one is kept. *)
Definition read_map (v : Json) : option (gmap string string) :=
  match v with
  | JObject fields =>
      (λ l, list_to_map (rev l)) <$> mapM (λ p, pair p.1 <$> json_as_str p.2) fields
  | _ => None
  end.

(** A field that must be there, one of type [Option<T>], which need not, and one
    with [#[serde(default)]]. *)
Definition required {T} (key : string) (read : Json → option T) (v : Json) : option T :=
  json_get key v ≫= read.

Definition defaulted {T} (key : string) (read : Json → option T) (d : T) (v : Json) : option T :=
  match json_get key v with Some u => read u | None => Some d end.

Definition optional {T} (key : string) (read : Json → option T) : Json → option (option T) :=
  defaulted key (read_option read) None.

(** [rename_all]: a variant without fields is its name. *)
Definition read_name {T} (names : list (string * T)) (v : Json) : option T :=
  json_as_str v ≫= match_str names.

(** ** The types of requests *)

Definition read_protocol : Json → option PortProtocol := read_name [("tcp", Tcp); ("udp", Udp)].

Definition read_pull_policy : Json → option PullPolicy :=
  read_name [("always", Always); ("missing", Missing); ("never", Never)].

Definition read_port_mapping (v : Json) : option PortMapping :=
  host_port ← required "host_port" read_u16 v;
  container_port ← required "container_port" read_u16 v;
  protocol ← required "protocol" read_protocol v;
  Some (mkPortMapping host_port container_port protocol).

(** The variant is the field ["type"]. *)
Definition write_volume (v : VolumeMount) : Json :=
  match v with
  | Bind host_path container_path read_only =>
      JObject [("type", JString "bind"); ("host_path", JString host_path);
               ("container_path", JString container_path); ("read_only", JBool read_only)]
  | Named name container_path read_only =>
      JObject [("type", JString "named"); ("name", JString name);
               ("container_path", JString container_path); ("read_only", JBool read_only)]
  end.

Definition read_volume (v : Json) : option VolumeMount :=
  '(key, kind) ← required "type" (read_name [("bind", ("host_path", Bind)); ("named", ("name", Named))]) v;
  source ← required key json_as_str v;
  container_path ← required "container_path" json_as_str v;
  read_only ← required "read_only" json_as_bool v;
  Some (kind source container_path read_only).

Definition read_ulimit (v : Json) : option Ulimit :=
  name ← required "name" json_as_str v;
  soft ← required "soft" read_i64 v;
  hard ← required "hard" read_i64 v;
  Some (mkUlimit name soft hard).

Definition read_limits (v : Json) : option ResourceLimits :=
  memory_mb ← optional "memory_mb" read_u64 v;
  cpu_quota ← optional "cpu_quota" read_i64 v;
  cpu_period ← optional "cpu_period" read_i64 v;
  cpu_shares ← optional "cpu_shares" read_u64 v;
  pids_limit ← optional "pids_limit" read_i64 v;
  ulimits ← optional "ulimits" (read_list read_ulimit) v;
  Some (mkResourceLimits memory_mb cpu_quota cpu_period cpu_shares pids_limit ulimits).

Definition read_create_request (v : Json) : option CreateSandboxRequest :=
  image ← required "image" json_as_str v;
  name ← optional "name" json_as_str v;
  environment ← optional "environment" read_map v;
  port_mappings ← optional "port_mappings" (read_list read_port_mapping) v;
  resource_limits ← optional "resource_limits" read_limits v;
  volumes ← optional "volumes" (read_list read_volume) v;
  command ← optional "command" (read_list json_as_str) v;
  inactivity_timeout_minutes ← optional "inactivity_timeout_minutes" read_u64 v;
  pull_policy ← defaulted "pull_policy" read_pull_policy Missing v;
  features ← defaulted "features" (read_list json_as_str) [] v;
  enable_all_features ← defaulted "enable_all_features" json_as_bool false v;
  vnc_resolution ← optional "vnc_resolution" json_as_str v;
  Some (mkCreateSandboxRequest image name environment port_mappings resource_limits volumes
          command inactivity_timeout_minutes pull_policy features enable_all_features
          vnc_resolution).

Definition read_exec_request (v : Json) : option ExecSandboxRequest :=
  command ← required "command" (read_list json_as_str) v;
  stdin ← optional "stdin" json_as_str v;
  working_dir ← optional "working_dir" json_as_str v;
  environment ← optional "environment" read_map v;
  timeout ← optional "timeout" read_u64 v;
  Some (mkExecSandboxRequest command stdin working_dir environment timeout).

Definition read_tool_request (v : Json) : option ToolExecutionRequest :=
  interpreter ← required "interpreter" json_as_str v;
  script_path ← required "script_path" json_as_str v;
  action ← required "action" json_as_str v;
  args ← optional "args" Some v;
  timeout ← optional "timeout" read_u64 v;
  environment ← optional "environment" read_map v;
  Some (mkToolExecutionRequest interpreter script_path action args timeout environment).

Definition read_pull_request (v : Json) : option PullImageRequest :=
  image ← required "image" json_as_str v;
  tag ← optional "tag" json_as_str v;
  Some (mkPullImageRequest image tag).

(** Sandbox, service and lifetime. *)
Definition default_ttl : Z := 300.

Definition read_token_request (v : Json) : option (string * string * Z) :=
  sandbox_id ← required "sandbox_id" json_as_str v;
  service ← required "service" json_as_str v;
  ttl_secs ← defaulted "ttl_secs" read_u64 default_ttl v;
  Some (sandbox_id, service, ttl_secs).

Definition read_key_request (v : Json) : option CreateApiKeyRequest :=
  name ← required "name" json_as_str v;
  description ← optional "description" json_as_str v;
  scopes ← optional "scopes" (read_list json_as_str) v;
  expires_in_days ← optional "expires_in_days" read_i64 v;
  created_by ← optional "created_by" json_as_str v;
  Some (mkCreateApiKeyRequest name description scopes expires_in_days created_by).

Definition read_auth_method : Json → option SshAuthMethod :=
  read_name [("api_key", AuthApiKey); ("certificate", AuthCertificate)].

Definition read_session_request `{UuidLib} (v : Json) : option CreateSshSessionRequest :=
  sandbox_id ← required "sandbox_id" (λ u, json_as_str u ≫= uuid_parse_str) v;
  client_ip ← required "client_ip" json_as_str v;
  ssh_version ← optional "ssh_version" json_as_str v;
  auth_method ← required "auth_method" read_auth_method v;
  username ← optional "username" json_as_str v;
  public_key ← optional "public_key" json_as_str v;
  Some (mkCreateSshSessionRequest sandbox_id client_ip ssh_version auth_method username public_key).

(** What ended a session. *)
Definition read_termination (v : Json) : option (option string) := optional "reason" json_as_str v.

(** The bytes sent and received. *)
Definition read_heartbeat (v : Json) : option (Z * Z) :=
  bytes_sent ← required "bytes_sent" read_i64 v;
  bytes_received ← required "bytes_received" read_i64 v;
  Some (bytes_sent, bytes_received).

(** ** The events of a stream *)

Definition write_event `{UuidLib} (e : SandboxProgressEvent) : Json :=
  match e with
  | EvPulling image status current total =>
      JObject ([("type", JString "pulling"); ("image", JString image); ("status", JString status)]
               ++ field "current" JNumber current ++ field "total" JNumber total)
  | EvCreating image => JObject [("type", JString "creating"); ("image", JString image)]
  | EvStarting container_id =>
      JObject [("type", JString "starting"); ("container_id", JString container_id)]
  | EvReady sandbox_id container_id =>
      JObject [("type", JString "ready"); ("sandbox_id", JString (uuid_to_string sandbox_id));
               ("container_id", JString container_id)]
  | EvError message => JObject [("type", JString "error"); ("message", JString message)]
  end.

(** [id] is always there. *)
Definition write_pull_event (e : PullProgressEvent) : Json :=
  JObject
    ([("status", JString (pp_status e)); ("id", json_opt_string (pp_id e))]
     ++ field "progress" JString (pp_progress e)
     ++ field "progress_detail"
          (λ d, JObject [("current", JNumber d.1); ("total", JNumber d.2)]) (pp_detail e)).

(** ** What is written is read *)

Lemma read_int_in low high n : low ≤ n ≤ high → read_int low high (JNumber n) = Some n.
Proof. intros Hn. unfold read_int. by rewrite bool_decide_eq_true_2. Qed.

Lemma read_list_map {T} (write : T → Json) (read : Json → option T) (l : list T) :
  Forall (λ x, read (write x) = Some x) l → read_list read (JArray (write <$> l)) = Some l.
Proof.
  intros Hl. unfold read_list. cbn. induction Hl as [|x l Hx _ IH]; [done|].
  cbn. rewrite Hx. cbn. by rewrite IH.
Qed.

Lemma read_strings (l : list string) : read_list json_as_str (json_strings l) = Some l.
Proof. apply read_list_map. by apply Forall_true. Qed.

Lemma read_json_map (m : gmap string string) : read_map (json_map m) = Some m.
Proof.
  unfold read_map, json_map. 
  assert (∀ l : list (string * string),
            mapM (λ p : string * Json, pair p.1 <$> json_as_str p.2) (prod_map id JString <$> l) = Some l)
    as ->.
  { induction l as [|[k v] l IH]; [done|]. cbn. by rewrite IH. }
  cbn. f_equal. rewrite <- (list_to_map_to_list m) at 2. symmetry. apply list_to_map_proper.
  - apply NoDup_fst_map_to_list.
  - apply Permutation_rev.
Qed.

Lemma read_volume_write v : read_volume (write_volume v) = Some v.
Proof. by destruct v. Qed.
