(* ===== verification/Terminal.v ===== *)
(** * Terminal: a shell on the terminal of the user

    Models [src/docker/exec_proxy.rs] and the relay of [dsb ssh]
    ([src/cli/commands/sandbox.rs]).  A terminal is raw while five tasks pass on
    what is typed and what the shell writes, over channels with bounds; the tasks
    interleave in any way.  A state of the relay is that of its tasks and
    channels, an action is what one task does up to its next wait, and [act] says
    what becomes of the state, or that the task has to wait.  What has been read
    and written is kept, for the theorems to speak of. *)

From S2P Require Import Prelude Text Errors Docker.

(** ** The proxy ([exec_proxy.rs]) *)

Record ExecConfig : Type := mkExecConfig {
  xc_container_id : string;
  xc_command : list string;
  xc_working_dir : option string;
  xc_env : option (list string);
  xc_user : option string;
}.

Definition ExecConfig_default : ExecConfig := mkExecConfig "" ["bash"] None None None.

Inductive ExecProxyError : Type :=
  | ContainerNotFound (s : string)
  | CreationFailed (s : string)
  | StartFailed (s : string)
  | ResizeFailed (s : string)
  | DockerApiError (s : string)
  | IoError (s : string).

Definition ExecProxyError_to_string (e : ExecProxyError) : string :=
  match e with
  | ContainerNotFound s => "Container not found: " +:+ s
  | CreationFailed s => "Exec creation failed: " +:+ s
  | StartFailed s => "Exec start failed: " +:+ s
  | ResizeFailed s => "PTY resize failed: " +:+ s
  | DockerApiError s => "Docker API error: " +:+ s
  | IoError s => "IO error: " +:+ s
  end.

(** The options that are set, the terminal and the streams among them. *)
Record ExecOptions : Type := mkExecOptions {
  xo_cmd : list string;
  xo_attach_stdin : bool;
  xo_attach_stdout : bool;
  xo_attach_stderr : bool;
  xo_tty : bool;
  xo_working_dir : option string;
  xo_env : option (list string);
  xo_user : option string;
}.

(** The calls of [bollard]; an [exec] that is started has two streams, unless it
    is detached. *)
Class ExecDocker (D : Type) := {
  XStreams : Type;
  x_inspect_container : string → M D (Result () string);
  x_create_exec : string → ExecOptions → M D (Result string string);
  x_start_exec : string → M D (Result (option XStreams) string);
  x_resize_exec : string → Z → Z → M D (Result () string);
}.

Section proxy.
Context {D : Type} `{ExecDocker D}.

Definition pty_options (config : ExecConfig) : ExecOptions :=
  mkExecOptions (xc_command config) true true true true
    (xc_working_dir config) (xc_env config) (xc_user config).

Definition create_exec_pty (config : ExecConfig) : M D (Result string ExecProxyError) :=
  r ← x_inspect_container (xc_container_id config);
  let* _ := mret (result_map_err
                    (λ e, if contains "No such container" e
                          then ContainerNotFound (xc_container_id config)
                          else DockerApiError e) r) in
  r ← x_create_exec (xc_container_id config) (pty_options config);
  mret (result_map_err CreationFailed r).

Definition start_exec (exec_id : string) : M D (Result XStreams ExecProxyError) :=
  r ← x_start_exec exec_id;
  mret match r with
       | Ok (Some streams) => Ok streams
       | Ok None => Err (StartFailed "Unexpected result type from start_exec")
       | Err e => Err (StartFailed e)
       end.

Definition resize_pty (exec_id : string) (rows cols : Z) : M D (Result () ExecProxyError) :=
  r ← x_resize_exec exec_id rows cols;
  mret (result_map_err ResizeFailed r).
End proxy.

(** ** The tasks of the relay *)

(** The bound of the channels of frames and of data, and of the buffer. *)
Definition channel_capacity : nat := 100.
Definition buffer_size : nat := 1024.

(** The task that reads the output of the shell ([split]): waiting for a frame,
    or for room in the channel. *)
Inductive Reader : Type := Reading | Passing (x : option LogOutput) | ReaderDone.

(** The task that writes to the shell ([split]). *)
Inductive Writer : Type := Waiting | Writing (data : string) | WriterDone.

(** The task that reads the input of the user. *)
Inductive Input : Type := Typing | Sending (data : string) | Signalling | InputDone.

(** The task that follows the size of the window. *)
Inductive Resizer : Type := Sleeping | Resizing | ResizerDone.

(** The command itself: it waits for the output, stops the resizing, and restores
    the terminal. *)
Inductive Command : Type := Awaiting | Stopping | Restoring | Finished.

(** What has been read and written so far, and whether a write failed. *)
Record History : Type := mkHistory {
  h_typed : list string;
  h_written : list string;
  h_write_failed : bool;
  h_read : list LogOutput;
  h_shown : list string;
  h_show_failed : bool;
}.

(** [rl_frames] and [rl_data] are the channels, [rl_stop] tells whether the signal
    to stop is in its own, of one place; [rl_showing] whether the task that
    shows the output runs. *)
Record Relay : Type := mkRelay {
  rl_reader : Reader;
  rl_frames : list (option LogOutput);
  rl_showing : bool;
  rl_input : Input;
  rl_data : list string;
  rl_writer : Writer;
  rl_resizer : Resizer;
  rl_stop : bool;
  rl_command : Command;
  rl_raw : bool;
  rl_history : History;
}.

Definition set_reader (x : Reader) (s : Relay) : Relay :=
  mkRelay x (rl_frames s) (rl_showing s) (rl_input s) (rl_data s) (rl_writer s) (rl_resizer s)
    (rl_stop s) (rl_command s) (rl_raw s) (rl_history s).
Definition set_frames (x : list (option LogOutput)) (s : Relay) : Relay :=
  mkRelay (rl_reader s) x (rl_showing s) (rl_input s) (rl_data s) (rl_writer s) (rl_resizer s)
    (rl_stop s) (rl_command s) (rl_raw s) (rl_history s).
Definition set_showing (x : bool) (s : Relay) : Relay :=
  mkRelay (rl_reader s) (rl_frames s) x (rl_input s) (rl_data s) (rl_writer s) (rl_resizer s)
    (rl_stop s) (rl_command s) (rl_raw s) (rl_history s).
Definition set_input (x : Input) (s : Relay) : Relay :=
  mkRelay (rl_reader s) (rl_frames s) (rl_showing s) x (rl_data s) (rl_writer s) (rl_resizer s)
    (rl_stop s) (rl_command s) (rl_raw s) (rl_history s).
Definition set_data (x : list string) (s : Relay) : Relay :=
  mkRelay (rl_reader s) (rl_frames s) (rl_showing s) (rl_input s) x (rl_writer s) (rl_resizer s)
    (rl_stop s) (rl_command s) (rl_raw s) (rl_history s).
Definition set_writer (x : Writer) (s : Relay) : Relay :=
  mkRelay (rl_reader s) (rl_frames s) (rl_showing s) (rl_input s) (rl_data s) x (rl_resizer s)
    (rl_stop s) (rl_command s) (rl_raw s) (rl_history s).
Definition set_resizer (x : Resizer) (s : Relay) : Relay :=
  mkRelay (rl_reader s) (rl_frames s) (rl_showing s) (rl_input s) (rl_data s) (rl_writer s) x
    (rl_stop s) (rl_command s) (rl_raw s) (rl_history s).
Definition set_stop (x : bool) (s : Relay) : Relay :=
  mkRelay (rl_reader s) (rl_frames s) (rl_showing s) (rl_input s) (rl_data s) (rl_writer s)
    (rl_resizer s) x (rl_command s) (rl_raw s) (rl_history s).
Definition set_command (x : Command) (s : Relay) : Relay :=
  mkRelay (rl_reader s) (rl_frames s) (rl_showing s) (rl_input s) (rl_data s) (rl_writer s)
    (rl_resizer s) (rl_stop s) x (rl_raw s) (rl_history s).
Definition set_raw (x : bool) (s : Relay) : Relay :=
  mkRelay (rl_reader s) (rl_frames s) (rl_showing s) (rl_input s) (rl_data s) (rl_writer s)
    (rl_resizer s) (rl_stop s) (rl_command s) x (rl_history s).
Definition set_history (x : History) (s : Relay) : Relay :=
  mkRelay (rl_reader s) (rl_frames s) (rl_showing s) (rl_input s) (rl_data s) (rl_writer s)
    (rl_resizer s) (rl_stop s) (rl_command s) (rl_raw s) x.

Definition typed (c : string) (h : History) : History :=
  mkHistory (h_typed h ++ [c]) (h_written h) (h_write_failed h) (h_read h) (h_shown h) (h_show_failed h).
Definition written (c : string) (h : History) : History :=
  mkHistory (h_typed h) (h_written h ++ [c]) (h_write_failed h) (h_read h) (h_shown h) (h_show_failed h).
Definition write_failed (h : History) : History :=
  mkHistory (h_typed h) (h_written h) true (h_read h) (h_shown h) (h_show_failed h).
Definition read (f : LogOutput) (h : History) : History :=
  mkHistory (h_typed h) (h_written h) (h_write_failed h) (h_read h ++ [f]) (h_shown h) (h_show_failed h).
Definition shown (c : string) (h : History) : History :=
  mkHistory (h_typed h) (h_written h) (h_write_failed h) (h_read h) (h_shown h ++ [c]) (h_show_failed h).
Definition show_failed (h : History) : History :=
  mkHistory (h_typed h) (h_written h) (h_write_failed h) (h_read h) (h_shown h) true.

(** The terminal is raw, and all tasks are at their start. *)
Definition relay_new : Relay :=
  mkRelay Reading [] true Typing [] Waiting Sleeping false Awaiting true
    (mkHistory [] [] false [] [] false).

(** ** What a task does *)

(** The input of the user: some bytes, its end, or an error. *)
Inductive Typed : Type := Bytes (data : string) | EndOfInput | InputError.

(** Of what depends on the surroundings the action says what they answer: what
    the shell writes ([None] is the end of its output, or an error), whether a
    write succeeds, and whether there is a size to be sent. *)
Inductive Act : Type :=
  | ReadOutput (frame : option LogOutput)
  | PassFrame
  | ShowFrame (fine : bool)
  | ReadInput (t : Typed)
  | SendInput
  | SignalStop
  | TakeInput
  | WriteInput (fine : bool)
  | Tick (size : bool)
  | Resized
  | TakeStop
  | Proceed.

(** What is shown of a frame. *)
Definition visible (f : LogOutput) : option string :=
  match f with
  | StdOut message | StdErr message => if is_empty message then None else Some message
  | _ => None
  end.

(** [ExecMultiplexedStream::split]: the reader.  After the end of the output, or
    when nobody takes the frames any more, it is done. *)
Definition act_read_output (frame : option LogOutput) (s : Relay) : option Relay :=
  match rl_reader s with
  | Reading =>
      Some (set_reader (Passing frame)
              (match frame with
               | Some f => set_history (read f (rl_history s)) s
               | None => s
               end))
  | _ => None
  end.

Definition act_pass_frame (s : Relay) : option Relay :=
  match rl_reader s with
  | Passing x =>
      if negb (rl_showing s) then Some (set_reader ReaderDone s)
      else if bool_decide (length (rl_frames s) < channel_capacity)%nat then
        Some (set_reader (match x with Some _ => Reading | None => ReaderDone end)
                (set_frames (rl_frames s ++ [x]) s))
      else None
  | _ => None
  end.

(** The writer: data that can not be written end it. *)
Definition act_take_input (s : Relay) : option Relay :=
  match rl_writer s, rl_data s with
  | Waiting, c :: cs => Some (set_writer (Writing c) (set_data cs s))
  | Waiting, [] =>
      match rl_input s with InputDone => Some (set_writer WriterDone s) | _ => None end
  | _, _ => None
  end.

Definition act_write_input (fine : bool) (s : Relay) : option Relay :=
  match rl_writer s with
  | Writing c =>
      Some (if fine then set_writer Waiting (set_history (written c (rl_history s)) s)
            else set_writer WriterDone (set_history (write_failed (rl_history s)) s))
  | _ => None
  end.

(** The task that shows the output, until it ends or can not be shown. *)
Definition act_show_frame (fine : bool) (s : Relay) : option Relay :=
  if rl_showing s then
    match rl_frames s with
    | Some f :: fs =>
        let s := set_frames fs s in
        Some (match visible f with
              | Some message =>
                  if fine then set_history (shown message (rl_history s)) s
                  else set_showing false (set_history (show_failed (rl_history s)) s)
              | None => s
              end)
    | None :: fs => Some (set_showing false (set_frames fs s))
    | [] => match rl_reader s with ReaderDone => Some (set_showing false s) | _ => None end
    end
  else None.

(** The task that reads what is typed.  The signal is lost on a channel that is
    closed. *)
Definition act_read_input (t : Typed) (s : Relay) : option Relay :=
  match rl_input s with
  | Typing =>
      match t with
      | Bytes c =>
          if negb (is_empty c) && bool_decide (String.length c ≤ buffer_size)%nat
          then Some (set_input (Sending c) (set_history (typed c (rl_history s)) s))
          else None
      | EndOfInput => Some (set_input Signalling s)
      | InputError => Some (set_input InputDone s)
      end
  | _ => None
  end.

Definition act_send_input (s : Relay) : option Relay :=
  match rl_input s with
  | Sending c =>
      match rl_writer s with
      | WriterDone => Some (set_input Signalling s)
      | _ =>
          if bool_decide (length (rl_data s) < channel_capacity)%nat
          then Some (set_input Typing (set_data (rl_data s ++ [c]) s))
          else None
      end
  | _ => None
  end.

(** [shutdown_tx.send(())]. *)
Definition send_stop (s : Relay) : option Relay :=
  match rl_resizer s with
  | ResizerDone => Some s
  | _ => if rl_stop s then None else Some (set_stop true s)
  end.

Definition act_signal_stop (s : Relay) : option Relay :=
  match rl_input s with
  | Signalling => set_input InputDone <$> send_stop s
  | _ => None
  end.

(** The task that follows the size of the window. *)
Definition act_tick (size : bool) (s : Relay) : option Relay :=
  match rl_resizer s with
  | Sleeping => Some (if size then set_resizer Resizing s else s)
  | _ => None
  end.

Definition act_resized (s : Relay) : option Relay :=
  match rl_resizer s with Resizing => Some (set_resizer Sleeping s) | _ => None end.

Definition act_take_stop (s : Relay) : option Relay :=
  match rl_resizer s with
  | Sleeping => if rl_stop s then Some (set_resizer ResizerDone (set_stop false s)) else None
  | _ => None
  end.

(** The command. *)
Definition act_proceed (s : Relay) : option Relay :=
  match rl_command s with
  | Awaiting => if rl_showing s then None else Some (set_command Stopping s)
  | Stopping => set_command Restoring <$> send_stop s
  | Restoring => Some (set_raw false (set_command Finished s))
  | Finished => None
  end.

Definition act (a : Act) : Relay → option Relay :=
  match a with
  | ReadOutput frame => act_read_output frame
  | PassFrame => act_pass_frame
  | ShowFrame fine => act_show_frame fine
  | ReadInput t => act_read_input t
  | SendInput => act_send_input
  | SignalStop => act_signal_stop
  | TakeInput => act_take_input
  | WriteInput fine => act_write_input fine
  | Tick size => act_tick size
  | Resized => act_resized
  | TakeStop => act_take_stop
  | Proceed => act_proceed
  end.

Fixpoint run (acts : list Act) (s : Relay) : option Relay :=
  match acts with
  | [] => Some s
  | a :: acts => s' ← act a s; run acts s'
  end.

Definition step (s s' : Relay) : Prop := ∃ a, act a s = Some s'.

(** ** What is typed is written, and what is written is shown *)

(** What is on its way to the shell, and to the user. *)
Definition in_transit (s : Relay) : list string :=
  match rl_writer s with Writing c => [c] | _ => [] end ++ rl_data s
  ++ match rl_input s with Sending c => [c] | _ => [] end.

Definition to_be_shown (s : Relay) : list LogOutput :=
  omap id (rl_frames s) ++ match rl_reader s with Passing (Some f) => [f] | _ => [] end.

(** The way in: what is typed is written, in order, unless a write fails; and the
    writer ends only when the input has ended and all is written. *)
Record input_ok (s : Relay) : Prop := {
  in_bound : (length (rl_data s) ≤ channel_capacity)%nat;
  in_prefix : h_written (rl_history s) `prefix_of` h_typed (rl_history s);
  in_failed : h_write_failed (rl_history s) = true → rl_writer s = WriterDone;
  in_flow : rl_writer s ≠ WriterDone → h_typed (rl_history s) = h_written (rl_history s) ++ in_transit s;
  in_closed : h_write_failed (rl_history s) = false → rl_writer s = WriterDone →
    rl_input s = InputDone ∧ h_typed (rl_history s) = h_written (rl_history s);
}.

(** The way out: what is shown is what can be seen of the frames, in order; and
    the end of the output is the last thing in the channel. *)
Record output_ok (s : Relay) : Prop := {
  out_bound : (length (rl_frames s) ≤ channel_capacity)%nat;
  out_prefix : h_shown (rl_history s) `prefix_of` omap visible (h_read (rl_history s));
  out_failed : h_show_failed (rl_history s) = true → rl_showing s = false;
  out_flow : rl_showing s = true →
    omap visible (h_read (rl_history s)) = h_shown (rl_history s) ++ omap visible (to_be_shown s);
  out_end : rl_showing s = true →
    ∃ fs, rl_frames s = Some <$> fs ∨ rl_frames s = (Some <$> fs) ++ [None] ∧ rl_reader s = ReaderDone;
  out_closed : h_show_failed (rl_history s) = false → rl_showing s = false →
    rl_reader s = ReaderDone ∧ omap visible (h_read (rl_history s)) = h_shown (rl_history s);
}.

Record command_ok (s : Relay) : Prop := {
  cmd_raw : rl_raw s = match rl_command s with Finished => false | _ => true end;
  cmd_order : rl_command s ≠ Awaiting → rl_showing s = false;
}.

Definition relay_ok (s : Relay) : Prop := input_ok s ∧ output_ok s ∧ command_ok s.

Lemma relay_new_ok : relay_ok relay_new.
Proof.
  split_and!; split; cbn; try done; try lia; try apply prefix_nil. intros _. exists []. by left.
Qed.

(** Takes the cases of an action apart. *)
Ltac cases :=
  repeat match goal with
  | H : match ?x with _ => _ end = Some _ |- _ => destruct x eqn:?; try discriminate H
  | H : Some _ = Some _ |- _ => injection H as <-
  end.

(** The parts of the state that an action leaves alone. *)
Ltac untouched := match goal with H : _ |- _ => destruct H; by split end.

Lemma show_ok fine s s' : output_ok s → act_show_frame fine s = Some s' → output_ok s'.
Proof.
  intros [Hb Hp Hf Hflow Hend Hc] Ha. unfold act_show_frame in Ha.
  destruct (rl_showing s) eqn:Hs; [|done].
  specialize (Hflow eq_refl). destruct (Hend eq_refl) as [l Hl].
  assert (∀ f fs, rl_frames s = Some f :: fs →
            omap visible (h_read (rl_history s)) =
              h_shown (rl_history s) ++ omap visible [f] ++ omap visible (to_be_shown (set_frames fs s)))
    as Hflow'.
  { intros f fs Hfr. rewrite Hflow. unfold to_be_shown. rewrite Hfr. cbn. by destruct (visible f). }
  assert (∀ f fs, rl_frames s = Some f :: fs →
            ∃ l, fs = Some <$> l ∨ fs = (Some <$> l) ++ [None] ∧ rl_reader s = ReaderDone) as Hend'.
  { intros f fs Hfr. rewrite Hfr in Hl. exists (tail l).
    destruct l as [|g l], Hl as [Hl|[Hl Hr]]; try done; cbn in *; simplify_eq; eauto. }
  destruct (rl_frames s) as [|[f|] fs] eqn:Hfr.
  - destruct (rl_reader s) eqn:Hr; try done. injection Ha as <-. split; cbn; try done; try by rewrite Hfr.
    intros _ _. rewrite Hflow. unfold to_be_shown. by rewrite Hfr, Hr, app_nil_r.
  - specialize (Hflow' f fs eq_refl). specialize (Hend' f fs eq_refl). cbn in Hb, Hflow'.
    destruct (visible f) as [message|]; [destruct fine|]; injection Ha as <-; split; cbn in *;
      try lia; try done; try congruence; try by intros ?%Hf.
    + rewrite Hflow'. exists (omap visible (to_be_shown (set_frames fs s))). by rewrite <- app_assoc.
    + intros _. rewrite <- app_assoc. exact Hflow'.
  - injection Ha as <-. split; cbn in *; try done; [lia|]. intros _ _.
    assert (fs = [] ∧ rl_reader s = ReaderDone) as [-> Hr].
    { destruct Hl as [Hl|[Hl Hr]]; destruct l as [|g l]; try done. cbn in Hl. by simplify_eq. }
    split; [done|]. rewrite Hflow. unfold to_be_shown. by rewrite Hfr, Hr, app_nil_r.
Qed.

Lemma read_output_ok frame s s' : output_ok s → act_read_output frame s = Some s' → output_ok s'.
Proof.
  intros [Hb Hp Hf Hflow Hend Hc] Ha. unfold act_read_output in Ha.
  destruct (rl_reader s) eqn:Hr; try done. injection Ha as <-.
  assert (rl_showing s = true → ∃ fs, rl_frames s = Some <$> fs) as Hend'.
  { intros Hs. by destruct (Hend Hs) as [fs [?|[_ ?]]]; [eauto|]. }
  destruct frame as [f|]; (split; cbn in *; try done).
  - rewrite omap_app. by apply prefix_app_r.
  - intros Hs. rewrite omap_app, (Hflow Hs). unfold to_be_shown. cbn. rewrite Hr.
    by rewrite app_nil_r, omap_app, app_assoc.
  - intros Hs. destruct (Hend' Hs) as [fs Hfs]. eauto.
  - intros Hs Hshow. by destruct (Hc Hs Hshow).
  - intros Hs. rewrite (Hflow Hs). unfold to_be_shown. cbn. by rewrite Hr.
  - intros Hs. destruct (Hend' Hs) as [fs Hfs]. eauto.
  - intros Hs Hshow. by destruct (Hc Hs Hshow).
Qed.

Lemma pass_frame_ok s s' : output_ok s → act_pass_frame s = Some s' → output_ok s'.
Proof.
  intros [Hb Hp Hf Hflow Hend Hc] Ha. unfold act_pass_frame in Ha.
  destruct (rl_reader s) as [|x|] eqn:Hr; try done. destruct (rl_showing s) eqn:Hs; cbn in Ha.
  - case_bool_decide as Hroom; [|done]. injection Ha as <-.
    destruct (Hend eq_refl) as [fs [Hfs|[_ ?]]]; [|done].
    split; cbn in *; try done; [rewrite length_app; cbn; lia|by rewrite Hs| | |by rewrite Hs].
    + intros _. rewrite (Hflow eq_refl). unfold to_be_shown. cbn. rewrite Hr.
      by destruct x as [f|]; rewrite !omap_app; cbn; rewrite ?app_nil_r.
    + intros _. destruct x as [f|]; [exists (fs ++ [f]); left|exists fs; right]; rewrite Hfs; [|done].
      by rewrite fmap_app.
  - injection Ha as <-. split; cbn in *; try done; [by rewrite Hs..|]. intros Hfail _.
    by destruct (Hc Hfail eq_refl) as [? _].
Qed.

Lemma in_transit_data s c :
  rl_input s = Sending c →
  in_transit (set_input Typing (set_data (rl_data s ++ [c]) s)) = in_transit s.
Proof. intros Hi. unfold in_transit. cbn. by rewrite Hi, app_nil_r. Qed.

(** Nothing is read from the user when the writer has come to its end. *)
Lemma writer_open s :
  input_ok s → rl_input s ≠ InputDone → rl_writer s ≠ WriterDone ∨ h_write_failed (rl_history s) = true.
Proof.
  intros [Hb Hp Hf Hflow Hc] Hi. destruct (rl_writer s); [by left..|]. right.
  apply not_false_is_true. intros Hfail. by destruct (Hc Hfail eq_refl).
Qed.

(** The input that does not send any more what it holds. *)
Lemma input_moved s x :
  input_ok s → rl_input s ≠ InputDone →
  (rl_writer s ≠ WriterDone → in_transit (set_input x s) = in_transit s) → input_ok (set_input x s).
Proof.
  intros Hok Hi Hsame. destruct (writer_open s Hok Hi) as [Hw|Hw]; destruct Hok as [Hb Hp Hf Hflow Hc];
    split; cbn; try done; try congruence; intros Hd;
    (etrans; [exact (Hflow Hd)|f_equal; symmetry; exact (Hsame Hd)]).
Qed.

Lemma read_input_ok t s s' : input_ok s → act_read_input t s = Some s' → input_ok s'.
Proof.
  intros Hok Ha. unfold act_read_input in Ha. destruct (rl_input s) eqn:Hi; try done.
  destruct t as [c| |].
  - destruct (_ && _); [|done]. injection Ha as <-.
    destruct (writer_open s Hok) as [Hw|Hw]; [by rewrite Hi|..]; destruct Hok as [Hb Hp Hf Hflow Hc];
      split; cbn; try done; try congruence; try by apply prefix_app_r.
    all: intros Hd; rewrite (Hflow Hd); unfold in_transit; cbn; by rewrite Hi, app_nil_r, <- !app_assoc.
  - injection Ha as <-. apply input_moved; [done|by rewrite Hi|]. intros _. unfold in_transit. cbn. by rewrite Hi.
  - injection Ha as <-. apply input_moved; [done|by rewrite Hi|]. intros _. unfold in_transit. cbn. by rewrite Hi.
Qed.

Lemma send_input_ok s s' : input_ok s → act_send_input s = Some s' → input_ok s'.
Proof.
  intros Hok Ha. unfold act_send_input in Ha. destruct (rl_input s) as [|c| |] eqn:Hi; try done.
  assert (rl_writer s = WriterDone ∧ s' = set_input Signalling s ∨
          rl_writer s ≠ WriterDone ∧ (length (rl_data s) < channel_capacity)%nat ∧
            s' = set_input Typing (set_data (rl_data s ++ [c]) s)) as [[Hw ->]|(Hw & Hroom & ->)].
  { destruct (rl_writer s); [right..|by left; injection Ha]; case_bool_decide; try done; by injection Ha. }
  - by apply input_moved; [|rewrite Hi|].
  - destruct Hok as [Hb Hp Hf Hflow Hc]. split; cbn; try done.
    + rewrite length_app. cbn. lia.
    + intros Hd. etrans; [exact (Hflow Hd)|]. f_equal. symmetry. apply (in_transit_data s c Hi).
Qed.

Lemma take_input_ok s s' : input_ok s → act_take_input s = Some s' → input_ok s'.
Proof.
  intros [Hb Hp Hf Hflow Hc] Ha. unfold act_take_input in Ha.
  destruct (rl_writer s) eqn:Hw; try done. specialize (Hflow ltac:(done)). unfold in_transit in Hflow.
  rewrite Hw in Hflow. destruct (rl_data s) as [|c cs] eqn:Hd.
  - destruct (rl_input s) eqn:Hi; try done. injection Ha as <-. split; cbn; try done; try by rewrite Hd.
    intros _ _. by rewrite Hflow, app_nil_r.
  - injection Ha as <-. split; cbn in *; try done; [lia|by intros ?%Hf].
Qed.

Lemma write_input_ok fine s s' : input_ok s → act_write_input fine s = Some s' → input_ok s'.
Proof.
  intros [Hb Hp Hf Hflow Hc] Ha. unfold act_write_input in Ha.
  destruct (rl_writer s) as [|c|] eqn:Hw; try done. injection Ha as <-.
  specialize (Hflow ltac:(done)). unfold in_transit in Hflow. rewrite Hw in Hflow.
  destruct fine; split; cbn; try done; try by intros ?%Hf.
  - rewrite Hflow. exists (rl_data s ++ match rl_input s with Sending c => [c] | _ => [] end).
    by rewrite <- app_assoc.
  - intros _. rewrite Hflow. unfold in_transit. cbn. by rewrite <- app_assoc.
Qed.

(** *** Each action keeps to its way *)

(** The parts of the state that the two ways are about. *)
Definition way_in (s : Relay) :=
  let h := rl_history s in
  (rl_data s, rl_writer s, rl_input s, h_typed h, h_written h, h_write_failed h).

Definition way_out (s : Relay) :=
  let h := rl_history s in
  (rl_reader s, rl_frames s, rl_showing s, h_read h, h_shown h, h_show_failed h).

Lemma input_ok_same s s' : input_ok s → way_in s' = way_in s → input_ok s'.
Proof.
  intros [] Hs. unfold way_in in Hs. injection Hs as E1 E2 E3 E4 E5 E6.
  split; rewrite ?E1, ?E2, ?E3, ?E4, ?E5, ?E6; try done. unfold in_transit. by rewrite E1, E2, E3.
Qed.

Lemma output_ok_same s s' : output_ok s → way_out s' = way_out s → output_ok s'.
Proof.
  intros [] Hs. unfold way_out in Hs. injection Hs as E1 E2 E3 E4 E5 E6.
  split; rewrite ?E1, ?E2, ?E3, ?E4, ?E5, ?E6; try done. unfold to_be_shown. by rewrite E1, E2.
Qed.

Lemma send_stop_same s s' :
  send_stop s = Some s' →
  (rl_resizer s = ResizerDone ∧ s' = s) ∨
  (rl_resizer s ≠ ResizerDone ∧ rl_stop s = false ∧ s' = set_stop true s).
Proof.
  intros Ha. unfold send_stop in Ha. destruct (rl_resizer s); [destruct (rl_stop s); [done|]..|];
    injection Ha as <-; eauto.
Qed.

Lemma command_ok_same s s' :
  command_ok s → rl_command s' = rl_command s → rl_raw s' = rl_raw s →
  (rl_showing s = false → rl_showing s' = false) → command_ok s'.
Proof. intros [Hr Ho] Ec Er Hs. split; rewrite Ec; [by rewrite Er|auto]. Qed.

(** Who moves, and what stays. *)
Lemma act_out a s s' :
  act a s = Some s' →
  match a with ReadOutput _ | PassFrame | ShowFrame _ => True | _ => False end →
  way_in s' = way_in s ∧ rl_command s' = rl_command s ∧ rl_raw s' = rl_raw s ∧
  (rl_showing s = false → rl_showing s' = false).
Proof.
  intros Ha Hwho. destruct a; try done; cbn in Ha;
    unfold act_read_output, act_pass_frame, act_show_frame in Ha; cases;
    repeat case_match; split_and!; try done; cbn; congruence.
Qed.

Lemma act_in a s s' :
  act a s = Some s' →
  match a with ReadInput _ | SendInput | TakeInput | WriteInput _ => True | _ => False end → way_out s' = way_out s ∧ rl_command s' = rl_command s ∧ rl_raw s' = rl_raw s ∧
  rl_showing s' = rl_showing s.
Proof.
  intros Ha Hwho. destruct a; try done; cbn in Ha;
    unfold act_read_input, act_send_input, act_take_input, act_write_input in Ha; cases; by repeat case_match.
Qed.

Lemma act_resizing a s s' :
  act a s = Some s' →
  match a with Tick _ | Resized | TakeStop => True | _ => False end → way_in s' = way_in s ∧ way_out s' = way_out s ∧ rl_command s' = rl_command s ∧ rl_raw s' = rl_raw s ∧
  rl_showing s' = rl_showing s.
Proof.
  intros Ha Hwho. destruct a; try done; cbn in Ha;
    unfold act_tick, act_resized, act_take_stop in Ha; cases; by repeat case_match.
Qed.

Lemma signal_stop_ok s s' : relay_ok s → act_signal_stop s = Some s' → relay_ok s'.
Proof.
  intros (Hin & Hout & Hcmd) Ha. unfold act_signal_stop in Ha.
  destruct (rl_input s) eqn:Hi; try done. apply fmap_Some in Ha as (s1 & Hs1 & ->).
  assert (relay_ok s1 ∧ rl_input s1 = Signalling) as [(Hin1 & Hout1 & [Hr Ho]) Hi1].
  { destruct (send_stop_same s s1 Hs1) as [[_ ->]|(_ & _ & ->)]; [done|]. split; [|done].
    split_and!; [by eapply input_ok_same|by eapply output_ok_same|by eapply command_ok_same]. }
  split_and!; [|by eapply output_ok_same|by split].
  apply input_moved; [done|by rewrite Hi1|]. intros _. unfold in_transit. cbn. by rewrite Hi1.
Qed.

Lemma proceed_ok s s' : relay_ok s → act_proceed s = Some s' → relay_ok s'.
Proof.
  intros (Hin & Hout & [Hr Ho]) Ha. unfold act_proceed in Ha.
  assert (∀ t c, way_in t = way_in s → way_out t = way_out s → rl_showing t = rl_showing s →
            rl_raw t = rl_raw s → rl_command t = rl_command s → rl_showing s = false → c ≠ Finished →
            rl_command s ≠ Finished → relay_ok (set_command c t)) as Hset.
  { intros t c E1 E2 E3 E4 E5 Hs Hc Hf. split_and!;
      [by eapply input_ok_same|by eapply output_ok_same|].
    split; cbn; rewrite ?E3, ?E4; [|done]. rewrite Hr. by destruct (rl_command s), c. }
  destruct (rl_command s) eqn:Hc; cbn in Ha; try done.
  - destruct (rl_showing s) eqn:Hs; [done|]. injection Ha as <-. by apply Hset; rewrite ?Hc.
  - apply fmap_Some in Ha as (s1 & Hs1 & ->).
    destruct (send_stop_same s s1 Hs1) as [[_ ->]|(_ & _ & ->)]; apply Hset; rewrite ?Hc; auto.
  - injection Ha as <-. split_and!; [by eapply input_ok_same|by eapply output_ok_same|].
    split; cbn; auto.
Qed.

Lemma act_ok a s s' : relay_ok s → act a s = Some s' → relay_ok s'.
Proof.
  intros Hok Ha. assert (Hok' := Hok). destruct Hok' as (Hin & Hout & Hcmd).
  destruct a; try (by eapply signal_stop_ok); try by eapply proceed_ok.
  all: try (destruct (act_out _ s s' Ha I) as (E1 & E2 & E3 & E4);
            split_and!; [by eapply input_ok_same| |by eapply command_ok_same]).
  all: try (destruct (act_in _ s s' Ha I) as (E1 & E2 & E3 & E4);
            split_and!; [|by eapply output_ok_same|by apply (command_ok_same s); [| | |rewrite E4]]).
  all: try (destruct (act_resizing _ s s' Ha I) as (E0 & E1 & E2 & E3 & E4);
            split_and!; [by eapply input_ok_same|by eapply output_ok_same
                        |by apply (command_ok_same s); [| | |rewrite E4]]).
  - exact (read_output_ok _ _ _ Hout Ha).
  - exact (pass_frame_ok _ _ Hout Ha).
  - exact (show_ok _ _ _ Hout Ha).
  - exact (read_input_ok _ _ _ Hin Ha).
  - exact (send_input_ok _ _ Hin Ha).
  - exact (take_input_ok _ _ Hin Ha).
  - exact (write_input_ok _ _ _ Hin Ha).
Qed.

Lemma steps_ok s s' : rtc step s s' → relay_ok s → relay_ok s'.
Proof. induction 1 as [|s1 s2 s3 [a Ha] _ IH]; eauto using act_ok. Qed.

Lemma relay_reachable_ok s : rtc step relay_new s → relay_ok s.
Proof. intros Hs. by eapply steps_ok, relay_new_ok. Qed.

(** ** The relay ends when the output does *)

(** The output is at its end, or nobody shows it any more. *)
Definition over (s : Relay) : Prop :=
  rl_showing s = false ∨ rl_reader s = Passing None ∨ rl_reader s = ReaderDone.

(** What the relay does of itself: no input, no output of the shell, no write to
    it.  A call to resize the terminal is answered. *)
Definition own (a : Act) : bool :=
  match a with PassFrame | ShowFrame true | Resized | TakeStop | Proceed => true | _ => false end.

Definition stage (c : Command) : nat :=
  match c with Awaiting => 3 | Stopping => 2 | Restoring => 1 | Finished => 0 end.

(** What there is left to do. *)
Definition left_to_show (s : Relay) : nat :=
  if rl_showing s then 1 + length (rl_frames s) + match rl_reader s with Passing None => 2 | _ => 0 end
  else 0.

Definition left_to_stop (s : Relay) : nat :=
  (if rl_stop s then 1 else 0) + match rl_input s with InputDone => 0 | _ => 1 end
  + match rl_resizer s with ResizerDone => 0 | _ => 1 end.

Definition left (s : Relay) : nat := 2 * stage (rl_command s) + left_to_show s + left_to_stop s.

Lemma left_bound s : relay_ok s → (left s ≤ 112)%nat.
Proof.
  intros (_ & [Hb _ _ _ _ _] & _). unfold left, left_to_show, left_to_stop, channel_capacity in *.
  destruct (rl_command s), (rl_showing s), (rl_reader s) as [|[]|], (rl_stop s), (rl_input s), (rl_resizer s);
    cbn; lia.
Qed.

(** No action of any task makes it more, and those of the way in do not count. *)
Lemma left_in s s' :
  way_out s' = way_out s → rl_command s' = rl_command s →
  (left_to_stop s' ≤ left_to_stop s)%nat → over s → over s' ∧ (left s' ≤ left s)%nat.
Proof.
  intros Ho Ec Hl Hover. unfold way_out in Ho. injection Ho as E1 E2 E3 _ _ _.
  unfold over, left, left_to_show. rewrite E1, E2, E3, Ec. split; [done|lia].
Qed.

Lemma left_input a s s' :
  act a s = Some s' → match a with ReadInput _ | SendInput | TakeInput | WriteInput _ => True | _ => False end →
  (left_to_stop s' ≤ left_to_stop s)%nat.
Proof.
  intros Ha Hwho.
  assert (rl_stop s' = rl_stop s ∧ rl_resizer s' = rl_resizer s ∧
          (rl_input s' = rl_input s ∨ rl_input s ≠ InputDone)) as (E1 & E2 & [E3|E3]).
  { destruct a; try done; cbn in Ha;
      unfold act_read_input, act_send_input, act_take_input, act_write_input in Ha; cases;
      repeat case_match; split_and!; try done; cbn; auto; right; congruence. }
  - unfold left_to_stop. by rewrite E1, E2, E3.
  - unfold left_to_stop. rewrite E1, E2. destruct (rl_input s), (rl_input s'); cbn; lia || done.
Qed.

Lemma left_signal s s' : act_signal_stop s = Some s' → (left_to_stop s' ≤ left_to_stop s)%nat.
Proof.
  intros Ha. unfold act_signal_stop in Ha. destruct (rl_input s) eqn:Hi; try done.
  apply fmap_Some in Ha as (s1 & Hs1 & ->). unfold left_to_stop. cbn.
  destruct (send_stop_same s s1 Hs1) as [[Hz ->]|(Hz & Hs & ->)]; cbn; rewrite ?Hs, Hi; [lia|].
  destruct (rl_resizer s); lia || done.
Qed.

Lemma left_resizing a s s' :
  act a s = Some s' → match a with Tick _ | Resized | TakeStop => True | _ => False end →
  (left_to_stop s' ≤ left_to_stop s)%nat.
Proof.
  intros Ha Hwho. destruct a as [| | | | | | | |size| | |]; try done; cbn in Ha;
    unfold act_tick, act_resized, act_take_stop in Ha; destruct (rl_resizer s) eqn:Hz; try done.
  - destruct size; injection Ha as <-; unfold left_to_stop; cbn; rewrite ?Hz; lia.
  - injection Ha as <-. unfold left_to_stop. cbn. rewrite Hz. lia.
  - destruct (rl_stop s) eqn:Hs; [|done]. injection Ha as <-. unfold left_to_stop. cbn. rewrite Hz, Hs. lia.
Qed.

Lemma left_proceed s s' :
  over s → act_proceed s = Some s' → over s' ∧ (left s' < left s)%nat.
Proof.
  intros Hover Ha. unfold act_proceed in Ha. destruct (rl_command s) eqn:Hc; try done.
  - destruct (rl_showing s) eqn:Hs; [done|]. injection Ha as <-. split; [by left|].
    unfold left, left_to_show, left_to_stop. cbn. rewrite Hc, Hs. cbn. lia.
  - apply fmap_Some in Ha as (s1 & Hs1 & ->).
    destruct (send_stop_same s s1 Hs1) as [[Hz ->]|(Hz & Hs & ->)]; (split; [done|]);
      unfold left, left_to_show, left_to_stop; cbn; rewrite Hc, ?Hs; cbn; lia.
  - injection Ha as <-. split; [done|]. unfold left, left_to_show, left_to_stop. cbn. rewrite Hc. cbn. lia.
Qed.

Lemma left_output a s s' :
  over s → act a s = Some s' → match a with ReadOutput _ | PassFrame | ShowFrame _ => True | _ => False end →
  over s' ∧ (left_to_show s' ≤ left_to_show s)%nat ∧
  (rl_showing s = true → (left_to_show s' < left_to_show s)%nat) ∧ left_to_stop s' = left_to_stop s.
Proof.
  intros Hover Ha Hwho. unfold over in *. destruct a as [frame| |fine| | | | | | | | |]; try done; cbn in Ha.
  - unfold act_read_output in Ha. destruct (rl_reader s) eqn:Hr; try done. destruct_or! Hover; try done.
    injection Ha as <-. unfold left_to_show. destruct frame; cbn; rewrite Hover; cbn; auto with lia.
  - unfold act_pass_frame in Ha. destruct (rl_reader s) as [|x|] eqn:Hr; try done.
    destruct (rl_showing s) eqn:Hs; cbn in Ha.
    + case_bool_decide; [|done]. injection Ha as <-.
      destruct_or! Hover; try done. injection Hover as ->. unfold left_to_show. cbn. rewrite Hs, Hr, length_app.
      cbn. split_and!; auto; lia.
    + injection Ha as <-. unfold left_to_show. cbn. rewrite Hs. split_and!; auto. done.
  - unfold act_show_frame in Ha. destruct (rl_showing s) eqn:Hs; [|done].
    assert (∀ t, rl_reader t = rl_reader s → left_to_stop t = left_to_stop s →
              rl_showing t = false ∨ (length (rl_frames t) < length (rl_frames s))%nat ∧ rl_showing t = true →
              (rl_showing t = false ∨ rl_reader t = Passing None ∨ rl_reader t = ReaderDone) ∧
              (left_to_show t ≤ left_to_show s)%nat ∧
              (true = true → (left_to_show t < left_to_show s)%nat) ∧ left_to_stop t = left_to_stop s) as Ht.
    { intros t E1 E2 Hl. rewrite E1. unfold left_to_show. rewrite E1, Hs.
      destruct Hl as [->|[Hl ->]]; split_and!; auto; try lia; right; by destruct Hover. }
    destruct (rl_frames s) as [|[f|] fs] eqn:Hfr.
    + destruct (rl_reader s) eqn:Hr; try done. injection Ha as <-. apply Ht; auto.
    + injection Ha as <-. apply Ht; destruct (visible f), fine; cbn; auto with lia.
    + injection Ha as <-. apply Ht; auto.
Qed.

Lemma act_left a s s' : over s → act a s = Some s' → over s' ∧ (left s' ≤ left s)%nat.
Proof.
  intros Hover Ha.
  destruct a as [frame| |fine|t| | | |fine|size| | |].
  1-3: destruct (left_output _ s s' Hover Ha I) as (Ho & Hl & _ & Es); split; [done|];
       destruct (act_out _ s s' Ha I) as (_ & Ec & _); unfold left; rewrite Ec, Es; lia.
  1-2,4-5: destruct (act_in _ s s' Ha I) as (Ho & Ec & _);
       apply (left_in s s' Ho Ec); [by eapply left_input|done].
  - assert (way_out s' = way_out s ∧ rl_command s' = rl_command s) as [Ho Ec].
    { cbn in Ha. unfold act_signal_stop in Ha. destruct (rl_input s); try done.
      apply fmap_Some in Ha as (s1 & Hs1 & ->).
      by destruct (send_stop_same s s1 Hs1) as [[_ ->]|(_ & _ & ->)]. }
    apply (left_in s s' Ho Ec); [by apply left_signal|done].
  - destruct (act_resizing _ s s' Ha I) as (_ & Ho & Ec & _).
    apply (left_in s s' Ho Ec); [by eapply left_resizing|done].
  - destruct (act_resizing _ s s' Ha I) as (_ & Ho & Ec & _).
    apply (left_in s s' Ho Ec); [by eapply left_resizing|done].
  - destruct (act_resizing _ s s' Ha I) as (_ & Ho & Ec & _).
    apply (left_in s s' Ho Ec); [by eapply left_resizing|done].
  - destruct (left_proceed s s' Hover Ha). auto with lia.
Qed.

(** While the command has not ended, the relay can go on by itself. *)
Lemma relay_goes_on s :
  over s → rl_command s ≠ Finished →
  ∃ acts s', forallb own acts = true ∧ (length acts ≤ 2)%nat ∧ run acts s = Some s' ∧
    over s' ∧ (left s' < left s)%nat.
Proof.
  intros Hover Hc.
  assert (∀ a s', own a = true → act a s = Some s' → (left s' < left s)%nat →
            ∃ acts s', forallb own acts = true ∧ (length acts ≤ 2)%nat ∧ run acts s = Some s' ∧
              over s' ∧ (left s' < left s)%nat) as Hone.
  { intros a s' Ha Hs Hl. exists [a], s'. cbn. rewrite Ha, Hs. destruct (act_left a s s' Hover Hs).
    split_and!; auto with lia. }
  assert (∀ s', act Proceed s = Some s' → ∃ acts s', forallb own acts = true ∧ (length acts ≤ 2)%nat ∧
            run acts s = Some s' ∧ over s' ∧ (left s' < left s)%nat) as Hproceed.
  { intros s' Hs. by apply (Hone Proceed s'); [..|apply left_proceed]. }
  destruct (rl_command s) eqn:Hcmd; [| | |done].
  - destruct (rl_showing s) eqn:Hs; [|eapply Hproceed; cbn; unfold act_proceed; by rewrite Hcmd, Hs].
    assert (∀ a s', match a with PassFrame | ShowFrame true => True | _ => False end → act a s = Some s' →
              ∃ acts s', forallb own acts = true ∧ (length acts ≤ 2)%nat ∧ run acts s = Some s' ∧
                over s' ∧ (left s' < left s)%nat) as Hout.
    { intros a s' Ha Hact.
      assert (match a with ReadOutput _ | PassFrame | ShowFrame _ => True | _ => False end) as Ha'
        by by destruct a.
      destruct (left_output a s s' Hover Hact Ha') as (_ & _ & Hl & Es).
      destruct (act_out a s s' Hact Ha') as (_ & Ec & _).
      apply (Hone a s'); [by destruct a as [| |[]| | | | | | | | |]|done|].
      unfold left. rewrite Ec, Es. specialize (Hl Hs). lia. }
    destruct (rl_frames s) as [|[f|] fs] eqn:Hfr.
    + destruct Hover as [?|[Hr|Hr]]; [by rewrite Hs in *| |].
      * eapply (Hout PassFrame); [done|]. cbn. unfold act_pass_frame. by rewrite Hr, Hs, Hfr.
      * eapply (Hout (ShowFrame true)); [done|]. cbn. unfold act_show_frame. by rewrite Hs, Hfr, Hr.
    + eapply (Hout (ShowFrame true)); [done|]. cbn. unfold act_show_frame. by rewrite Hs, Hfr.
    + eapply (Hout (ShowFrame true)); [done|]. cbn. unfold act_show_frame. by rewrite Hs, Hfr.
  - destruct (rl_resizer s) eqn:Hz;
      [..|eapply Hproceed; cbn; unfold act_proceed, send_stop; by rewrite Hcmd, Hz];
      (destruct (rl_stop s) eqn:Hstop;
         [|eapply Hproceed; cbn; unfold act_proceed, send_stop; by rewrite Hcmd, Hz, Hstop]).
    + eapply (Hone TakeStop); [done|cbn; unfold act_take_stop; by rewrite Hz, Hstop|].
      unfold left, left_to_show, left_to_stop. cbn. rewrite Hz, Hstop. lia.
    + exists [Resized; TakeStop]. eexists. split_and!; [done|done| | |].
      * cbn. unfold act_resized. rewrite Hz. cbn. unfold act_take_stop. cbn. by rewrite Hstop.
      * done.
      * unfold left, left_to_show, left_to_stop. cbn. rewrite Hz, Hstop. lia.
  - eapply Hproceed. cbn. unfold act_proceed. by rewrite Hcmd.
Qed.

Lemma run_app l1 l2 s : run (l1 ++ l2) s = run l1 s ≫= run l2.
Proof. revert s. induction l1 as [|a l1 IH]; intros s; [done|]. cbn. by destruct (act a s); cbn. Qed.

Lemma run_steps acts s s' : run acts s = Some s' → rtc step s s'.
Proof.
  revert s. induction acts as [|a acts IH]; intros s Hr; cbn in Hr; [by injection Hr as ->|].
  destruct (act a s) as [s1|] eqn:Ha; [|done]. eapply rtc_l; [by exists a|by apply IH].
Qed.

(** C26: what goes through the terminal.  However the tasks interleave: the shell
    is given what is typed, in order and without gaps, and the user sees what
    the shell has written to its outputs; no more than a hundred chunks wait in a
    channel; when the input has ended without a failure all of it is written; and
    once the command goes on, all that was read is shown, unless it could not be.
    The terminal is raw until the command ends, and no longer. *)
Theorem relay_faithful s :
  rtc step relay_new s →
  let h := rl_history s in
  h_written h `prefix_of` h_typed h ∧ h_shown h `prefix_of` omap visible (h_read h) ∧
  (length (rl_data s) ≤ channel_capacity)%nat ∧ (length (rl_frames s) ≤ channel_capacity)%nat ∧
  (rl_writer s = WriterDone → h_write_failed h = false → h_written h = h_typed h) ∧
  (rl_command s ≠ Awaiting → h_show_failed h = false →
   h_shown h = omap visible (h_read h) ∧ rl_reader s = ReaderDone) ∧
  (rl_raw s = false ↔ rl_command s = Finished).
Proof.
  intros ([Hib Hip _ _ Hic] & [Hob Hop _ _ _ Hoc] & [Hr Ho])%relay_reachable_ok. split_and!; try done.
  - intros Hw Hf. by destruct (Hic Hf Hw).
  - intros Hc Hf. by destruct (Hoc Hf (Ho Hc)).
  - rewrite Hr. by destruct (rl_command s).
Qed.

(** C27: the terminal comes back.  Once the output of the shell is at its end, or
    can not be shown, no action of any task, the user's included, takes the relay
    away from its end; at most 112 things are left to do, each of at most two
    actions of its own, and then the command has ended and the terminal is as it
    was. *)
Theorem relay_ends s :
  rtc step relay_new s → over s →
  (∀ a s', act a s = Some s' → over s' ∧ (left s' ≤ left s)%nat) ∧ (left s ≤ 112)%nat ∧
  ∃ acts s', forallb own acts = true ∧ (length acts ≤ 2 * left s)%nat ∧ run acts s = Some s' ∧
    rl_command s' = Finished ∧ rl_raw s' = false.
Proof.
  intros Hs%relay_reachable_ok Hover. split; [intros a s'; by apply act_left|]. split; [by apply left_bound|].
  remember (left s) as n eqn:Hn. revert s Hs Hover Hn.
  induction n as [n IH] using lt_wf_ind. intros s Hs Hover ->.
  destruct (rl_command s) eqn:Hc.
  4: { exists [], s. destruct Hs as (_ & _ & [Hr _]). rewrite Hr, Hc. split_and!; try done. cbn. lia. }
  all: destruct (relay_goes_on s Hover) as (acts & s1 & Hown & Hlen & Hrun & Hover1 & Hl); [by rewrite Hc|];
    destruct (IH (left s1) Hl s1 (steps_ok _ _ (run_steps _ _ _ Hrun) Hs) Hover1 eq_refl)
      as (acts' & s' & Hown' & Hlen' & Hrun' & Hend);
    exists (acts ++ acts'), s';
    split_and!; [by rewrite forallb_app, Hown|rewrite length_app; lia|by rewrite run_app, Hrun|apply Hend..].
Qed.

(** ** Witnesses *)

Module Witnesses.

(** A command is typed, and the window changes its size; the shell answers, and
    the input ends before the output. *)
Definition session : list Act :=
  [ReadInput (Bytes "ls"); Tick true; SendInput; TakeInput; WriteInput true;
   ReadOutput (Some (StdOut "file")); PassFrame; ReadInput EndOfInput; SignalStop; TakeInput;
   ReadOutput None].

Definition after_session : Relay := default relay_new (run session relay_new).

Lemma session_reached : rtc step relay_new after_session.
Proof.
  assert (run session relay_new = Some after_session) as Hrun by (vm_compute; reflexivity).
  exact (run_steps session relay_new after_session Hrun).
Qed.

(** The signal is in its channel, the call to resize is not answered yet, and a
    frame and the end of the output are still to be shown. *)
Lemma relay_ends_witness :
  rtc step relay_new after_session ∧ over after_session ∧ left after_session = 12%nat ∧
  ∃ acts s', forallb own acts = true ∧ (length acts ≤ 2 * left after_session)%nat ∧
    run acts after_session = Some s' ∧ rl_command s' = Finished ∧ rl_raw s' = false.
Proof.
  assert (over after_session) as Hover by (right; left; (vm_compute; reflexivity)).
  split; [exact session_reached|]. split; [exact Hover|]. split; [(vm_compute; reflexivity)|].
  exact (proj2 (proj2 (relay_ends after_session session_reached Hover))).
Defined.

Lemma relay_faithful_witness :
  rl_writer after_session = WriterDone ∧ h_write_failed (rl_history after_session) = false ∧
  h_written (rl_history after_session) = ["ls"] ∧
  h_written (rl_history after_session) = h_typed (rl_history after_session).
Proof.
  split; [(vm_compute; reflexivity)|]. split; [(vm_compute; reflexivity)|]. split; [(vm_compute; reflexivity)|].
  destruct (relay_faithful after_session session_reached) as (_ & _ & _ & _ & Hw & _).
  apply Hw; (vm_compute; reflexivity).
Defined.

(** A frame of the kind that a terminal gives is passed over. *)
Example console_lost :
  (h_read ∘ rl_history <$> run [ReadOutput (Some (Console "file")); PassFrame; ShowFrame true] relay_new,
   h_shown ∘ rl_history <$> run [ReadOutput (Some (Console "file")); PassFrame; ShowFrame true] relay_new)
  = (Some [Console "file"], Some []).
Proof. vm_compute. reflexivity. Qed.

(** After the end of the input nobody follows the size of the window, while the
    shell goes on. *)
Example resizing_ends :
  (λ s, (rl_resizer s, rl_command s, rl_reader s))
    <$> run [ReadInput EndOfInput; SignalStop; TakeStop] relay_new
  = Some (ResizerDone, Awaiting, Reading).
Proof. vm_compute. reflexivity. Qed.
End Witnesses.
