(* ===== verification/TerminalStreams.v ===== *)
(** * TerminalStreams: the terminals that the backends give

    Models the trait [TerminalStream] ([src/core/manager.rs]) and its two
    implementations: on Docker ([src/docker/manager/terminal.rs], with
    [exec_terminal] of [docker/manager/sandbox.rs]) and on Kubernetes
    ([src/k8s/manager/exec.rs], [mod.rs]).  [TerminalContract] is what the web
    terminal ([Sockets]) relies on; both implementations meet it.

    A stream that is read is the list of what it will give. *)

From S2P Require Import Prelude Text Paths Errors Types Store World Service Config Kube KubeBackend Docker Sockets Terminal.

(** ** The trait, and what it promises *)

Class TerminalStream (T : Type) := {
  read_frame : M T (Result (option TerminalFrame) ManagerError);
  write : string → M T (Result () ManagerError);
  resize : Z → Z → M T (Result () ManagerError);
}.

(** [ahead] is the text that will be read, and [ending] how that ends: with the
    end of the terminal, or an error.  A read takes a piece of the text that is
    not empty, never gives [None], and what is written or resized does not touch
    the text. *)
Class TerminalContract (T : Type) `{TerminalStream T} := {
  ahead : T → string;
  ending : T → Result (option TerminalFrame) ManagerError;
  ending_closes t : ending t = Ok (Some FrameClosed) ∨ is_ok (ending t) = false;
  read_ahead t :
    ahead t ≠ "" →
    ∃ b, b ≠ "" ∧ run_val read_frame t = Ok (Some (FrameData b)) ∧
      ahead t = b +:+ ahead (run_st read_frame t) ∧ ending (run_st read_frame t) = ending t;
  read_ending t : ahead t = "" → run_val read_frame t = ending t;
  write_ahead data t : ahead (run_st (write data) t) = ahead t;
  write_ending data t : ending (run_st (write data) t) = ending t;
  resize_ahead rows cols t : ahead (run_st (resize rows cols) t) = ahead t;
  resize_ending rows cols t : ending (run_st (resize rows cols) t) = ending t;
}.

(** *** What a client does with a terminal, in any order *)

Inductive Use : Type := UseRead | UseWrite (data : string) | UseResize (rows cols : Z).

Section uses.
Context {T : Type} `{TerminalStream T}.

(** What the reads gave. *)
Fixpoint use (uses : list Use) : M T (list (Result (option TerminalFrame) ManagerError)) :=
  match uses with
  | [] => mret []
  | UseRead :: uses => r ← read_frame; rs ← use uses; mret (r :: rs)
  | UseWrite data :: uses => _ ← write data; use uses
  | UseResize rows cols :: uses => _ ← resize rows cols; use uses
  end.
End uses.

Fixpoint reads (uses : list Use) : nat :=
  match uses with
  | [] => 0
  | UseRead :: uses => S (reads uses)
  | _ :: uses => reads uses
  end.

(** The frames are pieces of [text], none empty, and leave [rest]. *)
Definition pieces (frames : list (Result (option TerminalFrame) ManagerError)) (text rest : string) : Prop :=
  ∃ bs, frames = (λ b, Ok (Some (FrameData b))) <$> bs ∧ Forall (λ b, b ≠ "") bs ∧
    text = String.concat "" bs +:+ rest.

(** The frames are all the text, and then what ends it. *)
Definition whole (frames : list (Result (option TerminalFrame) ManagerError)) (text : string)
    (ending : Result (option TerminalFrame) ManagerError) : Prop :=
  ∃ before after, frames = before ++ ending :: after ∧ pieces before text "".

(** Whatever is done in between, the reads give the text from its start, in
    order, and with enough of them all of it. *)
Definition gives {T} `{TerminalStream T} (uses : list Use) (t : T) (text : string)
    (ending : Result (option TerminalFrame) ManagerError) : Prop :=
  let frames := run_val (use uses) t in
  length frames = reads uses ∧
  ((∃ rest, pieces frames text rest) ∨ whole frames text ending) ∧
  ((String.length text < reads uses)%nat → whole frames text ending).

Lemma pieces_nil text : pieces [] text text.
Proof. by exists []. Qed.

Lemma pieces_cons b frames text rest :
  b ≠ "" → pieces frames text rest → pieces (Ok (Some (FrameData b)) :: frames) (b +:+ text) rest.
Proof.
  intros Hb (bs & -> & Hbs & ->). exists (b :: bs). split; [done|]. split; [by constructor|].
  destruct bs; cbn; by rewrite ?string_app_nil, ?string_app_assoc.
Qed.

Lemma whole_cons b frames text e :
  b ≠ "" → whole frames text e → whole (Ok (Some (FrameData b)) :: frames) (b +:+ text) e.
Proof.
  intros Hb (before & after & -> & Hp). exists (Ok (Some (FrameData b)) :: before), after.
  split; [done|]. by apply pieces_cons.
Qed.

Lemma length_filled b text : b ≠ "" → (String.length text < String.length (b +:+ text))%nat.
Proof.
  intros Hb. assert (String.length (b +:+ text) = String.length b + String.length text)%nat as ->.
  { clear Hb. induction b as [|c b IH]; [done|]. simpl. by rewrite IH. }
  destruct b; [done|]. cbn. lia.
Qed.

Section contract.
Context {T : Type} `{TerminalContract T}.

Lemma use_gives uses (t : T) : gives uses t (ahead t) (ending t).
Proof.
  unfold gives. revert t. induction uses as [|u uses IH]; intros t; cbn.
  { split; [done|]. split; [left; exists (ahead t); apply pieces_nil|lia]. }
  destruct u as [|data|rows cols]; cbn.
  - unfold run_val. rewrite M_bind_unfold. fold (run_val read_frame t). fold (run_st read_frame t).
    specialize (IH (run_st read_frame t)). rewrite M_bind_unfold. cbn.
    unfold run_val in IH at 1.
    destruct IH as (Hl & Hp & Hw). split; [cbn; f_equal; exact Hl|].
    destruct (decide (ahead t = "")) as [Ht|Ht].
    + rewrite (read_ending _ Ht).
      assert (∀ fs, whole (ending t :: fs) (ahead t) (ending t)) as Hend.
      { intros fs. exists [], fs. split; [done|]. rewrite Ht. apply pieces_nil. }
      split; [right|intros _]; apply Hend.
    + destruct (read_ahead _ Ht) as (b & Hb & Hr & Ha & He). rewrite Hr, Ha, <- He.
      split.
      * destruct Hp as [[rest Hp]|Hp]; [left; exists rest; by apply pieces_cons|right; by apply whole_cons].
      * intros Hlt. apply whole_cons; [done|]. apply Hw.
        pose proof (length_filled b (ahead (run_st read_frame t)) Hb). lia.
  - unfold run_val. rewrite M_bind_unfold. rewrite <- (write_ahead data t), <- (write_ending data t). apply IH.
  - unfold run_val. rewrite M_bind_unfold. rewrite <- (resize_ahead rows cols t), <- (resize_ending rows cols t). apply IH.
Qed.
End contract.

Definition failed {A} (text : string) (r : Result A string) : Result A ManagerError :=
  result_map_err (λ e, ManagerOperationFailed (text +:+ e)) r.

(** ** Docker *)

(** The streams of an [exec]: all that its output will give, and its input. *)
Class ExecStreams (D : Type) `{ExecDocker D} := {
  x_output : XStreams → list (Result LogOutput string);
  x_write_all : XStreams → string → M D (Result () string);
  x_flush : XStreams → M D (Result () string);
}.

Section docker.
Context {D : Type} `{ExecStreams D}.

(** [ds_term] is the variable [TERM] of the server. *)
Context (ds_term : option string).

Record DockerTerminalStream : Type := mkDockerTerminalStream {
  ds_docker : D;
  ds_exec_id : string;
  ds_output : list (Result LogOutput string);
  ds_input : XStreams;
}.

Definition terminal_options (shell : string) : ExecOptions :=
  mkExecOptions [shell] true true true true None
    (Some ["TERM=" +:+ default "xterm-256color" ds_term; "LANG=C.UTF-8"; "LC_ALL=C.UTF-8"]) None.

Definition docker_exec_terminal (id : string) (shell : option string)
    : M D (Result DockerTerminalStream ManagerError) :=
  let shell := default "bash" shell in
  r ← x_create_exec id (terminal_options shell);
  let* exec_id := mret (result_map_err (λ msg,
                    if contains "No such container" msg || contains "not found" msg
                    then ManagerNotFound ("Container: " +:+ id)
                    else ManagerOperationFailed ("Failed to create exec with " +:+ shell +:+ ": " +:+ msg)) r) in
  r ← x_start_exec exec_id;
  let* result := mret (failed "Failed to start exec: " r) in
  λ d, (match result with
        | Some streams => Ok (mkDockerTerminalStream d exec_id (x_output streams) streams)
        | None => Err (ManagerOperationFailed "Unexpected result type from start_exec")
        end, d).

(** The text of a frame; that of the input is passed over. *)
Definition terminal_text (log : LogOutput) : option string :=
  match log with
  | StdOut message | StdErr message | Console message =>
      if is_empty message then None else Some message
  | StdIn _ => None
  end.

(** The loop of [read_frame]: what is read, and what is left of the output. *)
Fixpoint docker_read (output : list (Result LogOutput string))
    : Result (option TerminalFrame) ManagerError * list (Result LogOutput string) :=
  match output with
  | [] => (Ok (Some FrameClosed), [])
  | Err e :: output => (Err (ManagerOperationFailed ("Terminal read error: " +:+ e)), output)
  | Ok log :: output =>
      match terminal_text log with
      | Some text => (Ok (Some (FrameData text)), output)
      | None => docker_read output
      end
  end.

Definition docker_read_frame : M DockerTerminalStream (Result (option TerminalFrame) ManagerError) := λ t,
  let '(r, output) := docker_read (ds_output t) in
  (r, mkDockerTerminalStream (ds_docker t) (ds_exec_id t) output (ds_input t)).

Definition on_docker {A} (m : M D A) : M DockerTerminalStream A := λ t,
  let '(a, d) := m (ds_docker t) in
  (a, mkDockerTerminalStream d (ds_exec_id t) (ds_output t) (ds_input t)).

Definition docker_write (data : string) : M DockerTerminalStream (Result () ManagerError) := λ t,
  on_docker (r ← x_write_all (ds_input t) data;
             let* _ := mret (failed "Terminal write error: " r) in
             r ← x_flush (ds_input t);
             mret (failed "Terminal flush error: " r)) t.

Definition docker_resize (rows cols : Z) : M DockerTerminalStream (Result () ManagerError) := λ t,
  on_docker (r ← x_resize_exec (ds_exec_id t) rows cols; mret (failed "Terminal resize error: " r)) t.

#[global] Instance docker_terminal : TerminalStream DockerTerminalStream := {|
  read_frame := docker_read_frame;
  write := docker_write;
  resize := docker_resize;
|}.

(** What the loop will read, up to the first error. *)
Fixpoint docker_ahead (output : list (Result LogOutput string)) : string :=
  match output with
  | Ok log :: output => default "" (terminal_text log) +:+ docker_ahead output
  | _ => ""
  end.

Fixpoint docker_ending (output : list (Result LogOutput string))
    : Result (option TerminalFrame) ManagerError :=
  match output with
  | Ok _ :: output => docker_ending output
  | Err e :: _ => Err (ManagerOperationFailed ("Terminal read error: " +:+ e))
  | [] => Ok (Some FrameClosed)
  end.

Lemma terminal_text_filled log text : terminal_text log = Some text → text ≠ "".
Proof. destruct log as [m|m|m|m]; cbn; [..|done]; destruct m; cbn; congruence. Qed.

Lemma docker_read_ahead output :
  docker_ahead output ≠ "" →
  ∃ b, b ≠ "" ∧ (docker_read output).1 = Ok (Some (FrameData b)) ∧
    docker_ahead output = b +:+ docker_ahead (docker_read output).2 ∧
    docker_ending (docker_read output).2 = docker_ending output.
Proof.
  induction output as [|[log|e] output IH]; [done| |done]. cbn.
  destruct (terminal_text log) as [text|] eqn:E; [|exact IH]. cbn. intros _.
  exists text. by eauto using terminal_text_filled.
Qed.

Lemma docker_read_ending output : docker_ahead output = "" → (docker_read output).1 = docker_ending output.
Proof.
  induction output as [|[log|e] output IH]; [done| |done]. cbn.
  destruct (terminal_text log) as [text|] eqn:E; [|exact IH].
  apply terminal_text_filled in E. by destruct text.
Qed.

Lemma docker_ending_closes output :
  docker_ending output = Ok (Some FrameClosed) ∨ is_ok (docker_ending output) = false.
Proof. induction output as [|[log|e] output IH]; cbn; auto. Qed.

Lemma on_docker_output {A} (m : M D A) t : ds_output (run_st (on_docker m) t) = ds_output t.
Proof. unfold run_st, on_docker. by destruct (m (ds_docker t)). Qed.

#[global] Program Instance docker_contract : TerminalContract DockerTerminalStream := {|
  ahead t := docker_ahead (ds_output t);
  ending t := docker_ending (ds_output t);
|}.
Next Obligation. intros t. apply docker_ending_closes. Qed.
Next Obligation.
  intros t Ht. destruct (docker_read_ahead _ Ht) as (b & H1 & H2 & H3 & H4). exists b.
  cbn. unfold run_val, run_st, docker_read_frame. by destruct (docker_read (ds_output t)).
Qed.
Next Obligation.
  intros t Ht. cbn. unfold run_val, docker_read_frame. rewrite <- (docker_read_ending _ Ht).
  by destruct (docker_read (ds_output t)).
Qed.
Next Obligation. intros data t. cbn. f_equal. apply on_docker_output. Qed.
Next Obligation. intros data t. cbn. f_equal. apply on_docker_output. Qed.
Next Obligation. intros rows cols t. cbn. f_equal. apply on_docker_output. Qed.
Next Obligation. intros rows cols t. cbn. f_equal. apply on_docker_output. Qed.
End docker.
Arguments DockerTerminalStream D {_}.

(** ** Kubernetes *)

(** An error of the standard output; [UnexpectedEof] is its kind. *)
Inductive ReadError : Type := UnexpectedEof | OtherReadError (text : string).

(** A process with a terminal: the streams it was given, each taken once; the
    output is what arrives together, piece by piece. *)
Class PodTerminals (K : Type) := {
  TtyInput : Type;
  TtySize : Type;
  Tty : Type;
  tty_stdin : Tty → option TtyInput;
  tty_stdout : Tty → option (list (Result string ReadError));
  tty_size : Tty → option TtySize;
  pods_exec_tty : string → list string → string → M K (KResult Tty);
  tty_write_all : TtyInput → string → M K (Result () string);
  tty_flush : TtyInput → M K (Result () string);
  tty_send_size : TtySize → Z → Z → M K (Result () string);
}.

Section kubernetes.
Context {K : Type} `{KubeClient K} `{PodTerminals K}.

(** [ks_pods] is the other side of the streams. *)
Record K8sTerminalStream : Type := mkK8sTerminalStream {
  ks_pods : K;
  ks_stdin : TtyInput;
  ks_stdout : list (Result string ReadError);
  ks_size : option TtySize;
}.

Definition k8s_exec_terminal (id : string) (shell : option string)
    : M K (Result K8sTerminalStream ManagerError) :=
  let pod_name := sandbox_resource_name id in
  let shell_cmd := default "bash" shell in
  let* pod := get_pod pod_name in
  if negb (pod_running pod) then mret (op_failed ("Pod " +:+ pod_name +:+ " is not running"))
  else
    let* attached :=
      r ← pods_exec_tty pod_name [shell_cmd] "sandbox";
      mret (result_map_err (λ e,
        ManagerOperationFailed ("Failed to exec terminal: " +:+ kube_error_to_string e)) r) in
    λ k, (match tty_stdin attached, tty_stdout attached, tty_size attached with
          | None, _, _ => op_failed "Failed to get stdin stream"
          | _, None, _ => op_failed "Failed to get stdout stream"
          | _, _, None => op_failed "Failed to get terminal resize channel"
          | Some input, Some output, Some size => Ok (mkK8sTerminalStream k input output (Some size))
          end, k).

Definition buffer_size : nat := Z.to_nat 8192.

(** [AsyncReadExt::read] into a buffer of [n] bytes: what fits of the next piece,
    whose rest stays; nothing at the end. *)
Definition async_read (n : nat) (output : list (Result string ReadError))
    : Result string ReadError * list (Result string ReadError) :=
  match output with
  | [] => (Ok "", [])
  | Ok piece :: output =>
      let rest := String.substring n (String.length piece - n) piece in
      (Ok (String.substring 0 n piece), if is_empty rest then output else Ok rest :: output)
  | Err e :: output => (Err e, output)
  end.

Definition k8s_frame (r : Result string ReadError) : Result (option TerminalFrame) ManagerError :=
  match r with
  | Ok buf => Ok (Some (if is_empty buf then FrameClosed else FrameData buf))
  | Err UnexpectedEof => Ok (Some FrameClosed)
  | Err (OtherReadError e) => Err (ManagerOperationFailed ("Terminal read error: " +:+ e))
  end.

Definition k8s_read_frame : M K8sTerminalStream (Result (option TerminalFrame) ManagerError) := λ t,
  let '(r, output) := async_read buffer_size (ks_stdout t) in
  (k8s_frame r, mkK8sTerminalStream (ks_pods t) (ks_stdin t) output (ks_size t)).

Definition on_pods {A} (m : M K A) : M K8sTerminalStream A := λ t,
  let '(a, k) := m (ks_pods t) in
  (a, mkK8sTerminalStream k (ks_stdin t) (ks_stdout t) (ks_size t)).

Definition k8s_write (data : string) : M K8sTerminalStream (Result () ManagerError) := λ t,
  on_pods (r ← tty_write_all (ks_stdin t) data;
           let* _ := mret (failed "Terminal write error: " r) in
           r ← tty_flush (ks_stdin t);
           mret (failed "Terminal flush error: " r)) t.

Definition k8s_resize (rows cols : Z) : M K8sTerminalStream (Result () ManagerError) := λ t,
  on_pods (match ks_size t with
           | Some tx => r ← tty_send_size tx cols rows; mret (failed "Terminal resize error: " r)
           | None => mret (Ok ())
           end) t.

#[global] Instance k8s_terminal : TerminalStream K8sTerminalStream := {|
  read_frame := k8s_read_frame;
  write := k8s_write;
  resize := k8s_resize;
|}.

(** What is read up to the first error, or to a piece of nothing. *)
Fixpoint k8s_ahead (output : list (Result string ReadError)) : string :=
  match output with
  | Ok piece :: output => if is_empty piece then "" else piece +:+ k8s_ahead output
  | _ => ""
  end.

Fixpoint k8s_ending (output : list (Result string ReadError))
    : Result (option TerminalFrame) ManagerError :=
  match output with
  | Ok piece :: output => if is_empty piece then Ok (Some FrameClosed) else k8s_ending output
  | Err e :: _ => k8s_frame (Err e)
  | [] => Ok (Some FrameClosed)
  end.

Lemma k8s_ending_closes output :
  k8s_ending output = Ok (Some FrameClosed) ∨ is_ok (k8s_ending output) = false.
Proof.
  induction output as [|[piece|[|e]] output IH]; cbn; auto. destruct (is_empty piece); auto.
Qed.

Lemma substring_split n s :
  String.substring 0 n s +:+ String.substring n (String.length s - n) s = s.
Proof.
  revert n. induction s as [|c s IH]; intros [|n]; cbn; try done.
  - f_equal. specialize (IH 0%nat). rewrite Nat.sub_0_r in IH. by destruct s.
  - f_equal. apply IH.
Qed.

Lemma async_read_ahead n output :
  (0 < n)%nat → k8s_ahead output ≠ "" →
  ∃ b, b ≠ "" ∧ (async_read n output).1 = Ok b ∧
    k8s_ahead output = b +:+ k8s_ahead (async_read n output).2 ∧
    k8s_ending (async_read n output).2 = k8s_ending output.
Proof.
  intros Hn. destruct output as [|[piece|e] output]; [done| |done]. cbn.
  destruct (is_empty piece) eqn:E; [done|]. intros _. exists (String.substring 0 n piece).
  pose proof (substring_split n piece) as Hsplit.
  split; [destruct piece, n; [done..|lia|done]|]. split; [done|].
  destruct (is_empty (String.substring n _ piece)) eqn:Er; cbn; rewrite ?Er.
  - destruct (String.substring n _ piece); [|done].
    rewrite string_app_nil in Hsplit. by rewrite Hsplit.
  - split; [|done]. by rewrite <- string_app_assoc, Hsplit.
Qed.

Lemma async_read_ending n output :
  (0 < n)%nat → k8s_ahead output = "" → k8s_frame (async_read n output).1 = k8s_ending output.
Proof.
  intros Hn. destruct output as [|[[|c piece]|e] output]; cbn; try done. by destruct n.
Qed.

Lemma on_pods_stdout {A} (m : M K A) t : ks_stdout (run_st (on_pods m) t) = ks_stdout t.
Proof. unfold run_st, on_pods. by destruct (m (ks_pods t)). Qed.

#[global] Program Instance k8s_contract : TerminalContract K8sTerminalStream := {|
  ahead t := k8s_ahead (ks_stdout t);
  ending t := k8s_ending (ks_stdout t);
|}.
Next Obligation. intros t. apply k8s_ending_closes. Qed.
Next Obligation.
  intros t Ht. destruct (async_read_ahead buffer_size _ ltac:(vm_compute; lia) Ht) as (b & H1 & H2 & H3 & H4).
  exists b. cbn -[buffer_size async_read]. unfold run_val, run_st, k8s_read_frame.
  destruct (async_read buffer_size (ks_stdout t)) as [r output]. cbn in *. subst r.
  destruct b; by repeat split.
Qed.
Next Obligation.
  intros t Ht. etransitivity; [|exact (async_read_ending buffer_size _ ltac:(vm_compute; lia) Ht)].
  unfold run_val. cbn -[buffer_size async_read k8s_frame]. unfold k8s_read_frame.
  by destruct (async_read buffer_size (ks_stdout t)).
Qed.
Next Obligation. intros data t. cbn. f_equal. apply on_pods_stdout. Qed.
Next Obligation. intros data t. cbn. f_equal. apply on_pods_stdout. Qed.
Next Obligation. intros rows cols t. cbn. f_equal. apply on_pods_stdout. Qed.
Next Obligation. intros rows cols t. cbn. f_equal. apply on_pods_stdout. Qed.
End kubernetes.
Arguments K8sTerminalStream K {_}.


Module Witnesses.

(** Frames of the input and empty ones are passed over; after an error the reader
    may read on. *)
Example docker_frames :
  docker_read [Ok (StdIn "a"); Ok (StdOut ""); Err "reset"; Ok (Console "b")]
  = (Err (ManagerOperationFailed "Terminal read error: reset"), [Ok (Console "b")]).
Proof. vm_compute. reflexivity. Qed.

(** An unexpected end is an end like any other. *)
Example k8s_frames :
  (k8s_frame (async_read 4 [Ok "abcdef"]).1, (async_read 4 [Ok "abcdef"]).2, k8s_frame (Err UnexpectedEof))
  = (Ok (Some (FrameData "abcd")), [Ok "ef"], Ok (Some FrameClosed)).
Proof. vm_compute. reflexivity. Qed.
End Witnesses.
