(* ===== verification/CommandDemo.v ===== *)
(** * CommandDemo: a terminal, a server that answers from a list, and texts of values

    A small environment of the commands to compute with; the witnesses of the
    theorems on commands run the commands here.  A value is written as its code in
    binary digits between braces, so that reading gives it back. *)

From stdpp Require Import countable.
From S2P Require Import Prelude Text Paths Errors Types Store World Float64 Config Service Cli Server Wire Commands.
From Stdlib Require Import Ascii.

Module CommandDemo.

(** ** Texts of values *)

#[local] Abbreviation Tree := (gen_tree (bool + Z + string)).

Fixpoint to_tree (v : Json) : Tree :=
  match v with
  | JNull => GenNode 0 []
  | JBool b => GenNode 1 [GenLeaf (inl (inl b))]
  | JNumber n => GenNode 1 [GenLeaf (inl (inr n))]
  | JString s => GenNode 1 [GenLeaf (inr s)]
  | JFloat s => GenNode 2 [GenLeaf (inr s)]
  | JArray l => GenNode 3 (to_tree <$> l)
  | JObject fields => GenNode 4 ((λ f, GenNode 5 [GenLeaf (inr f.1); to_tree f.2]) <$> fields)
  end.

Fixpoint of_tree (t : Tree) : Json :=
  match t with
  | GenNode 1 [GenLeaf (inl (inl b))] => JBool b
  | GenNode 1 [GenLeaf (inl (inr n))] => JNumber n
  | GenNode 1 [GenLeaf (inr s)] => JString s
  | GenNode 2 [GenLeaf (inr s)] => JFloat s
  | GenNode 3 l => JArray (of_tree <$> l)
  | GenNode 4 l =>
      JObject ((λ f, match f with
                     | GenNode _ [GenLeaf (inr key); v] => (key, of_tree v)
                     | _ => (EmptyString, JNull)
                     end) <$> l)
  | _ => JNull
  end.

Fixpoint of_to_tree v : of_tree (to_tree v) = v.
Proof.
  destruct v as [|b|n|s|s|l|fields]; try reflexivity; cbn; apply f_equal.
  - induction l as [|v l IH]; cbn; [reflexivity|by rewrite of_to_tree, IH].
  - induction fields as [|[key v] fields IH]; cbn; [reflexivity|by rewrite of_to_tree, IH].
Qed.

Fixpoint bits (p : positive) : string :=
  match p with
  | xH => ""
  | xO p => String "0" (bits p)
  | xI p => String "1" (bits p)
  end.

(** Up to the brace. *)
Fixpoint of_bits (s : string) : option positive :=
  match s with
  | String c s =>
      if Ascii.eqb c "}" then Some xH
      else p ← of_bits s; Some (if Ascii.eqb c "1" then xI p else xO p)
  | EmptyString => None
  end.

Lemma of_bits_bits p : of_bits (bits p +:+ "}") = Some p.
Proof. induction p as [p IH|p IH|]; cbn; by rewrite ?IH. Qed.

Lemma bits_chars c p : c ≠ "0"%char → c ≠ "1"%char → has_char c (bits p) = false.
Proof.
  intros H0%Ascii.eqb_neq H1%Ascii.eqb_neq. rewrite Ascii.eqb_sym in H0, H1.
  induction p as [p IH|p IH|]; cbn [bits has_char]; by rewrite ?IH, ?H0, ?H1.
Qed.

Definition write_text (v : Json) : string := "{" +:+ bits (encode (to_tree v)) +:+ "}".

Definition read_text (s : string) : Result Json string :=
  match s with
  | String _ s =>
      match of_bits s ≫= decode with Some t => Ok (of_tree t) | None => Err "expected value" end
  | EmptyString => Err "EOF"
  end.

Lemma read_write_text v : read_text (write_text v) = Ok v.
Proof.
  cbn. rewrite of_bits_bits. cbn [mbind option_bind]. by rewrite decode_encode, of_to_tree.
Qed.

(** ** The environment *)

(** The answers that are still to come. *)
Definition Answers : Type := list (Result CliResponse string).

#[export] Instance env : CliEnv Answers := {|
  c_send := λ _ e, match e with a :: e => (a, e) | [] => (Err "connection refused", []) end;
  c_read_line := λ e, (Ok "y", e);
  c_exists := λ _ e, (true, e);
  c_read := λ _ e, (Ok "contents", e);
  c_write := λ _ _ e, (Ok (), e);
  c_docker_connect := λ _ e, (Ok (), e);
  c_create_exec := λ _ _ _ e, (Ok "exec", e);
  c_start_exec := λ _ e, (Ok (), e);
  c_interact := λ _ e, ((), e);
  c_start_server := λ _ e, (Ok (), e);
  utf8_lossy := id;
  read_json := read_text;
  read_sandbox := λ _, Err "no sandbox";
  invalid_type := λ _, "invalid type";
  json_text := write_text;
  json_pretty := write_text;
  status_text := Z_to_string;
  format_utc := Z_to_string;
  f64_parse := λ _, f64_of_Z 0;
  f64_fixed := λ _ _, "0";
|}.

Definition process (answers : Answers) : Process Answers := mkProcess answers ∅ [] [].

Definition context : CliContext :=
  mkCliContext "http://localhost:8080" (Some "key") (Some "admin") DEFAULT_SEARXNG_API_URL Table Config_default.

Definition create_args : CreateArgs :=
  mkCreateArgs "alpine" None None [(8080, 80)] None (Some 512) [] (Some ["sleep"; "1"]) None
    [("A", "1"); ("A", "2")] ["web"] false.

(** The arguments are already words. *)
#[export] Instance words : ShellWordsLib := {| shell_words_split := λ s, Some (split_on " " s) |}.

End CommandDemo.
