(* ===== verification/CommandSpecs.v ===== *)
(** * CommandSpecs: requests, answers and how a command ends

    A logic for the commands of [Commands]: what they ask, and how they end.
    [asks] lists the requests that a command stands for; [honest_command] says
    that it asks nothing else, and [exit_status_spec] what a script that runs a
    command can rely on. *)

From S2P Require Import Prelude Text Paths Errors Types Store World Float64 Config KubeBackend Service Ops Files SandboxApi Auth Cli Server Wire Commands.
From Stdlib Require Import Ascii.

(** ** Requests and their answers

    [honest P G L m]: the requests of [m] satisfy [P], and if [m] comes to its
    end, they and their answers, and those of [L], satisfy [G]. *)

Create HintDb cli.

Section traces.
Context {E : Type} `{CliEnv E}.
#[local] Abbreviation C A := (M (Process E) (Result A Ending)).
#[local] Abbreviation Entry := (CliRequest * Result CliResponse string)%type.
Context (P : CliRequest → Prop) (G : Entry → Prop).

Definition honest (L : list Entry) {A} (m : C A) : Prop :=
  ∀ p, ∃ l, pr_log (run_st m p) = pr_log p ++ l ∧ Forall (λ e, P e.1) l ∧
            (is_ok (run_val m p) = true → Forall G (L ++ l)).

(** Nothing is asked. *)
Definition silent {A} (m : M (Process E) A) : Prop := ∀ p, pr_log (run_st m p) = pr_log p.

(** Nothing is asked, and the end is not reached. *)
Definition hopeless {A} (m : C A) : Prop := silent m ∧ ∀ p, is_ok (run_val m p) = false.

Lemma silent_ret {A} (a : A) : silent (mret a).
Proof. by intros p. Qed.

Lemma silent_emit os : silent (emit os).
Proof. by intros p. Qed.

Lemma silent_outside {A} (m : M E A) : silent (outside m).
Proof. intros p. unfold run_st, outside. by destruct (m _). Qed.

Lemma silent_on_vars {A} (m : M Env A) : silent (on_vars m).
Proof. intros p. unfold run_st, on_vars. by destruct (m _). Qed.

Lemma silent_bind {A B} (m : M (Process E) A) (k : A → M (Process E) B) :
  silent m → (∀ a, silent (k a)) → silent (m ≫= k).
Proof.
  intros Hm Hk p. specialize (Hm p). unfold run_st in *. rewrite M_bind_unfold.
  by rewrite (Hk _ _ : pr_log (k _ _).2 = _).
Qed.

Lemma silent_try {A B} (m : C A) (k : A → C B) :
  silent m → (∀ a, silent (k a)) → silent (try_ m k).
Proof. intros Hm Hk. apply silent_bind; [done|]. intros [a|e]; [done|apply silent_ret]. Qed.

Lemma hopeless_quit {A} ls : hopeless (quit ls : C A).
Proof. split; [|done]. apply silent_try; [apply silent_emit|intros; apply silent_ret]. Qed.

Lemma hopeless_ends {A} e : hopeless (ends e : C A).
Proof. split; [apply silent_ret|done]. Qed.

Lemma hopeless_try {A B} (m : C A) (k : A → C B) :
  silent m → (∀ a, hopeless (k a)) → hopeless (try_ m k).
Proof.
  intros Hm Hk. split; [apply silent_try; [done|]; intros a; apply Hk|].
  intros p. unfold try_, run_val. rewrite M_bind_unfold. destruct (m p).1; [apply Hk|done].
Qed.

Lemma hopeless_failing {A B} (m : C A) (k : A → C B) : hopeless m → hopeless (try_ m k).
Proof.
  intros [Hs Hh]. split; intros p; specialize (Hs p); specialize (Hh p);
    unfold try_, run_st, run_val in *; rewrite M_bind_unfold; destruct (m p) as [[a|e] p']; done.
Qed.

Lemma honest_silent L {A} (m : C A) : Forall G L → silent m → honest L m.
Proof.
  intros HL Hm p. exists []. rewrite (Hm p), !app_nil_r. split_and!; [done|by constructor|done].
Qed.

Lemma honest_hopeless L {A} (m : C A) : hopeless m → honest L m.
Proof.
  intros [Hs Hh] p. exists []. rewrite (Hs p), (Hh p), !app_nil_r.
  split_and!; [done|by constructor|done].
Qed.

Lemma honest_bind_silent L {A B} (m : M (Process E) A) (k : A → C B) :
  silent m → (∀ a, honest L (k a)) → honest L (m ≫= k).
Proof.
  intros Hm Hk p. unfold run_st, run_val. rewrite M_bind_unfold.
  destruct (Hk (m p).1 (m p).2) as (l & H1 & H2 & H3). exists l.
  by rewrite <- (Hm p).
Qed.

Lemma honest_try_silent L {A B} (m : C A) (k : A → C B) :
  silent m → (∀ a, honest L (k a)) → honest L (try_ m k).
Proof.
  intros Hm Hk. apply honest_bind_silent; [done|]. intros [a|e]; [done|].
  apply honest_hopeless, hopeless_ends.
Qed.

Lemma honest_attempt L r {A} (k : Result CliResponse string → C A) :
  P r → (∀ a, honest (L ++ [(r, a)]) (k a)) → honest L (attempt r ≫= k).
Proof.
  intros HP Hk p. unfold run_st, run_val. rewrite M_bind_unfold. unfold attempt.
  destruct (c_send r (pr_env p)) as [a e]. cbn.
  destruct (Hk a (mkProcess e (pr_vars p) (pr_log p ++ [(r, a)]) (pr_out p))) as (l & H1 & H2 & H3).
  exists ((r, a) :: l). unfold run_st, run_val in *. rewrite H1. cbn. rewrite <- app_assoc.
  split_and!; [done|by constructor|]. intros Hok. specialize (H3 Hok).
  by rewrite <- app_assoc in H3.
Qed.

Lemma exchange_attempt r {A} (fine other : CliResponse → C A) p :
  exchange r fine other p =
  (attempt r ≫= λ a, match a with
                     | Ok response => if is_success response then fine response else other response
                     | Err e => ends (Failed e)
                     end) p.
Proof.
  unfold exchange, send, try_. rewrite !M_bind_unfold. by destruct (attempt r p) as [[?|?] ?].
Qed.

Lemma honest_exchange L r {A} (fine other : CliResponse → C A) :
  P r →
  (∀ response, is_success response = true → honest (L ++ [(r, Ok response)]) (fine response)) →
  (∀ response, is_success response = false → honest (L ++ [(r, Ok response)]) (other response)) →
  honest L (exchange r fine other).
Proof.
  intros HP Hf Ho p. unfold run_st, run_val. rewrite exchange_attempt. revert p.
  apply honest_attempt; [done|]. intros [response|e]; cbn.
  - destruct (is_success response) eqn:Hs; auto.
  - apply honest_hopeless, hopeless_ends.
Qed.

(** Of a whole command. *)
Lemma honest_try L {A B} (m : C A) (k : A → C B) :
  honest L m → (∀ a, honest L (k a)) → honest L (try_ m k).
Proof.
  intros Hm Hk p. destruct (Hm p) as (l & H1 & H2 & H3).
  unfold run_st, run_val, try_ in *. rewrite M_bind_unfold.
  destruct (m p) as [[a|e] p1]; cbn in *.
  - destruct (Hk a p1) as (l' & K1 & K2 & K3). unfold run_st, run_val in *.
    exists (l ++ l'). rewrite K1, H1, app_assoc. split_and!; [done|by apply Forall_app|].
    intros Hok. specialize (K3 Hok). specialize (H3 eq_refl).
    rewrite !Forall_app in *. tauto.
  - exists l. by split_and!.
Qed.
End traces.

#[export] Hint Resolve silent_ret silent_emit silent_outside silent_on_vars : cli.
#[export] Hint Resolve hopeless_quit hopeless_ends : cli.

(** *** The rules for the parts of commands *)

Section parts.
Context {E : Type} `{CliEnv E}.
#[local] Abbreviation C A := (M (Process E) (Result A Ending)).

Lemma silent_try_result {A} (r : Result A string) : silent (try_result r : C A).
Proof. apply silent_ret. Qed.

Lemma silent_json_body r : silent (json_body r : C Json).
Proof. apply silent_ret. Qed.

Lemma silent_array_body r : silent (array_body r : C (list Json)).
Proof. apply silent_ret. Qed.

Lemma silent_report cx v table : silent (report cx v table : C ()).
Proof. unfold report. case_bool_decide; apply silent_emit. Qed.

Lemma silent_save output bytes : silent (save output bytes : C ()).
Proof.
  destruct output; [|apply silent_emit].
  apply silent_bind; [apply silent_outside|]. intros r.
  apply silent_try; [apply silent_ret|]. intros _. apply silent_emit.
Qed.

Lemma silent_confirmed question : silent (confirmed question : C bool).
Proof.
  apply silent_try; [apply silent_emit|]. intros _.
  apply silent_bind; [apply silent_outside|]. by intros [line|e].
Qed.

Lemma silent_finish_bar there bar op : silent (finish_bar there bar op : C ()).
Proof. destruct there; [apply silent_emit|apply silent_ret]. Qed.

Lemma hopeless_key_failure id failing response : hopeless (key_failure id failing response : C ()).
Proof. unfold key_failure. repeat case_bool_decide; apply hopeless_quit. Qed.

Lemma hopeless_session_failure id failing response :
  hopeless (session_failure id failing response : C ()).
Proof. unfold session_failure. case_bool_decide; apply hopeless_quit. Qed.

Lemma silent_admin_key cx : silent (admin_key cx : C string).
Proof. unfold admin_key. destruct (cx_admin_api_key cx); [apply silent_ret|]. apply hopeless_quit. Qed.

Lemma silent_show_new_key done warning label result :
  silent (show_new_key done warning label result : C ()).
Proof.
  unfold show_new_key. destruct (json_get _ _) as [key|]; [|apply silent_ret].
  apply silent_try; [apply silent_emit|]. intros _.
  destruct (json_as_str key); [apply silent_emit|apply silent_ret].
Qed.

Lemma silent_run_shell cx container_id : silent (run_shell cx container_id : C ()).
Proof.
  apply silent_bind; [apply silent_outside|]. intros r.
  apply silent_try; [apply silent_ret|]. intros _.
  apply silent_bind; [apply silent_on_vars|]. intros vars.
  apply silent_try.
  - apply silent_bind; [apply silent_outside|]. intros [exec_id|e]; [apply silent_ret|].
    do 2 (apply silent_try; [apply silent_emit|intros _]).
    apply silent_bind; [apply silent_outside|]. intros r'. apply silent_ret.
  - intros exec_id. apply silent_bind; [apply silent_outside|]. intros r'.
    apply silent_try; [apply silent_ret|]. intros _.
    apply silent_bind; [apply silent_outside|]. intros _. apply silent_emit.
Qed.
End parts.

#[export] Hint Resolve silent_try_result silent_json_body silent_array_body silent_report
  silent_save silent_confirmed silent_finish_bar silent_admin_key silent_show_new_key
  silent_run_shell hopeless_key_failure hopeless_session_failure : cli.
#[export] Hint Extern 1 (silent (say _)) => apply silent_emit : cli.
#[export] Hint Extern 1 (silent (complain _)) => apply silent_emit : cli.
#[export] Hint Extern 1 (hopeless (quit_status _ _)) => apply hopeless_quit : cli.
#[export] Hint Extern 1 (hopeless (quit_text _ _ _)) => apply hopeless_quit : cli.
#[export] Hint Extern 1 (hopeless (quit _)) => apply hopeless_quit : cli.

(** ** What a command asks for *)

Section intended.
Context {E : Type} `{CliEnv E} `{UuidLib, ShellWordsLib, ConfigLib}.
#[local] Abbreviation C A := (M (Process E) (Result A Ending)).

(** The request that a command stands for.  That of an upload has the contents
    of the file; the search goes elsewhere. *)
Definition intended (cx : CliContext) (command : Command) (r : CliRequest) : Prop :=
  match command with
  | Create args => r = api cx POST "/sandboxes/create-stream" [] (JsonPayload (create_body args))
  | List args => r = api cx GET "/sandboxes" (list_query args) NoPayload
  | Info id | Ssh id => r = simple cx GET (at_sandbox id "")
  | Exec id command =>
      r = api cx POST (at_sandbox id "/exec") [] (JsonPayload (JObject [("command", json_strings command)]))
  | Stop id => r = simple cx POST (at_sandbox id "/stop")
  | Delete id => r = simple cx DELETE (at_sandbox id "")
  | Restore id => r = simple cx POST (at_sandbox id "/restore")
  | Stats id stream => r = simple cx GET (at_sandbox id (if stream then "/stats-stream" else "/stats"))
  | Cleanup id => r = simple cx POST (at_sandbox id "/cleanup")
  | Server _ => False
  | Activities (ActivitiesList sandbox limit ty) =>
      r = api cx GET match sandbox with Some id => at_sandbox id "/activities" | None => "/activities" end
            (("limit", Z_to_string limit) :: query_of "activity_type" ty) NoPayload
  | Activities (ActivitiesShow id) => r = simple cx GET ("/activities/" +:+ id)
  | Activities (ActivitiesCleanupAll dry_run timeout) =>
      r = simple cx POST ("/activities/cleanup-all?dry_run=" +:+ bool_text dry_run
                          +:+ "&timeout=" +:+ Z_to_string timeout)
  | ApiKey action =>
      ∃ key, cx_admin_api_key cx = Some key ∧
      r = match action with
          | ApiKeyList _ => admin_request cx key GET "" NoPayload
          | ApiKeyCreate name description scopes days =>
              admin_request cx key POST "" (JsonPayload (key_body name description scopes days))
          | ApiKeyShow id => admin_request cx key GET ("/" +:+ id) NoPayload
          | ApiKeyDelete id _ => admin_request cx key DELETE ("/" +:+ id) NoPayload
          | ApiKeyRotate id => admin_request cx key POST ("/" +:+ id +:+ "/rotate") NoPayload
          end
  | Health => r = simple cx GET "/health"
  | ShowConfig => r = simple cx GET "/config"
  | Upload id _ destination =>
      ∃ name contents, r = api cx POST (at_sandbox id "/upload") []
                             (Multipart name contents (query_of "destination" destination))
  | Download id path _ => r = api cx GET (at_sandbox id "/download") [("path", path)] NoPayload
  | Tools id interpreter script action args timeout =>
      ∃ parsed, (args = None ↔ parsed = None) ∧
      r = api cx POST (at_sandbox id "/tools") []
            (JsonPayload (tool_body interpreter script action parsed timeout))
  | Web (WebFetch args) =>
      r = api cx POST (at_sandbox (fa_sandbox_id args) "/tools") [] (JsonPayload (fetch_body args))
  | Web (WebSearch query engine _) => r = search_request cx query engine
  | Images ImagesList => r = simple cx GET "/images"
  | Images (ImagesInspect id) => r = simple cx GET ("/images/" +:+ id)
  | Images (ImagesPull image tag stream) =>
      r = api cx POST (if stream then "/images/pull-stream" else "/images/pull") []
            (JsonPayload (pull_body image tag))
  | Images (ImagesDelete id) => r = simple cx DELETE ("/images/" +:+ id)
  | Static (StaticList id) => r = simple cx GET ("/static/files/" +:+ id)
  | Static (StaticTree id) => r = simple cx GET ("/static/tree/" +:+ id)
  | Static (StaticGet id path _) => r = simple cx GET ("/static/" +:+ id +:+ "/" +:+ path)
  | Static (StaticDelete id path) => r = simple cx DELETE ("/static/file/" +:+ id +:+ "/" +:+ path)
  | Static (StaticDeleteAll id _) => r = simple cx DELETE ("/static/sandbox/" +:+ id)
  | Static (StaticDownload id _) => r = simple cx GET ("/static/download/" +:+ id)
  | SessionTokens (TokenCreate id service ttl) =>
      r = api cx POST "/session-tokens" [] (JsonPayload (token_body id service ttl))
  | SessionTokens (TokenValidate token) =>
      r = mkCliRequest GET (cx_base_url cx +:+ "/session-tokens/" +:+ token +:+ "/validate") [] None NoPayload
  | SshSessions (SshList id state limit) =>
      r = api cx GET "/ssh-sessions"
            (query_of "sandbox_id" id ++ query_of "state" state
             ++ query_of "limit" (Z_to_string <$> limit)) NoPayload
  | SshSessions (SshShow id) => r = simple cx GET ("/ssh-sessions/" +:+ id)
  | SshSessions (SshTerminate id reason) =>
      r = api cx POST ("/ssh-sessions/" +:+ id +:+ "/terminate") [] (JsonPayload (termination_body reason))
  | SshSessions SshStats => r = simple cx GET "/ssh-sessions/statistics"
  | SshSessions (SshCreate id username key) =>
      r = api cx POST "/ssh-sessions" [] (JsonPayload (session_body id username key))
  | SshSessions (SshHeartbeat id) => r = simple cx POST ("/ssh-sessions/" +:+ id +:+ "/heartbeat")
  end.

(** A creation also asks for the sandbox that is ready. *)
Definition follow_up (cx : CliContext) (command : Command) (r : CliRequest) : Prop :=
  ∃ args id, command = Create args ∧ r = simple cx GET ("/sandboxes/" +:+ id).

Definition asks (cx : CliContext) (command : Command) (r : CliRequest) : Prop :=
  intended cx command r ∨ follow_up cx command r.

(** The answers with which a command ends well. *)
Definition answered_well (cx : CliContext) (command : Command)
    (e : CliRequest * Result CliResponse string) : Prop :=
  follow_up cx command e.1 ∨
  ∃ response, e.2 = Ok response ∧
    (is_success response = true ∨
     (∃ id, command = Activities (ActivitiesShow id)) ∧ cr_status response = 404).
End intended.

(** [quiet] shows that nothing is asked; [honest] goes through a command up to
    its request and the two ways from there. *)
Ltac quiet :=
  repeat first [ solve [auto with cli] | progress intros | apply silent_try | apply silent_bind | case_match ].

Ltac good :=
  rewrite ?app_nil_l;
  first [ by apply Forall_nil
        | apply Forall_singleton; right; eexists; split; [reflexivity|];
          first [tauto | right; split; [by eexists|by eapply bool_decide_eq_true_1]] ].

Ltac finish :=
  first [ apply honest_hopeless; solve [auto with cli]
        | apply honest_silent; [solve [good] | solve [quiet]] ].

Lemma honest_admin `{CliEnv E} (P : CliRequest → Prop) G L cx {A} (k : string → M (Process E) (Result A Ending)) :
  (∀ key, cx_admin_api_key cx = Some key → honest P G L (k key)) →
  honest P G L (try_ (admin_key cx) k).
Proof.
  intros Hk. unfold admin_key. destruct (cx_admin_api_key cx) as [key|] eqn:Hkey.
  - intros p. by apply (Hk key).
  - apply honest_hopeless, hopeless_failing, hopeless_quit.
Qed.

Ltac head_of t := lazymatch t with ?f _ => head_of f | _ => t end.

Ltac honest :=
  lazymatch goal with
  | |- honest _ _ _ (exchange _ _ _) =>
      apply honest_exchange; [left; cbn; eauto | intros ?response ?Hs; honest | intros ?response ?Hs; honest]
  | |- honest _ _ _ (attempt _ ≫= _) =>
      apply honest_attempt; [left; cbn; eauto | intros [?response|?e]; honest]
  | |- honest _ _ _ (try_ (admin_key _) _) => apply honest_admin; intros ?key ?Hkey; honest
  | |- honest _ _ _ (try_ _ _) => first [finish | apply honest_try_silent; [solve [quiet] | intros ?; honest]]
  | |- honest _ _ _ (_ ≫= _) => first [finish | apply honest_bind_silent; [solve [quiet] | intros ?; honest]]
  | |- honest _ _ _ (if ?b then _ else _) => destruct b eqn:?Hb; honest
  | |- honest _ _ _ (match ?x with _ => _ end) => destruct x eqn:?Hb; honest
  | |- honest _ _ _ ?m =>
      first [finish | let h := head_of m in unfold h; honest | idtac]
  end.

Section honest.
Context {E : Type} `{CliEnv E} `{UuidLib, ShellWordsLib, ConfigLib}.
#[local] Abbreviation C A := (M (Process E) (Result A Ending)).
Context (cx : CliContext).

#[local] Abbreviation does command m := (honest (asks cx command) (answered_well cx command) [] m).

Lemma honest_list args : does (List args) (list_sandboxes cx args : C ()).
Proof. honest. Qed.

Lemma honest_exec id command : does (Exec id command) (exec cx id command : C ()).
Proof. honest. Qed.

Lemma honest_ssh id : does (Ssh id) (ssh_into cx id : C ()).
Proof. honest. Qed.

Lemma honest_stats id stream : does (Stats id stream) (stats cx id stream : C ()).
Proof. honest. Qed.

Lemma honest_simple id :
  does (Info id) (info cx id : C ()) ∧ does (Stop id) (stop cx id : C ()) ∧
  does (Delete id) (delete_sandbox cx id : C ()) ∧ does (Restore id) (restore cx id : C ()) ∧
  does (Cleanup id) (cleanup cx id : C ()).
Proof. split_and!; honest. Qed.

Lemma honest_activities action :
  does (Activities action) (activities cx action : C ()).
Proof. destruct action; honest. Qed.

Lemma honest_services :
  does Health (health cx : C ()) ∧ does ShowConfig (show_config cx : C ()).
Proof. split; honest. Qed.

Lemma honest_tools id interpreter script action args timeout :
  does (Tools id interpreter script action args timeout)
    (tools cx id interpreter script action args timeout : C ()).
Proof.
  honest. eexists. split; [|reflexivity].
  destruct args as [args|]; [destruct (read_json args)|]; naive_solver.
Qed.

Lemma honest_api_keys action : does (ApiKey action) (api_keys cx action : C ()).
Proof. destruct action; honest. Qed.

Lemma honest_images action : does (Images action) (images cx action : C ()).
Proof. destruct action; honest. Qed.

Lemma honest_static action : does (Static action) (static cx action : C ()).
Proof. destruct action; honest. Qed.

Lemma honest_transfer id path destination output :
  does (Upload id path destination) (upload cx id path destination : C ()) ∧
  does (Download id path output) (download cx id path output : C ()).
Proof. split; honest. Qed.

Lemma honest_sessions action action' :
  does (SessionTokens action) (session_tokens cx action : C ()) ∧
  does (SshSessions action') (ssh_sessions cx action' : C ()).
Proof. split; [destruct action|destruct action']; honest. Qed.

Lemma honest_web action : does (Web action) (web cx action : C ()).
Proof. destruct action; honest. Qed.

(** *** The stream of a creation *)

Section stream.
Context (args : CreateArgs).
#[local] Abbreviation P := (asks cx (Create args)).
#[local] Abbreviation G := (answered_well cx (Create args)).

Lemma honest_show_ready L id : Forall G L → honest P G L (show_ready cx id : C ()).
Proof.
  intros HL. apply honest_attempt; [right; by eexists _, _|]. intros a.
  assert (Forall G (L ++ [(simple cx GET ("/sandboxes/" +:+ id), a)])) as HL'.
  { apply Forall_app. split; [done|]. apply Forall_singleton. left. by eexists _, _. }
  destruct a as [response|e]; [|by apply honest_silent; [|quiet]].
  repeat case_match; by apply honest_silent; [|quiet].
Qed.

Lemma honest_stream_event L bars event :
  Forall G L → honest P G L (stream_event cx bars event : C (option Bars)).
Proof.
  intros HL. unfold stream_event.
  destruct (text_at _ _) as [ty|]; [|by apply honest_silent; [|quiet]].
  destruct (String.eqb ty "pulling"); [by apply honest_silent; [|quiet]|].
  destruct (String.eqb ty "creating"); [by apply honest_silent; [|quiet]|].
  destruct (String.eqb ty "starting"); [by apply honest_silent; [|quiet]|].
  destruct (String.eqb ty "ready").
  - apply honest_try_silent; [quiet|]. intros _. apply honest_try; [by apply honest_show_ready|].
    intros _. by apply honest_silent; [|quiet].
  - destruct (String.eqb ty "error"); [|by apply honest_silent; [|quiet]].
    do 3 (apply honest_try_silent; [quiet|intros _]). finish.
Qed.

Lemma honest_stream_events L bars events :
  Forall G L → honest P G L (stream_events cx bars events : C (option Bars)).
Proof.
  intros HL. revert bars. induction events as [|event events IH]; intros bars; cbn.
  - by apply honest_silent; [|quiet].
  - apply honest_try; [by apply honest_stream_event|]. intros [bars'|]; [done|].
    by apply honest_silent; [|quiet].
Qed.

Lemma honest_create_stream L bars chunks broken :
  Forall G L → honest P G L (create_stream cx bars chunks broken : C ()).
Proof.
  intros HL. revert bars. induction chunks as [|chunk chunks IH]; intros bars; cbn.
  - apply honest_try_silent; [quiet|]. intros _. destruct broken; finish.
  - apply honest_try; [by apply honest_stream_events|]. intros [bars'|]; [done|].
    by apply honest_silent; [|quiet].
Qed.

Lemma honest_create : honest P G [] (create cx args : C ()).
Proof.
  unfold create. do 2 (apply honest_try_silent; [quiet|intros _]).
  apply honest_attempt; [by left|]. intros [response|e]; [|finish].
  destruct (is_success response) eqn:Hs.
  - apply honest_create_stream, Forall_singleton. right. eauto.
  - unfold create_refused. case_match; finish.
Qed.
End stream.

Lemma silent_configured r : silent (configured r : C Config).
Proof. destruct r; [apply silent_ret|]. apply hopeless_quit. Qed.

Lemma silent_run_server fs args : silent (run_server fs args : C ()).
Proof.
  apply silent_bind; [apply silent_on_vars|]. intros r.
  apply silent_try; [apply silent_configured|]. intros config. apply silent_try.
  - unfold with_port. case_match; [apply silent_ret|].
    apply silent_bind; [apply silent_on_vars|]. apply silent_configured.
  - intros config'. case_match; [apply hopeless_quit|].
    apply silent_bind; [apply silent_outside|]. intros r'. apply silent_ret.
Qed.

Lemma honest_command fs command :
  does command (run_command fs cx command : C ()).
Proof.
  destruct command; cbn [run_command].
  - apply honest_create.
  - apply honest_list.
  - apply honest_simple.
  - apply honest_exec.
  - apply honest_ssh.
  - apply honest_simple.
  - apply honest_simple.
  - apply honest_simple.
  - apply honest_stats.
  - apply honest_simple.
  - apply honest_silent; [done|]. apply silent_run_server.
  - apply honest_activities.
  - apply honest_api_keys.
  - apply honest_services.
  - apply honest_services.
  - by apply (honest_transfer id file destination None).
  - by apply (honest_transfer id path None output).
  - apply honest_tools.
  - apply honest_web.
  - apply honest_images.
  - apply honest_static.
  - apply (honest_sessions action SshStats).
  - apply (honest_sessions (TokenValidate "") action).
Qed.
End honest.


(** ** The keys, and how a command ends *)

(** Who is asked, with which key: the search engine, without one; or the server,
    with the key of the administrator where keys are managed, with none where a
    token is checked, and with the key of the user otherwise. *)
Definition keyed (cx : CliContext) (r : CliRequest) : Prop :=
  cq_url r = cx_searxng_api_url cx ∧ cq_key r = None ∨
  ∃ path, cq_url r = cx_base_url cx +:+ path ∧
    cq_key r = if starts_with "/admin/api-keys" path then cx_admin_api_key cx
               else if starts_with "/session-tokens/" path then None
               else cx_api_key cx.

Lemma keyed_api cx method path query body :
  starts_with "/admin/api-keys" path = false → starts_with "/session-tokens/" path = false →
  keyed cx (api cx method path query body).
Proof. intros H1 H2. right. exists path. by rewrite H1, H2. Qed.

Lemma keyed_admin cx key method path body :
  cx_admin_api_key cx = Some key → keyed cx (admin_request cx key method path body).
Proof. intros Hk. right. exists ("/admin/api-keys" +:+ path). by rewrite Hk. Qed.

Lemma asks_keyed `{UuidLib, ShellWordsLib} cx command r : asks cx command r → keyed cx r.
Proof.
  intros [Hi|(args & id & _ & ->)]; [|by apply keyed_api].
  destruct command; cbn [intended] in Hi; try done; subst; try by apply keyed_api.
  all: try (lazymatch type of action with string => fail | _ => destruct action end; subst;
            try by apply keyed_api).
  all: try (destruct Hi as (key & Hk & ->); by apply keyed_admin).
  - by destruct sandbox; apply keyed_api.
  - destruct Hi as (name & contents & ->). by apply keyed_api.
  - destruct Hi as (parsed & _ & ->). by apply keyed_api.
  - left. by split.
  - by destruct stream; apply keyed_api.
  - right. by exists ("/session-tokens/" +:+ token +:+ "/validate").
Qed.

