(* ===== verification/CommandRoutes.v ===== *)
(** * CommandRoutes: every command asks the handler it is about

    The server ([Server.routes]) takes, of the patterns that fit a path, the most
    specific one.  For the requests of the command line, where some pieces of the
    path are known and others are any name, [reached_known] computes the handlers;
    [commands_routed_spec] is the table of commands and handlers. *)

From S2P Require Import Prelude Text Paths Errors Types Store World Config Service Server Sockets Wire Cli Commands Demo CommandDemo CommandSpecs.
From Stdlib Require Import Ascii.

(** ** The handlers that are asked *)

Definition Method_eqb (a b : Method) : bool :=
  match a, b with GET, GET | POST, POST | DELETE, DELETE => true | _, _ => false end.

(** Of two patterns that fit the more specific one counts: a literal comes before
    a parameter, and a parameter before what ends with a star. *)
Fixpoint more_specific (p q : list Segment) : bool :=
  match p, q with
  | Lit a :: p, Lit b :: q => String.eqb a b && more_specific p q
  | Lit _ :: _, _ :: _ => true
  | Param _ :: p, Param _ :: q => more_specific p q
  | Param _ :: _, Rest _ :: _ => true
  | _, _ => false
  end.

Definition fitting (ps : list string) (rs : list Route) : list Route :=
  filter (λ rt, fits (rt_path rt) ps = true) rs.

(** The handlers for a method, of the routes that no other one precedes. *)
Definition handlers_of (method : Method) (rs : list Route) : list Endpoint :=
  concat ((λ rt, snd <$> filter (λ h, Method_eqb h.1 method = true) (rt_handlers rt))
            <$> filter (λ rt, forallb (λ rt', negb (more_specific (rt_path rt') (rt_path rt))) rs = true) rs).

Definition endpoints_of (method : Method) (ps : list string) (rs : list Route) : list Endpoint :=
  handlers_of method (fitting ps rs).

(** The pieces of the path of a URL, without its query. *)
Definition path_pieces (cx : CliContext) (r : CliRequest) : option (list string) :=
  path ← strip_prefix (cx_base_url cx) (cq_url r);
  rest ← strip_prefix "/" (match split_once "?" path with Some (path, _) => path | None => path end);
  Some (split_on "/" rest).

Definition reached (config : Config) (cx : CliContext) (r : CliRequest) : list Endpoint :=
  match path_pieces cx r with
  | Some ps => endpoints_of (cq_method r) ps (routes config)
  | None => []
  end.

(** The handler that a command is about. *)
Definition endpoint_of (command : Command) : option Endpoint :=
  match command with
  | Create _ => Some CreateSandboxStream
  | List _ => Some ListSandboxes
  | Info _ | Ssh _ => Some GetSandbox
  | Exec _ _ => Some ExecSandbox
  | Stop _ => Some StopSandbox
  | Delete _ => Some DeleteSandbox
  | Restore _ => Some RestoreSandbox
  | Stats _ stream => Some (if stream then StreamSandboxStats else GetSandboxStats)
  | Cleanup _ => Some CleanupSandbox
  | Server _ => None
  | Activities (ActivitiesList None _ _) => Some ListActivities
  | Activities (ActivitiesList (Some _) _ _) => Some ListSandboxActivities
  | Activities (ActivitiesShow _) => Some GetActivity
  | Activities (ActivitiesCleanupAll _ _) => Some CleanupInactiveSandboxes
  | ApiKey (ApiKeyList _) => Some ListApiKeys
  | ApiKey (ApiKeyCreate _ _ _ _) => Some CreateApiKeyEndpoint
  | ApiKey (ApiKeyShow _) => Some GetApiKey
  | ApiKey (ApiKeyDelete _ _) => Some DeleteApiKey
  | ApiKey (ApiKeyRotate _) => Some RotateApiKey
  | Health => Some HealthCheck
  | ShowConfig => Some GetConfig
  | Upload _ _ _ => Some UploadFile
  | Download _ _ _ => Some DownloadFile
  | Tools _ _ _ _ _ _ => Some ExecuteTool
  | Web (WebFetch _) => Some ExecuteTool
  | Web (WebSearch _ _ _) => None
  | Images ImagesList => Some ListImages
  | Images (ImagesInspect _) => Some InspectImage
  | Images (ImagesPull _ _ stream) => Some (if stream then PullImageStream else PullImage)
  | Images (ImagesDelete _) => Some DeleteImage
  | Static (StaticList _) => Some ListStaticFiles
  | Static (StaticTree _) => Some ListSandboxDirectoryTree
  | Static (StaticGet _ _ _) => Some ServeStaticFile
  | Static (StaticDelete _ _) => Some DeleteStaticFile
  | Static (StaticDeleteAll _ _) => Some DeleteSandboxStaticFiles
  | Static (StaticDownload _ _) => Some DownloadSandboxFilesAsZip
  | SessionTokens (TokenCreate _ _ _) => Some CreateSessionToken
  | SessionTokens (TokenValidate _) => Some ValidateSessionToken
  | SshSessions (SshList _ _ _) => Some ListSshSessions
  | SshSessions (SshShow _) => Some GetSshSession
  | SshSessions (SshTerminate _ _) => Some TerminateSshSession
  | SshSessions SshStats => Some GetSshSessionStatistics
  | SshSessions (SshCreate _ _ _) => Some CreateSshSession
  | SshSessions (SshHeartbeat _) => Some UpdateSessionActivity
  end.

(** The identifiers in the path of the request, and the rest of the path where
    the pattern ends with a star. *)
Definition names_of (command : Command) : list string :=
  match command with
  | Info id | Exec id _ | Ssh id | Stop id | Delete id | Restore id | Stats id _ | Cleanup id
  | Upload id _ _ | Download id _ _ | Tools id _ _ _ _ _
  | Activities (ActivitiesList (Some id) _ _) | Activities (ActivitiesShow id)
  | ApiKey (ApiKeyShow id | ApiKeyDelete id _ | ApiKeyRotate id)
  | Images (ImagesInspect id | ImagesDelete id)
  | Static (StaticList id | StaticTree id | StaticGet id _ _ | StaticDeleteAll id _ | StaticDownload id _)
  | SessionTokens (TokenValidate id)
  | SshSessions (SshShow id | SshTerminate id _ | SshHeartbeat id) => [id]
  | Static (StaticDelete id path) => [id; path]
  | Web (WebFetch args) => [fa_sandbox_id args]
  | _ => []
  end.

Definition rest_of (command : Command) : option string :=
  match command with Static (StaticGet _ path _) => Some path | _ => None end.

(** One piece of a path, that is no word of the routes. *)
Definition reserved : list string :=
  ["create-stream"; "cleanup-all"; "statistics"; "files"; "tree"; "file"; "sandbox"; "download";
   "pull"; "pull-stream"].

Definition identifier (s : string) : bool :=
  negb (is_empty s) && negb (has_char "/" s) && negb (has_char "?" s) && bool_decide (s ∉ reserved).

(** A path whose pieces are names. *)
Definition relative (s : string) : bool := negb (is_empty s) && negb (has_char "?" s).

(** What it takes for a piece of a path to be an identifier. *)
Record Name (s : string) : Prop := {
  name_filled : is_empty s = false;
  name_slash : has_char "/" s = false;
  name_query : has_char "?" s = false;
  name_word w : w ∈ reserved → String.eqb w s = false;
}.

Lemma identifier_name s : identifier s = true → Name s.
Proof.
  unfold identifier. rewrite !andb_true_iff, !negb_true_iff, bool_decide_eq_true.
  intros [[[H1 H2] H3] H4]. split; [done..|].
  intros w Hw. apply String.eqb_neq. by intros ->.
Qed.

Lemma split_once_no_char c s : has_char c s = false → split_once c s = None.
Proof.
  intros Hs. destruct (split_once c s) as [[l r]|] eqn:E; [|done].
  apply split_once_Some in E as [-> _]. rewrite has_char_app in Hs. cbn in Hs.
  by rewrite Ascii.eqb_refl, orb_true_r in Hs.
Qed.

Lemma has_char_join c sep ps :
  has_char c sep = false → has_char c (join sep ps) = existsb (has_char c) ps.
Proof.
  intros Hsep. induction ps as [|p [|q ps] IH]; [done|cbn; by rewrite orb_false_r|].
  change (join sep (p :: q :: ps)) with (p +:+ sep +:+ join sep (q :: ps)).
  rewrite !has_char_app, Hsep, IH. done.
Qed.

(** The pieces that a URL is made of are those that the server sees; what
    follows a question mark is not seen. *)
Lemma path_pieces_of cx r ps query :
  cq_url r = cx_base_url cx +:+ "/" +:+ join "/" ps +:+ query →
  ps ≠ [] → existsb (has_char "/") ps = false → existsb (has_char "?") ps = false →
  query = "" ∨ (∃ q, query = "?" +:+ q) →
  path_pieces cx r = Some ps.
Proof.
  intros Hu Hne Hs Hq Hquery. unfold path_pieces. rewrite Hu.
  rewrite (proj2 (strip_prefix_Some _ _ _) eq_refl). cbn [mbind option_bind].
  assert (has_char "?" ("/" +:+ join "/" ps) = false) as Hj by (cbn; by rewrite has_char_join).
  assert (match split_once "?" ("/" +:+ join "/" ps +:+ query) with
          | Some (path, _) => path
          | None => "/" +:+ join "/" ps +:+ query
          end = "/" +:+ join "/" ps) as ->.
  { destruct Hquery as [-> |[q ->]].
    - rewrite string_app_nil. by rewrite split_once_no_char.
    - by rewrite (proj2 (split_once_Some "?" _ ("/" +:+ join "/" ps) q)). }
  rewrite (proj2 (strip_prefix_Some _ _ _) eq_refl). cbn [mbind option_bind]. f_equal.
  apply split_on_join; [done|]. apply Forall_forall. intros p Hp.
  destruct (has_char "/" p) eqn:Hc; [|done]. rewrite <- Hs. symmetry. apply existsb_exists.
  exists p. by rewrite <- list_elem_of_In.
Qed.

Lemma reached_of config cx r ps es query :
  cq_url r = cx_base_url cx +:+ "/" +:+ join "/" ps +:+ query →
  ps ≠ [] → existsb (has_char "/") ps = false → existsb (has_char "?") ps = false →
  query = "" ∨ (∃ q, query = "?" +:+ q) →
  endpoints_of (cq_method r) ps (routes config) = es →
  reached config cx r = es.
Proof.
  intros Hu Hne Hs Hq Hquery He. unfold reached.
  by rewrite (path_pieces_of cx r ps query).
Qed.

(** *** Patterns on paths with names

    The pieces of a path: a word of the routes, a name, a rest that is not empty,
    or one of two pieces or more.  [fits_known] decides a pattern as far as it
    can, with no look at the names. *)

Inductive Piece : Type := Word (s : string) | Ident (s : string) | Tail (s : string) | Long (s : string).

Definition piece_texts (p : Piece) : list string :=
  match p with Word s | Ident s => [s] | Tail s | Long s => split_on "/" s end.

Definition piece_ok (p : Piece) : Prop :=
  match p with
  | Word s => has_char "/" s || has_char "?" s = false
  | Ident s => Name s
  | Tail s => is_empty s = false ∧ has_char "?" s = false
  | Long s => has_char "/" s = true ∧ has_char "?" s = false
  end.

Fixpoint fits_known (pattern : list Segment) (ps : list Piece) : option bool :=
  match ps with
  | [] => Some (is_nil pattern)
  | Word w :: ps =>
      match pattern with
      | [] => Some false
      | Lit s :: pattern => if String.eqb s w then fits_known pattern ps else Some false
      | Param _ :: pattern => if is_empty w then Some false else fits_known pattern ps
      | Rest _ :: pattern =>
          if is_nil pattern then (if is_empty w then None else Some true) else Some false
      end
  | Ident _ :: ps =>
      match pattern with
      | [] => Some false
      | Lit s :: _ => if bool_decide (s ∈ reserved) then Some false else None
      | Param _ :: pattern => fits_known pattern ps
      | Rest _ :: pattern => Some (is_nil pattern)
      end
  | Tail _ :: ps =>
      match pattern, ps with [], _ => Some false | [Rest _], [] => Some true | _, _ => None end
  | Long _ :: _ =>
      match pattern with [] | [Lit _] | [Param _] => Some false | _ => None end
  end.

Lemma join_filled sep p ps : is_empty p = false → is_empty (join sep (p :: ps)) = false.
Proof. destruct p; [done|]. by destruct ps. Qed.

Lemma split_filled s : is_empty s = false → is_empty (join "/" (split_on "/" s)) = false.
Proof. intros Hs. by rewrite join_split_on. Qed.

Lemma split_long s : has_char "/" s = true → ∃ a b l, split_on "/" s = a :: b :: l.
Proof.
  intros Hs. destruct (split_on "/" s) as [|a [|b l]] eqn:E; [by apply split_on_nonempty in E| |eauto].
  assert (a ∈ split_on "/" s) as Ha%split_on_no_sep by (rewrite E; by left).
  rewrite <- (join_split_on "/" s), E in Hs. cbn in Hs. congruence.
Qed.

Lemma split_cons s : ∃ a l, split_on "/" s = a :: l.
Proof.
  destruct (split_on "/" s) eqn:E; [by apply split_on_nonempty in E|eauto].
Qed.

(** A pattern but a last star, on two pieces or more. *)
Lemma fits_short seg a b l : (∀ n, seg ≠ Rest n) → fits [seg] (a :: b :: l) = false.
Proof. destruct seg as [s|n|n]; intros Hr; cbn; rewrite ?andb_false_r; [done..|by destruct (Hr n)]. Qed.

Lemma fits_known_sound pattern ps b :
  Forall piece_ok ps → fits_known pattern ps = Some b → fits pattern (ps ≫= piece_texts) = b.
Proof.
  intros Hps. revert pattern. induction Hps as [|p ps Hp Hps IH]; intros pattern Hf.
  { destruct pattern as [|[s|n|n] [|seg pattern]]; cbn in *; congruence. }
  rewrite bind_cons. destruct pattern as [|seg pattern].
  { assert (fits [] (piece_texts p ++ (ps ≫= piece_texts)) = false) as ->; [|destruct p; cbn in Hf; congruence].
    destruct p; cbn; [done..| |]; by destruct (split_cons s) as (a & l & ->). }
  destruct p as [w|w|w|w].
  - destruct seg as [s|n|n]; cbn in Hf |- *.
    + revert Hf. destruct (String.eqb s w); [apply IH|cbn; congruence].
    + revert Hf. destruct (is_empty w); [cbn; congruence|apply IH].
    + destruct pattern; cbn in Hf; [|congruence]. destruct (is_empty w) eqn:Hw; [done|].
      injection Hf as <-. apply negb_true_iff. by apply (join_filled "/" w).
  - destruct seg as [s|n|n]; cbn in Hf |- *.
    + case_bool_decide as Hr; [|done]. injection Hf as <-. by rewrite (name_word w Hp s Hr).
    + rewrite (name_filled w Hp). by apply IH.
    + destruct pattern; injection Hf as <-; [|done].
      apply negb_true_iff. apply (join_filled "/" w). exact (name_filled w Hp).
  - destruct seg as [s|n|n], pattern, ps; cbn in Hf; try congruence.
    injection Hf as <-. cbn [mbind list_bind piece_texts]. rewrite app_nil_r.
    pose proof (split_filled w (proj1 Hp)) as Hw. destruct (split_cons w) as (a & l & E).
    rewrite E in *. apply negb_true_iff. exact Hw.
  - destruct (split_long w (proj1 Hp)) as (x & y & l & E). cbn [piece_texts]. rewrite E.
    destruct seg as [s|n|n], pattern; cbn in Hf; try congruence; injection Hf as <-.
    all: by apply (fits_short _ x y (l ++ (ps ≫= piece_texts))).
Qed.

(** The routes that fit, as far as the pieces tell. *)
Fixpoint fitting_known (ps : list Piece) (rs : list Route) : option (list Route) :=
  match rs with
  | [] => Some []
  | rt :: rs =>
      b ← fits_known (rt_path rt) ps;
      l ← fitting_known ps rs;
      Some (if b : bool then rt :: l else l)
  end.

Definition endpoints_known (method : Method) (ps : list Piece) (rs : list Route) : option (list Endpoint) :=
  handlers_of method <$> fitting_known ps rs.

Lemma endpoints_known_sound method ps rs es :
  Forall piece_ok ps → endpoints_known method ps rs = Some es →
  endpoints_of method (ps ≫= piece_texts) rs = es.
Proof.
  intros Hps He. unfold endpoints_known in He. apply fmap_Some in He as (l & Hl & ->).
  unfold endpoints_of. f_equal. revert l Hl.
  induction rs as [|rt rs IH]; intros l; [by intros [= <-]|]. cbn [fitting_known].
  destruct (fits_known (rt_path rt) ps) as [b|] eqn:Hb; [|done]. cbn [mbind option_bind].
  destruct (fitting_known ps rs) as [l'|]; [|done]. cbn [mbind option_bind]. intros [= <-].
  unfold fitting. rewrite filter_cons. fold (fitting (ps ≫= piece_texts) rs).
  rewrite (fits_known_sound _ _ _ Hps Hb), (IH l' eq_refl). by destruct b.
Qed.

(** All routes, when there is a database. *)
Definition all_routes : list Route :=
  app_routes ++ (ssh_session_routes ++ ssh_auth_routes) ++ terminal_routes ++ vnc_routes
  ++ static_routes ++ image_routes ++ session_token_routes ++ admin_routes ++ auth_routes.

Lemma reached_known config cx r ps es query :
  has_db_config config = true →
  cq_url r = cx_base_url cx +:+ "/" +:+ join "/" (ps ≫= piece_texts) +:+ query →
  ps ≠ [] → Forall piece_ok ps → query = "" ∨ (∃ q, query = "?" +:+ q) →
  endpoints_known (cq_method r) ps all_routes = Some es →
  reached config cx r = es.
Proof.
  intros Hdb Hu Hne Hps Hq He.
  assert (∀ c, c = "/"%char ∨ c = "?"%char → existsb (has_char c) (ps ≫= piece_texts) = false) as Hc.
  { intros c Hc. clear -Hps Hc. induction Hps as [|p ps Hp _ IH]; [done|].
    rewrite bind_cons, existsb_app, IH, orb_false_r. clear IH.
    assert (∀ s, has_char "?" s = false → existsb (has_char c) (split_on "/" s) = false) as Hsplit.
    { intros s Hs. destruct (existsb _ _) eqn:E; [|done]. apply existsb_exists in E as (x & Hx & E).
      apply list_elem_of_In in Hx. destruct Hc as [-> | ->].
      - by rewrite (split_on_no_sep _ _ _ Hx) in E.
      - assert (has_char "?" (join "/" (split_on "/" s)) = true) as Hj; [|by rewrite join_split_on, Hs in Hj].
        rewrite has_char_join by done. apply existsb_exists. exists x. by rewrite <- list_elem_of_In. }
    destruct p as [w|w|w|w]; cbn [piece_texts piece_ok existsb] in *; rewrite ?orb_false_r.
    - apply orb_false_iff in Hp as [H1 H2]. by destruct Hc as [-> | ->].
    - destruct Hc as [-> | ->]; apply Hp.
    - apply Hsplit, Hp.
    - apply Hsplit, Hp. }
  apply (reached_of config cx r (ps ≫= piece_texts) es query); auto.
  - clear He. destruct ps as [|p ps]; [done|]. rewrite bind_cons. destruct p; cbn; [done..| |];
      by destruct (split_cons s) as (? & ? & ->).
  - assert (routes config = all_routes) as -> by (unfold routes; by rewrite Hdb).
    by apply endpoints_known_sound.
Qed.

(** *** Every command reaches the handler it is about *)

Ltac same_url :=
  cbn [cq_url api simple admin_request]; unfold at_sandbox; f_equal; cbn; by rewrite ?string_app_nil.

Ltac reach ps := apply (reached_known _ _ _ ps _ "");
  [done|same_url|done| |by left|by vm_compute]; repeat (apply Forall_cons; split); try done.

Ltac word H w := apply (H _ _ w); [by apply (bool_decide_unpack _)|done|by vm_compute].

Section routed.
Context `{UuidLib, ShellWordsLib} (config : Config) (cx : CliContext).
Hypothesis Hdb : has_db_config config = true.

Lemma routed_sandbox method id suffix ps query body e :
  Name id → Forall piece_ok ps → suffix = match ps with [] => "" | _ => "/" +:+ join "/" (ps ≫= piece_texts) end →
  endpoints_known method (Word "sandboxes" :: Ident id :: ps) all_routes = Some [e] →
  reached config cx (api cx method (at_sandbox id suffix) query body) = [e].
Proof.
  intros Hid Hps -> He.
  apply (reached_known _ _ _ (Word "sandboxes" :: Ident id :: ps) _ ""); [done| |done| |by left|done].
  - cbn [cq_url api]. f_equal. unfold at_sandbox. rewrite string_app_nil. clear He. destruct ps as [|p ps].
    + cbn. by rewrite string_app_nil.
    + cbn [mbind list_bind app piece_texts]. destruct (piece_texts p ++ mbind piece_texts ps) eqn:E; [|done].
      destruct p; cbn in E; try done; by destruct (split_cons s) as (? & ? & Hs); rewrite Hs in E.
  - by apply Forall_cons; split; [|apply Forall_cons].
Qed.

Lemma routed_sandbox_0 method id query body e :
  Name id → endpoints_known method [Word "sandboxes"; Ident id] all_routes = Some [e] →
  reached config cx (api cx method (at_sandbox id "") query body) = [e].
Proof. intros Hid He. by apply (routed_sandbox _ _ _ []). Qed.

Lemma routed_sandbox_1 method id word query body e :
  Name id → has_char "/" word || has_char "?" word = false →
  endpoints_known method [Word "sandboxes"; Ident id; Word word] all_routes = Some [e] →
  reached config cx (api cx method (at_sandbox id ("/" +:+ word)) query body) = [e].
Proof.
  intros Hid Hw He. apply (routed_sandbox _ _ _ [Word word]); [done| |done|done].
  by apply Forall_singleton.
Qed.

Lemma routed_sandboxes command r e :
  intended cx command r → endpoint_of command = Some e → Forall Name (names_of command) →
  match command with
  | Info _ | Exec _ _ | Ssh _ | Stop _ | Delete _ | Restore _ | Stats _ _ | Cleanup _
  | Upload _ _ _ | Download _ _ _ | Tools _ _ _ _ _ _
  | Activities (ActivitiesList (Some _) _ _) | Web (WebFetch _) => True
  | _ => False
  end →
  reached config cx r = [e].
Proof.
  intros Hr He Hn Hc.
  assert (∀ method id word query body e,
            word ∈ ["exec"; "stop"; "restore"; "stats"; "stats-stream"; "cleanup"; "upload"; "download";
                    "tools"; "activities"] → Name id →
            endpoints_known method [Word "sandboxes"; Ident id; Word word] all_routes = Some [e] →
            reached config cx (api cx method (at_sandbox id ("/" +:+ word)) query body) = [e]) as Hw.
  { intros method id word query body e' Hw Hid. apply routed_sandbox_1; [done|].
    revert word Hw. apply Forall_forall. by repeat constructor. }
  destruct command; try done; cbn [names_of intended endpoint_of] in *.
  all: try rewrite Forall_singleton in Hn.
  - injection He as <-. subst r. apply routed_sandbox_0; [done|by vm_compute].
  - injection He as <-. subst r. word Hw "exec".
  - injection He as <-. subst r. apply routed_sandbox_0; [done|by vm_compute].
  - injection He as <-. subst r. word Hw "stop".
  - injection He as <-. subst r. apply routed_sandbox_0; [done|by vm_compute].
  - injection He as <-. subst r. word Hw "restore".
  - injection He as <-. subst r. destruct stream.
    + word Hw "stats-stream".
    + word Hw "stats".
  - injection He as <-. subst r. word Hw "cleanup".
  - destruct action as [[sandbox|] limit ty| |]; try done. cbn in *. rewrite Forall_singleton in Hn.
    injection He as <-. subst r. word Hw "activities".
  - injection He as <-. destruct Hr as (name & contents & ->).
    word Hw "upload".
  - injection He as <-. subst r. word Hw "download".
  - injection He as <-. destruct Hr as (parsed & _ & ->).
    word Hw "tools".
  - destruct action as [args|]; [|done]. cbn in *. rewrite Forall_singleton in Hn.
    injection He as <-. subst r. word Hw "tools".
Qed.

Lemma routed_others command r e :
  intended cx command r → endpoint_of command = Some e → Forall Name (names_of command) →
  match command with
  | Create _ | List _ | Activities _ | ApiKey _ | Health | ShowConfig => True
  | _ => False
  end →
  reached config cx r = [e] ∨ ∃ id limit ty, command = Activities (ActivitiesList (Some id) limit ty).
Proof.
  intros Hr He Hn Hc. destruct command; try done; cbn [names_of intended endpoint_of] in *.
  - left. injection He as <-. subst r. reach [Word "sandboxes"; Word "create-stream"].
  - left. injection He as <-. subst r. reach [Word "sandboxes"].
  - destruct action as [[id|] limit ty|id|dry_run timeout]; cbn in *; [by right; eauto|left..].
    + injection He as <-. subst r. reach [Word "activities"].
    + injection He as <-. subst r. rewrite Forall_singleton in Hn. reach [Word "activities"; Ident id].
    + injection He as <-. subst r.
      apply (reached_known _ _ _ [Word "activities"; Word "cleanup-all"] _
               ("?dry_run=" +:+ bool_text dry_run +:+ "&timeout=" +:+ Z_to_string timeout));
        [done|done|done| |right; by eexists|by vm_compute].
      by repeat (apply Forall_cons; split).
  - left. destruct Hr as (key & Hk & Hr).
    destruct action as [reveal|name desc scopes days|id|id force|id]; cbn in *; injection He as <-; subst r.
    + reach [Word "admin"; Word "api-keys"].
    + reach [Word "admin"; Word "api-keys"].
    + rewrite Forall_singleton in Hn. reach [Word "admin"; Word "api-keys"; Ident id].
    + rewrite Forall_singleton in Hn. reach [Word "admin"; Word "api-keys"; Ident id].
    + rewrite Forall_singleton in Hn. reach [Word "admin"; Word "api-keys"; Ident id; Word "rotate"].
  - left. injection He as <-. subst r. reach [Word "health"].
  - left. injection He as <-. subst r. reach [Word "config"].
Qed.
Lemma routed_images action r e :
  intended cx (Images action) r → endpoint_of (Images action) = Some e →
  Forall Name (names_of (Images action)) → reached config cx r = [e].
Proof.
  intros Hr He Hn. destruct action as [|id|image tag stream|id]; cbn in *;
    rewrite ?Forall_singleton in Hn; injection He as <-; subst r.
  - reach [Word "images"].
  - reach [Word "images"; Ident id].
  - destruct stream; [reach [Word "images"; Word "pull-stream"]|reach [Word "images"; Word "pull"]].
  - reach [Word "images"; Ident id].
Qed.

Lemma routed_static action r e :
  intended cx (Static action) r → endpoint_of (Static action) = Some e →
  Forall Name (names_of (Static action)) →
  (∀ path, rest_of (Static action) = Some path → relative path = true) →
  reached config cx r = [e].
Proof.
  intros Hr He Hn Hrest. destruct action as [id|id|id path output|id path|id force|id output];
    cbn in *; injection He as <-; subst r.
  - rewrite Forall_singleton in Hn. reach [Word "static"; Word "files"; Ident id].
  - rewrite Forall_singleton in Hn. reach [Word "static"; Word "tree"; Ident id].
  - rewrite Forall_singleton in Hn. specialize (Hrest path eq_refl).
    unfold relative in Hrest. rewrite andb_true_iff, !negb_true_iff in Hrest.
    apply (reached_known _ _ _ [Word "static"; Ident id; Tail path] _ ""); [done| |done| |by left|by vm_compute].
    + cbn [cq_url simple api]. f_equal. cbn [mbind list_bind piece_texts app]. rewrite app_nil_r, string_app_nil.
      rewrite !join_cons by (done || apply split_on_nonempty). by rewrite join_split_on.
    + by repeat (apply Forall_cons; split).
  - apply Forall_cons in Hn as [Hid Hn]. rewrite Forall_singleton in Hn.
    reach [Word "static"; Word "file"; Ident id; Ident path].
  - rewrite Forall_singleton in Hn. reach [Word "static"; Word "sandbox"; Ident id].
  - rewrite Forall_singleton in Hn. reach [Word "static"; Word "download"; Ident id].
Qed.

Lemma routed_sessions command r e :
  intended cx command r → endpoint_of command = Some e → Forall Name (names_of command) →
  match command with SessionTokens _ | SshSessions _ => True | _ => False end →
  reached config cx r = [e].
Proof.
  intros Hr He Hn Hc. destruct command; try done; cbn [names_of intended endpoint_of] in *.
  - destruct action as [id service ttl|token]; cbn in *; injection He as <-; subst r.
    + reach [Word "session-tokens"].
    + rewrite Forall_singleton in Hn. reach [Word "session-tokens"; Ident token; Word "validate"].
  - destruct action as [id state limit|id|id reason| |id username key|id]; cbn in *;
      rewrite ?Forall_singleton in Hn; injection He as <-; subst r.
    + reach [Word "ssh-sessions"].
    + reach [Word "ssh-sessions"; Ident id].
    + reach [Word "ssh-sessions"; Ident id; Word "terminate"].
    + reach [Word "ssh-sessions"; Word "statistics"].
    + reach [Word "ssh-sessions"].
    + reach [Word "ssh-sessions"; Ident id; Word "heartbeat"].
Qed.

(** What is asked with names reaches the handler; a name of an image or of a
    published file that has a slash reaches none. *)
Lemma intended_reached command r e :
  intended cx command r → endpoint_of command = Some e →
  forallb identifier (names_of command) = true →
  (∀ path, rest_of command = Some path → relative path = true) →
  reached config cx r = [e].
Proof.
  intros Hr He Hn Hrest.
  assert (Forall Name (names_of command)) as HN.
  { apply Forall_forall. intros s Hs. apply identifier_name.
    rewrite forallb_forall in Hn. apply Hn. by apply list_elem_of_In. }
  destruct command; try (by apply (routed_sandboxes _ _ _ Hr He HN)); try done.
  all: try (destruct (routed_others _ _ _ Hr He HN I) as [?|(id & limit & ty & Hc)]; [done|];
            try discriminate Hc; try injection Hc as ->; by apply (routed_sandboxes _ _ _ Hr He HN)).
  - by destruct action; [apply (routed_sandboxes _ _ _ Hr He HN)|].
  - by apply (routed_images action).
  - by apply (routed_static action).
  - by apply (routed_sessions _ _ _ Hr He HN).
  - by apply (routed_sessions _ _ _ Hr He HN).
Qed.

Lemma slash_unreached command r path id :
  intended cx command r → has_char "/" path = true → has_char "?" path = false →
  identifier id = true →
  command ∈ [Images (ImagesInspect path); Images (ImagesDelete path); Static (StaticDelete id path)] →
  reached config cx r = [].
Proof.
  intros Hr Hs Hq Hid%identifier_name Hc.
  destruct (split_cons path) as (x & l & E).
  assert (join "/" (x :: l) = path) as Hj by by rewrite <- E, join_split_on.
  assert (∀ method ws, Forall piece_ok ws → endpoints_known method (ws ++ [Long path]) all_routes = Some [] →
            ws ≠ [] → reached config cx (simple cx method ("/" +:+ join "/" ((ws ≫= piece_texts) ++ [path]))) = [])
    as Hreach.
  { intros method ws Hws He Hne.
    apply (reached_known _ _ _ (ws ++ [Long path]) _ ""); [done| |by destruct ws| |by left|done].
    - cbn [cq_url simple api]. f_equal. rewrite string_app_nil. f_equal.
      rewrite bind_app. cbn [mbind list_bind piece_texts app]. rewrite app_nil_r, E.
      clear Hws He Hne. induction (mbind piece_texts ws) as [|p ps IH]; [by rewrite <- Hj|].
      cbn [app]. rewrite !join_cons by by destruct ps. by rewrite IH.
    - apply Forall_app. split; [done|]. by apply Forall_singleton. }
  rewrite !elem_of_cons in Hc. destruct_or! Hc; try by apply elem_of_nil in Hc.
  - subst. cbn in Hr. subst r. by apply (Hreach GET [Word "images"]); [apply Forall_singleton|vm_compute|].
  - subst. cbn in Hr. subst r. by apply (Hreach DELETE [Word "images"]); [apply Forall_singleton|vm_compute|].
  - subst. cbn in Hr. subst r.
    apply (Hreach DELETE [Word "static"; Word "file"; Ident id]); [|by vm_compute|done].
    by repeat (apply Forall_cons; split).
Qed.
End routed.


(** ** Witnesses *)

Module Witnesses.
Import Demo CommandDemo.

#[local] Existing Instance Config.Witnesses.demo_config_lib.

Definition answered (text : string) : Result CliResponse string := Ok (mkCliResponse 200 [text] None).

End Witnesses.
