(* ===== verification/CommandBodies.v ===== *)
(** * CommandBodies: what the handlers read of a command

    The bodies that the commands write ([Commands]) are read by the readers of
    the server ([Wire]): [described] is the request for a sandbox that arguments
    stand for, [understood] says for each command what arrives, and
    [bodies_read_spec] that it does. *)

From S2P Require Import Prelude Text Paths Errors Types Store World Config Service Ops Files SandboxApi Auth Server Cli Wire Commands Demo CommandDemo CommandSpecs.
From Stdlib Require Import Ascii.

(** ** What the handlers read *)

(** The fields of a form, as they arrive: the file, and then the texts. *)
Definition form_fields (b : CliBody) : list (Result Field string) :=
  match b with
  | Multipart name contents texts =>
      Ok {| fd_name := Some "file"; fd_file_name := Some name; fd_text := Ok contents;
            fd_bytes := Ok contents |}
      :: ((λ t, Ok {| fd_name := Some t.1; fd_file_name := None; fd_text := Ok t.2;
                      fd_bytes := Ok t.2 |}) <$> texts)
  | _ => []
  end.

(** The body as a handler reads it, when it must be JSON. *)
Definition read_as {T} (read : Json → option T) (r : CliRequest) : option T :=
  match cq_body r with JsonPayload j => read j | _ => None end.

Definition unless_empty {A B} (f : list A → B) (l : list A) : option B :=
  if is_nil l then None else Some (f l).

(** The sandbox that the arguments of [create] describe. *)
Definition described `{ShellWordsLib} (args : CreateArgs) : CreateSandboxRequest :=
  {| req_image := ca_image args;
     req_name := ca_name args;
     req_environment := unless_empty (λ l, list_to_map (rev l)) (ca_env args);
     req_port_mappings := unless_empty (fmap (λ p, mkPortMapping p.1 p.2 Tcp)) (ca_ports args);
     req_resource_limits :=
       if is_nil (limit_fields args) then None
       else Some {| memory_mb := ca_memory_mb args; cpu_quota := None; cpu_period := None;
                    cpu_shares := ca_cpu_shares args; pids_limit := None; ulimits := None |};
     req_volumes := unless_empty id (ca_volumes args);
     req_command := parse_command_args <$> ca_command args;
     req_inactivity_timeout_minutes := ca_timeout args;
     req_pull_policy := default Missing (ca_pull args);
     req_features := ca_features args;
     req_enable_all_features := ca_enable_all_features args;
     req_vnc_resolution := None |}.

(** The numbers that the parser of the arguments lets pass. *)
Definition u64_or_none (o : option Z) : Prop := match o with Some n => is_u64 n | None => True end.

Definition typed (command : Command) : Prop :=
  match command with
  | Create args =>
      Forall (λ p, is_u16 p.1 ∧ is_u16 p.2) (ca_ports args) ∧ u64_or_none (ca_cpu_shares args) ∧
      u64_or_none (ca_memory_mb args) ∧ u64_or_none (ca_timeout args)
  | Tools _ _ _ _ _ timeout => u64_or_none timeout
  | Web (WebFetch args) => u64_or_none (fa_timeout args)
  | SessionTokens (TokenCreate _ _ ttl) => u64_or_none ttl
  | ApiKey (ApiKeyCreate _ _ _ days) => u64_or_none days
  | _ => True
  end.

(** What the handler reads; for three commands, nothing. *)
Definition understood `{UuidLib, ShellWordsLib} (command : Command) (r : CliRequest) : Prop :=
  match command with
  | Create args => read_as read_create_request r = Some (described args)
  | Exec _ words => read_as read_exec_request r = Some (mkExecSandboxRequest words None None None None)
  | Tools _ interpreter script action args timeout =>
      ∃ args', (args = None → args' = None) ∧
        read_as read_tool_request r = Some (mkToolExecutionRequest interpreter script action args' timeout None)
  | Web (WebFetch args) =>
      ∃ fields, json_get "url" fields = Some (JString (fa_url args)) ∧
        read_as read_tool_request r =
          Some (mkToolExecutionRequest "python" AGENT_BROWSER_TOOLS_PATH "web_scrape" (Some fields)
                  (fa_timeout args) None)
  | Images (ImagesPull image tag _) => read_as read_pull_request r = Some (mkPullImageRequest image tag)
  | SessionTokens (TokenCreate id service ttl) =>
      read_as read_token_request r = Some (id, service, default 300 ttl)
  | ApiKey (ApiKeyCreate name description scopes days) =>
      read_as read_key_request r =
        if bool_decide (default 0 days < 2 ^ 63)
        then Some (mkCreateApiKeyRequest name description ((λ s, trim <$> split_on "," s) <$> scopes) days None)
        else None
  | SshSessions (SshTerminate _ reason) => read_as read_termination r = Some reason
  | SshSessions (SshCreate _ _ _) => read_as read_session_request r = None
  | SshSessions (SshHeartbeat _) => read_as read_heartbeat r = None
  | Upload _ _ _ =>
      ∀ max_file_size,
        match read_form max_file_size (form_fields (cq_body r)) (mkUploadForm None None None) with
        | Ok form => uf_path form = None
        | Err reply => ∃ body, reply = Files.ReplyJson 400 body
        end
  | _ => True
  end.

(** *** Looking a field up *)

Lemma match_str_app {A} (l1 l2 : list (string * A)) key :
  match_str (l1 ++ l2) key = or_else (match_str l1 key) (match_str l2 key).
Proof. induction l1 as [|[k a] l1 IH]; [done|]. cbn. by destruct (String.eqb key k). Qed.

Lemma match_str_field {A} (write : A → Json) k o key :
  match_str (field k write o) key = if String.eqb key k then write <$> o else None.
Proof. destruct o; cbn; by destruct (String.eqb key k). Qed.

Lemma match_str_list {A} (write : A → Json) k l key :
  match_str (list_field k write l) key =
  if String.eqb key k then unless_empty (λ l, JArray (write <$> l)) l else None.
Proof. destruct l; cbn; by destruct (String.eqb key k). Qed.

Lemma match_str_if {A} (b : bool) (l1 l2 : list (string * A)) key :
  match_str (if b then l1 else l2) key = if b then match_str l1 key else match_str l2 key.
Proof. by destruct b. Qed.

Lemma read_option_some {T} (read : Json → option T) v x :
  read v = Some x → v ≠ JNull → read_option read v = Some (Some x).
Proof. intros Hr Hv. unfold read_option. rewrite Hr. by destruct v. Qed.

(** A field that is written when there is a value. *)
Lemma optional_read {A T} (read : Json → option T) key v (o : option A) (write : A → Json) (f : A → T) :
  json_get key v = write <$> o → (∀ a, o = Some a → read (write a) = Some (f a) ∧ write a ≠ JNull) →
  optional key read v = Some (f <$> o).
Proof.
  intros Hg Hr. unfold optional, defaulted. rewrite Hg. destruct o as [a|]; [|done].
  destruct (Hr a eq_refl). by apply read_option_some.
Qed.

Lemma u64_read o n : u64_or_none o → o = Some n → read_u64 (JNumber n) = Some n ∧ JNumber n ≠ JNull.
Proof. intros Ho ->. split; [|done]. apply read_int_in. unfold u64_or_none, is_u64 in Ho. lia. Qed.

Lemma or_else_none {A} (o : option A) : or_else o None = o.
Proof. by destruct o. Qed.

Lemma if_same {A} (b : bool) (a : A) : (if b then a else a) = a.
Proof. by destruct b. Qed.

(** Looks the fields of an object up. *)
Ltac fields :=
  cbn [json_get]; rewrite ?match_str_app, ?match_str_field, ?match_str_list, ?match_str_if;
  repeat match goal with
  | |- context [String.eqb ?a ?b] =>
      let v := eval vm_compute in (String.eqb a b) in change (String.eqb a b) with v
  end; cbn; rewrite ?if_same; cbn; rewrite ?or_else_none.

Lemma optional_same {A} (read : Json → option A) key v (o : option A) (write : A → Json) :
  json_get key v = write <$> o → (∀ a, o = Some a → read (write a) = Some a ∧ write a ≠ JNull) →
  optional key read v = Some o.
Proof. intros Hg Hr. rewrite (optional_read read key v o write id Hg Hr). by rewrite option_fmap_id. Qed.

Lemma optional_list {A T} (read : Json → option T) key v (l : list A) (write : A → Json) (f : A → T) :
  json_get key v = unless_empty (λ l, JArray (write <$> l)) l →
  Forall (λ a, read (write a) = Some (f a)) l →
  optional key (read_list read) v = Some (unless_empty (fmap f) l).
Proof.
  intros Hg Hr. unfold optional, defaulted. rewrite Hg. unfold unless_empty.
  destruct l as [|a l]; [done|]. cbn [is_nil]. apply read_option_some; [|done].
  unfold read_list. cbn [json_as_array mbind option_bind]. apply mapM_Some.
  rewrite list.Forall2_fmap. apply list.Forall_Forall2_diag. done.
Qed.

Lemma read_limits_fields args :
  u64_or_none (ca_cpu_shares args) → u64_or_none (ca_memory_mb args) →
  read_limits (JObject (limit_fields args)) =
    Some {| memory_mb := ca_memory_mb args; cpu_quota := None; cpu_period := None;
            cpu_shares := ca_cpu_shares args; pids_limit := None; ulimits := None |}.
Proof.
  intros Hcpu Hmem. unfold read_limits.
  rewrite (optional_same _ "memory_mb" _ (ca_memory_mb args) JNumber); [|by unfold limit_fields; fields|].
  2: { intros n Hn. by apply (u64_read _ _ Hmem). }
  rewrite (optional_same _ "cpu_shares" _ (ca_cpu_shares args) JNumber); [|by unfold limit_fields; fields|].
  2: { intros n Hn. by apply (u64_read _ _ Hcpu). }
  unfold optional, defaulted, limit_fields. cbn [mbind option_bind]. fields. done.
Qed.

Lemma read_create `{ShellWordsLib} args :
  typed (Create args) → read_create_request (create_body args) = Some (described args).
Proof.
  intros (Hports & Hcpu & Hmem & Ht). unfold read_create_request.
  assert (required "image" json_as_str (create_body args) = Some (ca_image args)) as -> by done.
  rewrite (optional_same _ "name" _ (ca_name args) JString); [|by unfold create_body; fields|done].
  rewrite (optional_same _ "environment" _ (unless_empty (λ l, list_to_map (rev l)) (ca_env args)) json_map);
    [|unfold create_body; fields; by destruct (ca_env args)|intros m _; split; [apply read_json_map|done]].
  rewrite (optional_list _ "port_mappings" _ (ca_ports args) port_json (λ p, mkPortMapping p.1 p.2 Tcp));
    [|by unfold create_body; fields|].
  2: { apply (Forall_impl _ _ _ Hports). intros [h c] [Hh Hc]. unfold is_u16 in *. cbn in *.
       unfold read_port_mapping, required. cbn. by rewrite !bool_decide_eq_true_2 by lia. }
  rewrite (optional_read read_limits "resource_limits" _
             (if is_nil (limit_fields args) then None else Some (limit_fields args)) JObject
             (λ _, {| memory_mb := ca_memory_mb args; cpu_quota := None; cpu_period := None;
                      cpu_shares := ca_cpu_shares args; pids_limit := None; ulimits := None |}));
    [|unfold create_body; fields; by destruct (is_nil (limit_fields args))|].
  2: { intros l Hl. destruct (is_nil _); [done|]. injection Hl as <-.
       split; [by apply read_limits_fields|done]. }
  rewrite (optional_list _ "volumes" _ (ca_volumes args) write_volume id); [|by unfold create_body; fields|].
  2: { apply Forall_true. apply read_volume_write. }
  rewrite (optional_same _ "command" _ (parse_command_args <$> ca_command args) json_strings);
    [|unfold create_body; fields; by destruct (ca_command args)|intros l _; split; [apply read_strings|done]].
  rewrite (optional_same _ "inactivity_timeout_minutes" _ (ca_timeout args) JNumber); [|by unfold create_body; fields|].
  2: { intros n Hn. by apply (u64_read _ _ Ht). }
  cbn [mbind option_bind].
  assert (defaulted "pull_policy" read_pull_policy Missing (create_body args) = Some (default Missing (ca_pull args)))
    as ->.
  { unfold defaulted, create_body. fields. by destruct (ca_pull args) as [[]|]. }
  assert (defaulted "features" (read_list json_as_str) [] (create_body args) = Some (ca_features args)) as ->.
  { unfold defaulted, create_body. fields. unfold unless_empty.
    destruct (ca_features args) as [|f l]; [done|]. apply (read_strings (f :: l)). }
  assert (defaulted "enable_all_features" json_as_bool false (create_body args)
          = Some (ca_enable_all_features args)) as ->.
  { unfold defaulted, create_body. fields. by destruct (ca_enable_all_features args). }
  assert (optional "vnc_resolution" json_as_str (create_body args) = Some None) as ->.
  { unfold optional, defaulted, create_body. fields. done. }
  cbn [mbind option_bind]. unfold described. f_equal. f_equal.
  - by destruct (is_nil _).
  - unfold unless_empty. by rewrite list_fmap_id.
Qed.

Lemma read_tool interpreter script action args timeout :
  u64_or_none timeout →
  ∃ args', (args = None → args' = None) ∧ (∀ v, args = Some v → v ≠ JNull → args' = Some v) ∧
    read_tool_request (tool_body interpreter script action args timeout) =
      Some (mkToolExecutionRequest interpreter script action args' timeout None).
Proof.
  intros Ht. exists (match args with Some JNull => None | _ => args end).
  split_and!; [by intros -> |by intros v -> ?; destruct v|].
  unfold read_tool_request. cbn [mbind option_bind required json_get tool_body].
  rewrite (optional_same _ "timeout" _ timeout JNumber); [|by unfold tool_body; fields|].
  2: { intros n Hn. by apply (u64_read _ _ Ht). }
  assert (optional "args" Some (tool_body interpreter script action args timeout) =
          Some (match args with Some JNull => None | _ => args end)) as ->.
  { unfold optional, defaulted, tool_body. fields. rewrite option_fmap_id.
    by destruct args as [[]|]. }
  assert (optional "environment" read_map (tool_body interpreter script action args timeout) = Some None) as ->.
  { unfold optional, defaulted, tool_body. by fields. }
  done.
Qed.

Lemma read_key name description scopes days :
  u64_or_none days →
  read_key_request (key_body name description scopes days) =
    if bool_decide (default 0 days < 2 ^ 63)
    then Some (mkCreateApiKeyRequest name description ((λ s, trim <$> split_on "," s) <$> scopes) days None)
    else None.
Proof.
  intros Hd. unfold read_key_request.
  assert (required "name" json_as_str (key_body name description scopes days) = Some name) as -> by done.
  rewrite (optional_same _ "description" _ description JString); [|by unfold key_body; fields|done].
  rewrite (optional_same _ "scopes" _ ((λ s, trim <$> split_on "," s) <$> scopes) json_strings);
    [|unfold key_body; fields; by destruct scopes|intros l _; split; [apply read_strings|done]].
  assert (optional "expires_in_days" read_i64 (key_body name description scopes days) =
          if bool_decide (default 0 days < 2 ^ 63) then Some days else None) as ->.
  { unfold optional, defaulted, key_body. fields. destruct days as [n|]; [|done].
    cbn. unfold u64_or_none, is_u64 in Hd. repeat case_bool_decide; by try lia. }
  assert (optional "created_by" json_as_str (key_body name description scopes days) = Some None) as ->.
  { unfold optional, defaulted, key_body. by fields. }
  cbn [mbind option_bind]. by case_bool_decide.
Qed.

Lemma read_token id service ttl :
  u64_or_none ttl → read_token_request (token_body id service ttl) = Some (id, service, default 300 ttl).
Proof.
  intros Ht. unfold read_token_request. cbn [mbind option_bind required json_get token_body].
  assert (defaulted "ttl_secs" read_u64 default_ttl (token_body id service ttl) = Some (default 300 ttl)) as ->; [|done].
  unfold defaulted, token_body. fields. destruct ttl as [n|]; [|done]. cbn -[read_u64].
  apply read_int_in. unfold u64_or_none, is_u64 in Ht. lia.
Qed.


Lemma upload_refused max name contents destination :
  match read_form max (form_fields (Multipart name contents (query_of "destination" destination)))
          (mkUploadForm None None None) with
  | Ok form => uf_path form = None
  | Err reply => ∃ body, reply = Files.ReplyJson 400 body
  end.
Proof.
  cbn. case_bool_decide; [by eexists|]. by destruct destination.
Qed.

Lemma intended_understood `{UuidLib, ShellWordsLib} cx command r :
  typed command → intended cx command r → understood command r.
Proof.
  intros Ht Hi. destruct command; try done; cbn [typed intended] in *.
  - subst r. by apply read_create.
  - subst r. cbn [understood read_as cq_body api]. unfold read_exec_request, required.
    cbn [json_get match_str]. rewrite String.eqb_refl. cbn [mbind option_bind].
    by rewrite (read_strings command).
  - destruct action as [|name desc scopes days| | |]; try done.
    destruct Hi as (key & _ & ->). by apply read_key.
  - destruct Hi as (name & contents & ->). intros max. apply upload_refused.
  - destruct Hi as (parsed & Hp & ->). cbn [understood].
    destruct (read_tool interpreter script action parsed timeout Ht) as (args' & H1 & _ & H2).
    exists args'. split; [tauto|done].
  - destruct action as [args|]; [|done]. subst r.
    destruct (read_tool "python" AGENT_BROWSER_TOOLS_PATH "web_scrape"
                (json_get "args" (fetch_body args)) (fa_timeout args) Ht) as (args' & _ & H1 & H2).
    eexists. split; [|etrans; [exact H2|]]; [|by rewrite (H1 _ eq_refl)]. done.
  - destruct action as [| |image tag stream|]; try done. subst r. cbn [understood read_as cq_body api].
    unfold read_pull_request. cbn [mbind option_bind required json_get pull_body].
    rewrite (optional_same _ "tag" _ tag JString); [done|by unfold pull_body; fields|done].
  - destruct action as [id service ttl|]; [|done]. subst r. by apply read_token.
  - destruct action as [| |id reason| |id username key|id]; try done; subst r; cbn [understood read_as cq_body api].
    + unfold read_termination. by rewrite (optional_same _ "reason" _ reason JString);
        [|unfold termination_body; cbn; destruct reason|].
    + unfold read_session_request, required. cbn. by destruct (uuid_parse_str id).
    + done.
Qed.


(** ** Witnesses *)

Module Witnesses.
Import Demo CommandDemo.

#[local] Existing Instance Config.Witnesses.demo_config_lib.

End Witnesses.
