(* ===== verification/CommandStream.v ===== *)
(** * CommandStream: the events of a creation, as the command line shows them

    The server sends the events of a creation ([Create]) as frames of a stream;
    the client takes them apart again, chunk by chunk ([Commands.create_stream]).
    [create_stream_spec] says how a creation ends for the user. *)

From S2P Require Import Prelude Text Paths Errors Types Store World Config Service Create Server Cli Wire Commands Demo CommandDemo CommandSpecs.
From Stdlib Require Import Ascii.

(** ** The stream of a creation *)

(** What the server sends: an event, or a comment that keeps the connection. *)
Inductive Frame : Type := Data (e : SandboxProgressEvent) | Comment (text : string).

Section frames.
Context {E : Type} `{CliEnv E} `{UuidLib}.

(** Server-sent events: an event is a line [data: ..] and an empty line. *)
Definition frame_text (f : Frame) : string :=
  match f with
  | Data e => "data: " +:+ json_text (write_event e) +:+ nl +:+ nl
  | Comment text => ":" +:+ text +:+ nl +:+ nl
  end.

Definition chunk_of (fs : list Frame) : string := join "" (frame_text <$> fs).

Definition events_of (fs : list Frame) : list SandboxProgressEvent :=
  omap (λ f, match f with Data e => Some e | Comment _ => None end) fs.

Definition one_line (s : string) : Prop := has_char newline s = false ∧ has_char carriage_return s = false.

Definition frame_ok (f : Frame) : Prop := match f with Data _ => True | Comment text => one_line text end.
End frames.

(** As documented: an object is written between braces in one line, control
    characters being escaped, and is read back. *)
Class JsonTextLaws {E : Type} `{CliEnv E} `{UuidLib} : Prop := {
  json_object_text fields : ∃ m, json_text (JObject fields) = "{" +:+ m +:+ "}" ∧ one_line m;
  read_event_text e : read_json (json_text (write_event e)) = Ok (write_event e);
}.

Lemma strip_cr_line s : has_char carriage_return s = false → strip_cr s = s.
Proof.
  intros Hs. unfold strip_cr. destruct (string_rev s) as [|c r] eqn:Hr; [done|].
  destruct (Ascii.eqb_spec c carriage_return) as [->|]; [|done].
  assert (s = string_rev r +:+ String carriage_return "") as ->.
  { rewrite <- (string_rev_involutive s), Hr. apply (string_rev_app (String carriage_return "") r). }
  by rewrite has_char_app, orb_true_r in Hs.
Qed.

Lemma lines_line s rest : one_line s → lines (s +:+ nl +:+ rest) = s :: lines rest.
Proof.
  intros [Hn Hc]. unfold lines, nl. cbn [String.append].
  rewrite (split_on_app newline s rest Hn). cbn [strip_terminators].
  destruct (split_on newline rest) eqn:E; [by apply split_on_nonempty in E|].
  by rewrite strip_cr_line.
Qed.

Lemma trim_object m : trim (" {" +:+ m +:+ "}") = "{" +:+ m +:+ "}".
Proof.
  unfold trim. change (trim_start (" {" +:+ m +:+ "}")) with (("{" +:+ m) +:+ "}").
  unfold trim_end. rewrite string_rev_app.
  assert (∀ n r, trim_start_with (string_rev <$> whitespace) n (String "}" r) = String "}" r) as Hn
    by by intros [].
  change (string_rev "}" +:+ string_rev ("{" +:+ m)) with (String "}" (string_rev ("{" +:+ m))).
  rewrite Hn. change (String "}" (string_rev ("{" +:+ m))) with (string_rev "}" +:+ string_rev ("{" +:+ m)).
  by rewrite <- string_rev_app, string_rev_involutive.
Qed.

(** *** The client finds the events *)

Section client.
Context {E : Type} `{CliEnv E} `{UuidLib, !JsonTextLaws}.

Lemma event_line e :
  ∃ m, json_text (write_event e) = "{" +:+ m +:+ "}" ∧ one_line m.
Proof. destruct e; apply json_object_text. Qed.

Lemma lines_frame f rest :
  frame_ok f →
  omap line_event (lines (frame_text f +:+ rest)) =
    match f with Data e => [write_event e] | Comment _ => [] end ++ omap line_event (lines rest).
Proof.
  assert (∀ s, one_line s → omap line_event (lines ((s +:+ nl +:+ nl) +:+ rest)) =
            match line_event s with Some v => [v] | None => [] end ++ omap line_event (lines rest)) as Hl.
  { intros s Hs. rewrite !string_app_assoc. rewrite lines_line by done.
    change (nl +:+ rest) with ("" +:+ nl +:+ rest). rewrite lines_line by done.
    cbn [omap list_omap]. change (line_event "") with (@None Json). by destruct (line_event s). }
  intros Hf. destruct f as [e|text]; cbn [frame_text].
  - destruct (event_line e) as (m & Hm & Hm1 & Hm2). rewrite Hm.
    replace ("data: " +:+ ("{" +:+ m +:+ "}") +:+ nl +:+ nl) with (("data: {" +:+ m +:+ "}") +:+ nl +:+ nl)
      by by rewrite !string_app_assoc.
    rewrite Hl.
    + unfold line_event.
      change (trim_prefix "data:" ("data: {" +:+ m +:+ "}")) with (" {" +:+ m +:+ "}").
      rewrite trim_object, <- Hm, read_event_text. done.
    + by split; cbn; rewrite has_char_app, ?Hm1, ?Hm2.
  - destruct Hf as [Hf1 Hf2].
    replace (":" +:+ text +:+ nl +:+ nl) with ((":" +:+ text) +:+ nl +:+ nl) by done.
    by rewrite Hl.
Qed.

Lemma chunk_events_of fs :
  Forall frame_ok fs → utf8_lossy (chunk_of fs) = chunk_of fs →
  chunk_events (chunk_of fs) = write_event <$> events_of fs.
Proof.
  intros Hfs Hu. unfold chunk_events. rewrite Hu. clear Hu. unfold chunk_of.
  assert (∀ ps, join "" ps = foldr String.append "" ps) as Hjoin.
  { induction ps as [|p [|q ps] IH]; [done|by rewrite <- (string_app_nil p) at 1|].
    change (join "" (p :: q :: ps)) with (p +:+ "" +:+ join "" (q :: ps)). by rewrite IH. }
  rewrite Hjoin. induction Hfs as [|f fs Hf _ IH]; [done|]. cbn [fmap list_fmap foldr].
  rewrite lines_frame by done. rewrite IH. by destruct f.
Qed.
End client.

(** *** What becomes of the events *)

Section outcome.
Context {E : Type} `{CliEnv E} `{UuidLib, ShellWordsLib, !JsonTextLaws}.
Context (cx : CliContext).
#[local] Abbreviation C A := (M (Process E) (Result A Ending)).

(** What a computation prints comes after what was printed, and nothing is
    asked. *)
Definition prints {A} (m : C A) (Q : Result A Ending → list Output → Prop) (p : Process E) : Prop :=
  ∃ os, Q (run_val m p) os ∧ pr_out (run_st m p) = pr_out p ++ os ∧
        pr_log (run_st m p) = pr_log p ∧ pr_env (run_st m p) = pr_env p.

Lemma prints_emit os (Q : Result () Ending → list Output → Prop) p : Q (Ok ()) os → prints (emit os) Q p.
Proof. intros HQ. by exists os. Qed.

Lemma prints_ret {A} (r : Result A Ending) (Q : Result A Ending → list Output → Prop) p :
  Q r [] → prints (mret r) Q p.
Proof. intros HQ. exists []. by rewrite app_nil_r. Qed.

Lemma prints_try {A B} (m : C A) (k : A → C B) Q p :
  (∀ p', prints m (λ r os, match r with
                    | Ok a => ∀ p2, prints (k a) (λ r' os', Q r' (os ++ os')) p2
                    | Err e => Q (Err e) os
                    end) p') →
  prints (try_ m k) Q p.
Proof.
  intros Hm. destruct (Hm p) as (os & HQ & Hout & Hlog & Henv). unfold prints, run_val, run_st, try_ in *.
  rewrite !M_bind_unfold. destruct (m p) as [[a|e] p1]; cbn in *.
  - destruct (HQ p1) as (os' & HQ' & Hout' & Hlog' & Henv'). exists (os ++ os').
    rewrite Hout', Hout, app_assoc. split_and!; [done|done|congruence|congruence].
  - by exists os.
Qed.

Lemma prints_finish_bar b bar op (Q : Result () Ending → list Output → Prop) p :
  (∀ os, Q (Ok ()) os) → prints (finish_bar b bar op) Q p.
Proof. intros HQ. destruct b; [by apply prints_emit|by apply prints_ret]. Qed.

Lemma prints_quit {A} ls (Q : Result A Ending → list Output → Prop) p :
  Q (Err (Exited 1)) ((λ l, ErrOut (l +:+ nl)) <$> ls) → prints (quit ls) Q p.
Proof.
  intros HQ. apply prints_try. intros p'. apply prints_emit. intros p2.
  apply prints_ret. by rewrite app_nil_r.
Qed.

(** An event after which the stream goes on. *)
Lemma going_on bars e p :
  terminal e = false →
  prints (stream_event cx bars (write_event e)) (λ r _, ∃ bars', r = Ok (Some bars')) p.
Proof.
  intros He. destruct e as [image status current total|image|cid|id cid|m]; try done; unfold stream_event; cbn.
  - apply prints_try. intros p'. apply prints_emit. intros p2. apply prints_ret. eauto.
  - apply prints_try. intros p'. apply prints_emit. intros p2. apply prints_ret. eauto.
  - apply prints_try. intros p'. apply prints_finish_bar. intros os p2.
    apply prints_try. intros p3. apply prints_emit. intros p4. apply prints_ret. eauto.
Qed.

(** The last thing printed. *)
Definition ends_saying (text : string) (os : list Output) : Prop := last os = Some (ErrOut (text +:+ nl)).

Lemma failing bars m p :
  prints (stream_event cx bars (write_event (EvError m)))
    (λ r os, r = Err (Exited 1) ∧ ends_saying (nl +:+ "✗ Error: " +:+ m) os) p.
Proof.
  unfold stream_event. cbn. apply prints_try. intros p'. apply prints_emit. intros p2.
  do 2 (apply prints_try; intros ?; apply prints_finish_bar; intros ? ?).
  apply prints_quit. split; [done|]. unfold ends_saying. by rewrite !last_app.
Qed.

(** The sandbox that is ready is asked for, once, and that is the end. *)
Lemma ready bars id cid p :
  run_val (stream_event cx bars (write_event (EvReady id cid))) p = Ok None ∧
  ∃ a, pr_log (run_st (stream_event cx bars (write_event (EvReady id cid))) p) =
       pr_log p ++ [(simple cx GET ("/sandboxes/" +:+ uuid_to_string id), a)].
Proof.
  assert (∀ q, run_val (show_ready cx (uuid_to_string id)) q = Ok () ∧
            ∃ a, pr_log (run_st (show_ready cx (uuid_to_string id)) q) =
                 pr_log q ++ [(simple cx GET ("/sandboxes/" +:+ uuid_to_string id), a)]) as Hshow.
  { intros q. unfold show_ready, run_val, run_st. rewrite M_bind_unfold. unfold attempt.
    destruct (c_send _ (pr_env q)) as [[response|e] env]; cbn; [|eauto].
    repeat case_match; cbn; eauto. }
  unfold stream_event. cbn -[show_ready str_or].
  assert (∀ there q, prints (finish_bar there StartBar (BarFinish "Container started"))
            (λ r _, r = Ok ()) q) as Hbar by (intros; by apply prints_finish_bar).
  destruct (Hbar (bar_start bars) p) as (os & Hr & Hout & Hlog & Henv).
  unfold run_val, run_st, try_ in *. rewrite !M_bind_unfold.
  destruct (finish_bar (bar_start bars) StartBar _ p) as [r p1]. cbn in Hr, Hlog. subst r. cbn [fst snd].
  rewrite !M_bind_unfold. destruct (Hshow p1) as [Hv (a & Ha)].
  change (str_or "unknown" "sandbox_id" _) with (uuid_to_string id).
  destruct (show_ready cx (uuid_to_string id) p1) as [r p2]. cbn in *. subst r. split; [done|].
  exists a. cbn. congruence.
Qed.

(** What is said when the stream ends before the last event. *)
Definition cut_short (broken : option string) : string :=
  match broken with
  | None => nl +:+ "✗ Stream ended unexpectedly"
  | Some e => nl +:+ "✗ Stream error: " +:+ e
  end.

(** How a creation ends whose first terminal event is [e], from [p]. *)
Definition concluded (e : option SandboxProgressEvent) (broken : option string)
    (m : C ()) (p : Process E) : Prop :=
  match e with
  | Some (EvReady id _) =>
      run_val m p = Ok () ∧
      ∃ a, pr_log (run_st m p) =
           pr_log p ++ [(simple cx GET ("/sandboxes/" +:+ uuid_to_string id), a)]
  | Some (EvError message) =>
      prints m (λ r os, r = Err (Exited 1) ∧ ends_saying (nl +:+ "✗ Error: " +:+ message) os) p
  | _ => prints m (λ r os, r = Err (Exited 1) ∧ ends_saying (cut_short broken) os) p
  end.

Lemma prints_mono {A} (m : C A) (Q Q' : Result A Ending → list Output → Prop) p :
  prints m Q p → (∀ r os, Q r os → Q' r os) → prints m Q' p.
Proof. intros (os & Hr & Hrest) HQ. exists os. auto. Qed.

(** After something that prints and does not fail. *)
Lemma concluded_try {A} e broken (m : C A) (k : A → C ()) p :
  prints m (λ r _, ∃ a, r = Ok a ∧ ∀ p', concluded e broken (k a) p') p →
  concluded e broken (try_ m k) p.
Proof.
  intros (os & (a & Hr & Hk) & Hout & Hlog & Henv).
  unfold concluded, prints, run_val, run_st, try_ in *. rewrite !M_bind_unfold.
  destruct (m p) as [r p1]. cbn in *. subst r. specialize (Hk p1).
  assert (∀ text r p2,
    (∃ os', (r = Err (Exited 1) ∧ ends_saying text os') ∧ pr_out p2 = pr_out p1 ++ os' ∧
            pr_log p2 = pr_log p1 ∧ pr_env p2 = pr_env p1) →
    ∃ os', (@eq (Result () Ending) r (Err (Exited 1)) ∧ ends_saying text os') ∧
           pr_out p2 = pr_out p ++ os' ∧ pr_log p2 = pr_log p ∧ pr_env p2 = pr_env p) as Hp.
  { intros text r p2 (os' & (Hr' & Hl') & Ho & Hg & Hv). exists (os ++ os').
    split_and!; [done| |by rewrite Ho, Hout, app_assoc|congruence..].
    unfold ends_saying in *. by rewrite last_app, Hl'. }
  destruct e as [[]|]; cbn; try by apply Hp. by rewrite Hlog in Hk.
Qed.

Lemma concluded_ext e broken (m m' : C ()) p :
  m p = m' p → concluded e broken m' p → concluded e broken m p.
Proof. intros Hm. unfold concluded, prints, run_val, run_st. by rewrite Hm. Qed.

Lemma try_assoc {A B D} (m : C A) (k : A → C B) (l : B → C D) p :
  try_ (try_ m k) l p = try_ m (λ a, try_ (k a) l) p.
Proof.
  unfold try_. rewrite !M_bind_unfold. destruct (m p) as [[a|e] p1]; cbn; [|done].
  by rewrite M_bind_unfold.
Qed.

(** The events of a chunk, and [k] when the stream goes on. *)
Lemma concluded_events broken rest (k : Bars → C ()) evs bars p :
  (∀ bars p, concluded (find terminal rest) broken (k bars) p) →
  concluded (find terminal (evs ++ rest)) broken
    (let* b := stream_events cx bars (write_event <$> evs) in
     match b with Some b => k b | None => mret (Ok ()) end) p.
Proof.
  intros Hk. revert bars p. induction evs as [|e evs IH]; intros bars p; [apply Hk|].
  cbn [fmap list_fmap stream_events app find].
  eapply concluded_ext; [apply try_assoc|]. destruct (terminal e) eqn:He.
  - destruct e as [| | |id cid|m]; try done; cbn [concluded].
    + destruct (ready bars id cid p) as [Hv (a & Ha)].
      unfold run_val, run_st, try_ in *. rewrite !M_bind_unfold.
      destruct (stream_event cx bars _ p) as [r p']. cbn in *. subst r. by eauto.
    + apply prints_try. intros p'. eapply prints_mono; [apply failing|].
      intros r os [-> Hos]. done.
  - apply concluded_try. eapply prints_mono; [by apply going_on|].
    intros r os (bars' & ->). eauto.
Qed.

Lemma concluded_stream groups broken bars p :
  Forall (Forall frame_ok) groups → Forall (λ fs, utf8_lossy (chunk_of fs) = chunk_of fs) groups →
  concluded (find terminal (events_of (concat groups))) broken
    (create_stream cx bars (chunk_of <$> groups) broken) p.
Proof.
  intros Hok Hu. revert bars p. induction groups as [|fs groups IH]; intros bars p; cbn [fmap list_fmap create_stream].
  - cbn. apply prints_try. intros p'. apply prints_emit. intros p2.
    by destruct broken; apply prints_quit.
  - apply Forall_cons in Hok as [Hf Hok]. apply Forall_cons in Hu as [Hu1 Hu].
    rewrite chunk_events_of by done. unfold events_of. cbn [concat]. rewrite omap_app.
    apply concluded_events. intros bars' p'. by apply IH.
Qed.

(** What the user sees of a creation whose first terminal event is [e]; [log] is
    what had been asked before. *)
Definition creation_ended (e : option SandboxProgressEvent) (broken : option string)
    (log : list (CliRequest * Result CliResponse string)) (outcome : Result () Ending * Process E) : Prop :=
  let says text := outcome.1 = Err (Exited 1) ∧ pr_log outcome.2 = log ∧
                   last (pr_out outcome.2) = Some (ErrOut (text +:+ nl)) in
  match e with
  | Some (EvReady id _) =>
      outcome.1 = Ok () ∧
      ∃ a, pr_log outcome.2 = log ++ [(simple cx GET ("/sandboxes/" +:+ uuid_to_string id), a)]
  | Some (EvError message) => says (nl +:+ "✗ Error: " +:+ message)
  | _ => says (cut_short broken)
  end.

Lemma concluded_ended e broken (m : C ()) p :
  concluded e broken m p → creation_ended e broken (pr_log p) (m p).
Proof.
  assert (∀ text, prints m (λ r os, r = Err (Exited 1) ∧ ends_saying text os) p →
    (m p).1 = Err (Exited 1) ∧ pr_log (m p).2 = pr_log p ∧
    last (pr_out (m p).2) = Some (ErrOut (text +:+ nl))) as Hsays.
  { intros text (os & [Hr Hos] & Hout & Hlog & _). unfold run_val, run_st in *.
    split_and!; [done|done|]. by rewrite Hout, last_app, Hos. }
  unfold concluded, creation_ended. destruct e as [[]|]; auto.
Qed.

Lemma emit_try {B} os (k : () → C B) p :
  try_ (emit os) k p = k () (mkProcess (pr_env p) (pr_vars p) (pr_log p) (pr_out p ++ os)).
Proof. done. Qed.

(** The request of a creation. *)
Definition create_request (args : CreateArgs) : CliRequest :=
  api cx POST "/sandboxes/create-stream" [] (JsonPayload (create_body args)).

(** The server has answered with the frames of [groups], a chunk each. *)
Record streams (args : CreateArgs) (p : Process E) (response : CliResponse)
    (groups : list (list Frame)) : Prop := {
  streams_answer : (c_send (create_request args) (pr_env p)).1 = Ok response;
  streams_success : is_success response = true;
  streams_chunks : cr_chunks response = chunk_of <$> groups;
  streams_frames : Forall (Forall frame_ok) groups;
  streams_utf8 : Forall (λ fs, utf8_lossy (chunk_of fs) = chunk_of fs) groups;
}.

Lemma create_ended args p response groups :
  streams args p response groups →
  creation_ended (find terminal (events_of (concat groups))) (cr_broken response)
    (pr_log p ++ [(create_request args, Ok response)]) (create cx args p).
Proof.
  intros [Hsend Hok Hchunks Hframes Hutf]. unfold create, say. rewrite !emit_try, M_bind_unfold.
  unfold attempt. fold (create_request args). cbn [pr_env pr_vars pr_log pr_out].
  destruct (c_send (create_request args) (pr_env p)) as [a env].
  cbn in Hsend. subst a. cbn [fst snd]. rewrite Hok, Hchunks.
  by apply (concluded_ended _ _ _ (mkProcess _ _ _ _)), concluded_stream.
Qed.

(** C25: how a creation ends for the user.  However the frames of the stream are
    put into chunks, and whatever comments and events are between them, the first
    terminal event decides: after "ready" the command ends with success, having
    asked for this sandbox and nothing else; after "error" it exits with 1, and
    the last line it prints is the message; and when the stream ends or breaks
    off without a terminal event, it exits with 1 and says that. *)
Theorem create_stream_spec args p response groups :
  streams args p response groups →
  creation_ended (find terminal (events_of (concat groups))) (cr_broken response)
    (pr_log p ++ [(create_request args, Ok response)]) (create cx args p).
Proof. apply create_ended. Qed.
End outcome.

(** ** A creation from end to end *)

Lemma find_app_terminal evs e :
  Forall (λ e, terminal e = false) evs → terminal e = true → find terminal (evs ++ [e]) = Some e.
Proof.
  intros Hevs He. induction Hevs as [|e' evs He' _ IH]; cbn; [by rewrite He|by rewrite He'].
Qed.

Section end_to_end.
Context {S B A E : Type}.
Context `{!StateStoreTrait S} `{!StoreContract S}.
Context `{!SandboxManager B}.
Context `{!UuidLib} `{!LabelParser} `{!ShellWordsLib}.
Context `{!CliEnv E} `{!JsonTextLaws}.

End end_to_end.

(** ** Witnesses *)

Module Witnesses.
Import Demo CommandDemo.

#[local] Instance parser : LabelParser := {| parse_label := λ _, Err "no label" |}.

#[local] Instance texts : JsonTextLaws.
Proof.
  split; [|intros e; apply read_write_text].
  intros fields. eexists. split; [done|]. by split; apply bits_chars.
Qed.

(** A creation on the server of [Demo], each frame in a chunk of its own. *)
Definition created : Demo.World := run_st (run_streaming_create 302 9%N Create.Witnesses.web None) Demo.world.

Definition frames : list (list Frame) := (λ e, [Comment " alive"; Data e]) <$> w_events created.

Definition response : CliResponse := mkCliResponse 200 (chunk_of <$> frames) None.

Lemma streamed_frames : streams context create_args (process [Ok response]) response frames.
Proof.
  split; [done..| |].
  - apply Forall_fmap, Forall_true. intros e. by repeat constructor.
  - by apply Forall_true.
Qed.

Lemma create_stream_spec_witness :
  streams context create_args (process [Ok response]) response frames ∧
  creation_ended context (Some (EvReady 9%N "c1")) None
    [(create_request context create_args, Ok response)]
    (create context create_args (process [Ok response])).
Proof.
  split; [exact streamed_frames|].
  assert (Some (EvReady 9%N "c1") = find terminal (events_of (concat frames))) as ->
    by (vm_compute; reflexivity).
  exact (create_stream_spec context create_args (process [Ok response]) response frames streamed_frames).
Defined.


(** An event that is cut in two is lost: the creation has failed, and the user is
    told that the stream has ended. *)
Definition halves : list string :=
  let text := frame_text (Data (EvError "no image")) in
  [String.substring 0 9 text; String.substring 9 (String.length text) text].

Example cut_event :
  join "" halves = frame_text (Data (EvError "no image")) ∧
  last (pr_out (run_st (create context create_args) (process [Ok (mkCliResponse 200 halves None)])))
    = Some (ErrOut (nl +:+ "✗ Stream ended unexpectedly" +:+ nl)).
Proof. by vm_compute. Qed.

(** A pull with progress that has failed ends with success. *)
Example pull_failed :
  let text := "data: " +:+ json_text (write_pull_event (mkPullProgressEvent "Pull failed" None None None)) in
  let m := images context (ImagesPull "ghost" None true) (process [Ok (mkCliResponse 200 [text] None)]) in
  is_ok m.1 = true ∧
  drop 1 (pr_out m.2) = [Out ("  Pull failed" +:+ nl); Out ("✓ Pull complete" +:+ nl)].
Proof. by vm_compute. Qed.
End Witnesses.
