(* ===== verification/McpSettings.v ===== *)
(** * McpSettings: the settings of the MCP server

    Models [src/dsb-mcp-server/src/settings.rs]: the sections with their
    defaults, and the environment that a sandbox is given.  Loading them from a
    file and the environment is the [config] library's. *)

From S2P Require Import Prelude Text Float64.

(** A decimal literal: the nearest double. *)
Definition decimal (n d : Z) : f64 := f64_div (f64_of_Z n) (f64_of_Z d).

Record ServerSettings : Type := mkServerSettings {
  mcp_port : Z;
  mcp_host : string;
  mcp_server_system_name : string;
}.

Definition ServerSettings_default : ServerSettings :=
  {| mcp_port := 3000; mcp_host := "0.0.0.0"; mcp_server_system_name := "System Tools Group" |}.

Record StorageSettings : Type := mkStorageSettings {
  redis_host : string;
  redis_port : Z;
  redis_username : option string;
  redis_password : option string;
  redis_ssl : bool;
  redis_decode_responses : bool;
  redis_key_prefix : string;
}.

Definition StorageSettings_default : StorageSettings :=
  {| redis_host := "127.0.0.1"; redis_port := 6379; redis_username := None;
     redis_password := None; redis_ssl := false; redis_decode_responses := true;
     redis_key_prefix := "dms:local:dev:" |}.

Record DSBSettings : Type := mkDSBSettings {
  dsb_api_url : string;
  dsb_api_key : option string;
  timeout_secs : Z;
}.

Definition DSBSettings_default : DSBSettings :=
  {| dsb_api_url := "http://localhost:8080"; dsb_api_key := None; timeout_secs := 600 |}.

Record WebSettings : Type := mkWebSettings {
  searxng_url : string;
  searxng_timeout : f64;
  searxng_result_num : Z;
  searxng_default_engines : string;
  searxng_default_categories : string;
  searxng_safesearch : string;
  word_count_threshold : Z;
  pruning_threshold : f64;
  bm25_threshold : f64;
  wait_until : string;
  cache_mode : string;
  page_timeout : Z;
  default_format : string;
  health_check_retry_times : Z;
  health_check_retry_interval : f64;
  allow_exec_fallback : bool;
}.

Definition WebSettings_default : WebSettings :=
  {| searxng_url := "http://localhost:8888/search"; searxng_timeout := f64_of_Z 60;
     searxng_result_num := 20; searxng_default_engines := "google,bing";
     searxng_default_categories := "general,news,it"; searxng_safesearch := "0";
     word_count_threshold := 10; pruning_threshold := decimal 48 100;
     bm25_threshold := f64_of_Z 1; wait_until := "domcontentloaded"; cache_mode := "bypass";
     page_timeout := 180000; default_format := "markdown"; health_check_retry_times := 3;
     health_check_retry_interval := f64_of_Z 5; allow_exec_fallback := false |}.

Record WebEngineMapping : Type := mkWebEngineMapping {
  we_google : string;
  we_brave : string;
  we_bing : string;
  we_baidu : string;
  we_duckduckgo : string;
  we_ddg : string;
}.

Definition WebEngineMapping_default : WebEngineMapping :=
  {| we_google := "google"; we_brave := "brave"; we_bing := "bing"; we_baidu := "baidu";
     we_duckduckgo := "duckduckgo"; we_ddg := "duckduckgo" |}.

Record WebFormatMapping : Type := mkWebFormatMapping {
  wf_markdown : string;
  wf_html : string;
  wf_text : string;
  wf_links : string;
}.

Definition WebFormatMapping_default : WebFormatMapping :=
  {| wf_markdown := "MARKDOWN"; wf_html := "HTML"; wf_text := "TEXT"; wf_links := "LINKS" |}.

Record SandboxSettings : Type := mkSandboxSettings {
  mcp_default_image : string;
  enable_all_features : bool;
  file_encoding : string;
  static_file_timeout : f64;
  static_file_endpoint : string;
  static_files_endpoint : string;
  default_static_file : string;
  base_directory : string;
  cache_prefix_sandbox : string;
  cache_prefix_session : string;
}.

Definition SandboxSettings_default : SandboxSettings :=
  {| mcp_default_image := "docker.io/dsb/sandbox:dev"; enable_all_features := true;
     file_encoding := "utf-8"; static_file_timeout := f64_of_Z 30;
     static_file_endpoint := "/static/"; static_files_endpoint := "/static/files/";
     default_static_file := "index.html"; base_directory := "/workspace";
     cache_prefix_sandbox := "sandbox:"; cache_prefix_session := "session:" |}.

Record TerminalSettings : Type := mkTerminalSettings {
  connection_timeout : f64;
  command_timeout : f64;
  default_rows : Z;
  default_cols : Z;
  websocket_protocol_http : string;
  websocket_protocol_https : string;
  websocket_instructions : string;
}.

Definition TerminalSettings_default : TerminalSettings :=
  {| connection_timeout := f64_of_Z 30; command_timeout := f64_of_Z 5; default_rows := 24;
     default_cols := 80; websocket_protocol_http := "ws://";
     websocket_protocol_https := "wss://";
     websocket_instructions :=
       "Connect to the WebSocket URL to access the interactive terminal. Send commands and receive output through the WebSocket connection." |}.

Record BrowserSettings : Type := mkBrowserSettings {
  success_status : string;
  screenshot_full_page : bool;
  screenshot_default_name : string;
}.

Definition BrowserSettings_default : BrowserSettings :=
  {| success_status := "success"; screenshot_full_page := false;
     screenshot_default_name := "screenshot" |}.

Record SSHSettings : Type := mkSSHSettings { default_public_key : option string }.

Definition SSHSettings_default : SSHSettings := {| default_public_key := None |}.

Record SystemSettings : Type := mkSystemSettings {
  date_format : string;
  sys_log_level : string;
}.

Definition SystemSettings_default : SystemSettings :=
  {| date_format := "%Y/%m/%d %H:%M:%S"; sys_log_level := "INFO" |}.

(** [KnowledgeRetrievalSettings] and [ValueRetrievalSettings] have the same
    fields. *)
Record RetrievalSettings : Type := mkRetrievalSettings {
  rs_milvus_url : string;
  rs_collection_name : string;
  rs_search_limit : Z;
  rs_drop_ratio_search : f64;
  rs_rerank_threshold : f64;
  rs_embedding_model : string;
  rs_embedding_api_url : string;
  rs_embedding_api_key : option string;
  rs_rerank_model : string;
  rs_rerank_api_url : string;
  rs_rerank_api_key : option string;
  rs_search_instruction : string;
  rs_output_fields : list string;
  rs_doc : string;
}.

Definition KnowledgeRetrievalSettings_default : RetrievalSettings :=
  {| rs_milvus_url := "http://localhost:19530"; rs_collection_name := "deep_research_knowledge";
     rs_search_limit := 10; rs_drop_ratio_search := decimal 2 10;
     rs_rerank_threshold := decimal 75 100; rs_embedding_model := "qwen-embedding-0.6";
     rs_embedding_api_url := "http://localhost:8000/v1/embedding"; rs_embedding_api_key := None;
     rs_rerank_model := "qwen-reranker-0.6";
     rs_rerank_api_url := "http://localhost:8000/v1/rerank"; rs_rerank_api_key := None;
     rs_search_instruction :=
       "Given a web search query, retrieve relevant passages that answer the query";
     rs_output_fields := ["doc"]; rs_doc := "doc" |}.

Definition ValueRetrievalSettings_default : RetrievalSettings :=
  {| rs_milvus_url := "http://localhost:19530"; rs_collection_name := "nl2sql_value_retrieval_ft";
     rs_search_limit := 10; rs_drop_ratio_search := decimal 2 10;
     rs_rerank_threshold := decimal 95 100; rs_embedding_model := "qwen-embedding-0.6";
     rs_embedding_api_url := "http://localhost:8000/v1/embedding"; rs_embedding_api_key := None;
     rs_rerank_model := "qwen-reranker-0.6";
     rs_rerank_api_url := "http://localhost:8000/v1/rerank"; rs_rerank_api_key := None;
     rs_search_instruction :=
       "Given a web search query, retrieve the most relevant entity name that mentioned in the query";
     rs_output_fields := ["hit_value"; "evidence"]; rs_doc := "hit_value" |}.

Record Settings : Type := mkSettings {
  pagerduty_key : string;
  set_server : ServerSettings;
  set_storage : StorageSettings;
  set_dsb : DSBSettings;
  set_web : WebSettings;
  set_web_engine_mapping : WebEngineMapping;
  set_web_format_mapping : WebFormatMapping;
  set_sandbox : SandboxSettings;
  set_terminal : TerminalSettings;
  set_browser : BrowserSettings;
  set_ssh : SSHSettings;
  set_system : SystemSettings;
  set_value_retrieval : RetrievalSettings;
  set_knowledge_retrieval : RetrievalSettings;
}.

Definition Settings_default : Settings :=
  {| pagerduty_key := ""; set_server := ServerSettings_default;
     set_storage := StorageSettings_default; set_dsb := DSBSettings_default;
     set_web := WebSettings_default; set_web_engine_mapping := WebEngineMapping_default;
     set_web_format_mapping := WebFormatMapping_default; set_sandbox := SandboxSettings_default;
     set_terminal := TerminalSettings_default; set_browser := BrowserSettings_default;
     set_ssh := SSHSettings_default; set_system := SystemSettings_default;
     set_value_retrieval := ValueRetrievalSettings_default;
     set_knowledge_retrieval := KnowledgeRetrievalSettings_default |}.

Definition bool_text (b : bool) : string := if b then "true" else "false".

(** The standard environment of a sandbox. *)
Definition get_sandbox_env (s : Settings) : gmap string string :=
  let st := set_storage s in
  let env := <["REDIS_PORT" := Z_to_string (redis_port st)]>
               (<["REDIS_HOST" := redis_host st]> ∅) in
  let env := match redis_username st with Some user => <["REDIS_USER" := user]> env | None => env end in
  let env := match redis_password st with Some pass => <["REDIS_PASSWORD" := pass]> env | None => env end in
  <["REDIS_KEY_PREFIX" := redis_key_prefix st]> (<["REDIS_SSL" := bool_text (redis_ssl st)]> env).

Example default_environment :
  get_sandbox_env Settings_default =
    list_to_map [("REDIS_HOST", "127.0.0.1"); ("REDIS_PORT", "6379"); ("REDIS_SSL", "false");
                 ("REDIS_KEY_PREFIX", "dms:local:dev:")].
Proof. vm_compute. done. Qed.
