(* ===== verification/McpClient.v ===== *)
(** * McpClient: the API client and the sessions of the MCP server

    Models [dsb_client.rs] and [session.rs] of [src/dsb-mcp-server/]: the
    requests that are sent to the API, and the cache from sessions to sandboxes
    that all services of the server share.  HTTP, the clock and the derived
    deserializers are parameters; an error is its text. *)

From S2P Require Import Prelude Text Paths Errors World KubeBackend Float64 McpSettings.

(** ** What is sent and received ([dsb_client.rs]) *)

Inductive McpBody : Type :=
  | NoBody
  | JsonBody (j : Json)
  | FormBody (path content : string).

Record McpRequest : Type := mkMcpRequest {
  mr_method : string;
  mr_url : string;
  mr_query : list (string * string);
  mr_body : McpBody;
  mr_api_key : option string;
  mr_bearer : option string;
}.

Record McpPortMapping : Type := mkMcpPortMapping {
  mpm_host_port : Z;
  mpm_container_port : Z;
  mpm_protocol : string;
}.

Record McpResourceLimits : Type := mkMcpResourceLimits {
  mrl_memory_mb : option Z;
  mrl_cpu_quota : option Z;
  mrl_cpu_period : option Z;
  mrl_cpu_shares : option Z;
  mrl_pids_limit : option Z;
}.

Record McpVolumeMount : Type := mkMcpVolumeMount {
  mvm_type : string;
  mvm_host_path : string;
  mvm_container_path : string;
  mvm_read_only : bool;
}.

Record CreateSandboxConfig : Type := mkCreateSandboxConfig {
  cc_image : string;
  cc_name : option string;
  cc_environment : option (gmap string string);
  cc_port_mappings : option (list McpPortMapping);
  cc_resource_limits : option McpResourceLimits;
  cc_volumes : option (list McpVolumeMount);
  cc_command : option (list string);
  cc_inactivity_timeout_minutes : option Z;
  cc_pull_policy : option string;
}.

Record McpSandbox : Type := mkMcpSandbox {
  ms_id : Uuid;
  ms_state : string;
  ms_image : string;
  ms_name : option string;
  ms_environment : Json;
  ms_container_id : option string;
  ms_created_at : string;
  ms_updated_at : string;
}.

Record ExecResult : Type := mkExecResult {
  er_output : string;
  er_exit_code : Z;
}.

(** [uuid_error] is the text of a failed [parse_str]; [header_ok], whether a key
    may be the value of a header; [local_time], the time and the offset as they
    are formatted; [m_client], building a client for one request; [url_parse],
    the scheme of a URL and its host, if it has one; [to_lowercase], the case
    tables of Unicode. *)
Class McpEnv (E : Type) := {
  m_http : McpRequest → M E (Result HttpResponse string);
  m_now : M E Z;
  m_local_time : string → M E (string * string);
  m_client : M E (Result () string);
  url_parse : string → option (string * option string);
  to_lowercase : string → string;
  header_ok : string → bool;
  url_encode : string → string;
  uuid_error : string → string;
  json_from_str : string → Result Json string;
  json_to_string : Json → string;
  json_to_string_pretty : Json → string;
  f64_text : f64 → string;
  parse_sandbox : string → Result McpSandbox string;
  parse_sandbox_page : string → Result (list McpSandbox) string;
  parse_exec_result : string → Result ExecResult string;
  parse_health : string → Result string string;
  parse_embeddings : string → Result (list (list f64)) string;
  parse_search_hits : string → Result (list (list (string * Json))) string;
  parse_reranked : string → Result (list (Z * f64)) string;
}.

(** The text of an identifier is read back. *)
Class UuidLaws `{UuidLib} : Prop := {
  uuid_read_back id : uuid_parse_str (uuid_to_string id) = Some id;
}.

Definition json_port (p : McpPortMapping) : Json :=
  JObject [("host_port", JNumber (mpm_host_port p));
           ("container_port", JNumber (mpm_container_port p));
           ("protocol", JString (mpm_protocol p))].

Definition json_limits (l : McpResourceLimits) : Json :=
  JObject [("memory_mb", json_opt_number (mrl_memory_mb l));
           ("cpu_quota", json_opt_number (mrl_cpu_quota l));
           ("cpu_period", json_opt_number (mrl_cpu_period l));
           ("cpu_shares", json_opt_number (mrl_cpu_shares l));
           ("pids_limit", json_opt_number (mrl_pids_limit l))].

Definition json_volume (v : McpVolumeMount) : Json :=
  JObject [("type", JString (mvm_type v)); ("host_path", JString (mvm_host_path v));
           ("container_path", JString (mvm_container_path v));
           ("read_only", JBool (mvm_read_only v))].

Definition create_body (c : CreateSandboxConfig) : Json :=
  JObject
    ([("image", JString (cc_image c))]
     ++ field "name" JString (cc_name c)
     ++ field "environment" json_map (cc_environment c)
     ++ field "port_mappings" (λ l, JArray (json_port <$> l)) (cc_port_mappings c)
     ++ field "resource_limits" json_limits (cc_resource_limits c)
     ++ field "volumes" (λ l, JArray (json_volume <$> l)) (cc_volumes c)
     ++ field "command" json_strings (cc_command c)
     ++ field "inactivity_timeout_minutes" JNumber (cc_inactivity_timeout_minutes c)
     ++ field "pull_policy" JString (cc_pull_policy c)).

Section client.
Context {E : Type} `{McpEnv E} `{UuidLib}.
Context (settings : Settings).

(** The outside, the cache, and what was sent, in order. *)
Record Mcp : Type := mkMcp {
  mc_env : E;
  mc_sessions : gmap string (Uuid * Z);
  mc_sent : list McpRequest;
}.

Definition mc_on_env {A} (m : M E A) : M Mcp A := λ w,
  let '(a, e) := m (mc_env w) in (a, mkMcp e (mc_sessions w) (mc_sent w)).

Definition send (r : McpRequest) : M Mcp (Result HttpResponse string) := λ w,
  let '(a, e) := m_http r (mc_env w) in (a, mkMcp e (mc_sessions w) (mc_sent w ++ [r])).

Definition set_sessions (m : gmap string (Uuid * Z)) : M Mcp () := λ w,
  ((), mkMcp (mc_env w) m (mc_sent w)).

Definition get_sessions : M Mcp (gmap string (Uuid * Z)) := λ w, (mc_sessions w, w).

(** *** The client *)

Definition api_url : string := dsb_api_url (set_dsb settings).

(** A key that can not be a header is left out. *)
Definition client_api_key : option string :=
  match dsb_api_key (set_dsb settings) with
  | Some key => if header_ok key then Some key else None
  | None => None
  end.

Definition to_api (method path : string) (body : McpBody) : McpRequest :=
  mkMcpRequest method (api_url +:+ path) [] body client_api_key None.

(** An answer that is not a success is an error with its text. *)
Definition ask (method path : string) (body : McpBody) (failing : string)
    : M Mcp (Result string string) :=
  let* response := send (to_api method path body) in
  mret (let? text := hr_body response in
        if success (hr_status response) then Ok text else Err (failing +:+ ": " +:+ text)).

Definition parsed {A} (parse : string → Result A string) (r : Result string string) : Result A string :=
  let? text := r in parse text.

Definition sandbox_path (sandbox_id : Uuid) : string := "/sandboxes/" +:+ uuid_to_string sandbox_id.

Definition client_create_sandbox (image : string) (name : option string)
    : M Mcp (Result McpSandbox string) :=
  r ← ask "POST" "/sandboxes"
        (JsonBody (JObject ([("image", JString image)] ++ field "name" JString name)))
        "Failed to create sandbox";
  mret (parsed parse_sandbox r).

Definition create_sandbox_full (config : CreateSandboxConfig) : M Mcp (Result McpSandbox string) :=
  r ← ask "POST" "/sandboxes" (JsonBody (create_body config)) "Failed to create sandbox";
  mret (parsed parse_sandbox r).

(** One page of the listing, whatever follows. *)
Definition client_list_sandboxes : M Mcp (Result (list McpSandbox) string) :=
  r ← ask "GET" "/sandboxes" NoBody "Failed to list sandboxes";
  mret (parsed parse_sandbox_page r).

Definition client_delete_sandbox (sandbox_id : Uuid) : M Mcp (Result () string) :=
  let* _ := ask "DELETE" (sandbox_path sandbox_id) NoBody "Failed to delete sandbox" in
  mret (Ok ()).

Definition get_health : M Mcp (Result string string) :=
  r ← ask "GET" "/health" NoBody "Failed to get health info"; mret (parsed parse_health r).

Definition client_get_sandbox (sandbox_id : Uuid) : M Mcp (Result McpSandbox string) :=
  r ← ask "GET" (sandbox_path sandbox_id) NoBody "Failed to get sandbox";
  mret (parsed parse_sandbox r).

Definition exec_command_with_stdin (sandbox_id : Uuid) (command : list string)
    (stdin : option string) : M Mcp (Result ExecResult string) :=
  r ← ask "POST" (sandbox_path sandbox_id +:+ "/exec")
        (JsonBody (JObject ([("command", json_strings command)] ++ field "stdin" JString stdin)))
        "Failed to execute command";
  mret (parsed parse_exec_result r).

Definition exec_command (sandbox_id : Uuid) (command : list string)
    : M Mcp (Result ExecResult string) :=
  exec_command_with_stdin sandbox_id command None.

Definition client_execute_tool (sandbox_id : Uuid) (interpreter script_path action : string)
    (args : option Json) (timeout : option Z) : M Mcp (Result Json string) :=
  r ← ask "POST" (sandbox_path sandbox_id +:+ "/tools")
        (JsonBody (JObject ([("interpreter", JString interpreter);
                             ("script_path", JString script_path); ("action", JString action)]
                            ++ field "args" id args ++ field "timeout" JNumber timeout)))
        "Failed to execute tool";
  mret (parsed json_from_str r).

Definition client_upload_file (sandbox_id : Uuid) (path content : string)
    : M Mcp (Result () string) :=
  let* _ := ask "POST" (sandbox_path sandbox_id +:+ "/upload") (FormBody path content)
              "Failed to upload file" in
  mret (Ok ()).

Definition client_download_file (sandbox_id : Uuid) (path : string) : M Mcp (Result string string) :=
  ask "GET" (sandbox_path sandbox_id +:+ "/download?path=" +:+ url_encode path) NoBody
    "Failed to download file".

(** An array, or an object with the array under one of two names; the second is
    looked at only when there is nothing under the first. *)
Definition files_of (body : Json) : list Json :=
  match body with
  | JArray arr => arr
  | JObject _ =>
      default []
        ((match json_get "files" body with Some v => Some v | None => json_get "data" body end)
           ≫= json_as_array)
  | _ => []
  end.

Definition client_list_static_files (sandbox_id : Uuid) : M Mcp (Result (list Json) string) :=
  r ← ask "GET" ("/static/files/" +:+ uuid_to_string sandbox_id) NoBody
        "Failed to list static files";
  mret (let? body := parsed json_from_str r in Ok (files_of body)).

(** *** The sessions ([session.rs]) *)

Definition session_ttl : Z := 30 * 60 * 1000000000.

(** Looking a session up keeps it alive. *)
Definition session_get (session_id : string) : M Mcp (option Uuid) :=
  sessions ← get_sessions;
  match sessions !! session_id with
  | Some (sandbox_id, _) =>
      now ← mc_on_env m_now;
      _ ← set_sessions (<[session_id := (sandbox_id, now)]> sessions);
      mret (Some sandbox_id)
  | None => mret None
  end.

Definition session_set (session_id : string) (sandbox_id : Uuid) : M Mcp () :=
  now ← mc_on_env m_now;
  sessions ← get_sessions;
  set_sessions (<[session_id := (sandbox_id, now)]> sessions).

Definition session_remove (session_id : string) : M Mcp (option Uuid) :=
  sessions ← get_sessions;
  _ ← set_sessions (base.delete session_id sessions);
  mret (fst <$> sessions !! session_id).

(** A pass of the clean-up task; the sandboxes of what it drops stay. *)
Definition session_cleanup : M Mcp () :=
  now ← mc_on_env m_now;
  sessions ← get_sessions;
  set_sessions (filter (λ p, Z.max 0 (now - p.2.2) < session_ttl) sessions).

(** What a session without a sandbox gets. *)
Definition default_sandbox : CreateSandboxConfig :=
  {| cc_image := mcp_default_image (set_sandbox settings); cc_name := None;
     cc_environment := Some (get_sandbox_env settings); cc_port_mappings := None;
     cc_resource_limits := None; cc_volumes := None; cc_command := None;
     cc_inactivity_timeout_minutes := None; cc_pull_policy := None |}.

(** The entry is locked while the sandbox is created. *)
Definition resolve_or_create (session_id : string) : M Mcp (Result Uuid string) :=
  cached ← session_get session_id;
  match cached with
  | Some sandbox_id => mret (Ok sandbox_id)
  | None =>
      created ← create_sandbox_full default_sandbox;
      match created with
      | Err _ => mret (Err ("Failed to create sandbox for session " +:+ session_id))
      | Ok sandbox => _ ← session_set session_id (ms_id sandbox); mret (Ok (ms_id sandbox))
      end
  end.

Definition session_clear : M Mcp () := set_sessions ∅.
End client.

(** ** What an operation sends

    An operation [uses P] when it leaves the sessions alone and every request it
    sends satisfies [P]. *)

Create HintDb mcp.

Section uses.
Context {E : Type} `{McpEnv E} `{UuidLib}.
Context (settings : Settings).
Implicit Types (P Q : McpRequest → Prop) (w : @Mcp E).

Definition sends P w w' : Prop := ∃ l, mc_sent w' = mc_sent w ++ l ∧ Forall P l.

Definition uses P {A} (m : M (@Mcp E) A) : Prop :=
  ∀ w, mc_sessions (run_st m w) = mc_sessions w ∧ sends P w (run_st m w).

Lemma sends_same P w w' : mc_sent w' = mc_sent w → sends P w w'.
Proof. intros Hw. exists []. by rewrite app_nil_r. Qed.

Lemma sends_trans P w1 w2 w3 : sends P w1 w2 → sends P w2 w3 → sends P w1 w3.
Proof.
  intros (l1 & H1 & F1) (l2 & H2 & F2). exists (l1 ++ l2).
  rewrite H2, H1, app_assoc. split; [done|]. by apply Forall_app.
Qed.

Lemma sends_mono P Q w w' : (∀ r, P r → Q r) → sends P w w' → sends Q w w'.
Proof. intros HPQ (l & Hl & F). exists l. split; [done|]. by eapply Forall_impl. Qed.

Lemma uses_mono P Q {A} (m : M _ A) : (∀ r, P r → Q r) → uses P m → uses Q m.
Proof. intros HPQ Hm w. destruct (Hm w) as [H1 H2]. split; [done|]. by eapply sends_mono. Qed.

Lemma uses_ret P {A} (a : A) : uses P (mret a).
Proof. intros w. split; [done|]. by apply sends_same. Qed.

Lemma uses_bind P {A B} (m : M _ A) (k : A → M _ B) :
  uses P m → (∀ a, uses P (k a)) → uses P (mbind k m).
Proof.
  intros Hm Hk w. specialize (Hm w). unfold run_st in *. unfold mbind, M_bind.
  destruct (m w) as [a w1]. destruct Hm as [H1 H2], (Hk a w1) as [H3 H4]. simpl in *.
  split; [by rewrite <- H1|]. by eapply sends_trans.
Qed.

Lemma uses_try P {A B X} (m : M _ (Result A X)) (k : A → M _ (Result B X)) :
  uses P m → (∀ a, uses P (k a)) → uses P (try_ m k).
Proof. intros Hm Hk. apply uses_bind; [done|]. intros [a|e]; [done|apply uses_ret]. Qed.

Lemma uses_known P {A B X} (a : A) (k : A → M _ (Result B X)) :
  uses P (k a) → uses P (try_ (mret (Ok a)) k).
Proof. done. Qed.

Lemma uses_refused P {A B X} (e : X) (k : A → M _ (Result B X)) : uses P (try_ (mret (Err e)) k).
Proof. apply (uses_ret P (Err e)). Qed.

Lemma uses_env P {A} (m : M E A) : uses P (mc_on_env m).
Proof. intros w. unfold run_st, mc_on_env. destruct (m _). split; [done|]. by apply sends_same. Qed.

Lemma uses_send P r : P r → uses P (send r).
Proof.
  intros HP w. unfold run_st, send. destruct (m_http _ _). split; [done|].
  exists [r]. split; [done|]. by apply Forall_singleton.
Qed.

Lemma uses_ask P method path body failing :
  P (to_api settings method path body) → uses P (ask settings method path body failing).
Proof. intros HP. apply uses_try; [by apply uses_send|]. intros r. apply uses_ret. Qed.

(** A request to the API about a sandbox, or one that asks for a new one. *)
Definition concerns (id : Uuid) (r : McpRequest) : Prop :=
  mr_api_key r = client_api_key settings ∧
  ∃ rest, mr_url r = api_url settings +:+ sandbox_path id +:+ rest ∨
          mr_url r = api_url settings +:+ "/static/files/" +:+ uuid_to_string id.

Definition creation (r : McpRequest) : Prop :=
  mr_api_key r = client_api_key settings ∧ mr_method r = "POST" ∧
  mr_url r = api_url settings +:+ "/sandboxes".

(** The URL that a script is asked to open. *)
Definition requested_url (r : McpRequest) : option string :=
  match mr_body r with
  | JsonBody j => match json_get "args" j with
                  | Some args => match json_get "url" args with
                                 | Some u => json_as_str u
                                 | None => None
                                 end
                  | None => None
                  end
  | _ => None
  end.

Lemma concerns_path id method rest body :
  concerns id (to_api settings method (sandbox_path id +:+ rest) body).
Proof. split; [done|]. exists rest. by left. Qed.

Lemma concerns_sandbox id method body : concerns id (to_api settings method (sandbox_path id) body).
Proof.
  split; [done|]. exists "". left. simpl. f_equal.
  simpl. by rewrite string_app_nil.
Qed.

(** A request on a sandbox that opens none of the URLs [allowed] leaves out. *)
Definition on_behalf (allowed : string → Prop) (id : Uuid) (r : McpRequest) : Prop :=
  concerns id r ∧ ∀ u, requested_url r = Some u → allowed u.

Definition opens (j : Json) : option string :=
  match json_get "url" j with Some u => json_as_str u | None => None end.

Lemma uses_execute_tool (allowed : string → Prop) id interpreter path action args timeout :
  (∀ u, opens args = Some u → allowed u) →
  uses (on_behalf allowed id)
    (client_execute_tool settings id interpreter path action (Some args) timeout).
Proof.
  intros Hu. apply uses_bind; [|intros; apply uses_ret].
  apply uses_ask. split; [apply concerns_path|]. intros u. apply Hu.
Qed.

Lemma uses_exec (allowed : string → Prop) id command stdin :
  uses (on_behalf allowed id) (exec_command_with_stdin settings id command stdin).
Proof.
  apply uses_bind; [|intros; apply uses_ret].
  apply uses_ask. split; [apply concerns_path|]. by destruct stdin.
Qed.

Lemma uses_upload (allowed : string → Prop) id path content :
  uses (on_behalf allowed id) (client_upload_file settings id path content).
Proof.
  apply uses_try; [|intros; apply uses_ret]. apply uses_ask. by split; [apply concerns_path|].
Qed.

Lemma uses_download (allowed : string → Prop) id path :
  uses (on_behalf allowed id) (client_download_file settings id path).
Proof. apply uses_ask. by split; [apply concerns_path|]. Qed.

Lemma uses_delete (allowed : string → Prop) id :
  uses (on_behalf allowed id) (client_delete_sandbox settings id).
Proof.
  apply uses_try; [|intros; apply uses_ret]. apply uses_ask. by split; [apply concerns_sandbox|].
Qed.

Lemma uses_get (allowed : string → Prop) id :
  uses (on_behalf allowed id) (client_get_sandbox settings id).
Proof.
  apply uses_bind; [|intros; apply uses_ret]. apply uses_ask. by split; [apply concerns_sandbox|].
Qed.

Lemma uses_static_files (allowed : string → Prop) id :
  uses (on_behalf allowed id) (client_list_static_files settings id).
Proof.
  apply uses_bind; [|intros; apply uses_ret]. apply uses_ask. split; [|done].
  split; [done|]. exists "". by right.
Qed.

Lemma uses_create config :
  uses (λ r, creation r ∧ requested_url r = None) (create_sandbox_full settings config).
Proof.
  apply uses_bind; [|intros; apply uses_ret]. apply uses_ask. split; [done|].
  destruct config as [image [?|] [?|] [?|] [?|] [?|] [?|] [?|] [?|]]; vm_compute; done.
Qed.

(** *** Operations that send one request *)

Definition asks P {A} (m : M (@Mcp E) A) : Prop :=
  ∀ w, ∃ q, mc_sent (run_st m w) = mc_sent w ++ [q] ∧ P q.

Lemma asks_send P r : P r → asks P (send r).
Proof. intros HP w. exists r. unfold run_st, send. by destruct (m_http _ _). Qed.

Lemma asks_bind P {A B} (m : M _ A) (k : A → M _ B) :
  asks P m → (∀ a, uses (λ _, False) (k a)) → asks P (mbind k m).
Proof.
  intros Hm Hk w. specialize (Hm w). unfold run_st in *. unfold mbind, M_bind.
  destruct (m w) as [a w1]. destruct Hm as (q & Hq & HP), (Hk a w1) as [_ (l & Hl & HF)].
  exists q. split; [|done]. unfold run_st in Hl. rewrite Hl. destruct l as [|r l].
  - by rewrite app_nil_r.
  - by apply Forall_cons in HF as [[] _].
Qed.

Lemma asks_try P {A B X} (m : M _ (Result A X)) (k : A → M _ (Result B X)) :
  asks P m → (∀ a, uses (λ _, False) (k a)) → asks P (try_ m k).
Proof. intros Hm Hk. apply asks_bind; [done|]. intros [a|e]; [done|apply uses_ret]. Qed.

Lemma asks_ask P method path body failing :
  P (to_api settings method path body) → asks P (ask settings method path body failing).
Proof. intros HP. apply asks_try; [by apply asks_send|]. intros r. apply uses_ret. Qed.

(** Making a sandbox takes one request. *)
Lemma asks_create config :
  asks (λ r, creation r ∧ requested_url r = None) (create_sandbox_full settings config).
Proof.
  apply asks_bind; [|intros; apply uses_ret]. apply asks_ask. split; [done|].
  destruct config as [image [?|] [?|] [?|] [?|] [?|] [?|] [?|] [?|]]; vm_compute; done.
Qed.

(** ** The session of a call *)

Definition mapped (w : @Mcp E) (session_id : string) : option Uuid :=
  fst <$> mc_sessions w !! session_id.

(** The effect of an operation on behalf of a session: it may make the session's
    sandbox, and then acts on it. *)
Definition session_effect (allowed : string → Prop) (may_create : Prop) (session_id : string)
    (w w' : @Mcp E) : Prop :=
  (∀ s, s ≠ session_id → mc_sessions w' !! s = mc_sessions w !! s) ∧
  sends (λ r, creation r ∧ requested_url r = None ∧ (mapped w session_id = None ∨ may_create) ∨
              ∃ id, (mapped w session_id = Some id ∨ mapped w' session_id = Some id) ∧
                    on_behalf allowed id r) w w'.

(** What a session is mapped to is kept alive by looking it up. *)
Lemma session_get_effect session_id w :
  let '(r, w') := session_get session_id w in
  r = mapped w session_id ∧ mapped w' session_id = mapped w session_id ∧
  (∀ s, s ≠ session_id → mc_sessions w' !! s = mc_sessions w !! s) ∧
  mc_sent w' = mc_sent w.
Proof.
  unfold session_get, get_sessions, set_sessions, mc_on_env, mbind, M_bind, mapped. simpl.
  destruct (mc_sessions w !! session_id) as [[id t]|] eqn:Hs; simpl.
  - destruct (m_now (mc_env w)) as [now e]. simpl. rewrite lookup_insert_eq. simpl.
    split_and!; [done..| |done]. intros s Hne. by rewrite lookup_insert_ne.
  - by rewrite Hs.
Qed.

Lemma session_set_effect session_id id w :
  let '(_, w') := session_set session_id id w in
  mapped w' session_id = Some id ∧
  (∀ s, s ≠ session_id → mc_sessions w' !! s = mc_sessions w !! s) ∧
  mc_sent w' = mc_sent w.
Proof.
  unfold session_set, get_sessions, set_sessions, mc_on_env, mbind, M_bind, mapped. simpl.
  destruct (m_now (mc_env w)) as [now e]. simpl. rewrite lookup_insert_eq.
  split_and!; [done| |done]. intros s Hne. by rewrite lookup_insert_ne.
Qed.

(** A session that has a sandbox keeps it, and nothing is sent; otherwise one is
    asked for, and the session is mapped to what the API makes. *)
Lemma resolve_or_create_effect session_id w :
  let '(r, w') := resolve_or_create settings session_id w in
  (∀ s, s ≠ session_id → mc_sessions w' !! s = mc_sessions w !! s) ∧
  match mapped w session_id with
  | Some id => r = Ok id ∧ mapped w' session_id = Some id ∧ mc_sent w' = mc_sent w
  | None =>
      (∃ request, mc_sent w' = mc_sent w ++ [request] ∧ creation request ∧ requested_url request = None) ∧
      mapped w' session_id = match r with Ok id => Some id | Err _ => None end
  end.
Proof.
  unfold resolve_or_create, mbind, M_bind.
  pose proof (session_get_effect session_id w) as Hget.
  destruct (session_get session_id w) as [r w1]. destruct Hget as (-> & Hm & Ho & Hs).
  destruct (mapped w session_id) as [id|]; [done|].
  pose proof (uses_create (default_sandbox settings) w1) as [Hc1 _].
  pose proof (asks_create (default_sandbox settings) w1) as (q & Hq & Hr). unfold run_st in *.
  destruct (create_sandbox_full settings (default_sandbox settings) w1) as [[sandbox|e] w2]; simpl in *.
  - pose proof (session_set_effect session_id (ms_id sandbox) w2) as Hset.
    destruct (session_set session_id (ms_id sandbox) w2) as [[] w3]. destruct Hset as (Hm3 & Ho3 & Hs3).
    split; [intros s Hne; by rewrite Ho3, Hc1, Ho|]. split; [|done].
    exists q. by rewrite Hs3, Hq, Hs.
  - split; [intros s Hne; by rewrite Hc1, Ho|]. split.
    + exists q. by rewrite Hq, Hs.
    + unfold mapped in *. by rewrite Hc1.
Qed.

(** A tool that resolves its session and then acts on the sandbox. *)
Lemma resolved_effect {A X} (allowed : string → Prop) may_create session_id
    (f : Result Uuid string → Result Uuid X) (k : Uuid → M (@Mcp E) (Result A X)) w :
  (∀ r id, f r = Ok id → r = Ok id) →
  (∀ id, uses (on_behalf allowed id) (k id)) →
  session_effect allowed may_create session_id w
    (run_st (try_ (r ← resolve_or_create settings session_id; mret (f r)) k) w).
Proof.
  intros Hf Hk. unfold run_st, try_, mbind, M_bind.
  pose proof (resolve_or_create_effect session_id w) as Hr.
  destruct (resolve_or_create settings session_id w) as [r w1]. destruct Hr as [Ho Hr].
  assert (∀ w2, mc_sent w2 = mc_sent w1 → sends (λ q, creation q ∧ requested_url q = None ∧
                 (mapped w session_id = None ∨ may_create) ∨
              ∃ id, (mapped w session_id = Some id ∨ mapped w2 session_id = Some id) ∧
                    on_behalf allowed id q) w w2) as Hfirst.
  { intros w2 Hw2. destruct (mapped w session_id) as [id|]; [apply sends_same; destruct Hr as (_ & _ & Hr); congruence|].
    destruct Hr as [(q & Hq & ? & ?) _]. exists [q]. rewrite Hw2, Hq. split; [done|].
    apply Forall_singleton. by left; split_and!; [..|left]. }
  simpl. destruct (f r) as [id|e] eqn:Hfr; simpl; [|by split; [|apply Hfirst]].
  apply Hf in Hfr as ->. destruct (Hk id w1) as [H1 (l & Hl & HF)]. unfold run_st in *.
  destruct (k id w1) as [a w2]. simpl in *. split; [intros s Hne; by rewrite H1, Ho|].
  assert (mapped w2 session_id = Some id) as Hm.
  { unfold mapped in *. rewrite H1.
    destruct (fst <$> mc_sessions w !! session_id); [|by destruct Hr].
    destruct Hr as (? & ? & ?). simplify_eq. done. }
  destruct (Hfirst w1 eq_refl) as (l1 & Hl1 & HF1).
  exists (l1 ++ l). rewrite Hl, Hl1, app_assoc. split; [done|]. apply Forall_app. split.
  - eapply Forall_impl; [exact HF1|]. intros q Hq. unfold mapped in *. by rewrite H1.
  - eapply Forall_impl; [exact HF|]. intros q Hq. right. exists id. eauto.
Qed.
End uses.

#[export] Hint Resolve uses_ret uses_env uses_exec uses_upload uses_download uses_delete uses_get
  uses_static_files : mcp.
