(* ===== verification/McpWeb.v ===== *)
(** * McpWeb: fetching pages, searching and retrieving

    Models [tools/web.rs], [services/web.rs] and [services/value_retrieval.rs]
    of [src/dsb-mcp-server/]: the guard on the URLs that a sandbox is asked for,
    the scraper of the sandbox with its detour through a shell, the search
    engine, and the retrieval that embeds a query, looks its neighbours up and
    ranks them.  A function that can panic fails with [Panics] then. *)

From S2P Require Import Prelude Text Paths Errors World KubeBackend Float64 McpSettings McpClient.
From Stdlib Require Import Ascii.

(** ** Errors *)

Inductive Failure (X : Type) : Type :=
  | Panics
  | Fails (e : X).
Arguments Panics {X}.
Arguments Fails {X} e.

Definition failing {A X} (r : Result A X) : Result A (Failure X) := result_map_err Fails r.

Definition failure_map {X Y} (f : X → Y) (e : Failure X) : Failure Y :=
  match e with Panics => Panics | Fails x => Fails (f x) end.

(** What an MCP call fails with ([rmcp]'s [ErrorData]). *)
Inductive ErrorKind : Type := InvalidParams | InternalError | MethodNotFound | OtherError (code : Z).

Record ErrorData : Type := mkErrorData {
  ed_kind : ErrorKind;
  ed_message : string;
  ed_data : option Json;
}.

Definition invalid_params (message text : string) : ErrorData :=
  mkErrorData InvalidParams message (Some (JString text)).
Definition internal_error (message text : string) : ErrorData :=
  mkErrorData InternalError message (Some (JString text)).

(** ** Text *)

(** [&s[..n]]; [None] is the panic of a cut inside a character or past the end. *)
Definition slice_to (n : nat) (s : string) : option string :=
  if bool_decide (String.length s < n)%nat then None
  else match String.get n s with
       | Some c => if is_continuation c then None else Some (String.substring 0 n s)
       | None => Some s
       end.

(** From the last occurrence of a character: [s[s.rfind(c)..]]. *)
Fixpoint from_last (c : Ascii.ascii) (s : string) : option string :=
  match s with
  | EmptyString => None
  | String a s' =>
      match from_last c s' with
      | Some t => Some t
      | None => if Ascii.eqb a c then Some s else None
      end
  end.

(** ** JSON *)

(** The entry is replaced, or added. *)
Fixpoint entry_insert (key : string) (v : Json) (l : list (string * Json)) : list (string * Json) :=
  match l with
  | [] => [(key, v)]
  | (k, u) :: l => if String.eqb k key then (key, v) :: l else (k, u) :: entry_insert key v l
  end.

(** [get_mut(key)], written to. *)
Fixpoint entry_update (key : string) (f : Json → Json) (l : list (string * Json)) : list (string * Json) :=
  match l with
  | [] => []
  | (k, u) :: l => if String.eqb k key then (k, f u) :: l else (k, u) :: entry_update key f l
  end.

(** ** Search results as Markdown ([tools/web.rs]) *)

Definition search_item (i : nat) (result : Json) : string :=
  let title := default "Untitled result" (json_as_str (json_index "title" result)) in
  let url := default "" (json_as_str (json_index "url" result)) in
  let snippet :=
    default ""
      (match json_as_str (json_index "snippet" result) with
       | Some s => Some s
       | None => match json_as_str (json_index "content" result) with
                 | Some s => Some s
                 | None => json_as_str (json_index "description" result)
                 end
       end) in
  (if is_empty url
   then Z_to_string (Z.of_nat i + 1) +:+ ". **" +:+ title +:+ "**" +:+ nl +:+ nl
   else Z_to_string (Z.of_nat i + 1) +:+ ". **[" +:+ title +:+ "](" +:+ url +:+ ")**" +:+ nl +:+ nl)
  +:+ (if is_empty snippet then "" else "   " +:+ snippet +:+ nl +:+ nl).

Definition json_search_to_markdown (json : Json) : string :=
  join "" (imap search_item (default [] (json_as_array (json_index "results" json)))).

Definition link_item (link : Json) : string :=
  "- " +:+ default "" (json_as_str link) +:+ nl.

(** A list of links without the empty ones, or the links of the page and those
    that leave it, whatever they are. *)
Definition json_links_to_markdown (json : Json) : string :=
  match json_as_array json with
  | Some links =>
      if is_nil links then ""
      else "**Links:**" +:+ nl +:+ nl
           +:+ join "" (link_item <$>
                        filter (λ link, is_empty (default "" (json_as_str link)) = false) links)
  | None =>
      let group key title tail :=
        match json_get key json ≫= json_as_array with
        | Some links =>
            if is_nil links then ""
            else "**" +:+ title +:+ " Links:**" +:+ nl +:+ nl
                 +:+ join "" (link_item <$> links) +:+ tail
        | None => ""
        end in
      group "internal" "Internal" nl +:+ group "external" "External" ""
  end.

(** ** What a search is given *)

Definition DEFAULT_SEARCH_RESULTS : Z := 10.
Definition MAX_SEARCH_RESULTS : Z := 100.
Definition SUPPORTED_SEARCH_ENGINES : list string := ["google"; "duckduckgo"; "bing"; "baidu"].

Definition normalize_search_query (query : string) : Result string string :=
  let query := trim query in
  if is_empty query then Err "query cannot be empty" else Ok query.

Definition normalize_num_results (num_results : option Z) : Result Z string :=
  let value := default DEFAULT_SEARCH_RESULTS num_results in
  if value =? 0 then Err "num_results must be between 1 and 100"
  else if MAX_SEARCH_RESULTS <? value
  then Err ("num_results must be between 1 and " +:+ Z_to_string MAX_SEARCH_RESULTS)
  else Ok value.

(** The limit is one of bytes. *)
Definition truncate_for_error (message : string) : option string :=
  if bool_decide (String.length message ≤ 300)%nat then Some message else slice_to 300 message.

Definition trim_search_results (json : Json) (result_limit : Z) : Result Json string :=
  match json with
  | JObject l =>
      match json_get "results" json ≫= json_as_array with
      | Some results =>
          Ok (JObject (entry_update "results" (λ _, JArray (take (Z.to_nat result_limit) results)) l))
      | None => Err "SearXNG response missing results array"
      end
  | _ => Err "SearXNG response missing results array"
  end.

(** [Duration::from_secs_f64] does not panic. *)
Definition from_secs_ok (x : f64) : bool :=
  negb (f64_ltb x f64_zero) && f64_ltb x (f64_of_Z (2 ^ 64)).

Section web.
Context {E : Type} `{McpEnv E} `{UuidLib}.
Context (settings : Settings).

Abbreviation M0 := (M (@Mcp E)).

Definition normalize_search_engine (engine : option string) : Result (option string) string :=
  match engine with
  | None => Ok None
  | Some engine =>
      let engine := to_lowercase (trim engine) in
      if is_empty engine then Err "engine cannot be empty"
      else if bool_decide (engine ∈ SUPPORTED_SEARCH_ENGINES) then Ok (Some engine)
      else Err ("Unsupported search engine '" +:+ engine +:+ "'. Supported engines: "
                +:+ join ", " SUPPORTED_SEARCH_ENGINES)
  end.

(** ** The guard on URLs *)

(** The second byte of an address in 172.0.0.0/8 is from 16 to 31. *)
Definition private_172 (host : string) : bool :=
  match split_on "." host with
  | _ :: second :: _ =>
      match parse_unsigned 255 second with
      | Some n => (16 <=? n) && (n <=? 31)
      | None => false
      end
  | _ => false
  end.

Definition validate_url_secure (url : string) : Result () string :=
  if is_empty url then Err "URL cannot be empty"
  else match url_parse url with
  | None => Err "Invalid URL format"
  | Some (scheme, host) =>
      if negb (bool_decide (scheme ∈ ["http"; "https"])) then
        Err ("URL scheme '" +:+ scheme
             +:+ "' is not allowed. Only http:// and https:// are permitted.")
      else match host with
      | None => Err "Invalid URL - missing host"
      | Some host =>
          let host := to_lowercase host in
          if bool_decide (host ∈ ["localhost"; "127.0.0.1"; "::1"])
             || starts_with "127." host || starts_with "0." host
          then Err "URL points to localhost/loopback which is not allowed"
          else if starts_with "169.254." host
          then Err "URL points to link-local address which is not allowed"
          else if (starts_with "10." host || starts_with "192.168." host || starts_with "172." host)
                  && (if starts_with "172." host then private_172 host else true)
          then Err "URL points to private IP range which is not allowed"
          else if String.eqb host "::1" || starts_with "fc" host || starts_with "fd" host
          then Err "URL points to private IPv6 range which is not allowed"
          else Ok ()
      end
  end.

Definition validate_url (url : string) : Result () string := validate_url_secure url.

(** ** The search engine *)

(** The timeout is not part of the request; the body of a refusal and a body
    that does not parse are cut for the error. *)
Definition call_searxng_search (query : string) (engine : option string)
    (timeout_secs : option f64) (language categories time_range : option string)
    : M0 (Result Json (Failure string)) :=
  if match timeout_secs with Some x => negb (from_secs_ok x) | None => false end
  then mret (Err Panics)
  else
  let* _ := built ← mc_on_env m_client;
            mret (failing (result_map_err (λ e, "Failed to build SearXNG client: " +:+ e) built)) in
  let given key o := match o with Some v => [(key, v)] | None => [] end in
  let* response :=
    r ← send (mkMcpRequest "GET" (searxng_url (set_web settings))
                ([("q", query); ("format", "json"); ("categories", default "general" categories)]
                 ++ given "engines" engine ++ given "language" language
                 ++ given "time_range" time_range)
                NoBody None None);
    mret (failing (result_map_err (λ e, "SearXNG request failed: " +:+ e) r)) in
  mret (let? body := failing (result_map_err (λ e, "Failed to read SearXNG response: " +:+ e)
                                             (hr_body response)) in
        if negb (success (hr_status response)) then
          match truncate_for_error (trim body) with
          | None => Err Panics
          | Some body =>
              let failed := "SearXNG request failed with status " +:+ hr_status_text response in
              Err (Fails (if is_empty body then failed else failed +:+ ": " +:+ body))
          end
        else match json_from_str body with
        | Err error =>
            match truncate_for_error (trim body) with
            | None => Err Panics
            | Some body => Err (Fails ("Failed to parse SearXNG response as JSON: " +:+ error
                                       +:+ " (body: " +:+ body +:+ ")"))
            end
        | Ok json =>
            match json_get "results" json ≫= json_as_array with
            | None => Err (Fails "SearXNG response missing results array")
            | Some _ => Ok json
            end
        end).

Record SearchWebConfig : Type := mkSearchWebConfig {
  sw_query : string;
  sw_engine : option string;
  sw_num_results : option Z;
  sw_timeout : option f64;
  sw_language : option string;
  sw_categories : option string;
  sw_time_range : option string;
}.

Definition search_web (config : SearchWebConfig) : M0 (Result string (Failure string)) :=
  let* query := mret (failing (normalize_search_query (sw_query config))) in
  let* engine := mret (failing (normalize_search_engine (sw_engine config))) in
  let* result_limit := mret (failing (normalize_num_results (sw_num_results config))) in
  let* json := call_searxng_search query engine (sw_timeout config) (sw_language config)
                 (sw_categories config) (sw_time_range config) in
  mret (let? json := failing (trim_search_results json result_limit) in
        let output := json_search_to_markdown json in
        Ok (if is_empty (trim output) then "No search results found." else output)).

(** ** The scraper of a sandbox *)

Definition WEB_TOOLS_PATH : string := "/opt/tools/web_tools.py".

Definition should_fallback_to_exec (error : string) : bool :=
  contains "HTTP request failed" error
  || contains "HTTP request to sandbox failed" error
  || contains "error sending request" error
  || contains "Connection refused" error
  || contains "Failed to connect" error.

Fixpoint first_json (lines : list string) : option Json :=
  match lines with
  | [] => None
  | line :: lines =>
      if is_empty (trim line) then first_json lines
      else match json_from_str (trim line) with
           | Ok v => Some v
           | Err _ => first_json lines
           end
  end.

Definition parse_fallback_json_output (output : string) : Result Json string :=
  if is_empty output then
    Err "Failed to parse fallback tool response: EOF while parsing a value at line 1 column 0 (output: )"
  else match json_from_str output with
  | Ok v => Ok v
  | Err _ =>
      match first_json (rev (lines output)) with
      | Some v => Ok v
      | None =>
          let failed := Err ("Failed to parse fallback tool response: expected JSON output (output: "
                             +:+ output +:+ ")") in
          match from_last "{" output with
          | Some text => match json_from_str text with Ok v => Ok v | Err _ => failed end
          | None => failed
          end
      end
  end.

Definition fallback_script (command : string) : string :=
  "exec 9>/tmp/dsb-web-tools.lock && flock 9 && PYTHONWARNINGS=ignore python " +:+ WEB_TOOLS_PATH
  +:+ " " +:+ command +:+ " 2>/dev/null".

Definition call_web_tool_via_exec (sandbox_id : Uuid) (command : string) (args : Json)
    : M0 (Result Json string) :=
  let* result :=
    r ← exec_command_with_stdin settings sandbox_id ["sh"; "-c"; fallback_script command]
          (Some (json_to_string args));
    mret (result_map_err (λ e, "Fallback tool execution failed: " +:+ e) r) in
  mret (let output := trim (er_output result) in
        let? json := parse_fallback_json_output output in
        if er_exit_code result =? 0 then Ok json
        else Err (default output (text_at "error_message" json))).

Definition parse_sandbox_id (sandbox_id : string) : Result Uuid string :=
  option_ok_or ("Invalid sandbox ID: " +:+ uuid_error sandbox_id) (uuid_parse_str sandbox_id).

Definition call_web_tool (sandbox_id command : string) (args : Json) (allow_exec_fallback : bool)
    : M0 (Result Json string) :=
  let* id := mret (parse_sandbox_id sandbox_id) in
  r ← client_execute_tool settings id "python" WEB_TOOLS_PATH command (Some args) None;
  match r with
  | Ok result => mret (Ok result)
  | Err error =>
      if allow_exec_fallback && should_fallback_to_exec error
      then call_web_tool_via_exec id command args
      else mret (Err ("Tool execution failed: " +:+ error))
  end.

Record ScrapeWebConfig : Type := mkScrapeWebConfig {
  sc_sandbox_id : string;
  sc_url : string;
  sc_format : option string;
  sc_screenshot : option bool;
  sc_css_selector : option string;
  sc_word_count_threshold : option Z;
  sc_search_query : option string;
  sc_use_pruning : option bool;
  sc_pruning_threshold : option f64;
  sc_bm25_threshold : option f64;
  sc_wait_until : option string;
  sc_cache_mode : option string;
  sc_page_timeout : option Z;
  sc_max_length : option Z;
  sc_proxy_config : option Json;
  sc_allow_exec_fallback : bool;
}.

(** [json!] of a double: what is not finite is [null]. *)
Definition json_f64 (x : f64) : Json :=
  match x with
  | SpecFloat.S754_zero _ | SpecFloat.S754_finite _ _ _ => JFloat (f64_text x)
  | _ => JNull
  end.

Definition scrape_args (c : ScrapeWebConfig) : Json :=
  JObject
    ([("url", JString (sc_url c)); ("format", JString (default "markdown" (sc_format c)))]
     ++ field "screenshot" JBool (sc_screenshot c)
     ++ field "css_selector" JString (sc_css_selector c)
     ++ field "word_count_threshold" JNumber (sc_word_count_threshold c)
     ++ field "search_query" JString (sc_search_query c)
     ++ field "max_length" JNumber (sc_max_length c)
     ++ field "use_pruning" JBool (sc_use_pruning c)
     ++ field "pruning_threshold" json_f64 (sc_pruning_threshold c)
     ++ field "bm25_threshold" json_f64 (sc_bm25_threshold c)
     ++ field "wait_until" JString (sc_wait_until c)
     ++ field "cache_mode" JString (sc_cache_mode c)
     ++ field "page_timeout" JNumber (sc_page_timeout c)
     ++ field "proxy_config" id (sc_proxy_config c)).

Definition scrape_web (c : ScrapeWebConfig) : M0 (Result string string) :=
  let* json := call_web_tool (sc_sandbox_id c) "web_scrape" (scrape_args c)
                 (sc_allow_exec_fallback c) in
  mret (Ok (if String.eqb (default "markdown" (sc_format c)) "links"
            then match json_get "links" json with
                 | Some links => json_links_to_markdown links
                 | None => "No links found"
                 end
            else default "No content" (json_as_str (json_index "content" json)))).

(** ** The tools ([services/web.rs]) *)

Definition resolve_or_create_session (session_id : string) : M0 (Result Uuid (Failure ErrorData)) :=
  r ← resolve_or_create settings session_id;
  mret (failing (result_map_err (internal_error "resolve_or_create") r)).

Record WebFetchArgs : Type := mkWebFetchArgs {
  wfa_session_id : string;
  wfa_url : string;
  wfa_format : option string;
  wfa_search_query : option string;
  wfa_max_length : option Z;
}.

Definition fetch_config (a : WebFetchArgs) (sandbox_id : Uuid) : ScrapeWebConfig :=
  let web := set_web settings in
  {| sc_sandbox_id := uuid_to_string sandbox_id; sc_url := wfa_url a; sc_format := wfa_format a;
     sc_screenshot := None; sc_css_selector := None;
     sc_word_count_threshold := Some (word_count_threshold web);
     sc_search_query := wfa_search_query a; sc_use_pruning := None;
     sc_pruning_threshold := Some (pruning_threshold web);
     sc_bm25_threshold := Some (bm25_threshold web); sc_wait_until := Some (wait_until web);
     sc_cache_mode := Some (cache_mode web); sc_page_timeout := Some (page_timeout web);
     sc_max_length := wfa_max_length a; sc_proxy_config := None;
     sc_allow_exec_fallback := allow_exec_fallback web |}.

Definition web_fetch (a : WebFetchArgs) : M0 (Result string (Failure ErrorData)) :=
  let* _ := mret (failing (result_map_err (invalid_params "web_fetch")
                                          (validate_url_secure (wfa_url a)))) in
  let* sandbox_id := resolve_or_create_session (wfa_session_id a) in
  let* content := r ← scrape_web (fetch_config a sandbox_id);
                  mret (failing (result_map_err (internal_error "web_fetch") r)) in
  mret (Ok (json_to_string_pretty
              (JObject [("url", JString (wfa_url a)); ("title", JString "");
                        ("content", JString content)]))).

Definition web_search (config : SearchWebConfig) : M0 (Result string (Failure ErrorData)) :=
  r ← search_web config;
  mret (result_map_err (failure_map (internal_error "web_search")) r).

(** ** Retrieval ([services/value_retrieval.rs]) *)

(** A request of the service's own client, and its answer read as JSON. *)
Definition ask_json {A} (step name : string) (request : McpRequest)
    (parse : string → Result A string) (response_name : string) : M0 (Result A ErrorData) :=
  let* response := r ← send request;
                   mret (result_map_err
                           (λ e, internal_error step (name +:+ " request failed: " +:+ e)) r) in
  mret (if negb (success (hr_status response)) then
          Err (internal_error step (name +:+ " returned status " +:+ hr_status_text response
                                    +:+ ": " +:+ result_unwrap_or "" (hr_body response)))
        else result_map_err
               (λ e, internal_error step ("Failed to parse " +:+ response_name +:+ " response: " +:+ e))
               (parsed parse (hr_body response))).

Definition embed_query (query : string) (cfg : RetrievalSettings) : M0 (Result (list f64) ErrorData) :=
  let input := if is_empty (rs_search_instruction cfg) then query
               else rs_search_instruction cfg +:+ ": " +:+ query in
  let* embeddings :=
    ask_json "embed_query" "Embedding API"
      (mkMcpRequest "POST" (rs_embedding_api_url cfg) []
         (JsonBody (JObject [("model", JString (rs_embedding_model cfg)); ("input", JString input)]))
         None (rs_embedding_api_key cfg))
      parse_embeddings "embedding" in
  mret (option_ok_or (internal_error "embed_query" "No embedding returned from API")
          (head embeddings)).

(** A hit is its fields. *)
Definition search_milvus (embedding : list f64) (limit : Z) (cfg : RetrievalSettings)
    : M0 (Result (list (list (string * Json))) ErrorData) :=
  ask_json "search_milvus" "Milvus search"
    (mkMcpRequest "POST" (rs_milvus_url cfg +:+ "/v2/vectordb/entities/search") []
       (JsonBody (JObject [("collectionName", JString (rs_collection_name cfg));
                           ("data", JArray [JArray (json_f64 <$> embedding)]);
                           ("limit", JNumber limit);
                           ("outputFields", json_strings (rs_output_fields cfg))]))
       None None)
    parse_search_hits "Milvus".

Definition rerank (query : string) (documents : list string) (cfg : RetrievalSettings)
    : M0 (Result (list (Z * f64)) ErrorData) :=
  ask_json "rerank" "Reranking API"
    (mkMcpRequest "POST" (rs_rerank_api_url cfg) []
       (JsonBody (JObject [("model", JString (rs_rerank_model cfg)); ("query", JString query);
                           ("documents", json_strings documents)]))
       None (rs_rerank_api_key cfg))
    parse_reranked "reranking".

(** The text of a hit, if it has one. *)
Definition hit_text (doc_field : string) (fields : list (string * Json)) : option string :=
  match_str fields doc_field ≫= json_as_str.

(** What is returned of a hit: the fields asked for, and its score. *)
Definition hit_output (output_fields : list string) (fields : list (string * Json)) (score : f64)
    : Json :=
  JObject
    (entry_insert "relevance_score" (json_f64 score)
       (fold_left (λ obj f, match match_str fields f with
                            | Some v => entry_insert f v obj
                            | None => obj
                            end) output_fields [])).

(** The place in the ranking is looked up among the hits. *)
Definition ranked_outputs (cfg : RetrievalSettings) (hits : list (list (string * Json)))
    (reranked : list (Z * f64)) : list Json :=
  omap (λ '(index, score),
          (λ fields, hit_output (rs_output_fields cfg) fields score) <$> hits !! Z.to_nat index)
    (filter (λ p, SpecFloat.SFleb (rs_rerank_threshold cfg) p.2 = true) reranked).

Definition hybrid_retrieve (query : string) (limit : Z) (cfg : RetrievalSettings)
    : M0 (Result (list Json) ErrorData) :=
  let* embedding := embed_query query cfg in
  let* hits := search_milvus embedding limit cfg in
  if is_nil hits then mret (Ok [])
  else
    let documents := omap (hit_text (rs_doc cfg)) hits in
    if is_nil documents then mret (Ok (JObject <$> hits))
    else
      let* reranked := rerank query documents cfg in
      mret (Ok (ranked_outputs cfg hits reranked)).

Definition retrieved (query : string) (results : list Json) : string :=
  json_to_string_pretty
    (JObject [("query", JString query); ("results", JArray results);
              ("total", JNumber (Z.of_nat (length results)))]).

Definition search_with (cfg : RetrievalSettings) (query : string) (limit : option Z)
    : M0 (Result string ErrorData) :=
  let* results := hybrid_retrieve query (default (rs_search_limit cfg) limit) cfg in
  mret (Ok (retrieved query results)).

Definition search_for_knowledge : string → option Z → M0 (Result string ErrorData) :=
  search_with (set_knowledge_retrieval settings).

Definition search_for_partner_name : string → option Z → M0 (Result string ErrorData) :=
  search_with (set_value_retrieval settings).
End web.

(** ** The guard on addresses *)

(** Four numbers between dots, of which the first two count. *)
Definition dotted (a b : Z) (rest : string) : string :=
  Z_to_string a +:+ "." +:+ Z_to_string b +:+ "." +:+ rest.

(** The loopback, private and link-local networks, and 0.0.0.0/8. *)
Definition reserved_network (a b : Z) : bool :=
  (a =? 127) || (a =? 0) || (a =? 10) || ((a =? 192) && (b =? 168)) || ((a =? 169) && (b =? 254))
  || ((a =? 172) && (16 <=? b) && (b <=? 31)).

Lemma starts_with_cons c p a s : starts_with (String c p) (String a s) = Ascii.eqb c a && starts_with p s.
Proof. unfold starts_with. simpl. by destruct (Ascii.eqb c a). Qed.

(** A text of digits up to its dot. *)
Lemma starts_with_digits x y p r :
  string_forall is_ascii_digit x = true → string_forall is_ascii_digit y = true →
  starts_with (x +:+ "." +:+ p) (y +:+ "." +:+ r) = String.eqb x y && starts_with p r.
Proof.
  revert y. induction x as [|c x IH]; intros [|d y] Hx Hy; simpl in *.
  - by rewrite starts_with_cons.
  - rewrite starts_with_cons. apply andb_true_iff in Hy as [Hd _].
    destruct (Ascii.eqb_spec "." d) as [<-|]; [done|done].
  - rewrite starts_with_cons. apply andb_true_iff in Hx as [Hc _].
    destruct (Ascii.eqb_spec c ".") as [->|]; [done|done].
  - rewrite starts_with_cons. apply andb_true_iff in Hx as [_ Hx], Hy as [_ Hy].
    rewrite IH by done. by destruct (Ascii.eqb_spec c d).
Qed.

Lemma eqb_number n m : String.eqb (Z_to_string n) (Z_to_string m) = (n =? m).
Proof.
  destruct (Z.eqb_spec n m) as [->|Hne]; [apply String.eqb_refl|].
  apply String.eqb_neq. intros Heq. by apply (inj (pretty : Z → string)) in Heq.
Qed.

Lemma starts_with_number n m p r :
  0 ≤ n → 0 ≤ m →
  starts_with (Z_to_string n +:+ "." +:+ p) (Z_to_string m +:+ "." +:+ r) = (n =? m) && starts_with p r.
Proof.
  intros Hn Hm. rewrite starts_with_digits by (by apply pretty_digits). by rewrite eqb_number.
Qed.

Lemma starts_with_empty s : starts_with "" s = true.
Proof. by destruct s. Qed.

Lemma dotted_first n a b rest :
  0 ≤ n → 0 ≤ a → starts_with (Z_to_string n +:+ "." +:+ "") (dotted a b rest) = (n =? a).
Proof. intros. unfold dotted. by rewrite starts_with_number, starts_with_empty, andb_true_r. Qed.

Lemma dotted_both n m a b rest :
  0 ≤ n → 0 ≤ m → 0 ≤ a → 0 ≤ b →
  starts_with (Z_to_string n +:+ "." +:+ Z_to_string m +:+ "." +:+ "") (dotted a b rest)
    = (n =? a) && (m =? b).
Proof.
  intros. unfold dotted. by rewrite !starts_with_number, starts_with_empty, andb_true_r.
Qed.

Lemma private_172_dotted a b rest :
  0 ≤ a → 0 ≤ b ≤ 255 → private_172 (dotted a b rest) = (16 <=? b) && (b <=? 31).
Proof.
  intros Ha Hb. unfold private_172, dotted.
  destruct (pretty_digits a Ha) as [Hda _], (pretty_digits b ltac:(lia)) as [Hdb _].
  change (Z_to_string a +:+ "." +:+ Z_to_string b +:+ "." +:+ rest)
    with (Z_to_string a +:+ String "." (Z_to_string b +:+ String "." rest)).
  rewrite (split_on_app "." (Z_to_string a)) by (by apply digits_no_char).
  rewrite (split_on_app "." (Z_to_string b)) by (by apply digits_no_char).
  by rewrite parse_unsigned_to_string.
Qed.

(** A host that starts with a digit has none of the names and prefixes. *)
Lemma dotted_head a b rest :
  0 ≤ a → ∃ c s, dotted a b rest = String c s ∧ is_ascii_digit c = true.
Proof.
  intros Ha. destruct (pretty_digits a Ha) as [Hd Hne]. unfold dotted.
  destruct (Z_to_string a) as [|c s]; [done|]. simpl in Hd. apply andb_true_iff in Hd as [Hd _].
  by exists c, (s +:+ "." +:+ Z_to_string b +:+ "." +:+ rest).
Qed.

Lemma not_listed (x : string) (c : Ascii.ascii) s :
  is_ascii_digit c = true → x = String c s →
  x ≠ "localhost" ∧ x ≠ "::1" ∧ starts_with "fc" x = false ∧ starts_with "fd" x = false.
Proof.
  intros Hc ->. rewrite !starts_with_cons.
  destruct (Ascii.eqb_spec "f" c) as [<-|_]; [done|]. by split_and!; [intros ?; simplify_eq..| |].
Qed.

(** The tests of the guard on four numbers. *)
Lemma loopback_dotted a b rest :
  0 ≤ a →
  bool_decide (dotted a b rest ∈ ["localhost"; "127.0.0.1"; "::1"])
    || starts_with "127." (dotted a b rest) || starts_with "0." (dotted a b rest)
  = (a =? 127) || (a =? 0).
Proof.
  intros Ha. pose proof (dotted_first 127 a b rest ltac:(lia) Ha) as H127.
  pose proof (dotted_first 0 a b rest ltac:(lia) Ha) as Hz.
  change (Z_to_string 127 +:+ ("." +:+ "")) with "127." in H127.
  change (Z_to_string 0 +:+ ("." +:+ "")) with "0." in Hz.
  destruct (dotted_head a b rest Ha) as (c & s & Hd & Hc).
  destruct (not_listed _ c s Hc Hd) as (Hl & H1 & _).
  rewrite Hz, <- (Z.eqb_sym 127 a), <- (Z.eqb_sym 0 a), <- H127. f_equal.
  destruct (bool_decide_reflect (dotted a b rest ∈ ["localhost"; "127.0.0.1"; "::1"])) as [Hin|]; [|done].
  apply elem_of_cons in Hin as [?|Hin]; [done|].
  apply elem_of_cons in Hin as [Heq|Hin]; [by rewrite Heq|].
  by apply list_elem_of_singleton in Hin.
Qed.

Lemma link_local_dotted a b rest :
  0 ≤ a → 0 ≤ b → starts_with "169.254." (dotted a b rest) = (a =? 169) && (b =? 254).
Proof.
  intros Ha Hb. rewrite (Z.eqb_sym a), (Z.eqb_sym b).
  by apply (dotted_both 169 254 a b rest).
Qed.

Lemma private_dotted a b rest :
  0 ≤ a → 0 ≤ b ≤ 255 →
  (starts_with "10." (dotted a b rest) || starts_with "192.168." (dotted a b rest)
     || starts_with "172." (dotted a b rest))
  && (if starts_with "172." (dotted a b rest) then private_172 (dotted a b rest) else true)
  = (a =? 10) || ((a =? 192) && (b =? 168)) || ((a =? 172) && (16 <=? b) && (b <=? 31)).
Proof.
  intros Ha Hb. rewrite private_172_dotted by done.
  pose proof (dotted_first 10 a b rest ltac:(lia) Ha) as H10.
  pose proof (dotted_first 172 a b rest ltac:(lia) Ha) as H172.
  pose proof (dotted_both 192 168 a b rest ltac:(lia) ltac:(lia) Ha ltac:(lia)) as H192.
  change (Z_to_string 10 +:+ ("." +:+ "")) with "10." in H10.
  change (Z_to_string 172 +:+ ("." +:+ "")) with "172." in H172.
  change (Z_to_string 192 +:+ ("." +:+ (Z_to_string 168 +:+ ("." +:+ "")))) with "192.168." in H192.
  rewrite H10, H172, H192, (Z.eqb_sym 10), (Z.eqb_sym 172), (Z.eqb_sym 192), (Z.eqb_sym 168).
  destruct (Z.eqb_spec a 172) as [->|]; simpl; [done|]. by rewrite !orb_false_r, andb_true_r.
Qed.

Lemma unique_local_dotted a b rest :
  0 ≤ a →
  String.eqb (dotted a b rest) "::1" || starts_with "fc" (dotted a b rest)
    || starts_with "fd" (dotted a b rest) = false.
Proof.
  intros Ha. destruct (dotted_head a b rest Ha) as (c & s & Hd & Hc).
  destruct (not_listed _ c s Hc Hd) as (_ & H1 & -> & ->). by apply String.eqb_neq in H1 as ->.
Qed.

Section properties.
Context {E : Type} `{McpEnv E}.

Lemma validate_dotted url scheme host a b rest :
  url ≠ "" → url_parse url = Some (scheme, Some host) → scheme ∈ ["http"; "https"] →
  0 ≤ a → 0 ≤ b ≤ 255 → to_lowercase host = dotted a b rest →
  validate_url_secure url = Ok () ↔ reserved_network a b = false.
Proof.
  intros Hne Hparse Hin Ha Hb Hh. unfold validate_url_secure, reserved_network.
  destruct url as [|c0 url]; [done|]. rewrite Hparse, (bool_decide_eq_true_2 _ Hin). simpl.
  rewrite Hh, loopback_dotted, link_local_dotted, private_dotted, unique_local_dotted by lia.
  destruct (a =? 127), (a =? 0), (a =? 10), ((a =? 192) && (b =? 168)), ((a =? 169) && (b =? 254)),
    ((a =? 172) && (16 <=? b) && (b <=? 31)); done.
Qed.

(** The host of a URL has brackets around an IPv6 address. *)
Lemma validate_bracketed url scheme host rest :
  url ≠ "" → url_parse url = Some (scheme, Some host) → scheme ∈ ["http"; "https"] →
  to_lowercase host = String "[" rest → validate_url_secure url = Ok ().
Proof.
  intros Hne Hparse Hin Hh. unfold validate_url_secure.
  destruct url as [|c0 url]; [done|]. rewrite Hparse, (bool_decide_eq_true_2 _ Hin). simpl.
  rewrite Hh. rewrite bool_decide_eq_false_2; [done|].
  intros Hl. repeat (apply elem_of_cons in Hl as [Hl|Hl]; [by simplify_eq|]). by apply elem_of_nil in Hl.
Qed.

(** C33: What the guard on URLs lets through.  It accepts web addresses only and
    never [localhost]; of the hosts written as four numbers it refuses exactly
    the loopback, private and link-local networks and 0.0.0.0/8; and it accepts
    every IPv6 address, since the host of a URL has brackets then and the tests
    of the guard expect none. *)
Theorem validate_url_spec url scheme host :
  url ≠ "" → url_parse url = Some (scheme, Some host) →
  (validate_url_secure url = Ok () → scheme ∈ ["http"; "https"] ∧ to_lowercase host ≠ "localhost") ∧
  (scheme ∈ ["http"; "https"] →
     (∀ a b rest, 0 ≤ a → 0 ≤ b ≤ 255 → to_lowercase host = dotted a b rest →
        validate_url_secure url = Ok () ↔ reserved_network a b = false) ∧
     (∀ rest, to_lowercase host = String "[" rest → validate_url_secure url = Ok ())).
Proof.
  intros Hne Hparse. split.
  - unfold validate_url_secure. rewrite Hparse. destruct url as [|c0 url]; [done|]. simpl.
    destruct (bool_decide_reflect (scheme ∈ ["http"; "https"])) as [Hin|]; simpl; [|done].
    intros Hok. split; [done|]. intros Hl. by rewrite Hl in Hok.
  - intros Hin. split; [eauto using validate_dotted|eauto using validate_bracketed].
Qed.

(** *** Retrieval *)

Lemma ask_json_Ok {A} step name request (parse : string → Result A string) response_name w a w' :
  ask_json step name request parse response_name w = (Ok a, w') →
  mc_sent w' = mc_sent w ++ [request] ∧ mc_sessions w' = mc_sessions w.
Proof.
  unfold ask_json, send, try_, mbind, M_bind, mret, M_ret.
  destruct (m_http request (mc_env w)) as [[response|e] x]; simpl; [|done].
  by intros [= _ <-].
Qed.

Lemma entry_insert_same k v l : match_str (entry_insert k v l) k = Some v.
Proof.
  induction l as [|[k' u] l IH]; simpl; [by rewrite String.eqb_refl|].
  destruct (String.eqb_spec k' k) as [->|Hne]; simpl; [by rewrite String.eqb_refl|].
  by destruct (String.eqb_spec k k') as [->|_].
Qed.

Lemma entry_insert_other k k' v l : k ≠ k' → match_str (entry_insert k v l) k' = match_str l k'.
Proof.
  intros Hne. induction l as [|[k0 u] l IH]; simpl.
  - by destruct (String.eqb_spec k' k) as [->|_].
  - destruct (String.eqb_spec k0 k) as [->|Hk0]; simpl; [|by rewrite IH].
    by destruct (String.eqb_spec k' k) as [->|_].
Qed.

(** The fields of a hit that are passed on. *)
Lemma output_fields_lookup fields f fs acc :
  match_str (fold_left (λ obj f, match match_str fields f with
                                 | Some v => entry_insert f v obj
                                 | None => obj
                                 end) fs acc) f
  = if bool_decide (f ∈ fs) then match match_str fields f with
                                 | Some v => Some v
                                 | None => match_str acc f
                                 end
    else match_str acc f.
Proof.
  revert acc. induction fs as [|g fs IH]; intros acc; cbn [fold_left]; [done|]. rewrite IH.
  destruct (decide (f = g)) as [->|Hne].
  - rewrite (bool_decide_eq_true_2 (g ∈ g :: fs)) by set_solver.
    destruct (match_str fields g) as [v|]; [|by case_bool_decide].
    rewrite entry_insert_same. by case_bool_decide.
  - rewrite (bool_decide_ext (f ∈ g :: fs) (f ∈ fs)) by set_solver.
    destruct (match_str fields g) as [v|]; [|done]. by rewrite entry_insert_other.
Qed.

(** The value of a field in what is returned of a hit. *)
Lemma hit_output_field output_fields fields score f :
  json_get f (hit_output output_fields fields score)
  = if String.eqb f "relevance_score" then Some (json_f64 score)
    else if bool_decide (f ∈ output_fields) then match_str fields f else None.
Proof.
  unfold hit_output, json_get. destruct (String.eqb_spec f "relevance_score") as [->|Hne].
  - apply entry_insert_same.
  - rewrite entry_insert_other by done. rewrite output_fields_lookup. simpl.
    case_bool_decide; [|done]. by destruct (match_str fields f).
Qed.

(** When every hit has a text, the texts are in the places of the hits. *)
Lemma documents_in_place doc hits i :
  Forall (λ h, is_Some (hit_text doc h)) hits →
  omap (hit_text doc) hits !! i = hits !! i ≫= hit_text doc.
Proof.
  intros HF. revert i. induction HF as [|h hits [t Ht] HF IH]; intros i; [done|].
  simpl. rewrite Ht. destruct i as [|i]; simpl; [by rewrite Ht|]. apply IH.
Qed.

Lemma ranked_elem cfg hits reranked v :
  v ∈ ranked_outputs cfg hits reranked ↔
  ∃ index score h, (index, score) ∈ reranked ∧ SpecFloat.SFleb (rs_rerank_threshold cfg) score = true ∧
    hits !! Z.to_nat index = Some h ∧ v = hit_output (rs_output_fields cfg) h score.
Proof.
  unfold ranked_outputs. rewrite list_elem_of_omap. split.
  - intros ([index score] & Hin & Hv). apply list_elem_of_filter in Hin as [Hs Hin].
    apply fmap_Some in Hv as (h & Hh & ->). eauto 8.
  - intros (index & score & h & Hin & Hs & Hh & ->). exists (index, score).
    split; [by apply list_elem_of_filter|]. by rewrite Hh.
Qed.

Lemma omap_nil_none {A B} (f : A → option B) l : omap f l = [] → Forall (λ a, f a = None) l.
Proof.
  induction l as [|a l IH]; simpl; [done|]. destruct (f a) eqn:Hf; [done|].
  intros Hl. constructor; eauto.
Qed.

(** What a retrieval returns.  Nothing when the index knows no neighbour of
    the query, and the neighbours as they are when none has a text.  Otherwise
    the texts are ranked, by the last request sent, and a result is returned for
    every place in the ranking that scores the threshold or more and is that of
    a neighbour: the fields that the settings ask for and the score.  The place
    is the one of the text ranked if every neighbour has a text. *)
Theorem retrieval_spec query limit cfg w results w' :
  hybrid_retrieve query limit cfg w = (Ok results, w') →
  mc_sessions w' = mc_sessions w ∧
  ∃ hits, let documents := omap (hit_text (rs_doc cfg)) hits in
    (documents = [] ∧ results = JObject <$> hits) ∨
    ∃ (reranked : list (Z * f64)) sent request,
      mc_sent w' = mc_sent w ++ sent ++ [request] ∧
      mr_url request = rs_rerank_api_url cfg ∧ mr_bearer request = rs_rerank_api_key cfg ∧
      mr_body request = JsonBody (JObject [("model", JString (rs_rerank_model cfg));
                                           ("query", JString query);
                                           ("documents", json_strings documents)]) ∧
      (∀ v, v ∈ results ↔ ∃ index score h,
         (index, score) ∈ reranked ∧ SpecFloat.SFleb (rs_rerank_threshold cfg) score = true ∧
         hits !! Z.to_nat index = Some h ∧ v = hit_output (rs_output_fields cfg) h score) ∧
      (∀ h score f, json_get f (hit_output (rs_output_fields cfg) h score)
         = if String.eqb f "relevance_score" then Some (json_f64 score)
           else if bool_decide (f ∈ rs_output_fields cfg) then match_str h f else None) ∧
      (Forall (λ h, is_Some (hit_text (rs_doc cfg) h)) hits →
       ∀ index, documents !! index = hits !! index ≫= hit_text (rs_doc cfg)).
Proof.
  unfold hybrid_retrieve, try_, mbind, M_bind.
  destruct (embed_query query cfg w) as [[embedding|e] w1] eqn:He; [|done].
  destruct (search_milvus embedding limit cfg w1) as [[hits|e] w2] eqn:Hh; [|done].
  assert (∃ q, mc_sent w1 = mc_sent w ++ [q] ∧ mc_sessions w1 = mc_sessions w) as (q & Hw1 & Hs1).
  { revert He. unfold embed_query, try_, mbind, M_bind.
    match goal with |- context [ask_json ?a ?b ?c ?d ?e w] =>
      destruct (ask_json a b c d e w) as [[l|err] x] eqn:Ha end; [|done].
    intros [= _ <-]. apply ask_json_Ok in Ha. eauto. }
  apply ask_json_Ok in Hh as [Hw2 Hs2]. intros Hr.
  assert (mc_sessions w2 = mc_sessions w) as Hs by congruence.
  destruct hits as [|h0 hits]; cbn [is_nil] in Hr.
  { injection Hr as <- <-. split; [done|]. exists []. by left. }
  cbv zeta in Hr.
  destruct (omap (hit_text (rs_doc cfg)) (h0 :: hits)) as [|d ds] eqn:Hd; cbn [is_nil] in Hr.
  { injection Hr as <- <-. split; [done|]. exists (h0 :: hits). left. by rewrite Hd. }
  cbv beta in Hr. destruct (rerank query (d :: ds) cfg w2) as [[reranked|e] w3] eqn:Hk; [|done].
  injection Hr as <- <-. pose proof (ask_json_Ok _ _ _ _ _ _ _ _ Hk) as [Hw3 Hs3].
  split; [congruence|]. exists (h0 :: hits). right. rewrite Hd.
  eexists reranked, [q; _], _. split_and!.
  - rewrite Hw3, Hw2, Hw1, <- !app_assoc. reflexivity.
  - done.
  - done.
  - done.
  - intros v. apply ranked_elem.
  - intros h score f. apply hit_output_field.
  - intros HF index. rewrite <- Hd. by apply documents_in_place.
Qed.
End properties.

(** ** What the tools send *)

Section effects.
Context {E : Type} `{McpEnv E} `{UuidLib} `{!UuidLaws}.
Context (settings : Settings).

(** A request that is not for the API carries no key of it. *)
Definition outside (r : McpRequest) : Prop := mr_api_key r = None ∧ requested_url r = None.

Lemma uses_call_web_tool (allowed : string → Prop) id command args fallback :
  (∀ u, opens args = Some u → allowed u) →
  uses (on_behalf settings allowed id)
    (call_web_tool settings (uuid_to_string id) command args fallback).
Proof.
  intros Hu. unfold call_web_tool, parse_sandbox_id. rewrite uuid_read_back. apply uses_known.
  apply uses_bind; [by apply uses_execute_tool|]. intros [result|e]; [apply uses_ret|].
  destruct (_ && _); [|apply uses_ret].
  apply uses_try; [|intros; apply uses_ret]. apply uses_bind; [|intros; apply uses_ret]. apply uses_exec.
Qed.

Lemma uses_scrape (allowed : string → Prop) id c :
  sc_sandbox_id c = uuid_to_string id → allowed (sc_url c) →
  uses (on_behalf settings allowed id) (scrape_web settings c).
Proof.
  intros Hid Hu. unfold scrape_web. rewrite Hid. apply uses_try; [|intros; apply uses_ret].
  apply uses_call_web_tool. intros u. unfold opens, scrape_args. simpl. by intros [= <-].
Qed.

Lemma uses_search_web config : uses outside (search_web settings config).
Proof.
  unfold search_web. destruct (normalize_search_query _) as [query|e]; [|apply uses_refused].
  apply uses_known. destruct (normalize_search_engine _) as [engine|e]; [|apply uses_refused].
  apply uses_known. destruct (normalize_num_results _) as [n|e]; [|apply uses_refused].
  apply uses_known. apply uses_try; [|intros; apply uses_ret]. unfold call_searxng_search.
  destruct (match sw_timeout config with Some x => _ | None => _ end); [apply uses_ret|].
  apply uses_try; [apply uses_bind; [apply uses_env|intros; apply uses_ret]|]. intros _.
  apply uses_try; [|intros; apply uses_ret]. apply uses_bind; [by apply uses_send|intros; apply uses_ret].
Qed.

Lemma uses_ask_json {A} P step name request (parse : string → Result A string) response_name :
  P request → uses P (ask_json step name request parse response_name).
Proof.
  intros HP. apply uses_try; [|intros; apply uses_ret].
  apply uses_bind; [by apply uses_send|intros; apply uses_ret].
Qed.

Lemma uses_retrieve cfg query limit : uses outside (search_with cfg query limit).
Proof.
  apply uses_try; [|intros; apply uses_ret].
  apply uses_try; [apply uses_try; [by apply uses_ask_json|intros; apply uses_ret]|]. intros embedding.
  apply uses_try; [by apply uses_ask_json|]. intros hits. destruct (is_nil _); [apply uses_ret|].
  cbv zeta. destruct (is_nil _); [apply uses_ret|].
  apply uses_try; [by apply uses_ask_json|intros; apply uses_ret].
Qed.

Lemma web_fetch_effect a w (allowed : string → Prop) may_create :
  (validate_url_secure (wfa_url a) = Ok () → allowed (wfa_url a)) →
  session_effect settings allowed may_create (wfa_session_id a) w (run_st (web_fetch settings a) w).
Proof.
  intros Hu. unfold web_fetch. destruct (validate_url_secure (wfa_url a)) as [[]|e].
  - apply (resolved_effect _ _ _ _ (λ r, failing (result_map_err (internal_error "resolve_or_create") r))).
    + intros [id|e'] id'; [by intros [= ->]|done].
    + intros id. apply uses_try; [|intros; apply uses_ret].
      apply uses_bind; [by apply uses_scrape; auto|intros; apply uses_ret].
  - split; [done|]. by apply sends_same.
Qed.
End effects.

(** ** A small outside *)

Module McpDemo.

(** The answers that are still to come. *)
Definition Outside : Type := list (Result HttpResponse string).

Definition next : M Outside (Result HttpResponse string) := λ l,
  match l with [] => (Err "connection refused", []) | r :: l => (r, l) end.

Fixpoint marks (n : nat) : string := match n with O => "" | S n => "x" +:+ marks n end.

#[export] Instance uuids : UuidLib := {|
  uuid_to_string := λ u, marks (N.to_nat u);
  uuid_parse_str := λ s, if string_forall (Ascii.eqb "x") s
                         then Some (N.of_nat (String.length s)) else None;
|}.

Lemma marks_shape n : string_forall (Ascii.eqb "x") (marks n) = true ∧ String.length (marks n) = n.
Proof. induction n as [|n [IH1 IH2]]; simpl; [done|]. by rewrite IH1, IH2. Qed.

#[export] Instance uuids_laws : UuidLaws.
Proof.
  split. intros id. simpl. destruct (marks_shape (N.to_nat id)) as [-> ->]. by rewrite N2Nat.id.
Qed.

(** The scheme, and the host up to a slash. *)
Definition read_url (url : string) : option (string * option string) :=
  match split_once ":" url with
  | Some (scheme, rest) =>
      match strip_prefix "//" rest with
      | Some rest => Some (scheme, Some (default "" (head (split_on "/" rest))))
      | None => Some (scheme, None)
      end
  | None => None
  end.

Definition sandbox_of (body : string) : Result McpSandbox string :=
  Ok (mkMcpSandbox (N.of_nat (String.length body)) "running" "image" None JNull None "" "").

(** Two neighbours, of which the first has no text. *)
Definition hits : list (list (string * Json)) :=
  [[("id", JNumber 1)]; [("id", JNumber 2); ("doc", JString "text")]].

#[export] Instance outside_env : McpEnv Outside := {|
  m_http := λ _, next;
  m_now := mret 7;
  m_local_time := λ _, mret ("noon", "+00:00");
  m_client := mret (Ok ());
  url_parse := read_url;
  to_lowercase := to_ascii_lowercase;
  header_ok := λ _, true;
  url_encode := id;
  uuid_error := λ _, "invalid";
  json_from_str := λ s, Ok (JObject [("content", JString s)]);
  json_to_string := λ _, "json";
  json_to_string_pretty := λ _, "json";
  f64_text := λ x, Z_to_string (f64_to_bits x);
  parse_sandbox := sandbox_of;
  parse_sandbox_page := λ _, Ok [];
  parse_exec_result := λ s, Ok (mkExecResult s 0);
  parse_health := λ s, Ok s;
  parse_embeddings := λ _, Ok [[f64_of_Z 1]];
  parse_search_hits := λ body, Ok (if String.eqb body "late" then drop 1 hits else hits);
  parse_reranked := λ _, Ok [(0, f64_of_Z 1); (1, f64_of_Z 0)];
|}.

Definition answered (body : string) : Result HttpResponse string :=
  Ok (mkHttpResponse 200 "200 OK" (Ok body)).

Definition fresh (answers : Outside) : @Mcp Outside := mkMcp answers ∅ [].

Definition cfg : RetrievalSettings := KnowledgeRetrievalSettings_default.

(** The only text ranked is that of the second neighbour, and the first one is
    returned for it. *)
Example wrong_neighbour :
  run_val (hybrid_retrieve "query" 10
             (mkRetrievalSettings "" "" 10 f64_zero (decimal 1 2) "" "" None "" "" None "" ["id"] "doc"))
          (fresh [answered ""; answered ""; answered ""])
  = Ok [JObject [("id", JNumber 1); ("relevance_score", json_f64 (f64_of_Z 1))]].
Proof. vm_compute. done. Qed.

Example guarded :
  map (λ url, is_ok (validate_url_secure url))
    ["https://example.com/"; "http://127.0.0.1/"; "http://172.20.0.1/"; "http://172.32.0.1/";
     "http://[::1]/"; "http://fdic.gov/"; "file:///etc/passwd"]
  = [true; false; false; true; true; false; false].
Proof. vm_compute. done. Qed.

(** A search whose time limit is negative, or whose error does not cut between
    characters, panics. *)
Example search_panics :
  run_val (search_web Settings_default
             (mkSearchWebConfig "q" None None (Some (f64_of_Z (-1))) None None None)) (fresh [])
    = Err Panics ∧
  slice_to 1 (bytes [195; 169]%N) = None.
Proof. vm_compute. done. Qed.
End McpDemo.

Module Witnesses.
Import McpDemo.

Lemma validate_url_spec_witness :
  let url := "http://[::1]/" in
  url ≠ "" ∧ url_parse (E := Outside) url = Some ("http", Some "[::1]") ∧
  validate_url_secure (E := Outside) url = Ok ().
Proof.
  split; [discriminate|]. split; [reflexivity|].
  destruct (validate_url_spec (E := Outside) "http://[::1]/" "http" "[::1]") as [_ Hv];
    [discriminate|reflexivity|].
  destruct Hv as [_ Hv]; [set_solver|]. apply (Hv "::1]"). reflexivity.
Defined.

Lemma retrieval_spec_witness :
  let w := fresh [answered ""; answered "late"; answered ""] in
  let '(r, w') := hybrid_retrieve "query" 10 cfg w in
  r = Ok [JObject [("doc", JString "text"); ("relevance_score", json_f64 (f64_of_Z 1))]] ∧
  mc_sessions w' = mc_sessions w.
Proof.
  split; [vm_compute; reflexivity|].
  destruct (retrieval_spec "query" 10 cfg (fresh [answered ""; answered "late"; answered ""])
              [JObject [("doc", JString "text"); ("relevance_score", json_f64 (f64_of_Z 1))]]
              (run_st (hybrid_retrieve "query" 10 cfg)
                      (fresh [answered ""; answered "late"; answered ""]))) as [Hs _];
    [vm_compute; reflexivity|].
  exact Hs.
Defined.
End Witnesses.
