(* ===== verification/McpTools.v ===== *)
(** * McpTools: the tools of the MCP server

    Models [tools/browser.rs], the services for sandboxes, browsers, terminals
    and the time, the tools of the older single service and the resources of
    [src/dsb-mcp-server/src/].  All tools of a session act on the sandbox that
    the session is mapped to. *)

From S2P Require Import Prelude Text Paths Errors World KubeBackend Float64 McpSettings McpClient McpWeb.
From Stdlib Require Import Ascii.

(** The arguments of [main]. *)
Record McpArgs : Type := mkMcpArgs {
  arg_port : option Z;
  arg_dsb_api_url : option string;
  arg_searxng_api_url : option string;
  arg_api_key : option string;
  arg_log_level : option string;
}.

Definition with_port (s : Settings) (port : Z) : Settings :=
  mkSettings (pagerduty_key s)
    (mkServerSettings port (mcp_host (set_server s)) (mcp_server_system_name (set_server s)))
    (set_storage s) (set_dsb s) (set_web s) (set_web_engine_mapping s) (set_web_format_mapping s)
    (set_sandbox s) (set_terminal s) (set_browser s) (set_ssh s) (set_system s)
    (set_value_retrieval s) (set_knowledge_retrieval s).

Definition with_dsb (s : Settings) (dsb : DSBSettings) : Settings :=
  mkSettings (pagerduty_key s) (set_server s) (set_storage s) dsb (set_web s)
    (set_web_engine_mapping s) (set_web_format_mapping s) (set_sandbox s) (set_terminal s)
    (set_browser s) (set_ssh s) (set_system s) (set_value_retrieval s) (set_knowledge_retrieval s).

Definition with_web (s : Settings) (web : WebSettings) : Settings :=
  mkSettings (pagerduty_key s) (set_server s) (set_storage s) (set_dsb s) web
    (set_web_engine_mapping s) (set_web_format_mapping s) (set_sandbox s) (set_terminal s)
    (set_browser s) (set_ssh s) (set_system s) (set_value_retrieval s) (set_knowledge_retrieval s).

Definition with_system (s : Settings) (system : SystemSettings) : Settings :=
  mkSettings (pagerduty_key s) (set_server s) (set_storage s) (set_dsb s) (set_web s)
    (set_web_engine_mapping s) (set_web_format_mapping s) (set_sandbox s) (set_terminal s)
    (set_browser s) (set_ssh s) system (set_value_retrieval s) (set_knowledge_retrieval s).

Definition with_searxng_url (s : Settings) (url : string) : Settings :=
  let w := set_web s in
  with_web s
    (mkWebSettings url (searxng_timeout w) (searxng_result_num w) (searxng_default_engines w)
       (searxng_default_categories w) (searxng_safesearch w) (word_count_threshold w)
       (pruning_threshold w) (bm25_threshold w) (wait_until w) (cache_mode w) (page_timeout w)
       (default_format w) (health_check_retry_times w) (health_check_retry_interval w)
       (allow_exec_fallback w)).

(** What [main] makes of the loaded settings, its arguments and two variables
    of the environment. *)
Definition override_settings (s : Settings) (args : McpArgs) (env : string → option string) : Settings :=
  let given {A} (o : option A) (f : Settings → A → Settings) s :=
    match o with Some a => f s a | None => s end in
  let s := given (arg_port args) with_port s in
  let s := given (arg_dsb_api_url args)
             (λ s url, with_dsb s (mkDSBSettings url (dsb_api_key (set_dsb s)) (timeout_secs (set_dsb s)))) s in
  let s := given (arg_searxng_api_url args) with_searxng_url s in
  let with_key s key :=
    with_dsb s (mkDSBSettings (dsb_api_url (set_dsb s)) (Some key) (timeout_secs (set_dsb s))) in
  let s := given (arg_api_key args) with_key s in
  let s := given (arg_log_level args)
             (λ s level, with_system s (mkSystemSettings (date_format (set_system s)) level)) s in
  let s := given (env "DSB_API_KEY")
             (λ s key, match dsb_api_key (set_dsb s) with None => with_key s key | Some _ => s end) s in
  given (env "DSB_SEARXNG_API_URL")
    (λ s url, if String.eqb (searxng_url (set_web s)) "http://localhost:8888/search"
              then with_searxng_url s url else s) s.

(** ** Commands for the shell ([services/sandbox.rs]) *)

Definition apostrophe : string := "'".
Definition escape_apostrophes (s : string) : string :=
  replace apostrophe (apostrophe +:+ "\" +:+ apostrophe +:+ apostrophe) s.

Definition shell_quote (s : string) : string := apostrophe +:+ escape_apostrophes s +:+ apostrophe.

(** A [HashMap] is the list of its entries in the order of its iteration. *)
Definition build_shell_command (command : string) (working_dir : option string)
    (environment : option (list (string * string))) : list string :=
  let exports :=
    join "" ((λ '(key, value), "export " +:+ key +:+ "=" +:+ apostrophe
                               +:+ escape_apostrophes value +:+ apostrophe +:+ "; ")
             <$> default [] environment) in
  let cd := match working_dir with Some dir => "cd " +:+ shell_quote dir +:+ " && " | None => "" end in
  ["sh"; "-c"; exports +:+ cd +:+ command].

(** [trim_start_matches] of a text. *)
Fixpoint trim_start_matches_fuel (fuel : nat) (p s : string) : string :=
  match fuel, strip_prefix p s with
  | S fuel, Some t => trim_start_matches_fuel fuel p t
  | _, _ => s
  end.

Definition trim_start_matches (p s : string) : string :=
  trim_start_matches_fuel (String.length s) p s.

Definition strip_suffix (p s : string) : option string :=
  string_rev <$> strip_prefix (string_rev p) (string_rev s).

Section tools.
Context {E : Type} `{McpEnv E} `{UuidLib}.
Context (settings : Settings).
(** Whether the log takes records of level [INFO]; their fields are evaluated
    only then. *)
Context (log_info : bool).

Abbreviation M0 := (M (@Mcp E)).

(** ** The browser of a sandbox ([tools/browser.rs]) *)

Definition BROWSER_TOOLS_PATH : string := "/opt/tools/agent_browser_tools.py".

Definition call_browser_tool (sandbox_id action : string) (args : Json) : M0 (Result Json string) :=
  let* id := mret (parse_sandbox_id sandbox_id) in
  r ← client_execute_tool settings id "python" BROWSER_TOOLS_PATH action (Some args) None;
  mret (result_map_err (λ e, "Browser tool execution failed: " +:+ e) r).

Definition navigate (sandbox_id url : string) : M0 (Result string string) :=
  let* _ := mret (parse_sandbox_id sandbox_id) in
  let* _ := mret (validate_url_secure url) in
  let* result := call_browser_tool sandbox_id "browser_navigate" (JObject [("url", JString url)]) in
  mret (Ok ("**Navigated to:** " +:+ default "unknown" (text_at "url" result) +:+ nl +:+ nl
            +:+ "**Message:** " +:+ default "" (text_at "message" result))).

Definition snapshot (sandbox_id : string) (interactive : bool) : M0 (Result string string) :=
  let* result := call_browser_tool sandbox_id "browser_snapshot"
                   (JObject [("interactive", JBool interactive)]) in
  mret (Ok (match text_at "snapshot" result with
            | Some s => s
            | None => json_to_string_pretty result
            end)).

(** The element meant: by reference if there is one. *)
Definition element (ref selector : option string) : Result (list (string * Json)) string :=
  match ref, selector with
  | Some r, _ => Ok [("ref", JString r)]
  | None, Some s => Ok [("selector", JString s)]
  | None, None => Err "Must provide either ref or selector"
  end.

Definition click (sandbox_id : string) (ref selector : option string) : M0 (Result string string) :=
  let* args := mret (element ref selector) in
  let* _ := call_browser_tool sandbox_id "browser_click" (JObject args) in
  mret (Ok "**Clicked element successfully**").

Definition fill (sandbox_id : string) (ref selector : option string) (value : string)
    (clear : option bool) : M0 (Result string string) :=
  let* args := mret (element ref selector) in
  let* _ := call_browser_tool sandbox_id "browser_fill"
              (JObject ([("value", JString value)] ++ args ++ field "clear" JBool clear)) in
  mret (Ok "**Filled form field successfully**").

Definition screenshot (sandbox_id : string) (full_page : bool) (name selector : option string)
    : M0 (Result string string) :=
  let* result := call_browser_tool sandbox_id "browser_screenshot"
                   (JObject ([("fullPage", JBool full_page)] ++ field "name" JString name
                             ++ field "selector" JString selector)) in
  mret (Ok ("**Screenshot saved to:** " +:+ default "/tmp/screenshot.png" (text_at "path" result))).

Definition evaluate (sandbox_id script : string) : M0 (Result string string) :=
  let* result := call_browser_tool sandbox_id "browser_evaluate" (JObject [("script", JString script)]) in
  mret (Ok ("**Result:** " +:+ default "null" (text_at "result" result))).

Definition scroll (sandbox_id direction : string) (amount : Z) : M0 (Result string string) :=
  let* _ := call_browser_tool sandbox_id "browser_scroll"
              (JObject [("direction", JString direction); ("amount", JNumber amount)]) in
  mret (Ok "**Scrolled successfully**").

Definition go_back (sandbox_id : string) : M0 (Result string string) :=
  let* result := call_browser_tool sandbox_id "browser_go_back" (JObject []) in
  mret (Ok ("**Went back, current URL:** " +:+ default "" (text_at "url" result))).

Definition go_forward (sandbox_id : string) : M0 (Result string string) :=
  let* result := call_browser_tool sandbox_id "browser_go_forward" (JObject []) in
  mret (Ok ("**Went forward, current URL:** " +:+ default "" (text_at "url" result))).

Definition wait (sandbox_id : string) (selector text : option string) (time_ms : option Z)
    : M0 (Result string string) :=
  let* args := mret (match selector, text, time_ms with
                     | Some s, _, _ => Ok [("selector", JString s)]
                     | None, Some t, _ => Ok [("text", JString t)]
                     | None, None, Some t => Ok [("time", JNumber t)]
                     | None, None, None => Err "Must provide selector, text, or time"
                     end) in
  let* _ := call_browser_tool sandbox_id "browser_wait" (JObject args) in
  mret (Ok "**Wait completed**").

Definition press_key (sandbox_id key : string) : M0 (Result string string) :=
  let* _ := call_browser_tool sandbox_id "browser_press_key" (JObject [("key", JString key)]) in
  mret (Ok ("**Pressed key:** " +:+ key)).

Definition tab_item (i : nat) (tab : Json) : string :=
  Z_to_string (Z.of_nat i) +:+ ". **" +:+ default "" (text_at "title" tab) +:+ "** - "
  +:+ default "" (text_at "url" tab) +:+ nl.

Definition tabs (sandbox_id action : string) (index : option Z) (url : option string)
    : M0 (Result string string) :=
  let* result := call_browser_tool sandbox_id "browser_tabs"
                   (JObject ([("action", JString action)] ++ field "index" JNumber index
                             ++ field "url" JString url)) in
  mret (Ok (if String.eqb action "list"
            then "**Open Tabs:**" +:+ nl +:+ nl
                 +:+ join "" (imap tab_item (default [] (json_get "tabs" result ≫= json_as_array)))
            else "**Tab action '" +:+ action +:+ "' completed**")).

(** The actions of the older interface. *)
Definition automate_browser (sandbox_id action : string) (selector value url : option string)
    : M0 (Result string string) :=
  match action with
  | "navigate" => navigate sandbox_id (default "" url)
  | "click" => click sandbox_id None selector
  | "fill" | "type" => fill sandbox_id None selector (default "" value) None
  | "screenshot" => screenshot sandbox_id false None None
  | "back" => go_back sandbox_id
  | "forward" => go_forward sandbox_id
  | _ => mret (Err ("Unknown browser action: " +:+ action))
  end.

(** ** Answers *)

Definition answer (fields : list (string * Json)) : Result string (Failure ErrorData) :=
  Ok (json_to_string_pretty (JObject fields)).

(** The error of a tool carries the tool's name. *)
Definition in_tool {A} (tool : string) (m : M0 (Result A string)) : M0 (Result A (Failure ErrorData)) :=
  r ← m; mret (failing (result_map_err (internal_error tool) r)).

(** Every tool on a session finds or makes the session's sandbox first. *)
Definition on_sandbox {A} (session_id : string) (k : Uuid → M0 (Result A (Failure ErrorData)))
    : M0 (Result A (Failure ErrorData)) :=
  let* sandbox_id := resolve_or_create_session settings session_id in k sandbox_id.

(** ** The browser tools ([services/browser.rs]) *)

Definition browser_answer (output : Json) : Result string (Failure ErrorData) :=
  answer [("success", JBool true); ("status", JString (success_status (set_browser settings)));
          ("output", output)].

Definition browser_tool (tool session_id : string) (run : string → M0 (Result string string))
    : M0 (Result string (Failure ErrorData)) :=
  on_sandbox session_id (λ sandbox_id,
    let* result := in_tool tool (run (uuid_to_string sandbox_id)) in
    mret (browser_answer (JString result))).

(** A tool that answers with what the script gives. *)
Definition browser_raw_tool (tool session_id : string) : M0 (Result string (Failure ErrorData)) :=
  on_sandbox session_id (λ sandbox_id,
    let* result := in_tool tool (call_browser_tool (uuid_to_string sandbox_id) tool (JObject [])) in
    mret (browser_answer result)).

Definition browser_navigate (session_id url : string) : M0 (Result string (Failure ErrorData)) :=
  let* _ := mret (failing (result_map_err (invalid_params "browser_navigate")
                                          (validate_url_secure url))) in
  browser_tool "browser_navigate" session_id (λ id, navigate id url).

Definition browser_get_clickable_elements (session_id : string) :=
  browser_tool "browser_get_clickable_elements" session_id (λ id, snapshot id true).

Definition browser_click (session_id : string) (index : option Z) (selector : option string) :=
  browser_tool "browser_click" session_id
    (λ id, click id ((λ i, "@e" +:+ Z_to_string i) <$> index) selector).

Definition browser_fill (session_id selector value : string) (clear : option bool) :=
  browser_tool "browser_fill" session_id (λ id, fill id None (Some selector) value clear).

Definition browser_scroll (session_id : string) (amount : option Z) :=
  browser_tool "browser_scroll" session_id (λ id, scroll id "down" (default 300 amount)).

Definition browser_screenshot (session_id : string) (name : option string) (full_page : option bool)
    (selector : option string) :=
  browser_tool "browser_screenshot" session_id
    (λ id, screenshot id (default (screenshot_full_page (set_browser settings)) full_page) name selector).

(** The URL is not looked at. *)
Definition browser_new_tab (session_id : string) (url : option string) :=
  browser_tool "browser_new_tab" session_id (λ id, tabs id "new" None url).

Definition browser_tab_list (session_id : string) :=
  browser_tool "browser_tab_list" session_id (λ id, tabs id "list" None None).

Definition browser_switch_tab (session_id : string) (index : Z) :=
  browser_tool "browser_switch_tab" session_id (λ id, tabs id "select" (Some index) None).

Definition browser_health_check (session_id : string) := browser_raw_tool "browser_health_check" session_id.

Definition browser_go_back (session_id : string) :=
  browser_tool "browser_go_back" session_id go_back.

Definition browser_go_forward (session_id : string) :=
  browser_tool "browser_go_forward" session_id go_forward.

Definition browser_evaluate (session_id script : string) :=
  browser_tool "browser_evaluate" session_id (λ id, evaluate id script).

Definition browser_close (session_id : string) := browser_raw_tool "browser_close" session_id.

(** ** The sandbox tools ([services/sandbox.rs]) *)

(** The sandbox of a session that has one. *)
Definition resolve_session (session_id : string) : M0 (Result Uuid (Failure ErrorData)) :=
  cached ← session_get session_id;
  mret (option_ok_or
          (Fails (invalid_params "session_id"
                    ("No sandbox found for session '" +:+ session_id
                     +:+ "'. Create a sandbox first using create_sandbox."))) cached).

Record CreateSandboxArgs : Type := mkCreateSandboxArgs {
  csa_session_id : string;
  csa_name : option string;
  csa_image : option string;
  csa_environment : option (list (string * string));
  csa_volumes : option (list (string * string));
  csa_command : option (list string);
  csa_resource_limits : option McpResourceLimits;
}.

(** The environment given wins over the standard one. *)
Definition merged_environment (s : Settings) (environment : option (list (string * string)))
    : gmap string string :=
  match environment with
  | Some user => list_to_map user ∪ get_sandbox_env s
  | None => get_sandbox_env s
  end.

Definition create_config (a : CreateSandboxArgs) : CreateSandboxConfig :=
  {| cc_image := default (mcp_default_image (set_sandbox settings)) (csa_image a);
     cc_name := csa_name a;
     cc_environment := Some (merged_environment settings (csa_environment a));
     cc_port_mappings := None; cc_resource_limits := csa_resource_limits a;
     cc_volumes := fmap (M := list) (λ '(host, container), mkMcpVolumeMount "bind" host container false)
                   <$> csa_volumes a;
     cc_command := csa_command a; cc_inactivity_timeout_minutes := None; cc_pull_policy := None |}.

Definition sandbox_fields (sandbox : McpSandbox) : list (string * Json) :=
  [("id", JString (uuid_to_string (ms_id sandbox))); ("name", json_opt_string (ms_name sandbox));
   ("image", JString (ms_image sandbox)); ("state", JString (ms_state sandbox));
   ("created_at", JString (ms_created_at sandbox))].

(** The session's sandbox if it runs. *)
Definition running_sandbox (session_id : string) : M0 (option McpSandbox) :=
  cached ← session_get session_id;
  match cached with
  | None => mret None
  | Some id =>
      r ← client_get_sandbox settings id;
      mret (match r with
            | Ok sandbox => if String.eqb (ms_state sandbox) "running" then Some sandbox else None
            | Err _ => None
            end)
  end.

Definition create_sandbox (a : CreateSandboxArgs) : M0 (Result string (Failure ErrorData)) :=
  existing ← running_sandbox (csa_session_id a);
  match existing with
  | Some sandbox =>
      mret (answer (sandbox_fields sandbox
                    ++ [("session_id", JString (csa_session_id a));
                        ("message", JString "Sandbox already exists and is running");
                        ("reused", JBool true)]))
  | None =>
      let* sandbox := in_tool "create_sandbox" (create_sandbox_full settings (create_config a)) in
      _ ← session_set (csa_session_id a) (ms_id sandbox);
      mret (answer (sandbox_fields sandbox ++ [("session_id", JString (csa_session_id a))]))
  end.

Definition destroy_sandbox (session_id : string) : M0 (Result string (Failure ErrorData)) :=
  let* sandbox_id := resolve_session session_id in
  let* _ := in_tool "destroy_sandbox" (client_delete_sandbox settings sandbox_id) in
  _ ← session_remove session_id;
  mret (answer [("success", JBool true);
                ("message", JString ("Destroyed sandbox for session " +:+ session_id))]).

Definition get_sandbox (session_id : string) : M0 (Result string (Failure ErrorData)) :=
  let* sandbox_id := resolve_session session_id in
  let* sandbox := in_tool "get_sandbox" (client_get_sandbox settings sandbox_id) in
  mret (answer (sandbox_fields sandbox
                ++ [("session_id", JString session_id); ("updated_at", JString (ms_updated_at sandbox))])).

(** The record of the log takes the first 100 bytes of the command. *)
Definition log_command (command : string) : Result () (Failure ErrorData) :=
  if log_info then
    match slice_to (Nat.min (String.length command) 100) command with
    | Some _ => Ok ()
    | None => Err Panics
    end
  else Ok ().

Record ExecuteCommandArgs : Type := mkExecuteCommandArgs {
  eca_session_id : string;
  eca_command : string;
  eca_working_dir : option string;
  eca_environment : option (list (string * string));
  eca_timeout : option Z;
}.

Definition execute_command (a : ExecuteCommandArgs) : M0 (Result string (Failure ErrorData)) :=
  let* _ := mret (log_command (eca_command a)) in
  on_sandbox (eca_session_id a) (λ sandbox_id,
    let cmd := build_shell_command (eca_command a) (eca_working_dir a) (eca_environment a) in
    let* result := in_tool "execute_command" (exec_command settings sandbox_id cmd) in
    mret (answer [("stdout", JString (er_output result)); ("stderr", JString "");
                  ("exitCode", JNumber (er_exit_code result));
                  ("errorType", if er_exit_code result =? 0 then JNull
                                else JString "CommandExecutionError");
                  ("timedOut", JBool false)])).

Definition file_upload (session_id file_path content : string) : M0 (Result string (Failure ErrorData)) :=
  on_sandbox session_id (λ sandbox_id,
    let* _ := in_tool "file_upload" (client_upload_file settings sandbox_id file_path content) in
    mret (answer [("success", JBool true); ("file_path", JString file_path);
                  ("message", JString ("File uploaded successfully at " +:+ file_path))])).

Definition file_download (session_id file_path : string) : M0 (Result string (Failure ErrorData)) :=
  on_sandbox session_id (λ sandbox_id,
    let* content := in_tool "file_download" (client_download_file settings sandbox_id file_path) in
    mret (answer [("success", JBool true); ("file_path", JString file_path);
                  ("content", JString content);
                  ("encoding", JString (file_encoding (set_sandbox settings)));
                  ("message", JString ("File downloaded successfully from " +:+ file_path))])).

Definition files_list_url (sandbox_id : Uuid) : string :=
  api_url settings +:+ static_files_endpoint (set_sandbox settings) +:+ uuid_to_string sandbox_id.

Definition get_static_file_url (session_id : string) (file_path : option string)
    : M0 (Result string (Failure ErrorData)) :=
  on_sandbox session_id (λ sandbox_id,
    let file_path := default (default_static_file (set_sandbox settings)) file_path in
    let static_url := api_url settings +:+ static_file_endpoint (set_sandbox settings)
                      +:+ uuid_to_string sandbox_id +:+ "/" +:+ file_path in
    mret (answer [("success", JBool true); ("session_id", JString session_id);
                  ("sandbox_id", JString (uuid_to_string sandbox_id));
                  ("file_path", JString file_path); ("static_url", JString static_url);
                  ("files_list_url", JString (files_list_url sandbox_id));
                  ("message", JString ("Static file URL generated for " +:+ file_path))])).

Definition list_static_files (session_id : string) : M0 (Result string (Failure ErrorData)) :=
  on_sandbox session_id (λ sandbox_id,
    let* files := in_tool "list_static_files" (client_list_static_files settings sandbox_id) in
    mret (answer [("success", JBool true); ("session_id", JString session_id);
                  ("sandbox_id", JString (uuid_to_string sandbox_id));
                  ("files_list_url", JString (files_list_url sandbox_id)); ("files", JArray files);
                  ("total", JNumber (Z.of_nat (length files)));
                  ("message", JString ("Found " +:+ Z_to_string (Z.of_nat (length files))
                                       +:+ " static file(s) in sandbox"))])).

(** ** The terminal tools ([services/terminal.rs]) *)

Definition websocket_url (sandbox_id : Uuid) : string :=
  let url := api_url settings in
  let protocol := if starts_with "https://" url
                  then websocket_protocol_https (set_terminal settings)
                  else websocket_protocol_http (set_terminal settings) in
  let host := trim_start_matches "https://" (trim_start_matches "http://" url) in
  protocol +:+ host +:+ "/terminal/" +:+ uuid_to_string sandbox_id.

Definition terminal_connect (session_id : string) : M0 (Result string (Failure ErrorData)) :=
  on_sandbox session_id (λ sandbox_id,
    let t := set_terminal settings in
    mret (answer [("success", JBool true); ("ws_url", JString (websocket_url sandbox_id));
                  ("rows", JNumber (default_rows t)); ("cols", JNumber (default_cols t));
                  ("instructions", JString (websocket_instructions t))])).

Definition terminal_execute (session_id command : string) : M0 (Result string (Failure ErrorData)) :=
  let* _ := mret (log_command command) in
  on_sandbox session_id (λ sandbox_id,
    let* result := in_tool "terminal_execute" (exec_command settings sandbox_id ["sh"; "-c"; command]) in
    mret (answer [("success", JBool true); ("output", JString (er_output result));
                  ("exit_code", JNumber (er_exit_code result))])).

(** Nothing is told to a terminal. *)
Definition terminal_resize (session_id : string) (rows cols : option Z)
    : M0 (Result string (Failure ErrorData)) :=
  on_sandbox session_id (λ _,
    let t := set_terminal settings in
    mret (answer [("success", JBool true); ("rows", JNumber (default (default_rows t) rows));
                  ("cols", JNumber (default (default_cols t) cols));
                  ("message", JString "Terminal resized")])).

(** ** The time ([services/system.rs]) *)

Definition get_system_time : M0 (Result string (Failure ErrorData)) :=
  let format := date_format (set_system settings) in
  '(time, zone) ← mc_on_env (m_local_time format);
  mret (answer [("current_time", JString time); ("format", JString format);
                ("timezone", JString zone)]).

(** ** The tools of the six services *)

Inductive ToolCall : Type :=
  | CreateSandbox (a : CreateSandboxArgs)
  | DestroySandbox (session_id : string)
  | GetSandbox (session_id : string)
  | ExecuteCommand (a : ExecuteCommandArgs)
  | FileUpload (session_id file_path content : string)
  | FileDownload (session_id file_path : string)
  | GetStaticFileUrl (session_id : string) (file_path : option string)
  | ListStaticFiles (session_id : string)
  | WebFetch (a : WebFetchArgs)
  | WebSearch (config : SearchWebConfig)
  | BrowserNavigate (session_id url : string)
  | BrowserGetClickableElements (session_id : string)
  | BrowserClick (session_id : string) (index : option Z) (selector : option string)
  | BrowserFill (session_id selector value : string) (clear : option bool)
  | BrowserScroll (session_id : string) (amount : option Z)
  | BrowserScreenshot (session_id : string) (name : option string) (full_page : option bool)
      (selector : option string)
  | BrowserNewTab (session_id : string) (url : option string)
  | BrowserTabList (session_id : string)
  | BrowserSwitchTab (session_id : string) (index : Z)
  | BrowserHealthCheck (session_id : string)
  | BrowserGoBack (session_id : string)
  | BrowserGoForward (session_id : string)
  | BrowserEvaluate (session_id script : string)
  | BrowserClose (session_id : string)
  | TerminalConnect (session_id : string)
  | TerminalExecute (session_id command : string)
  | TerminalResize (session_id : string) (rows cols : option Z)
  | GetSystemTime
  | SearchForKnowledge (query : string) (limit : option Z)
  | SearchForPartnerName (query : string) (limit : option Z).

Definition fallible {A X} (m : M0 (Result A X)) : M0 (Result A (Failure X)) := r ← m; mret (failing r).

(** The handler of a call, once its arguments are read. *)
Definition call_tool (c : ToolCall) : M0 (Result string (Failure ErrorData)) :=
  match c with
  | CreateSandbox a => create_sandbox a
  | DestroySandbox s => destroy_sandbox s
  | GetSandbox s => get_sandbox s
  | ExecuteCommand a => execute_command a
  | FileUpload s path content => file_upload s path content
  | FileDownload s path => file_download s path
  | GetStaticFileUrl s path => get_static_file_url s path
  | ListStaticFiles s => list_static_files s
  | WebFetch a => web_fetch settings a
  | WebSearch config => web_search settings config
  | BrowserNavigate s url => browser_navigate s url
  | BrowserGetClickableElements s => browser_get_clickable_elements s
  | BrowserClick s index selector => browser_click s index selector
  | BrowserFill s selector value clear => browser_fill s selector value clear
  | BrowserScroll s amount => browser_scroll s amount
  | BrowserScreenshot s name full_page selector => browser_screenshot s name full_page selector
  | BrowserNewTab s url => browser_new_tab s url
  | BrowserTabList s => browser_tab_list s
  | BrowserSwitchTab s index => browser_switch_tab s index
  | BrowserHealthCheck s => browser_health_check s
  | BrowserGoBack s => browser_go_back s
  | BrowserGoForward s => browser_go_forward s
  | BrowserEvaluate s script => browser_evaluate s script
  | BrowserClose s => browser_close s
  | TerminalConnect s => terminal_connect s
  | TerminalExecute s command => terminal_execute s command
  | TerminalResize s rows cols => terminal_resize s rows cols
  | GetSystemTime => get_system_time
  | SearchForKnowledge query limit => fallible (search_for_knowledge settings query limit)
  | SearchForPartnerName query limit => fallible (search_for_partner_name settings query limit)
  end.

(** ** The older service ([dsb_service.rs])

    It names sandboxes, not sessions; its settings are loaded again for every
    sandbox it creates. *)

Record LegacyCreateArgs : Type := mkLegacyCreateArgs {
  la_image : string;
  la_name : option string;
  la_command : option (list string);
  la_environment : option (list (string * string));
  la_port_mappings : option (list McpPortMapping);
  la_resource_limits : option McpResourceLimits;
  la_volumes : option (list McpVolumeMount);
  la_inactivity_timeout_minutes : option Z;
  la_pull_policy : option string;
}.

Definition created (sandbox : McpSandbox) : string :=
  "Created sandbox: " +:+ uuid_to_string (ms_id sandbox) +:+ " (image: " +:+ ms_image sandbox
  +:+ ", state: " +:+ ms_state sandbox +:+ ")".

Definition legacy_create_sandbox (loaded : option Settings) (a : LegacyCreateArgs)
    : M0 (Result string (Failure ErrorData)) :=
  let config :=
    {| cc_image := la_image a; cc_name := la_name a;
       cc_environment := Some (merged_environment (default Settings_default loaded) (la_environment a));
       cc_port_mappings := la_port_mappings a; cc_resource_limits := la_resource_limits a;
       cc_volumes := la_volumes a; cc_command := la_command a;
       cc_inactivity_timeout_minutes := la_inactivity_timeout_minutes a;
       cc_pull_policy := la_pull_policy a |} in
  let* sandbox := in_tool "create_sandbox" (create_sandbox_full settings config) in
  mret (Ok (created sandbox)).

Definition sandbox_item (sandbox : McpSandbox) : string :=
  "  - " +:+ uuid_to_string (ms_id sandbox) +:+ ": " +:+ default "unnamed" (ms_name sandbox)
  +:+ " (" +:+ ms_state sandbox +:+ ")" +:+ nl.

Definition legacy_list_sandboxes : M0 (Result string (Failure ErrorData)) :=
  let* sandboxes := in_tool "list_sandboxes" (client_list_sandboxes settings) in
  mret (Ok (if is_nil sandboxes then "No sandboxes found"
            else "Sandboxes:" +:+ nl +:+ join "" (sandbox_item <$> sandboxes))).

(** An identifier that does not parse is the caller's fault. *)
Definition legacy_id (tool sandbox_id : string) : Result Uuid (Failure ErrorData) :=
  option_ok_or (Fails (invalid_params tool (uuid_error sandbox_id))) (uuid_parse_str sandbox_id).

Definition legacy_delete_sandbox (sandbox_id : string) : M0 (Result string (Failure ErrorData)) :=
  let* id := mret (legacy_id "delete_sandbox" sandbox_id) in
  let* _ := in_tool "delete_sandbox" (client_delete_sandbox settings id) in
  mret (Ok ("Deleted sandbox: " +:+ sandbox_id)).

Definition legacy_execute_code (sandbox_id code : string) : M0 (Result string (Failure ErrorData)) :=
  let* id := mret (legacy_id "execute_code" sandbox_id) in
  let command := ["sh"; "-c"; "python3 -c " +:+ shell_quote code] in
  let* result := in_tool "execute_code" (exec_command settings id command) in
  mret (Ok (er_output result)).

Definition legacy_execute_bash (sandbox_id command : string) : M0 (Result string (Failure ErrorData)) :=
  let* id := mret (legacy_id "execute_bash" sandbox_id) in
  let* result := in_tool "execute_bash" (exec_command settings id ["sh"; "-c"; command]) in
  mret (Ok (er_output result)).

Record LegacyScrapeArgs : Type := mkLegacyScrapeArgs {
  ls_sandbox_id : string;
  ls_url : string;
  ls_format : option string;
  ls_css_selector : option string;
  ls_screenshot : option bool;
  ls_word_count_threshold : option Z;
}.

Definition legacy_scrape_config (a : LegacyScrapeArgs) : ScrapeWebConfig :=
  {| sc_sandbox_id := ls_sandbox_id a; sc_url := ls_url a; sc_format := ls_format a;
     sc_screenshot := ls_screenshot a; sc_css_selector := ls_css_selector a;
     sc_word_count_threshold := ls_word_count_threshold a; sc_search_query := None;
     sc_use_pruning := None; sc_pruning_threshold := None; sc_bm25_threshold := None;
     sc_wait_until := None; sc_cache_mode := None; sc_page_timeout := None; sc_max_length := None;
     sc_proxy_config := None; sc_allow_exec_fallback := true |}.

(** The threshold is a [usize]; the URL is not looked at. *)
Definition legacy_scrape_web (a : LegacyScrapeArgs) : M0 (Result string (Failure ErrorData)) :=
  let* _ := mret (legacy_id "scrape_web" (ls_sandbox_id a)) in
  if match ls_word_count_threshold a with Some v => 2 ^ 32 - 1 <? v | None => false end
  then mret (Err (Fails (invalid_params "scrape_web" "word_count_threshold exceeds supported range")))
  else in_tool "scrape_web" (scrape_web settings (legacy_scrape_config a)).

Definition legacy_search_web (query : string) (engine : option string) (num_results : option Z)
    : M0 (Result string (Failure ErrorData)) :=
  r ← search_web settings (mkSearchWebConfig query engine num_results None None None None);
  mret (result_map_err (failure_map (internal_error "search_web")) r).

Definition legacy_automate_browser (sandbox_id action : string) (url selector value : option string)
    : M0 (Result string (Failure ErrorData)) :=
  let* _ := mret (legacy_id "automate_browser" sandbox_id) in
  in_tool "automate_browser" (automate_browser sandbox_id action selector value url).

(** ** Helpers that no tool uses ([tools/exec.rs], [tools/sandbox.rs]) *)

(** A command in a sandbox: its output, or an error when it fails. *)
Definition run_checked (sandbox_id : string) (command : list string) (failed unable : string)
    : M0 (Result string string) :=
  let* id := mret (parse_sandbox_id sandbox_id) in
  r ← exec_command settings id command;
  mret (match r with
        | Ok result =>
            if er_exit_code result =? 0 then Ok (er_output result)
            else Err (failed +:+ " (exit code " +:+ Z_to_string (er_exit_code result) +:+ "): "
                      +:+ er_output result)
        | Err e => Err (unable +:+ ": " +:+ e)
        end).

Definition helper_execute_code (sandbox_id code : string) : M0 (Result string string) :=
  run_checked sandbox_id ["python"; "-c"; code] "Code execution failed" "Failed to execute code".

Definition helper_execute_bash (sandbox_id command : string) : M0 (Result string string) :=
  run_checked sandbox_id ["bash"; "-c"; command] "Command failed" "Failed to execute command".

Definition helper_create_sandbox (image : string) (name : option string) : M0 (Result string string) :=
  r ← client_create_sandbox settings image name;
  mret (match r with
        | Ok sandbox => Ok (created sandbox)
        | Err e => Err ("Failed to create sandbox: " +:+ e)
        end).

Definition helper_create_sandbox_with_full_config (c : CreateSandboxConfig)
    : M0 (Result string string) :=
  r ← create_sandbox_full settings c;
  let mention {A} (o : option A) (text : A → string) := match o with Some a => text a | None => "" end in
  mret (match r with
        | Ok sandbox =>
            Ok (created sandbox
                +:+ mention (ms_name sandbox) (λ name, ", name: " +:+ name)
                +:+ mention (cc_environment c) (λ _, ", environment: configured")
                +:+ mention (cc_port_mappings c) (λ _, ", ports: mapped")
                +:+ mention (cc_resource_limits c) (λ _, ", resources: limited")
                +:+ mention (cc_volumes c) (λ _, ", volumes: mounted")
                +:+ mention (cc_command c) (λ _, ", command: set")
                +:+ mention (cc_inactivity_timeout_minutes c)
                      (λ timeout, ", timeout: " +:+ Z_to_string timeout +:+ " minutes")
                +:+ mention (cc_pull_policy c) (λ policy, ", pull_policy: " +:+ policy))
        | Err e => Err ("Failed to create sandbox: " +:+ e)
        end).

Definition helper_list_sandboxes : M0 (Result string string) :=
  r ← client_list_sandboxes settings;
  mret (match r with
        | Ok sandboxes =>
            Ok (if is_nil sandboxes then "No sandboxes found"
                else "Sandboxes:" +:+ nl +:+ join "" (sandbox_item <$> sandboxes))
        | Err e => Err ("Failed to list sandboxes: " +:+ e)
        end).

Definition helper_delete_sandbox (sandbox_id : string) : M0 (Result string string) :=
  let* id := mret (parse_sandbox_id sandbox_id) in
  r ← client_delete_sandbox settings id;
  mret (match r with
        | Ok _ => Ok ("Deleted sandbox: " +:+ sandbox_id)
        | Err e => Err ("Failed to delete sandbox: " +:+ e)
        end).

(** ** Resources ([resources/handlers.rs]) *)

Definition resource_contents (uri : string) (fields : list (string * Json)) : Json :=
  JObject [("contents",
            JArray [JObject [("uri", JString uri); ("mimeType", JString "application/json");
                             ("text", JString (json_to_string (JObject fields)))]])].

Definition handle_server_info : M0 (Result Json string) :=
  let* health := get_health settings in
  let* sandboxes := client_list_sandboxes settings in
  let running := filter (λ s, ms_state s = "running") sandboxes in
  mret (Ok (resource_contents "dsb://server/info"
              [("status", JString health); ("api_url", JString (api_url settings));
               ("total_sandboxes", JNumber (Z.of_nat (length sandboxes)));
               ("running_sandboxes", JNumber (Z.of_nat (length running)));
               ("capabilities",
                json_strings ["web_scraping"; "browser_automation"; "code_execution"])])).

Definition handle_sandbox_status (sandbox_id : string) : M0 (Result Json string) :=
  let* id := mret (option_ok_or ("Invalid sandbox ID: " +:+ sandbox_id) (uuid_parse_str sandbox_id)) in
  let* sandbox := client_get_sandbox settings id in
  mret (Ok (resource_contents ("dsb://sandbox/" +:+ sandbox_id +:+ "/status")
              [("id", JString (uuid_to_string (ms_id sandbox))); ("state", JString (ms_state sandbox));
               ("image", JString (ms_image sandbox)); ("name", json_opt_string (ms_name sandbox));
               ("container_id", json_opt_string (ms_container_id sandbox));
               ("created_at", JString (ms_created_at sandbox));
               ("updated_at", JString (ms_updated_at sandbox));
               ("environment", ms_environment sandbox)])).

Definition handle_resources_list : Json :=
  let resource uri name description :=
    JObject [("uri", JString uri); ("name", JString name); ("description", JString description);
             ("mimeType", JString "application/json")] in
  JObject [("resources",
    JArray [resource "dsb://server/info" "server_info" "DSB server information and statistics";
            resource "dsb://sandbox/{id}/status" "sandbox_status"
              "Sandbox status and resource usage. Replace {id} with actual sandbox UUID."])].

Definition handle_resources_read (uri : string) : M0 (Result Json string) :=
  if String.eqb uri "dsb://server/info" then handle_server_info
  else if starts_with "dsb://sandbox/" uri && is_ok (option_ok_or () (strip_suffix "/status" uri)) then
    match strip_prefix "dsb://sandbox/" uri ≫= strip_suffix "/status" with
    | Some sandbox_id => handle_sandbox_status sandbox_id
    | None => mret (Err ("Invalid sandbox status URI: " +:+ uri))
    end
  else mret (Err ("Unknown resource URI: " +:+ uri)).
End tools.

(** ** What the tools may do *)

Section effects.
Context {E : Type} `{McpEnv E} `{UuidLib} `{!UuidLaws}.
Context (settings : Settings) (log_info : bool).
Implicit Types (w : @Mcp E).

Lemma uses_browser (allowed : string → Prop) id action args :
  (∀ u, opens args = Some u → allowed u) →
  uses (on_behalf settings allowed id) (call_browser_tool settings (uuid_to_string id) action args).
Proof.
  intros Hu. unfold call_browser_tool, parse_sandbox_id. rewrite uuid_read_back. apply uses_known.
  apply uses_bind; [by apply uses_execute_tool|intros; apply uses_ret].
Qed.

Ltac browse :=
  repeat first
    [ apply uses_ret
    | apply uses_browser; intros u; unfold opens; simpl; (done || by intros [= <-])
    | apply uses_try; [|intros ?] ].

Lemma uses_navigate (allowed : string → Prop) id url :
  (validate_url_secure url = Ok () → allowed url) →
  uses (on_behalf settings allowed id) (navigate settings (uuid_to_string id) url).
Proof.
  intros Hu. unfold navigate, parse_sandbox_id at 1. rewrite uuid_read_back. apply uses_known.
  destruct (validate_url_secure url) as [[]|e]; [|apply uses_refused]. apply uses_known.
  apply uses_try; [|intros; apply uses_ret]. apply uses_browser.
  intros u. unfold opens. simpl. intros [= <-]. auto.
Qed.

Lemma uses_click (allowed : string → Prop) id ref selector :
  uses (on_behalf settings allowed id) (click settings (uuid_to_string id) ref selector).
Proof.
  unfold click. destruct ref as [r|], selector as [s|]; simpl; try apply uses_refused;
    apply uses_known; browse.
Qed.

Lemma uses_fill (allowed : string → Prop) id ref selector value clear :
  uses (on_behalf settings allowed id) (fill settings (uuid_to_string id) ref selector value clear).
Proof.
  unfold fill. destruct ref as [r|], selector as [s|]; simpl; try apply uses_refused;
    apply uses_known; destruct clear; browse.
Qed.

Lemma uses_screenshot (allowed : string → Prop) id full_page name selector :
  uses (on_behalf settings allowed id)
    (screenshot settings (uuid_to_string id) full_page name selector).
Proof. unfold screenshot. destruct name, selector; browse. Qed.

Lemma uses_tabs (allowed : string → Prop) id action index url :
  (∀ u, url = Some u → allowed u) →
  uses (on_behalf settings allowed id) (tabs settings (uuid_to_string id) action index url).
Proof.
  intros Hu. apply uses_try; [|intros; apply uses_ret]. apply uses_browser.
  unfold opens. destruct index, url; simpl; intros u; try done; intros [= <-]; auto.
Qed.

(** *** The effect of a tool on its session *)

Lemma on_sandbox_effect {A} (allowed : string → Prop) may_create session_id
    (k : Uuid → M (@Mcp E) (Result A (Failure ErrorData))) w :
  (∀ id, uses (on_behalf settings allowed id) (k id)) →
  session_effect settings allowed may_create session_id w (run_st (on_sandbox settings session_id k) w).
Proof.
  apply (resolved_effect _ _ _ _ (λ r, failing (result_map_err (internal_error "resolve_or_create") r))).
  intros [id|e] id'; [by intros [= ->]|done].
Qed.

Lemma uses_in_tool P {A} tool (m : M (@Mcp E) (Result A string)) : uses P m → uses P (in_tool tool m).
Proof. intros Hm. apply uses_bind; [done|intros; apply uses_ret]. Qed.

(** A tool that acts once and answers. *)
Ltac acts := apply uses_try; [apply uses_in_tool|intros; apply uses_ret].

Lemma browser_tool_effect (allowed : string → Prop) may_create tool session_id run w :
  (∀ id, uses (on_behalf settings allowed id) (run (uuid_to_string id))) →
  session_effect settings allowed may_create session_id w
    (run_st (browser_tool settings tool session_id run) w).
Proof.
  intros Hrun. apply on_sandbox_effect. intros id. apply uses_try; [|intros; apply uses_ret].
  by apply uses_in_tool.
Qed.

Lemma browser_raw_tool_effect (allowed : string → Prop) may_create tool session_id w :
  session_effect settings allowed may_create session_id w
    (run_st (browser_raw_tool settings tool session_id) w).
Proof.
  apply on_sandbox_effect. intros id. apply uses_try; [|intros; apply uses_ret].
  apply uses_in_tool. browse.
Qed.

Lemma same_effect (allowed : string → Prop) may_create session_id w :
  session_effect settings allowed may_create session_id w w.
Proof. split; [done|]. by apply sends_same. Qed.

(** A refusal before the session is looked at. *)
Lemma refused_effect {A B X} (allowed : string → Prop) may_create session_id (r : Result A X)
    (k : A → M (@Mcp E) (Result B X)) w :
  (∀ a, r = Ok a → session_effect settings allowed may_create session_id w (run_st (k a) w)) →
  session_effect settings allowed may_create session_id w (run_st (try_ (mret r) k) w).
Proof. intros Hk. destruct r as [a|e]; [by apply Hk|apply same_effect]. Qed.

(** A tool on the sandbox that the session has, if it has one, after which the
    session may be dropped. *)
Lemma resolve_session_effect {A} (allowed : string → Prop) session_id
    (k : Uuid → M (@Mcp E) (Result A (Failure ErrorData))) w :
  (∀ id w1, mapped w1 session_id = Some id →
     (∀ s, s ≠ session_id → mc_sessions (run_st (k id) w1) !! s = mc_sessions w1 !! s) ∧
     sends (on_behalf settings allowed id) w1 (run_st (k id) w1)) →
  session_effect settings allowed False session_id w (run_st (try_ (resolve_session session_id) k) w).
Proof.
  intros Hk. unfold run_st, try_, resolve_session, mbind, M_bind.
  pose proof (session_get_effect session_id w) as Hget.
  destruct (session_get session_id w) as [r w1]. destruct Hget as (-> & Hm & Ho & Hs).
  destruct (mapped w session_id) as [id|] eqn:Hw; simpl.
  - destruct (Hk id w1 Hm) as [Ho2 (l & Hl & HF)]. unfold run_st in *.
    split; [intros s Hne; by rewrite Ho2, Ho|]. exists l. rewrite Hl, Hs. split; [done|].
    eapply Forall_impl; [exact HF|]. intros q Hq. right. exists id. by split; [left|].
  - split; [done|]. by apply sends_same.
Qed.

Lemma destroy_effect (allowed : string → Prop) session_id w :
  session_effect settings allowed False session_id w (run_st (destroy_sandbox settings session_id) w).
Proof.
  apply resolve_session_effect. intros id w1 _.
  pose proof (uses_in_tool _ "destroy_sandbox" _ (uses_delete settings allowed id) w1) as [Hsame Hsent].
  unfold run_st, try_, mbind, M_bind in *.
  destruct (in_tool "destroy_sandbox" (client_delete_sandbox settings id) w1) as [[[]|e] w2]; simpl in *.
  - unfold session_remove, get_sessions, set_sessions, mbind, M_bind. simpl.
    split; [|done]. intros s Hne. by rewrite lookup_delete_ne, Hsame.
  - split; [by rewrite Hsame|done].
Qed.

Lemma get_sandbox_effect (allowed : string → Prop) session_id w :
  session_effect settings allowed False session_id w (run_st (get_sandbox settings session_id) w).
Proof.
  apply resolve_session_effect. intros id w1 _.
  assert (uses (on_behalf settings allowed id)
            (let* sandbox := in_tool "get_sandbox" (client_get_sandbox settings id) in
             mret (answer (sandbox_fields sandbox ++ [("session_id", JString session_id);
                                     ("updated_at", JString (ms_updated_at sandbox))])))) as Hu.
  { apply uses_try; [|intros; apply uses_ret]. apply uses_in_tool, uses_get. }
  destruct (Hu w1) as [Hsame Hsent]. split; [|done]. intros s _. by rewrite Hsame.
Qed.

Lemma running_sandbox_effect (allowed : string → Prop) session_id w :
  let w1 := run_st (running_sandbox settings session_id) w in
  (∀ s, s ≠ session_id → mc_sessions w1 !! s = mc_sessions w !! s) ∧
  mapped w1 session_id = mapped w session_id ∧
  sends (λ r, ∃ id, mapped w session_id = Some id ∧ on_behalf settings allowed id r) w w1.
Proof.
  unfold running_sandbox, run_st, mbind, M_bind.
  pose proof (session_get_effect session_id w) as Hget.
  destruct (session_get session_id w) as [r w1]. destruct Hget as (-> & Hm & Ho & Hs).
  destruct (mapped w session_id) as [id|] eqn:Hw; simpl; [|by split_and!; [|done|apply sends_same]].
  destruct (uses_get settings allowed id w1) as [Hsame (l & Hl & HF)]. unfold run_st in *.
  destruct (client_get_sandbox settings id w1) as [r w2]. simpl in *.
  split_and!; [intros s Hne; by rewrite Hsame, Ho|unfold mapped in *; by rewrite Hsame|].
  exists l. rewrite Hl, Hs. split; [done|]. eapply Forall_impl; [exact HF|]. eauto.
Qed.

Lemma create_effect (allowed : string → Prop) a w :
  session_effect settings allowed True (csa_session_id a) w (run_st (create_sandbox settings a) w).
Proof.
  unfold create_sandbox, run_st, mbind, M_bind.
  pose proof (running_sandbox_effect allowed (csa_session_id a) w) as Hrun. unfold run_st in Hrun.
  destruct (running_sandbox settings (csa_session_id a) w) as [existing w1].
  destruct Hrun as (Ho & Hm & l & Hl & HF). simpl in *.
  assert (∀ w' l', mc_sent w' = mc_sent w1 ++ l' →
    Forall (λ r, creation settings r ∧ requested_url r = None) l' →
    sends (λ r, creation settings r ∧ requested_url r = None ∧ (mapped w (csa_session_id a) = None ∨ True) ∨
      ∃ id, (mapped w (csa_session_id a) = Some id ∨ mapped w' (csa_session_id a) = Some id) ∧
            on_behalf settings allowed id r) w w') as Hsends.
  { intros w' l' Hl' HF'. exists (l ++ l'). rewrite Hl', Hl, app_assoc. split; [done|].
    apply Forall_app. split; [eapply Forall_impl; [exact HF|]|eapply Forall_impl; [exact HF'|]].
    - intros r (id & ? & ?). right. eauto.
    - intros r []. left. auto. }
  destruct existing as [sandbox|]; simpl.
  - split; [done|]. apply (Hsends w1 []); [by rewrite app_nil_r|done].
  - pose proof (uses_in_tool _ "create_sandbox" _ (uses_create settings (create_config settings a)) w1)
      as [Hsame (l' & Hl' & HF')].
    unfold run_st, try_, mbind, M_bind in *.
    destruct (in_tool "create_sandbox" (create_sandbox_full settings (create_config settings a)) w1)
      as [[sandbox|e] w2]; simpl in *.
    + pose proof (session_set_effect (csa_session_id a) (ms_id sandbox) w2) as Hset.
      destruct (session_set (csa_session_id a) (ms_id sandbox) w2) as [[] w3].
      destruct Hset as (_ & Ho3 & Hs3). simpl.
      split; [intros s Hne; by rewrite Ho3, Hsame, Ho|]. apply (Hsends w3 l'); [by rewrite Hs3|done].
    + split; [intros s Hne; by rewrite Hsame, Ho|]. by apply (Hsends w2 l').
Qed.

(** The session that a call names. *)
Definition session_of (c : ToolCall) : option string :=
  match c with
  | CreateSandbox a => Some (csa_session_id a)
  | ExecuteCommand a => Some (eca_session_id a)
  | WebFetch a => Some (wfa_session_id a)
  | DestroySandbox s | GetSandbox s | FileUpload s _ _ | FileDownload s _ | GetStaticFileUrl s _
  | ListStaticFiles s | BrowserNavigate s _ | BrowserGetClickableElements s | BrowserClick s _ _
  | BrowserFill s _ _ _ | BrowserScroll s _ | BrowserScreenshot s _ _ _ | BrowserNewTab s _
  | BrowserTabList s | BrowserSwitchTab s _ | BrowserHealthCheck s | BrowserGoBack s
  | BrowserGoForward s | BrowserEvaluate s _ | BrowserClose s | TerminalConnect s
  | TerminalExecute s _ | TerminalResize s _ _ => Some s
  | WebSearch _ | GetSystemTime | SearchForKnowledge _ _ | SearchForPartnerName _ _ => None
  end.

Definition makes_sandbox (c : ToolCall) : Prop :=
  match c with CreateSandbox _ => True | _ => False end.

(** The URLs that a call may have a script open: those that pass the guard, and
    what a new tab is given. *)
Definition may_open (c : ToolCall) (u : string) : Prop :=
  validate_url_secure u = Ok () ∨ match c with BrowserNewTab _ (Some url) => u = url | _ => False end.

(** A new tab on the sandbox of a session is asked for with the URL given. *)
Lemma new_tab_sends s id url w :
  mapped w s = Some id →
  ∃ r, mc_sent (run_st (browser_new_tab settings s (Some url)) w) = mc_sent w ++ [r] ∧
       concerns settings id r ∧ requested_url r = Some url.
Proof.
  intros Hm.
  assert (asks (λ r, concerns settings id r ∧ requested_url r = Some url)
            (let* result := in_tool "browser_new_tab"
                              (tabs settings (uuid_to_string id) "new" None (Some url)) in
             mret (browser_answer settings (JString result)))) as Hk.
  { apply asks_try; [|intros; apply uses_ret]. apply asks_bind; [|intros; apply uses_ret].
    apply asks_try; [|intros; apply uses_ret].
    unfold call_browser_tool, parse_sandbox_id. rewrite uuid_read_back.
    apply (asks_bind _ (client_execute_tool _ _ _ _ _ _ _)); [|intros; apply uses_ret].
    apply asks_bind; [|intros; apply uses_ret]. by apply asks_ask; split; [apply concerns_path|]. }
  unfold browser_new_tab, browser_tool, on_sandbox, resolve_or_create_session, run_st, try_ at 1,
    mbind at 1, M_bind at 1, mbind at 1, M_bind at 1.
  pose proof (resolve_or_create_effect settings s w) as Hr.
  destruct (resolve_or_create settings s w) as [r w1]. destruct Hr as [_ Hr]. rewrite Hm in Hr.
  destruct Hr as (-> & _ & <-). apply Hk.
Qed.

Lemma call_tool_effect c w :
  match session_of c with
  | Some s => session_effect settings (may_open c) (makes_sandbox c) s w
                (run_st (call_tool settings log_info c) w)
  | None => mc_sessions (run_st (call_tool settings log_info c) w) = mc_sessions w ∧
            sends outside w (run_st (call_tool settings log_info c) w)
  end.
Proof.
  destruct c; cbn [session_of call_tool makes_sandbox];
    unfold browser_get_clickable_elements, browser_click, browser_fill, browser_scroll,
      browser_screenshot, browser_new_tab, browser_tab_list, browser_switch_tab,
      browser_health_check, browser_go_back, browser_go_forward, browser_evaluate, browser_close;
    lazymatch goal with
    | |- session_effect _ _ _ _ _ (run_st (browser_tool _ _ _ _) _) =>
        apply browser_tool_effect; intros id
    | |- session_effect _ _ _ _ _ (run_st (browser_raw_tool _ _ _) _) =>
        apply browser_raw_tool_effect
    | |- _ => idtac
    end.
  - apply create_effect.
  - apply destroy_effect.
  - apply get_sandbox_effect.
  - apply refused_effect. intros _ _. apply on_sandbox_effect. intros id. acts. apply uses_exec.
  - apply on_sandbox_effect. intros id. acts. apply uses_upload.
  - apply on_sandbox_effect. intros id. acts. apply uses_download.
  - apply on_sandbox_effect. intros id. apply uses_ret.
  - apply on_sandbox_effect. intros id. acts. apply uses_static_files.
  - apply web_fetch_effect. by left.
  - apply uses_bind; [apply uses_search_web|intros; apply uses_ret].
  - unfold browser_navigate. destruct (validate_url_secure url) as [[]|e] eqn:Hv; [|apply same_effect].
    apply (browser_tool_effect _ _ "browser_navigate"). intros id. apply uses_navigate. by left.
  - browse.
  - apply uses_click.
  - apply uses_fill.
  - browse.
  - apply uses_screenshot.
  - apply uses_tabs. intros u ->. by right.
  - by apply uses_tabs.
  - by apply uses_tabs.
  - browse.
  - browse.
  - browse.
  - apply on_sandbox_effect. intros id. apply uses_ret.
  - apply refused_effect. intros _ _. apply on_sandbox_effect. intros id. acts. apply uses_exec.
  - apply on_sandbox_effect. intros id. apply uses_ret.
  - apply uses_bind; [apply uses_env|]. intros []. apply uses_ret.
  - apply uses_bind; [apply uses_retrieve|intros; apply uses_ret].
  - apply uses_bind; [apply uses_retrieve|intros; apply uses_ret].
Qed.

(** C31: A tool acts on the sandbox of its session only.  Whatever the API
    answers, a call leaves the sandboxes of all other sessions as they are; what
    it sends with the API key asks for a new sandbox, when the session has none
    or the call is [create_sandbox], or is about the sandbox that the session
    was mapped to before the call or is mapped to after it.  A tool without a
    session changes no mapping and sends nothing with the key. *)
Theorem tools_confined c w :
  let w' := run_st (call_tool settings log_info c) w in
  match session_of c with
  | Some s =>
      (∀ s', s' ≠ s → mc_sessions w' !! s' = mc_sessions w !! s') ∧
      sends (λ r, creation settings r ∧ (mapped w s = None ∨ makes_sandbox c) ∨
                  ∃ id, (mapped w s = Some id ∨ mapped w' s = Some id) ∧ concerns settings id r) w w'
  | None => mc_sessions w' = mc_sessions w ∧ sends (λ r, mr_api_key r = None) w w'
  end.
Proof.
  cbv zeta. pose proof (call_tool_effect c w) as He. destruct (session_of c) as [s|].
  - destruct He as [Ho Hs]. split; [done|]. eapply sends_mono; [|exact Hs].
    intros r [(? & _ & ?)|(id & ? & ? & _)]; [by left|right; eauto].
  - destruct He as [Ho Hs]. split; [done|]. eapply sends_mono; [|exact Hs]. by intros r [].
Qed.

End effects.

Module Witnesses.
Import McpDemo.

(** The session "a" has the sandbox 3, and the session "b" none. *)
Definition two_sessions (answers : Outside) : @Mcp Outside :=
  mkMcp answers {[ "a" := (3%N, 0) ]} [].

Definition urls (w : @Mcp Outside) : list string := mr_url <$> mc_sent w.

Example sessions_apart :
  let w := run_st (call_tool Settings_default true (TerminalExecute "b" "ls"))
             (two_sessions [answered "12345"; answered "out"]) in
  urls w = ["http://localhost:8080/sandboxes"; "http://localhost:8080/sandboxes/xxxxx/exec"] ∧
  mapped w "a" = Some 3%N ∧ mapped w "b" = Some 5%N.
Proof. vm_compute. done. Qed.

(** Making a sandbox for a session whose sandbox does not run forgets the old
    one, which stays. *)
Example forgotten_sandbox :
  let w := run_st (create_sandbox Settings_default (mkCreateSandboxArgs "a" None None None None None None))
             (two_sessions [Err "unreachable"; answered "12345"]) in
  urls w = ["http://localhost:8080/sandboxes/xxx"; "http://localhost:8080/sandboxes"] ∧
  mapped w "a" = Some 5%N.
Proof. vm_compute. done. Qed.

Example quoted_command :
  build_shell_command "ls" (Some "a'b") (Some [("K", "v'w")])
  = ["sh"; "-c"; "export K='v'\''w'; cd 'a'\''b' && ls"].
Proof. vm_compute. done. Qed.

Lemma tools_confined_witness :
  UuidLaws ∧
  let w := two_sessions [answered "out"] in
  let w' := run_st (call_tool Settings_default true (TerminalExecute "a" "ls")) w in
  mc_sessions w' !! "b" = None ∧ urls w' = ["http://localhost:8080/sandboxes/xxx/exec"].
Proof.
  split; [exact uuids_laws|].
  destruct (tools_confined Settings_default true (TerminalExecute "a" "ls")
              (two_sessions [answered "out"])) as [Ho _].
  split; [by rewrite Ho|]. vm_compute. reflexivity.
Defined.

End Witnesses.
